(* ===== verification/_CoqProject ===== *)
-Q . S2P
Prelude.v
Task.v
Protocol.v
Deframer.v
Hal.v
I2c.v
Charger.v
Tps.v
InputPd.v
PdSource.v
Ch32xLink.v
Ch32xTelemetry.v
Ch32xNode.v
PowerStatus.v
PacketGuard.v
DispatchQueue.v
MqttHealth.v
CmdAuth.v
EspDispatch.v
EspLink.v
AtText.v
ModemRadio.v
ModemAwake.v
FwOtaHttp.v
ModemLine.v
Sha256.v
Fips180.v
FwXfer.v
FwUpdate.v
FwInstall.v
FwOtaSlot.v
FwOta.v
FwOtaTasks.v
FwReceive.v
FwRelay.v
FwDownload.v
Router.v
UiSettings.v
TrustUi.v
LocalMenu.v
HubDispatch.v
HubCommands.v
HubScreens.v
HubLoop.v
HubPasses.v
HubTelemetry.v
Rlp.v
Brotli.v
Secp256k1.v
Aead.v
ArkivTx.v
ArkivAuth.v
ArkivWriter.v
ArkivAck.v
ArkivSweep.v
Bip39.v
ArkivClaim.v
BackendMode.v
OledMenu.v
