(* ===== verification/Prelude.v ===== *)
(** * Web3 Pi UPS firmware: a verification library

    The UPS board carries three processors on one serial bus, the WUPS bus: a
    CH32X035 that runs the power path (charger, output converter, USB-PD source
    and input sink), an RP2040 that routes frames and drives the display, and an
    ESP32 that connects the board to a backend over LTE.  The library models the
    C firmware of the CH32X (src/firmware-ch32x/User), of the ESP32
    (src/firmware-ESP32-LTE-M/main), the C++ firmware of the RP2040
    (src/firmware-rp2040/src) and the protocol header they share
    (src/common/protocol.h).  A comment [src: file:first-last symbol] in front of
    a definition names the lines below src/ that it translates.

    ** How the code is modelled

    A C integer is a [Z]; every conversion and wrap-around of the source is
    written with [u8], [u16], [u32], [u64], [s8], [s16] or [s32].  A struct is a
    [Record] updated with [s <| f := v |>], an enum an [Inductive].  A handler is a
    function from the state and its inputs to the new state and the list of its
    effects (bytes written, register writes, calls of other modules) in program
    order.  What lies outside the source is an argument: the clock and the
    hardware are inputs of each step, the UART transmitter is the class
    [Ch32xLink.Uart], the PD PHY is [PdSource.Phy], the cryptographic library is
    [CmdAuth.Crypto], the AT channel is [ModemRadio.At], the file system of the
    RP2040 is [FwUpdate.LittleFS] and its EEPROM [UiSettings.Eeprom], the flash
    and image functions of the ESP32's SDK are [FwOta.OtaSdk], its HTTPS client is
    [FwDownload.HttpsOta], and the world around its relay [FwRelay.RelayWorld]; the
    curve is [Secp256k1.MicroEcc], keccak [Secp256k1.Keccak] and AES-GCM [Aead.Gcm].
    Each class has laws that say what the code relies on, and an instance that
    satisfies them.  Calls that may fail do so in the models: flash reads and
    writes, file operations and SDK calls return what an input or the class says,
    and a theorem that needs one to succeed has it as a hypothesis and says so.
    Interrupts and tasks are interleaved as steps: in [PdSource] and [Ch32xNode]
    the interrupts run between whole calls and between the passes of the main
    loop, and what they change during a pass is an input of the pass; the MQTT
    modules are step relations over their public operations, which the source
    serialises with a lock; the handlers around the update slot of the ESP32 are
    taken apart at every access to its flags ([FwOtaTasks]).

    ** Files

    - [Prelude]: machine integers, record update, little-endian bytes, automation
      ([to_prop], [split_ifs], the hint database [ups]), runs of transducers.
    - [Protocol]: protocol.h: constants, Fletcher-8, frames, payload structures.
    - [Deframer]: wups_rx_byte and wups_send_frame of main.c (CH32X).  Soundness,
      round trip, recovery after any garbage, memory safety.
    - [Hal]: registers and pins shared by the CH32X drivers.
    - [I2c]: i2c_lib.c, the bit-banged master, against a decoder of the bus lines.
    - [Charger]: mp2762a.c.  [Tps]: tps55289.c, its set-points in IEEE binary32 and
      binary64.  [InputPd]: husb238.c.
    - [PdSource]: PD_Process.c, attach detection, transmission with retries, the
      policy states and the receive interrupt; the rail follows the contract.
    - [Ch32xLink], [Ch32xTelemetry], [Ch32xNode]: main.c: the byte sender with its
      self-heal, the timer interrupt and ADC ownership, power.status and
      power.event, command handling, the receive ring and the main loop.
    - [PowerStatus]: power_status_decode.h, the ESP32's decoder of power.status.
    - [PacketGuard]: mqtt_packet_guard.c, MQTT packet identifiers and the probe.
    - [DispatchQueue]: mqtt_dispatch_queue.c, with an abstract queue it refines.
    - [MqttHealth]: mqtt_health.c, the schedule of probes and the link states.
    - [CmdAuth]: cmdauth.c, the signed envelope and the persistent replay floor.
    - [EspDispatch]: wups_link.c: senders, recognition of frames, net.publish,
      net.config, the trust prompt, system.reset and the MQTT downlink.
    - [EspLink]: wups_link.c: the deframer with its counters, the receive task
      with its watchdog, initialisation.
    - [AtText], [ModemRadio], [ModemAwake], [ModemLine]: the text helpers of the
      modem policies, modem_radio_policy.c, modem_awake_policy.c, and the parsers
      of modem_recovery.c, modem_signal.c and modem_uart_baud.c with the
      registration grace.
    - [FwOtaHttp]: fw_ota_http_policy.c, which responses may continue an image.
    - [Sha256]: sha256.cpp.  [Fips180]: the hash of FIPS 180-4, written from the
      standard with nothing of the code's, which the code computes.
    - [FwXfer]: the contract of net.fw_xfer between a sender and a receiver, the
      interface that both receivers implement.
    - [FwUpdate], [FwInstall]: fw_update.cpp, the receiver of the RP2040, and what
      it installs; [FwInstall] discharges [FwXfer] for it.
    - [FwOtaSlot], [FwOta], [FwOtaTasks], [FwReceive], [FwDownload], [FwRelay]:
      fw_ota.c: the flags of the update slot, requests and the ESP32's own
      receiver, the tasks around the slot with every interleaving of their
      accesses, what the receiver boots (with its instance of [FwXfer]), the
      resumable download task, and the relay that forwards an image to the RP2040,
      proved against [FwXfer].  [Task]: tasks that end with goto fail, and their
      triples.
    - [Router]: wups_router.cpp, one deframer per port, routing, senders, drain.
    - [UiSettings], [TrustUi], [LocalMenu]: ui_settings.cpp, trust_ui.cpp and
      local_menu.cpp: the settings record, the screen of prompts, the local menu.
    - [HubDispatch], [HubCommands]: main.cpp of the RP2040, the local handler of
      the router, and a command's way through ESP32, hub and power controller.
    - [HubScreens], [HubLoop], [HubPasses], [HubTelemetry]: main.cpp: what the
      screens, banners and notices draw, one pass of loop() with its owners of
      the display, alarms and recovery ladder, what a pass may do, and the
      throttle of the telemetry over LTE.
    - [Rlp], [Brotli], [Secp256k1], [Aead], [ArkivTx]: components/arkiv_crypto:
      rlp.cpp, brotli_store.cpp, secp256k1.c (HMAC, RFC 6979, recoverable ECDSA),
      aead.c (HKDF, the key schedule, sealed bodies), ops_tx_data.cpp and
      tx_signer.cpp, with readers of the formats.
    - [ArkivAuth], [ArkivWriter], [ArkivAck], [ArkivSweep], [ArkivClaim]:
      cmdauth_arkiv.c, arkiv_writer.cpp, arkiv_ack.c, arkiv_rpc.c (the sweep) and
      arkiv_claim.c: the owner and the commands of the chain, the entities the
      device writes, the acknowledgements, the ingress of commands, the binding.
      [Bip39]: bip39.c, the words of the claim code.
    - [BackendMode], [OledMenu]: backend_mode.c, the switch between backends and
      its announcement, and oled_menu.c, the system menu of the ESP32.

    ** What the theorems show

    Wire: both deframers deliver only well-formed frames that are on the wire,
    deliver every frame that is sent, and recover from any input; they are the
    same machine ([EspLink.esp_deframer_equiv]); every sender produces
    [Protocol.frame_bytes] and one guard byte.  The checksum detects any change
    of one byte.  Power: converter codes are the exact set-points, the battery
    presence filter is a debouncer, the sink picks the contract its policy
    says, the PD source keeps its invariant and never drives more than the
    contract, a power cycle ends.  Node: each request is answered once, the ring
    is drained in order, events alternate and are spaced.  Commands: an envelope
    is accepted exactly when it is well formed, of this epoch, fresh, unexpired
    and signed; no counter is accepted twice over any sequence of commands and
    reboots whose flash takes and gives back the counter; what leaves the ESP32 towards the bus
    came out of such an envelope.  Link: the receive watchdog restarts the
    processor only after six rungs without an addressed frame (or when the driver
    cannot be set up again), and a dead link is reinstalled within 95 seconds.  Publications: the queue refines its
    specification, loses nothing silently, serves its classes fairly; packet
    identifiers in flight are distinct; a proof of the link is never older than
    its bound.  Modem: both policies fail closed, and bring a conforming modem
    to the required settings.  Download: a resumed body starts exactly at the
    offset written and ends with the image; what the ESP32 boots and what the
    RP2040 arms is the image whose digest was commanded, over any sequence of
    requests, time-outs and restarts; a clean transfer is installed, an update that
    is never confirmed is rolled back, and the relay installs its image in spite of
    lost requests and answers or ends with an error; no two updates hold the slot,
    and none is started on an image that is not confirmed.  Hub: every frame goes to
    exactly the ports the rules name, unchanged, and never back; an idle port
    forgets a cut frame; a panel's command reaches the power controller and its
    acknowledgement the backend.  Screen: a prompt is confirmed only by a physical
    hold of both buttons for the time asked, a fingerprint is shown in full, the
    output is cut only after a deliberate sequence of presses, settings survive a
    restart, and no text writes outside the line table; a pass of the loop leaves
    the display to its owner, and the ESP32's menu does only what the page it sent
    last offers.  Chain: an on-chain command is the owner's, fresh and executed
    once, oldest first; an owner is bound only by a claim that carries the code
    shown, signed by its key and confirmed at the device; nonces are not repeated,
    a queued entity is not sent twice, and what the device signs and seals is read
    back by independent readers.  Where the code does less than this, an example
    or a theorem next to the property shows it ([CmdAuth.unread_counter_replays],
    [ArkivWriter.unreadable_bound_repeats], [ArkivAuth.rebound_owner_replays],
    [ArkivSweep.late_creation_hides_a_command],
    [PdSource.disable_before_accept_restarts_converter], ...).

    ** Bounds and fuel

    Loops that consume a list are structural.  [AtText.lines] has the length of
    the text as fuel, and [AtText.lines_eq] is its defining equation without
    fuel; [ModemLine.cereg_loop] and [ModemLine.cpsi_loop] take one more than the
    length of the text and each turn consumes a byte;
    [ModemRadio.take_bands] takes one more than the length of the list and each
    turn consumes a digit ([ModemRadio.take_bands_ok] gives the result).
    [FwUpdate.hash_stage], [FwUpdate.accumulate] and [FwUpdate.snapshot_loop] take
    the length they consume, and their specifications have no other premise on it.
    [FwOta.read_back] takes the number of blocks of the image.  The loops of
    [FwRelay] and [FwDownload] are bounded by the time-outs of the source in
    microseconds, with a clock that advances at every turn
    ([FwRelay.relay_ends_cleanly]).  A frame unwrapped from net.downlink is routed
    again at most [Router.NESTING] times, which the length of a frame makes enough
    ([HubCommands.route_fuel]).  [Rlp.decode] takes the size of the tree,
    [Brotli.store_chunks] and [Brotli.read_blocks] the length of their input,
    [Aead.hkdf_expand] the 255 blocks of the standard, [ArkivWriter.job_loop] the
    three attempts of the source ([ArkivWriter.job_sent_safely] excludes that it
    runs out), and the decimal printers the 20 digits of 64 bits.  Busy
    waits of the CH32X are bounded in the source, and those bounds are kept.

    ** Not modelled

    The MQTT client, the OTA and HTTPS client, the ECC library and the CH32X
    peripheral library are third-party code.  On the CH32X: clock, GPIO mode, ADC
    and DMA set-up.  On the RP2040: the set-up of pins, UARTs and I2C; the OLED
    calls are lists of items.  On the ESP32: the entities of arkiv_tlm.c and
    arkiv_event.c, the HTTP and web-socket client of arkiv_rpc.c and arkiv_ws.c,
    http_backend.c, http_cfg.c, mqtt.c (the tasks that drive the queue), modem.c,
    pmu.c and the rate migration of modem_uart_baud.c.  Log output is left out of
    the ESP32 models, as is the uart_param_config set-up of the link.  Of
    net.status and host.status only the sizes are used. *)

From stdpp Require Export prelude list gmap strings relations.
From Stdlib Require Export ZArith Lia.

#[export] Set Default Proof Using "Type".
Global Open Scope Z_scope.

(** ** Machine integers

    A C integer of width [w] is a [Z] together with the wrap-around that its
    conversions perform; the definitions below are those conversions. *)

Definition u8 (z : Z) : Z := z mod 256.
Definition u16 (z : Z) : Z := z mod 65536.
Definition u32 (z : Z) : Z := z mod 4294967296.
Definition u64 (z : Z) : Z := z mod 18446744073709551616.
(** Conversion to a signed type reduces modulo [2^w] into [[-2^(w-1), 2^(w-1))]. *)
Definition s8 (z : Z) : Z := (z + 128) mod 256 - 128.
Definition s16 (z : Z) : Z := (z + 32768) mod 65536 - 32768.
Definition s32 (z : Z) : Z := (z + 2147483648) mod 4294967296 - 2147483648.

Abbreviation is_u8 z := (0 <= z < 256) (only parsing).
Abbreviation is_u16 z := (0 <= z < 65536) (only parsing).
Abbreviation is_u32 z := (0 <= z < 4294967296) (only parsing).
Abbreviation is_u64 z := (0 <= z < 18446744073709551616) (only parsing).
Abbreviation is_s16 z := (-32768 <= z < 32768) (only parsing).

Definition UINT64_MAX : Z := 18446744073709551615.
Definition UINT32_MAX : Z := 4294967295.
Definition UINT16_MAX : Z := 65535.

(** C's [_Bool] as an integer, and [x & m] used as a condition. *)
Definition b2z (b : bool) : Z := if b then 1 else 0.
Definition has (x m : Z) : bool := negb (Z.land x m =? 0).

#[global] Arguments u8 : simpl never.
#[global] Arguments u16 : simpl never.
#[global] Arguments u32 : simpl never.
#[global] Arguments u64 : simpl never.
#[global] Arguments s8 : simpl never.
#[global] Arguments s16 : simpl never.
#[global] Arguments s32 : simpl never.
#[global] Arguments has : simpl never.

Create HintDb ups.
Create Rewrite HintDb ups.

Section MachineIntegers.
Lemma u8_range z : is_u8 (u8 z).
Proof. unfold u8; apply Z.mod_pos_bound; lia. Qed.
Lemma u16_range z : is_u16 (u16 z).
Proof. unfold u16; apply Z.mod_pos_bound; lia. Qed.
Lemma u32_range z : is_u32 (u32 z).
Proof. unfold u32; apply Z.mod_pos_bound; lia. Qed.
Lemma u64_range z : is_u64 (u64 z).
Proof. unfold u64; apply Z.mod_pos_bound; lia. Qed.
Lemma s16_range z : is_s16 (s16 z).
Proof. unfold s16; pose proof (Z.mod_pos_bound (z + 32768) 65536); lia. Qed.
Lemma u8_small z : is_u8 z -> u8 z = z.
Proof. apply Z.mod_small. Qed.
Lemma u16_small z : is_u16 z -> u16 z = z.
Proof. apply Z.mod_small. Qed.
Lemma u32_small z : is_u32 z -> u32 z = z.
Proof. apply Z.mod_small. Qed.
Lemma u64_small z : is_u64 z -> u64 z = z.
Proof. apply Z.mod_small. Qed.
Lemma s16_small z : is_s16 z -> s16 z = z.
Proof. intros; unfold s16; rewrite Z.mod_small by lia; lia. Qed.
(** Reading back a signed 16-bit field written through an unsigned one. *)
Lemma s16_u16 z : is_s16 z -> s16 (u16 z) = z.
Proof.
  intros; unfold s16, u16; destruct (decide (0 <= z)).
  - rewrite (Z.mod_small z) by lia; rewrite Z.mod_small by lia; lia.
  - replace z with (z + 65536 + (-1) * 65536) at 1 by lia.
    rewrite Z_mod_plus_full, (Z.mod_small (z + 65536)) by lia.
    replace (z + 65536 + 32768) with (z + 32768 + 1 * 65536) by lia.
    rewrite Z_mod_plus_full, Z.mod_small by lia; lia.
Qed.
(** Addition modulo [2^8] commutes with the reduction of its operands. *)
Lemma u8_add_l a b : u8 (u8 a + b) = u8 (a + b).
Proof. unfold u8; apply Zplus_mod_idemp_l. Qed.
Lemma u8_add_r a b : u8 (a + u8 b) = u8 (a + b).
Proof. unfold u8; apply Zplus_mod_idemp_r. Qed.
(** Masking with an 8-bit constant yields a byte, whatever the other side. *)
Lemma land_u8_bound a m : 0 <= m < 256 -> is_u8 (Z.land a m).
Proof.
  intros Hm.
  assert (Z.land a m = Z.land (a mod 256) m) as ->.
  { change 256 with (2 ^ 8); rewrite <- Z.land_ones, <- Z.land_assoc by lia; f_equal.
    rewrite Z.land_comm, Z.land_ones by lia; symmetry; apply Z.mod_small; lia. }
  pose proof (Z.mod_pos_bound a 256 ltac:(lia)).
  assert (0 <= Z.land (a mod 256) m) by (apply Z.land_nonneg; lia).
  split; [done|]; destruct (decide (Z.land (a mod 256) m = 0)); [lia|].
  apply Z.log2_lt_cancel.
  pose proof (Z.log2_land (a mod 256) m ltac:(lia) ltac:(lia)).
  pose proof (Z.log2_le_mono m 255 ltac:(lia)); change (Z.log2 255) with 7 in *.
  change (Z.log2 256) with 8; lia.
Qed.

(** Placing [b] above the low [k] bits of [a], as multi-byte readers do. *)
Lemma lor_shiftl a b k : 0 <= k -> 0 <= a < 2 ^ k -> Z.lor a (Z.shiftl b k) = a + b * 2 ^ k.
Proof.
  intros Hk Ha; rewrite Z.shiftl_mul_pow2 by done; rewrite <- Z.add_nocarry_lor; [done|].
  apply Z.bits_inj'; intros n Hn; rewrite Z.land_spec, Z.bits_0.
  destruct (Z.ltb_spec n k); [rewrite Z.mul_pow2_bits_low, andb_false_r by lia; done|].
  assert (Z.testbit a n = false) as ->; [|done].
  destruct (decide (a = 0)) as [->|]; [apply Z.bits_0|].
  apply Z.bits_above_log2; [lia|]; pose proof (Z.log2_lt_pow2 a k ltac:(lia)); lia.
Qed.

(** [x & (uint16_t)~x] is zero. *)
Lemma land_lnot_u16 x : is_u16 x -> Z.land x (u16 (Z.lnot x)) = 0.
Proof.
  intros Hx; unfold u16; change 65536 with (2 ^ 16); rewrite <- Z.land_ones by lia.
  rewrite Z.land_assoc, Z.land_lnot_diag; apply Z.land_0_l.
Qed.
End MachineIntegers.

#[export] Hint Resolve u8_range u16_range u32_range u64_range s16_range : ups.
#[export] Hint Rewrite u8_add_l u8_add_r : ups.

(** ** Record update

    [s <| f := v |>] is the C assignment [s.f = v].  A record opts in with an
    [Eta] instance that rebuilds it from its projections; the setter of a
    projection is then found by type class search. *)

Class Eta (R : Type) := eta : R -> R.
Class Upd {R T : Type} (proj : R -> T) := upd : (T -> T) -> R -> R.

Ltac build_upd :=
  lazymatch goal with
  | |- @Upd ?R ?T ?p =>
      let e := constr:(_ : Eta R) in
      let f := fresh "f" in
      let r := fresh "r" in
      intros f r;
      let body := eval cbv beta delta [eta] in (@eta R e r) in
      let body := eval hnf in body in
      let pr := eval cbv beta in (p r) in
      lazymatch eval pattern pr in body with
      | ?h _ => let t := eval cbv beta in (h (f pr)) in exact t
      end
  end.
#[export] Hint Extern 1 (Upd _) => build_upd : typeclass_instances.

Notation "x '<|' p ':=' v '|>'" := (upd (proj := p) (fun _ => v) x)
  (at level 12, left associativity, p at level 99, v at level 200,
   format "x  '<|'  p  ':='  v  '|>'").

(** ** Bytes of packed little-endian structures *)

Fixpoint le_bytes (n : nat) (z : Z) : list Z :=
  match n with
  | O => []
  | S n => u8 z :: le_bytes n (z / 256)
  end.

Fixpoint le_val (l : list Z) : Z :=
  match l with
  | [] => 0
  | b :: l => b + 256 * le_val l
  end.

Abbreviation le16 := (le_bytes 2).
Abbreviation le32 := (le_bytes 4).
(** The bytes of a memory region at a byte offset, as [memcpy] sees them. *)
Definition field (off n : nat) (l : list Z) : list Z := take n (drop off l).

(** [buf[i]], where the code has checked the length. *)
Definition byte_at (buf : list Z) (i : nat) : Z := nth i buf 0.

(** ASCII text as the bytes of a C string. *)
Definition ascii_code (c : Ascii.ascii) : Z := Z.of_N (Ascii.N_of_ascii c).
Definition str (s : string) : list Z := map ascii_code (String.list_ascii_of_string s).

(** The string a NUL-terminated array holds. *)
Fixpoint cstr (l : list Z) : list Z :=
  match l with
  | [] => []
  | c :: l => if c =? 0 then [] else c :: cstr l
  end.

Definition all_u8 (l : list Z) : Prop := Forall (fun z => is_u8 z) l.

Section Bytes.
Lemma length_le_bytes n z : length (le_bytes n z) = n.
Proof. revert z; induction n; intros; cbn; auto. Qed.

Lemma le_val_le_bytes n z : le_val (le_bytes n z) = z mod 256 ^ Z.of_nat n.
Proof.
  revert z; induction n as [|n IH]; intros z; cbn [le_bytes le_val].
  - rewrite Z.mod_1_r; done.
  - rewrite IH, Nat2Z.inj_succ, Z.pow_succ_r, Z.rem_mul_r by lia; done.
Qed.

Lemma le_bytes_u8 n z : all_u8 (le_bytes n z).
Proof. revert z; induction n as [|n IH]; intros z; constructor; [apply u8_range|apply IH]. Qed.

Lemma le16_val z : is_u16 z -> le_val (le16 z) = z.
Proof. intros; rewrite le_val_le_bytes; apply Z.mod_small; done. Qed.
Lemma le32_val z : is_u32 z -> le_val (le32 z) = z.
Proof. intros; rewrite le_val_le_bytes; apply Z.mod_small; done. Qed.

Lemma all_u8_app l1 l2 : all_u8 (l1 ++ l2) <-> all_u8 l1 /\ all_u8 l2.
Proof. apply Forall_app. Qed.
Lemma all_u8_take n l : all_u8 l -> all_u8 (take n l).
Proof. apply Forall_take. Qed.
Lemma all_u8_lookup l i x : all_u8 l -> l !! i = Some x -> is_u8 x.
Proof. intros H; exact (Forall_lookup_1 _ _ _ _ H). Qed.

(** Reading then writing back: the bytes are recovered. *)
Lemma le_bytes_le_val l : all_u8 l -> le_bytes (length l) (le_val l) = l.
Proof.
  induction l as [|b l IH]; intros Hl; [done|]; inversion_clear Hl as [|? ? Hb Hl'].
  cbn [length le_bytes le_val]; unfold u8; f_equal.
  - symmetry; apply Z.mod_unique with (le_val l); lia.
  - replace ((b + 256 * le_val l) / 256) with (le_val l) by (apply Z.div_unique with b; lia); auto.
Qed.
Lemma le_val_range l : all_u8 l -> 0 <= le_val l < 256 ^ Z.of_nat (length l).
Proof.
  induction 1 as [|b l Hb _ IH]; cbn [length le_val]; [cbn; lia|].
  rewrite Nat2Z.inj_succ, Z.pow_succ_r by lia; lia.
Qed.

Lemma all_u8_byte_at l : all_u8 l -> forall i, is_u8 (byte_at l i).
Proof.
  intros Hl i; unfold byte_at; destruct (decide (i < length l)%nat) as [Hi|].
  - unfold all_u8 in Hl; rewrite List.Forall_forall in Hl; apply Hl, nth_In, Hi.
  - rewrite nth_overflow by lia; lia.
Qed.

Lemma byte_at_drop buf o i : byte_at (drop o buf) i = byte_at buf (o + i).
Proof.
  unfold byte_at; revert buf; induction o as [|o IH]; intros buf; [rewrite drop_0; done|].
  destruct buf as [|x buf]; [destruct i; done|]; cbn; apply IH.
Qed.
Lemma le16_split lo hi : is_u8 lo -> is_u8 hi -> le16 (lo + 256 * hi) = [lo; hi].
Proof.
  intros; cbn; unfold u8.
  replace ((lo + 256 * hi) / 256) with hi by (apply Z.div_unique with lo; lia).
  replace ((lo + 256 * hi) mod 256) with lo by (apply Z.mod_unique with hi; lia).
  rewrite Z.mod_small by lia; done.
Qed.

Lemma cstr_id l : Forall (fun c => c <> 0) l -> cstr l = l.
Proof. induction 1 as [|c l Hc _ IH]; cbn; [done|]; rewrite (proj2 (Z.eqb_neq c 0) Hc), IH; done. Qed.
Lemma cstr_nonzero l : Forall (fun c => c <> 0) (cstr l).
Proof. induction l as [|c l IH]; cbn; [constructor|]; destruct (Z.eqb_spec c 0); constructor; done. Qed.
Lemma length_cstr l : (length (cstr l) <= length l)%nat.
Proof. induction l as [|c l IH]; cbn; [lia|]; destruct (c =? 0); cbn; lia. Qed.

(** A decidable fact about a bounded range of integers, by evaluation. *)
Lemma seqZ_all (P : Z -> bool) lo n :
  forallb P (seqZ lo n) = true -> forall v, lo <= v < lo + n -> P v = true.
Proof.
  intros H v Hv; rewrite forallb_forall in H; apply H, list_elem_of_In, elem_of_seqZ; lia.
Qed.
End Bytes.

#[export] Hint Resolve le_bytes_u8 all_u8_take : ups.
#[export] Hint Rewrite length_le_bytes : ups.

(** ** Proof automation *)

(** Turn the boolean tests of the code into facts [lia] reads directly. *)
Ltac to_prop :=
  repeat match goal with
  | H : _ && _ = true |- _ => apply andb_true_iff in H as [? ?]
  | H : _ || _ = false |- _ => apply orb_false_iff in H as [? ?]
  | H : negb _ = true |- _ => apply negb_true_iff in H
  | H : negb _ = false |- _ => apply negb_false_iff in H
  | H : (_ =? _) = true |- _ => apply Z.eqb_eq in H
  | H : (_ =? _) = false |- _ => apply Z.eqb_neq in H
  | H : (_ <? _) = true |- _ => apply Z.ltb_lt in H
  | H : (_ <? _) = false |- _ => apply Z.ltb_ge in H
  | H : (_ <=? _) = true |- _ => apply Z.leb_le in H
  | H : (_ <=? _) = false |- _ => apply Z.leb_gt in H
  | H : bool_decide _ = true |- _ => apply bool_decide_eq_true in H
  | H : bool_decide _ = false |- _ => apply bool_decide_eq_false in H
  end.

(** Case analysis on every test of the goal, and on those of a hypothesis. *)
Ltac split_ifs := repeat (case_match; simplify_eq/=); to_prop.
Ltac split_if_in H :=
  repeat match type of H with
  | context [if ?c then _ else _] => destruct c eqn:?; simplify_eq/=
  | context [match ?c with _ => _ end] => destruct c eqn:?; simplify_eq/=
  end; to_prop.

(** ** State machines *)

Section Machines.
Context {S : Type} (step : S -> S -> Prop).

(** Rule induction over runs: what every step preserves holds of every
    reachable state. *)
Lemma rtc_preserves (I : S -> Prop) s s' :
  (forall x y, I x -> step x y -> I y) -> I s -> rtc step s s' -> I s'.
Proof. intros Hstep Hs Hr; induction Hr; eauto. Qed.
End Machines.

Section Runs.
Context {S I O : Type} (f : S -> I -> S * O).

(** Feeding a list of inputs to a transducer, collecting its outputs. *)
Fixpoint run (s : S) (l : list I) : S * list O :=
  match l with
  | [] => (s, [])
  | i :: l => let (s1, o) := f s i in let (s2, os) := run s1 l in (s2, o :: os)
  end.

Lemma run_cons s i l :
  run s (i :: l) = let (s1, o) := f s i in let (s2, os) := run s1 l in (s2, o :: os).
Proof. done. Qed.

Lemma run_app s l1 l2 :
  run s (l1 ++ l2) =
  let (s1, os1) := run s l1 in let (s2, os2) := run s1 l2 in (s2, os1 ++ os2).
Proof.
  revert s; induction l1 as [|i l1 IH]; intros s; cbn.
  - destruct (run s l2); done.
  - destruct (f s i) as [s1 o]; rewrite IH.
    destruct (run s1 l1) as [s2 os]; destruct (run s2 l2); done.
Qed.

(** The state before the [n]th input, and the output there. *)
Lemma run_take_S s l n x :
  l !! n = Some x -> (run s (take (Datatypes.S n) l)).1 = (f (run s (take n l)).1 x).1.
Proof.
  intros Hx; rewrite (take_S_r _ _ _ Hx), run_app; destruct (run s (take n l)) as [s1 os]; cbn.
  destruct (f s1 x); done.
Qed.
Lemma run_output s l n o :
  (run s l).2 !! n = Some o -> exists x, l !! n = Some x /\ o = (f (run s (take n l)).1 x).2.
Proof.
  revert s n; induction l as [|x l IH]; intros s n; [done|]; rewrite run_cons; destruct n as [|n]; cbn [take run].
  - destruct (f s x) as [s1 o1] eqn:E; destruct (run s1 l); cbn; intros [= <-]; exists x; rewrite E; done.
  - destruct (f s x) as [s1 o1]; specialize (IH s1 n); destruct (run s1 l) as [s2 os]; cbn [snd lookup list_lookup] in *.
    intros Ho; destruct (IH Ho) as (y & Hy & ->); exists y; split; [exact Hy|].
    destruct (run s1 (take n l)); done.
Qed.

Lemma run_length s l : length (run s l).2 = length l.
Proof.
  revert s; induction l as [|i l IH]; intros s; cbn; [done|].
  destruct (f s i) as [s1 o]; specialize (IH s1); destruct (run s1 l); cbn in *; lia.
Qed.

Lemma run_invariant (P : S -> Prop) s l :
  (forall s i, P s -> P (f s i).1) -> P s -> P (run s l).1.
Proof.
  intros Hf; revert s; induction l as [|i l IH]; intros s Hs; cbn; [done|].
  specialize (Hf s i Hs); destruct (f s i) as [s1 o]; specialize (IH s1 Hf).
  destruct (run s1 l); done.
Qed.
End Runs.
