(* ===== verification/Task.v ===== *)
(** * Tasks that end with [goto fail], and loops

    A task transforms a state and either goes on with a value or stops with a failure;
    [triple] states what holds of both outcomes.  [loop] runs the body of a C loop up to
    a number of turns given in binary, so that bounds of the size of a time-out in
    microseconds can be executed. *)

From S2P Require Import Prelude.

Definition task (S E A : Type) : Type := S -> S * (E + A).

Section Task.
Context {S E : Type}.
Definition ret {A} (a : A) : task S E A := fun s => (s, inr a).
Definition fail {A} (e : E) : task S E A := fun s => (s, inl e).
Definition put (f : S -> S) : task S E unit := fun s => (f s, inr tt).
Definition bind {A B} (m : task S E A) (k : A -> task S E B) : task S E B := fun s =>
  match m s with
  | (s, inr a) => k a s
  | (s, inl e) => (s, inl e)
  end.

(** From a state of [P], [m] ends in [Q] with its value or in [F] with its failure. *)
Definition triple {A} (P : S -> Prop) (m : task S E A) (Q : A -> S -> Prop) (F : E -> S -> Prop) : Prop :=
  forall s, P s -> match m s with (s', inr a) => Q a s' | (s', inl e) => F e s' end.
End Task.

Declare Scope task_scope.
Delimit Scope task_scope with task.
Notation "'let*' x := m 'in' k" := (bind m (fun x => k))
  (at level 10, x binder, m at level 100, k at level 200) : task_scope.

Section Triples.
Context {S E : Type}.

Lemma triple_ret {A} (a : A) (P : S -> Prop) (F : E -> S -> Prop) : triple P (ret a) (fun b s => b = a /\ P s) F.
Proof. intros s H; split; done. Qed.
Lemma triple_fail {A} (e : E) (P : S -> Prop) (Q : A -> S -> Prop) (F : E -> S -> Prop) :
  (forall s, P s -> F e s) -> triple P (fail e) Q F.
Proof. intros H s Hs; apply H, Hs. Qed.
Lemma triple_put f (P : S -> Prop) (Q : unit -> S -> Prop) (F : E -> S -> Prop) :
  (forall s, P s -> Q tt (f s)) -> triple P (put f) Q F.
Proof. intros H s Hs; apply H, Hs. Qed.

Lemma triple_bind {A B} (m : task S E A) (k : A -> task S E B) P Q R F :
  triple P m Q F -> (forall a, triple (Q a) (k a) R F) -> triple P (bind m k) R F.
Proof.
  intros Hm Hk s Hs; unfold bind; specialize (Hm s Hs); destruct (m s) as [s1 [e|a]]; [exact Hm|apply Hk, Hm].
Qed.

(** At one state. *)
Lemma triple_at {A} P (m : task S E A) Q F s :
  P s -> triple P m Q F -> match m s with (s', inr a) => Q a s' | (s', inl e) => F e s' end.
Proof. intros Hs H; apply H, Hs. Qed.

Lemma triple_conseq {A} (m : task S E A) (P P' : S -> Prop) (Q Q' : A -> S -> Prop) (F F' : E -> S -> Prop) :
  triple P' m Q' F' -> (forall s, P s -> P' s) -> (forall a s, Q' a s -> Q a s) -> (forall e s, F' e s -> F e s) ->
  triple P m Q F.
Proof. intros H HP HQ HF s Hs; specialize (H s (HP s Hs)); destruct (m s) as [s1 [e|a]]; auto. Qed.

(** Both halves of a run of two tasks. *)
Lemma bind_inv {A B} (m : task S E A) (k : A -> task S E B) s s' b :
  bind m k s = (s', inr b) -> exists s1 a, m s = (s1, inr a) /\ k a s1 = (s', inr b).
Proof. unfold bind; destruct (m s) as [s1 [e|a]]; intros; simplify_eq; eauto. Qed.
End Triples.

(** ** Loops

    The body goes on with a state ([inl]) or leaves the loop with a result ([inr]). *)

Section Loops.
Context {S R : Type} (f : S -> S + R).

Definition next (x : S + R) (k : S -> S + R) : S + R := match x with inl s => k s | inr r => inr r end.

Fixpoint loop (n : positive) (s : S) : S + R :=
  match n with
  | xH => f s
  | xO n => next (loop n s) (loop n)
  | xI n => next (f s) (fun s => next (loop n s) (loop n))
  end.

(** What the body keeps holds when the loop is left, or when the turns are spent. *)
Lemma loop_inv (I : S -> Prop) (Q : R -> Prop) n s :
  (forall s, I s -> match f s with inl s' => I s' | inr r => Q r end) ->
  I s -> match loop n s with inl s' => I s' | inr r => Q r end.
Proof.
  intros Hf; revert s; induction n as [n IH|n IH|]; intros s Hs; cbn [loop]; [| |apply Hf, Hs].
  - specialize (Hf s Hs); unfold next; destruct (f s) as [s1|r]; [|exact Hf].
    specialize (IH s1 Hf) as IH1; destruct (loop n s1) as [s2|r]; [apply IH, IH1|exact IH1].
  - specialize (IH s Hs) as IH1; unfold next; destruct (loop n s) as [s1|r]; [apply IH, IH1|exact IH1].
Qed.

(** A body that decreases a measure by one each turn spends at most that many turns. *)
Lemma loop_measure (I : S -> Prop) (m : S -> Z) n s s' :
  (forall s s', I s -> f s = inl s' -> I s' /\ m s' + 1 <= m s) ->
  I s -> loop n s = inl s' -> I s' /\ m s' + Zpos n <= m s.
Proof.
  intros Hf; revert s s'; induction n as [n IH|n IH|]; intros s s' Hs E; cbn [loop] in E; [| |apply Hf; done].
  - unfold next in E; destruct (f s) as [s1|] eqn:E1; [|done]; destruct (Hf _ _ Hs E1) as [H1 M1].
    destruct (loop n s1) as [s2|] eqn:E2; [|done]; destruct (IH _ _ H1 E2) as [H2 M2], (IH _ _ H2 E) as [H3 M3]; split; [done|lia].
  - unfold next in E; destruct (loop n s) as [s1|] eqn:E1; [|done]; destruct (IH _ _ Hs E1) as [H1 M1], (IH _ _ H1 E) as [H2 M2].
    split; [done|lia].
Qed.
End Loops.
