(* ===== verification/Protocol.v ===== *)
(** * The WUPS wire protocol (common/protocol.h)

    Constants of the shared header, the Fletcher-8 checksum, the frame layout,
    and the packed payload structures the firmware exchanges.  A comment
    [src: file:first-last] names the lines the definitions below it translate. *)

From Stdlib Require Import Znumtheory.
From S2P Require Import Prelude.

(** ** Framing constants *)

(* src: common/protocol.h:39-44 framing constants *)
Definition WUPS_PROTO_VERSION : Z := 1.
Definition WUPS_SYNC1 : Z := 170.
Definition WUPS_SYNC2 : Z := 85.
Definition WUPS_END1 : Z := 85.
Definition WUPS_END2 : Z := 170.

(* src: common/protocol.h:65-72 framing sizes *)
Definition WUPS_GUARD_BYTE : Z := 0.
Definition WUPS_HEADER_BYTES : Z := 10.
Definition WUPS_TRAILER_BYTES : Z := 4.
Definition WUPS_FRAMING_BYTES : Z := WUPS_HEADER_BYTES + WUPS_TRAILER_BYTES.
Definition WUPS_MAX_PAYLOAD : Z := 240.
Definition WUPS_MAX_FRAME : Z := WUPS_FRAMING_BYTES + WUPS_MAX_PAYLOAD.

(** ** Addresses, flags, classes and operations *)

(* src: common/protocol.h:76-84 wups_addr_t *)
Definition WUPS_ADDR_NULL : Z := 0.
Definition WUPS_ADDR_RPI : Z := 1.
Definition WUPS_ADDR_RP2040 : Z := 2.
Definition WUPS_ADDR_CH32X : Z := 3.
Definition WUPS_ADDR_ESP32 : Z := 4.
Definition WUPS_ADDR_INTERNAL : Z := 5.
Definition WUPS_ADDR_BROADCAST : Z := 255.

(* src: common/protocol.h:88-91 WUPS_FLAG *)
Definition WUPS_FLAG_REQ : Z := 1.
Definition WUPS_FLAG_RESP : Z := 2.
Definition WUPS_FLAG_EVENT : Z := 4.
Definition WUPS_FLAG_NEED_ACK : Z := 128.

(* src: common/protocol.h:95-101 wups_class_t *)
Definition WUPS_CLASS_SYSTEM : Z := 1.
Definition WUPS_CLASS_POWER : Z := 2.
Definition WUPS_CLASS_NET : Z := 3.
Definition WUPS_CLASS_HOST : Z := 4.
Definition WUPS_CLASS_UI : Z := 5.

(* src: common/protocol.h:106-124 wups_op_system_t *)
Definition WUPS_OP_SYS_PING : Z := 1.
Definition WUPS_OP_SYS_HELLO : Z := 2.
Definition WUPS_OP_SYS_STATUS_QUERY : Z := 3.
Definition WUPS_OP_SYS_LOG : Z := 4.
Definition WUPS_OP_SYS_RESET : Z := 5.
Definition WUPS_OP_SYS_MODE_CHANGED : Z := 16.

(* src: common/protocol.h:138-145 wups_op_power_t *)
Definition WUPS_OP_PWR_STATUS : Z := 1.
Definition WUPS_OP_PWR_ENABLE : Z := 2.
Definition WUPS_OP_PWR_DISABLE : Z := 3.
Definition WUPS_OP_PWR_CYCLE : Z := 4.
Definition WUPS_OP_PWR_RESET : Z := 5.
Definition WUPS_OP_PWR_EVENT : Z := 16.

(* src: common/protocol.h:148-187 wups_op_net_t *)
Definition WUPS_OP_NET_STATUS : Z := 1.
Definition WUPS_OP_NET_PUBLISH : Z := 2.
Definition WUPS_OP_NET_DOWNLINK : Z := 16.
Definition WUPS_OP_NET_TIME_SYNC : Z := 32.
Definition WUPS_OP_NET_CONFIG : Z := 33.
Definition WUPS_OP_NET_FW_UPDATE : Z := 34.
Definition WUPS_OP_NET_FW_XFER_BEGIN : Z := 35.
Definition WUPS_OP_NET_FW_XFER_DATA : Z := 36.
Definition WUPS_OP_NET_FW_XFER_END : Z := 37.

(* src: common/protocol.h:196-204 wups_op_host_t *)
Definition WUPS_OP_HOST_STATUS : Z := 1.
Definition WUPS_OP_HOST_SHUTDOWN : Z := 2.
Definition WUPS_OP_HOST_RESET : Z := 3.
Definition WUPS_OP_HOST_SERVICE_RESTART : Z := 4.
Definition WUPS_OP_HOST_SERVICE_START : Z := 5.
Definition WUPS_OP_HOST_SERVICE_STOP : Z := 6.
Definition WUPS_OP_HOST_EVENT : Z := 16.

(* src: common/protocol.h:206-226 wups_op_ui_t *)
Definition WUPS_OP_UI_BUTTON_EVENT : Z := 1.
Definition WUPS_OP_UI_SET_SCREEN : Z := 2.
Definition WUPS_OP_UI_BEEP : Z := 3.
Definition WUPS_OP_UI_DISPLAY_MSG : Z := 4.
Definition WUPS_OP_UI_TRUST_PROMPT : Z := 5.
Definition WUPS_OP_UI_TRUST_RESULT : Z := 6.
Definition WUPS_OP_UI_LOCAL_RESET : Z := 7.

(* src: common/protocol.h:230-232 WUPS_CAP *)
Definition WUPS_CAP_SYSTEM : Z := Z.shiftl 1 WUPS_CLASS_SYSTEM.
Definition WUPS_CAP_POWER : Z := Z.shiftl 1 WUPS_CLASS_POWER.
Definition WUPS_CAP_NET : Z := Z.shiftl 1 WUPS_CLASS_NET.

(** ** Fletcher-8 *)

(* src: common/protocol.h:694-703 wups_fletcher8 loop body *)
Definition fletcher_step (ck : Z * Z) (x : Z) : Z * Z :=
  let a := u8 (ck.1 + x) in (a, u8 (ck.2 + a)).

(* src: common/protocol.h:694-703 wups_fletcher8 *)
Definition wups_fletcher8 (buf : list Z) : Z * Z := fold_left fletcher_step buf (0, 0).

(** ** Frames *)

(* src: common/protocol.h:10-26 wire format *)
Record frame := Frame {
  f_dst : Z; f_src : Z; f_cls : Z; f_op : Z; f_flags : Z; f_seq : Z;
  f_payload : list Z
}.

(** The six header bytes after the sync pair, and the covered region
    DST..LEN_H..payload. *)
Definition frame_ids (f : frame) : list Z :=
  [f_dst f; f_src f; f_cls f; f_op f; f_flags f; f_seq f].
Definition frame_len (f : frame) : Z := Z.of_nat (length (f_payload f)).
Definition frame_body (f : frame) : list Z :=
  frame_ids f ++ le16 (frame_len f) ++ f_payload f.

(* src: common/protocol.h:10-26 wire format *)
Definition frame_bytes (f : frame) : list Z :=
  let ck := wups_fletcher8 (frame_body f) in
  [WUPS_SYNC1; WUPS_SYNC2] ++ frame_body f ++ [ck.1; ck.2; WUPS_END1; WUPS_END2].

#[global] Arguments wups_fletcher8 : simpl never.
#[global] Arguments frame_bytes : simpl never.
#[global] Arguments frame_body : simpl never.

(** A frame the protocol allows: byte fields and at most [WUPS_MAX_PAYLOAD] bytes. *)
Definition frame_wf (f : frame) : Prop :=
  all_u8 (frame_ids f) /\ all_u8 (f_payload f) /\ frame_len f <= WUPS_MAX_PAYLOAD.

(** ** Payload structures *)

(* src: common/protocol.h:250-255 wups_sys_pong_v1_t *)
Record wups_sys_pong_v1_t := Pong {
  pong_version : Z; pong_reserved : Z; pong_fw_version : Z; pong_uptime_ms : Z
}.
Definition pong_bytes (p : wups_sys_pong_v1_t) : list Z :=
  [u8 (pong_version p); u8 (pong_reserved p)] ++
  le16 (pong_fw_version p) ++ le32 (pong_uptime_ms p).

(* src: common/protocol.h:258-266 wups_sys_hello_v1_t *)
Record wups_sys_hello_v1_t := Hello {
  hello_version : Z; hello_proto_version : Z; hello_node_addr : Z; hello_reserved : Z;
  hello_fw_version : Z; hello_caps_classes : Z; hello_build_id : Z
}.
Definition hello_bytes (h : wups_sys_hello_v1_t) : list Z :=
  [u8 (hello_version h); u8 (hello_proto_version h); u8 (hello_node_addr h);
   u8 (hello_reserved h)] ++
  le16 (hello_fw_version h) ++ le16 (hello_caps_classes h) ++ le32 (hello_build_id h).

(* src: common/protocol.h:291-305 wups_power_status_v1_t *)
Record wups_power_status_v1_t := StatusV1 {
  v1_version : Z; v1_charge_state : Z; v1_vbus_in_mV : Z; v1_vbus_out_mV : Z;
  v1_ibus_out_mA : Z; v1_vbat_mV : Z; v1_ibat_mA : Z; v1_temp_dC : Z;
  v1_pd_contract_mV : Z; v1_pd_contract_mA : Z; v1_faults : Z
}.
Definition power_status_v1_bytes (s : wups_power_status_v1_t) : list Z :=
  [u8 (v1_version s); u8 (v1_charge_state s)] ++ le16 (v1_vbus_in_mV s) ++
  le16 (v1_vbus_out_mV s) ++ le16 (v1_ibus_out_mA s) ++ le16 (v1_vbat_mV s) ++
  le16 (v1_ibat_mA s) ++ le16 (v1_temp_dC s) ++ le16 (v1_pd_contract_mV s) ++
  le16 (v1_pd_contract_mA s) ++ le16 (v1_faults s).

(* src: common/protocol.h:321-349 wups_power_status_v2_t *)
Record wups_power_status_v2_t := StatusV2 {
  v2_version : Z; v2_flags : Z; v2_charge_state : Z; v2_reserved : Z;
  v2_vbus_in_mV : Z; v2_pd_in_mV : Z; v2_pd_in_mA : Z;
  v2_vbus_out_mV : Z; v2_vout_set_mV : Z; v2_vout_read_mV : Z; v2_iout_limit_mA : Z;
  v2_pd_out_mV : Z; v2_pd_out_mA : Z;
  v2_vbat_mV : Z; v2_ichg_mA : Z;
  v2_vsys_mV : Z; v2_iin_mA : Z; v2_temp_lm_dC : Z; v2_temp_mp_dC : Z;
  v2_faults : Z; v2_uptime_s : Z
}.
Definition power_status_v2_bytes (s : wups_power_status_v2_t) : list Z :=
  [u8 (v2_version s); u8 (v2_flags s); u8 (v2_charge_state s); u8 (v2_reserved s)] ++
  le16 (v2_vbus_in_mV s) ++ le16 (v2_pd_in_mV s) ++ le16 (v2_pd_in_mA s) ++
  le16 (v2_vbus_out_mV s) ++ le16 (v2_vout_set_mV s) ++ le16 (v2_vout_read_mV s) ++
  le16 (v2_iout_limit_mA s) ++ le16 (v2_pd_out_mV s) ++ le16 (v2_pd_out_mA s) ++
  le16 (v2_vbat_mV s) ++ le16 (v2_ichg_mA s) ++
  le16 (v2_vsys_mV s) ++ le16 (v2_iin_mA s) ++ le16 (v2_temp_lm_dC s) ++
  le16 (v2_temp_mp_dC s) ++ le16 (v2_faults s) ++ le32 (v2_uptime_s s).

(* src: common/protocol.h:352-356 WUPS_PWR2_FLAG *)
Definition WUPS_PWR2_FLAG_DC_IN_EN : Z := 1.
Definition WUPS_PWR2_FLAG_VBUS_OUT_EN : Z := 2.
Definition WUPS_PWR2_FLAG_BATT_PRESENT : Z := 4.
Definition WUPS_PWR2_FLAG_POWER_GOOD : Z := 8.
Definition WUPS_PWR2_FLAG_USB_C_ATTACH : Z := 16.

(* src: common/protocol.h:366-369 wups_power_event_v1_t *)
Definition power_event_bytes (event : Z) : list Z := [1; u8 event].

(* src: common/protocol.h:371-375 WUPS_PWR_EVT *)
Definition WUPS_PWR_EVT_MAINS_LOST : Z := 1.
Definition WUPS_PWR_EVT_MAINS_RESTORED : Z := 2.
Definition WUPS_PWR_EVT_CHARGE_LOW : Z := 3.
Definition WUPS_PWR_EVT_CHARGE_FULL : Z := 4.
Definition WUPS_PWR_EVT_FAULT : Z := 5.

(* src: common/protocol.h:277-279 WUPS_SYS_RESET_RESULT *)
Definition WUPS_SYS_RESET_RESULT_OK : Z := 0.
Definition WUPS_SYS_RESET_RESULT_BUSY : Z := 1.
Definition WUPS_SYS_RESET_RESULT_BAD_REQ : Z := 2.

(** Sizes of the structures the ESP32 only measures. *)
(* src: common/protocol.h:378-389 wups_net_status_v1_t *)
Definition sizeof_net_status_v1 : Z := 20.

(* src: common/protocol.h:396-412 wups_net_status_v2_t *)
Definition sizeof_net_status_v2 : Z := 30.

(* src: common/protocol.h:419-434 wups_net_status_v3_t *)
Definition sizeof_net_status_v3 : Z := 31.

(* src: common/protocol.h:542-555 wups_host_status_v1_t *)
Definition sizeof_host_status_v1 : Z := 12.

(* src: common/protocol.h:437-447 wups_net_publish_v1_hdr_t *)
Record wups_net_publish_v1_hdr_t := PublishHdr {
  pub_version : Z; pub_qos : Z; pub_retain : Z; pub_topic_len : Z; pub_payload_len : Z
}.
Definition publish_hdr_bytes (h : wups_net_publish_v1_hdr_t) : list Z :=
  [u8 (pub_version h); u8 (pub_qos h); u8 (pub_retain h); u8 (pub_topic_len h)] ++
  le16 (pub_payload_len h).

(* src: common/protocol.h:190-193 wups_net_config_item_t *)
Definition WUPS_NET_CONFIG_HTTP_URL : Z := 1.
Definition WUPS_NET_CONFIG_DEVICE_ID : Z := 2.

(* src: common/protocol.h:460-466 wups_net_config_v1_hdr_t *)
Record wups_net_config_v1_hdr_t := ConfigHdr {
  cfg_version : Z; cfg_item : Z; cfg_value_len : Z; cfg_reserved : Z
}.

(* src: common/protocol.h:469-474 wups_net_config_result_v1_t *)
Definition config_result_bytes (item result : Z) : list Z := [1; u8 item; u8 result; 0].

(* src: common/protocol.h:493-494 WUPS_FW_TARGET *)
Definition WUPS_FW_TARGET_ESP32 : Z := 1.
Definition WUPS_FW_TARGET_RP2040 : Z := 2.

(* src: common/protocol.h:497-503 wups_net_fw_xfer_begin_v1_t *)
Record wups_net_fw_xfer_begin_v1_t := XferBegin {
  xb_version : Z; xb_target : Z; xb_image_len : Z; xb_sha256 : list Z
}.
Definition sizeof_xfer_begin : Z := 40.
Definition xfer_begin_bytes (b : wups_net_fw_xfer_begin_v1_t) : list Z :=
  [u8 (xb_version b); u8 (xb_target b); 0; 0] ++ le32 (xb_image_len b) ++ xb_sha256 b.
Definition read_xfer_begin (l : list Z) : wups_net_fw_xfer_begin_v1_t :=
  XferBegin (byte_at l 0) (byte_at l 1) (le_val (field 4 4 l)) (field 8 32 l).

(** The data header is the offset alone. *)
(* src: common/protocol.h:509-511 wups_net_fw_xfer_data_v1_hdr_t *)
Definition sizeof_xfer_data_hdr : Z := 4.
Definition xfer_data_bytes (offset : Z) (chunk : list Z) : list Z := le32 offset ++ chunk.
Definition read_xfer_offset (l : list Z) : Z := le_val (field 0 4 l).

(* src: common/protocol.h:515-519 wups_net_fw_xfer_end_v1_t *)
Definition sizeof_xfer_end : Z := 4.
Definition xfer_end_bytes (commit : Z) : list Z := [1; u8 commit; 0; 0].

(* src: common/protocol.h:522-531 WUPS_FW_XFER *)
Definition WUPS_FW_XFER_CHUNK : Z := WUPS_MAX_PAYLOAD - 4.
Definition WUPS_FW_XFER_OK : Z := 0.
Definition WUPS_FW_XFER_BAD_REQ : Z := 1.
Definition WUPS_FW_XFER_BUSY : Z := 2.
Definition WUPS_FW_XFER_SEQ_MISMATCH : Z := 3.
Definition WUPS_FW_XFER_FLASH_ERR : Z := 4.
Definition WUPS_FW_XFER_VERIFY_FAIL : Z := 5.
Definition WUPS_FW_XFER_IDLE_TIMEOUT_S : Z := 30.

(* src: common/protocol.h:536-539 WUPS_FW_UPDATE_RESULT *)
Definition WUPS_FW_UPDATE_RESULT_OK : Z := 0.
Definition WUPS_FW_UPDATE_RESULT_BAD_REQ : Z := 1.
Definition WUPS_FW_UPDATE_RESULT_BUSY : Z := 2.
Definition WUPS_FW_UPDATE_RESULT_NO_NET : Z := 3.

(* src: common/protocol.h:576-585 WUPS_HOST_EVT *)
Definition WUPS_HOST_EVT_SHUTDOWN_IMMINENT : Z := 1.
Definition WUPS_HOST_EVT_LOW_DISK : Z := 2.
Definition WUPS_HOST_EVT_ETH_SYNCED : Z := 3.
Definition WUPS_HOST_EVT_ETH_LOST : Z := 4.

(* src: common/protocol.h:652-674 wups_ui_trust_prompt_v1_hdr_t *)
Record wups_ui_trust_prompt_v1_hdr_t := PromptHdr {
  tp_version : Z; tp_mode : Z; tp_confirm_secs : Z; tp_text_len : Z; tp_nonce : Z
}.
Definition prompt_hdr_bytes (h : wups_ui_trust_prompt_v1_hdr_t) : list Z :=
  [u8 (tp_version h); u8 (tp_mode h); u8 (tp_confirm_secs h); u8 (tp_text_len h)] ++
  le32 (tp_nonce h).
Definition WUPS_TRUST_PROMPT_MODE_MENU : Z := 2.

(** ** The checksum *)

Section Fletcher.
Lemma fletcher_app l1 l2 ck :
  fold_left fletcher_step (l1 ++ l2) ck =
  fold_left fletcher_step l2 (fold_left fletcher_step l1 ck).
Proof. apply fold_left_app. Qed.

Lemma fletcher_snoc l x :
  wups_fletcher8 (l ++ [x]) = fletcher_step (wups_fletcher8 l) x.
Proof. unfold wups_fletcher8; rewrite fletcher_app; done. Qed.

Lemma fletcher_range l ck :
  is_u8 ck.1 -> is_u8 ck.2 ->
  is_u8 (fold_left fletcher_step l ck).1 /\ is_u8 (fold_left fletcher_step l ck).2.
Proof.
  revert ck; induction l as [|x l IH]; intros ck H1 H2; cbn; [done|].
  apply IH; apply u8_range.
Qed.

Lemma wups_fletcher8_range l :
  is_u8 (wups_fletcher8 l).1 /\ is_u8 (wups_fletcher8 l).2.
Proof. apply fletcher_range; cbn; lia. Qed.

(** The first sum is the byte sum; the second weighs each byte by its
    distance from the end. *)
Fixpoint byte_sum (l : list Z) : Z :=
  match l with [] => 0 | x :: l => x + byte_sum l end.
Fixpoint weighted_sum (l : list Z) : Z :=
  match l with [] => 0 | x :: l => (1 + Z.of_nat (length l)) * x + weighted_sum l end.

Lemma u8_div z : exists q, u8 z = z - 256 * q.
Proof. exists (z / 256); unfold u8; pose proof (Z.div_mod z 256); lia. Qed.
Lemma u8_congr a b k : a = b + 256 * k -> u8 a = u8 b.
Proof. intros ->; unfold u8; rewrite Z.mul_comm; apply Z_mod_plus_full. Qed.

Lemma fletcher_sums l ck :
  is_u8 ck.1 -> is_u8 ck.2 ->
  fold_left fletcher_step l ck =
    (u8 (ck.1 + byte_sum l), u8 (ck.2 + Z.of_nat (length l) * ck.1 + weighted_sum l)).
Proof.
  revert ck; induction l as [|x l IH]; intros [a b] Ha Hb; cbn -[Z.of_nat Z.mul] in *.
  - rewrite Z.mul_0_l, !Z.add_0_r, !u8_small; done.
  - rewrite IH by apply u8_range; cbn -[Z.of_nat Z.mul]; f_equal.
    + rewrite u8_add_l; f_equal; lia.
    + rewrite !Nat2Z.inj_succ.
      destruct (u8_div (a + x)) as [q Hq]; destruct (u8_div (b + u8 (a + x))) as [q' Hq'].
      rewrite Hq', Hq; apply u8_congr with (k := - q' - q - Z.of_nat (length l) * q); lia.
Qed.
Lemma byte_sum_app l1 l2 : byte_sum (l1 ++ l2) = byte_sum l1 + byte_sum l2.
Proof. induction l1; cbn; lia. Qed.
Lemma weighted_sum_app l1 l2 :
  weighted_sum (l1 ++ l2) =
  weighted_sum l1 + Z.of_nat (length l2) * byte_sum l1 + weighted_sum l2.
Proof.
  induction l1 as [|x l1 IH]; cbn -[Z.of_nat]; [lia|].
  rewrite IH, length_app, Nat2Z.inj_add; lia.
Qed.
Lemma u8_eq_div a b : u8 a = u8 b -> (256 | a - b).
Proof.
  destruct (u8_div a) as [p ->]; destruct (u8_div b) as [q ->]; intros.
  exists (p - q); lia.
Qed.
Lemma odd_cancel d w : Z.odd d = true -> (256 | d * w) -> (256 | w).
Proof.
  intros Hd H; apply Z.gauss with d; [done|].
  change 256 with (2 ^ 8); apply Z.coprime_pow_l; [lia|].
  apply Z.coprime_prime_l; [apply Z.prime_2|].
  intros [k Hk]; subst d; rewrite Z.odd_mul, andb_false_r in Hd; done.
Qed.
Lemma byte_div_eq x y : is_u8 x -> is_u8 y -> (256 | x - y) -> x = y.
Proof. intros ? ? [k Hk]; assert (k = 0) by lia; lia. Qed.
End Fletcher.

(** The checksum of the frame body detects every corruption of at most two
    bytes an odd distance apart; in particular every corrupted byte, and every
    exchange of two neighbouring distinct bytes. *)
Theorem wups_fletcher8_detects l1 m l2 x y x' y' :
  is_u8 x -> is_u8 y -> is_u8 x' -> is_u8 y' ->
  Z.even (Z.of_nat (length m)) = true -> (x, y) <> (x', y') ->
  wups_fletcher8 (l1 ++ x :: m ++ y :: l2) <> wups_fletcher8 (l1 ++ x' :: m ++ y' :: l2).
Proof.
  intros Hx Hy Hx' Hy' Hm Hne Heq; apply Hne; clear Hne.
  unfold wups_fletcher8 in Heq; rewrite !fletcher_sums in Heq by (cbn; lia).
  injection Heq as Hs Hw; apply u8_eq_div in Hs, Hw.
  rewrite !byte_sum_app in Hs; cbn in Hs; rewrite !byte_sum_app in Hs; cbn in Hs.
  rewrite !weighted_sum_app in Hw; cbn -[Z.of_nat] in Hw.
  rewrite !weighted_sum_app, !length_app in Hw; cbn -[Z.of_nat] in Hw.
  rewrite !length_app in Hw; cbn -[Z.of_nat] in Hw.
  destruct Hs as [p Hp], Hw as [q Hq]; unfold fst, snd in *.
  assert (x = x') as ->; [|f_equal; apply byte_div_eq; [done..|exists p; lia]].
  apply byte_div_eq; [done..|]; apply odd_cancel with (Z.of_nat (length m) + 1).
  - rewrite Z.add_1_r, Z.odd_succ; done.
  - exists (q - (1 + Z.of_nat (length l2)) * p).
    rewrite !Nat2Z.inj_add, !Nat2Z.inj_succ, !Nat2Z.inj_add in Hq.
    rewrite ?Nat2Z.inj_succ in Hq; nia.
Qed.

(** Corrupting the last payload byte and swapping two header bytes are caught. *)
Lemma wups_fletcher8_detects_witness :
  wups_fletcher8 [3; 1; 2; 4] <> wups_fletcher8 [3; 2; 1; 4].
Proof.
  apply (wups_fletcher8_detects [3] [] [4] 1 2 2 1); try lia; [reflexivity|congruence].
Defined.
