(* ===== verification/Deframer.v ===== *)
(** * The CH32X receive state machine and frame sender
    (firmware-ch32x/User/main.c)

    [wups_rx_byte] is the byte-at-a-time deframer; it returns the frame that
    the END2 case passes to [wups_handle_frame] instead of calling it, so that
    the node model composes the two.  [wups_send_frame] is the list of bytes a
    sender puts on the wire, guard byte included. *)

From S2P Require Import Prelude Protocol.

(** ** State *)

(* src: firmware-ch32x/User/main.c:964-980 wups_rx_state_t *)
Inductive wups_rx_state_t :=
  | WUPS_RX_SYNC1 | WUPS_RX_SYNC2 | WUPS_RX_DST | WUPS_RX_SRC | WUPS_RX_CLASS
  | WUPS_RX_OP | WUPS_RX_FLAGS | WUPS_RX_SEQ | WUPS_RX_LEN_L | WUPS_RX_LEN_H
  | WUPS_RX_PAYLOAD | WUPS_RX_CK_A | WUPS_RX_CK_B | WUPS_RX_END1 | WUPS_RX_END2.

#[export] Instance wups_rx_state_eq_dec : EqDecision wups_rx_state_t.
Proof. solve_decision. Defined.

(* src: firmware-ch32x/User/main.c:982-990 Wups_Rx *)
Record wups_rx := WupsRx {
  rx_state : wups_rx_state_t;
  rx_dst : Z; rx_src : Z; rx_cls : Z; rx_op : Z; rx_flags : Z; rx_seq : Z;
  rx_len : Z;
  rx_pidx : Z;
  rx_payload : list Z;
  rx_ck_a : Z; rx_ck_b : Z;
  exp_a : Z; exp_b : Z
}.

#[export] Instance eta_wups_rx : Eta wups_rx := fun r =>
  WupsRx (rx_state r) (rx_dst r) (rx_src r) (rx_cls r) (rx_op r) (rx_flags r) (rx_seq r)
    (rx_len r) (rx_pidx r) (rx_payload r) (rx_ck_a r) (rx_ck_b r) (exp_a r) (exp_b r).

(** The static object starts zeroed. *)
(* src: firmware-ch32x/User/main.c:982-990 Wups_Rx *)
Definition wups_rx_init : wups_rx :=
  WupsRx WUPS_RX_SYNC1 0 0 0 0 0 0 0 0 (replicate 240 0) 0 0 0 0.

(** ** Operations *)

(* src: firmware-ch32x/User/main.c:992-992 wups_rx_reset *)
Definition wups_rx_reset (r : wups_rx) : wups_rx := r <| rx_state := WUPS_RX_SYNC1 |>.

(* src: firmware-ch32x/User/main.c:1001-1004 wups_rx_reset_with *)
Definition wups_rx_reset_with (b : Z) (r : wups_rx) : wups_rx :=
  r <| rx_state := if b =? WUPS_SYNC1 then WUPS_RX_SYNC2 else WUPS_RX_SYNC1 |>.

(* src: firmware-ch32x/User/main.c:1006-1010 wups_rx_step *)
Definition wups_rx_step (b : Z) (r : wups_rx) : wups_rx :=
  let r := r <| exp_a := u8 (exp_a r + b) |> in
  r <| exp_b := u8 (exp_b r + exp_a r) |>.

(** The frame handed to [wups_handle_frame]: the handler reads [len] bytes of
    the payload array. *)
(* src: firmware-ch32x/User/main.c:1075-1077 wups_rx_byte (call of wups_handle_frame) *)
Definition rx_frame (r : wups_rx) : frame :=
  Frame (rx_dst r) (rx_src r) (rx_cls r) (rx_op r) (rx_flags r) (rx_seq r)
    (take (Z.to_nat (rx_len r)) (rx_payload r)).

(* src: firmware-ch32x/User/main.c:1012-1091 wups_rx_byte *)
Definition wups_rx_byte (r : wups_rx) (b : Z) : wups_rx * option frame :=
  match rx_state r with
  | WUPS_RX_SYNC1 =>
      (if b =? WUPS_SYNC1 then r <| rx_state := WUPS_RX_SYNC2 |> else r, None)
  | WUPS_RX_SYNC2 =>
      (if b =? WUPS_SYNC2
       then r <| exp_a := 0 |> <| exp_b := 0 |> <| rx_pidx := 0 |> <| rx_state := WUPS_RX_DST |>
       else wups_rx_reset_with b r, None)
  | WUPS_RX_DST => (wups_rx_step b (r <| rx_dst := b |>) <| rx_state := WUPS_RX_SRC |>, None)
  | WUPS_RX_SRC => (wups_rx_step b (r <| rx_src := b |>) <| rx_state := WUPS_RX_CLASS |>, None)
  | WUPS_RX_CLASS => (wups_rx_step b (r <| rx_cls := b |>) <| rx_state := WUPS_RX_OP |>, None)
  | WUPS_RX_OP => (wups_rx_step b (r <| rx_op := b |>) <| rx_state := WUPS_RX_FLAGS |>, None)
  | WUPS_RX_FLAGS => (wups_rx_step b (r <| rx_flags := b |>) <| rx_state := WUPS_RX_SEQ |>, None)
  | WUPS_RX_SEQ => (wups_rx_step b (r <| rx_seq := b |>) <| rx_state := WUPS_RX_LEN_L |>, None)
  | WUPS_RX_LEN_L => (wups_rx_step b (r <| rx_len := b |>) <| rx_state := WUPS_RX_LEN_H |>, None)
  | WUPS_RX_LEN_H =>
      let r := wups_rx_step b (r <| rx_len := Z.lor (rx_len r) (u16 (Z.shiftl b 8)) |>) in
      (if WUPS_MAX_PAYLOAD <? rx_len r then wups_rx_reset_with b r
       else r <| rx_state := if rx_len r =? 0 then WUPS_RX_CK_A else WUPS_RX_PAYLOAD |>, None)
  | WUPS_RX_PAYLOAD =>
      let r := r <| rx_payload := <[Z.to_nat (rx_pidx r) := b]> (rx_payload r) |>
                 <| rx_pidx := u16 (rx_pidx r + 1) |> in
      let r := wups_rx_step b r in
      (if rx_len r <=? rx_pidx r then r <| rx_state := WUPS_RX_CK_A |> else r, None)
  | WUPS_RX_CK_A => (r <| rx_ck_a := b |> <| rx_state := WUPS_RX_CK_B |>, None)
  | WUPS_RX_CK_B =>
      let r := r <| rx_ck_b := b |> in
      (if (rx_ck_a r =? exp_a r) && (rx_ck_b r =? exp_b r)
       then r <| rx_state := WUPS_RX_END1 |>
       else wups_rx_reset_with b r, None)
  | WUPS_RX_END1 =>
      (if b =? WUPS_END1 then r <| rx_state := WUPS_RX_END2 |> else wups_rx_reset_with b r, None)
  | WUPS_RX_END2 =>
      if b =? WUPS_END2 then (wups_rx_reset r, Some (rx_frame r))
      else (wups_rx_reset_with b r, None)
  end.

(** Feeding bytes: [Cmd_Rx_Drain] calls [wups_rx_byte] on each in turn.  The
    second component has one entry per byte. *)
Definition feed : wups_rx -> list Z -> wups_rx * list (option frame) := run wups_rx_byte.
Definition delivered (r : wups_rx) (bs : list Z) : list frame := omap id (feed r bs).2.

(** ** The sender *)

(* src: firmware-ch32x/User/main.c:528-565 wups_send_frame *)
Definition wups_send_frame (dst cls op flags seq : Z) (payload : list Z) : list Z :=
  let payload_len := Z.of_nat (length payload) in
  let header := [WUPS_SYNC1; WUPS_SYNC2; dst; WUPS_ADDR_CH32X; cls; op; flags; seq;
                 u8 (Z.land payload_len 255); u8 (Z.land (Z.shiftr payload_len 8) 255)] in
  let '(a, b) := fold_left fletcher_step payload (fold_left fletcher_step (drop 2 header) (0, 0)) in
  let trailer := [a; b; WUPS_END1; WUPS_END2; WUPS_GUARD_BYTE] in
  header ++ payload ++ trailer.

(** ** The invariant *)

(** The bytes of a frame the machine has already matched, by state. *)
Definition rx_hdr (r : wups_rx) : list Z :=
  [WUPS_SYNC1; WUPS_SYNC2; rx_dst r; rx_src r; rx_cls r; rx_op r; rx_flags r; rx_seq r].
Definition rx_body (r : wups_rx) : list Z := rx_hdr r ++ le16 (rx_len r).
Definition rx_seen (r : wups_rx) : list Z :=
  match rx_state r with
  | WUPS_RX_SYNC1 => []
  | WUPS_RX_SYNC2 => take 1 (rx_hdr r)
  | WUPS_RX_DST => take 2 (rx_hdr r)
  | WUPS_RX_SRC => take 3 (rx_hdr r)
  | WUPS_RX_CLASS => take 4 (rx_hdr r)
  | WUPS_RX_OP => take 5 (rx_hdr r)
  | WUPS_RX_FLAGS => take 6 (rx_hdr r)
  | WUPS_RX_SEQ => take 7 (rx_hdr r)
  | WUPS_RX_LEN_L => rx_hdr r
  | WUPS_RX_LEN_H => rx_hdr r ++ [rx_len r]
  | WUPS_RX_PAYLOAD => rx_body r ++ take (Z.to_nat (rx_pidx r)) (rx_payload r)
  | WUPS_RX_CK_A => rx_body r ++ f_payload (rx_frame r)
  | WUPS_RX_CK_B => rx_body r ++ f_payload (rx_frame r) ++ [rx_ck_a r]
  | WUPS_RX_END1 => rx_body r ++ f_payload (rx_frame r) ++ [rx_ck_a r; rx_ck_b r]
  | WUPS_RX_END2 => rx_body r ++ f_payload (rx_frame r) ++ [rx_ck_a r; rx_ck_b r; WUPS_END1]
  end.

(** The running checksum and the length bounds of a locked machine. *)
Definition rx_covered (r : wups_rx) (l : list Z) : Prop :=
  (exp_a r, exp_b r) = wups_fletcher8 (drop 2 l).
Definition rx_locked (r : wups_rx) : Prop :=
  match rx_state r with
  | WUPS_RX_SYNC1 | WUPS_RX_SYNC2 => True
  | WUPS_RX_LEN_H => rx_covered r (rx_seen r) /\ rx_pidx r = 0 /\ is_u8 (rx_len r)
  | WUPS_RX_PAYLOAD => rx_covered r (rx_seen r) /\ 0 <= rx_pidx r < rx_len r /\ rx_len r <= 240
  | WUPS_RX_CK_A | WUPS_RX_CK_B =>
      rx_covered r (rx_body r ++ f_payload (rx_frame r)) /\ 0 <= rx_len r <= 240
  | WUPS_RX_END1 | WUPS_RX_END2 =>
      rx_covered r (rx_body r ++ f_payload (rx_frame r)) /\ 0 <= rx_len r <= 240 /\
      rx_ck_a r = exp_a r /\ rx_ck_b r = exp_b r
  | _ => rx_covered r (rx_seen r) /\ rx_pidx r = 0
  end.

(** What every reachable receiver state satisfies. *)
Definition rx_sane (r : wups_rx) : Prop :=
  length (rx_payload r) = 240%nat /\ all_u8 (rx_payload r) /\ all_u8 (drop 2 (rx_hdr r)).
Definition rx_inv (r : wups_rx) : Prop := rx_sane r /\ rx_locked r.

Section Deframer.
Implicit Types (r : wups_rx) (b : Z).

Lemma rx_covered_step r l b :
  (2 <= length l)%nat -> rx_covered r l -> rx_covered (wups_rx_step b r) (l ++ [b]).
Proof.
  unfold rx_covered; intros Hl H; rewrite drop_app_le, fletcher_snoc, <- H by done; done.
Qed.

Lemma rx_inv_init : rx_inv wups_rx_init.
Proof.
  split_and!; try done; repeat constructor; cbn; lia.
Qed.

(** LEN_H assembles the little-endian length. *)
Lemma lor_le16 lo hi : is_u8 lo -> is_u8 hi -> Z.lor lo (u16 (Z.shiftl hi 8)) = lo + 256 * hi.
Proof.
  intros; rewrite u16_small by (rewrite Z.shiftl_mul_pow2; lia).
  rewrite lor_shiftl; change (2 ^ 8) with 256; lia.
Qed.

Lemma all_u8_insert (i : nat) b (l : list Z) : is_u8 b -> all_u8 l -> all_u8 (<[i:=b]> l).
Proof. intros; apply Forall_insert; done. Qed.

Lemma take_insert_S (i : nat) b (l : list Z) :
  (i < length l)%nat -> take (S i) (<[i:=b]> l) = take i l ++ [b].
Proof.
  intros; erewrite take_S_r by (apply list_lookup_insert_eq; done).
  rewrite take_insert_ge by lia; done.
Qed.

Lemma covered_snoc r l b :
  (exp_a r, exp_b r) = wups_fletcher8 l ->
  (u8 (exp_a r + b), u8 (exp_b r + u8 (exp_a r + b))) = wups_fletcher8 (l ++ [b]).
Proof. intros H; rewrite fletcher_snoc, <- H; done. Qed.

(** The statement of [rx_step_inv] for one step. *)
Definition step_ok r b (res : wups_rx * option frame) : Prop :=
  rx_inv res.1 /\ rx_seen res.1 `suffix_of` rx_seen r ++ [b] /\
  (forall f, res.2 = Some f -> frame_wf f /\ frame_bytes f = rx_seen r ++ [b]).

Lemma step_ok_reset_with r r0 b :
  rx_sane r -> step_ok r0 b (wups_rx_reset_with b r, None).
Proof.
  intros (Hlen & Hp & Hf); unfold step_ok, rx_inv, rx_locked, wups_rx_reset_with, rx_seen.
  destruct (Z.eqb_spec b WUPS_SYNC1) as [->|Hne]; cbn; split_and!; try done.
  - exists (rx_seen r0); done.
  - apply suffix_nil.
Qed.

Lemma step_header r b :
  is_u8 b -> rx_inv r ->
  match rx_state r with
  | WUPS_RX_DST | WUPS_RX_SRC | WUPS_RX_CLASS | WUPS_RX_OP | WUPS_RX_FLAGS
  | WUPS_RX_SEQ | WUPS_RX_LEN_L => step_ok r b (wups_rx_byte r b)
  | _ => True
  end.
Proof.
  intros Hb ((Hlen & Hp & Hf) & Hl); unfold rx_locked, rx_covered, rx_seen in Hl.
  destruct (rx_state r) eqn:Hs; try done; unfold wups_rx_byte; rewrite Hs;
    cbn -[wups_fletcher8] in Hl, Hf; destruct Hl as (Hc & Hl);
    unfold step_ok, rx_inv, rx_sane, rx_locked, rx_covered, rx_seen; rewrite Hs;
    cbn -[u8 wups_fletcher8]; unfold all_u8 in Hf;
    repeat match goal with H : Forall _ (_ :: _) |- _ => inversion_clear H end;
    split_and!; try done;
    try apply (covered_snoc _ _ _ Hc); repeat constructor; lia.
Qed.

Lemma step_len_h r b :
  is_u8 b -> rx_inv r -> rx_state r = WUPS_RX_LEN_H -> step_ok r b (wups_rx_byte r b).
Proof.
  intros Hb ((Hlen & Hp & Hf) & Hl) Hs; unfold rx_locked, rx_covered, rx_seen in Hl.
  unfold wups_rx_byte; rewrite Hs in *; cbn -[wups_fletcher8] in Hl, Hf.
  destruct Hl as (Hc & Hi & Hn).
  cbn -[u8 u16 Z.shiftl Z.lor wups_rx_reset_with]; rewrite lor_le16 by done.
  destruct (Z.ltb_spec WUPS_MAX_PAYLOAD (rx_len r + 256 * b)).
  { apply step_ok_reset_with; done. }
  assert (Hcov : (u8 (exp_a r + b), u8 (exp_b r + u8 (exp_a r + b))) =
                 wups_fletcher8 (drop 2 (rx_hdr r) ++ [rx_len r; b])).
  { apply (covered_snoc _ _ _ Hc). }
  unfold step_ok, rx_inv, rx_sane, rx_locked, rx_covered, rx_seen, rx_body; rewrite Hs.
  unfold WUPS_MAX_PAYLOAD in *.
  destruct (Z.eqb_spec (rx_len r + 256 * b) 0) as [Hz|Hz];
    cbn -[u8 wups_fletcher8 le_bytes]; rewrite le16_split by done.
  - rewrite Hz; split_and!; try done; lia.
  - rewrite Hi; split_and!; try done; lia.
Qed.

Lemma step_payload r b :
  is_u8 b -> rx_inv r -> rx_state r = WUPS_RX_PAYLOAD -> step_ok r b (wups_rx_byte r b).
Proof.
  intros Hb ((Hlen & Hp & Hf) & Hl) Hs; unfold rx_locked, rx_covered, rx_seen in Hl.
  unfold wups_rx_byte; rewrite Hs in *; cbn -[wups_fletcher8] in Hl, Hf.
  destruct Hl as (Hc & Hi & Hn).
  assert (Hi' : (Z.to_nat (rx_pidx r) < length (rx_payload r))%nat) by lia.
  pose proof (take_insert_S _ b _ Hi') as Htk.
  replace (S (Z.to_nat (rx_pidx r))) with (Z.to_nat (rx_pidx r + 1)) in Htk by lia.
  apply (covered_snoc _ _ b) in Hc; cbn in Hc; unfold step_ok, rx_inv, rx_sane.
  unfold rx_locked, rx_covered, rx_seen, rx_body; rewrite Hs; cbn.
  rewrite u16_small by lia; destruct (Z.leb_spec (rx_len r) (rx_pidx r + 1)); cbn.
  - replace (rx_len r) with (rx_pidx r + 1) in * by lia; rewrite Htk.
    split_and!; try done; rewrite ?length_insert; auto using all_u8_insert; lia.
  - rewrite Hs; cbn; rewrite Htk.
    split_and!; try done; rewrite ?length_insert; auto using all_u8_insert; lia.
Qed.

Lemma step_trailer r b :
  is_u8 b -> rx_inv r ->
  match rx_state r with
  | WUPS_RX_SYNC1 | WUPS_RX_SYNC2 | WUPS_RX_CK_A | WUPS_RX_CK_B | WUPS_RX_END1 =>
      step_ok r b (wups_rx_byte r b)
  | _ => True
  end.
Proof.
  intros Hb (Hsane & Hl); unfold rx_locked, rx_covered, rx_seen in Hl.
  destruct (rx_state r) eqn:Hs; try done; unfold wups_rx_byte; rewrite Hs; cbn in Hl;
    repeat case_match; to_prop; subst; try (apply step_ok_reset_with; done);
    unfold step_ok, rx_inv, rx_locked, rx_covered, rx_seen; rewrite Hs; cbn; rewrite ?Hs;
    split_and!; try done; try apply suffix_nil; try (destruct Hl as (? & ? & ?); done);
    try lia; try (exists []; rewrite <- ?app_assoc; done).
Qed.

Lemma frame_bytes_rx r :
  rx_sane r -> 0 <= rx_len r <= 240 ->
  rx_covered r (rx_body r ++ f_payload (rx_frame r)) ->
  frame_wf (rx_frame r) /\
  frame_bytes (rx_frame r) =
    rx_body r ++ f_payload (rx_frame r) ++ [exp_a r; exp_b r; WUPS_END1; WUPS_END2].
Proof.
  intros (Hlen & Hp & Hf) Hn Hc; unfold rx_covered in Hc.
  assert (Hpl : frame_len (rx_frame r) = rx_len r).
  { unfold frame_len; cbn; rewrite length_take, Hlen; lia. }
  split; [unfold frame_wf; rewrite Hpl; split_and!; [done|apply all_u8_take; done|]|].
  { unfold WUPS_MAX_PAYLOAD; lia. }
  change (drop 2 (rx_body r ++ f_payload (rx_frame r)))
    with (frame_ids (rx_frame r) ++ le16 (rx_len r) ++ f_payload (rx_frame r)) in Hc.
  unfold frame_bytes, frame_body; rewrite Hpl, <- Hc; unfold rx_body, rx_hdr.
  rewrite <- !app_assoc; done.
Qed.

Lemma step_end2 r b :
  is_u8 b -> rx_inv r -> rx_state r = WUPS_RX_END2 -> step_ok r b (wups_rx_byte r b).
Proof.
  intros Hb (Hsane & Hl) Hs; unfold rx_locked in Hl; rewrite Hs in Hl.
  destruct Hl as (Hc & Hn & Ha & Hb').
  pose proof (frame_bytes_rx r Hsane Hn Hc) as (Hwf & Hfb).
  unfold wups_rx_byte; rewrite Hs; destruct (Z.eqb_spec b WUPS_END2) as [->|].
  2: { apply step_ok_reset_with; done. }
  unfold step_ok; split_and!; [done|apply suffix_nil|].
  intros f [= <-]; split; [done|]; unfold rx_seen; rewrite Hs, Hfb, Ha, Hb'.
  rewrite <- !app_assoc; done.
Qed.

(** One step from any state of the invariant. *)
Lemma rx_step_inv r b : is_u8 b -> rx_inv r -> step_ok r b (wups_rx_byte r b).
Proof.
  intros Hb Hr; pose proof (step_header r b Hb Hr); pose proof (step_trailer r b Hb Hr).
  destruct (rx_state r) eqn:Hs; auto using step_len_h, step_payload, step_end2.
Qed.

Lemma feed_snoc r bs b :
  feed r (bs ++ [b]) =
  ((wups_rx_byte (feed r bs).1 b).1, (feed r bs).2 ++ [(wups_rx_byte (feed r bs).1 b).2]).
Proof.
  unfold feed; rewrite run_app; destruct (run wups_rx_byte r bs) as [r1 os]; cbn.
  destruct (wups_rx_byte r1 b); done.
Qed.

Lemma feed_cons r b bs :
  feed r (b :: bs) =
  let (r1, o) := wups_rx_byte r b in let (r2, os) := feed r1 bs in (r2, o :: os).
Proof. done. Qed.

(** After any prefix the matched bytes are a suffix of what was consumed. *)
Lemma feed_inv bs :
  all_u8 bs -> rx_inv (feed wups_rx_init bs).1 /\
               rx_seen (feed wups_rx_init bs).1 `suffix_of` bs.
Proof.
  induction bs as [|b bs IH] using rev_ind; intros Hbs.
  - split; [apply rx_inv_init|apply suffix_nil].
  - apply all_u8_app in Hbs as [Hbs Hb]; destruct (IH Hbs) as [Hi Hsf].
    inversion_clear Hb as [|? ? Hb' _].
    rewrite feed_snoc; cbn; destruct (rx_step_inv _ b Hb' Hi) as (? & Hsf' & _).
    split; [done|]; etrans; [exact Hsf'|].
    destruct Hsf as [k Hk]; exists k; rewrite app_assoc, <- Hk; done.
Qed.

(** *** A frame through the machine, phase by phase *)

Lemma feed_app r l1 l2 :
  feed r (l1 ++ l2) =
  let (r1, os1) := feed r l1 in let (r2, os2) := feed r1 l2 in (r2, os1 ++ os2).
Proof. apply run_app. Qed.

Definition hunting r : Prop := rx_state r = WUPS_RX_SYNC1 \/ rx_state r = WUPS_RX_SYNC2.

(** The state after a header, whatever the machine held before. *)
Definition after_header (f : frame) r : wups_rx :=
  let ck := wups_fletcher8 (frame_ids f ++ le16 (frame_len f)) in
  WupsRx (if frame_len f =? 0 then WUPS_RX_CK_A else WUPS_RX_PAYLOAD)
    (f_dst f) (f_src f) (f_cls f) (f_op f) (f_flags f) (f_seq f) (frame_len f)
    0 (rx_payload r) (rx_ck_a r) (rx_ck_b r) ck.1 ck.2.

Lemma feed_lock r l :
  hunting r ->
  feed r (WUPS_SYNC1 :: WUPS_SYNC2 :: l) =
  let (r', os) := feed (r <| exp_a := 0 |> <| exp_b := 0 |> <| rx_pidx := 0 |>
                          <| rx_state := WUPS_RX_DST |>) l in (r', None :: None :: os).
Proof.
  intros Hr; rewrite !feed_cons; unfold wups_rx_byte at 1.
  destruct Hr as [-> | ->]; cbn; destruct (feed _ l); done.
Qed.

(** One header byte: its field is stored and the checksum pair advances. *)
Lemma byte_fields d s c o fl sq n i p ka kb ck b :
  let st q d s c o fl sq n ck := WupsRx q d s c o fl sq n i p ka kb ck.1 ck.2 in
  let ck' := fletcher_step ck b in
  wups_rx_byte (st WUPS_RX_DST d s c o fl sq n ck) b = (st WUPS_RX_SRC b s c o fl sq n ck', None) /\
  wups_rx_byte (st WUPS_RX_SRC d s c o fl sq n ck) b = (st WUPS_RX_CLASS d b c o fl sq n ck', None) /\
  wups_rx_byte (st WUPS_RX_CLASS d s c o fl sq n ck) b = (st WUPS_RX_OP d s b o fl sq n ck', None) /\
  wups_rx_byte (st WUPS_RX_OP d s c o fl sq n ck) b = (st WUPS_RX_FLAGS d s c b fl sq n ck', None) /\
  wups_rx_byte (st WUPS_RX_FLAGS d s c o fl sq n ck) b = (st WUPS_RX_SEQ d s c o b sq n ck', None) /\
  wups_rx_byte (st WUPS_RX_SEQ d s c o fl sq n ck) b = (st WUPS_RX_LEN_L d s c o fl b n ck', None) /\
  wups_rx_byte (st WUPS_RX_LEN_L d s c o fl sq n ck) b = (st WUPS_RX_LEN_H d s c o fl sq b ck', None).
Proof. split_and!; reflexivity. Qed.

Lemma byte_len_h d s c o fl sq lo i p ka kb ck hi :
  let n := Z.lor lo (u16 (Z.shiftl hi 8)) in
  let ck' := fletcher_step ck hi in
  n <= WUPS_MAX_PAYLOAD ->
  wups_rx_byte (WupsRx WUPS_RX_LEN_H d s c o fl sq lo i p ka kb ck.1 ck.2) hi =
  (WupsRx (if n =? 0 then WUPS_RX_CK_A else WUPS_RX_PAYLOAD) d s c o fl sq n i p ka kb ck'.1 ck'.2,
   None).
Proof.
  intros n ck' Hn; apply Z.ltb_ge in Hn; unfold wups_rx_byte.
  cbn [rx_state rx_len upd wups_rx_step]; cbv zeta; fold n; clearbody n.
  cbn -[Z.ltb Z.eqb]; rewrite Hn; done.
Qed.

Lemma feed_fields d0 s0 c0 o0 fl0 sq0 n0 i p ka kb ck0 d s c o fl sq lo hi :
  let n := Z.lor lo (u16 (Z.shiftl hi 8)) in
  let ck := fold_left fletcher_step [d; s; c; o; fl; sq; lo; hi] ck0 in
  n <= WUPS_MAX_PAYLOAD ->
  feed (WupsRx WUPS_RX_DST d0 s0 c0 o0 fl0 sq0 n0 i p ka kb ck0.1 ck0.2)
    [d; s; c; o; fl; sq; lo; hi] =
  (WupsRx (if n =? 0 then WUPS_RX_CK_A else WUPS_RX_PAYLOAD) d s c o fl sq n i p ka kb ck.1 ck.2,
   replicate 8 None).
Proof.
  intros n ck Hn; subst ck; cbn [fold_left].
  do 7 (rewrite feed_cons; match goal with
    |- context [wups_rx_byte (WupsRx _ ?d ?s ?c ?o ?f ?q ?n ?i ?p ?ka ?kb (fst ?ck) _) ?b] =>
      destruct (byte_fields d s c o f q n i p ka kb ck b) as (E1 & E2 & E3 & E4 & E5 & E6 & E7)
    end; first [rewrite E1 | rewrite E2 | rewrite E3 | rewrite E4 | rewrite E5 | rewrite E6
               | rewrite E7]; clear E1 E2 E3 E4 E5 E6 E7).
  rewrite feed_cons, byte_len_h by done; done.
Qed.

Lemma feed_header f r :
  hunting r -> frame_len f <= WUPS_MAX_PAYLOAD ->
  feed r ([WUPS_SYNC1; WUPS_SYNC2] ++ frame_ids f ++ le16 (frame_len f)) =
  (after_header f r, replicate 10 None).
Proof.
  unfold WUPS_MAX_PAYLOAD; intros Hr Hn; assert (0 <= frame_len f) by (unfold frame_len; lia).
  assert (He : Z.lor (u8 (frame_len f)) (u16 (Z.shiftl (u8 (frame_len f / 256)) 8)) =
               frame_len f).
  { assert (frame_len f / 256 = 0) as -> by (apply Z.div_small; lia).
    rewrite lor_le16 by apply u8_range; change (u8 0) with 0; rewrite u8_small; lia. }
  unfold frame_ids; cbn [app le_bytes]; rewrite feed_lock by done.
  destruct r as [? d s c o fl sq n i p ka kb ea eb].
  pose proof (feed_fields d s c o fl sq n 0 p ka kb (0, 0) (f_dst f) (f_src f) (f_cls f) (f_op f)
    (f_flags f) (f_seq f) (u8 (frame_len f)) (u8 (frame_len f / 256))) as Hf.
  rewrite He in Hf; cbn [fst snd] in Hf; specialize (Hf Hn).
  match goal with |- context [feed ?x ?l] => pose proof (Hf : feed x l = _) as -> end; done.
Qed.

Lemma feed_payload l r :
  rx_state r = WUPS_RX_PAYLOAD -> length (rx_payload r) = 240%nat -> l <> [] ->
  0 <= rx_pidx r -> rx_len r = rx_pidx r + Z.of_nat (length l) -> rx_len r <= 240 ->
  exists r', feed r l = (r', replicate (length l) None) /\ rx_state r' = WUPS_RX_CK_A /\
    length (rx_payload r') = 240%nat /\
    rx_frame r' = Frame (rx_dst r) (rx_src r) (rx_cls r) (rx_op r) (rx_flags r) (rx_seq r)
                    (take (Z.to_nat (rx_pidx r)) (rx_payload r) ++ l) /\
    (exp_a r', exp_b r') = fold_left fletcher_step l (exp_a r, exp_b r).
Proof.
  revert r; induction l as [|b l IH]; intros r Hs Hlen Hne Hi Hn Hn'; [done|clear Hne].
  cbn [length] in Hn; rewrite feed_cons; unfold wups_rx_byte; rewrite Hs; cbn.
  assert (Hi' : (Z.to_nat (rx_pidx r) < length (rx_payload r))%nat) by lia.
  pose proof (take_insert_S _ b _ Hi') as Htk.
  replace (S (Z.to_nat (rx_pidx r))) with (Z.to_nat (rx_pidx r + 1)) in Htk by lia.
  rewrite u16_small by lia; destruct (Z.leb_spec (rx_len r) (rx_pidx r + 1)) as [Hle|Hgt].
  - assert (l = []) as -> by (destruct l; [done|cbn in Hn; lia]); cbn.
    eexists; split; [reflexivity|]; cbn; split_and!; try done.
    + rewrite length_insert; done.
    + unfold rx_frame; cbn; replace (rx_len r) with (rx_pidx r + 1) by (cbn in Hn; lia).
      rewrite Htk; done.
  - destruct (IH (wups_rx_step b (r <| rx_payload := <[Z.to_nat (rx_pidx r):=b]> (rx_payload r) |>
                 <| rx_pidx := rx_pidx r + 1 |>))) as (r' & Hf & ? & ? & Hfr & Hck).
    1-6: cbn; rewrite ?length_insert; try done; try lia; intros ->; cbn in *; lia.
    rewrite Hf; exists r'; split_and!; try done.
    rewrite Hfr; cbn; rewrite Htk, <- app_assoc; done.
Qed.

Lemma feed_trailer r :
  rx_state r = WUPS_RX_CK_A ->
  let r' := r <| rx_ck_a := exp_a r |> <| rx_ck_b := exp_b r |> <| rx_state := WUPS_RX_SYNC1 |> in
  feed r [exp_a r; exp_b r; WUPS_END1; WUPS_END2] = (r', [None; None; None; Some (rx_frame r)]).
Proof.
  destruct r as [st]; cbn; intros ->; cbn -[Z.eqb]; rewrite !Z.eqb_refl; done.
Qed.

Lemma feed_body f r :
  hunting r -> length (rx_payload r) = 240%nat -> frame_len f <= WUPS_MAX_PAYLOAD ->
  exists r', feed r ([WUPS_SYNC1; WUPS_SYNC2] ++ frame_body f) =
             (r', replicate (10 + length (f_payload f)) None) /\
    rx_state r' = WUPS_RX_CK_A /\ length (rx_payload r') = 240%nat /\ rx_frame r' = f /\
    (exp_a r', exp_b r') = wups_fletcher8 (frame_body f).
Proof.
  intros Hr Hlen Hn; unfold frame_body.
  pose proof (feed_header f r Hr Hn) as Hh.
  destruct (decide (f_payload f = [])) as [Hp|Hp].
  - rewrite Hp, app_nil_r, Hh; exists (after_header f r); unfold after_header, rx_frame, frame_len.
    rewrite Hp; destruct f; cbn in Hp; subst; done.
  - assert (Hz : frame_len f <> 0) by (unfold frame_len; destruct (f_payload f); done).
    destruct (feed_payload (f_payload f) (after_header f r)) as (r' & Hf & ? & ? & Hfr & Hck);
      try done.
    { unfold after_header; cbn [rx_state]; destruct (Z.eqb_spec (frame_len f) 0); done. }
    exists r'; split_and!; [|done|done| |].
    + change (([WUPS_SYNC1; WUPS_SYNC2] ++ frame_ids f ++ le16 (frame_len f) ++ f_payload f))
        with (([WUPS_SYNC1; WUPS_SYNC2] ++ frame_ids f ++ le16 (frame_len f)) ++ f_payload f).
      rewrite feed_app, Hh, Hf, <- replicate_add; done.
    + rewrite Hfr; destruct f; done.
    + rewrite Hck; unfold after_header; cbn [exp_a exp_b]; rewrite <- surjective_pairing.
      unfold wups_fletcher8; rewrite (app_assoc (frame_ids f)); symmetry; apply fletcher_app.
Qed.

(** A whole frame from a hunting machine: silence, then that frame. *)
Lemma feed_frame f r :
  hunting r -> length (rx_payload r) = 240%nat -> frame_len f <= WUPS_MAX_PAYLOAD ->
  exists r', feed r (frame_bytes f) =
             (r', replicate (13 + length (f_payload f)) None ++ [Some f]) /\
    rx_state r' = WUPS_RX_SYNC1 /\ length (rx_payload r') = 240%nat.
Proof.
  intros Hr Hlen Hn; destruct (feed_body f r Hr Hlen Hn) as (r1 & Hf & Hs & Hl & Hfr & Hck).
  pose proof (feed_trailer r1 Hs) as Ht; unfold frame_bytes; rewrite <- Hck; cbn [fst snd].
  eexists (r1 <| rx_ck_a := _ |> <| rx_ck_b := _ |> <| rx_state := WUPS_RX_SYNC1 |>).
  rewrite app_assoc, feed_app, Hf, Ht, Hfr; split_and!; [f_equal|done|done].
  change [None; None; None; Some f] with (replicate 3 None ++ [Some f]).
  rewrite app_assoc, <- replicate_add; do 2 f_equal; lia.
Qed.

(** Bytes other than SYNC1 between frames are skipped. *)
Lemma feed_idle l r :
  rx_state r = WUPS_RX_SYNC1 -> Forall (fun b => b <> WUPS_SYNC1) l ->
  feed r l = (r, replicate (length l) None).
Proof.
  intros Hs; induction l as [|b l IH]; intros Hl; [done|].
  inversion_clear Hl as [|? ? Hb Hl']; rewrite feed_cons; unfold wups_rx_byte; rewrite Hs.
  destruct (Z.eqb_spec b WUPS_SYNC1); [done|]; rewrite IH by done; done.
Qed.

Lemma omap_replicate_None n : omap id (replicate n (@None frame)) = [].
Proof. induction n; done. Qed.

(** *** Guard bytes flush the machine *)

(** Zero bytes needed to bring the machine back to the hunting state. *)
Definition togo r : Z :=
  match rx_state r with
  | WUPS_RX_SYNC1 => 0
  | WUPS_RX_SYNC2 => 1
  | WUPS_RX_DST => 11 | WUPS_RX_SRC => 10 | WUPS_RX_CLASS => 9 | WUPS_RX_OP => 8
  | WUPS_RX_FLAGS => 7 | WUPS_RX_SEQ => 6 | WUPS_RX_LEN_L => 5
  | WUPS_RX_LEN_H => if WUPS_MAX_PAYLOAD <? rx_len r then 1 else 4 + rx_len r
  | WUPS_RX_PAYLOAD => 3 + rx_len r - rx_pidx r
  | WUPS_RX_CK_A => 3 | WUPS_RX_CK_B => 2 | WUPS_RX_END1 => 1 | WUPS_RX_END2 => 1
  end.

Lemma togo_range r : rx_inv r -> 0 <= togo r <= 244.
Proof.
  intros [_ Hl]; unfold rx_locked, rx_covered, togo, WUPS_MAX_PAYLOAD in *.
  destruct (rx_state r); split_ifs; lia.
Qed.

Lemma togo_step r :
  rx_inv r -> let '(r', o) := wups_rx_byte r WUPS_GUARD_BYTE in
  o = None /\ togo r' <= Z.max 0 (togo r - 1).
Proof.
  intros [(Hlen & _ & _) Hl]; unfold rx_locked, rx_covered, togo, wups_rx_byte in *.
  destruct (rx_state r) eqn:Hs; cbn -[Z.lor Z.ltb]; rewrite ?Hs; try (split; [done|lia]).
  - split; [done|vm_compute; congruence].
  - change (u16 (Z.shiftl WUPS_GUARD_BYTE 8)) with 0; rewrite Z.lor_0_r.
    destruct (Z.ltb_spec WUPS_MAX_PAYLOAD (rx_len r)); cbn; [split; [done|lia]|].
    destruct (Z.eqb_spec (rx_len r) 0); cbn; split; try done; lia.
  - rewrite u16_small by lia; destruct (Z.leb_spec (rx_len r) (rx_pidx r + 1)); cbn;
      rewrite ?Hs; split; try done; lia.
  - destruct (_ && _); cbn; split; try done; lia.
Qed.

Lemma feed_guards (n : nat) r :
  rx_inv r -> let '(r', os) := feed r (replicate n WUPS_GUARD_BYTE) in
  os = replicate n None /\ rx_inv r' /\ togo r' <= Z.max 0 (togo r - Z.of_nat n).
Proof.
  revert r; induction n as [|n IH]; intros r Hr.
  - cbn; pose proof (togo_range r Hr); split_and!; [done|done|lia].
  - cbn [replicate]; rewrite feed_cons; pose proof (togo_step r Hr) as Ht.
    pose proof (rx_step_inv r WUPS_GUARD_BYTE ltac:(unfold WUPS_GUARD_BYTE; lia) Hr) as (Hi & _).
    destruct (wups_rx_byte r WUPS_GUARD_BYTE) as [r1 o]; destruct Ht as [-> Ht].
    specialize (IH r1 Hi); destruct (feed r1 _) as [r2 os]; destruct IH as (-> & ? & ?).
    split_and!; [done|done|lia].
Qed.

Lemma togo_0 r : rx_inv r -> togo r <= 0 -> rx_state r = WUPS_RX_SYNC1.
Proof.
  intros [_ Hl]; unfold rx_locked, togo in *; destruct (rx_state r); split_ifs; lia || done.
Qed.

Lemma feed_frames l r :
  rx_state r = WUPS_RX_SYNC1 -> length (rx_payload r) = 240%nat ->
  Forall (fun gf => Forall (fun b => b <> WUPS_SYNC1) gf.1 /\ frame_len gf.2 <= WUPS_MAX_PAYLOAD) l ->
  delivered r (concat (map (fun gf : list Z * frame => gf.1 ++ frame_bytes gf.2) l)) = map snd l.
Proof.
  revert r; induction l as [|[g f] l IH]; intros r Hs Hlen Hl; [done|].
  inversion_clear Hl as [|? ? [Hg Hf] Hl']; cbn [fst snd map concat] in *.
  unfold delivered; rewrite <- app_assoc, feed_app, feed_idle, feed_app by done.
  destruct (feed_frame f r (or_introl Hs) Hlen Hf) as (r' & -> & Hs' & Hlen').
  specialize (IH r' Hs' Hlen' Hl'); unfold delivered in IH.
  destruct (feed r' _) as [r2 os]; cbn [snd] in *.
  rewrite !omap_app, !omap_replicate_None, IH; done.
Qed.

(** A trailing guard byte delivers nothing: no state but END2 delivers, and
    END2 wants another byte. *)
Lemma delivered_app_guard r bs :
  delivered r (bs ++ [WUPS_GUARD_BYTE]) = delivered r bs.
Proof.
  unfold delivered; rewrite feed_app; destruct (feed r bs) as [r1 os].
  assert (H : (feed r1 [WUPS_GUARD_BYTE]).2 = [None]).
  { cbn -[wups_rx_byte]; unfold wups_rx_byte; repeat case_match; try done.
    all: repeat match goal with H : (_, _) = (_, _) |- _ => injection H as <- <- end; done. }
  destruct (feed r1 _) as [r2 os2]; cbn in *; subst; rewrite omap_app; apply app_nil_r.
Qed.
End Deframer.

#[global] Arguments delivered : simpl never.

(** ** Properties *)

(** C1: the deframer is sound.  Whatever bytes arrive, a frame is handed to the
    command handler only at the byte that completes its exact wire image: the
    image, sync pair to END2 with the matching checksum, is a suffix of the
    input, the fields are bytes and the payload is within the protocol's bound. *)
Theorem deframer_sound bs b f :
  all_u8 (bs ++ [b]) ->
  (wups_rx_byte (feed wups_rx_init bs).1 b).2 = Some f ->
  frame_wf f /\ frame_bytes f `suffix_of` bs ++ [b].
Proof.
  intros Hbs Hf; apply all_u8_app in Hbs as [Hbs Hb].
  inversion_clear Hb as [|? ? Hb' _]; destruct (feed_inv bs Hbs) as [Hi [k Hk]].
  destruct (rx_step_inv _ b Hb' Hi) as (_ & _ & Hout); destruct (Hout f Hf) as [? Hfb].
  split; [done|]; exists k; rewrite Hfb, app_assoc, <- Hk; done.
Qed.

Definition ping_frame : frame := Frame WUPS_ADDR_CH32X WUPS_ADDR_RP2040 WUPS_CLASS_SYSTEM
  WUPS_OP_SYS_PING WUPS_FLAG_REQ 7 [].

Lemma deframer_sound_witness :
  frame_wf ping_frame /\ frame_bytes ping_frame `suffix_of` (1 :: removelast (frame_bytes ping_frame)) ++ [170].
Proof.
  apply (deframer_sound (1 :: removelast (frame_bytes ping_frame)) 170 ping_frame).
  - vm_compute; repeat constructor; discriminate.
  - vm_compute; reflexivity.
Defined.

(** Streams round-trip.  Frames of at most 240 payload bytes, separated by
    any bytes other than SYNC1 (the senders put a guard byte), are delivered
    exactly once each, in order, with nothing else. *)
Theorem deframer_roundtrip l :
  Forall (fun gf => Forall (fun b => b <> WUPS_SYNC1) gf.1 /\ frame_len gf.2 <= WUPS_MAX_PAYLOAD) l ->
  delivered wups_rx_init (concat (map (fun gf : list Z * frame => gf.1 ++ frame_bytes gf.2) l)) =
  map snd l.
Proof. intros Hl; apply feed_frames; done. Qed.

Lemma deframer_roundtrip_witness :
  delivered wups_rx_init ([0] ++ frame_bytes ping_frame ++ [85] ++ frame_bytes ping_frame) =
  [ping_frame; ping_frame].
Proof.
  apply (deframer_roundtrip [([0], ping_frame); ([85], ping_frame)]).
  repeat constructor; cbn; try discriminate; unfold frame_len; cbn; lia.
Defined.

(** C2: the deframer recovers from anything.  Whatever bytes were received before
    (a truncated frame, noise that locked onto a false header), 244 guard bytes
    bring it back, and the next frame is delivered with nothing made up in
    between; 244 is the longest frame tail, so the receiver never stays stuck. *)
Theorem deframer_recovers bs (n : nat) f :
  all_u8 bs -> (244 <= n)%nat -> frame_len f <= WUPS_MAX_PAYLOAD ->
  delivered wups_rx_init (bs ++ replicate n WUPS_GUARD_BYTE ++ frame_bytes f) =
  delivered wups_rx_init bs ++ [f].
Proof.
  intros Hbs Hn Hf; destruct (feed_inv bs Hbs) as [Hi _]; unfold delivered.
  rewrite !feed_app; destruct (feed wups_rx_init bs) as [r0 os0]; cbn [fst] in *.
  pose proof (feed_guards n r0 Hi) as Hg; rewrite feed_app.
  destruct (feed r0 (replicate n _)) as [r1 os1]; destruct Hg as (-> & Hi1 & Hto).
  pose proof (togo_range r0 Hi); apply togo_0 in Hi1 as Hs; [|lia].
  destruct Hi1 as [(Hlen & _) _].
  destruct (feed_frame f r1 (or_introl Hs) Hlen Hf) as (r2 & -> & _); cbn [snd].
  rewrite !omap_app, !omap_replicate_None; done.
Qed.

Lemma deframer_recovers_witness :
  delivered wups_rx_init ([170; 85; 3; 2; 1; 1; 1; 1; 240; 0; 9] ++ replicate 244 0 ++
                          frame_bytes ping_frame) = [] ++ [ping_frame].
Proof.
  apply (deframer_recovers [170; 85; 3; 2; 1; 1; 1; 1; 240; 0; 9] 244 ping_frame).
  - repeat constructor; discriminate.
  - lia.
  - unfold frame_len; cbn; unfold WUPS_MAX_PAYLOAD; lia.
Defined.

(** The receive buffer is never overrun.  In every reachable state the store
    [payload[pidx++]] of the PAYLOAD case is inside the 240-byte array, and the
    [len] bytes the handler may read in the later states were all received. *)
Theorem deframer_memory_safe bs :
  all_u8 bs ->
  let r := (feed wups_rx_init bs).1 in
  length (rx_payload r) = Z.to_nat WUPS_MAX_PAYLOAD /\
  (rx_state r = WUPS_RX_PAYLOAD -> 0 <= rx_pidx r < rx_len r /\ rx_len r <= WUPS_MAX_PAYLOAD) /\
  (rx_state r = WUPS_RX_END2 -> 0 <= rx_len r <= WUPS_MAX_PAYLOAD /\
     exists pre, bs = pre ++ rx_body r ++ f_payload (rx_frame r) ++
                      [rx_ck_a r; rx_ck_b r; WUPS_END1]).
Proof.
  intros Hbs r; destruct (feed_inv bs Hbs) as [[(Hlen & _) Hl] [k Hk]]; fold r in Hlen, Hl, Hk.
  unfold rx_locked, rx_seen in *; split_and!; [done|intros Hs|intros Hs]; rewrite Hs in *.
  - destruct Hl as (_ & ? & ?); done.
  - destruct Hl as (_ & ? & _); eauto.
Qed.

Lemma deframer_memory_safe_witness :
  let r := (feed wups_rx_init (removelast (frame_bytes ping_frame))).1 in
  rx_state r = WUPS_RX_END2 /\ 0 <= rx_len r <= WUPS_MAX_PAYLOAD.
Proof.
  split; [vm_compute; reflexivity|].
  apply (deframer_memory_safe (removelast (frame_bytes ping_frame))).
  - vm_compute; repeat constructor; discriminate.
  - vm_compute; reflexivity.
Defined.

(** The header, the two checksum loops and the trailer of a sender make up the
    frame's wire image and one guard byte. *)
Lemma sender_bytes dst src cls op flags seq (payload : list Z) :
  let n := Z.of_nat (length payload) in
  let header := [WUPS_SYNC1; WUPS_SYNC2; dst; src; cls; op; flags; seq;
                 u8 (Z.land n 255); u8 (Z.land (Z.shiftr n 8) 255)] in
  let ck := fold_left fletcher_step payload (fold_left fletcher_step (drop 2 header) (0, 0)) in
  n <= WUPS_MAX_PAYLOAD ->
  header ++ payload ++ [ck.1; ck.2; WUPS_END1; WUPS_END2; WUPS_GUARD_BYTE] =
  frame_bytes (Frame dst src cls op flags seq payload) ++ [WUPS_GUARD_BYTE].
Proof.
  intros n header ck Hn; unfold WUPS_MAX_PAYLOAD in Hn; subst header ck; assert (0 <= n) by lia.
  assert (Z.land n 255 = n) as ->.
  { change 255 with (Z.ones 8); rewrite Z.land_ones by lia; apply Z.mod_small; lia. }
  assert (Hd : n / 256 = 0) by (apply Z.div_small; lia).
  assert (Z.shiftr n 8 = 0) as -> by (rewrite Z.shiftr_div_pow2 by lia; done).
  assert (Hb : frame_body (Frame dst src cls op flags seq payload) =
               [dst; src; cls; op; flags; seq; u8 n; u8 (Z.land 0 255)] ++ payload).
  { unfold frame_body, frame_len; cbn [f_payload le_bytes]; fold n; rewrite Hd; done. }
  unfold frame_bytes; rewrite Hb; unfold wups_fletcher8; rewrite fletcher_app.
  cbn [drop]; destruct (fold_left fletcher_step payload _) as [ca cb]; cbn [fst snd].
  rewrite <- !app_assoc; done.
Qed.

(** The sender's bytes are the frame's wire image and one guard byte. *)
Lemma wups_send_frame_bytes dst cls op flags seq payload :
  Z.of_nat (length payload) <= WUPS_MAX_PAYLOAD ->
  wups_send_frame dst cls op flags seq payload =
  frame_bytes (Frame dst WUPS_ADDR_CH32X cls op flags seq payload) ++ [WUPS_GUARD_BYTE].
Proof.
  intros Hn; rewrite <- sender_bytes by done; unfold wups_send_frame.
  destruct (fold_left fletcher_step payload _); done.
Qed.
