(* ===== verification/Hal.v ===== *)
(** * The hardware boundary of the CH32X firmware

    The firmware touches the outside world through I2C transactions, GPIO
    levels, busy-waits and the two UARTs.  A piece of firmware is a value of
    [M A]: given everything the program has done so far (the history) it returns
    a result and the effects it adds.  Reads are answered by a device model
    [Dev], a function of the whole history, so any deterministic behaviour of
    the chips on the bus is covered; it is a parameter of every theorem. *)

From S2P Require Import Prelude.

(** Output pins named by the function they have on the board. *)
Inductive pin :=
  | PIN_DC_INP_EN     (* PA6: DC_INP_EN_SRC, mains path to the charger *)
  | PIN_VBUS_OUT_EN   (* PA7: VBUS_OUT FET *)
  | PIN_PDS_EN        (* PB0: TPS55289 enable *)
  | PIN_LED.          (* PB12: status LED *)

#[export] Instance pin_eq_dec : EqDecision pin.
Proof. solve_decision. Defined.

Inductive eff :=
  | I2cWrite (addr reg val : Z)
  | I2cRead (addr reg : Z)
  | DelayMs (n : Z)
  | PinSet (p : pin) (level : bool)
  | UartTx (bytes : list Z)
  | PdTx (sop : Z) (bytes : list Z)
  | UartInit (baud : Z)      (* USART2_Init *)
  | IwdgReload               (* watchdog kick *)
  | SysReset.                (* NVIC_SystemReset *)

#[export] Instance eff_eq_dec : EqDecision eff.
Proof. solve_decision. Defined.

Definition M (A : Type) : Type := list eff -> A * list eff.

Definition ret {A} (a : A) : M A := fun _ => (a, []).
Definition bind {A B} (m : M A) (k : A -> M B) : M B := fun h =>
  let (a, es1) := m h in let (b, es2) := k a (h ++ es1) in (b, es1 ++ es2).
Definition emit (e : eff) : M unit := fun _ => (tt, [e]).
Definition mwhen (b : bool) (m : M unit) : M unit := if b then m else ret tt.

Notation "'let*' x ':=' m 'in' k" := (bind m (fun x => k))
  (at level 10, x pattern, m at level 200, k at level 200).
Notation "'do*' m 'in' k" := (bind m (fun _ => k))
  (at level 10, m at level 200, k at level 200).

(** The chips on the bus: the byte a read returns, given the history. *)
Class Dev := dev : list eff -> Z -> Z -> Z.
Definition dev_ok (d : Dev) : Prop := forall h a r, is_u8 (d h a r).

(** A bus where every read returns the same byte, for concrete instances. *)
Definition const_dev (z : Z) : Dev := fun _ _ _ => z.

Definition result {A} (m : M A) (h : list eff) : A := (m h).1.
Definition effects {A} (m : M A) (h : list eff) : list eff := (m h).2.

Section Firmware.
Context `{D : Dev}.

(** I2C_write_reg and I2C_read_reg as transactions; [I2c] relates them to the
    bit-banged lines. *)
Definition i2c_write (a r v : Z) : M unit := emit (I2cWrite a r v).
Definition i2c_read (a r : Z) : M Z := fun h => (dev h a r, [I2cRead a r]).
Definition delay_ms (n : Z) : M unit := emit (DelayMs n).
Definition pin_set (p : pin) (b : bool) : M unit := emit (PinSet p b).

(** The level last driven on a pin; outputs start low. *)
Definition pin_level (p : pin) (h : list eff) : bool :=
  fold_left (fun l e => match e with PinSet q b => if decide (q = p) then b else l | _ => l end)
    h false.
Definition pin_get (p : pin) : M bool := fun h => (pin_level p h, []).
End Firmware.

Section MonadLaws.
Context {A B C : Type}.

Lemma result_bind (m : M A) (k : A -> M B) h :
  result (bind m k) h = result (k (result m h)) (h ++ effects m h).
Proof.
  unfold result, effects, bind; destruct (m h) as [a es]; cbn.
  destruct (k a (h ++ es)); done.
Qed.
Lemma effects_bind (m : M A) (k : A -> M B) h :
  effects (bind m k) h = effects m h ++ effects (k (result m h)) (h ++ effects m h).
Proof.
  unfold result, effects, bind; destruct (m h) as [a es]; cbn.
  destruct (k a (h ++ es)); done.
Qed.
Lemma bind_assoc (m : M A) (k : A -> M B) (k' : B -> M C) h :
  bind (bind m k) k' h = bind m (fun a => bind (k a) k') h.
Proof.
  unfold bind; destruct (m h) as [a es1]; destruct (k a (h ++ es1)) as [b es2].
  rewrite <- app_assoc; destruct (k' b _) as [c es3]; rewrite <- app_assoc; done.
Qed.
End MonadLaws.

(** Postconditions that hold whatever the history. *)
Definition always {A} (m : M A) (P : A -> Prop) : Prop := forall h, P (result m h).

(** Turn a goal about [result m h], [h] arbitrary, into one about [always m]. *)
Ltac to_always h :=
  match goal with |- context [result ?m h] => pattern (result m h) end;
  revert h; match goal with |- forall h, ?P (result ?m h) => change (always m P) end.

Section Always.
Context {A B : Type}.
Lemma always_bind (m : M A) (k : A -> M B) P Q :
  always m P -> (forall a, P a -> always (k a) Q) -> always (bind m k) Q.
Proof. intros Hm Hk h; rewrite result_bind; apply Hk, Hm. Qed.
Lemma always_bind_any (m : M A) (k : A -> M B) Q :
  (forall a, always (k a) Q) -> always (bind m k) Q.
Proof. intros Hk h; rewrite result_bind; apply Hk. Qed.
Lemma always_ret (a : A) (P : A -> Prop) : P a -> always (ret a) P.
Proof. intros H h; exact H. Qed.
Lemma always_weaken (m : M A) (P Q : A -> Prop) :
  always m P -> (forall a, P a -> Q a) -> always m Q.
Proof. intros Hm H h; apply H, Hm. Qed.
End Always.

(** Close a goal about a plain [ret] whose postcondition is [H]; never looks
    inside a [bind]. *)
Ltac ret_by H :=
  lazymatch goal with |- always (ret _) _ => apply always_ret; exact H | _ => idtac end.

Section Primitives.
Context `{D : Dev}.

Lemma result_ret {A} (a : A) h : result (ret a) h = a.
Proof. done. Qed.
Lemma effects_ret {A} (a : A) h : effects (ret a) h = [].
Proof. done. Qed.
Lemma result_read a r h : result (i2c_read a r) h = dev h a r.
Proof. done. Qed.
Lemma effects_read a r h : effects (i2c_read a r) h = [I2cRead a r].
Proof. done. Qed.
Lemma effects_write a r v h : effects (i2c_write a r v) h = [I2cWrite a r v].
Proof. done. Qed.
Lemma effects_when b m h : effects (mwhen b m) h = if b then effects m h else [].
Proof. destruct b; done. Qed.
Lemma result_if {A} (b : bool) (m1 m2 : M A) h :
  result (if b then m1 else m2) h = if b then result m1 h else result m2 h.
Proof. destruct b; done. Qed.
Lemma effects_if {A} (b : bool) (m1 m2 : M A) h :
  effects (if b then m1 else m2) h = if b then effects m1 h else effects m2 h.
Proof. destruct b; done. Qed.
End Primitives.

#[export] Hint Rewrite @result_bind @effects_bind @result_ret @effects_ret @result_read
  @effects_read @effects_write @effects_when @result_if @effects_if : ups.

(** The register writes among a list of effects. *)
Definition writes (es : list eff) : list (Z * Z * Z) :=
  omap (fun e => match e with I2cWrite a r v => Some (a, r, v) | _ => None end) es.

Lemma writes_app e1 e2 : writes (e1 ++ e2) = writes e1 ++ writes e2.
Proof. apply omap_app. Qed.

(** The value last written to a register. *)
Definition reg_after (a r : Z) (ws : list (Z * Z * Z)) (old : option Z) : option Z :=
  fold_left (fun o w => let '(a', r', v) := w in
                        if (a' =? a) && (r' =? r) then Some v else o) ws old.

Section PinLevels.
Lemma pin_level_app p h1 h2 :
  pin_level p (h1 ++ h2) =
  fold_left (fun l e => match e with PinSet q b => if decide (q = p) then b else l | _ => l end)
    h2 (pin_level p h1).
Proof. apply fold_left_app. Qed.
End PinLevels.
