(* ===== verification/I2c.v ===== *)
(** * The bit-banged I2C master (firmware-ch32x/User/i2c_lib.c)

    Each primitive is the list of line operations it performs.  [decode] is the
    bus as a slave sees it: START and STOP are SDA edges while SCL is high, data
    bits are sampled at SCL rising edges, nine to a byte.  The theorem says that
    every transaction of the library puts the intended bytes on the wire. *)

From S2P Require Import Prelude Hal.

(** ** Line operations *)

Inductive line := SdaHigh | SdaLow | SclHigh | SclLow | Wait (us : Z) | SdaSample.

(* src: firmware-ch32x/User/i2c_lib.c:39-50 I2C_SDA_HIGH *)
Definition I2C_SDA_HIGH : list line := [SdaHigh].

(* src: firmware-ch32x/User/i2c_lib.c:52-64 I2C_SDA_LOW *)
Definition I2C_SDA_LOW : list line := [SdaLow].

(* src: firmware-ch32x/User/i2c_lib.c:66-78 I2C_SCL_HIGH *)
Definition I2C_SCL_HIGH : list line := [Wait 10; SclHigh].

(* src: firmware-ch32x/User/i2c_lib.c:80-93 I2C_SCL_LOW *)
Definition I2C_SCL_LOW : list line := [Wait 10; SclLow].

(* src: firmware-ch32x/User/i2c_lib.c:95-99 I2C_CLOCKOUT *)
Definition I2C_CLOCKOUT : list line := I2C_SCL_HIGH ++ I2C_SCL_LOW.

(* src: firmware-ch32x/User/i2c_lib.c:24-36 I2C_init (bus recovery) *)
Definition I2C_init : list line :=
  I2C_SDA_HIGH ++ concat (replicate 9 (I2C_SCL_HIGH ++ I2C_SCL_LOW)) ++
  I2C_SDA_LOW ++ [Wait 5] ++ I2C_SCL_HIGH ++ [Wait 5] ++ I2C_SDA_HIGH ++ [Wait 10].

(** The [for (i=8; i; i--, data<<=1)] loop; [data] is a UINT8. *)
(* src: firmware-ch32x/User/i2c_lib.c:101-112 I2C_write *)
Fixpoint I2C_write_bits (i : nat) (data : Z) : list line :=
  match i with
  | O => []
  | S i => (if has data 128 then I2C_SDA_HIGH else I2C_SDA_LOW) ++ I2C_CLOCKOUT ++
           I2C_write_bits i (u8 (Z.shiftl data 1))
  end.
Definition I2C_write (data : Z) : list line :=
  I2C_write_bits 8 data ++ I2C_SDA_HIGH ++ I2C_CLOCKOUT.

(* src: firmware-ch32x/User/i2c_lib.c:114-124 I2C_start *)
Definition I2C_start (addr : Z) : list line :=
  I2C_SDA_HIGH ++ I2C_SCL_HIGH ++ [Wait 5] ++ I2C_SDA_LOW ++ [Wait 5] ++ I2C_SCL_LOW ++
  I2C_write addr.

(* src: firmware-ch32x/User/i2c_lib.c:126-131 I2C_stop *)
Definition I2C_stop : list line := I2C_SDA_LOW ++ I2C_SCL_HIGH ++ I2C_SDA_HIGH.

(* src: firmware-ch32x/User/i2c_lib.c:133-139 I2C_write_reg *)
Definition I2C_write_reg (addr reg dat : Z) : list line :=
  I2C_start (u8 (Z.shiftl addr 1)) ++ I2C_write reg ++ I2C_write dat ++ I2C_stop.

(** The eight samples are what I2C_SDA_READ returns during the loop. *)
(* src: firmware-ch32x/User/i2c_lib.c:146-165 I2C_read *)
Fixpoint I2C_read_bits (samples : list bool) (data : Z) : Z * list line :=
  match samples with
  | [] => (data, [])
  | s :: samples =>
      let data := u8 (Z.shiftl data 1) in
      let data := if s then Z.lor data 1 else data in
      let (d, l) := I2C_read_bits samples data in
      (d, I2C_SCL_HIGH ++ [Wait 5; SdaSample] ++ I2C_SCL_LOW ++ l)
  end.
Definition I2C_read (ack : bool) (samples : list bool) : Z * list line :=
  let (data, l) := I2C_read_bits samples 0 in
  (data, I2C_SDA_HIGH ++ l ++ (if ack then I2C_SDA_LOW else I2C_SDA_HIGH) ++
         I2C_CLOCKOUT ++ I2C_SDA_HIGH).

(* src: firmware-ch32x/User/i2c_lib.c:167-177 I2C_read_reg *)
Definition I2C_read_reg (addr reg : Z) (samples : list bool) : Z * list line :=
  let (data, l) := I2C_read false samples in
  (data, I2C_start (u8 (Z.shiftl addr 1)) ++ I2C_write reg ++ [Wait 50] ++
         I2C_start (Z.lor (u8 (Z.shiftl addr 1)) 1) ++ l ++ I2C_stop).

(* src: firmware-ch32x/User/i2c_lib.c:179-190 I2C_read_regs *)
Fixpoint I2C_read_loop (samples : list (list bool)) : list Z * list line :=
  match samples with
  | [] => ([], [])
  | s :: rest =>
      let (d, l) := I2C_read (match rest with [] => false | _ => true end) s in
      let (ds, ls) := I2C_read_loop rest in (d :: ds, l ++ ls)
  end.
Definition I2C_read_regs (addr reg : Z) (samples : list (list bool)) : list Z * list line :=
  let (ds, l) := I2C_read_loop samples in
  (ds, I2C_start (u8 (Z.shiftl addr 1)) ++ I2C_write reg ++ [Wait 50] ++
       I2C_start (Z.lor (u8 (Z.shiftl addr 1)) 1) ++ l ++ I2C_stop).

(* src: firmware-ch32x/User/i2c_lib.c:192-203 I2C_read_reg16 *)
Definition I2C_read_reg16 (addr reg : Z) (s_lsb s_msb : list bool) : Z * list line :=
  let (lsb, l1) := I2C_read true s_lsb in
  let (msb, l2) := I2C_read false s_msb in
  (Z.lor (u16 (Z.shiftl msb 8)) lsb,
   I2C_start (u8 (Z.shiftl addr 1)) ++ I2C_write reg ++ [Wait 50] ++
   I2C_start (Z.lor (u8 (Z.shiftl addr 1)) 1) ++ l1 ++ l2 ++ I2C_stop).

(** ** The bus as a slave sees it *)

(** [Byte v nack]: eight data bits and the ninth, the acknowledge. *)
Inductive bus_item := Start | Byte (v : Z) (nack : bool) | Stop.

#[export] Instance bus_item_eq_dec : EqDecision bus_item.
Proof. solve_decision. Defined.

Record bus := Bus { b_scl : bool; b_sda : bool; b_bits : list bool }.

Definition bits_val (l : list bool) : Z := fold_left (fun v (b : bool) => 2 * v + b2z b) l 0.

Definition bus_step (s : bus) (o : line) : bus * list bus_item :=
  match o with
  | SdaHigh => if b_scl s && negb (b_sda s) then (Bus true true [], [Stop])
               else (Bus (b_scl s) true (b_bits s), [])
  | SdaLow => if b_scl s && b_sda s then (Bus true false [], [Start])
              else (Bus (b_scl s) false (b_bits s), [])
  | SclHigh =>
      if b_scl s then (s, [])
      else if (length (b_bits s) =? 8)%nat
           then (Bus true (b_sda s) [], [Byte (bits_val (b_bits s)) (b_sda s)])
           else (Bus true (b_sda s) (b_bits s ++ [b_sda s]), [])
  | SclLow => (Bus false (b_sda s) (b_bits s), [])
  | Wait _ | SdaSample => (s, [])
  end.

Definition decode (s : bus) (l : list line) : bus * list bus_item :=
  let (s', os) := run bus_step s l in (s', concat os).

Definition bus_idle : bus := Bus true true [].
(** SCL low and SDA released, between two bytes. *)
Definition bus_ready : bus := Bus false true [].

Section I2cMaster.
Lemma decode_app s l1 l2 :
  decode s (l1 ++ l2) =
  let (s1, o1) := decode s l1 in let (s2, o2) := decode s1 l2 in (s2, o1 ++ o2).
Proof.
  unfold decode; rewrite run_app; destruct (run bus_step s l1) as [s1 o1].
  destruct (run bus_step s1 l2) as [s2 o2]; rewrite concat_app; done.
Qed.

Lemma byte_cases (P : Z -> bool) :
  forallb P (seqZ 0 256) = true -> forall b, is_u8 b -> P b = true.
Proof.
  intros H b Hb; rewrite forallb_forall in H; apply H.
  apply list_elem_of_In, elem_of_seqZ; lia.
Qed.

(** Two byte outcomes agree, as a computable test. *)
Definition bus_eqb (x y : bus * list bus_item) : bool :=
  eqb (b_scl x.1) (b_scl y.1) && eqb (b_sda x.1) (b_sda y.1) &&
  bool_decide (b_bits x.1 = b_bits y.1) && bool_decide (x.2 = y.2).
Lemma bus_eqb_eq x y : bus_eqb x y = true -> x = y.
Proof.
  destruct x as [[] ?], y as [[] ?]; unfold bus_eqb; cbn; intros H.
  repeat (apply andb_true_iff in H as [H ?]); to_prop.
  repeat match goal with H : eqb _ _ = true |- _ => apply eqb_prop in H end; subst; done.
Qed.

Lemma decode_write b :
  is_u8 b -> decode bus_ready (I2C_write b) = (bus_ready, [Byte b true]).
Proof.
  intros Hb; apply bus_eqb_eq.
  apply (byte_cases (fun b => bus_eqb (decode bus_ready (I2C_write b)) (bus_ready, [Byte b true])));
    [vm_compute; reflexivity|done].
Qed.

(** START from the idle bus and repeated START from the middle of a transfer. *)
Lemma decode_start s b :
  is_u8 b -> s = bus_idle \/ s = bus_ready ->
  decode s (I2C_start b) = (bus_ready, [Start; Byte b true]).
Proof.
  intros Hb Hs; unfold I2C_start; rewrite !app_assoc, decode_app.
  assert (decode s ((((((I2C_SDA_HIGH ++ I2C_SCL_HIGH) ++ [Wait 5]) ++ I2C_SDA_LOW) ++ [Wait 5])
            ++ I2C_SCL_LOW)) = (Bus false false [], [Start])) as -> by (destruct Hs; subst; done).
  assert (Hw : decode (Bus false false []) (I2C_write b) = decode bus_ready (I2C_write b)).
  { unfold I2C_write; cbn [I2C_write_bits]; rewrite <- !app_assoc.
    destruct (has b 128); rewrite !(decode_app _ [_]) || idtac; done. }
  rewrite Hw, decode_write; done.
Qed.

Lemma decode_stop : decode bus_ready I2C_stop = (bus_idle, [Stop]).
Proof. reflexivity. Qed.

(** While the master reads it leaves SDA released: all ones but the ack. *)
Lemma decode_read_bits samples d s :
  b_scl s = false -> b_sda s = true -> (length (b_bits s) + length samples <= 8)%nat ->
  decode s (I2C_read_bits samples d).2 =
    (Bus false true (b_bits s ++ replicate (length samples) true), []).
Proof.
  revert d s; induction samples as [|x l IH]; intros d [scl sda bits] Hc Hs Hn; cbn in *; subst.
  - rewrite app_nil_r; done.
  - set (d' := if x then _ else _); destruct (I2C_read_bits l d') as [v tr] eqn:Hrd; cbn.
    change (Wait 10 :: SclHigh :: Wait 5 :: SdaSample :: Wait 10 :: SclLow :: tr)
      with ([Wait 10; SclHigh; Wait 5; SdaSample; Wait 10; SclLow] ++ tr).
    specialize (IH d' (Bus false true (bits ++ [true]))).
    rewrite Hrd in IH; cbn in IH; rewrite length_app in IH; cbn in IH.
    rewrite decode_app; unfold decode at 1; cbn.
    destruct (Nat.eqb_spec (length bits) 8); [lia|]; cbn.
    rewrite IH by (done || lia); rewrite <- app_assoc; done.
Qed.

Lemma decode_read ack samples :
  length samples = 8%nat ->
  decode bus_ready (I2C_read ack samples).2 = (bus_ready, [Byte 255 (negb ack)]).
Proof.
  intros Hn; unfold I2C_read; pose proof (decode_read_bits samples 0 bus_ready) as Hr.
  destruct (I2C_read_bits samples 0) as [d l]; cbn [snd] in *.
  rewrite decode_app; change (decode bus_ready I2C_SDA_HIGH) with (bus_ready, @nil bus_item).
  cbv iota beta; rewrite decode_app, Hr by (done || cbn; lia).
  rewrite Hn; destruct ack; done.
Qed.

(** The value assembled from the samples, most significant bit first. *)
Lemma read_bits_val samples :
  length samples = 8%nat -> (I2C_read_bits samples 0).1 = bits_val samples.
Proof.
  intros Hn; do 8 (destruct samples as [|[] samples]; [discriminate| |]);
    (destruct samples; [|discriminate]); vm_compute; reflexivity.
Qed.

Lemma addr_shift a : 0 <= a < 128 -> u8 (Z.shiftl a 1) = 2 * a /\ Z.lor (2 * a) 1 = 2 * a + 1.
Proof.
  intros Ha; rewrite Z.shiftl_mul_pow2 by lia; change (2 ^ 1) with 2.
  rewrite u8_small by lia; split; [lia|].
  destruct Ha as [Ha _]; destruct a; done.
Qed.

(** The register transactions start with the address and the register. *)
Lemma decode_select a r s :
  0 <= a < 128 -> is_u8 r -> s = bus_idle \/ s = bus_ready ->
  decode s (I2C_start (u8 (Z.shiftl a 1)) ++ I2C_write r) =
  (bus_ready, [Start; Byte (2 * a) true; Byte r true]).
Proof.
  intros Ha Hr Hs; destruct (addr_shift a Ha) as [-> _].
  rewrite decode_app, decode_start, decode_write by (lia || done); done.
Qed.
Lemma decode_turn a :
  0 <= a < 128 ->
  decode bus_ready ([Wait 50] ++ I2C_start (Z.lor (u8 (Z.shiftl a 1)) 1)) =
  (bus_ready, [Start; Byte (2 * a + 1) true]).
Proof.
  intros Ha; destruct (addr_shift a Ha) as [-> ->].
  rewrite decode_app; change (decode bus_ready [Wait 50]) with (bus_ready, @nil bus_item).
  cbv iota beta; rewrite decode_start by (lia || auto); done.
Qed.
Lemma decode_read_tail a r l items :
  0 <= a < 128 -> is_u8 r -> decode bus_ready l = (bus_ready, items) ->
  decode bus_idle (I2C_start (u8 (Z.shiftl a 1)) ++ I2C_write r ++ [Wait 50] ++
                   I2C_start (Z.lor (u8 (Z.shiftl a 1)) 1) ++ l ++ I2C_stop) =
  (bus_idle, [Start; Byte (2 * a) true; Byte r true; Start; Byte (2 * a + 1) true] ++ items ++ [Stop]).
Proof.
  intros Ha Hr Hl; rewrite (app_assoc (I2C_start _)), (app_assoc [Wait 50]).
  rewrite decode_app, decode_select by auto; rewrite decode_app, decode_turn by done.
  rewrite decode_app, Hl, decode_stop; done.
Qed.
Lemma read_val ack samples :
  length samples = 8%nat -> (I2C_read ack samples).1 = bits_val samples.
Proof.
  intros Hn; unfold I2C_read; rewrite <- read_bits_val by done.
  destruct (I2C_read_bits samples 0); done.
Qed.
End I2cMaster.

(** The bit-banged transactions are the I2C transactions the drivers mean.
    Seen by a slave, a register write is START, address, register, data, STOP; a
    read turns around with a repeated START, releases SDA for the data byte and
    refuses further bytes; the value returned is the one the slave shifted out,
    most significant bit first, and every transaction leaves the bus idle. *)
Theorem i2c_transactions_on_the_wire a r v samples s2 :
  0 <= a < 128 -> is_u8 r -> is_u8 v -> length samples = 8%nat -> length s2 = 8%nat ->
  let hdr := [Start; Byte (2 * a) true; Byte r true] in
  decode bus_idle (I2C_write_reg a r v) = (bus_idle, hdr ++ [Byte v true; Stop]) /\
  decode bus_idle (I2C_read_reg a r samples).2 =
    (bus_idle, hdr ++ [Start; Byte (2 * a + 1) true; Byte 255 true; Stop]) /\
  (I2C_read_reg a r samples).1 = bits_val samples /\
  decode bus_idle (I2C_read_reg16 a r samples s2).2 =
    (bus_idle, hdr ++ [Start; Byte (2 * a + 1) true; Byte 255 false; Byte 255 true; Stop]) /\
  (I2C_read_reg16 a r samples s2).1 = Z.lor (u16 (Z.shiftl (bits_val s2) 8)) (bits_val samples).
Proof.
  intros Ha Hr Hv Hn Hn2; pose proof (decode_read false samples Hn) as H1.
  pose proof (decode_read true samples Hn) as H2; pose proof (decode_read false s2 Hn2) as H3.
  pose proof (read_val false samples Hn) as V1; pose proof (read_val true samples Hn) as V2.
  pose proof (read_val false s2 Hn2) as V3; cbv zeta.
  unfold I2C_write_reg, I2C_read_reg, I2C_read_reg16.
  destruct (I2C_read false samples) as [d1 l1], (I2C_read true samples) as [d2 l2].
  destruct (I2C_read false s2) as [d3 l3]; cbn [fst snd] in *; subst; split_and!; try done.
  - rewrite app_assoc, decode_app, decode_select, decode_app, decode_write by auto; done.
  - rewrite decode_read_tail with (items := [Byte 255 true]) by done; done.
  - rewrite (app_assoc l2), decode_read_tail with (items := [Byte 255 false; Byte 255 true]); try done.
    rewrite decode_app, H2, H3; done.
Qed.

Lemma i2c_transactions_on_the_wire_witness :
  decode bus_idle (I2C_write_reg 92 8 22) =
    (bus_idle, [Start; Byte 184 true; Byte 8 true; Byte 22 true; Stop]).
Proof.
  apply (i2c_transactions_on_the_wire 92 8 22 (replicate 8 true) (replicate 8 false));
    reflexivity || lia.
Defined.
