(* ===== verification/Charger.v ===== *)
(** * The MP2762A charger driver (firmware-ch32x/User/mp2762a.c)

    Register accessors and ADC conversions, the configuration sequences, and the
    battery-presence state machine (debounce, insertion flag, stuck-charger
    restart) as a transformer of its four static counters. *)

From S2P Require Import Prelude Hal.

(** ** Registers *)

(* src: firmware-ch32x/User/mp2762a.h:11-38 MP2762A_REG *)
Definition MP2762A_I2C_ADDR : Z := 92.
Definition MP2762A_REG_INPUT_ILIM : Z := 0.
Definition MP2762A_REG_INPUT_VLIM : Z := 1.
Definition MP2762A_REG_CHG_CURR : Z := 2.
Definition MP2762A_REG_VBAT_REG : Z := 4.
Definition MP2762A_REG_CONFIG0 : Z := 8.
Definition MP2762A_REG_CONFIG1 : Z := 9.
Definition MP2762A_REG_ADC_CFG : Z := 11.
Definition MP2762A_REG_INPUT_ILIM2 : Z := 15.
Definition MP2762A_REG_STATUS : Z := 19.
Definition MP2762A_REG_FAULT : Z := 20.
Definition MP2762A_REG_ADC_VBAT_L : Z := 22.
Definition MP2762A_REG_ADC_VSYS_L : Z := 24.
Definition MP2762A_REG_ADC_ICHG_L : Z := 26.
Definition MP2762A_REG_ADC_VIN_L : Z := 28.
Definition MP2762A_REG_ADC_IIN_L : Z := 30.
Definition MP2762A_REG_ADC_TJUNC_L : Z := 36.

(* src: firmware-ch32x/User/mp2762a.h:40-61 status and configuration bits *)
Definition MP2762A_REG_RST : Z := 128.
Definition MP2762A_CHG_EN : Z := 16.
Definition MP2762A_NTC_GCOMP : Z := 4.
Definition MP2762A_BATTFET_EN : Z := 2.
Definition MP2762A_BATT_UVLO : Z := 128.
Definition MP2762A_CHG_STAT_MASK : Z := 12.
Definition MP2762A_ACOK : Z := 2.
Definition MP2762A_CHG_NOT_CHARGING : Z := 0.
Definition MP2762A_CHG_TRICKLE : Z := 4.
Definition MP2762A_CHG_FAST : Z := 8.
Definition MP2762A_CHG_DONE : Z := 12.

(* src: firmware-ch32x/User/mp2762a.h:70-75 mp2762a_chg_state_t *)
Inductive mp2762a_chg_state_t :=
  | CHG_STATE_NOT_CHARGING | CHG_STATE_TRICKLE | CHG_STATE_FAST | CHG_STATE_DONE.

(** The value an enumerator has when it is stored in a byte. *)
Definition chg_state_code (c : mp2762a_chg_state_t) : Z :=
  match c with
  | CHG_STATE_NOT_CHARGING => 0 | CHG_STATE_TRICKLE => 1 | CHG_STATE_FAST => 2 | CHG_STATE_DONE => 3
  end.

(* src: firmware-ch32x/User/mp2762a.h:77-87 mp2762a_data_t *)
Record mp2762a_data_t := Mp2762aData {
  chg_state : mp2762a_chg_state_t; power_good : Z; vin_mv : Z; iin_ma : Z;
  vbat_mv : Z; ichg_ma : Z; vsys_mv : Z; tjunc_c10 : Z; fault : Z
}.

(* src: firmware-ch32x/User/mp2762a.h:100-100 MP2762A_TJ_NA *)
Definition MP2762A_TJ_NA : Z := -32768.

(* src: firmware-ch32x/User/mp2762a.c:4-28 constants *)
Definition MP2762A_CONFIG0_NORMAL : Z :=
  Z.lor (Z.lor MP2762A_CHG_EN MP2762A_NTC_GCOMP) MP2762A_BATTFET_EN.
Definition BAT_DEBOUNCE_COUNT : Z := 3.
Definition BAT_CHG_CURRENT_THRESHOLD_MA : Z := 30.
Definition STUCK_RESTART_COUNT : Z := 6.
Definition BAT_PRESENT_EXT_MIN_MV : Z := 5500.

(** The four static counters of the driver. *)
(* src: firmware-ch32x/User/mp2762a.c:7-23 battery presence statics *)
Record bat := Bat {
  g_bat_present_state : Z; g_bat_present_counter : Z; g_bat_inserted_flag : Z;
  g_stuck_counter : Z
}.
Definition bat_init : bat := Bat 0 0 0 0.

#[export] Instance eta_bat : Eta bat := fun b =>
  Bat (g_bat_present_state b) (g_bat_present_counter b) (g_bat_inserted_flag b)
    (g_stuck_counter b).

Section Mp2762a.
Context `{D : Dev}.

(* src: firmware-ch32x/User/mp2762a.c:104-106 mp2762a_read_reg, mp2762a_write_reg *)
Definition mp2762a_read_reg (reg : Z) : M Z := i2c_read MP2762A_I2C_ADDR reg.
Definition mp2762a_write_reg (reg value : Z) : M unit := i2c_write MP2762A_I2C_ADDR reg value.

(* src: firmware-ch32x/User/mp2762a.h:89-96 mp2762a_powered *)
Definition mp2762a_powered : M bool := pin_get PIN_DC_INP_EN.

(* src: firmware-ch32x/User/mp2762a.c:31-85 mp2762a_init *)
Definition mp2762a_init : M unit :=
  let* _ := mp2762a_read_reg MP2762A_REG_FAULT in
  do* mp2762a_write_reg MP2762A_REG_INPUT_ILIM 100 in
  do* mp2762a_write_reg MP2762A_REG_INPUT_ILIM2 100 in
  do* mp2762a_write_reg MP2762A_REG_INPUT_VLIM 45 in
  do* mp2762a_write_reg MP2762A_REG_CHG_CURR 10 in
  do* mp2762a_write_reg MP2762A_REG_VBAT_REG 54 in
  do* mp2762a_write_reg MP2762A_REG_CONFIG0 MP2762A_CONFIG0_NORMAL in
  do* mp2762a_write_reg MP2762A_REG_CONFIG1 68 in
  let* cfg3 := mp2762a_read_reg MP2762A_REG_ADC_CFG in
  mp2762a_write_reg MP2762A_REG_ADC_CFG (Z.lor cfg3 3).

(* src: firmware-ch32x/User/mp2762a.c:89-102 mp2762a_factory_reset *)
Definition mp2762a_factory_reset (s : bat) : M bat :=
  do* mp2762a_write_reg MP2762A_REG_CONFIG0 MP2762A_REG_RST in
  do* delay_ms 10 in
  let* _ := mp2762a_read_reg MP2762A_REG_FAULT in
  ret (Bat 0 0 0 0).

(* src: firmware-ch32x/User/mp2762a.c:110-126 mp2762a_get_charge_state *)
Definition chg_state_of_bits (chg_bits : Z) : mp2762a_chg_state_t :=
  if chg_bits =? MP2762A_CHG_NOT_CHARGING then CHG_STATE_NOT_CHARGING
  else if chg_bits =? MP2762A_CHG_TRICKLE then CHG_STATE_TRICKLE
  else if chg_bits =? MP2762A_CHG_FAST then CHG_STATE_FAST
  else if chg_bits =? MP2762A_CHG_DONE then CHG_STATE_DONE
  else CHG_STATE_NOT_CHARGING.
Definition mp2762a_get_charge_state : M mp2762a_chg_state_t :=
  let* status := mp2762a_read_reg MP2762A_REG_STATUS in
  ret (chg_state_of_bits (Z.land status MP2762A_CHG_STAT_MASK)).

(* src: firmware-ch32x/User/mp2762a.c:128-131 mp2762a_is_power_good *)
Definition mp2762a_is_power_good : M Z :=
  let* status := mp2762a_read_reg MP2762A_REG_STATUS in
  ret (b2z (has status MP2762A_ACOK)).

(* src: firmware-ch32x/User/mp2762a.c:133-149 mp2762a_read_adc16 *)
Definition mp2762a_read_adc16 (reg_lsb : Z) : M Z :=
  let* lsb := mp2762a_read_reg reg_lsb in
  let* msb := mp2762a_read_reg (u8 (reg_lsb + 1)) in
  ret (Z.lor (u16 (Z.shiftl msb 8)) lsb).

(* src: firmware-ch32x/User/mp2762a.c:151-155 mp2762a_get_input_voltage_mv *)
Definition mp2762a_get_input_voltage_mv : M Z :=
  let* raw := mp2762a_read_adc16 MP2762A_REG_ADC_VIN_L in
  ret (u16 (Z.shiftr raw 6 * 25)).

(* src: firmware-ch32x/User/mp2762a.c:157-161 mp2762a_get_input_current_ma *)
Definition mp2762a_get_input_current_ma : M Z :=
  let* raw := mp2762a_read_adc16 MP2762A_REG_ADC_IIN_L in
  ret (u16 (Z.shiftr raw 6 * 25 / 4)).

(* src: firmware-ch32x/User/mp2762a.c:163-167 mp2762a_get_battery_voltage_mv *)
Definition mp2762a_get_battery_voltage_mv : M Z :=
  let* raw := mp2762a_read_adc16 MP2762A_REG_ADC_VBAT_L in
  ret (u16 (Z.shiftr raw 6 * 25 / 2)).

(* src: firmware-ch32x/User/mp2762a.c:169-173 mp2762a_get_charge_current_ma *)
Definition mp2762a_get_charge_current_ma : M Z :=
  let* raw := mp2762a_read_adc16 MP2762A_REG_ADC_ICHG_L in
  ret (u16 (Z.shiftr raw 6 * 25 / 2)).

(* src: firmware-ch32x/User/mp2762a.c:175-183 mp2762a_get_system_voltage_mv *)
Definition mp2762a_get_system_voltage_mv : M Z :=
  let* raw := mp2762a_read_adc16 MP2762A_REG_ADC_VSYS_L in
  ret (u16 (Z.shiftr raw 6 * 25 / 2)).

(* src: firmware-ch32x/User/mp2762a.c:185-201 mp2762a_get_junction_temp_c10 *)
Definition junction_c10 (raw : Z) : Z :=
  let tj := Z.shiftr raw 6 in
  let dC := Z.quot ((903 - tj) * 10000) 2578 in
  let dC := if 32767 <? dC then 32767 else dC in
  let dC := if dC <? -32768 then -32768 else dC in
  s16 dC.
Definition mp2762a_get_junction_temp_c10 : M Z :=
  let* raw := mp2762a_read_adc16 MP2762A_REG_ADC_TJUNC_L in
  ret (junction_c10 raw).

(* src: firmware-ch32x/User/mp2762a.c:203-209 mp2762a_get_fault, mp2762a_is_battery_uvlo *)
Definition mp2762a_get_fault : M Z := mp2762a_read_reg MP2762A_REG_FAULT.
Definition mp2762a_is_battery_uvlo : M Z :=
  let* status := mp2762a_read_reg MP2762A_REG_STATUS in
  ret (b2z (has status MP2762A_BATT_UVLO)).

(* src: firmware-ch32x/User/mp2762a.c:324-338 mp2762a_restart_charging *)
Definition mp2762a_restart_charging : M unit :=
  let* _ := mp2762a_read_reg MP2762A_REG_FAULT in
  do* mp2762a_write_reg MP2762A_REG_CONFIG0 (Z.lor MP2762A_NTC_GCOMP MP2762A_BATTFET_EN) in
  do* delay_ms 10 in
  mp2762a_write_reg MP2762A_REG_CONFIG0 MP2762A_CONFIG0_NORMAL.

(* src: firmware-ch32x/User/mp2762a.c:300-322 mp2762a_kick_watchdog *)
Definition mp2762a_kick_watchdog : M unit :=
  do* mp2762a_write_reg MP2762A_REG_CONFIG0 MP2762A_CONFIG0_NORMAL in
  do* mp2762a_write_reg MP2762A_REG_CONFIG1 68 in
  do* mp2762a_write_reg MP2762A_REG_CHG_CURR 10 in
  do* mp2762a_write_reg MP2762A_REG_INPUT_ILIM 100 in
  mp2762a_write_reg MP2762A_REG_INPUT_ILIM2 100.

(** *** Battery presence *)

(** The raw decision of one poll, from STATUS, the charge current and the
    external battery voltage. *)
(* src: firmware-ch32x/User/mp2762a.c:222-255 mp2762a_poll_battery (raw_present) *)
Definition raw_present_of (status ichg vbat_ext_mv : Z) : Z :=
  if has status MP2762A_ACOK then
    let chg_bits := Z.land status MP2762A_CHG_STAT_MASK in
    if (chg_bits =? MP2762A_CHG_DONE) || (chg_bits =? MP2762A_CHG_TRICKLE) then 1
    else if BAT_CHG_CURRENT_THRESHOLD_MA <? ichg then 1
    else if BAT_PRESENT_EXT_MIN_MV <? vbat_ext_mv then 1 else 0
  else if has status MP2762A_BATT_UVLO then 0 else 1.

(** The stuck counter; [true] asks for a charger restart. *)
(* src: firmware-ch32x/User/mp2762a.c:257-267 mp2762a_poll_battery (stuck counter) *)
Definition stuck_step (acok : bool) (raw_present : Z) (s : bat) : bat * bool :=
  if acok && (raw_present =? 0) then
    let s := s <| g_stuck_counter := u8 (g_stuck_counter s + 1) |> in
    if STUCK_RESTART_COUNT <=? g_stuck_counter s
    then (s <| g_stuck_counter := 0 |>, true) else (s, false)
  else (s <| g_stuck_counter := 0 |>, false).

(* src: firmware-ch32x/User/mp2762a.c:269-284 mp2762a_poll_battery (debounce) *)
Definition debounce_step (raw_present : Z) (s : bat) : bat :=
  if raw_present =? g_bat_present_state s then s <| g_bat_present_counter := 0 |>
  else
    let s := s <| g_bat_present_counter := u8 (g_bat_present_counter s + 1) |> in
    if BAT_DEBOUNCE_COUNT <=? g_bat_present_counter s then
      let old_state := g_bat_present_state s in
      let s := s <| g_bat_present_state := raw_present |> <| g_bat_present_counter := 0 |> in
      if (old_state =? 0) && (raw_present =? 1) then s <| g_bat_inserted_flag := 1 |> else s
    else s.

(* src: firmware-ch32x/User/mp2762a.c:222-284 mp2762a_poll_battery *)
Definition mp2762a_poll_battery (vbat_ext_mv : Z) (s : bat) : M bat :=
  let* status := mp2762a_read_reg MP2762A_REG_STATUS in
  let* ichg := if has status MP2762A_ACOK then mp2762a_get_charge_current_ma else ret 0 in
  let raw_present := raw_present_of status ichg vbat_ext_mv in
  let (s, restart) := stuck_step (has status MP2762A_ACOK) raw_present s in
  do* mwhen restart mp2762a_restart_charging in
  ret (debounce_step raw_present s).

(* src: firmware-ch32x/User/mp2762a.c:286-298 mp2762a_is_battery_present, mp2762a_battery_inserted *)
Definition mp2762a_is_battery_present (s : bat) : Z := g_bat_present_state s.
Definition mp2762a_battery_inserted (s : bat) : bat * Z :=
  if negb (g_bat_inserted_flag s =? 0) then (s <| g_bat_inserted_flag := 0 |>, 1) else (s, 0).

(* src: firmware-ch32x/User/mp2762a.c:340-389 mp2762a_read_all *)
Definition mp2762a_read_all : M mp2762a_data_t :=
  let* powered := mp2762a_powered in
  if negb powered then
    ret (Mp2762aData CHG_STATE_NOT_CHARGING 0 0 0 0 0 0 MP2762A_TJ_NA 0)
  else
    let* status := mp2762a_read_reg MP2762A_REG_STATUS in
    let* vin := mp2762a_get_input_voltage_mv in
    let* iin := mp2762a_get_input_current_ma in
    let* vbat := mp2762a_get_battery_voltage_mv in
    let* ichg := mp2762a_get_charge_current_ma in
    let* vsys := mp2762a_get_system_voltage_mv in
    let* tj := mp2762a_get_junction_temp_c10 in
    let* flt := mp2762a_read_reg MP2762A_REG_FAULT in
    ret (Mp2762aData (chg_state_of_bits (Z.land status MP2762A_CHG_STAT_MASK))
           (b2z (has status MP2762A_ACOK)) vin iin vbat ichg vsys tj flt).
End Mp2762a.

(** ** The presence machine against its specification *)

(** One poll abstracted to what it read: was VIN present, the raw decision. *)
Definition poll_step (s : bat) (i : bool * Z) : bat :=
  debounce_step i.2 (stuck_step i.1 i.2 s).1.
Definition polls (s : bat) (l : list (bool * Z)) : bat := fold_left poll_step l s.

(** Newest reading first: the presence state is the value of the most recent
    three equal consecutive readings, absent before there are any. *)
Fixpoint presence_spec (rs : list Z) : Z :=
  match rs with
  | a :: rest => match rest with
                 | b :: c :: _ => if (a =? b) && (b =? c) then a else presence_spec rest
                 | _ => 0
                 end
  | [] => 0
  end.

(** Length of the newest run of readings different from [v]. *)
Fixpoint disagree (v : Z) (rs : list Z) : Z :=
  match rs with r :: rs => if r =? v then 0 else 1 + disagree v rs | [] => 0 end.

Fixpoint stuck_streak (l : list (bool * Z)) : Z :=
  match l with
  | (acok, raw) :: l => if acok && (raw =? 0) then 1 + stuck_streak l else 0
  | [] => 0
  end.

Section Presence.
Implicit Types (s : bat) (rs : list Z).

Lemma disagree_nonneg v rs : 0 <= disagree v rs.
Proof. induction rs; cbn; repeat case_match; lia. Qed.
Lemma streak_nonneg l : 0 <= stuck_streak l.
Proof. induction l as [|[] ?]; cbn; repeat case_match; lia. Qed.

Lemma stuck_step_debounce acok raw s :
  g_bat_present_state (stuck_step acok raw s).1 = g_bat_present_state s /\
  g_bat_present_counter (stuck_step acok raw s).1 = g_bat_present_counter s /\
  g_bat_inserted_flag (stuck_step acok raw s).1 = g_bat_inserted_flag s.
Proof. unfold stuck_step; repeat case_match; done. Qed.

(** The counter is the length of the newest disagreeing run, below three. *)
Definition presence_inv s rs : Prop :=
  g_bat_present_state s = presence_spec rs /\
  g_bat_present_counter s = disagree (g_bat_present_state s) rs /\
  g_bat_present_counter s < 3 /\ (g_bat_present_state s = 0 \/ g_bat_present_state s = 1).

Lemma presence_spec_cons r rs :
  (r = 0 \/ r = 1) -> Forall (fun z => z = 0 \/ z = 1) rs ->
  (presence_spec rs = 0 \/ presence_spec rs = 1) -> disagree (presence_spec rs) rs < 3 ->
  presence_spec (r :: rs) =
    if 3 <=? disagree (presence_spec rs) (r :: rs) then r else presence_spec rs.
Proof.
  intros Hr Hrs Hs Hd; destruct rs as [|b [|c rs]]; [destruct Hr as [-> | ->]; done|..].
  - inversion_clear Hrs as [|? ? Hb _]; destruct Hr as [-> | ->], Hb as [-> | ->]; done.
  - inversion_clear Hrs as [|? ? Hb Hrs']; inversion_clear Hrs' as [|? ? Hc _].
    change (presence_spec (r :: b :: c :: rs)) with
      (if (r =? b) && (b =? c) then r else presence_spec (b :: c :: rs)).
    revert Hs Hd; generalize (presence_spec (b :: c :: rs)); intros p Hs Hd.
    cbn [disagree] in *; pose proof (disagree_nonneg p rs).
    destruct Hr as [-> | ->], Hb as [-> | ->], Hc as [-> | ->], Hs as [-> | ->]; cbn in *;
      repeat case_match; to_prop; try done; lia.
Qed.

Lemma debounce_inv s rs r :
  (r = 0 \/ r = 1) -> Forall (fun z => z = 0 \/ z = 1) rs ->
  presence_inv s rs -> presence_inv (debounce_step r s) (r :: rs).
Proof.
  intros Hr Hrs (Hp & Hc & Hlt & Hb); unfold presence_inv.
  pose proof (presence_spec_cons r rs Hr Hrs) as Hspec; rewrite <- Hp, <- Hc in Hspec.
  specialize (Hspec Hb Hlt); rewrite Hspec; clear Hspec; unfold debounce_step.
  pose proof (disagree_nonneg (g_bat_present_state s) rs); cbn [disagree].
  destruct (Z.eqb_spec r (g_bat_present_state s)) as [->|Hne]; cbn.
  - rewrite Z.eqb_refl; split_and!; done || lia.
  - rewrite u8_small by lia; rewrite <- Hc.
    replace (1 + g_bat_present_counter s) with (g_bat_present_counter s + 1) by lia.
    unfold BAT_DEBOUNCE_COUNT; destruct (Z.leb_spec 3 (g_bat_present_counter s + 1)).
    + destruct ((g_bat_present_state s =? 0) && (r =? 1)); cbn; rewrite Z.eqb_refl;
        split_and!; done || lia.
    + cbn; destruct (Z.eqb_spec r (g_bat_present_state s)); [done|].
      split_and!; done || lia.
Qed.

Lemma polls_inv l :
  Forall (fun i : bool * Z => i.2 = 0 \/ i.2 = 1) l ->
  presence_inv (polls bat_init l) (rev (map snd l)) /\
  g_stuck_counter (polls bat_init l) = stuck_streak (rev l) mod 6.
Proof.
  induction l as [|[acok raw] l IH] using rev_ind; intros Hl.
  - split; [split_and!; done || auto|done].
  - apply Forall_app in Hl as [Hl Hr]; inversion_clear Hr as [|? ? Hr' _]; cbn in Hr'.
    destruct (IH Hl) as [Hinv Hst]; unfold polls; rewrite fold_left_app; cbn.
    fold (polls bat_init l) in *; set (s := polls bat_init l) in *.
    rewrite map_app, !rev_app_distr; cbn [map rev app snd stuck_streak].
    unfold poll_step; cbn [fst snd]; pose proof (stuck_step_debounce acok raw s) as (E1 & E2 & E3).
    split.
    + apply debounce_inv; [done| |].
      { apply Forall_rev, Forall_map; done. }
      unfold presence_inv in *; rewrite E1, E2; done.
    + assert (g_stuck_counter (debounce_step raw (stuck_step acok raw s).1) =
              g_stuck_counter (stuck_step acok raw s).1) as ->
        by (unfold debounce_step; repeat case_match; done).
      unfold stuck_step; destruct (acok && (raw =? 0)); [|done]; cbn.
      pose proof (streak_nonneg (rev l)); rewrite Hst.
      pose proof (Z.mod_pos_bound (stuck_streak (rev l)) 6 ltac:(lia)).
      rewrite u8_small by lia; unfold STUCK_RESTART_COUNT.
      rewrite (Z.add_comm 1), <- Zplus_mod_idemp_l.
      destruct (Z.leb_spec 6 (stuck_streak (rev l) mod 6 + 1)); cbn.
      * replace (stuck_streak (rev l) mod 6) with 5 by lia; done.
      * symmetry; apply Z.mod_small; lia.
Qed.
End Presence.

(** ** The driver's I2C traffic *)

Section Traffic.
Context `{D : Dev}.

(** What one poll reads, as the abstract reading of [poll_step]. *)
Definition reading (vbat_ext_mv : Z) (h : list eff) : bool * Z :=
  let status := dev h MP2762A_I2C_ADDR MP2762A_REG_STATUS in
  let h := h ++ [I2cRead MP2762A_I2C_ADDR MP2762A_REG_STATUS] in
  (has status MP2762A_ACOK,
   raw_present_of status (if has status MP2762A_ACOK
                          then result mp2762a_get_charge_current_ma h else 0) vbat_ext_mv).

Lemma raw_present_bit status ichg v :
  raw_present_of status ichg v = 0 \/ raw_present_of status ichg v = 1.
Proof. unfold raw_present_of; repeat case_match; auto. Qed.

Definition restart_writes : list (Z * Z * Z) :=
  [(MP2762A_I2C_ADDR, MP2762A_REG_CONFIG0, Z.lor MP2762A_NTC_GCOMP MP2762A_BATTFET_EN);
   (MP2762A_I2C_ADDR, MP2762A_REG_CONFIG0, MP2762A_CONFIG0_NORMAL)].

Lemma poll_result v s h :
  result (mp2762a_poll_battery v s) h = poll_step s (reading v h) /\
  writes (effects (mp2762a_poll_battery v s) h) =
    (if (stuck_step (reading v h).1 (reading v h).2 s).2 then restart_writes else []).
Proof.
  unfold mp2762a_poll_battery, poll_step, reading, mp2762a_read_reg; cbn [fst snd].
  autorewrite with ups; set (status := dev h _ _).
  set (h1 := h ++ _); set (raw := raw_present_of _ _ _).
  destruct (stuck_step (has status MP2762A_ACOK) raw s) as [s1 restart]; cbn [fst snd].
  autorewrite with ups; rewrite !writes_app; split; [done|].
  destruct (has status MP2762A_ACOK), restart; done.
Qed.

(** A run of the poll task, and what it read along the way. *)
Fixpoint poll_seq (vs : list Z) (s : bat) : M bat :=
  match vs with
  | [] => ret s
  | v :: vs => let* s := mp2762a_poll_battery v s in poll_seq vs s
  end.
Fixpoint readings (vs : list Z) (s : bat) (h : list eff) : list (bool * Z) :=
  match vs with
  | [] => []
  | v :: vs => reading v h :: readings vs (poll_step s (reading v h))
                                (h ++ effects (mp2762a_poll_battery v s) h)
  end.

Lemma poll_seq_result vs s h : result (poll_seq vs s) h = polls s (readings vs s h).
Proof.
  revert s h; induction vs as [|v vs IH]; intros s h; [done|]; cbn [poll_seq readings].
  rewrite result_bind, (proj1 (poll_result v s h)), IH; done.
Qed.

Lemma readings_bits vs s h : Forall (fun i : bool * Z => i.2 = 0 \/ i.2 = 1) (readings vs s h).
Proof.
  revert s h; induction vs as [|v vs IH]; intros s h; constructor; [|done].
  apply raw_present_bit.
Qed.

(** ADC results: ten bits, left-justified. *)
Lemma adc_range reg h : dev_ok D -> 0 <= Z.shiftr (result (mp2762a_read_adc16 reg) h) 6 < 1024.
Proof.
  intros Hd; unfold mp2762a_read_adc16, mp2762a_read_reg; autorewrite with ups.
  pose proof (Hd h MP2762A_I2C_ADDR reg) as Hl; set (lsb := dev h _ _) in *.
  pose proof (Hd (h ++ [I2cRead MP2762A_I2C_ADDR reg]) MP2762A_I2C_ADDR (u8 (reg + 1))) as Hm.
  set (msb := dev (h ++ _) _ _) in *; change (is_u8 lsb) in Hl; change (is_u8 msb) in Hm.
  rewrite Z.shiftr_lor, Z.shiftl_mul_pow2, u16_small by lia.
  rewrite !Z.shiftr_div_pow2 by lia; change (2 ^ 8) with (2 ^ 2 * 2 ^ 6).
  rewrite Z.mul_assoc, Z.div_mul by lia.
  assert (0 <= lsb / 2 ^ 6 < 2 ^ 2)
    by (split; [apply Z.div_pos; lia|apply Z.div_lt_upper_bound; lia]).
  assert (Hx : 0 <= Z.lor (msb * 2 ^ 2) (lsb / 2 ^ 6)) by (apply Z.lor_nonneg; lia).
  split; [done|]; change 1024 with (2 ^ 10).
  destruct (decide (Z.lor (msb * 2 ^ 2) (lsb / 2 ^ 6) = 0)) as [->|]; [lia|].
  apply Z.log2_lt_pow2; [lia|]; rewrite Z.log2_lor by lia.
  apply Z.max_lub_lt.
  - destruct (decide (msb * 2 ^ 2 = 0)) as [->|]; [cbn; lia|apply Z.log2_lt_pow2; lia].
  - destruct (decide (lsb / 2 ^ 6 = 0)) as [->|]; [cbn; lia|apply Z.log2_lt_pow2; lia].
Qed.

Lemma junction_range raw : 0 <= Z.shiftr raw 6 < 1024 -> -465 <= junction_c10 raw <= 3502.
Proof.
  intros H; unfold junction_c10; set (tj := Z.shiftr raw 6) in *.
  assert (Hq : -465 <= Z.quot ((903 - tj) * 10000) 2578 <= 3502).
  { destruct (decide (tj <= 903)).
    - rewrite Z.quot_div_nonneg by lia; split; [transitivity 0; [lia|apply Z.div_pos; lia]|].
      apply Z.lt_succ_r, Z.div_lt_upper_bound; lia.
    - replace ((903 - tj) * 10000) with (- ((tj - 903) * 10000)) by lia.
      rewrite Z.quot_opp_l, Z.quot_div_nonneg by lia.
      pose proof (Z.div_pos ((tj - 903) * 10000) 2578 ltac:(lia) ltac:(lia)).
      assert ((tj - 903) * 10000 / 2578 < 466) by (apply Z.div_lt_upper_bound; lia); lia. }
  revert Hq; generalize (Z.quot ((903 - tj) * 10000) 2578); intros q Hq.
  destruct (Z.ltb_spec 32767 q); [lia|]; destruct (Z.ltb_spec q (-32768)); [lia|].
  rewrite s16_small; lia.
Qed.

Lemma scaled_range reg k :
  dev_ok D -> 1 <= k ->
  always (let* raw := mp2762a_read_adc16 reg in ret (u16 (Z.shiftr raw 6 * 25 / k)))
         (fun v => 0 <= v <= 25575 / k).
Proof.
  intros Hd Hk h; rewrite result_bind, result_ret; pose proof (adc_range reg h Hd) as Ha.
  split; [apply u16_range|unfold u16].
  etrans; [apply Z.mod_le; [apply Z.div_pos|]|apply Z.div_le_mono]; lia.
Qed.

(** The range of every reading of [mp2762a_read_all]. *)
Lemma adc_values (Hd : dev_ok D) :
  always mp2762a_get_input_voltage_mv (fun v => 0 <= v <= 25575) /\
  always mp2762a_get_input_current_ma (fun v => 0 <= v <= 6393) /\
  always mp2762a_get_battery_voltage_mv (fun v => 0 <= v <= 12787) /\
  always mp2762a_get_charge_current_ma (fun v => 0 <= v <= 12787) /\
  always mp2762a_get_system_voltage_mv (fun v => 0 <= v <= 12787) /\
  always mp2762a_get_junction_temp_c10 (fun v => -465 <= v <= 3502).
Proof.
  split_and!; [|apply (scaled_range _ 4); lia || done|apply (scaled_range _ 2); lia || done..|].
  - intros h; pose proof (scaled_range MP2762A_REG_ADC_VIN_L 1 Hd ltac:(lia) h) as H.
    rewrite result_bind, result_ret, Z.div_1_r in H; exact H.
  - intros h; unfold mp2762a_get_junction_temp_c10; rewrite result_bind, result_ret.
    apply junction_range, adc_range; done.
Qed.
End Traffic.

(** ** Properties *)

(** Battery presence is debounced.  However the charger answers and whatever
    the external voltage, after any sequence of polls the reported presence is
    the most recent raw decision that was held for three polls in a row (absent
    before that): two stray readings can never flip it, three always do. *)
Theorem battery_presence_debounced `{D : Dev} vs h :
  g_bat_present_state (result (poll_seq vs bat_init) h) =
  presence_spec (rev (map snd (readings vs bat_init h))).
Proof.
  rewrite poll_seq_result.
  destruct (polls_inv (readings vs bat_init h) (readings_bits vs bat_init h)) as [(-> & _) _]; done.
Qed.

(** The stuck-charger restart.  With input power present and no battery seen,
    exactly every sixth consecutive poll restarts the charger, by disabling and
    re-enabling CHG_EN with the battery FET kept on; no other poll writes to it. *)
Theorem stuck_charger_restart `{D : Dev} vs v h :
  let s := result (poll_seq vs bat_init) h in
  let h' := h ++ effects (poll_seq vs bat_init) h in
  let streak := stuck_streak (reading v h' :: rev (readings vs bat_init h)) in
  writes (effects (mp2762a_poll_battery v s) h') =
    if (0 <? streak) && (streak mod 6 =? 0) then restart_writes else [].
Proof.
  intros s h' streak; rewrite (proj2 (poll_result v s h')).
  subst streak s; cbn [stuck_streak]; rewrite poll_seq_result.
  destruct (polls_inv (readings vs bat_init h) (readings_bits vs bat_init h)) as [_ Hst].
  destruct (reading v h') as [acok raw]; cbn [fst snd]; unfold stuck_step.
  destruct (acok && (raw =? 0)); [|done]; cbn; rewrite Hst.
  set (n := stuck_streak (rev _)); pose proof (streak_nonneg (rev (readings vs bat_init h))) as Hn.
  fold n in Hn; rewrite (proj2 (Z.ltb_lt 0 (1 + n))) by lia; cbn [andb].
  pose proof (Z.mod_pos_bound n 6 ltac:(lia)); rewrite u8_small by lia; unfold STUCK_RESTART_COUNT.
  rewrite (Z.add_comm 1), <- Zplus_mod_idemp_l.
  destruct (Z.leb_spec 6 (n mod 6 + 1)); cbn [snd].
  - replace (n mod 6) with 5 by lia; done.
  - rewrite Z.mod_small by lia; destruct (Z.eqb_spec (n mod 6 + 1) 0); [lia|done].
Qed.

(** Telemetry of the charger.  When the charger's supply is off no bus traffic
    happens and every field has its "not available" value; when it is on, every
    field is within its 10-bit conversion range, no 16-bit product wraps, and the
    junction temperature can never be mistaken for the "not available" sentinel. *)
Theorem mp2762a_read_all_ranges `{D : Dev} h :
  dev_ok D ->
  let d := result mp2762a_read_all h in
  if pin_level PIN_DC_INP_EN h then
    vin_mv d <= 25575 /\ iin_ma d <= 6393 /\ vbat_mv d <= 12787 /\ ichg_ma d <= 12787 /\
    vsys_mv d <= 12787 /\ -465 <= tjunc_c10 d <= 3502 /\ tjunc_c10 d <> MP2762A_TJ_NA
  else
    effects mp2762a_read_all h = [] /\ tjunc_c10 d = MP2762A_TJ_NA /\ power_good d = 0 /\
    vbat_mv d = 0 /\ fault d = 0.
Proof.
  intros Hd d; subst d; unfold mp2762a_read_all, mp2762a_powered; rewrite result_bind, effects_bind.
  change (result (pin_get PIN_DC_INP_EN) h) with (pin_level PIN_DC_INP_EN h).
  destruct (pin_level PIN_DC_INP_EN h); [cbn [negb]|done].
  generalize (h ++ effects (pin_get PIN_DC_INP_EN) h); clear h; intros h; to_always h.
  destruct (adc_values Hd) as (H1 & H2 & H3 & H4 & H5 & H6).
  eapply (always_bind _ _ (fun _ => True)); [intros ?; exact I|intros status _].
  do 6 (eapply always_bind; [eassumption|intros ? ?; cbv beta in *]).

  eapply (always_bind _ _ (fun _ => True)); [intros ?; exact I|intros flt _].
  apply always_ret; cbn; unfold MP2762A_TJ_NA; split_and!; lia.
Qed.

Lemma mp2762a_read_all_ranges_witness :
  vbat_mv (@result _ (@mp2762a_read_all (const_dev 128)) [PinSet PIN_DC_INP_EN true]) <= 12787.
Proof.
  apply (@mp2762a_read_all_ranges (const_dev 128) [PinSet PIN_DC_INP_EN true]).
  intros h a r; unfold dev, const_dev; lia.
Defined.

(** ** CONFIG0 discipline *)

Section Config0.
Context `{D : Dev}.

(** No write opens the battery FET, and the last CONFIG0 write, if there is one,
    is the normal configuration with the charger enabled. *)
Definition config0_ok (ws : list (Z * Z * Z)) : Prop :=
  Forall (fun w => let '(a, r, v) := w in
            a = MP2762A_I2C_ADDR /\ (r = MP2762A_REG_CONFIG0 -> has v MP2762A_BATTFET_EN = true)) ws /\
  forall old, let new := reg_after MP2762A_I2C_ADDR MP2762A_REG_CONFIG0 ws old in
    new = old \/ new = Some MP2762A_CONFIG0_NORMAL.

Lemma config0_ok_app w1 w2 : config0_ok w1 -> config0_ok w2 -> config0_ok (w1 ++ w2).
Proof.
  intros [F1 R1] [F2 R2]; split; [apply Forall_app; done|]; intros old new.
  subst new; unfold reg_after; rewrite fold_left_app; fold (reg_after MP2762A_I2C_ADDR
    MP2762A_REG_CONFIG0 w1 old).
  destruct (R2 (reg_after MP2762A_I2C_ADDR MP2762A_REG_CONFIG0 w1 old)) as [H|H];
    cbv zeta in *; unfold reg_after in *; rewrite H; [apply R1|auto].
Qed.
Lemma config0_ok_nil : config0_ok [].
Proof. split; [constructor|auto]. Qed.
Lemma config0_ok_restart : config0_ok restart_writes.
Proof. split; [repeat constructor; done|intros old; right; done]. Qed.

Lemma config0_ok_polls vs s h : config0_ok (writes (effects (poll_seq vs s) h)).
Proof.
  revert s h; induction vs as [|v vs IH]; intros s h; [apply config0_ok_nil|].
  cbn [poll_seq]; rewrite effects_bind, writes_app, (proj2 (poll_result v s h)).
  apply config0_ok_app; [|apply IH].
  case_match; [apply config0_ok_restart|apply config0_ok_nil].
Qed.
End Config0.

(** The charger is never left disabled.  Initialisation, the periodic refresh
    and any number of presence polls, stuck restarts included, never open the
    battery FET, and the last value they leave in CONFIG0 has CHG_EN set. *)
Theorem charger_never_left_disabled `{D : Dev} vs s h :
  config0_ok (writes (effects mp2762a_init h)) /\
  config0_ok (writes (effects mp2762a_kick_watchdog h)) /\
  config0_ok (writes (effects (poll_seq vs s) h)) /\
  has MP2762A_CONFIG0_NORMAL MP2762A_CHG_EN = true.
Proof.
  split_and!; [| |apply config0_ok_polls|done].
  - split; [repeat constructor; done|intros old; right; done].
  - split; [repeat constructor; done|intros old; right; done].
Qed.
