(* ===== verification/Tps.v ===== *)
(** * The TPS55289 output converter driver (firmware-ch32x/User/tps55289.c)

    The driver computes register codes in C floating point.  Floats are modelled
    bit for bit with the Standard Library's [SpecFloat] (binary32 and binary64,
    round to nearest even); C's promotions of [float] to [double] against the
    unsuffixed constants of tps55289.h are explicit. *)

From Stdlib Require Import SpecFloat.
From S2P Require Import Prelude Hal.

(** ** IEEE arithmetic as the compiler uses it *)

Definition f32 (s : spec_float) : spec_float :=
  match s with
  | S754_finite b m e => binary_normalize 24 128 (if b then Z.neg m else Z.pos m) e b
  | s => s
  end.
Definition f64_of_f32 (s : spec_float) : spec_float :=
  match s with
  | S754_finite b m e => binary_normalize 53 1024 (if b then Z.neg m else Z.pos m) e b
  | s => s
  end.
Definition f32_of_int (z : Z) : spec_float := binary_normalize 24 128 z 0 false.
Definition f64_of_int (z : Z) : spec_float := binary_normalize 53 1024 z 0 false.
(** Decimal constants: correctly rounded quotients of exact integers. *)
Definition f32_lit (n d : Z) : spec_float := SFdiv 24 128 (f32_of_int n) (f32_of_int d).
Definition f64_lit (n d : Z) : spec_float := SFdiv 53 1024 (f64_of_int n) (f64_of_int d).

(** [(int)x]: truncation toward zero. *)
Definition f_trunc (s : spec_float) : Z :=
  match s with
  | S754_finite b m e =>
      let a := if 0 <=? e then Z.pos m * 2 ^ e else Z.pos m / 2 ^ (- e) in
      if b then - a else a
  | _ => 0
  end.
(** [(int)roundf(x)]: to nearest, halfway cases away from zero. *)
Definition f_round (s : spec_float) : Z :=
  match s with
  | S754_finite b m e =>
      let a := if 0 <=? e then Z.pos m * 2 ^ e
               else (2 * Z.pos m + 2 ^ (- e)) / (2 * 2 ^ (- e)) in
      if b then - a else a
  | _ => 0
  end.

(** ** Registers and constants *)

(* src: firmware-ch32x/User/tps55289.h:14-51 registers and parameters *)
Definition TPS55289_I2C_ADDR : Z := 117.
Definition REG_REF_LSB : Z := 0.
Definition REG_REF_MSB : Z := 1.
Definition REG_IOUT_LIMIT : Z := 2.
Definition REG_VOUT_SR : Z := 3.
Definition REG_VOUT_FS : Z := 4.
Definition REG_CDC : Z := 5.
Definition REG_MODE : Z := 6.
Definition REG_STATUS : Z := 7.
Definition MODE_OE_BIT : Z := 128.
Definition MODE_HICCUP_BIT : Z := 32.
Definition LSB_REF_VOLTAGE : spec_float := f64_lit 5645 10000000.
Definition REF_MIN_V : spec_float := f64_lit 45 1000.
Definition REF_MAX_V : spec_float := f64_lit 1200 1000.
Definition IOUT_LSB_PER_AMP : Z := 20.
Definition CDC_COMP_0V7 : Z := 7.

(* src: firmware-ch32x/User/tps55289.c:11-18 INTFB_OPTIONS *)
Definition INTFB_OPTIONS (i : Z) : spec_float :=
  match i with
  | 0 => f32_lit 2256 10000 | 1 => f32_lit 1128 10000
  | 2 => f32_lit 752 10000 | _ => f32_lit 564 10000
  end.

(* src: firmware-ch32x/User/tps55289.c:7-9 cached set values *)
Record tps := Tps { g_voltage_set_v10 : Z; g_current_set_a10 : Z }.
Definition tps_init_state : tps := Tps 0 0.

#[export] Instance eta_tps : Eta tps := fun t => Tps (g_voltage_set_v10 t) (g_current_set_a10 t).

(** ** The voltage and current codes *)

(** The REF register for an output voltage; [None] when it is refused. *)
(* src: firmware-ch32x/User/tps55289.c:132-161 tps55289_set_voltage (code) *)
Definition vout_code (vout : spec_float) : option Z :=
  if SFltb vout (f32_lit 33 10) || SFltb (f32_of_int 20) vout then None
  else
    let ratio := INTFB_OPTIONS 3 in
    let vref := SFmul 24 128 vout ratio in
    if SFltb (f64_of_f32 vref) REF_MIN_V || SFltb REF_MAX_V (f64_of_f32 vref) then None
    else
      let reg_float := f32 (SFdiv 53 1024 (SFsub 53 1024 (f64_of_f32 vref) REF_MIN_V)
                              LSB_REF_VOLTAGE) in
      let reg_float := SFadd 24 128 reg_float (f32_lit 1 2) in
      let reg := f_trunc reg_float in
      let reg := if reg <? 0 then 0 else reg in
      Some (if 2047 <? reg then 2047 else reg).

(** The IOUT_LIMIT register for a current. *)
(* src: firmware-ch32x/User/tps55289.c:110-123 tps55289_set_current_limit (code) *)
Definition iout_code (amps : spec_float) : option Z :=
  if SFltb amps (f32_of_int 0) || SFltb (f32_lit 635 100) amps then None
  else
    let reg_val := f_round (SFmul 24 128 amps (f32_of_int IOUT_LSB_PER_AMP)) in
    let reg_val := if 127 <? reg_val then 127 else reg_val in
    Some (Z.lor reg_val 128).

Section Tps55289.
Context `{D : Dev}.

(* src: firmware-ch32x/User/tps55289.c:23-26 tps55289_write_byte *)
Definition tps55289_write_byte (reg value : Z) : M unit := i2c_write TPS55289_I2C_ADDR reg value.

(* src: firmware-ch32x/User/tps55289.c:28-35 write_word_lsb_first *)
Definition write_word_lsb_first (reg_lsb value : Z) : M unit :=
  let lsb := u8 (Z.land value 255) in
  let msb := u8 (Z.land (Z.shiftr value 8) 7) in
  do* i2c_write TPS55289_I2C_ADDR reg_lsb lsb in
  i2c_write TPS55289_I2C_ADDR (u8 (reg_lsb + 1)) msb.

(* src: firmware-ch32x/User/tps55289.c:72-85 tps55289_set_cdc_compensation *)
Definition tps55289_set_cdc_compensation (level : Z) : M unit :=
  let level := if 7 <? level then 7 else level in
  tps55289_write_byte REG_CDC (Z.lor 224 (Z.land level 7)).

(* src: firmware-ch32x/User/tps55289.c:89-106 tps55289_enable_output *)
Definition tps55289_enable_output (enable : bool) : M unit :=
  if enable then tps55289_write_byte REG_MODE (Z.lor MODE_OE_BIT MODE_HICCUP_BIT)
  else tps55289_write_byte REG_MODE MODE_HICCUP_BIT.

(* src: firmware-ch32x/User/tps55289.c:39-71 tps55289_init *)
Definition tps55289_init : M unit :=
  do* tps55289_write_byte REG_VOUT_SR (Z.lor (Z.shiftl 1 4) 1) in
  do* tps55289_set_cdc_compensation CDC_COMP_0V7 in
  let* mode := i2c_read TPS55289_I2C_ADDR REG_MODE in
  mwhen (Z.land mode MODE_OE_BIT =? 0) (tps55289_enable_output false).

(* src: firmware-ch32x/User/tps55289.c:110-128 tps55289_set_current_limit *)
Definition tps55289_set_current_limit (amps : spec_float) (t : tps) : M (tps * Z) :=
  match iout_code amps with
  | None => ret (t, 255)
  | Some reg_val =>
      do* tps55289_write_byte REG_IOUT_LIMIT (u8 reg_val) in
      ret (t <| g_current_set_a10 := s16 (f_round (SFmul 24 128 amps (f32_of_int 10))) |>, 0)
  end.

(* src: firmware-ch32x/User/tps55289.c:132-167 tps55289_set_voltage *)
Definition tps55289_set_voltage (vout : spec_float) (t : tps) : M (tps * Z) :=
  match vout_code vout with
  | None => ret (t, 255)
  | Some reg =>
      do* tps55289_write_byte REG_VOUT_FS 3 in
      do* write_word_lsb_first REG_REF_LSB (u16 reg) in
      ret (t <| g_voltage_set_v10 := s16 (f_round (SFmul 24 128 vout (f32_of_int 10))) |>, 0)
  end.

(* src: firmware-ch32x/User/tps55289.c:171-173 cached set values *)
Definition tps55289_get_voltage_set_v10 (t : tps) : Z := g_voltage_set_v10 t.
Definition tps55289_get_current_set_a10 (t : tps) : Z := g_current_set_a10 t.
Definition tps55289_clear_set_cache (t : tps) : tps :=
  t <| g_voltage_set_v10 := 0 |> <| g_current_set_a10 := 0 |>.

(** [reg * LSB_REF_VOLTAGE] and the sum are double; [vref] rounds to float. *)
(* src: firmware-ch32x/User/tps55289.c:177-191 tps55289_read_voltage *)
Definition vout_of_regs (lsb msb vout_fs : Z) : spec_float :=
  let reg := Z.lor (u16 (Z.shiftl (Z.land msb 7) 8)) lsb in
  let intfb_bits := Z.land vout_fs 3 in
  let ratio := INTFB_OPTIONS intfb_bits in
  let vref := f32 (SFadd 53 1024 REF_MIN_V (SFmul 53 1024 (f64_of_int reg) LSB_REF_VOLTAGE)) in
  SFdiv 24 128 vref ratio.
Definition tps55289_read_voltage : M spec_float :=
  let* lsb := i2c_read TPS55289_I2C_ADDR REG_REF_LSB in
  let* msb := i2c_read TPS55289_I2C_ADDR REG_REF_MSB in
  let* vout_fs := i2c_read TPS55289_I2C_ADDR REG_VOUT_FS in
  ret (vout_of_regs lsb msb vout_fs).

(* src: firmware-ch32x/User/tps55289.c:195-201 tps55289_read_current_limit *)
Definition tps55289_read_current_limit : M spec_float :=
  let* reg := i2c_read TPS55289_I2C_ADDR REG_IOUT_LIMIT in
  let val := Z.land reg 127 in
  ret (SFdiv 24 128 (f32_of_int val) (f32_of_int IOUT_LSB_PER_AMP)).

(* src: firmware-ch32x/User/tps55289.c:207-210 tps55289_read_status *)
Definition tps55289_read_status : M Z := i2c_read TPS55289_I2C_ADDR REG_STATUS.
End Tps55289.

(** The float the callers pass: tenths of a volt or an ampere, [(float)n / 10.0f]. *)
Definition tenths (n : Z) : spec_float := SFdiv 24 128 (f32_of_int n) (f32_of_int 10).

#[global] Arguments vout_code : simpl never.
#[global] Arguments iout_code : simpl never.
#[global] Arguments tenths : simpl never.
#[global] Arguments f32_of_int : simpl never.

(** ** The codes, checked over every request in tenths *)

(** Error of a code in units of 0.1 uV at the reference input, where one LSB is
    5645 units and the divider turns a tenth of a volt into 56400 units. *)
Definition code_error (v10 reg : Z) : Z := Z.abs (450000 + 5645 * reg - 56400 * v10).

Definition voltage_ok (v : Z) : bool :=
  match vout_code (tenths v) with
  | Some reg => (2 * code_error v reg <=? 5646) && (0 <=? reg) && (reg <=? 2047) &&
                (f_round (SFmul 24 128 (tenths v) (f32_of_int 10)) =? v)
  | None => false
  end.
Definition current_ok (a : Z) : bool :=
  match iout_code (tenths a) with
  | Some c => (c =? 128 + 2 * a) &&
              (f_round (SFmul 24 128 (tenths a) (f32_of_int 10)) =? a)
  | None => false
  end.

Section TpsCodes.
Lemma voltages_ok v : 33 <= v <= 200 -> voltage_ok v = true.
Proof. intros; apply (seqZ_all _ 33 168); [vm_compute; reflexivity|lia]. Qed.
Lemma currents_ok a : 0 <= a <= 63 -> current_ok a = true.
Proof. intros; apply (seqZ_all _ 0 64); [vm_compute; reflexivity|lia]. Qed.

(** Bits 7..0 and 10..8 of a code put back together. *)
Lemma word_split reg :
  0 <= reg <= 2047 ->
  u8 (Z.land (Z.shiftr (u16 reg) 8) 7) * 256 + u8 (Z.land (u16 reg) 255) = reg.
Proof.
  intros H; rewrite u16_small by lia; rewrite Z.shiftr_div_pow2 by lia.
  change 255 with (Z.ones 8); change 7 with (Z.ones 3); rewrite !Z.land_ones by lia.
  unfold u8; change (2 ^ 8) with 256; change (2 ^ 3) with 8.
  rewrite Z.mod_mod by lia.
  assert (reg / 256 < 8) by (apply Z.div_lt_upper_bound; lia).
  assert (0 <= reg / 256) by (apply Z.div_pos; lia).
  rewrite (Z.mod_small (reg / 256)) by lia; rewrite Z.mod_small by lia.
  pose proof (Z.div_mod reg 256); lia.
Qed.

(** The reference code of a voltage in tenths. *)
Definition vout_reg (v : Z) : Z := default 0 (vout_code (tenths v)).

Lemma vout_reg_spec v :
  33 <= v <= 200 -> vout_code (tenths v) = Some (vout_reg v) /\ 0 <= vout_reg v <= 2047 /\
    2 * code_error v (vout_reg v) <= 5646 /\
    f_round (SFmul 24 128 (tenths v) (f32_of_int 10)) = v.
Proof.
  intros Hv; pose proof (voltages_ok v Hv) as H; unfold voltage_ok, vout_reg in *.
  destruct (vout_code (tenths v)); [|done]; to_prop; cbn; split_and!; done || lia.
Qed.

Lemma set_voltage_exact v t h :
  33 <= v <= 200 ->
  tps55289_set_voltage (tenths v) t h =
    ((t <| g_voltage_set_v10 := v |>, 0),
     [I2cWrite TPS55289_I2C_ADDR REG_VOUT_FS 3;
      I2cWrite TPS55289_I2C_ADDR REG_REF_LSB (u8 (Z.land (u16 (vout_reg v)) 255));
      I2cWrite TPS55289_I2C_ADDR REG_REF_MSB (u8 (Z.land (Z.shiftr (u16 (vout_reg v)) 8) 7))]).
Proof.
  intros Hv; pose proof (vout_reg_spec v Hv) as (Hc & _ & _ & Hr).
  unfold tps55289_set_voltage; rewrite Hc; cbn; rewrite Hr, s16_small by lia; done.
Qed.

Lemma set_current_exact a t h :
  0 <= a <= 63 ->
  tps55289_set_current_limit (tenths a) t h =
    ((t <| g_current_set_a10 := a |>, 0),
     [I2cWrite TPS55289_I2C_ADDR REG_IOUT_LIMIT (128 + 2 * a)]).
Proof.
  intros Ha; pose proof (currents_ok a Ha) as H; unfold current_ok, tps55289_set_current_limit in *.
  destruct (iout_code (tenths a)) as [c|]; [|done]; to_prop; subst c; cbn.
  match goal with H : f_round _ = a |- _ => rewrite H end; rewrite s16_small, u8_small by lia; done.
Qed.
End TpsCodes.

#[global] Arguments vout_reg : simpl never.

(** Every output voltage of 3.3 to 20.0 V and every current limit of 0 to
    6.3 A given in tenths is accepted.  The three voltage writes select the 20 V
    feedback range and a reference code within half an LSB of the exact quotient
    (so the rail is within 5.01 mV of the request), the current code is exact, and
    the caches hold exactly the requested tenths: the periodic refresh, which
    passes the cached tenths back, repeats the same register values for ever. *)
Theorem tps_setpoints_exact `{D : Dev} v a t h :
  33 <= v <= 200 -> 0 <= a <= 63 ->
  (exists reg lsb msb,
    tps55289_set_voltage (tenths v) t h =
      ((t <| g_voltage_set_v10 := v |>, 0),
       [I2cWrite TPS55289_I2C_ADDR REG_VOUT_FS 3; I2cWrite TPS55289_I2C_ADDR REG_REF_LSB lsb;
        I2cWrite TPS55289_I2C_ADDR REG_REF_MSB msb]) /\
    msb * 256 + lsb = reg /\ 0 <= reg <= 2047 /\ 2 * code_error v reg <= 5646) /\
  tps55289_set_current_limit (tenths a) t h =
    ((t <| g_current_set_a10 := a |>, 0),
     [I2cWrite TPS55289_I2C_ADDR REG_IOUT_LIMIT (128 + 2 * a)]).
Proof.
  intros Hv Ha; split; [|apply set_current_exact; done].
  exists (vout_reg v); do 2 eexists; split_and!; [apply set_voltage_exact; done|..];
    pose proof (vout_reg_spec v Hv); [apply word_split; lia|lia..].
Qed.

Lemma tps_setpoints_exact_witness :
  @tps55289_set_current_limit (tenths 50) (Tps 0 0) [] =
    ((Tps 0 50, 0), [I2cWrite TPS55289_I2C_ADDR REG_IOUT_LIMIT 228]).
Proof. apply (@tps_setpoints_exact (fun _ _ _ => 0) 51 50 (Tps 0 0) []); lia. Defined.

(** A set point the converter cannot hold changes nothing.  Any float below
    3.3 V or above 20 V, and any current below 0 or above 6.35 A, is refused with
    the error code, no register is written and the cached set points stay. *)
Theorem tps_out_of_range_refused `{D : Dev} x t h :
  (SFltb x (f32_lit 33 10) = true \/ SFltb (f32_of_int 20) x = true ->
   tps55289_set_voltage x t h = ((t, 255), [])) /\
  (SFltb x (f32_of_int 0) = true \/ SFltb (f32_lit 635 100) x = true ->
   tps55289_set_current_limit x t h = ((t, 255), [])).
Proof.
  unfold tps55289_set_voltage, tps55289_set_current_limit, vout_code, iout_code.
  split; intros [H|H]; rewrite H; rewrite ?orb_true_r; done.
Qed.

Lemma tps_out_of_range_refused_witness :
  @tps55289_set_voltage (tenths 240) (Tps 50 30) [] = ((Tps 50 30, 255), []).
Proof. apply (@tps_out_of_range_refused (fun _ _ _ => 0)); right; reflexivity. Defined.
