(* ===== verification/InputPd.v ===== *)
(** * The HUSB238 input-side PD sink (firmware-ch32x/User/husb238.c)

    Decoding of the negotiated contract, source-capability enumeration, and the
    selection policy that picks the PDO to request. *)

From S2P Require Import Prelude Hal.

(* src: firmware-ch32x/User/husb238.h:41-102 registers, masks and codes *)
Definition HUSB238_I2C_ADDR : Z := 8.
Definition HUSB238_REG_PD_STATUS0 : Z := 0.
Definition HUSB238_REG_PD_STATUS1 : Z := 1.
Definition HUSB238_REG_SRC_PDO : Z := 8.
Definition HUSB238_REG_GO_COMMAND : Z := 9.
Definition HUSB238_S0_VOLT_MASK : Z := 240.
Definition HUSB238_S0_VOLT_SHIFT : Z := 4.
Definition HUSB238_S0_CURR_MASK : Z := 15.
Definition HUSB238_V_5V : Z := 1.
Definition HUSB238_V_20V : Z := 6.
Definition HUSB238_S1_ATTACH_MASK : Z := 64.
Definition HUSB238_S1_RESP_MASK : Z := 56.
Definition HUSB238_S1_RESP_SHIFT : Z := 3.
Definition HUSB238_PDO_DETECT_MASK : Z := 128.
Definition HUSB238_PDO_CURR_MASK : Z := 15.
Definition HUSB238_SEL_NONE : Z := 0.
Definition HUSB238_CMD_REQUEST_PDO : Z := 1.
Definition HUSB238_CMD_GET_SRC_CAP : Z := 4.

(* src: firmware-ch32x/User/husb238.h:104-112 husb238_data_t *)
Record husb238_data_t := HusbData {
  attached : Z; v_code : Z; i_code : Z; last_response : Z;
  voltage_mV : Z; current_mA : Z
}.

(* src: firmware-ch32x/User/husb238.h:127-133 husb238_src_caps_t *)
Definition HUSB238_PDO_COUNT : nat := 6.
Record husb238_src_caps_t := HusbCaps { detected_mask : Z; caps_mA : list Z }.

(* src: firmware-ch32x/User/husb238.h:140-157 selection policy *)
Definition HUSB238_POLICY_V_FLOOR_MV : Z := 9000.
Definition HUSB238_POLICY_V_CAP_MV : Z := 20000.
Definition HUSB238_POLICY_I_CAP_MA : Z := 5000.
Definition HUSB238_POLICY_P_ENOUGH_MW : Z := 45000.
Definition HUSB238_POLICY_BAND_NUM : Z := 9.
Definition HUSB238_POLICY_BAND_DEN : Z := 10.

(* src: firmware-ch32x/User/husb238.c:4-11 HUSB238_CURRENT_LUT_MA *)
Definition HUSB238_CURRENT_LUT_MA : list Z :=
  [500; 700; 1000; 1250; 1500; 1750; 2000; 2250;
   2500; 2750; 3000; 3250; 3500; 4000; 4500; 5000].

(* src: firmware-ch32x/User/husb238.c:21-32 husb238_decode_voltage_mV *)
Definition husb238_decode_voltage_mV (v_code : Z) : Z :=
  match v_code with
  | 1 => 5000 | 2 => 9000 | 3 => 12000 | 4 => 15000 | 5 => 18000 | 6 => 20000 | _ => 0
  end.

(* src: firmware-ch32x/User/husb238.c:34-36 husb238_decode_current_mA *)
Definition husb238_decode_current_mA (i_code : Z) : Z :=
  nth (Z.to_nat (Z.land i_code 15)) HUSB238_CURRENT_LUT_MA 0.

(* src: firmware-ch32x/User/husb238.c:73-84 PDO tables *)
Definition HUSB238_PDO_MV : list Z := [5000; 9000; 12000; 15000; 18000; 20000].
Definition HUSB238_PDO_SEL : list Z := [1; 2; 3; 8; 9; 10].
Definition HUSB238_PDO_REG : list Z := [2; 3; 4; 5; 6; 7].

(** The decoding of the two status registers. *)
(* src: firmware-ch32x/User/husb238.c:42-63 husb238_read_all *)
Definition husb238_contract (s0 s1 : Z) : husb238_data_t :=
  let v := u8 (Z.shiftr (Z.land s0 HUSB238_S0_VOLT_MASK) HUSB238_S0_VOLT_SHIFT) in
  let i := u8 (Z.land s0 HUSB238_S0_CURR_MASK) in
  let att := has s1 HUSB238_S1_ATTACH_MASK && (HUSB238_V_5V <=? v) && (v <=? HUSB238_V_20V) in
  let resp := u8 (Z.shiftr (Z.land s1 HUSB238_S1_RESP_MASK) HUSB238_S1_RESP_SHIFT) in
  HusbData (b2z att) v i resp
    (if att then husb238_decode_voltage_mV v else 0)
    (if att then husb238_decode_current_mA i else 0).

Section Husb238.
Context `{D : Dev}.

(* src: firmware-ch32x/User/husb238.c:13-19 husb238_read_reg, husb238_write_reg *)
Definition husb238_read_reg (reg : Z) : M Z := i2c_read HUSB238_I2C_ADDR reg.
Definition husb238_write_reg (reg value : Z) : M unit := i2c_write HUSB238_I2C_ADDR reg value.

(* src: firmware-ch32x/User/husb238.c:42-63 husb238_read_all *)
Definition husb238_read_all : M husb238_data_t :=
  let* s0 := husb238_read_reg HUSB238_REG_PD_STATUS0 in
  let* s1 := husb238_read_reg HUSB238_REG_PD_STATUS1 in
  ret (husb238_contract s0 s1).

(* src: firmware-ch32x/User/husb238.c:65-69 husb238_init *)
Definition husb238_init : M unit :=
  let* _ := husb238_read_reg HUSB238_REG_PD_STATUS0 in ret tt.

(* src: firmware-ch32x/User/husb238.c:86-93 husb238_read_src_caps *)
Fixpoint read_caps_loop (regs : list Z) (i : Z) (out : husb238_src_caps_t) : M husb238_src_caps_t :=
  match regs with
  | [] => ret out
  | r :: regs =>
      let* b := husb238_read_reg r in
      let mask := if has b HUSB238_PDO_DETECT_MASK
                  then Z.lor (detected_mask out) (u8 (Z.shiftl 1 i)) else detected_mask out in
      read_caps_loop regs (i + 1)
        (HusbCaps mask (caps_mA out ++ [husb238_decode_current_mA (Z.land b HUSB238_PDO_CURR_MASK)]))
  end.
Definition husb238_read_src_caps : M husb238_src_caps_t :=
  read_caps_loop HUSB238_PDO_REG 0 (HusbCaps 0 []).

(* src: firmware-ch32x/User/husb238.c:165-170 husb238_select_pdo *)
Definition husb238_select_pdo (sel_code : Z) : M unit :=
  do* husb238_write_reg HUSB238_REG_SRC_PDO (u8 (Z.shiftl sel_code 4)) in
  husb238_write_reg HUSB238_REG_GO_COMMAND HUSB238_CMD_REQUEST_PDO.
End Husb238.

(** ** The policy *)

(* src: firmware-ch32x/User/husb238.c:95-98 HUSB238_PREF_MV *)
Definition HUSB238_PREF_MV : list Z := [15000; 12000; 18000; 20000; 9000].

(** A C loop [for (i...) if (cond i) return f i;]: the first element that
    satisfies the condition. *)
Fixpoint first_match {A} (P : A -> bool) (l : list A) : option A :=
  match l with [] => None | x :: l => if P x then Some x else first_match P l end.

(* src: firmware-ch32x/User/husb238.c:100-105 husb238_idx_of_mV *)
Definition husb238_idx_of_mV (v_mV : Z) : Z :=
  default (-1) (first_match (fun i => nth (Z.to_nat i) HUSB238_PDO_MV 0 =? v_mV)
                  (seqZ 0 (Z.of_nat HUSB238_PDO_COUNT))).

(* src: firmware-ch32x/User/husb238.c:107-113 husb238_slot_mW *)
Definition husb238_slot_mW (caps : husb238_src_caps_t) (idx : Z) : Z :=
  let i_mA := nth (Z.to_nat idx) (caps_mA caps) 0 in
  let i_mA := if HUSB238_POLICY_I_CAP_MA <? i_mA then HUSB238_POLICY_I_CAP_MA else i_mA in
  u32 (nth (Z.to_nat idx) HUSB238_PDO_MV 0 * i_mA) / 1000.

(* src: firmware-ch32x/User/husb238.c:115-118 husb238_slot_in_range *)
Definition husb238_slot_in_range (idx : Z) : bool :=
  (HUSB238_POLICY_V_FLOOR_MV <=? nth (Z.to_nat idx) HUSB238_PDO_MV 0) &&
  (nth (Z.to_nat idx) HUSB238_PDO_MV 0 <=? HUSB238_POLICY_V_CAP_MV).

(** [caps->detected_mask & (1u << i)]. *)
(* src: firmware-ch32x/User/husb238.c:126-126 detected_mask test *)
Definition offered (caps : husb238_src_caps_t) (i : Z) : bool :=
  has (detected_mask caps) (Z.shiftl 1 i).
Definition sel_of (i : Z) : Z := nth (Z.to_nat i) HUSB238_PDO_SEL 0.

(* src: firmware-ch32x/User/husb238.c:120-129 husb238_pick_best_pdo (stage A) *)
Definition pick_enough (caps : husb238_src_caps_t) : option Z :=
  first_match (fun i => negb (i <? 0) && offered caps i &&
                        (HUSB238_POLICY_P_ENOUGH_MW <=? husb238_slot_mW caps i))
    (map husb238_idx_of_mV HUSB238_PREF_MV).

(* src: firmware-ch32x/User/husb238.c:131-139 husb238_pick_best_pdo (best power) *)
Definition best_power (caps : husb238_src_caps_t) : Z :=
  fold_left (fun best_p i =>
      if negb (offered caps i) || negb (husb238_slot_in_range i) then best_p
      else let pw := husb238_slot_mW caps i in if best_p <? pw then pw else best_p)
    (seqZ 0 (Z.of_nat HUSB238_PDO_COUNT)) 0.

(* src: firmware-ch32x/User/husb238.c:140-147 husb238_pick_best_pdo (stage B) *)
Definition pick_in_band (caps : husb238_src_caps_t) (best_p : Z) : option Z :=
  let band := u32 (best_p * HUSB238_POLICY_BAND_NUM) / HUSB238_POLICY_BAND_DEN in
  first_match (fun i => negb (i <? 0) && offered caps i && husb238_slot_in_range i &&
                        (band <=? husb238_slot_mW caps i))
    (map husb238_idx_of_mV HUSB238_PREF_MV).

(* src: firmware-ch32x/User/husb238.c:149-156 husb238_pick_best_pdo (stage C) *)
Definition pick_fallback (caps : husb238_src_caps_t) : Z :=
  fold_left (fun fb_sel i =>
      if offered caps i && (0 <? nth (Z.to_nat i) (caps_mA caps) 0) then sel_of i else fb_sel)
    (seqZ 0 (Z.of_nat HUSB238_PDO_COUNT)) HUSB238_SEL_NONE.

(* src: firmware-ch32x/User/husb238.c:120-157 husb238_pick_best_pdo *)
Definition husb238_pick_best_pdo (caps : husb238_src_caps_t) : Z :=
  match pick_enough caps with
  | Some i => sel_of i
  | None =>
      let best_p := best_power caps in
      match (if 0 <? best_p then pick_in_band caps best_p else None) with
      | Some i => sel_of i
      | None => pick_fallback caps
      end
  end.

(* src: firmware-ch32x/User/husb238.c:159-163 husb238_sel_to_mV *)
Definition husb238_sel_to_mV (sel_code : Z) : Z :=
  match first_match (fun i => sel_of i =? sel_code) (seqZ 0 (Z.of_nat HUSB238_PDO_COUNT)) with
  | Some i => nth (Z.to_nat i) HUSB238_PDO_MV 0
  | None => 0
  end.

(** ** Lemmas *)

Definition caps_wf (caps : husb238_src_caps_t) : Prop :=
  length (caps_mA caps) = HUSB238_PDO_COUNT /\ Forall (fun z => is_u16 z) (caps_mA caps).

(** Slots from most to least preferred: 15, 12, 18, 20 and 9 V. *)
Definition preference : list Z := [3; 2; 4; 5; 1].
Definition most_preferred (P : Z -> Prop) (i : Z) : Prop :=
  exists l1 l2, preference = l1 ++ i :: l2 /\ P i /\ Forall (fun j => ~ P j) l1.

Section Policy.
Lemma first_match_Some {A} (P : A -> bool) l x :
  first_match P l = Some x ->
  exists l1 l2, l = l1 ++ x :: l2 /\ P x = true /\ Forall (fun y => P y = false) l1.
Proof.
  induction l as [|y l IH]; cbn; [done|]; destruct (P y) eqn:Hy.
  - intros [= ->]; exists [], l; auto.
  - intros H; destruct (IH H) as (l1 & l2 & -> & ? & ?).
    exists (y :: l1), l2; auto.
Qed.
Lemma first_match_None {A} (P : A -> bool) l x :
  first_match P l = None -> x ∈ l -> P x = false.
Proof.
  induction l as [|y l IH]; cbn; [intros _ H; apply elem_of_nil in H; done|].
  destruct (P y) eqn:Hy; [done|].
  intros H [-> | Hx]%elem_of_cons; auto.
Qed.

(** Evaluate the voltage table at a literal slot. *)
Ltac eval_mv :=
  repeat match goal with
  | |- context [nth (Z.to_nat ?k) HUSB238_PDO_MV 0] =>
      let v := eval vm_compute in (nth (Z.to_nat k) HUSB238_PDO_MV 0) in
      change (nth (Z.to_nat k) HUSB238_PDO_MV 0) with v
  end.

Lemma pref_slots : map husb238_idx_of_mV HUSB238_PREF_MV = preference.
Proof. reflexivity. Qed.

Definition slot (i : Z) : Prop := 0 <= i < 6.
Lemma slot_cases i : slot i -> i = 0 \/ i = 1 \/ i = 2 \/ i = 3 \/ i = 4 \/ i = 5.
Proof. unfold slot; lia. Qed.
Lemma preference_slot i : i ∈ preference <-> slot i /\ husb238_slot_in_range i = true.
Proof.
  split; [intros H; repeat (apply elem_of_cons in H as [-> | H]; [done|]); by apply elem_of_nil in H|].
  intros [Hi Hr]; apply slot_cases in Hi as [->|[->|[->|[->|[->| ->]]]]]; try discriminate;
    set_solver.
Qed.

(** The running maximum, and the last match. *)
Lemma fold_max (Q : Z -> bool) (w : Z -> Z) l b0 :
  let r := fold_left (fun b i => if Q i then b else if b <? w i then w i else b) l b0 in
  b0 <= r /\ (forall i, i ∈ l -> Q i = false -> w i <= r) /\
  (r = b0 \/ exists i, i ∈ l /\ Q i = false /\ w i = r).
Proof.
  revert b0; induction l as [|x l IH]; intros b0; cbn.
  - split_and!; [lia| |auto]; intros i Hi; apply elem_of_nil in Hi; done.
  - set (b1 := if Q x then b0 else if b0 <? w x then w x else b0).
    destruct (IH b1) as (Hle & Hall & Hex).
    assert (Hb : b0 <= b1 /\ (Q x = false -> w x <= b1) /\ (b1 = b0 \/ Q x = false /\ w x = b1)).
    { subst b1; destruct (Q x); [split_and!; auto; lia || done|].
      destruct (Z.ltb_spec b0 (w x)); split_and!; auto; lia. }
    destruct Hb as (? & ? & Hb'); split_and!; [lia| |].
    + intros i [-> | Hi]%elem_of_cons Hq; [etrans; eauto|auto].
    + destruct Hex as [Hr|(i & Hi & ? & ?)]; [rewrite Hr|right; exists i; split_and!; auto; apply elem_of_cons; auto].
      destruct Hb' as [?|[? ?]]; [auto|right; exists x; split_and!; auto; apply elem_of_cons; auto].
Qed.

Lemma fold_last (P : Z -> bool) (f : Z -> Z) l d :
  let r := fold_left (fun acc i => if P i then f i else acc) l d in
  (r = d /\ forall i, i ∈ l -> P i = false) \/
  (exists l1 i l2, l = l1 ++ i :: l2 /\ P i = true /\ r = f i /\ Forall (fun j => P j = false) l2).
Proof.
  revert d; induction l as [|x l IH]; intros d; cbn.
  - left; split; [done|]; intros i Hi; apply elem_of_nil in Hi; done.
  - destruct (P x) eqn:Hx; cbn.
    + destruct (IH (f x)) as [[-> Hn]|(l1 & i & l2 & -> & ? & ? & ?)]; right.
      * exists [], x, l; split_and!; auto; apply Forall_forall; auto.
      * exists (x :: l1), i, l2; auto.
    + destruct (IH d) as [[-> Hn]|(l1 & i & l2 & -> & ? & ? & ?)]; [left|right].
      * split; [done|]; intros i [-> | Hi]%elem_of_cons; auto.
      * exists (x :: l1), i, l2; auto.
Qed.

Lemma first_match_preferred (P : Z -> bool) i :
  first_match P preference = Some i -> most_preferred (fun j => P j = true) i.
Proof.
  intros H; apply first_match_Some in H as (l1 & l2 & ? & ? & Hf); exists l1, l2.
  split_and!; auto; eapply Forall_impl; [exact Hf|intros j ->; done].
Qed.

Lemma most_preferred_iff (P Q : Z -> Prop) i :
  (forall j, j ∈ preference -> P j <-> Q j) -> most_preferred P i -> most_preferred Q i.
Proof.
  intros HPQ (l1 & l2 & Hp & Hi & Hn); exists l1, l2; split_and!; [done| |].
  - apply HPQ; [rewrite Hp; apply elem_of_app; right; left|done].
  - rewrite Forall_forall in *; intros j Hj HQ; apply (Hn j Hj), HPQ; [|done].
    rewrite Hp; apply elem_of_app; auto.
Qed.

Context (caps : husb238_src_caps_t) (Hwf : caps_wf caps).
#[local] Set Default Proof Using "Type*".

Lemma current_u16 i : slot i -> is_u16 (nth (Z.to_nat i) (caps_mA caps) 0).
Proof.
  intros Hi; destruct Hwf as [Hl Hf]; rewrite Forall_forall in Hf; apply Hf.
  apply list_elem_of_In, nth_In; rewrite Hl; unfold slot, HUSB238_PDO_COUNT in *; lia.
Qed.

(** Power without the machine arithmetic: nothing wraps. *)
Lemma slot_mW_eq i :
  slot i -> husb238_slot_mW caps i =
    nth (Z.to_nat i) HUSB238_PDO_MV 0 * Z.min 5000 (nth (Z.to_nat i) (caps_mA caps) 0) / 1000.
Proof.
  intros Hi; pose proof (current_u16 i Hi); unfold husb238_slot_mW, HUSB238_POLICY_I_CAP_MA.
  set (c := nth _ (caps_mA caps) 0) in *.
  replace (if 5000 <? c then 5000 else c) with (Z.min 5000 c)
    by (destruct (Z.ltb_spec 5000 c); lia).
  f_equal; apply u32_small; clearbody c.
  apply slot_cases in Hi as [->|[->|[->|[->|[->| ->]]]]]; eval_mv; lia.
Qed.
Lemma slot_mW_range i :
  slot i -> 0 <= husb238_slot_mW caps i <= 100000 /\
    (husb238_slot_in_range i = true -> 0 < nth (Z.to_nat i) (caps_mA caps) 0 ->
     9 <= husb238_slot_mW caps i) /\
    (0 < husb238_slot_mW caps i -> 0 < nth (Z.to_nat i) (caps_mA caps) 0).
Proof.
  intros Hi; rewrite slot_mW_eq by done; pose proof (current_u16 i Hi).
  set (c := nth _ (caps_mA caps) 0) in *; clearbody c.
  apply slot_cases in Hi as [->|[->|[->|[->|[->| ->]]]]]; eval_mv; split_and!; try done; intros;
    try (apply Z.div_pos; lia); try (apply Z.div_le_upper_bound; lia);
    try (apply Z.div_le_lower_bound; lia);
    (destruct (decide (c = 0)) as [->|]; [done|lia]).
Qed.

Definition usable (i : Z) : Prop := offered caps i = true /\ i ∈ preference.

Lemma best_power_spec :
  (forall i, usable i -> husb238_slot_mW caps i <= best_power caps) /\ 0 <= best_power caps <= 100000 /\
  (best_power caps = 0 \/ exists i, usable i /\ husb238_slot_mW caps i = best_power caps).
Proof.
  unfold best_power, usable.
  destruct (fold_max (fun i => negb (offered caps i) || negb (husb238_slot_in_range i))
              (husb238_slot_mW caps) (seqZ 0 (Z.of_nat HUSB238_PDO_COUNT)) 0) as (H0 & Hall & Hex).
  cbv zeta in *; set (r := fold_left _ _ _) in *; clearbody r.
  assert (Hmem : forall i, i ∈ seqZ 0 (Z.of_nat HUSB238_PDO_COUNT) <-> slot i)
    by (intros i; rewrite elem_of_seqZ; unfold slot, HUSB238_PDO_COUNT; lia).
  split_and!; [| lia| |].
  - intros i [Ho Hp]; apply preference_slot in Hp as [Hi Hr]; apply Hall; [apply Hmem; done|].
    rewrite Ho, Hr; done.
  - destruct Hex as [->|(i & Hi & _ & <-)]; [lia|apply slot_mW_range, Hmem; done].
  - destruct Hex as [->|(i & Hi & Hq & <-)]; [auto|right]; exists i; to_prop.
    split_and!; [done| |done]; apply preference_slot; split; [apply Hmem|]; done.
Qed.

Lemma usable_test j :
  j ∈ preference -> negb (j <? 0) && offered caps j = true <-> usable j.
Proof using Type.
  intros Hj; pose proof Hj as Hj'; apply preference_slot in Hj' as [Hs _]; unfold usable, slot in *.
  destruct (Z.ltb_spec j 0); [lia|cbn; tauto].
Qed.

(** With no usable current above the floor, only the 5 V slot is left. *)
Lemma fallback_low :
  (forall j, usable j -> nth (Z.to_nat j) (caps_mA caps) 0 = 0) ->
  pick_fallback caps = if offered caps 0 && (0 <? nth 0 (caps_mA caps) 0) then 1 else HUSB238_SEL_NONE.
Proof using Type.
  intros Hz; unfold pick_fallback; change (seqZ 0 (Z.of_nat HUSB238_PDO_COUNT)) with (0 :: seqZ 1 5).
  cbn [fold_left]; change (Z.to_nat 0) with 0%nat; change (sel_of 0) with 1.
  set (d := if (offered caps 0 && _)%bool then (1 : Z) else HUSB238_SEL_NONE); clearbody d.
  destruct (fold_last (fun i => offered caps i && (0 <? nth (Z.to_nat i) (caps_mA caps) 0))
              sel_of (seqZ 1 5) d) as [[-> _]|(l1 & i & l2 & Hl & Hp & _)]; [done|exfalso].
  assert (Hi : i ∈ seqZ 1 5) by (rewrite Hl; apply elem_of_app; right; left).
  apply elem_of_seqZ in Hi; apply andb_true_iff in Hp as [Ho Hc]; apply Z.ltb_lt in Hc.
  rewrite (Hz i) in Hc; [lia|]; split; [done|]; apply preference_slot.
  split; [unfold slot; lia|].
  assert (i = 1 \/ i = 2 \/ i = 3 \/ i = 4 \/ i = 5) as [->|[->|[->|[->| ->]]]] by lia; done.
Qed.
End Policy.

(** The two nibbles of PD_STATUS0, checked on every byte. *)
Lemma nibbles s0 :
  is_u8 s0 ->
  u8 (Z.shiftr (Z.land s0 HUSB238_S0_VOLT_MASK) HUSB238_S0_VOLT_SHIFT) = s0 / 16 /\
  u8 (Z.land s0 HUSB238_S0_CURR_MASK) = s0 mod 16 /\
  HUSB238_CURRENT_LUT_MA !! Z.to_nat (s0 mod 16) = Some (husb238_decode_current_mA (s0 mod 16)) /\
  (1 <= s0 / 16 <= 6 ->
   HUSB238_PDO_MV !! Z.to_nat (s0 / 16 - 1) = Some (husb238_decode_voltage_mV (s0 / 16))).
Proof.
  intros Hs; set (P := fun s0 =>
    (u8 (Z.shiftr (Z.land s0 HUSB238_S0_VOLT_MASK) HUSB238_S0_VOLT_SHIFT) =? s0 / 16) &&
    (u8 (Z.land s0 HUSB238_S0_CURR_MASK) =? s0 mod 16) &&
    bool_decide (HUSB238_CURRENT_LUT_MA !! Z.to_nat (s0 mod 16) =
                 Some (husb238_decode_current_mA (s0 mod 16))) &&
    (negb ((1 <=? s0 / 16) && (s0 / 16 <=? 6)) ||
     bool_decide (HUSB238_PDO_MV !! Z.to_nat (s0 / 16 - 1) =
                  Some (husb238_decode_voltage_mV (s0 / 16))))).
  assert (H : P s0 = true) by (apply (seqZ_all P 0 256); [vm_compute; reflexivity|lia]).
  unfold P in H; to_prop; split_and!; try done; intros Hr.
  match goal with H : negb _ || _ = true |- _ => apply orb_true_iff in H as [H|H] end; to_prop; [|done].
  match goal with H : _ && _ = false |- _ => apply andb_false_iff in H as [H|H] end; to_prop; lia.
Qed.

(** ** Properties *)

(** The input negotiation follows the owner's policy.  With [P i] the power
    of slot [i] (current capped at 5 A): if some offered voltage of 9 to 20 V
    reaches 45 W, the most preferred such voltage is requested; otherwise, if one
    carries any current, the most preferred voltage within 90 per cent of the best
    power; otherwise the highest offered voltage with current (5 V).  Nothing is
    requested exactly when no offered slot carries current. *)
Theorem husb238_pick_policy caps :
  caps_wf caps ->
  let P := husb238_slot_mW caps in
  let best := best_power caps in
  (exists i, most_preferred (fun j => usable caps j /\ 45000 <= P j) i /\
             husb238_pick_best_pdo caps = sel_of i) \/
  ((forall j, usable caps j -> P j < 45000) /\ 0 < best /\
   exists i, most_preferred (fun j => usable caps j /\ best * 9 / 10 <= P j) i /\
             husb238_pick_best_pdo caps = sel_of i) \/
  ((forall j, usable caps j -> nth (Z.to_nat j) (caps_mA caps) 0 = 0) /\
   husb238_pick_best_pdo caps =
     if offered caps 0 && (0 <? nth 0 (caps_mA caps) 0) then 1 else HUSB238_SEL_NONE).
Proof.
  intros Hwf P best; pose proof (best_power_spec caps Hwf) as (Hle & Hrng & Hex); fold best in Hle, Hrng, Hex.
  unfold husb238_pick_best_pdo, pick_enough, pick_in_band; rewrite pref_slots; fold best.
  destruct (first_match _ preference) as [i|] eqn:HA.
  { left; exists i; split; [|done]; apply first_match_preferred in HA.
    eapply most_preferred_iff; [|exact HA]; intros j Hj; cbv beta.
    rewrite <- (usable_test caps j Hj), andb_true_iff, Z.leb_le; done. }
  assert (Hlow : forall j, usable caps j -> P j < 45000).
  { intros j Hj; pose proof (first_match_None _ _ j HA (proj2 Hj)) as H; cbv beta in H.
    apply (usable_test caps j (proj2 Hj)) in Hj; rewrite Hj in H; cbn in H.
    apply Z.leb_gt in H; done. }
  right; destruct (Z.ltb_spec 0 best) as [Hb|Hb].
  - left; split_and!; [done..|]; unfold HUSB238_POLICY_BAND_NUM, HUSB238_POLICY_BAND_DEN.
    rewrite u32_small by lia; destruct Hex as [|(k & Hk & Hkp)]; [lia|].
    match goal with |- context [first_match ?f preference] =>
      destruct (first_match f preference) as [i|] eqn:HB end.
    + exists i; split; [|done]; apply first_match_preferred in HB.
      eapply most_preferred_iff; [|exact HB]; intros j Hj; cbv beta.
      rewrite <- (usable_test caps j Hj), !andb_true_iff, Z.leb_le.
      pose proof (proj2 (proj1 (preference_slot j) Hj)) as ->; tauto.
    + exfalso; pose proof (first_match_None _ _ k HB (proj2 Hk)) as H; cbv beta in H.
      rewrite (proj2 (usable_test caps k (proj2 Hk)) Hk) in H.
      rewrite (proj2 (proj1 (preference_slot k) (proj2 Hk))) in H; cbn in H.
      apply Z.leb_gt in H; rewrite Hkp in H.
      assert (best * 9 / 10 <= best) by (apply Z.div_le_upper_bound; lia); lia.
  - right; assert (Hz : forall j, usable caps j -> nth (Z.to_nat j) (caps_mA caps) 0 = 0).
    { intros j [Ho Hj]; pose proof (proj1 (preference_slot j) Hj) as [Hs Hr].
      pose proof (slot_mW_range caps Hwf j Hs) as (_ & H9 & _); specialize (Hle j (conj Ho Hj)).
      pose proof (current_u16 caps Hwf j Hs).
      destruct (decide (nth (Z.to_nat j) (caps_mA caps) 0 = 0)); [done|].
      specialize (H9 Hr ltac:(lia)); lia. }
    split; [done|]; apply fallback_low; done.
Qed.

Definition rpi27w : husb238_src_caps_t := HusbCaps 15 [5000; 3000; 2250; 1750; 0; 0].

Lemma husb238_pick_policy_witness :
  caps_wf rpi27w /\ husb238_pick_best_pdo rpi27w = 8.
Proof.
  assert (H : caps_wf rpi27w) by (split; [done|cbn; repeat (constructor; [lia|]); constructor]).
  split; [exact H|]; destruct (husb238_pick_policy rpi27w H)
    as [(i & _ & _)|[(_ & _ & i & _ & _)|[_ _]]]; reflexivity.
Defined.

(** The decoded input contract.  A contract is reported exactly when the
    attach bit is set and the voltage code is one of the six real ones; then the
    voltage is that slot's and the current one of the sixteen advertised steps;
    otherwise voltage and current are zero.  An unpowered chip, whose bus reads
    all zeros or all ones, is therefore always "detached". *)
Theorem husb238_contract_decoded s0 s1 :
  is_u8 s0 ->
  let d := husb238_contract s0 s1 in
  (attached d = 1 <-> has s1 HUSB238_S1_ATTACH_MASK = true /\ 1 <= v_code d <= 6) /\
  v_code d = s0 / 16 /\
  (attached d = 1 -> HUSB238_PDO_MV !! Z.to_nat (v_code d - 1) = Some (voltage_mV d) /\
                     HUSB238_CURRENT_LUT_MA !! Z.to_nat (s0 mod 16) = Some (current_mA d)) /\
  (attached d <> 1 -> attached d = 0 /\ voltage_mV d = 0 /\ current_mA d = 0) /\
  attached (husb238_contract 0 0) = 0 /\ attached (husb238_contract 255 255) = 0.
Proof.
  intros Hs0 d; subst d; unfold husb238_contract; cbn [attached v_code voltage_mV current_mA].
  destruct (nibbles s0 Hs0) as (Hv & Hi & Hlut & Hmv); rewrite Hv, Hi.
  unfold HUSB238_V_5V, HUSB238_V_20V.
  destruct (has s1 HUSB238_S1_ATTACH_MASK); cbn [andb].
  2: { cbn; split_and!; try done; split; [done|intros [? _]; done]. }
  destruct ((1 <=? s0 / 16) && (s0 / 16 <=? 6)) eqn:Hr; cbn [b2z]; split_and!; try done.
  - split; [intros _; to_prop; done|done].
  - intros _; to_prop; split; [apply Hmv; lia|done].
  - split; [done|intros [_ H]; apply andb_false_iff in Hr as [Hr|Hr]; to_prop; lia].
Qed.

Lemma husb238_contract_decoded_witness :
  voltage_mV (husb238_contract 72 64) = 15000.
Proof.
  destruct (husb238_contract_decoded 72 64 ltac:(lia)) as (_ & _ & H & _).
  destruct (H eq_refl) as [Hv _]; apply (inj Some); symmetry; exact Hv.
Defined.
