(* ===== verification/PdSource.v ===== *)
(** * The USB-PD source (firmware-ch32x/User/PD_Process.c)

    The output port: CC attach detection, message transmission with GoodCRC and
    retries, the policy state machine of [PD_Main_Proc], and the rail control of
    main.c that it drives.  The PHY is the parameter [Phy]: what the receiver
    shows at each poll after a transmission, a function of the whole history.
    Debug printf output is left out. *)

From S2P Require Import Prelude Hal Tps.

(** ** Message types and states *)

(* src: firmware-ch32x/Peripheral/inc/ch32x035_usbpd.h:200-241 DEF_TYPE *)
Definition DEF_TYPE_GOODCRC : Z := 1.
Definition DEF_TYPE_ACCEPT : Z := 3.
Definition DEF_TYPE_REJECT : Z := 4.
Definition DEF_TYPE_PS_RDY : Z := 6.
Definition DEF_TYPE_GET_SRC_CAP : Z := 7.
Definition DEF_TYPE_GET_SNK_CAP : Z := 8.
Definition DEF_TYPE_DR_SWAP : Z := 9.
Definition DEF_TYPE_VCONN_SWAP : Z := 11.
Definition DEF_TYPE_WAIT : Z := 12.
Definition DEF_TYPE_SOFT_RESET : Z := 13.
Definition DEF_TYPE_NOT_SUPPORT : Z := 16.
Definition DEF_TYPE_SRC_CAP : Z := 1.
Definition DEF_TYPE_REQUEST : Z := 2.
Definition DEF_TYPE_VENDOR_DEFINED : Z := 15.

(** TX_SEL values: SOP, and the Hard Reset ordered set. *)
(* src: firmware-ch32x/Peripheral/inc/ch32x035_usbpd.h:286-290 UPD_SOP0, UPD_HARD_RESET *)
Definition UPD_SOP0 : Z := 0.
Definition UPD_HARD_RESET : Z :=
  Z.lor 1 (Z.lor (Z.shiftl 2 2) (Z.lor (Z.shiftl 2 4) (Z.shiftl 2 6))).

(** The states the firmware can enter; the rest of the vendor's enumeration
    (SNK and PR_Swap states) has no assignment in PD_Process.c. *)
(* src: firmware-ch32x/Peripheral/inc/ch32x035_usbpd.h:308-346 CC_STATUS *)
Inductive CC_STATUS :=
  | STA_IDLE | STA_DISCONNECT | STA_RX_ACCEPT_WAIT | STA_RX_PS_RDY_WAIT
  | STA_SINK_CONNECT | STA_TX_SRC_CAP | STA_RX_REQ_WAIT | STA_TX_ACCEPT | STA_TX_PS_RDY
  | STA_TX_SOFTRST | STA_TX_HRST | STA_TX_VDM_RPI.

#[export] Instance CC_STATUS_eq_dec : EqDecision CC_STATUS.
Proof. solve_decision. Defined.

(** PD_CONTROL with its flag bits, the module's statics and buffers, the CC port
    configuration bits the code reads back, and the rail caches of main.c. *)
(* src: firmware-ch32x/Peripheral/inc/ch32x035_usbpd.h:364-408 PD_CONTROL *)
Record pds := Pds {
  PD_State : CC_STATUS; Msg_ID : Z; Det_Cnt : Z; PD_Comm_Timer : Z; ReqPDO_Idx : Z;
  PD_BusIdle_Timer : Z; Adapter_Idle_Cnt : Z; Src_Cap_Cnt : Z;
  Msg_Recvd : bool; Connected : bool; Stop_Det_Chk : bool; PD_Role : bool; PR_Role : bool;
  Auto_Ack_PRRole : bool; PD_Version : bool;
  DRSwap_Last_MsgID : Z; PD_Tx_Buf : list Z; PD_Rx_Buf : list Z;
  PD_Evt_Buf : list Z; PD_Evt_W : Z;
  cc_sel : bool; cc_pd : bool; irq_on : bool;
  Tps_Set : tps; Tps_Vread_v10 : Z; Tps_Iread_a10 : Z
}.

#[export] Instance eta_pds : Eta pds := fun s =>
  Pds (PD_State s) (Msg_ID s) (Det_Cnt s) (PD_Comm_Timer s) (ReqPDO_Idx s)
    (PD_BusIdle_Timer s) (Adapter_Idle_Cnt s) (Src_Cap_Cnt s)
    (Msg_Recvd s) (Connected s) (Stop_Det_Chk s) (PD_Role s) (PR_Role s)
    (Auto_Ack_PRRole s) (PD_Version s)
    (DRSwap_Last_MsgID s) (PD_Tx_Buf s) (PD_Rx_Buf s) (PD_Evt_Buf s) (PD_Evt_W s)
    (cc_sel s) (cc_pd s) (irq_on s) (Tps_Set s) (Tps_Vread_v10 s) (Tps_Iread_a10 s).

(* src: firmware-ch32x/User/PD_Process.c:109-125 SrcCap_5V5A_Tab *)
Definition SrcCap_5V5A_Tab : list Z :=
  [244; 145; 1; 14; 44; 209; 2; 0; 225; 192; 3; 0; 180; 176; 4; 0].

(* src: firmware-ch32x/User/PD_Process.c:127-139 VDM_RPI_TX_Tab *)
Definition VDM_RPI_TX_Tab : list Z :=
  [65; 160; 0; 255; 138; 46; 192; 1; 0; 0; 0; 0; 0; 0; 15; 0; 1; 0; 128; 32].

(* src: firmware-ch32x/User/PD_Process.c:141-160 VDM_UFP_ID_ACK_Tab *)
Definition VDM_UFP_ID_ACK_Tab : list Z :=
  [65; 160; 0; 255; 138; 46; 64; 80; 0; 0; 0; 0; 0; 1; 10; 0; 0; 0; 0; 33].

(** A poll of the PHY after a transmission: a completed packet with its byte
    count and the receive buffer, or nothing yet. *)
Class Phy := phy_poll : list eff -> Z -> option (Z * list Z).

(** Byte [i] of a buffer. *)
Definition byte_at (l : list Z) (i : nat) : Z := nth i l 0.

(** ** Events and resets *)

(* src: firmware-ch32x/User/PD_Process.c:92-98 PD_Evt *)
Definition PD_Evt (code_arg : Z) (s : pds) : pds :=
  s <| PD_Evt_Buf := <[Z.to_nat (Z.land (PD_Evt_W s) 15) := u16 code_arg]> (PD_Evt_Buf s) |>
    <| PD_Evt_W := u8 (PD_Evt_W s + 1) |>.

(* src: firmware-ch32x/User/PD_Process.h:42-57 PD_EVT *)
Definition PD_EVT_CONNECT : Z := 1.
Definition PD_EVT_SRC_CAP_TX : Z := 2.
Definition PD_EVT_REQ_RX : Z := 3.
Definition PD_EVT_ACCEPT_TX : Z := 4.
Definition PD_EVT_PS_RDY_TX : Z := 5.
Definition PD_EVT_VDM_RPI_TX : Z := 6.
Definition PD_EVT_DRSWAP_RX : Z := 7.
Definition PD_EVT_DRSWAP_ACC : Z := 8.
Definition PD_EVT_DRSWAP_FAIL : Z := 9.
Definition PD_EVT_SOFTRST_RX : Z := 10.
Definition PD_EVT_SOFTRST_TX : Z := 11.
Definition PD_EVT_HRST_TX : Z := 12.
Definition PD_EVT_DISCONNECT : Z := 13.
Definition PD_EVT_PROTO_REPLY : Z := 14.
Definition PD_EVT_ENTER_USB : Z := 15.

(* src: firmware-ch32x/User/PD_Process.c:241-258 PD_Rx_Mode *)
Definition PD_Rx_Mode (s : pds) : pds := s <| irq_on := true |>.

(* src: firmware-ch32x/User/PD_Process.c:260-273 PD_SRC_Init *)
Definition PD_SRC_Init (s : pds) : pds :=
  s <| PR_Role := true |> <| Auto_Ack_PRRole := true |> <| cc_pd := false |>.

(* src: firmware-ch32x/User/PD_Process.c:275-288 PD_SINK_Init *)
Definition PD_SINK_Init (s : pds) : pds :=
  s <| PR_Role := false |> <| Auto_Ack_PRRole := false |> <| cc_pd := true |>.

(* src: firmware-ch32x/User/PD_Process.c:290-310 PD_DataRole_Reset *)
Definition PD_DataRole_Reset (s : pds) : pds :=
  s <| PD_Role := true |> <| irq_on := true |> <| DRSwap_Last_MsgID := 255 |>.

(* src: firmware-ch32x/User/PD_Process.c:312-329 PD_PHY_Reset *)
Definition PD_PHY_Reset (s : pds) : pds :=
  let s := s <| Msg_Recvd := false |> <| Msg_ID := 0 |> <| PD_Version := true |>
             <| Det_Cnt := 0 |> <| Connected := false |> <| PD_Comm_Timer := 0 |>
             <| PD_BusIdle_Timer := 0 |> <| PD_Role := true |> <| DRSwap_Last_MsgID := 255 |>
             <| Stop_Det_Chk := false |> <| PD_State := STA_IDLE |> in
  PD_Rx_Mode (PD_SRC_Init s).

(** Zeroed PD_CONTROL, then the PHY reset. *)
(* src: firmware-ch32x/User/PD_Process.c:352-358 PD_Init *)
Definition pds_zero : pds :=
  Pds STA_IDLE 0 0 0 0 0 0 0 false false false false false false false
    255 (replicate 34 0) (replicate 34 0) (replicate 16 0) 0
    false false false tps_init_state 0 0.
Definition PD_Init : pds := PD_Rx_Mode (PD_PHY_Reset pds_zero).

(** ** Rail control (main.c) *)

Section Rail.


(* src: firmware-ch32x/User/main.c:137-147 VBUS_enable *)
Definition VBUS_enable : M unit :=
  do* pin_set PIN_VBUS_OUT_EN true in pin_set PIN_PDS_EN true.

(* src: firmware-ch32x/User/main.c:149-169 VBUS_disable *)
Definition VBUS_disable (s : pds) : M pds :=
  do* pin_set PIN_VBUS_OUT_EN false in
  do* pin_set PIN_PDS_EN true in
  do* tps55289_enable_output false in
  ret (s <| Tps_Set := tps55289_clear_set_cache (Tps_Set s) |>
         <| Tps_Vread_v10 := 0 |> <| Tps_Iread_a10 := 0 |> <| ReqPDO_Idx := 0 |>).

(** The TPS55289 sequence shared by the callers: droop compensation, current
    limit, voltage, output on. *)
Definition tps_apply (volt curr : SpecFloat.spec_float) (s : pds) : M pds :=
  do* tps55289_set_cdc_compensation CDC_COMP_0V7 in
  let* (t, _) := tps55289_set_current_limit curr (Tps_Set s) in
  let* (t, _) := tps55289_set_voltage volt t in
  do* tps55289_enable_output true in
  ret (s <| Tps_Set := t |>).

(* src: firmware-ch32x/User/main.c:171-179 VBUS_set_5V *)
Definition VBUS_set_5V (s : pds) : M pds :=
  do* VBUS_enable in tps_apply (tenths 50) (tenths 30) s.

(* src: firmware-ch32x/User/main.c:181-207 Power_Output_Restart *)
Definition Power_Output_Restart (s : pds) : M pds :=
  let* s := VBUS_set_5V s in
  let s := PD_DataRole_Reset s in
  ret (s <| PD_State := STA_SINK_CONNECT |> <| PD_Comm_Timer := 0 |> <| Src_Cap_Cnt := 0 |>).
End Rail.

(** ** Attach detection *)

(** The comparator results of one detection: each CC line against 0.22 V and
    0.66 V, and its 2.2 V digital input. *)
Record cc_in := CcIn { cc22_1 : bool; cc66_1 : bool; cc220_1 : bool;
                       cc22_2 : bool; cc66_2 : bool; cc220_2 : bool }.

(* src: firmware-ch32x/User/PD_Process.c:404-432 PD_Detect (connected) *)
Definition detect_removal (c : cc_in) (s : pds) : Z :=
  if cc_pd s then 0
  else if cc_sel s then (if cc220_2 c then 0 else 2)
  else (if cc220_1 c then 0 else 1).

(* src: firmware-ch32x/User/PD_Process.c:474-511 PD_Detect (insertion) *)
Definition detect_insertion (c : cc_in) (s : pds) : Z :=
  if cc_pd s then 0
  else
    let r := if cc66_1 c && negb (cc220_1 c)
             then (let r := if cc22_2 c && negb (cc66_2 c) then 1 else 0 in
                   if cc220_2 c then 1 else r)
             else 0 in
    if cc66_2 c && negb (cc220_2 c) then
      if negb (r =? 0) then 0
      else (let r := if cc22_1 c && negb (cc66_1 c) then 2 else r in
            if cc220_1 c then 2 else r)
    else r.

(* src: firmware-ch32x/User/PD_Process.c:367-403 PD_Detect *)
Definition PD_Detect (c : cc_in) (s : pds) : Z :=
  if Connected s then detect_removal c s else detect_insertion c s.

Section DetProc.


(* src: firmware-ch32x/User/PD_Process.c:522-597 PD_Det_Proc *)
Definition PD_Det_Proc (c : cc_in) (s : pds) : M pds :=
  let status := PD_Detect c s in
  if Connected s then
    if negb (status =? 0) then ret (s <| Det_Cnt := 0 |>)
    else
      let s := s <| Det_Cnt := u8 (Det_Cnt s + 1) |> in
      if 5 <=? Det_Cnt s then
        let s := s <| Det_Cnt := 0 |> <| Connected := false |> in
        ret (if Stop_Det_Chk s then s else s <| PD_State := STA_DISCONNECT |>)
      else ret s
  else
    let s := s <| Det_Cnt := if status =? 0 then 0 else u8 (Det_Cnt s + 1) |> in
    if 5 <=? Det_Cnt s then
      let s := s <| Det_Cnt := 0 |> <| Connected := true |> in
      if Stop_Det_Chk s then ret s
      else
        let s := s <| cc_sel := negb (status =? 1) |> <| PD_State := STA_SINK_CONNECT |> in
        let s := PD_Evt PD_EVT_CONNECT s in
        let* s := VBUS_set_5V s in
        ret (s <| PD_Comm_Timer := 0 |>)
    else ret s.
End DetProc.

(** ** Transmission *)

Section Transmit.
Context `{P : Phy}.

(* src: firmware-ch32x/User/PD_Process.c:606-663 PD_Phy_SendPack *)
Definition PD_Phy_SendPack (bytes : list Z) (sop : Z) : M unit := emit (PdTx sop bytes).

(* src: firmware-ch32x/User/PD_Process.c:672-708 PD_Load_Header *)
Definition PD_Load_Header (ex msg_type : Z) (s : pds) : pds :=
  let b0 := msg_type in
  let b0 := if PD_Role s then Z.lor b0 32 else b0 in
  let b0 := if PD_Version s then Z.lor b0 128 else Z.lor b0 64 in
  let b1 := Z.land (Msg_ID s) 14 in
  let b1 := if PR_Role s then Z.lor b1 1 else b1 in
  let b1 := if negb (ex =? 0) then Z.lor b1 128 else b1 in
  s <| PD_Tx_Buf := <[1%nat := b1]> (<[0%nat := b0]> (PD_Tx_Buf s)) |>.

(** The 249 receive polls of one attempt. *)
(* src: firmware-ch32x/User/PD_Process.c:746-760 PD_Send_Handle (GoodCRC wait) *)
Fixpoint wait_goodcrc (cnt : nat) (s : pds) : M (pds * bool) := fun h =>
  match cnt with
  | O => ((s, false), [])
  | S cnt' =>
      match phy_poll h (Z.of_nat cnt) with
      | Some (byte_cnt, buf) =>
          let s := s <| PD_Rx_Buf := buf |> in
          if (byte_cnt =? 6) && (Z.land (byte_at buf 0) 31 =? DEF_TYPE_GOODCRC)
          then ((s <| Msg_ID := u8 (Msg_ID s + 2) |>, true), [])
          else wait_goodcrc cnt' s h
      | None => wait_goodcrc cnt' s h
      end
  end.

(* src: firmware-ch32x/User/PD_Process.c:740-765 PD_Send_Handle (attempts) *)
Fixpoint send_tries (pd_tx_trycnt : nat) (len : nat) (s : pds) : M (pds * bool) :=
  match pd_tx_trycnt with
  | O => ret (s, false)
  | S n =>
      let s := s <| irq_on := false |> in
      do* PD_Phy_SendPack (take (len + 2) (PD_Tx_Buf s)) UPD_SOP0 in
      let* (s, ok) := wait_goodcrc 249 s in
      if (ok : bool) then ret (s, true) else send_tries n len s
  end.

(** [true] is DEF_PD_TX_OK. *)
(* src: firmware-ch32x/User/PD_Process.c:717-779 PD_Send_Handle *)
Definition PD_Send_Handle (pbuf : list Z) (s : pds) : M (pds * bool) :=
  let len := length pbuf in
  if negb (Z.of_nat len mod 4 =? 0) then ret (s, false)
  else if 28 <? Z.of_nat len then ret (s, false)
  else
    let cnt := Z.shiftr (Z.of_nat len) 2 in
    let b1 := Z.lor (byte_at (PD_Tx_Buf s) 1) (Z.shiftl cnt 4) in
    let buf := <[1%nat := b1]> (PD_Tx_Buf s) in
    let s := s <| PD_Tx_Buf := take 2 buf ++ pbuf ++ drop (2 + len) buf |> in
    let* (s, ok) := send_tries 3 len s in
    ret (PD_Rx_Mode s, ok).

(** Load a header and send: every message of the state machine. *)
Definition send (msg_type : Z) (pbuf : list Z) (s : pds) : M (pds * bool) :=
  PD_Send_Handle pbuf (PD_Load_Header 0 msg_type s).
Definition send_ (msg_type : Z) (pbuf : list Z) (s : pds) : M pds :=
  let* (s, _) := send msg_type pbuf s in ret s.
End Transmit.

(** The current asked for by a request, in mA; UINT16. *)
(* src: firmware-ch32x/User/PD_Process.c:788-801 PD_Request_Analyse *)
Definition PD_Request_Analyse (pdo_idx : Z) (srccap : list Z) : Z :=
  let i := Z.to_nat (Z.shiftl (pdo_idx - 1) 2) in
  let temp32 := byte_at srccap i + Z.shiftl (byte_at srccap (S i)) 8 in
  u16 (Z.land temp32 1023 * 10).

(** ** The state machine *)

Section MainProc.
Context `{P : Phy}.

Definition add_timer (dt : Z) (s : pds) : pds := s <| PD_Comm_Timer := u16 (PD_Comm_Timer s + dt) |>.

(* src: firmware-ch32x/User/PD_Process.c:822-865 PD_Main_Proc (STA_DISCONNECT) *)
Definition sta_disconnect (s : pds) : M pds :=
  let s := PD_Evt PD_EVT_DISCONNECT s in
  let* s := VBUS_disable s in
  ret (PD_PHY_Reset s).

(* src: firmware-ch32x/User/PD_Process.c:867-876 PD_Main_Proc (STA_SINK_CONNECT) *)
Definition sta_sink_connect (dt : Z) (s : pds) : M pds :=
  let s := add_timer dt s in
  ret (if 159 <? PD_Comm_Timer s
       then s <| Stop_Det_Chk := false |> <| PD_Comm_Timer := 0 |> <| PD_State := STA_TX_SRC_CAP |>
       else s).

(* src: firmware-ch32x/User/PD_Process.c:878-893 PD_Main_Proc (STA_TX_SRC_CAP) *)
Definition sta_tx_src_cap (dt : Z) (s : pds) : M pds :=
  let s := add_timer dt s in
  if 159 <? PD_Comm_Timer s then
    let* (s, ok) := send DEF_TYPE_SRC_CAP SrcCap_5V5A_Tab s in
    let s := if (ok : bool) then PD_Evt PD_EVT_SRC_CAP_TX (s <| PD_State := STA_RX_REQ_WAIT |>) else s in
    ret (s <| PD_Comm_Timer := 0 |>)
  else ret s.

(* src: firmware-ch32x/User/PD_Process.c:895-912 PD_Main_Proc (STA_RX_REQ_WAIT) *)
Definition sta_rx_req_wait (dt : Z) (s : pds) : M pds :=
  let s := add_timer dt s in
  ret (if (29 <? PD_Comm_Timer s) && negb (Msg_Recvd s) then s <| PD_State := STA_TX_HRST |> else s).

(** The set point of a PDO index, in tenths of a volt and an ampere. *)
(* src: firmware-ch32x/User/PD_Process.c:934-943 PD_Main_Proc (PDO switch) *)
Definition pdo_setpoint (idx : Z) : Z * Z :=
  match idx with
  | 1 => (50, 52) | 2 => (90, 31) | 3 => (120, 23) | 4 => (150, 19) | _ => (50, 30)
  end.

(* src: firmware-ch32x/User/PD_Process.c:914-957 PD_Main_Proc (STA_TX_ACCEPT) *)
Definition sta_tx_accept (dt : Z) (s : pds) : M pds :=
  let s := add_timer dt s in
  if 2 <? PD_Comm_Timer s then
    let* (s, ok) := send DEF_TYPE_ACCEPT [] s in
    if (ok : bool) then
      let s := PD_Evt PD_EVT_ACCEPT_TX s in
      let (volt, curr) := pdo_setpoint (ReqPDO_Idx s) in
      let* s := tps_apply (tenths volt) (tenths curr) s in
      ret (s <| PD_State := STA_TX_PS_RDY |> <| PD_Comm_Timer := 0 |>)
    else ret (s <| PD_State := STA_TX_SOFTRST |> <| PD_Comm_Timer := 0 |>)
  else ret s.

(* src: firmware-ch32x/User/PD_Process.c:959-978 PD_Main_Proc (STA_TX_PS_RDY) *)
Definition sta_tx_ps_rdy (dt : Z) (s : pds) : M pds :=
  let s := add_timer dt s in
  if 19 <? PD_Comm_Timer s then
    let* (s, ok) := send DEF_TYPE_PS_RDY [] s in
    ret (if (ok : bool)
         then PD_Evt PD_EVT_PS_RDY_TX s <| PD_State := STA_IDLE |> <| PD_Comm_Timer := 0 |>
         else s <| PD_State := STA_TX_SOFTRST |> <| PD_Comm_Timer := 0 |>)
  else ret s.

(* src: firmware-ch32x/User/PD_Process.c:980-998 PD_Main_Proc (STA_TX_SOFTRST) *)
Definition sta_tx_softrst (s : pds) : M pds :=
  let s := PD_Evt PD_EVT_SOFTRST_TX (s <| DRSwap_Last_MsgID := 255 |>) in
  let* (s, ok) := send DEF_TYPE_SOFT_RESET [] s in
  ret (s <| PD_State := (if (ok : bool) then STA_IDLE else STA_TX_HRST) |> <| PD_Comm_Timer := 0 |>).

(* src: firmware-ch32x/User/PD_Process.c:1000-1022 PD_Main_Proc (STA_TX_HRST) *)
Definition sta_tx_hrst (s : pds) : M pds :=
  let s := PD_Evt PD_EVT_HRST_TX (s <| Stop_Det_Chk := true |>) in
  let s := s <| irq_on := false |> in
  do* PD_Phy_SendPack [] UPD_HARD_RESET in
  let s := s <| Msg_Recvd := false |> <| PD_Role := true |> <| DRSwap_Last_MsgID := 255 |> in
  ret (PD_Rx_Mode s <| PD_State := STA_IDLE |> <| PD_Comm_Timer := 0 |>).

(* src: firmware-ch32x/User/PD_Process.c:1024-1037 PD_Main_Proc (STA_TX_VDM_RPI) *)
Definition sta_tx_vdm_rpi (dt : Z) (s : pds) : M pds :=
  let s := add_timer dt s in
  if 10 <? PD_Comm_Timer s then
    let* s := send_ DEF_TYPE_VENDOR_DEFINED VDM_RPI_TX_Tab s in
    ret (PD_Evt PD_EVT_VDM_RPI_TX s <| PD_Comm_Timer := 0 |> <| PD_State := STA_IDLE |>)
  else ret s.

(* src: firmware-ch32x/User/PD_Process.c:816-1041 PD_Main_Proc (status analysis) *)
Definition pd_status (dt : Z) (s : pds) : M pds :=
  match PD_State s with
  | STA_DISCONNECT => sta_disconnect s
  | STA_SINK_CONNECT => sta_sink_connect dt s
  | STA_TX_SRC_CAP => sta_tx_src_cap dt s
  | STA_RX_REQ_WAIT => sta_rx_req_wait dt s
  | STA_TX_ACCEPT => sta_tx_accept dt s
  | STA_TX_PS_RDY => sta_tx_ps_rdy dt s
  | STA_TX_SOFTRST => sta_tx_softrst s
  | STA_TX_HRST => sta_tx_hrst s
  | STA_TX_VDM_RPI => sta_tx_vdm_rpi dt s
  | STA_IDLE | STA_RX_ACCEPT_WAIT | STA_RX_PS_RDY_WAIT => ret s
  end.

(** *** Received messages *)

Definition rx (s : pds) (i : nat) : Z := byte_at (PD_Rx_Buf s) i.

(* src: firmware-ch32x/User/PD_Process.c:1060-1066 PD_Main_Proc (ACCEPT) *)
Definition on_accept (s : pds) : M pds :=
  let s := s <| PD_Comm_Timer := 0 |> in
  ret (if decide (PD_State s = STA_RX_ACCEPT_WAIT) then s <| PD_State := STA_RX_PS_RDY_WAIT |> else s).

(* src: firmware-ch32x/User/PD_Process.c:1068-1102 PD_Main_Proc (REQUEST) *)
Definition on_request (s : pds) : M pds :=
  do* delay_ms 2 in
  let s := s <| ReqPDO_Idx := Z.shiftr (Z.land (rx s 5) 112) 4 |> in
  let s := PD_Evt (Z.lor PD_EVT_REQ_RX (u8 (Z.shiftl (ReqPDO_Idx s) 4))) s in
  if (ReqPDO_Idx s =? 0) || (4 <? ReqPDO_Idx s) then ret (s <| PD_State := STA_TX_HRST |>)
  else ret (s <| PD_Version := Z.land (rx s 0) 192 =? 128 |>
              <| PD_State := STA_TX_ACCEPT |> <| PD_Comm_Timer := 0 |>).

(* src: firmware-ch32x/User/PD_Process.c:1108-1125 PD_Main_Proc (SOFT_RESET) *)
Definition on_soft_reset (s : pds) : M pds :=
  let s := PD_Evt PD_EVT_SOFTRST_RX (s <| Msg_ID := 0 |> <| DRSwap_Last_MsgID := 255 |>) in
  do* delay_ms 1 in
  let* s := send_ DEF_TYPE_ACCEPT [] s in
  ret (s <| PD_State := STA_TX_SRC_CAP |> <| PD_Comm_Timer := 0 |>).

(* src: firmware-ch32x/User/PD_Process.c:1127-1193 PD_Main_Proc (DR_SWAP) *)
Definition on_dr_swap (s : pds) : M pds :=
  if negb (Z.land (rx s 1) 112 =? 0) then ret s
  else if decide (PD_State s = STA_IDLE) then
    let rx_msgid := Z.land (Z.shiftr (rx s 1) 1) 7 in
    if negb (DRSwap_Last_MsgID s =? rx_msgid) then
      let s := PD_Evt PD_EVT_DRSWAP_RX s in
      do* delay_ms 1 in
      let* (s, ok) := send DEF_TYPE_ACCEPT [] s in
      if (ok : bool) then
        let s := s <| DRSwap_Last_MsgID := rx_msgid |> <| PD_Role := negb (PD_Role s) |>
                   <| irq_on := true |> in
        ret (PD_Evt (Z.lor PD_EVT_DRSWAP_ACC (u8 (Z.shiftl (b2z (PD_Role s)) 4))) s)
      else ret (PD_Evt PD_EVT_DRSWAP_FAIL s <| PD_State := STA_TX_HRST |>)
    else ret (PD_Evt (Z.lor PD_EVT_DRSWAP_RX (Z.shiftl 1 4)) s)
  else
    let s := PD_Evt (Z.lor PD_EVT_DRSWAP_RX (Z.shiftl 2 4)) s in
    do* delay_ms 1 in send_ DEF_TYPE_WAIT [] s.

(* src: firmware-ch32x/User/PD_Process.c:1195-1249 PD_Main_Proc (VENDOR_DEFINED) *)
Definition on_vdm (s : pds) : M pds :=
  if PD_Role s && (rx s 2 =? 1) && (rx s 3 =? 160) && (rx s 4 =? 0) && (rx s 5 =? 255)
  then ret (s <| PD_State := STA_TX_VDM_RPI |> <| PD_Comm_Timer := 0 |>)
  else if negb (PD_Role s) && (Z.land (rx s 3) 128 =? 128) && (Z.land (rx s 2) 192 =? 0) then
    if Z.land (rx s 2) 31 =? 1 then
      do* delay_ms 1 in
      let* s := send_ DEF_TYPE_VENDOR_DEFINED VDM_UFP_ID_ACK_Tab s in
      ret (PD_Evt (Z.lor PD_EVT_PROTO_REPLY (Z.shiftl 5 4)) s)
    else
      let vdm_nak := [Z.lor (Z.land (rx s 2) 31) 128; rx s 3; rx s 4; rx s 5] in
      do* delay_ms 1 in
      let* s := send_ DEF_TYPE_VENDOR_DEFINED vdm_nak s in
      ret (PD_Evt (Z.lor PD_EVT_PROTO_REPLY (Z.shiftl 1 4)) s)
  else ret s.

(* src: firmware-ch32x/User/PD_Process.c:1251-1259 PD_Main_Proc (GET_SRC_CAP) *)
Definition on_get_src_cap (s : pds) : M pds :=
  do* delay_ms 1 in
  let* s := send_ DEF_TYPE_SRC_CAP SrcCap_5V5A_Tab s in
  ret (PD_Evt (Z.lor PD_EVT_PROTO_REPLY (Z.shiftl 3 4)) s).

(* src: firmware-ch32x/User/PD_Process.c:1261-1300 PD_Main_Proc (GET_SNK_CAP) *)
Definition on_get_snk_cap (s : pds) : M pds :=
  if negb (Z.land (rx s 1) 112 =? 0) then
    let usb_mode := Z.land (Z.shiftr (rx s 5) 4) 7 in
    do* delay_ms 1 in
    if usb_mode =? 0 then
      let* s := send_ DEF_TYPE_ACCEPT [] s in
      ret (PD_Evt (Z.lor (Z.lor PD_EVT_ENTER_USB (Z.shiftl 1 4)) (u16 (Z.shiftl usb_mode 8))) s)
    else
      let* s := send_ DEF_TYPE_REJECT [] s in
      ret (PD_Evt (Z.lor (Z.lor PD_EVT_ENTER_USB (Z.shiftl 0 4)) (u16 (Z.shiftl usb_mode 8))) s)
  else
    do* delay_ms 1 in
    let* s := send_ (if PD_Version s then DEF_TYPE_NOT_SUPPORT else DEF_TYPE_REJECT) [] s in
    ret (PD_Evt (Z.lor (Z.lor PD_EVT_PROTO_REPLY (Z.shiftl 2 4))
                   (u16 (Z.shiftl DEF_TYPE_GET_SNK_CAP 8))) s).

(* src: firmware-ch32x/User/PD_Process.c:1302-1310 PD_Main_Proc (VCONN_SWAP) *)
Definition on_vconn_swap (s : pds) : M pds :=
  do* delay_ms 1 in
  let* s := send_ DEF_TYPE_REJECT [] s in
  ret (PD_Evt (Z.lor PD_EVT_PROTO_REPLY (Z.shiftl 4 4)) s).

(** The event's extended byte is computed after the reply, from the buffer the
    GoodCRC wait may have overwritten. *)
(* src: firmware-ch32x/User/PD_Process.c:1312-1335 PD_Main_Proc (default) *)
Definition on_other (s : pds) : M pds :=
  if PD_Version s then
    do* delay_ms 1 in
    let* s := send_ DEF_TYPE_NOT_SUPPORT [] s in
    let ext := Z.lor (Z.land (rx s 0) 31) (if negb (Z.land (rx s 1) 112 =? 0) then 128 else 0) in
    ret (PD_Evt (Z.lor (Z.lor PD_EVT_PROTO_REPLY (Z.shiftl 2 4)) (u16 (Z.shiftl ext 8))) s)
  else ret s.

(* src: firmware-ch32x/User/PD_Process.c:1043-1342 PD_Main_Proc (receive dispatch) *)
Definition pd_dispatch (s : pds) : M pds :=
  let s := s <| Adapter_Idle_Cnt := 0 |> in
  let pd_header := Z.land (rx s 0) 31 in
  let s := if negb (pd_header =? DEF_TYPE_DR_SWAP) then s <| DRSwap_Last_MsgID := 255 |> else s in
  let* s :=
    if pd_header =? DEF_TYPE_ACCEPT then on_accept s
    else if pd_header =? DEF_TYPE_REQUEST then on_request s
    else if pd_header =? DEF_TYPE_WAIT then ret s
    else if pd_header =? DEF_TYPE_SOFT_RESET then on_soft_reset s
    else if pd_header =? DEF_TYPE_DR_SWAP then on_dr_swap s
    else if pd_header =? DEF_TYPE_VENDOR_DEFINED then on_vdm s
    else if pd_header =? DEF_TYPE_GET_SRC_CAP then on_get_src_cap s
    else if pd_header =? DEF_TYPE_GET_SNK_CAP then on_get_snk_cap s
    else if pd_header =? DEF_TYPE_VCONN_SWAP then on_vconn_swap s
    else on_other s in
  ret (PD_Rx_Mode s <| Msg_Recvd := false |> <| PD_BusIdle_Timer := 0 |>).

(** One call of PD_Main_Proc; [dt] is Tmr_Ms_Dlt. *)
(* src: firmware-ch32x/User/PD_Process.c:810-820 PD_Main_Proc *)
Definition PD_Main_Proc (dt : Z) (s : pds) : M pds :=
  let s := s <| PD_BusIdle_Timer := u16 (PD_BusIdle_Timer s + dt) |> in
  let* s := pd_status dt s in
  if Msg_Recvd s then pd_dispatch s else ret s.
End MainProc.

(** ** The interrupt handler *)

(** What one USBPD interrupt finds: a received SOP packet (its byte count and
    the buffer), a completed transmission, a Hard Reset. *)
Record pd_irq := PdIrq { irq_rx : option (Z * list Z); irq_tx_end : bool; irq_rx_reset : bool }.

(** A packet is acknowledged with a GoodCRC, whose completion interrupt raises
    Msg_Recvd and keeps reception off until it is processed. *)
(* src: firmware-ch32x/User/PD_Process.c:190-233 USBPD_IRQHandler *)
Definition USBPD_IRQHandler (i : pd_irq) (s : pds) : M pds :=
  let* s :=
    match irq_rx i with
    | Some (byte_cnt, buf) =>
        let s := s <| PD_Rx_Buf := buf |> in
        if (6 <=? byte_cnt) &&
           (negb (byte_cnt =? 6) || negb (Z.land (byte_at buf 0) 31 =? DEF_TYPE_GOODCRC)) then
          let ack := [if PD_Role s then 97 else 65;
                      Z.lor (Z.land (byte_at buf 1) 14) (b2z (Auto_Ack_PRRole s))] in
          do* PD_Phy_SendPack ack UPD_SOP0 in ret s
        else ret s
    | None => ret s
    end in
  let s := if irq_tx_end i then s <| irq_on := false |> <| Msg_Recvd := true |> else s in
  ret (if irq_rx_reset i then PD_SINK_Init s else s).

(** ** Transmission lemmas *)

(** A transmission only touches the message buffers, the MessageID counter and
    the interrupt enable. *)
Definition after_send (s : pds) (id : Z) (txb rxb : list Z) (irq : bool) : pds :=
  s <| Msg_ID := id |> <| PD_Tx_Buf := txb |> <| PD_Rx_Buf := rxb |> <| irq_on := irq |>.

(** The last transmission of a history is acknowledged: one of the 249 polls
    after it shows a six-byte packet of the type GoodCRC. *)
Definition acknowledged `{P : Phy} (h : list eff) : Prop :=
  exists cnt buf, 1 <= cnt <= 249 /\ phy_poll h cnt = Some (6, buf) /\
    Z.land (byte_at buf 0) 31 = DEF_TYPE_GOODCRC.

Section SendLemmas.
Context `{P : Phy}.

Lemma wait_goodcrc_spec n s h :
  exists rxb ok, wait_goodcrc n s h =
    ((after_send s (if ok : bool then u8 (Msg_ID s + 2) else Msg_ID s) (PD_Tx_Buf s) rxb (irq_on s), ok), [])
    /\ (ok = true -> (n <= 249)%nat -> acknowledged h).
Proof.
  revert s; induction n as [|n IH]; intros s.
  - exists (PD_Rx_Buf s), false; destruct s; done.
  - cbn [wait_goodcrc]; destruct (phy_poll h (Z.of_nat (S n))) as [[byte_cnt buf]|] eqn:Hp.
    + destruct (_ && _) eqn:Hg.
      * exists buf, true; split; [destruct s; done|]; intros _ Hn.
        apply andb_true_iff in Hg as [->%Z.eqb_eq Hg%Z.eqb_eq].
        exists (Z.of_nat (S n)), buf; split_and!; done || lia.
      * destruct (IH (s <| PD_Rx_Buf := buf |>)) as (rxb & ok & -> & Ha); exists rxb, ok.
        split; [destruct s; done|intros Hok Hn; apply Ha; [done|lia]].
    + destruct (IH s) as (rxb & ok & -> & Ha); exists rxb, ok.
      split; [done|intros Hok Hn; apply Ha; [done|lia]].
Qed.

Lemma send_tries_spec n len s h :
  exists k rxb ok irq, send_tries n len s h =
    ((after_send s (if ok : bool then u8 (Msg_ID s + 2) else Msg_ID s) (PD_Tx_Buf s) rxb irq, ok),
     replicate k (PdTx UPD_SOP0 (take (len + 2) (PD_Tx_Buf s)))) /\
    (if ok then 1 <= k <= n else k = n)%nat /\
    (ok = true -> acknowledged (h ++ replicate k (PdTx UPD_SOP0 (take (len + 2) (PD_Tx_Buf s))))).
Proof.
  revert s h; induction n as [|n IH]; intros s h.
  - exists 0%nat, (PD_Rx_Buf s), false, (irq_on s); split; [destruct s|]; done.
  - cbn [send_tries]; unfold bind; cbn [PD_Phy_SendPack emit].
    destruct (wait_goodcrc_spec 249 (s <| irq_on := false |>)
      (h ++ [PdTx UPD_SOP0 (take (len + 2) (PD_Tx_Buf (s <| irq_on := false |>)))]))
      as (rxb & ok & Hw & Hg).
    cbn [PD_Phy_SendPack emit] in *; unfold PD_Phy_SendPack, emit; rewrite Hw; destruct ok.
    + exists 1%nat, rxb, true, false; split_and!; [destruct s; done|lia|lia|].
      intros _; exact (Hg eq_refl (le_n _)).
    + match goal with |- context [send_tries n len ?s1 ?h1] =>
        destruct (IH s1 h1) as (k & rxb' & ok & irq & -> & Hk & Ha) end.
      exists (S k), rxb', ok, irq; split_and!; [destruct s; done|destruct ok; lia|].
      intros Hok; specialize (Ha Hok); rewrite app_nil_r, <- app_assoc in Ha; exact Ha.
Qed.

(** The two header bytes and the payload, as [PD_Send_Handle] leaves them. *)
Definition message (msg_type : Z) (pbuf : list Z) (s : pds) : list Z :=
  let s := PD_Load_Header 0 msg_type s in
  [byte_at (PD_Tx_Buf s) 0;
   Z.lor (byte_at (PD_Tx_Buf s) 1) (Z.shiftl (Z.shiftr (Z.of_nat (length pbuf)) 2) 4)] ++ pbuf.

Lemma send_spec ty pbuf s h :
  Z.of_nat (length pbuf) mod 4 = 0 -> (length pbuf <= 28)%nat -> length (PD_Tx_Buf s) = 34%nat ->
  exists k txb rxb ok, send ty pbuf s h =
    ((after_send s (if ok : bool then u8 (Msg_ID s + 2) else Msg_ID s) txb rxb true, ok),
     replicate k (PdTx UPD_SOP0 (message ty pbuf s))) /\
    (if ok then 1 <= k <= 3 else k = 3)%nat /\ length txb = 34%nat /\
    (ok = true -> acknowledged (h ++ replicate k (PdTx UPD_SOP0 (message ty pbuf s)))).
Proof.
  intros Hm Hl Hb; unfold send, PD_Send_Handle; rewrite Hm; cbn [Z.eqb negb].
  destruct (Z.ltb_spec 28 (Z.of_nat (length pbuf))); [lia|]; unfold bind, ret.
  set (s1 := _ <| PD_Tx_Buf := _ |>) at 1.
  destruct (send_tries_spec 3 (length pbuf) s1 h) as (k & rxb & ok & irq & -> & Hk & Ha).
  assert (Hmsg : take (length pbuf + 2) (PD_Tx_Buf s1) = message ty pbuf s).
  { destruct s as [? ? ? ? ? ? ? ? ? ? ? ? ? ? ? ? buf]; cbn in Hb.
    destruct buf as [|x [|y buf]]; [done..|]; subst s1; cbn.
    rewrite Nat.add_comm; cbn; rewrite take_0; cbn; rewrite take_app_length; done. }
  rewrite Hmsg in Ha.
  exists k, (PD_Tx_Buf s1), rxb, ok; rewrite app_nil_r, Hmsg; split_and!; [|done| |exact Ha].
  - clear; subst s1; destruct s, ok; done.
  - subst s1; cbn; rewrite !length_app, length_take, length_drop, !length_insert; lia.
Qed.
End SendLemmas.

(** Programs that write no register and drive no pin, whatever the history. *)
Definition quiet_eff (e : eff) : Prop :=
  match e with I2cWrite _ _ _ | PinSet _ _ => False | _ => True end.
Definition quiet {A} (m : M A) : Prop := forall h, Forall quiet_eff (effects m h).

Section Quiet.
Context `{P : Phy}.

Lemma quiet_bind {A B} (m : M A) (k : A -> M B) :
  quiet m -> (forall a, quiet (k a)) -> quiet (bind m k).
Proof. intros Hm Hk h; rewrite effects_bind; apply Forall_app; split; [apply Hm|apply Hk]. Qed.
Lemma quiet_ret {A} (a : A) : quiet (ret a).
Proof. intros h; constructor. Qed.
Lemma quiet_delay n : quiet (delay_ms n).
Proof. intros h; repeat constructor. Qed.
Lemma quiet_tx bs sop : quiet (PD_Phy_SendPack bs sop).
Proof. intros h; repeat constructor. Qed.
Lemma quiet_wait n s : quiet (wait_goodcrc n s).
Proof.
  intros h; destruct (wait_goodcrc_spec n s h) as (rxb & ok & Hw & _).
  unfold effects; rewrite Hw; constructor.
Qed.
Lemma quiet_tries n len s : quiet (send_tries n len s).
Proof.
  intros h; destruct (send_tries_spec n len s h) as (k & rxb & ok & irq & Hs & _).
  unfold effects; rewrite Hs; cbn; apply Forall_replicate; done.
Qed.
Lemma quiet_send_handle pbuf s : quiet (PD_Send_Handle pbuf s).
Proof.
  unfold PD_Send_Handle; repeat case_match; try apply quiet_ret.
  apply quiet_bind; [apply quiet_tries|intros [? ?]; apply quiet_ret].
Qed.
Lemma quiet_send ty pbuf s : quiet (send ty pbuf s).
Proof. apply quiet_send_handle. Qed.
Lemma quiet_send_ ty pbuf s : quiet (send_ ty pbuf s).
Proof. apply quiet_bind; [apply quiet_send|intros [? ?]; apply quiet_ret]. Qed.

Lemma quiet_writes {A} (m : M A) h : quiet m -> writes (effects m h) = [].
Proof.
  intros Hm; specialize (Hm h); induction Hm as [|e es He _ IH]; [done|].
  destruct e; done.
Qed.
End Quiet.

#[export] Hint Resolve quiet_ret quiet_delay quiet_tx quiet_send quiet_send_ : ups.

Ltac quiet :=
  repeat first [ solve [eauto with ups] | apply quiet_bind; [|intros ?] | case_match ].

Section QuietHandlers.
Context `{P : Phy}.

(** Processing a received message never touches the rail. *)
Lemma quiet_dispatch s : quiet (pd_dispatch s).
Proof.
  unfold pd_dispatch; apply quiet_bind; [|intros ?; apply quiet_ret].
  unfold on_accept, on_request, on_soft_reset, on_dr_swap, on_vdm, on_get_src_cap,
    on_get_snk_cap, on_vconn_swap, on_other; quiet.
Qed.

Lemma quiet_status dt s :
  PD_State s <> STA_DISCONNECT -> PD_State s <> STA_TX_ACCEPT -> quiet (pd_status dt s).
Proof.
  intros H1 H2; unfold pd_status; destruct (PD_State s); try done;
    unfold sta_sink_connect, sta_tx_src_cap, sta_rx_req_wait, sta_tx_ps_rdy, sta_tx_softrst,
      sta_tx_hrst, sta_tx_vdm_rpi; quiet.
Qed.

Lemma quiet_irq i s : quiet (USBPD_IRQHandler i s).
Proof. unfold USBPD_IRQHandler; quiet. Qed.
End QuietHandlers.

(** ** The rail *)

(** The register writes that put the converter at a set point, output on. *)
Definition setpoint_writes (v a : Z) : list (Z * Z * Z) :=
  [(TPS55289_I2C_ADDR, REG_CDC, 231);
   (TPS55289_I2C_ADDR, REG_IOUT_LIMIT, 128 + 2 * a);
   (TPS55289_I2C_ADDR, REG_VOUT_FS, 3);
   (TPS55289_I2C_ADDR, REG_REF_LSB, u8 (Z.land (u16 (vout_reg v)) 255));
   (TPS55289_I2C_ADDR, REG_REF_MSB, u8 (Z.land (Z.shiftr (u16 (vout_reg v)) 8) 7));
   (TPS55289_I2C_ADDR, REG_MODE, 160)].
Definition output_off : list (Z * Z * Z) := [(TPS55289_I2C_ADDR, REG_MODE, MODE_HICCUP_BIT)].
Definition i2c_effs (ws : list (Z * Z * Z)) : list eff :=
  map (fun w => let '(a, r, v) := w in I2cWrite a r v) ws.

Section RailLemmas.
Context `{P : Phy}.

Lemma writes_i2c_effs ws : writes (i2c_effs ws) = ws.
Proof. induction ws as [|[[a r] v] ws IH]; cbn; [done|f_equal; done]. Qed.

Lemma tps_apply_exact v a s h :
  33 <= v <= 200 -> 0 <= a <= 63 ->
  tps_apply (tenths v) (tenths a) s h =
    (s <| Tps_Set := Tps v a |>, i2c_effs (setpoint_writes v a)).
Proof.
  intros Hv Ha; unfold tps_apply, bind, tps55289_set_cdc_compensation, tps55289_enable_output,
    tps55289_write_byte, i2c_write, emit, ret; cbn -[tps55289_set_voltage tps55289_set_current_limit].
  rewrite set_current_exact by done; rewrite set_voltage_exact by done; done.
Qed.

Lemma vbus_disable_exact s h :
  VBUS_disable s h =
    (s <| Tps_Set := Tps 0 0 |> <| Tps_Vread_v10 := 0 |> <| Tps_Iread_a10 := 0 |> <| ReqPDO_Idx := 0 |>,
     [PinSet PIN_VBUS_OUT_EN false; PinSet PIN_PDS_EN true;
      I2cWrite TPS55289_I2C_ADDR REG_MODE MODE_HICCUP_BIT]).
Proof. reflexivity. Qed.

Lemma vbus_set_5v_exact s h :
  VBUS_set_5V s h =
    (s <| Tps_Set := Tps 50 30 |>,
     [PinSet PIN_VBUS_OUT_EN true; PinSet PIN_PDS_EN true] ++ i2c_effs (setpoint_writes 50 30)).
Proof.
  unfold VBUS_set_5V, VBUS_enable, pin_set, bind, emit; rewrite tps_apply_exact by lia; done.
Qed.

(** Every set point the state machine can choose is inside the converter's
    range, so the exact forms above apply. *)
Lemma pdo_setpoint_range idx :
  33 <= (pdo_setpoint idx).1 <= 200 /\ 0 <= (pdo_setpoint idx).2 <= 63.
Proof.
  unfold pdo_setpoint; repeat case_match; cbn; lia.
Qed.

Lemma message_accept_length s : (length (message DEF_TYPE_ACCEPT [] s) = 2)%nat.
Proof. done. Qed.

(** What the Accept state does to the rail. *)
Lemma sta_tx_accept_spec dt s h :
  length (PD_Tx_Buf s) = 34%nat ->
  writes (effects (sta_tx_accept dt s) h) = [] \/
  (exists k, (1 <= k <= 3)%nat /\
     acknowledged (h ++ replicate k (PdTx UPD_SOP0 (message DEF_TYPE_ACCEPT [] (add_timer dt s)))) /\
     effects (sta_tx_accept dt s) h =
       replicate k (PdTx UPD_SOP0 (message DEF_TYPE_ACCEPT [] (add_timer dt s))) ++
       i2c_effs (setpoint_writes (pdo_setpoint (ReqPDO_Idx s)).1 (pdo_setpoint (ReqPDO_Idx s)).2) /\
     PD_State (result (sta_tx_accept dt s) h) = STA_TX_PS_RDY).
Proof.
  intros Hb; unfold sta_tx_accept.
  destruct (2 <? PD_Comm_Timer (add_timer dt s)); [|left; done].
  destruct (send_spec DEF_TYPE_ACCEPT [] (add_timer dt s) h eq_refl ltac:(cbn; lia) Hb)
    as (k & txb & rxb & ok & Hs & Hk & _ & Hg).
  destruct (pdo_setpoint_range (ReqPDO_Idx s)) as [Hv Ha].
  unfold effects, result, bind; rewrite Hs; destruct ok; cbn [fst snd].
  - right; exists k; split; [done|]; split; [exact (Hg eq_refl)|]; cbn [PD_Evt upd ReqPDO_Idx after_send add_timer].
    match goal with |- context [pdo_setpoint (ReqPDO_Idx ?x)] =>
      change (ReqPDO_Idx x) with (ReqPDO_Idx s) end.
    destruct (pdo_setpoint (ReqPDO_Idx s)) as [v a]; cbn [fst snd] in *.
    rewrite tps_apply_exact by done; cbn [fst snd]; unfold ret; rewrite app_nil_r; done.
  - left; cbn; rewrite app_nil_r; clear; induction k; done.
Qed.
End RailLemmas.

(** ** Reachable states *)

(** The main loop, the interrupt and the power commands, in any order. *)
Inductive pd_step `{P : Phy} : pds * list eff -> pds * list eff -> Prop :=
  | step_det c s h : pd_step (s, h) ((PD_Det_Proc c s h).1, h ++ (PD_Det_Proc c s h).2)
  | step_main dt s h : pd_step (s, h) ((PD_Main_Proc dt s h).1, h ++ (PD_Main_Proc dt s h).2)
  | step_irq i s h : irq_on s = true ->
      pd_step (s, h) ((USBPD_IRQHandler i s h).1, h ++ (USBPD_IRQHandler i s h).2)
  | step_disable s h : pd_step (s, h) ((VBUS_disable s h).1, h ++ (VBUS_disable s h).2)
  | step_restart s h : pd_step (s, h) ((Power_Output_Restart s h).1, h ++ (Power_Output_Restart s h).2).

(** The set points the module can leave in the converter's caches. *)
Definition setpoints : list tps :=
  [Tps 0 0; Tps 50 30; Tps 50 52; Tps 90 31; Tps 120 23; Tps 150 19].

(** [lo] bounds the object position of a request about to be accepted: 1 as the
    request handler leaves it, 0 once a power-off command has cleared it. *)
Definition pd_ok (lo : Z) (st : CC_STATUS) (id det idx ntx nevt : Z) (t : tps) : Prop :=
  st <> STA_RX_ACCEPT_WAIT /\ st <> STA_RX_PS_RDY_WAIT /\
  (st = STA_TX_ACCEPT -> lo <= idx <= 4) /\ 0 <= idx <= 7 /\
  is_u8 id /\ Z.even id = true /\ 0 <= det < 5 /\ ntx = 34 /\ nevt = 16 /\ t ∈ setpoints.
Definition pd_inv_from (lo : Z) (s : pds) : Prop :=
  pd_ok lo (PD_State s) (Msg_ID s) (Det_Cnt s) (ReqPDO_Idx s) (Z.of_nat (length (PD_Tx_Buf s)))
    (Z.of_nat (length (PD_Evt_Buf s))) (Tps_Set s).
Notation pd_inv := (pd_inv_from 0).

Section Invariant.
Context `{P : Phy} {lo : Z}.

Lemma u8_even z : Z.even z = true -> Z.even (u8 (z + 2)) = true.
Proof.
  intros H; unfold u8; rewrite Z.mod_eq by lia; rewrite Z.even_sub, Z.even_add, Z.even_mul, H; done.
Qed.

Lemma inv_evt c s : pd_inv_from lo s -> pd_inv_from lo (PD_Evt c s).
Proof. unfold pd_inv_from, PD_Evt; cbn; rewrite length_insert; done. Qed.
Lemma inv_state st s :
  pd_inv_from lo s -> st <> STA_RX_ACCEPT_WAIT -> st <> STA_RX_PS_RDY_WAIT -> st <> STA_TX_ACCEPT ->
  pd_inv_from lo (s <| PD_State := st |>).
Proof. unfold pd_inv_from, pd_ok; cbn; intros (? & ? & ? & ?) ? ? ?; split_and!; done || tauto. Qed.

(** After a transmission the invariant holds, and the policy state is as before. *)
Definition sent (s : pds) (r : pds * bool) : Prop :=
  pd_inv_from lo r.1 /\ exists id txb rxb, r.1 = after_send s id txb rxb true.

(** A request's PDO index is three bits wide. *)
Lemma pdo_idx_range x : 0 <= Z.shiftr (Z.land x 112) 4 <= 7.
Proof.
  assert (Hx : Z.shiftr (Z.land x 112) 4 = Z.shiftr x 4 mod 2 ^ 3).
  { rewrite <- Z.land_ones, Z.shiftr_land by lia; done. }
  rewrite Hx; pose proof (Z.mod_pos_bound (Z.shiftr x 4) (2 ^ 3) ltac:(lia)); lia.
Qed.
Lemma inv_request idx st s :
  pd_inv_from lo s -> 0 <= idx <= 7 -> st = STA_TX_HRST \/ st = STA_TX_ACCEPT /\ lo <= idx <= 4 ->
  pd_inv_from lo (s <| ReqPDO_Idx := idx |> <| PD_State := st |>).
Proof.
  unfold pd_inv_from, pd_ok; cbn; intros (? & ? & ? & ? & ?) ? [->|[-> ?]]; split_and!; done || tauto || lia.
Qed.
Lemma inv_msg_id0 s : pd_inv_from lo s -> pd_inv_from lo (s <| Msg_ID := 0 |>).
Proof.
  unfold pd_inv_from, pd_ok; cbn; intros (? & ? & ? & ? & ? & ? & ?); split_and!; done || tauto || lia.
Qed.

Lemma inv_load s : pd_inv_from lo s -> length (PD_Tx_Buf s) = 34%nat.
Proof. intros (_ & _ & _ & _ & _ & _ & _ & H & _); lia. Qed.

Lemma always_send ty pbuf s :
  Z.of_nat (length pbuf) mod 4 = 0 -> (length pbuf <= 28)%nat -> pd_inv_from lo s ->
  always (send ty pbuf s) (sent s).
Proof.
  intros Hm Hl Hi h; destruct (send_spec ty pbuf s h Hm Hl (inv_load s Hi))
    as (k & txb & rxb & ok & Hs & _ & Ht & _).
  unfold result; rewrite Hs; split; [|eauto]; unfold pd_inv_from, pd_ok in *; cbn.
  destruct Hi as (? & ? & ? & ? & ? & ? & ? & ? & ? & ?).
  split_and!; try done; try lia; destruct ok; auto using u8_even; try apply u8_range; lia.
Qed.
Lemma always_send_ ty pbuf s :
  Z.of_nat (length pbuf) mod 4 = 0 -> (length pbuf <= 28)%nat -> pd_inv_from lo s ->
  always (send_ ty pbuf s) (pd_inv_from lo).
Proof.
  intros Hm Hl Hi; eapply always_bind; [apply always_send; done|].
  intros [s' ok] [Hi' _]; apply always_ret; exact Hi'.
Qed.
Lemma always_emit {A} e (k : unit -> M A) Q : always (k tt) Q -> always (bind (emit e) k) Q.
Proof. intros H; eapply (always_bind _ _ (fun _ => True)); [done|intros [] _; exact H]. Qed.

Lemma always_tps v a s :
  33 <= v <= 200 -> 0 <= a <= 63 -> Tps v a ∈ setpoints -> pd_inv_from lo s ->
  always (tps_apply (tenths v) (tenths a) s)
         (fun s' => pd_inv_from lo s' /\ s' = s <| Tps_Set := Tps v a |>).
Proof.
  intros Hv Ha Hin Hi h; unfold result; rewrite tps_apply_exact by done; cbn; split; [|done].
  unfold pd_inv_from, pd_ok in *; cbn; intuition.
Qed.
End Invariant.

#[export] Hint Resolve inv_evt inv_state : ups.

(** Step through a handler, the invariant in hand. *)
Ltac inv_step :=
  first
    [ apply always_ret
    | apply always_emit
    | eapply always_bind; [eapply always_send; [done|cbn; lia|]|intros [? ?] [? (? & ? & ? & Heq)]; cbn [fst] in *; subst]
    | eapply always_bind; [eapply always_send_; [done|cbn; lia|]|intros ? ?]
    | eapply always_send_; [done|cbn; lia|]
    | case_match ].

Section Handlers.
Context `{P : Phy} {lo : Z}.

(** Fields the invariant does not mention. *)
Lemma inv_misc s tm dup bus idle role ver irq :
  pd_inv_from lo s ->
  pd_inv_from lo (s <| PD_Comm_Timer := tm |>) /\ pd_inv_from lo (s <| DRSwap_Last_MsgID := dup |>) /\
  pd_inv_from lo (s <| PD_BusIdle_Timer := bus |>) /\ pd_inv_from lo (s <| Adapter_Idle_Cnt := idle |>) /\
  pd_inv_from lo (s <| PD_Role := role |>) /\ pd_inv_from lo (s <| PD_Version := ver |>) /\
  pd_inv_from lo (s <| irq_on := irq |>).
Proof. intros H; split_and!; exact H. Qed.

Lemma inv_on_request s : lo <= 1 -> pd_inv_from lo s -> always (on_request s) (pd_inv_from lo).
Proof.
  intros Hlo Hi; unfold on_request; apply always_emit; pose proof (pdo_idx_range (rx s 5)) as Hx.
  set (idx := Z.shiftr (Z.land (rx s 5) 112) 4) in *; clearbody idx.
  pose proof (inv_request idx STA_TX_HRST s Hi Hx (or_introl eq_refl)) as Hh.
  match goal with |- context [(?i =? 0) || (4 <? ?i)] => change ((i =? 0) || (4 <? i)) with
    ((idx =? 0) || (4 <? idx)); destruct ((idx =? 0) || (4 <? idx)) eqn:Hr end; apply always_ret.
  - exact (inv_evt _ _ Hh).
  - apply orb_false_iff in Hr as [H0%Z.eqb_neq Hr%Z.ltb_ge].
    assert (Hr' : lo <= idx <= 4) by lia.
    exact (inv_evt _ _ (inv_request idx STA_TX_ACCEPT s Hi Hx (or_intror (conj eq_refl Hr')))).
Qed.

Lemma inv_on_soft_reset s : pd_inv_from lo s -> always (on_soft_reset s) (pd_inv_from lo).
Proof.
  intros Hi; unfold on_soft_reset; apply always_emit.
  eapply always_bind; [eapply always_send_; [done|cbn; lia|apply inv_evt, inv_misc, inv_msg_id0, Hi]|].
  all: try exact 0; try exact true; intros s' Hi'; apply always_ret.
  apply inv_misc; try exact 0; try exact true; apply inv_state; done.
Qed.

Lemma inv_on_dr_swap s : pd_inv_from lo s -> always (on_dr_swap s) (pd_inv_from lo).
Proof.
  intros Hi; unfold on_dr_swap; case_match; [apply always_ret; done|].
  case_match; [case_match|].
  - apply always_emit; eapply always_bind; [eapply always_send; [done|cbn; lia|apply inv_evt, Hi]|].
    intros [s' ok] [Hi' _]; cbn [fst] in Hi'; destruct ok; apply always_ret.
    + apply inv_evt; exact Hi'.
    + apply inv_state; [apply inv_evt; exact Hi'|done..].
  - apply always_ret, inv_evt, Hi.
  - apply always_emit, always_send_; [done|cbn; lia|apply inv_evt, Hi].
Qed.

Lemma inv_reply ty pbuf (ev : pds -> Z) s :
  Z.of_nat (length pbuf) mod 4 = 0 -> (length pbuf <= 28)%nat -> pd_inv_from lo s ->
  always (do* delay_ms 1 in let* s := send_ ty pbuf s in ret (PD_Evt (ev s) s)) (pd_inv_from lo).
Proof.
  intros Hm Hl Hi; apply always_emit; eapply always_bind; [eapply always_send_; done|].
  intros s' Hi'; apply always_ret, inv_evt, Hi'.
Qed.

Lemma inv_on_vdm s : pd_inv_from lo s -> always (on_vdm s) (pd_inv_from lo).
Proof.
  intros Hi; unfold on_vdm; case_match; [apply always_ret|].
  { apply inv_misc; try exact 0; try exact true; apply inv_state; done. }
  case_match; [case_match|apply always_ret, Hi].
  - apply (inv_reply _ _ (fun _ => _)); [done|cbn; lia|done].
  - apply (inv_reply _ _ (fun _ => _)); [done|cbn; lia|done].
Qed.

Lemma inv_replies s :
  pd_inv_from lo s -> always (on_get_src_cap s) (pd_inv_from lo) /\ always (on_get_snk_cap s) (pd_inv_from lo) /\
              always (on_vconn_swap s) (pd_inv_from lo) /\ always (on_other s) (pd_inv_from lo).
Proof.
  intros Hi; unfold on_get_src_cap, on_get_snk_cap, on_vconn_swap, on_other; split_and!.
  - apply (inv_reply _ _ (fun _ => _)); [done|cbn; lia|done].
  - case_match.
    + apply always_emit; case_match;
        (eapply always_bind; [eapply always_send_; [done|cbn; lia|done]|]);
        intros s' Hi'; apply always_ret, inv_evt, Hi'.
    + apply (inv_reply _ _ (fun _ => _)); [done|cbn; lia|done].
  - apply (inv_reply _ _ (fun _ => _)); [done|cbn; lia|done].
  - case_match; [|apply always_ret, Hi].
    apply (inv_reply _ _ (fun s => _)); [done|cbn; lia|done].
Qed.

Lemma inv_dispatch s : lo <= 1 -> pd_inv_from lo s -> always (pd_dispatch s) (pd_inv_from lo).
Proof.
  intros Hlo Hi; unfold pd_dispatch.
  set (s1 := if negb (Z.land (rx _ 0) 31 =? DEF_TYPE_DR_SWAP) then _ else s <| Adapter_Idle_Cnt := 0 |>).
  assert (Hi1 : pd_inv_from lo s1) by (subst s1; case_match; exact Hi); clearbody s1; clear Hi.
  eapply (always_bind _ _ (pd_inv_from lo)); [|intros s2 Hi2; apply always_ret; exact Hi2].
  destruct (inv_replies s1 Hi1) as (? & ? & ? & ?).
  repeat case_match; try assumption; auto using inv_on_request, inv_on_soft_reset,
    inv_on_dr_swap, inv_on_vdm.
  - unfold on_accept; apply always_ret; case_match; [|exact Hi1].
    exfalso; destruct Hi1 as (Hne & _); apply Hne; assumption.
  - apply always_ret, Hi1.
Qed.

Lemma inv_sink_connect dt s : pd_inv_from lo s -> always (sta_sink_connect dt s) (pd_inv_from lo).
Proof.
  intros Hi; apply always_ret; case_match; [|exact Hi].
  exact (inv_state STA_TX_SRC_CAP s Hi ltac:(done) ltac:(done) ltac:(done)).
Qed.

(** A state that sends one message, records an event and moves on. *)
Lemma inv_send_then ty pbuf (k : pds -> bool -> pds) s :
  Z.of_nat (length pbuf) mod 4 = 0 -> (length pbuf <= 28)%nat -> pd_inv_from lo s ->
  (forall s' ok, pd_inv_from lo s' -> pd_inv_from lo (k s' ok)) ->
  always (let* (s', ok) := send ty pbuf s in ret (k s' ok)) (pd_inv_from lo).
Proof.
  intros Hm Hl Hi Hk; eapply always_bind; [eapply always_send; done|].
  intros [s' ok] [Hi' _]; apply always_ret, Hk, Hi'.
Qed.

Lemma inv_set_state st s :
  pd_inv_from lo s -> st <> STA_RX_ACCEPT_WAIT /\ st <> STA_RX_PS_RDY_WAIT /\ st <> STA_TX_ACCEPT ->
  pd_inv_from lo (s <| PD_State := st |>).
Proof. intros H (? & ? & ?); apply inv_state; done. Qed.

Lemma inv_phy_reset s : pd_inv_from lo s -> pd_inv_from lo (PD_PHY_Reset s).
Proof.
  unfold pd_inv_from, pd_ok; cbn; intros (? & ? & ? & ? & ? & ? & ? & ?); split_and!; done || tauto || lia.
Qed.
Lemma inv_vbus_disable s :
  lo <= 0 \/ PD_State s <> STA_TX_ACCEPT -> pd_inv_from lo s -> always (VBUS_disable s) (pd_inv_from lo).
Proof.
  intros Hlo Hi h; unfold result; rewrite vbus_disable_exact; unfold pd_inv_from, pd_ok in *; cbn.
  destruct Hi as (? & ? & ? & ? & ? & ? & ? & ? & ? & ?); split_and!; try done; try lia;
    [intros; destruct Hlo; [lia|congruence]|left].
Qed.

Lemma inv_tx_accept dt s : pd_inv_from lo s -> always (sta_tx_accept dt s) (pd_inv_from lo).
Proof.
  intros Hi; unfold sta_tx_accept; case_match; [|apply always_ret, Hi].
  eapply always_bind; [eapply always_send; [done|cbn; lia|exact Hi]|].
  intros [s' ok] [Hi' _]; cbn [fst] in Hi'; destruct ok.
  2: { apply always_ret; apply (inv_set_state STA_TX_SOFTRST s' Hi'); done. }
  destruct (pdo_setpoint (ReqPDO_Idx _)) as [v a] eqn:Hp.
  destruct (pdo_setpoint_range (ReqPDO_Idx s')) as [Hv Ha].
  change (ReqPDO_Idx (PD_Evt _ s')) with (ReqPDO_Idx s') in Hp; rewrite Hp in Hv, Ha.
  eapply always_bind; [eapply always_tps; [exact Hv|exact Ha| |apply inv_evt, Hi']|].
  - revert Hp; unfold pdo_setpoint, setpoints; repeat case_match; intros [= <- <-];
      rewrite !elem_of_cons; tauto.
  - intros s2 [Hi2 _]; apply always_ret; apply (inv_set_state STA_TX_PS_RDY s2 Hi2); done.
Qed.

Lemma inv_status dt s : pd_inv_from lo s -> always (pd_status dt s) (pd_inv_from lo).
Proof.
  intros Hi; unfold pd_status; destruct (PD_State s) eqn:Hst; try (apply always_ret, Hi);
    auto using inv_sink_connect, inv_tx_accept.
  - unfold sta_disconnect; eapply always_bind; [apply inv_vbus_disable; [right; cbn; congruence|apply inv_evt, Hi]|].
    intros s' Hi'; apply always_ret, inv_phy_reset, Hi'.
  - unfold sta_tx_src_cap; case_match; [|apply always_ret, Hi].
    apply (inv_send_then _ _ (fun s' ok => _)); [done|cbn; lia|exact Hi|].
    intros s' [] Hi'; [|exact Hi'].
    apply (inv_evt PD_EVT_SRC_CAP_TX _ (inv_set_state STA_RX_REQ_WAIT s' Hi' ltac:(done))).
  - unfold sta_rx_req_wait; apply always_ret; case_match; [|exact Hi].
    apply (inv_set_state STA_TX_HRST s Hi); done.
  - unfold sta_tx_ps_rdy; case_match; [|apply always_ret, Hi].
    apply (inv_send_then _ _ (fun s' ok => _)); [done|cbn; lia|exact Hi|].
    intros s' [] Hi'; [apply (inv_set_state STA_IDLE _ (inv_evt PD_EVT_PS_RDY_TX s' Hi')); done|].
    apply (inv_set_state STA_TX_SOFTRST s' Hi'); done.
  - unfold sta_tx_softrst.
    apply (inv_send_then _ _ (fun s' ok => _)); [done|cbn; lia|apply inv_evt; exact Hi|].
    intros s' ok Hi'; apply (inv_set_state (if ok then STA_IDLE else STA_TX_HRST) s' Hi'); by destruct ok.
  - unfold sta_tx_hrst; apply always_emit, always_ret.
    apply (inv_set_state STA_IDLE (PD_Evt PD_EVT_HRST_TX s) (inv_evt _ _ Hi)); done.
  - unfold sta_tx_vdm_rpi; case_match; [|apply always_ret, Hi].
    eapply always_bind; [eapply always_send_; [done|cbn; lia|exact Hi]|].
    intros s' Hi'; apply always_ret.
    apply (inv_set_state STA_IDLE _ (inv_evt PD_EVT_VDM_RPI_TX s' Hi')); done.
Qed.

Lemma inv_main dt s : lo <= 1 -> pd_inv_from lo s -> always (PD_Main_Proc dt s) (pd_inv_from lo).
Proof.
  intros Hlo Hi; unfold PD_Main_Proc; eapply always_bind; [apply inv_status; exact Hi|].
  intros s' Hi'; case_match; [apply inv_dispatch|apply always_ret]; done.
Qed.

Lemma inv_set_det n s : pd_inv_from lo s -> 0 <= n < 5 -> pd_inv_from lo (s <| Det_Cnt := n |>).
Proof.
  unfold pd_inv_from, pd_ok; cbn; intros (? & ? & ? & ? & ? & ? & ? & ?) ?; split_and!; done || tauto || lia.
Qed.
Lemma inv_set_5v s : pd_inv_from lo s -> always (VBUS_set_5V s) (pd_inv_from lo).
Proof.
  intros Hi; unfold VBUS_set_5V, VBUS_enable, pin_set; eapply (always_bind _ _ (fun _ => True)).
  - intros h; exact I.
  - intros _ _; eapply always_weaken; [eapply always_tps; [lia|lia| |exact Hi]|intros s' [? _]; done].
    right; left.
Qed.

Lemma det_cnt_range s : pd_inv_from lo s -> 0 <= Det_Cnt s < 5.
Proof. intros (_ & _ & _ & _ & _ & _ & H & _); exact H. Qed.

Lemma inv_det c s : pd_inv_from lo s -> always (PD_Det_Proc c s) (pd_inv_from lo).
Proof.
  intros Hi; pose proof (det_cnt_range s Hi) as Hd; unfold PD_Det_Proc; cbv zeta.
  pose proof (inv_set_det 0 s Hi ltac:(lia)) as H0.
  destruct (Connected s); [case_match; [apply always_ret, H0|]|].
  - cbn [Det_Cnt upd]; rewrite u8_small by lia.
    destruct (Z.leb_spec 5 (Det_Cnt s + 1)); apply always_ret; [|apply inv_set_det; done || lia].
    case_match; [exact H0|apply (inv_set_state STA_DISCONNECT _ H0); done].
  - match goal with |- context [5 <=? Det_Cnt ?x] => change (Det_Cnt x) with
      (if PD_Detect c s =? 0 then 0 else u8 (Det_Cnt s + 1)) end.
    rewrite u8_small by lia; destruct (PD_Detect c s =? 0); [apply always_ret, H0|].
    destruct (Z.leb_spec 5 (Det_Cnt s + 1)); [|apply always_ret, inv_set_det; done || lia].
    match goal with |- always (if ?b then _ else _) _ => destruct b end; [apply always_ret; exact H0|].
    eapply always_bind; [apply inv_set_5v, inv_evt, (inv_set_state STA_SINK_CONNECT _ H0); done|].
    intros s' Hi'; apply always_ret; exact Hi'.
Qed.

Lemma inv_irq i s : pd_inv_from lo s -> always (USBPD_IRQHandler i s) (pd_inv_from lo).
Proof.
  intros Hi; unfold USBPD_IRQHandler; eapply (always_bind _ _ (pd_inv_from lo)).
  - destruct (irq_rx i) as [[n buf]|]; [case_match; [apply always_emit|]|]; apply always_ret; exact Hi.
  - intros s' Hi'; apply always_ret; repeat case_match; exact Hi'.
Qed.

Lemma inv_restart s : pd_inv_from lo s -> always (Power_Output_Restart s) (pd_inv_from lo).
Proof.
  intros Hi; unfold Power_Output_Restart; eapply always_bind; [apply inv_set_5v, Hi|].
  intros s' Hi'; apply always_ret; apply (inv_set_state STA_SINK_CONNECT s' Hi'); done.
Qed.

Lemma inv_init : lo <= 1 -> pd_inv_from lo PD_Init.
Proof. intros _; unfold pd_inv_from, pd_ok; cbn; split_and!; try done; try lia; left. Qed.

(** The steps that keep the invariant at [lo]: all of them at 0, and at 1 all but
    a power-off command that meets a request about to be accepted. *)
Lemma inv_pd_step x y :
  lo <= 1 -> pd_step x y -> pd_inv_from lo x.1 ->
  pd_inv_from lo y.1 \/
  0 < lo /\ PD_State x.1 = STA_TX_ACCEPT /\ y.1 = result (VBUS_disable x.1) x.2.
Proof.
  intros Hlo Hs Hi; destruct Hs as [c s h|dt s h|i s h Hq|s h|s h]; cbn [fst snd] in *.
  - left; apply (inv_det c s Hi h).
  - left; apply (inv_main dt s Hlo Hi h).
  - left; apply (inv_irq i s Hi h).
  - destruct (Z.le_gt_cases lo 0) as [H0|H0]; [left; exact (inv_vbus_disable s (or_introl H0) Hi h)|].
    destruct (decide (PD_State s = STA_TX_ACCEPT)) as [Ha|Ha]; [right; done|].
    left; exact (inv_vbus_disable s (or_intror Ha) Hi h).
  - left; apply (inv_restart s Hi h).
Qed.
End Handlers.

(** Rule induction over every sequence of steps. *)
Lemma inv_reachable `{P : Phy} x : rtc pd_step (PD_Init, []) x -> pd_inv x.1.
Proof.
  apply (rtc_preserves _ (fun x => pd_inv x.1)); [|apply inv_init; lia].
  intros y z Hi Hs; destruct (inv_pd_step (lo := 0) y z ltac:(lia) Hs Hi) as [H|[H _]]; [exact H|lia].
Qed.

(** ** The message header *)

(** The 16-bit header of the USB-PD specification. *)
Definition pd_header (ty : Z) (dfp pd3 source : bool) (msg_id ndo : Z) : Z :=
  ty + 32 * b2z dfp + (if pd3 then 128 else 64) + 256 * b2z source + 512 * msg_id + 4096 * ndo.

Section Header.
Lemma header_b0 ty (dfp pd3 : bool) :
  0 <= ty < 32 ->
  (let b := if dfp then Z.lor ty 32 else ty in if pd3 then Z.lor b 128 else Z.lor b 64) =
  ty + 32 * b2z dfp + (if pd3 then 128 else 64).
Proof.
  intros Hty; apply Z.eqb_eq.
  apply (seqZ_all (fun ty =>
    (let b := if dfp then Z.lor ty 32 else ty in if pd3 then Z.lor b 128 else Z.lor b 64) =?
    ty + 32 * b2z dfp + (if pd3 then 128 else 64)) 0 32); [|lia].
  destruct dfp, pd3; vm_compute; reflexivity.
Qed.

Lemma header_b1 id (source : bool) n :
  0 <= n < 8 ->
  Z.lor (if source then Z.lor (Z.land id 14) 1 else Z.land id 14) (Z.shiftl n 4) =
  b2z source + 2 * (id / 2 mod 8) + 16 * n.
Proof.
  intros Hn; assert (Z.land id 14 = 2 * (id / 2 mod 8)) as ->.
  { replace 14 with (Z.shiftl (Z.ones 3) 1) by done.
    change (2 ^ 3) with 8; replace (id / 2 mod 8) with (Z.land (Z.shiftr id 1) (Z.ones 3))
      by (rewrite Z.land_ones, Z.shiftr_div_pow2 by lia; done).
    replace (2 * Z.land (Z.shiftr id 1) (Z.ones 3)) with (Z.shiftl (Z.land (Z.shiftr id 1) (Z.ones 3)) 1)
      by (rewrite Z.shiftl_mul_pow2 by lia; lia).
    apply Z.bits_inj'; intros k Hk; rewrite Z.land_spec.
    destruct (decide (k = 0)) as [->|]; [rewrite !Z.shiftl_spec_low by lia; apply andb_false_r|].
    rewrite !Z.shiftl_spec, Z.land_spec, Z.shiftr_spec by lia; f_equal; f_equal; lia. }
  pose proof (Z.mod_pos_bound (id / 2) 8 ltac:(lia)) as Hm; set (m := id / 2 mod 8) in *; clearbody m.
  apply Z.eqb_eq; revert Hm; intros Hm.
  refine (seqZ_all (fun m => Z.lor (if source then Z.lor (2 * m) 1 else 2 * m) (Z.shiftl n 4) =?
    b2z source + 2 * m + 16 * n) 0 8 _ m ltac:(lia)).
  refine (seqZ_all (fun n => forallb (fun m => Z.lor (if source then Z.lor (2 * m) 1 else 2 * m)
    (Z.shiftl n 4) =? b2z source + 2 * m + 16 * n) (seqZ 0 8)) 0 8 _ n ltac:(lia)).
  destruct source; vm_compute; reflexivity.
Qed.

Lemma message_header ty pbuf s :
  0 <= ty < 32 -> Z.of_nat (length pbuf) mod 4 = 0 -> (length pbuf <= 28)%nat ->
  (2 <= length (PD_Tx_Buf s))%nat ->
  message ty pbuf s =
    le16 (pd_header ty (PD_Role s) (PD_Version s) (PR_Role s) (Msg_ID s / 2 mod 8)
            (Z.of_nat (length pbuf) / 4)) ++ pbuf.
Proof.
  intros Hty Hm Hl Hb; unfold message; f_equal.
  assert (Hn : 0 <= Z.of_nat (length pbuf) / 4 < 8)
    by (split; [apply Z.div_pos; lia|apply Z.div_lt_upper_bound; lia]).
  destruct s as [? id ? ? ? ? ? ? ? ? ? dfp src ? v3 ? [|x [|y buf]]]; cbn in Hb; try lia.
  cbn [PD_Load_Header PD_Role PD_Version PR_Role Msg_ID]; unfold PD_Load_Header, byte_at; cbn -[le_bytes].
  rewrite Z.shiftr_div_pow2 by lia; change (2 ^ 2) with 4.
  rewrite header_b1 by done; rewrite header_b0 by done; unfold pd_header.
  set (n := Z.of_nat (length pbuf) / 4) in *; pose proof (Z.mod_pos_bound (id / 2) 8 ltac:(lia)).
  set (m := id / 2 mod 8) in *; clearbody n m.
  assert (0 <= b2z dfp <= 1 /\ 0 <= b2z src <= 1) by (destruct dfp, src; cbn; lia).
  set (b0 := ty + 32 * b2z dfp + (if v3 then 128 else 64)).
  assert (is_u8 b0) by (subst b0; destruct v3; lia).
  replace (b0 + 256 * b2z src + 512 * m + 4096 * n)
    with (b0 + 256 * (b2z src + 2 * m + 16 * n)) by lia.
  rewrite le16_split by (done || lia); done.
Qed.
End Header.

(** ** Properties *)

(** C34: invariant of the source, over every sequence of whole calls of the
    main procedure, the detection timer, the receive interrupt and the power
    commands (an interrupt falls between two calls, not inside one).  A contract is
    only accepted for one of the four advertised PDOs: in the Accept state the
    object position is at most 4, and it is at least 1 as long as no power-off
    command meets a request that is about to be accepted; that command is the only
    step that can clear the position there.  The sink-side wait states are
    unreachable, MessageIDs stay even byte counters, the buffers keep their sizes,
    and the converter's cached set point is off, the default 5 V / 3 A or one of
    the four contracts. *)
Theorem pd_source_invariant `{P : Phy} x :
  rtc pd_step (PD_Init, []) x ->
  pd_inv x.1 /\ pd_inv_from 1 PD_Init /\
  forall y, pd_step x y -> pd_inv_from 1 x.1 ->
    pd_inv_from 1 y.1 \/
    PD_State x.1 = STA_TX_ACCEPT /\ y.1 = result (VBUS_disable x.1) x.2.
Proof.
  intros Hx; split; [apply (inv_reachable x Hx)|]; split; [apply inv_init; lia|].
  intros y Hs Hi; destruct (inv_pd_step (lo := 1) x y ltac:(lia) Hs Hi) as [?|[_ ?]]; auto.
Qed.

Lemma pd_source_invariant_witness :
  pd_inv (@VBUS_disable PD_Init []).1.
Proof.
  refine (proj1 (@pd_source_invariant (fun _ _ => None)
           ((@VBUS_disable PD_Init []).1, [] ++ (@VBUS_disable PD_Init []).2) _)).
  apply rtc_once, step_disable.
Defined.

(** C35: the output voltage follows the contract.  In one call of the main
    procedure the converter is written only in two states: on a disconnect, where
    its output is switched off and nothing else; and in the Accept state, after
    between one and three transmissions of the Accept message of which the last
    was acknowledged (a poll after it showed a GoodCRC), to exactly the set point
    of the requested PDO. *)
Theorem rail_follows_contract `{P : Phy} dt s h :
  length (PD_Tx_Buf s) = 34%nat ->
  let es := effects (PD_Main_Proc dt s) h in
  writes es = [] \/
  (PD_State s = STA_DISCONNECT /\ writes es = output_off) \/
  (PD_State s = STA_TX_ACCEPT /\
   writes es = setpoint_writes (pdo_setpoint (ReqPDO_Idx s)).1 (pdo_setpoint (ReqPDO_Idx s)).2 /\
   exists k es', (1 <= k <= 3)%nat /\
     acknowledged (h ++ replicate k (PdTx UPD_SOP0 (message DEF_TYPE_ACCEPT [] s))) /\
     es = replicate k (PdTx UPD_SOP0 (message DEF_TYPE_ACCEPT [] s)) ++ es').
Proof.
  intros Hb es; subst es; unfold PD_Main_Proc; rewrite effects_bind, writes_app.
  set (s0 := s <| PD_BusIdle_Timer := _ |>).
  set (rest := effects (if Msg_Recvd _ then _ else _) _).
  assert (writes rest = []) as ->.
  { subst rest; apply quiet_writes; case_match; [apply quiet_dispatch|apply quiet_ret]. }
  rewrite app_nil_r; destruct (decide (PD_State s = STA_DISCONNECT)) as [Hd|Hd].
  { right; left; split; [done|]; unfold pd_status; change (PD_State s0) with (PD_State s); rewrite Hd.
    unfold sta_disconnect; rewrite effects_bind; unfold effects; rewrite vbus_disable_exact; done. }
  destruct (decide (PD_State s = STA_TX_ACCEPT)) as [Ha|Ha].
  2: { left; apply quiet_writes, quiet_status; done. }
  unfold pd_status; change (PD_State s0) with (PD_State s); rewrite Ha.
  destruct (sta_tx_accept_spec dt s0 h Hb) as [?|(k & Hk & Hg & He & _)]; [auto|].
  right; right; split; [done|].
  split; [|exists k; eexists; split; [done|]; split; [exact Hg|]; rewrite He, <- app_assoc; done].
  rewrite He, writes_app, writes_i2c_effs; clear; induction k; done.
Qed.

Definition accepting (idx : Z) : pds :=
  PD_Init <| PD_State := STA_TX_ACCEPT |> <| ReqPDO_Idx := idx |> <| PD_Comm_Timer := 5 |>.
(** A partner that acknowledges the first transmission. *)
Definition good_phy : Phy := fun _ _ => Some (6, 1 :: replicate 33 0).

Lemma rail_follows_contract_witness :
  writes (@effects _ (@PD_Main_Proc good_phy 1 (accepting 4)) []) <> [] /\
  setpoint_writes 150 19 = writes (@effects _ (@PD_Main_Proc good_phy 1 (accepting 4)) []).
Proof.
  destruct (@rail_follows_contract good_phy 1 (accepting 4) [] eq_refl)
    as [H|[[H _]|[_ [H _]]]].
  - exfalso; vm_compute in H; discriminate.
  - exfalso; vm_compute in H; discriminate.
  - split; [rewrite H; discriminate|symmetry; exact H].
Defined.

(** A power-off command between a request and its Accept does not withdraw the Accept: the
    converter, just switched off, is set to the default 5 V / 3 A and its output enabled. *)
Example disable_before_accept_restarts_converter :
  let off := result (VBUS_disable (accepting 3)) [] in
  ReqPDO_Idx off = 0 /\ writes (@effects _ (@PD_Main_Proc good_phy 1 off) []) = setpoint_writes 50 30.
Proof. vm_compute; split; reflexivity. Qed.

(** Messages on the wire.  Any message of the protocol engine is transmitted
    at least once and at most three times, each time as the standard header
    (type, roles, revision, MessageID, object count) followed by its data
    objects; success is reported only on a GoodCRC, failure only after the third
    try, and the MessageID counter advances by exactly one on success. *)
Theorem pd_message_sent `{P : Phy} ty pbuf s h :
  0 <= ty < 32 -> Z.of_nat (length pbuf) mod 4 = 0 -> (length pbuf <= 28)%nat ->
  length (PD_Tx_Buf s) = 34%nat ->
  let r := send ty pbuf s h in
  exists k, (1 <= k <= 3)%nat /\
    r.2 = replicate k (PdTx UPD_SOP0
            (le16 (pd_header ty (PD_Role s) (PD_Version s) (PR_Role s) (Msg_ID s / 2 mod 8)
                     (Z.of_nat (length pbuf) / 4)) ++ pbuf)) /\
    (r.1.2 = false -> k = 3%nat) /\
    Msg_ID r.1.1 = (if r.1.2 then u8 (Msg_ID s + 2) else Msg_ID s) /\
    PD_State r.1.1 = PD_State s /\ PD_Role r.1.1 = PD_Role s.
Proof.
  intros Hty Hm Hl Hb r; subst r; rewrite <- message_header by (done || lia).
  destruct (send_spec ty pbuf s h Hm Hl Hb) as (k & txb & rxb & ok & -> & Hk & _).
  exists k; destruct ok; split_and!; done || lia.
Qed.

Lemma pd_message_sent_witness :
  PD_State (@send good_phy DEF_TYPE_SRC_CAP SrcCap_5V5A_Tab PD_Init []).1.1 = STA_IDLE.
Proof.
  destruct (@pd_message_sent good_phy DEF_TYPE_SRC_CAP SrcCap_5V5A_Tab PD_Init [])
    as (k & _ & _ & _ & _ & H & _); [| | | |exact H].
  - unfold DEF_TYPE_SRC_CAP; lia.
  - reflexivity.
  - cbn; lia.
  - reflexivity.
Defined.

(** ** Detach, hard reset and role swap *)

Section Scenarios.
Context `{P : Phy}.

Fixpoint det_run (cs : list cc_in) (s : pds) : M pds :=
  match cs with
  | [] => ret s
  | c :: cs => let* s := PD_Det_Proc c s in det_run cs s
  end.

Lemma det_removed c s h :
  Connected s = true -> PD_Detect c s = 0 -> 0 <= Det_Cnt s < 4 ->
  PD_Det_Proc c s h = (s <| Det_Cnt := Det_Cnt s + 1 |>, []).
Proof.
  intros Hc Hd Hn; unfold PD_Det_Proc; rewrite Hc, Hd; cbn; rewrite u8_small by lia.
  destruct (Z.leb_spec 5 (Det_Cnt s + 1)); [lia|done].
Qed.
Lemma det_removed_last c s h :
  Connected s = true -> PD_Detect c s = 0 -> Det_Cnt s = 4 -> Stop_Det_Chk s = false ->
  PD_Det_Proc c s h =
    (s <| Det_Cnt := 0 |> <| Connected := false |> <| PD_State := STA_DISCONNECT |>, []).
Proof. intros Hc Hd Hn Hs; unfold PD_Det_Proc; rewrite Hc, Hd, Hn; cbn; rewrite Hs; done. Qed.

(** Detection looks at the connection flag and the CC configuration only. *)
Lemma detect_det_cnt c s n : PD_Detect c (s <| Det_Cnt := n |>) = PD_Detect c s.
Proof. done. Qed.

Lemma det_run_removed cs s h :
  Connected s = true -> Forall (fun c => PD_Detect c s = 0) cs ->
  0 <= Det_Cnt s -> Det_Cnt s + Z.of_nat (length cs) <= 4 ->
  det_run cs s h = (s <| Det_Cnt := Det_Cnt s + Z.of_nat (length cs) |>, []).
Proof.
  revert s h; induction cs as [|c cs IH]; intros s h Hc Hf H0 Hn.
  - rewrite Z.add_0_r; destruct s; done.
  - inversion_clear Hf as [|? ? Hd Hf']; cbn [length] in *; cbn [det_run]; unfold bind.
    rewrite det_removed by (done || lia).
    set (s1 := s <| Det_Cnt := Det_Cnt s + 1 |>).
    assert (E : Det_Cnt s1 = Det_Cnt s + 1) by done.
    assert (B1 : 0 <= Det_Cnt s + 1) by lia.
    assert (B2 : Det_Cnt s + 1 + Z.of_nat (length cs) <= 4) by lia.
    rewrite (IH s1 (h ++ []) Hc Hf' B1 B2), E.
    replace (Det_Cnt s + Z.of_nat (S (length cs))) with (Det_Cnt s + 1 + Z.of_nat (length cs))
      by lia; done.
Qed.

Lemma det_run_app l1 l2 s h :
  det_run (l1 ++ l2) s h =
  let (s1, e1) := det_run l1 s h in
  let (s2, e2) := det_run l2 s1 (h ++ e1) in (s2, e1 ++ e2).
Proof.
  revert s h; induction l1 as [|c l1 IH]; intros s h; cbn [app det_run].
  - unfold ret; rewrite app_nil_r; destruct (det_run l2 s h); done.
  - unfold bind; destruct (PD_Det_Proc c s h) as [s1 e1]; rewrite IH.
    destruct (det_run l1 s1 (h ++ e1)) as [s2 e2]; rewrite app_assoc.
    destruct (det_run l2 s2 _); rewrite app_assoc; done.
Qed.

Lemma main_disconnect dt s h :
  PD_State s = STA_DISCONNECT ->
  let s0 := s <| PD_BusIdle_Timer := u16 (PD_BusIdle_Timer s + dt) |> in
  PD_Main_Proc dt s h =
    (PD_PHY_Reset (PD_Evt PD_EVT_DISCONNECT s0 <| Tps_Set := Tps 0 0 |> <| Tps_Vread_v10 := 0 |>
                     <| Tps_Iread_a10 := 0 |> <| ReqPDO_Idx := 0 |>),
     [PinSet PIN_VBUS_OUT_EN false; PinSet PIN_PDS_EN true;
      I2cWrite TPS55289_I2C_ADDR REG_MODE MODE_HICCUP_BIT]).
Proof.
  intros Hs s0; unfold PD_Main_Proc, bind, pd_status; fold s0.
  assert (PD_State s0 = STA_DISCONNECT) as -> by exact Hs.
  unfold sta_disconnect, bind; rewrite vbus_disable_exact; cbn [ret fst snd].
  unfold ret; set (e := PD_Evt PD_EVT_DISCONNECT s0); clearbody e s0; done.
Qed.

(** Main-loop activity between messages: detection ticks and FSM calls. *)
Inductive tick := TickDet (c : cc_in) | TickMain (dt : Z).
Fixpoint ticks (l : list tick) (s : pds) : M pds :=
  match l with
  | [] => ret s
  | TickDet c :: l => let* s := PD_Det_Proc c s in ticks l s
  | TickMain dt :: l => let* s := PD_Main_Proc dt s in ticks l s
  end.

(** Idle with the disconnect check switched off and nothing received. *)
Definition deaf (t : tps) (s : pds) : Prop :=
  PD_State s = STA_IDLE /\ Stop_Det_Chk s = true /\ Msg_Recvd s = false /\ Tps_Set s = t.

Lemma deaf_det t c s h : deaf t s -> deaf t (PD_Det_Proc c s h).1 /\ (PD_Det_Proc c s h).2 = [].
Proof.
  intros (Hs & Hc & Hm & Ht); unfold PD_Det_Proc, deaf; destruct (Connected s).
  - destruct (negb _); cbn; [done|]; destruct (5 <=? _); cbn; rewrite ?Hc; done.
  - cbn; destruct (5 <=? _); cbn; rewrite ?Hc; done.
Qed.
Lemma deaf_main t dt s h : deaf t s -> deaf t (PD_Main_Proc dt s h).1 /\ (PD_Main_Proc dt s h).2 = [].
Proof.
  intros (Hs & Hc & Hm & Ht); unfold PD_Main_Proc, bind, pd_status, deaf.
  match goal with |- context [match PD_State ?x with _ => _ end] =>
    change (PD_State x) with (PD_State s) end.
  rewrite Hs; cbn; rewrite Hm; done.
Qed.
Lemma deaf_ticks t l s h : deaf t s -> deaf t (ticks l s h).1 /\ (ticks l s h).2 = [].
Proof.
  revert s h; induction l as [|[c|dt] l IH]; intros s h Hd; [done|..]; cbn [ticks]; unfold bind.
  - destruct (deaf_det t c s h Hd) as [H1 H2]; destruct (PD_Det_Proc c s h) as [s1 es]; cbn in *.
    subst; destruct (IH s1 (h ++ []) H1); destruct (ticks l s1 _); done.
  - destruct (deaf_main t dt s h Hd) as [H1 H2]; destruct (PD_Main_Proc dt s h) as [s1 es]; cbn in *.
    subst; destruct (IH s1 (h ++ []) H1); destruct (ticks l s1 _); done.
Qed.

(** A call of the main procedure that leaves no message to dispatch. *)
Lemma main_unsent dt s h s1 es :
  pd_status dt (s <| PD_BusIdle_Timer := u16 (PD_BusIdle_Timer s + dt) |>) h = (s1, es) ->
  Msg_Recvd s1 = false -> PD_Main_Proc dt s h = (s1, es).
Proof.
  intros Hst Hm; unfold PD_Main_Proc, bind; cbv zeta; rewrite Hst, Hm; unfold ret.
  rewrite app_nil_r; done.
Qed.

Lemma hrst_exact s h :
  exists s1, sta_tx_hrst s h = (s1, [PdTx UPD_HARD_RESET []]) /\
    Msg_Recvd s1 = false /\ Stop_Det_Chk s1 = true /\ Tps_Set s1 = Tps_Set s /\ PD_State s1 = STA_IDLE.
Proof.
  unfold sta_tx_hrst, bind, PD_Phy_SendPack, emit, ret.
  set (e := PD_Evt PD_EVT_HRST_TX _).
  assert (Ht : Tps_Set e = Tps_Set s) by done; assert (Hd : Stop_Det_Chk e = true) by done.
  clearbody e; eexists; split; [reflexivity|]; split_and!; [done|exact Hd|exact Ht|done].
Qed.

Lemma main_hrst dt s h :
  PD_State s = STA_TX_HRST ->
  deaf (Tps_Set s) (PD_Main_Proc dt s h).1 /\ (PD_Main_Proc dt s h).2 = [PdTx UPD_HARD_RESET []].
Proof.
  intros Hs; set (s0 := s <| PD_BusIdle_Timer := u16 (PD_BusIdle_Timer s + dt) |>).
  assert (Hst : pd_status dt s0 h = sta_tx_hrst s0 h)
    by (unfold pd_status; rewrite (Hs : PD_State s0 = STA_TX_HRST); done).
  destruct (hrst_exact s0 h) as (s1 & He & Hm & Hd & Ht & Hi).
  rewrite (main_unsent dt s h s1 [PdTx UPD_HARD_RESET []]); [|exact (eq_trans Hst He)|exact Hm].
  unfold deaf; cbn [fst snd]; rewrite Ht; done.
Qed.

(** *** DR_Swap *)

Definition deliver (buf : list Z) (s : pds) : M pds := pd_dispatch (s <| PD_Rx_Buf := buf |>).

(** A DR_Swap control message with MessageID [id]. *)
Definition is_dr_swap (buf : list Z) (id : Z) : Prop :=
  Z.land (byte_at buf 0) 31 = DEF_TYPE_DR_SWAP /\ Z.land (byte_at buf 1) 112 = 0 /\
  Z.land (Z.shiftr (byte_at buf 1) 1) 7 = id.

(** The handler runs on the state with the message in the buffer. *)
Lemma deliver_dr_swap buf id s h :
  is_dr_swap buf id ->
  exists s2, Z.land (rx s2 1) 112 = 0 /\ Z.land (Z.shiftr (rx s2 1) 1) 7 = id /\
    PD_State s2 = PD_State s /\ DRSwap_Last_MsgID s2 = DRSwap_Last_MsgID s /\
    PD_Role s2 = PD_Role s /\ PD_Tx_Buf s2 = PD_Tx_Buf s /\
    PD_Role (deliver buf s h).1 = PD_Role (on_dr_swap s2 h).1 /\
    PD_State (deliver buf s h).1 = PD_State (on_dr_swap s2 h).1 /\
    DRSwap_Last_MsgID (deliver buf s h).1 = DRSwap_Last_MsgID (on_dr_swap s2 h).1 /\
    (deliver buf s h).2 = (on_dr_swap s2 h).2.
Proof.
  intros (Hh & Hc & Hi); exists (s <| PD_Rx_Buf := buf |> <| Adapter_Idle_Cnt := 0 |>).
  assert (Hd : deliver buf s h =
    (let (s', es) := on_dr_swap (s <| PD_Rx_Buf := buf |> <| Adapter_Idle_Cnt := 0 |>) h in
     (PD_Rx_Mode s' <| Msg_Recvd := false |> <| PD_BusIdle_Timer := 0 |>, es))).
  { unfold deliver, pd_dispatch, bind; set (s2 := _ <| Adapter_Idle_Cnt := 0 |>).
    assert (Z.land (rx s2 0) 31 = DEF_TYPE_DR_SWAP) as -> by exact Hh.
    repeat match goal with |- context [DEF_TYPE_DR_SWAP =? ?k] =>
      let b := eval vm_compute in (DEF_TYPE_DR_SWAP =? k) in change (DEF_TYPE_DR_SWAP =? k) with b end.
    cbn [negb]; cbv iota; clearbody s2; destruct (on_dr_swap s2 h) as [s' es].
    unfold ret; rewrite app_nil_r; done. }
  rewrite Hd; destruct (on_dr_swap _ h) as [s' es]; split_and!; done.
Qed.

Lemma evt_fields c s :
  PD_Role (PD_Evt c s) = PD_Role s /\ PD_State (PD_Evt c s) = PD_State s /\
  DRSwap_Last_MsgID (PD_Evt c s) = DRSwap_Last_MsgID s /\ PD_Tx_Buf (PD_Evt c s) = PD_Tx_Buf s.
Proof. done. Qed.

Lemma dr_swap_duplicate buf id s h :
  is_dr_swap buf id -> PD_State s = STA_IDLE -> DRSwap_Last_MsgID s = id ->
  let r := deliver buf s h in
  PD_Role r.1 = PD_Role s /\ PD_State r.1 = STA_IDLE /\ r.2 = [].
Proof.
  intros Hb Hs Hid r; subst r.
  destruct (deliver_dr_swap buf id s h Hb) as (s2 & Hc & Hi & E1 & E2 & E3 & _ & -> & -> & _ & ->).
  unfold on_dr_swap; rewrite Hc, Hi, E1, Hs, E2, Hid; cbn [Z.eqb negb].
  rewrite decide_True, Z.eqb_refl by done; cbn [negb ret fst snd].
  destruct (evt_fields (Z.lor PD_EVT_DRSWAP_RX (Z.shiftl 1 4)) s2) as (F1 & F2 & _).
  unfold ret; cbn [fst snd]; rewrite F1, F2, E1, E3, Hs; done.
Qed.

Lemma dr_swap_fresh buf id s h :
  is_dr_swap buf id -> PD_State s = STA_IDLE -> DRSwap_Last_MsgID s <> id ->
  length (PD_Tx_Buf s) = 34%nat ->
  let r := deliver buf s h in
  (PD_Role r.1 = negb (PD_Role s) /\ PD_State r.1 = STA_IDLE /\ DRSwap_Last_MsgID r.1 = id) \/
  (PD_Role r.1 = PD_Role s /\ PD_State r.1 = STA_TX_HRST).
Proof.
  intros Hb Hs Hid Ht r; subst r.
  destruct (deliver_dr_swap buf id s h Hb) as (s2 & Hc & Hi & E1 & E2 & E3 & E4 & -> & -> & -> & _).
  unfold on_dr_swap; rewrite Hc, Hi, E1, Hs, E2; cbn [Z.eqb negb]; rewrite decide_True by done.
  destruct (Z.eqb_spec (DRSwap_Last_MsgID s) id); [done|]; cbn [negb]; unfold bind, delay_ms, emit.
  destruct (evt_fields PD_EVT_DRSWAP_RX s2) as (F1 & F2 & F3 & F4); set (s3 := PD_Evt _ s2) in *.
  assert (Ht3 : length (PD_Tx_Buf s3) = 34%nat) by (rewrite F4, E4; done); clearbody s3.
  destruct (send_spec DEF_TYPE_ACCEPT [] s3 (h ++ [DelayMs 1]) eq_refl ltac:(cbn; lia) Ht3)
    as (k & txb & rxb & ok & -> & _).
  rewrite <- E3, <- F1; destruct ok; [left|right; done].
  split; [done|split; [|done]]; transitivity (PD_State s3); [done|rewrite F2, E1; done].
Qed.
End Scenarios.

(** Unplugging makes the port safe.  Five consecutive detection ticks that
    see the cable gone, and not fewer, followed by the next call of the main
    procedure, drive the output FET off, clear the converter's output-enable bit,
    forget the cached set point so that nothing re-applies it, and return the
    port to its idle, source, host-role state. *)
Theorem detach_drops_the_rail `{P : Phy} cs dt s h :
  Connected s = true -> Stop_Det_Chk s = false -> Det_Cnt s = 0 ->
  length cs = 5%nat -> Forall (fun c => PD_Detect c s = 0) cs ->
  det_run (take 4 cs) s h = (s <| Det_Cnt := 4 |>, []) /\
  let r := (let* s := det_run cs s in PD_Main_Proc dt s) h in
  pin_level PIN_VBUS_OUT_EN (h ++ r.2) = false /\
  has (default 0 (reg_after TPS55289_I2C_ADDR REG_MODE (writes r.2) None)) MODE_OE_BIT = false /\
  Tps_Set r.1 = Tps 0 0 /\ PD_State r.1 = STA_IDLE /\ Connected r.1 = false /\
  PD_Role r.1 = true /\ PR_Role r.1 = true.
Proof.
  intros Hc Hs Hd Hl Hf.
  destruct (@exists_last _ cs) as (l & c & ->); [by destruct cs|].
  rewrite length_app in Hl; cbn in Hl; apply Forall_app in Hf as [Hf4 Hf5].
  inversion_clear Hf5 as [|? ? Hdc _].
  assert (H4 : det_run l s h = (s <| Det_Cnt := 4 |>, []))
    by (replace 4 with (Det_Cnt s + Z.of_nat (length l)) by lia; apply det_run_removed; done || lia).
  rewrite take_app_length' by lia; split; [exact H4|].
  unfold bind; rewrite det_run_app, H4; cbn [det_run]; unfold bind.
  rewrite det_removed_last by done; cbn [fst snd ret app]; unfold ret.
  rewrite main_disconnect by done; cbn [fst snd app].
  rewrite pin_level_app; cbn; done.
Qed.

Definition attached_5v : pds := PD_Init <| Connected := true |> <| Tps_Set := Tps 150 19 |>.
Definition cc_open : cc_in := CcIn true true true true true true.

Lemma detach_drops_the_rail_witness :
  Tps_Set (bind (det_run (replicate 5 cc_open) attached_5v) (@PD_Main_Proc good_phy 1) []).1 = Tps 0 0.
Proof.
  destruct (@detach_drops_the_rail good_phy (replicate 5 cc_open) 1 attached_5v [])
    as [_ (_ & _ & H & _)]; [reflexivity..| |exact H].
  repeat constructor.
Defined.

(** After this firmware has sent a Hard Reset it no longer reacts to a
    detach.  The Hard Reset state sets Stop_Det_Chk and goes idle; from then on,
    whatever the CC lines show and however long it lasts, detection ticks and
    calls of the main procedure without a received message leave the state
    machine idle and write nothing: the converter keeps the last contract and the
    output FET stays as it was, although the cable may be gone. *)
Theorem hard_reset_masks_detach `{P : Phy} dt l s h :
  PD_State s = STA_TX_HRST ->
  let r := (let* s := PD_Main_Proc dt s in ticks l s) h in
  r.2 = [PdTx UPD_HARD_RESET []] /\ PD_State r.1 = STA_IDLE /\ Tps_Set r.1 = Tps_Set s /\
  pin_level PIN_VBUS_OUT_EN (h ++ r.2) = pin_level PIN_VBUS_OUT_EN h.
Proof.
  intros Hs r; subst r; unfold bind; destruct (main_hrst dt s h Hs) as [Hd He].
  destruct (PD_Main_Proc dt s h) as [s1 es]; cbn [fst snd] in *; subst es.
  destruct (deaf_ticks (Tps_Set s) l s1 (h ++ [PdTx UPD_HARD_RESET []]) Hd) as [(H1 & _ & _ & H2) He].
  destruct (ticks l s1 _) as [s2 es2]; cbn [fst snd] in *; subst es2.
  rewrite pin_level_app; done.
Qed.

Definition resetting : pds := attached_5v <| PD_State := STA_TX_HRST |>.

Lemma hard_reset_masks_detach_witness :
  let l := replicate 20 (TickDet cc_open) ++ replicate 20 (TickMain 5) in
  Tps_Set (bind (@PD_Main_Proc good_phy 1 resetting) (@ticks good_phy l) []).1 = Tps 150 19.
Proof.
  intros l; destruct (@hard_reset_masks_detach good_phy 1 l resetting [] eq_refl)
    as (_ & _ & H & _); exact H.
Defined.

(** A data-role swap is performed once.  A DR_Swap arriving in the idle state
    either has its Accept acknowledged and toggles the data role, or is followed
    by a Hard Reset with the role unchanged; and a retransmission of the accepted
    DR_Swap (same MessageID) neither toggles the role again nor sends anything. *)
Theorem dr_swap_exactly_once `{P : Phy} buf id s h h' :
  is_dr_swap buf id -> PD_State s = STA_IDLE -> DRSwap_Last_MsgID s <> id ->
  length (PD_Tx_Buf s) = 34%nat ->
  let s1 := (deliver buf s h).1 in
  (PD_Role s1 = PD_Role s /\ PD_State s1 = STA_TX_HRST) \/
  (PD_Role s1 = negb (PD_Role s) /\
   PD_Role (deliver buf s1 h').1 = PD_Role s1 /\ (deliver buf s1 h').2 = []).
Proof.
  intros Hb Hs Hid Ht s1; subst s1.
  destruct (dr_swap_fresh buf id s h Hb Hs Hid Ht) as [(Hr & Hs1 & Hid1)|?]; [right|auto].
  destruct (dr_swap_duplicate buf id _ h' Hb Hs1 Hid1) as (H1 & _ & H2); done.
Qed.

Lemma dr_swap_exactly_once_witness :
  let buf := [137; 4] in
  PD_Role (@deliver good_phy buf PD_Init []).1 = false.
Proof.
  intros buf; destruct (@dr_swap_exactly_once good_phy buf 2 PD_Init [] []) as [[_ H]|[H _]].
  - repeat split.
  - reflexivity.
  - discriminate.
  - reflexivity.
  - exfalso; vm_compute in H; discriminate.
  - exact H.
Defined.
