(* ===== verification/Ch32xLink.v ===== *)
(** * The USART2 link of the CH32X (firmware-ch32x/User/main.c)

    The transmit side: the byte sender with its bounded wait and self-heal, the
    frame sender, system.log, system.hello and power.event.  Whether a wait for
    the transmitter succeeds is the parameter [Uart], a function of the history. *)

From S2P Require Import Prelude Protocol Deframer Hal.

(** The wait for the transmit-complete flag: [true] when it ends before its
    guard, given everything that happened so far. *)
Class Uart := tc_ready : list eff -> bool.

(** The statics of the link: the consecutive-timeout counter, the DMA read
    index, the sequence number and the two receive counters. *)
(* src: firmware-ch32x/User/main.c:410-416 DMA ring and counters *)
Definition DMA_RX_BUF_SIZE : Z := 256.
Record link := Link {
  Usart2_Tc_Timeouts : Z; Dma_Rx_Tail : Z; Wups_Tx_Seq : Z;
  Uart_Rx_Total : Z; Uart_Ore_Count : Z
}.
Definition link_init : link := Link 0 0 0 0 0.

#[export] Instance eta_link : Eta link := fun s =>
  Link (Usart2_Tc_Timeouts s) (Dma_Rx_Tail s) (Wups_Tx_Seq s) (Uart_Rx_Total s) (Uart_Ore_Count s).

(* src: firmware-ch32x/User/main.c:491-492 USART2_TX_REINIT_AFTER *)
Definition USART2_TX_REINIT_AFTER : Z := 8.

(* src: firmware-ch32x/User/main.c:455-456 FW_VERSION *)
Definition FW_VERSION_STR : list Z := str "ch32x:1.1.1".
Definition FW_VERSION_U16 : Z := Z.lor (Z.shiftl 1 8) 1.

Section Sender.
Context `{U : Uart}.

Definition wait_tc : M bool := fun h => (tc_ready h, []).

(* src: firmware-ch32x/User/main.c:494-522 Usart2_Send_Bytes *)
Fixpoint Usart2_Send_Bytes (buf : list Z) (s : link) : M link :=
  match buf with
  | [] => ret s
  | b :: buf =>
      let* ok := wait_tc in
      if (ok : bool) then
        do* emit (UartTx [b]) in Usart2_Send_Bytes buf (s <| Usart2_Tc_Timeouts := 0 |>)
      else
        let s := s <| Usart2_Tc_Timeouts := u8 (Usart2_Tc_Timeouts s + 1) |> in
        if USART2_TX_REINIT_AFTER <=? Usart2_Tc_Timeouts s then
          do* emit (UartInit 921600) in
          ret (s <| Usart2_Tc_Timeouts := 0 |> <| Dma_Rx_Tail := 0 |>)
        else ret s
  end.

(** Header, payload and trailer go out as three buffers, so a timeout drops
    only the rest of its own buffer. *)
(* src: firmware-ch32x/User/main.c:528-565 wups_send_frame *)
Definition send_frame (dst cls op flags seq : Z) (payload : list Z) (s : link) : M link :=
  let wire := wups_send_frame dst cls op flags seq payload in
  let* s := Usart2_Send_Bytes (take 10 wire) s in
  let* s := Usart2_Send_Bytes (take (length payload) (drop 10 wire)) s in
  Usart2_Send_Bytes (drop (10 + length payload) wire) s.

(** [Wups_Tx_Seq++] as the sequence argument of a send. *)
Definition send_event (dst cls op : Z) (payload : list Z) (s : link) : M link :=
  let seq := Wups_Tx_Seq s in
  send_frame dst cls op WUPS_FLAG_EVENT seq payload (s <| Wups_Tx_Seq := u8 (seq + 1) |>).

(** The text of a log frame stops at a NUL or at [WUPS_MAX_PAYLOAD - 4] bytes. *)
(* src: firmware-ch32x/User/main.c:655-667 wups_send_log *)
Fixpoint log_text (n : nat) (text : list Z) : list Z :=
  match n, text with
  | S n, c :: text => if c =? 0 then [] else c :: log_text n text
  | _, _ => []
  end.
Definition log_payload (level : Z) (text : list Z) : list Z :=
  let text := log_text (Z.to_nat (WUPS_MAX_PAYLOAD - 4)) text in
  [1; level; u8 (Z.of_nat (length text)); 0] ++ text.
Definition wups_send_log (level : Z) (text : list Z) (s : link) : M link :=
  send_event WUPS_ADDR_BROADCAST WUPS_CLASS_SYSTEM WUPS_OP_SYS_LOG (log_payload level text) s.

(* src: firmware-ch32x/User/main.c:774-787 wups_send_hello_bcast *)
Definition hello_payload : list Z :=
  hello_bytes (Hello 1 WUPS_PROTO_VERSION WUPS_ADDR_CH32X 0 FW_VERSION_U16
                 (Z.lor WUPS_CAP_SYSTEM WUPS_CAP_POWER) 0).
Definition wups_send_hello_bcast (s : link) : M link :=
  send_event WUPS_ADDR_BROADCAST WUPS_CLASS_SYSTEM WUPS_OP_SYS_HELLO hello_payload s.

(* src: firmware-ch32x/User/main.c:792-800 wups_send_power_event *)
Definition wups_send_power_event (event : Z) (s : link) : M link :=
  send_event WUPS_ADDR_BROADCAST WUPS_CLASS_POWER WUPS_OP_PWR_EVENT (power_event_bytes event) s.
Fixpoint wups_send_power_events (evs : list Z) (s : link) : M link :=
  match evs with
  | [] => ret s
  | e :: evs => let* s := wups_send_power_event e s in wups_send_power_events evs s
  end.
End Sender.

(** The bytes on the wire among a list of effects. *)
Definition uart_bytes (es : list eff) : list Z :=
  concat (map (fun e => match e with UartTx bs => bs | _ => [] end) es).

(** ** Lemmas *)

#[global] Arguments wups_send_frame : simpl never.

(** What a call of the byte sender does when [k] bytes get through. *)
Definition sent (k : nat) (buf : list Z) (s : link) : link * list eff :=
  let s' := if (k =? 0)%nat then s else s <| Usart2_Tc_Timeouts := 0 |> in
  let out := map (fun b => UartTx [b]) (take k buf) in
  if (k =? length buf)%nat then (s', out)
  else if Usart2_Tc_Timeouts s' + 1 <? USART2_TX_REINIT_AFTER
  then (s' <| Usart2_Tc_Timeouts := Usart2_Tc_Timeouts s' + 1 |>, out)
  else (s' <| Usart2_Tc_Timeouts := 0 |> <| Dma_Rx_Tail := 0 |>, out ++ [UartInit 921600]).

Section SenderLemmas.
Context `{U : Uart}.

Lemma sent_S k b buf s :
  sent (S k) (b :: buf) s =
  let (s', es) := sent k buf (s <| Usart2_Tc_Timeouts := 0 |>) in (s', UartTx [b] :: es).
Proof.
  unfold sent; cbn [length take map]; destruct s, k; cbn; repeat case_match; done.
Qed.

Lemma send_bytes_spec buf s h :
  0 <= Usart2_Tc_Timeouts s < 8 ->
  exists k, (k <= length buf)%nat /\ Usart2_Send_Bytes buf s h = sent k buf s.
Proof.
  revert s h; induction buf as [|b buf IH]; intros s h Hs.
  - exists 0%nat; split; [done|]; destruct s; done.
  - cbn [Usart2_Send_Bytes]; unfold bind, wait_tc; rewrite app_nil_r; destruct (tc_ready h).
    + unfold emit.
      destruct (IH (s <| Usart2_Tc_Timeouts := 0 |>) (h ++ [UartTx [b]])) as (k & Hk & He); [cbn; lia|].
      exists (S k); split; [cbn; lia|]; cbn [app]; rewrite sent_S, He.
      destruct (sent _ _ _); done.
    + exists 0%nat; split; [cbn; lia|]; unfold sent, emit, ret, USART2_TX_REINIT_AFTER; cbn.
      rewrite u8_small by lia.
      destruct (Z.leb_spec 8 (Usart2_Tc_Timeouts s + 1)), (Z.ltb_spec (Usart2_Tc_Timeouts s + 1) 8);
        try lia; destruct s; done.
Qed.

Lemma sent_all buf s : sent (length buf) buf s =
  (if buf is [] then s else s <| Usart2_Tc_Timeouts := 0 |>, map (fun b => UartTx [b]) buf).
Proof.
  unfold sent; rewrite Nat.eqb_refl, firstn_all.
  destruct buf; cbn; done.
Qed.

(** With a healthy transmitter every byte goes out. *)
Lemma send_bytes_healthy buf s h :
  (forall h, tc_ready h = true) -> Usart2_Send_Bytes buf s h = sent (length buf) buf s.
Proof.
  intros HU; revert s h; induction buf as [|b buf IH]; intros s h.
  - rewrite sent_all; done.
  - cbn [Usart2_Send_Bytes length]; unfold bind, wait_tc, emit; rewrite HU, sent_S, IH.
    destruct (sent _ _ _); done.
Qed.

Lemma uart_bytes_app e1 e2 : uart_bytes (e1 ++ e2) = uart_bytes e1 ++ uart_bytes e2.
Proof. unfold uart_bytes; rewrite map_app, concat_app; done. Qed.
Lemma uart_bytes_tx buf : uart_bytes (map (fun b => UartTx [b]) buf) = buf.
Proof. induction buf as [|b buf IH]; [done|]; unfold uart_bytes in *; cbn; f_equal; done. Qed.

Lemma length_wire dst cls op flags seq payload :
  length (wups_send_frame dst cls op flags seq payload) = (15 + length payload)%nat.
Proof.
  unfold wups_send_frame; destruct (fold_left fletcher_step payload _).
  rewrite !length_app; cbn; lia.
Qed.

Lemma send_frame_healthy dst cls op flags seq payload s h :
  (forall h, tc_ready h = true) ->
  send_frame dst cls op flags seq payload s h =
    (s <| Usart2_Tc_Timeouts := 0 |>,
     map (fun b => UartTx [b]) (wups_send_frame dst cls op flags seq payload)).
Proof.
  intros HU; unfold send_frame; pose proof (length_wire dst cls op flags seq payload) as Hl.
  set (w := wups_send_frame _ _ _ _ _ _) in *; clearbody w; unfold bind.
  do 3 (rewrite send_bytes_healthy by done; rewrite sent_all; cbv iota beta).
  assert (Hw : w = take 10 w ++ take (length payload) (drop 10 w) ++ drop (10 + length payload) w).
  { rewrite <- drop_drop, !take_drop; done. }
  destruct (take 10 w) as [|x l1] eqn:H1.
  { apply (f_equal length) in H1; rewrite length_take, Hl in H1; discriminate. }
  destruct (drop (10 + length payload) w) as [|y l3] eqn:H3.
  { apply (f_equal length) in H3; rewrite length_drop, Hl in H3; change (length (@nil Z)) with 0%nat in H3; lia. }
  f_equal; [destruct s, (take (length payload) (drop 10 w)); done|].
  rewrite Hw at 2; rewrite !map_app; done.
Qed.
End SenderLemmas.

(** A sequence of frames sent one after the other. *)
Fixpoint send_frames `{U : Uart} (l : list frame) (s : link) : M link :=
  match l with
  | [] => ret s
  | f :: l =>
      let* s := send_frame (f_dst f) (f_cls f) (f_op f) (f_flags f) (f_seq f) (f_payload f) s in
      send_frames l s
  end.

Section Frames.
Context `{U : Uart} (HU : forall h, tc_ready h = true).

Lemma send_frames_bytes l s h :
  Forall (fun f => f_src f = WUPS_ADDR_CH32X /\ frame_len f <= WUPS_MAX_PAYLOAD) l ->
  uart_bytes (effects (send_frames l s) h) =
  concat (map (fun f => frame_bytes f ++ [WUPS_GUARD_BYTE]) l).
Proof using HU.
  intros Hl; revert s h; induction Hl as [|f l [Hf Hn] _ IH]; intros s h; [done|].
  cbn [send_frames map concat]; rewrite effects_bind, uart_bytes_app, IH.
  unfold effects; rewrite send_frame_healthy by done; cbn [snd].
  rewrite uart_bytes_tx, wups_send_frame_bytes by done; destruct f; cbn in *; subst; done.
Qed.

Lemma guarded_stream l :
  concat (map (fun f => frame_bytes f ++ [WUPS_GUARD_BYTE]) l) =
  match l with
  | [] => []
  | f :: l => concat (map (fun gf : list Z * frame => gf.1 ++ frame_bytes gf.2)
               (([], f) :: map (fun f => ([WUPS_GUARD_BYTE], f)) l)) ++ [WUPS_GUARD_BYTE]
  end.
Proof.
  destruct l as [|f l]; [done|]; cbn [map concat fst snd]; rewrite app_nil_l.
  revert f; induction l as [|f' l IH]; intros f; cbn [map concat fst snd].
  - rewrite !app_nil_r; done.
  - rewrite IH, <- !app_assoc; done.
Qed.
End Frames.

(** Calls of the byte sender one after the other. *)
Fixpoint send_bufs `{U : Uart} (bufs : list (list Z)) (s : link) : M link :=
  match bufs with
  | [] => ret s
  | buf :: bufs => let* s := Usart2_Send_Bytes buf s in send_bufs bufs s
  end.

Section Stuck.
Context `{U : Uart} (HU : forall h, tc_ready h = false).

Lemma send_bytes_stuck b buf s h :
  0 <= Usart2_Tc_Timeouts s < 8 -> Usart2_Send_Bytes (b :: buf) s h = sent 0 (b :: buf) s.
Proof using HU.
  intros Hs; destruct (send_bytes_spec (b :: buf) s h Hs) as (k & _ & He); revert He.
  cbn [Usart2_Send_Bytes]; unfold bind, wait_tc; rewrite HU; intros He.
  destruct k as [|k]; [exact He|exfalso].
  apply (f_equal (fun x => uart_bytes x.2)) in He; rewrite sent_S in He.
  destruct (sent k buf _) as [s' es]; cbn in He; revert He.
  destruct (_ <=? _); intros He; discriminate He.
Qed.

(** [n] calls: one re-initialisation for every eight timeouts. *)
Lemma send_bufs_stuck bufs s h :
  0 <= Usart2_Tc_Timeouts s < 8 -> Forall (fun b => b <> []) bufs ->
  let t := Usart2_Tc_Timeouts s + Z.of_nat (length bufs) in
  send_bufs bufs s h =
    (s <| Usart2_Tc_Timeouts := t mod 8 |>
       <| Dma_Rx_Tail := if t <? 8 then Dma_Rx_Tail s else 0 |>,
     replicate (Z.to_nat (t / 8)) (UartInit 921600)).
Proof using HU.
  intros Hs Hb; revert s h Hs; induction Hb as [|buf bufs Hb _ IH]; intros s h Hs t.
  - subst t; cbn [send_bufs length]; rewrite Z.add_0_r, Z.div_small, Z.mod_small by done.
    destruct (Z.ltb_spec (Usart2_Tc_Timeouts s) 8); [|lia]; destruct s; done.
  - cbn [send_bufs length] in *; destruct buf as [|b buf]; [done|]; unfold bind.
    rewrite send_bytes_stuck by done; unfold sent, USART2_TX_REINIT_AFTER; cbn [length Nat.eqb take map].
    subst t; cbn [Nat.eqb]; rewrite Nat2Z.inj_succ.
    destruct (Z.ltb_spec (Usart2_Tc_Timeouts s + 1) 8) as [Hlt|Hge].
    + rewrite IH by (cbn; lia); cbn [Usart2_Tc_Timeouts Dma_Rx_Tail upd].
      replace (Usart2_Tc_Timeouts s + Z.succ (Z.of_nat (length bufs)))
        with (Usart2_Tc_Timeouts s + 1 + Z.of_nat (length bufs)) by lia.
      destruct s; done.
    + rewrite IH by (cbn; lia); cbn [Usart2_Tc_Timeouts Dma_Rx_Tail upd].
      assert (Usart2_Tc_Timeouts s = 7) as E by lia; rewrite E.
      replace (7 + Z.succ (Z.of_nat (length bufs))) with (Z.of_nat (length bufs) + 1 * 8) by lia.
      rewrite Z_mod_plus_full, Z_div_plus_full by lia; f_equal.
      * destruct (Z.ltb_spec (Z.of_nat (length bufs) + 1 * 8) 8); [lia|].
        rewrite Z.add_0_l; destruct s, (_ <? _); done.
      * rewrite Z2Nat.inj_add by (try apply Z.div_pos; lia).
        rewrite Nat.add_comm; done.
Qed.
End Stuck.

(** ** Properties *)

(** What the controller sends is what a peer receives.  When the transmitter
    keeps up, any sequence of frames is delivered by the protocol's deframer in
    order, each exactly once with the controller's address as source and nothing
    in between. *)
Theorem sent_frames_received `{U : Uart} l s h :
  (forall h, tc_ready h = true) ->
  Forall (fun f => f_src f = WUPS_ADDR_CH32X /\ frame_len f <= WUPS_MAX_PAYLOAD) l ->
  delivered wups_rx_init (uart_bytes (effects (send_frames l s) h)) = l.
Proof.
  intros HU Hl; rewrite send_frames_bytes, guarded_stream by done.
  destruct l as [|f l]; [done|]; rewrite delivered_app_guard, feed_frames; [|done|done|].
  - cbn [map snd]; f_equal; rewrite map_map, map_id; done.
  - inversion_clear Hl as [|? ? [_ Hf] Hl']; constructor; [split; [constructor|done]|].
    apply Forall_fmap; apply (Forall_impl _ _ _ Hl'); intros g [_ Hg]; split; [|done].
    repeat constructor; done.
Qed.

(** A stuck transmitter heals itself.  While no wait succeeds nothing is sent
    and every call of the sender counts one timeout; the USART and its DMA ring
    are re-initialised at every eighth one, the counter never reaches eight, and
    the ring's read index restarts with the ring. *)
Theorem stuck_transmitter_heals `{U : Uart} bufs s h :
  (forall h, tc_ready h = false) -> 0 <= Usart2_Tc_Timeouts s < USART2_TX_REINIT_AFTER ->
  Forall (fun b => b <> []) bufs ->
  let t := Usart2_Tc_Timeouts s + Z.of_nat (length bufs) in
  let r := send_bufs bufs s h in
  r.2 = replicate (Z.to_nat (t / 8)) (UartInit 921600) /\
  Usart2_Tc_Timeouts r.1 = t mod 8 /\
  (8 <= t -> Dma_Rx_Tail r.1 = 0).
Proof.
  intros HU Hs Hb t r; subst r; rewrite send_bufs_stuck by done; split_and!; try done.
  intros Ht; cbn; destruct (Z.ltb_spec t 8) as [Hlt|]; [|subst t; case_match; to_prop; [lia|done]].
  lia.
Qed.

Lemma sent_frames_received_witness :
  let U : Uart := fun _ => true in
  delivered wups_rx_init (uart_bytes (effects (send_frames
    [Frame 255 3 1 2 4 9 hello_payload; Frame 255 3 2 16 4 10 [1; 5]] link_init) [])) =
  [Frame 255 3 1 2 4 9 hello_payload; Frame 255 3 2 16 4 10 [1; 5]].
Proof.
  intros U; apply (sent_frames_received (U := U)); [done|].
  repeat constructor; vm_compute; discriminate.
Defined.

Lemma stuck_transmitter_heals_witness :
  let U : Uart := fun _ => false in
  let r := send_bufs (replicate 9 [1; 2]) (link_init <| Dma_Rx_Tail := 77 |>) [] in
  r.2 = [UartInit 921600] /\ Dma_Rx_Tail r.1 = 0.
Proof.
  intros U r.
  destruct (stuck_transmitter_heals (U := U) (replicate 9 [1; 2]) (link_init <| Dma_Rx_Tail := 77 |>) [])
    as (H1 & _ & H3); [done|split; reflexivity|repeat constructor; discriminate|].
  split; [exact H1|apply H3; discriminate].
Defined.
