(* ===== verification/Ch32xTelemetry.v ===== *)
(** * Timekeeping, ADC ownership and telemetry of the CH32X
    (firmware-ch32x/User/main.c)

    The 1 kHz timer interrupt with its ADC round-robin and mains switch, the
    power.status frame, and the power.event edge detector. *)

From S2P Require Import Prelude Protocol Hal Charger Tps InputPd PdSource.

(** ** The timer interrupt *)

(* src: firmware-ch32x/User/main.c:85-98 ISR state *)
Record isr := Isr {
  Tim_Ms_Cnt : Z; Led_Cnt : Z; Uptime_Sec : Z; Ms_Sub_Cnt : Z; Adc_RR_Cnt : Z;
  DC_Inp_ADC_Val : Z; Vbat_ADC_Val : Z; Vbus_Out_ADC_Val : Z
}.
Definition isr_init : isr := Isr 0 0 0 0 0 0 0 0.
Definition ADC_VAL_INVALID : Z := 65535.

#[export] Instance eta_isr : Eta isr := fun s =>
  Isr (Tim_Ms_Cnt s) (Led_Cnt s) (Uptime_Sec s) (Ms_Sub_Cnt s) (Adc_RR_Cnt s)
    (DC_Inp_ADC_Val s) (Vbat_ADC_Val s) (Vbus_Out_ADC_Val s).

(** [eoc] is what the end-of-conversion flag shows at each poll, [val] the data
    register. *)
(* src: firmware-ch32x/User/main.c:1714-1740 Get_ADC_Val *)
Fixpoint adc_wait (guard : nat) (eoc : list bool) : bool :=
  match guard with
  | O => false
  | S guard => match eoc with true :: _ => true | _ :: eoc => adc_wait guard eoc | [] => false end
  end.
Definition Get_ADC_Val (eoc : list bool) (val : Z) : Z :=
  if adc_wait 200 eoc then val else ADC_VAL_INVALID.

(** The channel this tick converts. *)
(* src: firmware-ch32x/User/main.c:1612-1624 TIM1_UP_IRQHandler (round-robin) *)
Definition adc_channel (cnt : Z) : Z :=
  if Z.land cnt 511 =? 1 then 5 else if Z.land cnt 511 =? 257 then 0 else 1.
Definition adc_store (adc_new : Z) (s : isr) : isr :=
  if adc_new =? ADC_VAL_INVALID then s
  else if adc_channel (Adc_RR_Cnt s) =? 5 then s <| Vbat_ADC_Val := adc_new |>
  else if adc_channel (Adc_RR_Cnt s) =? 0 then s <| Vbus_Out_ADC_Val := adc_new |>
  else s <| DC_Inp_ADC_Val := adc_new |>.

(* src: firmware-ch32x/User/main.c:1594-1610 TIM1_UP_IRQHandler (counters) *)
Definition tim1_count (s : isr) : isr :=
  let s := s <| Tim_Ms_Cnt := u8 (Tim_Ms_Cnt s + 1) |> <| Ms_Sub_Cnt := u16 (Ms_Sub_Cnt s + 1) |> in
  let s := if 1000 <=? Ms_Sub_Cnt s
           then s <| Ms_Sub_Cnt := 0 |> <| Uptime_Sec := u32 (Uptime_Sec s + 1) |> else s in
  s <| Led_Cnt := u8 (Led_Cnt s + 1) |> <| Adc_RR_Cnt := u16 (Adc_RR_Cnt s + 1) |>.

(** [adc] is what the conversion of a channel returns at this tick. *)
(* src: firmware-ch32x/User/main.c:1592-1660 TIM1_UP_IRQHandler *)
Definition TIM1_UP_IRQHandler (adc : Z -> Z) (s : isr) : M isr :=
  let s := tim1_count s in
  let s := adc_store (adc (adc_channel (Adc_RR_Cnt s))) s in
  let ADC_val := DC_Inp_ADC_Val s in
  if 1939 <=? ADC_val then
    do* pin_set PIN_LED (has (Led_Cnt s) 64) in
    do* pin_set PIN_DC_INP_EN true in ret s
  else if ADC_val <=? 1745 then
    do* pin_set PIN_DC_INP_EN false in
    do* pin_set PIN_LED (has (Led_Cnt s) 128) in ret s
  else ret s.

(** Ticks [1..n], the conversions of tick [i] being [adc i]. *)
Fixpoint ticks (adc : nat -> Z -> Z) (n : nat) : M isr :=
  match n with
  | O => ret isr_init
  | S n' => let* s := ticks adc n' in TIM1_UP_IRQHandler (adc n) s
  end.

(** ** Telemetry *)

(* src: firmware-ch32x/User/main.c:88-126 telemetry statics *)
Record tele := Tele {
  DC_Inp_Voltage_mV : Z; Vbat_Voltage_mV : Z; Vbus_Out_Voltage_mV : Z;
  Board_Temp_c10 : Z; Chg_Data : mp2762a_data_t; Husb_Data : husb238_data_t;
  Husb_Caps : husb238_src_caps_t; Husb_Pd_Optimized : bool; Husb_Pick_Sel : Z;
  Diag_Toggle : bool; Tps_Status_Latched : Z
}.
Definition tele_init : tele :=
  Tele 0 0 0 0 (Mp2762aData CHG_STATE_NOT_CHARGING 0 0 0 0 0 0 0 0) (HusbData 0 0 0 0 0 0)
    (HusbCaps 0 []) false 0 false 0.

#[export] Instance eta_tele : Eta tele := fun t =>
  Tele (DC_Inp_Voltage_mV t) (Vbat_Voltage_mV t) (Vbus_Out_Voltage_mV t) (Board_Temp_c10 t)
    (Chg_Data t) (Husb_Data t) (Husb_Caps t) (Husb_Pd_Optimized t) (Husb_Pick_Sel t)
    (Diag_Toggle t) (Tps_Status_Latched t).

(** The three rail voltages from the cached ADC counts. *)
(* src: firmware-ch32x/User/main.c:1559-1575 main (ADC scaling) *)
Definition adc_scale (s : isr) (t : tele) : tele :=
  t <| DC_Inp_Voltage_mV := u16 (u32 (DC_Inp_ADC_Val s * 21029) / 4096) |>
    <| Vbat_Voltage_mV := u16 (u32 (Vbat_ADC_Val s * 10322) / 4096) |>
    <| Vbus_Out_Voltage_mV := u16 (u32 (Vbus_Out_ADC_Val s * 21029) / 4096) |>.

(* src: firmware-ch32x/User/main.c:570-579 pd_out_contract *)
Definition pd_out_contract (idx : Z) : Z * Z :=
  match idx with
  | 1 => (5000, 5000) | 2 => (9000, 3000) | 3 => (12000, 2250) | 4 => (15000, 1800) | _ => (0, 0)
  end.

(* src: firmware-ch32x/User/tps55289.h:38-40 STATUS bits *)
Definition STATUS_SCP_BIT : Z := 128.
Definition STATUS_OCP_BIT : Z := 64.
Definition STATUS_OVP_BIT : Z := 32.

(** The fault bitmap of power.status and of the edge detector. *)
(* src: firmware-ch32x/User/main.c:629-636 wups_send_power_status (faults) *)
Definition fault_bits (t : tele) : Z :=
  let tps_flags := if has (Tps_Status_Latched t) STATUS_SCP_BIT then 256 else 0 in
  let tps_flags := if has (Tps_Status_Latched t) STATUS_OCP_BIT then Z.lor tps_flags 512 else tps_flags in
  let tps_flags := if has (Tps_Status_Latched t) STATUS_OVP_BIT then Z.lor tps_flags 1024 else tps_flags in
  u16 (Z.lor (fault (Chg_Data t)) tps_flags).

(* src: firmware-ch32x/User/main.c:584-640 wups_send_power_status *)
Definition power_status (pa6 pa7 : bool) (uptime : Z) (b : bat) (s : pds) (t : tele)
  : wups_power_status_v2_t :=
  let flags := if pa6 then WUPS_PWR2_FLAG_DC_IN_EN else 0 in
  let flags := if pa7 then Z.lor flags WUPS_PWR2_FLAG_VBUS_OUT_EN else flags in
  let flags := if negb (mp2762a_is_battery_present b =? 0)
               then Z.lor flags WUPS_PWR2_FLAG_BATT_PRESENT else flags in
  let flags := if negb (power_good (Chg_Data t) =? 0)
               then Z.lor flags WUPS_PWR2_FLAG_POWER_GOOD else flags in
  let flags := if negb (attached (Husb_Data t) =? 0)
               then Z.lor flags WUPS_PWR2_FLAG_USB_C_ATTACH else flags in
  let (pd_out_mV, pd_out_mA) := pd_out_contract (ReqPDO_Idx s) in
  StatusV2 2 flags (chg_state_code (chg_state (Chg_Data t))) 0
    (DC_Inp_Voltage_mV t) (voltage_mV (Husb_Data t)) (current_mA (Husb_Data t))
    (Vbus_Out_Voltage_mV t)
    (u16 (tps55289_get_voltage_set_v10 (Tps_Set s) * 100))
    (u16 (Tps_Vread_v10 s * 100)) (u16 (Tps_Iread_a10 s * 100))
    pd_out_mV pd_out_mA
    (Vbat_Voltage_mV t) (s16 (ichg_ma (Chg_Data t)))
    (u16 (vsys_mv (Chg_Data t))) (u16 (iin_ma (Chg_Data t)))
    (Board_Temp_c10 t) (tjunc_c10 (Chg_Data t))
    (fault_bits t) uptime.

(** ** The power.event edge detector *)

(* src: firmware-ch32x/User/main.c:816-820 PWR_EVT *)
Definition PWR_EVT_MAINS_ON_MV : Z := 5500.
Definition PWR_EVT_MAINS_OFF_MV : Z := 4500.
Definition PWR_EVT_VBAT_LOW_MV : Z := 6900.
Definition PWR_EVT_VBAT_REARM_MV : Z := 7300.
Definition PWR_EVT_FAULT_HOLD_S : Z := 30.

(* src: firmware-ch32x/User/main.c:824-829 wups_power_event_tick (statics) *)
Record evt := Evt {
  Evt_Primed : bool; Evt_Mains : bool; Evt_Prev_Faults : Z; Evt_Prev_Cs : Z;
  Evt_Batt_Low : bool; Evt_Last_Fault_S : Z
}.
Definition evt_init : evt := Evt false false 0 0 false 0.

#[export] Instance eta_evt : Eta evt := fun e =>
  Evt (Evt_Primed e) (Evt_Mains e) (Evt_Prev_Faults e) (Evt_Prev_Cs e) (Evt_Batt_Low e)
    (Evt_Last_Fault_S e).

(** What one tick samples. *)
Record sample := Sample { sm_dc : Z; sm_vbat : Z; sm_faults : Z; sm_cs : Z; sm_uptime : Z }.

(* src: firmware-ch32x/User/main.c:831-833 wups_power_event_tick (mains) *)
Definition mains_now (e : evt) (i : sample) : bool :=
  if Evt_Mains e then PWR_EVT_MAINS_OFF_MV <? sm_dc i else PWR_EVT_MAINS_ON_MV <? sm_dc i.

(* src: firmware-ch32x/User/main.c:854-860 wups_power_event_tick (mains edge) *)
Definition tick_mains (mains : bool) (e : evt) : evt * list Z :=
  if eqb mains (Evt_Mains e) then (e, [])
  else
    let e := e <| Evt_Mains := mains |> in
    (if mains then e <| Evt_Batt_Low := false |> else e,
     [if mains then WUPS_PWR_EVT_MAINS_RESTORED else WUPS_PWR_EVT_MAINS_LOST]).

(* src: firmware-ch32x/User/main.c:862-872 wups_power_event_tick (fault) *)
Definition tick_fault (i : sample) (e : evt) : evt * list Z :=
  let fire := negb (u16 (Z.land (sm_faults i) (u16 (Z.lnot (Evt_Prev_Faults e)))) =? 0) &&
              (PWR_EVT_FAULT_HOLD_S <=? u32 (sm_uptime i - Evt_Last_Fault_S e)) in
  let e' := if fire then e <| Evt_Last_Fault_S := sm_uptime i |> else e in
  (e' <| Evt_Prev_Faults := sm_faults i |>, if fire then [WUPS_PWR_EVT_FAULT] else []).

(* src: firmware-ch32x/User/main.c:874-880 wups_power_event_tick (charge full) *)
Definition tick_full (mains : bool) (i : sample) (e : evt) : evt * list Z :=
  (e <| Evt_Prev_Cs := sm_cs i |>,
   if mains && (sm_cs i =? 3) && negb (Evt_Prev_Cs e =? 3) then [WUPS_PWR_EVT_CHARGE_FULL] else []).

(* src: firmware-ch32x/User/main.c:882-893 wups_power_event_tick (charge low) *)
Definition tick_low (mains : bool) (i : sample) (e : evt) : evt * list Z :=
  if negb mains && negb (Evt_Batt_Low e) && (sm_vbat i <? PWR_EVT_VBAT_LOW_MV) && (1000 <? sm_vbat i)
  then (e <| Evt_Batt_Low := true |>, [WUPS_PWR_EVT_CHARGE_LOW])
  else if Evt_Batt_Low e && (PWR_EVT_VBAT_REARM_MV <? sm_vbat i)
  then (e <| Evt_Batt_Low := false |>, [])
  else (e, []).

(** The events sent by one tick, in order. *)
(* src: firmware-ch32x/User/main.c:822-894 wups_power_event_tick *)
Definition wups_power_event_tick (e : evt) (i : sample) : evt * list Z :=
  let mains := mains_now e i in
  if negb (Evt_Primed e) then
    (e <| Evt_Primed := true |> <| Evt_Mains := mains |> <| Evt_Prev_Faults := sm_faults i |>
       <| Evt_Prev_Cs := sm_cs i |>, [])
  else
    let '(e, o1) := tick_mains mains e in
    let '(e, o2) := tick_fault i e in
    let '(e, o3) := tick_full mains i e in
    let '(e, o4) := tick_low mains i e in
    (e, o1 ++ o2 ++ o3 ++ o4).

(** What the 1 Hz block hands to the detector. *)
Definition sample_of (t : tele) (uptime : Z) : sample :=
  Sample (DC_Inp_Voltage_mV t) (Vbat_Voltage_mV t) (fault_bits t)
    (chg_state_code (chg_state (Chg_Data t))) uptime.

(** ** Lemmas on the timer interrupt *)

(** The newest tick at or before [n] that is [r] modulo 512. *)
Definition last_tick (r n : Z) : Z := 512 * ((n - r) / 512) + r.

(** A cached value is the conversion of tick [i] unless that one failed. *)
Definition cached (v old : Z) (adc : nat -> Z -> Z) (i ch : Z) : Prop :=
  v = if adc (Z.to_nat i) ch =? ADC_VAL_INVALID then old else adc (Z.to_nat i) ch.

Section Ticks.
Context (adc : nat -> Z -> Z).

Definition isr_at (n : nat) : isr := result (ticks adc n) [].
Definition trace_at (n : nat) : list eff := effects (ticks adc n) [].

Lemma tim1_result a s h :
  result (TIM1_UP_IRQHandler a s) h =
  adc_store (a (adc_channel (Adc_RR_Cnt (tim1_count s)))) (tim1_count s).
Proof. unfold TIM1_UP_IRQHandler; cbv zeta; repeat case_match; done. Qed.

Lemma isr_at_S n :
  isr_at (S n) = adc_store (adc (S n) (adc_channel (Adc_RR_Cnt (tim1_count (isr_at n)))))
                   (tim1_count (isr_at n)).
Proof. unfold isr_at at 1; cbn [ticks]; rewrite result_bind, tim1_result; done. Qed.

Lemma adc_store_counts v s :
  Tim_Ms_Cnt (adc_store v s) = Tim_Ms_Cnt s /\ Uptime_Sec (adc_store v s) = Uptime_Sec s /\
  Ms_Sub_Cnt (adc_store v s) = Ms_Sub_Cnt s /\ Adc_RR_Cnt (adc_store v s) = Adc_RR_Cnt s.
Proof. unfold adc_store; repeat case_match; done. Qed.

Lemma tim1_count_adc s :
  DC_Inp_ADC_Val (tim1_count s) = DC_Inp_ADC_Val s /\
  Vbat_ADC_Val (tim1_count s) = Vbat_ADC_Val s /\
  Vbus_Out_ADC_Val (tim1_count s) = Vbus_Out_ADC_Val s.
Proof. unfold tim1_count; repeat case_match; done. Qed.

Lemma isr_counts (n : nat) :
  Z.of_nat n < 4294967296000 ->
  Tim_Ms_Cnt (isr_at n) = u8 (Z.of_nat n) /\ Adc_RR_Cnt (isr_at n) = u16 (Z.of_nat n) /\
  Uptime_Sec (isr_at n) = Z.of_nat n / 1000 /\ Ms_Sub_Cnt (isr_at n) = Z.of_nat n mod 1000.
Proof.
  induction n as [|n IH]; intros Hn; [done|]; destruct (IH ltac:(lia)) as (H1 & H2 & H3 & H4).
  rewrite isr_at_S; match goal with |- context [adc_store ?v ?s] =>
    destruct (adc_store_counts v s) as (-> & -> & -> & ->) end.
  pose proof (Z.div_mod (Z.of_nat n) 1000 ltac:(lia)) as Hd.
  pose proof (Z.mod_pos_bound (Z.of_nat n) 1000 ltac:(lia)) as Hm.
  rewrite Nat2Z.inj_succ, <- Z.add_1_r; unfold tim1_count; cbn [Ms_Sub_Cnt upd].
  rewrite H4, (u16_small (Z.of_nat n mod 1000 + 1)) by lia.
  destruct (Z.leb_spec 1000 (Z.of_nat n mod 1000 + 1)); cbn; rewrite H1, H2, H3, ?H4, u8_add_l.
  all: split_and!; [done| |..].
  1, 4: unfold u16; apply Zplus_mod_idemp_l.
  - rewrite u32_small; [apply Z.div_unique with 0; lia|].
    assert (0 <= Z.of_nat n / 1000) by (apply Z.div_pos; lia).
    assert (Z.of_nat n / 1000 < 4294967296 - 1) by (apply Z.div_lt_upper_bound; lia); lia.
  - apply Z.mod_unique with (Z.of_nat n / 1000 + 1); lia.
  - apply Z.div_unique with (Z.of_nat n mod 1000 + 1); lia.
  - apply Z.mod_unique with (Z.of_nat n / 1000); lia.
Qed.

(** The round-robin counter modulo 512, whatever the uptime. *)
Lemma isr_rr (n : nat) : Z.land (Adc_RR_Cnt (isr_at n)) 511 = Z.of_nat n mod 512.
Proof.
  change 511 with (Z.ones 9); rewrite Z.land_ones by lia; change (2 ^ 9) with 512.
  induction n as [|n IH]; [done|]; rewrite isr_at_S.
  match goal with |- context [adc_store ?v ?s] =>
    destruct (adc_store_counts v s) as (_ & _ & _ & ->) end.
  unfold tim1_count; repeat case_match; cbn; unfold u16;
    rewrite Z.mod_mod_divide by (exists 128; lia);
    rewrite Zplus_mod, IH, <- Zplus_mod; f_equal; lia.
Qed.

Lemma isr_channel (n : nat) :
  adc_channel (Adc_RR_Cnt (tim1_count (isr_at n))) =
  if Z.of_nat (S n) mod 512 =? 1 then 5 else if Z.of_nat (S n) mod 512 =? 257 then 0 else 1.
Proof.
  pose proof (isr_rr (S n)) as H; rewrite isr_at_S in H.
  match goal with H : context [adc_store ?v ?s] |- _ =>
    destruct (adc_store_counts v s) as (_ & _ & _ & Hc); rewrite Hc in H end.
  unfold adc_channel; rewrite H; done.
Qed.

Lemma last_tick_step r n :
  0 <= r < 512 ->
  last_tick r (n + 1) = if (n + 1) mod 512 =? r then n + 1 else last_tick r n.
Proof.
  intros Hr; unfold last_tick; pose proof (Z.div_mod (n + 1) 512 ltac:(lia)) as Hd.
  pose proof (Z.mod_pos_bound (n + 1) 512 ltac:(lia)) as Hm.
  destruct (Z.eqb_spec ((n + 1) mod 512) r) as [E|E].
  - assert ((n + 1 - r) / 512 = (n + 1) / 512) as -> by (symmetry; apply Z.div_unique with 0; lia); lia.
  - set (q := (n - r) / 512); pose proof (Z.div_mod (n - r) 512 ltac:(lia)) as Hq.
    pose proof (Z.mod_pos_bound (n - r) 512 ltac:(lia)) as Hqm; fold q in Hq.
    assert ((n + 1 - r) / 512 = q) as ->; [|done].
    symmetry; apply Z.div_unique with ((n - r) mod 512 + 1); [|lia].
    destruct (decide ((n - r) mod 512 = 511)) as [E'|]; [|lia].
    exfalso; apply E; symmetry; apply Z.mod_unique with (q + 1); lia.
Qed.

(** One tick writes at most the cache of the channel it converts. *)
Lemma isr_adc_S (n : nat) :
  let m := Z.of_nat (S n) mod 512 in
  let conv ch old := if adc (S n) ch =? ADC_VAL_INVALID then old else adc (S n) ch in
  Vbat_ADC_Val (isr_at (S n)) =
    (if m =? 1 then conv 5 (Vbat_ADC_Val (isr_at n)) else Vbat_ADC_Val (isr_at n)) /\
  Vbus_Out_ADC_Val (isr_at (S n)) =
    (if m =? 257 then conv 0 (Vbus_Out_ADC_Val (isr_at n)) else Vbus_Out_ADC_Val (isr_at n)) /\
  DC_Inp_ADC_Val (isr_at (S n)) =
    (if (m =? 1) || (m =? 257) then DC_Inp_ADC_Val (isr_at n)
     else conv 1 (DC_Inp_ADC_Val (isr_at n))).
Proof.
  intros m conv; rewrite isr_at_S; pose proof (isr_channel n) as Hc; fold m in Hc.
  destruct (tim1_count_adc (isr_at n)) as (<- & <- & <-).
  set (s := tim1_count (isr_at n)) in *; unfold adc_store; rewrite Hc; unfold conv; clearbody m.
  clearbody s; destruct (Z.eqb_spec m 1), (Z.eqb_spec m 257); try lia; cbn;
    repeat case_match; done.
Qed.

Lemma cached_step (val : isr -> Z) r ch (n : nat) :
  0 <= r < 512 ->
  (forall n, val (isr_at (S n)) =
     if Z.of_nat (S n) mod 512 =? r
     then (if adc (S n) ch =? ADC_VAL_INVALID then val (isr_at n) else adc (S n) ch)
     else val (isr_at n)) ->
  r <= Z.of_nat n -> 0 < last_tick r (Z.of_nat n) ->
  cached (val (isr_at n)) (val (isr_at (Z.to_nat (last_tick r (Z.of_nat n) - 1)))) adc
    (last_tick r (Z.of_nat n)) ch.
Proof.
  intros Hr Hval; unfold cached; induction n as [|n IH]; intros Hn Hpos.
  { unfold last_tick in Hpos; replace r with 0 in Hpos by lia; vm_compute in Hpos; done. }
  rewrite Hval; rewrite Nat2Z.inj_succ, <- Z.add_1_r in *; rewrite last_tick_step in * by done.
  destruct (Z.eqb_spec ((Z.of_nat n + 1) mod 512) r) as [E|E].
  - replace (Z.to_nat (Z.of_nat n + 1)) with (S n) by lia.
    replace (Z.to_nat (Z.of_nat n + 1 - 1)) with n by lia; done.
  - apply IH; [|done].
    destruct (decide (r = Z.of_nat n + 1)) as [->|]; [|lia].
    exfalso; apply E, Z.mod_small; lia.
Qed.

Lemma last_tick_range r n : r <= n -> 0 <= n - last_tick r n < 512 /\ r <= last_tick r n.
Proof.
  intros; unfold last_tick; pose proof (Z.div_mod (n - r) 512 ltac:(lia)).
  pose proof (Z.mod_pos_bound (n - r) 512 ltac:(lia)); pose proof (Z.div_pos (n - r) 512); lia.
Qed.

(** *** The mains switch *)

Definition mains_path (n : nat) : bool := pin_level PIN_DC_INP_EN (trace_at n).

Lemma mains_path_S n :
  mains_path (S n) =
    if 1939 <=? DC_Inp_ADC_Val (isr_at (S n)) then true
    else if DC_Inp_ADC_Val (isr_at (S n)) <=? 1745 then false else mains_path n.
Proof.
  unfold mains_path, trace_at at 1; cbn [ticks]; rewrite effects_bind, pin_level_app.
  change (effects (ticks adc n) []) with (trace_at n); rewrite isr_at_S.
  change (result (ticks adc n) []) with (isr_at n); cbn [app].
  unfold TIM1_UP_IRQHandler; cbv zeta; set (s := adc_store _ _); clearbody s.
  repeat case_match; done.
Qed.
End Ticks.

(** ** Lemmas on the edge detector *)

Definition fault_fires (e : evt) (i : sample) : bool :=
  negb (u16 (Z.land (sm_faults i) (u16 (Z.lnot (Evt_Prev_Faults e)))) =? 0) &&
  (PWR_EVT_FAULT_HOLD_S <=? u32 (sm_uptime i - Evt_Last_Fault_S e)).
Definition mains_edge (e : evt) (i : sample) : bool := negb (eqb (mains_now e i) (Evt_Mains e)).
(** The low latch after the mains part of a tick. *)
Definition low_latch (e : evt) (i : sample) : bool :=
  if mains_edge e i && mains_now e i then false else Evt_Batt_Low e.
Definition low_fires (e : evt) (i : sample) : bool :=
  negb (mains_now e i) && negb (low_latch e i) && (sm_vbat i <? PWR_EVT_VBAT_LOW_MV) && (1000 <? sm_vbat i).
Definition full_fires (e : evt) (i : sample) : bool :=
  mains_now e i && (sm_cs i =? 3) && negb (Evt_Prev_Cs e =? 3).

Definition mains_event (b : bool) : Z :=
  if b then WUPS_PWR_EVT_MAINS_RESTORED else WUPS_PWR_EVT_MAINS_LOST.

Section Detector.
Implicit Types (e : evt) (i : sample).

(** A tick in closed form. *)
Lemma tick_eq e i :
  Evt_Primed e = true ->
  wups_power_event_tick e i =
    (Evt true (mains_now e i) (sm_faults i) (sm_cs i)
       (if low_fires e i then true
        else low_latch e i && negb (PWR_EVT_VBAT_REARM_MV <? sm_vbat i))
       (if fault_fires e i then sm_uptime i else Evt_Last_Fault_S e),
     (if mains_edge e i then [mains_event (mains_now e i)] else []) ++
     (if fault_fires e i then [WUPS_PWR_EVT_FAULT] else []) ++
     (if full_fires e i then [WUPS_PWR_EVT_CHARGE_FULL] else []) ++
     (if low_fires e i then [WUPS_PWR_EVT_CHARGE_LOW] else [])).
Proof.
  intros Hp; unfold wups_power_event_tick; rewrite Hp; cbn [negb].
  unfold low_fires, low_latch, mains_edge, full_fires, fault_fires.
  set (m := mains_now e i); clearbody m; destruct e as [pr mn pf pc bl lf]; cbn in Hp; subst.
  unfold tick_mains, tick_fault, tick_full, tick_low, mains_event; cbn [Evt_Mains Evt_Prev_Faults
    Evt_Prev_Cs Evt_Batt_Low Evt_Last_Fault_S].
  destruct m, mn, bl; cbn -[u16 u32 Z.land Z.lnot];
    destruct (_ && (PWR_EVT_FAULT_HOLD_S <=? _)); cbn -[u16 u32 Z.land Z.lnot];
    destruct (sm_vbat i <? PWR_EVT_VBAT_LOW_MV), (1000 <? sm_vbat i),
      (PWR_EVT_VBAT_REARM_MV <? sm_vbat i); reflexivity.
Qed.

Lemma tick_primed e i : Evt_Primed (wups_power_event_tick e i).1 = true.
Proof.
  destruct (Evt_Primed e) eqn:Hp; [rewrite tick_eq by done; done|].
  unfold wups_power_event_tick; rewrite Hp; done.
Qed.

Definition is_mains_event (z : Z) : Prop :=
  z = WUPS_PWR_EVT_MAINS_LOST \/ z = WUPS_PWR_EVT_MAINS_RESTORED.
#[global] Instance is_mains_event_dec z : Decision (is_mains_event z).
Proof. unfold is_mains_event; apply _. Defined.

Lemma filter_out e i :
  Evt_Primed e = true ->
  filter is_mains_event (wups_power_event_tick e i).2 =
    if mains_edge e i then [mains_event (mains_now e i)] else [].
Proof.
  intros Hp; rewrite tick_eq by done; cbn [snd].
  destruct (mains_edge e i), (fault_fires e i), (full_fires e i), (low_fires e i), (mains_now e i);
    reflexivity.
Qed.

Lemma out_fault e i :
  Evt_Primed e = true ->
  WUPS_PWR_EVT_FAULT ∈ (wups_power_event_tick e i).2 <-> fault_fires e i = true.
Proof.
  intros Hp; rewrite tick_eq by done; cbn [snd]; unfold mains_event.
  destruct (mains_edge e i), (fault_fires e i), (full_fires e i), (low_fires e i), (mains_now e i);
    cbn; rewrite ?elem_of_cons, ?elem_of_nil; intuition discriminate.
Qed.

Lemma out_low e i :
  Evt_Primed e = true ->
  WUPS_PWR_EVT_CHARGE_LOW ∈ (wups_power_event_tick e i).2 <-> low_fires e i = true.
Proof.
  intros Hp; rewrite tick_eq by done; cbn [snd]; unfold mains_event.
  destruct (mains_edge e i), (fault_fires e i), (full_fires e i), (low_fires e i), (mains_now e i);
    cbn; rewrite ?elem_of_cons, ?elem_of_nil; intuition discriminate.
Qed.
End Detector.

(** Alternating mains events, the first one announcing [b]. *)
Fixpoint alternating (b : bool) (k : nat) : list Z :=
  match k with O => [] | S k => mains_event b :: alternating (negb b) k end.

Definition events (e : evt) (l : list sample) : list (list Z) := (run wups_power_event_tick e l).2.

Section DetectorRuns.
Implicit Types (e : evt) (i : sample) (l : list sample).

Lemma events_cons e i l :
  events e (i :: l) = (wups_power_event_tick e i).2 :: events (wups_power_event_tick e i).1 l.
Proof.
  unfold events; cbn; destruct (wups_power_event_tick e i); cbn.
  destruct (run wups_power_event_tick e0 l); done.
Qed.

Lemma mains_run e l :
  Evt_Primed e = true ->
  exists k, filter is_mains_event (concat (events e l)) = alternating (negb (Evt_Mains e)) k.
Proof.
  revert e; induction l as [|i l IH]; intros e Hp; [exists 0%nat; done|].
  rewrite events_cons; cbn [concat]; rewrite filter_app, filter_out by done.
  destruct (IH (wups_power_event_tick e i).1) as [k Hk]; [apply tick_primed|].
  rewrite Hk; rewrite tick_eq by done; cbn [fst Evt_Mains]; unfold mains_edge.
  destruct (mains_now e i) eqn:Em, (Evt_Mains e); cbn; [exists k|exists (S k)|exists (S k)|exists k]; done.
Qed.

(** Position [j] of a run: the state there, and the output of that tick. *)
Lemma events_lookup e l j o :
  events e l !! j = Some o ->
  exists i, l !! j = Some i /\
    o = (wups_power_event_tick (run wups_power_event_tick e (take j l)).1 i).2.
Proof.
  revert e j; induction l as [|i l IH]; intros e [|j] Ho; try done; rewrite events_cons in Ho.
  - injection Ho as <-; exists i; done.
  - destruct (IH _ _ Ho) as (x & Hx & ->); exists x; split; [done|]; cbn [take run].
    destruct (wups_power_event_tick e i) as [e1 o1]; cbn [fst].
    destruct (run wups_power_event_tick e1 (take j l)); done.
Qed.

Lemma run_primed e l : Evt_Primed e = true -> Evt_Primed (run wups_power_event_tick e l).1 = true.
Proof. intros He; apply run_invariant; [intros; apply tick_primed|done]. Qed.

(** Uptimes that never go back, starting at [t]. *)
Fixpoint ascending (t : Z) l : Prop :=
  match l with
  | [] => True
  | i :: l => t <= sm_uptime i /\ is_u32 (sm_uptime i) /\ ascending (sm_uptime i) l
  end.

Lemma ascending_le t t' l : t' <= t -> ascending t l -> ascending t' l.
Proof. destruct l; cbn; [done|]; intros ? (? & ? & ?); split_and!; done || lia. Qed.

(** No fault is reported within the hold of the last one. *)
Lemma fault_hold e l j o t :
  Evt_Primed e = true -> Evt_Last_Fault_S e = t -> 0 <= t -> ascending t l ->
  events e l !! j = Some o -> WUPS_PWR_EVT_FAULT ∈ o ->
  exists i, l !! j = Some i /\ t + PWR_EVT_FAULT_HOLD_S <= sm_uptime i.
Proof.
  intros Hp Ht H0 Hl Ho Hin; revert e t j Hp Ht H0 Hl Ho.
  induction l as [|i l IH]; intros e t j Hp Ht H0 Hl Ho; [done|].
  rewrite events_cons in Ho; destruct Hl as (Hti & Hi & Hl).
  assert (Hf : fault_fires e i = true -> t + PWR_EVT_FAULT_HOLD_S <= sm_uptime i).
  { unfold fault_fires; intros Hf; to_prop; subst; rewrite u32_small in * by lia; lia. }
  destruct j as [|j].
  - injection Ho as <-; exists i; split; [done|]; apply Hf, (out_fault e i Hp), Hin.
  - destruct (IH (wups_power_event_tick e i).1 (if fault_fires e i then sm_uptime i else t) j)
      as (x & Hx & Hle); try done; [apply tick_primed|..].
    + rewrite tick_eq by done; cbn; rewrite Ht; done.
    + case_match; lia.
    + apply ascending_le with (sm_uptime i); [case_match; lia|done].
    + exists x; split; [done|]; case_match; [|done]; specialize (Hf eq_refl); lia.
Qed.

(** A run split at a tick. *)
Lemma events_split e l a i :
  l !! a = Some i ->
  let e1 := (run wups_power_event_tick e (take a l)).1 in
  events e l = events e (take a l) ++ (wups_power_event_tick e1 i).2 ::
               events (wups_power_event_tick e1 i).1 (drop (S a) l).
Proof.
  intros Hi e1; subst e1; rewrite <- (take_drop_middle l a i Hi) at 1; unfold events.
  rewrite run_app; destruct (run _ e (take a l)) as [e1 o1]; cbn [fst snd].
  cbn [run]; destruct (wups_power_event_tick e1 i) as [e2 o2]; cbn [fst snd].
  destruct (run _ e2 (drop (S a) l)); done.
Qed.

Lemma events_length e l : length (events e l) = length l.
Proof. apply run_length. Qed.

(** While the low latch is set no low-battery event is sent, and it stays set
    until mains return or the battery recovers. *)
Lemma low_latched e l j o :
  Evt_Primed e = true -> Evt_Batt_Low e = true ->
  events e l !! j = Some o -> WUPS_PWR_EVT_CHARGE_LOW ∈ o ->
  exists k i ok, (k < j)%nat /\ l !! k = Some i /\ events e l !! k = Some ok /\
    (WUPS_PWR_EVT_MAINS_RESTORED ∈ ok \/ PWR_EVT_VBAT_REARM_MV < sm_vbat i).
Proof.
  intros Hp Hb Ho Hin; revert e j Hp Hb Ho; induction l as [|i l IH]; intros e j Hp Hb Ho; [done|].
  rewrite events_cons in Ho |- *.
  destruct (low_latch e i) eqn:Hlat.
  - assert (Hnf : low_fires e i = false).
    { unfold low_fires; rewrite Hlat, andb_false_r; done. }
    destruct j as [|j].
    { injection Ho as <-; apply (out_low e i Hp) in Hin; congruence. }
    destruct (decide (PWR_EVT_VBAT_REARM_MV < sm_vbat i)) as [Hv|Hv].
    { exists 0%nat, i, (wups_power_event_tick e i).2; split_and!; [lia|done|done|auto]. }
    destruct (IH (wups_power_event_tick e i).1 j) as (k & x & ok & Hk & Hx & Hok & Hor);
      [apply tick_primed| |done|exists (S k), x, ok; split_and!; done || lia].
    rewrite tick_eq by done; cbn; rewrite Hnf, Hlat.
    destruct (Z.ltb_spec PWR_EVT_VBAT_REARM_MV (sm_vbat i)); [lia|done].
  - assert (Hm : mains_now e i = true /\ mains_edge e i = true).
    { unfold low_latch in Hlat; rewrite Hb in Hlat; destruct (mains_edge e i), (mains_now e i); done. }
    destruct Hm as [Hm He]; destruct j as [|j].
    { injection Ho as <-; apply (out_low e i Hp) in Hin; unfold low_fires in Hin; rewrite Hm in Hin; done. }
    exists 0%nat, i, (wups_power_event_tick e i).2; split_and!; [lia|done|done|left].
    rewrite tick_eq by done; cbn [snd]; rewrite He, Hm; apply elem_of_app; left.
    constructor.
Qed.

(** Only a primed detector sends anything. *)
Lemma out_primed e i z : z ∈ (wups_power_event_tick e i).2 -> Evt_Primed e = true.
Proof.
  unfold wups_power_event_tick; destruct (Evt_Primed e); [done|]; cbn.
  intros H; inversion H.
Qed.

Lemma ascending_drop t l a i :
  ascending t l -> l !! a = Some i -> ascending (sm_uptime i) (drop (S a) l) /\ t <= sm_uptime i.
Proof.
  revert t l; induction a as [|a IH]; intros t [|x l] Hl Hi; try done; destruct Hl as (? & ? & Hl).
  - injection Hi as ->; done.
  - destruct (IH _ _ Hl Hi); split; [done|lia].
Qed.

(** The tick at position [a] of a run and the run after it. *)
Lemma events_at e l a b oa ob z :
  events e l !! a = Some oa -> z ∈ oa -> (a < b)%nat -> events e l !! b = Some ob ->
  exists i e1, l !! a = Some i /\ Evt_Primed e1 = true /\ oa = (wups_power_event_tick e1 i).2 /\
    events (wups_power_event_tick e1 i).1 (drop (S a) l) !! (b - S a)%nat = Some ob /\
    forall k, events e l !! (S a + k)%nat = events (wups_power_event_tick e1 i).1 (drop (S a) l) !! k.
Proof.
  intros Ha Hz Hab Hb; destruct (events_lookup _ _ _ _ Ha) as (i & Hi & ->).
  exists i, (run wups_power_event_tick e (take a l)).1.
  pose proof (events_split e l a i Hi) as Hs; cbv zeta in Hs.
  assert (Hlen : length (events e (take a l)) = a).
  { rewrite events_length, length_take; apply lookup_lt_Some in Hi; lia. }
  assert (Hk : forall k, events e l !! (S a + k)%nat =
    events (wups_power_event_tick (run wups_power_event_tick e (take a l)).1 i).1 (drop (S a) l) !! k).
  { intros k; rewrite Hs, lookup_app_r, Hlen by lia.
    replace (S a + k - a)%nat with (S k) by lia; done. }
  split_and!; [done|apply out_primed with i z; done|done| |done].
  rewrite <- Hk; replace (S a + (b - S a))%nat with b by lia; done.
Qed.
End DetectorRuns.

(** ** Properties *)

(** The telemetry ADC values are fresh and from their own channel.  After
    257 ticks the battery value is the conversion of channel 5, and the output
    value that of channel 0, of a tick at most 511 ms ago, and the input value is
    the conversion of channel 1 of this tick or the previous one; a conversion
    that timed out leaves the previous value of the same channel in place.  The
    uptime is the number of ticks divided by 1000, until the counter wraps. *)
Theorem adc_caches_fresh adc (n : nat) :
  257 <= Z.of_nat n < 4294967296000 ->
  let s := isr_at adc n in
  let at_ i := isr_at adc (Z.to_nat (i - 1)) in
  let b := last_tick 1 (Z.of_nat n) in
  let o := last_tick 257 (Z.of_nat n) in
  let m := Z.of_nat n mod 512 in
  let d := if (m =? 1) || (m =? 257) then Z.of_nat n - 1 else Z.of_nat n in
  (0 <= Z.of_nat n - b < 512 /\ cached (Vbat_ADC_Val s) (Vbat_ADC_Val (at_ b)) adc b 5) /\
  (0 <= Z.of_nat n - o < 512 /\ cached (Vbus_Out_ADC_Val s) (Vbus_Out_ADC_Val (at_ o)) adc o 0) /\
  cached (DC_Inp_ADC_Val s) (DC_Inp_ADC_Val (at_ d)) adc d 1 /\
  Uptime_Sec s = Z.of_nat n / 1000.
Proof.
  intros Hn s at_ b o m d.
  destruct (last_tick_range 1 (Z.of_nat n) ltac:(lia)), (last_tick_range 257 (Z.of_nat n) ltac:(lia)).
  split_and!; try (subst b o; lia).
  - apply (cached_step adc Vbat_ADC_Val 1 5); try lia; intros k; apply isr_adc_S.
  - apply (cached_step adc Vbus_Out_ADC_Val 257 0); try lia; intros k; apply isr_adc_S.
  - destruct n as [|[|n]]; [lia..|]; subst s at_ d; cbv zeta; unfold cached.
    pose proof (isr_adc_S adc (S n)) as (_ & _ & Hc1); pose proof (isr_adc_S adc n) as (_ & _ & Hc2).
    fold m in Hc1; rewrite Hc1; destruct (_ || _) eqn:Hm.
    + replace (Z.to_nat (Z.of_nat (S (S n)) - 1)) with (S n) by lia.
      replace (Z.to_nat (Z.of_nat (S (S n)) - 1 - 1)) with n by lia.
      rewrite Hc2; replace ((_ =? 1) || (_ =? 257)) with false; [done|symmetry].
      apply orb_false_iff; split; apply Z.eqb_neq; intros E;
        (assert (m = (Z.of_nat (S n) mod 512 + 1) mod 512) as Hm'
          by (subst m; rewrite Z.add_mod_idemp_l by lia; f_equal; lia));
        clearbody m; rewrite E, Z.mod_small in Hm' by lia;
        apply orb_true_iff in Hm as [Hm|Hm]; to_prop; lia.
    + replace (Z.to_nat (Z.of_nat (S (S n)) - 1)) with (S n) by lia; rewrite Nat2Z.id; done.
  - apply isr_counts; lia.
Qed.

(** The mains switch has hysteresis and follows the input.  Whenever the
    path is on there was a sample of at least 1939 counts (10 V) and none of at
    most 1745 (9 V) since; whenever it is off there was no sample of at least
    1939 since one of at most 1745, or since power-up. *)
Theorem mains_switch_hysteresis adc n :
  let dc k := DC_Inp_ADC_Val (isr_at adc k) in
  if mains_path adc n
  then exists j, (1 <= j <= n)%nat /\ 1939 <= dc j /\ forall k, (j <= k <= n)%nat -> 1745 < dc k
  else exists j, (j <= n)%nat /\ dc j <= 1745 /\ forall k, (j <= k <= n)%nat -> dc k < 1939.
Proof.
  intros dc; induction n as [|n IH].
  - exists 0%nat; split_and!; [lia|subst dc; vm_compute; discriminate|].
    intros k Hk; replace k with 0%nat by lia; vm_compute; reflexivity.
  - rewrite mains_path_S; fold (dc (S n)).
    destruct (Z.leb_spec 1939 (dc (S n))).
    { exists (S n); split_and!; [lia..|]; intros k Hk; replace k with (S n) by lia; lia. }
    destruct (Z.leb_spec (dc (S n)) 1745).
    { exists (S n); split_and!; [lia..|]; intros k Hk; replace k with (S n) by lia; lia. }
    destruct (mains_path adc n); destruct IH as (j & Hj & Hd & Hk); exists j; split_and!; try lia;
      intros k Hk'; destruct (decide (k = S n)) as [->|]; [lia|apply Hk; lia|lia|apply Hk; lia].
Qed.

(** Mains events alternate.  After the first tick, which only records the
    state, the mains events of any run are a strict alternation of lost and
    restored that starts from the recorded state, so a peer that counts them
    always knows the state. *)
Theorem mains_events_alternate i0 l :
  exists k, filter is_mains_event (concat (events evt_init (i0 :: l))) =
            alternating (negb (PWR_EVT_MAINS_ON_MV <? sm_dc i0)) k.
Proof.
  rewrite events_cons; cbn [concat]; rewrite filter_app.
  destruct (mains_run (wups_power_event_tick evt_init i0).1 l (tick_primed _ _)) as [k Hk].
  exists k; rewrite Hk; done.
Qed.

(** Fault events are at least 30 s apart, as long as the uptime does not
    wrap, however often the fault bits come and go. *)
Theorem fault_events_spaced l a b oa ob :
  ascending 0 l -> (a < b)%nat ->
  events evt_init l !! a = Some oa -> WUPS_PWR_EVT_FAULT ∈ oa ->
  events evt_init l !! b = Some ob -> WUPS_PWR_EVT_FAULT ∈ ob ->
  exists ia ib, l !! a = Some ia /\ l !! b = Some ib /\
    sm_uptime ia + PWR_EVT_FAULT_HOLD_S <= sm_uptime ib.
Proof.
  intros Hl Hab Ha Hina Hb Hinb.
  destruct (events_at _ _ _ _ _ _ _ Ha Hina Hab Hb) as (i & e1 & Hi & Hp & -> & Hlb & _).
  destruct (ascending_drop _ _ _ _ Hl Hi) as [Hl' Hpos].
  apply (out_fault e1 i Hp) in Hina.
  destruct (fault_hold (wups_power_event_tick e1 i).1 (drop (S a) l) (b - S a) ob (sm_uptime i))
    as (x & Hx & Hle); try done; [apply tick_primed| |].
  - rewrite tick_eq by done; cbn; rewrite Hina; done.
  - exists i, x; split_and!; [done| |done]; rewrite lookup_drop in Hx.
    replace b with (S a + (b - S a))%nat by lia; done.
Qed.

(** The low-battery event is one-shot.  Between two of them mains was
    restored or the battery rose above the re-arm level. *)
Theorem charge_low_one_shot l a b oa ob :
  (a < b)%nat ->
  events evt_init l !! a = Some oa -> WUPS_PWR_EVT_CHARGE_LOW ∈ oa ->
  events evt_init l !! b = Some ob -> WUPS_PWR_EVT_CHARGE_LOW ∈ ob ->
  exists k i ok, (a < k < b)%nat /\ l !! k = Some i /\ events evt_init l !! k = Some ok /\
    (WUPS_PWR_EVT_MAINS_RESTORED ∈ ok \/ PWR_EVT_VBAT_REARM_MV < sm_vbat i).
Proof.
  intros Hab Ha Hina Hb Hinb.
  destruct (events_at _ _ _ _ _ _ _ Ha Hina Hab Hb) as (i & e1 & Hi & Hp & -> & Hlb & Hat).
  apply (out_low e1 i Hp) in Hina.
  destruct (low_latched (wups_power_event_tick e1 i).1 (drop (S a) l) (b - S a) ob)
    as (k & x & ok & Hk & Hx & Hok & Hor); try done; [apply tick_primed| |].
  - rewrite tick_eq by done; cbn; rewrite Hina; done.
  - exists (S a + k)%nat, x, ok; rewrite Hat; rewrite lookup_drop in Hx; split_and!; done || lia.
Qed.

(** A fault that appears within 30 s of the previous fault event is never
    announced while it lasts: the hold suppresses the edge and the bitmap is
    remembered, so the later ticks see no new bit. *)
Theorem fault_within_hold_is_lost e i0 l o :
  Evt_Primed e = true -> is_u16 (sm_faults i0) ->
  u32 (sm_uptime i0 - Evt_Last_Fault_S e) < PWR_EVT_FAULT_HOLD_S ->
  Forall (fun i => sm_faults i = sm_faults i0) l ->
  o ∈ events e (i0 :: l) -> WUPS_PWR_EVT_FAULT ∉ o.
Proof.
  intros Hp Hu Hh Hl; rewrite events_cons; intros [-> | Ho]%elem_of_cons.
  - rewrite out_fault by done; unfold fault_fires.
    destruct (Z.leb_spec PWR_EVT_FAULT_HOLD_S (u32 (sm_uptime i0 - Evt_Last_Fault_S e))); [lia|].
    rewrite andb_false_r; done.
  - assert (Hpf : Evt_Prev_Faults (wups_power_event_tick e i0).1 = sm_faults i0)
      by (rewrite tick_eq by done; done).
    pose proof (tick_primed e i0) as Hp1; clear Hp Hh.
    revert Hpf Hp1 Ho; generalize (wups_power_event_tick e i0).1; induction Hl as [|i l Hi _ IH];
      intros e1 Hpf Hp1 Ho; [inversion Ho|]; rewrite events_cons in Ho.
    apply elem_of_cons in Ho as [-> | Ho].
    + rewrite out_fault by done; unfold fault_fires; rewrite Hpf, Hi, land_lnot_u16 by done; done.
    + apply IH in Ho; [done| |apply tick_primed]; rewrite tick_eq by done; done.
Qed.

(** ** The properties at concrete inputs *)

(** Channel [c] reads [100 * c + i] at tick [i]. *)
Definition ramp_adc (i : nat) (c : Z) : Z := 100 * c + Z.of_nat i.

Lemma adc_caches_fresh_witness :
  let s := isr_at ramp_adc 300 in
  Vbat_ADC_Val s = 501 /\ Vbus_Out_ADC_Val s = 257 /\ DC_Inp_ADC_Val s = 400 /\ Uptime_Sec s = 0.
Proof.
  destruct (adc_caches_fresh ramp_adc 300 ltac:(lia)) as ([_ H1] & [_ H2] & H3 & H4).
  split; [exact H1|split; [exact H2|split; [exact H3|exact H4]]].
Defined.

(** On battery from the first tick: low at 6.8 V, recovered, low again. *)
Definition battery_run : list sample :=
  [Sample 0 7000 0 0 10; Sample 0 6800 0 0 11; Sample 0 6700 0 0 12; Sample 0 7400 0 0 13;
   Sample 0 6800 0 0 14].

Lemma charge_low_one_shot_witness :
  events evt_init battery_run = [[]; [3]; []; []; [3]] /\
  exists k i ok, (1 < k < 4)%nat /\ battery_run !! k = Some i /\
    events evt_init battery_run !! k = Some ok /\ (2 ∈ ok \/ 7300 < sm_vbat i).
Proof.
  split; [vm_compute; reflexivity|].
  apply (charge_low_one_shot battery_run 1 4 [3] [3]);
    [lia|vm_compute; reflexivity|constructor|vm_compute; reflexivity|constructor].
Defined.

(** A fault that comes and goes every second. *)
Definition fault_run : list sample :=
  map (fun t => Sample 12000 8000 (256 * (t mod 2)) 0 (40 + t)) (seqZ 0 40).

Lemma fault_events_spaced_witness :
  events evt_init fault_run !! 1%nat = Some [5] /\ events evt_init fault_run !! 31%nat = Some [5] /\
  exists ia ib, fault_run !! 1%nat = Some ia /\ fault_run !! 31%nat = Some ib /\
    sm_uptime ia + 30 <= sm_uptime ib.
Proof.
  split; [vm_compute; reflexivity|]; split; [vm_compute; reflexivity|].
  apply (fault_events_spaced fault_run 1 31 [5] [5]);
    [vm_compute; repeat split; discriminate|lia|vm_compute; reflexivity|constructor
    |vm_compute; reflexivity|constructor].
Defined.

Lemma fault_within_hold_is_lost_witness :
  let e := Evt true true 0 0 false 100 in
  let l := replicate 60 (Sample 12000 8000 1 2 200) in
  fault_fires e (Sample 12000 8000 1 2 120) = false /\
  (forall o, o ∈ events e (Sample 12000 8000 1 2 120 :: l) -> WUPS_PWR_EVT_FAULT ∉ o).
Proof.
  intros e l; split; [vm_compute; reflexivity|]; intros o.
  apply (fault_within_hold_is_lost e (Sample 12000 8000 1 2 120) l o);
    [reflexivity|cbn; lia|vm_compute; reflexivity|repeat constructor].
Defined.
