(* ===== verification/Ch32xNode.v ===== *)
(** * The CH32X node: command handling and the main loop
    (firmware-ch32x/User/main.c)

    The node's state is the product of its components' states; a loop iteration
    runs the blocks of [main]'s loop in order.  What interrupts change between
    the blocks (the millisecond counter, the DMA ring, the comparators, the ISR's
    caches) is read from the record [loop_in] of the iteration. *)

From Stdlib Require Import SpecFloat.
From S2P Require Import Prelude Protocol Deframer Hal Charger Tps InputPd PdSource Ch32xLink Ch32xTelemetry.

(** ** State *)

(* src: firmware-ch32x/User/main.c:443-450 powercycle_state_t *)
Inductive powercycle_state_t := POWERCYCLE_IDLE | POWERCYCLE_OFF_WAIT.
Definition POWERCYCLE_OFF_MS : Z := 1500.

(* src: firmware-ch32x/User/main.c:130-135 intervals *)
Definition JSON_INTERVAL_MS : Z := 1000.
Definition TEMP_INTERVAL_MS : Z := 5000.
Definition CHG_INTERVAL_MS : Z := 2000.
Definition TPS_INTERVAL_MS : Z := 2000.
Definition BAT_INTERVAL_MS : Z := 500.
Definition DIAG_LOG_INTERVAL_MS : Z := 5000.

(* src: firmware-ch32x/User/lm75b.h:10-15 LM75B *)
Definition LM75B_I2C_ADDR : Z := 72.
Definition LM75B_REG_TEMP : Z := 0.

(** The loop's interval timers. *)
Record timers := Timers {
  Tmr_Ms_Cnt_Last : Z; Svc_Last_Ms : Z; Powercycle_Timer_Ms : Z; Det_Timer : Z;
  Pd_Evt_Timer_Ms : Z; Temp_Timer_Ms : Z; Tps_Timer_Ms : Z; Chg_Timer_Ms : Z;
  Bat_Timer_Ms : Z; Diag_Log_Timer_Ms : Z; Json_Timer_Ms : Z
}.

#[export] Instance eta_timers : Eta timers := fun t =>
  Timers (Tmr_Ms_Cnt_Last t) (Svc_Last_Ms t) (Powercycle_Timer_Ms t) (Det_Timer t)
    (Pd_Evt_Timer_Ms t) (Temp_Timer_Ms t) (Tps_Timer_Ms t) (Chg_Timer_Ms t)
    (Bat_Timer_Ms t) (Diag_Log_Timer_Ms t) (Json_Timer_Ms t).

(** [n_reset] is set by NVIC_SystemReset, after which nothing of the node runs. *)
Record node := Node {
  n_link : link; n_rx : wups_rx; n_tele : tele; n_evt : evt; n_pd : pds; n_bat : bat;
  n_tmr : timers; Powercycle_State : powercycle_state_t; Pd_Evt_Rd : Z; n_reset : bool
}.

#[export] Instance eta_node : Eta node := fun n =>
  Node (n_link n) (n_rx n) (n_tele n) (n_evt n) (n_pd n) (n_bat n) (n_tmr n)
    (Powercycle_State n) (Pd_Evt_Rd n) (n_reset n).

Definition node_init : node :=
  Node link_init wups_rx_init tele_init evt_init PD_Init bat_init (Timers 0 0 0 0 0 0 0 0 0 0 0)
    POWERCYCLE_IDLE 0 false.

(** Updates of one component of the node. *)
Definition with_tmr (f : timers -> timers) (n : node) : node := n <| n_tmr := f (n_tmr n) |>.

(** Run an operation on one component. *)
Definition on_link (m : link -> M link) (n : node) : M node :=
  let* l := m (n_link n) in ret (n <| n_link := l |>).
Definition on_pd (m : pds -> M pds) (n : node) : M node :=
  let* s := m (n_pd n) in ret (n <| n_pd := s |>).

Section Node.
Context `{D : Dev} `{U : Uart} `{P : Phy}.

(** Compose power.status from the current state, send it, clear the latch.
    The latch is cleared before the frame is handed to the sender, which does
    not read it. *)
(* src: firmware-ch32x/User/main.c:584-644 wups_send_power_status *)
Definition wups_send_power_status (dst flags seq uptime : Z) (n : node) : M node :=
  let* pa6 := pin_get PIN_DC_INP_EN in
  let* pa7 := pin_get PIN_VBUS_OUT_EN in
  let s := power_status pa6 pa7 uptime (n_bat n) (n_pd n) (n_tele n) in
  on_link (send_frame dst WUPS_CLASS_POWER WUPS_OP_PWR_STATUS flags seq (power_status_v2_bytes s))
    (n <| n_tele := n_tele n <| Tps_Status_Latched := 0 |> |>).

(* src: firmware-ch32x/User/main.c:918-929 wups_handle_frame (PING) *)
Definition pong_payload (uptime : Z) : list Z :=
  pong_bytes (Pong 1 0 FW_VERSION_U16 (u32 (uptime * 1000))) ++ FW_VERSION_STR.

Definition for_us (dst : Z) : bool :=
  (dst =? WUPS_ADDR_CH32X) || (dst =? WUPS_ADDR_BROADCAST) || (dst =? WUPS_ADDR_INTERNAL).

(* src: firmware-ch32x/User/main.c:914-936 wups_handle_frame (SYSTEM) *)
Definition handle_system (uptime : Z) (f : frame) (n : node) : M node :=
  if (f_op f =? WUPS_OP_SYS_PING) && has (f_flags f) WUPS_FLAG_REQ then
    on_link (send_frame (f_src f) WUPS_CLASS_SYSTEM WUPS_OP_SYS_PING WUPS_FLAG_RESP (f_seq f)
               (pong_payload uptime)) n
  else if (f_op f =? WUPS_OP_SYS_STATUS_QUERY) && has (f_flags f) WUPS_FLAG_REQ then
    wups_send_power_status (f_src f) WUPS_FLAG_RESP (f_seq f) uptime n
  else ret n.

(* src: firmware-ch32x/User/main.c:938-960 wups_handle_frame (POWER) *)
Definition handle_power (f : frame) (n : node) : M node :=
  if f_op f =? WUPS_OP_PWR_ENABLE then on_pd Power_Output_Restart n
  else if f_op f =? WUPS_OP_PWR_DISABLE then on_pd VBUS_disable n
  else if f_op f =? WUPS_OP_PWR_CYCLE then
    let* n := on_pd VBUS_disable n in
    ret (with_tmr (fun t => t <| Powercycle_Timer_Ms := 0 |>) n
           <| Powercycle_State := POWERCYCLE_OFF_WAIT |>)
  else if f_op f =? WUPS_OP_PWR_RESET then
    do* delay_ms 50 in do* emit SysReset in ret (n <| n_reset := true |>)
  else ret n.

(* src: firmware-ch32x/User/main.c:897-961 wups_handle_frame *)
Definition wups_handle_frame (uptime : Z) (f : frame) (n : node) : M node :=
  if negb (for_us (f_dst f)) then ret n
  else if f_cls f =? WUPS_CLASS_SYSTEM then handle_system uptime f n
  else if (f_cls f =? WUPS_CLASS_POWER) && has (f_flags f) WUPS_FLAG_REQ then handle_power f n
  else ret n.

(** One byte of the ring: the tail moves, then the deframer runs and may call
    the handler, which may itself reset the tail. *)
(* src: firmware-ch32x/User/main.c:1112-1115 Cmd_Rx_Drain (body) *)
Definition rx_one (uptime : Z) (ring : list Z) (n : node) : M node :=
  let l := n_link n in
  let c := nth (Z.to_nat (Dma_Rx_Tail l)) ring 0 in
  let l := l <| Dma_Rx_Tail := u16 ((Dma_Rx_Tail l + 1) mod DMA_RX_BUF_SIZE) |>
             <| Uart_Rx_Total := u32 (Uart_Rx_Total l + 1) |> in
  let (r, out) := wups_rx_byte (n_rx n) c in
  let n := n <| n_link := l |> <| n_rx := r |> in
  match out with
  | Some f => wups_handle_frame uptime f n
  | None => ret n
  end.

(** The while loop with fuel; [None] is out of fuel. *)
(* src: firmware-ch32x/User/main.c:1110-1116 Cmd_Rx_Drain (loop) *)
Fixpoint drain (fuel : nat) (uptime : Z) (ring : list Z) (head : Z) (n : node) : M (option node) :=
  if n_reset n || (Dma_Rx_Tail (n_link n) =? head) then ret (Some n)
  else match fuel with
       | O => ret None
       | S fuel => let* n := rx_one uptime ring n in drain fuel uptime ring head n
       end.

(** [ore] is the overrun flag, [cntr] the DMA's remaining-transfer counter. *)
(* src: firmware-ch32x/User/main.c:1094-1117 Cmd_Rx_Drain *)
Definition Cmd_Rx_Drain (fuel : nat) (uptime : Z) (ore : bool) (ring : list Z) (cntr : Z) (n : node)
  : M (option node) :=
  let n := if ore
           then n <| n_link := n_link n <| Uart_Ore_Count := u32 (Uart_Ore_Count (n_link n) + 1) |> |>
           else n in
  let head := u16 (DMA_RX_BUF_SIZE - cntr) in
  drain fuel uptime ring head n.

(* src: firmware-ch32x/User/main.c:1215-1224 main (power-cycle) *)
Definition powercycle_tick (dt : Z) (n : node) : M node :=
  match Powercycle_State n with
  | POWERCYCLE_OFF_WAIT =>
      let n := with_tmr (fun t => t <| Powercycle_Timer_Ms := u16 (Powercycle_Timer_Ms t + dt) |>) n in
      if POWERCYCLE_OFF_MS <=? Powercycle_Timer_Ms (n_tmr n) then
        let* n := on_pd Power_Output_Restart n in
        ret (n <| Powercycle_State := POWERCYCLE_IDLE |>)
      else ret n
  | POWERCYCLE_IDLE => ret n
  end.

(** [now] is Tim_Ms_Cnt at the call. *)
(* src: firmware-ch32x/User/main.c:678-687 PD_Service *)
Definition PD_Service (now : Z) (n : node) : M node :=
  let dt := u8 (now - Svc_Last_Ms (n_tmr n)) in
  on_pd (PD_Main_Proc dt) (with_tmr (fun t => t <| Svc_Last_Ms := now |>) n).

(* src: firmware-ch32x/User/main.c:1227-1232 main (detection) *)
Definition pd_detect_block (dt : Z) (cc : cc_in) (n : node) : M node :=
  let n := with_tmr (fun t => t <| Det_Timer := u8 (Det_Timer t + dt) |>) n in
  if 4 <? Det_Timer (n_tmr n) then
    on_pd (PD_Det_Proc cc) (with_tmr (fun t => t <| Det_Timer := 0 |>) n)
  else ret n.

(** *** PD event trace *)

Definition digit (z : Z) : Z := 48 + z.
Definition hex_digit (z : Z) : Z := nth (Z.to_nat z) (str "0123456789ABCDEF") 0.

(** The text of an event word; [None] is sent as nothing. *)
(* src: firmware-ch32x/User/main.c:705-770 PD_Evt_Drain (text) *)
Definition pd_evt_text (e : Z) : option (list Z) :=
  let code := Z.land e 15 in
  let arg := Z.land (Z.shiftr e 4) 15 in
  let ext := u8 (Z.shiftr e 8) in
  if code =? PD_EVT_CONNECT then Some (str "PD: CC connect")
  else if code =? PD_EVT_SRC_CAP_TX then Some (str "PD: SRC_CAP sent")
  else if code =? PD_EVT_REQ_RX then Some (str "PD: REQUEST pdo=" ++ [u8 (digit arg)])
  else if code =? PD_EVT_ACCEPT_TX then Some (str "PD: ACCEPT sent")
  else if code =? PD_EVT_PS_RDY_TX then Some (str "PD: PS_RDY sent")
  else if code =? PD_EVT_VDM_RPI_TX then Some (str "PD: VDM RPi-id sent")
  else if code =? PD_EVT_DRSWAP_RX then
    Some (if arg =? 1 then str "PD: DR_Swap RX (dup)"
          else if arg =? 2 then str "PD: DR_Swap RX (busy->Wait)" else str "PD: DR_Swap RX")
  else if code =? PD_EVT_DRSWAP_ACC then
    Some (if negb (arg =? 0) then str "PD: DR_Swap ACC, now DFP" else str "PD: DR_Swap ACC, now UFP")
  else if code =? PD_EVT_DRSWAP_FAIL then Some (str "PD: DR_Swap TXfail->HRST")
  else if code =? PD_EVT_SOFTRST_RX then Some (str "PD: Soft_Reset RX")
  else if code =? PD_EVT_SOFTRST_TX then Some (str "PD: Soft_Reset TX")
  else if code =? PD_EVT_HRST_TX then Some (str "PD: HardReset TX")
  else if code =? PD_EVT_DISCONNECT then Some (str "PD: disconnect")
  else if code =? PD_EVT_PROTO_REPLY then
    Some (if arg =? 2 then
            str "PD: NotSupp t=" ++ [hex_digit (Z.land (Z.shiftr ext 4) 7); hex_digit (Z.land ext 15); 32;
                                     if has ext 128 then 100 else 99]
          else if arg =? 1 then str "PD: VDM NAK sent"
          else if arg =? 3 then str "PD: GetSrcCap answered"
          else if arg =? 4 then str "PD: VCONN_Swap Reject"
          else if arg =? 5 then str "PD: UFP identity ACK sent" else str "PD: reply?")
  else if code =? PD_EVT_ENTER_USB then
    Some ((if negb (arg =? 0) then str "PD: Enter_USB mode=" else str "PD: Enter_USB REJ mode=") ++
          [digit (Z.land ext 7)] ++ (if negb (arg =? 0) then str " ACC" else []))
  else None.

(** At most one event per call and per 4 ms. *)
(* src: firmware-ch32x/User/main.c:698-771 PD_Evt_Drain *)
Definition PD_Evt_Drain (n : node) : M node :=
  if Pd_Evt_Rd n =? PD_Evt_W (n_pd n) then ret n
  else if Pd_Evt_Timer_Ms (n_tmr n) <? 4 then ret n
  else
    let e := byte_at (PD_Evt_Buf (n_pd n)) (Z.to_nat (Z.land (Pd_Evt_Rd n) 15)) in
    let n := with_tmr (fun t => t <| Pd_Evt_Timer_Ms := 0 |>) n
               <| Pd_Evt_Rd := u8 (Pd_Evt_Rd n + 1) |> in
    match pd_evt_text e with
    | Some s => on_link (wups_send_log 2 s) n
    | None => ret n
    end.

(** *** Periodic blocks *)

(** LM75B: two bytes of the temperature register. *)
(* src: firmware-ch32x/User/lm75b.c:5-17 lm75b_read_temp_raw, lm75b_read_temp_c *)
Definition lm75b_read_temp_raw : M Z :=
  let* b0 := i2c_read LM75B_I2C_ADDR LM75B_REG_TEMP in
  let* b1 := i2c_read LM75B_I2C_ADDR LM75B_REG_TEMP in
  let raw := s16 (Z.lor (Z.shiftl b0 8) b1) in
  ret (Z.shiftr raw 5).
Definition lm75b_read_temp_c : M spec_float :=
  let* raw := lm75b_read_temp_raw in
  ret (SFmul 24 128 (f32_of_int raw) (f32_lit 1 8)).

(** [(int16_t)(x * 10.0f)]. *)
Definition times10 (x : spec_float) : Z := s16 (f_trunc (SFmul 24 128 x (f32_of_int 10))).

(* src: firmware-ch32x/User/main.c:1238-1243 main (temperature) *)
Definition temp_block (dt : Z) (n : node) : M node :=
  let n := with_tmr (fun t => t <| Temp_Timer_Ms := u16 (Temp_Timer_Ms t + dt) |>) n in
  if TEMP_INTERVAL_MS <=? Temp_Timer_Ms (n_tmr n) then
    let n := with_tmr (fun t => t <| Temp_Timer_Ms := 0 |>) n in
    let* c := lm75b_read_temp_c in
    ret (n <| n_tele := n_tele n <| Board_Temp_c10 := times10 c |> |>)
  else ret n.

(** Re-apply the set point the rail should have. *)
(* src: firmware-ch32x/User/main.c:1282-1292 main (TPS watchdog) *)
Definition tps_reapply (s : pds) : M pds :=
  let v_set := tps55289_get_voltage_set_v10 (Tps_Set s) in
  let i_set := tps55289_get_current_set_a10 (Tps_Set s) in
  if (0 <? v_set) && (0 <? i_set) then tps_apply (tenths v_set) (tenths i_set) s else ret s.

(* src: firmware-ch32x/User/main.c:1248-1295 main (TPS block) *)
Definition tps_block (dt : Z) (n : node) : M node :=
  let n := with_tmr (fun t => t <| Tps_Timer_Ms := u16 (Tps_Timer_Ms t + dt) |>) n in
  if TPS_INTERVAL_MS <=? Tps_Timer_Ms (n_tmr n) then
    let n := with_tmr (fun t => t <| Tps_Timer_Ms := 0 |>) n in
    let* v := tps55289_read_voltage in
    let* i := tps55289_read_current_limit in
    let* st := tps55289_read_status in
    let n := n <| n_pd := n_pd n <| Tps_Vread_v10 := times10 v |> <| Tps_Iread_a10 := times10 i |> |>
               <| n_tele := n_tele n <| Tps_Status_Latched := u8 (Z.lor (Tps_Status_Latched (n_tele n)) st) |> |> in
    on_pd tps_reapply n
  else ret n.

(** The advertised current of the picked voltage, capped by the policy. *)
(* src: firmware-ch32x/User/main.c:1343-1351 main (pick_mA) *)
Definition pick_current (pick_mV : Z) (caps : husb238_src_caps_t) : Z :=
  let i := husb238_idx_of_mV pick_mV in
  if i <? 0 then 0 else Z.min (nth (Z.to_nat i) (caps_mA caps) 0) HUSB238_POLICY_I_CAP_MA.

(** Renegotiate the input contract once per attach. *)
(* src: firmware-ch32x/User/main.c:1326-1373 main (HUSB238 negotiation) *)
Definition husb_negotiate (t : tele) : M tele :=
  if negb (attached (Husb_Data t) =? 0) then
    if Husb_Pd_Optimized t then ret t
    else
      let* caps := husb238_read_src_caps in
      let t := t <| Husb_Caps := caps |> in
      if detected_mask caps =? 0 then
        do* husb238_write_reg HUSB238_REG_GO_COMMAND HUSB238_CMD_GET_SRC_CAP in ret t
      else
        let sel := husb238_pick_best_pdo caps in
        let t := t <| Husb_Pick_Sel := sel |> in
        if sel =? HUSB238_SEL_NONE then ret t
        else
          let pick_mV := husb238_sel_to_mV sel in
          let pick_mA := pick_current pick_mV caps in
          do* mwhen (negb (pick_mV =? voltage_mV (Husb_Data t)) || (current_mA (Husb_Data t) + 50 <? pick_mA))
                (husb238_select_pdo sel) in
          ret (t <| Husb_Pd_Optimized := true |>)
  else
    ret (t <| Husb_Pd_Optimized := false |> <| Husb_Pick_Sel := HUSB238_SEL_NONE |>
           <| Husb_Caps := HusbCaps 0 (caps_mA (Husb_Caps t)) |>).

(* src: firmware-ch32x/User/main.c:1306-1374 main (charger block) *)
Definition chg_block (dt : Z) (n : node) : M node :=
  let n := with_tmr (fun t => t <| Chg_Timer_Ms := u16 (Chg_Timer_Ms t + dt) |>) n in
  if CHG_INTERVAL_MS <=? Chg_Timer_Ms (n_tmr n) then
    let n := with_tmr (fun t => t <| Chg_Timer_Ms := 0 |>) n in
    let* d := mp2762a_read_all in
    do* mp2762a_kick_watchdog in
    let* h := husb238_read_all in
    let* t := husb_negotiate (n_tele n <| Chg_Data := d |> <| Husb_Data := h |>) in
    ret (n <| n_tele := t |>)
  else ret n.

(** [Chg_Data.fault = 0]. *)
Definition clear_fault (d : mp2762a_data_t) : mp2762a_data_t :=
  Mp2762aData (chg_state d) (power_good d) (vin_mv d) (iin_ma d) (vbat_mv d) (ichg_ma d)
    (vsys_mv d) (tjunc_c10 d) 0.

(* src: firmware-ch32x/User/main.c:1383-1399 main (battery block) *)
Definition bat_block (dt : Z) (n : node) : M node :=
  let n := with_tmr (fun t => t <| Bat_Timer_Ms := u16 (Bat_Timer_Ms t + dt) |>) n in
  if BAT_INTERVAL_MS <=? Bat_Timer_Ms (n_tmr n) then
    let n := with_tmr (fun t => t <| Bat_Timer_Ms := 0 |>) n in
    let* b := mp2762a_poll_battery (Vbat_Voltage_mV (n_tele n)) (n_bat n) in
    let (b, inserted) := mp2762a_battery_inserted b in
    do* mwhen (negb (inserted =? 0)) mp2762a_restart_charging in
    let n := n <| n_bat := b |> in
    if negb (fault (Chg_Data (n_tele n)) =? 0) then
      do* mp2762a_restart_charging in
      ret (n <| n_tele := n_tele n <| Chg_Data := clear_fault (Chg_Data (n_tele n)) |> |>)
    else ret n
  else ret n.

(** [now] is the ISR's snapshot the block reads. *)
(* src: firmware-ch32x/User/main.c:1550-1581 main (1 Hz block) *)
Definition status_block (dt : Z) (now : isr) (n : node) : M node :=
  let n := with_tmr (fun t => t <| Json_Timer_Ms := u16 (Json_Timer_Ms t + dt) |>) n in
  if JSON_INTERVAL_MS <=? Json_Timer_Ms (n_tmr n) then
    let n := with_tmr (fun t => t <| Json_Timer_Ms := 0 |>) n in
    do* emit IwdgReload in
    let n := n <| n_tele := adc_scale now (n_tele n) |> in
    let (e, evs) := wups_power_event_tick (n_evt n) (sample_of (n_tele n) (Uptime_Sec now)) in
    let n := n <| n_evt := e |> in
    let* n := on_link (wups_send_power_events evs) n in
    let seq := Wups_Tx_Seq (n_link n) in
    let n := n <| n_link := n_link n <| Wups_Tx_Seq := u8 (seq + 1) |> |> in
    wups_send_power_status WUPS_ADDR_RP2040 WUPS_FLAG_EVENT seq (Uptime_Sec now) n
  else ret n.

(** *** Diagnostic log *)

(* src: firmware-ch32x/User/main.c:1437-1437 EMIT_HEX *)
Definition emit_hex (b : Z) : list Z := [hex_digit (Z.land (Z.shiftr b 4) 15); hex_digit (Z.land b 15)].

(** Tenths of a degree in decimal; the hundreds digit is not reduced. *)
(* src: firmware-ch32x/User/main.c:1452-1463 main (decimal temperature) *)
Definition emit_c10 (v : Z) : list Z :=
  let sign := if v <? 0 then [45] else [] in
  let v := Z.abs v in
  let whole := v / 10 in
  let frac := v mod 10 in
  sign ++ (if 100 <=? whole then [u8 (digit (whole / 100))] else []) ++
  (if 10 <=? whole then [digit ((whole / 10) mod 10)] else []) ++
  [digit (whole mod 10); 46; digit frac; 67].

(** Decimal digits of a uint16, most significant first. *)
(* src: firmware-ch32x/User/main.c:1494-1499 HEMIT_U16 *)
Fixpoint u16_digits (fuel : nat) (v : Z) (acc : list Z) : list Z :=
  match fuel with
  | O => acc
  | S fuel => if v =? 0 then acc else u16_digits fuel (v / 10) (digit (v mod 10) :: acc)
  end.
Definition emit_u16 (v : Z) : list Z := if v =? 0 then [digit 0] else u16_digits 5 v [].

(** The MP2762A dump line from its twelve register bytes. *)
(* src: firmware-ch32x/User/main.c:1438-1484 main (MP2762A line) *)
Definition mp2762a_line (r : list Z) (board_c10 tj_c10 : Z) : list Z :=
  let g i := emit_hex (byte_at r i) in
  str "MP2762A r00=" ++ g 0%nat ++ str " r0F=" ++ g 1%nat ++ str " r02=" ++ g 2%nat ++
  str " r08=" ++ g 3%nat ++ str " r13=" ++ g 4%nat ++ str " r14=" ++ g 5%nat ++
  str " ICHG=" ++ g 7%nat ++ g 6%nat ++ str " IIN=" ++ g 9%nat ++ g 8%nat ++
  str " TJraw=" ++ g 11%nat ++ g 10%nat ++ str " Tboard=" ++ emit_c10 board_c10 ++
  str " TJ=" ++ (if tj_c10 =? -32768 then str "NA" else emit_c10 tj_c10).

(* src: firmware-ch32x/User/main.c:1485-1508 main (HUSB line) *)
Definition husb_line (h : husb238_data_t) : list Z :=
  str "HUSB att=" ++ [if negb (attached h =? 0) then digit 1 else digit 0] ++
  str " Vin=" ++ emit_u16 (voltage_mV h) ++ str "mV" ++
  str " Iin=" ++ emit_u16 (current_mA h) ++ str "mA" ++
  str " v=" ++ [hex_digit (Z.land (v_code h) 15)] ++ str " i=" ++ [hex_digit (Z.land (i_code h) 15)] ++
  str " resp=" ++ [hex_digit (Z.land (last_response h) 15)].

Definition HLBL : list (list Z) := [str "5"; str "9"; str "12"; str "15"; str "18"; str "20"].

(* src: firmware-ch32x/User/main.c:1510-1537 main (HUSBcaps line) *)
Definition caps_line (c : husb238_src_caps_t) (sel : Z) : list Z :=
  str "HUSBcaps" ++
  concat (imap (fun i lbl =>
    [32] ++ lbl ++ [61] ++
    (if has (detected_mask c) (Z.shiftl 1 (Z.of_nat i)) then emit_u16 (nth i (caps_mA c) 0) else [45])) HLBL) ++
  str " pick=" ++ emit_u16 (husb238_sel_to_mV sel).

(** The registers of the dump, in read order. *)
(* src: firmware-ch32x/User/main.c:1417-1429 main (register reads) *)
Definition dump_regs : list Z :=
  [MP2762A_REG_INPUT_ILIM; MP2762A_REG_INPUT_ILIM2; MP2762A_REG_CHG_CURR; MP2762A_REG_CONFIG0;
   MP2762A_REG_STATUS; MP2762A_REG_FAULT; MP2762A_REG_ADC_ICHG_L; MP2762A_REG_ADC_ICHG_L + 1;
   MP2762A_REG_ADC_IIN_L; MP2762A_REG_ADC_IIN_L + 1; MP2762A_REG_ADC_TJUNC_L;
   MP2762A_REG_ADC_TJUNC_L + 1].
Fixpoint read_dump (regs : list Z) : M (list Z) :=
  match regs with
  | [] => ret []
  | r :: regs => let* b := mp2762a_read_reg r in let* bs := read_dump regs in ret (b :: bs)
  end.

(** [svc] is Tim_Ms_Cnt at the PD_Service call that ends the block. *)
(* src: firmware-ch32x/User/main.c:1404-1547 main (diagnostic block) *)
Definition diag_block (dt svc : Z) (n : node) : M node :=
  let n := with_tmr (fun t => t <| Diag_Log_Timer_Ms := u16 (Diag_Log_Timer_Ms t + dt) |>) n in
  if DIAG_LOG_INTERVAL_MS <=? Diag_Log_Timer_Ms (n_tmr n) then
    let n := with_tmr (fun t => t <| Diag_Log_Timer_Ms := 0 |>) n in
    let n := n <| n_tele := n_tele n <| Diag_Toggle := negb (Diag_Toggle (n_tele n)) |> |> in
    let t := n_tele n in
    let* n :=
      if Diag_Toggle t then ret n
      else
        let* r := read_dump dump_regs in
        on_link (wups_send_log 2 (mp2762a_line r (Board_Temp_c10 t) (tjunc_c10 (Chg_Data t)))) n in
    let* n := on_link (wups_send_log 2 (husb_line (Husb_Data t))) n in
    let* n := if Diag_Toggle t
              then on_link (wups_send_log 2 (caps_line (Husb_Caps t) (Husb_Pick_Sel t))) n
              else ret n in
    PD_Service svc n
  else ret n.

(** *** The loop *)

(** What the interrupts and the DMA show to one iteration: the millisecond
    counter at its top and at each PD_Service, the ring, the comparators, the
    ISR snapshot of the receive and of the 1 Hz block. *)
Record loop_in := LoopIn {
  in_ms : Z; in_ore : bool; in_ring : list Z; in_cntr : Z; in_uptime : Z; in_cc : cc_in;
  in_svc1 : Z; in_svc2 : Z; in_svc3 : Z; in_svc4 : Z; in_isr : isr
}.

(** The blocks after the receive drain, in the order of the loop. *)
(* src: firmware-ch32x/User/main.c:1214-1582 main (loop body after the drain) *)
Definition loop_rest (dt : Z) (i : loop_in) (n : node) : M node :=
  let* n := powercycle_tick dt n in
  let* n := pd_detect_block dt (in_cc i) n in
  let* n := PD_Service (in_svc1 i) n in
  let n := with_tmr (fun t => t <| Pd_Evt_Timer_Ms := u16 (Pd_Evt_Timer_Ms t + dt) |>) n in
  let* n := PD_Evt_Drain n in
  let* n := temp_block dt n in
  let* n := tps_block dt n in
  let* n := PD_Service (in_svc2 i) n in
  let* n := chg_block dt n in
  let* n := PD_Service (in_svc3 i) n in
  let* n := bat_block dt n in
  let* n := diag_block dt (in_svc4 i) n in
  status_block dt (in_isr i) n.

(** One iteration; [None] when the drain loop needs more than [fuel] bytes. *)
(* src: firmware-ch32x/User/main.c:1195-1582 main (loop body) *)
Definition loop_body (fuel : nat) (i : loop_in) (n : node) : M (option node) :=
  let dt := u8 (in_ms i - Tmr_Ms_Cnt_Last (n_tmr n)) in
  let n := with_tmr (fun t => t <| Tmr_Ms_Cnt_Last := in_ms i |>) n in
  let* o := Cmd_Rx_Drain fuel (in_uptime i) (in_ore i) (in_ring i) (in_cntr i) n in
  match o with
  | None => ret None
  | Some n => if n_reset n then ret (Some n)
              else let* n := loop_rest dt i n in ret (Some n)
  end.

(** The output levels at start-up; the pin modes are not modelled. *)
(* src: firmware-ch32x/User/main.c:215-252 GPIO_Port_Init *)
Definition GPIO_Port_Init : M unit :=
  do* pin_set PIN_DC_INP_EN false in do* pin_set PIN_VBUS_OUT_EN false in
  do* pin_set PIN_PDS_EN true in pin_set PIN_LED false.

(** Start-up; the clock, ADC, timer and interrupt set-up has no counterpart. *)
(* src: firmware-ch32x/User/main.c:1126-1193 main (initialisation) *)
Definition main_init (iwdg_reset sw_reset : bool) : M node :=
  do* GPIO_Port_Init in
  do* delay_ms 10 in
  do* tps55289_init in
  do* mp2762a_init in
  do* husb238_init in
  do* emit (UartInit 921600) in
  let* n := on_link wups_send_hello_bcast node_init in
  let* n := if iwdg_reset
            then on_link (wups_send_log 1 (str "boot: IWDG watchdog reset (main loop wedged before reboot)")) n
            else if sw_reset then on_link (wups_send_log 2 (str "boot: software reset (ups.reset)")) n
            else ret n in
  do* emit IwdgReload in
  ret n.
End Node.

(** ** Lemmas *)

#[global] Arguments power_status : simpl never.
#[global] Arguments power_status_v2_bytes : simpl never.
#[global] Arguments pong_payload : simpl never.
#[global] Arguments send_frame : simpl never.
#[global] Arguments Power_Output_Restart : simpl never.
#[global] Arguments VBUS_disable : simpl never.
#[global] Arguments PD_Main_Proc : simpl never.
#[global] Arguments PD_Det_Proc : simpl never.

(** The power-cycle fields, which only two operations write. *)
Definition pc (n : node) : powercycle_state_t * Z := (Powercycle_State n, Powercycle_Timer_Ms (n_tmr n)).

(** An operation that leaves the power-cycle machine and the reset flag alone. *)
Definition keeps_pc (m : node -> M node) : Prop :=
  forall n, always (m n) (fun n' => pc n' = pc n /\ n_reset n' = n_reset n).

Section KeepsPc.
Context `{D : Dev} `{U : Uart} `{P : Phy}.

Lemma keeps_on_link m n : always (on_link m n) (fun n' => pc n' = pc n /\ n_reset n' = n_reset n).
Proof. intros h; unfold on_link; rewrite result_bind; done. Qed.
Lemma keeps_on_pd m n : always (on_pd m n) (fun n' => pc n' = pc n /\ n_reset n' = n_reset n).
Proof. intros h; unfold on_pd; rewrite result_bind; done. Qed.

(** Steps of a block: operations on a component, and node updates that keep
    the fields by computation. *)
Ltac keeps :=
  repeat first
    [ apply keeps_on_link | apply keeps_on_pd
    | apply always_ret; done
    | eapply always_weaken; [first [apply keeps_on_link | apply keeps_on_pd]|done]
    | apply always_bind_any; intros ?
    | case_match ].

Lemma keeps_service now : keeps_pc (PD_Service now).
Proof. intros n; unfold PD_Service; keeps. Qed.
Lemma keeps_detect dt cc : keeps_pc (pd_detect_block dt cc).
Proof. intros n; unfold pd_detect_block; keeps. Qed.
Lemma keeps_evt_drain : keeps_pc PD_Evt_Drain.
Proof. intros n; unfold PD_Evt_Drain; keeps. Qed.
Lemma keeps_temp dt : keeps_pc (temp_block dt).
Proof. intros n; unfold temp_block; keeps. Qed.
Lemma keeps_tps dt : keeps_pc (tps_block dt).
Proof. intros n; unfold tps_block; keeps. Qed.
Lemma keeps_chg dt : keeps_pc (chg_block dt).
Proof. intros n; unfold chg_block; keeps. Qed.
Lemma keeps_bat dt : keeps_pc (bat_block dt).
Proof. intros n; unfold bat_block; keeps. Qed.

Definition same_pc (n n' : node) : Prop := pc n' = pc n /\ n_reset n' = n_reset n.

Lemma keeps_bind (m : M node) n0 n (k : node -> M node) :
  same_pc n0 n -> always m (same_pc n) ->
  (forall n1, same_pc n0 n1 -> always (k n1) (same_pc n0)) -> always (bind m k) (same_pc n0).
Proof.
  intros [H1 H2] Hm Hk; eapply always_bind; [exact Hm|].
  intros n1 [H3 H4]; apply Hk; split; etransitivity; eassumption.
Qed.
Lemma keeps_last (m : node -> M node) n0 n :
  same_pc n0 n -> keeps_pc m -> always (m n) (same_pc n0).
Proof.
  intros [H1 H2] Hm; eapply always_weaken; [apply Hm|].
  intros n1 [H3 H4]; split; etransitivity; eassumption.
Qed.
Lemma same_pc_refl n : same_pc n n.
Proof. done. Qed.

Lemma keeps_diag dt svc : keeps_pc (diag_block dt svc).
Proof.
  intros n; unfold diag_block; change (always ?m _) with (always m (same_pc n)).
  case_match; [|apply always_ret; done]; eapply keeps_bind; [apply same_pc_refl| |intros n1 H1].
  { case_match; [apply always_ret; done|].
    apply always_bind_any; intros ?; apply keeps_on_link. }
  eapply keeps_bind; [exact H1|apply keeps_on_link|intros n2 H2].
  eapply keeps_bind; [exact H2|case_match; [apply keeps_on_link|apply always_ret; done]|intros n3 H3].
  apply keeps_last; [done|apply keeps_service].
Qed.

Lemma keeps_status dt now : keeps_pc (status_block dt now).
Proof.
  intros n; unfold status_block; case_match; [|apply always_ret; done].
  apply always_bind_any; intros _; destruct (wups_power_event_tick _ _) as [e evs].
  eapply (keeps_bind _ n); [apply same_pc_refl|apply keeps_on_link|intros n1 H1].
  unfold wups_send_power_status; do 2 (apply always_bind_any; intros ?).
  eapply always_weaken; [apply keeps_on_link|]; intros n2 [H2 H3]; destruct H1 as [H1 H4].
  split; [transitivity (pc n1); [exact H2|exact H1]|transitivity (n_reset n1); [exact H3|exact H4]].
Qed.

(** After the power-cycle block an iteration leaves the machine alone. *)
Lemma keeps_after_powercycle dt i n :
  always (loop_rest dt i n)
    (fun n' => exists n1 h, n1 = result (powercycle_tick dt n) h /\ same_pc n1 n').
Proof.
  intros h; unfold loop_rest; rewrite result_bind; set (n1 := result _ h).
  exists n1, h; split; [done|]; set (h1 := h ++ _); clearbody h1 n1.
  to_always h1.
  eapply keeps_bind; [apply same_pc_refl|apply keeps_detect|intros n2 H2].
  eapply keeps_bind; [exact H2|apply keeps_service|intros n3 H3].
  eapply keeps_bind; [exact H3|eapply always_weaken; [apply keeps_evt_drain|done]|intros n4 H4].
  eapply keeps_bind; [exact H4|apply keeps_temp|intros n5 H5].
  eapply keeps_bind; [exact H5|apply keeps_tps|intros n6 H6].
  eapply keeps_bind; [exact H6|apply keeps_service|intros n7 H7].
  eapply keeps_bind; [exact H7|apply keeps_chg|intros n8 H8].
  eapply keeps_bind; [exact H8|apply keeps_service|intros n9 H9].
  eapply keeps_bind; [exact H9|apply keeps_bat|intros n10 H10].
  eapply keeps_bind; [exact H10|apply keeps_diag|intros n11 H11].
  apply keeps_last; [done|apply keeps_status].
Qed.
End KeepsPc.

(** Iterations without received frames, one after the other. *)
Fixpoint iterations `{D : Dev} `{U : Uart} `{P : Phy} (l : list (Z * loop_in)) (n : node) : M node :=
  match l with
  | [] => ret n
  | (dt, i) :: l => let* n := loop_rest dt i n in iterations l n
  end.
Definition elapsed (l : list (Z * loop_in)) : Z := fold_right (fun x t => x.1 + t) 0 l.

Lemma elapsed_nonneg l : Forall (fun x : Z * loop_in => 0 <= x.1) l -> 0 <= elapsed l.
Proof.
  unfold elapsed; induction 1 as [|x l Hx _ IH]; cbn [fold_right]; [lia|].
  apply Z.add_nonneg_nonneg; done.
Qed.

(** The output switched to 5 V / 3 A with both switches on. *)
Definition output_on : list eff :=
  [PinSet PIN_VBUS_OUT_EN true; PinSet PIN_PDS_EN true] ++ i2c_effs (setpoint_writes 50 30).

Section PowerCycle.
Context `{D : Dev} `{U : Uart} `{P : Phy}.

Lemma powercycle_wait dt n h :
  Powercycle_State n = POWERCYCLE_OFF_WAIT -> 0 <= Powercycle_Timer_Ms (n_tmr n) -> 0 <= dt ->
  Powercycle_Timer_Ms (n_tmr n) + dt < POWERCYCLE_OFF_MS ->
  effects (powercycle_tick dt n) h = [] /\
  pc (result (powercycle_tick dt n) h) =
    (POWERCYCLE_OFF_WAIT, Powercycle_Timer_Ms (n_tmr n) + dt).
Proof.
  intros Hs Ht Hdt Hlt; unfold powercycle_tick; rewrite Hs; cbn [with_tmr n_tmr upd].
  unfold POWERCYCLE_OFF_MS in *; cbn [Powercycle_Timer_Ms with_tmr]; unfold with_tmr; cbn.
  rewrite u16_small by lia; destruct (Z.leb_spec 1500 (Powercycle_Timer_Ms (n_tmr n) + dt)); [lia|].
  cbn; split; [done|]; unfold pc; cbn; rewrite Hs; done.
Qed.

Lemma powercycle_fire dt n h :
  Powercycle_State n = POWERCYCLE_OFF_WAIT -> 0 <= Powercycle_Timer_Ms (n_tmr n) -> 0 <= dt ->
  POWERCYCLE_OFF_MS <= Powercycle_Timer_Ms (n_tmr n) + dt < 65536 ->
  effects (powercycle_tick dt n) h = output_on /\
  Powercycle_State (result (powercycle_tick dt n) h) = POWERCYCLE_IDLE.
Proof.
  intros Hs Ht Hdt Hle; unfold powercycle_tick; rewrite Hs; unfold with_tmr; cbn.
  unfold POWERCYCLE_OFF_MS in *; rewrite u16_small by lia.
  destruct (Z.leb_spec 1500 (Powercycle_Timer_Ms (n_tmr n) + dt)); [|lia].
  unfold on_pd, Power_Output_Restart; autorewrite with ups; split; [|done].
  unfold effects, result; rewrite vbus_set_5v_exact; done.
Qed.

Lemma iterations_wait l n h :
  Powercycle_State n = POWERCYCLE_OFF_WAIT -> 0 <= Powercycle_Timer_Ms (n_tmr n) ->
  Forall (fun x => 0 <= x.1) l -> Powercycle_Timer_Ms (n_tmr n) + elapsed l < POWERCYCLE_OFF_MS ->
  pc (result (iterations l n) h) = (POWERCYCLE_OFF_WAIT, Powercycle_Timer_Ms (n_tmr n) + elapsed l).
Proof.
  intros Hs Ht Hl; revert n h Hs Ht; induction Hl as [|[dt i] l Hdt Hl IH]; intros n h Hs Ht He.
  - cbn; unfold pc; rewrite Hs, Z.add_0_r; done.
  - cbn [iterations elapsed fold_right fst] in *; rewrite result_bind; fold (elapsed l) in *.
    pose proof (elapsed_nonneg l Hl).
    destruct (keeps_after_powercycle dt i n h) as (n1 & h1 & Hn1 & Hpc & _).
    destruct (powercycle_wait dt n h1 Hs Ht Hdt ltac:(lia)) as [_ Hw]; rewrite <- Hn1 in Hw.
    set (n2 := result (loop_rest dt i n) h) in *; clearbody n2; rewrite Hw in Hpc.
    injection Hpc as Hs2 Ht2; rewrite IH; [f_equal; lia|done|lia..].
Qed.
End PowerCycle.

(** ** The node's invariant *)

Definition link_ok (l : link) : Prop :=
  0 <= Usart2_Tc_Timeouts l < USART2_TX_REINIT_AFTER /\ 0 <= Dma_Rx_Tail l < DMA_RX_BUF_SIZE.
Definition node_inv (n : node) : Prop :=
  pd_inv (n_pd n) /\ link_ok (n_link n) /\ rx_inv (n_rx n).

Section NodeInvariant.
Context `{D : Dev} `{U : Uart} `{P : Phy}.

Lemma link_send_bytes buf l : link_ok l -> always (Usart2_Send_Bytes buf l) link_ok.
Proof.
  intros [H1 H2] h; unfold result; destruct (send_bytes_spec buf l h H1) as (k & _ & ->).
  unfold sent, link_ok; repeat case_match; to_prop; cbn [fst Usart2_Tc_Timeouts Dma_Rx_Tail upd];
    unfold USART2_TX_REINIT_AFTER, DMA_RX_BUF_SIZE in *; cbn in *; lia.
Qed.

Lemma link_send_frame dst cls op flags seq payload l :
  link_ok l -> always (send_frame dst cls op flags seq payload l) link_ok.
Proof.
  intros Hl; unfold send_frame; do 2 (eapply always_bind; [apply link_send_bytes; done|intros ? ?]).
  apply link_send_bytes; done.
Qed.
Lemma link_send_event dst cls op payload l :
  link_ok l -> always (send_event dst cls op payload l) link_ok.
Proof. intros Hl; apply link_send_frame; done. Qed.
Lemma link_send_events evs l : link_ok l -> always (wups_send_power_events evs l) link_ok.
Proof.
  revert l; induction evs as [|e evs IH]; intros l Hl; [apply always_ret; done|].
  cbn [wups_send_power_events]; eapply always_bind; [apply link_send_event; done|intros; apply IH; done].
Qed.

Lemma inv_on_link m n :
  node_inv n -> always (m (n_link n)) link_ok -> always (on_link m n) node_inv.
Proof.
  intros (H1 & _ & H3) Hm; unfold on_link; eapply always_bind; [exact Hm|].
  intros l Hl; apply always_ret; split_and!; done.
Qed.
Lemma inv_on_pd m n :
  node_inv n -> always (m (n_pd n)) pd_inv -> always (on_pd m n) node_inv.
Proof.
  intros (_ & H2 & H3) Hm; unfold on_pd; eapply always_bind; [exact Hm|].
  intros l Hl; apply always_ret; split_and!; done.
Qed.

Lemma inv_bind {B} (m : M node) (k : node -> M B) Q :
  always m node_inv -> (forall n, node_inv n -> always (k n) Q) -> always (bind m k) Q.
Proof. apply always_bind. Qed.

Lemma inv_log level text n : node_inv n -> always (on_link (wups_send_log level text) n) node_inv.
Proof. intros Hn; apply inv_on_link; [done|apply link_send_event, Hn]. Qed.
Lemma inv_status_send dst flags seq up n :
  node_inv n -> always (wups_send_power_status dst flags seq up n) node_inv.
Proof.
  intros Hn; unfold wups_send_power_status; do 2 (apply always_bind_any; intros ?).
  apply inv_on_link; [exact Hn|apply link_send_frame, Hn].
Qed.

Lemma inv_handle up f n : node_inv n -> always (wups_handle_frame up f n) node_inv.
Proof.
  intros Hn; unfold wups_handle_frame, handle_system, handle_power.
  repeat case_match; ret_by Hn.
  - apply inv_on_link; [done|apply link_send_frame, Hn].
  - apply inv_status_send, Hn.
  - apply inv_on_pd; [done|apply inv_restart, Hn].
  - apply inv_on_pd; [done|apply inv_vbus_disable; [left; lia|apply Hn]].
  - eapply always_bind; [apply inv_on_pd; [done|apply inv_vbus_disable; [left; lia|apply Hn]]|].
    intros n' Hn'; apply always_ret; exact Hn'.
  - do 2 (apply always_bind_any; intros _); apply always_ret; exact Hn.
Qed.

Lemma inv_rx_one up ring n : all_u8 ring -> node_inv n -> always (rx_one up ring n) node_inv.
Proof.
  intros Hr (H1 & H2 & H3); unfold rx_one.
  assert (Hb : is_u8 (nth (Z.to_nat (Dma_Rx_Tail (n_link n))) ring 0)).
  { destruct (nth_in_or_default (Z.to_nat (Dma_Rx_Tail (n_link n))) ring 0) as [Hin| ->]; [|lia].
    unfold all_u8 in Hr; rewrite List.Forall_forall in Hr; apply Hr, Hin. }
  destruct (rx_step_inv (n_rx n) _ Hb H3) as (Hrx & _).
  destruct (wups_rx_byte _ _) as [r out]; cbn [fst] in Hrx.
  assert (Hl : link_ok (n_link n <| Dma_Rx_Tail := u16 ((Dma_Rx_Tail (n_link n) + 1) mod DMA_RX_BUF_SIZE) |>
                          <| Uart_Rx_Total := u32 (Uart_Rx_Total (n_link n) + 1) |>)).
  { destruct H2 as [Ht Hd]; split; [exact Ht|]; cbn [Dma_Rx_Tail upd].
    unfold DMA_RX_BUF_SIZE; pose proof (Z.mod_pos_bound (Dma_Rx_Tail (n_link n) + 1) 256).
    rewrite u16_small by lia; lia. }
  destruct out; [apply inv_handle|apply always_ret]; split_and!; done.
Qed.

Lemma inv_service now n : node_inv n -> always (PD_Service now n) node_inv.
Proof. intros Hn; unfold PD_Service; apply inv_on_pd; [exact Hn|apply inv_main; [lia|apply Hn]]. Qed.
Lemma inv_powercycle dt n : node_inv n -> always (powercycle_tick dt n) node_inv.
Proof.
  intros Hn; unfold powercycle_tick; repeat case_match; ret_by Hn.
  eapply always_bind; [apply inv_on_pd; [exact Hn|apply inv_restart, Hn]|].
  intros n' Hn'; apply always_ret; exact Hn'.
Qed.
Lemma inv_detect dt cc n : node_inv n -> always (pd_detect_block dt cc n) node_inv.
Proof.
  intros Hn; unfold pd_detect_block; case_match; [|apply always_ret; exact Hn].
  apply inv_on_pd; [exact Hn|apply inv_det, Hn].
Qed.
Lemma inv_evt_drain n : node_inv n -> always (PD_Evt_Drain n) node_inv.
Proof.
  intros Hn; unfold PD_Evt_Drain; repeat case_match; ret_by Hn.
  apply inv_log; exact Hn.
Qed.
Lemma inv_reapply s : pd_inv s -> always (tps_reapply s) pd_inv.
Proof.
  intros Hs; unfold tps_reapply; destruct (_ && _) eqn:Hc; [|apply always_ret; done].
  assert (Hin : Tps_Set s ∈ setpoints) by apply Hs.
  assert (Hr : 33 <= g_voltage_set_v10 (Tps_Set s) <= 200 /\ 0 <= g_current_set_a10 (Tps_Set s) <= 63).
  { to_prop; unfold setpoints, tps55289_get_voltage_set_v10, tps55289_get_current_set_a10 in *.
    rewrite !elem_of_cons, elem_of_nil in Hin.
    destruct Hin as [E|[E|[E|[E|[E|[E|[]]]]]]]; rewrite E in *; cbn in *; lia. }
  eapply always_weaken; [eapply always_tps; [apply Hr|apply Hr| |exact Hs]|intros s' [? _]; done].
  destruct (Tps_Set s); exact Hin.
Qed.
Lemma inv_tps_block dt n : node_inv n -> always (tps_block dt n) node_inv.
Proof.
  intros Hn; unfold tps_block; case_match; [|apply always_ret; exact Hn].
  do 3 (apply always_bind_any; intros ?); apply inv_on_pd; [exact Hn|apply inv_reapply, Hn].
Qed.

Lemma inv_temp_block dt n : node_inv n -> always (temp_block dt n) node_inv.
Proof.
  intros Hn; unfold temp_block; case_match; [|ret_by Hn].
  apply always_bind_any; intros c; ret_by Hn.
Qed.
Lemma inv_chg_block dt n : node_inv n -> always (chg_block dt n) node_inv.
Proof.
  intros Hn; unfold chg_block; case_match; [|ret_by Hn].
  do 4 (apply always_bind_any; intros ?); ret_by Hn.
Qed.
Lemma inv_bat_block dt n : node_inv n -> always (bat_block dt n) node_inv.
Proof.
  intros Hn; unfold bat_block; case_match; [|ret_by Hn].
  apply always_bind_any; intros b; destruct (mp2762a_battery_inserted b) as [b' ins].
  apply always_bind_any; intros _; case_match; [|ret_by Hn].
  apply always_bind_any; intros _; ret_by Hn.
Qed.
Lemma inv_diag_block dt svc n : node_inv n -> always (diag_block dt svc n) node_inv.
Proof.
  intros Hn; unfold diag_block; case_match; [|ret_by Hn].
  apply inv_bind; [|intros n1 H1].
  { case_match; [ret_by Hn|]; apply always_bind_any; intros r; apply inv_log; exact Hn. }
  apply inv_bind; [apply inv_log; exact H1|intros n2 H2].
  apply inv_bind; [|intros n3 H3; apply inv_service; exact H3].
  case_match; [apply inv_log; exact H2|ret_by H2].
Qed.
Lemma inv_status_block dt now n : node_inv n -> always (status_block dt now n) node_inv.
Proof.
  intros Hn; unfold status_block; case_match; [|ret_by Hn].
  apply always_bind_any; intros _; destruct (wups_power_event_tick _ _) as [e evs].
  apply inv_bind; [apply inv_on_link; [exact Hn|apply link_send_events, Hn]|intros n1 H1].
  apply inv_status_send; exact H1.
Qed.

Lemma inv_loop_rest dt i n : node_inv n -> always (loop_rest dt i n) node_inv.
Proof.
  intros Hn; unfold loop_rest.
  apply inv_bind; [apply inv_powercycle; exact Hn|intros n1 H1].
  apply inv_bind; [apply inv_detect; exact H1|intros n2 H2].
  apply inv_bind; [apply inv_service; exact H2|intros n3 H3].
  apply inv_bind; [apply inv_evt_drain; exact H3|intros n4 H4].
  apply inv_bind; [apply inv_temp_block; exact H4|intros n5 H5].
  apply inv_bind; [apply inv_tps_block; exact H5|intros n6 H6].
  apply inv_bind; [apply inv_service; exact H6|intros n7 H7].
  apply inv_bind; [apply inv_chg_block; exact H7|intros n8 H8].
  apply inv_bind; [apply inv_service; exact H8|intros n9 H9].
  apply inv_bind; [apply inv_bat_block; exact H9|intros n10 H10].
  apply inv_bind; [apply inv_diag_block; exact H10|intros n11 H11].
  apply inv_status_block; exact H11.
Qed.

Lemma inv_drain fuel up ring head n :
  all_u8 ring -> node_inv n ->
  always (drain fuel up ring head n) (fun o => forall n', o = Some n' -> node_inv n').
Proof.
  intros Hr; revert n; induction fuel as [|fuel IH]; intros n Hn; cbn [drain].
  - case_match; apply always_ret; intros ? [=]; subst; exact Hn.
  - case_match; [apply always_ret; intros ? [=]; subst; exact Hn|].
    apply inv_bind; [apply inv_rx_one; [done|exact Hn]|apply IH].
Qed.

Lemma inv_loop_body fuel i n :
  all_u8 (in_ring i) -> node_inv n ->
  always (loop_body fuel i n) (fun o => forall n', o = Some n' -> node_inv n').
Proof.
  intros Hr Hn; unfold loop_body, Cmd_Rx_Drain; eapply always_bind.
  { apply inv_drain; [exact Hr|]; case_match; exact Hn. }
  intros [n1|] H1; [|apply always_ret; done]; specialize (H1 n1 eq_refl); case_match.
  - apply always_ret; intros ? [=]; subst; exact H1.
  - apply inv_bind; [apply inv_loop_rest; exact H1|].
    intros n2 H2; apply always_ret; intros ? [=]; subst; exact H2.
Qed.
End NodeInvariant.

(** Steps of the running node: a loop iteration, a PD interrupt, a timer tick
    (whose state the iterations see through [in_isr]). *)
Inductive node_step `{D : Dev} `{U : Uart} `{P : Phy} : node * list eff -> node * list eff -> Prop :=
  | step_loop fuel i n n' h :
      all_u8 (in_ring i) -> n_reset n = false ->
      result (loop_body fuel i n) h = Some n' ->
      node_step (n, h) (n', h ++ effects (loop_body fuel i n) h)
  | step_pd_irq i n h :
      n_reset n = false ->
      node_step (n, h) (result (on_pd (USBPD_IRQHandler i) n) h,
                        h ++ effects (on_pd (USBPD_IRQHandler i) n) h)
  | step_tick adc s n h :
      node_step (n, h) (n, h ++ effects (TIM1_UP_IRQHandler adc s) h).

Section NodeRuns.
Context `{D : Dev} `{U : Uart} `{P : Phy}.

Lemma inv_node_init : node_inv node_init.
Proof.
  split_and!; [apply inv_init; lia|split; split; (done || reflexivity)|apply rx_inv_init].
Qed.

Lemma inv_node_step x y : node_inv x.1 -> node_step x y -> node_inv y.1.
Proof.
  intros Hx Hs; destruct Hs as [fuel i n n' h Hr _ Hn'|i n h _|adc s n h]; cbn [fst] in *.
  - exact (inv_loop_body fuel i n Hr Hx h n' Hn').
  - apply (inv_on_pd (USBPD_IRQHandler i) n Hx (inv_irq i (n_pd n) (proj1 Hx)) h).
  - exact Hx.
Qed.

(** Main's state when its loop starts. *)
Lemma inv_main_init a b : always (main_init a b) node_inv.
Proof.
  unfold main_init; do 6 (apply always_bind_any; intros _).
  apply inv_bind; [apply inv_on_link; [apply inv_node_init|apply link_send_event, inv_node_init]|].
  intros n Hn; apply inv_bind; [|intros n1 H1; apply always_bind_any; intros _; ret_by H1].
  repeat case_match; [apply inv_log; exact Hn|apply inv_log; exact Hn|ret_by Hn].
Qed.
End NodeRuns.

(** ** Request handling and the receive ring *)

(** The requests the node acts on. *)
Definition actionable (f : frame) : bool :=
  for_us (f_dst f) && has (f_flags f) WUPS_FLAG_REQ &&
  (((f_cls f =? WUPS_CLASS_SYSTEM) &&
    ((f_op f =? WUPS_OP_SYS_PING) || (f_op f =? WUPS_OP_SYS_STATUS_QUERY))) ||
   ((f_cls f =? WUPS_CLASS_POWER) && (WUPS_OP_PWR_ENABLE <=? f_op f) && (f_op f <=? WUPS_OP_PWR_RESET))).

(** The response to a request, if it has one; [st] is the status payload. *)
Definition response (up : Z) (st : list Z) (f : frame) : option frame :=
  if negb (actionable f) || negb (f_cls f =? WUPS_CLASS_SYSTEM) then None
  else if f_op f =? WUPS_OP_SYS_PING
  then Some (Frame (f_src f) WUPS_ADDR_CH32X WUPS_CLASS_SYSTEM WUPS_OP_SYS_PING WUPS_FLAG_RESP
               (f_seq f) (pong_payload up))
  else Some (Frame (f_src f) WUPS_ADDR_CH32X WUPS_CLASS_POWER WUPS_OP_PWR_STATUS WUPS_FLAG_RESP
               (f_seq f) st).

(** The ring's bytes from the tail up to the head, going round. *)
Definition ring_slice (ring : list Z) (tail head : Z) : list Z :=
  (fun k => nth (Z.to_nat ((tail + k) mod DMA_RX_BUF_SIZE)) ring 0) <$>
    seqZ 0 ((head - tail) mod DMA_RX_BUF_SIZE).

Section Requests.
Context `{D : Dev} `{U : Uart} `{P : Phy}.

Lemma handle_ignored up f n h : actionable f = false -> wups_handle_frame up f n h = (n, []).
Proof.
  unfold actionable, wups_handle_frame, handle_system, handle_power.
  unfold WUPS_OP_PWR_ENABLE, WUPS_OP_PWR_DISABLE, WUPS_OP_PWR_CYCLE, WUPS_OP_PWR_RESET.
  intros Ha; destruct (for_us (f_dst f)), (has (f_flags f) WUPS_FLAG_REQ); cbn [negb andb] in *;
    rewrite ?andb_false_r; cbn [andb];
    destruct (f_cls f =? WUPS_CLASS_SYSTEM) eqn:Hs; try done.
  - destruct (f_cls f =? WUPS_CLASS_POWER) eqn:Hp; [to_prop; rewrite Hs in Hp; discriminate Hp|].
    cbn [andb] in Ha; rewrite orb_false_r in Ha; apply orb_false_iff in Ha as [H1 H2].
    rewrite H1, H2; done.
  - destruct (f_cls f =? WUPS_CLASS_POWER) eqn:Hp; [|done]; cbn [andb orb] in *.
    repeat match goal with |- context [f_op f =? ?k] =>
      let E := fresh in
      destruct (Z.eqb_spec (f_op f) k) as [E|E]; [rewrite E in Ha; discriminate Ha|clear E] end; done.
Qed.

(** What a handler's frame looks like on the wire. *)
Lemma on_link_sends dst cls op flags seq payload n h :
  (forall h, tc_ready h = true) -> Z.of_nat (length payload) <= WUPS_MAX_PAYLOAD ->
  uart_bytes (effects (on_link (send_frame dst cls op flags seq payload) n) h) =
  frame_bytes (Frame dst WUPS_ADDR_CH32X cls op flags seq payload) ++ [WUPS_GUARD_BYTE].
Proof.
  intros HU Hl; unfold on_link; rewrite effects_bind; unfold effects at 1.
  rewrite send_frame_healthy by done; cbn [snd]; rewrite uart_bytes_app, uart_bytes_tx.
  rewrite wups_send_frame_bytes by done; apply app_nil_r.
Qed.

Lemma length_status s : length (power_status_v2_bytes s) = 40%nat.
Proof. unfold power_status_v2_bytes; rewrite !length_app, !length_le_bytes; done. Qed.

Lemma status_sends dst flags seq up n h :
  (forall h, tc_ready h = true) ->
  exists st, length st = 40%nat /\
    uart_bytes (effects (wups_send_power_status dst flags seq up n) h) =
    frame_bytes (Frame dst WUPS_ADDR_CH32X WUPS_CLASS_POWER WUPS_OP_PWR_STATUS flags seq st) ++
    [WUPS_GUARD_BYTE].
Proof.
  intros HU; unfold wups_send_power_status; rewrite !effects_bind.
  match goal with |- context [power_status_v2_bytes ?s] => exists (power_status_v2_bytes s) end.
  split; [apply length_status|]; cbn [app effects pin_get snd].
  rewrite on_link_sends; [done|done|rewrite length_status; vm_compute; discriminate].
Qed.

Lemma effs_uart_silent (es : list eff) :
  Forall (fun e => match e with UartTx _ => False | _ => True end) es -> uart_bytes es = [].
Proof. induction 1 as [|e es He _ IH]; [done|]; destruct e; done. Qed.

Lemma power_silent f n h : uart_bytes (effects (handle_power f n) h) = [].
Proof.
  unfold handle_power; repeat case_match; try done; unfold on_pd, Power_Output_Restart;
    autorewrite with ups; unfold effects at 1; rewrite ?vbus_set_5v_exact, ?vbus_disable_exact; done.
Qed.

Lemma handle_sends up f n h :
  (forall h, tc_ready h = true) ->
  exists st, length st = 40%nat /\
    uart_bytes (effects (wups_handle_frame up f n) h) =
      match response up st f with Some r => frame_bytes r ++ [WUPS_GUARD_BYTE] | None => [] end.
Proof.
  intros HU; destruct (actionable f) eqn:Ha.
  2: { exists (replicate 40 0); unfold effects, response; rewrite handle_ignored, Ha by done; done. }
  unfold response, wups_handle_frame; rewrite Ha; unfold actionable in Ha; cbn [negb orb].
  apply andb_true_iff in Ha as [Ha Hc]; apply andb_true_iff in Ha as [-> Hr]; cbn [negb].
  destruct (f_cls f =? WUPS_CLASS_SYSTEM) eqn:Hs; cbn [negb].
  - unfold handle_system; rewrite Hr, !andb_true_r; destruct (f_op f =? WUPS_OP_SYS_PING) eqn:Hop.
    + exists (replicate 40 0); split; [done|]; apply on_link_sends; [done|vm_compute; discriminate].
    + destruct (f_cls f =? WUPS_CLASS_POWER) eqn:Hp; [to_prop; rewrite Hs in Hp; discriminate Hp|].
      cbn [andb orb] in Hc; rewrite orb_false_r in Hc; rewrite Hc; apply status_sends; done.
  - exists (replicate 40 0); split; [done|]; case_match; [apply power_silent|done].
Qed.

(** With a healthy transmitter the handler leaves the ring index alone. *)
Definition same_ring (n n' : node) : Prop :=
  Dma_Rx_Tail (n_link n') = Dma_Rx_Tail (n_link n) /\ n_rx n' = n_rx n.
Lemma ring_on_link dst cls op flags seq payload n :
  (forall h, tc_ready h = true) ->
  always (on_link (send_frame dst cls op flags seq payload) n) (same_ring n).
Proof.
  intros HU h; unfold on_link; rewrite result_bind; unfold result at 2.
  rewrite send_frame_healthy by done; done.
Qed.
Lemma ring_on_pd m n : always (on_pd m n) (same_ring n).
Proof. intros h; unfold on_pd; rewrite result_bind; done. Qed.

Lemma handle_keeps_ring up f n :
  (forall h, tc_ready h = true) -> always (wups_handle_frame up f n) (same_ring n).
Proof.
  intros HU; assert (Hn : same_ring n n) by done.
  unfold wups_handle_frame, handle_system, handle_power; repeat case_match; ret_by Hn;
    lazymatch goal with
    | |- always (on_link _ _) _ => apply ring_on_link; done
    | |- always (on_pd _ _) _ => apply ring_on_pd
    | _ => idtac
    end.
  - unfold wups_send_power_status; do 2 (apply always_bind_any; intros ?).
    eapply always_weaken; [apply ring_on_link; done|intros n' Hn'; exact Hn'].
  - eapply always_bind; [apply ring_on_pd|intros n' Hn'; apply always_ret; exact Hn'].
  - do 2 (apply always_bind_any; intros _); ret_by Hn.
Qed.

Lemma slice_nil ring tail : ring_slice ring tail tail = [].
Proof. unfold ring_slice; rewrite Z.sub_diag; done. Qed.
Lemma slice_cons ring tail head :
  0 <= tail < DMA_RX_BUF_SIZE -> 0 <= head < DMA_RX_BUF_SIZE -> tail <> head ->
  ring_slice ring tail head =
  nth (Z.to_nat tail) ring 0 :: ring_slice ring ((tail + 1) mod DMA_RX_BUF_SIZE) head.
Proof.
  unfold ring_slice, DMA_RX_BUF_SIZE; intros Ht Hh Hne.
  assert (Hk : (head - tail) mod 256 <> 0).
  { intros E; apply Z.div_exact in E; [|lia].
    assert (-1 <= (head - tail) / 256 < 1) by (split; [apply Z.div_le_lower_bound|apply Z.div_lt_upper_bound]; lia).
    lia. }
  pose proof (Z.mod_pos_bound (head - tail) 256 ltac:(lia)).
  rewrite seqZ_cons, fmap_cons by lia; f_equal.
  { rewrite Z.add_0_r, Z.mod_small by lia; done. }
  assert (Z.pred ((head - tail) mod 256) = (head - (tail + 1) mod 256) mod 256) as ->.
  { rewrite Zminus_mod_idemp_r; replace (head - (tail + 1)) with (head - tail - 1) by lia.
    rewrite <- (Zminus_mod_idemp_l (head - tail) 1 256), (Z.mod_small (_ - 1)) by lia; lia. }
  rewrite <- (fmap_add_seqZ 1 0), <- list_fmap_compose; apply list_fmap_ext; intros i k _.
  cbn; rewrite Zplus_mod_idemp_l; do 3 f_equal; lia.
Qed.
End Requests.

(** One output per frame, in order. *)
Definition answers (up : Z) (fs : list frame) (out : list Z) : Prop :=
  exists outs, out = concat outs /\
    Forall2 (fun f o => exists st, length st = 40%nat /\
      o = match response up st f with Some r => frame_bytes r ++ [WUPS_GUARD_BYTE] | None => [] end)
      fs outs.

Section Drain.
Context `{D : Dev} `{U : Uart} `{P : Phy} (HU : forall h, tc_ready h = true).

(** One byte: the deframer steps, the delivered frame is answered. *)
Lemma rx_one_spec up ring n h :
  let l := n_link n in
  let c := nth (Z.to_nat (Dma_Rx_Tail l)) ring 0 in
  0 <= Dma_Rx_Tail l < DMA_RX_BUF_SIZE ->
  Dma_Rx_Tail (n_link (result (rx_one up ring n) h)) = (Dma_Rx_Tail l + 1) mod DMA_RX_BUF_SIZE /\
  n_rx (result (rx_one up ring n) h) = (wups_rx_byte (n_rx n) c).1 /\
  answers up (option_list (wups_rx_byte (n_rx n) c).2) (uart_bytes (effects (rx_one up ring n) h)).
Proof using HU.
  intros l c Hl; unfold rx_one; fold l c; destruct (wups_rx_byte (n_rx n) c) as [r out]; cbn [fst snd].
  unfold DMA_RX_BUF_SIZE; pose proof (Z.mod_pos_bound (Dma_Rx_Tail l + 1) 256 ltac:(lia)).
  rewrite u16_small by lia; destruct out as [f|]; cbn [option_list].
  - match goal with |- context [wups_handle_frame up f ?n0] =>
      destruct (handle_keeps_ring up f n0 HU h) as [-> ->];
      destruct (handle_sends up f n0 h HU) as (st & Hst & Hb) end.
    split_and!; [done..|]; exists [uart_bytes (effects (wups_handle_frame up f (n
      <| n_link := l <| Dma_Rx_Tail := (Dma_Rx_Tail l + 1) mod 256 |>
           <| Uart_Rx_Total := u32 (Uart_Rx_Total l + 1) |> |> <| n_rx := r |>)) h)].
    split; [cbn [concat]; rewrite app_nil_r; done|]; repeat constructor; exists st; done.
  - split_and!; [done..|]; exists []; done.
Qed.

Lemma drain_spec fuel up ring head n h :
  0 <= Dma_Rx_Tail (n_link n) < DMA_RX_BUF_SIZE -> 0 <= head < DMA_RX_BUF_SIZE ->
  (length (ring_slice ring (Dma_Rx_Tail (n_link n)) head) <= fuel)%nat ->
  exists n', result (drain fuel up ring head n) h = Some n' /\
    (n_reset n' = true \/
     (Dma_Rx_Tail (n_link n') = head /\
      n_rx n' = (feed (n_rx n) (ring_slice ring (Dma_Rx_Tail (n_link n)) head)).1 /\
      answers up (delivered (n_rx n) (ring_slice ring (Dma_Rx_Tail (n_link n)) head))
        (uart_bytes (effects (drain fuel up ring head n) h)))).
Proof using HU.
  intros Ht Hh; revert n h Ht; induction fuel as [|fuel IH]; intros n h Ht Hf; cbn [drain];
    destruct (n_reset n) eqn:Hr; cbn [orb]; try (exists n; split; [done|auto]; done);
    destruct (Z.eqb_spec (Dma_Rx_Tail (n_link n)) head) as [E|E];
    try (exists n; split; [done|right]; rewrite E, slice_nil; split_and!; [done..|exists []; done]).
  - rewrite slice_cons in Hf by done; cbn in Hf; lia.
  - rewrite slice_cons in * by done; set (c := nth _ ring 0) in *.
    rewrite result_bind, effects_bind, uart_bytes_app.
    destruct (rx_one_spec up ring n h Ht) as (Htl & Hrx & outs & Ho & Hf2); fold c in Hrx, Hf2.
    set (n1 := result (rx_one up ring n) h) in *; clearbody n1.
    destruct (IH n1 (h ++ effects (rx_one up ring n) h)) as (n' & Hn' & Hor).
    { rewrite Htl; apply Z.mod_pos_bound; done. }
    { rewrite Htl; cbn in Hf; lia. }
    exists n'; split; [done|]; destruct Hor as [?|(Hd & Hx & outs' & Ho' & Hf')]; [auto|right].
    rewrite Htl, Hrx in *; unfold delivered in *; rewrite feed_cons.
    destruct (wups_rx_byte (n_rx n) c) as [r1 o1]; cbn [fst snd] in *.
    destruct (feed r1 _) as [r2 os]; cbn [fst snd] in *; split_and!; [done..|].
    exists (outs ++ outs'); rewrite Ho, Ho', concat_app; split; [done|].
    replace (omap id (o1 :: os)) with (option_list o1 ++ omap id os) by (destruct o1; done).
    apply Forall2_app; done.
Qed.
End Drain.


(** What the rail watchdog does to the converter. *)
Lemma on_pd_reapply n h :
  Tps_Set (n_pd n) ∈ setpoints ->
  let es := effects (on_pd tps_reapply n) h in
  let t := Tps_Set (n_pd n) in
  writes es = (if 0 <? g_voltage_set_v10 t
               then setpoint_writes (g_voltage_set_v10 t) (g_current_set_a10 t) else []) /\
  Forall (fun e => match e with PinSet _ _ => False | _ => True end) es /\
  Tps_Set (n_pd (result (on_pd tps_reapply n) h)) = t.
Proof.
  intros Hin es t; subst es; unfold on_pd; rewrite effects_bind, result_bind, app_nil_r.
  unfold tps_reapply, tps55289_get_voltage_set_v10, tps55289_get_current_set_a10; fold t in Hin |- *.
  assert (Hr : t = Tps 0 0 \/ 33 <= g_voltage_set_v10 t <= 200 /\ 0 < g_current_set_a10 t <= 63).
  { unfold setpoints in Hin; rewrite !elem_of_cons, elem_of_nil in Hin.
    destruct Hin as [E|[E|[E|[E|[E|[E|[]]]]]]]; rewrite E; cbn; auto; right; lia. }
  destruct Hr as [Hr|[Hv Ha]]; [rewrite Hr; done|].
  destruct (Z.ltb_spec 0 (g_voltage_set_v10 t)), (Z.ltb_spec 0 (g_current_set_a10 t)); try lia.
  cbn [andb]; unfold effects, result; rewrite tps_apply_exact by lia; cbn [fst snd ret].
  rewrite writes_i2c_effs; split_and!; [done|repeat constructor|destruct t; done].
Qed.

(** ** Text lines *)

Definition dec_value (l : list Z) : Z := fold_left (fun v d => 10 * v + (d - 48)) l 0.

Section Lines.
Lemma length_hex b : length (emit_hex b) = 2%nat.
Proof. done. Qed.
Lemma length_c10 v : (length (emit_c10 v) <= 7)%nat.
Proof. unfold emit_c10; repeat case_match; cbn; lia. Qed.
Lemma length_digits fuel v acc : (length (u16_digits fuel v acc) <= fuel + length acc)%nat.
Proof.
  revert v acc; induction fuel as [|fuel IH]; intros v acc; cbn [u16_digits]; [lia|].
  case_match; [lia|]; specialize (IH (v / 10) (digit (v mod 10) :: acc)); cbn in IH; lia.
Qed.
Lemma length_u16 v : (length (emit_u16 v) <= 5)%nat.
Proof. unfold emit_u16; case_match; [cbn; lia|]; pose proof (length_digits 5 v []); cbn in *; lia. Qed.

Lemma length_slot (b : bool) x : (length (if b then emit_u16 x else [45%Z]) <= 5)%nat.
Proof. destruct b; [apply length_u16|cbn; lia]. Qed.

(** The digits in front of [acc] write [v]. *)
Lemma digits_value fuel v acc :
  0 <= v < 10 ^ Z.of_nat fuel ->
  dec_value (u16_digits fuel v acc) = fold_left (fun v d => 10 * v + (d - 48)) acc v.
Proof.
  revert v acc; induction fuel as [|fuel IH]; intros v acc Hv.
  - cbn in *; replace v with 0 by lia; done.
  - cbn [u16_digits]; rewrite Nat2Z.inj_succ, Z.pow_succ_r in Hv by lia.
    destruct (Z.eqb_spec v 0) as [->|]; [done|]; rewrite IH.
    + cbn [fold_left]; f_equal; unfold digit; pose proof (Z.div_mod v 10); lia.
    + split; [apply Z.div_pos; lia|apply Z.div_lt_upper_bound; lia].
Qed.
End Lines.

Ltac str_lengths :=
  repeat match goal with
  | |- context [length (str ?s)] =>
      let n := eval vm_compute in (length (str s)) in change (length (str s)) with n
  end.

(** ** Properties *)

(** The power-cycle window.  After a cycle command the output stays off
    while the iterations add up to less than 1500 ms, with no iteration ending
    the wait early, and the iteration that completes them starts by switching
    the output on at 5 V / 3 A and ends the wait. *)
Theorem power_cycle_window `{D : Dev} `{U : Uart} `{P : Phy} n l dt i h :
  pc n = (POWERCYCLE_OFF_WAIT, 0) ->
  Forall (fun x => is_u8 x.1) l -> is_u8 dt ->
  elapsed l < POWERCYCLE_OFF_MS <= elapsed l + dt ->
  let n1 := result (iterations l n) h in
  let h1 := h ++ effects (iterations l n) h in
  pc n1 = (POWERCYCLE_OFF_WAIT, elapsed l) /\
  output_on `prefix_of` effects (loop_rest dt i n1) h1 /\
  Powercycle_State (result (loop_rest dt i n1) h1) = POWERCYCLE_IDLE.
Proof.
  intros Hpc Hl Hdt He n1 h1; injection Hpc as Hs Ht.
  assert (Hl' : Forall (fun x : Z * loop_in => 0 <= x.1) l) by (apply (Forall_impl _ _ _ Hl); lia).
  pose proof (elapsed_nonneg l Hl').
  assert (Hn1 : pc n1 = (POWERCYCLE_OFF_WAIT, elapsed l)).
  { subst n1; rewrite iterations_wait by (try done; lia); rewrite Ht; done. }
  split; [done|]; clearbody n1 h1; injection Hn1 as Hs1 Ht1.
  assert (Hf : forall h, effects (powercycle_tick dt n1) h = output_on /\
    Powercycle_State (result (powercycle_tick dt n1) h) = POWERCYCLE_IDLE).
  { intros h2; apply powercycle_fire; try done; rewrite ?Ht1; unfold POWERCYCLE_OFF_MS in *; lia. }
  split.
  - unfold loop_rest; rewrite effects_bind, (proj1 (Hf h1)); eexists; reflexivity.
  - destruct (keeps_after_powercycle dt i n1 h1) as (n2 & h2 & -> & Hpc2 & _).
    injection Hpc2 as -> _; apply Hf.
Qed.

(** C36: invariant of the running controller.  From the end of start-up, under
    any sequence of whole loop iterations (with any received bytes), PD interrupts
    between them and timer ticks, the PD engine keeps its invariant, the timeout counter of the
    link stays below its re-initialisation threshold, the read index stays inside
    the ring, and the deframer keeps its invariant. *)
Theorem node_invariant `{D : Dev} `{U : Uart} `{P : Phy} iwdg sw h0 h1 x :
  rtc node_step (result (main_init iwdg sw) h0, h1) x -> node_inv x.1.
Proof.
  apply (rtc_preserves _ (fun x => node_inv x.1)); [|apply (inv_main_init iwdg sw h0)].
  intros; eapply inv_node_step; eauto.
Qed.

(** The node is a leaf.  A frame that is not a request addressed to it for an
    operation it owns changes nothing and causes no effect at all, so responses
    and events never provoke traffic; a ping or a status query is answered by
    exactly one response frame to its sender with its sequence number, and no
    other frame makes the node transmit. *)
Theorem requests_answered_once `{D : Dev} `{U : Uart} `{P : Phy} up f n h :
  (forall h, tc_ready h = true) ->
  (actionable f = false -> wups_handle_frame up f n h = (n, [])) /\
  exists st, length st = 40%nat /\
    uart_bytes (effects (wups_handle_frame up f n) h) =
      match response up st f with Some r => frame_bytes r ++ [WUPS_GUARD_BYTE] | None => [] end.
Proof. intros HU; split; [apply handle_ignored|apply handle_sends; done]. Qed.

(** The receive ring is drained in order.  256 iterations are always enough:
    the drain ends, by a requested reset or with the read index at the DMA's
    position; in the second case the bytes between the two positions went through
    the deframer once each, in order, and the transmitted bytes are the answers
    to the delivered frames, in order. *)
Theorem ring_drained_in_order `{D : Dev} `{U : Uart} `{P : Phy} up ore ring cntr n h :
  (forall h, tc_ready h = true) ->
  0 <= Dma_Rx_Tail (n_link n) < DMA_RX_BUF_SIZE -> 0 < cntr <= DMA_RX_BUF_SIZE ->
  let bytes := ring_slice ring (Dma_Rx_Tail (n_link n)) (DMA_RX_BUF_SIZE - cntr) in
  exists n', result (Cmd_Rx_Drain 256 up ore ring cntr n) h = Some n' /\
    (n_reset n' = true \/
     (Dma_Rx_Tail (n_link n') = DMA_RX_BUF_SIZE - cntr /\
      n_rx n' = (feed (n_rx n) bytes).1 /\
      answers up (delivered (n_rx n) bytes)
        (uart_bytes (effects (Cmd_Rx_Drain 256 up ore ring cntr n) h)))).
Proof.
  intros HU Ht Hc bytes; unfold Cmd_Rx_Drain, DMA_RX_BUF_SIZE in *; rewrite u16_small by lia.
  set (n0 := if ore then _ else n); assert (E : Dma_Rx_Tail (n_link n0) = Dma_Rx_Tail (n_link n) /\
    n_rx n0 = n_rx n) by (subst n0; destruct ore; done); destruct E as [E1 E2]; clearbody n0.
  subst bytes; rewrite <- E1, <- E2; apply drain_spec; unfold DMA_RX_BUF_SIZE; [done|lia|lia|].
  unfold ring_slice, DMA_RX_BUF_SIZE; rewrite length_fmap, length_seqZ.
  pose proof (Z.mod_pos_bound (256 - cntr - Dma_Rx_Tail (n_link n0)) 256); lia.
Qed.

(** The rail watchdog is safe.  When its two seconds are up and a set point
    is cached it writes exactly that set point, output on; otherwise it writes
    nothing, in particular nothing while the rail is off.  It drives no pin and
    never changes the cached set point. *)
Theorem rail_watchdog_safe `{D : Dev} dt n h :
  pd_inv (n_pd n) ->
  let es := effects (tps_block dt n) h in
  let t := Tps_Set (n_pd n) in
  writes es = (if (TPS_INTERVAL_MS <=? u16 (Tps_Timer_Ms (n_tmr n) + dt)) &&
                  (0 <? g_voltage_set_v10 t)
               then setpoint_writes (g_voltage_set_v10 t) (g_current_set_a10 t) else []) /\
  Forall (fun e => match e with PinSet _ _ => False | _ => True end) es /\
  Tps_Set (n_pd (result (tps_block dt n) h)) = t.
Proof.
  intros Hi es t; subst es; unfold tps_block.
  set (n0 := with_tmr (fun t => t <| Tps_Timer_Ms := _ |>) n).
  change (Tps_Timer_Ms (n_tmr n0)) with (u16 (Tps_Timer_Ms (n_tmr n) + dt)).
  destruct (TPS_INTERVAL_MS <=? u16 (Tps_Timer_Ms (n_tmr n) + dt)); [|done]; cbn [andb].
  rewrite !effects_bind, !result_bind, !writes_app, !Forall_app.
  match goal with |- context [on_pd tps_reapply ?n'] => set (n1 := n') end.
  assert (Hn1 : Tps_Set (n_pd n1) = t) by done; clearbody n1.
  match goal with |- context [effects (on_pd tps_reapply n1) ?h'] => set (h1 := h'); clearbody h1 end.
  destruct (on_pd_reapply n1 h1) as (Hw & Hp & Ht); [rewrite Hn1; apply Hi|].
  rewrite Hn1 in Hw, Ht; split_and!; [exact Hw|repeat constructor..|exact Hp|exact Ht].
Qed.
(** The diagnostic text never overruns its buffer.  Every line, with its
    terminating NUL, fits the array it is built in, whatever the registers and
    measurements, and decimal fields are exact. *)
Theorem diagnostic_lines_fit r board tj hd caps sel e v :
  (length (mp2762a_line r board tj) + 1 <= 160)%nat /\
  (length (husb_line hd) + 1 <= 72)%nat /\
  (length (caps_line caps sel) + 1 <= 96)%nat /\
  (length (default [] (pd_evt_text e)) + 1 <= 32)%nat /\
  (is_u16 v -> dec_value (emit_u16 v) = v).
Proof.
  split_and!.
  - unfold mp2762a_line; pose proof (length_c10 board).
    assert (length (if (tj =? -32768)%Z then str "NA" else emit_c10 tj) <= 7)%nat
      by (case_match; [vm_compute; lia|apply length_c10]).
    rewrite !length_app, !length_hex; str_lengths; lia.
  - unfold husb_line; pose proof (length_u16 (voltage_mV hd)); pose proof (length_u16 (current_mA hd)).
    rewrite !length_app; str_lengths; cbn [length]; lia.
  - unfold caps_line, HLBL; cbn [imap concat]; unfold compose; rewrite !length_app; str_lengths.
    pose proof (length_u16 (husb238_sel_to_mV sel)).
    repeat match goal with |- context [length (if ?b then emit_u16 ?x else _)] =>
      generalize (length_slot b x); set (length (if b then _ else _)); intros
    end; cbn [length]; lia.
  - unfold pd_evt_text; repeat case_match; unfold default, id, from_option; rewrite ?length_app; str_lengths; cbn [length]; lia.
  - intros Hv; unfold emit_u16; destruct (Z.eqb_spec v 0) as [->|]; [done|].
    rewrite digits_value; [done|]; change (10 ^ Z.of_nat 5) with 100000; lia.
Qed.

Lemma node_invariant_witness :
  let D : Dev := const_dev 0 in let U : Uart := fun _ => true in let P : Phy := good_phy in
  node_inv (result (on_pd (USBPD_IRQHandler (PdIrq None true false)) (result (main_init true false) []))
              (effects (main_init true false) [])).
Proof.
  intros D U P; set (i := PdIrq None true false).
  set (n := result (main_init true false) []); set (h := effects (main_init true false) []).
  apply (node_invariant true false [] h
    (result (on_pd (USBPD_IRQHandler i) n) h, h ++ effects (on_pd (USBPD_IRQHandler i) n) h)).
  apply rtc_once; exact (step_pd_irq i n h eq_refl).
Defined.

Definition cycle_frame : frame :=
  Frame WUPS_ADDR_CH32X WUPS_ADDR_RP2040 WUPS_CLASS_POWER WUPS_OP_PWR_CYCLE WUPS_FLAG_REQ 9 [].
Definition no_cc : cc_in := CcIn false false true false false true.
Definition quiet_in : loop_in := LoopIn 0 false [] 256 0 no_cc 0 0 0 0 isr_init.

Lemma requests_answered_once_witness :
  let D : Dev := const_dev 0 in let U : Uart := fun _ => true in let P : Phy := good_phy in
  wups_handle_frame 5 (Frame 3 2 1 1 WUPS_FLAG_RESP 7 []) node_init [] = (node_init, []) /\
  uart_bytes (effects (wups_handle_frame 5 ping_frame node_init) []) =
    frame_bytes (Frame 2 3 1 1 2 7 (pong_payload 5)) ++ [WUPS_GUARD_BYTE].
Proof.
  intros D U P; split.
  - apply (requests_answered_once 5 (Frame 3 2 1 1 WUPS_FLAG_RESP 7 []) node_init []); [done|reflexivity].
  - destruct (requests_answered_once (D := D) (U := U) (P := P) 5 ping_frame node_init []
      (fun _ => eq_refl)) as [_ (st & _ & H)].
    etransitivity; [exact H|reflexivity].
Defined.

(** A ping and the first half of the next one, wrapped round the ring's end. *)
Definition wrapped_ring : list Z :=
  drop 6 (frame_bytes ping_frame) ++ take 7 (frame_bytes ping_frame) ++ replicate 235 0 ++
  take 6 (frame_bytes ping_frame).
Definition at_250 : node := node_init <| n_link := link_init <| Dma_Rx_Tail := 250 |> |>.

Lemma ring_drained_in_order_witness :
  let D : Dev := const_dev 0 in let U : Uart := fun _ => true in let P : Phy := good_phy in
  ring_slice wrapped_ring 250 15 = frame_bytes ping_frame ++ take 7 (frame_bytes ping_frame) /\
  delivered wups_rx_init (ring_slice wrapped_ring 250 15) = [ping_frame] /\
  exists n', result (Cmd_Rx_Drain 256 0 false wrapped_ring 241 at_250) [] = Some n' /\
    (n_reset n' = true \/ (Dma_Rx_Tail (n_link n') = 15 /\
      n_rx n' = (feed wups_rx_init (ring_slice wrapped_ring 250 15)).1 /\
      answers 0 (delivered wups_rx_init (ring_slice wrapped_ring 250 15))
        (uart_bytes (effects (Cmd_Rx_Drain 256 0 false wrapped_ring 241 at_250) [])))).
Proof.
  intros D U P; split; [vm_compute; reflexivity|]; split; [vm_compute; reflexivity|].
  apply (ring_drained_in_order 0 false wrapped_ring 241 at_250 []); [done|vm_compute; split; congruence|].
  unfold DMA_RX_BUF_SIZE; lia.
Defined.

Definition cycling : node :=
  node_init <| Powercycle_State := POWERCYCLE_OFF_WAIT |>.
Definition seven_200ms : list (Z * loop_in) := replicate 7 (200, quiet_in).

Lemma power_cycle_window_witness :
  let D : Dev := const_dev 0 in let U : Uart := fun _ => true in let P : Phy := good_phy in
  let n1 := result (iterations seven_200ms cycling) [] in
  let h1 := [] ++ effects (iterations seven_200ms cycling) [] in
  pc n1 = (POWERCYCLE_OFF_WAIT, elapsed seven_200ms) /\
  output_on `prefix_of` effects (loop_rest 100 quiet_in n1) h1 /\
  Powercycle_State (result (loop_rest 100 quiet_in n1) h1) = POWERCYCLE_IDLE.
Proof.
  intros D U P; apply (power_cycle_window (D := D) (U := U) (P := P) cycling seven_200ms 100 quiet_in []).
  - reflexivity.
  - unfold seven_200ms; cbn [replicate]; repeat (constructor; [cbn; lia|]); constructor.
  - lia.
  - split; vm_compute; congruence.
Defined.

Lemma rail_watchdog_safe_witness :
  let D : Dev := const_dev 0 in
  let n := node_init <| n_pd := PD_Init <| Tps_Set := Tps 150 19 |> |>
             <| n_tmr := Timers 0 0 0 0 0 0 1900 0 0 0 0 |> in
  writes (effects (tps_block 100 n) []) = setpoint_writes 150 19.
Proof.
  intros D n; apply (rail_watchdog_safe 100 n []).
  unfold pd_inv_from, pd_ok; cbn; split_and!; try done; try lia; unfold setpoints; rewrite !elem_of_cons; auto 10.
Defined.

Lemma diagnostic_lines_fit_witness : is_u16 65535 /\ dec_value (emit_u16 65535) = 65535.
Proof.
  split; [lia|].
  apply (diagnostic_lines_fit [] 0 0 (HusbData 0 0 0 0 0 0) (HusbCaps 0 []) 0 0 65535); lia.
Defined.

(** ** Behaviours the comments do not mention *)

(** A disable command during the off window does not cancel the cycle: the
    machine is untouched, and the iteration that completes the window switches
    the output back on. *)
Theorem disable_does_not_cancel_cycle `{D : Dev} `{U : Uart} `{P : Phy} up f n dt i h :
  for_us (f_dst f) = true -> has (f_flags f) WUPS_FLAG_REQ = true ->
  f_cls f = WUPS_CLASS_POWER -> f_op f = WUPS_OP_PWR_DISABLE ->
  Powercycle_State n = POWERCYCLE_OFF_WAIT -> 0 <= Powercycle_Timer_Ms (n_tmr n) -> 0 <= dt ->
  POWERCYCLE_OFF_MS <= Powercycle_Timer_Ms (n_tmr n) + dt < 65536 ->
  let n1 := result (wups_handle_frame up f n) h in
  forall h1, output_on `prefix_of` effects (loop_rest dt i n1) h1.
Proof.
  intros Hd Hr Hc Ho Hs Ht Hdt Hle n1 h1.
  assert (Hn1 : pc n1 = pc n).
  { subst n1; unfold wups_handle_frame, handle_power; rewrite Hd, Hr, Hc, Ho; apply keeps_on_pd. }
  injection Hn1 as Hs1 Ht1; unfold loop_rest; rewrite effects_bind.
  destruct (powercycle_fire dt n1 h1) as [-> _]; rewrite ?Hs1, ?Ht1; try done.
  eexists; reflexivity.
Qed.

(** A status query consumes the fault latch: the converter faults it reported
    are gone from the next sample of the edge detector, so the fault event that
    the next 1 Hz block would have sent is not sent. *)
Theorem status_query_hides_fault `{D : Dev} `{U : Uart} `{P : Phy} up f n h :
  for_us (f_dst f) = true -> has (f_flags f) WUPS_FLAG_REQ = true ->
  f_cls f = WUPS_CLASS_SYSTEM -> f_op f = WUPS_OP_SYS_STATUS_QUERY ->
  fault_bits (n_tele (result (wups_handle_frame up f n) h)) = u16 (fault (Chg_Data (n_tele n))).
Proof.
  intros Hd Hr Hc Ho; unfold wups_handle_frame, handle_system; rewrite Hd, Hr, Hc, Ho.
  change (WUPS_OP_SYS_STATUS_QUERY =? WUPS_OP_SYS_PING) with false; rewrite !Z.eqb_refl.
  cbn [negb andb]; unfold wups_send_power_status, on_link.
  rewrite !result_bind; cbn; unfold fault_bits; cbn; rewrite Z.lor_0_r; done.
Qed.
