(* ===== verification/PowerStatus.v ===== *)
(** * Decoding power.status at the ESP32
    (firmware-ESP32-LTE-M/main/power_status_decode.h)

    The two payload versions have different layouts from offset 1 on; the
    decoder dispatches on the version byte and the length.  Decoding is stated
    against the encoder of the CH32X side, [power_status_v1_bytes] and
    [power_status_v2_bytes]. *)

From S2P Require Import Prelude Protocol.

(* src: firmware-ESP32-LTE-M/main/power_status_decode.h:44-44 WUPS_PWR2_TEMP_NA *)
Definition WUPS_PWR2_TEMP_NA : Z := -32768.

(* src: firmware-ESP32-LTE-M/main/power_status_decode.h:60-66 wups_power_status_view_t *)
Record wups_power_status_view_t := View {
  vw_version : Z;
  vw_v1 : wups_power_status_v1_t;
  vw_v2 : wups_power_status_v2_t;
  vw_temp_mp_valid : bool;
  vw_temp_agg_dC : Z
}.

Definition zero_v1 : wups_power_status_v1_t := StatusV1 0 0 0 0 0 0 0 0 0 0 0.
Definition zero_v2 : wups_power_status_v2_t := StatusV2 0 0 0 0 0 0 0 0 0 0 0 0 0 0 0 0 0 0 0 0 0.
Definition zero_view : wups_power_status_view_t := View 0 zero_v1 zero_v2 false 0.

(** Members of a packed structure, read at their offsets. *)
Definition u8_at (raw : list Z) (o : nat) : Z := byte_at raw o.
Definition u16_at (raw : list Z) (o : nat) : Z := le_val (field o 2 raw).
Definition s16_at (raw : list Z) (o : nat) : Z := s16 (u16_at raw o).
Definition u32_at (raw : list Z) (o : nat) : Z := le_val (field o 4 raw).

(** [memcpy(&out->v1, raw, sizeof(out->v1))]. *)
(* src: common/protocol.h:291-305 wups_power_status_v1_t (layout) *)
Definition read_v1 (raw : list Z) : wups_power_status_v1_t :=
  StatusV1 (u8_at raw 0) (u8_at raw 1) (u16_at raw 2) (u16_at raw 4) (s16_at raw 6) (u16_at raw 8)
    (s16_at raw 10) (s16_at raw 12) (u16_at raw 14) (u16_at raw 16) (u16_at raw 18).

(* src: common/protocol.h:321-349 wups_power_status_v2_t (layout) *)
Definition read_v2 (raw : list Z) : wups_power_status_v2_t :=
  StatusV2 (u8_at raw 0) (u8_at raw 1) (u8_at raw 2) (u8_at raw 3)
    (u16_at raw 4) (u16_at raw 6) (u16_at raw 8)
    (u16_at raw 10) (u16_at raw 12) (u16_at raw 14) (u16_at raw 16)
    (u16_at raw 18) (u16_at raw 20)
    (u16_at raw 22) (s16_at raw 24)
    (u16_at raw 26) (u16_at raw 28) (s16_at raw 30) (s16_at raw 32)
    (u16_at raw 34) (u32_at raw 36).

(* src: firmware-ESP32-LTE-M/main/power_status_decode.h:69-73 wups_power_temp_agg_dC *)
Definition wups_power_temp_agg_dC (lm mp : Z) : Z :=
  if mp =? WUPS_PWR2_TEMP_NA then lm else if lm <? mp then mp else lm.

(** [raw] is the buffer, [None] the null pointer. *)
(* src: firmware-ESP32-LTE-M/main/power_status_decode.h:77-100 wups_power_status_decode *)
Definition wups_power_status_decode (raw : option (list Z)) : wups_power_status_view_t * Z :=
  match raw with
  | None | Some [] => (zero_view, 0)
  | Some raw =>
      let len := Z.of_nat (length raw) in
      if (byte_at raw 0 =? 2) && (40 <=? len) then
        let v2 := read_v2 raw in
        (View 2 zero_v1 v2 (negb (v2_temp_mp_dC v2 =? WUPS_PWR2_TEMP_NA))
           (wups_power_temp_agg_dC (v2_temp_lm_dC v2) (v2_temp_mp_dC v2)), 2)
      else if (byte_at raw 0 =? 1) && (20 <=? len) then
        let v1 := read_v1 raw in (View 1 v1 zero_v2 false (v1_temp_dC v1), 1)
      else (zero_view, 0)
  end.

(** ** Well-formed payloads *)

Definition v1_wf (s : wups_power_status_v1_t) : Prop :=
  v1_version s = 1 /\ is_u8 (v1_charge_state s) /\ is_u16 (v1_vbus_in_mV s) /\
  is_u16 (v1_vbus_out_mV s) /\ is_s16 (v1_ibus_out_mA s) /\ is_u16 (v1_vbat_mV s) /\
  is_s16 (v1_ibat_mA s) /\ is_s16 (v1_temp_dC s) /\ is_u16 (v1_pd_contract_mV s) /\
  is_u16 (v1_pd_contract_mA s) /\ is_u16 (v1_faults s).

Definition v2_wf (s : wups_power_status_v2_t) : Prop :=
  v2_version s = 2 /\ is_u8 (v2_flags s) /\ is_u8 (v2_charge_state s) /\ is_u8 (v2_reserved s) /\
  is_u16 (v2_vbus_in_mV s) /\ is_u16 (v2_pd_in_mV s) /\ is_u16 (v2_pd_in_mA s) /\
  is_u16 (v2_vbus_out_mV s) /\ is_u16 (v2_vout_set_mV s) /\ is_u16 (v2_vout_read_mV s) /\
  is_u16 (v2_iout_limit_mA s) /\ is_u16 (v2_pd_out_mV s) /\ is_u16 (v2_pd_out_mA s) /\
  is_u16 (v2_vbat_mV s) /\ is_s16 (v2_ichg_mA s) /\ is_u16 (v2_vsys_mV s) /\
  is_u16 (v2_iin_mA s) /\ is_s16 (v2_temp_lm_dC s) /\ is_s16 (v2_temp_mp_dC s) /\
  is_u16 (v2_faults s) /\ is_u32 (v2_uptime_s s).

(** A signed member is written as its low sixteen bits. *)
Lemma le16_val_s16 z : is_s16 z -> s16 (le_val (le16 z)) = z.
Proof. intros; rewrite le_val_le_bytes; apply (s16_u16 z); done. Qed.

Lemma read_v1_bytes s extra : v1_wf s -> read_v1 (power_status_v1_bytes s ++ extra) = s.
Proof.
  intros (Hv & ? & ? & ? & ? & ? & ? & ? & ? & ? & ?); destruct s as [ver cs vi vo io vb ib te pv pm fa];
    cbn in *; unfold read_v1, s16_at.
  change (StatusV1 (u8 ver) (u8 cs) (le_val (le16 vi)) (le_val (le16 vo)) (s16 (le_val (le16 io)))
    (le_val (le16 vb)) (s16 (le_val (le16 ib))) (s16 (le_val (le16 te))) (le_val (le16 pv))
    (le_val (le16 pm)) (le_val (le16 fa)) = StatusV1 ver cs vi vo io vb ib te pv pm fa).
  subst; rewrite !le16_val_s16, !le16_val, !u8_small by lia; done.
Qed.

Lemma read_v2_bytes s extra : v2_wf s -> read_v2 (power_status_v2_bytes s ++ extra) = s.
Proof.
  intros (Hv & ? & ? & ? & ? & ? & ? & ? & ? & ? & ? & ? & ? & ? & ? & ? & ? & ? & ? & ? & ?).
  destruct s as [ver fl cs re a1 a2 a3 b1 b2 b3 b4 c1 c2 d1 d2 e1 e2 tl tm fa up]; cbn in *.
  unfold read_v2, s16_at.
  change (StatusV2 (u8 ver) (u8 fl) (u8 cs) (u8 re) (le_val (le16 a1)) (le_val (le16 a2))
    (le_val (le16 a3)) (le_val (le16 b1)) (le_val (le16 b2)) (le_val (le16 b3)) (le_val (le16 b4))
    (le_val (le16 c1)) (le_val (le16 c2)) (le_val (le16 d1)) (s16 (le_val (le16 d2))) (le_val (le16 e1))
    (le_val (le16 e2)) (s16 (le_val (le16 tl))) (s16 (le_val (le16 tm))) (le_val (le16 fa))
    (le_val (le32 up)) =
    StatusV2 ver fl cs re a1 a2 a3 b1 b2 b3 b4 c1 c2 d1 d2 e1 e2 tl tm fa up).
  subst; rewrite !le16_val_s16, !le16_val, le32_val, !u8_small by lia; done.
Qed.

Lemma temp_agg_spec lm mp :
  is_s16 lm -> is_s16 mp ->
  wups_power_temp_agg_dC lm mp = if mp =? WUPS_PWR2_TEMP_NA then lm else Z.max lm mp.
Proof. unfold wups_power_temp_agg_dC; intros; repeat case_match; to_prop; lia. Qed.

(** Power.status survives the link.  Whatever version the CH32X encodes, the
    ESP32 decodes the same members, trailing bytes ignored, with the aggregate
    temperature rule; and a buffer that is neither version decodes to nothing,
    in particular a truncated v2 payload is never read as v1. *)
Theorem power_status_roundtrip :
  (forall s extra, v2_wf s ->
     wups_power_status_decode (Some (power_status_v2_bytes s ++ extra)) =
     (View 2 zero_v1 s (negb (v2_temp_mp_dC s =? WUPS_PWR2_TEMP_NA))
        (if v2_temp_mp_dC s =? WUPS_PWR2_TEMP_NA then v2_temp_lm_dC s
         else Z.max (v2_temp_lm_dC s) (v2_temp_mp_dC s)), 2)) /\
  (forall s extra, v1_wf s ->
     wups_power_status_decode (Some (power_status_v1_bytes s ++ extra)) =
     (View 1 s zero_v2 false (v1_temp_dC s), 1)) /\
  (forall s (n : nat), v2_wf s -> (n < 40)%nat ->
     wups_power_status_decode (Some (take n (power_status_v2_bytes s))) = (zero_view, 0)).
Proof.
  split_and!.
  - intros s extra Hs; pose proof (read_v2_bytes s extra Hs) as Hr; pose proof Hs as (Hv & Hs').
    unfold wups_power_status_decode; set (raw := power_status_v2_bytes s ++ extra) in *.
    assert (Hn : (40 <= length raw)%nat) by (unfold raw; rewrite length_app; cbn; lia).
    assert (H0 : byte_at raw 0 = 2) by (change (byte_at raw 0) with (u8 (v2_version s)); rewrite Hv; done).
    destruct raw as [|x raw']; [cbn in Hn; lia|]; rewrite H0, Hr.
    rewrite (proj2 (Z.leb_le _ _)) by lia; cbn [andb Z.eqb]; change (2 =? 2) with true; cbn [andb].
    rewrite temp_agg_spec by (unfold v2_wf in Hs; lia); done.
  - intros s extra Hs; pose proof (read_v1_bytes s extra Hs) as Hr; pose proof Hs as (Hv & _).
    unfold wups_power_status_decode; set (raw := power_status_v1_bytes s ++ extra) in *.
    assert (Hn : (20 <= length raw)%nat) by (unfold raw; rewrite length_app; cbn; lia).
    assert (H0 : byte_at raw 0 = 1) by (change (byte_at raw 0) with (u8 (v1_version s)); rewrite Hv; done).
    destruct raw as [|x raw']; [cbn in Hn; lia|]; rewrite H0, Hr.
    rewrite (proj2 (Z.leb_le 20 _)) by lia; done.
  - intros s n Hs Hn; pose proof Hs as (Hv & _); destruct n as [|n]; [done|].
    unfold wups_power_status_decode; set (raw := take (S n) _).
    assert (Hl : (length raw <= S n)%nat) by (unfold raw; rewrite length_take; lia).
    assert (H0 : byte_at raw 0 = 2).
    { change (byte_at raw 0) with (u8 (v2_version s)); rewrite Hv; done. }
    destruct raw as [|x raw']; [done|]; rewrite H0.
    rewrite (proj2 (Z.leb_gt _ _)) by lia; done.
Qed.

Lemma power_status_roundtrip_witness :
  let s := StatusV2 2 12 2 0 5000 9000 3000 5000 5000 4980 3000 9000 3000 8100 1500 8300 900 253 (-32768) 16 77 in
  v2_wf s /\ (wups_power_status_decode (Some (power_status_v2_bytes s))).1 = View 2 zero_v1 s false 253.
Proof.
  intros s; assert (Hs : v2_wf s) by (unfold v2_wf, s; cbn; lia).
  split; [exact Hs|]; destruct power_status_roundtrip as [H _].
  specialize (H s [] Hs); rewrite app_nil_r in H; rewrite H; reflexivity.
Defined.
