(* ===== verification/PacketGuard.v ===== *)
(** * The MQTT packet identity guard (firmware-ESP32-LTE-M/main/mqtt_packet_guard.c)

    The guard stands between the modem task and the MQTT library: every call
    that may allocate a packet identifier is announced before and reported
    after, and a probe publication is proved delivered only by the PUBACK of
    its own identifier.  [guard] is the struct; its operations return the new
    struct and the C result.  The last section runs sequences of operations. *)

From S2P Require Import Prelude.

(** ** State *)

(* src: firmware-ESP32-LTE-M/main/mqtt_packet_guard.h:15-16 limits *)
Definition MQTT_PACKET_GUARD_BUDGET : Z := 60000.
Definition MQTT_PACKET_GUARD_EARLY_ACKS : nat := 8.

(* src: firmware-ESP32-LTE-M/main/mqtt_packet_guard.h:18-26 mqtt_packet_probe_state_t *)
Inductive mqtt_packet_probe_state_t :=
  | MQTT_PROBE_IDLE | MQTT_PROBE_ARMING | MQTT_PROBE_PENDING | MQTT_PROBE_ACKED
  | MQTT_PROBE_RETIRED | MQTT_PROBE_FAILED | MQTT_PROBE_EXPIRED.

#[export] Instance mqtt_packet_probe_state_eq_dec : EqDecision mqtt_packet_probe_state_t.
Proof. solve_decision. Defined.

(* src: firmware-ESP32-LTE-M/main/mqtt_packet_guard.h:28-31 mqtt_packet_early_ack_t *)
Record early_ack := EarlyAck { packet_id : Z; received_ms : Z }.

(** [early_acks] is the first [early_ack_count] entries of the array: the code
    reads no other. *)
(* src: firmware-ESP32-LTE-M/main/mqtt_packet_guard.h:33-60 mqtt_packet_guard_t *)
Record guard := Guard {
  generation : Z;
  attempts : Z;
  attempts_since_id : Z;
  operation_serial : Z;
  completed_operation_serial : Z;
  completed_packet_id : Z;
  last_packet_id : Z;
  have_last_packet_id : bool;
  connected : bool;
  operation_pending : bool;
  unsafe : bool;
  reset_armed : bool;
  reset_boundary_seen : bool;
  probe_state : mqtt_packet_probe_state_t;
  probe_token : Z;
  probe_generation : Z;
  probe_operation_serial : Z;
  probe_started_ms : Z;
  probe_timeout_ms : Z;
  probe_packet_id : Z;
  early_acks : list early_ack;
  proof_at_ms : Z;
  proof_generation : Z;
  proof_valid : bool
}.

#[export] Instance eta_guard : Eta guard := fun g =>
  Guard (generation g) (attempts g) (attempts_since_id g) (operation_serial g)
    (completed_operation_serial g) (completed_packet_id g) (last_packet_id g)
    (have_last_packet_id g) (connected g) (operation_pending g) (unsafe g) (reset_armed g)
    (reset_boundary_seen g) (probe_state g) (probe_token g) (probe_generation g)
    (probe_operation_serial g) (probe_started_ms g) (probe_timeout_ms g) (probe_packet_id g)
    (early_acks g) (proof_at_ms g) (proof_generation g) (proof_valid g).

(** ** Operations *)

(* src: firmware-ESP32-LTE-M/main/mqtt_packet_guard.c:20-24 probe_active *)
Definition probe_active (g : guard) : bool :=
  match probe_state g with MQTT_PROBE_ARMING | MQTT_PROBE_PENDING => true | _ => false end.

(* src: firmware-ESP32-LTE-M/main/mqtt_packet_guard.c:26-30 within_deadline *)
Definition within_deadline (g : guard) (now_ms : Z) : bool :=
  (probe_started_ms g <=? now_ms) && (now_ms - probe_started_ms g <? probe_timeout_ms g).

(* src: firmware-ESP32-LTE-M/main/mqtt_packet_guard.c:32-37 fail_probe *)
Definition fail_probe (g : guard) : guard :=
  g <| probe_state := MQTT_PROBE_FAILED |> <| early_acks := [] |> <| proof_valid := false |>.

(* src: firmware-ESP32-LTE-M/main/mqtt_packet_guard.c:39-44 mark_unsafe *)
Definition mark_unsafe (g : guard) : guard * bool := (fail_probe (g <| unsafe := true |>), false).

(** The three assignments every expiry makes ([accept_ack] alone keeps the
    early acknowledgements). *)
(* src: firmware-ESP32-LTE-M/main/mqtt_packet_guard.c:243-245 mqtt_packet_guard_probe_expire *)
Definition expire (g : guard) : guard :=
  g <| probe_state := MQTT_PROBE_EXPIRED |> <| early_acks := [] |> <| proof_valid := false |>.

(* src: firmware-ESP32-LTE-M/main/mqtt_packet_guard.c:46-59 accept_ack *)
Definition accept_ack (g : guard) (received_ms : Z) : guard * bool :=
  if negb (within_deadline g received_ms)
  then (g <| probe_state := MQTT_PROBE_EXPIRED |> <| proof_valid := false |>, false)
  else (g <| probe_state := MQTT_PROBE_ACKED |> <| early_acks := [] |>
          <| proof_at_ms := received_ms |> <| proof_generation := generation g |>
          <| proof_valid := true |>, true).

(* src: firmware-ESP32-LTE-M/main/mqtt_packet_guard.c:61-65 mqtt_packet_guard_init *)
Definition mqtt_packet_guard_init : guard :=
  Guard 0 0 0 0 0 (-1) 0 false false false false false false
    MQTT_PROBE_IDLE 0 0 0 0 0 0 [] 0 0 false.

(* src: firmware-ESP32-LTE-M/main/mqtt_packet_guard.c:67-72 mqtt_packet_guard_probe_retire *)
Definition mqtt_packet_guard_probe_retire (g : guard) : guard :=
  g <| probe_state := MQTT_PROBE_RETIRED |> <| early_acks := [] |> <| proof_valid := false |>.

(* src: firmware-ESP32-LTE-M/main/mqtt_packet_guard.c:74-85 mqtt_packet_guard_packet_begin *)
Definition mqtt_packet_guard_packet_begin (g : guard) : guard * bool :=
  if operation_pending g || (operation_serial g =? UINT64_MAX) then mark_unsafe g
  else if unsafe g || reset_armed g || (MQTT_PACKET_GUARD_BUDGET <=? attempts g) then (g, false)
  else (g <| attempts := u32 (attempts g + 1) |>
          <| attempts_since_id := u32 (attempts_since_id g + 1) |>
          <| operation_serial := u64 (operation_serial g + 1) |>
          <| operation_pending := true |>, true).

(** How far [id] is ahead of the last identifier, over the cycle 1..65535. *)
(* src: firmware-ESP32-LTE-M/main/mqtt_packet_guard.c:103-105 mqtt_packet_guard_packet_result *)
Definition id_distance (last id : Z) : Z :=
  if last <=? id then u32 (id - last) else u32 (UINT16_MAX - last + id).

(* src: firmware-ESP32-LTE-M/main/mqtt_packet_guard.c:87-116 mqtt_packet_guard_packet_result *)
Definition mqtt_packet_guard_packet_result (g : guard) (id : Z) : guard * bool :=
  if negb (operation_pending g) then mark_unsafe g else
  let g := g <| operation_pending := false |>
             <| completed_operation_serial := operation_serial g |>
             <| completed_packet_id := id |> in
  if unsafe g then (g, false)
  else if id <? 0 then (g, true)
  else if (id =? 0) || (UINT16_MAX <? id) then mark_unsafe g
  else if have_last_packet_id g &&
          ((id_distance (last_packet_id g) id =? 0) ||
           (attempts_since_id g <? id_distance (last_packet_id g) id)) then mark_unsafe g
  else (g <| last_packet_id := u16 id |> <| have_last_packet_id := true |>
          <| attempts_since_id := 0 |>, true).

(* src: firmware-ESP32-LTE-M/main/mqtt_packet_guard.c:118-128 mqtt_packet_guard_arm_reset *)
Definition mqtt_packet_guard_arm_reset (g : guard) (outbox_empty : bool) : guard * bool :=
  if negb outbox_empty || operation_pending g then (g, false) else
  let g := if negb (reset_armed g)
           then g <| reset_armed := true |> <| reset_boundary_seen := negb (connected g) |>
           else g in
  (mqtt_packet_guard_probe_retire g, true).

(* src: firmware-ESP32-LTE-M/main/mqtt_packet_guard.c:130-136 mqtt_packet_guard_on_disconnected *)
Definition mqtt_packet_guard_on_disconnected (g : guard) : guard :=
  let g := g <| connected := false |> in
  let g := if reset_armed g then g <| reset_boundary_seen := true |> else g in
  mqtt_packet_guard_probe_retire g.

(** The condition under which a connection starts a new identity epoch. *)
(* src: firmware-ESP32-LTE-M/main/mqtt_packet_guard.c:148-148 mqtt_packet_guard_on_connected *)
Definition renews (g : guard) : bool :=
  reset_armed g && reset_boundary_seen g && negb (operation_pending g).

(* src: firmware-ESP32-LTE-M/main/mqtt_packet_guard.c:138-157 mqtt_packet_guard_on_connected *)
Definition mqtt_packet_guard_on_connected (g : guard) : guard :=
  if connected g || (generation g =? UINT64_MAX) then (mark_unsafe g).1 else
  let g := g <| connected := true |> <| generation := u64 (generation g + 1) |> in
  let g := mqtt_packet_guard_probe_retire g in
  if renews g
  then g <| attempts := 0 |> <| attempts_since_id := 0 |> <| have_last_packet_id := false |>
         <| unsafe := false |> <| reset_armed := false |> <| reset_boundary_seen := false |>
         <| completed_packet_id := -1 |>
  else g.

(* src: firmware-ESP32-LTE-M/main/mqtt_packet_guard.c:159-174 mqtt_packet_guard_probe_begin *)
Definition mqtt_packet_guard_probe_begin (g : guard) (token started_ms timeout_ms : Z)
    : guard * bool :=
  if negb (connected g) || negb (operation_pending g) || unsafe g || reset_armed g ||
     probe_active g || (token =? 0) || (token =? probe_token g) || (timeout_ms =? 0)
  then (g, false)
  else (g <| probe_state := MQTT_PROBE_ARMING |> <| probe_token := token |>
          <| probe_generation := generation g |>
          <| probe_operation_serial := operation_serial g |>
          <| probe_started_ms := started_ms |> <| probe_timeout_ms := timeout_ms |>
          <| probe_packet_id := 0 |> <| early_acks := [] |>, true).

(** The first buffered acknowledgement of a packet. *)
(* src: firmware-ESP32-LTE-M/main/mqtt_packet_guard.c:197-200 mqtt_packet_guard_probe_result *)
Fixpoint find_ack (l : list early_ack) (id : Z) : option early_ack :=
  match l with
  | [] => None
  | a :: l => if packet_id a =? id then Some a else find_ack l id
  end.

(* src: firmware-ESP32-LTE-M/main/mqtt_packet_guard.c:176-203 mqtt_packet_guard_probe_result *)
Definition mqtt_packet_guard_probe_result (g : guard) (token id now_ms : Z) : guard * bool :=
  if negb (bool_decide (probe_state g = MQTT_PROBE_ARMING)) || negb (token =? probe_token g)
  then (g, false)
  else if unsafe g || negb (connected g) || negb (probe_generation g =? generation g) ||
          operation_pending g ||
          negb (completed_operation_serial g =? probe_operation_serial g) ||
          negb (completed_packet_id g =? id) || (id <=? 0) || (UINT16_MAX <? id)
  then (fail_probe g, false)
  else if negb (within_deadline g now_ms) then (expire g, false)
  else
    let g := g <| probe_packet_id := u16 id |> <| probe_state := MQTT_PROBE_PENDING |> in
    match find_ack (early_acks g) id with
    | Some a => accept_ack g (received_ms a)
    | None => (g <| early_acks := [] |>, false)
    end.

(* src: firmware-ESP32-LTE-M/main/mqtt_packet_guard.c:239-247 mqtt_packet_guard_probe_expire *)
Definition mqtt_packet_guard_probe_expire (g : guard) (now_ms : Z) : guard :=
  if probe_active g && (probe_started_ms g <=? now_ms) && negb (within_deadline g now_ms)
  then expire g else g.

(* src: firmware-ESP32-LTE-M/main/mqtt_packet_guard.c:205-237 mqtt_packet_guard_on_puback *)
Definition mqtt_packet_guard_on_puback (g : guard) (gen id received : Z) : guard * bool :=
  if negb (connected g) || unsafe g || negb (probe_active g) ||
     negb (gen =? generation g) || negb (gen =? probe_generation g) ||
     (id <=? 0) || (UINT16_MAX <? id)
  then (g, false)
  else if received <? probe_started_ms g then (g, false)
  else if negb (within_deadline g received)
  then (mqtt_packet_guard_probe_expire g received, false)
  else if bool_decide (probe_state g = MQTT_PROBE_PENDING) then
    if negb (id =? probe_packet_id g) then (g, false) else accept_ack g received
  else match find_ack (early_acks g) id with
  | Some _ => (g, false)
  | None =>
      if (length (early_acks g) =? MQTT_PACKET_GUARD_EARLY_ACKS)%nat then (fail_probe g, false)
      else (g <| early_acks := early_acks g ++ [EarlyAck (u16 id) received] |>, false)
  end.

(** ** Sequences of operations

    The calls the owner of the guard may make, in the order of the header. *)
Inductive op :=
  | Packet_begin
  | Packet_result (id : Z)
  | Arm_reset (outbox_empty : bool)
  | Disconnected
  | Connected
  | Probe_begin (token started_ms timeout_ms : Z)
  | Probe_result (token id now_ms : Z)
  | Puback (gen id received_ms : Z)
  | Probe_expire (now_ms : Z)
  | Probe_retire.

Definition guard_step (g : guard) (o : op) : guard * bool :=
  match o with
  | Packet_begin => mqtt_packet_guard_packet_begin g
  | Packet_result id => mqtt_packet_guard_packet_result g id
  | Arm_reset e => mqtt_packet_guard_arm_reset g e
  | Disconnected => (mqtt_packet_guard_on_disconnected g, true)
  | Connected => (mqtt_packet_guard_on_connected g, true)
  | Probe_begin t s d => mqtt_packet_guard_probe_begin g t s d
  | Probe_result t id now => mqtt_packet_guard_probe_result g t id now
  | Puback gen id ms => mqtt_packet_guard_on_puback g gen id ms
  | Probe_expire now => (mqtt_packet_guard_probe_expire g now, true)
  | Probe_retire => (mqtt_packet_guard_probe_retire g, true)
  end.

(** The guard together with the identifiers it accepted in the current epoch:
    an epoch ends at the connection that renews the budget. *)
Definition epoch_step (s : guard * list Z) (o : op) : guard * list Z :=
  let '(g, ids) := s in
  let '(g', r) := guard_step g o in
  (g', match o with
       | Packet_result id => if r && (0 <=? id) then ids ++ [id] else ids
       | Connected =>
           if negb (connected g) && negb (generation g =? UINT64_MAX) && renews g
           then [] else ids
       | _ => ids
       end).
Definition epoch_run (ops : list op) : guard * list Z :=
  fold_left epoch_step ops (mqtt_packet_guard_init, []).

Definition run_guard (ops : list op) : guard := (run guard_step mqtt_packet_guard_init ops).1.

(** ** A disciplined owner

    The contract of the header: one SDK call at a time, each begun before and
    reported after it, CONNECTED only without a live connection, and an SDK that
    hands out identifiers in sequence over 1..65535.  [k] is the SDK's last one;
    a failed call may or may not have taken the next. *)
Definition next_id (k : Z) : Z := if k =? 65535 then 1 else k + 1.

Inductive owner_step : guard * Z -> guard * Z -> Prop :=
  | own_begin g k : operation_pending g = false ->
      owner_step (g, k) ((mqtt_packet_guard_packet_begin g).1, k)
  | own_ok g k : operation_pending g = true ->
      owner_step (g, k) ((mqtt_packet_guard_packet_result g (next_id k)).1, next_id k)
  | own_failed g k (taken : bool) : operation_pending g = true ->
      owner_step (g, k) ((mqtt_packet_guard_packet_result g (-1)).1, if taken then next_id k else k)
  | own_connected g k : connected g = false ->
      owner_step (g, k) (mqtt_packet_guard_on_connected g, k)
  | own_event g k o :
      match o with Packet_begin | Packet_result _ | Connected => False | _ => True end ->
      owner_step (g, k) ((guard_step g o).1, k).

Section PacketGuard.
Implicit Types (g : guard) (o : op).

(** *** Identity *)

(** The distance is counted over the cycle of 65535 identifiers. *)
Lemma id_distance_mod last id :
  1 <= last <= 65535 -> 1 <= id <= 65535 -> id_distance last id = (id - last) mod 65535.
Proof.
  intros; unfold id_distance, UINT16_MAX; destruct (Z.leb_spec last id); rewrite u32_small by lia.
  - rewrite Z.mod_small; lia.
  - apply Z.mod_unique with (-1); lia.
Qed.

(** The fields that identity depends on. *)
Definition id_part g :=
  (attempts g, attempts_since_id g, last_packet_id g, have_last_packet_id g).

Definition id_inv g (ids : list Z) : Prop :=
  0 <= attempts_since_id g <= attempts g /\ attempts g <= MQTT_PACKET_GUARD_BUDGET /\
  (if have_last_packet_id g then 1 <= last_packet_id g <= 65535 else ids = []) /\
  NoDup ids /\
  Forall (fun id => 1 <= id <= 65535 /\
            (last_packet_id g - id) mod 65535 <= attempts g - attempts_since_id g) ids.

Lemma id_inv_frame g g' ids : id_part g' = id_part g -> id_inv g ids -> id_inv g' ids.
Proof. unfold id_part; intros [= Ha Hs Hl Hh]; unfold id_inv; rewrite Ha, Hs, Hl, Hh; done. Qed.

(** Only three operations touch the identity fields. *)
Lemma guard_step_id_part g o :
  match o with
  | Packet_begin | Packet_result _ | Connected => True
  | _ => id_part (guard_step g o).1 = id_part g
  end.
Proof.
  destruct o; try done; cbn [guard_step fst snd];
    unfold mqtt_packet_guard_arm_reset, mqtt_packet_guard_on_disconnected,
      mqtt_packet_guard_probe_begin, mqtt_packet_guard_probe_result,
      mqtt_packet_guard_on_puback, mqtt_packet_guard_probe_expire, accept_ack;
    repeat case_match; done.
Qed.

Lemma id_inv_begin g ids :
  id_inv g ids -> id_inv (mqtt_packet_guard_packet_begin g).1 ids.
Proof.
  intros H; unfold mqtt_packet_guard_packet_begin.
  destruct (_ || _); [exact H|]; destruct (_ || _) eqn:E; [exact H|]; to_prop.
  destruct H as ((Hs0 & Hs1) & Hb & Hl & Hnd & Hall0); unfold id_inv, MQTT_PACKET_GUARD_BUDGET in *; cbn.
  rewrite !u32_small by lia; split_and!; try done; try lia.
  eapply Forall_impl; [exact Hall0|]; cbn; intros; lia.
Qed.

Lemma id_inv_result g ids id :
  id_inv g ids ->
  id_inv (mqtt_packet_guard_packet_result g id).1
    (if (mqtt_packet_guard_packet_result g id).2 && (0 <=? id) then ids ++ [id] else ids).
Proof.
  intros H; unfold mqtt_packet_guard_packet_result.
  destruct (negb (operation_pending g)); [exact H|]; cbn [upd unsafe].
  destruct (unsafe _); [exact H|]; destruct (Z.ltb_spec id 0).
  { replace (0 <=? id) with false by lia; exact H. }
  destruct (_ || _) eqn:E1; [exact H|]; destruct (_ && _) eqn:E2; [exact H|].
  replace (0 <=? id) with true by lia; cbn [andb fst snd]; to_prop.
  destruct H as ((Hs0 & Hs1) & Hb & Hl & Hnd & Hall0); unfold UINT16_MAX in *.
  assert (Hid : 1 <= id <= 65535) by lia.
  unfold id_inv; cbn in *; rewrite u16_small by lia.
  assert (Hall : Forall (fun i => i <> id /\ 1 <= i <= 65535 /\ (id - i) mod 65535 <= attempts g) ids).
  { destruct (have_last_packet_id g); [|subst; constructor]; cbn in E2; to_prop.
    rewrite id_distance_mod in * by lia.
    eapply Forall_impl; [exact Hall0|]; cbn; intros i [Hi Hd].
    pose proof (Z.mod_pos_bound (last_packet_id g - i) 65535).
    pose proof (Z.mod_pos_bound (id - last_packet_id g) 65535).
    assert (Hm : (id - i) mod 65535 =
      (last_packet_id g - i) mod 65535 + (id - last_packet_id g) mod 65535).
    { rewrite <- (Z.mod_small (_ + _) 65535) by (unfold MQTT_PACKET_GUARD_BUDGET in *; lia).
      rewrite <- Zplus_mod; f_equal; lia. }
    split_and!; try lia; intros ->; rewrite Z.sub_diag in Hm.
    change (0 mod 65535) with 0 in Hm; lia. }
  split_and!; try done; try lia.
  - apply NoDup_app; split_and!; [done| |apply NoDup_singleton].
    intros i Hi; rewrite list_elem_of_singleton; rewrite Forall_forall in Hall.
    apply Hall; done.
  - apply Forall_app; split; [eapply Forall_impl; [exact Hall|]; cbn; lia|].
    constructor; [|done]; rewrite Z.sub_diag; change (0 mod 65535) with 0; lia.
Qed.

Lemma id_inv_connected g ids :
  id_inv g ids ->
  id_inv (mqtt_packet_guard_on_connected g)
    (if negb (connected g) && negb (generation g =? UINT64_MAX) && renews g then [] else ids).
Proof.
  intros H; unfold mqtt_packet_guard_on_connected.
  destruct (connected g), (generation g =? UINT64_MAX); cbn [orb andb negb]; try exact H.
  change (renews (mqtt_packet_guard_probe_retire _)) with (renews g).
  destruct (renews g); [|exact H]; unfold id_inv, MQTT_PACKET_GUARD_BUDGET; cbn.
  split_and!; try done; try lia; constructor.
Qed.

Lemma epoch_step_inv s o : id_inv s.1 s.2 -> id_inv (epoch_step s o).1 (epoch_step s o).2.
Proof.
  destruct s as [g ids]; intros H; cbn [fst snd] in H; pose proof (guard_step_id_part g o) as Hp.
  pose proof (id_inv_begin g ids H); pose proof (id_inv_connected g ids H).
  destruct o; unfold epoch_step; cbn [guard_step] in *; try done;
    try (destruct (mqtt_packet_guard_packet_begin g); done);
    try (apply (id_inv_frame _ _ _ Hp H));
    try (destruct (_ g _) eqn:E; cbn [fst snd] in *; apply (id_inv_frame _ _ _ Hp H)).
  - pose proof (id_inv_result g ids id H); destruct (mqtt_packet_guard_packet_result g id); done.
Qed.

(** *** Proof of delivery

    [h] is the history of operations; the probe that is armed began at a known
    point of it, and [h1] below is what happened since. *)

Definition is_result o : bool := match o with Packet_result _ => true | _ => false end.
Definition no_result (h : list op) : Prop := Forall (fun o => is_result o = false) h.

(** [at_ms] is inside the probe's window. *)
Definition in_window g (at_ms : Z) : Prop :=
  probe_started_ms g <= at_ms < probe_started_ms g + probe_timeout_ms g.

(** Where the probe's SDK operation stands: not reported yet, reported with
    [completed_packet_id], or already followed by another one. *)
Definition op_reported g (h1 : list op) : Prop :=
  exists h2 h3, h1 = h2 ++ Packet_result (completed_packet_id g) :: h3 /\
    no_result h2 /\ no_result h3.
Definition op_progress g (h1 : list op) : Prop :=
  (operation_pending g = true /\ operation_serial g = probe_operation_serial g /\ no_result h1) \/
  (operation_pending g = false /\ completed_operation_serial g = probe_operation_serial g /\
   op_reported g h1) \/
  (probe_operation_serial g < operation_serial g /\
   (operation_pending g = true \/ completed_operation_serial g = operation_serial g)).

Definition probe_began g (h h1 : list op) : Prop :=
  exists h0, h = h0 ++ Probe_begin (probe_token g) (probe_started_ms g) (probe_timeout_ms g) :: h1.

Definition arming_inv g (h : list op) : Prop := exists h1,
  probe_began g h h1 /\ op_progress g h1 /\
  Forall (fun a => Puback (generation g) (packet_id a) (received_ms a) ∈ h1 /\
                   in_window g (received_ms a)) (early_acks g).

(** The identifier [id] was reported for the probe's operation and then for the
    probe, by the operations [h1] that followed its beginning. *)
Definition probe_id token id (h1 : list op) : Prop := exists h2 h3 now h4,
  h1 = h2 ++ Packet_result id :: h3 ++ Probe_result token id now :: h4 /\
  no_result h2 /\ no_result h3 /\ 1 <= id <= 65535.

Definition pending_inv g (h : list op) : Prop := exists h1,
  probe_began g h h1 /\ probe_id (probe_token g) (probe_packet_id g) h1.

(** What a valid proof stands for. *)
Definition proof_evidence g (h : list op) : Prop :=
  exists token started timeout id h0 h1,
    h = h0 ++ Probe_begin token started timeout :: h1 /\ probe_id token id h1 /\
    Puback (generation g) id (proof_at_ms g) ∈ h1 /\
    started <= proof_at_ms g < started + timeout.

Definition probe_inv g (h : list op) : Prop :=
  0 <= operation_serial g <= UINT64_MAX /\ 0 <= generation g <= UINT64_MAX /\
  (probe_active g = true ->
     connected g = true /\ unsafe g = false /\ probe_generation g = generation g /\
     probe_operation_serial g <= operation_serial g) /\
  (probe_state g = MQTT_PROBE_ARMING -> arming_inv g h) /\
  (probe_state g = MQTT_PROBE_PENDING -> pending_inv g h) /\
  (proof_valid g = true ->
     connected g = true /\ unsafe g = false /\ proof_generation g = generation g /\
     proof_evidence g h).

Lemma probe_began_snoc g h h1 o : probe_began g h h1 -> probe_began g (h ++ [o]) (h1 ++ [o]).
Proof. intros [h0 ->]; exists h0; rewrite <- app_assoc; done. Qed.
Lemma no_result_snoc h o : no_result h -> is_result o = false -> no_result (h ++ [o]).
Proof. intros; apply Forall_app; split; [done|]; constructor; [done|constructor]. Qed.
Lemma probe_id_snoc token id h1 o : probe_id token id h1 -> probe_id token id (h1 ++ [o]).
Proof.
  intros (h2 & h3 & now & h4 & -> & ?); exists h2, h3, now, (h4 ++ [o]).
  rewrite <- !app_assoc; cbn; rewrite <- app_assoc; done.
Qed.
Lemma pending_inv_snoc g h o : pending_inv g h -> pending_inv g (h ++ [o]).
Proof. intros (h1 & ? & ?); exists (h1 ++ [o]); auto using probe_began_snoc, probe_id_snoc. Qed.
Lemma proof_evidence_snoc g h o : proof_evidence g h -> proof_evidence g (h ++ [o]).
Proof.
  intros (t & s & d & id & h0 & h1 & -> & Hid & Hin & Hw).
  exists t, s, d, id, h0, (h1 ++ [o]); rewrite <- app_assoc.
  split_and!; try done; try lia; [apply probe_id_snoc; done|rewrite elem_of_app; auto].
Qed.
Lemma op_progress_snoc g h1 o :
  is_result o = false -> op_progress g h1 -> op_progress g (h1 ++ [o]).
Proof.
  intros Ho [(?&?&?)|[(?&?&h2&h3&->&?&?)|?]]; [left|right; left|right; right; done].
  - auto using no_result_snoc.
  - split_and!; try done; exists h2, (h3 ++ [o]); rewrite <- app_assoc.
    auto using no_result_snoc.
Qed.
Lemma arming_inv_snoc g h o : is_result o = false -> arming_inv g h -> arming_inv g (h ++ [o]).
Proof.
  intros Ho (h1 & ? & ? & Ha); exists (h1 ++ [o]).
  split_and!; auto using probe_began_snoc, op_progress_snoc.
  eapply Forall_impl; [exact Ha|]; cbn; intros ? []; rewrite elem_of_app; auto.
Qed.

(** Steps that change nothing, and steps that end the probe and its proof. *)
Lemma probe_inv_same g h o : is_result o = false -> probe_inv g h -> probe_inv g (h ++ [o]).
Proof.
  intros Ho (? & ? & Ha & Harm & Hpend & Hproof); split_and!; try done; try lia.
  - intros Hs; apply arming_inv_snoc; auto.
  - intros Hs; apply pending_inv_snoc; auto.
  - intros Hv; destruct (Hproof Hv) as (? & ? & ? & ?); auto using proof_evidence_snoc.
Qed.

Lemma probe_inv_killed g h :
  0 <= operation_serial g <= UINT64_MAX -> 0 <= generation g <= UINT64_MAX ->
  probe_active g = false -> proof_valid g = false -> probe_inv g h.
Proof.
  intros ? ? Ha Hv; unfold probe_inv; rewrite Ha, Hv; split_and!; try done; try lia;
    intros Hs; unfold probe_active in Ha; rewrite Hs in Ha; done.
Qed.

(** Fields the probe's invariants read; two guards that agree on them are
    interchangeable there. *)
Lemma accept_inv g h h1 at_ms :
  0 <= operation_serial g <= UINT64_MAX -> 0 <= generation g <= UINT64_MAX ->
  connected g = true -> unsafe g = false ->
  probe_began g h h1 -> probe_id (probe_token g) (probe_packet_id g) h1 ->
  Puback (generation g) (probe_packet_id g) at_ms ∈ h1 ->
  probe_inv (accept_ack g at_ms).1 h.
Proof.
  intros Hos Hg Hc Hu [h0 Hh] Hid Hin; unfold accept_ack.
  destruct (within_deadline g at_ms) eqn:E; cbn [negb fst]; [|apply probe_inv_killed; done].
  unfold probe_inv, probe_active; cbn; split_and!; try done; try lia; intros _; split_and!; try done.
  unfold within_deadline in E; to_prop.
  eexists _, _, _, (probe_packet_id g), h0, h1; split_and!; try done; cbn; lia.
Qed.

Lemma probe_inv_begin g h :
  probe_inv g h -> probe_inv (mqtt_packet_guard_packet_begin g).1 (h ++ [Packet_begin]).
Proof.
  intros H; pose proof H as (Hos & Hg & Ha & Harm & Hpend & Hproof).
  unfold mqtt_packet_guard_packet_begin.
  destruct (_ || _) eqn:E; [apply probe_inv_killed; done|].
  destruct (_ || _) eqn:E' in |- *; [apply probe_inv_same; done|]; to_prop.
  assert (Hu : u64 (operation_serial g + 1) = operation_serial g + 1).
  { apply u64_small; unfold UINT64_MAX in *; lia. }
  unfold probe_inv, probe_active in *; cbn; rewrite Hu; split_and!; try done; try lia.
  - intros Hs; destruct (Ha Hs) as (? & ? & ? & ?); split_and!; try done; lia.
  - intros Hs; destruct (Harm Hs) as (h1 & Hb & _ & He); rewrite Hs in Ha.
    exists (h1 ++ [Packet_begin]); split_and!; [apply probe_began_snoc, Hb| |].
    + right; right; cbn; destruct (Ha eq_refl) as (_ & _ & _ & ?); split; [lia|auto].
    + cbn; eapply Forall_impl; [exact He|]; cbn; intros ? []; rewrite elem_of_app; auto.
  - intros Hs; apply pending_inv_snoc; apply Hpend; done.
  - intros Hv; destruct (Hproof Hv) as (? & ? & ? & ?); auto using proof_evidence_snoc.
Qed.

Lemma probe_inv_result g h id :
  probe_inv g h ->
  probe_inv (mqtt_packet_guard_packet_result g id).1 (h ++ [Packet_result id]).
Proof.
  intros H; pose proof H as (Hos & Hg & Ha & Harm & Hpend & Hproof).
  unfold mqtt_packet_guard_packet_result; destruct (operation_pending g) eqn:Ep; cbn [negb].
  2: { apply probe_inv_killed; done. }
  cbn [upd unsafe completed_packet_id].
  set (g1 := g <| operation_pending := false |> <| completed_operation_serial := _ |>
               <| completed_packet_id := id |>).
  assert (Hg1 : forall g', probe_state g' = probe_state g -> unsafe g' = unsafe g ->
     (generation g', connected g', probe_token g', probe_generation g', probe_operation_serial g') =
     (generation g, connected g, probe_token g, probe_generation g, probe_operation_serial g) ->
     (probe_started_ms g', probe_timeout_ms g', probe_packet_id g', early_acks g') =
     (probe_started_ms g, probe_timeout_ms g, probe_packet_id g, early_acks g) ->
     (proof_at_ms g', proof_generation g', proof_valid g', operation_serial g') =
     (proof_at_ms g, proof_generation g, proof_valid g, operation_serial g) ->
     (operation_pending g', completed_operation_serial g', completed_packet_id g') =
     (false, operation_serial g, id) -> probe_inv g' (h ++ [Packet_result id])).
  { intros g' E1 E2 [= E3 E4 E5 E6 E7] [= E8 E9 E10 E11] [= E12 E13 E14 E15] [= E16 E17 E18].
    unfold probe_inv, probe_active; rewrite E1, E2, E3, E4, E6, E7, E13, E14, E15.
    split_and!; try done; try lia.
    - intros Hs; destruct (Harm Hs) as (h1 & [h0 Hb] & Hprog & He).
      exists (h1 ++ [Packet_result id]); split_and!.
      + exists h0; rewrite E5, E8, E9, Hb, <- app_assoc; done.
      + unfold op_progress; rewrite E7, E15, E16, E17; right.
        destruct Hprog as [(_ & Heq & Hn)|[(? & _)|(? & _)]]; [left| congruence |right; auto].
        split_and!; try done; exists h1, []; rewrite E18; split_and!; try done; constructor.
      + unfold in_window; rewrite E3, E8, E9, E11; eapply Forall_impl; [exact He|].
        cbn; unfold in_window; intros ? []; rewrite elem_of_app; auto.
    - intros Hs; destruct (Hpend Hs) as (h1 & [h0 Hb] & Hid).
      exists (h1 ++ [Packet_result id]); split; [exists h0; rewrite E5, E8, E9, Hb, <- app_assoc; done|].
      rewrite E5, E10; apply probe_id_snoc, Hid.
    - intros Hv; destruct (Hproof Hv) as (? & ? & ? & Hev); split_and!; try done; try lia.
      apply proof_evidence_snoc with (o := Packet_result id) in Hev.
      unfold proof_evidence in *; rewrite E3, E12; done. }
  repeat case_match; try (apply Hg1; done); apply probe_inv_killed; done.
Qed.

Lemma probe_inv_probe_begin g h t st d :
  probe_inv g h ->
  probe_inv (mqtt_packet_guard_probe_begin g t st d).1 (h ++ [Probe_begin t st d]).
Proof.
  intros H; pose proof H as (Hos & Hg & Ha & Harm & Hpend & Hproof).
  unfold mqtt_packet_guard_probe_begin.
  destruct (_ || _) eqn:E; [apply probe_inv_same; done|]; to_prop.
  unfold probe_inv, probe_active; cbn; split_and!; try done; try lia.
  - intros _; exists []; split_and!; [exists h; done| |constructor].
    left; split_and!; try done; constructor.
  - intros Hv; destruct (Hproof Hv) as (? & ? & ? & ?); split_and!; try done; try lia.
    apply proof_evidence_snoc; done.
Qed.

Lemma find_ack_Some l id a : find_ack l id = Some a -> a ∈ l /\ packet_id a = id.
Proof.
  induction l as [|x l IH]; cbn; [done|]; destruct (Z.eqb_spec (packet_id x) id); intros E.
  - injection E as <-; split; [left|done].
  - destruct (IH E); split; [right|]; done.
Qed.

Lemma probe_inv_probe_result g h t id now :
  probe_inv g h ->
  probe_inv (mqtt_packet_guard_probe_result g t id now).1 (h ++ [Probe_result t id now]).
Proof.
  intros H; pose proof H as (Hos & Hg & Ha & Harm & Hpend & Hproof).
  unfold mqtt_packet_guard_probe_result.
  destruct (_ || _) eqn:E; [apply probe_inv_same; done|].
  destruct (_ || _) eqn:E' in |- *; [apply probe_inv_killed; done|].
  destruct (negb (within_deadline g now)) eqn:Ew; [apply probe_inv_killed; done|]; to_prop.
  unfold UINT16_MAX in *.
  set (g1 := g <| probe_packet_id := u16 id |> <| probe_state := MQTT_PROBE_PENDING |>).
  match goal with H : probe_state g = _ |- _ => rename H into Hs end.
  destruct (Harm Hs) as (h1 & Hb & Hprog & He).
  assert (Hid : probe_id (probe_token g) (probe_packet_id g1) (h1 ++ [Probe_result t id now])).
  { subst t; destruct Hprog as [(? & _)|[(_ & _ & h2 & h3 & -> & ? & ?)|(? & [?|?])]];
      try congruence; [|lia].
    exists h2, h3, now, []; cbn; rewrite u16_small, <- app_assoc by lia.
    match goal with H : completed_packet_id g = id |- _ => rewrite H end.
    split_and!; try done; lia. }
  apply probe_began_snoc with (o := Probe_result t id now) in Hb.
  destruct (find_ack (early_acks g1) id) as [a|] eqn:Ef.
  - apply find_ack_Some in Ef as [Hin Hpid]; rewrite Forall_forall in He.
    destruct (He a Hin) as [Hpb _]; cbn in Hid.
    apply (accept_inv g1 _ (h1 ++ [Probe_result t id now])); try done.
    cbn; rewrite u16_small by lia; rewrite elem_of_app, <- Hpid; auto.
  - unfold probe_inv, probe_active; cbn; split_and!; try done; try lia.
    + intros _; apply Ha; unfold probe_active; rewrite Hs; done.
    + intros _; exists (h1 ++ [Probe_result t id now]); done.
    + intros Hv; destruct (Hproof Hv) as (? & ? & ? & ?); split_and!; try done.
      apply proof_evidence_snoc; done.
Qed.

Lemma probe_inv_puback g h gen id ms :
  probe_inv g h ->
  probe_inv (mqtt_packet_guard_on_puback g gen id ms).1 (h ++ [Puback gen id ms]).
Proof.
  intros H; pose proof H as (Hos & Hg & Ha & Harm & Hpend & Hproof).
  unfold mqtt_packet_guard_on_puback.
  destruct (_ || _) eqn:E; [apply probe_inv_same; done|]; to_prop.
  destruct (ms <? _) eqn:Elt; [apply probe_inv_same; done|].
  destruct (negb (within_deadline g ms)) eqn:Ew.
  { unfold mqtt_packet_guard_probe_expire; cbn [fst].
    destruct (_ && _); [apply probe_inv_killed|apply probe_inv_same]; done. }
  destruct (bool_decide _) eqn:Es.
  - destruct (negb (id =? probe_packet_id g)) eqn:Eid; [apply probe_inv_same; done|]; to_prop.
    destruct (Hpend Es) as (h1 & Hb & Hid).
    apply (accept_inv g _ (h1 ++ [Puback gen id ms])); try done.
    + apply probe_began_snoc; done.
    + apply probe_id_snoc; done.
    + subst; rewrite elem_of_app, list_elem_of_singleton; auto.
  - destruct (find_ack _ _) eqn:Ef; [apply probe_inv_same; done|].
    destruct (_ =? _)%nat; [apply probe_inv_killed; done|]; to_prop; unfold UINT16_MAX in *.
    unfold probe_inv; cbn; split_and!; try done; try lia.
    intros Hs; destruct (Harm Hs) as (h1 & Hb & Hprog & He).
    exists (h1 ++ [Puback gen id ms]); split_and!.
    + apply (probe_began_snoc _ _ _ (Puback gen id ms) Hb).
    + apply (op_progress_snoc _ _ (Puback gen id ms) eq_refl Hprog).
    + cbn; apply Forall_app; split.
      * eapply Forall_impl; [exact He|]; intros ? []; rewrite elem_of_app; auto.
      * constructor; [|constructor]; cbn; rewrite u16_small by lia; split.
        -- subst; rewrite elem_of_app, list_elem_of_singleton; auto.
        -- unfold within_deadline in Ew; to_prop; unfold in_window; cbn; lia.
    + intros Hv; destruct (Hproof Hv) as (? & ? & ? & ?); split_and!; try done.
      apply proof_evidence_snoc; done.
Qed.

Lemma probe_inv_step g h o : probe_inv g h -> probe_inv (guard_step g o).1 (h ++ [o]).
Proof.
  intros H; pose proof H as (Hos & Hg & _).
  destruct o; cbn [guard_step fst];
    auto using probe_inv_begin, probe_inv_result, probe_inv_probe_begin, probe_inv_probe_result,
      probe_inv_puback.
  - unfold mqtt_packet_guard_arm_reset; destruct (_ || _); [apply probe_inv_same; done|].
    destruct (negb _); apply probe_inv_killed; done.
  - unfold mqtt_packet_guard_on_disconnected; cbn -[mqtt_packet_guard_probe_retire].
    destruct (reset_armed g); apply probe_inv_killed; done.
  - unfold mqtt_packet_guard_on_connected.
    destruct (_ || _) eqn:E; [apply probe_inv_killed; done|]; to_prop.
    assert (u64 (generation g + 1) = generation g + 1)
      by (apply u64_small; unfold UINT64_MAX in *; lia).
    destruct (renews _); apply probe_inv_killed; cbn; try done; unfold UINT64_MAX in *; lia.
  - unfold mqtt_packet_guard_probe_expire.
    destruct (_ && _); [apply probe_inv_killed|apply probe_inv_same]; done.
  - apply probe_inv_killed; done.
Qed.

(** *** A disciplined owner is never refused for ambiguity *)

(** After [n] steps: the serials count steps, and the SDK is ahead of the last
    accepted identifier by fewer calls than the guard counted. *)
Definition owner_inv (n : nat) (s : guard * Z) : Prop :=
  let (g, k) := s in
  unsafe g = false /\ 0 <= operation_serial g <= Z.of_nat n /\ 0 <= generation g <= Z.of_nat n /\
  0 <= k <= 65535 /\ 0 <= attempts_since_id g <= attempts g /\ attempts g <= 60000 /\
  b2z (operation_pending g) <= attempts_since_id g /\
  (have_last_packet_id g = true ->
     1 <= k /\ 1 <= last_packet_id g <= 65535 /\
     (k - last_packet_id g) mod 65535 <= attempts_since_id g - b2z (operation_pending g)).

(** The other events touch neither identity, nor the pending call, nor the verdict. *)
Lemma guard_step_event g o :
  match o with Packet_begin | Packet_result _ | Connected => False | _ => True end ->
  id_part (guard_step g o).1 = id_part g /\
  (unsafe (guard_step g o).1, operation_serial (guard_step g o).1, generation (guard_step g o).1,
   operation_pending (guard_step g o).1) =
  (unsafe g, operation_serial g, generation g, operation_pending g).
Proof.
  intros Ho; split; [pose proof (guard_step_id_part g o); destruct o; done|].
  destruct o; try done; cbn [guard_step fst snd];
    unfold mqtt_packet_guard_arm_reset, mqtt_packet_guard_on_disconnected,
      mqtt_packet_guard_probe_begin, mqtt_packet_guard_probe_result,
      mqtt_packet_guard_on_puback, mqtt_packet_guard_probe_expire, accept_ack;
    repeat case_match; done.
Qed.

Lemma next_id_range k : 0 <= k <= 65535 -> 1 <= next_id k <= 65535.
Proof. unfold next_id; destruct (Z.eqb_spec k 65535); lia. Qed.
Lemma next_id_ahead k last :
  1 <= k <= 65535 -> (next_id k - last) mod 65535 = ((k - last) mod 65535 + 1) mod 65535.
Proof.
  intros; rewrite Zplus_mod_idemp_l; unfold next_id; destruct (Z.eqb_spec k 65535) as [->|].
  - replace (65535 - last + 1) with (1 - last + 1 * 65535) by lia; rewrite Z_mod_plus_full; done.
  - f_equal; lia.
Qed.

Lemma owner_inv_ok n g k :
  operation_pending g = true -> owner_inv n (g, k) ->
  owner_inv (S n) ((mqtt_packet_guard_packet_result g (next_id k)).1, next_id k).
Proof.
  intros Hp (Hu & Hs & Hg & Hk & Ha & Hb & Hpe & Hl); pose proof (next_id_range k Hk) as Hn.
  rewrite Hp in Hpe, Hl; cbn [b2z] in Hpe, Hl.
  unfold mqtt_packet_guard_packet_result; rewrite Hp; cbn [negb upd unsafe]; rewrite Hu.
  unfold UINT16_MAX.
  replace (next_id k <? 0) with false by lia; replace (next_id k =? 0) with false by lia.
  replace (65535 <? next_id k) with false by lia; cbn [orb].
  destruct (_ && _) eqn:E; [exfalso|].
  - cbn in E; apply andb_prop in E as [Eh E]; destruct (Hl Eh) as (Hk1 & Hlr & Hd).
    rewrite id_distance_mod, next_id_ahead in E by lia.
    pose proof (Z.mod_pos_bound (k - last_packet_id g) 65535).
    rewrite Z.mod_small in E by lia; apply orb_prop in E as [E|E]; to_prop; lia.
  - unfold owner_inv; cbn; rewrite !u16_small, Z.sub_diag by lia.
    change (0 mod 65535) with 0; split_and!; try done; lia.
Qed.

Lemma owner_inv_step n s s' :
  Z.of_nat n < UINT64_MAX -> owner_inv n s -> owner_step s s' -> owner_inv (S n) s'.
Proof.
  intros Hn Hi Hst; unfold UINT64_MAX in Hn.
  destruct Hst as [g k Hp|g k Hp|g k taken Hp|g k Hc|g k o Ho].
  - destruct Hi as (Hu & Hs & Hg & Hk & Ha & Hb & Hpe & Hl); rewrite Hp in Hpe, Hl.
    unfold mqtt_packet_guard_packet_begin, UINT64_MAX, MQTT_PACKET_GUARD_BUDGET; rewrite Hp, Hu.
    replace (operation_serial g =? _) with false by lia; cbn [orb].
    destruct (_ || _) eqn:E; unfold owner_inv; cbn.
    + rewrite Hp; split_and!; try done; cbn in *; try lia; intros Hh; specialize (Hl Hh); lia.
    + to_prop; rewrite u64_small, !u32_small by lia; cbn in *; split_and!; try done; try lia.
      intros Hh; specialize (Hl Hh); lia.
  - apply owner_inv_ok; done.
  - destruct Hi as (Hu & Hs & Hg & Hk & Ha & Hb & Hpe & Hl); rewrite Hp in Hpe, Hl.
    pose proof (next_id_range k Hk); unfold mqtt_packet_guard_packet_result; rewrite Hp.
    cbn; rewrite Hu; unfold owner_inv; cbn in *; split_and!; try done; try (destruct taken; lia).
    intros Hh; destruct (Hl Hh) as (? & ? & Hd); split_and!; try (destruct taken; lia).
    destruct taken; [|lia]; rewrite next_id_ahead by lia.
    pose proof (Z.mod_pos_bound (k - last_packet_id g) 65535).
    rewrite Z.mod_small by lia; lia.
  - destruct Hi as (Hu & Hs & Hg & Hk & Ha & Hb & Hpe & Hl).
    unfold mqtt_packet_guard_on_connected, UINT64_MAX; rewrite Hc.
    replace (generation g =? _) with false by lia; cbn [orb].
    destruct (renews _) eqn:E; unfold owner_inv; cbn; rewrite u64_small by lia.
    + unfold renews in E; cbn in E; to_prop.
      match goal with H : operation_pending g = false |- _ => rewrite H end; cbn.
      split_and!; try done; lia.
    + split_and!; try done; try lia; intros Hh; apply Hl; done.
  - destruct (guard_step_event g o Ho) as [Hid [= E1 E2 E3 E4]].
    injection Hid as E5 E6 E7 E8; unfold owner_inv in *.
    rewrite E1, E2, E3, E4, E5, E6, E7, E8.
    destruct Hi as (Hu & Hs & Hg & Hk & Ha & Hb & Hpe & Hl); split_and!; try done; lia.
Qed.

Lemma owner_inv_nsteps n m s s' :
  Z.of_nat (n + m) < UINT64_MAX -> owner_inv n s -> nsteps owner_step m s s' ->
  owner_inv (n + m) s'.
Proof.
  intros Hn Hi Hr; revert n Hn Hi; induction Hr as [s|m s s1 s' Hst Hr IH]; intros n Hn Hi.
  - rewrite Nat.add_0_r; done.
  - rewrite <- Nat.add_succ_comm; apply IH; [lia|].
    apply owner_inv_step with s; [lia|done..].
Qed.

Lemma run_guard_snoc ops o : run_guard (ops ++ [o]) = (guard_step (run_guard ops) o).1.
Proof.
  unfold run_guard; rewrite run_app; destruct (run guard_step _ ops) as [g os]; cbn.
  destruct (guard_step g o); done.
Qed.

Lemma run_guard_probe_inv ops : probe_inv (run_guard ops) ops.
Proof.
  induction ops as [|o ops IH] using rev_ind.
  - apply probe_inv_killed; cbn; unfold UINT64_MAX; try done; lia.
  - rewrite run_guard_snoc; apply probe_inv_step; done.
Qed.
End PacketGuard.

#[global] Arguments id_distance : simpl never.

(** ** Properties *)

(** Packet identifiers are unambiguous.  Whatever the calls, the results
    and the connection events, the identifiers the guard accepts within one
    identity epoch (from a budget renewal to the next) are distinct identifiers
    of the MQTT range, so an acknowledgement names one packet. *)
Theorem packet_ids_distinct ops :
  let (g, ids) := epoch_run ops in
  NoDup ids /\ Forall (fun id => 1 <= id <= 65535) ids /\
  attempts g <= MQTT_PACKET_GUARD_BUDGET.
Proof.
  assert (H : id_inv (epoch_run ops).1 (epoch_run ops).2).
  { unfold epoch_run; induction ops as [|o ops IH] using rev_ind.
    - cbn; unfold id_inv, MQTT_PACKET_GUARD_BUDGET; cbn; split_and!; try lia; try done; constructor.
    - rewrite fold_left_app; apply epoch_step_inv, IH. }
  destruct (epoch_run ops) as [g ids]; destruct H as (_ & ? & _ & ? & Hf); split_and!; try done.
  eapply Forall_impl; [exact Hf|]; cbn; lia.
Qed.

(** A valid proof is evidence of delivery on the present connection.  It
    exists only if a probe began while an SDK call was pending, that same call
    reported [id] (no other result in between), the probe was completed with
    [id], and a PUBACK for [id], captured on the current connection, was
    received since the probe began and inside its window. *)
Theorem probe_proof_sound ops :
  let g := run_guard ops in
  proof_valid g = true ->
  connected g = true /\ unsafe g = false /\ proof_generation g = generation g /\
  exists token started timeout id h0 h1 h2 now h3,
    ops = h0 ++ Probe_begin token started timeout ::
          (h1 ++ Packet_result id :: h2 ++ Probe_result token id now :: h3) /\
    no_result h1 /\ no_result h2 /\ 1 <= id <= 65535 /\
    Puback (generation g) id (proof_at_ms g) ∈
      h1 ++ Packet_result id :: h2 ++ Probe_result token id now :: h3 /\
    started <= proof_at_ms g < started + timeout.
Proof.
  intros g Hv; destruct (run_guard_probe_inv ops) as (_ & _ & _ & _ & _ & Hp).
  destruct (Hp Hv) as (Hc & Hu & Hg & t & s & d & id & h0 & h & Hops & Hid & Hin & Hw).
  destruct Hid as (h1 & h2 & now & h3 & Hh & ? & ? & ?).
  rewrite Hh in Hops, Hin; split_and!; try done.
  exists t, s, d, id, h0, h1, h2, now, h3; split_and!; done || apply Hw || lia.
Qed.

(** The acknowledgement overtakes the report of its own identifier. *)
Definition early_ack_trace : list op :=
  [Connected; Packet_begin; Probe_begin 7 1000 60000; Puback 1 41 1200; Packet_result 41;
   Probe_result 7 41 1300].

Lemma probe_proof_sound_witness :
  let g := run_guard early_ack_trace in
  connected g = true /\ unsafe g = false /\ proof_generation g = generation g.
Proof.
  cut (proof_valid (run_guard early_ack_trace) = true); [|vm_compute; reflexivity].
  intros Hv; destruct (probe_proof_sound early_ack_trace Hv) as (H1 & H2 & H3 & _).
  split; [exact H1|split; [exact H2|exact H3]].
Defined.

(** The guard raises no false alarm.  An owner that follows the contract
    with a sequential SDK is never declared unsafe, whatever fails, reconnects,
    wraps around 65535 or runs into the budget, in fewer than 2^64 - 1 steps. *)
Theorem guard_no_false_alarm n g k :
  nsteps owner_step n (mqtt_packet_guard_init, 0) (g, k) ->
  Z.of_nat n < UINT64_MAX -> unsafe g = false.
Proof.
  intros Hr Hn; apply (owner_inv_nsteps 0 n _ _ Hn) in Hr; [apply Hr|].
  unfold owner_inv; cbn; split_and!; try done; lia.
Qed.

(** A call that took an identifier and failed, then one that succeeded. *)
Lemma guard_no_false_alarm_witness :
  let s1 := (mqtt_packet_guard_packet_begin mqtt_packet_guard_init).1 in
  let s2 := (mqtt_packet_guard_packet_result s1 (-1)).1 in
  let s3 := (mqtt_packet_guard_packet_begin s2).1 in
  unsafe (mqtt_packet_guard_packet_result s3 2).1 = false.
Proof.
  intros s1 s2 s3; apply (guard_no_false_alarm 4 _ 2); [|vm_compute; reflexivity].
  apply (nsteps_l _ _ _ (s1, 0)); [apply own_begin; reflexivity|].
  apply (nsteps_l _ _ _ (s2, 1)); [apply (own_failed s1 0 true); reflexivity|].
  apply (nsteps_l _ _ _ (s3, 1)); [apply own_begin; reflexivity|].
  apply (nsteps_l _ _ _ ((mqtt_packet_guard_packet_result s3 2).1, 2)); [|apply nsteps_O].
  apply (own_ok s3 1); reflexivity.
Defined.
