(* ===== verification/DispatchQueue.v ===== *)
(** * The MQTT dispatch queue (firmware-ESP32-LTE-M/main/mqtt_dispatch_queue.c)

    Publications wait in 32 slots until the modem task claims them: critical
    before others, first in first out within each class, retries in place,
    snapshots of the same key replaced.  The first part translates the slot
    array and its scans; [spec_step] is the abstract queue, a list in
    submission order, that the slot array implements. *)

From stdpp Require Import sorting.
From S2P Require Import Prelude.

(** ** State *)

(* src: firmware-ESP32-LTE-M/main/mqtt_dispatch_queue.h:14-18 limits *)
Definition MQTT_DISPATCH_CAPACITY : nat := 32.
Definition MQTT_DISPATCH_CRITICAL_RESERVE : Z := 8.
Definition MQTT_DISPATCH_TOPIC_CAPACITY : nat := 64.
Definition MQTT_DISPATCH_PAYLOAD_CAPACITY : Z := 256.
Definition MQTT_DISPATCH_CRITICAL_BURST : Z := 8.

(* src: firmware-ESP32-LTE-M/main/mqtt_dispatch_queue.h:20-25 mqtt_dispatch_result_t *)
Inductive dispatch_result := ACCEPTED | FULL | TOO_LARGE | INVALID.

(** [rq_topic] is the C string at [topic] (no NUL inside), [None] the null
    pointer; [rq_payload] is the memory at [payload]. *)
(* src: firmware-ESP32-LTE-M/main/mqtt_dispatch_queue.h:27-36 mqtt_dispatch_request_t *)
Record request := Request {
  rq_topic : option (list Z);
  rq_payload : option (list Z);
  rq_payload_len : Z;
  rq_qos : Z;
  rq_retain : bool;
  rq_critical : bool;
  rq_coalesce_key : Z;
  rq_deadline_ms : Z
}.

(** The fixed arrays of an item hold its topic string and the first
    [payload_len] bytes of its payload. *)
(* src: firmware-ESP32-LTE-M/main/mqtt_dispatch_queue.h:38-48 mqtt_dispatch_item_t *)
Record item := Item {
  it_topic : list Z;
  it_payload : list Z;
  it_payload_len : Z;
  it_qos : Z;
  it_retain : bool;
  it_critical : bool;
  it_coalesce_key : Z;
  it_token : Z;
  it_deadline_ms : Z
}.

(* src: firmware-ESP32-LTE-M/main/mqtt_dispatch_queue.h:50-58 mqtt_dispatch_stats_t *)
Record stats := Stats {
  st_accepted : Z; st_coalesced : Z; st_full : Z; st_expired : Z; st_dropped : Z;
  st_depth : Z; st_highwater : Z
}.

(* src: firmware-ESP32-LTE-M/main/mqtt_dispatch_queue.h:60-64 mqtt_dispatch_slot_state_t *)
Inductive slot_state := SLOT_FREE | SLOT_QUEUED | SLOT_INFLIGHT.

#[export] Instance slot_state_eq_dec : EqDecision slot_state.
Proof. solve_decision. Defined.

(* src: firmware-ESP32-LTE-M/main/mqtt_dispatch_queue.h:66-71 mqtt_dispatch_slot_t *)
Record slot := Slot {
  s_item : item; s_order : Z; s_retry_after_ms : Z; s_state : slot_state
}.

(* src: firmware-ESP32-LTE-M/main/mqtt_dispatch_queue.h:73-78 mqtt_dispatch_queue_t *)
Record queue := Queue {
  q_slots : list slot; q_counters : stats; q_last_token : Z; q_critical_streak : Z
}.

(* src: firmware-ESP32-LTE-M/main/mqtt_dispatch_queue.h:80-83 mqtt_dispatch_claim_t *)
Record claim := Claim { cl_slot : nat; cl_item : item }.

(* src: firmware-ESP32-LTE-M/main/mqtt_dispatch_queue.h:85-89 mqtt_dispatch_finish_t *)
Inductive dispatch_finish := SENT | RETRY | DROP.

#[export] Instance eta_stats : Eta stats := fun s =>
  Stats (st_accepted s) (st_coalesced s) (st_full s) (st_expired s) (st_dropped s)
    (st_depth s) (st_highwater s).
#[export] Instance eta_slot : Eta slot := fun s =>
  Slot (s_item s) (s_order s) (s_retry_after_ms s) (s_state s).
#[export] Instance eta_queue : Eta queue := fun q =>
  Queue (q_slots q) (q_counters q) (q_last_token q) (q_critical_streak q).

(** What [memset] leaves. *)
Definition item_zero : item := Item [] [] 0 0 false false 0 0 0.
Definition slot_zero : slot := Slot item_zero 0 0 SLOT_FREE.
#[export] Instance slot_inhabited : Inhabited slot := populate slot_zero.

(** ** Operations *)

(* src: firmware-ESP32-LTE-M/main/mqtt_dispatch_queue.c:5-8 expired *)
Definition expired (it : item) (now_ms : Z) : bool :=
  negb (it_deadline_ms it =? 0) && (it_deadline_ms it <=? now_ms).

(* src: firmware-ESP32-LTE-M/main/mqtt_dispatch_queue.c:10-14 release_slot *)
Definition release_slot (q : queue) (i : nat) : queue :=
  q <| q_slots := <[i := slot_zero]> (q_slots q) |>
    <| q_counters := (q_counters q) <| st_depth := u32 (st_depth (q_counters q) - 1) |> |>.

(* src: firmware-ESP32-LTE-M/main/mqtt_dispatch_queue.c:16-19 mqtt_dispatch_init *)
Definition mqtt_dispatch_init : queue :=
  Queue (replicate MQTT_DISPATCH_CAPACITY slot_zero) (Stats 0 0 0 0 0 0 0) 0 0.

(* src: firmware-ESP32-LTE-M/main/mqtt_dispatch_queue.c:27-30 mqtt_dispatch_submit *)
Definition request_invalid (last_token : Z) (rq : request) : bool :=
  match rq_topic rq with
  | None => true
  | Some t =>
      bool_decide (t = []) ||
      (bool_decide (rq_payload rq = None) && negb (rq_payload_len rq =? 0)) ||
      (rq_qos rq <? 0) || (2 <? rq_qos rq) || (last_token =? UINT64_MAX)
  end.

(* src: firmware-ESP32-LTE-M/main/mqtt_dispatch_queue.c:32-37 mqtt_dispatch_submit *)
Definition request_too_large (rq : request) : bool :=
  (MQTT_DISPATCH_TOPIC_CAPACITY <=? length (default [] (rq_topic rq)))%nat ||
  (MQTT_DISPATCH_PAYLOAD_CAPACITY <? rq_payload_len rq).

(* src: firmware-ESP32-LTE-M/main/mqtt_dispatch_queue.c:49-53 mqtt_dispatch_submit *)
Definition same_snapshot (it : item) (rq : request) : bool :=
  negb (rq_critical rq) && negb (it_critical it) && negb (rq_coalesce_key rq =? 0) &&
  (it_coalesce_key it =? rq_coalesce_key rq) && (it_qos it =? rq_qos rq) &&
  Bool.eqb (it_retain it) (rq_retain rq) && bool_decide (Some (it_topic it) = rq_topic rq).
Definition coalesces (s : slot) (rq : request) : bool :=
  bool_decide (s_state s = SLOT_QUEUED) && same_snapshot (s_item s) rq.

(** The scan: first free slot, last slot to replace, number of occupied
    noncritical slots; [MQTT_DISPATCH_CAPACITY] stands for none. *)
(* src: firmware-ESP32-LTE-M/main/mqtt_dispatch_queue.c:39-55 mqtt_dispatch_submit *)
Fixpoint submit_scan (rq : request) (i : nat) (l : list slot) (free_slot replacement : nat)
    (noncritical : Z) : nat * nat * Z :=
  match l with
  | [] => (free_slot, replacement, noncritical)
  | s :: l =>
      if bool_decide (s_state s = SLOT_FREE) then
        submit_scan rq (S i) l
          (if (free_slot =? MQTT_DISPATCH_CAPACITY)%nat then i else free_slot)
          replacement noncritical
      else
        submit_scan rq (S i) l free_slot (if coalesces s rq then i else replacement)
          (if it_critical (s_item s) then noncritical else noncritical + 1)
  end.

(* src: firmware-ESP32-LTE-M/main/mqtt_dispatch_queue.c:76-86 mqtt_dispatch_submit *)
Definition item_of (rq : request) (token : Z) : item :=
  Item (default [] (rq_topic rq))
    (take (Z.to_nat (rq_payload_len rq)) (default [] (rq_payload rq)))
    (rq_payload_len rq) (rq_qos rq) (rq_retain rq) (rq_critical rq) (rq_coalesce_key rq)
    token (rq_deadline_ms rq).

(** The results written through [token] and [replaced_token] are zero unless
    the submission is accepted. *)
(* src: firmware-ESP32-LTE-M/main/mqtt_dispatch_queue.c:21-91 mqtt_dispatch_submit *)
Definition mqtt_dispatch_submit (q : queue) (rq : request)
    : queue * (dispatch_result * Z * Z) :=
  if request_invalid (q_last_token q) rq then (q, (INVALID, 0, 0))
  else if request_too_large rq then (q, (TOO_LARGE, 0, 0)) else
  let '(free_slot, replacement, noncritical) :=
    submit_scan rq 0 (q_slots q) MQTT_DISPATCH_CAPACITY MQTT_DISPATCH_CAPACITY 0 in
  let replaces := negb (replacement =? MQTT_DISPATCH_CAPACITY)%nat in
  let index := if replaces then replacement else free_slot in
  let c := q_counters q in
  if (index =? MQTT_DISPATCH_CAPACITY)%nat ||
     (negb replaces && negb (rq_critical rq) &&
      (Z.of_nat MQTT_DISPATCH_CAPACITY - MQTT_DISPATCH_CRITICAL_RESERVE <=? noncritical))
  then (q <| q_counters := c <| st_full := u64 (st_full c + 1) |> |>, (FULL, 0, 0)) else
  let s := q_slots q !!! index in
  let '(s, c, replaced) :=
    if replaces then
      (s, c <| st_coalesced := u64 (st_coalesced c + 1) |>, it_token (s_item s))
    else
      let c := c <| st_depth := u32 (st_depth c + 1) |> in
      (s <| s_order := u64 (q_last_token q + 1) |> <| s_retry_after_ms := 0 |>,
       if st_highwater c <? st_depth c then c <| st_highwater := st_depth c |> else c, 0) in
  let token := u64 (q_last_token q + 1) in
  let s := s <| s_item := item_of rq token |> <| s_state := SLOT_QUEUED |> in
  (q <| q_slots := <[index := s]> (q_slots q) |> <| q_last_token := token |>
     <| q_counters := c <| st_accepted := u64 (st_accepted c + 1) |> |>,
   (ACCEPTED, token, replaced)).

Definition slot_expired (s : slot) (now_ms : Z) : bool :=
  bool_decide (s_state s = SLOT_QUEUED) && expired (s_item s) now_ms.

(** The loop changes each slot on its own: the new slots and the tokens. *)
(* src: firmware-ESP32-LTE-M/main/mqtt_dispatch_queue.c:98-105 mqtt_dispatch_expire *)
Fixpoint expire_slots (now_ms : Z) (l : list slot) : list slot * list Z :=
  match l with
  | [] => ([], [])
  | s :: l =>
      let (l', tokens) := expire_slots now_ms l in
      if slot_expired s now_ms
      then (slot_zero :: l', it_token (s_item s) :: tokens) else (s :: l', tokens)
  end.

(* src: firmware-ESP32-LTE-M/main/mqtt_dispatch_queue.c:93-107 mqtt_dispatch_expire *)
Definition mqtt_dispatch_expire (q : queue) (now_ms : Z) : queue * list Z :=
  let (slots, tokens) := expire_slots now_ms (q_slots q) in
  let count := Z.of_nat (length tokens) in
  let c := q_counters q in
  (q <| q_slots := slots |>
     <| q_counters := c <| st_expired := u64 (st_expired c + count) |>
                        <| st_depth := u32 (st_depth c - count) |> |>, tokens).

Definition eligible (critical : bool) (now_ms : Z) (s : slot) : bool :=
  bool_decide (s_state s = SLOT_QUEUED) && negb (expired (s_item s) now_ms) &&
  Bool.eqb (it_critical (s_item s)) critical.

(** The scan of a claim: the oldest eligible slot of each class, or [None] when
    a slot is in flight. *)
(* src: firmware-ESP32-LTE-M/main/mqtt_dispatch_queue.c:113-121 mqtt_dispatch_claim *)
Fixpoint claim_scan (now_ms : Z) (slots : list slot) (i : nat) (l : list slot)
    (critical other : nat) : option (nat * nat) :=
  match l with
  | [] => Some (critical, other)
  | s :: l =>
      if bool_decide (s_state s = SLOT_INFLIGHT) then None
      else if negb (bool_decide (s_state s = SLOT_QUEUED)) || expired (s_item s) now_ms
      then claim_scan now_ms slots (S i) l critical other
      else
        let better c := (c =? MQTT_DISPATCH_CAPACITY)%nat || (s_order s <? s_order (slots !!! c)) in
        if it_critical (s_item s)
        then claim_scan now_ms slots (S i) l (if better critical then i else critical) other
        else claim_scan now_ms slots (S i) l critical (if better other then i else other)
  end.

(** A delayed head blocks its class. *)
(* src: firmware-ESP32-LTE-M/main/mqtt_dispatch_queue.c:124-127 mqtt_dispatch_claim *)
Definition ready_head (now_ms : Z) (slots : list slot) (c : nat) : nat :=
  if negb (c =? MQTT_DISPATCH_CAPACITY)%nat && (now_ms <? s_retry_after_ms (slots !!! c))
  then MQTT_DISPATCH_CAPACITY else c.

(* src: firmware-ESP32-LTE-M/main/mqtt_dispatch_queue.c:138-141 mqtt_dispatch_claim *)
Definition take_slot (q : queue) (index : nat) : queue * option claim :=
  let s := q_slots q !!! index in
  (q <| q_slots := <[index := s <| s_state := SLOT_INFLIGHT |>]> (q_slots q) |>,
   Some (Claim index (s_item s))).

(* src: firmware-ESP32-LTE-M/main/mqtt_dispatch_queue.c:109-142 mqtt_dispatch_claim *)
Definition mqtt_dispatch_claim (q : queue) (now_ms : Z) : queue * option claim :=
  match claim_scan now_ms (q_slots q) 0 (q_slots q)
          MQTT_DISPATCH_CAPACITY MQTT_DISPATCH_CAPACITY with
  | None => (q, None)
  | Some (critical, other) =>
      let critical := ready_head now_ms (q_slots q) critical in
      let other := ready_head now_ms (q_slots q) other in
      if negb (critical =? MQTT_DISPATCH_CAPACITY)%nat &&
         ((other =? MQTT_DISPATCH_CAPACITY)%nat ||
          (q_critical_streak q <? MQTT_DISPATCH_CRITICAL_BURST)) then
        take_slot (if q_critical_streak q <? MQTT_DISPATCH_CRITICAL_BURST
                   then q <| q_critical_streak := u32 (q_critical_streak q + 1) |> else q) critical
      else if (other =? MQTT_DISPATCH_CAPACITY)%nat then (q, None)
      else take_slot (q <| q_critical_streak := 0 |>) other
  end.

(* src: firmware-ESP32-LTE-M/main/mqtt_dispatch_queue.c:144-163 mqtt_dispatch_finish *)
Definition mqtt_dispatch_finish (q : queue) (cl : claim) (result : dispatch_finish)
    (now_ms retry_after_ms : Z) : queue * bool :=
  if (MQTT_DISPATCH_CAPACITY <=? cl_slot cl)%nat then (q, false) else
  let s := q_slots q !!! cl_slot cl in
  if negb (bool_decide (s_state s = SLOT_INFLIGHT)) ||
     negb (it_token (s_item s) =? it_token (cl_item cl)) then (q, false) else
  let c := q_counters q in
  match result with
  | RETRY =>
      if negb (expired (s_item s) now_ms) then
        (q <| q_slots := <[cl_slot cl :=
              s <| s_state := SLOT_QUEUED |> <| s_retry_after_ms := retry_after_ms |>]> (q_slots q) |>,
         true)
      else (release_slot (q <| q_counters := c <| st_expired := u64 (st_expired c + 1) |> |>)
              (cl_slot cl), true)
  | DROP => (release_slot (q <| q_counters := c <| st_dropped := u64 (st_dropped c + 1) |> |>)
               (cl_slot cl), true)
  | SENT => (release_slot q (cl_slot cl), true)
  end.

(** The operations as one transition function. *)
Inductive queue_op :=
  | Submit (rq : request)
  | Expire (now_ms : Z)
  | Take (now_ms : Z)
  | Finish (cl : claim) (result : dispatch_finish) (now_ms retry_after_ms : Z).
Inductive queue_out :=
  | Submitted (r : dispatch_result) (token replaced : Z)
  | Expired (tokens : list Z)
  | Taken (cl : option claim)
  | Finished (ok : bool).

Definition queue_step (q : queue) (o : queue_op) : queue * queue_out :=
  match o with
  | Submit rq => let '(q, (r, t, p)) := mqtt_dispatch_submit q rq in (q, Submitted r t p)
  | Expire now => let '(q, ts) := mqtt_dispatch_expire q now in (q, Expired ts)
  | Take now => let '(q, c) := mqtt_dispatch_claim q now in (q, Taken c)
  | Finish c r now retry => let '(q, b) := mqtt_dispatch_finish q c r now retry in (q, Finished b)
  end.

(** ** The abstract queue

    Entries in submission order.  An entry keeps its place while it is retried,
    replaced or in flight; [e_slot] is the handle a claim carries. *)
Record entry := Entry { e_slot : nat; e_item : item; e_retry : Z; e_inflight : bool }.
Record aqueue := AQueue { a_list : list entry; a_last : Z; a_streak : Z }.

#[export] Instance eta_entry : Eta entry := fun e =>
  Entry (e_slot e) (e_item e) (e_retry e) (e_inflight e).

Definition e_eligible (critical : bool) (now_ms : Z) (e : entry) : bool :=
  negb (e_inflight e) && negb (expired (e_item e) now_ms) &&
  Bool.eqb (it_critical (e_item e)) critical.
Definition e_dead (now_ms : Z) (e : entry) : bool :=
  negb (e_inflight e) && expired (e_item e) now_ms.
Definition e_coalesces (rq : request) (e : entry) : bool :=
  negb (e_inflight e) && same_snapshot (e_item e) rq.
Definition e_token (e : entry) : Z := it_token (e_item e).
Definition e_noncritical (e : entry) : bool := negb (it_critical (e_item e)).
Definition noncriticals (l : list entry) : Z := Z.of_nat (length (List.filter e_noncritical l)).
Definition e_claimed (cl : claim) (e : entry) : bool :=
  e_inflight e && (e_slot e =? cl_slot cl)%nat && (e_token e =? it_token (cl_item cl)).

(** The oldest live entry of a class, unless it is delayed. *)
Definition spec_head (critical : bool) (now_ms : Z) (l : list entry) : option entry :=
  match List.find (e_eligible critical now_ms) l with
  | Some e => if now_ms <? e_retry e then None else Some e
  | None => None
  end.

(** Room for a new entry: the last eight places are for critical ones. *)
Definition has_room (l : list entry) (critical : bool) : Prop :=
  (length l < MQTT_DISPATCH_CAPACITY)%nat /\
  (critical = true \/
   noncriticals l < Z.of_nat MQTT_DISPATCH_CAPACITY - MQTT_DISPATCH_CRITICAL_RESERVE).

(** A request the queue looks at. *)
Definition admissible (last_token : Z) (rq : request) : Prop :=
  request_invalid last_token rq = false /\ request_too_large rq = false.

Inductive spec_step : aqueue -> queue_op -> queue_out -> aqueue -> Prop :=
  | sp_invalid a rq : request_invalid (a_last a) rq = true ->
      spec_step a (Submit rq) (Submitted INVALID 0 0) a
  | sp_too_large a rq : request_invalid (a_last a) rq = false -> request_too_large rq = true ->
      spec_step a (Submit rq) (Submitted TOO_LARGE 0 0) a
  | sp_full a rq :
      admissible (a_last a) rq ->
      forallb (fun e => negb (e_coalesces rq e)) (a_list a) = true ->
      ~ has_room (a_list a) (rq_critical rq) ->
      spec_step a (Submit rq) (Submitted FULL 0 0) a
  | sp_append l last streak rq i :
      admissible last rq ->
      forallb (fun e => negb (e_coalesces rq e)) l = true -> has_room l (rq_critical rq) ->
      spec_step (AQueue l last streak) (Submit rq) (Submitted ACCEPTED (last + 1) 0)
        (AQueue (l ++ [Entry i (item_of rq (last + 1)) 0 false]) (last + 1) streak)
  | sp_coalesce l1 e l2 last streak rq :
      admissible last rq -> e_coalesces rq e = true ->
      spec_step (AQueue (l1 ++ e :: l2) last streak) (Submit rq)
        (Submitted ACCEPTED (last + 1) (e_token e))
        (AQueue (l1 ++ e <| e_item := item_of rq (last + 1) |> :: l2) (last + 1) streak)
  | sp_expire l last streak now tokens :
      tokens ≡ₚ map e_token (List.filter (e_dead now) l) ->
      spec_step (AQueue l last streak) (Expire now) (Expired tokens)
        (AQueue (List.filter (fun e => negb (e_dead now e)) l) last streak)
  | sp_take_none a now :
      existsb e_inflight (a_list a) = true \/
      (spec_head true now (a_list a) = None /\ spec_head false now (a_list a) = None) ->
      spec_step a (Take now) (Taken None) a
  | sp_take l1 e l2 last streak now c :
      existsb e_inflight (l1 ++ e :: l2) = false ->
      spec_head c now (l1 ++ e :: l2) = Some e -> forallb (fun e => negb (e_eligible c now e)) l1 = true ->
      spec_head (negb c) now (l1 ++ e :: l2) = None \/
        (if c then streak < MQTT_DISPATCH_CRITICAL_BURST
         else MQTT_DISPATCH_CRITICAL_BURST <= streak) ->
      spec_step (AQueue (l1 ++ e :: l2) last streak) (Take now)
        (Taken (Some (Claim (e_slot e) (e_item e))))
        (AQueue (l1 ++ e <| e_inflight := true |> :: l2) last
           (if c then Z.min (streak + 1) MQTT_DISPATCH_CRITICAL_BURST else 0))
  | sp_refused a cl r now retry :
      forallb (fun e => negb (e_claimed cl e)) (a_list a) = true ->
      spec_step a (Finish cl r now retry) (Finished false) a
  | sp_retry l1 e l2 last streak cl now retry :
      e_claimed cl e = true -> expired (e_item e) now = false ->
      spec_step (AQueue (l1 ++ e :: l2) last streak) (Finish cl RETRY now retry) (Finished true)
        (AQueue (l1 ++ e <| e_retry := retry |> <| e_inflight := false |> :: l2) last streak)
  | sp_release l1 e l2 last streak cl r now retry :
      e_claimed cl e = true -> r <> RETRY \/ expired (e_item e) now = true ->
      spec_step (AQueue (l1 ++ e :: l2) last streak) (Finish cl r now retry) (Finished true)
        (AQueue (l1 ++ l2) last streak).

(** Executions of the abstract queue. *)
Inductive spec_run : aqueue -> list queue_op -> list queue_out -> aqueue -> Prop :=
  | spec_nil a : spec_run a [] [] a
  | spec_cons a o out a1 ops outs a2 :
      spec_step a o out a1 -> spec_run a1 ops outs a2 ->
      spec_run a (o :: ops) (out :: outs) a2.

Definition aqueue_init : aqueue := AQueue [] 0 0.

(** ** The refinement relation *)

(** The occupied slots with their order, by index. *)
Definition used (s : slot) : bool := negb (bool_decide (s_state s = SLOT_FREE)).
Definition entry_of (i : nat) (s : slot) : Z * entry :=
  (s_order s, Entry i (s_item s) (s_retry_after_ms s) (bool_decide (s_state s = SLOT_INFLIGHT))).
Definition occ (i : nat) (s : slot) : list (Z * entry) :=
  if used s then [entry_of i s] else [].
Fixpoint occupied (i : nat) (l : list slot) : list (Z * entry) :=
  match l with [] => [] | s :: l => occ i s ++ occupied (S i) l end.

Definition before (x y : Z * entry) : Prop := x.1 < y.1.

(** [q] implements [a]: sorted by order, its occupied slots are the entries. *)
Definition refines (q : queue) (a : aqueue) : Prop :=
  length (q_slots q) = MQTT_DISPATCH_CAPACITY /\
  q_last_token q = a_last a /\ q_critical_streak q = a_streak a /\
  st_depth (q_counters q) = Z.of_nat (length (a_list a)) /\
  0 <= a_last a <= UINT64_MAX /\ 0 <= a_streak a <= MQTT_DISPATCH_CRITICAL_BURST /\
  exists ss, StronglySorted before ss /\ occupied 0 (q_slots q) ≡ₚ ss /\
    a_list a = map snd ss /\ Forall (fun x => x.1 <= a_last a) ss.

Section DispatchQueue.
Implicit Types (q : queue) (ss : list (Z * entry)) (sl : list slot).

(** *** Occupied slots under update *)

Lemma occupied_app i sl sl' :
  occupied i (sl ++ sl') = occupied i sl ++ occupied (i + length sl) sl'.
Proof.
  revert i; induction sl as [|s sl IH]; intros i; cbn; [rewrite Nat.add_0_r; done|].
  rewrite IH, <- app_assoc, Nat.add_succ_comm; done.
Qed.

Lemma occupied_update sl c s :
  sl !! c = Some s -> exists A B, occupied 0 sl = A ++ occ c s ++ B /\
    forall s', occupied 0 (<[c := s']> sl) = A ++ occ c s' ++ B.
Proof.
  intros Hc; exists (occupied 0 (take c sl)), (occupied (S c) (drop (S c) sl)).
  pose proof (lookup_lt_Some _ _ _ Hc) as Hlt.
  assert (Hlen : length (take c sl) = c) by (rewrite length_take; lia).
  split; [|intros s'].
  - rewrite <- (take_drop_middle sl c s Hc) at 1; rewrite occupied_app, Hlen; done.
  - rewrite insert_take_drop, occupied_app, Hlen by done; done.
Qed.

Lemma occupied_elem sl i x :
  x ∈ occupied i sl <-> exists k s, sl !! k = Some s /\ used s = true /\ x = entry_of (i + k) s.
Proof.
  revert i; induction sl as [|s sl IH]; intros i; cbn.
  - split; [intros H; inversion H|intros (k & s & H & _); done].
  - rewrite elem_of_app, IH; unfold occ; split.
    + intros [H|(k & s' & ? & ? & ->)].
      * destruct (used s) eqn:Hu; [|inversion H]; apply list_elem_of_singleton in H as ->.
        exists 0%nat, s; rewrite Nat.add_0_r; done.
      * exists (S k), s'; rewrite <- Nat.add_succ_comm; done.
    + intros ([|k] & s' & Hk & Hu & ->); cbn in Hk.
      * injection Hk as ->; left; rewrite Hu, Nat.add_0_r; apply list_elem_of_singleton; done.
      * right; exists k, s'; rewrite <- Nat.add_succ_comm; done.
Qed.

Lemma length_occupied i sl : (length (occupied i sl) <= length sl)%nat.
Proof.
  revert i; induction sl as [|s sl IH]; intros i; cbn; [done|].
  rewrite length_app; unfold occ; specialize (IH (S i)); destruct (used s); cbn; lia.
Qed.
Lemma length_occupied_full i sl :
  Forall (fun s => used s = true) sl -> length (occupied i sl) = length sl.
Proof.
  intros H; revert i; induction H as [|s sl Hs _ IH]; intros i; cbn; [done|].
  unfold occ; rewrite Hs; cbn; rewrite IH; done.
Qed.

(** *** Sorted entries *)

Lemma before_same_place ss1 x y ss2 :
  y.1 = x.1 -> StronglySorted before (ss1 ++ x :: ss2) -> StronglySorted before (ss1 ++ y :: ss2).
Proof.
  intros Hxy; rewrite !StronglySorted_app, !StronglySorted_cons; intros (H1 & H2 & H3 & H4).
  unfold before in *; split_and!; try done.
  - intros a b Ha Hb; apply elem_of_cons in Hb as [->|Hb].
    + rewrite Hxy; apply H1; [done|left].
    + apply H1; [done|right; done].
  - rewrite Hxy; done.
Qed.

Lemma before_remove ss1 x ss2 :
  StronglySorted before (ss1 ++ x :: ss2) -> StronglySorted before (ss1 ++ ss2).
Proof.
  rewrite !StronglySorted_app, !StronglySorted_cons; intros (H1 & H2 & _ & H4).
  split_and!; try done; intros a b Ha Hb; apply H1; [done|right; done].
Qed.

Lemma before_append ss x :
  Forall (fun y => y.1 < x.1) ss -> StronglySorted before ss -> StronglySorted before (ss ++ [x]).
Proof.
  intros Hf Hs; rewrite StronglySorted_app, StronglySorted_cons; split_and!; try done.
  2: constructor.
  intros a b Ha Hb; apply list_elem_of_singleton in Hb as ->.
  rewrite Forall_forall in Hf; apply Hf; done.
Qed.

(** An element before [x] in a sorted list has a smaller order. *)
Lemma before_prefix ss1 x ss2 y :
  StronglySorted before (ss1 ++ x :: ss2) -> y ∈ ss1 -> y.1 < x.1.
Proof. intros Hs Hy; apply (StronglySorted_app_1_elem_of before _ _ _ _ Hs Hy); left. Qed.

(** *** Replacing, filling and releasing a slot *)

(** Occupied slot [c] and its entry in the sorted list. *)
Lemma refines_split q a c s :
  refines q a -> q_slots q !! c = Some s -> used s = true ->
  exists ss1 ss2, StronglySorted before (ss1 ++ entry_of c s :: ss2) /\
    a_list a = map snd ss1 ++ (entry_of c s).2 :: map snd ss2 /\
    Forall (fun x => x.1 <= a_last a) (ss1 ++ entry_of c s :: ss2) /\
    occupied 0 (q_slots q) ≡ₚ ss1 ++ entry_of c s :: ss2 /\
    forall s', occupied 0 (<[c := s']> (q_slots q)) ≡ₚ ss1 ++ occ c s' ++ ss2.
Proof.
  intros (_ & _ & _ & _ & _ & _ & ss & Hs & Hp & Hl & Hf) Hc Hu.
  destruct (occupied_update _ _ _ Hc) as (A & B & HA & Hupd).
  unfold occ in HA at 1; rewrite Hu in HA; cbn in HA.
  assert (Hin : entry_of c s ∈ ss) by (rewrite <- Hp, HA, elem_of_app, elem_of_cons; auto).
  apply list_elem_of_split in Hin as (ss1 & ss2 & ->); exists ss1, ss2.
  split_and!; try done.
  - rewrite Hl, map_app; done.
  - intros s'; rewrite Hupd; rewrite HA in Hp; apply Permutation_app_inv in Hp.
    rewrite (Permutation_app_comm (occ c s')), (Permutation_app_comm (occ c s')), !app_assoc, Hp.
    done.
Qed.

Lemma length_map_split (ss1 ss2 : list (Z * entry)) (e : entry) :
  length (map snd ss1 ++ e :: map snd ss2) = S (length ss1 + length ss2).
Proof. rewrite length_app; cbn; rewrite !length_map; lia. Qed.

(** The queue whose slot [c] holds [s'] instead of [s], both occupied and with
    the same order. *)
Lemma refines_replace q a c s s' q' last streak :
  refines q a -> q_slots q !! c = Some s -> used s = true ->
  used s' = true -> s_order s' = s_order s ->
  q_slots q' = <[c := s']> (q_slots q) -> st_depth (q_counters q') = st_depth (q_counters q) ->
  q_last_token q' = last -> q_critical_streak q' = streak ->
  a_last a <= last <= UINT64_MAX -> 0 <= streak <= MQTT_DISPATCH_CRITICAL_BURST ->
  exists l1 l2, a_list a = l1 ++ (entry_of c s).2 :: l2 /\
    (forall e, e ∈ l1 -> exists k s0, q_slots q !! k = Some s0 /\ used s0 = true /\
       e = (entry_of k s0).2 /\ s_order s0 < s_order s) /\
    refines q' (AQueue (l1 ++ (entry_of c s').2 :: l2) last streak).
Proof.
  intros Hr Hc Hu Hu' Ho Hsl Hd Hl Hst Hlast Hstreak.
  destruct (refines_split q a c s Hr Hc Hu) as (ss1 & ss2 & Hs & Hal & Hf & Hp & Hupd).
  destruct Hr as (Hlen & _ & _ & Hdep & Hla & _).
  exists (map snd ss1), (map snd ss2); split; [done|]; split.
  - intros e He; apply list_elem_of_fmap in He as (x & -> & Hx).
    pose proof (before_prefix _ _ _ _ Hs Hx) as Hlt.
    assert (Hin : x ∈ occupied 0 (q_slots q)) by (rewrite Hp, elem_of_app; auto).
    apply occupied_elem in Hin as (k & s0 & ? & ? & ->); exists k, s0; done.
  - split_and!; cbn; try done; try lia.
    + rewrite Hsl, length_insert; done.
    + rewrite Hd, Hdep, Hal, !length_map_split; done.
    + exists (ss1 ++ entry_of c s' :: ss2); split_and!.
      * apply before_same_place with (entry_of c s); done.
      * rewrite Hsl, Hupd; unfold occ; rewrite Hu'; done.
      * rewrite map_app; done.
      * rewrite Forall_app, Forall_cons in *; destruct Hf as (Hf1 & Hf2 & Hf3); cbn in *.
        split_and!; [|lia|]; (eapply Forall_impl; [eassumption|]); cbn; lia.
Qed.

(** Releasing an occupied slot. *)
Lemma refines_release q a c s q' :
  refines q a -> q_slots q !! c = Some s -> used s = true ->
  q_slots q' = <[c := slot_zero]> (q_slots q) ->
  st_depth (q_counters q') = u32 (st_depth (q_counters q) - 1) ->
  q_last_token q' = q_last_token q -> q_critical_streak q' = q_critical_streak q ->
  exists l1 l2, a_list a = l1 ++ (entry_of c s).2 :: l2 /\
    refines q' (AQueue (l1 ++ l2) (a_last a) (a_streak a)).
Proof.
  intros Hr Hc Hu Hsl Hd Hl Hst.
  destruct (refines_split q a c s Hr Hc Hu) as (ss1 & ss2 & Hs & Hal & Hf & Hp & Hupd).
  destruct Hr as (Hlen & Hlt & Hstr & Hdep & Hla & Hsk & _).
  pose proof (length_occupied 0 (q_slots q)) as Hocc; rewrite Hp, length_app in Hocc; cbn in Hocc.
  exists (map snd ss1), (map snd ss2); split; [done|].
  split_and!; cbn; try done; try lia.
  - rewrite Hsl, length_insert; done.
  - rewrite Hd, Hdep, Hal, length_map_split, length_app, !length_map, u32_small; [lia|].
    unfold MQTT_DISPATCH_CAPACITY in *; lia.
  - exists (ss1 ++ ss2); split_and!.
    + eapply before_remove; done.
    + rewrite Hsl, Hupd; done.
    + rewrite map_app; done.
    + rewrite Forall_app, Forall_cons in *; destruct Hf as (Hf1 & _ & Hf3); done.
Qed.

(** *** The scans *)

Fixpoint noncrit_slots sl : Z :=
  match sl with
  | [] => 0
  | s :: sl => (if used s && negb (it_critical (s_item s)) then 1 else 0) + noncrit_slots sl
  end.

Lemma noncrit_occupied i sl : noncriticals (map snd (occupied i sl)) = noncrit_slots sl.
Proof.
  revert i; induction sl as [|s sl IH]; intros i; [done|]; cbn [occupied noncrit_slots].
  rewrite <- (IH (S i)); unfold noncriticals, occ, e_noncritical.
  destruct (used s); cbn [andb]; [|done].
  cbn; destruct (it_critical (s_item s)); cbn; lia.
Qed.

Lemma submit_scan_spec rq sl i f r n :
  let '(f', r', n') := submit_scan rq i sl f r n in
  (if (f =? MQTT_DISPATCH_CAPACITY)%nat
   then (f' = MQTT_DISPATCH_CAPACITY /\ Forall (fun s => used s = true) sl) \/
        (exists k s, sl !! k = Some s /\ used s = false /\ f' = (i + k)%nat)
   else f' = f) /\
  ((r' = r /\ Forall (fun s => used s = true -> coalesces s rq = false) sl) \/
   (exists k s, sl !! k = Some s /\ used s = true /\ coalesces s rq = true /\ r' = (i + k)%nat)) /\
  n' = n + noncrit_slots sl.
Proof.
  revert i f r n; induction sl as [|s sl IH]; intros i f r n; cbn [submit_scan].
  - split_and!; [destruct (_ =? _)%nat eqn:E; [left|]|left|cbn; lia]; try done.
    apply Nat.eqb_eq in E; done.
  - assert (Hsh : forall (P : nat -> slot -> Prop), (exists k s', sl !! k = Some s' /\ P (S i + k)%nat s') ->
        exists k s', (s :: sl) !! k = Some s' /\ P (i + k)%nat s').
    { intros P (k & s' & Hk & HP); exists (S k), s'; rewrite <- Nat.add_succ_comm; done. }
    unfold used; destruct (bool_decide (s_state s = SLOT_FREE)) eqn:Ef.
    + set (f1 := if (f =? MQTT_DISPATCH_CAPACITY)%nat then i else f).
      specialize (IH (S i) f1 r n); destruct (submit_scan _ _ _ _ _ _) as [[f' r'] n'].
      destruct IH as (IHf & IHr & ->); cbn [noncrit_slots]; unfold used; rewrite Ef.
      split_and!; [|destruct IHr as [[-> H]|H]; [left|right]|cbn; lia].
      * unfold f1 in *; destruct (f =? MQTT_DISPATCH_CAPACITY)%nat eqn:E; [right|].
        -- destruct (i =? MQTT_DISPATCH_CAPACITY)%nat eqn:Ei; [|subst].
           ++ apply Nat.eqb_eq in Ei as Hi; destruct IHf as [[-> _]|H].
              ** exists 0%nat, s; rewrite Nat.add_0_r; cbn; rewrite Ef; done.
              ** apply (Hsh (fun k s' => used s' = false /\ f' = k)); done.
           ++ exists 0%nat, s; rewrite Nat.add_0_r; cbn; rewrite Ef; done.
        -- rewrite E in IHf; done.
      * split; [done|]; constructor; [rewrite Ef; done|exact H].
      * apply (Hsh (fun k s' => used s' = true /\ coalesces s' rq = true /\ r' = k)); done.
    + specialize (IH (S i) f (if coalesces s rq then i else r)
          (if it_critical (s_item s) then n else n + 1)).
      destruct (submit_scan _ _ _ _ _ _) as [[f' r'] n'].
      destruct IH as (IHf & IHr & ->); cbn [noncrit_slots]; unfold used; rewrite Ef.
      split_and!; [|destruct IHr as [[Hr' H]|H]|destruct (it_critical _); cbn; lia].
      * destruct (f =? MQTT_DISPATCH_CAPACITY)%nat; [|done]; destruct IHf as [[-> H]|H]; [left|right].
        -- split; [done|]; constructor; [rewrite Ef; done|exact H].
        -- apply (Hsh (fun k s' => used s' = false /\ f' = k)); done.
      * destruct (coalesces s rq) eqn:Ec; [right|left].
        -- exists 0%nat, s; rewrite Nat.add_0_r; cbn; rewrite Ef; done.
        -- split; [done|]; constructor; done.
      * right; apply (Hsh (fun k s' => used s' = true /\ coalesces s' rq = true /\ r' = k)); done.
Qed.

(** The candidate of a class after scanning the first [n] slots: the eligible
    slot of least order, or none. *)
Definition best (critical : bool) (now : Z) sl (n c : nat) : Prop :=
  (c = MQTT_DISPATCH_CAPACITY /\
   forall j s, (j < n)%nat -> sl !! j = Some s -> eligible critical now s = false) \/
  (exists s, (c < n)%nat /\ sl !! c = Some s /\ eligible critical now s = true /\
   forall j s', (j < n)%nat -> sl !! j = Some s' -> eligible critical now s' = true ->
     s_order s <= s_order s').

Lemma best_skip critical now sl n c s :
  sl !! n = Some s -> eligible critical now s = false -> best critical now sl n c ->
  best critical now sl (S n) c.
Proof.
  intros Hn He [[-> H]|(s0 & Hc & Hs & Hel & H)]; [left; split; [done|]|right; exists s0; split_and!; try done; try lia];
    intros j s' Hj Hs'; destruct (decide (j = n)) as [->|]; try congruence; apply (H j); done || lia.
Qed.

Lemma best_take critical now sl n c s :
  (n < MQTT_DISPATCH_CAPACITY)%nat ->
  sl !! n = Some s -> eligible critical now s = true -> best critical now sl n c ->
  best critical now sl (S n)
    (if (c =? MQTT_DISPATCH_CAPACITY)%nat || (s_order s <? s_order (sl !!! c)) then n else c).
Proof.
  intros Hcap Hn He [[-> H]|(s0 & Hc & Hs & Hel & H)]; right.
  - rewrite Nat.eqb_refl; cbn; exists s; split_and!; try done; try lia.
    intros j s' Hj Hs' He'; destruct (decide (j = n)) as [->|]; [simplify_eq; lia|].
    rewrite (H j s') in He' by (done || lia); done.
  - replace (c =? MQTT_DISPATCH_CAPACITY)%nat with false by (symmetry; apply Nat.eqb_neq; lia).
    rewrite (list_lookup_total_correct _ _ _ Hs); cbn [orb].
    destruct (Z.ltb_spec (s_order s) (s_order s0)); [exists s|exists s0]; split_and!; try done; try lia;
      intros j s' Hj Hs' He'; (destruct (decide (j = n)) as [->|]; [simplify_eq; lia|]);
      specialize (H j s' ltac:(lia) Hs' He'); lia.
Qed.

Lemma claim_scan_spec now sl :
  length sl = MQTT_DISPATCH_CAPACITY ->
  match claim_scan now sl 0 sl MQTT_DISPATCH_CAPACITY MQTT_DISPATCH_CAPACITY with
  | None => exists i s, sl !! i = Some s /\ s_state s = SLOT_INFLIGHT
  | Some (c, o) =>
      (forall i s, sl !! i = Some s -> s_state s <> SLOT_INFLIGHT) /\
      best true now sl MQTT_DISPATCH_CAPACITY c /\ best false now sl MQTT_DISPATCH_CAPACITY o
  end.
Proof.
  intros Hlen.
  cut (forall (l : list slot) i c o, l = drop i sl -> (i <= length sl)%nat ->
    (forall j s, (j < i)%nat -> sl !! j = Some s -> s_state s <> SLOT_INFLIGHT) ->
    best true now sl i c -> best false now sl i o ->
    match claim_scan now sl i l c o with
    | None => exists i s, sl !! i = Some s /\ s_state s = SLOT_INFLIGHT
    | Some (c, o) => (forall i s, sl !! i = Some s -> s_state s <> SLOT_INFLIGHT) /\
        best true now sl MQTT_DISPATCH_CAPACITY c /\ best false now sl MQTT_DISPATCH_CAPACITY o
    end).
  { intros H; apply H; [done|lia|intros j s Hj; lia| |]; left; split; try done; intros; lia. }
  induction l as [|s l IH]; intros i c o Hl Hi Hno Hc Ho; cbn [claim_scan].
  - assert (i = length sl) as -> by (apply (f_equal length) in Hl; rewrite length_drop in Hl; cbn in Hl; lia).
    rewrite Hlen in *; split_and!; try done; intros j s Hs; apply (Hno j); [|done].
    apply lookup_lt_Some in Hs; lia.
  - assert (Hs : sl !! i = Some s).
    { rewrite <- (Nat.add_0_r i), <- lookup_drop, <- Hl; done. }
    pose proof (lookup_lt_Some _ _ _ Hs) as Hlt.
    assert (Hl' : l = drop (S i) sl) by (rewrite <- Nat.add_1_r, <- drop_drop, <- Hl; done).
    destruct (bool_decide (s_state s = SLOT_INFLIGHT)) eqn:Ei; [apply bool_decide_eq_true in Ei; eauto|].
    apply bool_decide_eq_false in Ei.
    assert (Hno' : forall j s, (j < S i)%nat -> sl !! j = Some s -> s_state s <> SLOT_INFLIGHT).
    { intros j s' Hj Hs'; destruct (decide (j = i)) as [->|]; [congruence|]; apply (Hno j); done || lia. }
    destruct (negb _ || _) eqn:Eq.
    + apply IH; try done; try lia; apply best_skip with s; try done; unfold eligible;
        destruct (bool_decide _), (expired _ _); done.
    + assert (He : forall cr, eligible cr now s = Bool.eqb (it_critical (s_item s)) cr).
      { intros cr; unfold eligible; to_prop.
        match goal with H : expired _ _ = false |- _ => rewrite H end.
        rewrite bool_decide_true by done; done. }
      destruct (it_critical (s_item s)); apply IH; try done; try lia;
        (apply best_take || apply best_skip with s); try done; try (rewrite He; done); lia.
Qed.

(** *** Entries and slots *)

Lemma refines_elem q a e :
  refines q a -> e ∈ a_list a <->
  exists k s, q_slots q !! k = Some s /\ used s = true /\ e = (entry_of k s).2.
Proof.
  intros (_ & _ & _ & _ & _ & _ & ss & _ & Hp & -> & _); rewrite list_elem_of_fmap; split.
  - intros (x & -> & Hx); rewrite <- Hp, occupied_elem in Hx.
    destruct Hx as (k & s & ? & ? & ->); eauto.
  - intros (k & s & ? & ? & ->); exists (entry_of k s); split; [done|].
    rewrite <- Hp, occupied_elem; eauto.
Qed.

Lemma queued_used s : s_state s = SLOT_QUEUED -> used s = true.
Proof. unfold used; intros ->; done. Qed.

Lemma eligible_entry cr now k s :
  used s = true -> e_eligible cr now (entry_of k s).2 = eligible cr now s.
Proof. unfold used, eligible, e_eligible; cbn; destruct (s_state s); done. Qed.
Lemma coalesces_entry rq k s :
  used s = true -> e_coalesces rq (entry_of k s).2 = coalesces s rq.
Proof. unfold used, coalesces, e_coalesces; cbn; destruct (s_state s); done. Qed.
Lemma eligible_used cr now s : eligible cr now s = true -> used s = true.
Proof. unfold used, eligible; destruct (s_state s); done. Qed.

Lemma find_middle {A} (p : A -> bool) l1 (e : A) l2 :
  forallb (fun x => negb (p x)) l1 = true -> p e = true -> List.find p (l1 ++ e :: l2) = Some e.
Proof.
  induction l1 as [|x l1 IH]; cbn; intros H He; [rewrite He; done|].
  destruct (p x); [done|]; auto.
Qed.
Lemma forallb_elem {A} (p : A -> bool) (l : list A) :
  (forall x, x ∈ l -> p x = true) -> forallb p l = true.
Proof. intros H; apply forallb_forall; intros x Hx; apply H, list_elem_of_In, Hx. Qed.

(** The candidate of a class is the abstract head. *)
Lemma ready_head_spec q a cr now c :
  refines q a -> best cr now (q_slots q) MQTT_DISPATCH_CAPACITY c ->
  (ready_head now (q_slots q) c = MQTT_DISPATCH_CAPACITY /\ spec_head cr now (a_list a) = None) \/
  (exists s, ready_head now (q_slots q) c = c /\ (c < MQTT_DISPATCH_CAPACITY)%nat /\
     q_slots q !! c = Some s /\ eligible cr now s = true /\
     spec_head cr now (a_list a) = Some (entry_of c s).2 /\
     forall j s', q_slots q !! j = Some s' -> eligible cr now s' = true -> s_order s <= s_order s').
Proof.
  intros Hr [[-> Hno]|(s & Hc & Hs & He & Hmin)]; pose proof Hr as (Hlen & _).
  - left; split; [unfold ready_head; rewrite Nat.eqb_refl; done|].
    unfold spec_head; destruct (List.find _ _) as [e|] eqn:Ef; [exfalso|done].
    apply List.find_some in Ef as [Hin Hel]; apply list_elem_of_In in Hin.
    rewrite (refines_elem q a e Hr) in Hin; destruct Hin as (k & s & Hk & Hu & ->).
    rewrite eligible_entry, (Hno k s) in Hel by (done || (apply lookup_lt_Some in Hk; lia)); done.
  - assert (Hmin' : forall j s', q_slots q !! j = Some s' -> eligible cr now s' = true ->
                    s_order s <= s_order s').
    { intros j s' Hj; apply (Hmin j); [apply lookup_lt_Some in Hj; lia|done]. }
    pose proof (eligible_used _ _ _ He) as Hu.
    assert (Hf : List.find (e_eligible cr now) (a_list a) = Some (entry_of c s).2).
    { destruct (refines_split q a c s Hr Hs Hu) as (ss1 & ss2 & Hss & -> & _ & Hp & _).
      apply find_middle; [|rewrite eligible_entry; done]; apply forallb_elem; intros e Hin.
      apply list_elem_of_fmap in Hin as (x & -> & Hx); pose proof (before_prefix _ _ _ _ Hss Hx).
      assert (Hin : x ∈ occupied 0 (q_slots q)) by (rewrite Hp, elem_of_app; auto).
      apply occupied_elem in Hin as (k & s0 & Hk & Hu0 & ->); cbn [fst entry_of] in *.
      rewrite eligible_entry by done; destruct (eligible cr now s0) eqn:E; [|done].
      specialize (Hmin' k s0 Hk E); lia. }
    unfold ready_head, spec_head; rewrite Hf, (list_lookup_total_correct _ _ _ Hs).
    replace (c =? MQTT_DISPATCH_CAPACITY)%nat with false by (symmetry; apply Nat.eqb_neq; lia).
    cbn [negb andb entry_of snd e_retry].
    destruct (now <? s_retry_after_ms s); [left; done|right; exists s; done].
Qed.

(** *** One step of each operation *)

Lemma sim_take_slot q a cr now c s streak :
  refines q a -> q_slots q !! c = Some s -> eligible cr now s = true ->
  (forall i s, q_slots q !! i = Some s -> s_state s <> SLOT_INFLIGHT) ->
  (forall j s', q_slots q !! j = Some s' -> eligible cr now s' = true -> s_order s <= s_order s') ->
  spec_head cr now (a_list a) = Some (entry_of c s).2 ->
  spec_head (negb cr) now (a_list a) = None \/
    (if cr then a_streak a < MQTT_DISPATCH_CRITICAL_BURST
     else MQTT_DISPATCH_CRITICAL_BURST <= a_streak a) ->
  streak = (if cr then Z.min (a_streak a + 1) MQTT_DISPATCH_CRITICAL_BURST else 0) ->
  exists a', spec_step a (Take now) (Taken (Some (Claim c (s_item s)))) a' /\
    refines (take_slot (q <| q_critical_streak := streak |>) c).1 a'.
Proof.
  intros Hr Hs He Hno Hmin Hh Hor ->; pose proof (eligible_used _ _ _ He) as Hu.
  pose proof Hr as (_ & Hl & _ & _ & Hla & Hsk & _).
  set (streak := if cr then _ else _).
  destruct (refines_replace q a c s (s <| s_state := SLOT_INFLIGHT |>)
    (take_slot (q <| q_critical_streak := streak |>) c).1 (a_last a) streak)
    as (l1 & l2 & Hal & Hl1 & Hr'); try done; try lia.
  { unfold take_slot; cbn; rewrite (list_lookup_total_correct _ _ _ Hs); done. }
  { unfold streak, MQTT_DISPATCH_CRITICAL_BURST in *; destruct cr; lia. }
  eexists; split; [|exact Hr'].
  destruct a as [l last st]; cbn [a_list a_last a_streak] in *; subst l.
  change (entry_of c (s <| s_state := SLOT_INFLIGHT |>)).2
    with ((entry_of c s).2 <| e_inflight := true |>).
  apply (sp_take l1 (entry_of c s).2 l2 last st now cr); try done.
  - destruct (existsb _ _) eqn:E; [exfalso|done].
    apply existsb_exists in E as (e & Hin & Hfl); apply list_elem_of_In in Hin.
    rewrite (refines_elem _ _ _ Hr) in Hin; destruct Hin as (k & s0 & Hk & _ & ->).
    cbn in Hfl; apply bool_decide_eq_true in Hfl; apply (Hno k s0); done.
  - apply forallb_elem; intros e Hin; destruct (Hl1 e Hin) as (k & s0 & Hk & Hu0 & -> & Hlt).
    rewrite eligible_entry by done; destruct (eligible cr now s0) eqn:E; [|done].
    specialize (Hmin k s0 Hk E); lia.
Qed.

Lemma sim_take q a now :
  refines q a -> exists a',
    spec_step a (Take now) (Taken (mqtt_dispatch_claim q now).2) a' /\
    refines (mqtt_dispatch_claim q now).1 a'.
Proof.
  intros Hr; pose proof Hr as (Hlen & Hlt & Hstr & _ & _ & Hsk & _).
  unfold mqtt_dispatch_claim; pose proof (claim_scan_spec now (q_slots q) Hlen) as Hscan.
  destruct (claim_scan _ _ _ _ _ _) as [[c o]|].
  2: { exists a; split; [|done]; apply sp_take_none; left.
       destruct Hscan as (i & s & Hi & Hst); apply existsb_exists; exists (entry_of i s).2.
       split; [|cbn; rewrite Hst; done]; apply list_elem_of_In; rewrite (refines_elem _ _ _ Hr).
       exists i, s; split_and!; try done; unfold used; rewrite Hst; done. }
  destruct Hscan as (Hno & Hc & Ho); unfold MQTT_DISPATCH_CRITICAL_BURST in *; rewrite Hstr.
  pose proof (ready_head_spec q a true now c Hr Hc) as Hcs.
  pose proof (ready_head_spec q a false now o Hr Ho) as Hos.
  destruct Hos as [[-> Hon]|(so & -> & Hoc & Hos & Hoe & Hoh & Hom)];
  destruct Hcs as [[-> Hcn]|(sc & -> & Hcc & Hcs & Hce & Hch & Hcm)];
  rewrite ?Nat.eqb_refl;
  repeat match goal with H : (?x < MQTT_DISPATCH_CAPACITY)%nat |- _ =>
    replace (x =? MQTT_DISPATCH_CAPACITY)%nat with false by (symmetry; apply Nat.eqb_neq; lia);
    clear H end; cbn [negb andb orb].
  - exists a; split; [apply sp_take_none; right; done|done].
  - pose proof (sim_take_slot q a true now c sc _ Hr Hcs Hce Hno Hcm Hch (or_introl Hon) eq_refl)
      as (a' & ? & Hr'); exists a'; unfold take_slot in *; cbn [snd q_slots] in *.
    destruct (Z.ltb_spec (a_streak a) 8); cbn; rewrite (list_lookup_total_correct _ _ _ Hcs);
      (split; [done|]); cbn in Hr'; rewrite (list_lookup_total_correct _ _ _ Hcs) in Hr';
      unfold MQTT_DISPATCH_CRITICAL_BURST in *.
    + rewrite u32_small by lia; rewrite Z.min_l in Hr' by lia; done.
    + rewrite Z.min_r in Hr' by lia; replace 8 with (q_critical_streak q) in Hr' by (cbn in *; lia).
      destruct q; done.
  - pose proof (sim_take_slot q a false now o so _ Hr Hos Hoe Hno Hom Hoh (or_introl Hcn) eq_refl)
      as (a' & ? & Hr'); exists a'; unfold take_slot in *; cbn in *.
    rewrite (list_lookup_total_correct _ _ _ Hos) in *; done.
  - destruct (Z.ltb_spec (a_streak a) 8) as [Hb|Hb].
    + pose proof (sim_take_slot q a true now c sc _ Hr Hcs Hce Hno Hcm Hch
        (or_intror Hb) eq_refl) as (a' & ? & Hr').
      exists a'; unfold take_slot in *; cbn in *; rewrite (list_lookup_total_correct _ _ _ Hcs) in *.
      split; [done|]; unfold MQTT_DISPATCH_CRITICAL_BURST in Hr'.
      rewrite u32_small by lia; rewrite Z.min_l in Hr' by lia; done.
    + pose proof (sim_take_slot q a false now o so _ Hr Hos Hoe Hno Hom Hoh
        (or_intror Hb) eq_refl) as (a' & ? & Hr').
      exists a'; unfold take_slot in *; cbn in *.
      rewrite (list_lookup_total_correct _ _ _ Hos) in *; done.
Qed.

Lemma refines_counters q a c :
  refines q a -> st_depth c = st_depth (q_counters q) -> refines (q <| q_counters := c |>) a.
Proof.
  intros (H1 & H2 & H3 & H4 & H5) Hc; refine (conj H1 (conj H2 (conj H3 (conj _ H5)))).
  cbn; congruence.
Qed.

Lemma sim_finish q a cl r now retry :
  refines q a -> exists a',
    spec_step a (Finish cl r now retry) (Finished (mqtt_dispatch_finish q cl r now retry).2) a' /\
    refines (mqtt_dispatch_finish q cl r now retry).1 a'.
Proof.
  intros Hr; pose proof Hr as (Hlen & Hl & Hst & _ & Hla & Hsk & _).
  assert (Hrefuse : (forall s, q_slots q !! cl_slot cl = Some s -> s_state s = SLOT_INFLIGHT ->
             it_token (s_item s) = it_token (cl_item cl) -> False) ->
             exists a', spec_step a (Finish cl r now retry) (Finished false) a' /\ refines q a').
  { intros Hno; exists a; split; [|done]; apply sp_refused, forallb_elem; intros e Hin.
    rewrite (refines_elem _ _ _ Hr) in Hin; destruct Hin as (k & s & Hk & _ & ->).
    unfold e_claimed, e_token; cbn; apply negb_true_iff, not_true_iff_false; intros H; to_prop.
    match goal with H : (_ =? _)%nat = true |- _ => apply Nat.eqb_eq in H; subst k end.
    apply (Hno s); done. }
  unfold mqtt_dispatch_finish; destruct (Nat.leb_spec MQTT_DISPATCH_CAPACITY (cl_slot cl)).
  { apply Hrefuse; intros s Hs; apply lookup_lt_Some in Hs; lia. }
  destruct (lookup_lt_is_Some_2 (q_slots q) (cl_slot cl) ltac:(lia)) as [s Hs].
  rewrite (list_lookup_total_correct _ _ _ Hs); destruct (negb _ || negb _) eqn:E.
  { apply Hrefuse; intros s' Hs' Hi Ht; simplify_eq.
    rewrite Hi, Ht, Z.eqb_refl in E; done. }
  to_prop; assert (Hu : used s = true) by (unfold used; destruct (s_state s); done).
  assert (Hcl : e_claimed cl (entry_of (cl_slot cl) s).2 = true).
  { unfold e_claimed, e_token; cbn; rewrite Nat.eqb_refl, bool_decide_true by done.
    apply Z.eqb_eq; done. }
  assert (Hrel : forall c, st_depth c = st_depth (q_counters q) ->
     r <> RETRY \/ expired (s_item s) now = true ->
     exists a', spec_step a (Finish cl r now retry) (Finished true) a' /\
       refines (release_slot (q <| q_counters := c |>) (cl_slot cl)) a').
  { intros c Hc Hor; destruct (refines_release q a (cl_slot cl) s
      (release_slot (q <| q_counters := c |>) (cl_slot cl))) as (l1 & l2 & Hal & Hr'); try done.
    { cbn; rewrite Hc; done. }
    eexists; split; [|exact Hr']; destruct a as [l last st]; cbn [a_list a_last a_streak] in Hal |- *; subst l.
    apply (sp_release l1 (entry_of (cl_slot cl) s).2 l2 last st cl r now retry); done. }
  destruct r; cbn [fst snd].
  - apply (Hrel (q_counters q)); [done|left; done].
  - destruct (expired (s_item s) now) eqn:Ex; cbn [negb fst snd].
    { apply Hrel; [done|right; done]. }
    destruct (refines_replace q a (cl_slot cl) s
      (s <| s_state := SLOT_QUEUED |> <| s_retry_after_ms := retry |>)
      (q <| q_slots := <[cl_slot cl := s <| s_state := SLOT_QUEUED |> <| s_retry_after_ms := retry |>]>
           (q_slots q) |>) (a_last a) (a_streak a)) as (l1 & l2 & Hal & _ & Hr'); try done; try lia.
    eexists; split; [|exact Hr']; destruct a as [l last st]; cbn [a_list a_last a_streak] in Hal |- *; subst l.
    apply (sp_retry l1 (entry_of (cl_slot cl) s).2 l2 last st cl now retry); done.
  - apply Hrel; [done|left; done].
Qed.

Lemma expire_slots_spec now sl i :
  let '(sl', tokens) := expire_slots now sl in
  length sl' = length sl /\
  occupied i sl' = List.filter (fun x => negb (e_dead now x.2)) (occupied i sl) /\
  tokens = map e_token (List.filter (e_dead now) (map snd (occupied i sl))).
Proof.
  revert i; induction sl as [|s sl IH]; intros i; cbn; [done|].
  specialize (IH (S i)); destruct (expire_slots now sl) as [sl' ts]; destruct IH as (IH1 & IH2 & IH3).
  assert (Hd : slot_expired s now = (used s && e_dead now (entry_of i s).2)).
  { unfold slot_expired, used, e_dead; cbn; destruct (s_state s); done. }
  rewrite Hd; unfold occ; destruct (used s) eqn:Hu; cbn [andb app map List.filter snd].
  - destruct (e_dead now (entry_of i s).2); cbn [negb length occupied map];
      split_and!; unfold occ; cbn; rewrite ?Hu; cbn; lia || (f_equal; done).
  - cbn; unfold occ; rewrite Hu, IH1; cbn; split_and!; done.
Qed.

Lemma filter_sorted (p : Z * entry -> bool) ss :
  StronglySorted before ss -> StronglySorted before (List.filter p ss).
Proof.
  induction ss as [|x ss IH]; cbn; [done|]; rewrite StronglySorted_cons; intros [Hf Hs].
  destruct (p x); [|auto]; rewrite StronglySorted_cons; split; [|auto].
  rewrite Forall_forall in *; intros y Hy; apply Hf.
  apply list_elem_of_In in Hy; apply List.filter_In in Hy as [Hy _]; apply list_elem_of_In; done.
Qed.
#[export] Instance filter_perm {A} (p : A -> bool) :
  Proper ((≡ₚ) ==> (≡ₚ)) (List.filter p).
Proof.
  intros l l'; induction 1 as [|x l l' Hl IH|x y l|]; cbn; [done| | |etrans; eassumption].
  - destruct (p x); [constructor; done|done].
  - destruct (p x), (p y); try done; constructor.
Qed.
Lemma filter_map {A B} (f : A -> B) (p : B -> bool) (l : list A) :
  List.filter p (map f l) = map f (List.filter (fun x => p (f x)) l).
Proof. induction l as [|x l IH]; cbn; [done|]; destruct (p (f x)); cbn; rewrite IH; done. Qed.
Lemma filter_length_split {A} (p : A -> bool) (l : list A) :
  length l = (length (List.filter p l) + length (List.filter (fun x => negb (p x)) l))%nat.
Proof. induction l as [|x l IH]; cbn; [done|]; destruct (p x); cbn; lia. Qed.

Lemma sim_expire q a now :
  refines q a -> exists a',
    spec_step a (Expire now) (Expired (mqtt_dispatch_expire q now).2) a' /\
    refines (mqtt_dispatch_expire q now).1 a'.
Proof.
  intros (Hlen & Hl & Hst & Hd & Hla & Hsk & ss & Hs & Hp & Hal & Hf).
  unfold mqtt_dispatch_expire; pose proof (expire_slots_spec now (q_slots q) 0) as He.
  destruct (expire_slots now (q_slots q)) as [sl' ts]; destruct He as (He1 & He2 & He3).
  assert (Hts : ts ≡ₚ map e_token (List.filter (e_dead now) (a_list a))).
  { rewrite He3, Hal; apply Permutation_map, filter_perm, Permutation_map, Hp. }
  exists (AQueue (List.filter (fun e => negb (e_dead now e)) (a_list a)) (a_last a) (a_streak a)).
  split; [destruct a; apply sp_expire; exact Hts|].
  pose proof (length_occupied 0 (q_slots q)) as Hocc; rewrite Hp in Hocc.
  assert (Hle : (length (a_list a) <= MQTT_DISPATCH_CAPACITY)%nat) by (rewrite Hal, length_map; lia).
  pose proof (filter_length_split (e_dead now) (a_list a)) as Hsplit.
  apply Permutation_length in Hts; rewrite length_map in Hts.
  split_and!; cbn; try done; try lia.
  - rewrite Hd, u32_small; unfold MQTT_DISPATCH_CAPACITY in *; lia.
  - exists (List.filter (fun x => negb (e_dead now x.2)) ss); split_and!.
    + apply filter_sorted; done.
    + rewrite He2; apply filter_perm; done.
    + rewrite Hal, filter_map; done.
    + rewrite Forall_forall in *; intros x Hx; apply list_elem_of_In in Hx.
      apply List.filter_In in Hx as [Hx _]; apply Hf, list_elem_of_In; done.
Qed.

Lemma admissible_last last rq :
  admissible last rq -> 0 <= last <= UINT64_MAX -> u64 (last + 1) = last + 1 /\ last < UINT64_MAX.
Proof.
  intros [H _] Hl; unfold request_invalid in H; destruct (rq_topic rq); [|done]; to_prop.
  unfold UINT64_MAX in *; rewrite u64_small by lia; lia.
Qed.

(** The free slot [c] takes the new entry at the end. *)
Lemma refines_append q a c s s' q' last :
  refines q a -> q_slots q !! c = Some s -> used s = false -> used s' = true ->
  s_order s' = last -> a_last a < last <= UINT64_MAX ->
  q_slots q' = <[c := s']> (q_slots q) ->
  st_depth (q_counters q') = u32 (st_depth (q_counters q) + 1) ->
  q_last_token q' = last -> q_critical_streak q' = q_critical_streak q ->
  (length (a_list a) < MQTT_DISPATCH_CAPACITY)%nat /\
  refines q' (AQueue (a_list a ++ [(entry_of c s').2]) last (a_streak a)).
Proof.
  intros (Hlen & Hl & Hst & Hd & Hla & Hsk & ss & Hs & Hp & Hal & Hf) Hc Hu Hu' Ho Hlast Hsl Hdep Hl' Hst'.
  destruct (occupied_update _ _ _ Hc) as (A & B & HA & Hupd).
  unfold occ in HA at 1; rewrite Hu in HA; cbn in HA; rewrite HA in Hp.
  assert (Hocc : occupied 0 (<[c:=s']> (q_slots q)) ≡ₚ ss ++ [entry_of c s']).
  { rewrite Hupd; unfold occ; rewrite Hu', <- Hp, <- !app_assoc; apply Permutation_app_head.
    apply Permutation_app_comm. }
  pose proof (length_occupied 0 (<[c:=s']> (q_slots q))) as Hle.
  rewrite Hocc, length_insert, length_app in Hle; cbn in Hle.
  assert (Hll : length (a_list a) = length ss) by (rewrite Hal, length_map; done).
  split; [lia|]; split_and!; cbn; try done; try lia.
  - rewrite Hsl, length_insert; done.
  - rewrite Hdep, Hd, length_app, u32_small; cbn; unfold MQTT_DISPATCH_CAPACITY in *; lia.
  - exists (ss ++ [entry_of c s']); split_and!.
    + apply before_append; [|done]; eapply Forall_impl; [exact Hf|]; cbn; lia.
    + rewrite Hsl; done.
    + rewrite Hal, map_app; done.
    + apply Forall_app; split; [|constructor; cbn; [lia|constructor]].
      eapply Forall_impl; [exact Hf|]; cbn; lia.
Qed.

Lemma no_coalesce q a rq :
  refines q a -> Forall (fun s => used s = true -> coalesces s rq = false) (q_slots q) ->
  forallb (fun e => negb (e_coalesces rq e)) (a_list a) = true.
Proof.
  intros Hr Hf; apply forallb_elem; intros e He; rewrite (refines_elem _ _ _ Hr) in He.
  destruct He as (k & s & Hk & Hu & ->); rewrite coalesces_entry by done.
  rewrite (Forall_lookup_1 _ _ _ _ Hf Hk Hu); done.
Qed.

Lemma refines_noncrit q a : refines q a -> noncriticals (a_list a) = noncrit_slots (q_slots q).
Proof.
  intros (_ & _ & _ & _ & _ & _ & ss & _ & Hp & -> & _); rewrite <- (noncrit_occupied 0).
  unfold noncriticals; f_equal; apply Permutation_length, filter_perm, Permutation_map.
  symmetry; done.
Qed.

Lemma sim_submit q a rq :
  refines q a -> exists a',
    let '(q', (r, t, p)) := mqtt_dispatch_submit q rq in
    spec_step a (Submit rq) (Submitted r t p) a' /\ refines q' a'.
Proof.
  intros Hr; pose proof Hr as (Hlen & Hl & Hst & _ & Hla & Hsk & _).
  unfold mqtt_dispatch_submit; destruct (request_invalid _ rq) eqn:Ei.
  { exists a; split; [apply sp_invalid; congruence|done]. }
  destruct (request_too_large rq) eqn:Et; [exists a; split; [apply sp_too_large; congruence|done]|].
  rewrite Hl in Ei |- *; assert (Had : admissible (a_last a) rq) by done.
  destruct (admissible_last _ _ Had Hla) as [Hu64 Hlt]; rewrite Hu64.
  pose proof (submit_scan_spec rq (q_slots q) 0 MQTT_DISPATCH_CAPACITY MQTT_DISPATCH_CAPACITY 0) as Hscan.
  destruct (submit_scan _ _ _ _ _ _) as [[f r] n]; rewrite Nat.eqb_refl in Hscan.
  destruct Hscan as (Hf & Hrep & ->); rewrite <- (refines_noncrit q a Hr), Z.add_0_l.
  destruct Hrep as [[-> Hno]|(k & s & Hk & Hu & Hco & ->)].
  - rewrite Nat.eqb_refl; cbn [negb andb]; apply (no_coalesce _ a) in Hno; [|done].
    destruct Hf as [[-> Hall]|(k & s & Hk & Hu & ->)].
    { rewrite Nat.eqb_refl; cbn [orb]; exists a; split; [|apply refines_counters; done].
      apply sp_full; try done; intros [Hroom _]; apply length_occupied_full with (i := 0%nat) in Hall.
      destruct Hr as (_ & _ & _ & _ & _ & _ & ss & _ & Hp & Hal & _).
      rewrite Hal, length_map, <- Hp in Hroom; lia. }
    pose proof (lookup_lt_Some _ _ _ Hk) as Hlk; rewrite Nat.add_0_l.
    replace (k =? MQTT_DISPATCH_CAPACITY)%nat with false by (symmetry; apply Nat.eqb_neq; lia).
    cbn [orb]; destruct (negb (rq_critical rq) && _) eqn:Er.
    { exists a; split; [|apply refines_counters; done]; to_prop.
      apply sp_full; try done; intros [_ [Hcr|Hnc]]; [congruence|lia]. }
    rewrite (list_lookup_total_correct _ _ _ Hk).
    set (s' := (s <| s_order := a_last a + 1 |> <| s_retry_after_ms := 0 |>)
                  <| s_item := item_of rq (a_last a + 1) |> <| s_state := SLOT_QUEUED |>).
    match goal with |- exists a', spec_step _ _ _ _ /\ refines ?q' _ =>
      destruct (refines_append q a k s s' q' (a_last a + 1)) as [Hroom Hr'] end; try done; try lia.
    { cbn; case_match; done. }
    eexists; split; [|exact Hr']; destruct a as [l last st]; apply sp_append; try done.
    split; [done|]; apply andb_false_iff in Er as [Er|Er]; to_prop; [left; done|right; cbn in *; lia].
  - pose proof (lookup_lt_Some _ _ _ Hk) as Hlk; rewrite Nat.add_0_l.
    replace (k =? MQTT_DISPATCH_CAPACITY)%nat with false by (symmetry; apply Nat.eqb_neq; lia).
    cbn [negb andb orb].
    replace (k =? MQTT_DISPATCH_CAPACITY)%nat with false by (symmetry; apply Nat.eqb_neq; lia).
    rewrite (list_lookup_total_correct _ _ _ Hk); cbn [orb].
    match goal with |- exists a', spec_step _ _ _ _ /\ refines ?q' _ =>
      destruct (refines_replace q a k s (s <| s_item := item_of rq (a_last a + 1) |>
        <| s_state := SLOT_QUEUED |>) q' (a_last a + 1) (a_streak a)) as (l1 & l2 & Hal & _ & Hr') end;
      try done; try lia.
    eexists; split; [|exact Hr']; destruct a as [l last st]; cbn [a_list a_last a_streak] in *; subst l.
    assert (Hq : s_state s = SLOT_QUEUED) by (unfold coalesces in Hco; to_prop; done).
    replace (entry_of k (s <| s_item := item_of rq (last + 1) |> <| s_state := SLOT_QUEUED |>)).2
      with ((entry_of k s).2 <| e_item := item_of rq (last + 1) |>) by (cbn; rewrite Hq; done).
    apply (sp_coalesce l1 (entry_of k s).2 l2 last st rq); [done|].
    rewrite coalesces_entry; done.
Qed.

(** Every step of the slot array is a step of the abstract queue. *)
Lemma sim_step q a o :
  refines q a -> exists a', spec_step a o (queue_step q o).2 a' /\ refines (queue_step q o).1 a'.
Proof.
  intros Hr; destruct o as [rq|now|now|cl r now retry]; cbn [queue_step].
  - destruct (sim_submit q a rq Hr) as [a' H]; exists a'.
    destruct (mqtt_dispatch_submit q rq) as [q' [[r t] p]]; done.
  - destruct (sim_expire q a now Hr) as [a' H]; exists a'; destruct (mqtt_dispatch_expire q now); done.
  - destruct (sim_take q a now Hr) as [a' H]; exists a'; destruct (mqtt_dispatch_claim q now); done.
  - destruct (sim_finish q a cl r now retry Hr) as [a' H]; exists a'.
    destruct (mqtt_dispatch_finish q cl r now retry); done.
Qed.

Lemma refines_init : refines mqtt_dispatch_init aqueue_init.
Proof.
  split_and!; try done.
  exists []; split_and!; try done; try constructor; vm_compute; constructor.
Qed.

Lemma sim_run q a ops :
  refines q a -> exists a', spec_run a ops (run queue_step q ops).2 a' /\
    refines (run queue_step q ops).1 a'.
Proof.
  revert q a; induction ops as [|o ops IH]; intros q a Hr; cbn.
  - exists a; split; [constructor|done].
  - destruct (sim_step q a o Hr) as (a1 & Hst & Hr1); destruct (queue_step q o) as [q1 out].
    destruct (IH q1 a1 Hr1) as (a2 & Hrun & Hr2); destruct (run queue_step q1 ops) as [q2 outs].
    exists a2; split; [econstructor; done|done].
Qed.

(** *** Bounds of the abstract queue *)

Definition inflights (l : list entry) : Z := Z.of_nat (length (List.filter e_inflight l)).
Definition spec_inv (a : aqueue) : Prop :=
  noncriticals (a_list a) <= 24 /\ inflights (a_list a) <= 1.

Lemma filter_mid {A} (p : A -> bool) l1 (e : A) l2 :
  length (List.filter p (l1 ++ e :: l2)) =
  (length (List.filter p (l1 ++ l2)) + if p e then 1 else 0)%nat.
Proof.
  rewrite !List.filter_app, !length_app; cbn; destruct (p e); cbn; lia.
Qed.
Lemma filter_filter_le {A} (p r : A -> bool) (l : list A) :
  (length (List.filter p (List.filter r l)) <= length (List.filter p l))%nat.
Proof. induction l as [|x l IH]; cbn; [done|]; destruct (r x), (p x) eqn:E; cbn; rewrite ?E; cbn; lia. Qed.

Lemma no_inflight l : existsb e_inflight l = false -> inflights l = 0.
Proof.
  unfold inflights; induction l as [|e l IH]; cbn; [done|].
  destruct (e_inflight e); cbn; [done|]; done.
Qed.

Lemma spec_inv_step a o out a' : spec_step a o out a' -> spec_inv a -> spec_inv a'.
Proof.
  unfold spec_inv, noncriticals, inflights.
  destruct 1 as [| | |l last st rq i Had Hno [Hlen Hroom]|l1 e l2 last st rq Had Hco
    |l last st now ts| |l1 e l2 last st now c Hno Hh Hf Hor| |l1 e l2 last st cl now retry Hcl Hex
    |l1 e l2 last st cl r now retry Hcl Hor]; cbn [a_list]; try done; intros [H1 H2].
  - unfold noncriticals, MQTT_DISPATCH_CAPACITY, MQTT_DISPATCH_CRITICAL_RESERVE in Hroom.
    rewrite !List.filter_app, !length_app; cbn; unfold e_noncritical at 2; cbn.
    destruct (rq_critical rq) eqn:E; cbn; [lia|]; destruct Hroom; [done|lia].
  - rewrite !filter_mid in *; cbn; unfold e_noncritical, e_coalesces, same_snapshot in *; cbn.
    to_prop; repeat match goal with H : _ = false |- _ => rewrite H in * end; cbn in *; lia.
  - pose proof (filter_filter_le e_noncritical (fun e => negb (e_dead now e)) l).
    pose proof (filter_filter_le e_inflight (fun e => negb (e_dead now e)) l); lia.
  - apply no_inflight in Hno; unfold inflights in Hno; rewrite !filter_mid in *.
    unfold e_noncritical in *; cbn; destruct (e_inflight e); cbn in *; lia.
  - rewrite !filter_mid in *; unfold e_noncritical in *; cbn; destruct (e_inflight e); lia.
  - rewrite !filter_mid in *; lia.
Qed.

Lemma spec_inv_run a ops outs a' : spec_run a ops outs a' -> spec_inv a -> spec_inv a'.
Proof. induction 1; eauto using spec_inv_step. Qed.

(** *** The books *)

(** The publications the SDK accepted, by the completions reported. *)
Definition is_sent (x : queue_op * queue_out) : bool :=
  match x with (Finish _ SENT _ _, Finished true) => true | _ => false end.
Definition sent_count (ops : list queue_op) (outs : list queue_out) : Z :=
  Z.of_nat (length (List.filter is_sent (zip ops outs))).

Definition books (q : queue) (sent : Z) : Prop :=
  let c := q_counters q in
  st_accepted c = q_last_token q /\
  st_accepted c = st_coalesced c + st_expired c + st_dropped c + sent + st_depth c /\
  0 <= st_coalesced c /\ 0 <= st_expired c /\ 0 <= st_dropped c /\ 0 <= sent /\
  0 <= st_depth c <= st_highwater c /\ st_highwater c <= 32.

Lemma refines_bounds q a :
  refines q a -> 0 <= st_depth (q_counters q) <= 32 /\ 0 <= q_last_token q <= UINT64_MAX.
Proof.
  intros (Hlen & -> & _ & -> & Hla & _ & ss & _ & Hp & -> & _); split; [|done].
  pose proof (length_occupied 0 (q_slots q)) as H; rewrite Hp, Hlen in H.
  unfold MQTT_DISPATCH_CAPACITY in H; rewrite length_map; lia.
Qed.

Lemma refines_depth_pos q a c s :
  refines q a -> q_slots q !! c = Some s -> used s = true -> 1 <= st_depth (q_counters q).
Proof.
  intros Hr Hc Hu; assert (Hin : (entry_of c s).2 ∈ a_list a).
  { rewrite (refines_elem _ _ _ Hr); eauto. }
  destruct Hr as (_ & _ & _ & -> & _); destruct (a_list a); [inversion Hin|cbn; lia].
Qed.

Lemma books_finish q a cl r now retry sent :
  refines q a -> books q sent ->
  books (mqtt_dispatch_finish q cl r now retry).1
    (sent + if is_sent (Finish cl r now retry, Finished (mqtt_dispatch_finish q cl r now retry).2)
            then 1 else 0).
Proof.
  intros Hr Hb; unfold mqtt_dispatch_finish.
  destruct (Nat.leb_spec MQTT_DISPATCH_CAPACITY (cl_slot cl)).
  { cbn; destruct r; rewrite Z.add_0_r; done. }
  destruct (negb _ || negb _) eqn:E; [cbn; destruct r; rewrite Z.add_0_r; done|].
  pose proof (refines_bounds _ _ Hr) as [Hd Hl]; pose proof Hr as (Hlen & _).
  destruct (lookup_lt_is_Some_2 (q_slots q) (cl_slot cl) ltac:(lia)) as [s Hs].
  rewrite (list_lookup_total_correct _ _ _ Hs) in *; to_prop.
  assert (Hu : used s = true) by (unfold used; destruct (s_state s); done).
  pose proof (refines_depth_pos _ _ _ _ Hr Hs Hu); unfold books, UINT64_MAX in *.
  destruct Hb as (B1 & B2 & B3 & B4 & B5 & B6 & B7 & B8).
  destruct r; [|destruct (expired _ _)|]; cbn; rewrite ?u64_small, ?u32_small by lia;
    split_and!; lia.
Qed.

Lemma books_expire q a now sent :
  refines q a -> books q sent -> books (mqtt_dispatch_expire q now).1 sent.
Proof.
  intros Hr Hb; pose proof (refines_bounds _ _ Hr) as [Hd Hl].
  pose proof Hr as (Hlen & _ & _ & Hdep & _ & _ & ss & _ & Hp & Hal & _).
  unfold mqtt_dispatch_expire; pose proof (expire_slots_spec now (q_slots q) 0) as He.
  destruct (expire_slots now (q_slots q)) as [sl' ts]; destruct He as (_ & _ & ->).
  rewrite length_map; pose proof (filter_length_split (e_dead now) (map snd (occupied 0 (q_slots q)))) as Hsp.
  assert (Hlo : length (map snd (occupied 0 (q_slots q))) = length (a_list a))
    by (rewrite Hal, !length_map, Hp; done).
  rewrite Hlo in Hsp; set (n := length (List.filter (e_dead now) _)) in *; unfold books, UINT64_MAX in *.
  destruct Hb as (B1 & B2 & B3 & B4 & B5 & B6 & B7 & B8); cbn.
  rewrite u64_small, u32_small by lia; split_and!; lia.
Qed.

Lemma books_submit q a rq sent :
  refines q a -> books q sent -> books (mqtt_dispatch_submit q rq).1 sent.
Proof.
  intros Hr Hb; destruct (sim_submit q a rq Hr) as [a' Hsim].
  unfold mqtt_dispatch_submit in *; destruct (request_invalid _ rq) eqn:Ei; [done|].
  destruct (request_too_large rq) eqn:Et; [done|].
  pose proof (refines_bounds _ _ Hr) as [Hd Hl]; pose proof Hr as (_ & Hlast & _ & _ & Hla & _).
  destruct (admissible_last _ _ (conj Ei Et) Hl) as [Hu64 Hlt].
  destruct (submit_scan _ _ _ _ _ _) as [[f r] n]; rewrite Hu64 in *.
  destruct (_ || _); [exact Hb|]; unfold books, UINT64_MAX in *.
  destruct Hb as (B1 & B2 & B3 & B4 & B5 & B6 & B7 & B8).
  destruct (r =? MQTT_DISPATCH_CAPACITY)%nat; cbn [negb fst] in *;
    destruct Hsim as [_ Hr']; apply refines_bounds in Hr' as [Hd' _].
  - cbn in *; destruct (Z.ltb_spec (st_highwater (q_counters q)) (u32 (st_depth (q_counters q) + 1)));
      cbn in *; rewrite ?u64_small, ?u32_small in * by lia; split_and!; lia.
  - cbn in *; rewrite ?u64_small by lia; split_and!; lia.
Qed.

Lemma books_take q now sent : books q sent -> books (mqtt_dispatch_claim q now).1 sent.
Proof. intros Hb; unfold mqtt_dispatch_claim, take_slot; repeat case_match; exact Hb. Qed.

Lemma books_step q a o sent :
  refines q a -> books q sent ->
  books (queue_step q o).1 (sent + if is_sent (o, (queue_step q o).2) then 1 else 0).
Proof.
  intros Hr Hb; destruct o as [rq|now|now|cl r now retry]; cbn [queue_step].
  - pose proof (books_submit q a rq sent Hr Hb); destruct (mqtt_dispatch_submit q rq) as [q' [[? ?] ?]].
    cbn in *; rewrite Z.add_0_r; done.
  - pose proof (books_expire q a now sent Hr Hb); destruct (mqtt_dispatch_expire q now).
    cbn in *; rewrite Z.add_0_r; done.
  - pose proof (books_take q now sent Hb); destruct (mqtt_dispatch_claim q now).
    cbn in *; rewrite Z.add_0_r; done.
  - pose proof (books_finish q a cl r now retry sent Hr Hb).
    destruct (mqtt_dispatch_finish q cl r now retry); done.
Qed.

Lemma books_run q a ops sent :
  refines q a -> books q sent ->
  books (run queue_step q ops).1 (sent + sent_count ops (run queue_step q ops).2).
Proof.
  revert q a sent; induction ops as [|o ops IH]; intros q a sent Hr Hb; cbn.
  - unfold sent_count; cbn; rewrite Z.add_0_r; done.
  - pose proof (books_step q a o sent Hr Hb) as Hb1; destruct (sim_step q a o Hr) as (a1 & _ & Hr1).
    destruct (queue_step q o) as [q1 out]; specialize (IH q1 a1 _ Hr1 Hb1).
    destruct (run queue_step q1 ops) as [q2 outs]; cbn [fst snd] in *.
    replace (sent + sent_count (o :: ops) (out :: outs))
      with (sent + (if is_sent (o, out) then 1 else 0) + sent_count ops outs); [done|].
    unfold sent_count; cbn [zip zip_with List.filter]; destruct (is_sent (o, out)); cbn [length]; lia.
Qed.

(** *** Fairness *)

(** A noncritical publication that a claim at [now_ms] could return. *)
Definition noncritical_ready (now_ms : Z) (q : queue) : bool :=
  match claim_scan now_ms (q_slots q) 0 (q_slots q) MQTT_DISPATCH_CAPACITY MQTT_DISPATCH_CAPACITY with
  | Some (_, other) => negb (ready_head now_ms (q_slots q) other =? MQTT_DISPATCH_CAPACITY)%nat
  | None => false
  end.

(** It is so at every claim of a run. *)
Fixpoint ready_throughout (q : queue) (ops : list queue_op) : bool :=
  match ops with
  | [] => true
  | o :: ops =>
      match o with Take now => noncritical_ready now q | _ => true end &&
      ready_throughout (queue_step q o).1 ops
  end.

Definition claimed (out : queue_out) : option item :=
  match out with Taken (Some c) => Some (cl_item c) | _ => None end.
Definition claimed_class (critical : bool) (outs : list queue_out) : list item :=
  List.filter (fun it => Bool.eqb (it_critical it) critical) (omap claimed outs).

Lemma streak_step q a o :
  refines q a -> ready_throughout q [o] = true ->
  claimed_class false [(queue_step q o).2] = [] ->
  q_critical_streak q + Z.of_nat (length (claimed_class true [(queue_step q o).2])) <=
  q_critical_streak (queue_step q o).1.
Proof.
  intros Hr Hre Hn; pose proof Hr as (Hlen & _ & Hst & _ & _ & Hsk & _); rewrite <- Hst in Hsk.
  destruct o as [rq|now|now|cl r now retry]; cbn [queue_step] in *.
  - unfold mqtt_dispatch_submit; repeat case_match; simplify_eq; cbn; lia.
  - unfold mqtt_dispatch_expire; repeat case_match; simplify_eq; cbn; lia.
  - cbn [ready_throughout] in Hre; rewrite andb_true_r in Hre.
    unfold noncritical_ready, mqtt_dispatch_claim in *; unfold MQTT_DISPATCH_CRITICAL_BURST in *.
    pose proof (claim_scan_spec now (q_slots q) Hlen) as Hscan.
    destruct (claim_scan _ _ _ _ _ _) as [[c o]|]; [|done]; destruct Hscan as (_ & _ & Ho).
    apply negb_true_iff in Hre; rewrite Hre in *; cbn [orb] in *.
    destruct (negb _ && _) eqn:E; [apply andb_prop in E as [_ E]; rewrite E in *; to_prop|].
    + unfold take_slot in *; cbn; rewrite u32_small by lia; unfold claimed_class; cbn.
      destruct (Bool.eqb _ true); cbn; lia.
    + destruct (ready_head_spec q a false now o Hr Ho) as [[Hx _]|(s & Hx & _ & Hs & He & _)];
        rewrite Hx in *; [rewrite Nat.eqb_refl in Hre; done|].
      unfold take_slot, claimed_class in Hn; cbn in Hn.
      rewrite (list_lookup_total_correct _ _ _ Hs) in Hn; unfold eligible in He; to_prop.
      match goal with H : Bool.eqb _ _ = true |- _ => rewrite H in Hn end; done.
  - unfold mqtt_dispatch_finish; repeat case_match; simplify_eq; cbn; lia.
Qed.

Lemma streak_run q a ops :
  refines q a -> ready_throughout q ops = true ->
  claimed_class false (run queue_step q ops).2 = [] ->
  q_critical_streak q + Z.of_nat (length (claimed_class true (run queue_step q ops).2)) <= 8.
Proof.
  revert q a; induction ops as [|o ops IH]; intros q a Hr Hre Hn.
  - destruct Hr as (_ & _ & -> & _ & _ & Hsk & _); unfold MQTT_DISPATCH_CRITICAL_BURST in Hsk.
    unfold claimed_class; cbn; lia.
  - cbn [ready_throughout run] in *; apply andb_prop in Hre as [Hre Hre'].
    pose proof (streak_step q a o Hr) as Hstep; destruct (sim_step q a o Hr) as (a1 & _ & Hr1).
    cbn [ready_throughout] in Hstep; rewrite Hre in Hstep.
    destruct (queue_step q o) as [q1 out]; specialize (IH q1 a1 Hr1 Hre'); cbn [fst snd] in *.
    destruct (run queue_step q1 ops) as [q2 outs]; cbn [fst snd] in *.
    assert (Hsplit : forall b, claimed_class b (out :: outs) = claimed_class b [out] ++ claimed_class b outs).
    { intros b; unfold claimed_class; change (out :: outs) with ([out] ++ outs).
      rewrite omap_app, List.filter_app; done. }
    rewrite Hsplit in Hn |- *; apply app_eq_nil in Hn as [Hn1 Hn2].
    rewrite length_app; specialize (Hstep eq_refl Hn1); specialize (IH Hn2); lia.
Qed.
End DispatchQueue.

(** ** Properties *)

(** C30: the slot array implements the abstract queue.  Every sequence of
    submissions, expiries, claims and completions, with the results the code
    returns, is an execution of the list in submission order: first in first
    out within a class, a delayed or in-flight head holds its place, critical
    publications first but at most eight in a row before a ready other one,
    eight places kept for critical ones, snapshots replaced in place. *)
Theorem dispatch_refines ops :
  exists a, spec_run aqueue_init ops (run queue_step mqtt_dispatch_init ops).2 a /\
    refines (run queue_step mqtt_dispatch_init ops).1 a.
Proof. apply sim_run, refines_init. Qed.

(** No publication is lost or counted twice.  At every moment the accepted
    submissions are those replaced, expired, dropped, sent or still in the
    queue; the queue never holds more than 32, of which at most 24 noncritical
    and at most one in flight. *)
Theorem dispatch_accounts ops :
  let '(q, outs) := run queue_step mqtt_dispatch_init ops in
  let c := q_counters q in
  st_accepted c = st_coalesced c + st_expired c + st_dropped c + sent_count ops outs + st_depth c /\
  st_accepted c = q_last_token q /\
  0 <= st_depth c <= st_highwater c /\ st_highwater c <= 32 /\
  st_depth c = Z.of_nat (length (occupied 0 (q_slots q))) /\
  noncrit_slots (q_slots q) <= 24 /\
  Z.of_nat (length (List.filter (fun x => e_inflight x.2) (occupied 0 (q_slots q)))) <= 1.
Proof.
  pose proof (books_run mqtt_dispatch_init aqueue_init ops 0 refines_init) as Hb.
  destruct (sim_run _ _ ops refines_init) as (a & Hrun & Hr).
  apply spec_inv_run in Hrun as [Hi1 Hi2]; [|split; vm_compute; discriminate].
  rewrite (refines_noncrit _ _ Hr) in Hi1.
  destruct (run queue_step mqtt_dispatch_init ops) as [q outs]; cbn [fst snd] in *.
  destruct Hb as (B1 & B2 & B3 & B4 & B5 & B6 & B7 & B8).
  { unfold books; cbn; lia. }
  destruct Hr as (_ & _ & _ & Hd & _ & _ & ss & _ & Hp & Hal & _).
  split_and!; try lia; try done.
  - rewrite Hd, Hal, Hp, length_map; done.
  - rewrite Hp; unfold inflights in Hi2; rewrite Hal, filter_map, length_map in Hi2; done.
Qed.

(** Critical traffic cannot starve the rest.  While a noncritical
    publication is ready at every claim, nine consecutive claims of critical
    ones never happen: any stretch of operations with no noncritical claim has
    at most eight critical ones. *)
Theorem dispatch_fair ops ops' :
  let q := (run queue_step mqtt_dispatch_init ops).1 in
  let outs := (run queue_step q ops').2 in
  ready_throughout q ops' = true -> claimed_class false outs = [] ->
  (length (claimed_class true outs) <= 8)%nat.
Proof.
  intros q outs Hre Hn; destruct (sim_run _ _ ops refines_init) as (a & _ & Hr); fold q in Hr.
  pose proof (streak_run q a ops' Hr Hre Hn) as H; destruct Hr as (_ & _ & Hst & _ & _ & Hsk & _).
  fold outs in H; lia.
Qed.

Definition demo_request (critical : bool) (key v : Z) : request :=
  Request (Some [116; 47; 120]) (Some [v]) 1 1 false critical key 0.

Lemma dispatch_fair_witness :
  let q := (run queue_step mqtt_dispatch_init
              [Submit (demo_request false 0 1); Submit (demo_request true 0 2)]).1 in
  (length (claimed_class true (run queue_step q [Take 5]).2) <= 8)%nat.
Proof.
  apply (dispatch_fair [Submit (demo_request false 0 1); Submit (demo_request true 0 2)] [Take 5]);
    vm_compute; reflexivity.
Defined.

(** The completion of the publication in slot [i] with token [t]. *)
Definition done_ (i : nat) (t : Z) (r : dispatch_finish) : queue_op :=
  Finish (Claim i (Item [] [] 0 0 false false 0 t 0)) r 0 0.

(** A retry can let an older snapshot overtake a newer one.  Snapshots 11, 12
    and 13 of one key are submitted in this order; because 11 was in flight when
    12 arrived and was then retried, 13 replaces it at its older place, and the
    SDK receives 13 and then 12: the last value the broker sees is stale. *)
Theorem retried_snapshot_goes_stale :
  let outs := (run queue_step mqtt_dispatch_init
    [Submit (demo_request false 0 10); Submit (demo_request false 7 11);
     Take 0; done_ 0 1 SENT; Take 0; Submit (demo_request false 7 12); done_ 1 2 RETRY;
     Submit (demo_request false 7 13); Take 0; done_ 1 4 SENT; Take 0; done_ 0 3 SENT]).2 in
  map it_payload (omap claimed outs) = [[10]; [11]; [13]; [12]].
Proof. vm_compute; reflexivity. Qed.
