(* ===== verification/MqttHealth.v ===== *)
(** * The MQTT uplink health monitor (firmware-ESP32-LTE-M/main/mqtt_health.c)

    A periodic probe publication must be admitted by the SDK and acknowledged
    by the broker inside its window; [health] is the struct, the operations
    return the new struct and the C result.  Times are [uint64_t] milliseconds. *)

From S2P Require Import Prelude.

(** ** State *)

(* src: firmware-ESP32-LTE-M/main/mqtt_health.h:14-17 mqtt_health_token_t *)
Record health_token := Token { tk_generation : Z; tk_sequence : Z }.

(* src: firmware-ESP32-LTE-M/main/mqtt_health.h:19-23 mqtt_health_config_t *)
Record health_config := Config {
  cf_probe_interval_ms : Z; cf_probe_deadline_ms : Z; cf_worker_stall_ms : Z
}.

(* src: firmware-ESP32-LTE-M/main/mqtt_health.h:25-31 mqtt_health_failure_t *)
Inductive health_failure :=
  | FAILURE_NONE | FAILURE_ADMISSION_TIMEOUT | FAILURE_ACK_TIMEOUT | FAILURE_PROBE_FAILED
  | FAILURE_EVENT_LOSS.

#[export] Instance health_failure_eq_dec : EqDecision health_failure.
Proof. solve_decision. Defined.

(* src: firmware-ESP32-LTE-M/main/mqtt_health.h:33-50 mqtt_health_snapshot_t *)
Record snapshot := Snapshot {
  sn_connected : bool; sn_ota_active : bool; sn_probe_due : bool; sn_probe_pending : bool;
  sn_probe_admitted : bool; sn_proof_fresh : bool; sn_degraded : bool; sn_worker_busy : bool;
  sn_worker_stalled : bool; sn_failure : health_failure; sn_generation : Z;
  sn_next_probe_due_ms : Z; sn_probe_deadline_ms : Z; sn_last_ack_ms : Z;
  sn_worker_checkpoint_ms : Z; sn_pending_token : health_token
}.

(* src: firmware-ESP32-LTE-M/main/mqtt_health.h:53-70 mqtt_health_t *)
Record health := Health {
  config : health_config;
  now_ms : Z;
  generation : Z;
  sequence : Z;
  next_probe_due_ms : Z;
  probe_deadline_ms : Z;
  last_ack_ms : Z;
  worker_checkpoint_ms : Z;
  pending_token : health_token;
  failure : health_failure;
  connected : bool;
  ota_active : bool;
  probe_pending : bool;
  probe_admitted : bool;
  proof_valid : bool;
  worker_busy : bool
}.

#[export] Instance eta_health : Eta health := fun h =>
  Health (config h) (now_ms h) (generation h) (sequence h) (next_probe_due_ms h)
    (probe_deadline_ms h) (last_ack_ms h) (worker_checkpoint_ms h) (pending_token h) (failure h)
    (connected h) (ota_active h) (probe_pending h) (probe_admitted h) (proof_valid h)
    (worker_busy h).

(** ** Operations *)

(* src: firmware-ESP32-LTE-M/main/mqtt_health.c:6-10 observe_time *)
Definition observe_time (h : health) (now : Z) : health :=
  if now_ms h <? now then h <| now_ms := now |> else h.

(* src: firmware-ESP32-LTE-M/main/mqtt_health.c:12-15 add_saturated *)
Definition add_saturated (a b : Z) : Z :=
  if u64 (UINT64_MAX - a) <? b then UINT64_MAX else u64 (a + b).

(* src: firmware-ESP32-LTE-M/main/mqtt_health.c:17-22 clear_pending *)
Definition clear_pending (h : health) : health :=
  h <| probe_pending := false |> <| probe_admitted := false |> <| pending_token := Token 0 0 |>.

(* src: firmware-ESP32-LTE-M/main/mqtt_health.c:24-28 schedule *)
Definition schedule (h : health) (due : Z) : health :=
  h <| next_probe_due_ms := due |>
    <| probe_deadline_ms := add_saturated due (cf_probe_deadline_ms (config h)) |>.

(* src: firmware-ESP32-LTE-M/main/mqtt_health.c:30-35 schedule_next *)
Definition schedule_next (h : health) (now : Z) : health :=
  let due := add_saturated (next_probe_due_ms h) (cf_probe_interval_ms (config h)) in
  schedule h (if due <? now then now else due).

(* src: firmware-ESP32-LTE-M/main/mqtt_health.c:37-44 fail_window *)
Definition fail_window (h : health) (now : Z) (reason : health_failure) : health :=
  schedule_next (clear_pending (h <| proof_valid := false |> <| failure := reason |>)) now.

(** [advance] returns the observed time, which is the struct's new [now_ms]. *)
(* src: firmware-ESP32-LTE-M/main/mqtt_health.c:46-55 advance *)
Definition advance (h : health) (now : Z) : health :=
  let h := observe_time h now in
  if connected h && negb (ota_active h) && (probe_deadline_ms h <=? now_ms h)
  then fail_window h (now_ms h)
         (if probe_admitted h then FAILURE_ACK_TIMEOUT else FAILURE_ADMISSION_TIMEOUT)
  else h.

(* src: firmware-ESP32-LTE-M/main/mqtt_health.c:57-62 matches *)
Definition matches (h : health) (token : health_token) : bool :=
  connected h && negb (ota_active h) && probe_pending h &&
  (tk_generation token =? tk_generation (pending_token h)) &&
  (tk_sequence token =? tk_sequence (pending_token h)).

(* src: firmware-ESP32-LTE-M/main/mqtt_health.c:64-67 mqtt_health_default_config *)
Definition mqtt_health_default_config : health_config := Config 120000 60000 30000.

Definition health_zero : health :=
  Health (Config 0 0 0) 0 0 0 0 0 0 0 (Token 0 0) FAILURE_NONE false false false false false false.

(* src: firmware-ESP32-LTE-M/main/mqtt_health.c:69-80 mqtt_health_init *)
Definition mqtt_health_init (now : Z) (cfg : option health_config) : health * bool :=
  let cfg := default mqtt_health_default_config cfg in
  if (cf_probe_deadline_ms cfg =? 0) || (cf_worker_stall_ms cfg =? 0) ||
     (cf_probe_interval_ms cfg <? cf_probe_deadline_ms cfg) then (health_zero, false)
  else (health_zero <| config := cfg |> <| now_ms := now |>, true).

(* src: firmware-ESP32-LTE-M/main/mqtt_health.c:82-92 mqtt_health_on_connected *)
Definition mqtt_health_on_connected (h : health) (now : Z) : health :=
  let h := observe_time h now in
  let h := if negb (generation h =? UINT64_MAX)
           then h <| generation := u64 (generation h + 1) |> else h in
  let h := h <| connected := true |> <| proof_valid := false |> <| failure := FAILURE_NONE |> in
  schedule (clear_pending h) (now_ms h).

(* src: firmware-ESP32-LTE-M/main/mqtt_health.c:94-103 mqtt_health_on_disconnected *)
Definition mqtt_health_on_disconnected (h : health) (now : Z) : health :=
  let h := observe_time h now in
  let h := h <| connected := false |> <| proof_valid := false |> <| failure := FAILURE_NONE |> in
  clear_pending h <| next_probe_due_ms := 0 |> <| probe_deadline_ms := 0 |>.

(* src: firmware-ESP32-LTE-M/main/mqtt_health.c:105-130 mqtt_health_poll *)
Definition mqtt_health_poll (h : health) (now : Z) : health * snapshot :=
  let h := advance h now in
  let now := now_ms h in
  (h, Snapshot (connected h) (ota_active h)
        (connected h && negb (ota_active h) && negb (probe_pending h) &&
         (next_probe_due_ms h <=? now) && (now <? probe_deadline_ms h))
        (probe_pending h) (probe_admitted h)
        (connected h && negb (ota_active h) && proof_valid h)
        (negb (bool_decide (failure h = FAILURE_NONE)))
        (worker_busy h)
        (worker_busy h &&
         (cf_worker_stall_ms (config h) <=? u64 (now - worker_checkpoint_ms h)))
        (failure h) (generation h) (next_probe_due_ms h) (probe_deadline_ms h)
        (last_ack_ms h) (worker_checkpoint_ms h) (pending_token h)).

(** The token is written only when the probe begins. *)
(* src: firmware-ESP32-LTE-M/main/mqtt_health.c:132-145 mqtt_health_begin_probe *)
Definition mqtt_health_begin_probe (h : health) (now : Z) : health * option health_token :=
  let h := advance h now in
  let now := now_ms h in
  if negb (connected h) || ota_active h || probe_pending h || (now <? next_probe_due_ms h) ||
     (probe_deadline_ms h <=? now) || (sequence h =? UINT64_MAX) then (h, None) else
  let h := h <| sequence := u64 (sequence h + 1) |> in
  let h := h <| pending_token := Token (generation h) (sequence h) |> <| probe_pending := true |>
             <| probe_admitted := false |> in
  (h, Some (pending_token h)).

(* src: firmware-ESP32-LTE-M/main/mqtt_health.c:147-154 mqtt_health_probe_admitted *)
Definition mqtt_health_probe_admitted (h : health) (token : health_token) (now : Z) : health * bool :=
  let h := advance h now in
  if negb (matches h token) || probe_admitted h then (h, false)
  else (h <| probe_admitted := true |>, true).

(* src: firmware-ESP32-LTE-M/main/mqtt_health.c:156-167 mqtt_health_probe_ack *)
Definition mqtt_health_probe_ack (h : health) (token : health_token) (now : Z) : health * bool :=
  let h := advance h now in
  let now := now_ms h in
  if negb (matches h token) || negb (probe_admitted h) then (h, false) else
  let h := h <| last_ack_ms := now |> <| proof_valid := true |> <| failure := FAILURE_NONE |> in
  (schedule_next (clear_pending h) now, true).

(* src: firmware-ESP32-LTE-M/main/mqtt_health.c:169-176 mqtt_health_probe_failed *)
Definition mqtt_health_probe_failed (h : health) (token : health_token) (now : Z) : health * bool :=
  let h := advance h now in
  if negb (matches h token) then (h, false)
  else (fail_window h (now_ms h) FAILURE_PROBE_FAILED, true).

(* src: firmware-ESP32-LTE-M/main/mqtt_health.c:178-187 mqtt_health_on_event_loss *)
Definition mqtt_health_on_event_loss (h : health) (now : Z) : health :=
  let h := observe_time h now in
  let h := clear_pending (h <| proof_valid := false |>) in
  if connected h && negb (ota_active h)
  then schedule_next (h <| failure := FAILURE_EVENT_LOSS |>) (now_ms h) else h.

(* src: firmware-ESP32-LTE-M/main/mqtt_health.c:189-198 mqtt_health_set_ota_active *)
Definition mqtt_health_set_ota_active (h : health) (now : Z) (active : bool) : health :=
  let h := observe_time h now in
  if Bool.eqb (ota_active h) active then h else
  let h := h <| ota_active := active |> <| proof_valid := false |> <| failure := FAILURE_NONE |> in
  let h := clear_pending h in
  if connected h && negb active then schedule h (now_ms h) else h.

(* src: firmware-ESP32-LTE-M/main/mqtt_health.c:200-207 mqtt_health_worker_begin *)
Definition mqtt_health_worker_begin (h : health) (now : Z) : health :=
  let h := observe_time h now in
  if negb (worker_busy h)
  then h <| worker_busy := true |> <| worker_checkpoint_ms := now_ms h |> else h.

(* src: firmware-ESP32-LTE-M/main/mqtt_health.c:209-213 mqtt_health_worker_checkpoint *)
Definition mqtt_health_worker_checkpoint (h : health) (now : Z) : health :=
  let h := observe_time h now in
  if worker_busy h then h <| worker_checkpoint_ms := now_ms h |> else h.

(* src: firmware-ESP32-LTE-M/main/mqtt_health.c:215-220 mqtt_health_worker_end *)
Definition mqtt_health_worker_end (h : health) (now : Z) : health :=
  let h := observe_time h now in
  h <| worker_busy := false |> <| worker_checkpoint_ms := now_ms h |>.

(** ** Sequences of operations, each at the time its caller supplies *)

Inductive health_op :=
  | H_connected | H_disconnected | H_poll | H_begin
  | H_admitted (token : health_token) | H_ack (token : health_token)
  | H_failed (token : health_token) | H_event_loss | H_set_ota (active : bool)
  | H_worker_begin | H_worker_checkpoint | H_worker_end.

(** The second component tells whether an acknowledgement was accepted. *)
Definition health_step (h : health) (x : health_op * Z) : health * bool :=
  let (o, now) := x in
  match o with
  | H_connected => (mqtt_health_on_connected h now, false)
  | H_disconnected => (mqtt_health_on_disconnected h now, false)
  | H_poll => ((mqtt_health_poll h now).1, false)
  | H_begin => ((mqtt_health_begin_probe h now).1, false)
  | H_admitted t => ((mqtt_health_probe_admitted h t now).1, false)
  | H_ack t => mqtt_health_probe_ack h t now
  | H_failed t => ((mqtt_health_probe_failed h t now).1, false)
  | H_event_loss => (mqtt_health_on_event_loss h now, false)
  | H_set_ota a => (mqtt_health_set_ota_active h now a, false)
  | H_worker_begin => (mqtt_health_worker_begin h now, false)
  | H_worker_checkpoint => (mqtt_health_worker_checkpoint h now, false)
  | H_worker_end => (mqtt_health_worker_end h now, false)
  end.

Definition health_run (h : health) (l : list (health_op * Z)) : health * list bool :=
  run health_step h l.

(** Times the callers may supply, and configurations [mqtt_health_init] accepts. *)
Definition times_ok (l : list (health_op * Z)) : Prop := Forall (fun x => is_u64 x.2) l.
Definition config_ok (c : health_config) : Prop :=
  0 < cf_probe_deadline_ms c /\ cf_probe_deadline_ms c <= cf_probe_interval_ms c /\
  is_u64 (cf_probe_interval_ms c) /\ 0 < cf_worker_stall_ms c /\ is_u64 (cf_worker_stall_ms c).

Section MqttHealth.
Implicit Types (h : health) (l : list (health_op * Z)).

Lemma add_saturated_min a b :
  is_u64 a -> is_u64 b -> add_saturated a b = Z.min UINT64_MAX (a + b).
Proof.
  intros; unfold add_saturated, UINT64_MAX in *; rewrite (u64_small (_ - a)) by lia.
  destruct (Z.ltb_spec (18446744073709551615 - a) b); [lia|rewrite u64_small; lia].
Qed.

(** *** The invariant

    The window of a live connection is [deadline] long; a valid proof is from
    the present connection and its successor window starts within an interval
    of it. *)
Definition health_inv h : Prop :=
  config_ok (config h) /\ is_u64 (now_ms h) /\ is_u64 (next_probe_due_ms h) /\
  (connected h = true -> ota_active h = false ->
     probe_deadline_ms h =
       Z.min UINT64_MAX (next_probe_due_ms h + cf_probe_deadline_ms (config h)) /\
     (probe_pending h = true -> next_probe_due_ms h <= now_ms h)) /\
  (proof_valid h = true ->
     connected h = true /\ ota_active h = false /\ 0 <= last_ack_ms h <= now_ms h /\
     next_probe_due_ms h <= last_ack_ms h + cf_probe_interval_ms (config h)).

Lemma observe_time_fields h now :
  let h' := observe_time h now in
  now_ms h' = Z.max (now_ms h) now /\
  (config h', next_probe_due_ms h', probe_deadline_ms h', last_ack_ms h', failure h',
   connected h', ota_active h', probe_pending h', proof_valid h') =
  (config h, next_probe_due_ms h, probe_deadline_ms h, last_ack_ms h, failure h,
   connected h, ota_active h, probe_pending h, proof_valid h).
Proof. unfold observe_time; destruct (Z.ltb_spec (now_ms h) now); cbn; split; done || lia. Qed.

Lemma observe_time_inv h now : is_u64 now -> health_inv h -> health_inv (observe_time h now).
Proof.
  intros Hn (Hc & Ht & Hd & Hw & Hp); destruct (observe_time_fields h now) as [Hm Hf].
  injection Hf as E1 E2 E3 E4 E5 E6 E7 E8 E9; unfold health_inv.
  rewrite Hm, E1, E2, E3, E4, E6, E7, E8, E9; split_and!; try done; try apply Hc; try lia.
  - intros Hcn Ho; destruct (Hw Hcn Ho) as [? Hpp]; split; [done|]; intros Hpd.
    specialize (Hpp Hpd); lia.
  - intros Hv; destruct (Hp Hv) as (? & ? & ? & ?); split_and!; try done; lia.
Qed.

Lemma schedule_deadline h due :
  config_ok (config h) -> is_u64 due ->
  let h' := schedule h due in
  probe_deadline_ms h' = Z.min UINT64_MAX (next_probe_due_ms h' + cf_probe_deadline_ms (config h')).
Proof. intros (? & ? & ? & _) Hd; apply add_saturated_min; [done|cbn; lia]. Qed.

(** Closing a window: whatever becomes of the proof, the next window is due an
    interval after the old one, or now. *)
Lemma schedule_next_due h now :
  config_ok (config h) -> is_u64 now -> is_u64 (next_probe_due_ms h) ->
  let h' := schedule_next h now in
  next_probe_due_ms h' =
    Z.max now (Z.min UINT64_MAX (next_probe_due_ms h + cf_probe_interval_ms (config h))) /\
  is_u64 (next_probe_due_ms h') /\
  probe_deadline_ms h' = Z.min UINT64_MAX (next_probe_due_ms h' + cf_probe_deadline_ms (config h)).
Proof.
  intros (Hc1 & Hc2 & Hc3 & _) Hn Hd; unfold schedule_next, schedule; cbn.
  rewrite (add_saturated_min (next_probe_due_ms h)) by done.
  assert (Hdue : (if Z.min UINT64_MAX (next_probe_due_ms h + cf_probe_interval_ms (config h)) <? now
                  then now
                  else Z.min UINT64_MAX (next_probe_due_ms h + cf_probe_interval_ms (config h))) =
                 Z.max now (Z.min UINT64_MAX (next_probe_due_ms h + cf_probe_interval_ms (config h)))).
  { destruct (Z.ltb_spec (Z.min UINT64_MAX (next_probe_due_ms h + cf_probe_interval_ms (config h))) now);
      lia. }
  rewrite Hdue; unfold UINT64_MAX in *; split_and!; [done|lia|lia|].
  apply add_saturated_min; lia.
Qed.

Lemma fail_window_inv h reason :
  health_inv h -> health_inv (fail_window h (now_ms h) reason).
Proof.
  intros (Hc & Ht & Hd & _ & _); unfold fail_window.
  set (h1 := clear_pending _).
  destruct (schedule_next_due h1 (now_ms h) Hc Ht Hd) as (E1 & E2 & E3).
  refine (conj Hc (conj Ht (conj E2 (conj _ _)))); [intros _ _; done|done].
Qed.

Lemma advance_inv h now :
  is_u64 now -> health_inv h ->
  health_inv (advance h now) /\ now_ms (advance h now) = Z.max (now_ms h) now /\
  (connected (advance h now) = true -> ota_active (advance h now) = false ->
   proof_valid (advance h now) = true -> now_ms (advance h now) < probe_deadline_ms (advance h now)).
Proof.
  intros Hn Hi; unfold advance; pose proof (observe_time_inv h now Hn Hi) as Hi'.
  destruct (observe_time_fields h now) as [Hm _]; set (h1 := observe_time h now) in *.
  destruct (connected h1 && _ && _) eqn:E.
  - split_and!; [apply fail_window_inv; done|done|]; intros _ _ Hv; done.
  - split_and!; [done|done|]; intros Hc Ho _; rewrite Hc, Ho in E; cbn in E; to_prop; lia.
Qed.

(** Each operation from the observed or advanced struct. *)
Lemma connect_inv h :
  health_inv h -> health_inv (schedule (clear_pending
    (h <| connected := true |> <| proof_valid := false |> <| failure := FAILURE_NONE |>)) (now_ms h)).
Proof.
  intros (Hc & Ht & _ & _ & _); refine (conj Hc (conj Ht (conj Ht (conj _ _)))); [|done].
  intros _ _; split; [apply schedule_deadline; [exact Hc|exact Ht]|done].
Qed.
Lemma ack_inv h t :
  matches h t = true -> health_inv h ->
  health_inv (schedule_next (clear_pending
    (h <| last_ack_ms := now_ms h |> <| proof_valid := true |> <| failure := FAILURE_NONE |>))
    (now_ms h)).
Proof.
  unfold matches; intros Hm (Hc & Ht & Hd & Hw & _); to_prop.
  destruct (Hw ltac:(done) ltac:(done)) as [_ Hpp]; specialize (Hpp ltac:(done)).
  set (h2 := clear_pending _); destruct (schedule_next_due h2 (now_ms h) Hc Ht Hd) as (E1 & E2 & E3).
  assert (Hdue : next_probe_due_ms (schedule_next h2 (now_ms h)) <=
                 now_ms h + cf_probe_interval_ms (config h)).
  { rewrite E1; cbn; destruct Hc as (? & ? & ? & _); lia. }
  unfold health_inv; split; [exact Hc|split; [exact Ht|split; [exact E2|split]]].
  - intros _ _; split; [exact E3|done].
  - intros _; split_and!; [done|done|cbn; lia|cbn; lia|exact Hdue].
Qed.
Lemma event_loss_inv h :
  health_inv h ->
  health_inv (schedule_next (clear_pending (h <| proof_valid := false |>)
                <| failure := FAILURE_EVENT_LOSS |>) (now_ms h)).
Proof.
  intros (Hc & Ht & Hd & _ & _); set (h2 := _ <| failure := _ |>).
  destruct (schedule_next_due h2 (now_ms h) Hc Ht Hd) as (E1 & E2 & E3).
  refine (conj Hc (conj Ht (conj E2 (conj _ _)))); [intros _ _; done|done].
Qed.

(** Without a live, unpaused connection and without a proof, nothing is owed. *)
Lemma idle_inv h :
  config_ok (config h) -> is_u64 (now_ms h) -> is_u64 (next_probe_due_ms h) ->
  connected h && negb (ota_active h) = false -> proof_valid h = false -> health_inv h.
Proof.
  intros Hc Ht Hd Hl Hv; refine (conj Hc (conj Ht (conj Hd (conj _ _)))); [|congruence].
  intros Hcn Hot; rewrite Hcn, Hot in Hl; done.
Qed.

Lemma health_step_inv h x :
  is_u64 x.2 -> health_inv h -> health_inv (health_step h x).1.
Proof.
  destruct x as [o now]; cbn [snd]; intros Hn Hi.
  pose proof (advance_inv h now Hn Hi) as (Ha & _ & _); pose proof (observe_time_inv h now Hn Hi) as Ho.
  destruct o as [| | | |t|t|t| |a| | |]; cbn [health_step fst];
    unfold mqtt_health_on_connected, mqtt_health_on_disconnected, mqtt_health_poll,
      mqtt_health_begin_probe, mqtt_health_probe_admitted, mqtt_health_probe_ack,
      mqtt_health_probe_failed, mqtt_health_on_event_loss, mqtt_health_set_ota_active,
      mqtt_health_worker_begin, mqtt_health_worker_checkpoint, mqtt_health_worker_end;
    cbn zeta; generalize dependent (advance h now); intros ha Ha;
    generalize dependent (observe_time h now); intros ho Ho.
  - destruct (negb _); [|apply (connect_inv ho), Ho].
    apply (connect_inv (ho <| generation := _ |>)); exact Ho.
  - destruct Ho as (Hc & Ht & _); apply idle_inv; done || (cbn; lia).
  - exact Ha.
  - destruct (_ || _) eqn:E; [exact Ha|]; to_prop; destruct Ha as (Hc & Ht & Hd & Hw & Hp).
    refine (conj Hc (conj Ht (conj Hd (conj _ Hp)))); intros Hcn Hot.
    destruct (Hw Hcn Hot) as [? _]; split; [done|]; intros _; cbn; lia.
  - destruct (_ || _); exact Ha.
  - destruct (_ || _) eqn:E; [exact Ha|]; to_prop; apply (ack_inv ha t); done.
  - destruct (negb _); [exact Ha|apply fail_window_inv, Ha].
  - destruct (_ && _) eqn:E; [apply (event_loss_inv ho), Ho|].
    destruct Ho as (Hc & Ht & Hd & _); apply idle_inv; done.
  - destruct (Bool.eqb _ _) eqn:Eq; [exact Ho|]; destruct Ho as (Hc & Ht & Hd & _).
    destruct (_ && _) eqn:E; [|apply idle_inv; done].
    refine (conj Hc (conj Ht (conj Ht (conj _ _)))); [|done].
    intros _ _; split; [apply schedule_deadline; [exact Hc|exact Ht]|done].
  - destruct (negb _); exact Ho.
  - destruct (worker_busy _); exact Ho.
  - exact Ho.
Qed.

Lemma health_run_inv h l : times_ok l -> health_inv h -> health_inv (health_run h l).1.
Proof.
  unfold health_run; revert h; induction l as [|x l IH]; intros h Hl Hi; cbn; [done|].
  inversion_clear Hl; pose proof (health_step_inv h x ltac:(done) Hi) as Hi'.
  destruct (health_step h x) as [h1 b]; specialize (IH h1 ltac:(done) Hi').
  destruct (run health_step h1 l); done.
Qed.

Lemma health_init_inv now cfg h :
  is_u64 now -> is_u64 (cf_probe_deadline_ms cfg) -> is_u64 (cf_probe_interval_ms cfg) ->
  is_u64 (cf_worker_stall_ms cfg) -> mqtt_health_init now (Some cfg) = (h, true) -> health_inv h.
Proof.
  unfold mqtt_health_init; cbn; intros Hn H1 H2 H3 H; destruct (_ || _) eqn:E; [done|]; to_prop.
  injection H as <-; unfold health_inv, config_ok; cbn; split_and!; done || lia.
Qed.

(** *** Silence is noticed

    While the connection stays up, no OTA starts or ends and no acknowledgement
    is accepted, the deadline of the first window stays or the failure shows. *)
Definition quiet (x : health_op * Z) : bool :=
  match x.1 with H_connected | H_disconnected | H_set_ota _ => false | _ => true end.

Definition waiting (limit : Z) h : Prop :=
  connected h = true /\ ota_active h = false /\ proof_valid h = false /\
  (failure h <> FAILURE_NONE \/ probe_deadline_ms h <= limit).

Lemma waiting_observe limit h now : waiting limit h -> waiting limit (observe_time h now).
Proof.
  destruct (observe_time_fields h now) as [_ Hf]; injection Hf as E1 E2 E3 E4 E5 E6 E7 E8 E9.
  unfold waiting; rewrite E3, E5, E6, E7, E9; done.
Qed.
Lemma waiting_fail limit h now reason :
  reason <> FAILURE_NONE -> waiting limit h -> waiting limit (fail_window h now reason).
Proof. intros ? (? & ? & _); split_and!; try done; left; done. Qed.
Lemma waiting_advance limit h now : waiting limit h -> waiting limit (advance h now).
Proof.
  intros Hw; unfold advance; apply (waiting_observe _ _ now) in Hw.
  destruct (_ && _); [|done]; apply waiting_fail; [destruct (probe_admitted _); done|done].
Qed.

Lemma waiting_step limit h x :
  quiet x = true -> (health_step h x).2 = false -> waiting limit h -> waiting limit (health_step h x).1.
Proof.
  destruct x as [o now]; intros Hq Hb Hw; pose proof (waiting_advance limit h now Hw) as Ha.
  pose proof (waiting_observe limit h now Hw) as Ho.
  destruct o as [| | | |t|t|t| |a| | |]; try done; cbn [health_step fst] in *.
  - unfold mqtt_health_begin_probe; destruct (_ || _); exact Ha.
  - unfold mqtt_health_probe_admitted; destruct (_ || _); exact Ha.
  - unfold mqtt_health_probe_ack in *; destruct (_ || _); [exact Ha|done].
  - unfold mqtt_health_probe_failed; destruct (negb _); [exact Ha|apply waiting_fail; done].
  - unfold mqtt_health_on_event_loss; destruct Ho as (Hc & Hot & _ & _); cbn.
    rewrite Hc, Hot; cbn; split_and!; try done; left; done.
  - unfold mqtt_health_worker_begin; destruct (negb _); exact Ho.
  - unfold mqtt_health_worker_checkpoint; destruct (worker_busy _); exact Ho.
Qed.

Lemma waiting_run limit h l :
  forallb quiet l = true -> forallb negb (health_run h l).2 = true -> waiting limit h ->
  waiting limit (health_run h l).1.
Proof.
  unfold health_run; revert h; induction l as [|x l IH]; intros h Hq Hb Hw; cbn in *; [done|].
  apply andb_prop in Hq as [Hq Hql]; pose proof (waiting_step limit h x Hq) as Hs.
  destruct (health_step h x) as [h1 b]; specialize (IH h1 Hql).
  destruct (run health_step h1 l) as [h2 bs]; cbn in *; apply andb_prop in Hb as [Hb Hbl].
  apply negb_true_iff in Hb; auto.
Qed.
End MqttHealth.

(** ** Properties *)

(** A fresh proof is recent.  Whatever the calls and the order of their times,
    when a poll reports a fresh proof the monitor is connected, no OTA runs, and
    the broker acknowledged a probe less than one interval and one deadline ago
    (180 s by default), on this connection. *)
Theorem health_proof_recent cfg t0 h0 l now :
  is_u64 t0 -> is_u64 (cf_probe_deadline_ms cfg) -> is_u64 (cf_probe_interval_ms cfg) ->
  is_u64 (cf_worker_stall_ms cfg) -> mqtt_health_init t0 (Some cfg) = (h0, true) ->
  times_ok l -> is_u64 now ->
  let '(h, sn) := mqtt_health_poll (health_run h0 l).1 now in
  sn_proof_fresh sn = true ->
  sn_connected sn = true /\ sn_ota_active sn = false /\
  0 <= now_ms h - sn_last_ack_ms sn < cf_probe_interval_ms cfg + cf_probe_deadline_ms cfg.
Proof.
  intros Ht0 Hd Hi Hs Hinit Hl Hn; pose proof (health_init_inv _ _ _ Ht0 Hd Hi Hs Hinit) as Hinv.
  assert (Hcfg : forall l h, config (health_run h l).1 = config h).
  { clear; unfold health_run; induction l as [|x l IH]; intros h; cbn; [done|].
    assert (Hs : config (health_step h x).1 = config h).
    { destruct x as [o now]; pose proof (observe_time_fields h now) as [_ [= E _ _ _ _ _ _ _ _]].
      assert (Ha : config (advance h now) = config h)
        by (unfold advance; destruct (_ && _); [exact E|exact E]).
      destruct o; cbn [health_step fst];
        unfold mqtt_health_on_connected, mqtt_health_on_disconnected, mqtt_health_begin_probe,
          mqtt_health_probe_admitted, mqtt_health_probe_ack, mqtt_health_probe_failed,
          mqtt_health_on_event_loss, mqtt_health_set_ota_active, mqtt_health_worker_begin,
          mqtt_health_worker_checkpoint, mqtt_health_worker_end; repeat case_match; done. }
    destruct (health_step h x) as [h1 b]; specialize (IH h1); destruct (run health_step h1 l).
    cbn in *; congruence. }
  pose proof (health_run_inv h0 l Hl Hinv) as Hr; specialize (Hcfg l h0).
  assert (Hc0 : config h0 = cfg).
  { unfold mqtt_health_init in Hinit; cbn in Hinit; destruct (_ || _); [done|].
    injection Hinit as <-; done. }
  set (h := (health_run h0 l).1) in *; pose proof (advance_inv h now Hn Hr) as (Ha & Hm & Hlt).
  unfold mqtt_health_poll; cbn [sn_proof_fresh sn_connected sn_ota_active sn_last_ack_ms].
  intros Hf; to_prop; destruct Ha as (Hc & _ & _ & Hw & Hp).
  assert (Ea : config (advance h now) = cfg).
  { rewrite <- Hc0, <- Hcfg; pose proof (observe_time_fields h now) as [_ [= E _ _ _ _ _ _ _ _]].
    unfold advance; destruct (_ && _); exact E. }
  destruct (Hp ltac:(done)) as (Hcn & Hot & Hack & Hdue); specialize (Hlt Hcn Hot ltac:(done)).
  destruct (Hw Hcn Hot) as [Hdl _]; rewrite Ea in *; split_and!; try done; lia.
Qed.

(** Connected at 0, probed at 10, acknowledged at 700, polled at 5000. *)
Definition probe_trace : list (health_op * Z) :=
  [(H_connected, 0); (H_begin, 10); (H_admitted (Token 1 1), 20); (H_ack (Token 1 1), 700)].

Lemma health_proof_recent_witness :
  let h0 := (mqtt_health_init 0 (Some mqtt_health_default_config)).1 in
  let sn := (mqtt_health_poll (health_run h0 probe_trace).1 5000).2 in
  sn_connected sn = true /\ sn_ota_active sn = false /\ 0 <= 5000 - sn_last_ack_ms sn < 180000.
Proof.
  assert (Hl : times_ok probe_trace) by (repeat constructor; cbn; lia).
  pose proof (health_proof_recent mqtt_health_default_config 0
    (mqtt_health_init 0 (Some mqtt_health_default_config)).1 probe_trace 5000
    ltac:(lia) ltac:(cbn; lia) ltac:(cbn; lia) ltac:(cbn; lia) eq_refl Hl ltac:(lia)) as H.
  vm_compute in H |- *; exact (H eq_refl).
Defined.

(** An unacknowledged uplink is reported.  From a connection at [t1], as long
    as it stays up without OTA and no acknowledgement is accepted, every poll at
    least one deadline later is degraded and shows no fresh proof; no sequence
    of begun, admitted or failed probes hides it. *)
Theorem health_silence_degrades h t1 l now :
  health_inv h -> is_u64 t1 -> ota_active h = false ->
  let h1 := mqtt_health_on_connected h t1 in
  times_ok l -> forallb quiet l = true -> forallb negb (health_run h1 l).2 = true ->
  is_u64 now -> now_ms h1 + cf_probe_deadline_ms (config h) <= now ->
  let sn := (mqtt_health_poll (health_run h1 l).1 now).2 in
  sn_degraded sn = true /\ sn_proof_fresh sn = false.
Proof.
  intros Hi Ht Hot h1 Hl Hq Hb Hn Hnow.
  pose proof (health_step_inv h (H_connected, t1) Ht Hi) as Hi1; cbn [health_step fst] in Hi1.
  fold h1 in Hi1; set (limit := now_ms h1 + cf_probe_deadline_ms (config h)).
  assert (Hw : waiting limit h1).
  { destruct (observe_time_fields h t1) as [_ [= E1 _ _ _ _ _ E7 _ _]].
    destruct Hi1 as (Hc & _ & _ & Hwin & _); split_and!; try done.
    - unfold h1, mqtt_health_on_connected; destruct (negb _); cbn; congruence.
    - right; destruct Hwin as [-> _]; [done| |].
      + unfold h1, mqtt_health_on_connected; destruct (negb _); cbn; congruence.
      + unfold limit; replace (config h1) with (config h).
        * replace (next_probe_due_ms h1) with (now_ms h1); [lia|].
          unfold h1, mqtt_health_on_connected; destruct (negb _); done.
        * unfold h1, mqtt_health_on_connected; destruct (negb _); cbn; congruence. }
  pose proof (waiting_run limit h1 l Hq Hb Hw) as Hwr; set (hr := (health_run h1 l).1) in *.
  pose proof (waiting_advance limit hr now Hwr) as (Hc & Ho & Hv & Hfd).
  unfold mqtt_health_poll; cbn [snd sn_degraded sn_proof_fresh].
  rewrite Hv, andb_false_r; split; [|done]; apply negb_true_iff, bool_decide_eq_false.
  destruct Hfd as [|Hdl]; [done|]; pose proof (health_run_inv h1 l Hl Hi1) as Hir; fold hr in Hir.
  unfold advance in *; destruct (observe_time_fields hr now) as [Hm Hf].
  injection Hf as E1 E2 E3 E4 E5 E6 E7 E8 E9.
  destruct (_ && _) eqn:E in |- *; [destruct (probe_admitted _); done|].
  rewrite E in Hc, Ho, Hdl; rewrite Hc, Ho in E; cbn in E; to_prop; lia.
Qed.

Lemma health_silence_degrades_witness :
  let h0 := (mqtt_health_init 0 (Some mqtt_health_default_config)).1 in
  let sn := (mqtt_health_poll (health_run (mqtt_health_on_connected h0 100)
               [(H_begin, 200); (H_admitted (Token 1 1), 300)]).1 60100).2 in
  sn_degraded sn = true /\ sn_proof_fresh sn = false.
Proof.
  assert (Hi : health_inv (mqtt_health_init 0 (Some mqtt_health_default_config)).1).
  { apply (health_init_inv 0 mqtt_health_default_config); cbn; lia || reflexivity. }
  assert (Hl : times_ok [(H_begin, 200); (H_admitted (Token 1 1), 300)])
    by (repeat constructor; cbn; lia).
  pose proof (health_silence_degrades (mqtt_health_init 0 (Some mqtt_health_default_config)).1 100
    [(H_begin, 200); (H_admitted (Token 1 1), 300)] 60100 Hi ltac:(lia) eq_refl Hl eq_refl
    eq_refl ltac:(lia)) as H.
  vm_compute in H |- *; apply H; discriminate.
Defined.
