(* ===== verification/CmdAuth.v ===== *)
(** * Downlink command authentication (firmware-ESP32-LTE-M/main/cmdauth.c)

    Every command from the backend arrives in a signed WAE1 envelope with an
    epoch, a counter and an expiry.  [auth] holds the module's statics and the
    two values it keeps in flash.  Hashing (PSA) and signature verification
    (micro-ecc) are the parameter [Crypto]; every flash call may fail, which the
    flag [write_ok] of a command and the record [boot_io] of a boot tell. *)

From stdpp Require Import sorting.
From S2P Require Import Prelude.

(** ** Parameters *)

(** [psa_sha256] is [None] when [psa_crypto_init] or [psa_hash_compute] fails or
    returns another length than 32. *)
Class Crypto := {
  psa_sha256 : list Z -> option (list Z);
  uECC_verify : list Z -> list Z -> list Z -> bool
}.

(** ** State *)

(* src: firmware-ESP32-LTE-M/main/cmdauth.c:26-29 ENV *)
Definition ENV_MAGIC : list Z := [87; 65; 69; 49].
Definition ENV_HEAD_LEN : nat := 26.
Definition ENV_SIG_LEN : nat := 64.
Definition PUBKEY_XY_LEN : nat := 64.

(** The provisioned, read-only partition: what each call returns. *)
(* src: firmware-ESP32-LTE-M/main/cmdauth.c:14-19 prov *)
Record prov := Prov {
  pv_init_ok : bool; pv_open_ok : bool; pv_op_pub : option (list Z); pv_epoch : option Z
}.

(* src: firmware-ESP32-LTE-M/main/cmdauth.c:21-24 w3wsec *)
Record nvs := Nvs { nv_cur_epoch : option Z; nv_last_ctr : option Z }.

(* src: firmware-ESP32-LTE-M/main/cmdauth.c:31-34 statics *)
Record auth := Auth {
  s_ready : bool; s_op_pub : list Z; s_cur_epoch : Z; s_last_ctr : Z; a_nvs : nvs
}.

#[export] Instance eta_nvs : Eta nvs := fun n => Nvs (nv_cur_epoch n) (nv_last_ctr n).
#[export] Instance eta_auth : Eta auth := fun a =>
  Auth (s_ready a) (s_op_pub a) (s_cur_epoch a) (s_last_ctr a) (a_nvs a).

(** ** Operations *)

(* src: firmware-ESP32-LTE-M/main/cmdauth.c:36-40 rd_u32le *)
Definition rd_u32le (buf : list Z) (o : nat) : Z :=
  Z.lor (Z.lor (Z.lor (byte_at buf o) (Z.shiftl (byte_at buf (o + 1)) 8))
           (Z.shiftl (byte_at buf (o + 2)) 16)) (u32 (Z.shiftl (byte_at buf (o + 3)) 24)).

(* src: firmware-ESP32-LTE-M/main/cmdauth.c:42-47 rd_u64le *)
Definition rd_u64le (buf : list Z) (o : nat) : Z :=
  fold_left (fun v i => Z.lor (u64 (Z.shiftl v 8)) (byte_at buf (o + i))) [7; 6; 5; 4; 3; 2; 1; 0]%nat 0.

Definition erased_ram (n : nvs) : auth := Auth false (replicate PUBKEY_XY_LEN 0) 0 0 n.

(** A failed write leaves the stored value. *)
Definition nv_write {T} (write_ok : bool) (old : option T) (v : T) : option T :=
  if write_ok then Some v else old.

(** What the flash calls of one [cmdauth_init] return: the open, the two reads
    and the two writes, each of which may fail. *)
Record boot_io := BootIo {
  bo_open : bool; bo_epoch_read : bool; bo_ctr_read : bool; bo_epoch_write : bool; bo_ctr_write : bool
}.
Definition flash_works : boot_io := BootIo true true true true true.

(** A read yields the stored value unless the call fails. *)
Definition nv_read {T} (read_ok : bool) (stored : option T) : option T :=
  if read_ok then stored else None.

(** The freshness state is read, or seeded: at the first boot, and also over a
    stored value when its read fails, since the code looks only for [ESP_OK]. *)
(* src: firmware-ESP32-LTE-M/main/cmdauth.c:96-107 cmdauth_init *)
Definition load_state (io : boot_io) (prov_epoch : Z) (a : auth) : auth :=
  let n := a_nvs a in
  let a := match nv_read (bo_epoch_read io) (nv_cur_epoch n) with
           | Some e => a <| s_cur_epoch := e |>
           | None => a <| s_cur_epoch := prov_epoch |>
                       <| a_nvs := n <| nv_cur_epoch :=
                            nv_write (bo_epoch_write io) (nv_cur_epoch n) prov_epoch |> |>
           end in
  let n := a_nvs a in
  match nv_read (bo_ctr_read io) (nv_last_ctr n) with
  | Some c => a <| s_last_ctr := c |>
  | None => a <| s_last_ctr := 0 |>
              <| a_nvs := n <| nv_last_ctr := nv_write (bo_ctr_write io) (nv_last_ctr n) 0 |> |>
  end <| s_ready := true |>.

(** A blob longer than the buffer is an error of [nvs_get_blob] itself. *)
(* src: firmware-ESP32-LTE-M/main/cmdauth.c:49-111 cmdauth_init *)
Definition cmdauth_init (p : prov) (io : boot_io) (a : auth) : auth * bool :=
  if negb (pv_init_ok p) then (a, false)
  else if negb (pv_open_ok p) then (a, false)
  else match pv_op_pub p with
  | None => (a, false)
  | Some op_pub =>
      if negb (length op_pub =? 65)%nat || negb (byte_at op_pub 0 =? 4) then (a, false) else
      let a := a <| s_op_pub := drop 1 op_pub |> in
      match pv_epoch p with
      | None => (a, false)
      | Some prov_epoch =>
          if negb (bo_open io) then (a, false) else (load_state io prov_epoch a, true)
      end
  end.

(* src: firmware-ESP32-LTE-M/main/cmdauth.c:113-121 persist_last_ctr *)
Definition persist_last_ctr (write_ok : bool) (ctr : Z) (a : auth) : auth :=
  a <| a_nvs := (a_nvs a) <| nv_last_ctr := nv_write write_ok (nv_last_ctr (a_nvs a)) ctr |> |>.

Section Check.
Context `{C : Crypto}.

(** The signed part is everything before the signature. *)
(* src: firmware-ESP32-LTE-M/main/cmdauth.c:157-173 cmdauth_check_and_strip *)
Definition signature_ok (a : auth) (buf : list Z) (flen : nat) : bool :=
  match psa_sha256 (take (ENV_HEAD_LEN + flen) buf) with
  | None => false
  | Some digest => uECC_verify (s_op_pub a) digest (take ENV_SIG_LEN (drop (ENV_HEAD_LEN + flen) buf))
  end.

(** The expiry counts only with a plausible wall clock. *)
(* src: firmware-ESP32-LTE-M/main/cmdauth.c:184-191 cmdauth_check_and_strip *)
Definition expired (now expiry : Z) : bool :=
  negb (expiry =? 0) && (1700000000 <? now) && (expiry <? u64 now).

(* src: firmware-ESP32-LTE-M/main/cmdauth.c:123-203 cmdauth_check_and_strip *)
Definition cmdauth_check_and_strip (a : auth) (buf : list Z) (now : Z) (write_ok : bool)
    : auth * option (list Z) :=
  if negb (s_ready a) then (a, None)
  else if (length buf <? ENV_HEAD_LEN + ENV_SIG_LEN)%nat then (a, None)
  else if negb (bool_decide (take 4 buf = ENV_MAGIC)) then (a, None)
  else
    let epoch := rd_u32le buf 4 in
    let counter := rd_u64le buf 8 in
    let expiry := rd_u64le buf 16 in
    let flen := Z.to_nat (Z.lor (byte_at buf 24) (u16 (Z.shiftl (byte_at buf 25) 8))) in
    if negb (ENV_HEAD_LEN + flen + ENV_SIG_LEN =? length buf)%nat then (a, None)
    else if negb (epoch =? s_cur_epoch a) then (a, None)
    else if negb (signature_ok a buf flen) then (a, None)
    else if counter <=? s_last_ctr a then (a, None)
    else if expired now expiry then (a, None)
    else (persist_last_ctr write_ok counter (a <| s_last_ctr := counter |>),
          Some (take flen (drop ENV_HEAD_LEN buf))).

(** ** The envelope *)

Record envelope := Envelope {
  env_epoch : Z; env_counter : Z; env_expiry : Z; env_frame : list Z; env_sig : list Z
}.
Definition envelope_head (e : envelope) : list Z :=
  ENV_MAGIC ++ le32 (env_epoch e) ++ le_bytes 8 (env_counter e) ++ le_bytes 8 (env_expiry e) ++
  le16 (Z.of_nat (length (env_frame e))).
Definition envelope_signed (e : envelope) : list Z := envelope_head e ++ env_frame e.
Definition envelope_bytes (e : envelope) : list Z := envelope_signed e ++ env_sig e.
Definition envelope_wf (e : envelope) : Prop :=
  is_u32 (env_epoch e) /\ is_u64 (env_counter e) /\ is_u64 (env_expiry e) /\
  Z.of_nat (length (env_frame e)) < 65536 /\ length (env_sig e) = ENV_SIG_LEN.

(** What makes an envelope acceptable. *)
Definition acceptable (a : auth) (now : Z) (e : envelope) : Prop :=
  s_ready a = true /\ env_epoch e = s_cur_epoch a /\ s_last_ctr a < env_counter e /\
  expired now (env_expiry e) = false /\
  exists digest, psa_sha256 (envelope_signed e) = Some digest /\
    uECC_verify (s_op_pub a) digest (env_sig e) = true.
End Check.

(** ** Sequences of commands and boots

    A boot clears the statics and runs [cmdauth_init]; the flash survives it. *)
Inductive auth_op :=
  | Command (buf : list Z) (now : Z) (write_ok : bool)
  | Boot (p : prov) (io : boot_io).

Section Runs.
Context `{C : Crypto}.

(** The output is the counter of an accepted envelope. *)
Definition auth_step (a : auth) (o : auth_op) : auth * option Z :=
  match o with
  | Command buf now wok =>
      let '(a, r) := cmdauth_check_and_strip a buf now wok in
      (a, match r with Some _ => Some (rd_u64le buf 8) | None => None end)
  | Boot p io => ((cmdauth_init p io (erased_ram (a_nvs a))).1, None)
  end.

(** The flash calls on the stored counter succeed; those on the epoch may fail. *)
Definition counter_kept (o : auth_op) : bool :=
  match o with Command _ _ w => w | Boot _ io => bo_ctr_read io && bo_ctr_write io end.

Definition accepted (ops : list auth_op) (n : nvs) : list Z :=
  omap id (run auth_step (erased_ram n) ops).2.

(** *** Reading integers *)

Lemma rd_u32le_val b0 b1 b2 b3 l :
  is_u8 b0 -> is_u8 b1 -> is_u8 b2 -> is_u8 b3 ->
  rd_u32le (b0 :: b1 :: b2 :: b3 :: l) 0 = le_val [b0; b1; b2; b3].
Proof.
  intros; unfold rd_u32le, byte_at; cbn [nth Nat.add].
  rewrite (u32_small (Z.shiftl b3 24)) by (rewrite Z.shiftl_mul_pow2; lia).
  rewrite (lor_shiftl b0), (lor_shiftl _ b2), (lor_shiftl _ b3) by lia; cbn [le_val]; lia.
Qed.

Lemma horner_le_val l :
  all_u8 l -> (length l <= 8)%nat ->
  fold_right (fun b v => Z.lor (u64 (Z.shiftl v 8)) b) 0 l = le_val l.
Proof.
  induction 1 as [|b l Hb Hl IH]; cbn [fold_right le_val length]; [done|]; intros Hn.
  rewrite IH by lia; pose proof (le_val_range l Hl).
  assert (256 ^ Z.of_nat (length l) <= 256 ^ 7) by (apply Z.pow_le_mono_r; lia).
  rewrite u64_small by (rewrite Z.shiftl_mul_pow2; lia).
  rewrite Z.lor_comm, lor_shiftl; lia.
Qed.

Lemma rd_u64le_val l l' : all_u8 l -> length l = 8%nat -> rd_u64le (l ++ l') 0 = le_val l.
Proof.
  intros Hl Hn; rewrite <- horner_le_val by (done || lia).
  do 9 (destruct l as [|? l]; [try done|]); done.
Qed.

Lemma rd_u32le_drop buf o : rd_u32le buf o = rd_u32le (drop o buf) 0.
Proof. unfold rd_u32le; rewrite !byte_at_drop, !Nat.add_0_l, Nat.add_0_r; done. Qed.
Lemma rd_u64le_drop buf o : rd_u64le buf o = rd_u64le (drop o buf) 0.
Proof.
  unfold rd_u64le; cbn [fold_left]; rewrite !byte_at_drop, !Nat.add_0_l; done.
Qed.

(** *** Parsing and printing envelopes *)

Lemma length_envelope_head e : length (envelope_head e) = ENV_HEAD_LEN.
Proof. reflexivity. Qed.

(** The fields the code reads from a printed envelope. *)
Lemma envelope_fields e l :
  envelope_wf e ->
  let buf := envelope_head e ++ l in
  rd_u32le buf 4 = env_epoch e /\ rd_u64le buf 8 = env_counter e /\ rd_u64le buf 16 = env_expiry e /\
  Z.to_nat (Z.lor (byte_at buf 24) (u16 (Z.shiftl (byte_at buf 25) 8))) = length (env_frame e).
Proof.
  intros (He & Hc & Hx & Hf & _) buf; split_and!.
  - rewrite rd_u32le_drop; unfold buf, envelope_head, ENV_MAGIC; cbn [drop app le_bytes].
    rewrite rd_u32le_val by apply u8_range.
    change (le_val (le32 (env_epoch e)) = env_epoch e); apply le32_val; done.
  - rewrite rd_u64le_drop.
    change (drop 8 buf) with (le_bytes 8 (env_counter e) ++ drop 16 buf).
    rewrite rd_u64le_val by (apply le_bytes_u8 || reflexivity).
    rewrite le_val_le_bytes; apply Z.mod_small; done.
  - rewrite rd_u64le_drop.
    change (drop 16 buf) with (le_bytes 8 (env_expiry e) ++ drop 24 buf).
    rewrite rd_u64le_val by (apply le_bytes_u8 || reflexivity).
    rewrite le_val_le_bytes; apply Z.mod_small; done.
  - set (n := Z.of_nat (length (env_frame e))) in *.
    change (byte_at buf 24) with (u8 n); change (byte_at buf 25) with (u8 (n / 256)).
    pose proof (u8_range (n / 256)); rewrite u16_small by (rewrite Z.shiftl_mul_pow2; lia).
    rewrite lor_shiftl by (pose proof (u8_range n); lia).
    change (u8 n + u8 (n / 256) * 2 ^ 8) with (u8 n + u8 (n / 256) * 256).
    pose proof (le16_val n ltac:(lia)) as Hv; cbn [le_bytes le_val] in Hv.
    apply Nat2Z.inj; rewrite Z2Nat.id; lia.
Qed.

(** The envelope a buffer of sufficient length spells. *)
Definition parse (buf : list Z) : envelope :=
  let flen := Z.to_nat (Z.lor (byte_at buf 24) (u16 (Z.shiftl (byte_at buf 25) 8))) in
  Envelope (rd_u32le buf 4) (rd_u64le buf 8) (rd_u64le buf 16)
    (take flen (drop ENV_HEAD_LEN buf)) (drop (ENV_HEAD_LEN + flen) buf).

Lemma split_head buf :
  (ENV_HEAD_LEN <= length buf)%nat ->
  buf = take 4 buf ++ field 4 4 buf ++ field 8 8 buf ++ field 16 8 buf ++ field 24 2 buf ++
        drop ENV_HEAD_LEN buf.
Proof.
  unfold ENV_HEAD_LEN; intros; do 26 (destruct buf as [|? buf]; [cbn in *; lia|]); done.
Qed.

Lemma parse_envelope buf :
  let e := parse buf in
  all_u8 buf -> take 4 buf = ENV_MAGIC ->
  (ENV_HEAD_LEN + length (env_frame e) + ENV_SIG_LEN)%nat = length buf ->
  Z.to_nat (Z.lor (byte_at buf 24) (u16 (Z.shiftl (byte_at buf 25) 8))) = length (env_frame e) ->
  envelope_bytes e = buf /\ envelope_wf e.
Proof.
  intros e Hu Hm Hlen Hfl.
  assert (Hge : (ENV_HEAD_LEN <= length buf)%nat) by lia; pose proof (split_head buf Hge) as Hsp.
  pose proof (all_u8_byte_at _ Hu) as Hb.
  assert (Hf : forall o n, all_u8 (field o n buf)).
  { intros; apply Forall_take, Forall_drop, Hu. }
  assert (Hfn : forall o n, (o + n <= ENV_HEAD_LEN)%nat -> length (field o n buf) = n).
  { intros o n Ho; unfold field; rewrite length_take, length_drop; lia. }
  assert (He : env_epoch e = le_val (field 4 4 buf)).
  { clear - Hu Hge; unfold e, parse; cbn [env_epoch]; rewrite rd_u32le_drop; unfold field.
    do 8 (destruct buf as [|? buf]; [unfold ENV_HEAD_LEN in Hge; cbn in Hge; lia|]).
    unfold all_u8 in Hu; repeat match goal with H : Forall _ (_ :: _) |- _ => inversion_clear H end.
    cbn [drop take]; rewrite take_0; apply rd_u32le_val; done. }
  assert (H64 : forall o, (o + 8 <= ENV_HEAD_LEN)%nat -> rd_u64le buf o = le_val (field o 8 buf)).
  { intros o Ho; rewrite rd_u64le_drop, <- (take_drop 8 (drop o buf)).
    apply rd_u64le_val; [apply Hf|apply Hfn, Ho]. }
  assert (Hn : le16 (Z.of_nat (length (env_frame e))) = field 24 2 buf).
  { rewrite <- Hfl; pose proof (Hb 24%nat); pose proof (Hb 25%nat).
    rewrite u16_small by (rewrite Z.shiftl_mul_pow2; lia); rewrite lor_shiftl by lia.
    change (2 ^ 8) with 256; rewrite Z2Nat.id, Z.mul_comm, le16_split by lia.
    clear - Hge; unfold field, byte_at.
    do 26 (destruct buf as [|? buf]; [unfold ENV_HEAD_LEN in Hge; cbn in Hge; lia|]); done. }
  assert (Hfr : env_frame e ++ env_sig e = drop ENV_HEAD_LEN buf).
  { unfold e, parse; cbn [env_frame env_sig]; rewrite <- drop_drop; apply take_drop. }
  assert (Hle : forall o n, (o + n <= ENV_HEAD_LEN)%nat ->
                le_bytes n (le_val (field o n buf)) = field o n buf).
  { intros o n Ho; rewrite <- (Hfn o n Ho) at 1; apply le_bytes_le_val, Hf. }
  split.
  - unfold envelope_bytes, envelope_signed, envelope_head.
    rewrite He, Hn; change (env_counter e) with (rd_u64le buf 8).
    change (env_expiry e) with (rd_u64le buf 16).
    rewrite !H64, !Hle, <- Hm, <- !app_assoc, Hfr by (unfold ENV_HEAD_LEN; lia); symmetry; exact Hsp.
  - pose proof (le_val_range _ (Hf 4%nat 4%nat)); pose proof (le_val_range _ (Hf 8%nat 8%nat)).
    pose proof (le_val_range _ (Hf 16%nat 8%nat)); pose proof (le_val_range _ (Hf 24%nat 2%nat)).
    rewrite !Hfn in * by (unfold ENV_HEAD_LEN; lia).
    unfold envelope_wf; rewrite He; change (env_counter e) with (rd_u64le buf 8).
    change (env_expiry e) with (rd_u64le buf 16); rewrite !H64 by (unfold ENV_HEAD_LEN; lia).
    split_and!; try (cbn in *; lia).
    + rewrite <- Hfl; pose proof (Hb 24%nat); pose proof (Hb 25%nat).
      rewrite u16_small by (rewrite Z.shiftl_mul_pow2; lia); rewrite lor_shiftl by lia; lia.
    + assert (Hl2 : length (env_frame e ++ env_sig e) = length (drop ENV_HEAD_LEN buf))
        by (rewrite Hfr; done).
      rewrite length_app, length_drop in Hl2; lia.
Qed.
End Runs.

(** ** Properties *)

Section Theorems.
Context `{C : Crypto}.

Lemma check_inv a buf now wok a' frame :
  all_u8 buf -> cmdauth_check_and_strip a buf now wok = (a', Some frame) ->
  exists e, envelope_wf e /\ buf = envelope_bytes e /\ acceptable a now e /\ env_frame e = frame /\
    rd_u64le buf 8 = env_counter e /\
    a' = persist_last_ctr wok (env_counter e) (a <| s_last_ctr := env_counter e |>).
Proof.
  unfold cmdauth_check_and_strip; intros Hu H.
  destruct (s_ready a) eqn:Hr; cbn [negb] in H; [|done].
  destruct (Nat.ltb_spec (length buf) (ENV_HEAD_LEN + ENV_SIG_LEN)); [done|].
  destruct (bool_decide_reflect (take 4 buf = ENV_MAGIC)) as [Hm|]; cbn [negb] in H; [|done].
  destruct (negb (_ =? length buf)%nat) eqn:Hlen; [done|].
  destruct (negb (_ =? s_cur_epoch a)) eqn:He; [done|].
  destruct (negb (signature_ok _ _ _)) eqn:Hs; [done|].
  destruct (rd_u64le buf 8 <=? s_last_ctr a) eqn:Hc; [done|].
  destruct (expired _ _) eqn:Hx; [done|]; injection H as <- <-; to_prop.
  apply Nat.eqb_eq in Hlen; set (flen := Z.to_nat _) in *.
  assert (Hfl : length (env_frame (parse buf)) = flen).
  { unfold parse; cbn [env_frame]; fold flen; rewrite length_take, length_drop; lia. }
  destruct (parse_envelope buf Hu Hm ltac:(lia) (eq_sym Hfl)) as [Hp Hwf].
  assert (Hsig : psa_sha256 (envelope_signed (parse buf)) = psa_sha256 (take (ENV_HEAD_LEN + flen) buf)).
  { f_equal; rewrite <- Hp at 2; unfold envelope_bytes; rewrite take_app_length'; [done|].
    unfold envelope_signed; rewrite length_app, length_envelope_head, Hfl; done. }
  exists (parse buf); split_and!; try done.
  unfold acceptable; split_and!; try done; rewrite Hsig; unfold signature_ok in Hs.
  destruct (psa_sha256 (take _ buf)) as [d|]; [|done]; exists d; split; [done|].
  rewrite take_ge in Hs by (rewrite length_drop; lia); exact Hs.
Qed.

Lemma check_accepts a e now wok :
  envelope_wf e -> acceptable a now e ->
  cmdauth_check_and_strip a (envelope_bytes e) now wok =
  (persist_last_ctr wok (env_counter e) (a <| s_last_ctr := env_counter e |>), Some (env_frame e)).
Proof.
  intros Hwf (Hr & He & Hc & Hx & d & Hd & Hv); pose proof Hwf as (_ & _ & _ & Hf & Hsl).
  assert (Hb : envelope_bytes e = envelope_head e ++ env_frame e ++ env_sig e).
  { unfold envelope_bytes, envelope_signed; rewrite <- app_assoc; done. }
  destruct (envelope_fields e (env_frame e ++ env_sig e) Hwf) as (E1 & E2 & E3 & E4).
  rewrite <- Hb in E1, E2, E3, E4; unfold cmdauth_check_and_strip; rewrite Hr, E1, E2, E3, E4.
  assert (Hlen : length (envelope_bytes e) = (ENV_HEAD_LEN + length (env_frame e) + ENV_SIG_LEN)%nat).
  { rewrite Hb, !length_app, length_envelope_head, Hsl; lia. }
  replace (_ <? _)%nat with false by (symmetry; apply Nat.ltb_ge; lia).
  rewrite bool_decide_true by (rewrite Hb; reflexivity); cbn [negb].
  rewrite Hlen, Nat.eqb_refl, He, Z.eqb_refl, Hx; cbn [negb].
  replace (env_counter e <=? s_last_ctr a) with false by lia.
  assert (Hs : take (ENV_HEAD_LEN + length (env_frame e)) (envelope_bytes e) = envelope_signed e).
  { unfold envelope_bytes; apply take_app_length'.
    unfold envelope_signed; rewrite length_app, length_envelope_head; done. }
  assert (Hg : drop (ENV_HEAD_LEN + length (env_frame e)) (envelope_bytes e) = env_sig e).
  { unfold envelope_bytes; apply drop_app_length'.
    unfold envelope_signed; rewrite length_app, length_envelope_head; done. }
  unfold signature_ok; rewrite Hs, Hd, Hg, take_ge, Hv by lia; cbn [negb].
  do 2 f_equal; rewrite Hb, drop_app_length' by reflexivity; apply take_app_length'; done.
Qed.

(** What is accepted is exactly what was signed for this device.  A buffer
    passes if and only if it spells a WAE1 envelope of the current epoch, with a
    counter above every accepted one, not expired against a plausible clock, and
    a signature over all of it but the signature; the caller gets the inner
    frame, and a rejected buffer changes nothing. *)
Theorem cmdauth_accepts_iff a buf now wok frame :
  all_u8 buf ->
  let '(a', r) := cmdauth_check_and_strip a buf now wok in
  (r = Some frame <->
   exists e, envelope_wf e /\ buf = envelope_bytes e /\ acceptable a now e /\ env_frame e = frame) /\
  (r = None -> a' = a).
Proof.
  intros Hu; destruct (cmdauth_check_and_strip a buf now wok) as [a' r] eqn:E; split; [split|].
  - intros ->; destruct (check_inv _ _ _ _ _ _ Hu E) as (e & ? & ? & ? & ? & _); eauto.
  - intros (e & Hwf & -> & Ha & <-); rewrite (check_accepts _ _ _ _ Hwf Ha) in E; congruence.
  - intros ->; unfold cmdauth_check_and_strip in E; repeat case_match; congruence.
Qed.

(** The stored counter is the one in use, and bounds the accepted ones. *)
Lemma accepted_sorted ops a :
  forallb counter_kept ops = true ->
  Forall (fun o => match o with Command buf _ _ => all_u8 buf | _ => True end) ops ->
  (s_ready a = true -> nv_last_ctr (a_nvs a) = Some (s_last_ctr a)) ->
  let l := omap id (run auth_step a ops).2 in
  StronglySorted Z.lt l /\
  (forall c, nv_last_ctr (a_nvs a) = Some c -> Forall (fun x => c < x) l).
Proof.
  revert a; induction ops as [|o ops IH]; intros a Hw Hu Ha; cbn [run].
  { split; [constructor|intros; constructor]. }
  cbn in Hw; apply andb_prop in Hw as [Ho Hw]; inversion_clear Hu as [|? ? Hb Hu'].
  destruct o as [buf now wok|p io]; cbn [auth_step counter_kept] in *; subst.
  - destruct (cmdauth_check_and_strip a buf now true) as [a1 [frame|]] eqn:E.
    + destruct (check_inv _ _ _ _ _ _ Hb E) as (e & _ & _ & (Hr & _ & Hc & _) & _ & Hctr & ->).
      destruct (IH (persist_last_ctr true (env_counter e) (a <| s_last_ctr := env_counter e |>)) Hw Hu')
        as [Hs Hf]; [done|].
      specialize (Hf _ eq_refl); destruct (run auth_step _ ops) as [a2 os]; cbn in *; rewrite Hctr.
      split; [constructor; done|].
      intros c Hn; rewrite Ha in Hn by done; injection Hn as <-; constructor; [done|].
      eapply Forall_impl; [exact Hf|]; cbn; lia.
    + assert (a1 = a) as -> by (unfold cmdauth_check_and_strip in E; repeat case_match; congruence).
      specialize (IH a Hw Hu' Ha); destruct (run auth_step a ops) as [a2 os]; done.
  - apply andb_prop in Ho as [Hr1 Hw1].
    set (a1 := (cmdauth_init p io (erased_ram (a_nvs a))).1).
    assert (H1 : (s_ready a1 = true -> nv_last_ctr (a_nvs a1) = Some (s_last_ctr a1)) /\
                 (forall c, nv_last_ctr (a_nvs a) = Some c -> nv_last_ctr (a_nvs a1) = Some c)).
    { unfold a1, cmdauth_init; repeat case_match; try done; unfold load_state, nv_read.
      destruct (a_nvs a) as [[ep|] [c|]], (bo_epoch_read io); rewrite Hr1, ?Hw1; cbn;
        split; intros; congruence. }
    destruct H1 as [H1 H2]; specialize (IH a1 Hw Hu' H1); destruct (run auth_step a1 ops) as [a2 os].
    cbn in *; destruct IH as [Hs Hf]; split; [done|]; intros c Hn; apply Hf, H2, Hn.
Qed.

(** C4: no command is accepted twice.  Over any sequence of received buffers and
    reboots in which the flash calls on the stored counter succeed (every write
    of it, and its read at each reboot; what happens to the epoch is arbitrary),
    the counters of the accepted commands strictly increase, above the one stored
    at the start.  Without that condition the code does accept a command again:
    see [unpersisted_command_replays] for a failed write and
    [unread_counter_replays] for a failed read. *)
Theorem cmdauth_no_replay ops n :
  forallb counter_kept ops = true ->
  Forall (fun o => match o with Command buf _ _ => all_u8 buf | _ => True end) ops ->
  StronglySorted Z.lt (accepted ops n) /\
  (forall c, nv_last_ctr n = Some c -> Forall (fun x => c < x) (accepted ops n)).
Proof. intros Hw Hu; apply (accepted_sorted ops (erased_ram n)); done. Qed.

(** A failed counter write reopens the door.  The header promises that the
    counter has been persisted when a command is accepted; the code accepts all
    the same when the write fails, and after the next reboot the very same
    envelope is accepted again. *)
Theorem unpersisted_command_replays a e p now c :
  envelope_wf e -> acceptable a now e -> length (s_op_pub a) = PUBKEY_XY_LEN ->
  nv_cur_epoch (a_nvs a) = Some (s_cur_epoch a) -> nv_last_ctr (a_nvs a) = Some c -> c < env_counter e ->
  pv_init_ok p = true -> pv_open_ok p = true -> pv_op_pub p = Some (4 :: s_op_pub a) ->
  pv_epoch p <> None ->
  (run auth_step a [Command (envelope_bytes e) now false; Boot p flash_works;
                    Command (envelope_bytes e) now true]).2 =
  [Some (env_counter e); None; Some (env_counter e)].
Proof.
  intros Hwf Ha Hk Hep Hn Hc Hi Ho Hp Hpe.
  destruct (envelope_fields e (env_frame e ++ env_sig e) Hwf) as (_ & Hctr & _ & _).
  assert (Hb : envelope_bytes e = envelope_head e ++ env_frame e ++ env_sig e).
  { unfold envelope_bytes, envelope_signed; rewrite <- app_assoc; done. }
  rewrite <- Hb in Hctr; cbn [run auth_step]; rewrite (check_accepts a e now false Hwf Ha).
  set (a1 := (cmdauth_init p flash_works _).1).
  assert (Ha1 : a1 = Auth true (s_op_pub a) (s_cur_epoch a) c (a_nvs a)).
  { unfold a1, cmdauth_init; rewrite Hi, Ho, Hp; cbn [length byte_at nth negb Z.eqb].
    rewrite Hk; cbn [Nat.eqb PUBKEY_XY_LEN negb orb]; destruct (pv_epoch p); [|done].
    cbn [negb fst drop]; unfold load_state, nv_read, flash_works, erased_ram; cbn.
    rewrite Hep; cbn; rewrite Hn; cbn; destruct (a_nvs a) as [ep lc]; cbn in *; subst; done. }
  assert (Ha' : acceptable a1 now e).
  { rewrite Ha1; destruct Ha as (? & ? & ? & ? & ?); unfold acceptable; cbn; done. }
  rewrite (check_accepts a1 e now true Hwf Ha'), Hctr; done.
Qed.

(** So does a failed read of the counter at a reboot, which the code takes for a
    first boot: the counter restarts at 0, in flash too, and the command accepted
    and stored before is accepted again. *)
Theorem unread_counter_replays a e p now :
  envelope_wf e -> acceptable a now e -> length (s_op_pub a) = PUBKEY_XY_LEN ->
  nv_cur_epoch (a_nvs a) = Some (s_cur_epoch a) -> 0 < env_counter e ->
  pv_init_ok p = true -> pv_open_ok p = true -> pv_op_pub p = Some (4 :: s_op_pub a) ->
  pv_epoch p <> None ->
  (run auth_step a [Command (envelope_bytes e) now true; Boot p (BootIo true true false true true);
                    Command (envelope_bytes e) now true]).2 =
  [Some (env_counter e); None; Some (env_counter e)].
Proof.
  intros Hwf Ha Hk Hep Hc Hi Ho Hp Hpe.
  destruct (envelope_fields e (env_frame e ++ env_sig e) Hwf) as (_ & Hctr & _ & _).
  assert (Hb : envelope_bytes e = envelope_head e ++ env_frame e ++ env_sig e).
  { unfold envelope_bytes, envelope_signed; rewrite <- app_assoc; done. }
  rewrite <- Hb in Hctr; cbn [run auth_step]; rewrite (check_accepts a e now true Hwf Ha).
  set (a1 := (cmdauth_init p _ _).1).
  assert (Ha1 : a1 = Auth true (s_op_pub a) (s_cur_epoch a) 0 (Nvs (Some (s_cur_epoch a)) (Some 0))).
  { unfold a1, cmdauth_init; rewrite Hi, Ho, Hp; cbn [length byte_at nth negb Z.eqb].
    rewrite Hk; cbn [Nat.eqb PUBKEY_XY_LEN negb orb]; destruct (pv_epoch p); [|done].
    cbn [negb fst drop]; unfold load_state, nv_read, erased_ram; cbn; destruct (a_nvs a); cbn in *.
    rewrite Hep; done. }
  assert (Ha' : acceptable a1 now e).
  { rewrite Ha1; destruct Ha as (? & ? & ? & ? & ?); unfold acceptable; cbn; done. }
  rewrite (check_accepts a1 e now true Hwf Ha'), Hctr; done.
Qed.
End Theorems.

(** A concrete instance: the digest is a checksum, a signature its repetition. *)
Definition toy_digest (l : list Z) : list Z := replicate 32 (u8 (fold_right Z.add 0 l)).
Definition toy_crypto : Crypto := {|
  psa_sha256 := fun l => Some (toy_digest l);
  uECC_verify := fun _ d s => bool_decide (s = d ++ d)
|}.
Definition toy_envelope : envelope :=
  let d := toy_digest (envelope_signed (Envelope 3 9 0 [1; 2; 3] [])) in
  Envelope 3 9 0 [1; 2; 3] (d ++ d).
Definition toy_prov : prov := Prov true true (Some (4 :: replicate 64 7)) (Some 3).
Definition toy_auth : auth := Auth true (replicate 64 7) 3 5 (Nvs (Some 3) (Some 5)).

Lemma toy_wf : envelope_wf toy_envelope.
Proof. unfold envelope_wf; split_and!; (vm_compute; (reflexivity || discriminate)). Qed.
Lemma toy_acceptable : acceptable (C := toy_crypto) toy_auth 1800000000 toy_envelope.
Proof.
  unfold acceptable; split_and!; try reflexivity; eexists; split; [reflexivity|].
  vm_compute; reflexivity.
Qed.
Lemma toy_bytes : all_u8 (envelope_bytes toy_envelope).
Proof.
  apply (List.Forall_forall); intros x Hx.
  assert (H : forallb (fun z => (0 <=? z) && (z <? 256)) (envelope_bytes toy_envelope) = true)
    by (vm_compute; reflexivity).
  rewrite forallb_forall in H; specialize (H x Hx); to_prop; lia.
Qed.

Lemma cmdauth_accepts_iff_witness :
  (cmdauth_check_and_strip (C := toy_crypto) toy_auth (envelope_bytes toy_envelope) 1800000000 true).2 =
  Some [1; 2; 3].
Proof.
  pose proof (cmdauth_accepts_iff (C := toy_crypto) toy_auth (envelope_bytes toy_envelope) 1800000000
    true [1; 2; 3] toy_bytes) as H.
  destruct (cmdauth_check_and_strip _ _ _ _) as [a' r]; apply H.
  exists toy_envelope; split; [exact toy_wf|split; [reflexivity|split; [exact toy_acceptable|reflexivity]]].
Defined.

(** Accepted once; refused when repeated, before and after a reboot. *)
Lemma cmdauth_no_replay_witness :
  let ops := [Boot toy_prov flash_works; Command (envelope_bytes toy_envelope) 0 true;
              Command (envelope_bytes toy_envelope) 0 true; Boot toy_prov flash_works;
              Command (envelope_bytes toy_envelope) 0 true] in
  accepted (C := toy_crypto) ops (Nvs None None) = [9] /\
  StronglySorted Z.lt (accepted (C := toy_crypto) ops (Nvs None None)).
Proof.
  split; [vm_compute; reflexivity|].
  apply (cmdauth_no_replay (C := toy_crypto)
    [Boot toy_prov flash_works; Command (envelope_bytes toy_envelope) 0 true;
     Command (envelope_bytes toy_envelope) 0 true; Boot toy_prov flash_works;
     Command (envelope_bytes toy_envelope) 0 true] (Nvs None None) eq_refl).
  repeat (apply List.Forall_cons; [exact I || exact toy_bytes|]); apply List.Forall_nil.
Defined.

Lemma unpersisted_command_replays_witness :
  (run (auth_step (C := toy_crypto)) toy_auth
     [Command (envelope_bytes toy_envelope) 1800000000 false; Boot toy_prov flash_works;
      Command (envelope_bytes toy_envelope) 1800000000 true]).2 = [Some 9; None; Some 9].
Proof.
  apply (unpersisted_command_replays (C := toy_crypto) toy_auth toy_envelope toy_prov 1800000000 5);
    [exact toy_wf|exact toy_acceptable|reflexivity..|discriminate].
Defined.

Lemma unread_counter_replays_witness :
  (run (auth_step (C := toy_crypto)) toy_auth
     [Command (envelope_bytes toy_envelope) 1800000000 true;
      Boot toy_prov (BootIo true true false true true);
      Command (envelope_bytes toy_envelope) 1800000000 true]).2 = [Some 9; None; Some 9].
Proof.
  apply (unread_counter_replays (C := toy_crypto) toy_auth toy_envelope toy_prov 1800000000);
    [exact toy_wf|exact toy_acceptable|reflexivity..|discriminate].
Defined.
