(* ===== verification/EspDispatch.v ===== *)
(** * Frames at the ESP32: sending, decoding and dispatch
    (firmware-ESP32-LTE-M/main/wups_link.c, power_status_decode.h)

    [port] is the part of the module state that sending and dispatch use; every
    operation returns the new state and the actions it performs, in order.
    What the called modules answer is in [env]: they are other files of the
    firmware (identity, backend selection, Arkiv, OTA) or the MQTT client. *)

From S2P Require Import Prelude Protocol Deframer CmdAuth.

(** ** State and actions *)

(* src: firmware-ESP32-LTE-M/main/wups_link.c:102-117 module state (sender and trust prompt) *)
Record port := Port {
  s_tx_seq : Z;
  s_frames_tx : Z;
  s_bytes_tx : Z;
  s_trust_nonce : Z;
  s_trust_result : Z;
  s_trust_armed : bool;
  s_trust_sig : bool
}.

#[export] Instance eta_port : Eta port := fun p =>
  Port (s_tx_seq p) (s_frames_tx p) (s_bytes_tx p) (s_trust_nonce p) (s_trust_result p)
    (s_trust_armed p) (s_trust_sig p).

Definition port_init : port := Port 0 0 0 0 0 false false.

Inductive publish_kind := Pub_raw | Pub_critical | Pub_snapshot (key : Z).

(** Calls into other modules and the hardware. *)
Inductive act :=
  | Uart_write (bytes : list Z)
  | Uart_reinstall
  | Publish (kind : publish_kind) (topic payload : list Z) (qos retain : Z)
  | Tlm_observe (payload : list Z)
  | Http_observe (payload : list Z)
  | Event_observe (payload : list Z)
  | Ack_emit (seq : Z) (payload : list Z)
  | Xfer_req (op src seq : Z) (payload : list Z)
  | Xfer_resp (op seq : Z) (payload : list Z)
  | Ota_hello
  | Ota_downlink (frame : list Z)
  | Set_http_url (value : list Z)
  | Set_device_id (value : list Z)
  | Menu_result (nonce result : Z)
  | Menu_button (button action : Z)
  | Restart_in (ms : Z)
  | Restart_now.

(** The answers of the modules called. *)
Record env := Env {
  ev_time_us : Z;                        (* esp_timer_get_time *)
  ev_iccid : option (list Z);            (* identity_iccid *)
  ev_fw_version : list Z;                (* identity_fw_version *)
  ev_claimed : bool;                     (* cmdauth_arkiv_claim_state() == ARKIV_CLAIMED *)
  ev_http_mode : bool;                   (* backend_mode_get() == WUPS_BACKEND_MODE_HTTP *)
  ev_ack_pending : Z -> bool;            (* arkiv_ack_has_pending *)
  ev_ack_emitted : bool;                 (* result of arkiv_ack_emit *)
  ev_url_ok : list Z -> bool;            (* http_cfg_set_url == ESP_OK *)
  ev_device_id_ok : list Z -> bool;      (* http_cfg_set_device_id == ESP_OK *)
  ev_cmd_response : list Z;              (* mqtt_topic_cmd_response *)
  ev_ota_in_progress : bool;             (* fw_ota_in_progress *)
  ev_ota_takes : list Z -> bool;         (* fw_ota_try_handle_downlink: a frame it does not take leaves it alone *)
  ev_timer_ok : bool                     (* s_reset_timer exists or esp_timer_create == ESP_OK *)
}.

(** ** C strings *)

Definition s_telemetry : list Z := [116; 101; 108; 101; 109; 101; 116; 114; 121].
Definition s_event : list Z := [101; 118; 101; 110; 116].
Definition s_cmd_response : list Z := [99; 109; 100; 47; 114; 101; 115; 112; 111; 110; 115; 101].
Definition streq (a b : list Z) : bool := bool_decide (a = b).

(** ** Sending *)

(** The three [uart_write_bytes] of a frame happen under one mutex: one write. *)
(* src: firmware-ESP32-LTE-M/main/wups_link.c:193-232 send_frame_full *)
Definition send_frame_full (p : port) (dst src cls op flags seq : Z) (payload : list Z)
    : port * list act :=
  let payload_len := Z.of_nat (length payload) in
  if WUPS_MAX_PAYLOAD <? payload_len then (p, []) else
  let header := [WUPS_SYNC1; WUPS_SYNC2; dst; src; cls; op; flags; seq;
                 u8 (Z.land payload_len 255); u8 (Z.land (Z.shiftr payload_len 8) 255)] in
  let '(a, b) := fold_left fletcher_step payload (fold_left fletcher_step (drop 2 header) (0, 0)) in
  let trailer := [a; b; WUPS_END1; WUPS_END2; WUPS_GUARD_BYTE] in
  (p <| s_frames_tx := u32 (s_frames_tx p + 1) |>
     <| s_bytes_tx := u32 (s_bytes_tx p + (WUPS_HEADER_BYTES + payload_len + 5)) |>,
   [Uart_write (header ++ payload ++ trailer)]).

(* src: firmware-ESP32-LTE-M/main/wups_link.c:263-268 wups_link_send_seq *)
Definition wups_link_send_seq (p : port) (dst cls op flags seq : Z) (payload : list Z)
    : port * list act :=
  send_frame_full p dst WUPS_ADDR_ESP32 cls op flags seq payload.

(* src: firmware-ESP32-LTE-M/main/wups_link.c:270-278 wups_link_send *)
Definition wups_link_send (p : port) (dst cls op flags : Z) (payload : list Z) : port * list act :=
  let seq := s_tx_seq p in
  send_frame_full (p <| s_tx_seq := u8 (seq + 1) |>) dst WUPS_ADDR_ESP32 cls op flags seq payload.

(** The bytes written to [out]; none when it is too small. *)
(* src: firmware-ESP32-LTE-M/main/wups_link.c:280-310 wups_link_render_frame *)
Definition wups_link_render_frame (p : port) (cap : Z) (dst cls op flags : Z) (payload : list Z)
    : port * list Z :=
  let payload_len := Z.of_nat (length payload) in
  if WUPS_MAX_PAYLOAD <? payload_len then (p, [])
  else if cap <? u16 (WUPS_FRAMING_BYTES + payload_len) then (p, []) else
  let body := [dst; WUPS_ADDR_ESP32; cls; op; flags; s_tx_seq p;
               u8 (Z.land payload_len 255); u8 (Z.land (Z.shiftr payload_len 8) 255)] ++ payload in
  let '(a, b) := wups_fletcher8 body in
  (p <| s_tx_seq := u8 (s_tx_seq p + 1) |>,
   [WUPS_SYNC1; WUPS_SYNC2] ++ body ++ [a; b; WUPS_END1; WUPS_END2]).

(** ** The trust prompt *)

(** [text] is the C string, [None] the null pointer. *)
(* src: firmware-ESP32-LTE-M/main/wups_link.c:314-356 wups_link_trust_prompt *)
Definition wups_link_trust_prompt (p : port) (mode confirm_secs nonce : Z) (text : option (list Z))
    : port * list act :=
  let text := default [] text in
  let text := take (Z.to_nat (Z.min (Z.of_nat (length text)) (WUPS_MAX_PAYLOAD - 8))) text in
  let hdr := PromptHdr 1 mode confirm_secs (u8 (Z.of_nat (length text))) nonce in
  let p := if (0 <? confirm_secs) && negb (mode =? WUPS_TRUST_PROMPT_MODE_MENU)
           then p <| s_trust_nonce := nonce |> <| s_trust_result := 1 |> <| s_trust_armed := true |>
                  <| s_trust_sig := false |>
           else p in
  wups_link_send p WUPS_ADDR_RP2040 WUPS_CLASS_UI WUPS_OP_UI_TRUST_PROMPT WUPS_FLAG_REQ
    (prompt_hdr_bytes hdr ++ text).

(* src: firmware-ESP32-LTE-M/main/wups_link.c:358-368 wups_link_trust_wait *)
Inductive wait_result := Wait_invalid_state | Wait_timeout | Wait_ok (result : Z).

(** [p'] is the state when the wait ends, by the signal or by the timeout. *)
(* src: firmware-ESP32-LTE-M/main/wups_link.c:358-368 wups_link_trust_wait *)
Definition wups_link_trust_wait (p : port) (nonce : Z) (p' : port) : port * wait_result :=
  if negb (s_trust_armed p) || negb (s_trust_nonce p =? nonce) then (p, Wait_invalid_state)
  else if s_trust_sig p' then (p' <| s_trust_sig := false |>, Wait_ok (s_trust_result p'))
  else (p' <| s_trust_armed := false |>, Wait_timeout).

(** ** Recognising frames *)

(* src: firmware-ESP32-LTE-M/main/wups_link.c:374-385 mqtt_wups_frame_valid *)
Definition mqtt_wups_frame_valid (frame : list Z) : bool :=
  let len := Z.of_nat (length frame) in
  if (len <? WUPS_FRAMING_BYTES) || (WUPS_MAX_FRAME <? len) ||
     negb (byte_at frame 0 =? WUPS_SYNC1) || negb (byte_at frame 1 =? WUPS_SYNC2) ||
     negb (byte_at frame (length frame - 2) =? WUPS_END1) ||
     negb (byte_at frame (length frame - 1) =? WUPS_END2) then false else
  let payload_len := Z.lor (byte_at frame 8) (Z.shiftl (byte_at frame 9) 8) in
  if negb (payload_len + WUPS_FRAMING_BYTES =? len) then false else
  let '(a, b) := wups_fletcher8 (field 2 (Z.to_nat (8 + payload_len)) frame) in
  (a =? byte_at frame (Z.to_nat (WUPS_HEADER_BYTES + payload_len))) &&
  (b =? byte_at frame (Z.to_nat (WUPS_HEADER_BYTES + payload_len + 1))).

(* src: firmware-ESP32-LTE-M/main/wups_link.c:387-407 mqtt_wups_snapshot_key *)
Definition mqtt_wups_snapshot_key (frame : list Z) : Z :=
  let len := Z.of_nat (length frame) in
  if negb (mqtt_wups_frame_valid frame) || negb (byte_at frame 6 =? WUPS_FLAG_EVENT) ||
     (len =? WUPS_FRAMING_BYTES) then 0
  else if negb (byte_at frame 3 =? WUPS_ADDR_RPI) && negb (byte_at frame 3 =? WUPS_ADDR_RP2040) &&
          negb (byte_at frame 3 =? WUPS_ADDR_CH32X) && negb (byte_at frame 3 =? WUPS_ADDR_ESP32)
  then 0 else
  let payload_len := len - WUPS_FRAMING_BYTES in
  let version := byte_at frame 10 in
  let cls := byte_at frame 4 in
  let op := byte_at frame 5 in
  let known :=
    if (cls =? WUPS_CLASS_POWER) && (op =? WUPS_OP_PWR_STATUS) then
      ((version =? 1) && (payload_len =? 20)) || ((version =? 2) && (payload_len =? 40))
    else if (cls =? WUPS_CLASS_HOST) && (op =? WUPS_OP_HOST_STATUS) then
      (version =? 1) && (payload_len =? sizeof_host_status_v1)
    else if (cls =? WUPS_CLASS_NET) && (op =? WUPS_OP_NET_STATUS) then
      ((version =? 1) && (payload_len =? sizeof_net_status_v1)) ||
      ((version =? 2) && (payload_len =? sizeof_net_status_v2)) ||
      ((version =? 3) && (payload_len =? sizeof_net_status_v3))
    else false in
  if known then Z.lor (Z.lor (Z.shiftl (byte_at frame 3) 16) (Z.shiftl cls 8)) op else 0.

(* src: firmware-ESP32-LTE-M/main/wups_link.c:409-425 mqtt_wups_critical_event *)
Definition mqtt_wups_critical_event (frame : list Z) : bool :=
  let len := Z.of_nat (length frame) in
  if negb (mqtt_wups_frame_valid frame) || negb (byte_at frame 6 =? WUPS_FLAG_EVENT) ||
     (len <? WUPS_FRAMING_BYTES + 2) || negb (byte_at frame 10 =? 1) then false else
  let event := byte_at frame 11 in
  if (byte_at frame 4 =? WUPS_CLASS_POWER) && (byte_at frame 5 =? WUPS_OP_PWR_EVENT) &&
     (len =? WUPS_FRAMING_BYTES + 2) then
    (event =? WUPS_PWR_EVT_MAINS_LOST) || (event =? WUPS_PWR_EVT_MAINS_RESTORED) ||
    (event =? WUPS_PWR_EVT_CHARGE_LOW) || (event =? WUPS_PWR_EVT_FAULT)
  else if (byte_at frame 4 =? WUPS_CLASS_HOST) && (byte_at frame 5 =? WUPS_OP_HOST_EVENT) &&
          (len =? WUPS_FRAMING_BYTES + 2) then
    (event =? WUPS_HOST_EVT_SHUTDOWN_IMMINENT) || (event =? WUPS_HOST_EVT_LOW_DISK) ||
    (event =? WUPS_HOST_EVT_ETH_SYNCED) || (event =? WUPS_HOST_EVT_ETH_LOST)
  else false.

(** ** net.publish *)

(** The MQTT topic of a relative or absolute topic; [None] drops the request. *)
(* src: firmware-ESP32-LTE-M/main/wups_link.c:464-484 handle_net_publish *)
Definition publish_topic (e : env) (absolute : bool) (rel : list Z) : option (list Z) :=
  if absolute then if (64 <? length rel + 1)%nat then None else Some (cstr rel)
  else match ev_iccid e with
  | None => None
  | Some iccid =>
      if bool_decide (cstr iccid = []) then None else
      let topic := [116; 47] ++ cstr iccid ++ [47] ++ cstr rel in
      if (64 <=? length topic)%nat then None else Some topic
  end.

(* src: firmware-ESP32-LTE-M/main/wups_link.c:493-516 handle_net_publish *)
Definition publish_observers (e : env) (absolute : bool) (rel payload : list Z) : list act :=
  (if negb absolute && streq (cstr rel) s_telemetry && ev_claimed e then [Tlm_observe payload] else []) ++
  (if negb absolute && streq (cstr rel) s_telemetry && ev_http_mode e then [Http_observe payload] else []) ++
  (if negb absolute && streq (cstr rel) s_event && ev_claimed e then [Event_observe payload] else []).

(** The acknowledgement diverted to Arkiv: the actions, and whether it was. *)
(* src: firmware-ESP32-LTE-M/main/wups_link.c:528-551 handle_net_publish *)
Definition divert_ack (e : env) (absolute : bool) (rel payload : list Z) : list act * bool :=
  if negb absolute && streq (cstr rel) s_cmd_response && ev_claimed e &&
     (WUPS_HEADER_BYTES <=? Z.of_nat (length payload)) then
    let inner_seq := byte_at payload 7 in
    if ev_ack_pending e inner_seq then
      let inner_len := Z.lor (byte_at payload 8) (u16 (Z.shiftl (byte_at payload 9) 8)) in
      let inner_avail := Z.of_nat (length payload) - WUPS_HEADER_BYTES in
      let inner_len := if inner_avail <? inner_len then u16 inner_avail else inner_len in
      ([Ack_emit inner_seq (field 10 (Z.to_nat inner_len) payload)], ev_ack_emitted e)
    else ([], false)
  else ([], false).

(* src: firmware-ESP32-LTE-M/main/wups_link.c:553-567 handle_net_publish *)
Definition publish_class (absolute : bool) (rel payload : list Z) : publish_kind :=
  let key := if negb absolute && streq (cstr rel) s_telemetry
             then mqtt_wups_snapshot_key payload else 0 in
  let critical := negb absolute && (streq (cstr rel) s_cmd_response ||
                    (streq (cstr rel) s_event && mqtt_wups_critical_event payload)) in
  if negb (key =? 0) then Pub_snapshot key else if critical then Pub_critical else Pub_raw.

(* src: firmware-ESP32-LTE-M/main/wups_link.c:427-574 handle_net_publish *)
Definition handle_net_publish (e : env) (payload : list Z) : list act :=
  let len := Z.of_nat (length payload) in
  if len <? 6 then [] else
  let hdr := PublishHdr (byte_at payload 0) (byte_at payload 1) (byte_at payload 2)
               (byte_at payload 3) (le_val (field 4 2 payload)) in
  if negb (pub_version hdr =? 1) then []
  else if len <? 6 + pub_topic_len hdr + pub_payload_len hdr then []
  else if pub_topic_len hdr =? 0 then []
  else if 201 <=? pub_topic_len hdr then [] else
  let tl := Z.to_nat (pub_topic_len hdr) in
  let rel := field 6 tl payload in
  let mqtt_payload := field (6 + tl) (Z.to_nat (pub_payload_len hdr)) payload in
  let absolute := (2 <=? pub_topic_len hdr) &&
    (((byte_at rel 0 =? 116) || (byte_at rel 0 =? 99)) && (byte_at rel 1 =? 47)) in
  match publish_topic e absolute rel with
  | None => []
  | Some topic =>
      let '(acks, diverted) := divert_ack e absolute rel mqtt_payload in
      publish_observers e absolute rel mqtt_payload ++ acks ++
      (if diverted then []
       else [Publish (publish_class absolute rel mqtt_payload) topic mqtt_payload
               (pub_qos hdr) (pub_retain hdr)])
  end.

(** ** net.config *)

(* src: firmware-ESP32-LTE-M/main/wups_link.c:610-626 handle_net_config *)
Definition apply_config (e : env) (item : Z) (value : list Z) : list act * bool :=
  if item =? WUPS_NET_CONFIG_HTTP_URL then ([Set_http_url (cstr value)], ev_url_ok e (cstr value))
  else if item =? WUPS_NET_CONFIG_DEVICE_ID
  then ([Set_device_id (cstr value)], ev_device_id_ok e (cstr value))
  else ([], false).

(** The actions before the reply, and the reply's item and result. *)
(* src: firmware-ESP32-LTE-M/main/wups_link.c:584-626 handle_net_config (up to reply) *)
Definition config_outcome (e : env) (payload : list Z) : list act * Z * Z :=
  let len := Z.of_nat (length payload) in
  if len <? 4 then ([], 0, 1) else
  let hdr := ConfigHdr (byte_at payload 0) (byte_at payload 1) (byte_at payload 2) (byte_at payload 3) in
  if negb (cfg_version hdr =? 1) then ([], cfg_item hdr, 1)
  else if len <? 4 + cfg_value_len hdr then ([], cfg_item hdr, 1)
  else if 200 <? cfg_value_len hdr then ([], cfg_item hdr, 1) else
  let '(acts, ok) := apply_config e (cfg_item hdr) (field 4 (Z.to_nat (cfg_value_len hdr)) payload) in
  (acts, cfg_item hdr, if ok then 0 else 1).

(* src: firmware-ESP32-LTE-M/main/wups_link.c:581-631 handle_net_config *)
Definition handle_net_config (e : env) (p : port) (src seq : Z) (payload : list Z) : port * list act :=
  let '(acts, item, result) := config_outcome e payload in
  let '(p, sent) := wups_link_send_seq p src WUPS_CLASS_NET WUPS_OP_NET_CONFIG WUPS_FLAG_RESP seq
                      (config_result_bytes item result) in
  (p, acts ++ sent).

(** ** Dispatch of a delivered frame *)

(* src: firmware-ESP32-LTE-M/main/wups_link.c:640-667 on_local_frame *)
Definition on_system (e : env) (p : port) (f : frame) : port * list act :=
  if (f_op f =? WUPS_OP_SYS_PING) && has (f_flags f) WUPS_FLAG_REQ then
    let pong := Pong 1 0 7 (u32 (ev_time_us e / 1000)) in
    wups_link_send_seq p (f_src f) WUPS_CLASS_SYSTEM WUPS_OP_SYS_PING WUPS_FLAG_RESP (f_seq f)
      (pong_bytes pong ++ take 24 (cstr (ev_fw_version e)))
  else if (f_op f =? WUPS_OP_SYS_HELLO) && (f_src f =? WUPS_ADDR_RP2040) then (p, [Ota_hello])
  else (p, []).

(* src: firmware-ESP32-LTE-M/main/wups_link.c:668-694 on_local_frame *)
Definition on_net (e : env) (p : port) (f : frame) : port * list act :=
  let op := f_op f in
  if (op =? WUPS_OP_NET_PUBLISH) && has (f_flags f) WUPS_FLAG_REQ
  then (p, handle_net_publish e (f_payload f))
  else if (op =? WUPS_OP_NET_CONFIG) && has (f_flags f) WUPS_FLAG_REQ
  then handle_net_config e p (f_src f) (f_seq f) (f_payload f)
  else if (op =? WUPS_OP_NET_FW_XFER_BEGIN) || (op =? WUPS_OP_NET_FW_XFER_DATA) ||
          (op =? WUPS_OP_NET_FW_XFER_END) then
    (p, if has (f_flags f) WUPS_FLAG_REQ then [Xfer_req op (f_src f) (f_seq f) (f_payload f)]
        else if has (f_flags f) WUPS_FLAG_RESP then [Xfer_resp op (f_seq f) (f_payload f)] else [])
  else (p, []).

(* src: firmware-ESP32-LTE-M/main/wups_link.c:695-734 on_local_frame *)
Definition on_ui (p : port) (f : frame) : port * list act :=
  let len := Z.of_nat (length (f_payload f)) in
  let b := byte_at (f_payload f) in
  if (f_op f =? WUPS_OP_UI_TRUST_RESULT) && has (f_flags f) WUPS_FLAG_RESP && (8 <=? len) then
    if negb (b 0%nat =? 1) then (p, []) else
    let nonce := le_val (field 4 4 (f_payload f)) in
    if s_trust_armed p && (nonce =? s_trust_nonce p)
    then (p <| s_trust_result := b 1%nat |> <| s_trust_armed := false |> <| s_trust_sig := true |>, [])
    else (p, [Menu_result nonce (b 1%nat)])
  else if (f_op f =? WUPS_OP_UI_BUTTON_EVENT) && has (f_flags f) WUPS_FLAG_EVENT && (4 <=? len)
  then (p, if b 0%nat =? 1 then [Menu_button (b 1%nat) (b 2%nat)] else [])
  else (p, []).

(* src: firmware-ESP32-LTE-M/main/wups_link.c:633-738 on_local_frame *)
Definition on_local_frame (e : env) (p : port) (f : frame) : port * list act :=
  if f_cls f =? WUPS_CLASS_SYSTEM then on_system e p f
  else if f_cls f =? WUPS_CLASS_NET then on_net e p f
  else if f_cls f =? WUPS_CLASS_UI then on_ui p f
  else (p, []).

(** ** system.reset *)

(** The delay and the result code of a request. *)
(* src: firmware-ESP32-LTE-M/main/wups_link.c:1059-1079 try_handle_sys_reset *)
Definition reset_request (e : env) (frame : list Z) : Z * Z :=
  let plen := Z.lor (byte_at frame 8) (u16 (Z.shiftl (byte_at frame 9) 8)) in
  let '(delay_ms, result) :=
    if Z.of_nat (length frame) <? WUPS_FRAMING_BYTES + plen then (1500, WUPS_SYS_RESET_RESULT_BAD_REQ)
    else if 4 <=? plen then
      if negb (byte_at frame 10 =? 1) then (1500, WUPS_SYS_RESET_RESULT_BAD_REQ)
      else let d := le_val (field 12 2 frame) in
           if negb (d =? 0) then (Z.min (Z.max d 500) 10000, WUPS_SYS_RESET_RESULT_OK)
           else (1500, WUPS_SYS_RESET_RESULT_OK)
    else (1500, WUPS_SYS_RESET_RESULT_OK) in
  (delay_ms, if (result =? WUPS_SYS_RESET_RESULT_OK) && ev_ota_in_progress e
             then WUPS_SYS_RESET_RESULT_BUSY else result).

(* src: firmware-ESP32-LTE-M/main/wups_link.c:1083-1100 try_handle_sys_reset *)
Definition reset_response (src seq result : Z) : list Z :=
  let body := [src; WUPS_ADDR_ESP32; WUPS_CLASS_SYSTEM; WUPS_OP_SYS_RESET; WUPS_FLAG_RESP; seq;
               1; 0; result] in
  let '(a, b) := wups_fletcher8 body in
  [WUPS_SYNC1; WUPS_SYNC2] ++ body ++ [a; b; WUPS_END1; WUPS_END2].

(** The second component is the C result: the frame was consumed. *)
(* src: firmware-ESP32-LTE-M/main/wups_link.c:1040-1136 try_handle_sys_reset *)
Definition try_handle_sys_reset (e : env) (frame : list Z) : list act * bool :=
  if Z.of_nat (length frame) <? WUPS_FRAMING_BYTES then ([], false)
  else if negb (byte_at frame 0 =? WUPS_SYNC1) || negb (byte_at frame 1 =? WUPS_SYNC2) then ([], false)
  else if negb (byte_at frame 4 =? WUPS_CLASS_SYSTEM) || negb (byte_at frame 5 =? WUPS_OP_SYS_RESET)
  then ([], false)
  else if negb (byte_at frame 2 =? WUPS_ADDR_ESP32) && negb (byte_at frame 2 =? WUPS_ADDR_BROADCAST)
  then ([], false) else
  let src := byte_at frame 3 in
  let seq := byte_at frame 7 in
  if negb (has (byte_at frame 6) WUPS_FLAG_REQ) then ([], true) else
  let '(delay_ms, result) := reset_request e frame in
  let answer :=
    if ev_ack_pending e seq then [Ack_emit seq [result]]
    else match cstr (ev_cmd_response e) with
         | [] => []
         | topic => [Publish Pub_critical topic (reset_response src seq result) 1 0]
         end in
  if negb (result =? WUPS_SYS_RESET_RESULT_OK) then (answer, true)
  else (answer ++ (if ev_timer_ok e then [Restart_in delay_ms] else [Restart_now]), true).

(** ** MQTT downlink *)

Section Downlink.
Context `{C : Crypto}.

(** [topic] is the topic's bytes; the command authentication state is threaded. *)
(* src: firmware-ESP32-LTE-M/main/wups_link.c:1151-1212 on_mqtt_data *)
Definition on_mqtt_data (e : env) (write_ok : bool) (a : auth) (p : port)
    (topic payload : list Z) : auth * port * list act :=
  if (200 <? length topic)%nat then (a, p, []) else
  let '(a, r) := cmdauth_check_and_strip a payload (ev_time_us e / 1000000) write_ok in
  match r with
  | None => (a, p, [])
  | Some frame =>
      if ev_ota_takes e frame then (a, p, [Ota_downlink frame]) else
      let '(acts, consumed) := try_handle_sys_reset e frame in
      if consumed then (a, p, acts) else
      if WUPS_MAX_PAYLOAD <? 6 + Z.of_nat (length topic) + Z.of_nat (length frame) then (a, p, acts) else
      let hdr := PublishHdr 1 0 0 (u8 (Z.of_nat (length topic))) (u16 (Z.of_nat (length frame))) in
      let '(p, sent) := wups_link_send p WUPS_ADDR_RP2040 WUPS_CLASS_NET WUPS_OP_NET_DOWNLINK
                          WUPS_FLAG_EVENT (publish_hdr_bytes hdr ++ topic ++ frame) in
      (a, p, acts ++ sent)
  end.
End Downlink.

(* src: firmware-ESP32-LTE-M/main/wups_link.c:1216-1228 send_hello_bcast *)
Definition send_hello_bcast (p : port) : port * list act :=
  let h := Hello 1 WUPS_PROTO_VERSION WUPS_ADDR_ESP32 0 (Z.lor (Z.shiftl 1 8) 0)
             (Z.lor WUPS_CAP_SYSTEM WUPS_CAP_NET) 0 in
  wups_link_send p WUPS_ADDR_BROADCAST WUPS_CLASS_SYSTEM WUPS_OP_SYS_HELLO WUPS_FLAG_EVENT (hello_bytes h).

(** ** Recognised frames are protocol frames *)

Lemma byte_at_app_r (l1 l2 : list Z) i : byte_at (l1 ++ l2) (length l1 + i) = byte_at l2 i.
Proof. unfold byte_at; rewrite app_nth2_plus; done. Qed.

(** Ten header bytes, a payload and four trailer bytes. *)
Definition framed (h0 h1 d s c o fl sq lo hi : Z) (p : list Z) (ka kb e1 e2 : Z) : list Z :=
  [h0; h1; d; s; c; o; fl; sq; lo; hi] ++ p ++ [ka; kb; e1; e2].

Section Framed.
Context (h0 h1 d s c o fl sq lo hi : Z) (p : list Z) (ka kb e1 e2 : Z).
Local Abbreviation fr := (framed h0 h1 d s c o fl sq lo hi p ka kb e1 e2).

Lemma framed_length : length fr = (14 + length p)%nat.
Proof. unfold framed; rewrite !length_app; cbn; lia. Qed.

Lemma framed_trailer i : byte_at fr (10 + length p + i) = byte_at [ka; kb; e1; e2] i.
Proof.
  unfold framed; rewrite app_assoc.
  replace (10 + length p + i)%nat
    with (length ([h0; h1; d; s; c; o; fl; sq; lo; hi] ++ p) + i)%nat
    by (rewrite length_app; done).
  apply byte_at_app_r.
Qed.

Lemma framed_covered : field 2 (8 + length p) fr = [d; s; c; o; fl; sq; lo; hi] ++ p.
Proof.
  unfold field, framed; cbn [drop app].
  change (take (8 + length p) (([d; s; c; o; fl; sq; lo; hi] ++ p ++ [ka; kb; e1; e2])) =
          [d; s; c; o; fl; sq; lo; hi] ++ p).
  rewrite app_assoc, take_app_length'; [done|rewrite length_app; done].
Qed.

Lemma framed_valid :
  is_u8 lo -> is_u8 hi ->
  mqtt_wups_frame_valid fr = true <->
  h0 = WUPS_SYNC1 /\ h1 = WUPS_SYNC2 /\ e1 = WUPS_END1 /\ e2 = WUPS_END2 /\
  Z.of_nat (length p) = lo + 256 * hi /\ Z.of_nat (length p) <= WUPS_MAX_PAYLOAD /\
  (ka, kb) = wups_fletcher8 ([d; s; c; o; fl; sq; lo; hi] ++ p).
Proof.
  intros Hlo Hhi; unfold mqtt_wups_frame_valid.
  pose proof (framed_trailer 0) as T0; pose proof (framed_trailer 1) as T1.
  pose proof (framed_trailer 2) as T2; pose proof (framed_trailer 3) as T3.
  change (byte_at [ka; kb; e1; e2] 0) with ka in T0; change (byte_at [ka; kb; e1; e2] 1) with kb in T1.
  change (byte_at [ka; kb; e1; e2] 2) with e1 in T2; change (byte_at [ka; kb; e1; e2] 3) with e2 in T3.
  rewrite framed_length.
  replace (14 + length p - 2)%nat with (10 + length p + 2)%nat by lia.
  replace (14 + length p - 1)%nat with (10 + length p + 3)%nat by lia.
  rewrite T2, T3.
  change (byte_at fr 0) with h0; change (byte_at fr 1) with h1.
  change (byte_at fr 8) with lo; change (byte_at fr 9) with hi.
  rewrite lor_shiftl by lia; change (2 ^ 8) with 256.
  unfold WUPS_MAX_FRAME, WUPS_MAX_PAYLOAD, WUPS_FRAMING_BYTES, WUPS_HEADER_BYTES, WUPS_TRAILER_BYTES.
  assert (Hix : Z.of_nat (length p) = lo + 256 * hi ->
    Z.to_nat (8 + (lo + hi * 256)) = (8 + length p)%nat /\
    Z.to_nat (10 + 4 + (lo + hi * 256)) = (14 + length p)%nat /\
    Z.to_nat (10 + (lo + hi * 256)) = (10 + length p + 0)%nat /\
    Z.to_nat (10 + (lo + hi * 256) + 1) = (10 + length p + 1)%nat) by lia.
  split.
  - intros H; destruct (_ || _) eqn:E1 in H; [done|]; destruct (negb _) eqn:E2 in H; [done|].
    to_prop; assert (Hl : Z.of_nat (length p) = lo + 256 * hi) by lia.
    destruct (Hix Hl) as (I1 & _ & I3 & I4).
    rewrite I1, I3, I4, T0, T1, framed_covered in H; destruct (wups_fletcher8 _) as [a b]; to_prop.
    split_and!; (congruence || lia).
  - intros (E0 & E1 & E2 & E3 & Hl & Hm & Hck); destruct (Hix Hl) as (I1 & _ & I3 & I4).
    rewrite I1, I3, I4, T0, T1, framed_covered, <- Hck, E0, E1, E2, E3, !Z.eqb_refl; cbn [negb orb andb].
    destruct (Z.ltb_spec (Z.of_nat (14 + length p)) (10 + 4)), 
      (Z.ltb_spec (10 + 4 + 240) (Z.of_nat (14 + length p))); try lia; cbn [orb].
    replace (lo + hi * 256 + (10 + 4)) with (Z.of_nat (14 + length p)) by lia.
    rewrite Z.eqb_refl; done.
Qed.
End Framed.

Lemma frame_bytes_framed f :
  frame_bytes f = framed WUPS_SYNC1 WUPS_SYNC2 (f_dst f) (f_src f) (f_cls f) (f_op f) (f_flags f)
    (f_seq f) (u8 (frame_len f)) (u8 (frame_len f / 256)) (f_payload f)
    (wups_fletcher8 (frame_body f)).1 (wups_fletcher8 (frame_body f)).2 WUPS_END1 WUPS_END2.
Proof. unfold frame_bytes, framed, frame_body, frame_ids; rewrite <- !app_assoc; done. Qed.

(** Every list of at least fourteen bytes has that shape. *)
Lemma framed_split (l : list Z) :
  (14 <= length l)%nat ->
  exists h0 h1 d s c o fl sq lo hi p ka kb e1 e2,
    l = framed h0 h1 d s c o fl sq lo hi p ka kb e1 e2.
Proof.
  intros Hl; do 10 (destruct l as [|? l]; [cbn in Hl; lia|]); cbn in Hl.
  assert (Ht : length (drop (length l - 4) l) = 4%nat) by (rewrite length_drop; lia).
  pose proof (take_drop (length l - 4) l) as Hs.
  destruct (drop (length l - 4) l) as [|ka [|kb [|e1 [|e2 [|? ?]]]]]; try done.
  rewrite <- Hs; repeat eexists.
Qed.

Lemma frame_bytes_valid f :
  0 <= frame_len f <= WUPS_MAX_PAYLOAD -> mqtt_wups_frame_valid (frame_bytes f) = true.
Proof.
  unfold WUPS_MAX_PAYLOAD; intros Hf; rewrite frame_bytes_framed.
  apply framed_valid; eauto with ups; unfold WUPS_MAX_PAYLOAD.
  unfold frame_len in *; rewrite Z.div_small by lia; rewrite !u8_small by lia.
  split_and!; try done; try lia.
  rewrite <- surjective_pairing; unfold frame_body, frame_len; f_equal; cbn [frame_ids app le_bytes].
  rewrite Z.div_small, !u8_small by lia; done.
Qed.

Lemma frame_valid_bytes l :
  all_u8 l ->
  mqtt_wups_frame_valid l = true <-> exists f, frame_wf f /\ frame_bytes f = l.
Proof.
  intros Hl; split.
  - intros Hv; assert (14 <= length l)%nat as Hn.
    { unfold mqtt_wups_frame_valid in Hv; destruct (Z.ltb_spec (Z.of_nat (length l)) WUPS_FRAMING_BYTES);
        [done|unfold WUPS_FRAMING_BYTES, WUPS_HEADER_BYTES, WUPS_TRAILER_BYTES in *; lia]. }
    destruct (framed_split l Hn) as (h0&h1&d&s&c&o&fl&sq&lo&hi&p&ka&kb&e1&e2&->).
    unfold framed in Hl; apply all_u8_app in Hl as (Hh & Hp); apply all_u8_app in Hp as (Hp & _).
    unfold all_u8 in Hh; rewrite !Forall_cons in Hh; destruct Hh as (?&?&?&?&?&?&?&?&?&?&_).
    apply framed_valid in Hv as (-> & -> & -> & -> & Hlen & Hmax & Hck); [|done..].
    exists (Frame d s c o fl sq p); split.
    { split_and!; [unfold frame_ids; cbn; repeat apply Forall_cons_2; (done || constructor)|done|done]. }
    unfold frame_bytes, frame_body, frame_len; cbn [f_payload frame_ids f_dst f_src f_cls f_op f_flags f_seq].
    rewrite Hlen, le16_split by done.
    change (frame_ids _ ++ [lo; hi] ++ p) with ([d; s; c; o; fl; sq; lo; hi] ++ p).
    rewrite <- Hck; unfold framed; rewrite <- !app_assoc; done.
  - intros (f & (_ & _ & Hf) & <-); apply frame_bytes_valid; unfold frame_len in *; lia.
Qed.

(** The ESP32's recogniser of complete WUPS frames, which decides what may be
    coalesced or treated as critical, accepts a byte string exactly when it is
    the wire image of a frame the protocol allows. *)
Theorem frame_valid_iff l :
  all_u8 l ->
  mqtt_wups_frame_valid l = true <-> exists f, frame_wf f /\ frame_bytes f = l.
Proof. apply frame_valid_bytes. Qed.

Lemma frame_valid_iff_witness :
  all_u8 (frame_bytes ping_frame) /\ mqtt_wups_frame_valid (frame_bytes ping_frame) = true.
Proof.
  assert (all_u8 (frame_bytes ping_frame)) as H by (repeat constructor; vm_compute; done).
  split; [exact H|]; apply (frame_valid_iff _ H); exists ping_frame; split; [|reflexivity].
  split_and!; repeat constructor; vm_compute; done.
Defined.

(** ** Senders *)

Lemma send_frame_full_bytes p dst src cls op flags seq payload :
  (send_frame_full p dst src cls op flags seq payload).2 =
  if WUPS_MAX_PAYLOAD <? Z.of_nat (length payload) then []
  else [Uart_write (frame_bytes (Frame dst src cls op flags seq payload) ++ [WUPS_GUARD_BYTE])].
Proof.
  unfold send_frame_full; destruct (Z.ltb_spec WUPS_MAX_PAYLOAD (Z.of_nat (length payload))); [done|].
  rewrite <- sender_bytes by done; destruct (fold_left fletcher_step payload _); done.
Qed.

Lemma esp_send_bytes p dst cls op flags payload :
  Z.of_nat (length payload) <= WUPS_MAX_PAYLOAD ->
  (wups_link_send p dst cls op flags payload).2 =
  [Uart_write (frame_bytes (Frame dst WUPS_ADDR_ESP32 cls op flags (s_tx_seq p) payload) ++
               [WUPS_GUARD_BYTE])].
Proof.
  intros; unfold wups_link_send; rewrite send_frame_full_bytes.
  rewrite (proj2 (Z.ltb_ge _ _)); done.
Qed.

Lemma render_frame_bytes p cap dst cls op flags payload :
  Z.of_nat (length payload) <= WUPS_MAX_PAYLOAD ->
  Z.of_nat (length payload) + WUPS_FRAMING_BYTES <= cap ->
  (wups_link_render_frame p cap dst cls op flags payload).2 =
  frame_bytes (Frame dst WUPS_ADDR_ESP32 cls op flags (s_tx_seq p) payload).
Proof.
  unfold wups_link_render_frame, WUPS_FRAMING_BYTES, WUPS_HEADER_BYTES, WUPS_TRAILER_BYTES.
  intros Hn Hc; rewrite (proj2 (Z.ltb_ge _ _)) by done; unfold WUPS_MAX_PAYLOAD in Hn.
  rewrite u16_small by lia; rewrite (proj2 (Z.ltb_ge _ _)) by lia.
  pose proof (sender_bytes dst WUPS_ADDR_ESP32 cls op flags (s_tx_seq p) payload Hn) as H.
  cbv zeta in H; cbn [drop] in H; rewrite <- fletcher_app in H; cbn [app] in H |- *.
  unfold wups_fletcher8; destruct (fold_left fletcher_step _ (0, 0)) as [a b]; cbn [fst snd] in H |- *.
  rewrite !app_comm_cons in H.
  change [a; b; WUPS_END1; WUPS_END2; WUPS_GUARD_BYTE]
    with ([a; b; WUPS_END1; WUPS_END2] ++ [WUPS_GUARD_BYTE]) in H.
  rewrite app_assoc in H; apply app_inj_tail in H as [<- _]; done.
Qed.

(** ** Snapshot keys *)

(** The periodic status frames whose newest copy replaces an unsent older one. *)
Definition known_status (cls op version len : Z) : bool :=
  match cls, op, version with
  | 2, 1, 1 => len =? 20
  | 2, 1, 2 => len =? 40
  | 4, 1, 1 => len =? 12
  | 3, 1, 1 => len =? 20
  | 3, 1, 2 => len =? 30
  | 3, 1, 3 => len =? 31
  | _, _, _ => false
  end.

Definition snapshot_frame (f : frame) : Prop :=
  f_flags f = WUPS_FLAG_EVENT /\ 1 <= f_src f <= 4 /\
  known_status (f_cls f) (f_op f) (byte_at (f_payload f) 0) (frame_len f) = true.

Definition key_of (f : frame) : Z := f_src f * 65536 + f_cls f * 256 + f_op f.

Lemma known_statusP cls op version len :
  known_status cls op version len = true <->
  cls = 2 /\ op = 1 /\ (version = 1 /\ len = 20 \/ version = 2 /\ len = 40) \/
  cls = 4 /\ op = 1 /\ version = 1 /\ len = 12 \/
  cls = 3 /\ op = 1 /\ (version = 1 /\ len = 20 \/ version = 2 /\ len = 30 \/ version = 3 /\ len = 31).
Proof.
  unfold known_status; split.
  - intros H; repeat case_match; try done; to_prop; lia.
  - intros H; destruct_or?; destruct_and?; destruct_or?; destruct_and?; subst; done.
Qed.

Lemma key_lor src cls op :
  is_u8 cls -> is_u8 op ->
  Z.lor (Z.lor (Z.shiftl src 16) (Z.shiftl cls 8)) op = src * 65536 + cls * 256 + op.
Proof.
  intros; rewrite Z.lor_comm, (Z.lor_comm (Z.shiftl src 16)), Z.lor_assoc.
  rewrite (lor_shiftl op cls 8), (lor_shiftl _ src 16) by lia; lia.
Qed.

Lemma frame_bytes_length f : length (frame_bytes f) = (14 + length (f_payload f))%nat.
Proof. rewrite frame_bytes_framed; apply framed_length. Qed.

Lemma frame_bytes_head f :
  byte_at (frame_bytes f) 2 = f_dst f /\ byte_at (frame_bytes f) 3 = f_src f /\
  byte_at (frame_bytes f) 4 = f_cls f /\ byte_at (frame_bytes f) 5 = f_op f /\
  byte_at (frame_bytes f) 6 = f_flags f /\ byte_at (frame_bytes f) 7 = f_seq f /\
  (f_payload f <> [] -> byte_at (frame_bytes f) 10 = byte_at (f_payload f) 0).
Proof.
  rewrite frame_bytes_framed; split_and!; try done; intros Hp.
  unfold framed, byte_at; rewrite app_nth2 by (cbn; lia); cbn [length Nat.sub].
  destruct (f_payload f); done.
Qed.

(** The tests of [mqtt_wups_snapshot_key] on class, operation, version and size. *)
Lemma known_tests cls op v n :
  (if (cls =? WUPS_CLASS_POWER) && (op =? WUPS_OP_PWR_STATUS) then
      ((v =? 1) && (n =? 20)) || ((v =? 2) && (n =? 40))
    else if (cls =? WUPS_CLASS_HOST) && (op =? WUPS_OP_HOST_STATUS) then
      (v =? 1) && (n =? sizeof_host_status_v1)
    else if (cls =? WUPS_CLASS_NET) && (op =? WUPS_OP_NET_STATUS) then
      ((v =? 1) && (n =? sizeof_net_status_v1)) || ((v =? 2) && (n =? sizeof_net_status_v2)) ||
      ((v =? 3) && (n =? sizeof_net_status_v3))
    else false) = known_status cls op v n.
Proof.
  apply eq_true_iff_eq; rewrite known_statusP.
  unfold WUPS_CLASS_POWER, WUPS_OP_PWR_STATUS, WUPS_CLASS_HOST, WUPS_OP_HOST_STATUS.
  unfold WUPS_CLASS_NET, WUPS_OP_NET_STATUS.
  unfold sizeof_host_status_v1, sizeof_net_status_v1, sizeof_net_status_v2, sizeof_net_status_v3.
  destruct (Z.eqb_spec op 1) as [->|]; [|rewrite !andb_false_r; split; [done|lia]].
  rewrite !andb_true_r.
  destruct (Z.eqb_spec cls 2) as [->|]; [|destruct (Z.eqb_spec cls 4) as [->|];
    [|destruct (Z.eqb_spec cls 3) as [->|]; [|split; [done|lia]]]];
    rewrite ?orb_true_iff, ?andb_true_iff, ?Z.eqb_eq; clear; split; lia.
Qed.

Lemma snapshot_key_frame f :
  frame_wf f ->
  (snapshot_frame f -> mqtt_wups_snapshot_key (frame_bytes f) = key_of f) /\
  (mqtt_wups_snapshot_key (frame_bytes f) <> 0 -> snapshot_frame f).
Proof.
  intros (Hids & Hp & Hmax); unfold all_u8, frame_ids in Hids; rewrite !Forall_cons in Hids.
  unfold mqtt_wups_snapshot_key; rewrite frame_bytes_valid by (unfold frame_len in *; lia).
  destruct (frame_bytes_head f) as (_ & -> & -> & -> & -> & _ & Hv).
  rewrite key_lor, frame_bytes_length by tauto.
  unfold snapshot_frame, frame_len, WUPS_FRAMING_BYTES, WUPS_HEADER_BYTES, WUPS_TRAILER_BYTES.
  rewrite known_tests; replace (Z.of_nat (14 + length (f_payload f)) - (10 + 4))
    with (Z.of_nat (length (f_payload f))) by lia.
  destruct (f_payload f) as [|v l] eqn:E.
  { rewrite orb_true_r; split; [|done]; intros (_ & _ & H); apply known_statusP in H; cbn in H; lia. }
  rewrite Hv by done; change (byte_at (v :: l) 0) with v; set (n := length (v :: l)).
  replace (Z.of_nat (14 + n) =? 10 + 4) with false by (symmetry; apply Z.eqb_neq; cbn in n; lia).
  unfold key_of; cbn [negb orb]; rewrite orb_false_r.
  destruct (Z.eqb_spec (f_flags f) WUPS_FLAG_EVENT); cbn [negb]; [|tauto].
  unfold WUPS_ADDR_RPI, WUPS_ADDR_RP2040, WUPS_ADDR_CH32X, WUPS_ADDR_ESP32.
  destruct (known_status _ _ _ _); (split; [|intros H]); repeat case_match; to_prop; try tauto; lia.
Qed.

(** Coalescing keys are exact.  A publication gets a snapshot key, and may then
    replace an older unsent one with the same key, exactly when its bytes are a
    valid EVENT frame from one of the four nodes carrying a known power, host or
    net status version of the right size; the key is then the triple of source,
    class and operation, so frames with equal keys report the same status of the
    same node. *)
Theorem snapshot_key_exact l k :
  all_u8 l -> k <> 0 ->
  mqtt_wups_snapshot_key l = k <->
  exists f, frame_wf f /\ frame_bytes f = l /\ snapshot_frame f /\ k = key_of f.
Proof.
  intros Hl Hk; split.
  - intros E; assert (mqtt_wups_frame_valid l = true) as Hv.
    { unfold mqtt_wups_snapshot_key in E; destruct (mqtt_wups_frame_valid l); [done|cbn in E; congruence]. }
    apply frame_valid_bytes in Hv as (f & Hwf & <-); [|done].
    destruct (snapshot_key_frame f Hwf) as [H1 H2]; exists f; split_and!; try done.
    + apply H2; congruence.
    + rewrite <- H1; [done|apply H2; congruence].
  - intros (f & Hwf & <- & Hs & ->); apply snapshot_key_frame; done.
Qed.

Lemma snapshot_key_exact_witness :
  let f := Frame WUPS_ADDR_RP2040 WUPS_ADDR_CH32X WUPS_CLASS_POWER WUPS_OP_PWR_STATUS WUPS_FLAG_EVENT 9
             (2 :: replicate 39 0) in
  mqtt_wups_snapshot_key (frame_bytes f) = 197121.
Proof.
  intros f; apply snapshot_key_exact.
  - vm_compute; repeat constructor; discriminate.
  - discriminate.
  - exists f; split_and!; [vm_compute; repeat constructor; discriminate|vm_compute; repeat constructor; discriminate|..].
    all: vm_compute; done.
Defined.

(** ** Publishing *)

Lemma field_app_exact (l1 l2 l3 : list Z) n m :
  n = length l1 -> m = length l2 -> field n m (l1 ++ l2 ++ l3) = l2.
Proof. intros -> ->; unfold field; rewrite drop_app_length, take_app_length; done. Qed.

Definition publish_request (qos retain : Z) (topic body extra : list Z) : list Z :=
  publish_hdr_bytes (PublishHdr 1 qos retain (Z.of_nat (length topic)) (Z.of_nat (length body))) ++
  topic ++ body ++ extra.

(** A relative subtopic: neither [t/...] nor [c/...]. *)
Definition relative (topic : list Z) : Prop :=
  ((byte_at topic 0 =? 116) || (byte_at topic 0 =? 99)) && (byte_at topic 1 =? 47) = false.

Definition device_topic (iccid topic : list Z) : list Z := [116; 47] ++ iccid ++ [47] ++ topic.

(** A net.publish request is carried out as encoded.  The topic of a relative
    request becomes [t/<ICCID>/<topic>], the payload, QoS and retain flag pass
    unchanged, and exactly one publication is made unless the acknowledgement
    was taken over by the on-chain path; trailing bytes are ignored.  Status
    frames on [telemetry] coalesce by their key, command responses and critical
    events are reliable, everything else is a plain publication. *)
Theorem net_publish_forwards e iccid qos retain topic body extra :
  ev_iccid e = Some iccid -> iccid <> [] -> Forall (fun c => c <> 0) iccid ->
  topic <> [] -> Forall (fun c => c <> 0) topic -> relative topic ->
  (length (device_topic iccid topic) < 64)%nat ->
  is_u8 qos -> is_u8 retain -> Z.of_nat (length body) < 65536 ->
  let '(acks, diverted) := divert_ack e false topic body in
  handle_net_publish e (publish_request qos retain topic body extra) =
  publish_observers e false topic body ++ acks ++
  if diverted then [] else
    [Publish (if streq topic s_telemetry
              then if mqtt_wups_snapshot_key body =? 0 then Pub_raw
                   else Pub_snapshot (mqtt_wups_snapshot_key body)
              else if streq topic s_cmd_response || streq topic s_event && mqtt_wups_critical_event body
                   then Pub_critical else Pub_raw)
       (device_topic iccid topic) body qos retain].
Proof.
  intros Hicc Hne Hnul Htne Htnul Hrel Hlen Hq Hr Hb.
  assert (Htl : (0 < length topic < 61)%nat).
  { unfold device_topic in Hlen; rewrite !length_app in Hlen; cbn in Hlen.
    destruct topic; [done|]; cbn in *; lia. }
  assert (Hh : exists b4 b5, publish_hdr_bytes (PublishHdr 1 qos retain (Z.of_nat (length topic))
     (Z.of_nat (length body))) = [1; qos; retain; Z.of_nat (length topic); b4; b5] /\
     le_val [b4; b5] = Z.of_nat (length body)).
  { pose proof (le16_val (Z.of_nat (length body)) ltac:(lia)) as Hv; cbn [le_bytes] in Hv.
    do 2 eexists; split; [|exact Hv]; unfold publish_hdr_bytes; cbn; rewrite !u8_small by lia; done. }
  destruct Hh as (b4 & b5 & Hh & Hbl); unfold publish_request; rewrite Hh.
  destruct (divert_ack e false topic body) as [acks diverted] eqn:Ed.
  unfold handle_net_publish; set (pl := [_; _; _; _; _; _] ++ _).
  assert (Hpl : length pl = (6 + length topic + length body + length extra)%nat).
  { unfold pl; rewrite !length_app; cbn; lia. }
  change (byte_at pl 0) with 1; change (byte_at pl 1) with qos; change (byte_at pl 2) with retain.
  change (byte_at pl 3) with (Z.of_nat (length topic)); change (field 4 2 pl) with [b4; b5].
  rewrite Hbl; cbn [pub_version pub_topic_len pub_payload_len pub_qos pub_retain].
  rewrite Hpl, !Nat2Z.id.
  assert (Hf1 : field 6 (length topic) pl = topic) by (apply field_app_exact; done).
  assert (Hf2 : field (6 + length topic) (length body) pl = body).
  { unfold pl; rewrite app_assoc; apply field_app_exact; [rewrite length_app|]; done. }
  rewrite Hf1, Hf2, Hrel, andb_false_r.
  destruct (Z.ltb_spec (Z.of_nat (6 + length topic + length body + length extra)) 6); [lia|].
  cbn [negb Z.eqb]; change (1 =? 1) with true; cbn [negb].
  destruct (Z.ltb_spec (Z.of_nat (6 + length topic + length body + length extra))
              (6 + Z.of_nat (length topic) + Z.of_nat (length body))); [lia|].
  destruct (Z.eqb_spec (Z.of_nat (length topic)) 0); [lia|].
  destruct (Z.leb_spec 201 (Z.of_nat (length topic))); [lia|].
  unfold publish_topic; rewrite Hicc, !cstr_id, bool_decide_eq_false_2 by done.
  fold (device_topic iccid topic); destruct (Nat.leb_spec 64 (length (device_topic iccid topic))); [lia|].
  rewrite Ed; do 2 f_equal; destruct diverted; [done|]; do 2 f_equal.
  unfold publish_class; rewrite cstr_id by done; cbn [negb andb].
  unfold streq; repeat case_bool_decide; subst; try done.
  destruct (mqtt_wups_snapshot_key body =? 0); done.
Qed.

Definition env_sample : env :=
  Env 5000000 (Some [56; 57]) [101] false false (fun _ => false) false (fun _ => true) (fun _ => true)
    [116; 47; 56; 57; 47] false (fun _ => false) true.

Lemma net_publish_forwards_witness :
  handle_net_publish env_sample (publish_request 1 0 s_telemetry [7] [0]) =
  [Publish Pub_raw [116; 47; 56; 57; 47; 116; 101; 108; 101; 109; 101; 116; 114; 121] [7] 1 0].
Proof.
  apply (net_publish_forwards env_sample [56; 57] 1 0 s_telemetry [7] [0]);
    try reflexivity; try discriminate; try (cbn; lia); repeat constructor; discriminate.
Defined.

(** ** The reset command *)

(** What the requester is told: through the on-chain path when its command came
    from there, else on the response topic once that is known. *)
Definition reset_answer (e : env) (src seq result : Z) : list act :=
  if ev_ack_pending e seq then [Ack_emit seq [result]]
  else if bool_decide (cstr (ev_cmd_response e) = []) then []
  else [Publish Pub_critical (cstr (ev_cmd_response e))
          (frame_bytes (Frame src WUPS_ADDR_ESP32 WUPS_CLASS_SYSTEM WUPS_OP_SYS_RESET
             WUPS_FLAG_RESP seq [result])) 1 0].

Lemma reset_response_bytes src seq result :
  reset_response src seq result =
  frame_bytes (Frame src WUPS_ADDR_ESP32 WUPS_CLASS_SYSTEM WUPS_OP_SYS_RESET WUPS_FLAG_RESP seq [result]).
Proof.
  unfold reset_response, frame_bytes.
  change (frame_body _) with [src; WUPS_ADDR_ESP32; WUPS_CLASS_SYSTEM; WUPS_OP_SYS_RESET;
    WUPS_FLAG_RESP; seq; 1; 0; result].
  destruct (wups_fletcher8 _); done.
Qed.

Lemma reset_request_range e frame :
  let '(delay_ms, result) := reset_request e frame in
  500 <= delay_ms <= 10000 /\
  (result = WUPS_SYS_RESET_RESULT_OK -> ev_ota_in_progress e = false) /\
  (result = WUPS_SYS_RESET_RESULT_OK \/ result = WUPS_SYS_RESET_RESULT_BUSY \/
   result = WUPS_SYS_RESET_RESULT_BAD_REQ).
Proof.
  unfold reset_request.
  destruct (if _ <? _ then _ else _) as [delay result] eqn:E.
  assert (500 <= delay <= 10000 /\ (result = WUPS_SYS_RESET_RESULT_OK \/
           result = WUPS_SYS_RESET_RESULT_BAD_REQ)) as [Hd Hr].
  { repeat case_match; simplify_eq; split; try lia; auto. }
  split; [done|]; destruct Hr as [-> | ->]; cbn; [|split; [done|auto]].
  destruct (ev_ota_in_progress e); (split; [done|auto]).
Qed.

(** The reset request a frame carries: addressed to this node or to all. *)
Definition is_reset_frame (frame : list Z) : bool :=
  (WUPS_FRAMING_BYTES <=? Z.of_nat (length frame)) &&
  (byte_at frame 0 =? WUPS_SYNC1) && (byte_at frame 1 =? WUPS_SYNC2) &&
  (byte_at frame 4 =? WUPS_CLASS_SYSTEM) && (byte_at frame 5 =? WUPS_OP_SYS_RESET) &&
  ((byte_at frame 2 =? WUPS_ADDR_ESP32) || (byte_at frame 2 =? WUPS_ADDR_BROADCAST)).

Lemma sys_reset_effects e frame :
  let '(acts, consumed) := try_handle_sys_reset e frame in
  consumed = is_reset_frame frame /\
  (consumed = false \/ has (byte_at frame 6) WUPS_FLAG_REQ = false -> acts = []) /\
  (consumed = true -> has (byte_at frame 6) WUPS_FLAG_REQ = true ->
   exists result restart,
     acts = reset_answer e (byte_at frame 3) (byte_at frame 7) result ++ restart /\
     ((result <> WUPS_SYS_RESET_RESULT_OK /\ restart = []) \/
      (result = WUPS_SYS_RESET_RESULT_OK /\ ev_ota_in_progress e = false /\
       (ev_timer_ok e = false /\ restart = [Restart_now] \/
        exists ms, ev_timer_ok e = true /\ 500 <= ms <= 10000 /\ restart = [Restart_in ms])))).
Proof.
  pose proof (reset_request_range e frame) as Hr; unfold try_handle_sys_reset, is_reset_frame.
  rewrite Z.leb_antisym; destruct (_ <? WUPS_FRAMING_BYTES); [naive_solver|].
  destruct (byte_at frame 0 =? WUPS_SYNC1), (byte_at frame 1 =? WUPS_SYNC2); try naive_solver.
  destruct (byte_at frame 4 =? WUPS_CLASS_SYSTEM), (byte_at frame 5 =? WUPS_OP_SYS_RESET);
    try naive_solver.
  cbn [negb orb andb]; rewrite <- negb_orb; destruct (_ || _); cbn [negb]; [|naive_solver].
  destruct (has (byte_at frame 6) WUPS_FLAG_REQ); cbn [negb]; [|naive_solver].
  destruct (reset_request e frame) as [ms result]; destruct Hr as (Hms & Hok & Hcodes).
  set (answer := if ev_ack_pending e _ then _ else _).
  assert (answer = reset_answer e (byte_at frame 3) (byte_at frame 7) result) as ->.
  { unfold answer, reset_answer; rewrite reset_response_bytes.
    destruct (ev_ack_pending _ _); [done|]; destruct (cstr (ev_cmd_response e)); done. }
  destruct (Z.eqb_spec result WUPS_SYS_RESET_RESULT_OK) as [E|E]; cbn [negb].
  - split_and!; [done|intros [?|?]; done|]; intros _ _; exists result; eexists; split; [done|right].
    split_and!; auto; destruct (ev_timer_ok e); [right; eauto|left; done].
  - split_and!; [done|intros [?|?]; done|]; intros _ _; exists result, []; rewrite app_nil_r; auto.
Qed.

(** The reset command.  A frame that is not a reset for this node has no effect
    and is passed on; one that is, is never forwarded.  A request gets exactly
    one answer, in the requester's sequence number, and the restart follows the
    answer: only when the answer is OK, never while an OTA session is running,
    and, when the timer exists, between 0.5 and 10 seconds later. *)
Theorem sys_reset_policy e frame :
  let '(acts, consumed) := try_handle_sys_reset e frame in
  consumed = is_reset_frame frame /\
  (consumed = false \/ has (byte_at frame 6) WUPS_FLAG_REQ = false -> acts = []) /\
  (consumed = true -> has (byte_at frame 6) WUPS_FLAG_REQ = true ->
   exists result restart,
     acts = reset_answer e (byte_at frame 3) (byte_at frame 7) result ++ restart /\
     ((result <> WUPS_SYS_RESET_RESULT_OK /\ restart = []) \/
      (result = WUPS_SYS_RESET_RESULT_OK /\ ev_ota_in_progress e = false /\
       (ev_timer_ok e = false /\ restart = [Restart_now] \/
        exists ms, ev_timer_ok e = true /\ 500 <= ms <= 10000 /\ restart = [Restart_in ms])))).
Proof. apply sys_reset_effects. Qed.

(** ** The downlink *)

Section DownlinkSafety.
Context `{C : Crypto}.

(** A reset frame leads to no write on the UART; any other frame to nothing. *)
Lemma sys_reset_no_write e frame bytes :
  ((try_handle_sys_reset e frame).2 = false ->
   (try_handle_sys_reset e frame).1 = [] /\ is_reset_frame frame = false) /\
  ~ In (Uart_write bytes) (try_handle_sys_reset e frame).1 /\ forall f, ~ In (Ota_downlink f) (try_handle_sys_reset e frame).1.
Proof.
  pose proof (sys_reset_effects e frame) as H.
  destruct (try_handle_sys_reset e frame) as [acts consumed]; destruct H as (-> & H1 & H2); split.
  - cbn; intros; split; [apply H1; left|]; done.
  - cbn; destruct (is_reset_frame frame); [|rewrite H1 by (left; done); cbn; tauto].
    destruct (has (byte_at frame 6) WUPS_FLAG_REQ) eqn:Hq; [|rewrite H1 by (right; done); cbn; tauto].
    destruct (H2 eq_refl eq_refl) as (result & restart & -> & Hr); split; [|intros f]; rewrite in_app_iff; unfold reset_answer; intros [Hin|Hin].
    + repeat case_match; cbn in Hin; intuition discriminate.
    + destruct Hr as [[_ ->]|(_ & _ & [[_ ->]|(? & _ & _ & ->)])]; cbn in Hin; intuition discriminate.
    + repeat case_match; cbn in Hin; intuition discriminate.
    + destruct Hr as [[_ ->]|(_ & _ & [[_ ->]|(? & _ & _ & ->)])]; cbn in Hin; intuition discriminate.
Qed.

(** C3: nothing unauthenticated passes.  When an arriving MQTT message causes any
    action, the update handler's taking of a frame included, it is a well-formed envelope
    of the current epoch, with a valid operator signature over its whole head and frame, a
    fresh counter (which is now the floor) and no expired deadline.  What the update
    handler is given is exactly the frame inside the envelope, and then nothing else
    happens.  What is written to the RP2040 is a single net.downlink frame carrying the
    topic and exactly that frame, and the frame is neither taken by the update handler nor
    a reset for this node. *)
Theorem downlink_authenticated e wok a p topic payload :
  all_u8 payload ->
  let '(a', p', acts) := on_mqtt_data e wok a p topic payload in
  acts <> [] ->
  exists env, envelope_wf env /\ payload = envelope_bytes env /\
    acceptable a (ev_time_us e / 1000000) env /\ s_last_ctr a' = env_counter env /\
    (forall frame, In (Ota_downlink frame) acts -> acts = [Ota_downlink frame] /\ frame = env_frame env) /\
    forall bytes, In (Uart_write bytes) acts ->
      acts = [Uart_write bytes] /\ ev_ota_takes e (env_frame env) = false /\
      is_reset_frame (env_frame env) = false /\
      bytes = frame_bytes (Frame WUPS_ADDR_RP2040 WUPS_ADDR_ESP32 WUPS_CLASS_NET
        WUPS_OP_NET_DOWNLINK WUPS_FLAG_EVENT (s_tx_seq p)
        (publish_request 0 0 topic (env_frame env) [])) ++ [WUPS_GUARD_BYTE].
Proof.
  intros Hu; unfold on_mqtt_data; destruct (200 <? length topic)%nat; [done|].
  destruct (cmdauth_check_and_strip _ _ _ _) as [a' [frame|]] eqn:E; [|done].
  destruct (check_inv _ _ _ _ _ _ Hu E) as (env & Hwf & -> & Hacc & <- & _ & ->).
  destruct (ev_ota_takes e (env_frame env)) eqn:Hota.
  { intros _; exists env; split_and!; try done; [intros f [[= <-]|[]]; done|intros bytes [[=]|[]]]. }
  pose proof (fun bytes => sys_reset_no_write e (env_frame env) bytes) as Hreset.
  destruct (try_handle_sys_reset e (env_frame env)) as [acts [|]]; cbn [fst snd] in Hreset.
  { intros _; exists env; split_and!; try done; [intros f Hin; destruct (Hreset []) as (_ & _ & HN); destruct (HN f Hin)|intros bytes Hin; destruct (Hreset bytes) as (_ & [] & _); done]. }
  destruct (Hreset []) as [Hn _]; destruct (Hn eq_refl) as [-> Hr].
  destruct (WUPS_MAX_PAYLOAD <? _) eqn:Hfit; [done|]; to_prop.
  destruct (wups_link_send _ _ _ _ _ _) as [p' sent] eqn:Es; cbn [app]; intros _.
  apply (f_equal snd) in Es; unfold WUPS_MAX_PAYLOAD in Hfit; rewrite esp_send_bytes in Es.
  2: { unfold WUPS_MAX_PAYLOAD; rewrite !length_app; cbn; lia. }
  rewrite u8_small, u16_small in Es by lia; cbn [snd] in Es; subst sent.
  exists env; split_and!; try done; [intros f [[=]|[]]|]; intros bytes [[= <-]|[]].
  unfold publish_request; rewrite app_nil_r; done.
Qed.
End DownlinkSafety.

Definition reset_frame : frame :=
  Frame WUPS_ADDR_ESP32 WUPS_ADDR_RPI WUPS_CLASS_SYSTEM WUPS_OP_SYS_RESET WUPS_FLAG_REQ 5 [1; 0; 100; 0].

Lemma sys_reset_policy_witness :
  exists result restart,
    (try_handle_sys_reset env_sample (frame_bytes reset_frame)).1 =
      reset_answer env_sample 1 5 result ++ restart /\ restart = [Restart_in 500].
Proof.
  pose proof (sys_reset_policy env_sample (frame_bytes reset_frame)) as H.
  exists 0; vm_compute in H |- *; destruct H as (_ & _ & H).
  destruct (H eq_refl eq_refl) as (result & restart & E & _).
  exists [Restart_in 500]; split; done.
Defined.

Lemma downlink_authenticated_witness :
  let '(a', _, acts) := on_mqtt_data (C := toy_crypto) env_sample true toy_auth port_init [99; 47]
                          (envelope_bytes toy_envelope) in
  acts <> [] /\ exists env, s_last_ctr a' = env_counter env /\
    forall bytes, In (Uart_write bytes) acts -> acts = [Uart_write bytes].
Proof.
  pose proof (downlink_authenticated (C := toy_crypto) env_sample true toy_auth port_init [99; 47]
                (envelope_bytes toy_envelope) toy_bytes) as H.
  destruct (on_mqtt_data _ _ _ _ _ _) as [[a' p'] acts] eqn:E.
  assert (acts <> []) as Hne by (vm_compute in E; injection E as _ _ <-; discriminate).
  split; [exact Hne|]; destruct (H Hne) as (env & _ & _ & _ & Hc & _ & Hw).
  exists env; split; [exact Hc|]; intros bytes Hin; apply (Hw bytes Hin).
Defined.

(** ** The trust prompt *)

Definition trust_result_frame (nonce result : Z) : frame :=
  Frame WUPS_ADDR_ESP32 WUPS_ADDR_RP2040 WUPS_CLASS_UI WUPS_OP_UI_TRUST_RESULT WUPS_FLAG_RESP 0
    ([1; result; 0; 0] ++ le32 nonce).

Lemma on_ui_result p nonce result :
  is_u32 nonce ->
  on_ui p (trust_result_frame nonce result) =
  if s_trust_armed p && (nonce =? s_trust_nonce p)
  then (p <| s_trust_result := result |> <| s_trust_armed := false |> <| s_trust_sig := true |>, [])
  else (p, [Menu_result nonce result]).
Proof.
  intros Hn; unfold on_ui.
  change (field 4 4 (f_payload (trust_result_frame nonce result))) with (le32 nonce).
  rewrite le32_val by done; destruct (s_trust_armed p), (nonce =? s_trust_nonce p); done.
Qed.

(** A trust prompt arms the receiver before it is sent, so that a fast answer
    cannot be missed; but the answer disarms it, and the wait refuses to start
    on a disarmed prompt.  An answer processed before the wait begins is
    therefore lost, whatever it said, while the same answer during the wait is
    returned. *)
Theorem trust_answer_before_wait p mode secs nonce result text :
  is_u32 nonce -> 0 < secs -> mode <> WUPS_TRUST_PROMPT_MODE_MENU ->
  let prompted := (wups_link_trust_prompt p mode secs nonce text).1 in
  let answered := (on_ui prompted (trust_result_frame nonce result)).1 in
  s_trust_armed prompted = true /\ s_trust_result answered = result /\ s_trust_sig answered = true /\
  (forall q, (wups_link_trust_wait answered nonce q).2 = Wait_invalid_state) /\
  (wups_link_trust_wait prompted nonce answered).2 = Wait_ok result.
Proof.
  intros Hn Hs Hm prompted.
  assert (Hp : s_trust_armed prompted = true /\ s_trust_nonce prompted = nonce).
  { subst prompted; unfold wups_link_trust_prompt, wups_link_send, send_frame_full.
    rewrite (proj2 (Z.ltb_lt _ _) Hs), (proj2 (Z.eqb_neq _ _) Hm); cbn [negb andb].
    case_match; [done|]; destruct (fold_left fletcher_step _ _); done. }
  destruct Hp as [Ha Hno]; rewrite on_ui_result, Ha, Hno, Z.eqb_refl by done; cbn [andb fst].
  unfold wups_link_trust_wait; rewrite Ha, Hno, Z.eqb_refl; done.
Qed.

Lemma trust_answer_before_wait_witness :
  let prompted := (wups_link_trust_prompt port_init 1 30 77 None).1 in
  let answered := (on_ui prompted (trust_result_frame 77 0)).1 in
  (wups_link_trust_wait answered 77 answered).2 = Wait_invalid_state.
Proof.
  pose proof (trust_answer_before_wait port_init 1 30 77 0 None ltac:(lia) ltac:(lia) ltac:(discriminate))
    as (_ & _ & _ & H & _); apply H.
Defined.
