(* ===== verification/EspLink.v ===== *)
(** * The receiving side of the ESP32's UART link
    (firmware-ESP32-LTE-M/main/wups_link.c)

    The deframer with its diagnostic counters, the delivery of frames to
    [on_local_frame], one iteration of [rx_task] with the receive watchdog, and
    the module's initialisation.  A byte comes with the [env] in which it is
    processed; an iteration of the task takes its several clock readings as
    separate inputs. *)

From S2P Require Import Prelude Protocol Deframer CmdAuth EspDispatch.

(** ** State *)

(** The enumeration of states is the same as the CH32X's; there is no stored
    second checksum byte here. *)
(* src: firmware-ESP32-LTE-M/main/wups_link.c:161-169 s_rx *)
Record s_rx := SRx {
  e_state : wups_rx_state_t;
  e_dst : Z; e_src : Z; e_cls : Z; e_op : Z; e_flags : Z; e_seq : Z;
  e_len : Z;
  e_pidx : Z;
  e_payload : list Z;
  e_ck_a : Z;
  e_exp_a : Z; e_exp_b : Z
}.

#[export] Instance eta_s_rx : Eta s_rx := fun r =>
  SRx (e_state r) (e_dst r) (e_src r) (e_cls r) (e_op r) (e_flags r) (e_seq r) (e_len r) (e_pidx r)
    (e_payload r) (e_ck_a r) (e_exp_a r) (e_exp_b r).

(* src: firmware-ESP32-LTE-M/main/wups_link.c:115-136 receive counters *)
Record link := Link {
  lk_rx : s_rx;
  lk_port : port;
  s_frames_rx : Z;
  s_bytes_rx : Z;
  s_rx_resync : Z;
  s_rx_bad : Z;
  s_rx_idle_resets : Z;
  s_rx_reinstalls : Z;
  s_frames_rx_unicast : Z;
  s_last_frame_ms : Z
}.

#[export] Instance eta_link : Eta link := fun k =>
  Link (lk_rx k) (lk_port k) (s_frames_rx k) (s_bytes_rx k) (s_rx_resync k) (s_rx_bad k)
    (s_rx_idle_resets k) (s_rx_reinstalls k) (s_frames_rx_unicast k) (s_last_frame_ms k).

(** Static storage starts zeroed. *)
Definition s_rx_init : s_rx := SRx WUPS_RX_SYNC1 0 0 0 0 0 0 0 0 (replicate 240 0) 0 0 0.
Definition link_init : link := Link s_rx_init port_init 0 0 0 0 0 0 0 0.

(* src: firmware-ESP32-LTE-M/main/wups_link.c:138-141 now_ms32 *)
Definition now_ms32 (time_us : Z) : Z := u32 (time_us / 1000).

(* src: firmware-ESP32-LTE-M/main/wups_link.c:249-261 wups_link_frame_age_s *)
Definition wups_link_frame_age_s (k : link) (time_us : Z) : Z :=
  let last := s_last_frame_ms k in
  let delta := u32 (now_ms32 time_us - last) in
  if 2147483648 <? delta then 0 else delta / 1000.

(** ** The deframer *)

(* src: firmware-ESP32-LTE-M/main/wups_link.c:171-171 rx_reset *)
Definition rx_reset (r : s_rx) : s_rx := r <| e_state := WUPS_RX_SYNC1 |>.

(* src: firmware-ESP32-LTE-M/main/wups_link.c:181-184 rx_reset_with *)
Definition rx_reset_with (b : Z) (r : s_rx) : s_rx :=
  r <| e_state := if b =? WUPS_SYNC1 then WUPS_RX_SYNC2 else WUPS_RX_SYNC1 |>.

(* src: firmware-ESP32-LTE-M/main/wups_link.c:185-189 rx_step *)
Definition rx_step (b : Z) (r : s_rx) : s_rx :=
  let r := r <| e_exp_a := u8 (e_exp_a r + b) |> in
  r <| e_exp_b := u8 (e_exp_b r + e_exp_a r) |>.

(** The arguments [deliver_frame] passes to [on_local_frame]. *)
(* src: firmware-ESP32-LTE-M/main/wups_link.c:761-762 deliver_frame *)
Definition held_frame (r : s_rx) : frame :=
  Frame (e_dst r) (e_src r) (e_cls r) (e_op r) (e_flags r) (e_seq r)
    (take (Z.to_nat (e_len r)) (e_payload r)).

(* src: firmware-ESP32-LTE-M/main/wups_link.c:740-763 deliver_frame *)
Definition deliver_frame (e : env) (k : link) : link * list act :=
  let f := held_frame (lk_rx k) in
  if negb (f_dst f =? WUPS_ADDR_ESP32) && negb (f_dst f =? WUPS_ADDR_BROADCAST) &&
     negb (f_dst f =? WUPS_ADDR_INTERNAL) then (k, []) else
  let k := k <| s_frames_rx := u32 (s_frames_rx k + 1) |> in
  let k := if f_dst f =? WUPS_ADDR_ESP32
           then k <| s_frames_rx_unicast := u32 (s_frames_rx_unicast k + 1) |>
                  <| s_last_frame_ms := now_ms32 (ev_time_us e) |>
           else k in
  let '(p, acts) := on_local_frame e (lk_port k) f in
  (k <| lk_port := p |>, acts).

(** A rejected byte: one of the two diagnostic counters, then [rx_reset_with]. *)
(* src: firmware-ESP32-LTE-M/main/wups_link.c:780-781 rx_byte *)
Definition count_resync (b : Z) (k : link) : link :=
  k <| s_rx_resync := u32 (s_rx_resync k + 1) |> <| lk_rx := rx_reset_with b (lk_rx k) |>.
(* src: firmware-ESP32-LTE-M/main/wups_link.c:814-815 rx_byte *)
Definition count_bad (b : Z) (k : link) : link :=
  k <| s_rx_bad := u32 (s_rx_bad k + 1) |> <| lk_rx := rx_reset_with b (lk_rx k) |>.

(* src: firmware-ESP32-LTE-M/main/wups_link.c:767-839 rx_byte *)
Definition rx_byte (e : env) (k : link) (b : Z) : link * list act :=
  let r := lk_rx k in
  match e_state r with
  | WUPS_RX_SYNC1 =>
      (if b =? WUPS_SYNC1 then k <| lk_rx := r <| e_state := WUPS_RX_SYNC2 |> |> else k, [])
  | WUPS_RX_SYNC2 =>
      (if b =? WUPS_SYNC2
       then k <| lk_rx := r <| e_exp_a := 0 |> <| e_exp_b := 0 |> <| e_pidx := 0 |>
                            <| e_state := WUPS_RX_DST |> |>
       else count_resync b k, [])
  | WUPS_RX_DST => (k <| lk_rx := rx_step b (r <| e_dst := b |>) <| e_state := WUPS_RX_SRC |> |>, [])
  | WUPS_RX_SRC => (k <| lk_rx := rx_step b (r <| e_src := b |>) <| e_state := WUPS_RX_CLASS |> |>, [])
  | WUPS_RX_CLASS => (k <| lk_rx := rx_step b (r <| e_cls := b |>) <| e_state := WUPS_RX_OP |> |>, [])
  | WUPS_RX_OP => (k <| lk_rx := rx_step b (r <| e_op := b |>) <| e_state := WUPS_RX_FLAGS |> |>, [])
  | WUPS_RX_FLAGS => (k <| lk_rx := rx_step b (r <| e_flags := b |>) <| e_state := WUPS_RX_SEQ |> |>, [])
  | WUPS_RX_SEQ => (k <| lk_rx := rx_step b (r <| e_seq := b |>) <| e_state := WUPS_RX_LEN_L |> |>, [])
  | WUPS_RX_LEN_L => (k <| lk_rx := rx_step b (r <| e_len := b |>) <| e_state := WUPS_RX_LEN_H |> |>, [])
  | WUPS_RX_LEN_H =>
      let r := rx_step b (r <| e_len := Z.lor (e_len r) (u16 (Z.shiftl b 8)) |>) in
      (if WUPS_MAX_PAYLOAD <? e_len r then count_bad b (k <| lk_rx := r |>)
       else k <| lk_rx := r <| e_state := if e_len r =? 0 then WUPS_RX_CK_A else WUPS_RX_PAYLOAD |> |>, [])
  | WUPS_RX_PAYLOAD =>
      let r := r <| e_payload := <[Z.to_nat (e_pidx r) := b]> (e_payload r) |>
                 <| e_pidx := u16 (e_pidx r + 1) |> in
      let r := rx_step b r in
      (k <| lk_rx := if e_len r <=? e_pidx r then r <| e_state := WUPS_RX_CK_A |> else r |>, [])
  | WUPS_RX_CK_A => (k <| lk_rx := r <| e_ck_a := b |> <| e_state := WUPS_RX_CK_B |> |>, [])
  | WUPS_RX_CK_B =>
      (if (e_ck_a r =? e_exp_a r) && (b =? e_exp_b r)
       then k <| lk_rx := r <| e_state := WUPS_RX_END1 |> |> else count_bad b k, [])
  | WUPS_RX_END1 =>
      (if b =? WUPS_END1 then k <| lk_rx := r <| e_state := WUPS_RX_END2 |> |> else count_bad b k, [])
  | WUPS_RX_END2 =>
      if b =? WUPS_END2
      then let '(k, acts) := deliver_frame e k in (k <| lk_rx := rx_reset (lk_rx k) |>, acts)
      else (count_bad b k, [])
  end.

(** The loop [for (i < n) rx_byte(buf[i])] of the task, with the instant of each byte. *)
(* src: firmware-ESP32-LTE-M/main/wups_link.c:940-940 rx_task *)
Fixpoint rx_bytes (k : link) (l : list (Z * env)) : link * list act :=
  match l with
  | [] => (k, [])
  | (b, e) :: l =>
      let '(k, acts) := rx_byte e k b in
      let '(k, acts') := rx_bytes k l in
      (k, acts ++ acts')
  end.

(** ** The receive task and its watchdog *)

(* src: firmware-ESP32-LTE-M/main/wups_link.c:84-100 watchdog constants *)
Definition WUPS_RX_IDLE_PING_MS : Z := 60000.
Definition WUPS_RX_PING_RETRY_MS : Z := 15000.
Definition WUPS_RX_REBOOT_GARBAGE_MIN : Z := 4096.
Definition WUPS_RX_REBOOT_CYCLE : Z := 6.

(* src: firmware-ESP32-LTE-M/main/wups_link.c:915-931 rx_task (locals) *)
Record rx_locals := RxLocals {
  last_ping_us : Z;
  pings_sent : Z;
  recovery_cycles : Z;
  frames_seen : Z;
  wd_ref_ms : Z;
  bytes_at_last_frame : Z
}.

#[export] Instance eta_rx_locals : Eta rx_locals := fun v =>
  RxLocals (last_ping_us v) (pings_sent v) (recovery_cycles v) (frames_seen v) (wd_ref_ms v)
    (bytes_at_last_frame v).

(* src: firmware-ESP32-LTE-M/main/wups_link.c:915-931 rx_task (locals) *)
Definition rx_task_start (k : link) (time_us : Z) : rx_locals :=
  RxLocals 0 0 0 (s_frames_rx_unicast k) (now_ms32 time_us) (s_bytes_rx k).

(** What one iteration reads: the driver, the clock at each of its readings, the
    OTA state, and whether a reinstall succeeded. *)
Record rx_input := RxInput {
  in_bytes : option (list (Z * env));    (* None: uart_read_bytes failed *)
  in_t_feed : Z; in_ota : bool; in_t_ota : Z; in_t_now : Z; in_t_cmp : Z; in_t_recover : Z;
  in_reinstall_ok : bool
}.

Inductive rx_outcome := Rx_continue | Rx_restart | Rx_reinstall_failed.

(* src: firmware-ESP32-LTE-M/main/wups_link.c:896-909 rx_link_recover *)
Definition rx_link_recover (k : link) (reinstall_ok : bool) : link * list act * bool :=
  (k <| lk_rx := rx_reset (lk_rx k) |>,
   Uart_reinstall :: (if reinstall_ok then [] else [Restart_now]), reinstall_ok).

(** The watchdog's part of the iteration, after the feed. *)
(* src: firmware-ESP32-LTE-M/main/wups_link.c:980-1023 rx_task *)
Definition watchdog (i : rx_input) (k : link) (v : rx_locals) : link * rx_locals * list act * rx_outcome :=
  if u32 (now_ms32 (in_t_cmp i) - wd_ref_ms v) <? WUPS_RX_IDLE_PING_MS then (k, v, [], Rx_continue) else
  let garbage := u32 (s_bytes_rx k - bytes_at_last_frame v) in
  if pings_sent v <? 2 then
    if (pings_sent v =? 0) || (WUPS_RX_PING_RETRY_MS * 1000 <=? in_t_now i - last_ping_us v) then
      let '(p, acts) := wups_link_send (lk_port k) WUPS_ADDR_RP2040 WUPS_CLASS_SYSTEM
                          WUPS_OP_SYS_PING WUPS_FLAG_REQ [] in
      (k <| lk_port := p |>,
       v <| pings_sent := pings_sent v + 1 |> <| last_ping_us := in_t_now i |>, acts, Rx_continue)
    else (k, v, [], Rx_continue)
  else if in_t_now i - last_ping_us v <? WUPS_RX_PING_RETRY_MS * 1000 then (k, v, [], Rx_continue) else
  let v := v <| recovery_cycles := recovery_cycles v + 1 |> in
  if (WUPS_RX_REBOOT_CYCLE <=? recovery_cycles v) &&
     ((0 <? s_frames_rx k) || (WUPS_RX_REBOOT_GARBAGE_MIN <=? garbage))
  then (k, v, [Restart_now], Rx_restart) else
  let k := k <| s_rx_reinstalls := u32 (s_rx_reinstalls k + 1) |> in
  let '(k, acts, ok) := rx_link_recover k (in_reinstall_ok i) in
  if negb ok then (k, v, acts, Rx_reinstall_failed) else
  (k, v <| wd_ref_ms := now_ms32 (in_t_recover i) |> <| pings_sent := 0 |>, acts, Rx_continue).

(** The comparison that feeds the watchdog. *)
(* src: firmware-ESP32-LTE-M/main/wups_link.c:963-969 rx_task *)
Definition wd_feed (t : Z) (k : link) (v : rx_locals) : rx_locals :=
  if negb (s_frames_rx_unicast k =? frames_seen v)
  then RxLocals (last_ping_us v) 0 0 (s_frames_rx_unicast k) (now_ms32 t) (s_bytes_rx k)
  else v.

(** Reading: the byte counter, the bytes, and the reset after 50 ms of silence
    inside a frame. *)
(* src: firmware-ESP32-LTE-M/main/wups_link.c:939-951 rx_task *)
Definition rx_read (k : link) (l : list (Z * env)) : link * list act :=
  let n := Z.of_nat (length l) in
  let k := if 0 <? n then k <| s_bytes_rx := u32 (s_bytes_rx k + n) |> else k in
  let '(k, acts) := rx_bytes k l in
  (if (n =? 0) && negb (bool_decide (e_state (lk_rx k) = WUPS_RX_SYNC1))
   then k <| s_rx_idle_resets := u32 (s_rx_idle_resets k + 1) |> <| lk_rx := rx_reset (lk_rx k) |>
   else k, acts).

(* src: firmware-ESP32-LTE-M/main/wups_link.c:932-1024 rx_task (one iteration) *)
Definition rx_iter (i : rx_input) (k : link) (v : rx_locals)
    : link * rx_locals * list act * rx_outcome :=
  match in_bytes i with
  | None => (k, v, [], Rx_continue)
  | Some l =>
      let '(k, acts) := rx_read k l in
      let v := wd_feed (in_t_feed i) k v in
      if in_ota i
      then (k, v <| wd_ref_ms := now_ms32 (in_t_ota i) |> <| pings_sent := 0 |>, acts, Rx_continue)
      else let '(k, v, acts', o) := watchdog i k v in (k, v, acts ++ acts', o)
  end.

(** ** Initialisation *)

(** What the system calls of [wups_link_init] answered. *)
Record init_input := InitInput {
  ii_mutex_ok : bool; ii_sem_ok : bool; ii_time_us : Z; ii_uart_ok : bool; ii_task_ok : bool
}.

(** [true] is ESP_OK; the task then starts with [rx_task_start]. *)
(* src: firmware-ESP32-LTE-M/main/wups_link.c:1232-1266 wups_link_init *)
Definition wups_link_init (i : init_input) (k : link) : link * list act * bool :=
  if negb (ii_mutex_ok i) || negb (ii_sem_ok i) then (k, [], false) else
  let k := k <| lk_rx := rx_reset (lk_rx k) |> <| s_last_frame_ms := now_ms32 (ii_time_us i) |> in
  if negb (ii_uart_ok i) || negb (ii_task_ok i) then (k, [], false) else
  let '(p, acts) := send_hello_bcast (lk_port k) in
  (k <| lk_port := p |>, acts, true).

(** ** Agreement with the CH32X deframer *)

(** The ESP32 machine is the CH32X machine without the second checksum byte,
    which the latter compares as soon as it is stored. *)
Definition to_esp (r : wups_rx) : s_rx :=
  SRx (rx_state r) (rx_dst r) (rx_src r) (rx_cls r) (rx_op r) (rx_flags r) (rx_seq r) (rx_len r)
    (rx_pidx r) (rx_payload r) (rx_ck_a r) (exp_a r) (exp_b r).

(** What the delivery of frames changes: the port and the frame counters. *)
Record served := Served { sv_port : port; sv_frames : Z; sv_unicast : Z; sv_last_ms : Z }.
Definition served_of (k : link) : served :=
  Served (lk_port k) (s_frames_rx k) (s_frames_rx_unicast k) (s_last_frame_ms k).

Definition for_us (f : frame) : bool :=
  (f_dst f =? WUPS_ADDR_ESP32) || (f_dst f =? WUPS_ADDR_BROADCAST) || (f_dst f =? WUPS_ADDR_INTERNAL).

(** Serving what a deframer delivered at one byte. *)
Definition serve (s : served) (x : option frame * env) : served * list act :=
  match x with
  | (Some f, e) =>
      if for_us f then
        let '(p, acts) := on_local_frame e (sv_port s) f in
        let unicast := f_dst f =? WUPS_ADDR_ESP32 in
        (Served p (u32 (sv_frames s + 1)) (if unicast then u32 (sv_unicast s + 1) else sv_unicast s)
           (if unicast then now_ms32 (ev_time_us e) else sv_last_ms s), acts)
      else (s, [])
  | (None, _) => (s, [])
  end.

Section Simulation.
Implicit Types (r : wups_rx) (k : link) (e : env).

Lemma deliver_serve e k r :
  lk_rx k = to_esp r ->
  let '(k', acts) := deliver_frame e k in
  lk_rx k' = to_esp r /\ (served_of k', acts) = serve (served_of k) (Some (rx_frame r), e).
Proof.
  intros Hk; unfold deliver_frame, serve, for_us, served_of; rewrite Hk.
  change (held_frame (to_esp r)) with (rx_frame r); cbn [sv_port sv_frames sv_unicast sv_last_ms].
  rewrite <- !negb_orb; destruct (_ || _ || _); cbn [negb]; [|done].
  cbn; destruct (rx_dst r =? WUPS_ADDR_ESP32); cbn;
    destruct (on_local_frame e (lk_port k) (rx_frame r)); done.
Qed.

Lemma rx_byte_sim e k r b :
  lk_rx k = to_esp r ->
  let '(r', o) := wups_rx_byte r b in
  let '(k', acts) := rx_byte e k b in
  lk_rx k' = to_esp r' /\ (served_of k', acts) = serve (served_of k) (o, e).
Proof.
  intros Hk; pose proof (deliver_serve e k r Hk) as Hd.
  unfold rx_byte, wups_rx_byte, count_bad, count_resync; rewrite Hk.
  change (e_state (to_esp r)) with (rx_state r); destruct (rx_state r) eqn:Hs; try done.
  all: try (cbn -[u8 u16 Z.lor Z.shiftl]; repeat case_match; cbn; done).
  destruct (b =? WUPS_END2); [|done].
  destruct (deliver_frame e k) as [k' acts]; destruct Hd as [Hr Hd].
  cbn; rewrite Hr; split; [done|exact Hd].
Qed.

Lemma rx_bytes_sim l k r :
  lk_rx k = to_esp r ->
  let '(r', os) := feed r (map fst l) in
  let '(k', acts) := rx_bytes k l in
  lk_rx k' = to_esp r' /\
  (served_of k', acts) =
    let '(s, a) := run serve (served_of k) (zip os (map snd l)) in (s, concat a).
Proof.
  revert k r; induction l as [|[b e] l IH]; intros k r Hk; [done|].
  pose proof (rx_byte_sim e k r b Hk) as Hb; cbn [map fst snd rx_bytes]; rewrite feed_cons.
  destruct (wups_rx_byte r b) as [r1 o], (rx_byte e k b) as [k1 acts]; destruct Hb as [Hk1 Hs].
  specialize (IH k1 r1 Hk1); destruct (feed r1 (map fst l)) as [r2 os], (rx_bytes k1 l) as [k2 acts2].
  cbn [zip zip_with run]; rewrite <- Hs; destruct IH as [IH1 IH2]; split; [exact IH1|].
  destruct (run serve (served_of k1) _) as [s as_]; cbn [concat]; congruence.
Qed.
End Simulation.

(** C31: the ESP32's deframer is the CH32X's.  On every byte stream it passes through
    corresponding states, and the frames it delivers are exactly those the CH32X
    machine delivers at the same bytes; each one addressed to this node, to all
    or to the internal group is dispatched once, in order, in the environment of
    its last byte, and the frame counters and the age stamp follow. *)
Theorem esp_deframer_equiv l :
  let '(r', os) := feed wups_rx_init (map fst l) in
  let '(k', acts) := rx_bytes link_init l in
  lk_rx k' = to_esp r' /\
  (served_of k', acts) =
    let '(s, a) := run serve (served_of link_init) (zip os (map snd l)) in (s, concat a).
Proof. exact (rx_bytes_sim l link_init wups_rx_init eq_refl). Qed.

(** Dispatching frames one after the other. *)
Fixpoint dispatch_all (e : env) (p : port) (fs : list frame) : port * list act :=
  match fs with
  | [] => (p, [])
  | f :: fs =>
      let '(p, acts) := on_local_frame e p f in
      let '(p, acts') := dispatch_all e p fs in
      (p, acts ++ acts')
  end.

Section Streams.
Implicit Types (e : env) (s : served).

Lemma run_serve_dispatch e os s :
  let '(s', a) := run serve s (map (fun o => (o, e)) os) in
  (sv_port s', concat a) = dispatch_all e (sv_port s) (List.filter for_us (omap id os)).
Proof.
  revert s; induction os as [|[f|] os IH]; intros s; [done|..].
  - change (omap id (Some f :: os)) with (f :: omap id os); cbn [map run List.filter]; unfold serve at 1.
    destruct (for_us f); cbn [dispatch_all].
    + destruct (on_local_frame e (sv_port s) f) as [p acts]; set (s1 := Served _ _ _ _).
      specialize (IH s1); change (sv_port s1) with p in IH.
      destruct (run serve s1 _) as [s2 a2]; cbn [concat].
      rewrite <- IH; done.
    + specialize (IH s); destruct (run serve s _) as [s2 a2]; cbn [concat app].
      exact IH.
  - change (omap id (None :: os)) with (omap id os); specialize (IH s); cbn [map run serve].
    destruct (run serve s _) as [s2 a2]; cbn [concat app]; exact IH.
Qed.

Lemma zip_const {A B} (l : list A) (e : B) {C} (l' : list C) :
  length l = length l' -> zip l (map (fun _ => e) l') = map (fun x => (x, e)) l.
Proof.
  revert l'; induction l as [|a l IH]; intros [|c l'] Hl; try done; cbn; f_equal; apply IH.
  injection Hl as Hl; done.
Qed.
End Streams.

(** End to end.  Frames of at most 240 payload bytes, written as the senders of
    all nodes write them with any bytes but SYNC1 in between, are dispatched
    exactly once each and in order, those addressed elsewhere left out; the state
    of the sender and the trust prompt is the one that dispatching them one after
    the other leaves. *)
Theorem esp_stream_dispatched e l :
  Forall (fun gf => Forall (fun b => b <> WUPS_SYNC1) gf.1 /\ frame_len gf.2 <= WUPS_MAX_PAYLOAD) l ->
  let bytes := concat (map (fun gf : list Z * frame => gf.1 ++ frame_bytes gf.2) l) in
  let '(k', acts) := rx_bytes link_init (map (fun b => (b, e)) bytes) in
  (lk_port k', acts) = dispatch_all e port_init (List.filter for_us (map snd l)).
Proof.
  intros Hl bytes; pose proof (feed_frames l wups_rx_init eq_refl eq_refl Hl) as Hd.
  fold bytes in Hd; unfold delivered in Hd.
  pose proof (rx_bytes_sim (map (fun b => (b, e)) bytes) link_init wups_rx_init eq_refl) as Hs.
  rewrite !map_map in Hs; cbn [fst snd] in Hs; rewrite map_id in Hs.
  pose proof (run_length wups_rx_byte wups_rx_init bytes) as Hn; fold feed in Hn.
  destruct (feed wups_rx_init bytes) as [r' os]; destruct (rx_bytes _ _) as [k' acts].
  destruct Hs as [_ Hs]; cbn [snd] in Hd, Hn; rewrite zip_const in Hs by done.
  pose proof (run_serve_dispatch e os (served_of link_init)) as Hr; rewrite Hd in Hr.
  destruct (run serve _ _) as [s a]; injection Hs as <- ->; exact Hr.
Qed.

Lemma esp_stream_dispatched_witness :
  let ping := Frame WUPS_ADDR_ESP32 WUPS_ADDR_RP2040 WUPS_CLASS_SYSTEM WUPS_OP_SYS_PING WUPS_FLAG_REQ 7 [] in
  (rx_bytes link_init (map (fun b => (b, env_sample)) (frame_bytes ping ++ [0] ++ frame_bytes ping_frame))).2 =
  [Uart_write (frame_bytes (Frame WUPS_ADDR_RP2040 WUPS_ADDR_ESP32 WUPS_CLASS_SYSTEM WUPS_OP_SYS_PING
     WUPS_FLAG_RESP 7 ([1; 0; 7; 0; 136; 19; 0; 0] ++ [101])) ++ [0])].
Proof.
  intros ping.
  assert (Forall (fun gf : list Z * frame => Forall (fun b => b <> WUPS_SYNC1) gf.1 /\
    frame_len gf.2 <= WUPS_MAX_PAYLOAD) [([], ping); ([0], ping_frame)]) as Hf.
  { repeat constructor; cbn; try discriminate; unfold frame_len; cbn; lia. }
  pose proof (esp_stream_dispatched env_sample _ Hf) as H; cbn [map concat fst snd app] in H.
  rewrite app_nil_r in H; cbn [app].
  destruct (rx_bytes _ _) as [k acts]; cbn [snd]; injection H as _ ->; vm_compute; reflexivity.
Defined.

(** ** The receive watchdog *)

(** The clock readings of an iteration follow [T], the end of the one before. *)
Definition clocks_from (T : Z) (i : rx_input) : Prop :=
  T <= in_t_feed i /\ in_t_feed i <= in_t_ota i <= in_t_recover i /\
  in_t_feed i <= in_t_now i /\ in_t_now i <= in_t_cmp i <= in_t_recover i.

Definition bytes_read (i : rx_input) : Z :=
  match in_bytes i with Some l => Z.of_nat (length l) | None => 0 end.

(** The runs of [rx_task] from its start at [t0], with their history: for each
    iteration, when its bytes had been processed and whether an addressed frame
    was among them; and the number of bytes read. *)
Inductive rx_reach (k0 : link) (t0 : Z) : list (Z * bool) -> Z -> Z -> link -> rx_locals -> Prop :=
  | Reach_start : rx_reach k0 t0 [] 0 t0 k0 (rx_task_start k0 t0)
  | Reach_iter h n T k v i k' v' acts :
      rx_reach k0 t0 h n T k v -> clocks_from T i ->
      rx_iter i k v = (k', v', acts, Rx_continue) ->
      rx_reach k0 t0 (h ++ [(in_t_feed i, negb (s_frames_rx_unicast k' =? s_frames_rx_unicast k))])
        (n + bytes_read i) (in_t_recover i) k' v'.

(** One rung of the ladder: a minute without a frame, then fifteen seconds. *)
Definition RUNG_US : Z := 74999001.

(** [F]: the last feed (or the start); [R]: the start of the current window. *)
Record wd_inv (t0 : Z) (h : list (Z * bool)) (n F R T : Z) (k : link) (v : rx_locals) : Prop := WdInv {
  wi_order : 0 <= t0 /\ t0 <= F <= R /\ R <= T;
  wi_ref : wd_ref_ms v = now_ms32 R;
  wi_seen : frames_seen v = s_frames_rx_unicast k;
  wi_cycles : 0 <= recovery_cycles v /\ F + recovery_cycles v * RUNG_US <= R;
  wi_pings : 0 <= pings_sent v <= 2;
  wi_pinged : 1 <= pings_sent v -> R + 59999001 <= T;
  wi_last : last_ping_us v <= T;
  wi_second : pings_sent v = 2 -> R + 59999001 <= last_ping_us v;
  wi_silent : forall t fed, In (t, fed) h -> F < t -> fed = false;
  wi_bytes : exists g, 0 <= g <= n /\ u32 (s_bytes_rx k - bytes_at_last_frame v) = u32 g
}.

Section Watchdog.
Implicit Types (k : link) (v : rx_locals) (i : rx_input).

Lemma u32_sub a b : u32 (u32 a - u32 b) = u32 (a - b).
Proof. unfold u32; rewrite Zminus_mod_idemp_l, Zminus_mod_idemp_r; done. Qed.
Lemma u32_le z : 0 <= z -> u32 z <= z.
Proof. intros; apply Z.mod_le; lia. Qed.

Lemma ms_elapsed R t : R <= t -> 60000 <= u32 (now_ms32 t - now_ms32 R) -> R + 59999001 <= t.
Proof.
  intros Ht; unfold now_ms32; rewrite u32_sub; intros H.
  pose proof (Z.div_le_mono R t 1000 ltac:(lia) Ht).
  pose proof (u32_le (t / 1000 - R / 1000) ltac:(lia)).
  pose proof (Z.div_mod t 1000); pose proof (Z.div_mod R 1000).
  pose proof (Z.mod_pos_bound t 1000); pose proof (Z.mod_pos_bound R 1000); lia.
Qed.

(** What reading leaves alone, and the byte counter. *)
Lemma rx_byte_bytes e k b : s_bytes_rx (rx_byte e k b).1 = s_bytes_rx k.
Proof.
  unfold rx_byte, deliver_frame, count_bad, count_resync.
  destruct (e_state (lk_rx k)); cbn; repeat case_match; cbn; try done.
  all: simplify_eq/=; repeat case_match; simplify_eq/=; done.
Qed.

Lemma rx_bytes_bytes l k : s_bytes_rx (rx_bytes k l).1 = s_bytes_rx k.
Proof.
  revert k; induction l as [|[b e] l IH]; intros k; [done|]; cbn [rx_bytes].
  pose proof (rx_byte_bytes e k b) as Hb; destruct (rx_byte e k b) as [k1 a1].
  specialize (IH k1); destruct (rx_bytes k1 l) as [k2 a2]; cbn in *; congruence.
Qed.

Lemma rx_read_bytes k l :
  u32 (s_bytes_rx (rx_read k l).1) = u32 (s_bytes_rx k + Z.of_nat (length l)).
Proof.
  unfold rx_read; destruct (Z.ltb_spec 0 (Z.of_nat (length l))) as [H|H].
  - set (k1 := k <| s_bytes_rx := _ |>); pose proof (rx_bytes_bytes l k1) as E.
    destruct (rx_bytes k1 l) as [k2 a]; cbn [fst] in E.
    case_match; cbn; rewrite E; cbn; unfold u32; apply Zmod_mod.
  - pose proof (rx_bytes_bytes l k) as E; destruct (rx_bytes k l) as [k2 a]; cbn [fst] in E.
    case_match; cbn; rewrite E; f_equal; lia.
Qed.

(** Feeding keeps the invariant and starts a new ladder when a frame came. *)
Lemma wd_feed_inv t0 h n F R T k v l i :
  in_bytes i = Some l -> clocks_from T i -> wd_inv t0 h n F R T k v ->
  let k' := (rx_read k l).1 in
  let fed := negb (s_frames_rx_unicast k' =? s_frames_rx_unicast k) in
  exists F' R', wd_inv t0 (h ++ [(in_t_feed i, fed)]) (n + bytes_read i) F' R' (in_t_feed i) k'
                  (wd_feed (in_t_feed i) k' v).
Proof.
  intros Hi Hc [H1 H2 H3 H4 H5 H6 H6' H7 H8 (g & Hg & Hg')] k' fed; unfold clocks_from in Hc.
  pose proof (rx_read_bytes k l) as Hb; fold k' in Hb; unfold bytes_read; rewrite Hi.
  unfold wd_feed; rewrite H3; fold fed; destruct fed eqn:Hf.
  - exists (in_t_feed i), (in_t_feed i); constructor; cbn; try done; try lia.
    + intros t f [Hin|[[= <- <-]|[]]]%in_app_iff Ht; [|lia].
      apply (H8 t f Hin); lia.
    + exists 0; rewrite Z.sub_diag; split; [lia|done].
  - exists F, R; unfold fed in Hf; to_prop; constructor; try done; try lia.
    + intros t f [Hin|[[= <- <-]|[]]]%in_app_iff Ht; eauto.
    + exists (g + Z.of_nat (length l)); split; [lia|].
      unfold u32 in *; rewrite Zminus_mod, Hb, <- Zminus_mod.
      replace (s_bytes_rx k + Z.of_nat (length l) - bytes_at_last_frame v)
        with (s_bytes_rx k - bytes_at_last_frame v + Z.of_nat (length l)) by lia.
      rewrite Zplus_mod, Hg', <- Zplus_mod; done.
Qed.

(** The ladder. *)
Lemma watchdog_inv t0 h n F R k v i k' v' acts o :
  clocks_from (in_t_feed i) i -> wd_inv t0 h n F R (in_t_feed i) k v ->
  watchdog i k v = (k', v', acts, o) ->
  match o with
  | Rx_continue => exists R', wd_inv t0 h n F R' (in_t_recover i) k' v'
  | Rx_restart => F + 6 * RUNG_US <= in_t_now i /\ (0 < s_frames_rx k' \/ 4096 <= n)
  | Rx_reinstall_failed => F + RUNG_US <= in_t_now i
  end.
Proof.
  intros Hc [H1 H2 H3 H4 H5 H6 H6' H7 H8 (g & Hg & Hg')]; unfold clocks_from in Hc; unfold watchdog.
  pose proof (ms_elapsed R (in_t_cmp i) ltac:(lia)) as Hms; rewrite H2.
  destruct (Z.ltb_spec (u32 (now_ms32 (in_t_cmp i) - now_ms32 R)) WUPS_RX_IDLE_PING_MS) as [Hx|Hx].
  { intros [= <- <- <- <-]; exists R; constructor; try done; try lia; eauto. }
  specialize (Hms Hx); destruct (Z.ltb_spec (pings_sent v) 2) as [Hp|Hp].
  - destruct (_ || _) eqn:Hor.
    + destruct (wups_link_send _ _ _ _ _ _) as [p a]; intros [= <- <- <- <-].
      exists R; constructor; cbn; try done; try lia; eauto.
    + intros [= <- <- <- <-]; exists R; constructor; try done; try lia; eauto.
  - unfold WUPS_RX_PING_RETRY_MS, RUNG_US in *; destruct (Z.ltb_spec (in_t_now i - last_ping_us v) (15000 * 1000)) as [Hr|Hr].
    { intros [= <- <- <- <-]; exists R; constructor; unfold RUNG_US; try done; try lia; eauto. }
    specialize (H7 ltac:(lia)); unfold WUPS_RX_REBOOT_CYCLE, WUPS_RX_REBOOT_GARBAGE_MIN.
    cbn [recovery_cycles bytes_at_last_frame upd]; destruct (_ && _) eqn:Hreb.
    + intros [= <- <- <- <-]; to_prop; cbn in *; pose proof (u32_le g ltac:(lia)).
      apply orb_true_iff in H0 as [?|?]; to_prop; lia.
    + unfold rx_link_recover; destruct (in_reinstall_ok i); cbn [negb]; intros [= <- <- <- <-]; [|lia].
      exists (in_t_recover i); constructor; unfold RUNG_US; cbn; try done; try lia; eauto.
Qed.

(** A reinstall, successful or not, takes a rung. *)
Lemma watchdog_reinstall t0 h n F R k v i k' v' acts o :
  clocks_from (in_t_feed i) i -> wd_inv t0 h n F R (in_t_feed i) k v ->
  watchdog i k v = (k', v', acts, o) -> s_rx_reinstalls k' <> s_rx_reinstalls k -> F + RUNG_US <= in_t_now i.
Proof.
  intros Hc [H1 H2 H3 H4 H5 H6 H6' H7 H8 _]; unfold clocks_from in Hc; unfold watchdog, RUNG_US, WUPS_RX_PING_RETRY_MS in *.
  destruct (_ <? WUPS_RX_IDLE_PING_MS); [intros [= <- <- <- <-]; done|].
  destruct (Z.ltb_spec (pings_sent v) 2) as [Hp|Hp].
  { destruct (_ || _); [destruct (wups_link_send _ _ _ _ _ _)|]; intros [= <- <- <- <-]; done. }
  destruct (Z.ltb_spec (in_t_now i - last_ping_us v) (15000 * 1000)) as [Hr|Hr]; [intros [= <- <- <- <-]; done|].
  intros _ _; specialize (H7 ltac:(lia)); lia.
Qed.

Lemma rx_bytes_reinstalls l k : s_rx_reinstalls (rx_bytes k l).1 = s_rx_reinstalls k.
Proof.
  revert k; induction l as [|[b e] l IH]; intros k; cbn [rx_bytes]; [done|].
  assert (Hb : s_rx_reinstalls (rx_byte e k b).1 = s_rx_reinstalls k).
  { unfold rx_byte, count_resync, count_bad, deliver_frame; repeat (case_match; simplify_eq/=); done. }
  destruct (rx_byte e k b) as [k1 a1]; specialize (IH k1); destruct (rx_bytes k1 l) as [k2 a2]; cbn in *; congruence.
Qed.
Lemma rx_read_reinstalls l k : s_rx_reinstalls (rx_read k l).1 = s_rx_reinstalls k.
Proof.
  unfold rx_read; set (k0 := if 0 <? _ then _ else k).
  assert (H0 : s_rx_reinstalls k0 = s_rx_reinstalls k) by (subst k0; case_match; done).
  pose proof (rx_bytes_reinstalls l k0) as H; destruct (rx_bytes k0 l) as [k1 a1]; cbn [fst] in *; case_match; cbn; congruence.
Qed.

Lemma watchdog_unicast i k v k' v' acts o :
  watchdog i k v = (k', v', acts, o) -> s_frames_rx_unicast k' = s_frames_rx_unicast k.
Proof.
  unfold watchdog, rx_link_recover; intros H.
  repeat case_match; simplify_eq/=; done.
Qed.

Lemma wd_inv_start k0 t0 : 0 <= t0 -> wd_inv t0 [] 0 t0 t0 t0 k0 (rx_task_start k0 t0).
Proof.
  intros; constructor; cbn; try done; try lia.
  exists 0; rewrite Z.sub_diag; split; [lia|done].
Qed.

Lemma clocks_from_feed T i : clocks_from T i -> clocks_from (in_t_feed i) i.
Proof. unfold clocks_from; lia. Qed.

(** Time passing keeps the invariant. *)
Lemma wd_inv_later t0 h n F R T T' k v :
  T <= T' -> wd_inv t0 h n F R T k v -> wd_inv t0 h n F R T' k v.
Proof. intros HT []; constructor; try done; lia. Qed.

Lemma rx_iter_inv t0 h n F R T k v i k' v' acts o :
  0 <= n -> clocks_from T i -> wd_inv t0 h n F R T k v -> rx_iter i k v = (k', v', acts, o) ->
  let h' := h ++ [(in_t_feed i, negb (s_frames_rx_unicast k' =? s_frames_rx_unicast k))] in
  exists F', t0 <= F' /\ (forall t fed, In (t, fed) h' -> F' < t -> fed = false) /\
  (s_rx_reinstalls k' <> s_rx_reinstalls k -> F' + RUNG_US <= in_t_now i) /\
  match o with
  | Rx_continue => exists R', wd_inv t0 h' (n + bytes_read i) F' R' (in_t_recover i) k' v'
  | Rx_restart => F' + 6 * RUNG_US <= in_t_now i /\ (0 < s_frames_rx k' \/ 4096 <= n + bytes_read i)
  | Rx_reinstall_failed => F' + RUNG_US <= in_t_now i
  end.
Proof.
  intros Hn Hc Hinv; unfold rx_iter; destruct (in_bytes i) as [l|] eqn:Hi.
  - pose proof (wd_feed_inv t0 h n F R T k v l i Hi Hc Hinv) as (F' & R' & Hf).
    pose proof (rx_read_reinstalls l k) as Hrr.
    destruct (rx_read k l) as [k1 a1]; cbn [fst] in Hf, Hrr; set (v1 := wd_feed _ _ _) in *.
    destruct (in_ota i).
    + intros [= <- <- <- <-]; exists F'; pose proof Hf as [G1 G2 G3 G4 G5 G6 G6' G7 G8 G9].
      split_and!; [lia|exact G8|done|]; exists (in_t_ota i); unfold clocks_from in Hc.
      constructor; cbn; try done; lia.
    + destruct (watchdog i k1 v1) as [[[k2 v2] a2] o2] eqn:Hw; intros [= <- <- <- <-].
      assert (Hu : s_frames_rx_unicast k2 = s_frames_rx_unicast k1) by (eapply watchdog_unicast, Hw).
      pose proof (watchdog_inv _ _ _ _ _ _ _ _ _ _ _ _ (clocks_from_feed _ _ Hc) Hf Hw) as Hres.
      rewrite Hu; exists F'; pose proof Hf as [G1 _ _ _ _ _ _ _ G8 _].
      split_and!; [lia|exact G8| |exact Hres].
      rewrite <- Hrr; apply (watchdog_reinstall _ _ _ _ _ _ _ _ _ _ _ _ (clocks_from_feed _ _ Hc) Hf Hw).
  - intros [= <- <- <- <-]; exists F; destruct Hinv as [G1 G2 G3 G4 G5 G6 G6' G7 G8 (g & G9 & G10)].
    assert (Hs : forall t fed, In (t, fed) (h ++ [(in_t_feed i,
      negb (s_frames_rx_unicast k =? s_frames_rx_unicast k))]) -> F < t -> fed = false).
    { intros t f [Hin|[[= <- <-]|[]]]%in_app_iff Ht; [eauto|rewrite Z.eqb_refl; done]. }
    unfold clocks_from in Hc; split_and!; [lia|exact Hs|done|]; exists R; constructor; try done; try lia.
    unfold bytes_read; rewrite Hi; exists g; split; [lia|done].
Qed.

Lemma rx_reach_inv k0 t0 h n T k v :
  0 <= t0 -> rx_reach k0 t0 h n T k v -> 0 <= n /\ exists F R, wd_inv t0 h n F R T k v.
Proof.
  intros Ht0; induction 1 as [|h n T k v i k' v' acts _ (Hn & F & R & IH) Hc Hi].
  - split; [lia|]; exists t0, t0; apply wd_inv_start; done.
  - destruct (rx_iter_inv _ _ _ _ _ _ _ _ _ _ _ _ _ Hn Hc IH Hi) as (F' & _ & _ & _ & R' & H).
    split; [unfold bytes_read; case_match; lia|eauto].
Qed.

(** *** A dead link is reinstalled *)

Lemma age_grows T0 t ref :
  u32 (now_ms32 T0 - ref) < 2147483648 -> T0 + 60000000 <= t <= T0 + 1000000000 ->
  60000 <= u32 (now_ms32 t - ref).
Proof.
  intros Ha Ht; unfold now_ms32 in *.
  pose proof (u32_range (u32 (T0 / 1000) - ref)) as Hr.
  assert (Hd : 60000 <= t / 1000 - T0 / 1000 <= 1000001).
  { pose proof (Z.div_mod t 1000); pose proof (Z.div_mod T0 1000).
    pose proof (Z.mod_pos_bound t 1000); pose proof (Z.mod_pos_bound T0 1000); lia. }
  assert (E : u32 (u32 (t / 1000) - ref) = u32 (u32 (u32 (T0 / 1000) - ref) + (t / 1000 - T0 / 1000))).
  { unfold u32; rewrite Zminus_mod_idemp_l, Zplus_mod_idemp_l.
    replace ((T0 / 1000) mod 4294967296 - ref + (t / 1000 - T0 / 1000))
      with ((T0 / 1000) mod 4294967296 + (t / 1000 - T0 / 1000 - ref)) by lia.
    rewrite Zplus_mod_idemp_l; f_equal; lia. }
  rewrite E, u32_small; lia.
Qed.

(** An iteration at most a second long, with no OTA session, that receives no
    addressed frame and does not reinstall the driver. *)
Definition quiet_step (x y : Z * link * rx_locals) : Prop :=
  let '(T, k, v) := x in
  let '(T', k', v') := y in
  exists i l acts, in_bytes i = Some l /\ in_ota i = false /\ clocks_from T i /\
    T' = in_t_recover i /\ T' <= T + 1000000 /\ rx_iter i k v = (k', v', acts, Rx_continue) /\
    s_frames_rx_unicast k' = s_frames_rx_unicast k /\ ~ In Uart_reinstall acts.

(** The time a quiet run can have reached, by the number of probes sent. *)
Definition quiet_inv (T0 ref : Z) (x : Z * link * rx_locals) : Prop :=
  let '(T, k, v) := x in
  wd_ref_ms v = ref /\ frames_seen v = s_frames_rx_unicast k /\ 0 <= pings_sent v <= 2 /\ T0 <= T /\
  (pings_sent v = 0 -> T <= T0 + 61000000) /\
  (pings_sent v = 1 -> last_ping_us v <= T0 + 62000000 /\ T <= T0 + 78000000) /\
  (pings_sent v = 2 -> last_ping_us v <= T0 + 79000000 /\ T <= T0 + 95000000).

Lemma quiet_step_inv T0 ref x y :
  u32 (now_ms32 T0 - ref) < 2147483648 -> quiet_inv T0 ref x -> quiet_step x y -> quiet_inv T0 ref y.
Proof.
  destruct x as [[T k] v], y as [[T' k'] v']; cbn.
  intros Ha (Href & Hseen & Hp & HT & H0 & H1 & H2) (i & l & acts & Hi & Hota & Hc & -> & HG & He & Hu & Hno).
  unfold rx_iter in He; rewrite Hi, Hota in He; destruct (rx_read k l) as [k1 a1].
  destruct (watchdog i k1 _) as [[[k2 v2] a2] o2] eqn:Hw; injection He as <- <- <- ->.
  pose proof (watchdog_unicast _ _ _ _ _ _ _ Hw) as Hu2.
  assert (Hf : wd_feed (in_t_feed i) k1 v = v).
  { unfold wd_feed; rewrite Hseen, <- Hu, Hu2, Z.eqb_refl; done. }
  rewrite Hf in Hw; unfold clocks_from in Hc; unfold watchdog in Hw; rewrite Href in Hw.
  pose proof (age_grows T0 (in_t_cmp i) ref Ha) as Hage.
  destruct (Z.ltb_spec (u32 (now_ms32 (in_t_cmp i) - ref)) WUPS_RX_IDLE_PING_MS) as [Hx|Hx].
  { injection Hw as <- <- <-; assert (in_t_cmp i < T0 + 60000000) by (unfold WUPS_RX_IDLE_PING_MS in *; lia).
    split_and!; try done; lia. }
  unfold WUPS_RX_PING_RETRY_MS in Hw; destruct (Z.ltb_spec (pings_sent v) 2) as [Hlt|Hlt].
  - destruct (_ || _) eqn:Hor in Hw.
    + destruct (wups_link_send _ _ _ _ _ _); injection Hw as <- <- <-; cbn.
      split_and!; try done; lia.
    + injection Hw as <- <- <-; apply orb_false_iff in Hor as [? ?]; to_prop; split_and!; try done; lia.
  - destruct (Z.ltb_spec (in_t_now i - last_ping_us v) (15000 * 1000)).
    + injection Hw as <- <- <-; split_and!; try done; lia.
    + destruct (_ && _) in Hw; [done|]; unfold rx_link_recover in Hw.
      destruct (in_reinstall_ok i); cbn [negb] in Hw; [|done]; injection Hw as _ _ <-.
      destruct Hno; apply in_app_iff; right; left; done.
Qed.

End Watchdog.

(** C32: the receive watchdog restarts the processor only as a last resort.  Take the time
    since the last frame addressed to this node, or since the start of the task when there
    was none, whatever the bytes, the clock readings and the OTA pauses.  The task tears the
    driver down and sets it up again, successfully or not, only after one rung of the ladder
    (74.999 seconds).  It decides to restart the processor only after six rungs (449.9
    seconds), and only if some frame was received in this boot or 4096 bytes of garbage
    were, so a line that has been silent since the boot is no reason.  A reinstall that fails restarts the processor too
    (the ESP32 cannot go on without the driver): that restart comes after one rung. *)
Theorem watchdog_last_resort k0 t0 h n T k v i k' v' acts o :
  0 <= t0 -> rx_reach k0 t0 h n T k v -> clocks_from T i -> rx_iter i k v = (k', v', acts, o) ->
  exists F, t0 <= F /\
    (forall t fed, In (t, fed) (h ++ [(in_t_feed i, negb (s_frames_rx_unicast k' =? s_frames_rx_unicast k))]) ->
       F < t -> fed = false) /\
    (s_rx_reinstalls k' <> s_rx_reinstalls k \/ o <> Rx_continue -> F + RUNG_US <= in_t_now i) /\
    (o = Rx_restart ->
     F + 449994006 <= in_t_now i /\ (0 < s_frames_rx k' \/ WUPS_RX_REBOOT_GARBAGE_MIN <= n + bytes_read i)).
Proof.
  intros Ht0 Hr Hc Hi; destruct (rx_reach_inv _ _ _ _ _ _ _ Ht0 Hr) as (Hn & F & R & Hinv).
  destruct (rx_iter_inv _ _ _ _ _ _ _ _ _ _ _ _ _ Hn Hc Hinv Hi) as (F' & HF & Hs & Hre & Ho').
  exists F'; unfold RUNG_US, WUPS_RX_REBOOT_GARBAGE_MIN in *.
  split; [exact HF|split; [exact Hs|]]; destruct o; (split; [intros [H|H]; [exact (Hre H)|done || lia]|done || lia]).
Qed.

(** Running the task on given inputs, for concrete runs. *)
#[export] Instance clocks_from_dec T i : Decision (clocks_from T i).
Proof. unfold clocks_from; apply _. Defined.

Fixpoint rx_task_run (l : list rx_input) (h : list (Z * bool)) (n T : Z) (k : link) (v : rx_locals)
    : option (list (Z * bool) * Z * Z * link * rx_locals) :=
  match l with
  | [] => Some (h, n, T, k, v)
  | i :: l =>
      if decide (clocks_from T i) then
        match rx_iter i k v with
        | (k', v', _, Rx_continue) =>
            rx_task_run l (h ++ [(in_t_feed i, negb (s_frames_rx_unicast k' =? s_frames_rx_unicast k))])
              (n + bytes_read i) (in_t_recover i) k' v'
        | _ => None
        end
      else None
  end.

Lemma rx_task_run_reach k0 t0 l h n T k v h' n' T' k' v' :
  rx_reach k0 t0 h n T k v -> rx_task_run l h n T k v = Some (h', n', T', k', v') ->
  rx_reach k0 t0 h' n' T' k' v'.
Proof.
  revert h n T k v; induction l as [|i l IH]; intros h n T k v Hr; cbn; [intros [= <- <- <- <- <-]; done|].
  case_decide as Hc; [|done]; destruct (rx_iter i k v) as [[[k1 v1] a1] o] eqn:Hi; destruct o; try done.
  apply IH; eapply Reach_iter; eauto.
Qed.

(** A silent line, read once at each of the given seconds. *)
Definition silent_at (s : Z) : rx_input :=
  let t := s * 1000000 in RxInput (Some []) t false t t t t true.
Definition seen_link : link := link_init <| s_frames_rx := 1 |>.

Lemma silent_restart :
  exists h n k v k' v' acts,
    rx_reach seen_link 0 h n 525000000 k v /\ rx_iter (silent_at 540) k v = (k', v', acts, Rx_restart).
Proof.
  set (l := map silent_at [60; 75; 90; 150; 165; 180; 240; 255; 270; 330; 345; 360; 420; 435; 450; 510; 525]).
  destruct (rx_task_run l [] 0 0 seen_link (rx_task_start seen_link 0)) as [[[[[h n] T] k] v]|] eqn:E;
    [|exfalso; vm_compute in E; discriminate].
  pose proof (rx_task_run_reach _ _ _ _ _ _ _ _ _ _ _ _ _ (Reach_start seen_link 0) E) as Hr.
  vm_compute in E; injection E as <- <- <- <- <-.
  do 7 eexists; split; [exact Hr|vm_compute; reflexivity].
Qed.

(** Nine minutes of silence end in a restart, six rungs after the start. *)
Lemma watchdog_last_resort_witness :
  exists F, 0 <= F /\ F + 449994006 <= 540000000.
Proof.
  destruct silent_restart as (h & n & k & v & k' & v' & acts & Hr & Hi).
  assert (clocks_from 525000000 (silent_at 540)) as Hc by (apply (bool_decide_unpack _); vm_compute; exact I).
  destruct (watchdog_last_resort _ _ _ _ _ _ _ _ _ _ _ _ (Z.le_refl 0) Hr Hc Hi) as (F & HF & _ & _ & Ho).
  exists F; split; [exact HF|]; destruct (Ho eq_refl) as [Hn _]; exact Hn.
Defined.

(** A dead link is repaired.  From any state the task can reach (with a window
    shorter than 24 days), a run of iterations of at most one second each, outside
    OTA sessions, that receives no addressed frame and does not reinstall the
    driver lasts at most 95 seconds: two probes go out and then the driver is
    torn down and set up again, garbage on the line or not. *)
Theorem dead_link_reinstalled k0 t0 h n T0 k v T k' v' :
  0 <= t0 -> rx_reach k0 t0 h n T0 k v -> u32 (now_ms32 T0 - wd_ref_ms v) < 2147483648 ->
  rtc quiet_step (T0, k, v) (T, k', v') -> T <= T0 + 95000000.
Proof.
  intros Ht0 Hr Ha Hrun; destruct (rx_reach_inv _ _ _ _ _ _ _ Ht0 Hr) as (_ & F & R & Hinv).
  assert (Hq : quiet_inv T0 (wd_ref_ms v) (T, k', v')).
  { revert Hrun; apply (rtc_preserves quiet_step (quiet_inv T0 (wd_ref_ms v))).
    - intros x y; apply quiet_step_inv, Ha.
    - destruct Hinv; cbn; split_and!; try done; lia. }
  cbn in Hq; lia.
Qed.

Lemma dead_link_reinstalled_witness :
  exists k v, rtc quiet_step (0, seen_link, rx_task_start seen_link 0) (1000000, k, v) /\
    1000000 <= 0 + 95000000.
Proof.
  assert (exists k v, rtc quiet_step (0, seen_link, rx_task_start seen_link 0) (1000000, k, v))
    as (k & v & Hrun).
  { do 2 eexists; apply rtc_once; exists (silent_at 1), [], []; split_and!; try reflexivity; try discriminate.
    - apply (bool_decide_unpack _); vm_compute; exact I.
    - intros []. }
  exists k, v; split; [exact Hrun|].
  apply (dead_link_reinstalled seen_link 0 [] 0 0 seen_link (rx_task_start seen_link 0) 1000000 k v
    (Z.le_refl 0) (Reach_start seen_link 0) eq_refl Hrun).
Defined.
