(* ===== verification/AtText.v ===== *)
(** * Text of AT responses
    (firmware-ESP32-LTE-M/main/modem_radio_policy.c, modem_radio_policy.h)

    The text helpers the modem policies are built on: spans trimmed of
    horizontal space, complete lines, the classification of a cumulative
    response, named values and bounded decimal numbers.  A span is the list of
    its bytes.  modem_awake_policy.c and modem_uart_baud.c carry private copies
    of the same helpers. *)

From S2P Require Import Prelude.

(** ** Spans *)

(* src: firmware-ESP32-LTE-M/main/modem_radio_policy.c:20-23 horizontal_space *)
Definition horizontal_space (c : Z) : bool := (c =? 32) || (c =? 9) || (c =? 13).

Fixpoint ltrim (text : list Z) : list Z :=
  match text with
  | c :: rest => if horizontal_space c then ltrim rest else text
  | [] => []
  end.

(* src: firmware-ESP32-LTE-M/main/modem_radio_policy.c:25-34 trim *)
Definition trim (text : list Z) : list Z := rev (ltrim (rev (ltrim text))).

(* src: firmware-ESP32-LTE-M/main/modem_radio_policy.c:36-40 equals *)
Fixpoint equals (text literal : list Z) : bool :=
  match text, literal with
  | [], [] => true
  | c :: text, x :: literal => (c =? x) && equals text literal
  | _, _ => false
  end.

(* src: firmware-ESP32-LTE-M/main/modem_radio_policy.c:42-46 starts_with *)
Fixpoint starts_with (text literal : list Z) {struct literal} : bool :=
  match literal, text with
  | [], _ => true
  | x :: literal, c :: text => (c =? x) && starts_with text literal
  | _ :: _, [] => false
  end.

(** [memchr]: the index of the first occurrence. *)
Fixpoint memchr (c : Z) (l : list Z) : option nat :=
  match l with
  | [] => None
  | x :: l => if x =? c then Some O else S <$> memchr c l
  end.

(** The trimmed line and what remains after its LF. *)
(* src: firmware-ESP32-LTE-M/main/modem_radio_policy.c:49-58 next_line *)
Definition next_line (remaining : list Z) : option (list Z * list Z) :=
  match memchr 10 remaining with
  | None => None
  | Some n => Some (trim (take n remaining), drop (S n) remaining)
  end.

(** [while (next_line(&remaining, &line))]: the lines in order, and the fragment
    left in [remaining] at the end.  Each line consumes at least its LF. *)
Fixpoint lines_fuel (fuel : nat) (remaining : list Z) : list (list Z) * list Z :=
  match fuel, next_line remaining with
  | S fuel, Some (line, rest) => let '(ls, r) := lines_fuel fuel rest in (line :: ls, r)
  | _, _ => ([], remaining)
  end.
Definition lines (text : list Z) : list (list Z) * list Z := lines_fuel (length text) text.

(** ** Classification *)

(* src: firmware-ESP32-LTE-M/main/modem_radio_policy.h:11-11 MODEM_RADIO_RESPONSE_CAPACITY *)
Definition MODEM_RADIO_RESPONSE_CAPACITY : nat := 512.

(* src: firmware-ESP32-LTE-M/main/modem_radio_policy.h:22-26 modem_radio_response_status_t *)
Inductive modem_radio_response_status_t :=
  | MODEM_RADIO_RESPONSE_WAIT | MODEM_RADIO_RESPONSE_OK | MODEM_RADIO_RESPONSE_ERROR.

#[export] Instance response_status_eq_dec : EqDecision modem_radio_response_status_t.
Proof. solve_decision. Defined.

(** Printable ASCII, CR, LF or TAB. *)
(* src: firmware-ESP32-LTE-M/main/modem_radio_policy.c:66-70 modem_radio_response_status *)
Definition text_byte (c : Z) : bool :=
  negb (((c <? 32) && negb (c =? 13) && negb (c =? 10) && negb (c =? 9)) || (126 <? c)).

(* src: firmware-ESP32-LTE-M/main/modem_radio_policy.c:74-76 modem_radio_response_status *)
Definition error_line (line : list Z) : bool :=
  equals line (str "ERROR") || starts_with line (str "+CME ERROR:") ||
  starts_with line (str "+CMS ERROR:") || equals line (str "NO CARRIER") ||
  equals line (str "NO ANSWER") || equals line (str "BUSY").

(* src: firmware-ESP32-LTE-M/main/modem_radio_policy.c:71-83 modem_radio_response_status *)
Fixpoint status_lines (ok : bool) (ls : list (list Z)) : modem_radio_response_status_t :=
  match ls with
  | [] => if ok then MODEM_RADIO_RESPONSE_OK else MODEM_RADIO_RESPONSE_WAIT
  | line :: ls =>
      if error_line line then MODEM_RADIO_RESPONSE_ERROR
      else if equals line (str "OK") then
        if ok then MODEM_RADIO_RESPONSE_ERROR else status_lines true ls
      else status_lines ok ls
  end.

(* src: firmware-ESP32-LTE-M/main/modem_radio_policy.c:60-84 modem_radio_response_status *)
Definition modem_radio_response_status (response : list Z) : modem_radio_response_status_t :=
  if (MODEM_RADIO_RESPONSE_CAPACITY <=? length response)%nat then MODEM_RADIO_RESPONSE_ERROR
  else if (length response =? 0)%nat then MODEM_RADIO_RESPONSE_WAIT
  else if negb (forallb text_byte response) then MODEM_RADIO_RESPONSE_ERROR
  else status_lines false (lines response).1.

(** ** Values *)

(** 0, -1 and 1 of the source. *)
Inductive named := Other | Malformed | Value (value : list Z).

(* src: firmware-ESP32-LTE-M/main/modem_radio_policy.c:110-123 named_value *)
Definition named_value (line key : list Z) : named :=
  if negb (starts_with line key) then Other else
  let rest := drop (length key) line in
  match rest with
  | c :: _ => if negb (c =? 58) && negb (horizontal_space c) then Other else
              match trim rest with
              | 58 :: value => Value (trim value)
              | _ => Malformed
              end
  | [] => Malformed
  end.

Definition is_digit (c : Z) : bool := (48 <=? c) && (c <=? 57).

(** The digit loop: [value] so far and the digits taken; [None] on overflow. *)
(* src: firmware-ESP32-LTE-M/main/modem_radio_policy.c:130-135 take_unsigned *)
Fixpoint digits_loop (limit value : Z) (count : nat) (text : list Z) : option (Z * nat * list Z) :=
  match text with
  | c :: rest =>
      if is_digit c then
        let digit := c - 48 in
        if (limit - digit) / 10 <? value then None
        else digits_loop limit (value * 10 + digit) (S count) rest
      else Some (value, count, text)
  | [] => Some (value, count, [])
  end.

(* src: firmware-ESP32-LTE-M/main/modem_radio_policy.c:125-142 take_unsigned *)
Definition take_unsigned (text : list Z) : option (Z * list Z) :=
  match digits_loop UINT32_MAX 0 0 (trim text) with
  | Some (value, S _, rest) => Some (value, trim rest)
  | _ => None
  end.

(** ** Lemmas *)

Section Text.
Lemma equalsP text literal : equals text literal = true <-> text = literal.
Proof.
  revert literal; induction text as [|c text IH]; intros [|x literal]; cbn; try (split; congruence).
  rewrite andb_true_iff, Z.eqb_eq, IH; split; [intros [-> ->]; done|intros [= -> ->]; done].
Qed.
Lemma starts_withP text literal : starts_with text literal = true <-> literal `prefix_of` text.
Proof.
  revert text; induction literal as [|x literal IH]; intros text.
  - split; [intros _; apply prefix_nil|done].
  - destruct text as [|c text]; cbn; [split; [done|intros H; destruct (prefix_nil_not _ _ H)]|].
    rewrite andb_true_iff, Z.eqb_eq, IH; split.
    + intros [-> H]; apply prefix_cons, H.
    + intros H; split; [symmetry; eapply prefix_cons_inv_1, H|eapply prefix_cons_inv_2, H].
Qed.

Lemma ltrim_length l : (length (ltrim l) <= length l)%nat.
Proof. induction l as [|c l IH]; cbn; [lia|]; case_match; cbn; lia. Qed.

(** A text that neither starts nor ends with horizontal space is its own trim. *)
Definition visible (l : list Z) : Prop :=
  (forall c, head l = Some c -> horizontal_space c = false) /\
  (forall c, last l = Some c -> horizontal_space c = false).

Lemma visible_nil : visible [].
Proof. done. Qed.
Lemma visible_app c l1 l2 :
  horizontal_space c = false -> l2 <> [] -> visible l2 -> visible (c :: l1 ++ l2).
Proof.
  rewrite app_comm_cons; intros H1 H2 [_ Hl]; split; intros x Hc.
  - injection Hc as <-; done.
  - apply Hl; rewrite last_app in Hc; destruct (last l2) eqn:E; [done|].
    apply last_None in E; done.
Qed.
Lemma visible_cons c l : horizontal_space c = false -> visible l -> visible (c :: l).
Proof.
  intros Hc [Hh Hl]; split; [intros x [= <-]; done|]; intros x Hx.
  destruct l as [|y l]; [injection Hx as <-; done|apply Hl; done].
Qed.
Lemma visible_Forall l : Forall (fun c => horizontal_space c = false) l -> visible l.
Proof. induction 1; [apply visible_nil|apply visible_cons; done]. Qed.
Lemma visible_rev l : visible l -> visible (rev l).
Proof. intros [Hh Hl]; rewrite rev_alt; change (rev_append l []) with (reverse l); split; [rewrite head_reverse|rewrite last_reverse]; done. Qed.

Lemma ltrim_id l : visible l -> ltrim l = l.
Proof. intros [Hh _]; destruct l as [|c l]; [done|]; cbn; rewrite (Hh c eq_refl); done. Qed.

Lemma trim_visible l : visible l -> trim l = l.
Proof.
  intros Hv; unfold trim; rewrite (ltrim_id l Hv), ltrim_id by (apply visible_rev, Hv).
  apply rev_involutive.
Qed.

Lemma ltrim_spaces s l : forallb horizontal_space s = true -> ltrim (s ++ l) = ltrim l.
Proof.
  induction s as [|c s IH]; intros H; [done|]; cbn in H; apply andb_true_iff in H as [Hc H].
  cbn; rewrite Hc; auto.
Qed.

Lemma forallb_rev {A} (P : A -> bool) l : forallb P (rev l) = forallb P l.
Proof.
  induction l as [|x l IH]; [done|]; cbn; rewrite forallb_app, IH; cbn; rewrite andb_true_r.
  apply andb_comm.
Qed.

(** Surrounding horizontal space does not matter. *)
Lemma trim_spaces s1 s2 l :
  forallb horizontal_space s1 = true -> forallb horizontal_space s2 = true -> visible l ->
  trim (s1 ++ l ++ s2) = l.
Proof.
  intros H1 H2 Hv; unfold trim; rewrite ltrim_spaces by done.
  destruct l as [|c l].
  - cbn [app]; rewrite <- (app_nil_r s2), ltrim_spaces; done.
  - replace (ltrim ((c :: l) ++ s2)) with ((c :: l) ++ s2) by (cbn; rewrite (proj1 Hv c eq_refl); done).
    rewrite rev_app_distr, ltrim_spaces by (rewrite forallb_rev; done).
    rewrite ltrim_id by (apply visible_rev, Hv); apply rev_involutive.
Qed.

Lemma memchr_app c l1 l2 :
  Forall (fun x => x <> c) l1 -> memchr c (l1 ++ c :: l2) = Some (length l1).
Proof.
  induction 1 as [|x l1 Hx _ IH]; cbn; [rewrite Z.eqb_refl; done|].
  rewrite (proj2 (Z.eqb_neq x c) Hx), IH; done.
Qed.
Lemma memchr_None c l : Forall (fun x => x <> c) l -> memchr c l = None.
Proof.
  induction 1 as [|x l Hx _ IH]; cbn; [done|]; rewrite (proj2 (Z.eqb_neq x c) Hx), IH; done.
Qed.

Lemma next_line_app l1 l2 :
  Forall (fun x => x <> 10) l1 -> next_line (l1 ++ 10 :: l2) = Some (trim l1, l2).
Proof.
  intros H; unfold next_line; rewrite memchr_app by done.
  rewrite take_app_length, (cons_middle 10), app_assoc; f_equal; f_equal.
  apply drop_app_length'; rewrite length_app; cbn; lia.
Qed.

Lemma next_line_shorter l line rest : next_line l = Some (line, rest) -> (length rest < length l)%nat.
Proof.
  unfold next_line; destruct (memchr 10 l) as [n|] eqn:E; [|done]; intros [= <- <-].
  rewrite length_drop; destruct l; [done|cbn; lia].
Qed.

Lemma lines_fuel_enough f1 f2 l :
  (length l <= f1)%nat -> (length l <= f2)%nat -> lines_fuel f1 l = lines_fuel f2 l.
Proof.
  revert f2 l; induction f1 as [|f1 IH]; intros [|f2] l H1 H2; try done.
  - destruct l; [done|cbn in H1; lia].
  - destruct l; [done|cbn in H2; lia].
  - cbn; destruct (next_line l) as [[line rest]|] eqn:E; [|done].
    pose proof (next_line_shorter _ _ _ E); rewrite (IH f2 rest) by lia; done.
Qed.

(** The defining equation of the line loop. *)
Lemma lines_eq l :
  lines l = match next_line l with
            | Some (line, rest) => let '(ls, r) := lines rest in (line :: ls, r)
            | None => ([], l)
            end.
Proof.
  unfold lines; destruct l as [|c l]; [done|]; cbn [length lines_fuel].
  destruct (next_line (c :: l)) as [[line rest]|] eqn:E; [|done].
  pose proof (next_line_shorter _ _ _ E) as H; cbn in H.
  rewrite (lines_fuel_enough (length l) (length rest)) by lia; done.
Qed.

Lemma lines_app l1 l2 :
  Forall (fun x => x <> 10) l1 ->
  lines (l1 ++ 10 :: l2) = let '(ls, r) := lines l2 in (trim l1 :: ls, r).
Proof. intros H; rewrite lines_eq, next_line_app by done; done. Qed.

Lemma lines_nil : lines [] = ([], []).
Proof. done. Qed.

(** ** Decimal numbers *)

Definition horner (ds : list Z) (value : Z) : Z := fold_left (fun v c => v * 10 + (c - 48)) ds value.

Lemma horner_ge ds value : Forall (fun c => is_digit c = true) ds -> 0 <= value -> value <= horner ds value.
Proof.
  intros H; revert value; induction H as [|c ds Hc _ IH]; intros value Hv; cbn; [lia|].
  unfold is_digit in Hc; to_prop; specialize (IH (value * 10 + (c - 48)) ltac:(lia)).
  unfold horner in *; lia.
Qed.

Lemma digits_loop_ok limit ds value count rest :
  Forall (fun c => is_digit c = true) ds -> 0 <= value -> horner ds value <= limit ->
  match rest with [] => True | c :: _ => is_digit c = false end ->
  digits_loop limit value count (ds ++ rest) = Some (horner ds value, (length ds + count)%nat, rest).
Proof.
  intros H; revert value count; induction H as [|c ds Hc Hds IH]; intros value count Hv Hh Hr.
  - cbn; destruct rest as [|c rest]; [done|]; cbn; rewrite Hr; done.
  - cbn [app digits_loop]; rewrite Hc; pose proof Hc as Hd; unfold is_digit in Hd; to_prop.
    pose proof (horner_ge ds (value * 10 + (c - 48)) Hds ltac:(lia)) as Hge.
    change (horner (c :: ds) value) with (horner ds (value * 10 + (c - 48))) in *.
    destruct (Z.ltb_spec ((limit - (c - 48)) / 10) value) as [Hlt|Hlt].
    + pose proof (Z.div_mod (limit - (c - 48)) 10); pose proof (Z.mod_pos_bound (limit - (c - 48)) 10); lia.
    + rewrite IH by (done || lia); do 3 f_equal; cbn; lia.
Qed.

(** Overflow is refused. *)
Lemma digits_loop_overflow limit ds value count rest :
  Forall (fun c => is_digit c = true) ds -> 0 <= value <= limit -> limit < horner ds value ->
  digits_loop limit value count (ds ++ rest) = None.
Proof.
  intros H; revert value count; induction H as [|c ds Hc Hds IH]; intros value count Hv Hh; [cbn in Hh; lia|].
  cbn [app digits_loop]; rewrite Hc; pose proof Hc as Hd; unfold is_digit in Hd; to_prop.
  destruct (Z.ltb_spec ((limit - (c - 48)) / 10) value) as [Hlt|Hlt]; [done|].
  apply IH; [|exact Hh].
  pose proof (Z.div_mod (limit - (c - 48)) 10); pose proof (Z.mod_pos_bound (limit - (c - 48)) 10); lia.
Qed.

Lemma digit_visible c : is_digit c = true -> horizontal_space c = false.
Proof. unfold is_digit, horizontal_space; intros H; to_prop; repeat case_match; lia. Qed.
Lemma digits_visible ds : Forall (fun c => is_digit c = true) ds -> visible ds.
Proof. intros H; apply visible_Forall; eapply Forall_impl; [exact H|]; apply digit_visible. Qed.
End Text.
