(* ===== verification/ModemRadio.v ===== *)
(** * The modem's radio settings
    (firmware-ESP32-LTE-M/main/modem_radio_policy.c)

    Preparing CAT-M operation on bands 3 and 20 and resuming the radio.  The AT
    channel is the adapter the caller passes in: a class, with the modem and the
    line behind it as an arbitrary state. *)

From S2P Require Import Prelude AtText.

(** [at(context, command, response, capacity, timeout)]: the new state, the result
    and the contents of the response buffer, given what it held. *)
Class At (M : Type) := at_cmd : M -> list Z -> Z -> list Z -> M * bool * list Z.

(* src: firmware-ESP32-LTE-M/main/modem_radio_policy.c:6-7 timeouts *)
Definition RADIO_AT_TIMEOUT_MS : Z := 3000.
Definition RADIO_CFUN_TIMEOUT_MS : Z := 10000.

(* src: firmware-ESP32-LTE-M/main/modem_radio_policy.c:14-18 settings_result *)
Inductive settings_result := SETTINGS_INVALID | SETTINGS_MISMATCH | SETTINGS_MATCH.

(** ** Parsing *)

(** The loop of [read_scalar] over the lines of a response. *)
(* src: firmware-ESP32-LTE-M/main/modem_radio_policy.c:152-163 read_scalar *)
Fixpoint scan_scalar (key : list Z) (found : option Z) (terminal : bool) (ls : list (list Z)) : option Z :=
  match ls with
  | [] => found
  | line :: ls =>
      let terminal := terminal || equals line (str "OK") in
      match named_value line key with
      | Malformed => None
      | Other => scan_scalar key found terminal ls
      | Value text =>
          if terminal || bool_decide (is_Some found) then None else
          match take_unsigned text with
          | Some (value, []) => scan_scalar key (Some value) terminal ls
          | _ => None
          end
      end
  end.

(** The band loop.  The 32-byte array [seen] is one 256-bit integer: byte [band / 8],
    bit [band mod 8] is bit [band].  Each turn takes at least one digit. *)
(* src: firmware-ESP32-LTE-M/main/modem_radio_policy.c:189-203 read_bands *)
Fixpoint take_bands (fuel : nat) (count seen : Z) (text : list Z) : option (Z * Z) :=
  match fuel with
  | O => None
  | S fuel =>
      match take_unsigned text with
      | None => None
      | Some (band, text) =>
          if (band =? 0) || (255 <? band) then None
          else if Z.testbit seen band then None else
          let seen := Z.setbit seen band in
          let count := count + 1 in
          match text with
          | [] => Some (count, seen)
          | c :: text => if negb (c =? 44) then None else take_bands fuel count seen text
          end
      end
  end.

Definition quoted (s : list Z) : list Z := [34] ++ s ++ [34].

(** What a response says of the CAT-M bands: [None] is malformed. *)
(* src: firmware-ESP32-LTE-M/main/modem_radio_policy.c:172-208 read_bands (loop) *)
Fixpoint scan_bands (found : option bool) (terminal : bool) (ls : list (list Z)) : option bool :=
  match ls with
  | [] => found
  | line :: ls =>
      let terminal := terminal || equals line (str "OK") in
      match named_value line (str "+CBANDCFG") with
      | Malformed => None
      | Other => scan_bands found terminal ls
      | Value text =>
          if starts_with text (quoted (str "NB-IOT")) then scan_bands found terminal ls
          else if negb (starts_with text (quoted (str "CAT-M"))) || bool_decide (is_Some found) || terminal
          then None else
          match trim (drop 7 text) with
          | 44 :: text =>
              match take_bands (S (length text)) 0 0 text with
              | None => None
              | Some (count, seen) =>
                  scan_bands (Some ((count =? 2) && Z.testbit seen 3 && Z.testbit seen 20)) terminal ls
              end
          | _ => None
          end
      end
  end.

Section Policy.
Context {M : Type} `{A : At M}.

(** The response up to its NUL, when it is complete and successful. *)
(* src: firmware-ESP32-LTE-M/main/modem_radio_policy.c:86-99 exchange *)
Definition exchange (m : M) (command : list Z) (timeout_ms : Z) : M * option (list Z) :=
  let '(m, ok, buf) := at_cmd m command timeout_ms (replicate MODEM_RADIO_RESPONSE_CAPACITY 165) in
  if negb ok then (m, None) else
  match memchr 0 (take MODEM_RADIO_RESPONSE_CAPACITY buf) with
  | None => (m, None)
  | Some n =>
      let response := take n buf in
      if bool_decide (modem_radio_response_status response = MODEM_RADIO_RESPONSE_OK)
      then (m, Some response) else (m, None)
  end.

(* src: firmware-ESP32-LTE-M/main/modem_radio_policy.c:101-107 command_ok *)
Definition command_ok (m : M) (command : list Z) (timeout_ms : Z) : M * bool :=
  let '(m, r) := exchange m command timeout_ms in (m, bool_decide (is_Some r)).

(* src: firmware-ESP32-LTE-M/main/modem_radio_policy.c:144-164 read_scalar *)
Definition read_scalar (m : M) (command key : list Z) : M * option Z :=
  let timeout := if equals key (str "+CFUN") then RADIO_CFUN_TIMEOUT_MS else RADIO_AT_TIMEOUT_MS in
  let '(m, r) := exchange m command timeout in
  (m, match r with Some response => scan_scalar key None false (lines response).1 | None => None end).

(* src: firmware-ESP32-LTE-M/main/modem_radio_policy.c:166-209 read_bands *)
Definition read_bands (m : M) : M * settings_result :=
  let '(m, r) := exchange m (str "AT+CBANDCFG?") RADIO_AT_TIMEOUT_MS in
  (m, match r with
      | None => SETTINGS_INVALID
      | Some response =>
          match scan_bands None false (lines response).1 with
          | None => SETTINGS_INVALID
          | Some matches => if matches : bool then SETTINGS_MATCH else SETTINGS_MISMATCH
          end
      end).

(* src: firmware-ESP32-LTE-M/main/modem_radio_policy.c:211-221 read_settings *)
Definition read_settings (m : M) : M * settings_result :=
  let '(m, network) := read_scalar m (str "AT+CNMP?") (str "+CNMP") in
  match network with
  | None => (m, SETTINGS_INVALID)
  | Some network =>
      let '(m, preference) := read_scalar m (str "AT+CMNB?") (str "+CMNB") in
      match preference with
      | None => (m, SETTINGS_INVALID)
      | Some preference =>
          let '(m, bands) := read_bands m in
          (m, match bands with
              | SETTINGS_INVALID => SETTINGS_INVALID
              | SETTINGS_MATCH =>
                  if (network =? 38) && (preference =? 1) then SETTINGS_MATCH else SETTINGS_MISMATCH
              | SETTINGS_MISMATCH => SETTINGS_MISMATCH
              end)
      end
  end.

(* src: firmware-ESP32-LTE-M/main/modem_radio_policy.c:223-227 fail_closed *)
Definition fail_closed (m : M) : M * bool :=
  ((command_ok m (str "AT+CFUN=4") RADIO_CFUN_TIMEOUT_MS).1, false).

(** [a || b] of the failure conditions: [step] on success, else [fail_closed]. *)
Definition require (r : M * bool) (step : M -> M * bool) : M * bool :=
  let '(m, ok) := r in if ok : bool then step m else fail_closed m.

Definition reads_as (m : M) (command key : list Z) (expected : Z) : M * bool :=
  let '(m, v) := read_scalar m command key in (m, bool_decide (v = Some expected)).

(** The final readback of [modem_radio_prepare]. *)
Definition settings_match (m : M) : M * bool :=
  let '(m, s) := read_settings m in
  (m, match s with SETTINGS_MATCH => true | _ => false end).

Definition set_bands : list Z := str "AT+CBANDCFG=" ++ quoted (str "CAT-M") ++ str ",3,20".

(* src: firmware-ESP32-LTE-M/main/modem_radio_policy.c:229-244 modem_radio_prepare *)
Definition modem_radio_prepare (m : M) : M * bool :=
  let '(m, initial) := read_settings m in
  match initial with
  | SETTINGS_MATCH => (m, true)
  | SETTINGS_INVALID => fail_closed m
  | SETTINGS_MISMATCH =>
      require (command_ok m (str "AT+CFUN=4") RADIO_CFUN_TIMEOUT_MS) (fun m =>
      require (reads_as m (str "AT+CFUN?") (str "+CFUN") 4) (fun m =>
      require (command_ok m (str "AT+CNMP=38") RADIO_AT_TIMEOUT_MS) (fun m =>
      require (command_ok m (str "AT+CMNB=1") RADIO_AT_TIMEOUT_MS) (fun m =>
      require (command_ok m set_bands RADIO_AT_TIMEOUT_MS) (fun m =>
      require (settings_match m) (fun m => (m, true)))))))
  end.

(* src: firmware-ESP32-LTE-M/main/modem_radio_policy.c:246-259 modem_radio_resume *)
Definition modem_radio_resume (m : M) : M * bool :=
  require (settings_match m) (fun m =>
  let '(m, functionality) := read_scalar m (str "AT+CFUN?") (str "+CFUN") in
  match functionality with
  | None => fail_closed m
  | Some functionality =>
      if functionality =? 1 then (m, true)
      else if negb (functionality =? 4) then fail_closed m else
      require (command_ok m (str "AT+CFUN=1") RADIO_CFUN_TIMEOUT_MS) (fun m =>
      require (reads_as m (str "AT+CFUN?") (str "+CFUN") 1) (fun m => (m, true)))
  end).
End Policy.

(** ** Replies of a conforming modem *)

Definition crlf : list Z := [13; 10].
Definition ok_reply : list Z := crlf ++ str "OK" ++ crlf.
Definition scalar_line (key ds : list Z) : list Z := key ++ [58; 32] ++ ds.
Definition scalar_reply (key ds : list Z) : list Z := crlf ++ scalar_line key ds ++ crlf ++ ok_reply.

(** A decimal numeral of [n]; a buffer's worth of leading zeros at most. *)
Definition numeral (ds : list Z) (n : Z) : Prop :=
  ds <> [] /\ Forall (fun c => is_digit c = true) ds /\ horner ds 0 = n /\ n <= UINT32_MAX /\
  (length ds <= 20)%nat.

Section Parsing.
Lemma numeral_digits ds n : numeral ds n -> Forall (fun c => is_digit c = true) ds.
Proof. intros (_ & H & _); exact H. Qed.

Lemma digit_bytes ds :
  Forall (fun c => is_digit c = true) ds -> Forall (fun c => c <> 10) ds /\ forallb text_byte ds = true.
Proof.
  intros H; split.
  - eapply Forall_impl; [exact H|]; intros c Hc; unfold is_digit in Hc; to_prop; lia.
  - rewrite forallb_forall; intros c Hin; rewrite List.Forall_forall in H; specialize (H c Hin).
    unfold is_digit in H; unfold text_byte; to_prop.
    destruct (Z.ltb_spec c 32), (Z.ltb_spec 126 c); try lia; done.
Qed.

(** The lines of one line of content followed by the terminal OK. *)
Lemma lines_ok : lines ok_reply = ([[]; str "OK"], []).
Proof. reflexivity. Qed.

Lemma lines_line line tail :
  visible line -> Forall (fun c => c <> 10) line ->
  lines (line ++ crlf ++ tail) = (line :: (lines tail).1, (lines tail).2).
Proof.
  intros Hv Hl; change (crlf ++ tail) with ([13] ++ 10 :: tail).
  rewrite (app_assoc line [13]), lines_app by (apply Forall_app; split; [done|repeat constructor; done]).
  destruct (lines tail) as [ls r]; cbn [fst snd]; do 2 f_equal.
  exact (trim_spaces [] [13] line eq_refl eq_refl Hv).
Qed.

Lemma lines_framed line tail :
  visible line -> Forall (fun c => c <> 10) line ->
  lines (crlf ++ line ++ crlf ++ tail) = ([] :: line :: (lines tail).1, (lines tail).2).
Proof.
  intros Hv Hl; change (crlf ++ line ++ crlf ++ tail) with ([] ++ crlf ++ (line ++ crlf ++ tail)).
  rewrite (lines_line []), lines_line by (done || constructor); done.
Qed.

Lemma take_unsigned_numeral ds n rest :
  numeral ds n -> visible rest -> (forall c, head rest = Some c -> is_digit c = false) ->
  take_unsigned (ds ++ rest) = Some (n, rest).
Proof.
  intros (Hne & Hds & Hv & Hmax & _) Hr Hd; unfold take_unsigned.
  assert (Hvis : visible (ds ++ rest)).
  { destruct rest as [|c rest]; [rewrite app_nil_r; apply digits_visible, Hds|].
    destruct ds as [|d ds]; [done|]; apply visible_app; [|done..].
    inversion_clear Hds; apply digit_visible; done. }
  rewrite trim_visible by done; rewrite digits_loop_ok.
  - destruct ds as [|d ds]; [done|]; cbn [length Nat.add]; rewrite Hv, trim_visible by done; done.
  - done.
  - lia.
  - lia.
  - destruct rest; [done|apply Hd; done].
Qed.

(** A key is printable text that starts with a plus sign. *)
Definition at_key (key : list Z) : Prop :=
  exists k, key = 43 :: k /\ Forall (fun c => c <> 10) k /\ forallb text_byte k = true.

Lemma named_value_line key value :
  at_key key -> value <> [] -> visible value -> named_value (scalar_line key value) key = Value value.
Proof.
  intros (k & -> & _) Hne Hv; unfold named_value, scalar_line.
  rewrite (proj2 (starts_withP _ _)) by (eexists; done).
  cbn [negb]; rewrite drop_app_length; cbn [app]; change (58 =? 58) with true; cbn [negb andb].
  rewrite trim_visible by (apply (visible_app 58 [32]); done).
  f_equal; pose proof (trim_spaces [32] [] value eq_refl eq_refl Hv) as H.
  rewrite app_nil_r in H; exact H.
Qed.

Lemma text_bytes_nonzero l : forallb text_byte l = true -> Forall (fun c => c <> 0) l.
Proof.
  rewrite forallb_forall, List.Forall_forall; intros H c Hin ->; specialize (H 0 Hin); done.
Qed.

(** Lines that do not start with the key's plus sign are other text. *)
Lemma named_value_other line key :
  at_key key -> (forall c, head line = Some c -> c <> 43) -> named_value line key = Other.
Proof.
  intros (k & -> & _) H; unfold named_value; destruct line as [|c line]; [done|].
  cbn [starts_with]; rewrite (proj2 (Z.eqb_neq c 43) (H c eq_refl)); done.
Qed.

(** A scalar reply is classified OK and read back. *)
Lemma scalar_reply_read key ds n :
  at_key key -> numeral ds n -> error_line (scalar_line key ds) = false -> (length key <= 100)%nat ->
  modem_radio_response_status (scalar_reply key ds) = MODEM_RADIO_RESPONSE_OK /\
  scan_scalar key None false (lines (scalar_reply key ds)).1 = Some n /\
  Forall (fun c => c <> 0) (scalar_reply key ds) /\ (length (scalar_reply key ds) < 512)%nat.
Proof.
  intros Hk Hn He Hlen; pose proof Hk as (k & Ek & Hk1 & Hk2); pose proof Hn as (Hne & Hds & _ & _ & Hl20).
  pose proof (digit_bytes ds Hds) as [Hd1 Hd2].
  assert (Hv : visible (scalar_line key ds)).
  { unfold scalar_line; rewrite Ek, app_assoc; apply (visible_app 43 (k ++ [58; 32])); auto using digits_visible. }
  assert (Hnl : Forall (fun c => c <> 10) (scalar_line key ds)).
  { unfold scalar_line; rewrite Ek; constructor; [done|]; rewrite !Forall_app; split_and!; try done.
    repeat constructor; done. }
  assert (Htb : forallb text_byte (scalar_reply key ds) = true).
  { unfold scalar_reply, scalar_line; rewrite Ek, !forallb_app; cbn [forallb]; rewrite Hk2, Hd2; done. }
  pose proof (lines_framed (scalar_line key ds) ok_reply Hv Hnl) as Hlines.
  rewrite lines_ok in Hlines; cbn [fst snd] in Hlines; fold (scalar_reply key ds) in Hlines.
  assert (Hll : (length (scalar_reply key ds) < 512)%nat).
  { unfold scalar_reply, scalar_line, ok_reply, crlf; rewrite !length_app; cbn; lia. }
  split_and!; [| |apply text_bytes_nonzero, Htb|done].
  - unfold modem_radio_response_status; destruct (Nat.leb_spec MODEM_RADIO_RESPONSE_CAPACITY (length (scalar_reply key ds)));
      [unfold MODEM_RADIO_RESPONSE_CAPACITY in *; lia|].
    rewrite Htb, Hlines; cbn [negb fst status_lines]; rewrite He.
    change (length (scalar_reply key ds) =? 0)%nat with false.
    replace (equals (scalar_line key ds) (str "OK")) with false by (rewrite Ek; done); done.
  - rewrite Hlines; cbn [fst scan_scalar].
    rewrite (named_value_other [] key Hk) by done.
    rewrite (named_value_other (str "OK") key Hk) by (intros c Hc; injection Hc as <-; done).
    rewrite named_value_line by auto using digits_visible.
    replace (equals (scalar_line key ds) (str "OK")) with false by (rewrite Ek; done).
    change (equals [] (str "OK")) with false; rewrite bool_decide_eq_false_2 by (intros [? ?]; done).
    cbn [orb]; rewrite <- (app_nil_r ds), (take_unsigned_numeral ds n []); done.
Qed.

(** *** Band lists *)

Definition band_tail (dss : list (list Z)) : list Z := concat (map (fun ds => 44 :: ds) dss).
Definition rat_line (rat : list Z) (dss : list (list Z)) : list Z :=
  scalar_line (str "+CBANDCFG") (quoted rat ++ band_tail dss).
Definition bands_reply (dss nb : list (list Z)) : list Z :=
  crlf ++ rat_line (str "CAT-M") dss ++ crlf ++ rat_line (str "NB-IOT") nb ++ crlf ++ ok_reply.

Lemma band_tail_visible dss :
  Forall (fun ds => Forall (fun c => is_digit c = true) ds) dss -> visible (band_tail dss).
Proof.
  intros H; apply visible_Forall; induction H as [|ds dss Hd _ IH]; [constructor|].
  constructor; [done|]; apply Forall_app; split; [|exact IH].
  eapply Forall_impl; [exact Hd|apply digit_visible].
Qed.

Lemma take_bands_ok fuel count seen ds dss b bs :
  numeral ds b -> Forall2 numeral dss bs -> NoDup (b :: bs) -> Forall (fun x => 1 <= x <= 255) (b :: bs) ->
  Forall (fun x => Z.testbit seen x = false) (b :: bs) -> (length dss < fuel)%nat ->
  take_bands fuel count seen (ds ++ band_tail dss) =
  Some (count + Z.of_nat (length (b :: bs)), fold_left Z.setbit (b :: bs) seen).
Proof.
  intros Hd Hds; revert fuel count seen ds b Hd.
  induction Hds as [|ds' b' dss bs Hd' Hds IH]; intros fuel count seen ds b Hd Hnd Hr Hs Hf;
    (destruct fuel as [|fuel]; [cbn in Hf; lia|]); cbn [take_bands].
  - change (band_tail []) with (@nil Z); rewrite (take_unsigned_numeral ds b []) by (done || apply visible_nil).
    inversion_clear Hr as [|? ? Hb _]; inversion_clear Hs as [|? ? Hsb _]; rewrite Hsb.
    destruct (Z.eqb_spec b 0), (Z.ltb_spec 255 b); try lia; cbn; do 2 f_equal; lia.
  - assert (Hvis : visible (band_tail (ds' :: dss))).
    { apply band_tail_visible; constructor; [eapply numeral_digits, Hd'|].
      clear -Hds; induction Hds; constructor; eauto using numeral_digits. }
    rewrite (take_unsigned_numeral ds b (band_tail (ds' :: dss))) by (done || (intros c [= <-]; done)).
    inversion_clear Hr as [|? ? Hb Hr']; inversion_clear Hs as [|? ? Hsb Hs']; rewrite Hsb.
    destruct (Z.eqb_spec b 0), (Z.ltb_spec 255 b); try lia; cbn [orb].
    change (band_tail (ds' :: dss)) with (44 :: ds' ++ band_tail dss); cbn [negb Z.eqb Pos.eqb].
    change (44 =? 44) with true; cbn [negb]; apply NoDup_cons in Hnd as [Hni Hnd].
    rewrite (IH fuel (count + 1) (Z.setbit seen b) ds' b'); try done; [|clear -Hni Hs' Hr' Hb|cbn in Hf; lia].
    + f_equal; f_equal; cbn [length]; lia.
    + rewrite List.Forall_forall in *; intros x Hx; rewrite Z.setbit_neq by
        (specialize (Hr' x Hx); try lia; intros ->; apply Hni, list_elem_of_In, Hx); auto.
Qed.

Lemma testbit_setbits bs seen i :
  Forall (fun x => 1 <= x <= 255) bs ->
  Z.testbit (fold_left Z.setbit bs seen) i = true <-> Z.testbit seen i = true \/ In i bs.
Proof.
  intros H; revert seen; induction H as [|b bs Hb _ IH]; intros seen; cbn [fold_left In]; [tauto|].
  rewrite IH, Z.setbit_iff by lia; tauto.
Qed.

(** Exactly bands 3 and 20. *)
Lemma bands_match bs :
  NoDup bs -> Forall (fun x => 1 <= x <= 255) bs ->
  (Z.of_nat (length bs) =? 2) && Z.testbit (fold_left Z.setbit bs 0) 3 &&
    Z.testbit (fold_left Z.setbit bs 0) 20 = bool_decide (bs ≡ₚ [3; 20]).
Proof.
  intros Hnd Hr; apply eq_true_iff_eq; rewrite !andb_true_iff, bool_decide_eq_true, Z.eqb_eq.
  rewrite !testbit_setbits, !Z.bits_0 by done; split.
  - intros [[Hl [?|H3]] [?|H20]]; try done.
    destruct bs as [|x [|y [|? ?]]]; cbn in *; try lia.
    destruct H3 as [->|[->|[]]], H20 as [E|[E|[]]]; subst; try lia; [done|apply Permutation_swap].
  - intros Hp; split; [split|].
    + apply Permutation_length in Hp; cbn in Hp; lia.
    + right; apply (Permutation_in _ (Permutation_sym Hp)); cbn; tauto.
    + right; apply (Permutation_in _ (Permutation_sym Hp)); cbn; tauto.
Qed.

Lemma cband_key : at_key (str "+CBANDCFG").
Proof. eexists; split; [reflexivity|split; [repeat constructor; discriminate|reflexivity]]. Qed.

Lemma band_tail_bytes dss :
  Forall (fun ds => Forall (fun c => is_digit c = true) ds) dss ->
  Forall (fun c => c <> 10) (band_tail dss) /\ forallb text_byte (band_tail dss) = true.
Proof.
  induction 1 as [|ds dss Hd _ [IH1 IH2]]; [split; [constructor|done]|].
  change (band_tail (ds :: dss)) with (44 :: ds ++ band_tail dss).
  destruct (digit_bytes ds Hd) as [H1 H2]; split.
  - constructor; [done|]; apply Forall_app; done.
  - cbn [forallb]; rewrite forallb_app, H2, IH2; done.
Qed.

(** A line of one radio technology: its shape, and what the scanner sees. *)
Lemma rat_line_ok rat dss :
  (rat = str "CAT-M" \/ rat = str "NB-IOT") ->
  Forall (fun ds => Forall (fun c => is_digit c = true) ds) dss ->
  visible (rat_line rat dss) /\ Forall (fun c => c <> 10) (rat_line rat dss) /\
  forallb text_byte (rat_line rat dss) = true /\ error_line (rat_line rat dss) = false /\
  equals (rat_line rat dss) (str "OK") = false /\
  named_value (rat_line rat dss) (str "+CBANDCFG") = Value (quoted rat ++ band_tail dss).
Proof.
  intros Hrat Hd; pose proof (band_tail_visible dss Hd) as Hv; destruct (band_tail_bytes dss Hd) as [H1 H2].
  assert (Hq : visible (quoted rat ++ band_tail dss)).
  { destruct dss as [|ds dss]; [rewrite app_nil_r; apply visible_Forall; destruct Hrat as [->| ->]; repeat constructor|].
    destruct Hrat as [->| ->]; apply (visible_app 34); done. }
  assert (Hne : quoted rat ++ band_tail dss <> []) by (destruct Hrat as [->| ->]; done).
  split_and!.
  - apply (visible_app 43 (drop 1 (str "+CBANDCFG") ++ [58; 32])); done.
  - unfold rat_line, scalar_line; rewrite !Forall_app; split_and!; try done;
      destruct Hrat as [->| ->]; repeat constructor; discriminate.
  - unfold rat_line, scalar_line; rewrite !forallb_app, H2; destruct Hrat as [->| ->]; done.
  - done.
  - done.
  - apply named_value_line; auto using cband_key.
Qed.

Lemma bands_reply_read ds dss b bs nb :
  numeral ds b -> Forall2 numeral dss bs -> NoDup (b :: bs) -> Forall (fun x => 1 <= x <= 255) (b :: bs) ->
  Forall (fun x => Forall (fun c => is_digit c = true) x) nb ->
  (length (bands_reply (ds :: dss) nb) < 512)%nat ->
  modem_radio_response_status (bands_reply (ds :: dss) nb) = MODEM_RADIO_RESPONSE_OK /\
  scan_bands None false (lines (bands_reply (ds :: dss) nb)).1 =
    Some (bool_decide (b :: bs ≡ₚ [3; 20])) /\
  Forall (fun c => c <> 0) (bands_reply (ds :: dss) nb).
Proof.
  intros Hd Hds Hnd Hr Hnb Hlen.
  assert (Hdd : Forall (fun ds => Forall (fun c => is_digit c = true) ds) (ds :: dss)).
  { constructor; [eapply numeral_digits, Hd|]; clear -Hds; induction Hds; constructor; eauto using numeral_digits. }
  destruct (rat_line_ok (str "CAT-M") (ds :: dss) (or_introl eq_refl) Hdd) as (A1 & A2 & A3 & A4 & A5 & A6).
  destruct (rat_line_ok (str "NB-IOT") nb (or_intror eq_refl) Hnb) as (B1 & B2 & B3 & B4 & B5 & B6).
  assert (Hl : (lines (bands_reply (ds :: dss) nb)).1 =
    [[]; rat_line (str "CAT-M") (ds :: dss); rat_line (str "NB-IOT") nb; []; str "OK"]).
  { unfold bands_reply; rewrite lines_framed, lines_line, lines_ok by done; done. }
  assert (Htb : forallb text_byte (bands_reply (ds :: dss) nb) = true).
  { unfold bands_reply; rewrite !forallb_app, A3, B3; done. }
  split_and!; [| |apply text_bytes_nonzero, Htb].
  - unfold modem_radio_response_status; destruct (Nat.leb_spec MODEM_RADIO_RESPONSE_CAPACITY (length (bands_reply (ds :: dss) nb)));
      [unfold MODEM_RADIO_RESPONSE_CAPACITY in *; lia|].
    rewrite Htb, Hl; cbn [negb status_lines]; rewrite A4, A5, B4, B5.
    change (length (bands_reply (ds :: dss) nb) =? 0)%nat with false; done.
  - rewrite Hl; cbn [scan_bands]; rewrite A5, B5, A6, B6.
    rewrite (named_value_other []), (named_value_other (str "OK"))
      by (apply cband_key || done || (intros c Hc; injection Hc as <-; done)).
    change (equals [] (str "OK")) with false; cbn [orb].
    change (starts_with (quoted (str "CAT-M") ++ band_tail (ds :: dss)) (quoted (str "NB-IOT"))) with false.
    change (starts_with (quoted (str "CAT-M") ++ band_tail (ds :: dss)) (quoted (str "CAT-M"))) with true.
    change (starts_with (quoted (str "NB-IOT") ++ band_tail nb) (quoted (str "NB-IOT"))) with true.
    rewrite bool_decide_eq_false_2 by (intros [? ?]; done); cbn [negb orb].
    change (drop 7 (quoted (str "CAT-M") ++ band_tail (ds :: dss))) with (band_tail (ds :: dss)).
    rewrite trim_visible by (apply band_tail_visible, Hdd).
    change (band_tail (ds :: dss)) with (44 :: ds ++ band_tail dss); cbn iota beta.
    rewrite (take_bands_ok _ 0 0 ds dss b bs); try done.
    + rewrite <- bands_match by done; done.
    + apply List.Forall_forall; intros; apply Z.bits_0.
    + rewrite length_app; enough (length dss <= length (band_tail dss))%nat by lia.
      clear; induction dss as [|x dss IH]; [cbn; lia|].
      change (band_tail (x :: dss)) with (44 :: x ++ band_tail dss); cbn; rewrite length_app; lia.
Qed.
End Parsing.

(** ** A modem that follows the command set *)

(** What the modem has stored, and whether its radio is on (1) or off (4). *)
Record radio_cfg := RadioCfg { rc_network : Z; rc_preference : Z; rc_bands : list Z; rc_cfun : Z }.

Definition radio_target (c : radio_cfg) : Prop :=
  rc_network c = 38 /\ rc_preference c = 1 /\ rc_bands c ≡ₚ [3; 20].
#[export] Instance radio_target_dec c : Decision (radio_target c).
Proof. unfold radio_target; apply _. Defined.

Section Conforming.
Context {M : Type} `{A : At M}.

(** The command completes with this reply in the buffer. *)
Definition answers (m : M) (command : list Z) (timeout : Z) (reply : list Z) (m' : M) : Prop :=
  exists junk, at_cmd m command timeout (replicate MODEM_RADIO_RESPONSE_CAPACITY 165) =
    (m', true, reply ++ 0 :: junk).

(** The documented behaviour of the commands, on the healthy states [cm_ok] of the
    channel: queries answer with the stored values, setters store them; network
    mode, preference and bands may be set while the radio is off. *)
Class Conforming := {
  cm_cfg : M -> radio_cfg;
  cm_ok : M -> Prop;
  cm_network m : cm_ok m -> exists ds m', answers m (str "AT+CNMP?") 3000 (scalar_reply (str "+CNMP") ds) m' /\
    numeral ds (rc_network (cm_cfg m)) /\ cm_cfg m' = cm_cfg m /\ cm_ok m';
  cm_preference m : cm_ok m -> exists ds m', answers m (str "AT+CMNB?") 3000 (scalar_reply (str "+CMNB") ds) m' /\
    numeral ds (rc_preference (cm_cfg m)) /\ cm_cfg m' = cm_cfg m /\ cm_ok m';
  cm_cfun m : cm_ok m -> exists ds m', answers m (str "AT+CFUN?") 10000 (scalar_reply (str "+CFUN") ds) m' /\
    numeral ds (rc_cfun (cm_cfg m)) /\ cm_cfg m' = cm_cfg m /\ cm_ok m';
  cm_bands m : cm_ok m -> exists ds dss b bs nb m',
    answers m (str "AT+CBANDCFG?") 3000 (bands_reply (ds :: dss) nb) m' /\
    (length (bands_reply (ds :: dss) nb) < 512)%nat /\ rc_bands (cm_cfg m) = b :: bs /\
    numeral ds b /\ Forall2 numeral dss bs /\ NoDup (b :: bs) /\ Forall (fun x => 1 <= x <= 255) (b :: bs) /\
    Forall (fun x => Forall (fun c => is_digit c = true) x) nb /\ cm_cfg m' = cm_cfg m /\ cm_ok m';
  cm_set_cfun m f : cm_ok m -> f = 1 \/ f = 4 -> exists m',
    answers m (if f =? 1 then str "AT+CFUN=1" else str "AT+CFUN=4") 10000 ok_reply m' /\
    cm_cfg m' = RadioCfg (rc_network (cm_cfg m)) (rc_preference (cm_cfg m)) (rc_bands (cm_cfg m)) f /\ cm_ok m';
  cm_set_network m : cm_ok m -> rc_cfun (cm_cfg m) = 4 -> exists m',
    answers m (str "AT+CNMP=38") 3000 ok_reply m' /\
    cm_cfg m' = RadioCfg 38 (rc_preference (cm_cfg m)) (rc_bands (cm_cfg m)) 4 /\ cm_ok m';
  cm_set_preference m : cm_ok m -> rc_cfun (cm_cfg m) = 4 -> exists m',
    answers m (str "AT+CMNB=1") 3000 ok_reply m' /\
    cm_cfg m' = RadioCfg (rc_network (cm_cfg m)) 1 (rc_bands (cm_cfg m)) 4 /\ cm_ok m';
  cm_set_bands m : cm_ok m -> rc_cfun (cm_cfg m) = 4 -> exists m',
    answers m set_bands 3000 ok_reply m' /\
    cm_cfg m' = RadioCfg (rc_network (cm_cfg m)) (rc_preference (cm_cfg m)) [3; 20] 4 /\ cm_ok m'
}.

Lemma exchange_answers m c t reply m' :
  answers m c t reply m' -> Forall (fun x => x <> 0) reply -> (length reply < 512)%nat ->
  modem_radio_response_status reply = MODEM_RADIO_RESPONSE_OK -> exchange m c t = (m', Some reply).
Proof.
  intros [junk E] Hz Hl Hs; unfold exchange; rewrite E; cbn [negb].
  unfold MODEM_RADIO_RESPONSE_CAPACITY; rewrite take_app_ge by lia.
  replace (take (512 - length reply) (0 :: junk)) with (0 :: take (511 - length reply) junk)
    by (replace (512 - length reply)%nat with (S (511 - length reply)) by lia; done).
  rewrite memchr_app, take_app_length, bool_decide_eq_true_2 by done; done.
Qed.

Lemma command_answers m c t m' : answers m c t ok_reply m' -> command_ok m c t = (m', true).
Proof.
  intros H; unfold command_ok; rewrite (exchange_answers m c t ok_reply m' H).
  - done.
  - repeat constructor; discriminate.
  - cbn; lia.
  - reflexivity.
Qed.

Lemma scalar_answers m c key t ds n m' :
  answers m c t (scalar_reply key ds) m' -> at_key key -> numeral ds n ->
  error_line (scalar_line key ds) = false -> (length key <= 100)%nat ->
  t = (if equals key (str "+CFUN") then RADIO_CFUN_TIMEOUT_MS else RADIO_AT_TIMEOUT_MS) ->
  read_scalar m c key = (m', Some n).
Proof.
  intros H Hk Hn He Hl ->; destruct (scalar_reply_read key ds n Hk Hn He Hl) as (H1 & H2 & H3 & H4).
  unfold read_scalar; rewrite (exchange_answers _ _ _ _ _ H H3 H4 H1), H2; done.
Qed.

Lemma at_key_lit (k : list Z) :
  forallb text_byte k && forallb (fun c => negb (c =? 10)) k = true -> at_key (43 :: k).
Proof.
  intros H; apply andb_true_iff in H as [H1 H2]; exists k; split_and!; try done.
  rewrite List.Forall_forall; rewrite forallb_forall in H2; intros c Hin; specialize (H2 c Hin); to_prop; done.
Qed.

Context {CM : Conforming}.

Lemma conf_network m : cm_ok m ->
  exists m', read_scalar m (str "AT+CNMP?") (str "+CNMP") = (m', Some (rc_network (cm_cfg m))) /\
    cm_cfg m' = cm_cfg m /\ cm_ok m'.
Proof.
  intros H; destruct (cm_network m H) as (ds & m' & Ha & Hn & Hc & Ho); exists m'; split_and!; try done.
  eapply scalar_answers; [exact Ha|apply at_key_lit; reflexivity|exact Hn|reflexivity|cbn; lia|reflexivity].
Qed.
Lemma conf_preference m : cm_ok m ->
  exists m', read_scalar m (str "AT+CMNB?") (str "+CMNB") = (m', Some (rc_preference (cm_cfg m))) /\
    cm_cfg m' = cm_cfg m /\ cm_ok m'.
Proof.
  intros H; destruct (cm_preference m H) as (ds & m' & Ha & Hn & Hc & Ho); exists m'; split_and!; try done.
  eapply scalar_answers; [exact Ha|apply at_key_lit; reflexivity|exact Hn|reflexivity|cbn; lia|reflexivity].
Qed.
Lemma conf_cfun m : cm_ok m ->
  exists m', read_scalar m (str "AT+CFUN?") (str "+CFUN") = (m', Some (rc_cfun (cm_cfg m))) /\
    cm_cfg m' = cm_cfg m /\ cm_ok m'.
Proof.
  intros H; destruct (cm_cfun m H) as (ds & m' & Ha & Hn & Hc & Ho); exists m'; split_and!; try done.
  eapply scalar_answers; [exact Ha|apply at_key_lit; reflexivity|exact Hn|reflexivity|cbn; lia|reflexivity].
Qed.

Lemma conf_settings m : cm_ok m ->
  exists m', read_settings m =
    (m', if decide (radio_target (cm_cfg m)) then SETTINGS_MATCH else SETTINGS_MISMATCH) /\
    cm_cfg m' = cm_cfg m /\ cm_ok m'.
Proof.
  intros H; destruct (conf_network m H) as (m1 & E1 & C1 & O1).
  destruct (conf_preference m1 O1) as (m2 & E2 & C2 & O2).
  destruct (cm_bands m2 O2) as (ds & dss & b & bs & nb & m3 & Ha & Hl & Hbs & Hd & Hds & Hnd & Hr & Hnb & C3 & O3).
  destruct (bands_reply_read ds dss b bs nb Hd Hds Hnd Hr Hnb Hl) as (B1 & B2 & B3).
  exists m3; split_and!; [|congruence|done]; unfold read_settings, read_bands; rewrite E1, E2.
  unfold RADIO_AT_TIMEOUT_MS; rewrite (exchange_answers _ _ _ _ _ Ha B3 Hl B1), B2, C1.
  unfold radio_target; rewrite <- Hbs, C2, C1; do 2 f_equal.
  destruct (Z.eqb_spec (rc_network (cm_cfg m)) 38), (Z.eqb_spec (rc_preference (cm_cfg m)) 1);
    repeat case_bool_decide; repeat case_decide; try done; tauto.
Qed.
End Conforming.

#[global] Arguments Conforming M {A}.

(** ** Bringing the radio up *)

Section BringUp.
Context {M : Type} {A : At M} {CM : Conforming M}.

Lemma conf_cfun_set m f : cm_ok m -> f = 1 \/ f = 4 ->
  exists m', command_ok m (if f =? 1 then str "AT+CFUN=1" else str "AT+CFUN=4") RADIO_CFUN_TIMEOUT_MS = (m', true) /\
    cm_cfg m' = RadioCfg (rc_network (cm_cfg m)) (rc_preference (cm_cfg m)) (rc_bands (cm_cfg m)) f /\ cm_ok m'.
Proof.
  intros Hm Hf; destruct (cm_set_cfun m f Hm Hf) as (m' & Ha & Hc & Ho).
  exists m'; split_and!; [apply command_answers; exact Ha|done|done].
Qed.

Lemma conf_reads_cfun m : cm_ok m ->
  exists m', reads_as m (str "AT+CFUN?") (str "+CFUN") (rc_cfun (cm_cfg m)) = (m', true) /\
    cm_cfg m' = cm_cfg m /\ cm_ok m'.
Proof.
  intros Hm; destruct (conf_cfun m Hm) as (m' & E & Hc & Ho); exists m'; split_and!; try done.
  unfold reads_as; rewrite E, bool_decide_eq_true_2; done.
Qed.

Lemma conf_settings_match m : cm_ok m -> radio_target (cm_cfg m) ->
  exists m', settings_match m = (m', true) /\ cm_cfg m' = cm_cfg m /\ cm_ok m'.
Proof.
  intros Hm Ht; destruct (conf_settings m Hm) as (m' & E & Hc & Ho); exists m'; split_and!; try done.
  unfold settings_match; rewrite E, decide_True; done.
Qed.

Lemma prepare_spec m : cm_ok m ->
  exists m', modem_radio_prepare m = (m', true) /\ cm_ok m' /\ radio_target (cm_cfg m') /\
    (radio_target (cm_cfg m) -> cm_cfg m' = cm_cfg m) /\
    (~ radio_target (cm_cfg m) -> rc_cfun (cm_cfg m') = 4).
Proof.
  intros Hm; destruct (conf_settings m Hm) as (m1 & E1 & C1 & O1); unfold modem_radio_prepare; rewrite E1.
  destruct (decide (radio_target (cm_cfg m))) as [Ht|Ht].
  { exists m1; rewrite C1; split_and!; done. }
  destruct (conf_cfun_set m1 4 O1 (or_intror eq_refl)) as (m2 & E2 & C2 & O2); cbn [Z.eqb Pos.eqb] in E2.
  rewrite E2; cbn [require].
  destruct (conf_reads_cfun m2 O2) as (m3 & E3 & C3 & O3); rewrite C2 in E3; cbn [rc_cfun] in E3.
  rewrite E3; cbn [require].
  destruct (cm_set_network m3 O3 ltac:(rewrite C3, C2; done)) as (m4 & E4 & C4 & O4).
  unfold RADIO_AT_TIMEOUT_MS; rewrite (command_answers _ _ _ _ E4); cbn [require].
  destruct (cm_set_preference m4 O4 ltac:(rewrite C4; done)) as (m5 & E5 & C5 & O5).
  rewrite (command_answers _ _ _ _ E5); cbn [require].
  destruct (cm_set_bands m5 O5 ltac:(rewrite C5; done)) as (m6 & E6 & C6 & O6).
  rewrite (command_answers _ _ _ _ E6); cbn [require].
  assert (Ht6 : radio_target (cm_cfg m6)) by (rewrite C6, C5, C4; done).
  destruct (conf_settings_match m6 O6 Ht6) as (m7 & E7 & C7 & O7); rewrite E7; cbn [require].
  exists m7; split_and!; try done; [rewrite C7; done|rewrite C7, C6; done].
Qed.

Lemma resume_spec m : cm_ok m -> radio_target (cm_cfg m) -> rc_cfun (cm_cfg m) = 1 \/ rc_cfun (cm_cfg m) = 4 ->
  exists m', modem_radio_resume m = (m', true) /\ cm_ok m' /\ radio_target (cm_cfg m') /\ rc_cfun (cm_cfg m') = 1.
Proof.
  intros Hm Ht Hf; destruct (conf_settings_match m Hm Ht) as (m1 & E1 & C1 & O1).
  unfold modem_radio_resume; rewrite E1; cbn [require].
  destruct (conf_cfun m1 O1) as (m2 & E2 & C2 & O2); rewrite E2, C1.
  assert (Ht2 : radio_target (cm_cfg m2)) by (rewrite C2, C1; done).
  destruct Hf as [Hf|Hf]; rewrite Hf; cbn [Z.eqb Pos.eqb negb].
  { exists m2; split_and!; try done; rewrite C2, C1; done. }
  destruct (conf_cfun_set m2 1 O2 (or_introl eq_refl)) as (m3 & E3 & C3 & O3); cbn [Z.eqb Pos.eqb] in E3.
  rewrite E3; cbn [require].
  destruct (conf_reads_cfun m3 O3) as (m4 & E4 & C4 & O4); rewrite C3 in E4; cbn [rc_cfun] in E4.
  rewrite E4; cbn [require]; exists m4; split_and!; try done; rewrite C4, C3; done.
Qed.
End BringUp.

(** ** Commands on the line *)

(** The same channel with the commands recorded. *)
#[export] Instance logged `{A : At M} : At (M * list (list Z)) := fun m c t buf =>
  let '(m', ok, buf) := at_cmd m.1 c t buf in ((m', m.2 ++ [c]), ok, buf).

Section Logged.
Context {M : Type} `{A : At M}.
Implicit Types (m : M * list (list Z)).

Lemma exchange_log m c t : (exchange m c t).1.2 = m.2 ++ [c].
Proof.
  unfold exchange, at_cmd, logged; destruct (at_cmd m.1 c t _) as [[m' ok] buf].
  destruct ok; cbn [negb]; [|done]; destruct (memchr 0 _); [|done]; case_bool_decide; done.
Qed.
Lemma command_ok_log m c t : (command_ok m c t).1.2 = m.2 ++ [c].
Proof. unfold command_ok; pose proof (exchange_log m c t); destruct (exchange m c t); done. Qed.
Lemma read_scalar_log m c key : (read_scalar m c key).1.2 = m.2 ++ [c].
Proof.
  unfold read_scalar; match goal with |- context [exchange m c ?t] =>
    pose proof (exchange_log m c t); destruct (exchange m c t) end; done.
Qed.
Lemma reads_as_log m c key v : (reads_as m c key v).1.2 = m.2 ++ [c].
Proof. unfold reads_as; pose proof (read_scalar_log m c key); destruct (read_scalar m c key); done. Qed.

Definition queries : list (list Z) := [str "AT+CNMP?"; str "AT+CMNB?"; str "AT+CBANDCFG?"].

(** Reading the settings sends the queries, in order, as far as it gets. *)
Lemma read_settings_log m :
  let '(m', s) := read_settings m in
  exists q, m'.2 = m.2 ++ q /\ q `prefix_of` queries /\ (s <> SETTINGS_INVALID -> q = queries).
Proof.
  unfold read_settings, read_bands, queries.
  pose proof (read_scalar_log m (str "AT+CNMP?") (str "+CNMP")) as H1.
  destruct (read_scalar m _ _) as [m1 [v1|]]; cbn [fst] in H1.
  2: { exists [str "AT+CNMP?"]; split_and!; [done|eexists; done|done]. }
  pose proof (read_scalar_log m1 (str "AT+CMNB?") (str "+CMNB")) as H2.
  destruct (read_scalar m1 _ _) as [m2 [v2|]]; cbn [fst] in H2.
  2: { exists [str "AT+CNMP?"; str "AT+CMNB?"]; rewrite H2, H1, <- app_assoc; split_and!; [done|eexists; done|done]. }
  pose proof (exchange_log m2 (str "AT+CBANDCFG?") RADIO_AT_TIMEOUT_MS) as H3.
  destruct (exchange m2 _ _) as [m3 r]; cbn [fst] in H3; eexists.
  rewrite H3, H2, H1, <- !app_assoc; split_and!; done.
Qed.

Lemma settings_match_log m :
  exists q, (settings_match m).1.2 = m.2 ++ q /\ q `prefix_of` queries.
Proof.
  unfold settings_match; pose proof (read_settings_log m) as H.
  destruct (read_settings m) as [m' s]; destruct H as (q & H1 & H2 & _); eauto.
Qed.

(** What a policy step leaves in the log: [base] commands without [AT+CFUN=1],
    and [AT+CFUN=4] last when it fails. *)
Definition closed (base : list (list Z)) (r : (M * list (list Z)) * bool) : Prop :=
  exists l, r.1.2 = base ++ l /\ ~ In (str "AT+CFUN=1") l /\
    (r.2 = false -> last l = Some (str "AT+CFUN=4")).

Lemma fail_closed_log m : closed m.2 (fail_closed m).
Proof.
  exists [str "AT+CFUN=4"]; unfold fail_closed; cbn [fst snd]; rewrite command_ok_log; split_and!; try done.
  intros [H|[]]; done.
Qed.

Lemma closed_extend base l r :
  ~ In (str "AT+CFUN=1") l -> closed (base ++ l) r -> closed base r.
Proof.
  intros Hl (l' & H1 & H2 & H3); exists (l ++ l'); rewrite H1, app_assoc; split_and!; try done.
  - rewrite in_app_iff; tauto.
  - intros Hr; rewrite last_app, H3; done.
Qed.

Lemma require_closed base (r : (M * list (list Z)) * bool) l step :
  r.1.2 = base ++ l -> ~ In (str "AT+CFUN=1") l -> (r.2 = true -> closed r.1.2 (step r.1)) ->
  closed base (require r step).
Proof.
  destruct r as [m [|]]; cbn; intros Hm Hl Hs; apply (closed_extend base l); try done; rewrite <- Hm.
  - apply Hs; done.
  - apply fail_closed_log.
Qed.

Lemma not_in_queries q c : q `prefix_of` queries -> ~ In c queries -> ~ In c q.
Proof. intros [k Hk] Hc Hin; apply Hc; rewrite Hk; apply in_app_iff; auto. Qed.

Lemma radio_on_not_queried : ~ In (str "AT+CFUN=1") queries.
Proof. intros [H|[H|[H|[]]]]; discriminate. Qed.

Lemma closed_nil m ok : ok = true -> closed m.2 (m, ok).
Proof. intros ->; exists []; rewrite app_nil_r; split_and!; [done|intros []|done]. Qed.

Lemma require_match_closed m (step : M * list (list Z) -> (M * list (list Z)) * bool) :
  (forall m, closed m.2 (step m)) -> closed m.2 (require (settings_match m) step).
Proof.
  intros Hs; destruct (settings_match_log m) as (q & E & Hp).
  eapply require_closed; [exact E|apply (not_in_queries q _ Hp radio_on_not_queried)|intros _; apply Hs].
Qed.

Ltac step_closed :=
  eapply require_closed; [apply command_ok_log || apply reads_as_log|intros [?|[]]; done|intros _].

Lemma prepare_closed m : closed m.2 (modem_radio_prepare m).
Proof.
  unfold modem_radio_prepare; pose proof (read_settings_log m) as H.
  destruct (read_settings m) as [m1 s]; destruct H as (q & Hq & Hp & _).
  apply (closed_extend m.2 q); [apply (not_in_queries q _ Hp radio_on_not_queried)|].
  rewrite <- Hq; destruct s.
  - apply fail_closed_log.
  - do 5 step_closed; apply require_match_closed; intros; apply closed_nil; done.
  - apply closed_nil; done.
Qed.

(** Resuming turns the radio on, so only the last command is constrained. *)
Lemma resume_last m :
  (modem_radio_resume m).2 = false -> last (modem_radio_resume m).1.2 = Some (str "AT+CFUN=4").
Proof.
  assert (Hf : forall m, last (fail_closed m).1.2 = Some (str "AT+CFUN=4")).
  { intros m0; unfold fail_closed; cbn [fst]; rewrite command_ok_log, last_snoc; done. }
  unfold modem_radio_resume, require; destruct (settings_match m) as [m1 [|]]; [|intros; apply Hf].
  destruct (read_scalar m1 _ _) as [m2 [v|]]; [|intros; apply Hf].
  destruct (v =? 1); [done|]; destruct (negb (v =? 4)); [intros; apply Hf|].
  destruct (command_ok m2 _ _) as [m3 [|]]; [|intros; apply Hf].
  destruct (reads_as m3 _ _ _) as [m4 [|]]; [done|intros; apply Hf].
Qed.
End Logged.

(** ** Properties *)

(** The radio policies fail closed.  Whatever the modem and the line do, a
    preparation that returns false has switched the radio off as its last
    command, no preparation ever switches it on, and a resume that returns false
    has switched it off as its last command as well. *)
Theorem radio_fails_closed {M} `{A : At M} (m : M) :
  (let '((_, log), ok) := modem_radio_prepare (m, []) in
   ~ In (str "AT+CFUN=1") log /\ (ok = false -> last log = Some (str "AT+CFUN=4"))) /\
  (let '((_, log), ok) := modem_radio_resume (m, []) in
   ok = false -> last log = Some (str "AT+CFUN=4")).
Proof.
  split.
  - pose proof (prepare_closed (m, [])) as (l & H1 & H2 & H3).
    destruct (modem_radio_prepare _) as [[m' log] ok]; cbn in *; subst; done.
  - pose proof (resume_last (m, [])) as H; destruct (modem_radio_resume _) as [[m' log] ok]; exact H.
Qed.

(** C37: the radio is configured and brought up.  With a modem that follows the command
    set and starts with its radio on or off (CFUN 1 or 4), preparation succeeds and leaves CAT-M on bands 3 and 20; settings that
    already matched are untouched, radio included, and others are changed with the
    radio off; resuming afterwards turns the radio on with the settings kept. *)
Theorem radio_brought_up {M} {A : At M} {CM : Conforming M} (m : M) :
  cm_ok m -> rc_cfun (cm_cfg m) = 1 \/ rc_cfun (cm_cfg m) = 4 ->
  exists m1 m2, modem_radio_prepare m = (m1, true) /\ radio_target (cm_cfg m1) /\
    (radio_target (cm_cfg m) -> cm_cfg m1 = cm_cfg m) /\
    (~ radio_target (cm_cfg m) -> rc_cfun (cm_cfg m1) = 4) /\
    modem_radio_resume m1 = (m2, true) /\ radio_target (cm_cfg m2) /\ rc_cfun (cm_cfg m2) = 1.
Proof.
  intros Hm Hf; destruct (prepare_spec m Hm) as (m1 & E1 & O1 & T1 & Hk & Hc).
  assert (Hf1 : rc_cfun (cm_cfg m1) = 1 \/ rc_cfun (cm_cfg m1) = 4).
  { destruct (decide (radio_target (cm_cfg m))) as [Ht|Ht]; [rewrite Hk|]; auto. }
  destruct (resume_spec m1 O1 T1 Hf1) as (m2 & E2 & _ & T2 & F2); exists m1, m2; split_and!; done.
Qed.

(** *** A concrete modem *)

Definition dec3 (n : Z) : list Z := [48 + n / 100; 48 + n / 10 mod 10; 48 + n mod 10].

Lemma dec3_numeral n : 0 <= n < 1000 -> numeral (dec3 n) n.
Proof.
  intros Hn; pose proof (Z.div_mod n 100); pose proof (Z.div_mod n 10); pose proof (Z.div_mod (n / 10) 10).
  pose proof (Z.mod_pos_bound n 100); pose proof (Z.mod_pos_bound n 10); pose proof (Z.mod_pos_bound (n / 10) 10).
  assert (n / 10 / 10 = n / 100) by (rewrite Z.div_div; [done|lia|lia]).
  assert (0 <= n / 100 < 10) by lia.
  unfold dec3; split_and!; try done.
  - repeat constructor; unfold is_digit; apply andb_true_iff; split; apply Z.leb_le; lia.
  - unfold horner; cbn [fold_left]; lia.
  - unfold UINT32_MAX; lia.
  - cbn; lia.
Qed.

Definition toy_band_reply (bs : list Z) : list Z := bands_reply (map dec3 bs) [].

#[export] Instance toy_modem : At radio_cfg := fun c cmd _ _ =>
  let '(RadioCfg n p bs f) := c in
  if equals cmd (str "AT+CNMP?") then (c, true, scalar_reply (str "+CNMP") (dec3 n) ++ [0])
  else if equals cmd (str "AT+CMNB?") then (c, true, scalar_reply (str "+CMNB") (dec3 p) ++ [0])
  else if equals cmd (str "AT+CFUN?") then (c, true, scalar_reply (str "+CFUN") (dec3 f) ++ [0])
  else if equals cmd (str "AT+CBANDCFG?") then (c, true, toy_band_reply bs ++ [0])
  else if equals cmd (str "AT+CFUN=1") then (RadioCfg n p bs 1, true, ok_reply ++ [0])
  else if equals cmd (str "AT+CFUN=4") then (RadioCfg n p bs 4, true, ok_reply ++ [0])
  else if equals cmd (str "AT+CNMP=38") && (f =? 4) then (RadioCfg 38 p bs f, true, ok_reply ++ [0])
  else if equals cmd (str "AT+CMNB=1") && (f =? 4) then (RadioCfg n 1 bs f, true, ok_reply ++ [0])
  else if equals cmd set_bands && (f =? 4) then (RadioCfg n p [3; 20] f, true, ok_reply ++ [0])
  else (c, true, crlf ++ str "ERROR" ++ crlf ++ [0]).

Definition toy_ok (c : radio_cfg) : Prop :=
  0 <= rc_network c < 1000 /\ 0 <= rc_preference c < 1000 /\ 0 <= rc_cfun c < 1000 /\
  rc_bands c <> [] /\ NoDup (rc_bands c) /\ Forall (fun x => 1 <= x <= 255) (rc_bands c) /\
  (length (rc_bands c) <= 50)%nat.

Lemma toy_bands_short bs : (length bs <= 50)%nat -> (length (toy_band_reply bs) < 512)%nat.
Proof.
  intros H; unfold toy_band_reply, bands_reply, rat_line, scalar_line, ok_reply; rewrite !length_app.
  assert (length (band_tail (map dec3 bs)) = 4 * length bs)%nat as ->; [|cbn; lia].
  clear; induction bs as [|b bs IH]; [done|]; cbn [map].
  change (band_tail (dec3 b :: map dec3 bs)) with (44 :: dec3 b ++ band_tail (map dec3 bs)).
  cbn [length]; rewrite length_app, IH; cbn; lia.
Qed.

Lemma toy_numerals bs :
  Forall (fun x => 1 <= x <= 255) bs -> Forall2 numeral (map dec3 bs) bs.
Proof. induction 1; cbn; constructor; [apply dec3_numeral; lia|done]. Qed.

#[export] Instance toy_conforming : Conforming radio_cfg.
Proof.
  refine {| cm_cfg := fun c : radio_cfg => c; cm_ok := toy_ok |}; intros [n p bs f];
    unfold toy_ok; cbn [rc_network rc_preference rc_bands rc_cfun].
  5: intros f0.
  all: intros (H1 & H2 & H3 & H4 & H5 & H6 & H7).
  1-3: do 2 eexists; split; [eexists []; reflexivity|]; split; [apply dec3_numeral; done|];
    split; [done|exact (conj H1 (conj H2 (conj H3 (conj H4 (conj H5 (conj H6 H7))))))].
  - destruct bs as [|b bs]; [done|]; exists (dec3 b), (map dec3 bs), b, bs, []; eexists.
    pose proof H6 as H6'; inversion_clear H6'.
    split; [eexists []; reflexivity|]; split; [exact (toy_bands_short (b :: bs) H7)|].
    split; [done|]; split; [apply dec3_numeral; lia|]; split; [apply toy_numerals; done|].
    split; [done|]; split; [done|]; split; [constructor|].
    split; [done|exact (conj H1 (conj H2 (conj H3 (conj H4 (conj H5 (conj H6 H7))))))].
  - intros [-> | ->]; (eexists; split; [eexists []; reflexivity|]; split; [done|]);
      refine (conj H1 (conj H2 (conj _ (conj H4 (conj H5 (conj H6 H7)))))); cbn; lia.
  - intros ->; eexists; split; [eexists []; reflexivity|]; split; [done|].
    refine (conj _ (conj H2 (conj _ (conj H4 (conj H5 (conj H6 H7)))))); cbn; lia.
  - intros ->; eexists; split; [eexists []; reflexivity|]; split; [done|].
    refine (conj H1 (conj _ (conj _ (conj H4 (conj H5 (conj H6 H7)))))); cbn; lia.
  - intros ->; eexists; split; [eexists []; reflexivity|]; split; [done|].
    refine (conj H1 (conj H2 (conj _ (conj _ (conj _ (conj _ _)))))); cbn; [lia|done| | |lia].
    + repeat constructor; rewrite ?elem_of_cons, ?elem_of_nil; lia.
    + repeat constructor; lia.
Defined.

Lemma radio_brought_up_witness :
  exists m1 m2, modem_radio_prepare (RadioCfg 2 3 [1; 8; 28] 1) = (m1, true) /\
    modem_radio_resume m1 = (m2, true) /\ rc_cfun m2 = 1.
Proof.
  destruct (radio_brought_up (RadioCfg 2 3 [1; 8; 28] 1)) as (m1 & m2 & E1 & _ & _ & _ & E2 & _ & F).
  - unfold cm_ok, toy_conforming, toy_ok; cbn; split_and!; try lia; try done.
    + repeat constructor; rewrite ?elem_of_cons, ?elem_of_nil; lia.
    + repeat constructor; lia.
  - left; reflexivity.
  - exists m1, m2; split; [exact E1|split; [exact E2|exact F]].
Defined.
