(* ===== verification/ModemAwake.v ===== *)
(** * Keeping the modem awake
    (firmware-ESP32-LTE-M/main/modem_awake_policy.c)

    Slow clock, PSM and eDRX are read back and switched off before PPP starts.
    The text helpers of the file are private copies of those in AtText. *)

From S2P Require Import Prelude AtText ModemRadio.

(* src: firmware-ESP32-LTE-M/main/modem_awake_policy.c:6-7 timeouts *)
Definition AWAKE_AT_TIMEOUT_MS : Z := 3000.
Definition AWAKE_CFUN_TIMEOUT_MS : Z := 10000.

(* src: firmware-ESP32-LTE-M/main/modem_awake_policy.c:14-18 awake_config *)
Record awake_config := AwakeConfig { slow_clock : Z; psm : Z; edrx : Z }.

(* src: firmware-ESP32-LTE-M/main/modem_awake_policy.c:20-25 tail_kind *)
Inductive tail_kind := TAIL_NONE | TAIL_PSM_REQUEST | TAIL_PSM_ACTIVE | TAIL_EDRX_ACTIVE.

(** ** Parsing *)

(* src: firmware-ESP32-LTE-M/main/modem_awake_policy.c:74-84 unrelated_fragment *)
Definition unrelated_fragment (remaining key : list Z) : bool :=
  let remaining := trim remaining in
  match remaining with
  | [] => true
  | _ =>
      if (length remaining <? length key)%nat
      then negb (equals remaining (take (length remaining) key))
      else match named_value remaining key with Other => true | _ => false end
  end.

(* src: firmware-ESP32-LTE-M/main/modem_awake_policy.c:105-113 take_comma *)
Definition take_comma (text : list Z) : option (list Z) :=
  match trim text with
  | c :: text => if negb (c =? 44) then None else Some (trim text)
  | [] => None
  end.

(* src: firmware-ESP32-LTE-M/main/modem_awake_policy.c:115-122 binary_string *)
Definition binary_string (text : list Z) (bits : nat) : bool :=
  (length text =? bits + 2)%nat && (byte_at text 0 =? 34) && (byte_at text (length text - 1) =? 34) &&
  forallb (fun c => (c =? 48) || (c =? 49)) (field 1 bits text).

(** One optional field of a tail. *)
(* src: firmware-ESP32-LTE-M/main/modem_awake_policy.c:134-142 optional_tail *)
Definition tail_field (kind : tail_kind) (fld : list Z) : bool :=
  match fld with
  | [] => true
  | _ =>
      match kind with
      | TAIL_PSM_ACTIVE => match take_unsigned fld with Some (_, []) => true | _ => false end
      | TAIL_PSM_REQUEST => binary_string fld 8
      | _ => binary_string fld 4
      end
  end.

(** The loop stops at the limit: [limit] turns remain.  Each turn takes a comma. *)
(* src: firmware-ESP32-LTE-M/main/modem_awake_policy.c:130-146 optional_tail (loop) *)
Fixpoint tail_loop (kind : tail_kind) (limit : nat) (text : list Z) : bool :=
  match text with
  | [] => true
  | _ =>
      match limit with
      | O => false
      | S limit =>
          match take_comma text with
          | None => false
          | Some text =>
              let n := default (length text) (memchr 44 text) in
              tail_field kind (trim (take n text)) && tail_loop kind limit (drop n text)
          end
      end
  end.

(* src: firmware-ESP32-LTE-M/main/modem_awake_policy.c:124-147 optional_tail *)
Definition optional_tail (text : list Z) (kind : tail_kind) : bool :=
  match kind with
  | TAIL_NONE => (length text =? 0)%nat
  | TAIL_PSM_REQUEST => tail_loop kind 4 text
  | TAIL_PSM_ACTIVE => tail_loop kind 5 text
  | TAIL_EDRX_ACTIVE => tail_loop kind 3 text
  end.

(* src: firmware-ESP32-LTE-M/main/modem_awake_policy.c:180-191 read_mode *)
Fixpoint scan_mode (key : list Z) (tail : tail_kind) (found : option Z) (terminal : bool)
    (ls : list (list Z)) : option Z :=
  match ls with
  | [] => found
  | line :: ls =>
      let terminal := terminal || equals line (str "OK") in
      match named_value line key with
      | Malformed => None
      | Other => scan_mode key tail found terminal ls
      | Value value =>
          if terminal || bool_decide (is_Some found) then None else
          match take_unsigned value with
          | Some (mode, value) =>
              if optional_tail value tail then scan_mode key tail (Some mode) terminal ls else None
          | None => None
          end
      end
  end.

(** The members of a CAT-M eDRX value: enabled, paging window and cycle. *)
(* src: firmware-ESP32-LTE-M/main/modem_awake_policy.c:213-216 read_edrx *)
Definition edrx_fields (value : list Z) : option Z :=
  match take_comma value with
  | None => None
  | Some value =>
  match take_unsigned value with
  | None => None
  | Some (enabled, value) =>
      if 1 <? enabled then None else
  match take_comma value with
  | None => None
  | Some value =>
  match take_unsigned value with
  | None => None
  | Some (ptw, value) =>
      if 15 <? ptw then None else
  match take_comma value with
  | None => None
  | Some value =>
  match take_unsigned value with
  | Some (cycle, []) => if 15 <? cycle then None else Some enabled
  | _ => None
  end end end end end end.

(* src: firmware-ESP32-LTE-M/main/modem_awake_policy.c:201-218 read_edrx (loop) *)
Fixpoint scan_edrx (found : option Z) (terminal : bool) (ls : list (list Z)) : option Z :=
  match ls with
  | [] => found
  | line :: ls =>
      let terminal := terminal || equals line (str "OK") in
      match named_value line (str "+CEDRX") with
      | Malformed => None
      | Other => scan_edrx found terminal ls
      | Value value =>
          match take_unsigned value with
          | None => None
          | Some (mode, value) =>
              if mode =? 2 then scan_edrx found terminal ls
              else if negb (mode =? 3) || terminal || bool_decide (is_Some found) then None
              else match edrx_fields value with
                   | Some enabled => scan_edrx (Some enabled) terminal ls
                   | None => None
                   end
          end
      end
  end.

(* src: firmware-ESP32-LTE-M/main/modem_awake_policy.c:232-235 all_off *)
Definition all_off (config : awake_config) : bool :=
  (slow_clock config =? 0) && (psm config =? 0) && (edrx config =? 0).

(** ** The policy *)

Section Policy.
Context {M : Type} `{A : At M}.

(** The value when the response is complete and nothing of the key is left over. *)
Definition complete (response key : list Z) (value : option Z) : option Z :=
  if unrelated_fragment (lines response).2 key then value else None.

(* src: firmware-ESP32-LTE-M/main/modem_awake_policy.c:173-193 read_mode *)
Definition read_mode (m : M) (command key : list Z) (tail : tail_kind) (timeout : Z) : M * option Z :=
  let '(m, r) := exchange m command timeout in
  (m, match r with
      | Some response => complete response key (scan_mode key tail None false (lines response).1)
      | None => None
      end).

(* src: firmware-ESP32-LTE-M/main/modem_awake_policy.c:195-220 read_edrx *)
Definition read_edrx (m : M) : M * option Z :=
  let '(m, r) := exchange m (str "AT+CEDRX?") AWAKE_AT_TIMEOUT_MS in
  (m, match r with
      | Some response => complete response (str "+CEDRX") (scan_edrx None false (lines response).1)
      | None => None
      end).

(* src: firmware-ESP32-LTE-M/main/modem_awake_policy.c:222-230 read_config *)
Definition read_config (m : M) : M * option awake_config :=
  let '(m, sc) := read_mode m (str "AT+CSCLK?") (str "+CSCLK") TAIL_NONE AWAKE_AT_TIMEOUT_MS in
  match sc with
  | None => (m, None)
  | Some sc =>
      if 1 <? sc then (m, None) else
      let '(m, ps) := read_mode m (str "AT+CPSMS?") (str "+CPSMS") TAIL_PSM_REQUEST AWAKE_AT_TIMEOUT_MS in
      match ps with
      | None => (m, None)
      | Some ps =>
          if 1 <? ps then (m, None) else
          let '(m, ed) := read_edrx m in
          (m, AwakeConfig sc ps <$> ed)
      end
  end.

(* src: firmware-ESP32-LTE-M/main/modem_awake_policy.c:243-247 modem_awake_verify_config *)
Definition modem_awake_verify_config (m : M) : M * bool :=
  let '(m, config) := read_config m in
  (m, match config with Some config => all_off config | None => false end).

(** [setting && !command_ok(...)]: nothing is sent when the setting is off. *)
Definition switch_off (setting : Z) (m : M) (command : list Z) : M * bool :=
  if setting =? 0 then (m, true) else command_ok m command AWAKE_AT_TIMEOUT_MS.

Definition cedrxs_off : list Z := str "AT+CEDRXS=0,4," ++ quoted (str "0000").

(** PSM or eDRX changes need the radio off, verified. *)
(* src: firmware-ESP32-LTE-M/main/modem_awake_policy.c:255-261 modem_awake_prepare *)
Definition radio_off_first (config : awake_config) (m : M) : M * bool :=
  if negb (psm config =? 0) || negb (edrx config =? 0) then
    let '(m, ok) := command_ok m (str "AT+CFUN=4") AWAKE_CFUN_TIMEOUT_MS in
    if negb ok then (m, false) else
    let '(m, f) := read_mode m (str "AT+CFUN?") (str "+CFUN") TAIL_NONE AWAKE_CFUN_TIMEOUT_MS in
    (m, bool_decide (f = Some 4))
  else (m, true).

(* src: firmware-ESP32-LTE-M/main/modem_awake_policy.c:249-269 modem_awake_prepare *)
Definition modem_awake_prepare (m : M) : M * bool :=
  let '(m, config) := read_config m in
  match config with
  | None => fail_closed m
  | Some config =>
      if all_off config then (m, true) else
      require (radio_off_first config m) (fun m =>
      require (switch_off (slow_clock config) m (str "AT+CSCLK=0")) (fun m =>
      require (switch_off (psm config) m (str "AT+CPSMS=0")) (fun m =>
      require (switch_off (edrx config) m cedrxs_off) (fun m =>
      require (modem_awake_verify_config m) (fun m => (m, true))))))
  end.

(* src: firmware-ESP32-LTE-M/main/modem_awake_policy.c:271-278 modem_awake_verify_active *)
Definition modem_awake_verify_active (m : M) : M * bool :=
  let '(m, p) := read_mode m (str "AT+CPSMRDP") (str "+CPSMRDP") TAIL_PSM_ACTIVE AWAKE_AT_TIMEOUT_MS in
  match p with
  | Some 0 =>
      let '(m, e) := read_mode m (str "AT+CEDRXRDP") (str "+CEDRXRDP") TAIL_EDRX_ACTIVE AWAKE_AT_TIMEOUT_MS in
      (m, bool_decide (e = Some 0))
  | _ => (m, false)
  end.
End Policy.

(** ** Commands on the line *)

Definition awake_queries : list (list Z) := [str "AT+CSCLK?"; str "AT+CPSMS?"; str "AT+CEDRX?"].
Definition active_queries : list (list Z) := [str "AT+CPSMRDP"; str "AT+CEDRXRDP"].

Section Logged.
Context {M : Type} `{A : At M}.
Implicit Types (m : M * list (list Z)).

Lemma read_mode_log m c key tail t : (read_mode m c key tail t).1.2 = m.2 ++ [c].
Proof. unfold read_mode; pose proof (exchange_log m c t); destruct (exchange m c t); done. Qed.

Lemma read_edrx_log m : (read_edrx m).1.2 = m.2 ++ [str "AT+CEDRX?"].
Proof.
  unfold read_edrx; pose proof (exchange_log m (str "AT+CEDRX?") AWAKE_AT_TIMEOUT_MS).
  destruct (exchange m _ _); done.
Qed.

(** Reading the configuration only queries, in order, as far as it gets. *)
Lemma read_config_log m :
  let '(m', r) := read_config m in
  exists q, m'.2 = m.2 ++ q /\ q `prefix_of` awake_queries /\ (is_Some r -> q = awake_queries).
Proof.
  unfold read_config, awake_queries.
  pose proof (read_mode_log m (str "AT+CSCLK?") (str "+CSCLK") TAIL_NONE AWAKE_AT_TIMEOUT_MS) as H1.
  destruct (read_mode m _ _ _ _) as [m1 [v1|]]; cbn [fst] in H1; [destruct (1 <? v1)|].
  1, 3: exists [str "AT+CSCLK?"]; split_and!; [done|eexists; done|intros [? ?]; done].
  pose proof (read_mode_log m1 (str "AT+CPSMS?") (str "+CPSMS") TAIL_PSM_REQUEST AWAKE_AT_TIMEOUT_MS) as H2.
  destruct (read_mode m1 _ _ _ _) as [m2 [v2|]]; cbn [fst] in H2; [destruct (1 <? v2)|].
  1, 3: exists [str "AT+CSCLK?"; str "AT+CPSMS?"]; rewrite H2, H1, <- app_assoc;
    split_and!; [done|eexists; done|intros [? ?]; done].
  pose proof (read_edrx_log m2) as H3; destruct (read_edrx m2) as [m3 r]; cbn [fst] in H3.
  eexists; rewrite H3, H2, H1, <- !app_assoc; split_and!; done.
Qed.

Lemma verify_config_log m :
  exists q, (modem_awake_verify_config m).1.2 = m.2 ++ q /\ q `prefix_of` awake_queries /\
    ((modem_awake_verify_config m).2 = true -> q = awake_queries).
Proof.
  unfold modem_awake_verify_config; pose proof (read_config_log m) as H.
  destruct (read_config m) as [m' [c|]]; destruct H as (q & H1 & H2 & H3); exists q; cbn [fst snd];
    split_and!; try done; intros; apply H3; eauto.
Qed.

Lemma verify_active_log m :
  exists q, (modem_awake_verify_active m).1.2 = m.2 ++ q /\ q `prefix_of` active_queries.
Proof.
  unfold modem_awake_verify_active, active_queries.
  pose proof (read_mode_log m (str "AT+CPSMRDP") (str "+CPSMRDP") TAIL_PSM_ACTIVE AWAKE_AT_TIMEOUT_MS) as H1.
  destruct (read_mode m _ _ _ _) as [m1 v]; cbn [fst] in H1.
  assert (Hs : exists q, m1.2 = m.2 ++ q /\ q `prefix_of` active_queries).
  { exists [str "AT+CPSMRDP"]; split; [done|eexists; done]. }
  destruct v as [[|?|?]|]; try exact Hs.
  pose proof (read_mode_log m1 (str "AT+CEDRXRDP") (str "+CEDRXRDP") TAIL_EDRX_ACTIVE AWAKE_AT_TIMEOUT_MS) as H2.
  destruct (read_mode m1 _ _ _ _) as [m2 e]; cbn [fst] in *; eexists.
  rewrite H2, H1, <- app_assoc; split; [done|eexists []; done].
Qed.

Lemma radio_on_not_awake_query : ~ In (str "AT+CFUN=1") awake_queries.
Proof. intros [H|[H|[H|[]]]]; discriminate. Qed.

(** What preparation leaves in the log: [closed], and the three readbacks last
    when it succeeds. *)
Definition verified (base : list (list Z)) (r : (M * list (list Z)) * bool) : Prop :=
  exists l, r.1.2 = base ++ l /\ ~ In (str "AT+CFUN=1") l /\
    (r.2 = false -> last l = Some (str "AT+CFUN=4")) /\ (r.2 = true -> awake_queries `suffix_of` l).

Lemma verified_extend base l r : ~ In (str "AT+CFUN=1") l -> verified (base ++ l) r -> verified base r.
Proof.
  intros Hl (l' & H1 & H2 & H3 & H4); exists (l ++ l'); rewrite H1, app_assoc; split_and!; try done.
  - rewrite in_app_iff; tauto.
  - intros Hr; rewrite last_app, H3; done.
  - intros Hr; apply suffix_app_r, H4, Hr.
Qed.

Lemma fail_closed_verified m : verified m.2 (fail_closed m).
Proof. destruct (fail_closed_log m) as (l & H1 & H2 & H3); exists l; split_and!; done. Qed.

Lemma require_verified base (r : (M * list (list Z)) * bool) l step :
  r.1.2 = base ++ l -> ~ In (str "AT+CFUN=1") l -> (r.2 = true -> verified r.1.2 (step r.1)) ->
  verified base (require r step).
Proof.
  destruct r as [m [|]]; cbn; intros Hm Hl Hs; apply (verified_extend base l); try done; rewrite <- Hm.
  - apply Hs; done.
  - apply fail_closed_verified.
Qed.

Lemma switch_off_log s m c :
  c <> str "AT+CFUN=1" ->
  exists l, (switch_off s m c).1.2 = m.2 ++ l /\ ~ In (str "AT+CFUN=1") l.
Proof.
  intros Hc; unfold switch_off; destruct (s =? 0).
  - exists []; rewrite app_nil_r; split; [done|intros []].
  - exists [c]; rewrite command_ok_log; split; [done|intros [?|[]]; done].
Qed.

Lemma radio_off_first_log config m :
  exists l, (radio_off_first config m).1.2 = m.2 ++ l /\ ~ In (str "AT+CFUN=1") l.
Proof.
  unfold radio_off_first; destruct (_ || _).
  2: { exists []; rewrite app_nil_r; split; [done|intros []]. }
  pose proof (command_ok_log m (str "AT+CFUN=4") AWAKE_CFUN_TIMEOUT_MS) as H1.
  destruct (command_ok m _ _) as [m1 [|]]; cbn [negb fst] in *.
  - pose proof (read_mode_log m1 (str "AT+CFUN?") (str "+CFUN") TAIL_NONE AWAKE_CFUN_TIMEOUT_MS) as H2.
    destruct (read_mode m1 _ _ _ _) as [m2 f]; cbn [fst] in *; eexists.
    rewrite H2, H1, <- app_assoc; split; [done|intros [?|[?|[]]]; done].
  - eexists; split; [exact H1|intros [?|[]]; done].
Qed.

Lemma prepare_verified m : verified m.2 (modem_awake_prepare m).
Proof.
  unfold modem_awake_prepare; pose proof (read_config_log m) as H.
  destruct (read_config m) as [m1 [config|]]; destruct H as (q & Hq & Hp & Hs).
  - rewrite (Hs ltac:(eauto)) in *; destruct (all_off config).
    { exists awake_queries; split_and!; [done|apply radio_on_not_awake_query|done|intros _; apply suffix_app_l || exists []; done]. }
    apply (verified_extend _ awake_queries); [apply radio_on_not_awake_query|]; rewrite <- Hq.
    destruct (radio_off_first_log config m1) as (l1 & E1 & N1).
    eapply require_verified; [exact E1|exact N1|intros _].
    do 3 (match goal with |- verified _ (require (switch_off ?s ?x ?c) _) =>
      destruct (switch_off_log s x c ltac:(done)) as (l & E & N) end;
      eapply require_verified; [exact E|exact N|intros _]; clear l E N).
    match goal with |- verified _ (require (modem_awake_verify_config ?x) _) =>
      destruct (verify_config_log x) as (q' & E & P & V) end.
    destruct (modem_awake_verify_config _) as [m5 [|]]; cbn [require fst snd] in *.
    + exists q'; rewrite (V eq_refl); split_and!; try done; [cbn [fst]; rewrite E, (V eq_refl); done|apply radio_on_not_awake_query].
    + apply (verified_extend _ q'); [|rewrite <- E; apply fail_closed_verified].
      intros Hin; apply radio_on_not_awake_query; destruct P as [k ->]; apply in_app_iff; auto.
  - apply (verified_extend _ q); [|rewrite <- Hq; apply fail_closed_verified].
    intros Hin; apply radio_on_not_awake_query; destruct Hp as [k ->]; apply in_app_iff; auto.
Qed.
End Logged.

(** Sleeping is switched off or the radio is.  Whatever the modem and the line do,
    a preparation that returns false has sent [AT+CFUN=4] as its last command; one
    that returns true ended with the three readbacks; none ever switches the
    radio on; and the two verifications only ever query. *)
Theorem awake_fails_closed {M} `{A : At M} (m : M) :
  (let '((_, log), ok) := modem_awake_prepare (m, []) in
   ~ In (str "AT+CFUN=1") log /\ (ok = false -> last log = Some (str "AT+CFUN=4")) /\
   (ok = true -> awake_queries `suffix_of` log)) /\
  (modem_awake_verify_config (m, [])).1.2 `prefix_of` awake_queries /\
  (modem_awake_verify_active (m, [])).1.2 `prefix_of` active_queries.
Proof.
  split_and!.
  - destruct (prepare_verified (m, [])) as (l & H1 & H2 & H3 & H4).
    destruct (modem_awake_prepare _) as [[m' log] ok]; cbn in *; subst; done.
  - destruct (verify_config_log (m, [])) as (q & -> & Hq & _); exact Hq.
  - destruct (verify_active_log (m, [])) as (q & -> & Hq); exact Hq.
Qed.
