(* ===== verification/FwOtaHttp.v ===== *)
(** * HTTP responses of the firmware download
    (firmware-ESP32-LTE-M/main/fw_ota_http_policy.c, fw_ota_http_policy.h)

    The headers of one response are collected into a record; the response may
    be appended to the image only when the record says that it starts exactly at
    the offset already written and ends at the end of the commanded image. *)

From S2P Require Import Prelude AtText.

(* src: firmware-ESP32-LTE-M/main/fw_ota_http_policy.h:6-7 constants *)
Definition FW_OTA_MAX_ATTEMPTS : Z := 5.
Definition FW_OTA_RESUME_MIN : Z := 1024.

(* src: firmware-ESP32-LTE-M/main/fw_ota_http_policy.h:10-15 fw_ota_http_response_t *)
Record response := Response {
  r_status : Z;
  r_invalid : bool;
  r_lengths : Z; r_ranges : Z;
  r_length : Z; r_first : Z; r_last : Z; r_total : Z
}.

#[export] Instance eta_response : Eta response := fun r =>
  Response (r_status r) (r_invalid r) (r_lengths r) (r_ranges r) (r_length r) (r_first r) (r_last r) (r_total r).

(** ** Text *)

(* src: firmware-ESP32-LTE-M/main/fw_ota_http_policy.c:7-10 skip_space *)
Fixpoint skip_space (p : list Z) : list Z :=
  match p with
  | c :: rest => if (c =? 32) || (c =? 9) then skip_space rest else p
  | [] => []
  end.

(** The digit loop and its overflow test are those of [digits_loop]. *)
(* src: firmware-ESP32-LTE-M/main/fw_ota_http_policy.c:12-23 decimal *)
Definition decimal (p : list Z) : option (Z * list Z) :=
  match digits_loop UINT32_MAX 0 0 p with
  | Some (n, S _, rest) => Some (n, rest)
  | _ => None
  end.

(** ASCII case folding of [strcasecmp] and [strncasecmp]. *)
Definition tolower (c : Z) : Z := if (65 <=? c) && (c <=? 90) then c + 32 else c.
Definition same_nocase (a b : list Z) : bool := equals (map tolower a) (map tolower b).

(** ** Headers *)

(** A decimal followed by the expected separator. *)
Definition decimal_then (sep : Z) (p : list Z) : option (Z * option (list Z)) :=
  match decimal p with
  | Some (n, c :: rest) => Some (n, if c =? sep then Some rest else None)
  | Some (n, []) => Some (n, None)
  | None => None
  end.

(** The members assigned before a failure keep their new values. *)
(* src: firmware-ESP32-LTE-M/main/fw_ota_http_policy.c:41-47 fw_ota_http_header *)
Definition content_range (r : response) (p : list Z) : response * option (list Z) :=
  match decimal_then 45 p with
  | None => (r, None)
  | Some (n, p) =>
      let r := r <| r_first := n |> in
      match p with
      | None => (r, None)
      | Some p =>
          match decimal_then 47 p with
          | None => (r, None)
          | Some (n, p) =>
              let r := r <| r_last := n |> in
              match p with
              | None => (r, None)
              | Some p =>
                  match decimal p with
                  | None => (r, None)
                  | Some (n, p) => (r <| r_total := n |>, Some p)
                  end
              end
          end
      end
  end.

Definition reject (r : response) : response := r <| r_invalid := true |>.

(** The end of a value: only spaces may follow. *)
Definition finish (x : response * option (list Z)) : response :=
  match x with
  | (r, None) => reject r
  | (r, Some p) => match skip_space p with [] => r | _ => reject r end
  end.

Definition s_bytes : list Z := str "bytes ".
Definition s_identity : list Z := str "identity".

(* src: firmware-ESP32-LTE-M/main/fw_ota_http_policy.c:25-64 fw_ota_http_header *)
Definition fw_ota_http_header (r : response) (key value : option (list Z)) : response :=
  match key, value with
  | Some key, Some value =>
      let p := skip_space value in
      if same_nocase key (str "Content-Length") then
        let r := r <| r_lengths := u32 (r_lengths r + 1) |> in
        if negb (r_lengths r =? 1) then reject r else
        match decimal p with
        | None => reject r
        | Some (n, p) => finish (r <| r_length := n |>, Some p)
        end
      else if same_nocase key (str "Content-Range") then
        let r := r <| r_ranges := u32 (r_ranges r + 1) |> in
        if negb (r_ranges r =? 1) || negb (starts_with p s_bytes) then reject r
        else finish (content_range r (drop 6 p))
      else if same_nocase key (str "Content-Encoding") then
        if negb (same_nocase (take 8 p) s_identity) then reject r
        else finish (r, Some (drop 8 p))
      else if same_nocase key (str "Transfer-Encoding") then reject r
      else r
  | _, _ => reject r
  end.

(* src: firmware-ESP32-LTE-M/main/fw_ota_http_policy.c:66-75 fw_ota_http_response_valid *)
Definition fw_ota_http_response_valid (r : response) (offset image_len : Z) : bool :=
  if r_invalid r || (image_len =? 0) || (image_len <=? offset) || negb (r_lengths r =? 1) ||
     negb (r_length r =? u32 (image_len - offset)) then false
  else if offset =? 0 then (r_status r =? 200) && (r_ranges r =? 0)
  else (FW_OTA_RESUME_MIN <=? offset) && (r_status r =? 206) && (r_ranges r =? 1) &&
       (r_first r =? offset) && (r_last r =? u32 (image_len - 1)) && (r_total r =? image_len).

(* src: firmware-ESP32-LTE-M/main/fw_ota_http_policy.c:77-81 fw_ota_http_status_retryable *)
Definition fw_ota_http_status_retryable (status : Z) : bool :=
  (status =? 408) || (status =? 429) || (status =? 500) || (status =? 502) || (status =? 503) || (status =? 504).

(* src: firmware-ESP32-LTE-M/main/fw_ota_http_policy.c:83-88 fw_ota_retry_delay_s *)
Definition fw_ota_retry_delay_s (completed_attempts : Z) : Z :=
  if negb (completed_attempts =? 0) && (completed_attempts <? FW_OTA_MAX_ATTEMPTS)
  then nth (Z.to_nat (completed_attempts - 1)) [5; 15; 30; 60] 0 else 0.

(** ** What the headers say *)

Definition header : Type := option (list Z) * option (list Z).

(** The values of the headers with a name, in order. *)
Definition values (name : list Z) (hs : list header) : list (list Z) :=
  omap (fun h : header =>
    match h with
    | (Some k, Some v) => if same_nocase k name then Some v else None
    | _ => None
    end) hs.

(** One response, received after the record was reset. *)
Definition receive (status : Z) (hs : list header) : response :=
  fold_left (fun r h => fw_ota_http_header r h.1 h.2) hs (Response status false 0 0 0 0 0 0).

Definition blank (p : list Z) : Prop := skip_space p = [].

(** A value that is one decimal number. *)
Definition length_value (v : list Z) (n : Z) : Prop :=
  exists rest, decimal (skip_space v) = Some (n, rest) /\ blank rest.

(** A value [bytes first-last/total]. *)
Definition range_value (v : list Z) (first last total : Z) : Prop :=
  exists p1 p2 rest, skip_space v = s_bytes ++ p1 /\ decimal p1 = Some (first, 45 :: p2) /\
    exists p3, decimal p2 = Some (last, 47 :: p3) /\ decimal p3 = Some (total, rest) /\ blank rest.

(** The record describes the headers, as long as it is not invalid. *)
Record describes (hs : list header) (r : response) : Prop := Describes {
  de_lengths : values (str "Content-Length") hs = [] /\ r_lengths r = 0 \/
    exists v, values (str "Content-Length") hs = [v] /\ r_lengths r = 1 /\ length_value v (r_length r);
  de_ranges : values (str "Content-Range") hs = [] /\ r_ranges r = 0 \/
    exists v, values (str "Content-Range") hs = [v] /\ r_ranges r = 1 /\
      range_value v (r_first r) (r_last r) (r_total r);
  de_transfer : values (str "Transfer-Encoding") hs = [];
  de_encoding : Forall (fun v => same_nocase (take 8 (skip_space v)) s_identity = true /\
    blank (drop 8 (skip_space v))) (values (str "Content-Encoding") hs)
}.

Section Headers.
Implicit Types (r : response) (hs : list header).

Lemma values_snoc name hs h : values name (hs ++ [h]) = values name hs ++ values name [h].
Proof. apply omap_app. Qed.

Lemma values_one name k v :
  values name [(Some k, Some v)] = if same_nocase k name then [v] else [].
Proof. unfold values; cbn; destruct (same_nocase k name); done. Qed.

(** Two names of the four are never both the header's. *)
Lemma same_name k a b :
  same_nocase k a = true -> equals (map tolower a) (map tolower b) = false -> same_nocase k b = false.
Proof. unfold same_nocase; intros H E; apply equalsP in H as ->; done. Qed.

Lemma finish_valid r p : r_invalid (finish (r, p)) = false ->
  exists rest, p = Some rest /\ blank rest /\ finish (r, p) = r.
Proof.
  destruct p as [rest|]; cbn; [|done]; destruct (skip_space rest) eqn:E; [|done]; eauto.
Qed.

Lemma decimal_then_ok sep p n q :
  decimal_then sep p = Some (n, Some q) -> decimal p = Some (n, sep :: q).
Proof.
  unfold decimal_then; destruct (decimal p) as [[m [|c rest]]|]; try done.
  destruct (Z.eqb_spec c sep) as [->|]; [intros [= -> ->]; done|done].
Qed.

Lemma content_range_ok r p r' rest :
  content_range r p = (r', Some rest) ->
  r_lengths r' = r_lengths r /\ r_ranges r' = r_ranges r /\ r_length r' = r_length r /\
  r_invalid r' = r_invalid r /\
  exists p2 p3, decimal p = Some (r_first r', 45 :: p2) /\ decimal p2 = Some (r_last r', 47 :: p3) /\
    decimal p3 = Some (r_total r', rest).
Proof.
  intros H; unfold content_range in H.
  destruct (decimal_then 45 p) as [[n1 [p2|]]|] eqn:E1; try done.
  destruct (decimal_then 47 p2) as [[n2 [p3|]]|] eqn:E2; try done.
  destruct (decimal p3) as [[n3 p4]|] eqn:E3; try done; injection H as <- <-; cbn.
  split_and!; try done; exists p2, p3; auto using decimal_then_ok.
Qed.

Lemma header_describes hs r k v :
  describes hs r -> r_invalid (fw_ota_http_header r k v) = false ->
  r_invalid r = false -> describes (hs ++ [(k, v)]) (fw_ota_http_header r k v).
Proof.
  intros [D1 D2 D3 D4]; unfold fw_ota_http_header.
  destruct k as [k|], v as [v|]; try done.
  destruct (same_nocase k (str "Content-Length")) eqn:K1.
  - pose proof (same_name k _ (str "Content-Range") K1 eq_refl) as K2; pose proof (same_name k _ (str "Content-Encoding") K1 eq_refl) as K3.
    pose proof (same_name k _ (str "Transfer-Encoding") K1 eq_refl) as K4.
    cbn [r_lengths upd]; destruct (Z.eqb_spec (u32 (r_lengths r + 1)) 1) as [Hn|]; cbn [negb]; [|done].
    destruct (decimal (skip_space v)) as [[n p]|] eqn:Hd; [|done]; intros Hf Hr.
    apply finish_valid in Hf as (rest & [= ->] & Hb & ->).
    assert (D1' : values (str "Content-Length") hs = []).
    { destruct D1 as [[? _]|(v0 & _ & E & _)]; [done|]; rewrite E in Hn; done. }
    constructor; rewrite ?values_snoc, ?values_one, ?K1, ?K2, ?K3, ?K4; cbv iota; rewrite ?app_nil_r; try done.
    right; exists v; rewrite D1'; split_and!; try done; exists rest; done.
  - destruct (same_nocase k (str "Content-Range")) eqn:K2.
    + pose proof (same_name k _ (str "Content-Encoding") K2 eq_refl) as K3.
      pose proof (same_name k _ (str "Transfer-Encoding") K2 eq_refl) as K4.
      cbn [r_ranges upd]; destruct (Z.eqb_spec (u32 (r_ranges r + 1)) 1) as [Hn|]; cbn [negb orb]; [|done].
      destruct (starts_with (skip_space v) s_bytes) eqn:Hs; cbn [negb]; [|done]; intros Hf Hr.
      apply starts_withP in Hs as [p1 Hp]; rewrite Hp in *; change (drop 6 (s_bytes ++ p1)) with p1 in *.
      destruct (content_range _ p1) as [r' p'] eqn:Hc; apply finish_valid in Hf as (rest & -> & Hb & ->).
      destruct (content_range_ok _ _ _ _ Hc) as (E1 & E2 & E3 & E4 & p2 & p3 & G1 & G2 & G3).
      assert (D2' : values (str "Content-Range") hs = []).
      { destruct D2 as [[? _]|(v0 & _ & E & _)]; [done|]; rewrite E in Hn; done. }
      constructor; rewrite ?values_snoc, ?values_one, ?K1, ?K2, ?K3, ?K4; cbv iota; rewrite ?app_nil_r; try done.
      * rewrite E1, E3; exact D1.
      * right; exists v; rewrite D2', E2; split_and!; try done.
        exists p1, p2, rest; split_and!; try done; exists p3; done.
    + destruct (same_nocase k (str "Content-Encoding")) eqn:K3.
      * pose proof (same_name k _ (str "Transfer-Encoding") K3 eq_refl) as K4.
        destruct (same_nocase (take 8 (skip_space v)) s_identity) eqn:Hs; cbn [negb]; [|done]; intros Hf Hr.
        apply finish_valid in Hf as (rest & [= <-] & Hb & ->).
        constructor; rewrite ?values_snoc, ?values_one, ?K1, ?K2, ?K3, ?K4; cbv iota; rewrite ?app_nil_r; try done.
        apply Forall_app; split; [done|]; repeat constructor; done.
      * destruct (same_nocase k (str "Transfer-Encoding")) eqn:K4; [done|]; intros _ _.
        constructor; rewrite ?values_snoc, ?values_one, ?K1, ?K2, ?K3, ?K4; cbv iota; rewrite ?app_nil_r; done.
Qed.

(** Rejection is final. *)
Lemma header_invalid r k v : r_invalid r = true -> r_invalid (fw_ota_http_header r k v) = true.
Proof.
  intros Hr; unfold fw_ota_http_header.
  assert (Hfin : forall r p, r_invalid r = true -> r_invalid (finish (r, p)) = true).
  { intros r0 [p|] H; cbn; [destruct (skip_space p); done|done]. }
  assert (Hcr : forall r p, r_invalid r = true -> r_invalid (finish (content_range r p)) = true).
  { intros r0 p H; unfold content_range; repeat case_match; try done; apply Hfin; done. }
  repeat case_match; try done; try (apply Hcr; done); apply Hfin; done.
Qed.

Lemma header_status r k v : r_status (fw_ota_http_header r k v) = r_status r.
Proof.
  unfold fw_ota_http_header, content_range, finish, reject.
  repeat case_match; simplify_eq/=; done.
Qed.

Lemma receive_describes status hs :
  r_invalid (receive status hs) = false -> describes hs (receive status hs) /\ r_status (receive status hs) = status.
Proof.
  induction hs as [|[k v] hs IH] using rev_ind; intros H.
  - split; [|done]; constructor; try (left; done); constructor.
  - unfold receive in *; rewrite fold_left_app in *; cbn [fold_left fst snd] in *.
    set (r := fold_left _ hs _) in *.
    destruct (r_invalid r) eqn:Hr; [rewrite header_invalid in H; done|].
    destruct (IH Hr) as [Hd Hs]; split; [apply header_describes; done|].
    rewrite header_status; exact Hs.
Qed.
End Headers.

(** ** Properties *)

(** A download is resumed exactly where it stopped.  Whatever headers a response
    carries, it is accepted only if one Content-Length header gives the number of
    bytes still missing, nothing announces a transformed or chunked body, and
    either nothing was written yet, the status is 200 and there is no
    Content-Range, or at least 1024 bytes were, the status is 206 and the one
    Content-Range says that the body starts at the offset, ends with the image
    and belongs to an image of the commanded size. *)
Theorem resume_sound status hs offset image_len :
  is_u32 offset -> is_u32 image_len ->
  fw_ota_http_response_valid (receive status hs) offset image_len = true ->
  offset < image_len /\
  (exists v, values (str "Content-Length") hs = [v] /\ length_value v (image_len - offset)) /\
  values (str "Transfer-Encoding") hs = [] /\
  Forall (fun v => same_nocase (take 8 (skip_space v)) s_identity = true /\ blank (drop 8 (skip_space v)))
    (values (str "Content-Encoding") hs) /\
  (offset = 0 /\ status = 200 /\ values (str "Content-Range") hs = [] \/
   FW_OTA_RESUME_MIN <= offset /\ status = 206 /\
   exists v, values (str "Content-Range") hs = [v] /\ range_value v offset (image_len - 1) image_len).
Proof.
  intros Ho Hi; unfold fw_ota_http_response_valid; destruct (_ || _) eqn:E; [done|]; to_prop.
  destruct (receive_describes status hs ltac:(done)) as [[D1 D2 D3 D4] Hst]; set (r := receive status hs) in *.
  rewrite (u32_small (image_len - offset)) in * by lia.
  rewrite (u32_small (image_len - 1)) by lia; intros Hv; split; [lia|]; split; [|split; [exact D3|split; [exact D4|]]].
  - destruct D1 as [[_ ?]|(v & Hv1 & _ & Hl)]; [lia|]; exists v; split; [exact Hv1|congruence].
  - destruct (Z.eqb_spec offset 0) as [->|]; to_prop.
    + left; split_and!; [done|congruence|]; destruct D2 as [[? _]|(v & _ & ? & _)]; [done|lia].
    + right; unfold FW_OTA_RESUME_MIN in *; split_and!; [lia|congruence|].
      destruct D2 as [[_ ?]|(v & Hv2 & _ & Hr)]; [lia|].
      exists v; split; [exact Hv2|congruence].
Qed.

Definition resume_headers : list header :=
  [(Some (str "Content-Length"), Some (str "  976"));
   (Some (str "content-range"), Some (str "bytes 1024-1999/2000"));
   (Some (str "Server"), Some (str "x"))].

Lemma resume_sound_witness :
  fw_ota_http_response_valid (receive 206 resume_headers) 1024 2000 = true /\
  (exists v, values (str "Content-Length") resume_headers = [v] /\ length_value v 976).
Proof.
  split; [vm_compute; reflexivity|].
  apply (resume_sound 206 resume_headers 1024 2000); [lia|lia|vm_compute; reflexivity].
Defined.

(** Retries end: after the fifth attempt, or before the first, there is no delay. *)
Lemma retry_delays n :
  fw_ota_retry_delay_s n = match n with 1 => 5 | 2 => 15 | 3 => 30 | 4 => 60 | _ => 0 end \/ n < 0.
Proof.
  unfold fw_ota_retry_delay_s, FW_OTA_MAX_ATTEMPTS; destruct (decide (n < 0)); [right; done|left].
  destruct (decide (n < 5)) as [Hn|Hn].
  - assert (n = 0 \/ n = 1 \/ n = 2 \/ n = 3 \/ n = 4) as Hc by lia; destruct_or! Hc; subst; done.
  - rewrite (proj2 (Z.ltb_ge _ _)) by lia; rewrite andb_false_r; destruct n as [|p|p]; [done| |lia].
    do 3 (destruct p; try done; try lia).
Qed.
