(* ===== verification/ModemLine.v ===== *)
(** * Reading the modem's answers
    (firmware-ESP32-LTE-M/main/modem_recovery.c, modem_signal.c and the parsers of
    modem_uart_baud.c)

    Registration and the grace period after it returns, signal values from
    +CPSI, and the stored and supported UART rates from +IPR. *)

From S2P Require Import Prelude Protocol AtText.

(** ** Registration (modem_recovery.c) *)

(* src: firmware-ESP32-LTE-M/main/modem_recovery.h:9-9 MODEM_RECOVERY_REG_GRACE_S *)
Definition MODEM_RECOVERY_REG_GRACE_S : Z := 90.

(* src: firmware-ESP32-LTE-M/main/modem_recovery.h:11-16 modem_recovery_t *)
Record modem_recovery_t := Recovery {
  registration_known : bool;
  registered : bool;
  grace_used : bool;
  grace_started_s : Z
}.

#[export] Instance eta_recovery : Eta modem_recovery_t := fun s =>
  Recovery (registration_known s) (registered s) (grace_used s) (grace_started_s s).

(* src: firmware-ESP32-LTE-M/main/modem_recovery.c:7-10 modem_recovery_init *)
Definition modem_recovery_init : modem_recovery_t := Recovery false false false 0.

(* src: firmware-ESP32-LTE-M/main/modem_recovery.c:12-15 skip_space *)
Fixpoint skip_space (p : list Z) : list Z :=
  match p with
  | c :: rest => if (c =? 32) || (c =? 9) then skip_space rest else p
  | [] => []
  end.

(* src: firmware-ESP32-LTE-M/main/modem_recovery.c:22-26 field (digits) *)
Fixpoint bounded_digits (maximum n : Z) (p : list Z) : option (Z * list Z) :=
  match p with
  | c :: rest =>
      if is_digit c then
        let n := n * 10 + (c - 48) in
        if maximum <? n then None else bounded_digits maximum n rest
      else Some (n, p)
  | [] => Some (n, [])
  end.

(* src: firmware-ESP32-LTE-M/main/modem_recovery.c:18-30 field *)
Definition cereg_field (maximum : Z) (p : list Z) : option (Z * list Z) :=
  let p := skip_space p in
  if is_digit (byte_at p 0) then
    match bounded_digits maximum 0 p with
    | Some (n, p) => Some (n, skip_space p)
    | None => None
    end
  else None.

(** The two numbers after [+CEREG:]; the second is returned. *)
(* src: firmware-ESP32-LTE-M/main/modem_recovery.c:45-51 modem_recovery_parse_cereg (line) *)
Definition cereg_line (p : list Z) : option Z :=
  match cereg_field 5 p with
  | Some (_, 44 :: p) =>
      match cereg_field 10 p with
      | Some (status, p) =>
          let c := byte_at p 0 in
          if negb (c =? 44) && negb (c =? 13) && negb (c =? 10) then None else Some status
      | None => None
      end
  | _ => None
  end.

(** The line loop; every turn but the last drops an LF.  [found] is the status read. *)
(* src: firmware-ESP32-LTE-M/main/modem_recovery.c:37-55 modem_recovery_parse_cereg (loop) *)
Fixpoint cereg_loop (fuel : nat) (found : option Z) (line : list Z) : option (option Z) :=
  match fuel with
  | O => Some found
  | S fuel =>
      match line, memchr 10 line with
      | [], _ | _, None => Some found
      | _, Some n =>
          let p := skip_space line in
          let next := drop (S n) line in
          if starts_with p (str "+CEREG:") then
            match found with
            | Some _ => None
            | None =>
                match cereg_line (drop 7 p) with
                | None => None
                | Some status => cereg_loop fuel (Some status) next
                end
            end
          else cereg_loop fuel found next
      end
  end.

(** [reply] is the C string, [None] the null pointer; the result is [*registered]. *)
(* src: firmware-ESP32-LTE-M/main/modem_recovery.c:32-58 modem_recovery_parse_cereg *)
Definition modem_recovery_parse_cereg (reply : option (list Z)) : option bool :=
  match reply with
  | None => None
  | Some reply =>
      if negb (bool_decide (modem_radio_response_status reply = MODEM_RADIO_RESPONSE_OK)) then None else
      match cereg_loop (S (length reply)) None reply with
      | Some (Some status) => Some ((status =? 1) || (status =? 5))
      | _ => None
      end
  end.

(* src: firmware-ESP32-LTE-M/main/modem_recovery.c:60-72 modem_recovery_observe_registration *)
Definition modem_recovery_observe_registration (s : modem_recovery_t) (reply : option (list Z)) (now_s : Z)
    : modem_recovery_t * bool :=
  match modem_recovery_parse_cereg reply with
  | None => (s, false)
  | Some reg =>
      let returned := registration_known s && negb (registered s) && reg in
      let s := s <| registration_known := true |> <| registered := reg |> in
      if negb returned || grace_used s then (s, false)
      else (s <| grace_used := true |> <| grace_started_s := now_s |>, true)
  end.

(* src: firmware-ESP32-LTE-M/main/modem_recovery.c:74-78 modem_recovery_grace_active *)
Definition modem_recovery_grace_active (s : modem_recovery_t) (now_s : Z) : bool :=
  grace_used s && (u32 (now_s - grace_started_s s) <? MODEM_RECOVERY_REG_GRACE_S).

(* src: firmware-ESP32-LTE-M/main/modem_recovery.c:80-84 modem_recovery_backend_healthy *)
Definition modem_recovery_backend_healthy (s : modem_recovery_t) : modem_recovery_t :=
  s <| grace_used := false |> <| grace_started_s := 0 |>.

(** ** Signal (modem_signal.c) *)

Definition WUPS_NET_SINR_UNKNOWN : Z := -128.

(* src: firmware-ESP32-LTE-M/main/modem_signal.c:9-13 modem_rssnr_to_sinr *)
Definition modem_rssnr_to_sinr (rssnr : Z) : Z :=
  if (0 <=? rssnr) && (rssnr <=? 25) then s8 (2 * rssnr - 20) else WUPS_NET_SINR_UNKNOWN.

(** [isspace] of the C locale. *)
Definition isspace (c : Z) : bool := (c =? 32) || ((9 <=? c) && (c <=? 13)).

Fixpoint skip_isspace (p : list Z) : list Z :=
  match p with
  | c :: rest => if isspace c then skip_isspace rest else p
  | [] => []
  end.

(** [strtol] of a whole field without surrounding space: an optional sign and
    digits, within the 32-bit [long] of the target. *)
Definition strtol_all (text : list Z) : option Z :=
  let '(sign, digits) :=
    match text with
    | 45 :: rest => (-1, rest)
    | 43 :: rest => (1, rest)
    | _ => (1, text)
    end in
  if forallb is_digit digits && (0 <? length digits)%nat then
    let v := sign * horner digits 0 in
    if (-2147483648 <=? v) && (v <=? 2147483647) then Some v else None
  else None.

(* src: firmware-ESP32-LTE-M/main/modem_signal.c:17-28 field_integer *)
Definition field_integer (text : list Z) : option Z :=
  let text := rev (skip_isspace (rev (skip_isspace text))) in
  match text with [] => None | _ => strtol_all text end.

(** The comma-separated fields of a text: [n + 1] of them for [n] commas. *)
Fixpoint split_commas (cur : list Z) (text : list Z) : list (list Z) :=
  match text with
  | [] => [rev cur]
  | c :: text => if c =? 44 then rev cur :: split_commas [] text else split_commas (c :: cur) text
  end.

Record signal := Signal { sg_rsrp : Z; sg_rsrq : Z; sg_sinr : Z }.

#[export] Instance eta_signal : Eta signal := fun g => Signal (sg_rsrp g) (sg_rsrq g) (sg_sinr g).

(* src: firmware-ESP32-LTE-M/main/modem_signal.c:59-62 modem_signal_parse_cpsi (RSRQ) *)
Definition read_rsrq (field : list Z) (g : signal) : signal :=
  match field_integer field with
  | Some value =>
      let value := if (value <=? -35) && (-340 <=? value) then Z.quot value 10 else value in
      if (value <=? -3) && (-34 <=? value) then g <| sg_rsrq := s8 value |> else g
  | None => g
  end.

(* src: firmware-ESP32-LTE-M/main/modem_signal.c:63-66 modem_signal_parse_cpsi (RSRP) *)
Definition read_rsrp (field : list Z) (g : signal) : signal :=
  match field_integer field with
  | Some value =>
      let value := if (value <=? -440) && (-1560 <=? value) then Z.quot value 10 else value in
      if (value <=? -44) && (-128 <=? value) then g <| sg_rsrp := s8 value |> else g
  | None => g
  end.

(* src: firmware-ESP32-LTE-M/main/modem_signal.c:67-70 modem_signal_parse_cpsi (SINR) *)
Definition read_sinr (field : list Z) (g : signal) : signal :=
  match field_integer field with
  | Some value =>
      let sinr := modem_rssnr_to_sinr value in
      if negb (sinr =? WUPS_NET_SINR_UNKNOWN) then g <| sg_sinr := sinr |> else g
  | None => g
  end.

(** The updates of the three outputs from the last four of the fourteen fields. *)
(* src: firmware-ESP32-LTE-M/main/modem_signal.c:58-71 modem_signal_parse_cpsi (values) *)
Definition cpsi_values (fields : list (list Z)) (g : signal) : signal :=
  read_sinr (nth 13 fields []) (read_rsrp (nth 11 fields []) (read_rsrq (nth 10 fields []) g)).

(** The length of the line: the span before CR or LF. *)
Fixpoint line_end (text : list Z) : nat :=
  match text with
  | c :: text => if (c =? 13) || (c =? 10) then O else S (line_end text)
  | [] => O
  end.

Fixpoint skip_eol (text : list Z) : list Z :=
  match text with
  | c :: rest => if (c =? 13) || (c =? 10) then skip_eol rest else text
  | [] => []
  end.

(** A +CPSI line ends the search, used or not. *)
(* src: firmware-ESP32-LTE-M/main/modem_signal.c:37-57 modem_signal_parse_cpsi (line) *)
Definition cpsi_line (text : list Z) (g : signal) : option signal :=
  let start := skip_isspace text in
  if starts_with start (str "+CPSI:") then
    let start := skip_isspace (drop 6 start) in
    if (length start <? 4)%nat || negb (starts_with start (str "LTE")) ||
       (negb (byte_at start 3 =? 44) && negb (isspace (byte_at start 3))) then Some g else
    let fields := split_commas [] start in
    if negb (length fields =? 14)%nat then Some g else Some (cpsi_values fields g)
  else None.

(** Every turn of the loop consumes at least one byte. *)
(* src: firmware-ESP32-LTE-M/main/modem_signal.c:34-75 modem_signal_parse_cpsi (loop) *)
Fixpoint cpsi_loop (fuel : nat) (line : list Z) (g : signal) : signal :=
  match fuel, line with
  | S fuel, _ :: _ =>
      let n := line_end line in
      match cpsi_line (take n line) g with
      | Some g => g
      | None => cpsi_loop fuel (skip_eol (drop n line)) g
      end
  | _, _ => g
  end.

(* src: firmware-ESP32-LTE-M/main/modem_signal.c:30-76 modem_signal_parse_cpsi *)
Definition modem_signal_parse_cpsi (reply : list Z) (g : signal) : signal :=
  cpsi_loop (S (length reply)) reply g.

(** ** Rates (modem_uart_baud.c) *)

Definition INT_MAX : Z := 2147483647.

(* src: firmware-ESP32-LTE-M/main/modem_uart_baud.c:36-51 take_integer *)
Definition take_integer (text : list Z) : option (Z * list Z) :=
  match digits_loop INT_MAX 0 0 (trim text) with
  | Some (value, S _, rest) => Some (value, trim rest)
  | _ => None
  end.

(* src: firmware-ESP32-LTE-M/main/modem_uart_baud.c:57-81 ipr_value (loop) *)
Fixpoint scan_ipr (found : option (list Z)) (terminal : bool) (ls : list (list Z)) : option (list Z) :=
  match ls with
  | [] => found
  | line :: ls =>
      let terminal := terminal || equals line (str "OK") in
      if negb (starts_with line (str "+IPR")) then scan_ipr found terminal ls else
      let line := drop 4 line in
      match line with
      | c :: _ =>
          if negb (c =? 58) && negb (c =? 32) && negb (c =? 9) then scan_ipr found terminal ls else
          if terminal || bool_decide (is_Some found) then None else
          match trim line with
          | 58 :: value => scan_ipr (Some (trim value)) terminal ls
          | _ => None
          end
      | [] => None
      end
  end.

(* src: firmware-ESP32-LTE-M/main/modem_uart_baud.c:53-82 ipr_value *)
Definition ipr_value (response : list Z) : option (list Z) :=
  if negb (bool_decide (modem_radio_response_status response = MODEM_RADIO_RESPONSE_OK)) then None
  else scan_ipr None false (lines response).1.

(* src: firmware-ESP32-LTE-M/main/modem_uart_baud.c:84-92 modem_uart_baud_parse_ipr *)
Definition modem_uart_baud_parse_ipr (response : list Z) : option Z :=
  match ipr_value response with
  | Some value => match take_integer value with Some (parsed, []) => Some parsed | _ => None end
  | None => None
  end.

(** ** The grace period *)

Inductive recovery_op :=
  | Observe (reply : option (list Z)) (now_s : Z)
  | Healthy.

Definition recovery_step (s : modem_recovery_t) (o : recovery_op) : modem_recovery_t * bool :=
  match o with
  | Observe reply now_s => modem_recovery_observe_registration s reply now_s
  | Healthy => (modem_recovery_backend_healthy s, false)
  end.

(** The registration the last readable reply reported. *)
Fixpoint last_reading (acc : option bool) (ops : list recovery_op) : option bool :=
  match ops with
  | [] => acc
  | Observe reply _ :: ops =>
      last_reading (match modem_recovery_parse_cereg reply with Some reg => Some reg | None => acc end) ops
  | Healthy :: ops => last_reading acc ops
  end.

Section Grace.
Implicit Types (s : modem_recovery_t) (ops : list recovery_op).

Definition known_reading s : option bool := if registration_known s then Some (registered s) else None.

Lemma step_reading s o :
  known_reading (recovery_step s o).1 = last_reading (known_reading s) [o].
Proof.
  destruct o as [reply now|]; cbn; [|done]; unfold modem_recovery_observe_registration.
  destruct (modem_recovery_parse_cereg reply) as [reg|]; [|done]; case_match; done.
Qed.

Lemma run_reading ops s : known_reading (run recovery_step s ops).1 = last_reading (known_reading s) ops.
Proof.
  revert s; induction ops as [|o ops IH]; intros s; [done|]; cbn [run].
  pose proof (step_reading s o) as Hs; destruct (recovery_step s o) as [s1 b]; specialize (IH s1).
  destruct (run recovery_step s1 ops) as [s2 bs]; cbn [fst] in *; rewrite IH, Hs.
  destruct o; done.
Qed.

(** Once used, the grace is not granted again without a healthy backend. *)
Lemma grace_kept ops s :
  grace_used s = true -> ~ In Healthy ops ->
  grace_used (run recovery_step s ops).1 = true /\ ~ In true (run recovery_step s ops).2 /\
  grace_started_s (run recovery_step s ops).1 = grace_started_s s.
Proof.
  revert s; induction ops as [|[reply now|] ops IH]; intros s Hs Hn; [split_and!; try done; intros []| |].
  - cbn [run recovery_step]; assert (Hst : let '(s1, b) := modem_recovery_observe_registration s reply now in
      grace_used s1 = true /\ b = false /\ grace_started_s s1 = grace_started_s s).
    { unfold modem_recovery_observe_registration; destruct (modem_recovery_parse_cereg reply); [|done].
      cbn; rewrite Hs, orb_true_r; done. }
    destruct (modem_recovery_observe_registration s reply now) as [s1 b]; destruct Hst as (H1 & -> & H3).
    destruct (IH s1 H1) as (I1 & I2 & I3); [intros Hin; apply Hn; right; done|].
    destruct (run recovery_step s1 ops) as [s2 bs]; cbn [fst snd] in *; split_and!; [done|intros [|]; done|congruence].
  - destruct Hn; left; done.
Qed.

Lemma observe_granted s reply now :
  (modem_recovery_observe_registration s reply now).2 = true ->
  known_reading s = Some false /\ modem_recovery_parse_cereg reply = Some true /\
  grace_used (modem_recovery_observe_registration s reply now).1 = true /\
  grace_started_s (modem_recovery_observe_registration s reply now).1 = now.
Proof.
  unfold modem_recovery_observe_registration, known_reading.
  destruct (modem_recovery_parse_cereg reply) as [reg|]; [|done]; cbn.
  destruct (registration_known s), (registered s), reg; try done; cbn; destruct (grace_used s); done.
Qed.
End Grace.

(** ** Signal ranges *)

Section Signal.
Implicit Types (g : signal).

Lemma s8_small z : -128 <= z <= 127 -> s8 z = z.
Proof. intros; unfold s8; rewrite Z.mod_small; lia. Qed.

Lemma read_rsrq_ranges field g :
  let g' := read_rsrq field g in
  sg_rsrp g' = sg_rsrp g /\ sg_sinr g' = sg_sinr g /\ (sg_rsrq g' = sg_rsrq g \/ -34 <= sg_rsrq g' <= -3).
Proof.
  unfold read_rsrq; destruct (field_integer field) as [v|]; [|auto]; cbv zeta.
  match goal with |- context [?w <=? -3] => generalize w end; intros w.
  destruct (_ && _) eqn:E; [|auto]; to_prop; cbn; rewrite s8_small; lia.
Qed.
Lemma read_rsrp_ranges field g :
  let g' := read_rsrp field g in
  sg_rsrq g' = sg_rsrq g /\ sg_sinr g' = sg_sinr g /\ (sg_rsrp g' = sg_rsrp g \/ -128 <= sg_rsrp g' <= -44).
Proof.
  unfold read_rsrp; destruct (field_integer field) as [v|]; [|auto]; cbv zeta.
  match goal with |- context [?w <=? -44] => generalize w end; intros w.
  destruct (_ && _) eqn:E; [|auto]; to_prop; cbn; rewrite s8_small; lia.
Qed.
Lemma read_sinr_ranges field g :
  let g' := read_sinr field g in
  sg_rsrp g' = sg_rsrp g /\ sg_rsrq g' = sg_rsrq g /\
  (sg_sinr g' = sg_sinr g \/ -20 <= sg_sinr g' <= 30 /\ Z.even (sg_sinr g') = true).
Proof.
  unfold read_sinr; destruct (field_integer field) as [v|]; [|auto]; cbv zeta; unfold modem_rssnr_to_sinr.
  destruct (_ && _) eqn:E; [|auto]; to_prop; rewrite s8_small by lia.
  destruct (negb _); [|auto]; cbn; split_and!; try done; right; split; [lia|].
  replace (2 * v - 20) with (2 * (v - 10)) by lia; apply Z.even_mul.
Qed.

Lemma cpsi_values_ranges fields g :
  let g' := cpsi_values fields g in
  (sg_rsrp g' = sg_rsrp g \/ -128 <= sg_rsrp g' <= -44) /\
  (sg_rsrq g' = sg_rsrq g \/ -34 <= sg_rsrq g' <= -3) /\
  (sg_sinr g' = sg_sinr g \/ -20 <= sg_sinr g' <= 30 /\ Z.even (sg_sinr g') = true).
Proof.
  unfold cpsi_values; cbv zeta; set (g1 := read_rsrq _ g); set (g2 := read_rsrp _ g1).
  destruct (read_rsrq_ranges (nth 10 fields []) g) as (A1 & A2 & A3); fold g1 in A1, A2, A3.
  destruct (read_rsrp_ranges (nth 11 fields []) g1) as (B1 & B2 & B3); fold g2 in B1, B2, B3.
  destruct (read_sinr_ranges (nth 13 fields []) g2) as (C1 & C2 & C3); rewrite C1, C2.
  rewrite B1; rewrite A1 in B3; rewrite B2, A2 in C3; auto.
Qed.

Lemma cpsi_line_values text g g' :
  cpsi_line text g = Some g' -> g' = g \/ exists fields, g' = cpsi_values fields g.
Proof.
  unfold cpsi_line; destruct (starts_with _ _); [|done]; destruct (_ || _); [intros [= <-]; auto|].
  destruct (negb _); intros [= <-]; eauto.
Qed.
End Signal.

(** ** Properties *)

(** The registration grace.  In every run from boot, an observation grants the
    grace only when the last readable reply before it said unregistered and this
    one says registered; from then on, until the backend is healthy again, no
    further observation grants it, and it is active for exactly the 90 seconds
    that follow the grant (on a clock that has not wrapped). *)
Theorem registration_grace ops1 reply now ops2 :
  let s1 := (run recovery_step modem_recovery_init ops1).1 in
  let '(s2, granted) := recovery_step s1 (Observe reply now) in
  granted = true -> ~ In Healthy ops2 ->
  last_reading None ops1 = Some false /\ modem_recovery_parse_cereg reply = Some true /\
  ~ In true (run recovery_step s2 ops2).2 /\
  forall t, now <= t < now + 4294967296 ->
    modem_recovery_grace_active (run recovery_step s2 ops2).1 t = (t <? now + MODEM_RECOVERY_REG_GRACE_S).
Proof.
  intros s1; cbn [recovery_step]; pose proof (observe_granted s1 reply now) as H.
  destruct (modem_recovery_observe_registration s1 reply now) as [s2 granted]; cbn [fst snd] in H.
  intros Hg Hn; destruct (H Hg) as (H1 & H2 & H3 & H4); destruct (grace_kept ops2 s2 H3 Hn) as (K1 & K2 & K3).
  split_and!; [|done|done|].
  - rewrite <- H1; unfold s1; rewrite run_reading; done.
  - intros t Ht; unfold modem_recovery_grace_active; rewrite K1, K3, H4, u32_small by lia; cbn [andb].
    unfold MODEM_RECOVERY_REG_GRACE_S; destruct (Z.ltb_spec (t - now) 90), (Z.ltb_spec t (now + 90)); lia || done.
Qed.

Definition cereg_reply (status : list Z) : option (list Z) :=
  Some ([13; 10] ++ str "+CEREG: 0," ++ status ++ [13; 10; 13; 10] ++ str "OK" ++ [13; 10]).

Lemma registration_grace_witness :
  let s := (run recovery_step modem_recovery_init
              [Observe (cereg_reply (str "2")) 10; Observe (cereg_reply (str "5")) 20;
               Observe (cereg_reply (str "2")) 30]).1 in
  modem_recovery_grace_active s 109 = true /\ modem_recovery_grace_active s 110 = false.
Proof.
  pose proof (registration_grace [Observe (cereg_reply (str "2")) 10] (cereg_reply (str "5")) 20
                [Observe (cereg_reply (str "2")) 30]) as H.
  cbv zeta in H; destruct (recovery_step _ _) as [s2 granted] eqn:E in H; vm_compute in E.
  injection E as <- <-; destruct (H eq_refl) as (_ & _ & _ & Ht); [intros [E|[]]; discriminate|].
  assert (Hs : (run recovery_step modem_recovery_init
    [Observe (cereg_reply (str "2")) 10; Observe (cereg_reply (str "5")) 20; Observe (cereg_reply (str "2")) 30]).1 =
    (run recovery_step (Recovery true true true 20) [Observe (cereg_reply (str "2")) 30]).1)
    by (vm_compute; reflexivity).
  cbv zeta; rewrite Hs, !Ht by lia; split; reflexivity.
Defined.

(** Signal values stay in their ranges.  Whatever text the modem returns, each
    of the three outputs is either untouched or a value of its range: RSRP
    from -128 to -44 dBm, RSRQ from -34 to -3 dB, SINR an even number from -20 to
    30 dB; zero is never invented. *)
Theorem cpsi_ranges reply g :
  let g' := modem_signal_parse_cpsi reply g in
  (sg_rsrp g' = sg_rsrp g \/ -128 <= sg_rsrp g' <= -44) /\
  (sg_rsrq g' = sg_rsrq g \/ -34 <= sg_rsrq g' <= -3) /\
  (sg_sinr g' = sg_sinr g \/ -20 <= sg_sinr g' <= 30 /\ Z.even (sg_sinr g') = true).
Proof.
  unfold modem_signal_parse_cpsi; generalize (S (length reply)) as fuel.
  intros fuel; revert reply; induction fuel as [|fuel IH]; intros reply; [cbn; auto|].
  destruct reply as [|c reply]; [cbn; auto|]; cbn [cpsi_loop].
  destruct (cpsi_line _ g) as [g'|] eqn:E; [|apply IH].
  destruct (cpsi_line_values _ _ _ E) as [->|[fields ->]]; [auto|apply cpsi_values_ranges].
Qed.
