(* ===== verification/Sha256.v ===== *)
(** * SHA-256 of the RP2040
    (firmware-rp2040/src/sha256.cpp, sha256.h)

    The streaming context of the firmware, with the compression function, and its
    equivalence with hashing the padded message as a whole. *)

From S2P Require Import Prelude.

(** ** Words *)

(* src: firmware-rp2040/src/sha256.cpp:6-6 ROTR *)
Definition ROTR (x n : Z) : Z := Z.lor (Z.shiftr x n) (u32 (Z.shiftl x (32 - n))).

(* src: firmware-rp2040/src/sha256.cpp:8-8 CH *)
Definition CH (x y z : Z) : Z := Z.lxor (Z.land x y) (Z.land (u32 (Z.lnot x)) z).
(* src: firmware-rp2040/src/sha256.cpp:9-9 MAJ *)
Definition MAJ (x y z : Z) : Z := Z.lxor (Z.lxor (Z.land x y) (Z.land x z)) (Z.land y z).
(* src: firmware-rp2040/src/sha256.cpp:10-10 EP0 *)
Definition EP0 (x : Z) : Z := Z.lxor (Z.lxor (ROTR x 2) (ROTR x 13)) (ROTR x 22).
(* src: firmware-rp2040/src/sha256.cpp:11-11 EP1 *)
Definition EP1 (x : Z) : Z := Z.lxor (Z.lxor (ROTR x 6) (ROTR x 11)) (ROTR x 25).
(* src: firmware-rp2040/src/sha256.cpp:12-12 SIG0 *)
Definition SIG0 (x : Z) : Z := Z.lxor (Z.lxor (ROTR x 7) (ROTR x 18)) (Z.shiftr x 3).
(* src: firmware-rp2040/src/sha256.cpp:13-13 SIG1 *)
Definition SIG1 (x : Z) : Z := Z.lxor (Z.lxor (ROTR x 17) (ROTR x 19)) (Z.shiftr x 10).

(* src: firmware-rp2040/src/sha256.cpp:16-33 K *)
Definition K : list Z :=
  [1116352408; 1899447441; 3049323471; 3921009573; 961987163; 1508970993; 2453635748; 2870763221;
   3624381080; 310598401; 607225278; 1426881987; 1925078388; 2162078206; 2614888103; 3248222580;
   3835390401; 4022224774; 264347078; 604807628; 770255983; 1249150122; 1555081692; 1996064986;
   2554220882; 2821834349; 2952996808; 3210313671; 3336571891; 3584528711; 113926993; 338241895;
   666307205; 773529912; 1294757372; 1396182291; 1695183700; 1986661051; 2177026350; 2456956037;
   2730485921; 2820302411; 3259730800; 3345764771; 3516065817; 3600352804; 4094571909; 275423344;
   430227734; 506948616; 659060556; 883997877; 958139571; 1322822218; 1537002063; 1747873779;
   1955562222; 2024104815; 2227730452; 2361852424; 2428436474; 2756734187; 3204031479; 3329325298].

(** ** The compression function *)

(** [data] read as big-endian words. *)
(* src: firmware-rp2040/src/sha256.cpp:40-43 sha256_transform (words) *)
Definition be_word (data : list Z) (i : nat) : Z :=
  Z.lor (Z.lor (Z.lor (u32 (Z.shiftl (byte_at data (i * 4)) 24)) (u32 (Z.shiftl (byte_at data (i * 4 + 1)) 16)))
               (u32 (Z.shiftl (byte_at data (i * 4 + 2)) 8)))
        (byte_at data (i * 4 + 3)).

(** The schedule grows by one word per turn; word [i] reads [i-2], [i-7], [i-15], [i-16]. *)
(* src: firmware-rp2040/src/sha256.cpp:44-46 sha256_transform (schedule) *)
Fixpoint schedule (n : nat) (m : list Z) : list Z :=
  match n with
  | O => m
  | S n =>
      let i := length m in
      schedule n (m ++ [u32 (SIG1 (byte_at m (i - 2)) + byte_at m (i - 7) + SIG0 (byte_at m (i - 15)) +
                             byte_at m (i - 16))])
  end.

(** The eight working variables. *)
(* src: firmware-rp2040/src/sha256.cpp:38-38 sha256_transform (variables) *)
Record vars := Vars { va : Z; vb : Z; vc : Z; vd : Z; ve : Z; vf : Z; vg : Z; vh : Z }.

(* src: firmware-rp2040/src/sha256.cpp:51-56 sha256_transform (round) *)
Definition round (v : vars) (km : Z * Z) : vars :=
  let t1 := u32 (vh v + EP1 (ve v) + CH (ve v) (vf v) (vg v) + km.1 + km.2) in
  let t2 := u32 (EP0 (va v) + MAJ (va v) (vb v) (vc v)) in
  Vars (u32 (t1 + t2)) (va v) (vb v) (vc v) (u32 (vd v + t1)) (ve v) (vf v) (vg v).

(** The chaining value has the same eight components. *)
(* src: firmware-rp2040/src/sha256.cpp:35-60 sha256_transform *)
Definition sha256_transform (st : vars) (data : list Z) : vars :=
  let m := schedule 48 (map (be_word data) (seq 0 16)) in
  let v := fold_left round (combine K m) st in
  Vars (u32 (va st + va v)) (u32 (vb st + vb v)) (u32 (vc st + vc v)) (u32 (vd st + vd v))
       (u32 (ve st + ve v)) (u32 (vf st + vf v)) (u32 (vg st + vg v)) (u32 (vh st + vh v)).

(** ** The streaming context *)

(* src: firmware-rp2040/src/sha256.h:24-29 fw_sha256_ctx *)
Record fw_sha256_ctx := Ctx {
  c_state : vars;
  c_bitlen : Z;
  c_data : list Z;       (* 64 bytes *)
  c_datalen : Z
}.

#[export] Instance eta_fw_sha256_ctx : Eta fw_sha256_ctx := fun c =>
  Ctx (c_state c) (c_bitlen c) (c_data c) (c_datalen c).

Definition H_init : vars :=
  Vars 1779033703 3144134277 1013904242 2773480762 1359893119 2600822924 528734635 1541459225.

(** The data block keeps whatever the memory held. *)
(* src: firmware-rp2040/src/sha256.cpp:62-74 fw_sha256_init *)
Definition fw_sha256_init (ctx : fw_sha256_ctx) : fw_sha256_ctx :=
  ctx <| c_datalen := 0 |> <| c_bitlen := 0 |> <| c_state := H_init |>.

(* src: firmware-rp2040/src/sha256.cpp:76-86 fw_sha256_update (loop) *)
Definition sha256_byte (ctx : fw_sha256_ctx) (b : Z) : fw_sha256_ctx :=
  let ctx := ctx <| c_data := <[Z.to_nat (c_datalen ctx) := b]> (c_data ctx) |>
                 <| c_datalen := u32 (c_datalen ctx + 1) |> in
  if c_datalen ctx =? 64
  then ctx <| c_state := sha256_transform (c_state ctx) (c_data ctx) |>
           <| c_bitlen := u64 (c_bitlen ctx + 512) |> <| c_datalen := 0 |>
  else ctx.

(* src: firmware-rp2040/src/sha256.cpp:76-86 fw_sha256_update *)
Definition fw_sha256_update (ctx : fw_sha256_ctx) (data : list Z) : fw_sha256_ctx :=
  fold_left sha256_byte data ctx.

(** [while (i < j) data[i++] = 0]. *)
(* src: firmware-rp2040/src/sha256.cpp:95-99 fw_sha256_final (padding) *)
Definition zero_fill (i j : nat) (data : list Z) : list Z :=
  take i data ++ replicate (j - i) 0 ++ drop (Nat.max i j) data.

(* src: firmware-rp2040/src/sha256.cpp:107-112 fw_sha256_final (word) *)
Definition be32 (w : Z) : list Z :=
  [u8 (Z.shiftr w 24); u8 (Z.shiftr w 16); u8 (Z.shiftr w 8); u8 w].

Definition digest_of (st : vars) : list Z :=
  be32 (va st) ++ be32 (vb st) ++ be32 (vc st) ++ be32 (vd st) ++
  be32 (ve st) ++ be32 (vf st) ++ be32 (vg st) ++ be32 (vh st).

(** The length as [data[63 - j] = bitlen >> 8 j], for [j] from 0 to 7. *)
(* src: firmware-rp2040/src/sha256.cpp:102-104 fw_sha256_final (length) *)
Definition be64 (n : Z) : list Z := map (fun j => u8 (Z.shiftr n (8 * j))) [7; 6; 5; 4; 3; 2; 1; 0].

(* src: firmware-rp2040/src/sha256.cpp:88-113 fw_sha256_final *)
Definition fw_sha256_final (ctx : fw_sha256_ctx) : list Z :=
  let i := Z.to_nat (c_datalen ctx) in
  let data := <[i := 128]> (c_data ctx) in
  let i := S i in
  let '(st, data, i) :=
    if (56 <? Z.of_nat i)
    then let data := zero_fill i 64 data in (sha256_transform (c_state ctx) data, data, O)
    else (c_state ctx, data, i) in
  let data := zero_fill i 56 data in
  let bitlen := u64 (c_bitlen ctx + u64 (c_datalen ctx * 8)) in
  let data := take 56 data ++ be64 bitlen in
  digest_of (sha256_transform st data).

(** Hashing in one call. *)
Definition blank_ctx : fw_sha256_ctx := Ctx H_init 0 (replicate 64 0) 0.
Definition fw_sha256 (msg : list Z) : list Z :=
  fw_sha256_final (fw_sha256_update (fw_sha256_init blank_ctx) msg).

(** ** The reference: padding, then one block after the other (FIPS 180-4, 5.1.1 and 6.2) *)

Definition pad (msg : list Z) : list Z :=
  let n := Z.of_nat (length msg) in
  msg ++ [128] ++ replicate (Z.to_nat ((55 - n) mod 64)) 0 ++ be64 (u64 (8 * n)).

Definition blocks (l : list Z) : list (list Z) := reshape (replicate (length l / 64)%nat 64%nat) l.

Definition sha256_ref (msg : list Z) : list Z :=
  digest_of (fold_left sha256_transform (blocks (pad msg)) H_init).

#[global] Arguments sha256_transform : simpl never.

Section Streaming.
Implicit Types (ctx : fw_sha256_ctx) (msg tail data : list Z) (bs : list (list Z)).

Lemma length_be64 n : length (be64 n) = 8%nat.
Proof. done. Qed.

Lemma blocks_concat bs : Forall (fun b => length b = 64%nat) bs -> blocks (concat bs) = bs.
Proof.
  intros H; assert (length (concat bs) = length bs * 64)%nat as Hl.
  { induction H; [done|]; cbn [concat length]; rewrite length_app; lia. }
  unfold blocks; rewrite Hl, Nat.div_mul by done; clear Hl.
  induction H as [|b bs Hb _ IH]; [done|]; cbn [concat length replicate reshape].
  rewrite take_app_le, drop_app_le, take_ge, drop_ge by lia; cbn; rewrite IH; done.
Qed.

(** What a context that has absorbed [msg] holds: whole blocks are hashed, the
    rest is at the start of the buffer. *)
Inductive absorbed ctx msg : Prop :=
  Absorbed bs tail :
    msg = concat bs ++ tail -> Forall (fun b => length b = 64%nat) bs -> (length tail < 64)%nat ->
    c_state ctx = fold_left sha256_transform bs H_init ->
    c_datalen ctx = Z.of_nat (length tail) -> take (length tail) (c_data ctx) = tail ->
    length (c_data ctx) = 64%nat -> c_bitlen ctx = u64 (512 * Z.of_nat (length bs)) ->
    absorbed ctx msg.

Lemma absorbed_init ctx : length (c_data ctx) = 64%nat -> absorbed (fw_sha256_init ctx) [].
Proof. intros H; apply (Absorbed _ _ [] []); cbn; auto; lia. Qed.

Lemma take_insert_next data i b :
  (i < length data)%nat -> take (S i) (<[i := b]> data) = take i data ++ [b].
Proof.
  intros H; rewrite (take_S_r _ _ b) by (apply list_lookup_insert_eq; done).
  rewrite take_insert_ge by lia; done.
Qed.

Lemma absorbed_byte ctx msg b : absorbed ctx msg -> absorbed (sha256_byte ctx b) (msg ++ [b]).
Proof.
  intros [bs tail -> Hbs Ht Hs Hn Hd Hl Hbit]; unfold sha256_byte.
  cbn [c_datalen c_data c_state c_bitlen upd]; rewrite Hn, Nat2Z.id, u32_small by lia.
  destruct (Z.eqb_spec (Z.of_nat (length tail) + 1) 64) as [E|E].
  - assert (Hdata : <[length tail := b]> (c_data ctx) = tail ++ [b]).
    { rewrite <- (take_ge (<[_ := _]> _) 64) by (rewrite length_insert; lia).
      replace 64%nat with (S (length tail)) by lia; rewrite take_insert_next by lia; rewrite Hd; done. }
    apply (Absorbed _ _ (bs ++ [tail ++ [b]]) []); cbn [c_datalen c_data c_state c_bitlen upd length].
    + rewrite concat_app; cbn; rewrite !app_nil_r, app_assoc; done.
    + apply Forall_app; split; [done|]; repeat constructor; rewrite length_app; cbn; lia.
    + lia.
    + rewrite fold_left_app, Hdata, Hs; done.
    + done.
    + done.
    + rewrite length_insert; done.
    + rewrite Hbit, length_app; unfold u64; rewrite Zplus_mod_idemp_l; f_equal; cbn [length]; lia.
  - apply (Absorbed _ _ bs (tail ++ [b])); cbn [c_datalen c_data c_state c_bitlen upd];
      rewrite ?length_app, ?length_insert; cbn [length]; try done; try lia.
    + rewrite app_assoc; done.
    + rewrite Nat.add_1_r, take_insert_next, Hd by lia; done.
Qed.

Lemma absorbed_update ctx msg data : absorbed ctx msg -> absorbed (fw_sha256_update ctx data) (msg ++ data).
Proof.
  unfold fw_sha256_update; revert ctx msg; induction data as [|b data IH]; intros ctx msg H; cbn [fold_left].
  - rewrite app_nil_r; done.
  - replace (msg ++ b :: data) with ((msg ++ [b]) ++ data) by (rewrite <- app_assoc; done).
    apply IH, absorbed_byte, H.
Qed.

(** Padding does not look at the blocks already hashed. *)
Lemma length_concat_blocks bs : Forall (fun b => length b = 64%nat) bs -> length (concat bs) = (64 * length bs)%nat.
Proof. induction 1; [done|]; cbn [concat length]; rewrite length_app; lia. Qed.

Lemma pad_zeros n (t : nat) : (t < 64)%nat -> (55 - (64 * Z.of_nat n + Z.of_nat t)) mod 64 =
  if decide (t <= 55)%nat then 55 - Z.of_nat t else 119 - Z.of_nat t.
Proof.
  intros H; case_decide.
  - symmetry; apply Z.mod_unique with (- Z.of_nat n); lia.
  - symmetry; apply Z.mod_unique with (- Z.of_nat n - 1); lia.
Qed.

Lemma zero_fill_prefix i j data x : (i <= j)%nat -> take i data = x -> length x = i ->
  take j (zero_fill i j data) = x ++ replicate (j - i) 0.
Proof.
  intros H Hx Hl; unfold zero_fill; rewrite Hx, app_assoc, take_app_le by (rewrite length_app, length_replicate; lia).
  apply take_ge; rewrite length_app, length_replicate; lia.
Qed.

Lemma length_zero_fill i j data : (i <= j)%nat -> (j <= length data)%nat -> length (zero_fill i j data) = length data.
Proof.
  intros H H'; unfold zero_fill; rewrite !length_app, length_replicate, length_take, length_drop; lia.
Qed.

Lemma absorbed_final ctx msg : absorbed ctx msg -> fw_sha256_final ctx = sha256_ref msg.
Proof.
  intros [bs tail -> Hbs Ht Hs Hn Hd Hl Hbit]; unfold fw_sha256_final, sha256_ref, pad.
  assert (Htl : length (concat bs ++ tail) = (64 * length bs + length tail)%nat).
  { rewrite length_app, length_concat_blocks by done; done. }
  assert (u64 (c_bitlen ctx + u64 (c_datalen ctx * 8)) = u64 (8 * Z.of_nat (length (concat bs ++ tail)))) as ->.
  { rewrite Hbit, Hn, Htl; unfold u64; rewrite Zplus_mod_idemp_l, Zplus_mod_idemp_r; f_equal; lia. }
  set (L := be64 _); assert (HL : length L = 8%nat) by done; clearbody L.
  assert (Hz : (55 - Z.of_nat (length (concat bs ++ tail))) mod 64 =
               if decide (length tail <= 55)%nat then 55 - Z.of_nat (length tail) else 119 - Z.of_nat (length tail)).
  { rewrite Htl, <- (pad_zeros (length bs)) by done; f_equal; lia. }
  rewrite Hz, Hn, Nat2Z.id, Hs; clear Hz.
  set (d := <[length tail := 128]> (c_data ctx)).
  assert (Hd' : take (S (length tail)) d = tail ++ [128]) by (subst d; rewrite take_insert_next, Hd by lia; done).
  assert (Hdl : length d = 64%nat) by (subst d; rewrite length_insert; done).
  destruct (decide (length tail <= 55)%nat) as [Hle|Hgt].
  - rewrite (proj2 (Z.ltb_ge _ _)) by lia.
    rewrite (zero_fill_prefix (S (length tail)) 56 d _ ltac:(lia) Hd') by (rewrite length_app; cbn; lia).
    set (blk := ((tail ++ [128]) ++ _) ++ L).
    replace ((concat bs ++ tail) ++ [128] ++ _) with (concat (bs ++ [blk])).
    + rewrite blocks_concat, fold_left_app; [done|]; apply Forall_app; split; [done|]; repeat constructor.
      subst blk; rewrite !length_app, length_replicate; cbn; lia.
    + subst blk; rewrite concat_app; cbn; rewrite app_nil_r, <- !app_assoc; cbn; do 3 f_equal.
      f_equal; f_equal; lia.
  - rewrite (proj2 (Z.ltb_lt _ _)) by lia.
    set (d1 := zero_fill (S (length tail)) 64 d).
    assert (Hd1 : d1 = tail ++ [128] ++ replicate (63 - length tail) 0).
    { rewrite <- (take_ge d1 64) by (subst d1; rewrite length_zero_fill by lia; lia).
      subst d1; rewrite (zero_fill_prefix (S (length tail)) 64 d _ ltac:(lia) Hd') by (rewrite length_app; cbn; lia).
      rewrite <- app_assoc; done. }
    rewrite (zero_fill_prefix 0 56 d1 [] ltac:(lia) eq_refl eq_refl); change (56 - 0)%nat with 56%nat.
    replace ((concat bs ++ tail) ++ [128] ++ _) with (concat (bs ++ [d1; replicate 56 0 ++ L])).
    + rewrite blocks_concat, fold_left_app; [done|]; apply Forall_app; split; [done|]; repeat constructor.
      * subst d1; rewrite length_zero_fill; lia.
      * rewrite length_app, length_replicate; lia.
    + rewrite concat_app, Hd1; cbn [concat]; rewrite app_nil_r, <- !app_assoc; cbn [app]; do 3 f_equal.
      rewrite app_assoc, <- replicate_add; f_equal; f_equal; lia.
Qed.
End Streaming.

Lemma fw_sha256_ref msg : fw_sha256 msg = sha256_ref msg.
Proof. apply absorbed_final, (absorbed_update _ []), absorbed_init; done. Qed.

Lemma update_app ctx a b : fw_sha256_update (fw_sha256_update ctx a) b = fw_sha256_update ctx (a ++ b).
Proof. unfold fw_sha256_update; rewrite fold_left_app; done. Qed.

Lemma stream_ref ctx (chunks : list (list Z)) : length (c_data ctx) = 64%nat ->
  fw_sha256_final (fold_left fw_sha256_update chunks (fw_sha256_init ctx)) = sha256_ref (concat chunks).
Proof.
  intros H; apply absorbed_final.
  enough (forall c msg, absorbed c msg -> absorbed (fold_left fw_sha256_update chunks c) (msg ++ concat chunks)) as Hg
    by (apply (Hg _ []), absorbed_init, H).
  induction chunks as [|x l IH]; intros c msg Hc; cbn [fold_left concat]; [rewrite app_nil_r; done|].
  rewrite app_assoc; apply IH, absorbed_update, Hc.
Qed.

(** The published vectors for "abc", the empty message, and a message of two blocks
    fed in pieces that do not respect the block boundary. *)
Lemma kat_abc :
  fw_sha256 (str "abc") =
  [186; 120; 22; 191; 143; 1; 207; 234; 65; 65; 64; 222; 93; 174; 34; 35; 176; 3; 97; 163; 150; 23; 122;
   156; 180; 16; 255; 97; 242; 0; 21; 173].
Proof. vm_compute; reflexivity. Qed.
Lemma kat_empty :
  fw_sha256 [] =
  [227; 176; 196; 66; 152; 252; 28; 20; 154; 251; 244; 200; 153; 111; 185; 36; 39; 174; 65; 228; 100; 155; 147;
   76; 164; 149; 153; 27; 120; 82; 184; 85].
Proof. vm_compute; reflexivity. Qed.
