(* ===== verification/Fips180.v ===== *)
(** * SHA-256 as FIPS 180-4 has it

    A reference that shares nothing with the code: the constants are the fractional parts of
    the roots of the first primes, words are numbers, the schedule is kept newest word
    first. The implementation of firmware-rp2040/src/sha256.cpp is proved equal to it. *)

From S2P Require Import Prelude Sha256.

(** ** The standard *)

(** 4.2.2 and 5.3.3: the first 32 bits of the fractional parts of roots of primes. *)
Definition is_prime (n : nat) : bool := forallb (fun d => negb (n mod d =? 0)%nat) (seq 2 (n - 2)).
Definition primes (upto : nat) : list Z := map Z.of_nat (List.filter is_prime (seq 2 (upto - 1))).
(** The greatest number below 2^[bits] whose [k]-th power is at most [n]. *)
Definition root (k n : Z) (bits : nat) : Z :=
  fold_left (fun r b => let r' := r + 2 ^ Z.of_nat b in if r' ^ k <=? n then r' else r) (rev (seq 0 bits)) 0.
Definition fips_K : list Z := map (fun p => root 3 (p * 2 ^ 96) 36 mod 2 ^ 32) (primes 311).
Definition fips_H0 : list Z := map (fun p => root 2 (p * 2 ^ 64) 36 mod 2 ^ 32) (primes 19).

(** 2.2.2 and 4.1.2. *)
Definition rotr (n x : Z) : Z := x / 2 ^ n + x mod 2 ^ n * 2 ^ (32 - n).
Definition fips_not (x : Z) : Z := 2 ^ 32 - 1 - x.
Definition fips_ch (x y z : Z) : Z := Z.lxor (Z.land x y) (Z.land (fips_not x) z).
Definition fips_maj (x y z : Z) : Z := Z.lxor (Z.lxor (Z.land x y) (Z.land x z)) (Z.land y z).
Definition Sigma0 (x : Z) : Z := Z.lxor (Z.lxor (rotr 2 x) (rotr 13 x)) (rotr 22 x).
Definition Sigma1 (x : Z) : Z := Z.lxor (Z.lxor (rotr 6 x) (rotr 11 x)) (rotr 25 x).
Definition sigma0 (x : Z) : Z := Z.lxor (Z.lxor (rotr 7 x) (rotr 18 x)) (x / 2 ^ 3).
Definition sigma1 (x : Z) : Z := Z.lxor (Z.lxor (rotr 17 x) (rotr 19 x)) (x / 2 ^ 10).

(** 5.2.1: bytes as words, most significant byte first; 6.2: words as bytes. *)
Fixpoint words_of (l : list Z) : list Z :=
  match l with a :: b :: c :: d :: l => a * 2 ^ 24 + b * 2 ^ 16 + c * 2 ^ 8 + d :: words_of l | _ => [] end.
Definition bytes_be (n : nat) (v : Z) : list Z := map (fun i => v / 2 ^ (8 * Z.of_nat i) mod 2 ^ 8) (rev (seq 0 n)).

(** 6.2.2, step 1: [w] holds the words so far, the newest first. *)
Fixpoint expand (n : nat) (w : list Z) : list Z :=
  match n with
  | O => rev w
  | S n => expand n ((sigma1 (nth 1 w 0) + nth 6 w 0 + sigma0 (nth 14 w 0) + nth 15 w 0) mod 2 ^ 32 :: w)
  end.

(** Steps 2 to 4, with a to h as a list. *)
Definition fips_step (s : list Z) (kw : Z * Z) : list Z :=
  match s with
  | [a; b; c; d; e; f; g; h] =>
      let T1 := (h + Sigma1 e + fips_ch e f g + kw.1 + kw.2) mod 2 ^ 32 in
      let T2 := (Sigma0 a + fips_maj a b c) mod 2 ^ 32 in
      [(T1 + T2) mod 2 ^ 32; a; b; c; (d + T1) mod 2 ^ 32; e; f; g]
  | _ => s
  end.
Definition fips_block (H block : list Z) : list Z :=
  let W := expand 48 (rev (words_of block)) in
  zip_with (fun x y => (x + y) mod 2 ^ 32) H (fold_left fips_step (combine fips_K W) H).

(** 5.1.1: a 1 bit, the fewest zero bits, the length in bits. *)
Definition fips_zeros (n : Z) : nat := default 0%nat (head (List.filter (fun k => (n + 1 + Z.of_nat k) mod 64 =? 56) (seq 0 64))).
Definition fips_pad (msg : list Z) : list Z :=
  let n := Z.of_nat (length msg) in msg ++ [128] ++ replicate (fips_zeros n) 0 ++ bytes_be 8 (8 * n).

Definition fips_sha256 (msg : list Z) : list Z :=
  concat (map (bytes_be 4) (fold_left fips_block (blocks (fips_pad msg)) fips_H0)).

(** The standard's own example. *)
Example fips_abc : fips_sha256 (str "abc") =
  [186; 120; 22; 191; 143; 1; 207; 234; 65; 65; 64; 222; 93; 174; 34; 35; 176; 3; 97; 163; 150; 23; 122; 156; 180; 16; 255; 97; 242; 0; 21; 173].
Proof. vm_compute; reflexivity. Qed.

(** ** The code computes it *)

Definition as_list (v : vars) : list Z := [va v; vb v; vc v; vd v; ve v; vf v; vg v; vh v].
Definition word_vars (v : vars) : Prop := Forall (fun x => is_u32 x) (as_list v).

Lemma K_fips : K = fips_K.
Proof. vm_compute; reflexivity. Qed.
Lemma H_fips : as_list H_init = fips_H0.
Proof. vm_compute; reflexivity. Qed.

Lemma H_words : word_vars H_init.
Proof. unfold word_vars, as_list, H_init; cbn [va vb vc vd ve vf vg vh]; repeat (apply Forall_cons_2; [lia|]); apply Forall_nil_2. Qed.

Lemma ROTR_fips n x : 0 < n < 32 -> is_u32 x -> ROTR x n = rotr n x.
Proof.
  intros Hn Hx; unfold ROTR, rotr; rewrite Z.shiftr_div_pow2 by lia.
  assert (Hp : 2 ^ n * 2 ^ (32 - n) = 4294967296) by (rewrite <- Z.pow_add_r by lia; replace (n + (32 - n)) with 32 by lia; done).
  assert (H1 : 0 < 2 ^ n) by (apply Z.pow_pos_nonneg; lia); assert (H2 : 0 < 2 ^ (32 - n)) by (apply Z.pow_pos_nonneg; lia).
  pose proof (Z.div_mod x (2 ^ n) ltac:(lia)) as HD; pose proof (Z.mod_pos_bound x (2 ^ n) H1) as HM.
  assert (HE : u32 (Z.shiftl x (32 - n)) = Z.shiftl (x mod 2 ^ n) (32 - n)).
  { rewrite !Z.shiftl_mul_pow2 by lia; unfold u32; rewrite <- Hp.
    rewrite Z.mul_mod_distr_r by lia; done. }
  rewrite HE, lor_shiftl; [done|lia|]; split; [apply Z.div_pos; lia|apply Z.div_lt_upper_bound; lia].
Qed.

Lemma SHR_fips n x : 0 <= n -> Z.shiftr x n = x / 2 ^ n.
Proof. intros; apply Z.shiftr_div_pow2; done. Qed.

Lemma CH_fips x y z : is_u32 x -> CH x y z = fips_ch x y z.
Proof.
  intros Hx; unfold CH, fips_ch, fips_not; do 2 f_equal; unfold u32, Z.lnot.
  replace (Z.pred (- x)) with (2 ^ 32 - 1 - x + (-1) * 4294967296) by lia; rewrite Z_mod_plus_full, Z.mod_small by lia; done.
Qed.

Lemma round_fips v kw : word_vars v -> as_list (round v kw) = fips_step (as_list v) kw /\ word_vars (round v kw).
Proof.
  intros Hv; assert (Ha : is_u32 (va v)) by (eapply Forall_forall in Hv; [exact Hv|left]).
  assert (He : is_u32 (ve v)) by (do 4 apply Forall_cons_1 in Hv as [_ Hv]; apply Forall_cons_1 in Hv as [He _]; exact He).
  split.
  - unfold round, fips_step, as_list, EP0, EP1, Sigma0, Sigma1; cbn [va vb vc vd ve vf vg vh].
    rewrite CH_fips, !ROTR_fips by (done || lia); reflexivity.
  - unfold word_vars, as_list, round in *; cbn [va vb vc vd ve vf vg vh]; repeat (apply Forall_cons_1 in Hv as [? Hv]).
    repeat (apply Forall_cons_2; [apply u32_range || assumption|]); apply Forall_nil_2.
Qed.

Lemma rounds_fips kws : forall v, word_vars v -> as_list (fold_left round kws v) = fold_left fips_step kws (as_list v) /\ word_vars (fold_left round kws v).
Proof.
  induction kws as [|kw kws IH]; intros v Hv; [split; [done|exact Hv]|]; cbn [fold_left].
  destruct (round_fips v kw Hv) as [<- Hr]; apply IH, Hr.
Qed.

(** ** Words *)

Lemma be_word_fips a b c d : is_u8 a -> is_u8 b -> is_u8 c -> is_u8 d ->
  Z.lor (Z.lor (Z.lor (u32 (Z.shiftl a 24)) (u32 (Z.shiftl b 16))) (u32 (Z.shiftl c 8))) d = a * 2 ^ 24 + b * 2 ^ 16 + c * 2 ^ 8 + d.
Proof.
  intros Ha Hb Hc Hd; rewrite !u32_small by (rewrite Z.shiftl_mul_pow2; lia).
  rewrite <- (Z.lor_comm d), (Z.lor_comm (Z.lor (Z.shiftl a 24) _)), (Z.lor_comm (Z.shiftl a 24)).
  assert (E1 : Z.lor (Z.shiftl b 16) (Z.shiftl a 24) = b * 2 ^ 16 + a * 2 ^ 24).
  { rewrite lor_shiftl; rewrite ?Z.shiftl_mul_pow2; lia. }
  rewrite E1; replace (b * 2 ^ 16 + a * 2 ^ 24) with (Z.shiftl (b + a * 2 ^ 8) 16) by (rewrite Z.shiftl_mul_pow2; lia).
  rewrite (lor_shiftl (Z.shiftl c 8)) by (rewrite ?Z.shiftl_mul_pow2; lia).
  replace (Z.shiftl c 8 + (b + a * 2 ^ 8) * 2 ^ 16) with (Z.shiftl (c + (b + a * 2 ^ 8) * 2 ^ 8) 8) by (rewrite !Z.shiftl_mul_pow2; lia).
  rewrite lor_shiftl; lia.
Qed.

Lemma be_words_fips n : forall l, length l = (4 * n)%nat -> all_u8 l -> map (be_word l) (seq 0 n) = words_of l.
Proof.
  induction n as [|n IH]; intros l Hl Hu; [destruct l; done|].
  destruct l as [|a [|b [|c [|d l]]]]; cbn [length] in Hl; try lia.
  apply Forall_cons_1 in Hu as [Ha Hu]; apply Forall_cons_1 in Hu as [Hb Hu]; apply Forall_cons_1 in Hu as [Hc Hu]; apply Forall_cons_1 in Hu as [Hd Hu].
  cbn [words_of seq map]; rewrite <- seq_shift, map_map; f_equal; [apply be_word_fips; done|].
  rewrite <- IH by (done || lia); apply map_ext; intros i; unfold be_word, byte_at.
  replace (S i * 4)%nat with (S (S (S (S (i * 4))))) by lia; reflexivity.
Qed.

Lemma words_of_u32 n : forall l, length l = (4 * n)%nat -> all_u8 l -> Forall (fun x => is_u32 x) (words_of l) /\ length (words_of l) = n.
Proof.
  induction n as [|n IH]; intros l Hl Hu; [destruct l; [split; [apply Forall_nil_2|done]|done]|].
  destruct l as [|a [|b [|c [|d l]]]]; cbn [length] in Hl; try lia.
  apply Forall_cons_1 in Hu as [Ha Hu]; apply Forall_cons_1 in Hu as [Hb Hu]; apply Forall_cons_1 in Hu as [Hc Hu]; apply Forall_cons_1 in Hu as [Hd Hu].
  destruct (IH l ltac:(lia) Hu) as [H1 H2]; cbn [words_of]; split; [apply Forall_cons_2; [lia|exact H1]|cbn; lia].
Qed.

(** The newest words stand first in the one and last in the other. *)
Lemma nth_newest (m : list Z) (k : nat) : (k < length m)%nat -> nth k (rev m) 0 = byte_at m (length m - S k).
Proof. intros Hk; unfold byte_at; rewrite rev_nth by exact Hk; done. Qed.

Lemma schedule_fips n : forall m, (16 <= length m)%nat -> Forall (fun x => is_u32 x) m -> schedule n m = expand n (rev m).
Proof.
  induction n as [|n IH]; intros m Hl Hm; cbn [schedule expand]; [by rewrite rev_involutive|].
  assert (Hw : forall i, is_u32 (byte_at m i)).
  { intros i; unfold byte_at; rewrite nth_lookup; destruct (m !! i) eqn:E; [|cbn; lia]; eapply Forall_lookup_1 in Hm; [exact Hm|exact E]. }
  cbv zeta; rewrite IH; [|rewrite length_app; cbn; lia|apply Forall_app; split; [exact Hm|apply Forall_singleton, u32_range]].
  rewrite rev_app_distr; cbn [rev app]; f_equal; f_equal; rewrite !nth_newest by lia; unfold SIG1, SIG0, sigma1, sigma0, u32.
  rewrite !ROTR_fips, !SHR_fips by (apply Hw || lia); reflexivity.
Qed.

(** The last step, for any schedule. *)
Lemma output_fips st kws : word_vars st ->
  let v := fold_left round kws st in
  let out := Vars (u32 (va st + va v)) (u32 (vb st + vb v)) (u32 (vc st + vc v)) (u32 (vd st + vd v))
                  (u32 (ve st + ve v)) (u32 (vf st + vf v)) (u32 (vg st + vg v)) (u32 (vh st + vh v)) in
  as_list out = zip_with (fun x y => (x + y) mod 2 ^ 32) (as_list st) (fold_left fips_step kws (as_list st)) /\ word_vars out.
Proof.
  intros Hst; destruct (rounds_fips kws st Hst) as [<- _]; generalize (fold_left round kws st); intros v; split; [reflexivity|].
  unfold word_vars, as_list; cbn [va vb vc vd ve vf vg vh]; repeat (apply Forall_cons_2; [apply u32_range|]); apply Forall_nil_2.
Qed.

Lemma schedule_of_block data : length data = 64%nat -> all_u8 data ->
  combine K (schedule 48 (map (be_word data) (seq 0 16))) = combine fips_K (expand 48 (rev (words_of data))).
Proof.
  intros Hl Hu; destruct (words_of_u32 16 data Hl Hu) as [HW HL].
  rewrite (be_words_fips 16 data Hl Hu), K_fips; f_equal; apply schedule_fips; [rewrite HL; apply le_n|exact HW].
Qed.

Lemma transform_fips st data : word_vars st -> length data = 64%nat -> all_u8 data ->
  as_list (sha256_transform st data) = fips_block (as_list st) data /\ word_vars (sha256_transform st data).
Proof.
  intros Hst Hl Hu; unfold sha256_transform, fips_block; cbv zeta; rewrite (schedule_of_block data Hl Hu).
  generalize (combine fips_K (expand 48 (rev (words_of data)))); intros kws; exact (output_fips st kws Hst).
Qed.

Lemma hash_fips bs : forall st, word_vars st -> Forall (fun b => length b = 64%nat /\ all_u8 b) bs ->
  as_list (fold_left sha256_transform bs st) = fold_left fips_block bs (as_list st).
Proof.
  pose proof transform_fips as HT; revert HT; generalize sha256_transform fips_block; intros f g HT.
  induction bs as [|b bs IH]; intros st Hst Hb; [reflexivity|]; apply Forall_cons_1 in Hb as [[Hl Hu] Hb]; cbn [fold_left].
  destruct (HT st b Hst Hl Hu) as [<- H]; exact (IH _ H Hb).
Qed.

(** ** Padding and output *)

Lemma be32_fips v : be32 v = bytes_be 4 v.
Proof. unfold be32, bytes_be, u8; cbn [seq rev app map]; rewrite !Z.shiftr_div_pow2 by lia; rewrite Z.div_1_r; reflexivity. Qed.

Lemma digest_fips st : digest_of st = concat (map (bytes_be 4) (as_list st)).
Proof. unfold digest_of, as_list; cbn [map concat]; rewrite !be32_fips, app_nil_r; reflexivity. Qed.

Lemma be64_fips v : be64 (u64 v) = bytes_be 8 v.
Proof.
  assert (HB : forall i, 0 <= i <= 56 -> u8 (Z.shiftr (u64 v) i) = v / 2 ^ i mod 2 ^ 8).
  { intros i Hi; unfold u8, u64; change 256 with (2 ^ 8); change 18446744073709551616 with (2 ^ 64); rewrite <- Z.shiftr_div_pow2 by lia.
    apply Z.bits_inj'; intros n Hn; destruct (Z.ltb_spec n 8).
    - rewrite !Z.mod_pow2_bits_low, !Z.shiftr_spec, Z.mod_pow2_bits_low by lia; done.
    - rewrite !Z.mod_pow2_bits_high by lia; done. }
  unfold be64, bytes_be; cbn [seq rev app map]; rewrite !HB by lia; reflexivity.
Qed.

Lemma zeros_fips n : 0 <= n -> fips_zeros n = Z.to_nat ((55 - n) mod 64).
Proof.
  intros Hn; unfold fips_zeros; pose proof (Z.mod_pos_bound (55 - n) 64 ltac:(lia)) as Hb.
  set (k0 := Z.to_nat ((55 - n) mod 64)).
  assert (HF : forall k, (k < 64)%nat -> ((n + 1 + Z.of_nat k) mod 64 =? 56) = (k =? k0)%nat).
  { intros k Hk; unfold k0; pose proof (Z.div_mod (55 - n) 64 ltac:(lia)) as HD.
    pose proof (Z.div_mod (n + 1 + Z.of_nat k) 64 ltac:(lia)) as HD2; pose proof (Z.mod_pos_bound (n + 1 + Z.of_nat k) 64 ltac:(lia)) as Hb2.
    destruct (Z.eqb_spec ((n + 1 + Z.of_nat k) mod 64) 56), (Nat.eqb_spec k (Z.to_nat ((55 - n) mod 64))); try done; exfalso; lia. }
  assert (HE : List.filter (fun k => (n + 1 + Z.of_nat k) mod 64 =? 56) (seq 0 64) = List.filter (fun k => (k =? k0)%nat) (seq 0 64)).
  { apply filter_ext_in; intros k Hk%in_seq; apply HF; lia. }
  rewrite HE; assert (Hk0 : (k0 < 64)%nat) by lia; clear - Hk0; do 64 (destruct k0 as [|k0]; [reflexivity|]); lia.
Qed.

Lemma pad_fips msg : pad msg = fips_pad msg.
Proof. unfold pad, fips_pad; cbv zeta; rewrite be64_fips, zeros_fips by lia; reflexivity. Qed.

Lemma bytes_be_u8 n v : all_u8 (bytes_be n v).
Proof. apply Forall_map, Forall_forall; intros i _; apply Z.mod_pos_bound; lia. Qed.

Lemma pad_u8 msg : all_u8 msg -> all_u8 (fips_pad msg).
Proof.
  intros Hm; unfold fips_pad; repeat apply Forall_app_2; [exact Hm|apply Forall_singleton; lia|apply Forall_replicate; lia|apply bytes_be_u8].
Qed.

Lemma pad_length msg : exists k, length (fips_pad msg) = (k * 64)%nat.
Proof.
  unfold fips_pad; cbv zeta; rewrite zeros_fips by lia; set (n := Z.of_nat (length msg)).
  pose proof (Z.div_mod (55 - n) 64 ltac:(lia)) as HD; pose proof (Z.mod_pos_bound (55 - n) 64 ltac:(lia)) as Hb.
  exists (Z.to_nat (1 - (55 - n) / 64)); rewrite !length_app, length_replicate; unfold bytes_be; rewrite length_map, length_rev, length_seq; cbn [length].
  unfold n in *; lia.
Qed.

Lemma blocks_wf k : forall l, length l = (k * 64)%nat -> all_u8 l -> Forall (fun b => length b = 64%nat /\ all_u8 b) (reshape (replicate k 64%nat) l).
Proof.
  induction k as [|k IH]; intros l Hl Hu; [apply Forall_nil_2|]; cbn [replicate reshape]; apply Forall_cons_2.
  - split; [rewrite length_take; lia|apply Forall_take, Hu].
  - apply IH; [rewrite length_drop; lia|apply Forall_drop, Hu].
Qed.

Lemma ref_fips msg : all_u8 msg -> sha256_ref msg = fips_sha256 msg.
Proof.
  intros Hu; unfold sha256_ref, fips_sha256; rewrite pad_fips, digest_fips; do 2 f_equal; rewrite hash_fips; [by rewrite H_fips|exact H_words|].
  destruct (pad_length msg) as [k Hk]; unfold blocks; rewrite Hk, Nat.div_mul by done; apply blocks_wf; [exact Hk|apply pad_u8, Hu].
Qed.

(** C38: the digest does not depend on how the data arrives, and it is the one of the
    standard. Starting from a context whose buffer holds anything, any sequence of updates
    with bytes followed by the final call gives SHA-256 of the concatenated data as FIPS
    180-4 defines it: constants from the roots of the primes, padding, schedule, rounds and
    byte order. *)
Theorem sha256_streaming ctx (chunks : list (list Z)) :
  length (c_data ctx) = 64%nat -> Forall all_u8 chunks ->
  fw_sha256_final (fold_left fw_sha256_update chunks (fw_sha256_init ctx)) = fips_sha256 (concat chunks).
Proof.
  intros H Hu; rewrite stream_ref by exact H; apply ref_fips; induction Hu; [apply Forall_nil_2|apply Forall_app_2; assumption].
Qed.

Definition garbage_ctx : fw_sha256_ctx := Ctx (Vars 1 2 3 4 5 6 7 8) 9 (replicate 64 170) 33.

Lemma sha256_streaming_witness :
  fw_sha256_final (fold_left fw_sha256_update [[97]; []; [98; 99]] (fw_sha256_init garbage_ctx)) = fips_sha256 [97; 98; 99].
Proof.
  apply (sha256_streaming garbage_ctx [[97]; []; [98; 99]]); [reflexivity|].
  repeat (apply Forall_cons_2; [repeat (apply Forall_cons_2; [cbn; lia|]); apply Forall_nil_2|]); apply Forall_nil_2.
Defined.
