(* ===== verification/FwXfer.v ===== *)
(** * The contract of a firmware transfer (common/protocol.h, net.fw_xfer)

    What a sender may rely on: the abstract session of a receiver, the interface
    [XferReceiver] that both receivers of the firmware implement (the RP2040's in
    [FwInstall], the ESP32's in [FwReceive]), and what follows from it for a sender
    that waits for every answer over a link that loses requests and answers. *)

From S2P Require Import Prelude Protocol.

(** ** Sessions

    The length and digest announced, and the bytes accepted so far. *)

Record asession := Session { a_len : Z; a_sha : list Z; a_img : list Z }.

Definition append (a : asession) (c : list Z) : asession := Session (a_len a) (a_sha a) (a_img a ++ c).

(** ** Codecs *)

Section Codec.
Lemma read_xfer_begin_bytes b :
  is_u8 (xb_version b) -> is_u8 (xb_target b) -> is_u32 (xb_image_len b) -> length (xb_sha256 b) = 32%nat ->
  read_xfer_begin (xfer_begin_bytes b) = b.
Proof.
  destruct b as [v tg n sha]; cbn [xb_version xb_target xb_image_len xb_sha256]; intros Hv Ht Hn Hs.
  unfold read_xfer_begin, xfer_begin_bytes, field; cbn [xb_version xb_target xb_image_len xb_sha256 app drop].
  f_equal; [apply u8_small; done|apply u8_small; done| |].
  - change (take 4 (le32 n ++ sha)) with (le32 n); apply le32_val; done.
  - change (drop 8 _) with sha; apply take_ge; lia.
Qed.

Lemma length_xfer_begin b : length (xb_sha256 b) = 32%nat -> Z.of_nat (length (xfer_begin_bytes b)) = sizeof_xfer_begin.
Proof. intros H; unfold xfer_begin_bytes; rewrite !length_app, length_le_bytes, H; done. Qed.

Lemma read_xfer_data_bytes off chunk : is_u32 off -> read_xfer_offset (xfer_data_bytes off chunk) = off.
Proof. intros H; unfold read_xfer_offset, xfer_data_bytes, field; cbn [drop]; change (take 4 _) with (le32 off); apply le32_val, H. Qed.

Lemma drop_xfer_data_bytes off chunk : drop 4 (xfer_data_bytes off chunk) = chunk.
Proof. done. Qed.
End Codec.

(** ** Receivers *)

(** [R_request s op payload s' r b]: the request may take the receiver from [s] to [s'],
    with the answer [r]; [b] is whether it then restarts into the new image.
    [R_idle s s']: so may time that passes between two requests, in which a receiver
    discards a session that has been idle for too long. *)
Class XferReceiver := {
  R_state : Type;
  R_target : Z;
  R_hash : list Z -> list Z;
  R_request : R_state -> Z -> list Z -> R_state -> Z -> bool -> Prop;
  R_session : R_state -> option asession -> Prop;
  R_installed : R_state -> list Z -> Prop;
  R_idle : R_state -> R_state -> Prop;
  R_target_u8 : is_u8 R_target;
  R_idle_session s s' a : R_session s a -> R_idle s s' -> R_session s' a \/ R_session s' None;
  R_idle_installed s s' img : R_session s None -> R_installed s img -> R_idle s s' -> R_installed s' img;
  R_begin s a len sha s' r b :
    is_u32 len -> length sha = 32%nat -> R_session s a ->
    R_request s WUPS_OP_NET_FW_XFER_BEGIN (xfer_begin_bytes (XferBegin 1 R_target len sha)) s' r b ->
    b = false /\ (R_session s' a /\ r <> WUPS_FW_XFER_OK \/ R_session s' None /\ r <> WUPS_FW_XFER_OK \/
                  R_session s' (Some (Session len sha [])) /\ r = WUPS_FW_XFER_OK);
  R_data s a off c s' r b :
    is_u32 off -> 0 < Z.of_nat (length c) <= WUPS_FW_XFER_CHUNK -> R_session s a ->
    R_request s WUPS_OP_NET_FW_XFER_DATA (xfer_data_bytes off c) s' r b ->
    b = false /\
    ((R_session s' a \/ R_session s' None) /\ r <> WUPS_FW_XFER_OK \/
     exists x, a = Some x /\ off = Z.of_nat (length (a_img x)) /\ R_session s' (Some (append x c)) /\ r = WUPS_FW_XFER_OK);
  R_end s a s' r b :
    R_session s a -> R_request s WUPS_OP_NET_FW_XFER_END (xfer_end_bytes 1) s' r b ->
    R_session s' None /\ (r = WUPS_FW_XFER_OK -> b = true) /\
    (b = true -> exists x, a = Some x /\ Z.of_nat (length (a_img x)) = a_len x /\
                           R_hash (a_img x) = a_sha x /\ R_installed s' (a_img x))
}.

(** ** Stop and wait over a lossy link *)

Section Sender.
Context `{R : XferReceiver}.
Implicit Types (s : R_state) (a : option asession).

(** Time passes. *)
Definition idles : R_state -> R_state -> Prop := rtc R_idle.

(** A session, or what is left of it when the receiver has discarded it. *)
Definition maybe s (x : asession) : Prop := R_session s (Some x) \/ R_session s None.

Lemma idles_session s s' a : idles s s' -> R_session s a -> R_session s' a \/ R_session s' None.
Proof.
  intros H; revert a; induction H as [s|s s1 s' Hi _ IH]; intros a Hs; [auto|].
  destruct (R_idle_session _ _ _ Hs Hi) as [H1|H1]; [apply IH, H1|right; destruct (IH None H1); done].
Qed.

Lemma idles_maybe s s' x : idles s s' -> maybe s x -> maybe s' x.
Proof.
  intros Hi [Hs|Hs]; destruct (idles_session _ _ _ Hi Hs); unfold maybe; auto.
Qed.

Lemma idles_installed s s' img : idles s s' -> R_session s None -> R_installed s img -> R_installed s' img.
Proof.
  induction 1 as [s|s s1 s' Hi _ IH]; intros Hn Hs; [done|].
  apply IH; [destruct (R_idle_session _ _ _ Hn Hi); done|eapply R_idle_installed; eauto].
Qed.

(** One attempt: the request is lost, or it is processed and its answer lost, or it is
    processed and answered; time passes before and after. *)
Inductive attempt (op : Z) (p : list Z) : R_state -> R_state -> option Z -> Prop :=
  | Att_lost s s' : idles s s' -> attempt op p s s' None
  | Att_silent s s1 s2 s' r b : idles s s1 -> R_request s1 op p s2 r b -> idles s2 s' -> attempt op p s s' None
  | Att_answered s s1 s2 s' r b : idles s s1 -> R_request s1 op p s2 r b -> idles s2 s' -> attempt op p s s' (Some r).

(** A request that is sent again, once, when no answer comes. *)
Inductive exchange (op : Z) (p : list Z) : R_state -> R_state -> option Z -> Prop :=
  | Ex_first s s' r : attempt op p s s' (Some r) -> exchange op p s s' (Some r)
  | Ex_second s s1 s' r : attempt op p s s1 None -> attempt op p s1 s' r -> exchange op p s s' r.

(** The DATA requests of an image from an offset on, each answered with OK. *)
Inductive stream : Z -> list (list Z) -> R_state -> R_state -> Prop :=
  | Stream_done off s : stream off [] s s
  | Stream_chunk off c l s s1 s' :
      0 < Z.of_nat (length c) <= WUPS_FW_XFER_CHUNK ->
      exchange WUPS_OP_NET_FW_XFER_DATA (xfer_data_bytes off c) s s1 (Some WUPS_FW_XFER_OK) ->
      stream (off + Z.of_nat (length c)) l s1 s' -> stream off (c :: l) s s'.

Lemma begin_exchange s a len sha s' :
  is_u32 len -> length sha = 32%nat -> R_session s a ->
  exchange WUPS_OP_NET_FW_XFER_BEGIN (xfer_begin_bytes (XferBegin 1 R_target len sha)) s s' (Some WUPS_FW_XFER_OK) ->
  maybe s' (Session len sha []).
Proof.
  intros Hl Hsha Hs Hex.
  assert (Hany : forall s1 a1 s2 r b, R_session s1 a1 ->
    R_request s1 WUPS_OP_NET_FW_XFER_BEGIN (xfer_begin_bytes (XferBegin 1 R_target len sha)) s2 r b ->
    exists a2, R_session s2 a2 /\ (r = WUPS_FW_XFER_OK -> a2 = Some (Session len sha []))).
  { intros s1 a1 s2 r b H1 Hr.
    destruct (R_begin _ _ _ _ _ _ _ Hl Hsha H1 Hr) as [_ [[? ?]|[[? ?]|[? ?]]]]; eexists; split; done. }
  assert (Hfin : forall s1 a1 s2, R_session s1 a1 ->
    attempt WUPS_OP_NET_FW_XFER_BEGIN (xfer_begin_bytes (XferBegin 1 R_target len sha)) s1 s2 (Some WUPS_FW_XFER_OK) ->
    maybe s2 (Session len sha [])).
  { intros s1 a1 s2 H1 Ha; inversion Ha as [| |? t1 t2 ? r b Hi Hr Hi']; subst.
    assert (exists a2, R_session t1 a2) as [a2 H2] by (destruct (idles_session _ _ _ Hi H1); eauto).
    destruct (Hany _ _ _ _ _ H2 Hr) as (a3 & H3 & E); rewrite E in H3 by done; eapply idles_maybe; [exact Hi'|left; exact H3]. }
  inversion Hex as [? ? ? Ha|? s1 ? ? Ha1 Ha2]; subst; [eapply Hfin; eauto|].
  assert (exists a1, R_session s1 a1) as [a1 H1].
  { inversion Ha1 as [? ? Hi|? t1 t2 ? r b Hi Hr Hi'|]; subst; [destruct (idles_session _ _ _ Hi Hs); eauto|].
    assert (exists a2, R_session t1 a2) as [a2 H2] by (destruct (idles_session _ _ _ Hi Hs); eauto).
    destruct (Hany _ _ _ _ _ H2 Hr) as (a3 & H3 & _); destruct (idles_session _ _ _ Hi' H3); eauto. }
  eapply Hfin; eauto.
Qed.

(** A data request is accepted once, whatever was lost: a second copy of an accepted
    request is refused because its offset is no longer the number of bytes received. *)
Lemma data_exchange s x off c s' :
  is_u32 off -> 0 < Z.of_nat (length c) <= WUPS_FW_XFER_CHUNK -> maybe s x ->
  off = Z.of_nat (length (a_img x)) ->
  exchange WUPS_OP_NET_FW_XFER_DATA (xfer_data_bytes off c) s s' (Some WUPS_FW_XFER_OK) ->
  maybe s' (append x c).
Proof.
  intros Ho Hc Hs Hoff Hex.
  assert (Hreq : forall s1 y s2 r b, maybe s1 y ->
    R_request s1 WUPS_OP_NET_FW_XFER_DATA (xfer_data_bytes off c) s2 r b ->
    r <> WUPS_FW_XFER_OK /\ maybe s2 y \/
    r = WUPS_FW_XFER_OK /\ off = Z.of_nat (length (a_img y)) /\ R_session s2 (Some (append y c))).
  { intros s1 y s2 r b [H1|H1] Hr; destruct (R_data _ _ _ _ _ _ _ Ho Hc H1 Hr) as [_ [[[H|H] ?]|(z & [= <-] & ? & ? & ?)]];
      unfold maybe; auto. }
  assert (Hfin : forall s1 y s2, maybe s1 y ->
    attempt WUPS_OP_NET_FW_XFER_DATA (xfer_data_bytes off c) s1 s2 (Some WUPS_FW_XFER_OK) ->
    off = Z.of_nat (length (a_img y)) /\ maybe s2 (append y c)).
  { intros s1 y s2 H1 Ha; inversion Ha as [| |? t1 t2 ? r b Hi Hr Hi']; subst.
    destruct (Hreq _ _ _ _ _ (idles_maybe _ _ _ Hi H1) Hr) as [[? _]|(_ & ? & ?)]; [done|].
    split; [done|]; eapply idles_maybe; [exact Hi'|left; done]. }
  inversion Hex as [? ? ? Ha|? s1 ? ? Ha1 Ha2]; subst.
  - apply (Hfin _ _ _ Hs Ha).
  - inversion Ha1 as [? ? Hi|? t1 t2 ? r b Hi Hr Hi'|]; subst.
    + apply (Hfin _ _ _ (idles_maybe _ _ _ Hi Hs) Ha2).
    + destruct (Hreq _ _ _ _ _ (idles_maybe _ _ _ Hi Hs) Hr) as [[_ H2]|(_ & _ & H2)].
      * apply (Hfin _ _ _ (idles_maybe _ _ _ Hi' H2) Ha2).
      * destruct (Hfin _ (append x c) _ (idles_maybe _ _ (append x c) Hi' (or_introl H2)) Ha2) as [E _].
        cbn [append a_img] in E; rewrite length_app in E; lia.
Qed.

Lemma stream_session off l s s' x :
  stream off l s s' -> maybe s x -> off = Z.of_nat (length (a_img x)) ->
  Z.of_nat (length (a_img x ++ concat l)) < 4294967296 ->
  maybe s' (Session (a_len x) (a_sha x) (a_img x ++ concat l)).
Proof.
  intros H; revert x; induction H as [off s|off c l s s1 s' Hc Hex Hst IH]; intros x Hs Hoff Hlen.
  - cbn; rewrite app_nil_r; destruct x; exact Hs.
  - cbn [concat] in *; rewrite !length_app in Hlen.
    pose proof (data_exchange s x off c s1 ltac:(lia) Hc Hs Hoff Hex) as H1.
    specialize (IH _ H1); cbn [append a_len a_sha a_img] in IH; rewrite app_assoc; apply IH.
    + rewrite length_app; lia.
    + rewrite !length_app; lia.
Qed.

(** Some request of the exchange installed the image: the commit that answered OK. *)
Lemma end_exchange s x s' :
  maybe s x -> exchange WUPS_OP_NET_FW_XFER_END (xfer_end_bytes 1) s s' (Some WUPS_FW_XFER_OK) ->
  Z.of_nat (length (a_img x)) = a_len x /\ R_hash (a_img x) = a_sha x /\ R_installed s' (a_img x).
Proof.
  intros Hs Hex.
  assert (Hfin : forall s1 s2, maybe s1 x ->
    attempt WUPS_OP_NET_FW_XFER_END (xfer_end_bytes 1) s1 s2 (Some WUPS_FW_XFER_OK) ->
    Z.of_nat (length (a_img x)) = a_len x /\ R_hash (a_img x) = a_sha x /\ R_installed s2 (a_img x)).
  { intros s1 s2 H1 Ha; inversion Ha as [| |? t1 t2 ? r b Hi Hr Hi']; subst.
    destruct (idles_maybe _ _ _ Hi H1) as [H2|H2]; destruct (R_end _ _ _ _ _ H2 Hr) as (Hn & Hb & Hx);
      destruct (Hx (Hb eq_refl)) as (y & [= <-] & ? & ? & ?); split_and!; try done.
    eapply idles_installed; eauto. }
  inversion Hex as [? ? ? Ha|? s1 ? ? Ha1 Ha2]; subst; [apply (Hfin _ _ Hs Ha)|].
  refine (Hfin _ _ _ Ha2); inversion Ha1 as [? ? Hi|? t1 t2 ? r b Hi Hr Hi'|]; subst; [eapply idles_maybe; eauto|].
  eapply idles_maybe; [exact Hi'|]; right.
  destruct (idles_maybe _ _ _ Hi Hs) as [H2|H2]; destruct (R_end _ _ _ _ _ H2 Hr) as (Hn & _); exact Hn.
Qed.

(** What a sender knows when BEGIN, every DATA request and END were answered with OK. *)
Lemma transfer_installs s a sha chunks s1 s2 s3 :
  R_session s a -> length sha = 32%nat -> Z.of_nat (length (concat chunks)) < 4294967296 ->
  exchange WUPS_OP_NET_FW_XFER_BEGIN
    (xfer_begin_bytes (XferBegin 1 R_target (Z.of_nat (length (concat chunks))) sha)) s s1 (Some WUPS_FW_XFER_OK) ->
  stream 0 chunks s1 s2 ->
  exchange WUPS_OP_NET_FW_XFER_END (xfer_end_bytes 1) s2 s3 (Some WUPS_FW_XFER_OK) ->
  R_hash (concat chunks) = sha /\ R_installed s3 (concat chunks).
Proof.
  intros Hs Hsha Hlen Hb Hst He.
  pose proof (begin_exchange s a (Z.of_nat (length (concat chunks))) sha s1 ltac:(lia) Hsha Hs Hb) as H1.
  pose proof (stream_session _ _ _ _ _ Hst H1 eq_refl Hlen) as H2.
  destruct (end_exchange _ _ _ H2 He) as (_ & H3 & H4); auto.
Qed.
End Sender.
