(* ===== verification/FwUpdate.v ===== *)
(** * The RP2040's firmware receiver (firmware-rp2040/src/fw_update.cpp)

    A transfer session stages an image in a file through a 4 KB buffer; a
    committed session verifies the file, takes a snapshot of the running image
    for rollback and arms the boot loader.  The file system and the boot loader's
    command file (LittleFS, PicoOTA) are the class [LittleFS].  A handler returns
    the new state, the frames it sends to the host, and its result. *)

From S2P Require Import Prelude Protocol Sha256 FwXfer.

(** ** Files *)

(* src: firmware-rp2040/src/fw_update.cpp:16-18 file names *)
Definition kStageFile : string := "fwstage.bin".
Definition kPrevFile : string := "fwprev.bin".
Definition kPendingFile : string := "fwpending.bin".
Definition OTA_COMMAND_FILE : string := "otacommand.bin".

(** What the code calls.  [fs_write] appends through an open file and returns the
    number of bytes written; [fs_open] is whether opening an existing file succeeds;
    [fs_read] reads at an offset, [None] when the seek or the read fails;
    [fs_update] overwrites the start of a file opened "r+". *)
Class LittleFS := {
  F : Type;
  fs_begin : F -> F * bool;
  fs_exists : F -> string -> bool;
  fs_remove : F -> string -> F;
  fs_create : F -> string -> F * bool;
  fs_write : F -> string -> list Z -> F * Z;
  fs_flush : F -> string -> F;
  fs_close : F -> string -> F;
  fs_open : F -> string -> bool;
  fs_read : F -> string -> Z -> Z -> option (list Z);
  fs_update : F -> string -> list Z -> F * Z;
  fs_info : F -> Z * Z;                     (* totalBytes, usedBytes *)
  ota_begin : F -> F;
  ota_add : F -> string -> F * bool;
  ota_commit : F -> F * bool
}.

(** ** Constants *)

(* src: firmware-rp2040/src/fw_update.cpp:24-27 image gates *)
Definition FW_APP_VECTORS_OFF : Z := 12288.
Definition FW_IMAGE_MIN_LEN : Z := 16384.
Definition FW_IMAGE_MAX_LEN : Z := 655360.
Definition FW_FS_SLACK : Z := 32768.

(* src: firmware-rp2040/src/fw_update.cpp:34-39 rollback policy *)
Definition FW_VERIFY_WINDOW_MS : Z := 300000.
Definition FW_PENDING_MAX_BOOTS : Z := 8.
Definition FW_XFER_IDLE_MS : Z := WUPS_FW_XFER_IDLE_TIMEOUT_S * 1000.
Definition FW_PENDING_MAGIC : Z := 1180128592.

Definition BUF_SIZE : Z := 4096.
Definition XIP_BASE : Z := 268435456.

(* src: firmware-rp2040/src/fw_update.cpp:40-43 PendingMarker *)
Definition marker_bytes (magic boots : Z) : list Z := le32 magic ++ le32 boots.

(** ** State *)

Section Receiver.
Context `{L : LittleFS}.

(* src: firmware-rp2040/src/fw_update.cpp:51-70 module state *)
Record fwu := Fwu {
  fs : F;
  s_fs_ok : bool;
  x_open : bool;
  x_image_len : Z;
  x_received : Z;
  x_sha : list Z;
  x_last_req_ms : Z;
  x_buf_used : Z;
  x_buf : list Z;            (* 4096 bytes *)
  s_stage : bool;            (* the staging file is open *)
  s_pending : bool;
  s_pending_boot_ms : Z
}.

#[export] Instance eta_fwu : Eta fwu := fun s =>
  Fwu (fs s) (s_fs_ok s) (x_open s) (x_image_len s) (x_received s) (x_sha s) (x_last_req_ms s) (x_buf_used s)
    (x_buf s) (s_stage s) (s_pending s) (s_pending_boot_ms s).

(** The payload of a system.log event to the host. *)
(* src: firmware-rp2040/src/fw_update.cpp:76-86 fw_log *)
Definition fw_log (level : Z) (text : list Z) : list Z :=
  let text := take 64 text in
  [1; level; u8 (Z.of_nat (length text)); 0] ++ text.

(* src: firmware-rp2040/src/fw_update.cpp:91-100 flush_stage_buf *)
Definition flush_stage_buf (s : fwu) : fwu * bool :=
  if x_buf_used s =? 0 then (s, true) else
  let '(f, n) := fs_write (fs s) kStageFile (take (Z.to_nat (x_buf_used s)) (x_buf s)) in
  let s := s <| fs := f |> in
  if negb (n =? x_buf_used s) then (s, false)
  else (s <| fs := fs_flush (fs s) kStageFile |> <| x_buf_used := 0 |>, true).

Definition remove_if_exists (s : fwu) (name : string) : fwu :=
  if fs_exists (fs s) name then s <| fs := fs_remove (fs s) name |> else s.

(* src: firmware-rp2040/src/fw_update.cpp:103-108 session_abort *)
Definition session_abort (s : fwu) : fwu :=
  let s := if s_stage s then s <| fs := fs_close (fs s) kStageFile |> <| s_stage := false |> else s in
  let s := s <| x_open := false |> <| x_buf_used := 0 |> in
  if s_fs_ok s then remove_if_exists s kStageFile else s.

(* src: firmware-rp2040/src/fw_update.cpp:110-115 cleanup_pending_files *)
Definition cleanup_pending_files (s : fwu) : fwu :=
  if negb (s_fs_ok s) then s else
  let s := remove_if_exists s kPendingFile in
  let s := remove_if_exists s kPrevFile in
  if x_open s then s else remove_if_exists s kStageFile.

(** [f.read(S.buf, 4096)] until it gives nothing; the bytes land in the buffer.
    [fuel] bounds the turns; a read that returns bytes advances the offset. *)
(* src: firmware-rp2040/src/fw_update.cpp:125-128 verify_stage_sha (loop) *)
Fixpoint hash_stage (fuel : nat) (s : fwu) (off : Z) (ctx : fw_sha256_ctx) : fwu * fw_sha256_ctx :=
  match fuel with
  | O => (s, ctx)
  | S fuel =>
      match fs_read (fs s) kStageFile off BUF_SIZE with
      | Some (b :: d) =>
          let d := b :: d in
          let s := s <| x_buf := d ++ drop (length d) (x_buf s) |> in
          hash_stage fuel s (off + Z.of_nat (length d)) (fw_sha256_update ctx d)
      | _ => (s, ctx)
      end
  end.

(** The context is an uninitialised local: only its length matters
    ([Sha256.sha256_streaming]).  Every turn but the last reads at least a byte. *)
(* src: firmware-rp2040/src/fw_update.cpp:119-133 verify_stage_sha *)
Definition verify_stage_sha (s : fwu) : fwu * bool :=
  if negb (fs_open (fs s) kStageFile) then (s, false) else
  let '(s, ctx) := hash_stage (S (Z.to_nat (x_image_len s))) s 0 (fw_sha256_init blank_ctx) in
  (s <| fs := fs_close (fs s) kStageFile |>, bool_decide (fw_sha256_final ctx = x_sha s)).

(* src: firmware-rp2040/src/fw_update.cpp:141-158 sanity_check_image *)
Definition sanity_check_image (s : fwu) : bool :=
  if negb (fs_open (fs s) kStageFile) then false else
  match fs_read (fs s) kStageFile FW_APP_VECTORS_OFF 8 with
  | None => false
  | Some d =>
      if negb (Z.of_nat (length d) =? 8) then false else
      let sp := le_val (field 0 4 d) in
      let rst := le_val (field 4 4 d) in
      if (sp <? 536870912) || (537141248 <? sp) then false
      else if negb (has rst 1) then false else
      let rst_addr := Z.land rst 4294967294 in
      if rst_addr <? XIP_BASE + FW_APP_VECTORS_OFF then false
      else if u32 (XIP_BASE + x_image_len s) <=? rst_addr then false
      else true
  end.

(** ** Rollback *)

(** The running image in flash, [__flash_binary_end - XIP_BASE] bytes. *)
Context (xip : list Z).
Definition snap_len : Z := Z.of_nat (length xip).

(** [rest] is the image from [src + off] on. *)
(* src: firmware-rp2040/src/fw_update.cpp:174-181 snapshot_running_image (loop) *)
Fixpoint snapshot_loop (fuel : nat) (s : fwu) (rest : list Z) : fwu * bool :=
  match fuel, rest with
  | S fuel, _ :: _ =>
      let d := take (Z.to_nat BUF_SIZE) rest in
      let s := s <| x_buf := d ++ drop (length d) (x_buf s) |> in
      let '(f, n) := fs_write (fs s) kPrevFile d in
      let s := s <| fs := f |> in
      if negb (n =? Z.of_nat (length d)) then (s, false)
      else snapshot_loop fuel s (drop (Z.to_nat BUF_SIZE) rest)
  | _, _ => (s, true)
  end.

(* src: firmware-rp2040/src/fw_update.cpp:164-185 snapshot_running_image *)
Definition snapshot_running_image (s : fwu) : fwu * bool :=
  if (snap_len <? FW_IMAGE_MIN_LEN) || (FW_IMAGE_MAX_LEN <? snap_len) then (s, false) else
  let '(f, ok) := fs_create (fs s) kPrevFile in
  let s := s <| fs := f |> in
  if negb ok then (s, false) else
  let '(s, ok) := snapshot_loop (length xip) s xip in
  let s := s <| fs := fs_close (fs s) kPrevFile |> in
  if ok then (s, true) else (s <| fs := fs_remove (fs s) kPrevFile |>, false).

(* src: firmware-rp2040/src/fw_update.cpp:187-195 write_pending_marker *)
Definition write_pending_marker (s : fwu) : fwu * bool :=
  let '(f, ok) := fs_create (fs s) kPendingFile in
  let s := s <| fs := f |> in
  if negb ok then (s, false) else
  let '(f, n) := fs_write (fs s) kPendingFile (marker_bytes FW_PENDING_MAGIC 0) in
  let s := s <| fs := fs_close f kPendingFile |> in
  if n =? 8 then (s, true) else (s <| fs := fs_remove (fs s) kPendingFile |>, false).

(** [picoOTA.begin(); picoOTA.addFile(name) && picoOTA.commit()]. *)
Definition arm_file (s : fwu) (name : string) : fwu * bool :=
  let f := ota_begin (fs s) in
  let '(f, ok) := ota_add f name in
  if negb ok then (s <| fs := f |>, false) else
  let '(f, ok) := ota_commit f in
  (s <| fs := f |>, ok).

(** The Boolean is whether the processor rebooted. *)
(* src: firmware-rp2040/src/fw_update.cpp:201-211 restage_previous_and_reboot *)
Definition restage_previous_and_reboot (s : fwu) (msg : list Z) : fwu * list (list Z) * bool :=
  if negb (s_fs_ok s) || negb (fs_exists (fs s) kPrevFile) then (s, [], false) else
  let '(s, ok) := arm_file s kPrevFile in
  if negb ok then (s, [], false) else
  (s <| fs := fs_remove (fs s) kPendingFile |>, [fw_log 1 msg], true).

(** ** Boot and the periodic entry points *)

(** The state of a processor that has just started, over the files it finds. *)
Definition boot_state (f : F) : fwu := Fwu f false false 0 0 [] 0 0 (replicate 4096 0) false false 0.

(* src: firmware-rp2040/src/fw_update.cpp:215-262 fw_update_boot_init *)
Definition fw_update_boot_init (s : fwu) (millis : Z) : fwu * list (list Z) * bool :=
  let s := s <| x_open := false |> in
  let '(f, ok) := fs_begin (fs s) in
  let s := s <| fs := f |> <| s_fs_ok := ok |> in
  if negb ok then (s, [fw_log 1 (str "RP2040: LittleFS mount failed - fw_xfer disabled")], false) else
  let s := remove_if_exists s OTA_COMMAND_FILE in
  if fs_exists (fs s) kPendingFile then
    let m := if fs_open (fs s) kPendingFile then fs_read (fs s) kPendingFile 0 8 else None in
    match m with
    | Some d =>
        if (Z.of_nat (length d) =? 8) && (le_val (field 0 4 d) =? FW_PENDING_MAGIC) then
          let boots := u32 (le_val (field 4 4 d) + 1) in
          let '(f, _) := fs_update (fs s) kPendingFile (marker_bytes FW_PENDING_MAGIC boots) in
          let s := s <| fs := fs_close f kPendingFile |> in
          if FW_PENDING_MAX_BOOTS <? boots then
            let '(s, out, rebooted) :=
              restage_previous_and_reboot s (str "RP2040: fw crash-looping after update - rolling back") in
            if rebooted : bool then (s, out, true) else (cleanup_pending_files s, out, false)
          else
            (s <| s_pending := true |> <| s_pending_boot_ms := millis |>,
             [fw_log 2 (str "RP2040: new fw pending verify (WUPS traffic confirms)")], false)
        else (cleanup_pending_files (s <| fs := fs_close (fs s) kPendingFile |>), [], false)
    | None =>
        let s := if fs_open (fs s) kPendingFile then s <| fs := fs_close (fs s) kPendingFile |> else s in
        (cleanup_pending_files s, [], false)
    end
  else
    (remove_if_exists (remove_if_exists s kStageFile) kPrevFile, [], false).

(* src: firmware-rp2040/src/fw_update.cpp:264-279 fw_update_tick *)
Definition fw_update_tick (s : fwu) (millis : Z) : fwu * list (list Z) * bool :=
  let '(s, out) :=
    if x_open s && (FW_XFER_IDLE_MS <? u32 (millis - x_last_req_ms s))
    then (session_abort s, [fw_log 1 (str "RP2040: fw_xfer session idle timeout - discarded")])
    else (s, []) in
  if s_pending s && (FW_VERIFY_WINDOW_MS <? u32 (millis - s_pending_boot_ms s)) then
    let '(s, out', rebooted) :=
      restage_previous_and_reboot s (str "RP2040: no WUPS traffic after update - rolling back") in
    if rebooted : bool then (s, out ++ out', true)
    else (cleanup_pending_files (s <| s_pending := false |>), out ++ out', false)
  else (s, out, false).

(* src: firmware-rp2040/src/fw_update.cpp:281-286 fw_update_note_frame_ok *)
Definition fw_update_note_frame_ok (s : fwu) : fwu * list (list Z) :=
  if negb (s_pending s) then (s, []) else
  (cleanup_pending_files (s <| s_pending := false |>),
   [fw_log 2 (str "RP2040: fw update confirmed (WUPS traffic seen)")]).

(* src: firmware-rp2040/src/fw_update.cpp:290-290 fw_update_session_active *)
Definition fw_update_session_active (s : fwu) : bool := x_open s.

(* src: firmware-rp2040/src/fw_update.cpp:292-296 fw_update_progress_pct *)
Definition fw_update_progress_pct (s : fwu) : Z :=
  if negb (x_open s) || (x_image_len s =? 0) then 0 else
  let pct := u32 (u64 (x_received s * 100) / x_image_len s) in
  u8 (if 100 <? pct then 100 else pct).

(** ** Request handlers *)

Definition set_sha (b : wups_net_fw_xfer_begin_v1_t) (s : fwu) : fwu := s <| x_sha := xb_sha256 b |>.

(* src: firmware-rp2040/src/fw_update.cpp:330-365 fw_update_handle_begin *)
Definition fw_update_handle_begin (s : fwu) (payload : list Z) (millis : Z) : fwu * list (list Z) * Z :=
  if Z.of_nat (length payload) <? sizeof_xfer_begin then (s, [], WUPS_FW_XFER_BAD_REQ) else
  let b := read_xfer_begin payload in
  if negb (xb_version b =? 1) then (s, [], WUPS_FW_XFER_BAD_REQ)
  else if negb (xb_target b =? WUPS_FW_TARGET_RP2040) then (s, [], WUPS_FW_XFER_BAD_REQ)
  else if (xb_image_len b <? FW_IMAGE_MIN_LEN) || (FW_IMAGE_MAX_LEN <? xb_image_len b)
  then (s, [], WUPS_FW_XFER_BAD_REQ)
  else if negb (s_fs_ok s) then (s, [], WUPS_FW_XFER_FLASH_ERR) else
  let s := session_abort s in
  let '(total, used) := fs_info (fs s) in
  let free_b := if used <? total then total - used else 0 in
  if free_b <? xb_image_len b + snap_len + FW_FS_SLACK then (s, [], WUPS_FW_XFER_FLASH_ERR) else
  let '(f, ok) := fs_create (fs s) kStageFile in
  let s := s <| fs := f |> <| s_stage := ok |> in
  if negb ok then (s, [], WUPS_FW_XFER_FLASH_ERR) else
  (set_sha b (s <| x_open := true |> <| x_image_len := xb_image_len b |> <| x_received := 0 |> <| x_buf_used := 0 |>)
     <| x_last_req_ms := millis |>,
   [fw_log 2 (str "RP2040: fw_xfer session opened")], WUPS_FW_XFER_OK).

(** The copy loop; [p] is what remains of the chunk.  Every turn takes a byte as
    long as the buffer is not full, so the length of the chunk is enough fuel. *)
(* src: firmware-rp2040/src/fw_update.cpp:385-399 fw_update_handle_data (loop) *)
Fixpoint accumulate (fuel : nat) (s : fwu) (p : list Z) : fwu * bool :=
  match fuel, p with
  | S fuel, _ :: _ =>
      let room := u16 (BUF_SIZE - x_buf_used s) in
      let tk := Z.to_nat (Z.min room (Z.of_nat (length p))) in
      let used := Z.to_nat (x_buf_used s) in
      let s := s <| x_buf := take used (x_buf s) ++ take tk p ++ drop (used + tk) (x_buf s) |>
                 <| x_buf_used := u16 (x_buf_used s + Z.of_nat tk) |> in
      if x_buf_used s =? BUF_SIZE then
        let '(s, ok) := flush_stage_buf s in
        if ok : bool then accumulate fuel s (drop tk p) else (session_abort s, false)
      else accumulate fuel s (drop tk p)
  | _, _ => (s, true)
  end.

(* src: firmware-rp2040/src/fw_update.cpp:367-401 fw_update_handle_data *)
Definition fw_update_handle_data (s : fwu) (payload : list Z) (millis : Z) : fwu * Z :=
  if negb (x_open s) then (s, WUPS_FW_XFER_BAD_REQ) else
  let s := s <| x_last_req_ms := millis |> in
  let len := Z.of_nat (length payload) in
  if len <? sizeof_xfer_data_hdr + 1 then (s, WUPS_FW_XFER_BAD_REQ) else
  let offset := read_xfer_offset payload in
  let chunk := u16 (len - sizeof_xfer_data_hdr) in
  if WUPS_FW_XFER_CHUNK <? chunk then (s, WUPS_FW_XFER_BAD_REQ)
  else if negb (offset =? x_received s) then (s, WUPS_FW_XFER_SEQ_MISMATCH)
  else if x_image_len s <? x_received s + chunk then (s, WUPS_FW_XFER_BAD_REQ) else
  let p := take (Z.to_nat chunk) (drop 4 payload) in
  let '(s, ok) := accumulate (length p) s p in
  if ok : bool then (s <| x_received := u32 (x_received s + chunk) |>, WUPS_FW_XFER_OK)
  else (s, WUPS_FW_XFER_FLASH_ERR).

Definition remove_stage (s : fwu) : fwu := s <| fs := fs_remove (fs s) kStageFile |>.

(** The part of END(commit) after the staged file was checked. *)
(* src: firmware-rp2040/src/fw_update.cpp:442-466 fw_update_handle_end (arming) *)
Definition commit_stage (s : fwu) : fwu * list (list Z) * Z * bool :=
  let '(s, have) := snapshot_running_image s in
  let '(s, have) :=
    if have : bool then
      let '(s, ok) := write_pending_marker s in
      if ok : bool then (s, true) else (s <| fs := fs_remove (fs s) kPrevFile |>, false)
    else (s, false) in
  let out := if have : bool then [] else [fw_log 1 (str "RP2040: no rollback snapshot - update is one-way")] in
  let '(s, ok) := arm_file s kStageFile in
  if ok : bool
  then (s, out ++ [fw_log 2 (str "RP2040: fw image staged + armed, rebooting to apply")], WUPS_FW_XFER_OK, true)
  else (remove_stage (cleanup_pending_files s), out, WUPS_FW_XFER_FLASH_ERR, false).

(** The last component is [*reboot_after_resp]. *)
(* src: firmware-rp2040/src/fw_update.cpp:403-466 fw_update_handle_end *)
Definition fw_update_handle_end (s : fwu) (payload : list Z) (millis : Z) : fwu * list (list Z) * Z * bool :=
  if negb (x_open s) then (s, [], WUPS_FW_XFER_BAD_REQ, false) else
  let s := s <| x_last_req_ms := millis |> in
  if Z.of_nat (length payload) <? sizeof_xfer_end then (s, [], WUPS_FW_XFER_BAD_REQ, false)
  else if negb (byte_at payload 0 =? 1) then (s, [], WUPS_FW_XFER_BAD_REQ, false)
  else if byte_at payload 1 =? 0 then
    (session_abort s, [fw_log 2 (str "RP2040: fw_xfer session aborted by sender")], WUPS_FW_XFER_OK, false)
  else if negb (x_received s =? x_image_len s) then (session_abort s, [], WUPS_FW_XFER_BAD_REQ, false) else
  let '(s, ok) := flush_stage_buf s in
  if negb ok then (session_abort s, [], WUPS_FW_XFER_FLASH_ERR, false) else
  let s := s <| fs := fs_close (fs s) kStageFile |> <| s_stage := false |> <| x_open := false |> in
  let '(s, ok) := verify_stage_sha s in
  if negb ok then
    (remove_stage s, [fw_log 1 (str "RP2040: fw_xfer SHA-256 mismatch - discarded")], WUPS_FW_XFER_VERIFY_FAIL, false)
  else if negb (sanity_check_image s) then
    (remove_stage s, [fw_log 1 (str "RP2040: fw_xfer image sanity check failed - discarded")], WUPS_FW_XFER_BAD_REQ, false)
  else commit_stage s.

(** The dispatcher's case for a transfer request addressed to this node. *)
(* src: firmware-rp2040/src/main.cpp:1223-1244 wups_on_local_frame (fw_xfer) *)
Definition on_fw_xfer (s : fwu) (op : Z) (payload : list Z) (millis : Z) : fwu * list (list Z) * Z * bool :=
  if op =? WUPS_OP_NET_FW_XFER_BEGIN then (fw_update_handle_begin s payload millis, false)
  else if op =? WUPS_OP_NET_FW_XFER_DATA then
    let '(s, r) := fw_update_handle_data s payload millis in (s, [], r, false)
  else fw_update_handle_end s payload millis.

(** A frame delivered to this node, as far as this module is concerned: it
    confirms a pending update, and a transfer request is answered. *)
(* src: firmware-rp2040/src/main.cpp:1223-1227 wups_on_local_frame (fw_xfer guard) *)
Definition is_fw_xfer (f : frame) : bool :=
  (f_cls f =? WUPS_CLASS_NET) && has (f_flags f) WUPS_FLAG_REQ && (f_dst f =? WUPS_ADDR_RP2040) &&
  ((f_op f =? WUPS_OP_NET_FW_XFER_BEGIN) || (f_op f =? WUPS_OP_NET_FW_XFER_DATA) ||
   (f_op f =? WUPS_OP_NET_FW_XFER_END)).

(** [o_answer] is the result byte of the response; [o_active] what
    [fw_update_session_active] says afterwards. *)
Record outcome := Outcome {
  o_logs : list (list Z); o_answer : option Z; o_reboot : bool; o_active : bool
}.

(** A restart may come at any time; [Tick] is a pass of the main loop. *)
Inductive event := Boot (millis : Z) | Tick (millis : Z) | Frame_in (f : frame) (millis : Z).

(* src: firmware-rp2040/src/main.cpp:938-943 wups_on_local_frame (heartbeat) *)
Definition fw_frame (s : fwu) (f : frame) (millis : Z) : fwu * outcome :=
  let '(s, out) := fw_update_note_frame_ok s in
  if is_fw_xfer f then
    let '(s, out', r, reboot) := on_fw_xfer s (f_op f) (f_payload f) millis in
    (s, Outcome (out ++ out') (Some r) reboot (fw_update_session_active s))
  else (s, Outcome out None false (fw_update_session_active s)).

Definition fw_step (s : fwu) (e : event) : fwu * outcome :=
  match e with
  | Boot t =>
      let '(s, out, reboot) := fw_update_boot_init (boot_state (fs s)) t in
      (s, Outcome out None reboot (fw_update_session_active s))
  | Tick t =>
      let '(s, out, reboot) := fw_update_tick s t in
      (s, Outcome out None reboot (fw_update_session_active s))
  | Frame_in f t => fw_frame s f t
  end.
End Receiver.

(** ** What the code relies on

    [content f n] is what has been written to the file [n]; [armed f] the files
    the boot loader's command file tells it to copy at the next restart, and
    [queued f] those given to [picoOTA] since its [begin].  Every operation may
    fail: a create, a write, an open, a read, a removal, and the boot loader's
    calls.  A read that succeeds returns what the file holds, a write that reports
    every byte has appended them, flushing and closing lose nothing, and an
    operation on one name leaves the files of other names alone. *)

Class FsLaws `(L : LittleFS) := {
  content : F -> string -> option (list Z);
  begin_content f n : content (fs_begin f).1 n = content f n;
  exists_content f n : fs_exists f n = bool_decide (is_Some (content f n));
  armed : F -> list string;
  queued : F -> list string;
  remove_content f n : content (fs_remove f n) n = None \/ content (fs_remove f n) n = content f n;
  remove_other f n m : m <> n -> content (fs_remove f n) m = content f m;
  create_content f n f' : fs_create f n = (f', true) -> content f' n = Some [];
  create_other f n m : m <> n -> content (fs_create f n).1 m = content f m;
  write_content f n d f' c :
    fs_write f n d = (f', Z.of_nat (length d)) -> content f n = Some c -> content f' n = Some (c ++ d);
  write_other f n d m : m <> n -> content (fs_write f n d).1 m = content f m;
  flush_content f n m : content (fs_flush f n) m = content f m;
  close_content f n m : content (fs_close f n) m = content f m;
  read_content f n off k c d :
    content f n = Some c -> 0 <= off <= Z.of_nat (length c) -> fs_read f n off k = Some d ->
    d = take (Z.to_nat k) (drop (Z.to_nat off) c);
  update_content f n d f' c :
    fs_update f n d = (f', Z.of_nat (length d)) -> content f n = Some c -> length c = length d ->
    content f' n = Some d;
  update_other f n d m : m <> n -> content (fs_update f n d).1 m = content f m;
  ota_begin_other f m : m <> OTA_COMMAND_FILE -> content (ota_begin f) m = content f m;
  ota_add_other f n m : m <> OTA_COMMAND_FILE -> content (ota_add f n).1 m = content f m;
  ota_commit_other f m : m <> OTA_COMMAND_FILE -> content (ota_commit f).1 m = content f m;
  ota_begin_queued f : queued (ota_begin f) = [];
  ota_add_queued f n f' : ota_add f n = (f', true) -> queued f' = queued f ++ [n];
  ota_commit_armed f f' : ota_commit f = (f', true) -> armed f' = queued f;
  remove_armed f n : n <> OTA_COMMAND_FILE -> armed (fs_remove f n) = armed f
}.

(** No read of the file fails. *)
Definition readable `{Laws : FsLaws} (f : F) (n : string) : Prop :=
  forall off k c, content f n = Some c -> 0 <= off <= Z.of_nat (length c) -> is_Some (fs_read f n off k).

Section Files.
Context `{Laws : FsLaws}.
Implicit Types s : fwu.

Lemma remove_if_exists_other s n m :
  m <> n -> content (fs (remove_if_exists s n)) m = content (fs s) m.
Proof. intros H; unfold remove_if_exists; case_match; [apply remove_other, H|done]. Qed.

Lemma arm_file_content s n m : m <> OTA_COMMAND_FILE -> content (fs (arm_file s n).1) m = content (fs s) m.
Proof.
  intros H; unfold arm_file; destruct (ota_add _ n) as [f ok] eqn:E.
  pose proof (ota_add_other (ota_begin (fs s)) n m H) as H1; rewrite E, ota_begin_other in H1 by done; cbn [fst] in H1.
  destruct ok; cbn [negb]; [|exact H1]; destruct (ota_commit f) as [f' ok'] eqn:E'.
  pose proof (ota_commit_other f m H) as H2; rewrite E' in H2; cbn in *; congruence.
Qed.

(** What a successful arming tells the boot loader. *)
Lemma arm_file_armed s n : (arm_file s n).2 = true -> armed (fs (arm_file s n).1) = [n].
Proof.
  unfold arm_file; destruct (ota_add _ n) as [f ok] eqn:E; destruct ok; cbn [negb]; [|done].
  apply ota_add_queued in E; rewrite ota_begin_queued in E; cbn [app] in E.
  destruct (ota_commit f) as [f' ok'] eqn:E'; cbn; intros ->; apply ota_commit_armed in E'; congruence.
Qed.

Lemma snapshot_loop_other fuel s rest m :
  m <> kPrevFile -> content (fs (snapshot_loop fuel s rest).1) m = content (fs s) m.
Proof.
  intros H; revert s rest; induction fuel as [|fuel IH]; intros s rest; [done|]; destruct rest as [|b rest]; [done|].
  cbn [snapshot_loop]; set (d := take _ _); destruct (fs_write _ kPrevFile d) as [f n] eqn:E.
  pose proof (write_other (fs (s <| x_buf := d ++ drop (length d) (x_buf s) |>)) kPrevFile d m H) as H1.
  rewrite E in H1; destruct (negb _); [exact H1|]; rewrite IH; exact H1.
Qed.

Lemma snapshot_other xip s m :
  m <> kPrevFile -> content (fs (snapshot_running_image xip s).1) m = content (fs s) m.
Proof.
  intros H; unfold snapshot_running_image; case_match; [done|].
  destruct (fs_create (fs s) kPrevFile) as [f ok] eqn:E; pose proof (create_other (fs s) kPrevFile m H) as H1.
  rewrite E in H1; destruct ok; cbn [negb]; [|exact H1].
  pose proof (snapshot_loop_other (length xip) (s <| fs := f |>) xip m H) as H2.
  destruct (snapshot_loop _ _ _) as [s' ok]; cbn in *.
  destruct ok; cbn; rewrite ?remove_other, close_content by done; congruence.
Qed.

Lemma marker_other s m :
  m <> kPendingFile -> content (fs (write_pending_marker s).1) m = content (fs s) m.
Proof.
  intros H; unfold write_pending_marker.
  destruct (fs_create (fs s) kPendingFile) as [f ok] eqn:E; pose proof (create_other (fs s) kPendingFile m H) as H1.
  rewrite E in H1; destruct ok; cbn [negb]; [|exact H1].
  destruct (fs_write _ kPendingFile _) as [f' n] eqn:E'.
  pose proof (write_other f kPendingFile (marker_bytes FW_PENDING_MAGIC 0) m H) as H2; cbn in E', H2, H1; rewrite E' in H2.
  destruct (n =? 8); cbn in *; rewrite ?remove_other, close_content by done; congruence.
Qed.
End Files.

(** ** The buffer and the staging file *)

Section Staging.
Context `{Laws : FsLaws}.
Implicit Types s : fwu.

Definition buffer_ok s : Prop := length (x_buf s) = 4096%nat /\ 0 <= x_buf_used s < BUF_SIZE.

(** The bytes accepted so far: those in the file, then those in the buffer. *)
Definition holds s (img : list Z) : Prop :=
  exists staged, content (fs s) kStageFile = Some staged /\
    img = staged ++ take (Z.to_nat (x_buf_used s)) (x_buf s).

(** [s'] differs from [s] in the file system and the buffer only. *)
Definition rest_same s s' : Prop :=
  s' = s <| fs := fs s' |> <| x_buf := x_buf s' |> <| x_buf_used := x_buf_used s' |>.

Lemma rest_same_refl s : rest_same s s.
Proof. destruct s; done. Qed.

Lemma rest_same_trans s1 s2 s3 : rest_same s1 s2 -> rest_same s2 s3 -> rest_same s1 s3.
Proof. unfold rest_same; intros -> ->; done. Qed.

Lemma take_splice (n : nat) (b p : list Z) k :
  (n <= length b)%nat -> (k <= length p)%nat ->
  take (n + k) (take n b ++ take k p ++ drop (n + k) b) = take n b ++ take k p.
Proof.
  intros Hn Hk; rewrite app_assoc, take_app_le by (rewrite length_app, !length_take; lia).
  apply take_ge; rewrite length_app, !length_take; lia.
Qed.

Lemma length_splice (n : nat) (b p : list Z) k :
  (n + k <= length b)%nat -> (k <= length p)%nat -> length (take n b ++ take k p ++ drop (n + k) b) = length b.
Proof. intros Hn Hk; rewrite !length_app, !length_take, length_drop; lia. Qed.

Lemma flush_ok s img s' :
  length (x_buf s) = 4096%nat -> 0 <= x_buf_used s <= BUF_SIZE -> holds s img -> flush_stage_buf s = (s', true) ->
  buffer_ok s' /\ holds s' img /\ rest_same s s' /\ x_buf_used s' = 0 /\ x_buf s' = x_buf s.
Proof.
  intros Hb Hu (staged & Hc & ->); unfold flush_stage_buf; destruct (Z.eqb_spec (x_buf_used s) 0) as [E|E].
  - intros [= <-]; split_and!; auto using rest_same_refl; [split; [done|unfold BUF_SIZE in *; lia]|].
    exists staged; auto.
  - destruct (fs_write _ _ _) as [f n] eqn:Hw; cbn [x_buf_used upd]; destruct (Z.eqb_spec n (x_buf_used s)) as [->|]; cbn [negb]; [|intros [=]].
    intros [= <-]; set (d := take _ _) in *.
    assert (Hd : Z.of_nat (length d) = x_buf_used s) by (subst d; rewrite length_take; unfold BUF_SIZE in *; lia).
    rewrite <- Hd in Hw; pose proof (write_content _ _ _ _ _ Hw Hc) as Hc'.
    split_and!; [split; cbn; [done|unfold BUF_SIZE; lia]| |done|done|done].
    exists (staged ++ d); cbn; rewrite flush_content, app_nil_r; done.
Qed.

Lemma flush_keeps_buf s : x_buf (flush_stage_buf s).1 = x_buf s.
Proof. unfold flush_stage_buf; repeat case_match; simplify_eq/=; done. Qed.

(** A failing copy loop leaves the session closed. *)
Lemma session_abort_closed s : x_open (session_abort s) = false /\ x_buf (session_abort s) = x_buf s /\
  x_buf_used (session_abort s) = 0 /\ s_fs_ok (session_abort s) = s_fs_ok s.
Proof. unfold session_abort, remove_if_exists; repeat case_match; done. Qed.

Lemma accumulate_spec fuel s p img :
  (length p <= fuel)%nat -> buffer_ok s -> holds s img ->
  let '(s', ok) := accumulate fuel s p in
  if ok : bool then buffer_ok s' /\ holds s' (img ++ p) /\ rest_same s s'
  else x_open s' = false /\ length (x_buf s') = 4096%nat /\
    exists s1 img1, length (x_buf s1) = 4096%nat /\ 0 <= x_buf_used s1 <= BUF_SIZE /\ holds s1 img1 /\
      (flush_stage_buf s1).2 = false.
Proof.
  revert s p img; induction fuel as [|fuel IH]; intros s p img Hf Hb Hh.
  { destruct p; cbn in *; [|lia]; rewrite app_nil_r; auto using rest_same_refl. }
  destruct p as [|b p]; [cbn; rewrite app_nil_r; auto using rest_same_refl|].
  destruct Hb as [Hb Hu]; cbn [accumulate]; set (q := b :: p) in *.
  assert (Hq : (0 < length q)%nat) by (cbn; lia).
  unfold BUF_SIZE in *; rewrite (u16_small (4096 - x_buf_used s)) by lia.
  set (k := Z.to_nat (Z.min (4096 - x_buf_used s) (Z.of_nat (length q)))).
  assert (Hk : (0 < k <= length q)%nat /\ Z.of_nat k <= 4096 - x_buf_used s) by (subst k; lia).
  clearbody k; set (n := Z.to_nat (x_buf_used s)) in *.
  assert (Hn : Z.of_nat n = x_buf_used s) by (subst n; lia).
  set (s1 := s <| x_buf := _ |> <| x_buf_used := _ |>).
  assert (Hu1 : x_buf_used s1 = x_buf_used s + Z.of_nat k) by (subst s1; cbn; apply u16_small; lia).
  assert (Hl1 : length (x_buf s1) = 4096%nat) by (subst s1; cbn; rewrite length_splice by lia; done).
  assert (Hh1 : holds s1 (img ++ take k q)).
  { destruct Hh as (staged & Hc & ->); exists staged; split; [done|].
    rewrite Hu1; replace (Z.to_nat (x_buf_used s + _)) with (n + k)%nat by lia.
    change (x_buf s1) with (take n (x_buf s) ++ take k q ++ drop (n + k) (x_buf s)).
    rewrite take_splice, app_assoc by lia; done. }
  assert (Hr1 : rest_same s s1) by done.
  assert (Hsplit : (img ++ take k q) ++ drop k q = img ++ q) by (rewrite <- app_assoc, take_drop; done).
  assert (Hrem : (length (drop k q) <= fuel)%nat) by (rewrite length_drop; lia).
  clearbody s1; destruct (Z.eqb_spec (x_buf_used s1) 4096) as [E|E].
  - destruct (flush_stage_buf s1) as [s2 ok] eqn:Hfl; destruct ok.
    + destruct (flush_ok s1 _ s2 Hl1 ltac:(unfold BUF_SIZE; lia) Hh1 Hfl) as (Hb2 & Hh2 & Hr2 & _).
      specialize (IH s2 (drop k q) _ Hrem Hb2 Hh2); destruct (accumulate _ _ _) as [s' ok]; destruct ok; [|done].
      rewrite Hsplit in IH; destruct IH as (? & ? & ?); eauto using rest_same_trans.
    + destruct (session_abort_closed s2) as (? & Hbuf & _); split; [done|]; rewrite Hbuf.
      pose proof (flush_keeps_buf s1) as Hk1; rewrite Hfl in Hk1; cbn in Hk1; split; [congruence|].
      exists s1, (img ++ take k q); rewrite Hfl; split_and!; done || (unfold BUF_SIZE; lia).
  - specialize (IH s1 (drop k q) _ Hrem ltac:(split; [done|unfold BUF_SIZE; lia]) Hh1).
    destruct (accumulate _ _ _) as [s' ok]; destruct ok; [|done].
    rewrite Hsplit in IH; destruct IH as (? & ? & ?); eauto using rest_same_trans.
Qed.
End Staging.

(** ** The abstract session

    [spec_step] computes it from the requests and the answers alone. *)

Definition malformed_end (payload : list Z) : bool :=
  (Z.of_nat (length payload) <? sizeof_xfer_end) || negb (byte_at payload 0 =? 1).

Definition spec_step (a : option asession) (op : Z) (payload : list Z) (result : Z) : option asession :=
  if op =? WUPS_OP_NET_FW_XFER_BEGIN then
    if result =? WUPS_FW_XFER_OK then
      Some (Session (xb_image_len (read_xfer_begin payload)) (xb_sha256 (read_xfer_begin payload)) [])
    else if result =? WUPS_FW_XFER_FLASH_ERR then None else a
  else if op =? WUPS_OP_NET_FW_XFER_DATA then
    match a with
    | Some a =>
        if result =? WUPS_FW_XFER_OK then Some (Session (a_len a) (a_sha a) (a_img a ++ drop 4 payload))
        else if result =? WUPS_FW_XFER_FLASH_ERR then None else Some a
    | None => None
    end
  else if malformed_end payload then a else None.

Section Session.
Context `{Laws : FsLaws} (xip : list Z).
Implicit Types (s : fwu) (a : option asession).

(** The state that represents an abstract session. *)
Definition in_session s a : Prop :=
  length (x_buf s) = 4096%nat /\
  match a with
  | None => x_open s = false
  | Some a =>
      x_open s = true /\ s_fs_ok s = true /\ s_stage s = true /\
      x_image_len s = a_len a /\ x_sha s = a_sha a /\ x_received s = Z.of_nat (length (a_img a)) /\
      FW_IMAGE_MIN_LEN <= a_len a <= FW_IMAGE_MAX_LEN /\ Z.of_nat (length (a_img a)) <= a_len a /\
      buffer_ok s /\ holds s (a_img a)
  end.

(** Changes that do not concern the session. *)
Lemma in_session_time s a t : in_session s a -> in_session (s <| x_last_req_ms := t |>) a.
Proof. destruct a; done. Qed.

Lemma in_session_abort s a : in_session s a -> in_session (session_abort s) None.
Proof.
  intros [Hb _]; destruct (session_abort_closed s) as (Ho & Hbuf & _); split; [congruence|done].
Qed.

Lemma begin_session s a payload t :
  in_session s a ->
  in_session (fw_update_handle_begin xip s payload t).1.1
    (spec_step a WUPS_OP_NET_FW_XFER_BEGIN payload (fw_update_handle_begin xip s payload t).2).
Proof.
  intros H; unfold fw_update_handle_begin; cbn [spec_step].
  destruct (_ <? sizeof_xfer_begin); [done|]; set (b := read_xfer_begin payload).
  destruct (negb (xb_version b =? 1)); [done|]; destruct (negb (xb_target b =? _)); [done|].
  destruct (_ || _) eqn:Hlen; [done|]; to_prop.
  destruct (s_fs_ok s) eqn:Hfs; cbn [negb].
  2:{ destruct a as [a|]; [destruct H as (_ & _ & ? & _); congruence|done]. }
  pose proof (in_session_abort s a H) as HA.
  destruct (session_abort_closed s) as (_ & _ & _ & Hok); rewrite Hfs in Hok.
  set (s1 := session_abort s) in *; clearbody s1; destruct (fs_info (fs s1)) as [total used].
  destruct (_ <? _); [done|].
  destruct (fs_create (fs s1) kStageFile) as [f ok] eqn:Hc; destruct ok; cbn [negb]; [|done].
  destruct HA as [Hb _]; cbn [spec_step fst snd]; unfold set_sha; split; [exact Hb|].
  cbn [x_open x_image_len x_received x_sha x_buf_used x_buf s_fs_ok s_stage fs upd a_len a_sha a_img length].
  unfold FW_IMAGE_MIN_LEN, FW_IMAGE_MAX_LEN in *; split_and!; try done; try (cbn; lia).
  - change (read_xfer_begin payload) with b; cbn [a_img a_len length]; lia.
  - exists []; split; [apply create_content in Hc; exact Hc|done].
Qed.

Lemma data_session s a payload t :
  in_session s a -> Z.of_nat (length payload) < 65536 ->
  in_session (fw_update_handle_data s payload t).1
    (spec_step a WUPS_OP_NET_FW_XFER_DATA payload (fw_update_handle_data s payload t).2).
Proof.
  intros H Hlen; unfold fw_update_handle_data; destruct (x_open s) eqn:Ho; cbn [negb].
  2:{ destruct a as [a|]; [destruct H as (_ & ? & _); congruence|done]. }
  destruct a as [a|]; [|destruct H as [_ H]; congruence].
  apply (in_session_time _ _ t) in H; set (s1 := s <| x_last_req_ms := t |>) in *; clearbody s1.
  unfold sizeof_xfer_data_hdr; destruct (_ <? _) eqn:E1; [exact H|]; to_prop.
  rewrite (u16_small (_ - 4)) by lia; destruct (WUPS_FW_XFER_CHUNK <? _); [exact H|].
  destruct (_ =? x_received s1); cbn [negb]; [|exact H].
  destruct (_ <? _) eqn:E2; [exact H|]; to_prop.
  destruct H as (Hb & Hopen & Hfs & Hst & Hil & Hsha & Hrec & Hrange & Hle & Hbuf & Hh).
  rewrite (take_ge (drop 4 payload)) by (rewrite length_drop; lia).
  pose proof (accumulate_spec _ s1 (drop 4 payload) _ (le_n _) Hbuf Hh) as HA.
  destruct (accumulate _ _ _) as [s2 ok]; destruct ok; cbn [fst snd].
  - change (spec_step _ _ _ _) with (Some (Session (a_len a) (a_sha a) (a_img a ++ drop 4 payload))).
    destruct HA as (Hbuf2 & Hh2 & Hr); split; [exact (proj1 Hbuf2)|].
    unfold rest_same in Hr; rewrite Hr; cbn [x_open x_image_len x_received x_sha x_buf_used x_buf s_fs_ok s_stage fs upd].
    cbn [a_len a_sha a_img]; rewrite length_app, length_drop; split_and!; try done; try lia.
    rewrite u32_small; unfold FW_IMAGE_MAX_LEN in *; lia.
  - destruct HA as (HA1 & HA2 & _); done.
Qed.

(** *** Committing *)

(** The session flag and the length of the buffer survive the file operations. *)
Definition outline s : bool * nat := (x_open s, length (x_buf s)).

Lemma length_overlay (d b : list Z) : (length d <= length b)%nat -> length (d ++ drop (length d) b) = length b.
Proof. intros; rewrite length_app, length_drop; lia. Qed.

Lemma remove_if_exists_outline s n : outline (remove_if_exists s n) = outline s.
Proof. unfold remove_if_exists; case_match; done. Qed.

Lemma cleanup_outline s : outline (cleanup_pending_files s) = outline s.
Proof.
  unfold cleanup_pending_files; destruct (negb _); [done|]; case_match; rewrite ?remove_if_exists_outline; done.
Qed.

Lemma arm_outline s n : outline (arm_file s n).1 = outline s.
Proof. unfold arm_file; repeat case_match; simplify_eq/=; done. Qed.

Lemma marker_outline s : outline (write_pending_marker s).1 = outline s.
Proof. unfold write_pending_marker; repeat case_match; simplify_eq/=; done. Qed.

Lemma snapshot_loop_outline fuel s rest :
  length (x_buf s) = 4096%nat -> outline (snapshot_loop fuel s rest).1 = outline s.
Proof.
  revert s rest; induction fuel as [|fuel IH]; intros s rest Hb; [done|]; destruct rest as [|b rest]; [done|].
  cbn [snapshot_loop]; set (d := take _ _).
  assert (Hl : length (d ++ drop (length d) (x_buf s)) = length (x_buf s)).
  { apply length_overlay; subst d; rewrite length_take; unfold BUF_SIZE; lia. }
  destruct (fs_write _ _ _) as [f n]; set (s1 := s <| x_buf := _ |>) in *.
  assert (Ho : outline (s1 <| fs := f |>) = outline s) by (unfold outline; cbn; rewrite Hl; done).
  destruct (negb _); [exact Ho|]; rewrite IH; [exact Ho|cbn; lia].
Qed.

Lemma snapshot_outline s : length (x_buf s) = 4096%nat -> outline (snapshot_running_image xip s).1 = outline s.
Proof.
  intros Hb; unfold snapshot_running_image; case_match; [done|]; destruct (fs_create _ _) as [f ok].
  destruct (negb ok); [done|].
  match goal with |- context [snapshot_loop ?n ?x ?l] => pose proof (snapshot_loop_outline n x l Hb) as H1 end.
  destruct (snapshot_loop _ _ _) as [s' ok']; destruct ok'; exact H1.
Qed.

(** Reading the staged file back: what is hashed is its contents, up to the first
    read that fails. *)
Lemma hash_stage_spec fuel s off ctx c :
  content (fs s) kStageFile = Some c -> 0 <= off <= Z.of_nat (length c) ->
  (length c - Z.to_nat off < fuel)%nat -> length (x_buf s) = 4096%nat ->
  (exists e rest, drop (Z.to_nat off) c = e ++ rest /\
    (hash_stage fuel s off ctx).2 = fw_sha256_update ctx e /\ (readable (fs s) kStageFile -> rest = [])) /\
  outline (hash_stage fuel s off ctx).1 = outline s /\
  rest_same s (hash_stage fuel s off ctx).1 /\ fs (hash_stage fuel s off ctx).1 = fs s.
Proof.
  intros Hc; revert s off ctx Hc; induction fuel as [|fuel IH]; intros s off ctx Hc Hoff Hf Hb; [lia|].
  cbn [hash_stage]; destruct (fs_read (fs s) kStageFile off BUF_SIZE) as [e0|] eqn:Hrd.
  2:{ split_and!; auto using rest_same_refl; exists [], (drop (Z.to_nat off) c); split_and!; try done.
      intros Hall; destruct (Hall off BUF_SIZE c Hc Hoff); congruence. }
  apply (read_content _ _ _ _ _ _ Hc Hoff) in Hrd; subst e0.
  destruct (take (Z.to_nat BUF_SIZE) (drop (Z.to_nat off) c)) as [|b d] eqn:Hd; cbn [fst snd].
  - assert (Hz : drop (Z.to_nat off) c = []).
    { apply (f_equal length) in Hd; rewrite length_take, length_drop in Hd; unfold BUF_SIZE in Hd; cbn in Hd.
      apply length_zero_iff_nil; rewrite length_drop; lia. }
    rewrite Hz; split_and!; auto using rest_same_refl; exists [], []; done.
  - rewrite <- Hd; set (e := take _ _) in *.
    assert (He0 : (0 < length e)%nat) by (rewrite Hd; cbn; lia); clear Hd.
    assert (Hel : (length e <= length (drop (Z.to_nat off) c))%nat) by (subst e; rewrite length_take; lia).
    assert (He4 : (length e <= 4096)%nat) by (subst e; rewrite length_take; unfold BUF_SIZE; lia).
    rewrite length_drop in Hel.
    assert (He : e ++ drop (Z.to_nat (off + Z.of_nat (length e))) c = drop (Z.to_nat off) c).
    { subst e; set (k := length (take _ _)).
      replace (Z.to_nat (off + Z.of_nat k)) with (Z.to_nat off + k)%nat by lia; rewrite <- drop_drop.
      subst k; rewrite length_take.
      destruct (decide (Z.to_nat BUF_SIZE <= length (drop (Z.to_nat off) c))%nat).
      - rewrite Nat.min_l by done; apply take_drop.
      - rewrite Nat.min_r, take_ge, drop_all, app_nil_r by lia; done. }
    clearbody e; set (s1 := s <| x_buf := _ |>).
    assert (Hb1 : length (x_buf s1) = length (x_buf s)) by (apply length_overlay; lia).
    destruct (IH s1 (off + Z.of_nat (length e)) (fw_sha256_update ctx e) Hc ltac:(lia) ltac:(lia) ltac:(lia))
      as ((e1 & rest & E0 & E1 & Er) & E2 & E3 & E4).
    split_and!.
    + exists (e ++ e1), rest; split_and!; [rewrite <- app_assoc, <- E0; done|rewrite E1, update_app; done|exact Er].
    + rewrite E2; unfold outline; rewrite Hb1; done.
    + apply rest_same_trans with s1; done.
    + rewrite E4; done.
Qed.

Lemma verify_spec s c :
  content (fs s) kStageFile = Some c -> length (x_buf s) = 4096%nat -> Z.of_nat (length c) = x_image_len s ->
  let '(s', ok) := verify_stage_sha s in
  outline s' = outline s /\ x_image_len s' = x_image_len s /\
  (forall m, content (fs s') m = content (fs s) m) /\
  exists e, e `prefix_of` c /\ (readable (fs s) kStageFile -> e = c) /\
    ok = fs_open (fs s) kStageFile && bool_decide (sha256_ref e = x_sha s).
Proof.
  intros Hc Hb Hl; unfold verify_stage_sha; destruct (fs_open _ _); cbn [negb];
    [|split_and!; try done; exists c; done].
  destruct (hash_stage_spec (S (Z.to_nat (x_image_len s))) s 0 (fw_sha256_init blank_ctx) c Hc
    ltac:(lia) ltac:(lia) Hb) as ((e & rest & E0 & E1 & Er) & E2 & E3 & E4).
  destruct (hash_stage _ _ _ _) as [s' ctx]; cbn [fst snd] in *; subst ctx; unfold rest_same in E3.
  rewrite drop_0 in E0; subst c.
  split_and!; [exact E2|rewrite E3; done| |].
  - intros m; cbn; rewrite close_content, E4; done.
  - exists e; split_and!; [exists rest; done|intros H; rewrite (Er H), app_nil_r; done|].
    cbn [andb]; rewrite E3, <- fw_sha256_ref; done.
Qed.

(** The vector table that [sanity_check_image] accepts: a stack pointer in RAM and
    a thumb reset vector inside the image. *)
Definition bootable (len : Z) (img : list Z) : Prop :=
  let sp := le_val (field (Z.to_nat FW_APP_VECTORS_OFF) 4 img) in
  let rst := le_val (field (Z.to_nat (FW_APP_VECTORS_OFF + 4)) 4 img) in
  536870912 <= sp <= 537141248 /\ has rst 1 = true /\
  XIP_BASE + FW_APP_VECTORS_OFF <= Z.land rst 4294967294 < XIP_BASE + len.

Lemma sanity_spec s c :
  content (fs s) kStageFile = Some c -> Z.of_nat (length c) = x_image_len s ->
  FW_IMAGE_MIN_LEN <= x_image_len s <= FW_IMAGE_MAX_LEN ->
  (sanity_check_image s = true -> bootable (x_image_len s) c) /\
  (fs_open (fs s) kStageFile = true -> readable (fs s) kStageFile -> bootable (x_image_len s) c ->
   sanity_check_image s = true).
Proof.
  intros Hc Hl Hr; unfold sanity_check_image, FW_IMAGE_MIN_LEN, FW_IMAGE_MAX_LEN, FW_APP_VECTORS_OFF, XIP_BASE in *.
  destruct (fs_open _ _); cbn [negb]; [|split; done].
  destruct (fs_read (fs s) kStageFile 12288 8) as [d0|] eqn:Hrd.
  2:{ split; [done|]; intros _ Hall; destruct (Hall 12288 8 c Hc ltac:(lia)); congruence. }
  apply (read_content _ _ 12288 8 _ _ Hc ltac:(lia)) in Hrd; subst d0.
  assert (Hd : length (take (Z.to_nat 8) (drop (Z.to_nat 12288) c)) = 8%nat) by (rewrite length_take, length_drop; lia).
  rewrite Hd; change (Z.of_nat 8 =? 8) with true; cbn [negb]; clear Hd; set (d := take _ _).
  assert (field 0 4 d = field (Z.to_nat 12288) 4 c /\ field 4 4 d = field (Z.to_nat (12288 + 4)) 4 c) as [-> ->].
  { subst d; unfold field; rewrite drop_0, !take_take, skipn_firstn_comm, drop_drop, take_take.
    rewrite Z2Nat.inj_add by lia; done. }
  unfold bootable, XIP_BASE, FW_APP_VECTORS_OFF; rewrite (u32_small (_ + x_image_len s)) by lia.
  destruct (_ || _) eqn:E1; [split; [done|]; intros _ _ (? & _ & ?); apply orb_true_iff in E1; lia|].
  destruct (has _ 1) eqn:E2; cbn [negb]; [|split; [done|]; intros _ _ (_ & ? & _); congruence]; to_prop.
  destruct (_ <? _) eqn:E3; [split; [done|]; intros _ _ (? & _ & ?); lia|]; destruct (_ <=? _) eqn:E4; [split; [done|]; intros _ _ (? & _ & ?); lia|].
  to_prop; split; [intros _; split_and!; (done || lia)|done].
Qed.

Lemma outline_eq s s' : outline s = outline s' -> x_open s = x_open s' /\ length (x_buf s) = length (x_buf s').
Proof. intros [= -> ->]; done. Qed.

Lemma commit_spec s c :
  content (fs s) kStageFile = Some c -> length (x_buf s) = 4096%nat ->
  let '(s', _, _, reboot) := commit_stage xip s in
  outline s' = outline s /\
  (reboot = true -> content (fs s') kStageFile = Some c /\ armed (fs s') = [kStageFile]).
Proof.
  intros Hc Hb; unfold commit_stage.
  pose proof (snapshot_outline s Hb) as O1; pose proof (snapshot_other xip s kStageFile ltac:(done)) as C1.
  destruct (snapshot_running_image _ _) as [s1 have]; cbn [fst] in *; rewrite Hc in C1.
  assert (H2 : forall x, outline x = outline s1 -> content (fs x) kStageFile = Some c ->
    let '(s', _, _, reboot) := (let '(s2, ok) := arm_file x kStageFile in
      if ok : bool then (s2, [] : list (list Z), WUPS_FW_XFER_OK, true)
      else (remove_stage (cleanup_pending_files s2), [], WUPS_FW_XFER_FLASH_ERR, false)) in
    outline s' = outline s /\
    (reboot = true -> content (fs s') kStageFile = Some c /\ armed (fs s') = [kStageFile])).
  { intros x Ho Hx; pose proof (arm_file_armed x kStageFile) as A3; pose proof (arm_outline x kStageFile) as O3; pose proof (arm_file_content x kStageFile kStageFile ltac:(done)) as C3.
    destruct (arm_file _ _) as [s3 ok]; cbn [fst snd] in *; destruct ok; [split; [|split; [|auto]]; congruence|].
    split; [|done]; transitivity (outline (cleanup_pending_files s3)); [done|]; rewrite cleanup_outline; congruence. }
  destruct have.
  - pose proof (marker_outline s1) as O2; pose proof (marker_other s1 kStageFile ltac:(done)) as C2.
    destruct (write_pending_marker s1) as [s2 ok]; cbn [fst] in *; destruct ok.
    + specialize (H2 s2 O2 ltac:(congruence)); destruct (arm_file s2 _) as [s3 ok]; destruct ok; exact H2.
    + assert (C3 : content (fs_remove (fs s2) kPrevFile) kStageFile = Some c) by (rewrite remove_other; congruence || done).
      set (s3 := s2 <| fs := fs_remove (fs s2) kPrevFile |>); specialize (H2 s3 O2 C3).
      destruct (arm_file _ _) as [s4 ok]; destruct ok; exact H2.
  - specialize (H2 s1 eq_refl C1); destruct (arm_file _ _) as [s3 ok]; destruct ok; exact H2.
Qed.

(** What an accepted commit leaves behind.  [f1] are the files when the staged
    image was verified, [e] the part of it that could be read. *)
Definition committed a (f : F) : Prop :=
  exists x f1 e, a = Some x /\ Z.of_nat (length (a_img x)) = a_len x /\
    content f1 kStageFile = Some (a_img x) /\ e `prefix_of` a_img x /\
    (readable f1 kStageFile -> e = a_img x) /\ sha256_ref e = a_sha x /\
    bootable (a_len x) (a_img x) /\ content f kStageFile = Some (a_img x) /\ armed f = [kStageFile].

Lemma end_session s a payload t :
  in_session s a ->
  let '(s', _, result, reboot) := fw_update_handle_end xip s payload t in
  in_session s' (spec_step a WUPS_OP_NET_FW_XFER_END payload result) /\ (reboot = true -> committed a (fs s')).
Proof.
  intros H; unfold fw_update_handle_end.
  change (spec_step a WUPS_OP_NET_FW_XFER_END payload) with (fun _ : Z => if malformed_end payload then a else None).
  cbv beta; destruct (x_open s) eqn:Ho; cbn [negb].
  2:{ split; [|done]; destruct a as [a|]; [destruct H as (_ & ? & _); congruence|]; case_match; done. }
  apply (in_session_time _ _ t) in H; set (s1 := s <| x_last_req_ms := t |>) in *.
  assert (Ho1 : x_open s1 = true) by exact Ho; clearbody s1; unfold malformed_end.
  destruct (_ <? _); [done|]; destruct (negb (byte_at payload 0 =? 1)); [done|]; cbn [orb].
  pose proof (in_session_abort s1 a H) as HA.
  destruct (_ =? 0); [done|]; destruct (Z.eqb_spec (x_received s1) (x_image_len s1)) as [Heq|]; cbn [negb]; [|done].
  destruct a as [x|]; [|destruct H; congruence].
  destruct H as (Hb & _ & _ & _ & Hil & Hsha & Hrec & Hrange & _ & Hbuf & Hh).
  pose proof (flush_keeps_buf s1) as Hkeep; destruct (flush_stage_buf s1) as [s2 ok] eqn:Hfl; cbn [fst] in Hkeep.
  destruct ok; cbn [negb].
  2:{ split; [|done]; destruct (session_abort_closed s2) as (? & E & _); split; [congruence|done]. }
  destruct (flush_ok s1 _ s2 Hb ltac:(destruct Hbuf; lia) Hh Hfl) as ([Hb2 _] & (staged & Hc & Himg) & Hr & Hu & _).
  rewrite Hu, app_nil_r in Himg; subst staged; unfold rest_same in Hr.
  set (s3 := s2 <| fs := fs_close (fs s2) kStageFile |> <| s_stage := false |> <| x_open := false |>).
  assert (Hc3 : content (fs s3) kStageFile = Some (a_img x)) by (subst s3; cbn; rewrite close_content; done).
  assert (Hil3 : x_image_len s3 = a_len x) by (subst s3; rewrite Hr; exact Hil).
  assert (Hsha3 : x_sha s3 = a_sha x) by (subst s3; rewrite Hr; exact Hsha).
  assert (Ho3 : outline s3 = (false, 4096%nat)) by (subst s3; unfold outline; cbn; rewrite Hb2; done).
  assert (Hclose : forall y, outline y = outline s3 -> in_session y None).
  { intros y Hy; rewrite Ho3 in Hy; injection Hy as H1 H2; split; done. }
  clearbody s3; clear Hr Hfl Hkeep.
  pose proof (verify_spec s3 _ Hc3 ltac:(injection Ho3; done) ltac:(lia)) as HV.
  destruct (verify_stage_sha s3) as [s4 ok]; destruct HV as (O4 & L4 & C4 & e & Hpre & Hfull & V4).
  destruct ok; cbn [negb]; [|split; [apply Hclose; exact O4|done]].
  pose proof Hc3 as Hcv; rewrite <- (C4 kStageFile) in Hc3.
  pose proof (sanity_spec s4 _ Hc3 ltac:(lia) ltac:(lia)) as [HS _].
  destruct (sanity_check_image s4); cbn [negb]; [|split; [apply Hclose; exact O4|done]].
  pose proof (commit_spec s4 _ Hc3 ltac:(apply outline_eq in O4 as [_ E]; injection Ho3; congruence)) as HC.
  destruct (commit_stage _ _) as [[[s5 out] result] reboot]; destruct HC as [O5 C5].
  split; [apply Hclose; congruence|]; intros Hre; exists x, (fs s3), e; symmetry in V4; apply andb_true_iff in V4 as [_ V4].
  apply bool_decide_eq_true in V4; destruct (C5 Hre); split_and!; auto; [lia|congruence|].
  rewrite <- Hil3, <- L4; apply HS; done.
Qed.

(** *** The other entry points leave the session alone, or close it *)

Definition spec_event a (e : event) (o : outcome) : option asession :=
  match e with
  | Boot _ => None
  | Tick _ => if o_active o then a else None
  | Frame_in f _ =>
      match o_answer o with
      | Some r => spec_step a (f_op f) (f_payload f) r
      | None => a
      end
  end.

(** Changes of the file system that keep the staging file. *)
Lemma in_session_files s s' a :
  in_session s a ->
  (x_open s', s_fs_ok s', s_stage s', x_image_len s', x_sha s', x_received s', x_buf_used s', x_buf s') =
  (x_open s, s_fs_ok s, s_stage s, x_image_len s, x_sha s, x_received s, x_buf_used s, x_buf s) ->
  (x_open s = true -> content (fs s') kStageFile = content (fs s) kStageFile) -> in_session s' a.
Proof.
  intros [Hb H] [= E1 E2 E3 E4 E5 E6 E7 E8] Hc; split; [congruence|]; destruct a as [x|]; [|congruence].
  destruct H as (Ho & ? & ? & ? & ? & ? & ? & ? & Hbuf & staged & Hs & Hi); rewrite E1, E2, E3, E4, E5, E6.
  destruct Hbuf as (? & ? & ?); split_and!; try done; try apply H4.
  - unfold buffer_ok; rewrite E7, E8; done.
  - exists staged; rewrite E7, E8, Hc by done; done.
Qed.

Definition frame_of s := (x_open s, s_fs_ok s, s_stage s, x_image_len s, x_sha s, x_received s, x_buf_used s, x_buf s).

Lemma remove_if_exists_frame s n : frame_of (remove_if_exists s n) = frame_of s.
Proof. unfold remove_if_exists; case_match; done. Qed.

Lemma cleanup_frame s :
  frame_of (cleanup_pending_files s) = frame_of s /\
  (x_open s = true -> content (fs (cleanup_pending_files s)) kStageFile = content (fs s) kStageFile).
Proof.
  unfold cleanup_pending_files; destruct (negb _); [done|].
  set (s1 := remove_if_exists s kPendingFile); set (s2 := remove_if_exists s1 kPrevFile).
  assert (E : frame_of s2 = frame_of s) by (subst s1 s2; rewrite !remove_if_exists_frame; done).
  assert (x_open s2 = x_open s) as -> by (injection E; done); split.
  - case_match; rewrite ?remove_if_exists_frame; exact E.
  - intros ->; subst s1 s2; rewrite !remove_if_exists_other; done.
Qed.

Lemma in_session_cleanup s a : in_session s a -> in_session (cleanup_pending_files s) a.
Proof. intros H; destruct (cleanup_frame s); eapply in_session_files; eauto. Qed.

Lemma in_session_pending s a b : in_session s a -> in_session (s <| s_pending := b |>) a.
Proof. intros H; eapply in_session_files; [exact H| |]; done. Qed.

Lemma restage_session s a msg : in_session s a -> in_session (restage_previous_and_reboot s msg).1.1 a.
Proof.
  intros H; unfold restage_previous_and_reboot; destruct (_ || _); [done|].
  pose proof (arm_file_content s kPrevFile kStageFile ltac:(done)) as Hc.
  assert (E : frame_of (arm_file s kPrevFile).1 = frame_of s).
  { unfold arm_file; destruct (ota_add _ _) as [f []]; cbn [negb]; [|done]; destruct (ota_commit f); done. }
  destruct (arm_file s kPrevFile) as [s1 ok]; cbn [fst] in *; destruct ok; cbn [negb fst].
  - eapply in_session_files; [exact H|exact E|]; intros _; cbn; rewrite remove_other by done; exact Hc.
  - eapply in_session_files; [exact H|exact E|]; done.
Qed.

Lemma tick_session s a t :
  in_session s a ->
  let '(s', _, _) := fw_update_tick s t in in_session s' (if x_open s' then a else None).
Proof.
  intros H; unfold fw_update_tick.
  assert (Hg : forall s1 a1 out, in_session s1 a1 -> (a1 = a \/ a1 = None) ->
    let '(s', _, _) := (if s_pending s1 && (FW_VERIFY_WINDOW_MS <? u32 (t - s_pending_boot_ms s1)) then
      let '(s2, out', rebooted) :=
        restage_previous_and_reboot s1 (str "RP2040: no WUPS traffic after update - rolling back") in
      if rebooted : bool then (s2, out ++ out', true)
      else (cleanup_pending_files (s2 <| s_pending := false |>), out ++ out', false)
      else (s1, out, false)) in
    in_session s' (if x_open s' then a else None)).
  { intros s1 a1 out H1 Ha.
    assert (Hfin : forall s', in_session s' a1 -> in_session s' (if x_open s' then a else None)).
    { intros s' Hs; destruct (x_open s') eqn:Ho; [|split; [apply Hs|done]].
      destruct Ha as [->| ->]; [done|destruct Hs; congruence]. }
    destruct (_ && _); [|apply Hfin, H1]; pose proof (restage_session s1 a1 (str "RP2040: no WUPS traffic after update - rolling back") H1) as H2.
    destruct (restage_previous_and_reboot _ _) as [[s2 out'] []]; apply Hfin; [exact H2|].
    apply in_session_cleanup, in_session_pending, H2. }
  destruct (_ && _); [apply (Hg _ None); [eapply in_session_abort; exact H|right; done]|].
  apply (Hg s a); [exact H|left; done].
Qed.

Lemma boot_session f t : in_session (fw_update_boot_init (boot_state f) t).1.1 None.
Proof.
  assert (Hb : outline (boot_state f) = (false, 4096%nat)) by (unfold outline; cbn [x_open x_buf boot_state]; rewrite length_replicate; done).
  assert (Hg : forall s, outline s = (false, 4096%nat) -> in_session s None) by (intros s [= ? ?]; split; done).
  apply Hg; revert Hb; generalize (boot_state f) as s; intros s Hb; unfold fw_update_boot_init.
  set (s0 := s <| x_open := false |>); assert (H0 : outline s0 = (false, 4096%nat)) by (injection Hb as ? ?; unfold outline; cbn; congruence).
  clearbody s0; destruct (fs_begin (fs s0)) as [f1 ok]; set (s1 := s0 <| fs := f1 |> <| s_fs_ok := ok |>).
  assert (H1 : outline s1 = (false, 4096%nat)) by exact H0; clearbody s1; destruct (negb ok); [exact H1|].
  set (s2 := remove_if_exists s1 _); assert (H2 : outline s2 = (false, 4096%nat)) by (subst s2; rewrite remove_if_exists_outline; exact H1).
  clearbody s2; destruct (fs_exists (fs s2) kPendingFile).
  2:{ cbn [fst]; rewrite !remove_if_exists_outline; exact H2. }
  destruct (if fs_open (fs s2) kPendingFile then _ else _) as [d|].
  2:{ cbn [fst]; rewrite cleanup_outline; case_match; exact H2. }
  destruct (_ && _); [|cbn [fst]; rewrite cleanup_outline; exact H2].
  destruct (fs_update _ _ _) as [f2 n]; set (s3 := s2 <| fs := fs_close f2 kPendingFile |>).
  assert (H3 : outline s3 = (false, 4096%nat)) by exact H2; clearbody s3; destruct (_ <? _); [|exact H3].
  pose proof (restage_session s3 None (str "RP2040: fw crash-looping after update - rolling back") (Hg _ H3)) as H4.
  destruct (restage_previous_and_reboot _ _) as [[s4 out] []]; destruct H4 as [HA HB]; cbn [fst] in *; [unfold outline; congruence|].
  rewrite cleanup_outline; unfold outline; congruence.
Qed.
End Session.
