(* ===== verification/FwInstall.v ===== *)
(** * What the RP2040 installs
    (firmware-rp2040/src/fw_update.cpp)

    Theorems about whole histories of the receiver of [FwUpdate]: what can be
    armed, that a clean transfer is installed, and that an update which is never
    confirmed is rolled back. *)

From S2P Require Import Prelude Protocol Sha256 FwXfer FwUpdate.

(** ** Files that do not fail

    The laws of [FsLaws] allow every operation to fail; [FsReads] says that reads
    do not, and a reliable file system is one whose operations on existing files
    succeed. *)

Class FsReads `(Laws : FsLaws) := read_ok : forall f n, readable f n.

Class FsReliable `(Laws : FsLaws) := {
  reads_reliable :: FsReads Laws;
  remove_ok f n : content (fs_remove f n) n = None;
  begin_ok f : (fs_begin f).2 = true;
  create_ok f n : (fs_create f n).2 = true;
  write_ok f n d : is_Some (content f n) -> (fs_write f n d).2 = Z.of_nat (length d);
  open_ok f n : is_Some (content f n) -> fs_open f n = true;
  update_ok f n d c : content f n = Some c -> length c = length d -> (fs_update f n d).2 = Z.of_nat (length d);
  add_ok f n : is_Some (content f n) -> (ota_add f n).2 = true;
  commit_ok f : (ota_commit f).2 = true
}.

(** A file system on an intact flash: the files, those queued for the boot loader
    and those it is told to copy. *)
Record disk := Disk { d_files : gmap string (list Z); d_queued : list string; d_armed : list string }.
Definition fresh_disk : disk := Disk ∅ [] [].
Definition on_files (d : disk) (g : gmap string (list Z)) : disk := Disk g (d_queued d) (d_armed d).

Definition toy_fs : LittleFS := {|
  F := disk;
  fs_begin f := (f, true);
  fs_exists f n := bool_decide (is_Some (d_files f !! n));
  fs_remove f n := on_files f (delete n (d_files f));
  fs_create f n := (on_files f (<[n := []]> (d_files f)), true);
  fs_write f n d := match d_files f !! n with
                    | Some c => (on_files f (<[n := c ++ d]> (d_files f)), Z.of_nat (length d))
                    | None => (f, -1)
                    end;
  fs_flush f _ := f;
  fs_close f _ := f;
  fs_open f n := bool_decide (is_Some (d_files f !! n));
  fs_read f n off k := match d_files f !! n with
                       | Some c => Some (take (Z.to_nat k) (drop (Z.to_nat off) c))
                       | None => None
                       end;
  fs_update f n d := match d_files f !! n with
                     | Some c => (on_files f (<[n := d ++ drop (length d) c]> (d_files f)), Z.of_nat (length d))
                     | None => (f, 0)
                     end;
  fs_info _ := (1048576, 0);
  ota_begin f := Disk (d_files f) [] (d_armed f);
  ota_add f n := if bool_decide (is_Some (d_files f !! n))
                 then (Disk (d_files f) (d_queued f ++ [n]) (d_armed f), true) else (f, false);
  ota_commit f := (Disk (<[OTA_COMMAND_FILE := []]> (d_files f)) (d_queued f) (d_queued f), true)
|}.

#[export] Instance toy_laws : FsLaws toy_fs.
Proof.
  refine {| content := (fun (f : F (LittleFS := toy_fs)) n => d_files f !! n);
            armed := (fun (f : F (LittleFS := toy_fs)) => d_armed f);
            queued := (fun (f : F (LittleFS := toy_fs)) => d_queued f) |}; cbn; intros.
  - done.
  - done.
  - left; apply lookup_delete_eq.
  - apply lookup_delete_ne; congruence.
  - simplify_eq; apply lookup_insert_eq.
  - apply lookup_insert_ne; congruence.
  - destruct (d_files f !! n) eqn:E; simplify_eq; apply lookup_insert_eq.
  - destruct (d_files f !! n); [apply lookup_insert_ne; congruence|done].
  - done.
  - done.
  - destruct (d_files f !! n); simplify_eq; done.
  - destruct (d_files f !! n) eqn:E; simplify_eq; cbn; rewrite drop_ge, app_nil_r by lia; apply lookup_insert_eq.
  - destruct (d_files f !! n); [apply lookup_insert_ne; congruence|done].
  - done.
  - case_bool_decide; done.
  - apply lookup_insert_ne; congruence.
  - done.
  - case_bool_decide; simplify_eq; done.
  - simplify_eq; done.
  - done.
Defined.

#[export] Instance toy_reads : FsReads toy_laws.
Proof. intros f n off k c Hc _; cbn in *; rewrite Hc; eauto. Qed.

#[export] Instance toy_reliable : FsReliable toy_laws.
Proof.
  constructor; [exact toy_reads|..]; cbn; intros; try done.
  - apply lookup_delete_eq.
  - destruct H as [c ->]; done.
  - apply bool_decide_eq_true; done.
  - rewrite H; done.
  - rewrite bool_decide_eq_true_2; done.
Qed.

(** ** Histories *)

Section Histories.
Context `{Laws : FsLaws} (xip : list Z).
Implicit Types (s : fwu) (a : option asession).

Definition event_ok (e : event) : Prop :=
  match e with Frame_in f _ => Z.of_nat (length (f_payload f)) < 65536 | _ => True end.

Lemma xfer_op f : is_fw_xfer f = true ->
  f_op f = WUPS_OP_NET_FW_XFER_BEGIN \/ f_op f = WUPS_OP_NET_FW_XFER_DATA \/ f_op f = WUPS_OP_NET_FW_XFER_END.
Proof.
  unfold is_fw_xfer; intros H; apply andb_true_iff in H as [_ H]; rewrite !orb_true_iff in H.
  destruct H as [[H|H]|H]; apply Z.eqb_eq in H; auto.
Qed.

Lemma frame_session s a f t :
  in_session s a -> event_ok (Frame_in f t) ->
  let '(s', o) := fw_frame xip s f t in
  in_session s' (spec_event a (Frame_in f t) o) /\ (o_reboot o = true -> committed a (fs s')).
Proof.
  intros H Hok; unfold fw_frame.
  assert (H1 : in_session (fw_update_note_frame_ok s).1 a).
  { unfold fw_update_note_frame_ok; destruct (negb _); [exact H|]; apply in_session_cleanup, in_session_pending, H. }
  destruct (fw_update_note_frame_ok s) as [s1 out]; cbn [fst] in H1.
  destruct (is_fw_xfer f) eqn:Hx; [|split; [exact H1|done]].
  destruct (xfer_op f Hx) as [E|[E|E]]; unfold on_fw_xfer; rewrite E.
  - pose proof (begin_session xip s1 a (f_payload f) t H1) as HB; cbn [Z.eqb Pos.eqb WUPS_OP_NET_FW_XFER_BEGIN].
    destruct (fw_update_handle_begin _ _ _ _) as [[s2 out'] r]; cbn [spec_event o_answer fst snd] in *.
    rewrite E; split; [exact HB|done].
  - pose proof (data_session s1 a (f_payload f) t H1 Hok) as HD.
    change (WUPS_OP_NET_FW_XFER_DATA =? WUPS_OP_NET_FW_XFER_BEGIN) with false; rewrite Z.eqb_refl; cbv iota.
    destruct (fw_update_handle_data _ _ _) as [s2 r]; cbn [spec_event o_answer fst snd] in *.
    rewrite E; split; [exact HD|done].
  - pose proof (end_session xip s1 a (f_payload f) t H1) as HE.
    change (WUPS_OP_NET_FW_XFER_END =? WUPS_OP_NET_FW_XFER_BEGIN) with false.
    change (WUPS_OP_NET_FW_XFER_END =? WUPS_OP_NET_FW_XFER_DATA) with false; cbv iota.
    destruct (fw_update_handle_end _ _ _ _) as [[[s2 out'] r] b]; cbn [spec_event o_answer o_reboot] in *.
    rewrite E; exact HE.
Qed.

Lemma step_session s a e :
  in_session s a -> event_ok e ->
  in_session (fw_step xip s e).1 (spec_event a e (fw_step xip s e).2).
Proof.
  intros H Hok; destruct e as [t|t|f t]; cbn [fw_step].
  - pose proof (boot_session (fs s) t) as HB.
    destruct (fw_update_boot_init _ _) as [[s1 out] b]; exact HB.
  - pose proof (tick_session s a t H) as HT; destruct (fw_update_tick s t) as [[s1 out] b]; exact HT.
  - pose proof (frame_session s a f t H Hok) as HF; destruct (fw_frame _ _ _ _) as [s1 o]; apply HF.
Qed.

(** The session as the requests and answers of a history determine it. *)
Definition spec_run (l : list (event * outcome)) : option asession :=
  fold_left (fun a x => spec_event a x.1 x.2) l None.

Lemma run_session s a evs :
  in_session s a -> Forall event_ok evs ->
  in_session (run (fw_step xip) s evs).1
    (fold_left (fun a x => spec_event a x.1 x.2) (combine evs (run (fw_step xip) s evs).2) a).
Proof.
  intros H Hok; revert s a H; induction Hok as [|e evs He _ IH]; intros s a H; [exact H|]; cbn [run].
  pose proof (step_session s a e H He) as H1; destruct (fw_step xip s e) as [s1 o]; cbn [fst snd] in H1.
  specialize (IH s1 _ H1); destruct (run (fw_step xip) s1 evs) as [s2 os]; exact IH.
Qed.

(** C5: only the image that was announced is ever armed.  After any history of restarts,
    main loop passes and frames, over files whose opens, creates, writes, reads and
    removals may fail at any point (what a successful write reported is in the file, a
    successful read returns it), a request that is answered with a reboot is the END of
    a session in which the accepted data chunks, put together, have the announced
    length and carry a plausible vector table; the only file the boot loader is told
    to copy is the staging file, which holds exactly these bytes; and the announced
    digest is the SHA-256 of what the verification read back of them, which is all of
    them unless a read failed. *)
Theorem armed_image_exact f0 evs f t :
  Forall event_ok (evs ++ [Frame_in f t]) ->
  let '(s, outs) := run (fw_step xip) (boot_state f0) evs in
  let '(s', o) := fw_step xip s (Frame_in f t) in
  o_reboot o = true -> committed (spec_run (combine evs outs)) (fs s').
Proof.
  intros H; apply Forall_app in H as [H1 H2]; apply Forall_cons in H2 as [H2 _].
  assert (H0 : in_session (boot_state f0) None) by (split; [apply length_replicate|done]).
  pose proof (run_session _ _ _ H0 H1) as HR; destruct (run _ _ _) as [s outs]; cbn [fst snd fw_step] in *.
  pose proof (frame_session s _ f t HR H2) as HF; destruct (fw_frame _ _ _ _) as [s' o]; apply HF.
Qed.

(** ** The receiver's contract *)

Lemma data_ok_offset s a payload t :
  in_session s a -> (fw_update_handle_data s payload t).2 = WUPS_FW_XFER_OK ->
  exists x, a = Some x /\ read_xfer_offset payload = Z.of_nat (length (a_img x)).
Proof.
  intros H; unfold fw_update_handle_data; destruct (x_open s) eqn:Ho; cbn [negb]; [|done].
  destruct a as [x|]; [|destruct H; congruence]; destruct H as (_ & _ & _ & _ & _ & _ & Hrec & _).
  set (s1 := s <| x_last_req_ms := t |>); change (x_received s1) with (x_received s).
  repeat (destruct (_ <? _); [done|]); destruct (Z.eqb_spec (read_xfer_offset payload) (x_received s)) as [E|]; cbn [negb]; [|done].
  intros _; exists x; split; [done|congruence].
Qed.

Lemma commit_ok_reboots s : (commit_stage xip s).1.2 = WUPS_FW_XFER_OK -> (commit_stage xip s).2 = true.
Proof.
  unfold commit_stage; destruct (snapshot_running_image _ _) as [s1 have].
  destruct (if have then _ else _) as [s2 have2]; destruct (arm_file _ _) as [s3 []]; done.
Qed.

Lemma end_ok_reboots s t :
  (fw_update_handle_end xip s (xfer_end_bytes 1) t).1.2 = WUPS_FW_XFER_OK ->
  (fw_update_handle_end xip s (xfer_end_bytes 1) t).2 = true.
Proof.
  unfold fw_update_handle_end; destruct (negb (x_open s)); [done|].
  change (Z.of_nat (length (xfer_end_bytes 1)) <? sizeof_xfer_end) with false.
  change (byte_at (xfer_end_bytes 1) 0 =? 1) with true; change (byte_at (xfer_end_bytes 1) 1 =? 0) with false; cbn [negb].
  destruct (negb _); [done|]; destruct (flush_stage_buf _) as [s2 ok]; destruct (negb ok); [done|].
  destruct (verify_stage_sha _) as [s3 ok']; destruct (negb ok'); [done|]; destruct (negb _); [done|]; apply commit_ok_reboots.
Qed.

(** END does not touch the flag of an update that awaits confirmation. *)
Lemma remove_if_exists_pending s n : s_pending (remove_if_exists s n) = s_pending s.
Proof. unfold remove_if_exists; case_match; done. Qed.

Lemma abort_pending s : s_pending (session_abort s) = s_pending s.
Proof. unfold session_abort; destruct (s_stage s); cbv zeta; destruct (s_fs_ok _); rewrite ?remove_if_exists_pending; done. Qed.

Lemma cleanup_pending s : s_pending (cleanup_pending_files s) = s_pending s.
Proof.
  unfold cleanup_pending_files; destruct (negb _); [done|]; cbv zeta; destruct (x_open _); rewrite ?remove_if_exists_pending; done.
Qed.

Lemma flush_pending s : s_pending (flush_stage_buf s).1 = s_pending s.
Proof. unfold flush_stage_buf; destruct (_ =? 0); [done|]; destruct (fs_write _ _ _); destruct (negb _); done. Qed.

Lemma hash_pending fuel s off ctx : s_pending (hash_stage fuel s off ctx).1 = s_pending s.
Proof.
  revert s off ctx; induction fuel as [|fuel IH]; intros s off ctx; [done|]; cbn [hash_stage].
  destruct (fs_read _ _ _ _) as [[|b d]|]; [done| |done]; cbv zeta; rewrite IH; done.
Qed.

Lemma snapshot_loop_pending fuel s rest : s_pending (snapshot_loop fuel s rest).1 = s_pending s.
Proof.
  revert s rest; induction fuel as [|fuel IH]; intros s rest; [done|]; destruct rest as [|b rest]; [done|]; cbn [snapshot_loop].
  destruct (fs_write _ _ _) as [f n]; destruct (negb _); [done|]; rewrite IH; done.
Qed.

Lemma arm_pending s n : s_pending (arm_file s n).1 = s_pending s.
Proof. unfold arm_file; destruct (ota_add _ _) as [f []]; cbn [negb]; [|done]; destruct (ota_commit f); done. Qed.

Lemma commit_pending s : s_pending (commit_stage xip s).1.1.1 = s_pending s.
Proof.
  unfold commit_stage.
  assert (H1 : s_pending (snapshot_running_image xip s).1 = s_pending s).
  { unfold snapshot_running_image; destruct (_ || _); [done|]; destruct (fs_create _ _) as [f ok]; destruct (negb ok); [done|].
    match goal with |- context [snapshot_loop ?n ?x ?l] => pose proof (snapshot_loop_pending n x l) as H end.
    destruct (snapshot_loop _ _ _) as [x []]; exact H. }
  destruct (snapshot_running_image xip s) as [s1 have]; cbn [fst] in H1.
  assert (H2 : forall x, s_pending x = s_pending s -> s_pending (let '(s2, ok) := arm_file x kStageFile in
      if ok : bool then (s2, [] : list (list Z), WUPS_FW_XFER_OK, true)
      else (remove_stage (cleanup_pending_files s2), [], WUPS_FW_XFER_FLASH_ERR, false)).1.1.1 = s_pending s).
  { intros x Hx; pose proof (arm_pending x kStageFile) as Ha; destruct (arm_file x kStageFile) as [s2 []]; cbn [fst] in *; [congruence|].
    change (s_pending (cleanup_pending_files s2) = s_pending s); rewrite cleanup_pending; congruence. }
  destruct have.
  - assert (H3 : s_pending (write_pending_marker s1).1 = s_pending s1).
    { unfold write_pending_marker; destruct (fs_create _ _) as [f ok]; destruct (negb ok); [done|].
      destruct (fs_write _ _ _) as [f' n]; destruct (n =? 8); done. }
    destruct (write_pending_marker s1) as [s2 []]; cbn [fst] in H3.
    + specialize (H2 s2 ltac:(congruence)); destruct (arm_file s2 _) as [s3 []]; exact H2.
    + set (s3 := s2 <| fs := _ |>); specialize (H2 s3 ltac:(change (s_pending s2 = s_pending s); congruence)).
      destruct (arm_file s3 _) as [s4 []]; exact H2.
  - specialize (H2 s1 H1); destruct (arm_file s1 _) as [s3 []]; exact H2.
Qed.

Lemma end_pending s p t : s_pending (fw_update_handle_end xip s p t).1.1.1 = s_pending s.
Proof.
  unfold fw_update_handle_end; destruct (negb _); [done|]; set (s1 := s <| x_last_req_ms := t |>).
  change (s_pending s) with (s_pending s1); clearbody s1; destruct (_ <? _); [done|]; destruct (negb (_ =? 1)); [done|].
  destruct (_ =? 0); [apply abort_pending|]; destruct (negb _); [apply abort_pending|].
  pose proof (flush_pending s1) as Hf; destruct (flush_stage_buf s1) as [s2 ok]; cbn [fst] in Hf.
  destruct (negb ok); [cbn [fst]; rewrite abort_pending; exact Hf|].
  set (s3 := s2 <| fs := _ |> <| s_stage := _ |> <| x_open := _ |>).
  assert (H3 : s_pending s3 = s_pending s1) by exact Hf; clearbody s3.
  assert (H4 : s_pending (verify_stage_sha s3).1 = s_pending s3).
  { unfold verify_stage_sha; destruct (negb _); [done|].
    match goal with |- context [hash_stage ?n ?x ?o ?c] => pose proof (hash_pending n x o c) as H end.
    destruct (hash_stage _ _ _ _) as [x ctx]; exact H. }
  destruct (verify_stage_sha s3) as [s4 ok']; cbn [fst] in H4; destruct (negb ok'); [cbn; congruence|].
  destruct (negb _); [cbn; congruence|]; rewrite commit_pending; congruence.
Qed.

Lemma note_frame_pending s : s_pending (fw_update_note_frame_ok s).1 = false.
Proof.
  unfold fw_update_note_frame_ok; destruct (s_pending s) eqn:E; cbn [negb fst]; [|exact E]; rewrite cleanup_pending; done.
Qed.

(** The requests this node answers, at any time and from any node. *)
Definition rp2040_request s (op : Z) (p : list Z) s' (r : Z) (b : bool) : Prop :=
  exists f t o, is_fw_xfer f = true /\ f_op f = op /\ f_payload f = p /\
    fw_step xip s (Frame_in f t) = (s', o) /\ o_answer o = Some r /\ o_reboot o = b.

(** A request is handled after the frame has confirmed a pending update. *)
Lemma rp2040_request_inv s a op p s' r b :
  in_session s a -> rp2040_request s op p s' r b ->
  exists s0 t out, in_session s0 a /\ s_pending s0 = false /\ on_fw_xfer xip s0 op p t = (s', out, r, b).
Proof.
  intros H (f & t & o & Hx & <- & <- & Hf & Hr & Hb); cbn [fw_step] in Hf; unfold fw_frame in Hf.
  assert (H1 : in_session (fw_update_note_frame_ok s).1 a).
  { unfold fw_update_note_frame_ok; destruct (negb _); [exact H|]; apply in_session_cleanup, in_session_pending, H. }
  pose proof (note_frame_pending s) as Hp.
  destruct (fw_update_note_frame_ok s) as [s0 out0]; rewrite Hx in Hf; cbn [fst] in H1, Hp.
  destruct (on_fw_xfer _ _ _ _ _) as [[[s1 out] r'] b'] eqn:E; simplify_eq/=; exists s0, t, out; done.
Qed.

Lemma rp2040_begin s a len sha s' r b :
  is_u32 len -> length sha = 32%nat -> in_session s a ->
  rp2040_request s WUPS_OP_NET_FW_XFER_BEGIN (xfer_begin_bytes (XferBegin 1 WUPS_FW_TARGET_RP2040 len sha)) s' r b ->
  b = false /\ (in_session s' a /\ r <> WUPS_FW_XFER_OK \/ in_session s' None /\ r <> WUPS_FW_XFER_OK \/
                in_session s' (Some (Session len sha [])) /\ r = WUPS_FW_XFER_OK).
Proof.
  intros Hl Hsha Hs Hr; destruct (rp2040_request_inv _ _ _ _ _ _ _ Hs Hr) as (s0 & t & out & H0 & Hp0 & E).
  unfold on_fw_xfer in E; rewrite Z.eqb_refl in E; set (p := xfer_begin_bytes _) in *.
  pose proof (begin_session xip s0 a p t H0) as HB.
  destruct (fw_update_handle_begin _ _ _ _) as [[s1 o1] r1]; simplify_eq/=; split; [done|].
  unfold spec_step in HB; rewrite Z.eqb_refl in HB; subst p; rewrite read_xfer_begin_bytes in HB by (cbn; lia || done).
  destruct (Z.eqb_spec r WUPS_FW_XFER_OK); [auto|]; destruct (r =? WUPS_FW_XFER_FLASH_ERR); auto.
Qed.

Lemma rp2040_data s a off c s' r b :
  is_u32 off -> 0 < Z.of_nat (length c) <= WUPS_FW_XFER_CHUNK -> in_session s a ->
  rp2040_request s WUPS_OP_NET_FW_XFER_DATA (xfer_data_bytes off c) s' r b ->
  b = false /\
  ((in_session s' a \/ in_session s' None) /\ r <> WUPS_FW_XFER_OK \/
   exists x, a = Some x /\ off = Z.of_nat (length (a_img x)) /\ in_session s' (Some (append x c)) /\ r = WUPS_FW_XFER_OK).
Proof.
  intros Ho Hc Hs Hr; destruct (rp2040_request_inv _ _ _ _ _ _ _ Hs Hr) as (s0 & t & out & H0 & Hp0 & E).
  unfold on_fw_xfer in E; change (WUPS_OP_NET_FW_XFER_DATA =? WUPS_OP_NET_FW_XFER_BEGIN) with false in E.
  rewrite Z.eqb_refl in E; cbv iota in E; change WUPS_FW_XFER_CHUNK with 236 in Hc.
  pose proof (data_session s0 a (xfer_data_bytes off c) t H0 ltac:(unfold xfer_data_bytes; rewrite length_app, length_le_bytes; lia)) as HD.
  pose proof (data_ok_offset s0 a (xfer_data_bytes off c) t H0) as HO; rewrite read_xfer_data_bytes in HO by done.
  destruct (fw_update_handle_data _ _ _) as [s1 r1]; simplify_eq/=; split; [done|].
  change (spec_step a WUPS_OP_NET_FW_XFER_DATA (xfer_data_bytes off c) r) with
    (match a with
     | Some x => if r =? WUPS_FW_XFER_OK then Some (append x c) else if r =? WUPS_FW_XFER_FLASH_ERR then None else Some x
     | None => None end) in HD.
  destruct (Z.eqb_spec r WUPS_FW_XFER_OK) as [->|Hne].
  - destruct (HO eq_refl) as (x & -> & ->); right; exists x; auto.
  - left; split; [|done]; destruct a; [destruct (_ =? _); auto|auto].
Qed.

Definition rp2040_installed s (img : list Z) : Prop := s_pending s = false /\ content (fs s) kStageFile = Some img.

Lemma rp2040_end `{Reads : !FsReads Laws} s a s' r b :
  in_session s a -> rp2040_request s WUPS_OP_NET_FW_XFER_END (xfer_end_bytes 1) s' r b ->
  in_session s' None /\ (r = WUPS_FW_XFER_OK -> b = true) /\
  (b = true -> exists x, a = Some x /\ Z.of_nat (length (a_img x)) = a_len x /\ sha256_ref (a_img x) = a_sha x /\
                         rp2040_installed s' (a_img x)).
Proof.
  intros Hs Hr; destruct (rp2040_request_inv _ _ _ _ _ _ _ Hs Hr) as (s0 & t & out & H0 & Hp0 & E).
  unfold on_fw_xfer in E; change (WUPS_OP_NET_FW_XFER_END =? WUPS_OP_NET_FW_XFER_BEGIN) with false in E.
  change (WUPS_OP_NET_FW_XFER_END =? WUPS_OP_NET_FW_XFER_DATA) with false in E; cbv iota in E.
  pose proof (end_session xip s0 a (xfer_end_bytes 1) t H0) as HE; pose proof (end_ok_reboots s0 t) as HO.
  pose proof (end_pending s0 (xfer_end_bytes 1) t) as HP; rewrite E in HE, HO, HP; destruct HE as [H1 H2]; split; [exact H1|split; [exact HO|]].
  intros Hb; destruct (H2 Hb) as (x & f1 & e & -> & ? & _ & _ & Hr1 & Hd & _ & ? & _); exists x.
  rewrite (Hr1 (read_ok _ _)) in Hd; unfold rp2040_installed; cbn [fst] in HP; split_and!; auto; congruence.
Qed.

(** Time that passes between two requests: passes of the main loop, which here never find
    an update to roll back, since the first request has confirmed it. *)
Definition rp2040_idle s s' : Prop := exists t o, s_pending s = false /\ fw_step xip s (Tick t) = (s', o).

Lemma rp2040_idle_session s s' a : in_session s a -> rp2040_idle s s' -> in_session s' a \/ in_session s' None.
Proof.
  intros H (t & o & _ & E); cbn [fw_step] in E; pose proof (tick_session s a t H) as HT.
  destruct (fw_update_tick s t) as [[s1 out] b]; injection E as <- _; destruct (x_open s1); auto.
Qed.

Lemma rp2040_idle_installed s s' img :
  in_session s None -> rp2040_installed s img -> rp2040_idle s s' -> rp2040_installed s' img.
Proof.
  intros [_ Ho] [Hp Hc] (t & o & _ & E); cbn [fw_step] in E; unfold fw_update_tick in E; rewrite Ho in E; cbn [andb] in E; rewrite Hp in E; cbn [andb] in E.
  injection E as <- _; split; done.
Qed.

Definition rp2040_receiver `{Reads : !FsReads Laws} : XferReceiver := {|
  R_state := fwu;
  R_target := WUPS_FW_TARGET_RP2040;
  R_hash := sha256_ref;
  R_request := rp2040_request;
  R_session := in_session;
  R_installed := rp2040_installed;
  R_idle := rp2040_idle;
  R_idle_session := rp2040_idle_session;
  R_idle_installed := rp2040_idle_installed;
  R_target_u8 := ltac:(unfold WUPS_FW_TARGET_RP2040; lia);
  R_begin := rp2040_begin;
  R_data := rp2040_data;
  R_end := rp2040_end
|}.
End Histories.

(** ** A clean transfer is installed *)


Section Clean.
Context `{Rel : FsReliable} (xip : list Z).
#[local] Set Default Proof Using "Type*".
Implicit Types (s : fwu) (a : option asession).

Lemma flush_reliable s img :
  length (x_buf s) = 4096%nat -> 0 <= x_buf_used s <= BUF_SIZE -> holds s img -> (flush_stage_buf s).2 = true.
Proof.
  intros Hb Hu (staged & Hc & _); unfold flush_stage_buf; destruct (_ =? 0); [done|].
  pose proof (write_ok (fs s) kStageFile (take (Z.to_nat (x_buf_used s)) (x_buf s)) (mk_is_Some _ _ Hc)) as Hw.
  destruct (fs_write _ _ _) as [f n]; cbn [snd x_buf_used upd] in *; rewrite Hw, length_take.
  unfold BUF_SIZE in *; rewrite (proj2 (Z.eqb_eq _ _)) by lia; done.
Qed.

Lemma accumulate_reliable fuel s p img :
  (length p <= fuel)%nat -> buffer_ok s -> holds s img -> (accumulate fuel s p).2 = true.
Proof.
  intros Hf Hb Hh; pose proof (accumulate_spec fuel s p img Hf Hb Hh) as H.
  destruct (accumulate _ _ _) as [s' []]; [done|]; destruct H as (_ & _ & s1 & img1 & H1 & H2 & H3 & H4).
  rewrite (flush_reliable s1 img1) in H4; done.
Qed.

(** There is room for the image, the snapshot and some slack. *)
Definition room s (len : Z) : Prop :=
  let '(total, used) := fs_info (fs (session_abort s)) in
  used < total /\ len + snap_len xip + FW_FS_SLACK <= total - used.

Lemma begin_accepted s a len sha t :
  in_session s a -> s_fs_ok s = true -> FW_IMAGE_MIN_LEN <= len <= FW_IMAGE_MAX_LEN -> length sha = 32%nat ->
  room s len ->
  let '(s', _, r) := fw_update_handle_begin xip s (xfer_begin_bytes (XferBegin 1 WUPS_FW_TARGET_RP2040 len sha)) t in
  r = WUPS_FW_XFER_OK /\ in_session s' (Some (Session len sha [])) /\ s_pending s' = s_pending s.
Proof.
  intros H Hfs Hlen Hsha Hroom; set (b := XferBegin _ _ _ _).
  pose proof (begin_session xip s a (xfer_begin_bytes b) t H) as HS.
  assert (Hpend : s_pending (session_abort s) = s_pending s)
    by (unfold session_abort, remove_if_exists; repeat case_match; done).
  assert (E : (fw_update_handle_begin xip s (xfer_begin_bytes b) t).2 = WUPS_FW_XFER_OK /\
              s_pending (fw_update_handle_begin xip s (xfer_begin_bytes b) t).1.1 = s_pending s).
  { unfold fw_update_handle_begin; rewrite length_xfer_begin by done; rewrite Z.ltb_irrefl.
    rewrite read_xfer_begin_bytes by (unfold FW_IMAGE_MIN_LEN, FW_IMAGE_MAX_LEN in *; cbn; lia || done).
    subst b; cbn [xb_version xb_target xb_image_len negb Z.eqb Pos.eqb WUPS_FW_TARGET_RP2040].
    rewrite !(proj2 (Z.ltb_ge _ _)) by lia; rewrite Hfs; cbn [negb orb].
    unfold room in Hroom; set (s1 := session_abort s) in *; clearbody s1.
    destruct (fs_info (fs s1)) as [total used]; destruct Hroom as [R1 R2].
    rewrite (proj2 (Z.ltb_lt used total)) by lia; rewrite (proj2 (Z.ltb_ge (total - used) _)) by lia.
    pose proof (create_ok (fs s1) kStageFile) as Hc; destruct (fs_create _ _) as [f ok]; cbn in Hc; subst ok; done. }
  destruct (fw_update_handle_begin _ _ _ _) as [[s' out] r]; cbn [fst snd] in *; destruct E as [-> E]; split; [done|].
  split; [|exact E]; clear E.
  unfold spec_step in HS; rewrite !Z.eqb_refl, read_xfer_begin_bytes in HS; [exact HS|..];
    unfold FW_IMAGE_MIN_LEN, FW_IMAGE_MAX_LEN in *; cbn; lia || done.
Qed.

Lemma data_accepted s len sha img chunk t :
  in_session s (Some (Session len sha img)) -> 0 < Z.of_nat (length chunk) <= WUPS_FW_XFER_CHUNK ->
  Z.of_nat (length (img ++ chunk)) <= len ->
  let '(s', r) := fw_update_handle_data s (xfer_data_bytes (Z.of_nat (length img)) chunk) t in
  r = WUPS_FW_XFER_OK /\ in_session s' (Some (Session len sha (img ++ chunk))) /\ s_pending s' = s_pending s.
Proof.
  intros H Hch Hlen; rewrite length_app in Hlen; set (p := xfer_data_bytes _ _).
  assert (Hp : length p = (4 + length chunk)%nat) by done.
  change WUPS_FW_XFER_CHUNK with 236 in *.
  pose proof (data_session s _ p t H ltac:(lia)) as HS.
  assert (E : (fw_update_handle_data s p t).2 = WUPS_FW_XFER_OK /\
              s_pending (fw_update_handle_data s p t).1 = s_pending s).
  { destruct H as (Hb & Ho & Hfs & Hst & Hil & Hsha & Hrec & Hrange & Hle & Hbuf & Hh).
    unfold FW_IMAGE_MIN_LEN, FW_IMAGE_MAX_LEN, a_len, a_img in *.
    unfold fw_update_handle_data; rewrite Ho; cbn [negb]; set (s1 := s <| x_last_req_ms := t |>).
    assert (Hpend : s_pending s1 = s_pending s) by done.
    assert (Hbuf1 : buffer_ok s1) by exact Hbuf; assert (Hh1 : holds s1 img) by exact Hh.
    assert (Hrec1 : x_received s1 = Z.of_nat (length img)) by exact Hrec.
    assert (Hil1 : x_image_len s1 = len) by exact Hil; clearbody s1.
    unfold sizeof_xfer_data_hdr; rewrite Hp, (proj2 (Z.ltb_ge _ _)) by lia.
    rewrite (u16_small (_ - 4)) by lia; rewrite (proj2 (Z.ltb_ge WUPS_FW_XFER_CHUNK _)) by (change WUPS_FW_XFER_CHUNK with 236; lia).
    subst p; rewrite read_xfer_data_bytes, Hrec1, Z.eqb_refl by lia; cbn [negb].
    rewrite Hil1, (proj2 (Z.ltb_ge _ _)) by lia; rewrite drop_xfer_data_bytes, take_ge by lia.
    pose proof (accumulate_reliable _ s1 chunk img (le_n _) Hbuf1 Hh1) as HA.
    pose proof (accumulate_spec _ s1 chunk img (le_n _) Hbuf1 Hh1) as HB.
    destruct (accumulate _ _ _) as [s2 ok]; cbn in HA; subst ok; destruct HB as (_ & _ & HB); unfold rest_same in HB.
    split; [done|rewrite HB; exact Hpend]. }
  destruct (fw_update_handle_data _ _ _) as [s' r]; cbn [fst snd] in *; destruct E as [-> E]; done.
Qed.

Lemma arm_reliable s n : n <> OTA_COMMAND_FILE -> is_Some (content (fs s) n) -> (arm_file s n).2 = true.
Proof.
  intros Hn Hc; unfold arm_file; rewrite <- (ota_begin_other (fs s) n Hn) in Hc.
  pose proof (add_ok _ _ Hc) as Ha; destruct (ota_add _ _) as [f ok]; cbn in Ha; subst ok; cbn [negb].
  pose proof (commit_ok f) as Hk; destruct (ota_commit f) as [f' ok]; exact Hk.
Qed.

Lemma commit_reliable s c :
  content (fs s) kStageFile = Some c ->
  (commit_stage xip s).1.2 = WUPS_FW_XFER_OK /\ (commit_stage xip s).2 = true.
Proof.
  intros Hc; unfold commit_stage; pose proof (snapshot_other xip s kStageFile ltac:(done)) as C1.
  destruct (snapshot_running_image _ _) as [s1 have]; cbn [fst] in *; rewrite Hc in C1.
  assert (H2 : forall x, content (fs x) kStageFile = Some c -> (arm_file x kStageFile).2 = true)
    by (intros x Hx; apply arm_reliable; [done|rewrite Hx; eauto]).
  destruct have.
  - pose proof (marker_other s1 kStageFile ltac:(done)) as C2; destruct (write_pending_marker s1) as [s2 ok]; cbn [fst] in C2; destruct ok.
    + specialize (H2 s2 ltac:(congruence)); destruct (arm_file _ _) as [s3 ok]; cbn in H2; subst ok; done.
    + set (s3 := s2 <| fs := _ |>); assert (C3 : content (fs s3) kStageFile = Some c).
      { subst s3; change (fs (s2 <| fs := _ |>)) with (fs_remove (fs s2) kPrevFile); rewrite remove_other by done; congruence. }
      specialize (H2 s3 C3); destruct (arm_file _ _) as [s4 ok]; cbn in H2; subst ok; done.
  - specialize (H2 s1 C1); destruct (arm_file _ _) as [s4 ok]; cbn in H2; subst ok; done.
Qed.

(** The files of an applied update: the marker after [k] boots and the snapshot. *)
Definition awaiting (f : F) (k : Z) (old : list Z) : Prop :=
  content f kPendingFile = Some (marker_bytes FW_PENDING_MAGIC k) /\ content f kPrevFile = Some old.

(** A commit leaves the files of an applied update: marker zero and the running image. *)
Lemma snapshot_loop_content fuel s rest c :
  (length rest <= fuel)%nat -> content (fs s) kPrevFile = Some c ->
  (snapshot_loop fuel s rest).2 = true /\ content (fs (snapshot_loop fuel s rest).1) kPrevFile = Some (c ++ rest).
Proof.
  revert s rest c; induction fuel as [|fuel IH]; intros s rest c Hf Hc.
  { destruct rest; cbn in *; [|lia]; rewrite app_nil_r; done. }
  destruct rest as [|b rest]; [cbn; rewrite app_nil_r; done|]; cbn [snapshot_loop].
  set (r := b :: rest) in *; set (d := take (Z.to_nat BUF_SIZE) r); set (s1 := s <| x_buf := _ |>).
  assert (Hr : (0 < length r)%nat) by (cbn; lia).
  pose proof (write_ok (fs s1) kPrevFile d ltac:(eauto)) as Hw.
  destruct (fs_write (fs s1) kPrevFile d) as [f n] eqn:E; cbn [snd] in Hw; subst n; rewrite Z.eqb_refl; cbn [negb].
  set (s2 := s1 <| fs := f |>); assert (Hc2 : content (fs s2) kPrevFile = Some (c ++ d)) by (eapply write_content; eauto).
  assert (Hd : d ++ drop (Z.to_nat BUF_SIZE) r = r) by apply take_drop.
  destruct (IH s2 (drop (Z.to_nat BUF_SIZE) r) (c ++ d)) as [-> ->]; [rewrite length_drop; unfold BUF_SIZE; lia|exact Hc2|].
  rewrite <- app_assoc, Hd; done.
Qed.

Lemma commit_awaits s c :
  content (fs s) kStageFile = Some c -> FW_IMAGE_MIN_LEN <= snap_len xip <= FW_IMAGE_MAX_LEN ->
  awaiting (fs (commit_stage xip s).1.1.1) 0 xip.
Proof.
  intros Hc Hx; unfold commit_stage.
  assert (HS : (snapshot_running_image xip s).2 = true /\
               content (fs (snapshot_running_image xip s).1) kPrevFile = Some xip /\
               content (fs (snapshot_running_image xip s).1) kStageFile = Some c).
  { rewrite (snapshot_other xip s kStageFile) by done; unfold snapshot_running_image; rewrite !(proj2 (Z.ltb_ge _ _)) by lia; cbn [orb].
    pose proof (create_ok (fs s) kPrevFile) as Hk; destruct (fs_create (fs s) kPrevFile) as [f ok] eqn:E; cbn in Hk; subst ok.
    cbn [negb]; set (s1 := s <| fs := f |>).
    destruct (snapshot_loop_content (length xip) s1 xip [] (le_n _) (create_content _ _ _ E)) as [H1 H2].
    destruct (snapshot_loop _ s1 _) as [s2 ok]; cbn [fst snd] in *; subst ok; cbn; rewrite close_content; done. }
  destruct HS as (H1 & H2 & H3); destruct (snapshot_running_image xip s) as [s1 have]; cbn [fst snd] in *; subst have.
  assert (HM : (write_pending_marker s1).2 = true /\
               content (fs (write_pending_marker s1).1) kPendingFile = Some (marker_bytes FW_PENDING_MAGIC 0) /\
               content (fs (write_pending_marker s1).1) kPrevFile = Some xip /\
               content (fs (write_pending_marker s1).1) kStageFile = Some c).
  { rewrite (marker_other s1 kPrevFile), (marker_other s1 kStageFile) by done; unfold write_pending_marker.
    pose proof (create_ok (fs s1) kPendingFile) as Hk; destruct (fs_create (fs s1) kPendingFile) as [f ok] eqn:E; cbn in Hk; subst ok.
    pose proof (create_content _ _ _ E) as E'; cbn [negb]; set (s2 := s1 <| fs := f |>).
    pose proof (write_ok (fs s2) kPendingFile (marker_bytes FW_PENDING_MAGIC 0) (mk_is_Some _ _ E')) as Hw.
    destruct (fs_write (fs s2) kPendingFile _) as [f' n] eqn:Ew; cbn [snd] in Hw; subst n.
    pose proof (write_content _ _ _ _ _ Ew E') as Hcm.
    change (Z.of_nat (length (marker_bytes FW_PENDING_MAGIC 0)) =? 8) with true; cbv iota.
    split_and!; try done; cbn [fst]; set (s3 := s2 <| fs := _ |>).
    change (fs s3) with (fs_close f' kPendingFile); rewrite close_content; exact Hcm. }
  destruct HM as (M1 & M2 & M3 & M4); destruct (write_pending_marker s1) as [s2 ok]; cbn [fst snd] in *; subst ok.
  pose proof (arm_reliable s2 kStageFile ltac:(done) ltac:(rewrite M4; eauto)) as Ha.
  pose proof (arm_file_content s2 kStageFile kPendingFile ltac:(done)) as A1.
  pose proof (arm_file_content s2 kStageFile kPrevFile ltac:(done)) as A2.
  destruct (arm_file s2 kStageFile) as [s3 ok]; cbn [fst snd] in *; subst ok; split; cbn [fst snd]; congruence.
Qed.

Lemma end_accepted s len sha img t :
  in_session s (Some (Session len sha img)) -> Z.of_nat (length img) = len -> sha256_ref img = sha ->
  bootable len img ->
  let '(s', _, r, reboot) := fw_update_handle_end xip s (xfer_end_bytes 1) t in
  r = WUPS_FW_XFER_OK /\ reboot = true /\
  (FW_IMAGE_MIN_LEN <= snap_len xip <= FW_IMAGE_MAX_LEN -> awaiting (fs s') 0 xip).
Proof.
  intros (Hb & Ho & Hfs & Hst & Hil & Hsha & Hrec & Hrange & Hle & Hbuf & Hh) Hlen Hd Hboot.
  unfold a_len, a_sha, a_img in *; unfold fw_update_handle_end; rewrite Ho; cbn [negb].
  set (s1 := s <| x_last_req_ms := t |>).
  assert (Hb1 : length (x_buf s1) = 4096%nat) by exact Hb; assert (Hh1 : holds s1 img) by exact Hh.
  assert (Hu1 : 0 <= x_buf_used s1 <= BUF_SIZE) by (change (x_buf_used s1) with (x_buf_used s); destruct Hbuf; lia).
  assert (Hrec1 : x_received s1 = Z.of_nat (length img)) by exact Hrec.
  assert (Hil1 : x_image_len s1 = len) by exact Hil; assert (Hsha1 : x_sha s1 = sha) by exact Hsha; clearbody s1.
  change (Z.of_nat (length (xfer_end_bytes 1)) <? sizeof_xfer_end) with false.
  change (byte_at (xfer_end_bytes 1) 0 =? 1) with true; change (byte_at (xfer_end_bytes 1) 1 =? 0) with false.
  cbn [negb]; rewrite Hrec1, Hil1, Hlen, Z.eqb_refl; cbn [negb].
  pose proof (flush_reliable s1 img Hb1 Hu1 Hh1) as Hfl; destruct (flush_stage_buf s1) as [s2 ok] eqn:Hfe; cbn in Hfl; subst ok.
  destruct (flush_ok s1 _ s2 Hb1 Hu1 Hh1 Hfe) as ([Hb2 _] & (staged & Hc & Himg) & Hr & Hu & _).
  rewrite Hu, app_nil_r in Himg; subst staged; unfold rest_same in Hr; cbn [negb].
  set (s3 := s2 <| fs := fs_close (fs s2) kStageFile |> <| s_stage := false |> <| x_open := false |>).
  assert (Hc3 : content (fs s3) kStageFile = Some img) by (subst s3; cbn; rewrite close_content; done).
  assert (Hil3 : x_image_len s3 = len) by (subst s3; rewrite Hr; exact Hil1).
  assert (Hsha3 : x_sha s3 = sha) by (subst s3; rewrite Hr; exact Hsha1).
  assert (Hb3 : length (x_buf s3) = 4096%nat) by exact Hb2; clearbody s3.
  pose proof (verify_spec s3 _ Hc3 Hb3 ltac:(lia)) as HV.
  destruct (verify_stage_sha s3) as [s4 ok]; destruct HV as (O4 & L4 & C4 & e & _ & Hfull & V4).
  rewrite (Hfull (read_ok _ _)), (open_ok _ _ (mk_is_Some _ _ Hc3)), Hsha3, bool_decide_eq_true_2 in V4 by done; subst ok; cbn [negb].
  rewrite <- (C4 kStageFile) in Hc3.
  assert (HS : sanity_check_image s4 = true).
  { apply (sanity_spec s4 _ Hc3 ltac:(lia) ltac:(lia)); [apply open_ok; rewrite Hc3; eauto|apply read_ok|].
    rewrite L4, Hil3; exact Hboot. }
  rewrite HS; cbn [negb]; pose proof (commit_reliable s4 _ Hc3) as HC; pose proof (commit_awaits s4 _ Hc3) as HW.
  destruct (commit_stage _ _) as [[[s5 out] r] reboot]; destruct HC; done.
Qed.

(** *** The requests of a transfer *)

Fixpoint data_requests (off : Z) (chunks : list (list Z)) : list (Z * list Z) :=
  match chunks with
  | [] => []
  | c :: l => (WUPS_OP_NET_FW_XFER_DATA, xfer_data_bytes off c) :: data_requests (off + Z.of_nat (length c)) l
  end.

Definition transfer (sha : list Z) (chunks : list (list Z)) : list (Z * list Z) :=
  (WUPS_OP_NET_FW_XFER_BEGIN,
   xfer_begin_bytes (XferBegin 1 WUPS_FW_TARGET_RP2040 (Z.of_nat (length (concat chunks))) sha)) ::
  data_requests 0 chunks.

(** An event that delivers a request. *)
Definition delivers (e : event) (x : Z * list Z) : Prop :=
  exists f t, e = Frame_in f t /\ is_fw_xfer f = true /\ f_op f = x.1 /\ f_payload f = x.2.

Lemma frame_request s f t :
  s_pending s = false -> is_fw_xfer f = true ->
  fw_frame xip s f t =
  let '(s, out, r, reboot) := on_fw_xfer xip s (f_op f) (f_payload f) t in
  (s, Outcome out (Some r) reboot (fw_update_session_active s)).
Proof.
  intros Hp Hx; unfold fw_frame, fw_update_note_frame_ok; rewrite Hp; cbn [negb]; rewrite Hx; done.
Qed.

Lemma data_run s len sha img chunks evs :
  in_session s (Some (Session len sha img)) -> s_pending s = false ->
  Forall (fun c => 0 < Z.of_nat (length c) <= WUPS_FW_XFER_CHUNK) chunks ->
  Z.of_nat (length (img ++ concat chunks)) <= len ->
  Forall2 delivers evs (data_requests (Z.of_nat (length img)) chunks) ->
  let '(s', outs) := run (fw_step xip) s evs in
  in_session s' (Some (Session len sha (img ++ concat chunks))) /\ s_pending s' = false /\
  Forall (fun o => o_answer o = Some WUPS_FW_XFER_OK /\ o_reboot o = false) outs.
Proof.
  revert s img evs; induction chunks as [|c chunks IH]; intros s img evs H Hp Hch Hlen Hd; cbn [data_requests concat] in *.
  - inversion Hd; subst; cbn; rewrite app_nil_r; auto.
  - inversion Hd as [|e ? evs' ? (f & t & -> & Hx & Eop & Epl) Hd']; subst; cbn [run fw_step].
    inversion Hch as [|? ? Hc Hch']; subst.
    rewrite (frame_request s f t Hp Hx), Eop, Epl; unfold on_fw_xfer; cbn [fst snd].
    change (WUPS_OP_NET_FW_XFER_DATA =? WUPS_OP_NET_FW_XFER_BEGIN) with false; rewrite Z.eqb_refl; cbv iota.
    rewrite app_assoc in Hlen.
    pose proof (data_accepted s len sha img c t H Hc ltac:(rewrite !length_app in *; lia)) as HD.
    destruct (fw_update_handle_data _ _ _) as [s1 r]; destruct HD as (-> & H1 & Hp1); rewrite Hp in Hp1.
    replace (Z.of_nat (length img) + Z.of_nat (length c)) with (Z.of_nat (length (img ++ c))) in Hd' by (rewrite length_app; lia).
    specialize (IH s1 (img ++ c) evs' H1 Hp1 Hch' Hlen Hd').
    destruct (run (fw_step xip) s1 evs') as [s2 os]; rewrite <- app_assoc in IH; destruct IH as (? & ? & ?).
    split_and!; auto; constructor; auto.
Qed.

Lemma clean_transfer s a sha chunks evs f t :
  in_session s a -> s_fs_ok s = true -> s_pending s = false -> length sha = 32%nat ->
  room s (Z.of_nat (length (concat chunks))) ->
  FW_IMAGE_MIN_LEN <= Z.of_nat (length (concat chunks)) <= FW_IMAGE_MAX_LEN ->
  Forall (fun c => 0 < Z.of_nat (length c) <= WUPS_FW_XFER_CHUNK) chunks ->
  sha256_ref (concat chunks) = sha -> bootable (Z.of_nat (length (concat chunks))) (concat chunks) ->
  Forall2 delivers evs (transfer sha chunks) ->
  delivers (Frame_in f t) (WUPS_OP_NET_FW_XFER_END, xfer_end_bytes 1) ->
  let '(s', outs) := run (fw_step xip) s evs in
  in_session s' (Some (Session (Z.of_nat (length (concat chunks))) sha (concat chunks))) /\ s_pending s' = false /\
  Forall (fun o => o_answer o = Some WUPS_FW_XFER_OK /\ o_reboot o = false) outs /\
  o_answer (fw_step xip s' (Frame_in f t)).2 = Some WUPS_FW_XFER_OK /\
  o_reboot (fw_step xip s' (Frame_in f t)).2 = true /\
  (FW_IMAGE_MIN_LEN <= snap_len xip <= FW_IMAGE_MAX_LEN ->
   awaiting (fs (fw_step xip s' (Frame_in f t)).1) 0 xip).
Proof.
  intros H Hfs Hp Hsha Hroom Hlen Hch Hd Hboot Hev (f' & t' & [= <- <-] & Hx & Eop & Epl).
  inversion Hev as [|e ? evs' ? (f0 & t0 & -> & Hx0 & Eop0 & Epl0) Hev']; subst evs; cbn [run fw_step fst snd] in *.
  rewrite (frame_request s f0 t0 Hp Hx0), Eop0, Epl0; unfold on_fw_xfer; cbn [fst snd]; rewrite Z.eqb_refl.
  pose proof (begin_accepted s a _ sha t0 H Hfs Hlen Hsha Hroom) as HB.
  destruct (fw_update_handle_begin _ _ _ _) as [[s1 out1] r1]; destruct HB as (-> & HS1 & Hp1); rewrite Hp in Hp1.
  pose proof (data_run s1 _ sha [] chunks evs' HS1 Hp1 Hch ltac:(cbn; lia) Hev') as HD.
  destruct (run (fw_step xip) s1 evs') as [s2 os]; destruct HD as (HS2 & Hp2 & Hos); split; [exact HS2|split; [exact Hp2|split; [constructor; auto|]]].
  cbn [fw_step]; rewrite (frame_request s2 f t Hp2 Hx), Eop, Epl; unfold on_fw_xfer; cbn [fst snd].
  change (WUPS_OP_NET_FW_XFER_END =? WUPS_OP_NET_FW_XFER_BEGIN) with false.
  change (WUPS_OP_NET_FW_XFER_END =? WUPS_OP_NET_FW_XFER_DATA) with false; cbv iota.
  pose proof (end_accepted s2 _ sha _ t HS2 ltac:(done) Hd Hboot) as HE.
  destruct (fw_update_handle_end _ _ _ _) as [[[s3 out3] r3] b]; destruct HE as (-> & -> & ?); done.
Qed.

(** A clean transfer is installed.  On a file system that does not fail and has room, with
    no update waiting for confirmation, the BEGIN of an image, its DATA requests in order (any
    non-empty chunks the protocol allows) and END(commit) are each answered with OK, provided
    the digest announced is the image's SHA-256 and the image carries a plausible vector table.
    The last answer is followed by the reboot into the boot loader, which finds the image in the
    staging file, the running image in the snapshot and a marker that counts no boot yet. *)
Theorem clean_transfer_installs s a sha chunks evs f t :
  in_session s a -> s_fs_ok s = true -> s_pending s = false -> length sha = 32%nat ->
  room s (Z.of_nat (length (concat chunks))) ->
  FW_IMAGE_MIN_LEN <= Z.of_nat (length (concat chunks)) <= FW_IMAGE_MAX_LEN ->
  Forall (fun c => 0 < Z.of_nat (length c) <= WUPS_FW_XFER_CHUNK) chunks ->
  sha256_ref (concat chunks) = sha -> bootable (Z.of_nat (length (concat chunks))) (concat chunks) ->
  Forall2 delivers evs (transfer sha chunks) ->
  delivers (Frame_in f t) (WUPS_OP_NET_FW_XFER_END, xfer_end_bytes 1) ->
  FW_IMAGE_MIN_LEN <= snap_len xip <= FW_IMAGE_MAX_LEN ->
  let '(s', outs) := run (fw_step xip) s evs in
  let '(s'', o) := fw_step xip s' (Frame_in f t) in
  Forall (fun o => o_answer o = Some WUPS_FW_XFER_OK /\ o_reboot o = false) outs /\
  o_answer o = Some WUPS_FW_XFER_OK /\ o_reboot o = true /\
  content (fs s'') kStageFile = Some (concat chunks) /\ awaiting (fs s'') 0 xip.
Proof.
  intros H Hfs Hp Hsha Hroom Hlen Hch Hd Hboot Hev Hend Hxip.
  pose proof (clean_transfer s a sha chunks evs f t H Hfs Hp Hsha Hroom Hlen Hch Hd Hboot Hev Hend) as HC.
  destruct Hend as (f' & t' & [= <- <-] & Hx & Eop & Epl).
  destruct (run (fw_step xip) s evs) as [s' outs]; destruct HC as (H1 & Hp1 & Hos & E1 & E2 & E3).
  pose proof (frame_session xip s' _ f t H1) as HF; cbn [fw_step] in *.
  destruct (fw_frame xip s' f t) as [s'' o]; cbn [fst snd] in *; split_and!; auto; [|apply E3, Hxip..].
  destruct (HF ltac:(cbn; rewrite Epl; done)) as [_ HF']; destruct (HF' E2) as (x & ? & ? & [= <-] & _ & _ & _ & _ & _ & _ & Hc & _); exact Hc.
Qed.
End Clean.

(** ** Rollback *)

Section Rollback.
Context `{Rel : FsReliable} (xip : list Z).
Implicit Types (f : F).
#[local] Set Default Proof Using "Type*".

Lemma read_marker k : is_u32 k ->
  le_val (field 0 4 (marker_bytes FW_PENDING_MAGIC k)) = FW_PENDING_MAGIC /\
  le_val (field 4 4 (marker_bytes FW_PENDING_MAGIC k)) = k.
Proof. intros H; split; [vm_compute; reflexivity|]; apply (le32_val k H). Qed.

(** The part of a boot that precedes the decision. *)
Lemma boot_reads_marker f k old t :
  awaiting f k old -> 0 <= k < 4294967295 ->
  exists s, awaiting (fs s) (k + 1) old /\ s_fs_ok s = true /\
  fw_update_boot_init (boot_state f) t =
    if FW_PENDING_MAX_BOOTS <? k + 1 then
      let '(s, out, rebooted) :=
        restage_previous_and_reboot s (str "RP2040: fw crash-looping after update - rolling back") in
      if rebooted : bool then (s, out, true) else (cleanup_pending_files s, out, false)
    else (s <| s_pending := true |> <| s_pending_boot_ms := t |>,
          [fw_log 2 (str "RP2040: new fw pending verify (WUPS traffic confirms)")], false).
Proof.
  intros [Hm Ho] Hk; unfold fw_update_boot_init; set (s0 := boot_state f <| x_open := false |>).
  change (fs s0) with f; pose proof (begin_ok f) as Hb; pose proof (begin_content f) as Hbc.
  destruct (fs_begin f) as [f1 ok]; cbn [fst snd] in *; subst ok; cbn [negb].
  set (s1 := remove_if_exists _ _).
  assert (C1 : content (fs s1) kPendingFile = Some (marker_bytes FW_PENDING_MAGIC k))
    by (subst s1; rewrite remove_if_exists_other by done; cbn; rewrite Hbc; done).
  assert (C2 : content (fs s1) kPrevFile = Some old)
    by (subst s1; rewrite remove_if_exists_other by done; cbn; rewrite Hbc; done).
  assert (Hfs : s_fs_ok s1 = true) by (subst s1; unfold remove_if_exists; case_match; done).
  clearbody s1; rewrite exists_content, bool_decide_eq_true_2 by (rewrite C1; eauto).
  rewrite open_ok by (rewrite C1; eauto).
  assert (Hl : length (marker_bytes FW_PENDING_MAGIC k) = 8%nat) by done.
  destruct (read_ok (fs s1) kPendingFile 0 8 _ C1 ltac:(lia)) as [d Hd]; rewrite Hd.
  apply (read_content _ _ 0 8 _ _ C1 ltac:(lia)) in Hd; rewrite drop_0, take_ge in Hd by (rewrite Hl; lia); subst d.
  rewrite Hl; change (Z.of_nat 8 =? 8) with true; destruct (read_marker k ltac:(lia)) as [-> ->]; rewrite Z.eqb_refl; cbn [andb].
  rewrite (u32_small (k + 1)) by lia; set (m := marker_bytes FW_PENDING_MAGIC (k + 1)).
  pose proof (update_ok (fs s1) kPendingFile m _ C1 eq_refl) as Hu.
  pose proof (update_other (fs s1) kPendingFile m kPrevFile ltac:(done)) as Hother.
  destruct (fs_update (fs s1) kPendingFile m) as [f2 n] eqn:Hup; cbn [fst snd] in *; subst n.
  set (s2 := s1 <| fs := fs_close f2 kPendingFile |>); exists s2; split_and!; [split| |].
  - change (content (fs_close f2 kPendingFile) kPendingFile = Some m); rewrite close_content.
    eapply update_content; [exact Hup|exact C1|done].
  - change (content (fs_close f2 kPendingFile) kPrevFile = Some old); rewrite close_content; congruence.
  - exact Hfs.
  - done.
Qed.

Lemma boots_awaiting f k old ts :
  awaiting f k old -> 0 <= k -> k + Z.of_nat (length ts) <= FW_PENDING_MAX_BOOTS ->
  forall s, fs s = f ->
  let '(s', outs) := run (fw_step xip) s (map Boot ts) in
  awaiting (fs s') (k + Z.of_nat (length ts)) old /\ Forall (fun o => o_reboot o = false) outs.
Proof.
  unfold FW_PENDING_MAX_BOOTS; revert f k; induction ts as [|t ts IH]; intros f k Hf Hk Hn s Hs; cbn [map run length fw_step] in *.
  { rewrite Hs, Z.add_0_r; split; [exact Hf|constructor]. }
  destruct (boot_reads_marker f k old t Hf ltac:(lia)) as (s1 & H1 & _ & E); rewrite Hs, E.
  unfold FW_PENDING_MAX_BOOTS; rewrite (proj2 (Z.ltb_ge _ _)) by lia; set (s2 := s1 <| s_pending := true |> <| s_pending_boot_ms := t |>).
  specialize (IH (fs s1) (k + 1) H1 ltac:(lia) ltac:(lia) s2 eq_refl).
  destruct (run _ s2 _) as [s' outs]; destruct IH as [IH1 IH2]; split; [|constructor; done].
  replace (k + Z.of_nat (S (length ts))) with (k + 1 + Z.of_nat (length ts)) by lia; exact IH1.
Qed.

(** C33: an image that keeps crashing is rolled back.  On a file system whose operations
    succeed, when the files hold the marker of a freshly applied image and the snapshot of
    the previous one, eight consecutive boots without a frame leave both in place and do
    not reboot; the ninth tells the boot loader to copy the snapshot and nothing else,
    removes the marker and reboots into the boot loader. *)
Theorem crash_loop_rolls_back s old ts t :
  awaiting (fs s) 0 old -> length ts = 8%nat ->
  let '(s', outs) := run (fw_step xip) s (map Boot ts) in
  awaiting (fs s') 8 old /\ Forall (fun o => o_reboot o = false) outs /\
  let '(s'', o) := fw_step xip s' (Boot t) in
  o_reboot o = true /\ armed (fs s'') = [kPrevFile] /\
  content (fs s'') kPrevFile = Some old /\ content (fs s'') kPendingFile = None.
Proof.
  intros H Hn; pose proof (boots_awaiting _ 0 old ts H ltac:(lia) ltac:(rewrite Hn; done) s eq_refl) as HB.
  destruct (run _ _ _) as [s' outs]; destruct HB as [H8 Hos]; rewrite Hn in H8; split; [exact H8|split; [exact Hos|]].
  destruct (boot_reads_marker (fs s') 8 old t H8 ltac:(lia)) as (s1 & [_ Hold] & Hfs & E).
  cbn [fw_step]; rewrite E; change (FW_PENDING_MAX_BOOTS <? 8 + 1) with true; cbv iota.
  unfold restage_previous_and_reboot; rewrite Hfs, exists_content, bool_decide_eq_true_2 by (rewrite Hold; eauto); cbn [negb orb].
  pose proof (arm_reliable s1 kPrevFile ltac:(done) ltac:(rewrite Hold; eauto)) as Ha.
  pose proof (arm_file_content s1 kPrevFile kPrevFile ltac:(done)) as Hc.
  pose proof (arm_file_armed s1 kPrevFile) as Harm.
  destruct (arm_file s1 kPrevFile) as [s2 ok]; cbn [fst snd] in *; subst ok; cbn [negb o_reboot].
  set (s3 := s2 <| fs := _ |>); change (fs s3) with (fs_remove (fs s2) kPendingFile); split; [done|].
  rewrite remove_armed, remove_other, remove_ok by done; split; [auto|split; congruence].
Qed.

(** One delivered frame ends the wait: marker and snapshot are gone, so no later boot or
    tick can roll the image back. *)
Lemma remove_if_exists_gone s n : content (fs (remove_if_exists s n)) n = None.
Proof.
  unfold remove_if_exists; rewrite exists_content; case_bool_decide as H; [apply remove_ok|].
  destruct (content (fs s) n); [destruct H; eauto|done].
Qed.

Lemma frame_confirms s fr t :
  s_pending s = true -> s_fs_ok s = true -> x_open s = false -> is_fw_xfer fr = false ->
  let '(s', o) := fw_step xip s (Frame_in fr t) in
  s_pending s' = false /\ content (fs s') kPendingFile = None /\ content (fs s') kPrevFile = None.
Proof.
  intros Hp Hfs Ho Hx; cbn [fw_step]; unfold fw_frame, fw_update_note_frame_ok; rewrite Hp; cbn [negb]; rewrite Hx.
  set (s1 := s <| s_pending := false |>); assert (Hp1 : s_pending s1 = false) by done.
  assert (Hfs1 : s_fs_ok s1 = true) by exact Hfs; assert (Ho1 : x_open s1 = false) by exact Ho; clearbody s1.
  unfold cleanup_pending_files; rewrite Hfs1; cbn [negb].
  assert (Hpend : forall x n, s_pending (remove_if_exists x n) = s_pending x)
    by (intros; unfold remove_if_exists; case_match; done).
  case_match; rewrite ?Hpend; split_and!; try done;
    rewrite ?(remove_if_exists_other _ kStageFile), ?(remove_if_exists_other _ kPrevFile kPendingFile) by done;
    apply remove_if_exists_gone.
Qed.
End Rollback.

(** ** A concrete image *)

Section Examples.
#[local] Existing Instance toy_fs.

Definition demo_image : list Z :=
  replicate (Z.to_nat FW_APP_VECTORS_OFF) 0 ++ le32 536875008 ++ le32 268448001 ++ replicate (Z.to_nat 4088) 0.
Definition demo_chunks : list (list Z) := reshape (replicate 69 236%nat ++ [100%nat]) demo_image.
Abbreviation demo_digest := (sha256_ref (concat demo_chunks)).
Definition demo_running : list Z := replicate (Z.to_nat FW_IMAGE_MIN_LEN) 7.

(** A node that has just started, and a request as the ESP32 sends it. *)
Definition demo_boot : fwu := boot_state fresh_disk.
Abbreviation demo_node := (fw_step demo_running demo_boot (Boot 0)).1.
Definition demo_event (x : Z * list Z) : event :=
  Frame_in (Frame WUPS_ADDR_RP2040 WUPS_ADDR_ESP32 WUPS_CLASS_NET x.1 WUPS_FLAG_REQ 0 x.2) 1000.

Lemma demo_node_closed : in_session demo_node None.
Proof. split; [vm_compute; reflexivity|done]. Qed.

Lemma demo_delivers x :
  x.1 = WUPS_OP_NET_FW_XFER_BEGIN \/ x.1 = WUPS_OP_NET_FW_XFER_DATA \/ x.1 = WUPS_OP_NET_FW_XFER_END ->
  delivers (demo_event x) x.
Proof. intros H; eexists _, _; split_and!; try done; destruct x as [op p]; cbn in *; destruct_or! H; subst; done. Qed.

Lemma data_requests_delivered off chunks : Forall2 delivers (map demo_event (data_requests off chunks)) (data_requests off chunks).
Proof.
  revert off; induction chunks as [|c l IH]; intros off; constructor; [apply demo_delivers; auto|apply IH].
Qed.

Lemma demo_transfer_delivered sha chunks : Forall2 delivers (map demo_event (transfer sha chunks)) (transfer sha chunks).
Proof. constructor; [apply demo_delivers; auto|apply data_requests_delivered]. Qed.

Lemma demo_ok :
  length demo_digest = 32%nat /\ Z.of_nat (length (concat demo_chunks)) = 16384 /\
  Forall (fun c => 0 < Z.of_nat (length c) <= WUPS_FW_XFER_CHUNK) demo_chunks /\
  bootable 16384 (concat demo_chunks).
Proof.
  split; [reflexivity|]; split; [vm_compute; reflexivity|]; split.
  - apply (bool_decide_unpack _); vm_compute; exact I.
  - vm_compute; split_and!; done.
Qed.

Definition demo_history : list event := Boot 0 :: map demo_event (transfer demo_digest demo_chunks).
Definition demo_end : frame :=
  Frame WUPS_ADDR_RP2040 WUPS_ADDR_ESP32 WUPS_CLASS_NET WUPS_OP_NET_FW_XFER_END WUPS_FLAG_REQ 0 (xfer_end_bytes 1).

Lemma demo_end_delivered : delivers (Frame_in demo_end 1000) (WUPS_OP_NET_FW_XFER_END, xfer_end_bytes 1).
Proof. eexists _, _; split_and!; reflexivity. Qed.

Lemma demo_run :
  let '(s', outs) := run (fw_step demo_running) demo_boot demo_history in
  o_reboot (fw_step demo_running s' (Frame_in demo_end 1000)).2 = true.
Proof.
  destruct demo_ok as (H1 & H2 & H3 & H4).
  pose proof (clean_transfer demo_running demo_node None demo_digest demo_chunks _ _ 1000 demo_node_closed eq_refl eq_refl
    H1 ltac:(rewrite H2; vm_compute; split; [reflexivity|discriminate]) ltac:(rewrite H2; vm_compute; split; discriminate) H3 eq_refl
    ltac:(rewrite H2; exact H4) (demo_transfer_delivered _ _) demo_end_delivered) as H.
  unfold demo_history; rewrite run_cons.
  destruct (fw_step demo_running demo_boot (Boot 0)) as [s1 o1]; cbn [fst] in H.
  destruct (run (fw_step demo_running) s1 _) as [s' outs]; apply H.
Qed.

Lemma clean_transfer_installs_witness :
  let '(s', outs) := run (fw_step demo_running) demo_node (map demo_event (transfer demo_digest demo_chunks)) in
  let '(s'', o) := fw_step demo_running s' (Frame_in demo_end 1000) in
  o_reboot o = true /\ content (fs s'') kStageFile = Some (concat demo_chunks) /\ awaiting (fs s'') 0 demo_running.
Proof.
  destruct demo_ok as (H1 & H2 & H3 & H4).
  pose proof (clean_transfer_installs demo_running demo_node None demo_digest demo_chunks _ _ 1000 demo_node_closed eq_refl eq_refl
    H1 ltac:(rewrite H2; vm_compute; split; [reflexivity|discriminate]) ltac:(rewrite H2; vm_compute; split; discriminate) H3 eq_refl
    ltac:(rewrite H2; exact H4) (demo_transfer_delivered _ _) demo_end_delivered ltac:(vm_compute; split; discriminate)) as H.
  destruct (run _ _ _) as [s' outs]; destruct (fw_step _ s' _) as [s'' o]; destruct H as (_ & _ & H); exact H.
Defined.

Lemma demo_events_ok : Forall event_ok (demo_history ++ [Frame_in demo_end 1000]).
Proof.
  destruct demo_ok as (H1 & _ & H3 & _); apply Forall_app; split; [|repeat constructor].
  constructor; [done|constructor; [cbn [demo_event event_ok f_payload snd]; rewrite length_xfer_begin; done|]].
  clear H1; generalize 0 as off; induction H3 as [|c l Hc _ IH]; intros off; [constructor|].
  constructor; [|apply IH]; change WUPS_FW_XFER_CHUNK with 236 in Hc; cbn [demo_event event_ok f_payload snd]; unfold xfer_data_bytes.
  rewrite length_app, length_le_bytes; lia.
Qed.

(** The announced image is armed by the transfer above, which follows a restart. *)
Lemma armed_image_exact_witness :
  let '(s, outs) := run (fw_step demo_running) demo_boot demo_history in
  let '(s', o) := fw_step demo_running s (Frame_in demo_end 1000) in
  o_reboot o = true /\ committed (spec_run (combine demo_history outs)) (fs s').
Proof.
  pose proof (armed_image_exact demo_running fresh_disk demo_history demo_end 1000 demo_events_ok) as H.
  fold demo_boot in H; pose proof demo_run as HR; destruct (run _ _ _) as [s outs].
  destruct (fw_step _ s _) as [s' o]; split; [exact HR|apply H, HR].
Defined.

Lemma crash_loop_rolls_back_witness :
  let f : disk :=
    Disk (<[kPendingFile := marker_bytes FW_PENDING_MAGIC 0]> (<[kPrevFile := demo_running]> ∅)) [] [] in
  let '(s', outs) := run (fw_step demo_running) (boot_state f) (map Boot [1; 2; 3; 4; 5; 6; 7; 8]) in
  let '(s'', o) := fw_step demo_running s' (Boot 9) in
  o_reboot o = true /\ armed (fs s'') = [kPrevFile] /\ content (fs s'') kPrevFile = Some demo_running.
Proof.
  intros f; pose proof (crash_loop_rolls_back demo_running (boot_state f) demo_running [1; 2; 3; 4; 5; 6; 7; 8] 9
    ltac:(split; reflexivity) eq_refl) as H.
  destruct (run _ _ _) as [s' outs]; destruct H as (_ & _ & H); destruct (fw_step _ _ _) as [s'' o]; tauto.
Defined.
End Examples.
