(* ===== verification/FwOtaSlot.v ===== *)
(** * The update slot of the ESP32 (firmware-ESP32-LTE-M/main/fw_ota.c)

    One transfer at a time may write the passive partition; confirmation of the
    running image, rollback and the modem's recovery are kept apart from it by
    flags that several tasks test and set in critical sections.  Every critical
    section is a function here; a handler that runs through several of them is a
    [sprog], which [FwOtaTasks] interleaves with the other tasks. *)

From S2P Require Import Prelude.

(** ** State *)

(* src: firmware-ESP32-LTE-M/main/fw_ota.c:87-100 claim and rollback flags *)
Record slot := Slot {
  s_in_progress : bool;
  s_pending_verify : bool;
  s_marked_valid : bool;
  s_validation_busy : bool;
  s_modem_recovery_busy : bool
}.

#[export] Instance eta_slot : Eta slot := fun s =>
  Slot (s_in_progress s) (s_pending_verify s) (s_marked_valid s) (s_validation_busy s) (s_modem_recovery_busy s).

(* src: firmware-ESP32-LTE-M/main/fw_ota.c:102-106 ota_confirm_reason_t *)
Inductive ota_confirm_reason_t :=
  | OTA_CONFIRM_AUTOMATIC_UPLINK
  | OTA_CONFIRM_AUTHORIZED_NEXT_UPDATE
  | OTA_CONFIRM_PHYSICAL_TRANSFER.

(* src: firmware-ESP32-LTE-M/main/fw_ota.h:67-67 FW_OTA_VERIFY_WINDOW_S *)
Definition FW_OTA_VERIFY_WINDOW_S : Z := 600.

(** ** Critical sections *)

(* src: firmware-ESP32-LTE-M/main/fw_ota.c:139-139 fw_ota_in_progress *)
Definition fw_ota_in_progress (s : slot) : bool := s_in_progress s.

(** [commit] is the callback's answer, [None] the null pointer.  It is called only when
    the slot is free; the last component says whether it was. *)
(* src: firmware-ESP32-LTE-M/main/fw_ota.c:141-150 fw_ota_try_modem_recovery *)
Definition fw_ota_try_modem_recovery (s : slot) (commit : option bool) : slot * bool * bool :=
  match commit with
  | None => (s, false, false)
  | Some answer =>
      let idle := negb (s_in_progress s) && negb (s_validation_busy s) && negb (s_modem_recovery_busy s) in
      let ok := idle && answer in
      (if ok then s <| s_modem_recovery_busy := true |> else s, ok, idle)
  end.

(* src: firmware-ESP32-LTE-M/main/fw_ota.c:152-157 fw_ota_finish_modem_recovery *)
Definition fw_ota_finish_modem_recovery (s : slot) : slot := s <| s_modem_recovery_busy := false |>.

(** The last component is what [mqtt_ota_state_changed] is told, if it is called. *)
(* src: firmware-ESP32-LTE-M/main/fw_ota.c:161-172 claim_in_progress *)
Definition claim_in_progress (s : slot) : slot * bool * option bool :=
  if negb (s_in_progress s) && negb (s_validation_busy s) && negb (s_modem_recovery_busy s)
  then (s <| s_in_progress := true |>, true, Some true)
  else (s, false, None).

(* src: firmware-ESP32-LTE-M/main/fw_ota.c:174-180 release_in_progress *)
Definition release_in_progress (s : slot) : slot * option bool := (s <| s_in_progress := false |>, Some false).

(** The first critical section of [confirm_running_image]: it answers, or claims the
    validation.  [fresh] is [mqtt_publication_proof_fresh]. *)
Inductive verdict := Answer (b : bool) | Validate.

Definition automatic (r : ota_confirm_reason_t) : bool :=
  match r with OTA_CONFIRM_AUTOMATIC_UPLINK => true | _ => false end.

(* src: firmware-ESP32-LTE-M/main/fw_ota.c:1335-1362 confirm_running_image (claim) *)
Definition confirm_enter (s : slot) (r : ota_confirm_reason_t) (time_us : Z) (mqtt_mode fresh : bool) : slot * verdict :=
  if s_validation_busy s then (s, Answer false)
  else if negb (s_pending_verify s) then (s, Answer true)
  else if s_marked_valid s || s_in_progress s ||
          (automatic r && (FW_OTA_VERIFY_WINDOW_S * 1000000 <=? time_us)) then (s, Answer false)
  else if automatic r && mqtt_mode && negb fresh then (s, Answer false)
  else (s <| s_validation_busy := true |>, Validate).

(** The second one, with the result of [esp_ota_mark_app_valid_cancel_rollback]. *)
(* src: firmware-ESP32-LTE-M/main/fw_ota.c:1367-1384 confirm_running_image (result) *)
Definition confirm_leave (s : slot) (marked : bool) : slot * bool :=
  let s := if marked then s <| s_marked_valid := true |> <| s_pending_verify := false |> else s in
  (s <| s_validation_busy := false |>, marked).

(** What one call meets: the clock, the backend, the flash, and what other tasks do to the
    flags while the flash is written. *)
Record confirm_env := ConfirmEnv {
  c_time_us : Z; c_mqtt_mode : bool; c_fresh : bool; c_marked : bool; c_others : slot -> slot
}.

(* src: firmware-ESP32-LTE-M/main/fw_ota.c:1335-1385 confirm_running_image *)
Definition confirm_running_image (s : slot) (r : ota_confirm_reason_t) (e : confirm_env) : slot * bool :=
  match confirm_enter s r (c_time_us e) (c_mqtt_mode e) (c_fresh e) with
  | (s, Answer b) => (s, b)
  | (s, Validate) => confirm_leave (c_others e s) (c_marked e)
  end.

(* src: firmware-ESP32-LTE-M/main/fw_ota.c:1387-1390 fw_ota_mark_uplink_healthy *)
Definition fw_ota_mark_uplink_healthy (s : slot) (e : confirm_env) : slot :=
  (confirm_running_image s OTA_CONFIRM_AUTOMATIC_UPLINK e).1.

(** The critical sections around [esp_ota_mark_app_invalid_rollback_and_reboot], which
    returns only when it fails. *)
(* src: firmware-ESP32-LTE-M/main/fw_ota.c:1392-1405 fw_ota_rollback_tick (claim) *)
Definition rollback_enter (s : slot) (time_us : Z) : slot * bool :=
  if negb (s_pending_verify s) || s_marked_valid s || s_validation_busy s || s_in_progress s ||
     (time_us <? FW_OTA_VERIFY_WINDOW_S * 1000000)
  then (s, false) else (s <| s_validation_busy := true |>, true).

(* src: firmware-ESP32-LTE-M/main/fw_ota.c:1411-1416 fw_ota_rollback_tick (failure) *)
Definition rollback_failed (s : slot) : slot := s <| s_marked_valid := true |> <| s_validation_busy := false |>.

(** ** Handlers as sequences of critical sections

    [xfer_begin] and [fw_ota_request] read the busy flag, confirm the running image, claim
    the slot and release it.  A [sprog] is such a handler with these accesses as its steps;
    between two of them any other task may run. *)

Inductive sprog (A : Type) :=
  | Sret (a : A)
  | Sbusy (k : bool -> sprog A)                                  (* reads s_in_progress *)
  | Sconfirm (r : ota_confirm_reason_t) (k : bool -> sprog A)    (* confirm_running_image *)
  | Sclaim (k : bool -> option bool -> sprog A)                  (* claim_in_progress *)
  | Srelease (k : option bool -> sprog A).                       (* release_in_progress *)
Arguments Sret {A}. Arguments Sbusy {A}. Arguments Sconfirm {A}. Arguments Sclaim {A}. Arguments Srelease {A}.

(** One run of a handler: [ce] is what its confirmation meets, [after] what other tasks do to
    the flags before its claim. *)
Fixpoint interp {A} (ce : confirm_env) (after : slot -> slot) (p : sprog A) (s : slot) : slot * A :=
  match p with
  | Sret a => (s, a)
  | Sbusy k => interp ce after (k (s_in_progress s)) s
  | Sconfirm r k => let '(s, b) := confirm_running_image s r ce in interp ce after (k b) s
  | Sclaim k => let '(s, b, t) := claim_in_progress (after s) in interp ce after (k b t) s
  | Srelease k => let '(s, t) := release_in_progress s in interp ce after (k t) s
  end.
