(* ===== verification/FwOta.v ===== *)
(** * Firmware updates of the ESP32: requests and the local receiver
    (firmware-ESP32-LTE-M/main/fw_ota.c)

    [fw_ota_request] with the downlink hook that calls it, and the receiver of
    net.fw_xfer requests: the session, its commit and its time-out.  The partition
    and SHA-256 functions of the SDK are the class [OtaSdk]; the flags of the update
    slot are those of [FwOtaSlot]. *)

From S2P Require Import Prelude Protocol AtText FwOtaSlot.

(** ** The SDK *)

(** The error codes the code tells apart. *)
Inductive esp_err_t :=
  | ESP_OK | ESP_ERR_NO_MEM | ESP_ERR_INVALID_ARG | ESP_ERR_INVALID_STATE | ESP_ERR_NOT_FOUND
  | ESP_ERR_OTA_VALIDATE_FAILED | ESP_ERR_OTHER (code : Z).

#[export] Instance esp_err_eq_dec : EqDecision esp_err_t.
Proof. solve_decision. Defined.

(** [Fl] is the flash with the update handle; [esp_partition_read] is [None] on an error. *)
Class OtaSdk := {
  Fl : Type;
  Part : Type;
  part_size : Part -> Z;
  next_part : Fl -> option Part;             (* esp_ota_get_next_update_partition *)
  esp_ota_begin : Fl -> Part -> Fl * esp_err_t;
  esp_ota_write : Fl -> list Z -> Fl * esp_err_t;
  esp_ota_end : Fl -> Fl * esp_err_t;
  esp_ota_abort : Fl -> Fl;
  esp_partition_read : Fl -> Part -> Z -> Z -> option (list Z);
  esp_ota_set_boot_partition : Fl -> Part -> Fl * esp_err_t;
  mbedtls_sha256 : list Z -> list Z
}.

(** ** Constants *)

(* src: firmware-ESP32-LTE-M/main/fw_ota.c:63-64 FW_OTA_URL_MAX *)
Definition FW_OTA_URL_MAX : Z := WUPS_MAX_PAYLOAD - 72.
(* src: firmware-ESP32-LTE-M/main/fw_ota.c:71-71 FW_OTA_READBACK_CHUNK *)
Definition FW_OTA_READBACK_CHUNK : Z := 4096.
(* src: firmware-ESP32-LTE-M/main/fw_ota.h:78-78 FW_OTA_TIMEOUT_S *)
Definition FW_OTA_TIMEOUT_S : Z := 1200.
(* src: firmware-ESP32-LTE-M/main/fw_ota.c:83-83 FW_RELAY_IMAGE_MAX *)
Definition FW_RELAY_IMAGE_MAX : Z := 2097152.

(** ** Hexadecimal digests *)

(* src: firmware-ESP32-LTE-M/main/fw_ota.c:226-232 hex_nibble *)
Definition hex_nibble (c : Z) : Z :=
  if (48 <=? c) && (c <=? 57) then c - 48
  else if (97 <=? c) && (c <=? 102) then c - 97 + 10
  else if (65 <=? c) && (c <=? 70) then c - 65 + 10
  else -1.

(** The bytes decoded before a bad character have been stored: [out] is returned. *)
(* src: firmware-ESP32-LTE-M/main/fw_ota.c:235-244 sha256_hex_decode (loop) *)
Fixpoint hex_decode (n : nat) (hex out : list Z) (i : nat) : list Z * bool :=
  match n with
  | O => (out, true)
  | S n =>
      let hi := hex_nibble (byte_at hex (2 * i)) in
      let lo := hex_nibble (byte_at hex (2 * i + 1)) in
      if (hi <? 0) || (lo <? 0) then (out, false)
      else hex_decode n hex (<[i := u8 (Z.lor (Z.shiftl hi 4) lo)]> out) (S i)
  end.

(* src: firmware-ESP32-LTE-M/main/fw_ota.c:235-244 sha256_hex_decode *)
Definition sha256_hex_decode (hex out : list Z) : list Z * bool := hex_decode 32 hex out 0.

(** ** State *)

Section Ota.
Context `{D : OtaSdk}.

(* src: firmware-ESP32-LTE-M/main/fw_ota.c:85-119 module state *)
Record ota := Ota {
  fl : Fl;
  sl : slot;
  s_url : list Z;
  s_sha_expected : list Z;
  s_image_len : Z;
  s_update_part : option Part;
  s_xfer_open : bool;
  s_xfer_part : option Part;
  s_xfer_image_len : Z;
  s_xfer_received : Z;
  s_xfer_sha : list Z;
  s_xfer_last_us : Z
}.

#[export] Instance eta_ota : Eta ota := fun o =>
  Ota (fl o) (sl o) (s_url o) (s_sha_expected o) (s_image_len o) (s_update_part o) (s_xfer_open o) (s_xfer_part o)
    (s_xfer_image_len o) (s_xfer_received o) (s_xfer_sha o) (s_xfer_last_us o).

(** What the module does to the others.  Status events are JSON texts on the event topic:
    only their kind is kept. *)
Inductive status := St_started | St_verifying | St_rebooting | St_error.
Inductive oact :=
  | Mqtt_ota (active : bool)                     (* mqtt_ota_state_changed *)
  | Banner (on : bool)                           (* ota_ui_banner *)
  | Status (st : status)                         (* emit_status *)
  | Respond (dst op seq result : Z)              (* wups_link_send_seq, class NET, flag RESP *)
  | Start_task (target : Z)                      (* xTaskCreate *)
  | Publish_response (bytes : list Z)            (* mqtt_publish_critical on cmd/response *)
  | Ack_response (seq result : Z)                (* arkiv_ack_emit *)
  | Reboot.

Definition told_acts (t : option bool) : list oact := match t with Some b => [Mqtt_ota b] | None => [] end.

(** What a handler meets outside this module; [oe_after] is what other tasks do to the flags
    between the confirmation and the claim. *)
Record oenv := OEnv {
  oe_time_us : Z;
  oe_confirm : confirm_env;
  oe_after : slot -> slot;
  oe_heap : bool;                  (* malloc of the read-back buffer *)
  oe_task : bool;                  (* xTaskCreate == pdPASS *)
  oe_ppp_up : bool;                (* modem_ppp_is_up *)
  oe_ack_pending : Z -> bool;      (* arkiv_ack_has_pending *)
  oe_topic : bool                  (* the cmd/response topic is known *)
}.

Definition release (o : ota) : ota * list oact :=
  let '(s, t) := release_in_progress (sl o) in (o <| sl := s |>, told_acts t).

(** ** Read-back verification *)

(** [fuel] is the number of turns for [len] bytes; [None] when a read failed. *)
(* src: firmware-ESP32-LTE-M/main/fw_ota.c:265-274 verify_written_image (loop) *)
Fixpoint read_back (fuel : nat) (f : Fl) (p : Part) (off len : Z) : option (list Z) :=
  match fuel with
  | O => Some []
  | S fuel =>
      if off <? len then
        let n := if FW_OTA_READBACK_CHUNK <? len - off then FW_OTA_READBACK_CHUNK else len - off in
        match esp_partition_read f p off n with
        | None => None
        | Some d =>
            match read_back fuel f p (u32 (off + FW_OTA_READBACK_CHUNK)) len with
            | None => None
            | Some d' => Some (d ++ d')
            end
        end
      else Some []
  end.

(* src: firmware-ESP32-LTE-M/main/fw_ota.c:252-287 verify_written_image *)
Definition verify_written_image (f : Fl) (heap : bool) (p : Part) (len : Z) (expected : list Z) : bool :=
  if negb heap then false else
  match read_back (Z.to_nat (len / FW_OTA_READBACK_CHUNK + 1)) f p 0 len with
  | None => false
  | Some d => bool_decide (mbedtls_sha256 d = expected)
  end.

(** ** The local receiver *)

(* src: firmware-ESP32-LTE-M/main/fw_ota.c:1050-1059 xfer_abort_locked *)
Definition xfer_abort_locked (o : ota) : ota * list oact :=
  if negb (s_xfer_open o) then (o, []) else
  let o := o <| fl := esp_ota_abort (fl o) |> <| s_xfer_open := false |> in
  let '(o, acts) := release o in (o, Banner false :: acts).

(** BEGIN from the claim on; [acts] is what was done before. *)
(* src: firmware-ESP32-LTE-M/main/fw_ota.c:1099-1123 xfer_begin (claim) *)
Definition xfer_open_session (o : ota) (acts : list oact) (req : wups_net_fw_xfer_begin_v1_t) (part : Part)
    : sprog (ota * list oact * Z) :=
  Sclaim (fun ok t =>
    let acts := acts ++ told_acts t in
    if negb ok then Sret (o, acts, WUPS_FW_XFER_BUSY) else
    let '(f, err) := esp_ota_begin (fl o) part in
    let o := o <| fl := f |> in
    if negb (bool_decide (err = ESP_OK)) then
      Srelease (fun t => Sret (o, acts ++ told_acts t, WUPS_FW_XFER_FLASH_ERR))
    else
      Sret (o <| s_xfer_part := Some part |> <| s_xfer_image_len := xb_image_len req |> <| s_xfer_received := 0 |>
              <| s_xfer_sha := xb_sha256 req |> <| s_xfer_open := true |>,
            acts ++ [Banner true; Status St_started], WUPS_FW_XFER_OK)).

(** BEGIN once no session is open. *)
(* src: firmware-ESP32-LTE-M/main/fw_ota.c:1073-1097 xfer_begin (checks) *)
Definition xfer_begin_checks (o : ota) (acts : list oact) (req : wups_net_fw_xfer_begin_v1_t)
    : sprog (ota * list oact * Z) :=
  Sbusy (fun busy =>
    if busy then Sret (o, acts, WUPS_FW_XFER_BUSY) else
    match next_part (fl o) with
    | None => Sret (o, acts, WUPS_FW_XFER_FLASH_ERR)
    | Some part =>
        if (xb_image_len req =? 0) || (part_size part <? xb_image_len req)
        then Sret (o, acts, WUPS_FW_XFER_BAD_REQ) else
        Sconfirm OTA_CONFIRM_PHYSICAL_TRANSFER (fun ok =>
          if negb ok then Sret (o, acts, WUPS_FW_XFER_BUSY) else xfer_open_session o acts req part)
    end).

(* src: firmware-ESP32-LTE-M/main/fw_ota.c:1061-1124 xfer_begin *)
Definition xfer_begin_prog (o : ota) (payload : list Z) : sprog (ota * list oact * Z) :=
  if Z.of_nat (length payload) <? sizeof_xfer_begin then Sret (o, [], WUPS_FW_XFER_BAD_REQ) else
  let req := read_xfer_begin payload in
  if negb (xb_version req =? 1) then Sret (o, [], WUPS_FW_XFER_BAD_REQ)
  else if negb (xb_target req =? WUPS_FW_TARGET_ESP32) then Sret (o, [], WUPS_FW_XFER_BAD_REQ)
  else if s_xfer_open o then                                     (* xfer_abort_locked *)
    let o := o <| fl := esp_ota_abort (fl o) |> <| s_xfer_open := false |> in
    Srelease (fun t => xfer_begin_checks o (Banner false :: told_acts t) req)
  else xfer_begin_checks o [] req.

(** A handler that runs, on the flags of the module. *)
Definition run_prog {R} (e : oenv) (o : ota) (p : sprog (ota * list oact * R)) : ota * list oact * R :=
  let '(s, (o, acts, r)) := interp (oe_confirm e) (oe_after e) p (sl o) in (o <| sl := s |>, acts, r).

(* src: firmware-ESP32-LTE-M/main/fw_ota.c:1061-1124 xfer_begin *)
Definition xfer_begin (e : oenv) (o : ota) (payload : list Z) : ota * list oact * Z :=
  run_prog e o (xfer_begin_prog o payload).

(* src: firmware-ESP32-LTE-M/main/fw_ota.c:1126-1156 xfer_data *)
Definition xfer_data (o : ota) (payload : list Z) : ota * list oact * Z :=
  if negb (s_xfer_open o) then (o, [], WUPS_FW_XFER_BAD_REQ) else
  let len := Z.of_nat (length payload) in
  if len <? sizeof_xfer_data_hdr then (o, [], WUPS_FW_XFER_BAD_REQ) else
  let offset := read_xfer_offset payload in
  let chunk_len := u16 (len - sizeof_xfer_data_hdr) in
  let chunk := take (Z.to_nat chunk_len) (drop 4 payload) in
  if negb (offset =? s_xfer_received o) then
    let '(o, acts) := xfer_abort_locked o in (o, acts, WUPS_FW_XFER_SEQ_MISMATCH)
  else if s_xfer_image_len o <? offset + chunk_len then
    let '(o, acts) := xfer_abort_locked o in (o, acts, WUPS_FW_XFER_BAD_REQ)
  else if chunk_len =? 0 then (o, [], WUPS_FW_XFER_OK) else
  let '(f, err) := esp_ota_write (fl o) chunk in
  let o := o <| fl := f |> in
  if negb (bool_decide (err = ESP_OK)) then
    let '(o, acts) := xfer_abort_locked o in (o, acts, WUPS_FW_XFER_FLASH_ERR)
  else (o <| s_xfer_received := u32 (s_xfer_received o + chunk_len) |>, [], WUPS_FW_XFER_OK).

Definition release_banner (o : ota) : ota * list oact :=
  let '(o, acts) := release o in (o, Banner false :: acts).

(** The commit, once the image is complete; the last component is [*reboot]. *)
(* src: firmware-ESP32-LTE-M/main/fw_ota.c:1177-1209 xfer_end (commit) *)
Definition xfer_commit (e : oenv) (o : ota) (part : Part) : ota * list oact * Z * bool :=
  let o := o <| s_xfer_open := false |> in
  let '(f, err) := esp_ota_end (fl o) in
  let o := o <| fl := f |> in
  if negb (bool_decide (err = ESP_OK)) then
    let '(o, acts) := release_banner o in
    (o, acts, if bool_decide (err = ESP_ERR_OTA_VALIDATE_FAILED) then WUPS_FW_XFER_VERIFY_FAIL
              else WUPS_FW_XFER_FLASH_ERR, false)
  else if negb (verify_written_image (fl o) (oe_heap e) part (s_xfer_image_len o) (s_xfer_sha o)) then
    let '(o, acts) := release_banner o in (o, Status St_verifying :: acts, WUPS_FW_XFER_VERIFY_FAIL, false)
  else
    let '(f, err) := esp_ota_set_boot_partition (fl o) part in
    let o := o <| fl := f |> in
    if negb (bool_decide (err = ESP_OK)) then
      let '(o, acts) := release_banner o in (o, Status St_verifying :: acts, WUPS_FW_XFER_FLASH_ERR, false)
    else (o, [Status St_verifying], WUPS_FW_XFER_OK, true).

(** [s_xfer_part] is set whenever a session is open. *)
(* src: firmware-ESP32-LTE-M/main/fw_ota.c:1158-1210 xfer_end *)
Definition xfer_end (e : oenv) (o : ota) (payload : list Z) : ota * list oact * Z * bool :=
  if negb (s_xfer_open o) then (o, [], WUPS_FW_XFER_BAD_REQ, false)
  else if Z.of_nat (length payload) <? sizeof_xfer_end then (o, [], WUPS_FW_XFER_BAD_REQ, false)
  else if negb (byte_at payload 0 =? 1) then (o, [], WUPS_FW_XFER_BAD_REQ, false)
  else if byte_at payload 1 =? 0 then
    let '(o, acts) := xfer_abort_locked o in (o, acts, WUPS_FW_XFER_OK, false)
  else if negb (s_xfer_received o =? s_xfer_image_len o) then
    let '(o, acts) := xfer_abort_locked o in (o, acts, WUPS_FW_XFER_BAD_REQ, false)
  else match s_xfer_part o with
       | Some part => xfer_commit e o part
       | None => (o, [], WUPS_FW_XFER_BAD_REQ, false)
       end.

(* src: firmware-ESP32-LTE-M/main/fw_ota.c:1225-1230 fw_ota_xfer_on_req (switch) *)
Definition xfer_dispatch (e : oenv) (o : ota) (op : Z) (payload : list Z) : ota * list oact * Z * bool :=
  if op =? WUPS_OP_NET_FW_XFER_BEGIN then (xfer_begin e o payload, false)
  else if op =? WUPS_OP_NET_FW_XFER_DATA then (xfer_data o payload, false)
  else if op =? WUPS_OP_NET_FW_XFER_END then xfer_end e o payload
  else (o, [], WUPS_FW_XFER_BAD_REQ, false).

(** [lock] is whether the mutex exists yet. *)
(* src: firmware-ESP32-LTE-M/main/fw_ota.c:1212-1249 fw_ota_xfer_on_req *)
Definition fw_ota_xfer_on_req (e : oenv) (lock : bool) (o : ota) (op src seq : Z) (payload : list Z) : ota * list oact :=
  if negb lock then (o, [Respond src op seq WUPS_FW_XFER_BAD_REQ]) else
  let '(o, acts, result, reboot) := xfer_dispatch e o op payload in
  (o <| s_xfer_last_us := oe_time_us e |>,
   acts ++ [Respond src op seq result] ++ if reboot : bool then [Status St_rebooting; Reboot] else []).

(** [locked] is whether another task holds the mutex. *)
(* src: firmware-ESP32-LTE-M/main/fw_ota.c:1260-1282 fw_ota_xfer_tick *)
Definition fw_ota_xfer_tick (o : ota) (lock locked : bool) (time_us : Z) : ota * list oact :=
  if negb (s_xfer_open o) || negb lock then (o, [])
  else if locked then (o, [])
  else if WUPS_FW_XFER_IDLE_TIMEOUT_S * 1000000 <? time_us - s_xfer_last_us o then
    let '(o, acts) := xfer_abort_locked o in (o, acts ++ [Status St_error])
  else (o, []).

(** ** Requests *)

(** The claim and the start of the task; [task_ok] is [xTaskCreate == pdPASS]. *)
(* src: firmware-ESP32-LTE-M/main/fw_ota.c:908-926 fw_ota_request (claim) *)
Definition request_claim (o : ota) (task_ok : bool) (url : list Z) (image_len target : Z) (part : option Part)
    : sprog (ota * list oact * esp_err_t) :=
  let o := o <| s_url := url |> <| s_image_len := image_len |> <| s_update_part := part |> in
  Sclaim (fun ok t =>
    if negb ok then Sret (o, told_acts t, ESP_ERR_INVALID_STATE)
    else if task_ok then Sret (o, told_acts t ++ [Start_task target], ESP_OK)
    else Srelease (fun t' => Sret (o, told_acts t ++ told_acts t', ESP_ERR_NO_MEM))).

(** The part that depends on the target: the partition and the confirmation, or a cap. *)
(* src: firmware-ESP32-LTE-M/main/fw_ota.c:874-926 fw_ota_request (target) *)
Definition request_target (o : ota) (task_ok : bool) (url : list Z) (image_len target : Z)
    : sprog (ota * list oact * esp_err_t) :=
  if target =? WUPS_FW_TARGET_ESP32 then
    match next_part (fl o) with
    | None => Sret (o, [], ESP_ERR_NOT_FOUND)
    | Some part =>
        if (image_len =? 0) || (part_size part <? image_len) then Sret (o, [], ESP_ERR_INVALID_ARG) else
        Sconfirm OTA_CONFIRM_AUTHORIZED_NEXT_UPDATE (fun ok =>
          if negb ok then Sret (o, [], ESP_ERR_INVALID_STATE)
          else request_claim o task_ok url image_len target (Some part))
    end
  else if (image_len =? 0) || (FW_RELAY_IMAGE_MAX <? image_len) then Sret (o, [], ESP_ERR_INVALID_ARG)
  else request_claim o task_ok url image_len target None.

(** [url] and [sha256_hex] are C strings, [None] the null pointer. *)
(* src: firmware-ESP32-LTE-M/main/fw_ota.c:850-927 fw_ota_request *)
Definition fw_ota_request_prog (task_ok : bool) (o : ota) (url sha256_hex : option (list Z)) (image_len target : Z)
    : sprog (ota * list oact * esp_err_t) :=
  Sbusy (fun busy =>
    if busy then Sret (o, [], ESP_ERR_INVALID_STATE)
    else if negb (target =? WUPS_FW_TARGET_ESP32) && negb (target =? WUPS_FW_TARGET_RP2040)
    then Sret (o, [], ESP_ERR_INVALID_ARG)
    else match url with
    | None => Sret (o, [], ESP_ERR_INVALID_ARG)
    | Some url =>
        if negb (starts_with url (str "https://")) || (FW_OTA_URL_MAX <? Z.of_nat (length url))
        then Sret (o, [], ESP_ERR_INVALID_ARG) else
        match sha256_hex with
        | None => Sret (o, [], ESP_ERR_INVALID_ARG)
        | Some hex =>
            if negb (Z.of_nat (length hex) =? 64) then Sret (o, [], ESP_ERR_INVALID_ARG) else
            let '(sha, ok) := sha256_hex_decode hex (s_sha_expected o) in
            let o := o <| s_sha_expected := sha |> in
            if negb ok then Sret (o, [], ESP_ERR_INVALID_ARG) else request_target o task_ok url image_len target
        end
    end).

(* src: firmware-ESP32-LTE-M/main/fw_ota.c:850-927 fw_ota_request *)
Definition fw_ota_request (e : oenv) (o : ota) (url sha256_hex : option (list Z)) (image_len target : Z)
    : ota * list oact * esp_err_t :=
  run_prog e o (fw_ota_request_prog (oe_task e) o url sha256_hex image_len target).

(** ** The downlink hook *)

(* src: firmware-ESP32-LTE-M/main/fw_ota.c:933-956 encode_resp_frame *)
Definition encode_resp_frame (cap dst seq result : Z) : list Z :=
  if cap <? WUPS_FRAMING_BYTES + 1 then [] else
  let body := [dst; WUPS_ADDR_ESP32; WUPS_CLASS_NET; WUPS_OP_NET_FW_UPDATE; WUPS_FLAG_RESP; seq; 1; 0; result] in
  let '(a, b) := wups_fletcher8 body in
  [WUPS_SYNC1; WUPS_SYNC2] ++ body ++ [a; b; WUPS_END1; WUPS_END2].

(* src: common/protocol.h:482-491 wups_net_fw_update_v1_hdr_t *)
Record wups_net_fw_update_v1_hdr_t := FwUpdateHdr {
  fu_version : Z; fu_url_len : Z; fu_target : Z; fu_image_len : Z; fu_sha256_hex : list Z
}.
Definition sizeof_fw_update_hdr : Z := 72.
Definition read_fw_update_hdr (l : list Z) : wups_net_fw_update_v1_hdr_t :=
  FwUpdateHdr (byte_at l 0) (byte_at l 1) (byte_at l 2) (le_val (field 4 4 l)) (field 8 64 l).

(** The request inside a frame whose addresses were checked: the new state and the result byte. *)
(* src: firmware-ESP32-LTE-M/main/fw_ota.c:979-1022 fw_ota_try_handle_downlink (request) *)
Definition downlink_request (e : oenv) (o : ota) (frame : list Z) : ota * list oact * Z :=
  let plen := Z.lor (byte_at frame 8) (u16 (Z.shiftl (byte_at frame 9) 8)) in
  if (Z.of_nat (length frame) <? WUPS_FRAMING_BYTES + plen) || (plen <? sizeof_fw_update_hdr)
  then (o, [], WUPS_FW_UPDATE_RESULT_BAD_REQ) else
  let hdr := read_fw_update_hdr (drop 10 frame) in
  if negb (fu_version hdr =? 1) || (plen <? fu_url_len hdr + sizeof_fw_update_hdr) || (fu_url_len hdr =? 0)
  then (o, [], WUPS_FW_UPDATE_RESULT_BAD_REQ) else
  let ul := if FW_OTA_URL_MAX <? fu_url_len hdr then FW_OTA_URL_MAX else fu_url_len hdr in
  let url := cstr (take (Z.to_nat ul) (drop 82 frame)) in
  let sha_hex := cstr (fu_sha256_hex hdr) in
  let target := if fu_target hdr =? 0 then WUPS_FW_TARGET_ESP32 else fu_target hdr in
  if negb (oe_ppp_up e) then (o, [], WUPS_FW_UPDATE_RESULT_NO_NET) else
  let '(o, acts, err) := fw_ota_request e o (Some url) (Some sha_hex) (fu_image_len hdr) target in
  (o, acts, match err with
            | ESP_OK => WUPS_FW_UPDATE_RESULT_OK
            | ESP_ERR_INVALID_STATE => WUPS_FW_UPDATE_RESULT_BUSY
            | _ => WUPS_FW_UPDATE_RESULT_BAD_REQ
            end).

(* src: firmware-ESP32-LTE-M/main/fw_ota.c:1024-1042 fw_ota_try_handle_downlink (reply) *)
Definition downlink_reply (e : oenv) (src seq result : Z) : list oact :=
  if oe_ack_pending e seq then [Ack_response seq result]
  else let resp := encode_resp_frame (WUPS_FRAMING_BYTES + 1) src seq result in
       if negb (bool_decide (resp = [])) && oe_topic e then [Publish_response resp] else [].

(** The Boolean is whether the frame was consumed. *)
(* src: firmware-ESP32-LTE-M/main/fw_ota.c:958-1044 fw_ota_try_handle_downlink *)
Definition fw_ota_try_handle_downlink (e : oenv) (o : ota) (frame : list Z) : ota * list oact * bool :=
  if Z.of_nat (length frame) <? WUPS_FRAMING_BYTES then (o, [], false)
  else if negb (byte_at frame 0 =? WUPS_SYNC1) || negb (byte_at frame 1 =? WUPS_SYNC2) then (o, [], false)
  else if negb (byte_at frame 4 =? WUPS_CLASS_NET) || negb (byte_at frame 5 =? WUPS_OP_NET_FW_UPDATE)
  then (o, [], false)
  else if negb (has (byte_at frame 6) WUPS_FLAG_REQ) then (o, [], true) else
  let '(o, acts, result) := downlink_request e o frame in
  (o, acts ++ downlink_reply e (byte_at frame 3) (byte_at frame 7) result, true).
End Ota.
