(* ===== verification/FwOtaTasks.v ===== *)
(** * The tasks around the update slot (firmware-ESP32-LTE-M/main/fw_ota.c)

    The command executor runs [fw_ota_request], the link task [xfer_begin]; the download
    and the relay task, the heartbeat (confirmation, rollback) and the modem's recovery
    run beside them.  The handlers are the [sprog]s of [FwOta], taken apart at every
    access to the flags of [FwOtaSlot], and [slot_step] interleaves everything. *)

From S2P Require Import Prelude Protocol AtText FwOtaSlot FwOta.

(** ** The system *)

Inductive owner := Download | Session | Relay.
(** Who runs a handler: [fw_ota_request], or [xfer_begin] under its mutex. *)
Inductive client := Executor | Receiver.
(** [Confirming None] is the automatic confirmation. *)
Inductive validator := Confirming (c : option client) | Rolling_back.

#[export] Instance client_eq_dec : EqDecision client.
Proof. solve_decision. Defined.
#[export] Instance owner_eq_dec : EqDecision owner.
Proof. solve_decision. Defined.

(** The accesses of a handler, without its result. *)
Fixpoint forget {A} (p : sprog A) : sprog unit :=
  match p with
  | Sret _ => Sret tt
  | Sbusy k => Sbusy (fun b => forget (k b))
  | Sconfirm r k => Sconfirm r (fun b => forget (k b))
  | Sclaim k => Sclaim (fun b t => forget (k b t))
  | Srelease k => Srelease (fun t => forget (k t))
  end.

(** Besides the flags, the system records who owns the slot, who validates or rolls back,
    a recovery of the modem, whether the passive partition was written since boot, what
    MQTT was told last, and what is left of each handler that is running, with the owner
    for which it claims. *)
Record sys := Sys {
  flags : slot;
  owned : option owner;
  validating : option validator;
  recovering : bool;
  dirty : bool;
  told : bool;
  pcs : client -> option (owner * sprog unit)
}.

#[export] Instance eta_sys : Eta sys := fun x =>
  Sys (flags x) (owned x) (validating x) (recovering x) (dirty x) (told x) (pcs x).

Definition tell (t : option bool) (x : sys) : sys := match t with Some b => x <| told := b |> | None => x end.
Definition set_pc (c : client) (v : option (owner * sprog unit)) (x : sys) : sys :=
  x <| pcs := fun d => if decide (d = c) then v else pcs x d |>.

Section System.
Context `{D : OtaSdk}.

(** The handlers, at any call.  The receiver's [s_xfer_open] is its ownership of the slot. *)
Inductive handler (x : sys) : client -> owner -> sprog unit -> Prop :=
  | H_download task_ok o url hex n :
      handler x Executor Download (forget (fw_ota_request_prog task_ok o url hex n WUPS_FW_TARGET_ESP32))
  | H_relay task_ok o url hex n target :
      target <> WUPS_FW_TARGET_ESP32 ->
      handler x Executor Relay (forget (fw_ota_request_prog task_ok o url hex n target))
  | H_begin o payload :
      s_xfer_open o = bool_decide (owned x = Some Session) ->
      handler x Receiver Session (forget (xfer_begin_prog o payload)).

(** Nobody is in a handler that claimed the slot for [o] and has not returned. *)
Definition settled (o : owner) (x : sys) : Prop := forall c p, pcs x c = Some (o, p) -> p = Sret tt.

(** A relay writes the RP2040's flash, not ours. *)
Inductive slot_step : sys -> sys -> Prop :=
  | Step_call x c o p : pcs x c = None -> handler x c o p -> slot_step x (set_pc c (Some (o, p)) x)
  | Step_return x c o : pcs x c = Some (o, Sret tt) -> slot_step x (set_pc c None x)
  | Step_busy x c o k :
      pcs x c = Some (o, Sbusy k) -> slot_step x (set_pc c (Some (o, k (s_in_progress (flags x)))) x)
  | Step_confirm x c o r k time mqtt fresh s v :
      pcs x c = Some (o, Sconfirm r k) -> validating x <> Some (Confirming (Some c)) ->
      confirm_enter (flags x) r time mqtt fresh = (s, v) ->
      slot_step x (match v with
                   | Answer b => set_pc c (Some (o, k b)) (x <| flags := s |>)
                   | Validate => x <| flags := s |> <| validating := Some (Confirming (Some c)) |>
                   end)
  | Step_confirmed x c o r k marked s b :
      pcs x c = Some (o, Sconfirm r k) -> validating x = Some (Confirming (Some c)) ->
      confirm_leave (flags x) marked = (s, b) ->
      slot_step x (set_pc c (Some (o, k b)) (x <| flags := s |> <| validating := None |>))
  | Step_claim x c o k s ok t :
      pcs x c = Some (o, Sclaim k) -> claim_in_progress (flags x) = (s, ok, t) ->
      slot_step x (set_pc c (Some (o, k ok t))
                     (tell t (x <| flags := s |> <| owned := if ok then Some o else owned x |>)))
  | Step_unclaim x c o k s t :
      pcs x c = Some (o, Srelease k) -> release_in_progress (flags x) = (s, t) ->
      slot_step x (set_pc c (Some (o, k t)) (tell t (x <| flags := s |> <| owned := None |>)))
  | Step_auto x time mqtt fresh s v :
      confirm_enter (flags x) OTA_CONFIRM_AUTOMATIC_UPLINK time mqtt fresh = (s, v) ->
      slot_step x (match v with
                   | Answer _ => x <| flags := s |>
                   | Validate => x <| flags := s |> <| validating := Some (Confirming None) |>
                   end)
  | Step_auto_confirmed x marked s b :
      validating x = Some (Confirming None) -> confirm_leave (flags x) marked = (s, b) ->
      slot_step x (x <| flags := s |> <| validating := None |>)
  | Step_write x o : owned x = Some o -> o <> Relay -> slot_step x (x <| dirty := true |>)
  | Step_release x o s t :
      owned x = Some o -> settled o x -> release_in_progress (flags x) = (s, t) ->
      slot_step x (tell t (x <| flags := s |> <| owned := None |>))
  | Step_rollback x time s :
      rollback_enter (flags x) time = (s, true) ->
      slot_step x (x <| flags := s |> <| validating := Some Rolling_back |>)
  | Step_rollback_failed x :
      validating x = Some Rolling_back ->
      slot_step x (x <| flags := rollback_failed (flags x) |> <| validating := None |>)
  | Step_recover x commit s called :
      fw_ota_try_modem_recovery (flags x) commit = (s, true, called) ->
      slot_step x (x <| flags := s |> <| recovering := true |>)
  | Step_recovered x :
      recovering x = true ->
      slot_step x (x <| flags := fw_ota_finish_modem_recovery (flags x) |> <| recovering := false |>).

(** After [fw_ota_boot_log]. *)
(* src: firmware-ESP32-LTE-M/main/fw_ota.c:1312-1315 fw_ota_boot_log *)
Definition boot_sys (pending : bool) : sys :=
  Sys (Slot false pending false false false) None None false false false (fun _ => None).

Definition reachable (pending : bool) (x : sys) : Prop := rtc slot_step (boot_sys pending) x.

(** ** What a handler may do

    [cf] is whether it may claim, [own] whether it owns the slot: a claim needs the
    permission, which a confirmation that answers true gives; only an owner releases. *)
Fixpoint safe (cf own : bool) (p : sprog unit) : Prop :=
  match p with
  | Sret _ => True
  | Sbusy k => forall b, safe cf own (k b)
  | Sconfirm _ k => safe cf own (k false) /\ safe true own (k true)
  | Sclaim k => cf = true /\ (forall t, safe cf true (k true t)) /\ (forall t, safe cf own (k false t))
  | Srelease k => own = true /\ forall t, safe cf false (k t)
  end.

Lemma checks_safe o acts req : safe false false (forget (xfer_begin_checks o acts req)).
Proof.
  unfold xfer_begin_checks, xfer_open_session; cbn [forget safe]; intros b; destruct b; [exact I|].
  destruct (next_part _) as [part|]; [|exact I]; destruct (_ || _); [exact I|].
  cbn [forget safe negb]; split; [exact I|]; split; [done|]; split; intros t; [|exact I].
  destruct (esp_ota_begin _ _) as [f err]; destruct (negb _); cbn; [split; [done|intros; exact I]|exact I].
Qed.

Lemma begin_safe o payload : safe false (s_xfer_open o) (forget (xfer_begin_prog o payload)).
Proof.
  unfold xfer_begin_prog; destruct (_ <? _); [exact I|]; cbv zeta; destruct (negb _); [exact I|]; destruct (negb _); [exact I|].
  destruct (s_xfer_open o); cbn [forget safe]; [split; [done|intros t]|]; apply checks_safe.
Qed.

Lemma request_safe task_ok o url hex n target :
  safe (negb (target =? WUPS_FW_TARGET_ESP32)) false (forget (fw_ota_request_prog task_ok o url hex n target)).
Proof.
  unfold fw_ota_request_prog; cbn [forget safe]; intros b; destruct b; [exact I|].
  destruct (_ && _); [exact I|]; destruct url as [url|]; [|exact I]; destruct (_ || _); [exact I|].
  destruct hex as [hex|]; [|exact I]; destruct (negb (_ =? 64)); [exact I|].
  destruct (sha256_hex_decode _ _) as [sha ok]; cbv zeta; destruct (negb ok); [exact I|].
  assert (Hc : forall x part, safe true false (forget (request_claim x task_ok url n target part))).
  { intros x part; unfold request_claim; cbn [forget safe negb]; split; [done|]; split; intros t; [|exact I].
    destruct task_ok; cbn; [exact I|split; [done|intros; exact I]]. }
  unfold request_target; destruct (target =? WUPS_FW_TARGET_ESP32); cbn [negb].
  - destruct (next_part _) as [part|]; [|exact I]; destruct (_ || _); [exact I|]; cbn [forget safe negb].
    split; [exact I|apply Hc].
  - destruct (_ || _); [exact I|apply Hc].
Qed.

(** ** Invariant *)

(** What a running handler may rely on. *)
Definition pc_ok (x : sys) (c : client) : Prop :=
  match pcs x c with
  | None => True
  | Some (o, p) =>
      (c = Receiver <-> o = Session) /\
      exists cf own, safe cf own p /\ (cf = true -> o = Relay \/ s_pending_verify (flags x) = false) /\
        (own = true -> p = Sret tt \/ owned x = Some o)
  end.

Record slot_ok (x : sys) : Prop := SlotOk {
  so_owned : s_in_progress (flags x) = bool_decide (is_Some (owned x));
  so_validating : s_validation_busy (flags x) = bool_decide (is_Some (validating x));
  so_recovering : s_modem_recovery_busy (flags x) = recovering x;
  so_exclusive : is_Some (owned x) -> validating x = None /\ recovering x = false;
  so_told : told x = s_in_progress (flags x);
  so_writer : forall o, owned x = Some o -> o <> Relay -> s_pending_verify (flags x) = false;
  so_dirty : dirty x = true -> s_pending_verify (flags x) = false;
  so_rolling : validating x = Some Rolling_back -> s_pending_verify (flags x) = true;
  so_pcs : forall c, pc_ok x c
}.

Lemma slot_ok_boot pending : slot_ok (boot_sys pending).
Proof. constructor; cbn; try done; intros []; done. Qed.

(** A handler takes a step: its own rest is safe, the other handler's promises still hold. *)
Lemma pcs_advance x y c o p :
  (forall d, pc_ok x d) -> (c = Receiver <-> o = Session) ->
  (s_pending_verify (flags x) = false -> s_pending_verify (flags y) = false) ->
  (forall o', o' <> o -> owned x = Some o' -> owned y = Some o') ->
  pcs y = pcs x ->
  (exists cf own, safe cf own p /\ (cf = true -> o = Relay \/ s_pending_verify (flags y) = false) /\
     (own = true -> p = Sret tt \/ owned y = Some o)) ->
  forall d, pc_ok (set_pc c (Some (o, p)) y) d.
Proof.
  intros Hx Hc Hf Ho Hp Hn d; unfold pc_ok; cbn; case_decide as E; [subst d; split; [exact Hc|exact Hn]|].
  rewrite Hp; specialize (Hx d); unfold pc_ok in Hx; destruct (pcs x d) as [[o' p']|]; [|exact I].
  destruct Hx as (H1 & cf & own & H2 & H3 & H4); split; [exact H1|]; exists cf, own; split; [exact H2|split].
  - intros Hcf; destruct (H3 Hcf); auto.
  - intros Hown; destruct (H4 Hown) as [|H]; [auto|right; apply Ho, H].
    intros ->; destruct c, d; try done; naive_solver.
Qed.

(** Everything else leaves the handlers alone. *)
Lemma pcs_keep x y :
  (forall d, pc_ok x d) -> (s_pending_verify (flags x) = false -> s_pending_verify (flags y) = false) ->
  (forall o, owned x = Some o -> owned y = Some o \/ settled o x) -> pcs y = pcs x -> forall d, pc_ok y d.
Proof.
  intros Hx Hf Ho Hp d; specialize (Hx d); unfold pc_ok in *; rewrite Hp; destruct (pcs x d) as [[o' p']|] eqn:E; [|exact I].
  destruct Hx as (H1 & cf & own & H2 & H3 & H4); split; [exact H1|]; exists cf, own; split; [exact H2|split].
  - intros Hcf; destruct (H3 Hcf); auto.
  - intros Hown; destruct (H4 Hown) as [|H]; [auto|]; destruct (Ho _ H) as [|Hset]; [auto|left; eapply Hset, E].
Qed.

Lemma enter_inv s r t m f s' v :
  confirm_enter s r t m f = (s', v) ->
  match v with
  | Answer b => s' = s /\ (b = true -> s_pending_verify s = false)
  | Validate => s' = s <| s_validation_busy := true |> /\ s_validation_busy s = false /\
                s_pending_verify s = true /\ s_in_progress s = false
  end.
Proof.
  unfold confirm_enter; destruct (s_validation_busy s); [intros; simplify_eq; done|].
  destruct (s_pending_verify s) eqn:E2; cbn [negb]; [|intros; simplify_eq; done].
  destruct (_ || _) eqn:E3; [intros; simplify_eq; done|]; destruct (_ && _ && _); intros; simplify_eq; [done|].
  to_prop; done.
Qed.

Lemma leave_inv s marked s' b :
  confirm_leave s marked = (s', b) ->
  s_in_progress s' = s_in_progress s /\ s_modem_recovery_busy s' = s_modem_recovery_busy s /\
  s_validation_busy s' = false /\ (s_pending_verify s = false -> s_pending_verify s' = false) /\
  (b = true -> s_pending_verify s' = false).
Proof. unfold confirm_leave; destruct marked; intros; simplify_eq; done. Qed.

Lemma claim_pending s s' ok t : claim_in_progress s = (s', ok, t) -> s_pending_verify s' = s_pending_verify s.
Proof. unfold claim_in_progress; destruct (_ && _ && _); intros; simplify_eq; done. Qed.

(** The flags and the records without the handlers. *)
Definition core_ok (x : sys) : Prop :=
  s_in_progress (flags x) = bool_decide (is_Some (owned x)) /\
  s_validation_busy (flags x) = bool_decide (is_Some (validating x)) /\
  s_modem_recovery_busy (flags x) = recovering x /\
  (is_Some (owned x) -> validating x = None /\ recovering x = false) /\
  told x = s_in_progress (flags x) /\
  (forall o, owned x = Some o -> o <> Relay -> s_pending_verify (flags x) = false) /\
  (dirty x = true -> s_pending_verify (flags x) = false) /\
  (validating x = Some Rolling_back -> s_pending_verify (flags x) = true).

Lemma slot_ok_intro x : core_ok x -> (forall c, pc_ok x c) -> slot_ok x.
Proof. intros (?&?&?&?&?&?&?&?) ?; constructor; done. Qed.
Lemma slot_ok_core x : slot_ok x -> core_ok x.
Proof. intros []; unfold core_ok; split_and!; done. Qed.

Lemma core_answer x s : core_ok x -> s = flags x -> core_ok (x <| flags := s |>).
Proof. intros H ->; destruct x; exact H. Qed.

Lemma core_validate x v :
  core_ok x -> s_validation_busy (flags x) = false -> s_pending_verify (flags x) = true ->
  s_in_progress (flags x) = false -> v <> Rolling_back ->
  core_ok (x <| flags := flags x <| s_validation_busy := true |> |> <| validating := Some v |>).
Proof.
  intros (I1&I2&I3&I4&I5&I6&I7&I8) H1 H2 H3 H4; unfold core_ok; cbn; split_and!; try done.
  intros Ho; rewrite (bool_decide_eq_true_2 _ Ho) in I1; congruence.
Qed.

Lemma core_leave x marked s b :
  core_ok x -> validating x <> Some Rolling_back -> confirm_leave (flags x) marked = (s, b) ->
  core_ok (x <| flags := s |> <| validating := None |>).
Proof.
  intros (I1&I2&I3&I4&I5&I6&I7&I8) Hv H; destruct (leave_inv _ _ _ _ H) as (L1&L2&L3&L4&L5).
  unfold core_ok; cbn; rewrite L1, L2, L3; split_and!; try done; try (intros; naive_solver).
Qed.

Lemma core_claim x o s ok t :
  core_ok x -> (o = Relay \/ s_pending_verify (flags x) = false) -> claim_in_progress (flags x) = (s, ok, t) ->
  core_ok (tell t (x <| flags := s |> <| owned := if ok then Some o else owned x |>)) /\
  (ok = true -> owned x = None).
Proof.
  intros (I1&I2&I3&I4&I5&I6&I7&I8) Ho; unfold claim_in_progress; destruct (_ && _ && _) eqn:E; intros; simplify_eq.
  - to_prop; split; [|intros _; destruct (owned x); [rewrite I1 in *; done|done]].
    unfold core_ok; cbn; split_and!; try done.
    + destruct (validating x); [rewrite I2 in *; done|]; split; [done|congruence].
    + intros o' [= <-] Hne; destruct Ho; done.
  - split; [|done]; destruct x; unfold core_ok; cbn; split_and!; done.
Qed.

Lemma core_unclaim x s t :
  core_ok x -> release_in_progress (flags x) = (s, t) -> core_ok (tell t (x <| flags := s |> <| owned := None |>)).
Proof.
  intros (I1&I2&I3&I4&I5&I6&I7&I8); unfold release_in_progress; intros; simplify_eq; unfold core_ok; cbn; split_and!; try done.
Qed.


Lemma slot_ok_step x y : slot_ok x -> slot_step x y -> slot_ok y.
Proof.
  intros Hx Hstep; pose proof (slot_ok_core _ Hx) as Hc; pose proof (so_pcs _ Hx) as Hp.
  pose proof Hc as (I1&I2&I3&I4&I5&I6&I7&I8).
  assert (Hpc : forall c o p, pcs x c = Some (o, p) -> (c = Receiver <-> o = Session) /\
      exists cf own, safe cf own p /\ (cf = true -> o = Relay \/ s_pending_verify (flags x) = false) /\
        (own = true -> p = Sret tt \/ owned x = Some o))
    by (intros c o p E; specialize (Hp c); unfold pc_ok in Hp; rewrite E in Hp; exact Hp).
  destruct Hstep as
    [x c o p Hn Hh|x c o Hn|x c o k Hn|x c o r k time mqtt fresh s v Hn Hv He|x c o r k marked s b Hn Hv He
    |x c o k s ok t Hn He|x c o k s t Hn He|x time mqtt fresh s v He|x marked s b Hv He|x o Ho Hr|x o s t Ho Hset He
    |x time s He|x Hv|x commit s called He|x Hr].
  - apply slot_ok_intro; [destruct x; exact Hc|]; destruct Hh as [task_ok o url hex n|task_ok o url hex n target Ht|o payload Hop];
      (apply (pcs_advance x); [exact Hp|done|done|done|done|]).
    + exists false, false; split_and!; try done; apply (request_safe task_ok o url hex n WUPS_FW_TARGET_ESP32).
    + exists true, false; split_and!; try done; auto.
      pose proof (request_safe task_ok o url hex n target) as HR; rewrite (proj2 (Z.eqb_neq _ _)) in HR by done; exact HR.
    + exists false, (s_xfer_open o); split_and!; [apply begin_safe|done|]; intros Hs; right.
      rewrite Hs in Hop; symmetry in Hop; apply bool_decide_eq_true in Hop; exact Hop.
  - apply slot_ok_intro; [destruct x; exact Hc|]; intros d; unfold pc_ok; cbn; case_decide; [exact I|].
    specialize (Hp d); unfold pc_ok in Hp; exact Hp.
  - destruct (Hpc _ _ _ Hn) as (H1 & cf & own & H2 & H3 & H4); apply slot_ok_intro; [destruct x; exact Hc|].
    apply (pcs_advance x); try done; exists cf, own; split_and!; [apply H2|done|]; intros Ho; destruct (H4 Ho); [done|auto].
  - destruct (Hpc _ _ _ Hn) as (H1 & cf & own & [H2a H2b] & H3 & H4); apply enter_inv in He; destruct v as [b|].
    + destruct He as [-> He]; apply slot_ok_intro; [destruct x; exact Hc|]; apply (pcs_advance x); try done.
      destruct b; [exists true, own|exists cf, own]; split_and!; try done; cbn; auto; intros Ho; destruct (H4 Ho); done || auto.
    + destruct He as (-> & E1 & E2 & E3); apply slot_ok_intro; [apply core_validate; done|]; apply (pcs_keep x); try done; auto.
  - destruct (Hpc _ _ _ Hn) as (H1 & cf & own & [H2a H2b] & H3 & H4); pose proof (leave_inv _ _ _ _ He) as (L1&L2&L3&L4&L5).
    apply slot_ok_intro; [refine (core_leave x marked s b Hc _ He); congruence|].
    apply (pcs_advance x); try done.
    destruct b; [exists true, own|exists cf, own]; split_and!; try done; cbn; auto.
    all: try (intros Ho; destruct (H4 Ho); done || auto).
    intros Hcf; destruct (H3 Hcf); auto.
  - destruct (Hpc _ _ _ Hn) as (H1 & cf & own & (H2a & H2b & H2c) & H3 & H4); destruct (core_claim x o s ok t Hc (H3 H2a) He) as [C1 C2].
    apply slot_ok_intro; [destruct t; exact C1|].
    assert (Hpv : s_pending_verify s = s_pending_verify (flags x)) by exact (claim_pending _ _ _ _ He).
    apply (pcs_advance x); try done.
    + destruct t; cbn; congruence.
    + intros o' Hne Ho'; destruct ok; [rewrite C2 in Ho' by done; done|]; destruct t; cbn; done.
    + destruct t; done.
    + destruct ok; [exists cf, true|exists cf, own]; split_and!; auto; destruct t; cbn; rewrite ?Hpv; auto;
        intros Ho; destruct (H4 Ho); done || auto.
  - destruct (Hpc _ _ _ Hn) as (H1 & cf & own & (H2a & H2b) & H3 & H4); apply slot_ok_intro; [pose proof (core_unclaim x s t Hc He) as C; destruct t; exact C|].
    assert (Hpv : s_pending_verify s = s_pending_verify (flags x)) by (unfold release_in_progress in He; injection He as <- <-; done).
    destruct (H4 H2a) as [|Ho]; [done|]; apply (pcs_advance x); try done.
    + destruct t; cbn; congruence.
    + intros o' Hne Ho'; congruence.
    + destruct t; done.
    + exists cf, false; split_and!; auto; destruct t; cbn; rewrite ?Hpv; auto; done.
  - apply enter_inv in He; destruct v as [b|].
    + destruct He as [-> He]; apply slot_ok_intro; [destruct x; exact Hc|]; apply (pcs_keep x); try done; auto.
    + destruct He as (-> & E1 & E2 & E3); apply slot_ok_intro; [apply core_validate; done|]; apply (pcs_keep x); try done; auto.
  - pose proof (leave_inv _ _ _ _ He) as (L1&L2&L3&L4&L5).
    apply slot_ok_intro; [refine (core_leave x marked s b Hc _ He); congruence|]; apply (pcs_keep x); try done; auto.
  - apply slot_ok_intro; [|apply (pcs_keep x); try done; auto]; unfold core_ok; cbn; split_and!; try done; intros _; eauto.
  - apply slot_ok_intro; [apply core_unclaim; done|]; apply (pcs_keep x); try done.
    + unfold release_in_progress in He; simplify_eq; done.
    + intros o' Ho'; right; rewrite Ho' in Ho; simplify_eq; done.
    + destruct t; done.
  - unfold rollback_enter in He; destruct (_ || _) eqn:E; simplify_eq; to_prop.
    apply slot_ok_intro; [|apply (pcs_keep x); try done; auto]; unfold core_ok; cbn; split_and!; try done.
    intros Ho; rewrite (bool_decide_eq_true_2 _ Ho) in I1; congruence.
  - apply slot_ok_intro; [|apply (pcs_keep x); try done; auto]; unfold core_ok; cbn; split_and!; try done; intros Ho; destruct (I4 Ho); done.
  - unfold fw_ota_try_modem_recovery in He; destruct commit as [answer|]; [|done]; simplify_eq/=.
    destruct (_ && answer) eqn:E; [|done]; to_prop.
    apply slot_ok_intro; [|apply (pcs_keep x); try done; auto]; unfold core_ok; cbn; split_and!; try done.
    intros Ho; rewrite (bool_decide_eq_true_2 _ Ho) in I1; congruence.
  - apply slot_ok_intro; [|apply (pcs_keep x); try done; auto]; unfold core_ok; cbn; split_and!; try done; intros Ho; destruct (I4 Ho); done.
Qed.

Lemma reachable_ok pending x : reachable pending x -> slot_ok x.
Proof. apply (rtc_preserves slot_step slot_ok); eauto using slot_ok_step, slot_ok_boot. Qed.

(** ** Properties *)

(** C28: nothing disturbs a transfer, and a transfer disturbs nothing.  Whatever the order in
    which the critical sections of all tasks run, while a download, a session or a relay owns
    the slot there is no confirmation, no rollback and no recovery of the modem under way, and
    MQTT has been told so; while a rollback is under way nobody owns the slot and the partition
    it would boot has not been written since this image started, so it never boots a
    half-written image; and as long as a download or a session owns the slot the running image
    is confirmed: [fw_ota_request] and [xfer_begin] claim it only after their own confirmation
    has answered yes. *)
Theorem update_slot_exclusive pending x :
  reachable pending x ->
  (is_Some (owned x) -> s_in_progress (flags x) = true /\ validating x = None /\ recovering x = false) /\
  told x = bool_decide (is_Some (owned x)) /\
  (validating x = Some Rolling_back -> owned x = None /\ dirty x = false /\ s_pending_verify (flags x) = true) /\
  (forall o, owned x = Some o -> o <> Relay -> s_pending_verify (flags x) = false).
Proof.
  intros H; destruct (reachable_ok _ _ H) as [I1 I2 I3 I4 I5 I6 I7 I8 I9]; split_and!.
  - intros Ho; rewrite I1, bool_decide_eq_true_2 by done; destruct (I4 Ho); done.
  - congruence.
  - intros Hr; destruct (owned x) eqn:Eo; [destruct I4; [eauto|congruence]|]; split_and!; [done| |auto].
    destruct (dirty x); [|done]; rewrite I8 in I7 by done; discriminate I7; auto.
  - exact I6.
Qed.

(** After a rollback that failed, the flags stay as they are. *)
Definition stuck (x : sys) : Prop :=
  slot_ok x /\ s_pending_verify (flags x) = true /\ s_marked_valid (flags x) = true /\ validating x = None.

Lemma stuck_enter x r t m f : stuck x -> confirm_enter (flags x) r t m f = (flags x, Answer false).
Proof.
  intros (_ & H1 & H2 & _); unfold confirm_enter; rewrite H1, H2; destruct (s_validation_busy _); done.
Qed.

Lemma stuck_step x y : stuck x -> slot_step x y -> stuck y.
Proof.
  intros Hs Hstep; split; [apply (slot_ok_step x y); [apply Hs|exact Hstep]|].
  pose proof Hs as (S0 & S1 & S2 & S3); destruct Hstep as
    [x c o p Hn Hh|x c o Hn|x c o k Hn|x c o r k time mqtt fresh s v Hn Hv He|x c o r k marked s b Hn Hv He
    |x c o k s ok t Hn He|x c o k s t Hn He|x time mqtt fresh s v He|x marked s b Hv He|x o Ho Hr|x o s t Ho Hset He
    |x time s He|x Hv|x commit s called He|x Hr]; try done; try congruence.
  - rewrite stuck_enter in He by done; injection He as <- <-; done.
  - unfold claim_in_progress in He; destruct (_ && _ && _); injection He as <- <- <-; done.
  - unfold release_in_progress in He; injection He as <- <-; done.
  - rewrite stuck_enter in He by done; injection He as <- <-; done.
  - unfold release_in_progress in He; injection He as <- <-; done.
  - unfold rollback_enter in He; rewrite S1, S2 in He; done.
  - unfold fw_ota_try_modem_recovery in He; destruct commit as [b|]; [|done]; destruct (_ && b); injection He; intros; subst; done.
Qed.

(** After a rollback that fails, no update can be installed until the next restart.  The
    flags left by the failure make every later confirmation answer false, whatever its reason,
    so that neither a download nor a session can own the slot again; only a relay to the RP2040
    can. *)
Theorem failed_rollback_blocks_updates pending x y :
  reachable pending x -> validating x = Some Rolling_back ->
  rtc slot_step (x <| flags := rollback_failed (flags x) |> <| validating := None |>) y ->
  (forall r t mqtt fresh, confirm_enter (flags y) r t mqtt fresh = (flags y, Answer false)) /\
  owned y <> Some Download /\ owned y <> Some Session.
Proof.
  intros Hx Hv Hy; pose proof (reachable_ok _ _ Hx) as Hok.
  assert (Hs : stuck y).
  { refine (rtc_preserves slot_step stuck _ _ stuck_step _ Hy); split; [|split_and!; try done; cbn; apply (so_rolling _ Hok), Hv].
    apply (slot_ok_step x); [exact Hok|apply Step_rollback_failed, Hv]. }
  split; [intros; apply stuck_enter, Hs|]; destruct Hs as (Hy' & S1 & _ & _).
  split; intros Ho; pose proof (so_writer _ Hy' _ Ho ltac:(done)); congruence.
Qed.
End System.

(** ** An example *)

Section Examples.
(** Partitions that accept every image. *)
#[local] Instance demo_sdk : OtaSdk := {|
  Fl := unit; Part := unit; part_size _ := 1024; next_part _ := Some tt;
  esp_ota_begin f _ := (f, ESP_OK); esp_ota_write f _ := (f, ESP_OK); esp_ota_end f := (f, ESP_OK);
  esp_ota_abort f := f; esp_partition_read _ _ _ _ := None;
  esp_ota_set_boot_partition f _ := (f, ESP_OK); mbedtls_sha256 d := d
|}.

Definition rolling_sys : sys :=
  Sys (Slot false true false true false) None (Some Rolling_back) false false false (fun _ => None).

Lemma rolling_reachable : reachable true rolling_sys.
Proof. apply rtc_once, (Step_rollback (boot_sys true) 600000000); reflexivity. Qed.

(** A session is opened over an image that was waiting for its confirmation. *)
Definition demo_begin : list Z := xfer_begin_bytes (XferBegin 1 WUPS_FW_TARGET_ESP32 40 (replicate 32 7)).
Definition demo_ota : ota := Ota tt (Slot false true false false false) [] [] 0 None false None 0 0 [] 0.
Definition session_sys (x : sys) : Prop :=
  flags x = Slot true false true false false /\ owned x = Some Session.

Lemma session_reachable : exists x, reachable true x /\ session_sys x.
Proof.
  eexists; split.
  - eapply rtc_l; [apply (Step_call _ Receiver Session (forget (xfer_begin_prog demo_ota demo_begin))); [reflexivity|apply H_begin; reflexivity]|].
    eapply rtc_l; [eapply (Step_busy _ Receiver); reflexivity|].
    eapply rtc_l; [eapply (Step_confirm _ Receiver _ _ _ 5 true false); [reflexivity|discriminate|reflexivity]|].
    eapply rtc_l; [eapply (Step_confirmed _ Receiver _ _ _ true); reflexivity|].
    eapply rtc_l; [eapply (Step_claim _ Receiver); reflexivity|]; apply rtc_refl.
  - split; reflexivity.
Qed.

Lemma update_slot_exclusive_witness :
  (reachable true rolling_sys /\ owned rolling_sys = None /\ dirty rolling_sys = false) /\
  exists x, reachable true x /\ session_sys x /\ s_in_progress (flags x) = true /\ s_pending_verify (flags x) = false.
Proof.
  split.
  - destruct (update_slot_exclusive true rolling_sys rolling_reachable) as (_ & _ & H3 & _).
    destruct (H3 eq_refl) as (H4 & H5 & _); split; [exact rolling_reachable|split; [exact H4|exact H5]].
  - destruct session_reachable as (x & Hx & Hf & Ho); exists x.
    destruct (update_slot_exclusive true x Hx) as (H1 & _ & _ & H4); rewrite Ho in H1, H4.
    split; [exact Hx|split; [split; [exact Hf|exact Ho]|]].
    split; [apply H1; eexists; reflexivity|apply (H4 Session eq_refl); discriminate].
Defined.

Lemma failed_rollback_blocks_updates_witness :
  let y := rolling_sys <| flags := rollback_failed (flags rolling_sys) |> <| validating := None |> in
  confirm_enter (flags y) OTA_CONFIRM_PHYSICAL_TRANSFER 700000000 true true = (flags y, Answer false).
Proof.
  intros y; destruct (failed_rollback_blocks_updates true rolling_sys y rolling_reachable eq_refl (rtc_refl _ _)) as [H1 _]; apply H1.
Defined.
End Examples.
