(* ===== verification/FwReceive.v ===== *)
(** * The ESP32 as a receiver of its own firmware
    (firmware-ESP32-LTE-M/main/fw_ota.c)

    The contract of [FwXfer] for the local receiver of [FwOta], and the properties
    of requests from the network. *)

From S2P Require Import Prelude Protocol AtText FwOtaSlot FwOta FwXfer.

(** ** What the code relies on

    [written f p] is what has been written to the partition [p] since it was last
    erased for an update, [target f] the partition the update handle writes to, and
    [boot_part f] the one the boot loader will start.  A read of a partition that
    succeeds returns what was written to that partition; partitions are smaller than
    2 GB. *)

Class OtaLaws `(D : OtaSdk) := {
  written : Fl -> Part -> list Z;
  target : Fl -> Part;
  boot_part : Fl -> Part;
  part_small p : part_size p < 2147483648;
  begin_written f p f' : esp_ota_begin f p = (f', ESP_OK) -> target f' = p /\ written f' p = [];
  write_written f d f' :
    esp_ota_write f d = (f', ESP_OK) -> target f' = target f /\ written f' (target f) = written f (target f) ++ d;
  end_written f p : written (esp_ota_end f).1 p = written f p;
  boot_written f p q : written (esp_ota_set_boot_partition f p).1 q = written f q;
  boot_selected f p f' : esp_ota_set_boot_partition f p = (f', ESP_OK) -> boot_part f' = p;
  read_written f p off n d :
    0 <= off -> 0 <= n -> off + n <= Z.of_nat (length (written f p)) ->
    esp_partition_read f p off n = Some d -> d = take (Z.to_nat n) (drop (Z.to_nat off) (written f p))
}.

(** ** The handlers in one run

    What [xfer_begin] and [fw_ota_request] do when nothing else runs but what their
    environment says: the steps of their [sprog] one after the other. *)

Section Runs.
Context `{D : OtaSdk}.
Implicit Types (e : oenv) (o : ota).

Definition open_session o (req : wups_net_fw_xfer_begin_v1_t) (part : Part) : ota * list oact * Z :=
  let '(s, ok, t) := claim_in_progress (sl o) in
  let o := o <| sl := s |> in
  if negb ok then (o, told_acts t, WUPS_FW_XFER_BUSY) else
  let '(f, err) := esp_ota_begin (fl o) part in
  let o := o <| fl := f |> in
  if negb (bool_decide (err = ESP_OK)) then
    let '(o, acts) := release o in (o, told_acts t ++ acts, WUPS_FW_XFER_FLASH_ERR)
  else
    (o <| s_xfer_part := Some part |> <| s_xfer_image_len := xb_image_len req |> <| s_xfer_received := 0 |>
       <| s_xfer_sha := xb_sha256 req |> <| s_xfer_open := true |>,
     told_acts t ++ [Banner true; Status St_started], WUPS_FW_XFER_OK).

Lemma run_open_session e o s acts req part :
  (let '(s', (o', a, r)) := interp (oe_confirm e) (oe_after e) (xfer_open_session o acts req part) s in
   (o' <| sl := s' |>, a, r)) =
  (let '(o', a, r) := open_session (o <| sl := oe_after e s |>) req part in (o', acts ++ a, r)).
Proof.
  unfold xfer_open_session, open_session; cbn [interp sl fl upd].
  destruct (claim_in_progress _) as [[s1 ok] t]; destruct ok; cbn [negb]; [|done].
  cbn [fl upd]; destruct (esp_ota_begin _ _) as [f err]; destruct (negb _); cbn; rewrite ?app_assoc; done.
Qed.

Lemma run_checks e o s acts req :
  (let '(s', (o', a, r)) := interp (oe_confirm e) (oe_after e) (xfer_begin_checks o acts req) s in
   (o' <| sl := s' |>, a, r)) =
  (let o := o <| sl := s |> in
   if s_in_progress (sl o) then (o, acts, WUPS_FW_XFER_BUSY) else
   match next_part (fl o) with
   | None => (o, acts, WUPS_FW_XFER_FLASH_ERR)
   | Some part =>
       if (xb_image_len req =? 0) || (part_size part <? xb_image_len req) then (o, acts, WUPS_FW_XFER_BAD_REQ) else
       let '(s, ok) := confirm_running_image (sl o) OTA_CONFIRM_PHYSICAL_TRANSFER (oe_confirm e) in
       let o := o <| sl := s |> in
       if negb ok then (o, acts, WUPS_FW_XFER_BUSY) else
       let '(o, acts', r) := open_session (o <| sl := oe_after e (sl o) |>) req part in
       (o, acts ++ acts', r)
   end).
Proof.
  unfold xfer_begin_checks; cbn [interp]; cbv zeta; cbn [sl fl upd]; destruct (s_in_progress s); [done|].
  destruct (next_part (fl o)) as [part|]; [|done]; destruct (_ || _); [done|]; cbn [interp].
  destruct (confirm_running_image _ _ _) as [s1 ok]; destruct ok; cbn [negb]; [|done].
  rewrite run_open_session; done.
Qed.

Lemma xfer_begin_eq e o payload :
  xfer_begin e o payload =
  if Z.of_nat (length payload) <? sizeof_xfer_begin then (o, [], WUPS_FW_XFER_BAD_REQ) else
  let req := read_xfer_begin payload in
  if negb (xb_version req =? 1) then (o, [], WUPS_FW_XFER_BAD_REQ)
  else if negb (xb_target req =? WUPS_FW_TARGET_ESP32) then (o, [], WUPS_FW_XFER_BAD_REQ) else
  let '(o, acts) := if s_xfer_open o then xfer_abort_locked o else (o, []) in
  if s_in_progress (sl o) then (o, acts, WUPS_FW_XFER_BUSY) else
  match next_part (fl o) with
  | None => (o, acts, WUPS_FW_XFER_FLASH_ERR)
  | Some part =>
      if (xb_image_len req =? 0) || (part_size part <? xb_image_len req) then (o, acts, WUPS_FW_XFER_BAD_REQ) else
      let '(s, ok) := confirm_running_image (sl o) OTA_CONFIRM_PHYSICAL_TRANSFER (oe_confirm e) in
      let o := o <| sl := s |> in
      if negb ok then (o, acts, WUPS_FW_XFER_BUSY) else
      let '(o, acts', r) := open_session (o <| sl := oe_after e (sl o) |>) req part in
      (o, acts ++ acts', r)
  end.
Proof.
  assert (Ho : o <| sl := sl o |> = o) by (destruct o; done).
  unfold xfer_begin, run_prog, xfer_begin_prog; destruct (_ <? _); [cbn; rewrite Ho; done|].
  cbv zeta; destruct (negb _); [cbn; rewrite Ho; done|]; destruct (negb _); [cbn; rewrite Ho; done|].
  destruct (s_xfer_open o) eqn:Hopen; [|rewrite run_checks, Ho; done].
  unfold xfer_abort_locked, release, release_in_progress; rewrite Hopen; cbn [interp negb]; unfold release_in_progress; rewrite run_checks; done.
Qed.

Definition request_part e o (image_len target : Z) : ota * (option Part + esp_err_t) :=
  if target =? WUPS_FW_TARGET_ESP32 then
    match next_part (fl o) with
    | None => (o, inr ESP_ERR_NOT_FOUND)
    | Some part =>
        if (image_len =? 0) || (part_size part <? image_len) then (o, inr ESP_ERR_INVALID_ARG) else
        let '(s, ok) := confirm_running_image (sl o) OTA_CONFIRM_AUTHORIZED_NEXT_UPDATE (oe_confirm e) in
        (o <| sl := s |>, if ok : bool then inl (Some part) else inr ESP_ERR_INVALID_STATE)
    end
  else if (image_len =? 0) || (FW_RELAY_IMAGE_MAX <? image_len) then (o, inr ESP_ERR_INVALID_ARG)
  else (o, inl None).

Lemma fw_ota_request_eq e o url sha256_hex image_len target :
  fw_ota_request e o url sha256_hex image_len target =
  if s_in_progress (sl o) then (o, [], ESP_ERR_INVALID_STATE)
  else if negb (target =? WUPS_FW_TARGET_ESP32) && negb (target =? WUPS_FW_TARGET_RP2040)
  then (o, [], ESP_ERR_INVALID_ARG)
  else match url with
  | None => (o, [], ESP_ERR_INVALID_ARG)
  | Some url =>
      if negb (starts_with url (str "https://")) || (FW_OTA_URL_MAX <? Z.of_nat (length url))
      then (o, [], ESP_ERR_INVALID_ARG) else
      match sha256_hex with
      | None => (o, [], ESP_ERR_INVALID_ARG)
      | Some hex =>
          if negb (Z.of_nat (length hex) =? 64) then (o, [], ESP_ERR_INVALID_ARG) else
          let '(sha, ok) := sha256_hex_decode hex (s_sha_expected o) in
          let o := o <| s_sha_expected := sha |> in
          if negb ok then (o, [], ESP_ERR_INVALID_ARG) else
          let '(o, part) := request_part e o image_len target in
          match part with
          | inr err => (o, [], err)
          | inl part =>
              let o := o <| s_url := url |> <| s_image_len := image_len |> <| s_update_part := part |>
                         <| sl := oe_after e (sl o) |> in
              let '(s, ok, t) := claim_in_progress (sl o) in
              let o := o <| sl := s |> in
              if negb ok then (o, told_acts t, ESP_ERR_INVALID_STATE)
              else if oe_task e then (o, told_acts t ++ [Start_task target], ESP_OK)
              else let '(o, acts) := release o in (o, told_acts t ++ acts, ESP_ERR_NO_MEM)
          end
      end
  end.
Proof.
  assert (Ho : forall x : ota, x <| sl := sl x |> = x) by (intros []; done).
  unfold fw_ota_request, run_prog, fw_ota_request_prog; cbn [interp].
  destruct (s_in_progress _); [cbn; rewrite Ho; done|]; destruct (_ && _); [cbn; rewrite Ho; done|].
  destruct url as [url|]; [|cbn; rewrite Ho; done]; destruct (_ || _); [cbn; rewrite Ho; done|].
  destruct sha256_hex as [hex|]; [|cbn; rewrite Ho; done]; destruct (negb _); [cbn; rewrite Ho; done|].
  destruct (sha256_hex_decode _ _) as [sha ok]; cbv zeta; set (o1 := o <| s_sha_expected := sha |>).
  change (sl o) with (sl o1); destruct ok; cbn [negb]; [|cbn [interp]; rewrite Ho; done].
  unfold request_target, request_part; destruct (target =? _).
  - destruct (next_part _) as [part|]; [|cbn [interp]; rewrite Ho; done].
    destruct (_ || _); [cbn [interp]; rewrite Ho; done|]; cbn [interp].
    destruct (confirm_running_image _ _ _) as [s ok]; destruct ok; cbn [negb]; [|done].
    unfold request_claim; cbn [interp sl upd]; destruct (claim_in_progress _) as [[s1 ok] t].
    destruct ok; cbn [negb]; [|done]; destruct (oe_task e); done.
  - destruct (_ || _); [cbn [interp]; rewrite Ho; done|].
    unfold request_claim; cbn [interp sl upd]; destruct (claim_in_progress _) as [[s1 ok] t].
    destruct ok; cbn [negb]; [|done]; destruct (oe_task e); done.
Qed.
End Runs.

(** ** The session *)

Section Receiver.
Context `{Laws : OtaLaws}.
Implicit Types (o : ota) (a : option asession).

Definition in_receiver o a : Prop :=
  match a with
  | None => s_xfer_open o = false
  | Some x =>
      s_xfer_open o = true /\ s_xfer_image_len o = a_len x /\ s_xfer_sha o = a_sha x /\
      s_xfer_received o = Z.of_nat (length (a_img x)) /\ Z.of_nat (length (a_img x)) <= a_len x < 2147483648 /\
      written (fl o) (target (fl o)) = a_img x /\ s_xfer_part o = Some (target (fl o))
  end.

Lemma abort_closed o : s_xfer_open (xfer_abort_locked o).1 = false.
Proof. unfold xfer_abort_locked; destruct (s_xfer_open o) eqn:E; cbn [negb]; [done|exact E]. Qed.

Lemma read_back_spec fuel f p off len d :
  0 <= off <= len -> len <= Z.of_nat (length (written f p)) -> len < 2147483648 -> len - off <= 4096 * Z.of_nat fuel ->
  read_back fuel f p off len = Some d -> d = take (Z.to_nat (len - off)) (drop (Z.to_nat off) (written f p)).
Proof.
  revert off d; induction fuel as [|fuel IH]; intros off d Ho Hl Hs Hf; cbn [read_back].
  { intros [= <-]; replace (Z.to_nat (len - off)) with O by lia; done. }
  destruct (Z.ltb_spec off len) as [Hlt|Hge].
  2:{ intros [= <-]; replace (Z.to_nat (len - off)) with O by lia; done. }
  unfold FW_OTA_READBACK_CHUNK; set (n := if 4096 <? len - off then 4096 else len - off).
  assert (Hn : n = Z.min 4096 (len - off)) by (subst n; destruct (Z.ltb_spec 4096 (len - off)); lia); clearbody n.
  destruct (esp_partition_read f p off n) as [d1|] eqn:E1; [|done].
  destruct (read_back fuel f p (u32 (off + 4096)) len) as [d2|] eqn:E2; [|done]; intros [= <-].
  apply read_written in E1; [|lia..]; rewrite u32_small in E2 by lia.
  destruct (decide (len - off <= 4096)) as [Hlast|Hmore].
  - assert (d2 = []) as ->.
    { destruct fuel; cbn [read_back] in E2; [congruence|]; rewrite (proj2 (Z.ltb_ge _ _)) in E2 by lia; congruence. }
    rewrite app_nil_r, E1; f_equal; lia.
  - rewrite (IH (off + 4096) d2 ltac:(lia) Hl Hs ltac:(lia) E2), E1.
    replace (Z.to_nat n) with 4096%nat by lia; replace (Z.to_nat (off + 4096)) with (Z.to_nat off + 4096)%nat by lia.
    rewrite <- drop_drop; set (w := drop (Z.to_nat off) (written f p)).
    replace (Z.to_nat (len - off)) with (4096 + Z.to_nat (len - (off + 4096)))%nat by lia.
    apply take_take_drop.
Qed.

Lemma verify_written f heap p len sha :
  0 <= len <= Z.of_nat (length (written f p)) -> len < 2147483648 ->
  verify_written_image f heap p len sha = true -> mbedtls_sha256 (take (Z.to_nat len) (written f p)) = sha.
Proof.
  intros Hl Hs; unfold verify_written_image; destruct heap; cbn [negb]; [|done].
  destruct (read_back _ _ _ _ _) as [d|] eqn:E; [|done]; intros H%bool_decide_eq_true.
  apply read_back_spec in E; [|lia..|].
  - rewrite E, Z.sub_0_r in H; exact H.
  - unfold FW_OTA_READBACK_CHUNK; pose proof (Z.div_mod len 4096 ltac:(lia)); pose proof (Z.mod_pos_bound len 4096 ltac:(lia)).
    pose proof (Z.div_pos len 4096 ltac:(lia) ltac:(lia)); lia.
Qed.

Definition esp32_request o (op : Z) (p : list Z) o' (r : Z) (b : bool) : Prop :=
  exists e o1 acts, xfer_dispatch e o op p = (o1, acts, r, b) /\ o' = o1 <| s_xfer_last_us := oe_time_us e |>.

Lemma in_receiver_time o a t : in_receiver o a -> in_receiver (o <| s_xfer_last_us := t |>) a.
Proof. destruct a; done. Qed.

Lemma esp32_begin o a len sha o' r b :
  is_u32 len -> length sha = 32%nat -> in_receiver o a ->
  esp32_request o WUPS_OP_NET_FW_XFER_BEGIN (xfer_begin_bytes (XferBegin 1 WUPS_FW_TARGET_ESP32 len sha)) o' r b ->
  b = false /\ (in_receiver o' a /\ r <> WUPS_FW_XFER_OK \/ in_receiver o' None /\ r <> WUPS_FW_XFER_OK \/
                in_receiver o' (Some (Session len sha [])) /\ r = WUPS_FW_XFER_OK).
Proof.
  intros Hl Hsha Hs (e & o1 & acts & E & ->); unfold xfer_dispatch in E; rewrite Z.eqb_refl in E.
  destruct (xfer_begin _ _ _) as [[o2 acts2] r2] eqn:EB; injection E as -> -> -> <-; split; [done|].
  rewrite xfer_begin_eq in EB; cbv zeta in EB; rewrite length_xfer_begin, Z.ltb_irrefl in EB by done.
  rewrite read_xfer_begin_bytes in EB by (unfold WUPS_FW_TARGET_ESP32; cbn; lia || done).
  cbn [xb_version xb_target xb_image_len negb Z.eqb Pos.eqb WUPS_FW_TARGET_ESP32] in EB.
  set (x := if s_xfer_open o then xfer_abort_locked o else (o, [])) in EB.
  assert (Hc : s_xfer_open x.1 = false) by (subst x; destruct (s_xfer_open o) eqn:Ho; [apply abort_closed|exact Ho]).
  clearbody x; destruct x as [o3 acts3]; cbn [fst] in Hc.
  assert (Hclosed : forall y z, (y, z, r) = (o1, acts, r) -> s_xfer_open y = false -> r <> WUPS_FW_XFER_OK ->
    in_receiver (o1 <| s_xfer_last_us := oe_time_us e |>) None /\ r <> WUPS_FW_XFER_OK)
    by (intros y z [= -> ->] Hy Hr; split; done).
  destruct (s_in_progress _); [injection EB as -> -> <-; right; left; done|].
  destruct (next_part (fl o3)) as [part|]; [|injection EB as -> -> <-; right; left; done].
  destruct (_ || _) eqn:El; [injection EB as -> -> <-; right; left; done|]; to_prop.
  destruct (confirm_running_image _ _ _) as [s ok]; destruct ok; cbn [negb] in EB;
    [|injection EB as <- _ <-; right; left; done].
  set (o4 := o3 <| sl := s |> <| sl := _ |>) in EB; assert (Hc4 : s_xfer_open o4 = false) by exact Hc; clearbody o4.
  destruct (open_session o4 _ part) as [[o5 acts5] r5] eqn:EO; injection EB as -> _ ->.
  unfold open_session in EO; destruct (claim_in_progress (sl o4)) as [[s4 ok] t].
  destruct ok; cbn [negb] in EO; [|injection EO as <- _ <-; right; left; done].
  destruct (esp_ota_begin _ part) as [f err] eqn:Ef; case_bool_decide as He; cbn [negb] in EO.
  - injection EO as <- _ <-; right; right; split; [|done]; subst err; pose proof (part_small part).
    apply begin_written in Ef as [Et Ew]; unfold in_receiver; cbn; rewrite Et; split_and!; done || lia.
  - destruct (release _) as [o6 a6] eqn:Er; injection EO as <- _ <-; right; left; split; [|done].
    unfold release, release_in_progress in Er; simplify_eq/=; done.
Qed.

Lemma esp32_data o a off c o' r b :
  is_u32 off -> 0 < Z.of_nat (length c) <= WUPS_FW_XFER_CHUNK -> in_receiver o a ->
  esp32_request o WUPS_OP_NET_FW_XFER_DATA (xfer_data_bytes off c) o' r b ->
  b = false /\
  ((in_receiver o' a \/ in_receiver o' None) /\ r <> WUPS_FW_XFER_OK \/
   exists x, a = Some x /\ off = Z.of_nat (length (a_img x)) /\ in_receiver o' (Some (append x c)) /\ r = WUPS_FW_XFER_OK).
Proof.
  intros Ho Hc Hs (e & o1 & acts & E & ->); unfold xfer_dispatch in E.
  change (WUPS_OP_NET_FW_XFER_DATA =? WUPS_OP_NET_FW_XFER_BEGIN) with false in E; rewrite Z.eqb_refl in E; cbv iota in E.
  destruct (xfer_data _ _) as [[o2 acts2] r2] eqn:ED; injection E as -> -> -> <-; split; [done|].
  change WUPS_FW_XFER_CHUNK with 236 in Hc; unfold xfer_data in ED.
  destruct (s_xfer_open o) eqn:Hop; cbn [negb] in ED.
  2:{ injection ED as <- _ <-; left; split; [left|done]; apply in_receiver_time, Hs. }
  destruct a as [x|]; [|cbn in Hs; congruence]; destruct Hs as (_ & Hil & Hsha & Hrec & Hle & Hw & Hp).
  assert (Hpl : Z.of_nat (length (xfer_data_bytes off c)) = 4 + Z.of_nat (length c)) by (unfold xfer_data_bytes; rewrite length_app, length_le_bytes; lia).
  rewrite Hpl, (proj2 (Z.ltb_ge _ _)) in ED by (unfold sizeof_xfer_data_hdr; lia).
  rewrite read_xfer_data_bytes in ED by done; unfold sizeof_xfer_data_hdr in ED.
  rewrite (u16_small (4 + _ - 4)) in ED by lia; replace (4 + Z.of_nat (length c) - 4) with (Z.of_nat (length c)) in ED by lia.
  rewrite drop_xfer_data_bytes, take_ge in ED by lia.
  assert (Hab : forall y, in_receiver ((xfer_abort_locked y).1 <| s_xfer_last_us := oe_time_us e |>) None)
    by (intros y; apply abort_closed).
  destruct (Z.eqb_spec off (s_xfer_received o)) as [Eoff|]; cbn [negb] in ED.
  2:{ pose proof (Hab o) as H; destruct (xfer_abort_locked o); injection ED as <- _ <-; left; split; [right; exact H|done]. }
  destruct (_ <? _) eqn:Elen.
  { pose proof (Hab o) as H; destruct (xfer_abort_locked o); injection ED as <- _ <-; left; split; [right; exact H|done]. }
  to_prop; rewrite (proj2 (Z.eqb_neq _ _)) in ED by lia.
  destruct (esp_ota_write (fl o) c) as [f err] eqn:Ew; case_bool_decide as He; cbn [negb] in ED.
  - injection ED as <- _ <-; right; exists x; subst err; apply write_written in Ew as [Et Ew].
    split; [done|]; split; [congruence|]; split; [|done]; unfold in_receiver; cbn.
    rewrite length_app, u32_small, Et by lia; split_and!; try done; try lia; congruence.
  - set (y := o <| fl := f |>) in ED; pose proof (Hab y) as H; destruct (xfer_abort_locked y); injection ED as <- _ <-.
    left; split; [right; exact H|done].
Qed.

Lemma esp32_end o a o' r b :
  in_receiver o a -> esp32_request o WUPS_OP_NET_FW_XFER_END (xfer_end_bytes 1) o' r b ->
  in_receiver o' None /\ (r = WUPS_FW_XFER_OK -> b = true) /\
  (b = true -> exists x, a = Some x /\ Z.of_nat (length (a_img x)) = a_len x /\ mbedtls_sha256 (a_img x) = a_sha x /\
                         written (fl o') (boot_part (fl o')) = a_img x).
Proof.
  intros Hs (e & o1 & acts & E & ->); unfold xfer_dispatch in E.
  change (WUPS_OP_NET_FW_XFER_END =? WUPS_OP_NET_FW_XFER_BEGIN) with false in E.
  change (WUPS_OP_NET_FW_XFER_END =? WUPS_OP_NET_FW_XFER_DATA) with false in E; rewrite Z.eqb_refl in E; cbv iota in E.
  unfold xfer_end in E; destruct (s_xfer_open o) eqn:Hop; cbn [negb] in E; [|injection E as <- _ <- <-; split_and!; done].
  change (Z.of_nat (length (xfer_end_bytes 1)) <? sizeof_xfer_end) with false in E.
  change (byte_at (xfer_end_bytes 1) 0 =? 1) with true in E; change (byte_at (xfer_end_bytes 1) 1 =? 0) with false in E; cbn [negb] in E.
  destruct a as [x|]; [|cbn in Hs; congruence]; destruct Hs as (_ & Hil & Hsha & Hrec & Hle & Hw & Hp).
  destruct (Z.eqb_spec (s_xfer_received o) (s_xfer_image_len o)) as [Eq|]; cbn [negb] in E.
  2:{ pose proof (abort_closed o) as H; destruct (xfer_abort_locked o); injection E as <- _ <- <-; split_and!; done. }
  set (part := target (fl o)) in *; rewrite Hp in E.
  unfold xfer_commit, release_banner, release, release_in_progress in E.
  destruct (esp_ota_end _) as [f1 err1] eqn:E1; destruct (bool_decide (err1 = ESP_OK)); cbn [negb] in E;
    [|injection E as <- _ <- <-; split_and!; try done; case_bool_decide; done].
  destruct (verify_written_image _ _ _ _ _) eqn:Ev; cbn [negb] in E; [|injection E as <- _ <- <-; split_and!; done].
  destruct (esp_ota_set_boot_partition _ _) as [f2 err2] eqn:E2; destruct (bool_decide (err2 = ESP_OK)) eqn:Eok; cbn [negb] in E;
    [|injection E as <- _ <- <-; split_and!; done].
  injection E as <- _ <- <-; split_and!; [done..|intros _; exists x].
  cbn in E1, E2, Ev |- *.
  apply bool_decide_eq_true in Eok; subst err2.
  pose proof (end_written (fl o) part) as W1; rewrite E1 in W1; pose proof (boot_written f1 part part) as W2; rewrite E2 in W2.
  apply boot_selected in E2; cbn [fst] in W1, W2; apply verify_written in Ev; [|rewrite W1, Hw; lia|lia].
  rewrite W1, Hw, take_ge in Ev by lia; rewrite E2; split_and!; congruence || lia.
Qed.

(** Time that passes between two requests: the idle guard of the heartbeat. *)
Definition esp32_idle o o' : Prop := exists lock locked t, o' = (fw_ota_xfer_tick o lock locked t).1.

Lemma esp32_idle_session o o' a : in_receiver o a -> esp32_idle o o' -> in_receiver o' a \/ in_receiver o' None.
Proof.
  intros H (lock & locked & t & ->); unfold fw_ota_xfer_tick; destruct (_ || _); [auto|]; destruct locked; [auto|].
  destruct (_ <? _); [|auto]; pose proof (abort_closed o) as Hc; destruct (xfer_abort_locked o); auto.
Qed.

Definition esp32_installed o (img : list Z) : Prop := written (fl o) (boot_part (fl o)) = img.

Lemma esp32_idle_installed o o' img : in_receiver o None -> esp32_installed o img -> esp32_idle o o' -> esp32_installed o' img.
Proof.
  intros Ho H (lock & locked & t & ->); cbn in Ho; unfold fw_ota_xfer_tick; rewrite Ho; exact H.
Qed.

Definition esp32_receiver : XferReceiver := {|
  R_state := ota;
  R_target := WUPS_FW_TARGET_ESP32;
  R_hash := mbedtls_sha256;
  R_request := esp32_request;
  R_session := in_receiver;
  R_installed := esp32_installed;
  R_idle := esp32_idle;
  R_idle_session := esp32_idle_session;
  R_idle_installed := esp32_idle_installed;
  R_target_u8 := ltac:(unfold WUPS_FW_TARGET_ESP32; lia);
  R_begin := esp32_begin;
  R_data := esp32_data;
  R_end := esp32_end
|}.
End Receiver.

(** ** Any history

    Requests of any operation and payload, time-outs, and requests from the network,
    in any order, from any state without a session. *)

Inductive esp_event :=
  | Xfer_req (e : oenv) (lock : bool) (op src seq : Z) (payload : list Z)
  | Xfer_tick (lock locked : bool) (time_us : Z)
  | Downlink (e : oenv) (frame : list Z).

Section Histories.
Context `{Laws : OtaLaws}.
Implicit Types (o : ota).

Definition esp_step o (ev : esp_event) : ota * list oact :=
  match ev with
  | Xfer_req e lock op src seq p => fw_ota_xfer_on_req e lock o op src seq p
  | Xfer_tick lock locked t => fw_ota_xfer_tick o lock locked t
  | Downlink e frame => (fw_ota_try_handle_downlink e o frame).1
  end.

(** Payloads are what the link delivers. *)
Definition esp_event_ok (ev : esp_event) : Prop :=
  match ev with
  | Xfer_req _ _ _ _ _ p => all_u8 p /\ Z.of_nat (length p) <= WUPS_MAX_PAYLOAD
  | _ => True
  end.

#[export] Instance esp_event_ok_dec ev : Decision (esp_event_ok ev).
Proof. destruct ev; unfold esp_event_ok, all_u8; apply _. Defined.

Definition session_ok o : Prop :=
  s_xfer_open o = true ->
  s_xfer_part o = Some (target (fl o)) /\ s_xfer_received o = Z.of_nat (length (written (fl o) (target (fl o)))) /\
  s_xfer_received o <= s_xfer_image_len o < 2147483648.

(** The partition that the next boot starts, and that it holds the image that BEGIN
    announced. *)
Definition boot_image o : list Z := written (fl o) (boot_part (fl o)).
Definition image_exact o : Prop :=
  Z.of_nat (length (boot_image o)) = s_xfer_image_len o /\ mbedtls_sha256 (boot_image o) = s_xfer_sha o.

(** What is announced for a session does not change. *)
Definition keeps o o' : Prop := s_xfer_image_len o' = s_xfer_image_len o /\ s_xfer_sha o' = s_xfer_sha o.

Lemma closed_ok o : s_xfer_open o = false -> session_ok o.
Proof. unfold session_ok; congruence. Qed.

Lemma release_acts o : exists s, release o = (o <| sl := s |>, [Mqtt_ota false]).
Proof. unfold release, release_in_progress; eauto. Qed.

Lemma abort_acts o : Reboot ∉ (xfer_abort_locked o).2.
Proof.
  unfold xfer_abort_locked; destruct (negb _); [set_solver|].
  match goal with |- context [release ?y] => destruct (release_acts y) as [s ->] end; set_solver.
Qed.

Lemma abort_keeps o : keeps o (xfer_abort_locked o).1.
Proof.
  unfold xfer_abort_locked; destruct (negb _); [done|].
  match goal with |- context [release ?y] => destruct (release_acts y) as [s ->] end; done.
Qed.

Lemma begin_ok e o p o' acts r :
  all_u8 p -> session_ok o -> xfer_begin e o p = (o', acts, r) ->
  session_ok o' /\ (Reboot ∉ acts) /\
  (s_xfer_open o' = true -> o' = o \/ r = WUPS_FW_XFER_OK /\ s_xfer_image_len o' = xb_image_len (read_xfer_begin p) /\
                                    s_xfer_sha o' = xb_sha256 (read_xfer_begin p)).
Proof.
  intros Hp Hs E; rewrite xfer_begin_eq in E; cbv zeta in E.
  destruct (_ <? _); [simplify_eq; split_and!; [done|set_solver|by left]|].
  destruct (negb _); [simplify_eq; split_and!; [done|set_solver|by left]|].
  destruct (negb _); [simplify_eq; split_and!; [done|set_solver|by left]|].
  set (x := if s_xfer_open o then _ else _) in E.
  assert (Hc : s_xfer_open x.1 = false /\ Reboot ∉ x.2).
  { subst x; destruct (s_xfer_open o) eqn:Ho; [split; [apply abort_closed|apply abort_acts]|split; [exact Ho|set_solver]]. }
  clearbody x; destruct x as [o1 acts1]; cbn [fst snd] in Hc; destruct Hc as [Hc Ha].
  destruct (s_in_progress _); [simplify_eq; split_and!; [by apply closed_ok|done|]; intros Ho; cbn in Ho; congruence|].
  destruct (next_part _) as [part|]; [|simplify_eq; split_and!; [by apply closed_ok|done|]; intros Ho; cbn in Ho; congruence].
  destruct (_ || _) eqn:El; [simplify_eq; split_and!; [by apply closed_ok|done|]; intros Ho; cbn in Ho; congruence|]; to_prop.
  destruct (confirm_running_image _ _ _) as [s ok]; destruct ok; cbn [negb] in E;
    [|simplify_eq; split_and!; [by apply closed_ok|done|]; intros Ho; cbn in Ho; congruence].
  set (o2 := o1 <| sl := s |> <| sl := _ |>) in E; assert (Hc2 : s_xfer_open o2 = false) by exact Hc; clearbody o2.
  unfold open_session in E; destruct (claim_in_progress (sl o2)) as [[s2 ok] t] eqn:Ecl.
  assert (Ht : Reboot ∉ told_acts t) by (destruct t; set_solver).
  destruct ok; cbn [negb] in E; [|simplify_eq; split_and!; [by apply closed_ok|set_solver|]; intros Ho; cbn in Ho; congruence].
  destruct (esp_ota_begin _ part) as [f err] eqn:Ef; case_bool_decide as He; cbn [negb] in E.
  - simplify_eq; split_and!; [intros _; cbn|set_solver|by right]; apply begin_written in Ef as [Et Ef]; pose proof (part_small part).
    pose proof (le_val_range (field 4 4 p) (Forall_take _ _ _ (Forall_drop _ _ _ Hp))).
    unfold read_xfer_begin in *; cbn in *; rewrite Et, Ef; cbn; split_and!; [eauto|done|lia|lia].
  - match type of E with context [release ?y] => destruct (release_acts y) as [s3 Er]; rewrite Er in E end.
    simplify_eq; split_and!; [by apply closed_ok|set_solver|]; intros Ho; cbn in Ho; congruence.
Qed.

Lemma data_ok o p o' acts r :
  Z.of_nat (length p) <= WUPS_MAX_PAYLOAD -> session_ok o -> xfer_data o p = (o', acts, r) ->
  session_ok o' /\ keeps o o' /\ (Reboot ∉ acts).
Proof.
  intros Hp Hs E; change WUPS_MAX_PAYLOAD with 240 in Hp; unfold xfer_data in E.
  assert (Habort : forall y z, xfer_abort_locked y = z -> session_ok z.1 /\ keeps y z.1 /\ (Reboot ∉ z.2))
    by (intros y z <-; split_and!; [apply closed_ok, abort_closed|apply abort_keeps..|apply abort_acts]).
  destruct (s_xfer_open o) eqn:Hop; cbn [negb] in E; [|simplify_eq; split_and!; [done..|set_solver]].
  destruct (_ <? _) eqn:E4; [simplify_eq; split_and!; [done..|set_solver]|]; to_prop; unfold sizeof_xfer_data_hdr in *.
  rewrite u16_small in E by lia.
  destruct (negb _) eqn:Eoff; [destruct (xfer_abort_locked o) eqn:Ea; simplify_eq; exact (Habort _ _ Ea)|].
  destruct (_ <? _) eqn:Elen; [destruct (xfer_abort_locked o) eqn:Ea; simplify_eq; exact (Habort _ _ Ea)|]; to_prop.
  destruct (_ =? _); [simplify_eq; split_and!; [done..|set_solver]|].
  destruct (esp_ota_write _ _) as [f err] eqn:Ew; case_bool_decide as He; cbn [negb] in E.
  - simplify_eq; split_and!; [|done..|set_solver]; intros _; destruct (Hs Hop) as (Hpart & Hrec & Hlen); apply write_written in Ew as [Et Ew].
    cbn; rewrite Et, Ew, length_app, length_take_le by (rewrite length_drop; lia); rewrite u32_small by lia.
    split_and!; [done|lia..].
  - match type of E with context [xfer_abort_locked ?y] => destruct (xfer_abort_locked y) eqn:Ea end.
    simplify_eq; exact (Habort _ _ Ea).
Qed.

Lemma release_ok acts o o' acts' :
  s_xfer_open o = false -> release o = (o', acts') -> Reboot ∉ acts ->
  session_ok o' /\ keeps o o' /\ Reboot ∉ acts ++ (Banner false :: acts').
Proof. intros Ho E Ha; destruct (release_acts o) as [s Es]; rewrite Es in E; simplify_eq; split_and!; [by apply closed_ok|done..|set_solver]. Qed.

Lemma commit_ok e o part o' acts r b :
  session_ok o -> s_xfer_open o = true -> s_xfer_part o = Some part -> s_xfer_received o = s_xfer_image_len o -> xfer_commit e o part = (o', acts, r, b) ->
  session_ok o' /\ keeps o o' /\ (Reboot ∉ acts) /\ (b = true -> image_exact o').
Proof.
  intros Hs Hop Hpt Hrec E; destruct (Hs Hop) as (Hpart & Hlen & Hmax); assert (part = target (fl o)) by congruence; subst part; clear Hpart; unfold xfer_commit, release_banner in E.
  destruct (esp_ota_end _) as [f1 err1] eqn:E1.
  destruct (bool_decide (err1 = ESP_OK)); cbn [negb] in E.
  2:{ destruct (release _) eqn:Er; simplify_eq; apply (release_ok []) in Er as (? & ? & ?); [split_and!; done|done|set_solver]. }
  destruct (verify_written_image _ _ _ _ _) eqn:Ev; cbn [negb] in E.
  2:{ destruct (release _) eqn:Er; simplify_eq; apply (release_ok [Status St_verifying]) in Er as (? & ? & ?); [split_and!; done|done|set_solver]. }
  destruct (esp_ota_set_boot_partition _ _) as [f2 err2] eqn:E2; destruct (bool_decide (err2 = ESP_OK)) eqn:Eok; cbn [negb] in E.
  2:{ destruct (release _) eqn:Er; simplify_eq; apply (release_ok [Status St_verifying]) in Er as (? & ? & ?); [split_and!; done|done|set_solver]. }
  simplify_eq; split_and!; [by apply closed_ok|done..|set_solver|]; intros _; cbn in E1, E2, Ev; unfold image_exact, boot_image; cbn.
  apply bool_decide_eq_true in Eok; subst err2; set (part := target (fl o)) in *.
  pose proof (end_written (fl o) part) as W1; rewrite E1 in W1; pose proof (boot_written f1 part part) as W2; rewrite E2 in W2.
  apply boot_selected in E2; cbn [fst] in W1, W2; apply verify_written in Ev; [|rewrite W1; lia|lia].
  rewrite W1, take_ge in Ev by lia; rewrite E2, W2, W1; split; [lia|exact Ev].
Qed.

Lemma end_ok e o p o' acts r b :
  session_ok o -> xfer_end e o p = (o', acts, r, b) -> session_ok o' /\ keeps o o' /\ (Reboot ∉ acts) /\ (b = true -> image_exact o').
Proof.
  intros Hs E; unfold xfer_end in E.
  destruct (s_xfer_open o) eqn:Hop; cbn [negb] in E; [|simplify_eq; split_and!; [done..|set_solver|done]].
  destruct (_ <? _); [simplify_eq; split_and!; [done..|set_solver|done]|].
  destruct (negb _); [simplify_eq; split_and!; [done..|set_solver|done]|].
  pose proof (abort_closed o) as Hc; pose proof (abort_acts o) as Ha; pose proof (abort_keeps o) as Hk.
  destruct (_ =? _); [destruct (xfer_abort_locked o); simplify_eq; split_and!; [by apply closed_ok|apply Hk..|done|done]|].
  destruct (Z.eqb_spec (s_xfer_received o) (s_xfer_image_len o)) as [Eq|]; cbn [negb] in E.
  2:{ destruct (xfer_abort_locked o); simplify_eq; split_and!; [by apply closed_ok|apply Hk..|done|done]. }
  destruct (s_xfer_part o) eqn:Ept; [eapply commit_ok; eauto|simplify_eq; split_and!; [done..|set_solver|done]].
Qed.

Lemma dispatch_ok e o op p o' acts r b :
  all_u8 p -> Z.of_nat (length p) <= WUPS_MAX_PAYLOAD -> session_ok o -> xfer_dispatch e o op p = (o', acts, r, b) ->
  session_ok o' /\ (Reboot ∉ acts) /\ (b = true -> image_exact o' /\ keeps o o' /\ s_xfer_open o = true) /\
  (s_xfer_open o' = true ->
     s_xfer_open o = true /\ keeps o o' \/
     op = WUPS_OP_NET_FW_XFER_BEGIN /\ r = WUPS_FW_XFER_OK /\
     s_xfer_image_len o' = xb_image_len (read_xfer_begin p) /\ s_xfer_sha o' = xb_sha256 (read_xfer_begin p)).
Proof.
  intros Hp Hl Hs E; unfold xfer_dispatch in E; repeat case_match; simplify_eq; to_prop.
  - destruct (begin_ok _ _ _ _ _ _ Hp Hs ltac:(eassumption)) as (? & ? & Hb); split_and!; [done..|].
    intros Ho; destruct (Hb Ho) as [->|?]; [left|right]; done.
  - destruct (data_ok _ _ _ _ _ Hl Hs ltac:(eassumption)) as (? & ? & ?); split_and!; [done..|]; intros Ho; left; split; [|done].
    destruct (s_xfer_open o) eqn:Hop; [done|].
    match goal with H : xfer_data o p = _ |- _ => unfold xfer_data in H; rewrite Hop in H end; simplify_eq/=; congruence.
  - destruct (s_xfer_open o) eqn:Hop.
    + destruct (end_ok _ _ _ _ _ _ _ Hs E) as (? & ? & ? & ?); split_and!; auto.
    + unfold xfer_end in E; rewrite Hop in E; simplify_eq/=; split_and!; [done|set_solver|done|intros; congruence].
  - split_and!; [done|set_solver|done|]; intros Ho; left; split; done.
Qed.

(** A BEGIN of the history, answered with OK, that announced this length and digest. *)
Definition announced (h : list (esp_event * list oact)) (len : Z) (sha : list Z) : Prop :=
  exists e lock src seq p acts,
    (Xfer_req e lock WUPS_OP_NET_FW_XFER_BEGIN src seq p, acts) ∈ h /\
    Respond src WUPS_OP_NET_FW_XFER_BEGIN seq WUPS_FW_XFER_OK ∈ acts /\
    xb_image_len (read_xfer_begin p) = len /\ xb_sha256 (read_xfer_begin p) = sha.

Definition history_ok (h : list (esp_event * list oact)) o : Prop :=
  session_ok o /\ (s_xfer_open o = true -> announced h (s_xfer_image_len o) (s_xfer_sha o)).

Lemma announced_more h h' len sha : announced h len sha -> announced (h ++ h') len sha.
Proof. intros (e & l & s & q & p & acts & H & ?); exists e, l, s, q, p, acts; split; [apply elem_of_app; auto|done]. Qed.

(** A request from the network changes neither the flash nor the session. *)
Lemma request_part_keeps e o n t o' part :
  request_part e o n t = (o', part) -> exists s, o' = o <| sl := s |>.
Proof. unfold request_part; repeat case_match; intros; simplify_eq; eauto; exists (sl o'); destruct o'; done. Qed.

Definition same_session o o' : Prop := s_xfer_open o' = s_xfer_open o /\ keeps o o' /\ fl o' = fl o /\
  s_xfer_part o' = s_xfer_part o /\ s_xfer_received o' = s_xfer_received o.

Lemma request_same e o url hex n t o' acts err :
  fw_ota_request e o url hex n t = (o', acts, err) -> same_session o o' /\ Reboot ∉ acts.
Proof.
  rewrite fw_ota_request_eq; cbv zeta; intros E.
  assert (Hd : same_session o o /\ Reboot ∉ @nil oact) by (split; [done|set_solver]).
  destruct (s_in_progress _); [by simplify_eq|]; destruct (_ && _); [by simplify_eq|].
  destruct url as [url|]; [|by simplify_eq]; destruct (_ || _); [by simplify_eq|].
  destruct hex as [hex|]; [|by simplify_eq]; destruct (negb _); [by simplify_eq|].
  destruct (sha256_hex_decode _ _) as [sha ok]; destruct ok; cbn [negb] in E; [|simplify_eq; split; [done|set_solver]].
  destruct (request_part _ _ _ _) as [o1 part] eqn:Ep; apply request_part_keeps in Ep as [s ->].
  destruct part as [part|]; [|simplify_eq; split; [done|set_solver]].
  destruct (claim_in_progress _) as [[s1 ok] t1]; assert (Reboot ∉ told_acts t1) by (destruct t1; set_solver).
  destruct ok; cbn [negb] in E; [|simplify_eq; split; [done|set_solver]].
  destruct (oe_task e); [simplify_eq; split; [done|set_solver]|].
  match type of E with context [release ?y] => destruct (release_acts y) as [s3 Er]; rewrite Er in E end.
  simplify_eq; split; [done|set_solver].
Qed.

Lemma request_accepted e o url hex n t o' acts :
  fw_ota_request e o url hex n t = (o', acts, ESP_OK) ->
  s_in_progress (sl o) = false /\ s_in_progress (sl o') = true /\ acts = [Mqtt_ota true; Start_task t].
Proof.
  rewrite fw_ota_request_eq; cbv zeta; intros E.
  destruct (s_in_progress _); [by simplify_eq|]; destruct (_ && _); [by simplify_eq|].
  destruct url as [url|]; [|by simplify_eq]; destruct (_ || _); [by simplify_eq|].
  destruct hex as [hex|]; [|by simplify_eq]; destruct (negb _); [by simplify_eq|].
  destruct (sha256_hex_decode _ _) as [sha ok]; destruct ok; cbn [negb] in E; [|by simplify_eq].
  destruct (request_part _ _ _ _) as [o1 part] eqn:Ep; destruct part as [part|].
  2:{ unfold request_part in Ep; repeat case_match; simplify_eq. }
  unfold claim_in_progress in E; destruct (_ && _ && _); cbn [negb] in E; [|by simplify_eq].
  destruct (oe_task e); [simplify_eq; done|destruct (release _); by simplify_eq].
Qed.

Lemma downlink_same e o frame o' acts b :
  fw_ota_try_handle_downlink e o frame = (o', acts, b) -> same_session o o' /\ Reboot ∉ acts.
Proof.
  assert (Hd : same_session o o /\ Reboot ∉ @nil oact) by (split; [done|set_solver]).
  unfold fw_ota_try_handle_downlink; intros E.
  repeat match type of E with (if ?c then _ else _) = _ => destruct c; [by simplify_eq|] end.
  destruct (downlink_request e o frame) as [[o1 acts1] r] eqn:Er; simplify_eq.
  assert (Hr : Reboot ∉ downlink_reply e (byte_at frame 3) (byte_at frame 7) r)
    by (unfold downlink_reply; repeat case_match; set_solver).
  unfold downlink_request in Er; repeat match type of Er with (if ?c then _ else _) = _ => destruct c; [simplify_eq; split; [done|set_solver]|] end.
  destruct (fw_ota_request _ _ _ _ _ _) as [[o2 acts2] err] eqn:Eq; simplify_eq.
  apply request_same in Eq as [? ?]; split; [done|set_solver].
Qed.

Lemma same_ok h o o' : same_session o o' -> history_ok h o -> history_ok h o'.
Proof.
  intros (H1 & (H2 & H3) & H4 & H5 & H6) [Hs Ha]; unfold history_ok, session_ok in *.
  rewrite H1, H2, H3, H4, H5, H6; done.
Qed.

Lemma esp_step_ok h o ev o' acts :
  esp_event_ok ev -> history_ok h o -> esp_step o ev = (o', acts) ->
  history_ok (h ++ [(ev, acts)]) o' /\
  (Reboot ∈ acts -> image_exact o' /\ announced h (s_xfer_image_len o') (s_xfer_sha o')).
Proof.
  intros Hev Hh E; assert (Hmore : history_ok h o' -> history_ok (h ++ [(ev, acts)]) o')
    by (intros [? Ha]; split; [done|intros Ho; apply announced_more, Ha, Ho]).
  destruct ev as [e lock op src seq p|lock locked t|e frame]; cbn [esp_step] in E.
  - unfold fw_ota_xfer_on_req in E; destruct lock; cbn [negb] in E; [|simplify_eq; split; [auto|set_solver]].
    destruct (xfer_dispatch e o op p) as [[[o1 acts1] r] b] eqn:Ed; destruct Hev as [Hp Hl], Hh as [Hs Ha].
    destruct (dispatch_ok _ _ _ _ _ _ _ _ Hp Hl Hs Ed) as (H1 & H2 & H3 & H4).
    injection E as <- Eacts; split.
    + split; [exact H1|]; intros Ho; change (s_xfer_open o1 = true) in Ho; cbn.
      destruct (H4 Ho) as [[Hop [-> ->]]|(-> & -> & -> & ->)]; [apply announced_more, Ha, Hop|].
      exists e, true, src, seq, p, acts; subst acts; split_and!; [set_solver..|done|done].
    + destruct b; [|subst acts; set_solver]; intros _; destruct (H3 eq_refl) as (He & [Hk1 Hk2] & Hop).
      split; [exact He|]; cbn; rewrite Hk1, Hk2; apply Ha, Hop.
  - unfold fw_ota_xfer_tick in E; repeat match type of E with (if ?c then _ else _) = _ => destruct c; [simplify_eq; split; [auto|set_solver]|] end.
    destruct (_ <? _); [|simplify_eq; split; [auto|set_solver]].
    pose proof (abort_closed o) as Hc; pose proof (abort_acts o) as Hr.
    destruct (xfer_abort_locked o); simplify_eq; split; [|set_solver].
    split; [apply closed_ok, Hc|cbn in Hc; congruence].
  - destruct (fw_ota_try_handle_downlink e o frame) as [[o1 acts1] b] eqn:Ed; simplify_eq/=.
    destruct (downlink_same _ _ _ _ _ _ Ed) as [Hsame Hr]; split; [|done].
    apply Hmore; eapply same_ok; eauto.
Qed.

Lemma esp_run_ok h o evs o' outs :
  Forall esp_event_ok evs -> history_ok h o -> run esp_step o evs = (o', outs) -> history_ok (h ++ zip evs outs) o'.
Proof.
  revert h o outs; induction evs as [|ev evs IH]; intros h o outs Hev Hh E; [cbn in E; simplify_eq; cbn; rewrite app_nil_r; done|].
  apply Forall_cons in Hev as [Hev Hevs]; rewrite run_cons in E.
  destruct (esp_step o ev) as [o1 acts] eqn:E1; destruct (run esp_step o1 evs) as [o2 os] eqn:E2; simplify_eq.
  destruct (esp_step_ok _ _ _ _ _ Hev Hh E1) as [H1 _]; pose proof (IH _ _ _ Hevs H1 E2) as H2.
  rewrite <- app_assoc in H2; exact H2.
Qed.

(** C6: The ESP32 restarts into a transferred image only after an END that found the
    partition it selects for the boot holding exactly the announced image: for every
    history of transfer requests (any operation, payload, order), time-outs and requests
    from the network, and every outcome of the flash and partition functions, what was
    written to the partition the boot loader will start has the length and the SHA-256
    of a BEGIN of that history that was answered with OK. *)
Theorem esp_boot_image_exact o evs ev o1 outs o2 acts :
  s_xfer_open o = false -> Forall esp_event_ok (evs ++ [ev]) ->
  run esp_step o evs = (o1, outs) -> esp_step o1 ev = (o2, acts) -> Reboot ∈ acts ->
  exists len sha, announced (zip evs outs) len sha /\
    Z.of_nat (length (boot_image o2)) = len /\ mbedtls_sha256 (boot_image o2) = sha.
Proof.
  intros Ho Hev Hr Hs Hb; apply Forall_app in Hev as [Hevs Hev]; apply Forall_cons in Hev as [Hev _].
  assert (H0 : history_ok [] o) by (split; [apply closed_ok, Ho|congruence]).
  pose proof (esp_run_ok _ _ _ _ _ Hevs H0 Hr) as H1.
  destruct (esp_step_ok _ _ _ _ _ Hev H1 Hs) as [_ H2]; destruct (H2 Hb) as [[? ?] ?]; eauto.
Qed.

(** The answer to a request from the network: one frame, addressed to the sender with its
    sequence number, whose payload is the result; or the result goes with the
    acknowledgement of the on-chain command. *)
Definition answer_frame (src seq r : Z) : frame :=
  Frame src WUPS_ADDR_ESP32 WUPS_CLASS_NET WUPS_OP_NET_FW_UPDATE WUPS_FLAG_RESP seq [r].

Lemma frame_not_empty f : bool_decide (frame_bytes f = []) = false.
Proof. apply bool_decide_eq_false_2; unfold frame_bytes; discriminate. Qed.

Lemma encode_resp_frame_bytes src seq r :
  encode_resp_frame (WUPS_FRAMING_BYTES + 1) src seq r = frame_bytes (answer_frame src seq r).
Proof.
  unfold encode_resp_frame, frame_bytes; change (WUPS_FRAMING_BYTES + 1 <? _) with false; cbv iota.
  cbn; destruct (wups_fletcher8 _); done.
Qed.

Lemma downlink_reply_eq e src seq r :
  downlink_reply e src seq r =
  if oe_ack_pending e seq then [Ack_response seq r]
  else if oe_topic e then [Publish_response (frame_bytes (answer_frame src seq r))] else [].
Proof.
  unfold downlink_reply; rewrite encode_resp_frame_bytes; destruct (oe_ack_pending e seq); [exact eq_refl|].
  rewrite frame_not_empty; exact eq_refl.
Qed.

(** A downlink frame is taken by the updater exactly when it is a net.fw_update
    frame; it then has no effect unless it is a request; a request is answered at most
    once, with a well-formed response frame to its sender under its sequence number, and
    is accepted only while the network is up and no other update holds the slot. *)
Theorem fw_update_downlink e o frame o' acts b :
  fw_ota_try_handle_downlink e o frame = (o', acts, b) ->
  (b = true <-> WUPS_FRAMING_BYTES <= Z.of_nat (length frame) /\ byte_at frame 0 = WUPS_SYNC1 /\
                byte_at frame 1 = WUPS_SYNC2 /\ byte_at frame 4 = WUPS_CLASS_NET /\
                byte_at frame 5 = WUPS_OP_NET_FW_UPDATE) /\
  (b && has (byte_at frame 6) WUPS_FLAG_REQ = false -> o' = o /\ acts = []) /\
  (b && has (byte_at frame 6) WUPS_FLAG_REQ = true ->
   let src := byte_at frame 3 in let seq := byte_at frame 7 in
   exists acts' r,
     acts = acts' ++ (if oe_ack_pending e seq then [Ack_response seq r]
                      else if oe_topic e then [Publish_response (frame_bytes (answer_frame src seq r))] else []) /\
     (r = WUPS_FW_UPDATE_RESULT_OK ->
        oe_ppp_up e = true /\ s_in_progress (sl o) = false /\ s_in_progress (sl o') = true /\
        exists target, acts' = [Mqtt_ota true; Start_task target])).
Proof.
  unfold fw_ota_try_handle_downlink; intros E.
  set (taken := WUPS_FRAMING_BYTES <= _ /\ _).
  assert (Hno : (o, [], false) = (o', acts, b) -> ~ taken -> (b = true <-> taken) /\
    (b && has (byte_at frame 6) WUPS_FLAG_REQ = false -> o' = o /\ acts = [])) by (intros; simplify_eq; naive_solver).
  destruct (_ <? _) eqn:E1; [subst taken; to_prop; destruct (Hno E ltac:(intros [? _]; lia)); simplify_eq; done|].
  destruct (negb (byte_at frame 0 =? _) || _) eqn:E2.
  { apply orb_true_iff in E2 as [E2|E2]; subst taken; to_prop; destruct (Hno E ltac:(naive_solver)); simplify_eq; done. }
  destruct (negb (byte_at frame 4 =? _) || _) eqn:E3.
  { apply orb_true_iff in E3 as [E3|E3]; subst taken; to_prop; destruct (Hno E ltac:(naive_solver)); simplify_eq; done. }
  assert (Ht : taken) by (subst taken; to_prop; done); clear Hno.
  destruct (has _ _) eqn:Eh; cbn [negb] in E; [|simplify_eq; done].
  destruct (downlink_request e o frame) as [[o1 acts1] r] eqn:Er; simplify_eq; split; [done|]; split; [done|]; intros _.
  exists acts1, r; rewrite downlink_reply_eq; split; [exact eq_refl|].
  intros ->; unfold downlink_request in Er.
  repeat match type of Er with (if ?c then _ else _) = _ => destruct c eqn:?; [by simplify_eq|] end.
  destruct (fw_ota_request _ _ _ _ _ _) as [[o2 acts2] err] eqn:Eq; simplify_eq; to_prop.
  destruct err; try done; destruct (request_accepted _ _ _ _ _ _ _ _ Eq) as (? & ? & ->); eauto.
Qed.
End Histories.

(** ** An example

    A flash with two partitions, of which [false] runs, that keeps what is written,
    with a digest that counts bytes. *)

Section Examples.
Definition flash_digest (d : list Z) : list Z := replicate 32 (u8 (Z.of_nat (length d))).

Record flash := Flash { fl_parts : bool -> list Z; fl_target : bool; fl_boot : bool }.
Definition set_part (p : bool) (d : list Z) (g : bool -> list Z) : bool -> list Z :=
  fun q => if bool_decide (q = p) then d else g q.

#[local] Instance flash_sdk : OtaSdk := {|
  Fl := flash; Part := bool; part_size _ := 1024; next_part _ := Some true;
  esp_ota_begin f p := (Flash (set_part p [] (fl_parts f)) p (fl_boot f), ESP_OK);
  esp_ota_write f d :=
    (Flash (set_part (fl_target f) (fl_parts f (fl_target f) ++ d) (fl_parts f)) (fl_target f) (fl_boot f), ESP_OK);
  esp_ota_end f := (f, ESP_OK);
  esp_ota_abort f := f;
  esp_partition_read f p off n :=
    if (0 <=? off) && (off + n <=? Z.of_nat (length (fl_parts f p)))
    then Some (take (Z.to_nat n) (drop (Z.to_nat off) (fl_parts f p))) else None;
  esp_ota_set_boot_partition f p := (Flash (fl_parts f) (fl_target f) p, ESP_OK); mbedtls_sha256 := flash_digest
|}.

#[local] Instance flash_laws : OtaLaws flash_sdk.
Proof.
  refine {| written := fun (f : @Fl flash_sdk) p => fl_parts f p; target := fun f : @Fl flash_sdk => fl_target f;
            boot_part := fun f : @Fl flash_sdk => fl_boot f |}; cbn; intros; try case_match; simplify_eq; try done;
    cbn; unfold set_part; rewrite bool_decide_eq_true_2; done.
Defined.

Definition quiet_env (t : Z) : oenv :=
  OEnv t (ConfirmEnv t true true true id) id true true true (fun _ => false) true.

Definition idle_slot : slot := Slot false false true false false.
Definition idle_ota : ota := Ota (Flash (fun _ => replicate 7 3) false false) idle_slot [] (replicate 32 0) 0 None false None 0 0 [] 0.

Definition demo_image : list Z := map Z.of_nat (seq 0 40).
Definition demo_req (op seq : Z) (p : list Z) : esp_event := Xfer_req (quiet_env 1000) true op WUPS_ADDR_RP2040 seq p.
Definition demo_session : list esp_event :=
  [Xfer_tick true false 500;
   demo_req WUPS_OP_NET_FW_XFER_BEGIN 1 (xfer_begin_bytes (XferBegin 1 WUPS_FW_TARGET_ESP32 40 (flash_digest demo_image)));
   demo_req WUPS_OP_NET_FW_XFER_DATA 2 (xfer_data_bytes 0 (take 25 demo_image));
   demo_req WUPS_OP_NET_FW_XFER_DATA 3 (xfer_data_bytes 25 (drop 25 demo_image))].

Lemma esp_boot_image_exact_witness :
  let '(o1, outs) := run esp_step idle_ota demo_session in
  let '(o2, acts) := esp_step o1 (demo_req WUPS_OP_NET_FW_XFER_END 4 (xfer_end_bytes 1)) in
  Reboot ∈ acts /\ boot_image o2 = demo_image /\
  exists len sha, announced (zip demo_session outs) len sha /\
    Z.of_nat (length (boot_image o2)) = len /\ mbedtls_sha256 (boot_image o2) = sha.
Proof.
  assert (HR : let '(o1, _) := run esp_step idle_ota demo_session in
    let '(o2, acts) := esp_step o1 (demo_req WUPS_OP_NET_FW_XFER_END 4 (xfer_end_bytes 1)) in
    last acts = Some Reboot /\ boot_image o2 = demo_image) by (vm_compute; split; reflexivity).
  destruct (run esp_step idle_ota demo_session) as [o1 outs] eqn:Er.
  destruct (esp_step o1 _) as [o2 acts] eqn:Es; destruct HR as [HR Hw]; apply last_Some_elem_of in HR.
  assert (Hok : Forall esp_event_ok (demo_session ++ [demo_req WUPS_OP_NET_FW_XFER_END 4 (xfer_end_bytes 1)]))
    by (apply (bool_decide_eq_true_1 _); vm_compute; reflexivity).
  split; [exact HR|split; [exact Hw|]].
  exact (esp_boot_image_exact idle_ota demo_session _ o1 outs o2 acts eq_refl Hok Er Es HR).
Defined.

(** A request for a 100-byte image. *)
Definition demo_url : list Z := str "https://h/i".
Definition demo_downlink : list Z :=
  frame_bytes (Frame WUPS_ADDR_ESP32 7 WUPS_CLASS_NET WUPS_OP_NET_FW_UPDATE WUPS_FLAG_REQ 9
    ([1; 11; 0; 0] ++ le32 100 ++ replicate 64 97 ++ demo_url)).

Lemma fw_update_downlink_witness :
  let '(o', acts, b) := fw_ota_try_handle_downlink (quiet_env 0) idle_ota demo_downlink in
  b = true /\ acts = [Mqtt_ota true; Start_task WUPS_FW_TARGET_ESP32;
                      Publish_response (frame_bytes (answer_frame 7 9 WUPS_FW_UPDATE_RESULT_OK))] /\
  WUPS_FRAMING_BYTES <= Z.of_nat (length demo_downlink).
Proof.
  assert (HR : let '(o', acts, b) := fw_ota_try_handle_downlink (quiet_env 0) idle_ota demo_downlink in
    b = true /\ acts = [Mqtt_ota true; Start_task WUPS_FW_TARGET_ESP32;
                        Publish_response (frame_bytes (answer_frame 7 9 WUPS_FW_UPDATE_RESULT_OK))])
    by (vm_compute; split; reflexivity).
  destruct (fw_ota_try_handle_downlink _ _ _) as [[o' acts] b] eqn:E; destruct HR as [HR HA].
  split; [exact HR|split; [exact HA|]].
  apply (fw_update_downlink _ _ _ _ _ _ E), HR.
Defined.
End Examples.
