(* ===== verification/FwRelay.v ===== *)
(** * The firmware relay of the ESP32 (firmware-ESP32-LTE-M/main/fw_ota.c)

    The task that downloads an image for the RP2040 and forwards it in net.fw_xfer
    requests, one at a time.  The HTTP client, the clock, the heap and the UART link
    are the class [RelayWorld]; the tasks that feed [fw_ota_xfer_on_resp] run while
    this one waits, so that a wait yields the responses that arrived meanwhile. *)

From S2P Require Import Prelude Protocol FwOta FwXfer Task.

Open Scope task_scope.

(** ** Constants *)

(* src: firmware-ESP32-LTE-M/main/fw_ota.c:79-82 FW_RELAY *)
Definition FW_RELAY_HTTP_BUF : Z := 2048.
Definition FW_RELAY_RESP_TIMEOUT_MS : Z := 5000.
Definition FW_RELAY_END_TIMEOUT_MS : Z := 30000.
Definition FW_RELAY_HELLO_TIMEOUT_MS : Z := 90000.

(** ** Response correlation *)

(* src: firmware-ESP32-LTE-M/main/fw_ota.c:121-127 s_resp *)
Record resp := Resp { s_resp_sig : bool; s_resp_armed : bool; s_resp_op : Z; s_resp_seq : Z; s_resp_result : Z }.

#[export] Instance eta_resp : Eta resp := fun r =>
  Resp (s_resp_sig r) (s_resp_armed r) (s_resp_op r) (s_resp_seq r) (s_resp_result r).

(** A response as the link hands it over: operation, sequence number, payload. *)
Definition response : Type := Z * Z * list Z.

(* src: firmware-ESP32-LTE-M/main/fw_ota.c:1251-1258 fw_ota_xfer_on_resp *)
Definition fw_ota_xfer_on_resp (r : resp) (m : response) : resp :=
  let '(op, seq, payload) := m in
  if negb (s_resp_armed r) || negb (op =? s_resp_op r) || negb (seq =? s_resp_seq r) || bool_decide (payload = [])
  then r
  else r <| s_resp_result := byte_at payload 0 |> <| s_resp_armed := false |> <| s_resp_sig := true |>.

(* src: firmware-ESP32-LTE-M/main/fw_ota.c:576-588 xfer_result_name *)
Definition xfer_result_name (r : Z) : list Z :=
  if r =? WUPS_FW_XFER_OK then str "ok"
  else if r =? WUPS_FW_XFER_BAD_REQ then str "bad_req"
  else if r =? WUPS_FW_XFER_BUSY then str "busy"
  else if r =? WUPS_FW_XFER_SEQ_MISMATCH then str "seq_mismatch"
  else if r =? WUPS_FW_XFER_FLASH_ERR then str "flash_err"
  else if r =? WUPS_FW_XFER_VERIFY_FAIL then str "verify_fail"
  else if r =? 255 then str "link timeout"
  else str "?".

(** ** The world *)

(** [http_open] is [None] on success, else the name of the error; [http_read] is [None]
    for a negative count; [link_wait w ms] are the responses delivered within [ms], until
    the semaphore is given; [link_late] those delivered between the time-out of a wait
    and the instruction that ends it. *)
Class RelayWorld := {
  W : Type;
  esp_timer_get_time : W -> Z;
  http_init : W -> W * bool;
  http_open : W -> W * option (list Z);
  http_fetch_headers : W -> W;
  http_status : W -> Z;
  http_set_redirection : W -> W * bool;
  http_close : W -> W;
  http_read : W -> Z -> W * option (list Z);
  http_cleanup : W -> W;
  malloc_ok : W -> W * bool;
  link_send : W -> Z -> Z -> list Z -> W;
  link_wait : W -> Z -> W * list response;
  link_late : W -> W * list response;
  hello_count : W -> Z;
  vTaskDelay_ms : W -> Z -> W;
  stream_sha256 : list Z -> list Z
}.

(** What the task does to the other modules. *)
Inductive ract :=
  | Do_banner (on : bool)
  | Do_status (st : list Z)                     (* emit_status: started, verifying, rebooting, done *)
  | Do_progress (pct : Z)
  | Do_error (stage detail : list Z)
  | Do_request (op seq : Z) (payload : list Z)  (* wups_link_send_seq to the RP2040, class NET, flag REQ *)
  | Do_cleanup                                  (* esp_http_client_cleanup *)
  | Do_free
  | Do_release.                                 (* release_in_progress *)

(** Why the task gave up: [goto fail] with its stage and detail.  [Stuck] is the end of the
    fuel of a loop. *)
Inductive failure := Failed (stage detail : list Z) | Stuck.

(** ** The task *)

Section Relay.
Context `{RW : RelayWorld}.
Context (s_image_len : Z) (s_sha_expected : list Z).

(** The state of the task: its locals [begun], [http], [buf] and the bytes its digest has
    absorbed; [rseq] is the static counter of [xfer_send_req]. *)
Record relay := Relay {
  world : W; rsp : resp; rseq : Z; begun : bool; http : bool; buf : bool; hashed : list Z; racts : list ract
}.
#[export] Instance eta_relay : Eta relay := fun s =>
  Relay (world s) (rsp s) (rseq s) (begun s) (http s) (buf s) (hashed s) (racts s).

Definition act (a : ract) (s : relay) : relay := s <| racts := racts s ++ [a] |>.
Definition deliver (l : list response) (s : relay) : relay := s <| rsp := fold_left fw_ota_xfer_on_resp l (rsp s) |>.

(** One turn: the answer, if one came in time. *)
(* src: firmware-ESP32-LTE-M/main/fw_ota.c:602-613 xfer_send_req (turn) *)
Definition xfer_try (op : Z) (payload : list Z) (timeout_ms : Z) (s : relay) : relay * option Z :=
  let s := s <| rseq := u8 (rseq s + 1) |> in
  let s := s <| rsp := Resp false true op (rseq s) 255 |> in
  let s := act (Do_request op (rseq s) payload) s in
  let s := s <| world := link_send (world s) op (rseq s) payload |> in
  let '(w, arrived) := link_wait (world s) timeout_ms in
  let s := deliver arrived (s <| world := w |>) in
  if s_resp_sig (rsp s) then (s <| rsp := rsp s <| s_resp_sig := false |> |>, Some (s_resp_result (rsp s))) else
  let '(w, late) := link_late (world s) in
  let s := deliver late (s <| world := w |>) in
  (s <| rsp := rsp s <| s_resp_armed := false |> |>, None).

(** The turns of the loop that are left. *)
(* src: firmware-ESP32-LTE-M/main/fw_ota.c:601-617 xfer_send_req (loop) *)
Fixpoint xfer_attempts (n : nat) (op : Z) (payload : list Z) (timeout_ms : Z) (s : relay) : relay * Z :=
  match n with
  | O => (s, 255)
  | S n =>
      match xfer_try op payload timeout_ms s with
      | (s, Some r) => (s, r)
      | (s, None) => xfer_attempts n op payload timeout_ms s
      end
  end.

(* src: firmware-ESP32-LTE-M/main/fw_ota.c:597-618 xfer_send_req *)
Definition xfer_send_req (op : Z) (payload : list Z) (timeout_ms : Z) (s : relay) : relay * Z :=
  xfer_attempts 2 op payload timeout_ms s.

(* src: firmware-ESP32-LTE-M/main/fw_ota.c:622-626 relay_send_abort *)
Definition relay_send_abort (s : relay) : relay := (xfer_send_req WUPS_OP_NET_FW_XFER_END (xfer_end_bytes 0) 2000 s).1.

Abbreviation rtask := (task relay failure).

Definition request (stage : list Z) (op : Z) (payload : list Z) (timeout_ms : Z) : rtask unit := fun s =>
  let '(s, r) := xfer_send_req op payload timeout_ms s in
  if r =? WUPS_FW_XFER_OK then (s, inr tt) else (s, inl (Failed stage (xfer_result_name r))).

(* src: firmware-ESP32-LTE-M/main/fw_ota.c:655-670 relay_task (begin) *)
Definition relay_begin : rtask unit :=
  let* _ := request (str "begin") WUPS_OP_NET_FW_XFER_BEGIN
              (xfer_begin_bytes (XferBegin 1 WUPS_FW_TARGET_RP2040 s_image_len s_sha_expected)) FW_RELAY_RESP_TIMEOUT_MS in
  put (fun s => s <| begun := true |>).

Definition is_redirect (status : Z) : bool :=
  (status =? 301) || (status =? 302) || (status =? 303) || (status =? 307) || (status =? 308).

(** The last status seen, 0 before the first response. *)
(* src: firmware-ESP32-LTE-M/main/fw_ota.c:690-707 relay_task (hops) *)
Fixpoint relay_hops (n : nat) (status : Z) : rtask Z :=
  match n with
  | O => ret status
  | S n => fun s =>
      let '(w, err) := http_open (world s) in
      let s := s <| world := w |> in
      match err with
      | Some name => (s, inl (Failed (str "download") name))
      | None =>
          let s := s <| world := http_fetch_headers (world s) |> in
          let status := http_status (world s) in
          if negb (is_redirect status) then (s, inr status) else
          let '(w, ok) := http_set_redirection (world s) in
          let s := s <| world := w |> in
          if negb ok then (s, inl (Failed (str "download") (str "bad redirect")))
          else relay_hops n status (s <| world := http_close (world s) |>)
      end
  end.

(* src: firmware-ESP32-LTE-M/main/fw_ota.c:675-720 relay_task (download) *)
Definition relay_open : rtask unit := fun s =>
  let '(w, ok) := http_init (world s) in
  let s := s <| world := w |> in
  if negb ok then (s, inl (Failed (str "download") (str "http init failed"))) else
  (let* status := relay_hops 4 0 in
   let* _ := (if status =? 200 then ret tt else fail (Failed (str "download") (str "http status"))) in
   fun s =>
     let '(w, ok) := malloc_ok (world s) in
     let s := s <| world := w |> in
     if negb ok then (s, inl (Failed (str "download") (str "no heap")))
     else (s <| buf := true |> <| hashed := [] |>, inr tt)) (s <| http := true |>).

(** [data] is what is left of the buffer, from [off] on. *)
(* src: firmware-ESP32-LTE-M/main/fw_ota.c:747-763 relay_task (chunks) *)
Fixpoint relay_chunks (fuel : nat) (sent : Z) (data : list Z) : rtask Z :=
  match fuel with
  | O => if bool_decide (data = []) then ret sent else fail Stuck
  | S fuel =>
      if bool_decide (data = []) then ret sent else
      let chunk := u16 (Z.of_nat (length data)) in
      let chunk := if WUPS_FW_XFER_CHUNK <? chunk then WUPS_FW_XFER_CHUNK else chunk in
      let* _ := request (str "download") WUPS_OP_NET_FW_XFER_DATA (xfer_data_bytes sent (take (Z.to_nat chunk) data))
                  FW_RELAY_RESP_TIMEOUT_MS in
      relay_chunks fuel (u32 (sent + chunk)) (drop (Z.to_nat chunk) data)
  end.

(** The last step announced. *)
(* src: firmware-ESP32-LTE-M/main/fw_ota.c:765-770 relay_task (progress) *)
Definition relay_progress (sent last_step_pct : Z) : rtask Z :=
  let pct := sent * 100 / s_image_len in
  if (last_step_pct + 25 <=? pct) && (pct <? 100) then
    let step := pct - pct mod 25 in
    let* _ := put (act (Do_progress step)) in ret step
  else ret last_step_pct.

(* src: firmware-ESP32-LTE-M/main/fw_ota.c:724-772 relay_task (stream) *)
Fixpoint relay_stream (fuel : nat) (deadline_us sent last_step_pct : Z) : rtask unit :=
  match fuel with
  | O => if sent <? s_image_len then fail Stuck else ret tt
  | S fuel =>
      if negb (sent <? s_image_len) then ret tt else fun s =>
      if deadline_us <=? esp_timer_get_time (world s)
      then (s, inl (Failed (str "timeout") (str "OTA time cap exceeded"))) else
      let want := u32 (s_image_len - sent) in
      let want := if FW_RELAY_HTTP_BUF <? want then FW_RELAY_HTTP_BUF else want in
      let '(w, n) := http_read (world s) want in
      let s := s <| world := w |> in
      match n with
      | None => (s, inl (Failed (str "download") (str "http read error")))
      | Some [] => (s, inl (Failed (str "download") (str "short stream")))
      | Some data =>
          let s := s <| hashed := hashed s ++ data |> in
          (let* sent := relay_chunks (length data) sent data in
           let* last_step_pct := relay_progress sent last_step_pct in
           relay_stream fuel deadline_us sent last_step_pct) s
      end
  end.

(* src: firmware-ESP32-LTE-M/main/fw_ota.c:778-787 relay_task (verify) *)
Definition relay_verify : rtask unit :=
  let* _ := (fun s => if bool_decide (stream_sha256 (hashed s) = s_sha_expected) then (s, inr tt)
                      else (s, inl (Failed (str "verify") (str "sha256 mismatch")))) in
  put (act (Do_status (str "verifying"))).

(** The hello counter before the commit. *)
(* src: firmware-ESP32-LTE-M/main/fw_ota.c:792-804 relay_task (commit) *)
Definition relay_commit : rtask Z := fun s =>
  let hello0 := hello_count (world s) in
  let '(s, r) := xfer_send_req WUPS_OP_NET_FW_XFER_END (xfer_end_bytes 1) FW_RELAY_END_TIMEOUT_MS s in
  if r =? WUPS_FW_XFER_OK then (act (Do_status (str "rebooting")) s, inr hello0)
  else (s <| begun := false |>, inl (Failed (str "commit") (xfer_result_name r))).

(* src: firmware-ESP32-LTE-M/main/fw_ota.c:811-817 relay_task (hello loop) *)
Fixpoint relay_await_hello (fuel : nat) (hello_deadline hello0 : Z) : rtask bool := fun s =>
  if negb (esp_timer_get_time (world s) <? hello_deadline) then (s, inr false)
  else if negb (hello_count (world s) =? hello0) then (s, inr true)
  else match fuel with
       | O => (s, inl Stuck)
       | S fuel => relay_await_hello fuel hello_deadline hello0 (s <| world := vTaskDelay_ms (world s) 250 |>)
       end.

(* src: firmware-ESP32-LTE-M/main/fw_ota.c:806-825 relay_task (hello) *)
Definition relay_hello (hello0 : Z) : rtask unit := fun s =>
  let hello_deadline := esp_timer_get_time (world s) + FW_RELAY_HELLO_TIMEOUT_MS * 1000 in
  (let* seen := relay_await_hello 375 hello_deadline hello0 in
   if seen : bool then put (act (Do_status (str "done")))
   else fun s => (s <| begun := false |>, inl (Failed (str "hello") (str "no hello after commit")))) s.

(** Up to the commit. *)
(* src: firmware-ESP32-LTE-M/main/fw_ota.c:648-804 relay_task (transfer) *)
Definition relay_transfer (deadline_us : Z) : rtask Z :=
  let* _ := put (fun s => act (Do_status (str "started")) (act (Do_banner true) s)) in
  let* _ := relay_begin in
  let* _ := relay_open in
  let* _ := relay_stream (Z.to_nat s_image_len) deadline_us 0 0 in
  let* _ := relay_verify in
  relay_commit.

(* src: firmware-ESP32-LTE-M/main/fw_ota.c:827-832 relay_task (done) *)
Definition relay_done (s : relay) : relay :=
  let s := act Do_cleanup (s <| world := http_cleanup (world s) |> <| http := false |>) in
  let s := act Do_free (s <| buf := false |>) in
  act Do_release (act (Do_banner false) s).

(* src: firmware-ESP32-LTE-M/main/fw_ota.c:834-845 relay_task (fail) *)
Definition relay_fail (f : failure) (s : relay) : relay :=
  let s := if begun s then relay_send_abort s else s in
  let s := if http s then act Do_cleanup (s <| world := http_cleanup (world s) |> <| http := false |>) else s in
  let s := act Do_free (s <| buf := false |>) in
  let s := match f with Failed stage detail => act (Do_error stage detail) s | Stuck => s end in
  act Do_release (act (Do_banner false) s).

(* src: firmware-ESP32-LTE-M/main/fw_ota.c:637-639 relay_task (locals) *)
Definition relay_start (s : relay) : relay := s <| begun := false |> <| http := false |> <| buf := false |>.

(** The task from its start; the second component is whether it reached [done]. *)
(* src: firmware-ESP32-LTE-M/main/fw_ota.c:634-846 relay_task *)
Definition relay_task (s : relay) : relay * option failure :=
  let s := relay_start s in
  let deadline_us := esp_timer_get_time (world s) + FW_OTA_TIMEOUT_S * 1000000 in
  match (let* hello0 := relay_transfer deadline_us in relay_hello hello0) s with
  | (s, inr _) => (relay_done s, None)
  | (s, inl f) => (relay_fail f s, Some f)
  end.
End Relay.

(** ** What the code relies on

    [peer] is the receiver at the other end of the link, until it restarts.  While a wait
    lasts it may have processed the request, and a response with the request's operation
    and sequence number carries its answer; during everything else the task does time
    passes for it, so that it may discard its session.  A read yields at most what was
    asked for, and a delay is at most one tick short. *)

Class RelayLaws (RW : RelayWorld) (R : XferReceiver) := {
  peer : W -> R_state;
  peer_wait w op seq p ms w' arrived :
    link_wait (link_send w op seq p) ms = (w', arrived) ->
    attempt op p (peer w) (peer w') None /\
    forall r rest, (op, seq, r :: rest) ∈ arrived -> attempt op p (peer w) (peer w') (Some r);
  peer_late w : idles (peer w) (peer (link_late w).1);
  peer_init w : idles (peer w) (peer (http_init w).1);
  peer_open w : idles (peer w) (peer (http_open w).1);
  peer_headers w : idles (peer w) (peer (http_fetch_headers w));
  peer_redirection w : idles (peer w) (peer (http_set_redirection w).1);
  peer_close w : idles (peer w) (peer (http_close w));
  peer_malloc w : idles (peer w) (peer (malloc_ok w).1);
  peer_read w n : idles (peer w) (peer (http_read w n).1)
}.

Class RelayTiming (RW : RelayWorld) := {
  read_bounded w n data : 0 <= n -> (http_read w n).2 = Some data -> Z.of_nat (length data) <= n;
  delay_advances w ms : esp_timer_get_time w + ms * 1000 - 10000 <= esp_timer_get_time (vTaskDelay_ms w ms)
}.

(** ** Requests *)

Section Requests.
Context `{RL : RelayLaws}.

(** The semaphore was given by a response to the request that armed it. *)
Lemma on_resp_spec l r :
  s_resp_sig r = false -> s_resp_armed r = true ->
  let r' := fold_left fw_ota_xfer_on_resp l r in
  s_resp_sig r' = true -> exists rest, (s_resp_op r, s_resp_seq r, s_resp_result r' :: rest) ∈ l.
Proof.
  revert r; induction l as [|[[op q] p] l IH]; intros r Hs Ha; cbn [fold_left]; [congruence|].
  destruct (negb (s_resp_armed r) || negb (op =? s_resp_op r) || negb (q =? s_resp_seq r) || bool_decide (p = [])) eqn:E.
  - assert (fw_ota_xfer_on_resp r (op, q, p) = r) as -> by (unfold fw_ota_xfer_on_resp; rewrite E; done).
    intros H; destruct (IH r Hs Ha H) as [rest Hin]; exists rest; set_solver.
  - assert (fw_ota_xfer_on_resp r (op, q, p) = r <| s_resp_result := byte_at p 0 |> <| s_resp_armed := false |> <| s_resp_sig := true |>)
      as -> by (unfold fw_ota_xfer_on_resp; rewrite E; done); to_prop; intros _; subst op q.
    destruct p as [|b rest]; [done|]; exists rest.
    assert (Hkeep : forall x, s_resp_armed x = false -> fold_left fw_ota_xfer_on_resp l x = x).
    { clear; induction l as [|[[op q] p] l IH]; intros x Hx; cbn [fold_left]; [done|].
      assert (fw_ota_xfer_on_resp x (op, q, p) = x) as -> by (unfold fw_ota_xfer_on_resp; rewrite Hx; done); auto. }
    rewrite Hkeep by done; cbn; set_solver.
Qed.

Lemma attempt_idles op p x y z : attempt op p x y None -> idles y z -> attempt op p x z None.
Proof.
  intros H Hi; inversion H as [? ? H1|? s1 s2 ? r b H1 H2 H3|]; subst.
  - apply Att_lost; etransitivity; eauto.
  - eapply Att_silent; eauto; etransitivity; eauto.
Qed.

Lemma try_attempt op p ms s s' ro :
  xfer_try op p ms s = (s', ro) ->
  hashed s' = hashed s /\ attempt op p (peer (world s)) (peer (world s')) ro.
Proof.
  unfold xfer_try; intros E; cbn [world rseq rsp act upd] in E.
  destruct (link_wait _ ms) as [w1 l1] eqn:E1; destruct (peer_wait _ _ _ _ _ _ _ E1) as [Hn Hr].
  unfold deliver in E; cbn [world rsp upd] in E; set (r1 := fold_left _ l1 _) in E.
  destruct (s_resp_sig r1) eqn:Es.
  - injection E as <- <-; split; [done|].
    destruct (on_resp_spec l1 (Resp false true op (u8 (rseq s + 1)) 255) eq_refl eq_refl Es) as [rest Hin]; eapply Hr, Hin.
  - destruct (link_late w1) as [w2 l2] eqn:E2; injection E as <- <-; split; [done|].
    pose proof (peer_late w1) as Hp; rewrite E2 in Hp; cbn in Hp |- *; eapply attempt_idles; eauto.
Qed.

(** One request is an [exchange] of the contract, whatever was lost. *)
Lemma send_req_exchange op p ms s s' r :
  xfer_send_req op p ms s = (s', r) ->
  hashed s' = hashed s /\
  exists ro, exchange op p (peer (world s)) (peer (world s')) ro /\ (r <> 255 -> ro = Some r).
Proof.
  unfold xfer_send_req; cbn [xfer_attempts]; intros E.
  destruct (xfer_try op p ms s) as [s1 ro1] eqn:E1; apply try_attempt in E1 as [H1 A1].
  destruct ro1 as [r1|]; [simplify_eq; split; [done|]; exists (Some r); split; [by constructor|done]|].
  destruct (xfer_try op p ms s1) as [s2 ro2] eqn:E2; apply try_attempt in E2 as [H2 A2].
  assert (Hex : exchange op p (peer (world s)) (peer (world s2)) ro2) by (eapply Ex_second; eauto).
  destruct ro2 as [r2|]; simplify_eq; split; try congruence; eauto.
  exists None; split; [done|congruence].
Qed.

Lemma request_spec stage op p ms (P : R_state -> list Z -> Prop) (Q : R_state -> list Z -> Prop) :
  (forall x y l, P x l -> exchange op p x y (Some WUPS_FW_XFER_OK) -> Q y l) ->
  triple (fun s => P (peer (world s)) (hashed s)) (request stage op p ms)
         (fun _ s => Q (peer (world s)) (hashed s)) (fun _ _ => True).
Proof.
  intros H s Hs; unfold request; destruct (xfer_send_req _ _ _ _) as [s' r] eqn:E.
  destruct (send_req_exchange _ _ _ _ _ _ E) as (Hh & ro & Hex & Hr).
  destruct (Z.eqb_spec r WUPS_FW_XFER_OK) as [->|]; [|done].
  rewrite Hr in Hex by done; rewrite Hh; eapply H; eauto.
Qed.
(** The size of the next chunk. *)
Lemma chunk_size (data : list Z) :
  data <> [] -> Z.of_nat (length data) <= FW_RELAY_HTTP_BUF ->
  let n := u16 (Z.of_nat (length data)) in
  let n := if WUPS_FW_XFER_CHUNK <? n then WUPS_FW_XFER_CHUNK else n in
  0 < n <= WUPS_FW_XFER_CHUNK /\ n <= Z.of_nat (length data).
Proof.
  intros Hd Hl; assert (0 < Z.of_nat (length data)) by (destruct data; [done|cbn; lia]).
  unfold FW_RELAY_HTTP_BUF in *; rewrite u16_small by lia; change WUPS_FW_XFER_CHUNK with 236.
  cbv zeta; destruct (Z.ltb_spec 236 (Z.of_nat (length data))); lia.
Qed.

End Requests.

(** ** The transfer *)

Section Transfer.
Context `{RL : RelayLaws} `{!RelayTiming RW}.
Context (len : Z) (sha : list Z).
Context (Htarget : R_target = WUPS_FW_TARGET_RP2040) (Hlen : is_u32 len) (Hsha : length sha = 32%nat).
#[local] Set Default Proof Using "Type*".

(** The receiver has accepted [img] of the announced image, unless it has given up, and the
    digest has absorbed [img] and [rest]. *)
Definition sending (img rest : list Z) (s : relay) : Prop :=
  maybe (peer (world s)) (Session len sha img) /\ hashed s = img ++ rest.

Definition opened (s : relay) : Prop := maybe (peer (world s)) (Session len sha []).

Lemma relay_begin_spec a :
  triple (fun s => R_session (peer (world s)) a) (relay_begin len sha) (fun _ => opened) (fun _ _ => True).
Proof.
  unfold relay_begin; apply (triple_bind _ _ _ (fun _ => opened)); [|intros []; apply triple_put; intros s H; exact H].
  eapply (request_spec _ _ _ _ (fun x _ => R_session x a) (fun x _ => maybe x (Session len sha []))).
  intros x y _ Hx Hex; rewrite <- Htarget in Hex; eapply begin_exchange; eauto.
Qed.

Lemma relay_hops_spec n status : triple opened (relay_hops n status) (fun _ => opened) (fun _ _ => True).
Proof.
  revert status; induction n as [|n IH]; intros status s Hs; cbn [relay_hops]; [exact Hs|].
  pose proof (peer_open (world s)) as H1; destruct (http_open (world s)) as [w1 err]; destruct err as [name|]; [done|].
  cbn [world upd fst] in *; pose proof (peer_headers w1) as H2.
  assert (Hs2 : maybe (peer (http_fetch_headers w1)) (Session len sha []))
    by (eapply idles_maybe; [exact H2|]; eapply idles_maybe; [exact H1|exact Hs]).
  destruct (negb _); [exact Hs2|]; pose proof (peer_redirection (http_fetch_headers w1)) as H3.
  destruct (http_set_redirection _) as [w3 ok]; destruct ok; cbn [negb]; [|done]; cbn [fst world upd] in *.
  apply IH; unfold opened; cbn; eapply idles_maybe; [apply peer_close|]; eapply idles_maybe; [exact H3|exact Hs2].
Qed.

Lemma relay_open_spec : triple opened relay_open (fun _ => sending [] []) (fun _ _ => True).
Proof.
  intros s Hs; unfold relay_open; pose proof (peer_init (world s)) as H1.
  destruct (http_init (world s)) as [w1 ok]; destruct ok; cbn [negb]; [|done]; cbn [fst] in H1.
  assert (Hs1 : opened (s <| world := w1 |> <| http := true |>)) by (unfold opened; cbn; eapply idles_maybe; [exact H1|exact Hs]).
  refine (triple_at opened _ (fun _ => sending [] []) (fun _ _ => True) _ Hs1 _).
  eapply triple_bind; [apply relay_hops_spec|]; intros status.
  eapply (triple_bind _ _ _ (fun _ => opened)); [destruct (_ =? _); [intros x Hx; exact Hx|intros x _; exact I]|].
  clear s w1 Hs H1 Hs1; intros _ s Hs; pose proof (peer_malloc (world s)) as H2; destruct (malloc_ok (world s)) as [w2 ok].
  destruct ok; cbn [negb]; [|exact I]; split; [|done]; cbn in *; eapply idles_maybe; [exact H2|exact Hs].
Qed.

Lemma relay_chunks_spec fuel img data :
  Z.of_nat (length data) <= FW_RELAY_HTTP_BUF -> Z.of_nat (length (img ++ data)) < 4294967296 ->
  triple (sending img data) (relay_chunks fuel (Z.of_nat (length img)) data)
         (fun sent s => sent = Z.of_nat (length (img ++ data)) /\ sending (img ++ data) [] s) (fun _ _ => True).
Proof.
  revert img data; induction fuel as [|fuel IH]; intros img data Hb Hl; cbn [relay_chunks]; case_bool_decide as Hd.
  - subst data; rewrite app_nil_r; intros s Hs; split; done.
  - intros s _; exact I.
  - subst data; rewrite app_nil_r; intros s Hs; split; done.
  - pose proof (chunk_size data Hd Hb) as Hn; cbv zeta in Hn; set (n := if _ <? _ then _ else _) in *; clearbody n.
    rewrite length_app in Hl; set (c := take (Z.to_nat n) data).
    assert (Hcd : c ++ drop (Z.to_nat n) data = data) by apply take_drop.
    assert (Hc : Z.of_nat (length c) = n) by (subst c; rewrite length_take_le by lia; lia).
    eapply (triple_bind _ _ _ (fun _ => sending (img ++ c) (drop (Z.to_nat n) data))).
    + eapply triple_conseq; [eapply (request_spec _ _ _ _
        (fun x l => maybe x (Session len sha img) /\ l = img ++ data)
        (fun y l => maybe y (Session len sha (img ++ c)) /\ l = img ++ data))|..]; [|done| |done].
      * intros x y l [Hx ->] Hex; split; [|done].
        apply (data_exchange _ (Session len sha img) (Z.of_nat (length img)) c) in Hex; [exact Hex|lia|lia|done|done].
      * intros _ s [Hs Hh]; split; [exact Hs|]; rewrite Hh, <- app_assoc, Hcd; done.
    + intros _; rewrite u32_small by lia.
      specialize (IH (img ++ c) (drop (Z.to_nat n) data)); rewrite <- (app_assoc img), Hcd in IH.
      replace (Z.of_nat (length (img ++ c))) with (Z.of_nat (length img) + n) in IH by (rewrite length_app; lia).
      apply IH; [rewrite length_drop; lia|rewrite length_app; lia].
Qed.

(** Announcements leave everything but the log of actions as it is. *)
Lemma relay_progress_spec img rest sent last :
  triple (sending img rest) (relay_progress len sent last) (fun _ => sending img rest) (fun _ _ => True).
Proof. intros s Hs; unfold relay_progress; destruct (_ && _); exact Hs. Qed.

Lemma relay_stream_spec fuel deadline img last :
  Z.of_nat (length img) <= len ->
  triple (sending img []) (relay_stream len fuel deadline (Z.of_nat (length img)) last)
         (fun _ s => exists img', sending img' [] s /\ Z.of_nat (length img') = len) (fun _ _ => True).
Proof.
  revert img last; induction fuel as [|fuel IH]; intros img last Hi; cbn [relay_stream].
  - destruct (Z.ltb_spec (Z.of_nat (length img)) len); [intros s _; exact I|intros s Hs; exists img; split; [done|lia]].
  - destruct (Z.ltb_spec (Z.of_nat (length img)) len); cbn [negb]; [|intros s Hs; exists img; split; [done|lia]].
    intros s [Hs Hh]; destruct (_ <=? _); [exact I|].
    rewrite u32_small by lia; set (want := if _ <? _ then _ else _).
    assert (Hw : 0 < want <= FW_RELAY_HTTP_BUF /\ want <= len - Z.of_nat (length img)).
    { subst want; unfold FW_RELAY_HTTP_BUF; destruct (Z.ltb_spec 2048 (len - Z.of_nat (length img))); lia. }
    clearbody want; pose proof (peer_read (world s) want) as Hp; pose proof (read_bounded (world s) want) as Hb.
    destruct (http_read (world s) want) as [w1 [[|b data]|]]; [exact I| |exact I]; cbn [fst snd] in *.
    specialize (Hb _ ltac:(lia) eq_refl); set (d := b :: data) in *.
    match goal with |- context [bind _ _ ?s2] => assert (Hs2 : sending img d s2) end.
    { split; cbn; [eapply idles_maybe; [exact Hp|exact Hs]|rewrite Hh, app_nil_r; done]. }
    refine (triple_at (sending img d) _ (fun _ s => exists img', sending img' [] s /\ Z.of_nat (length img') = len) (fun _ _ => True) _ Hs2 _).
    eapply triple_bind; [apply relay_chunks_spec; [lia|rewrite length_app; lia]|].
    intros sent s3 [-> H3]; refine (triple_at (sending (img ++ d) []) _ _ _ _ H3 _).
    eapply triple_bind; [apply relay_progress_spec|intros l; apply IH; rewrite length_app; lia].
Qed.

Lemma relay_verify_spec img :
  triple (sending img []) (relay_verify sha) (fun _ s => sending img [] s /\ stream_sha256 img = sha) (fun _ _ => True).
Proof.
  intros s Hs; pose proof Hs as [_ Hh]; unfold relay_verify, bind; rewrite app_nil_r in Hh; rewrite Hh.
  case_bool_decide; [split; done|exact I].
Qed.

(** The END request, from the state before it. *)
Definition committed (s0 s1 : relay) : Prop :=
  xfer_send_req WUPS_OP_NET_FW_XFER_END (xfer_end_bytes 1) FW_RELAY_END_TIMEOUT_MS s0 = (s1, WUPS_FW_XFER_OK) /\
  Z.of_nat (length (hashed s1)) = len /\ stream_sha256 (hashed s1) = sha /\
  R_hash (hashed s1) = sha /\ R_installed (peer (world s1)) (hashed s1).

Lemma relay_commit_spec img :
  triple (fun s => sending img [] s /\ Z.of_nat (length img) = len /\ stream_sha256 img = sha) relay_commit
    (fun hello0 s => exists s0 s1, committed s0 s1 /\ hello0 = hello_count (world s0) /\
                                   s = act (Do_status (str "rebooting")) s1)
    (fun _ _ => True).
Proof.
  intros s ([Hs Hh] & Hlen' & Hv); unfold relay_commit; destruct (xfer_send_req _ _ _ _) as [s' r] eqn:E.
  destruct (send_req_exchange _ _ _ _ _ _ E) as (Hh' & ro & Hex & Hr).
  destruct (Z.eqb_spec r WUPS_FW_XFER_OK) as [->|]; [|exact I]; rewrite Hr in Hex by done.
  apply (end_exchange _ _ _ Hs) in Hex; cbn [a_len a_sha a_img] in Hex; destruct Hex as (? & ? & ?).
  rewrite app_nil_r in Hh; exists s, s'; split; [|done]; unfold committed; rewrite Hh', Hh; done.
Qed.

Lemma relay_transfer_spec a deadline :
  triple (fun s => R_session (peer (world s)) a) (relay_transfer len sha deadline)
    (fun hello0 s => exists s0 s1, committed s0 s1 /\ hello0 = hello_count (world s0) /\
                                   s = act (Do_status (str "rebooting")) s1) (fun _ _ => True).
Proof.
  unfold relay_transfer.
  eapply (triple_bind _ _ _ (fun _ s => R_session (peer (world s)) a)); [intros s Hs; exact Hs|intros []].
  eapply triple_bind; [apply relay_begin_spec|intros []].
  eapply triple_bind; [apply relay_open_spec|intros []].
  eapply triple_bind; [apply (relay_stream_spec _ _ []); cbn; lia|intros [] s (img & Hs & Hl)].
  refine (triple_at (sending img []) _ _ _ _ Hs _).
  eapply triple_bind; [apply relay_verify_spec|intros [] s1 [Hs1 Hv]].
  refine (triple_at _ _ _ _ _ _ (relay_commit_spec img)); done.
Qed.

Lemma await_seen n deadline hello0 s s' :
  relay_await_hello n deadline hello0 s = (s', inr true) -> hello_count (world s') <> hello0.
Proof.
  revert s; induction n as [|n IH]; intros s; cbn [relay_await_hello];
    (destruct (negb (_ <? _)); [done|]); (destruct (Z.eqb_spec (hello_count (world s)) hello0); [|intros; simplify_eq/=; done]); cbn [negb].
  - done.
  - apply IH.
Qed.

Lemma hello_seen hello0 s s' u : relay_hello hello0 s = (s', inr u) -> hello_count (world s') <> hello0.
Proof.
  unfold relay_hello; intros (s1 & b & E1 & E2)%bind_inv; destruct b; [|done].
  injection E2 as <- _; apply await_seen in E1; exact E1.
Qed.

(** C24: When the relay reports success, the receiver has answered a commit with OK that
    installed exactly the bytes that were streamed: they have the commanded length and
    digest, under the relay's hash and under the receiver's, whatever requests and answers
    were lost and repeated on the way and although the receiver may discard its session
    whenever it likes; and more hellos of the receiver have been counted than before that
    commit was sent. *)
Theorem relay_installs s a s' :
  R_session (peer (world s)) a -> relay_task len sha s = (s', None) ->
  exists s0 s1 s2,
    relay_transfer len sha (esp_timer_get_time (world s) + FW_OTA_TIMEOUT_S * 1000000) (relay_start s) =
      (act (Do_status (str "rebooting")) s1, inr (hello_count (world s0))) /\
    xfer_send_req WUPS_OP_NET_FW_XFER_END (xfer_end_bytes 1) FW_RELAY_END_TIMEOUT_MS s0 = (s1, WUPS_FW_XFER_OK) /\
    Z.of_nat (length (hashed s1)) = len /\ stream_sha256 (hashed s1) = sha /\
    R_hash (hashed s1) = sha /\ R_installed (peer (world s1)) (hashed s1) /\
    relay_hello (hello_count (world s0)) (act (Do_status (str "rebooting")) s1) = (s2, inr tt) /\
    hello_count (world s2) <> hello_count (world s0) /\ s' = relay_done s2.
Proof.
  intros Hs E; unfold relay_task in E; set (deadline := esp_timer_get_time _ + _) in E.
  destruct (bind _ _ _) as [s2 [f|[]]] eqn:Eb; injection E as <-; [done|]; apply bind_inv in Eb as (s1 & hello0 & E1 & E2).
  pose proof (relay_transfer_spec a deadline (relay_start s) Hs) as H; rewrite E1 in H.
  destruct H as (s0 & s3 & (C1 & C2 & C3 & C4 & C5) & -> & ->); exists s0, s3, s2.
  split; [exact E1|]; split_and!; try done; eapply hello_seen, E2.
Qed.
End Transfer.

(** ** Every run ends *)

Section Endings.
Context `{RT : RelayTiming} (sha : list Z).
#[local] Set Default Proof Using "Type*".

Definition commit_request (q : Z) : ract := Do_request WUPS_OP_NET_FW_XFER_END q (xfer_end_bytes 1).

(** What the task does before its end: it reports neither success nor a failure, and keeps
    the slot. *)
Definition ongoing (a : ract) : Prop :=
  match a with Do_error _ _ | Do_release => False | Do_status st => st <> str "done" | _ => True end.
Definition quiet (s : relay) : Prop := Forall ongoing (racts s).

(** The task goes on and has requested no commit so far. *)
Definition open_run (s : relay) : Prop := quiet s /\ forall q, commit_request q ∉ racts s.

(** The task goes on; a commit was requested of what the digest accepted. *)
Definition ending (s : relay) : Prop :=
  quiet s /\ forall q, commit_request q ∈ racts s -> stream_sha256 (hashed s) = sha.

Definition not_stuck (f : failure) (s : relay) : Prop := f <> Stuck /\ ending s.

Lemma open_ending s : open_run s -> ending s.
Proof. intros [H1 H2]; split; [done|]; intros q Hq; destruct (H2 q Hq). Qed.

Lemma try_acts op p ms s s' ro :
  xfer_try op p ms s = (s', ro) ->
  hashed s' = hashed s /\ http s' = http s /\ exists q, racts s' = racts s ++ [Do_request op q p].
Proof.
  unfold xfer_try, deliver, act; intros E; cbn [world rseq rsp upd] in E.
  destruct (link_wait _ ms) as [w1 l1]; cbn [rsp upd] in E; destruct (s_resp_sig _).
  - injection E as <- _; split_and!; [done..|eexists; reflexivity].
  - destruct (link_late _) as [w2 l2]; injection E as <- _; split_and!; [done..|eexists; reflexivity].
Qed.

Lemma send_req_acts op p ms s s' r :
  xfer_send_req op p ms s = (s', r) ->
  hashed s' = hashed s /\ http s' = http s /\
  exists l, racts s' = racts s ++ l /\ Forall (fun a => exists q, a = Do_request op q p) l.
Proof.
  unfold xfer_send_req; cbn [xfer_attempts]; intros E.
  destruct (xfer_try op p ms s) as [s1 [r1|]] eqn:E1; apply try_acts in E1 as (Hh1 & Hp1 & q1 & H1).
  { simplify_eq; split_and!; [done..|]; eexists; split; [exact H1|]; repeat constructor; eauto. }
  destruct (xfer_try op p ms s1) as [s2 [r2|]] eqn:E2; apply try_acts in E2 as (Hh2 & Hp2 & q2 & H2);
    simplify_eq; (split; [congruence|split; [congruence|]]);
    exists [Do_request op q1 p; Do_request op q2 p]; (split; [rewrite H2, H1, <- app_assoc; done|repeat constructor; eauto]).
Qed.

Lemma requests_ongoing op p l l' :
  Forall ongoing l -> Forall (fun a => exists q, a = Do_request op q p) l' -> Forall ongoing (l ++ l').
Proof.
  intros H1 H2; apply Forall_app; split; [exact H1|]; eapply Forall_impl; [exact H2|]; intros a [q ->]; exact I.
Qed.

Lemma quiet_act a s : ongoing a -> quiet s -> quiet (act a s).
Proof. intros Ha Hs; apply Forall_app; split; [exact Hs|constructor; [exact Ha|constructor]]. Qed.

Lemma send_req_open op p ms s s' r :
  (op, p) <> (WUPS_OP_NET_FW_XFER_END, xfer_end_bytes 1) -> open_run s -> xfer_send_req op p ms s = (s', r) -> open_run s'.
Proof.
  intros Hne [H1 H2] E; destruct (send_req_acts _ _ _ _ _ _ E) as (_ & _ & l & Hl & Hq).
  split; [unfold quiet|]; rewrite Hl; [eapply requests_ongoing; eauto|]; rewrite Forall_forall in Hq.
  intros q [H|H]%elem_of_app; [destruct (H2 _ H)|]; destruct (Hq _ H) as [q' E']; unfold commit_request in E'; congruence.
Qed.

Lemma send_req_ending op p ms s s' r :
  ((op, p) <> (WUPS_OP_NET_FW_XFER_END, xfer_end_bytes 1) \/ stream_sha256 (hashed s) = sha) ->
  ending s -> xfer_send_req op p ms s = (s', r) -> ending s'.
Proof.
  intros Hne [H1 H2] E; destruct (send_req_acts _ _ _ _ _ _ E) as (Hh & _ & l & Hl & Hq).
  split; [unfold quiet|]; rewrite Hl; [eapply requests_ongoing; eauto|]; rewrite Forall_forall in Hq.
  rewrite Hh; intros q [H|H]%elem_of_app; [eauto|]; destruct (Hq _ H) as [q' E'].
  destruct Hne as [Hne|?]; [|done]; unfold commit_request in E'; congruence.
Qed.

Lemma request_open stage op p ms :
  (op, p) <> (WUPS_OP_NET_FW_XFER_END, xfer_end_bytes 1) ->
  triple open_run (request stage op p ms) (fun _ => open_run) not_stuck.
Proof.
  intros Hne s Hs; unfold request; destruct (xfer_send_req op p ms s) as [s' r] eqn:E.
  pose proof (send_req_open _ _ _ _ _ _ Hne Hs E); destruct (_ =? _); [done|split; [done|by apply open_ending]].
Qed.

Lemma act_open a s : ongoing a -> (forall q, a <> commit_request q) -> open_run s -> open_run (act a s).
Proof. intros H1 H2 [H3 H4]; split; [apply quiet_act; done|]; cbn; intros q [H|H]%elem_of_app; [exact (H4 q H)|]; apply list_elem_of_singleton in H; exact (H2 q (eq_sym H)). Qed.

(** What changes neither the log nor the digest. *)
Definition silent (s s' : relay) : Prop := racts s' = racts s /\ hashed s' = hashed s.
Lemma silent_open s s' : silent s s' -> open_run s -> open_run s'.
Proof. intros [E _] [H1 H2]; split; [unfold quiet|]; rewrite E; done. Qed.

Lemma fail_open stage detail s : open_run s -> not_stuck (Failed stage detail) s.
Proof. intros H; split; [done|by apply open_ending]. Qed.
#[local] Hint Resolve fail_open : core.

Lemma relay_commit_ending :
  triple (fun s => open_run s /\ stream_sha256 (hashed s) = sha) relay_commit (fun _ => ending) not_stuck.
Proof.
  intros s [Hs Hv]; unfold relay_commit; destruct (xfer_send_req _ _ _ _) as [s' r] eqn:E.
  apply send_req_ending in E; [|auto|by apply open_ending]; destruct (_ =? _).
  - destruct E as [E1 E2]; split; [apply quiet_act; done|]; cbn; intros q [H|H]%elem_of_app; [exact (E2 q H)|set_solver].
  - split; done.
Qed.

(** A turn lasts at least 240 ms, so that 375 of them reach the deadline. *)
Lemma relay_await_ending n deadline hello0 :
  triple (fun s => ending s /\ deadline - esp_timer_get_time (world s) <= 240000 * Z.of_nat n)
    (relay_await_hello n deadline hello0) (fun _ => ending) not_stuck.
Proof.
  induction n as [|n IH]; intros s [Hs Ht]; cbn [relay_await_hello].
  - rewrite (proj2 (Z.ltb_ge _ _)) by lia; exact Hs.
  - destruct (negb _); [exact Hs|]; destruct (negb _); [exact Hs|].
    apply IH; split; [exact Hs|]; cbn; pose proof (delay_advances (world s) 250); lia.
Qed.

(** Success has just been reported. *)
Definition finished (s : relay) : Prop :=
  (exists l, racts s = l ++ [Do_status (str "done")] /\ Forall ongoing l) /\
  forall q, commit_request q ∈ racts s -> stream_sha256 (hashed s) = sha.

Lemma relay_hello_ending hello0 : triple ending (relay_hello hello0) (fun _ => finished) not_stuck.
Proof.
  intros s Hs; unfold relay_hello; set (t := esp_timer_get_time (world s) + _).
  refine (triple_at (fun x => ending x /\ t - esp_timer_get_time (world x) <= 240000 * Z.of_nat 375) _ _ _ _ (conj Hs _) _);
    [subst t; unfold FW_RELAY_HELLO_TIMEOUT_MS; lia|].
  eapply triple_bind; [apply relay_await_ending|]; intros [] x Hx; [|split; [done|exact Hx]].
  destruct Hx as [H1 H2]; split; [eexists; split; [reflexivity|exact H1]|]; cbn.
  intros q [H|H]%elem_of_app; [exact (H2 q H)|set_solver].
Qed.

Context (len : Z) (Hlen : is_u32 len).

Lemma relay_begin_open : triple open_run (relay_begin len sha) (fun _ => open_run) not_stuck.
Proof.
  unfold relay_begin; eapply triple_bind; [apply request_open; done|intros []; apply triple_put].
  intros s; apply silent_open; done.
Qed.

Lemma relay_hops_open n status : triple open_run (relay_hops n status) (fun _ => open_run) not_stuck.
Proof.
  revert status; induction n as [|n IH]; intros status s Hs; cbn [relay_hops]; [exact Hs|].
  destruct (http_open (world s)) as [w1 [name|]]; [apply fail_open, Hs|]; cbn [world upd].
  destruct (negb _); [exact Hs|]; destruct (http_set_redirection _) as [w3 ok]; destruct ok; cbn [negb]; [|apply fail_open, Hs].
  apply IH; exact Hs.
Qed.

Lemma relay_open_open : triple open_run relay_open (fun _ => open_run) not_stuck.
Proof.
  intros s Hs; unfold relay_open; destruct (http_init (world s)) as [w1 ok]; destruct ok; cbn [negb]; [|apply fail_open, Hs].
  match goal with |- context [bind _ _ ?s1] => assert (Hs1 : open_run s1) by exact Hs end.
  refine (triple_at open_run _ (fun _ => open_run) not_stuck _ Hs1 _).
  eapply triple_bind; [apply relay_hops_open|]; intros status.
  eapply (triple_bind _ _ _ (fun _ => open_run)).
  { destruct (_ =? _); [intros x Hx; exact Hx|intros x Hx; apply fail_open, Hx]. }
  intros [] x Hx; destruct (malloc_ok (world x)) as [w2 []]; cbn [negb]; [exact Hx|apply fail_open, Hx].
Qed.

Lemma relay_chunks_open fuel sent data :
  (length data <= fuel)%nat -> Z.of_nat (length data) <= FW_RELAY_HTTP_BUF -> is_u32 (sent + Z.of_nat (length data)) -> 0 <= sent ->
  triple open_run (relay_chunks fuel sent data)
    (fun sent' s => sent' = sent + Z.of_nat (length data) /\ open_run s) not_stuck.
Proof.
  revert sent data; induction fuel as [|fuel IH]; intros sent data Hf Hb Hs H0; cbn [relay_chunks]; case_bool_decide as Hd.
  - subst data; intros s Hx; split; [cbn; lia|exact Hx].
  - destruct data; [done|cbn in Hf; lia].
  - subst data; intros s Hx; split; [cbn; lia|exact Hx].
  - pose proof (chunk_size data Hd Hb) as Hn; cbv zeta in Hn; set (n := if _ <? _ then _ else _) in *; clearbody n.
    eapply triple_bind; [apply request_open; done|intros []]; rewrite u32_small by lia.
    eapply triple_conseq; [apply IH; rewrite ?length_drop; lia|done| |done].
    intros sent' s [-> Hx]; split; [rewrite length_drop; lia|exact Hx].
Qed.

Lemma relay_progress_open sent last : triple open_run (relay_progress len sent last) (fun _ => open_run) not_stuck.
Proof. intros s Hs; unfold relay_progress; destruct (_ && _); [apply act_open; done|exact Hs]. Qed.

Lemma relay_stream_open fuel deadline sent last :
  0 <= sent <= len -> len - sent <= Z.of_nat fuel ->
  triple open_run (relay_stream len fuel deadline sent last) (fun _ => open_run) not_stuck.
Proof.
  revert sent last; induction fuel as [|fuel IH]; intros sent last Hs Hf; cbn [relay_stream].
  - rewrite (proj2 (Z.ltb_ge _ _)) by lia; intros s Hx; exact Hx.
  - destruct (Z.ltb_spec sent len); cbn [negb]; [|intros s Hx; exact Hx].
    intros s Hx; destruct (_ <=? _); [apply fail_open, Hx|].
    rewrite u32_small by lia; set (want := if _ <? _ then _ else _).
    assert (Hw : 0 < want <= FW_RELAY_HTTP_BUF /\ want <= len - sent).
    { subst want; unfold FW_RELAY_HTTP_BUF; destruct (Z.ltb_spec 2048 (len - sent)); lia. }
    clearbody want; pose proof (read_bounded (world s) want) as Hb.
    destruct (http_read (world s) want) as [w1 [[|b data]|]]; [apply fail_open, Hx| |apply fail_open, Hx]; cbn [fst snd] in *.
    specialize (Hb _ ltac:(lia) eq_refl); set (d := b :: data) in *.
    match goal with |- context [bind _ _ ?s2] => assert (Hs2 : open_run s2) by exact Hx end.
    refine (triple_at open_run _ (fun _ => open_run) not_stuck _ Hs2 _).
    eapply triple_bind; [apply relay_chunks_open; lia|].
    intros sent' s3 [-> H3]; refine (triple_at open_run _ _ _ _ H3 _).
    eapply triple_bind; [apply relay_progress_open|intros l; apply IH; subst d; cbn [length] in *; lia].
Qed.

Lemma relay_verify_open :
  triple open_run (relay_verify sha) (fun _ s => open_run s /\ stream_sha256 (hashed s) = sha) not_stuck.
Proof.
  intros s Hs; unfold relay_verify, bind; case_bool_decide; [|apply fail_open, Hs].
  split; [apply act_open; done|done].
Qed.

Lemma relay_run_ending deadline :
  triple open_run (let* hello0 := relay_transfer len sha deadline in relay_hello hello0)
    (fun _ => finished) not_stuck.
Proof.
  eapply (triple_bind _ _ _ (fun _ => ending)); [|intros hello0; apply relay_hello_ending].
  unfold relay_transfer.
  eapply (triple_bind _ _ _ (fun _ => open_run)); [|intros []].
  { intros s Hs; apply act_open; [done..|]; apply act_open; done. }
  eapply triple_bind; [apply relay_begin_open|intros []].
  eapply triple_bind; [apply relay_open_open|intros []].
  eapply triple_bind; [apply relay_stream_open; lia|intros []].
  eapply triple_bind; [apply relay_verify_open|intros []].
  apply relay_commit_ending.
Qed.

(** What is left on an exit: the HTTP client and the buffer are released, and a commit was
    requested only of what the digest accepted. *)
Definition closed_down (s : relay) : Prop :=
  http s = false /\ buf s = false /\
  forall q, commit_request q ∈ racts s -> stream_sha256 (hashed s) = sha.

Lemma act_ending a s : ongoing a -> (forall q, a <> commit_request q) -> ending s -> ending (act a s).
Proof.
  intros H1 H2 [H3 H4]; split; [apply quiet_act; done|]; cbn.
  intros q [H|H]%elem_of_app; [exact (H4 q H)|]; apply list_elem_of_singleton in H; destruct (H2 q); done.
Qed.

Lemma commits_app s l l' :
  racts s = l ++ l' -> Forall (fun a => forall q, a <> commit_request q) l' ->
  (forall q, commit_request q ∈ l -> stream_sha256 (hashed s) = sha) ->
  forall q, commit_request q ∈ racts s -> stream_sha256 (hashed s) = sha.
Proof.
  intros -> Hl H q [Hq|Hq]%elem_of_app; [exact (H q Hq)|]; rewrite Forall_forall in Hl; destruct (Hl _ Hq q); done.
Qed.

(** C25: The relay always ends, and ends cleanly: for every behaviour of the HTTP server,
    the heap and the link, whatever exit it takes, the HTTP client and the buffer are
    released, and a commit was requested of the receiver only if the digest of the bytes
    streamed is the commanded one.  On success it reports it once and never a failure; on
    any other exit it reports exactly one failure, the one it stopped for, and never
    success; and the last thing it does is to release the slot, once. *)
Theorem relay_ends_cleanly s s' r :
  open_run s -> relay_task len sha s = (s', r) ->
  closed_down s' /\
  exists l, Forall ongoing l /\
  match r with
  | None => racts s' = l ++ [Do_status (str "done"); Do_cleanup; Do_free; Do_banner false; Do_release]
  | Some (Failed stage detail) => racts s' = l ++ [Do_free; Do_error stage detail; Do_banner false; Do_release]
  | Some Stuck => False
  end.
Proof.
  intros Hs E; unfold relay_task in E; assert (Hs0 : open_run (relay_start s)) by exact Hs.
  pose proof (relay_run_ending (esp_timer_get_time (world (relay_start s)) + FW_OTA_TIMEOUT_S * 1000000) _ Hs0) as H.
  destruct (bind _ _ _) as [s1 [f|[]]]; injection E as <- <-.
  - destruct H as [Hf He]; unfold relay_fail; set (s2 := if begun s1 then _ else _).
    assert (He2 : ending s2).
    { subst s2; destruct (begun s1); [|exact He]; unfold relay_send_abort; destruct (xfer_send_req _ _ _ _) eqn:E.
      refine (send_req_ending _ _ _ _ _ _ (or_introl _) He E); discriminate. }
    clearbody s2; set (s3 := if http s2 then _ else _).
    assert (He3 : ending s3 /\ http s3 = false).
    { subst s3; destruct (http s2) eqn:Eh; [split; [apply act_ending; done|done]|done]. }
    clearbody s3; destruct He3 as [[Hq3 Hc3] Hh3], f as [stage detail|]; [|done].
    match goal with |- closed_down ?x /\ _ => assert (Ex : racts x = racts s3 ++ [Do_free; Do_error stage detail; Do_banner false; Do_release])
      by (cbn; rewrite <- !app_assoc; done) end.
    split; [split_and!; [exact Hh3|done|]|exists (racts s3); split; [exact Hq3|exact Ex]].
    eapply commits_app; [exact Ex|repeat constructor; done|exact Hc3].
  - destruct H as [(l & El & Hl) Hc]; unfold relay_done.
    match goal with |- closed_down ?x /\ _ => assert (Ex : racts x = racts s1 ++ [Do_cleanup; Do_free; Do_banner false; Do_release])
      by (cbn; rewrite <- !app_assoc; done) end.
    split; [split_and!; [done|done|]|exists l; split; [exact Hl|rewrite Ex, El, <- app_assoc; done]].
    eapply commits_app; [exact Ex|repeat constructor; done|exact Hc].
Qed.
End Endings.

(** ** A reference world

    The receiver of the contract itself, a body to download, and a fate for every request
    sent. *)

Definition count_digest (d : list Z) : list Z := replicate 32 (u8 (Z.of_nat (length d))).

Definition serve (s : option asession * option (list Z)) (op : Z) (p : list Z) : (option asession * option (list Z)) * Z * bool :=
  let '(a, img) := s in
  if op =? WUPS_OP_NET_FW_XFER_BEGIN then
    let b := read_xfer_begin p in (Some (Session (xb_image_len b) (xb_sha256 b) []), img, WUPS_FW_XFER_OK, false)
  else match a with
  | None => (None, img, WUPS_FW_XFER_BAD_REQ, false)
  | Some x =>
      if op =? WUPS_OP_NET_FW_XFER_DATA then
        if read_xfer_offset p =? Z.of_nat (length (a_img x)) then (Some (append x (drop 4 p)), img, WUPS_FW_XFER_OK, false)
        else (None, img, WUPS_FW_XFER_SEQ_MISMATCH, false)
      else if bool_decide (Z.of_nat (length (a_img x)) = a_len x /\ count_digest (a_img x) = a_sha x)
           then (None, Some (a_img x), WUPS_FW_XFER_OK, true)
           else (None, img, WUPS_FW_XFER_VERIFY_FAIL, false)
  end.

#[export] Instance reference_receiver : XferReceiver.
Proof.
  refine {| R_target := WUPS_FW_TARGET_RP2040; R_hash := count_digest;
            R_request s op p s' r b := serve s op p = (s', r, b); R_session s a := s.1 = a;
            R_installed s img := s.2 = Some img; R_idle s s' := s' = (None, s.2) |}.
  - unfold WUPS_FW_TARGET_RP2040; lia.
  - intros s s' a _ ->; right; done.
  - intros s s' img _ H ->; exact H.
  - intros [a0 i] a len sha s' r b Hl Hs Ha E; unfold serve in E; rewrite Z.eqb_refl in E.
    rewrite read_xfer_begin_bytes in E by (unfold WUPS_FW_TARGET_RP2040; cbn; lia || done); simplify_eq; auto.
  - intros [a0 i] a off c s' r b Ho Hc Ha E; unfold serve in E; cbn in Ha; subst a0.
    change (WUPS_OP_NET_FW_XFER_DATA =? WUPS_OP_NET_FW_XFER_BEGIN) with false in E; rewrite Z.eqb_refl in E; cbv iota in E.
    destruct a as [x|]; [|simplify_eq; auto]; rewrite read_xfer_data_bytes in E by done.
    destruct (Z.eqb_spec off (Z.of_nat (length (a_img x)))); simplify_eq; split; auto.
    right; exists x; rewrite drop_xfer_data_bytes; auto.
  - intros [a0 i] a s' r b Ha E; unfold serve in E; cbn in Ha; subst a0.
    change (WUPS_OP_NET_FW_XFER_END =? WUPS_OP_NET_FW_XFER_BEGIN) with false in E.
    change (WUPS_OP_NET_FW_XFER_END =? WUPS_OP_NET_FW_XFER_DATA) with false in E; cbv iota in E.
    destruct a as [x|]; [case_bool_decide as H; simplify_eq; destruct_and?|simplify_eq]; split_and!; try done; eauto.
Defined.

Inductive fate := Lost | Unanswered | Answered.

Record net := Net {
  n_time : Z; n_peer : option asession * option (list Z); n_fates : list fate; n_body : list Z; n_hellos : Z;
  n_request : Z * Z * list Z
}.
#[export] Instance eta_net : Eta net := fun w => Net (n_time w) (n_peer w) (n_fates w) (n_body w) (n_hellos w) (n_request w).

Definition net_wait (w : net) (ms : Z) : net * list response :=
  let '(op, q, p) := n_request w in
  let w := w <| n_time := n_time w + ms * 1000 |> in
  match n_fates w with
  | Lost :: fates => (w <| n_fates := fates |>, [])
  | Unanswered :: fates =>
      let '(x, _, b) := serve (n_peer w) op p in
      (w <| n_fates := fates |> <| n_peer := x |> <| n_hellos := n_hellos w + b2z b |>, [])
  | fates =>
      let '(x, r, b) := serve (n_peer w) op p in
      (w <| n_fates := tail fates |> <| n_peer := x |> <| n_hellos := n_hellos w + b2z b |>, [(op, q, [r])])
  end.

#[export] Instance net_world : RelayWorld := {|
  W := net;
  esp_timer_get_time := n_time;
  http_init w := (w, true); http_open w := (w, None); http_fetch_headers w := w; http_status w := 200;
  http_set_redirection w := (w, true); http_close w := w;
  http_read w n := (w <| n_body := drop (Z.to_nat n) (n_body w) |>, Some (take (Z.to_nat n) (n_body w)));
  http_cleanup w := w; malloc_ok w := (w, true);
  link_send w op q p := w <| n_request := (op, q, p) |>;
  link_wait := net_wait;
  link_late w := (w, []);
  hello_count := n_hellos;
  vTaskDelay_ms w ms := w <| n_time := n_time w + ms * 1000 |>;
  stream_sha256 := count_digest
|}.

#[export] Instance net_timing : RelayTiming net_world.
Proof.
  constructor; cbn.
  - intros w n data Hn [= <-]; rewrite length_take; lia.
  - intros; lia.
Qed.

#[export] Instance net_laws : RelayLaws net_world reference_receiver.
Proof.
  refine {| peer := n_peer : @W net_world -> @R_state reference_receiver |}; try (intros; apply rtc_refl).
  intros w op q p ms w' arrived; cbn; unfold net_wait; cbn [n_request n_fates n_peer upd].
  destruct (n_fates w) as [|[] fates]; try (destruct (serve (n_peer w) op p) as [[x r] b] eqn:E); intros [= <- <-]; cbn.
  all: split; [first [apply Att_lost, rtc_refl|exact (Att_silent op p (n_peer w) (n_peer w) x x r b (rtc_refl _ _) E (rtc_refl _ _))]|].
  all: intros r' rest Hin; try (apply elem_of_nil in Hin; done); apply list_elem_of_singleton in Hin; simplify_eq;
    exact (Att_answered op p (n_peer w) (n_peer w) x x r b (rtc_refl _ _) E (rtc_refl _ _)).
Defined.

Definition demo_body : list Z := map Z.of_nat (seq 0 200) ++ replicate 100 7.
Definition demo_net (fates : list fate) : net := Net 0 (None, None) fates demo_body 0 (0, 0, []).
Definition demo_relay (fates : list fate) : relay :=
  Relay (demo_net fates) (Resp false false 0 0 0) 0 false false false [] [].

(** The first request is lost once, and the second chunk too. *)
Definition demo_fates : list fate := [Lost; Answered; Answered; Lost; Answered; Answered].

Lemma demo_relay_runs :
  let '(s', r) := relay_task 300 (count_digest demo_body) (demo_relay demo_fates) in
  r = None /\ n_peer (world s') = (None, Some demo_body).
Proof. vm_compute; split; reflexivity. Qed.

Lemma relay_installs_witness :
  let '(s', r) := relay_task 300 (count_digest demo_body) (demo_relay demo_fates) in
  r = None /\ n_peer (world s') = (None, Some demo_body) /\
  exists (s0 s1 s2 : relay), stream_sha256 (hashed s1) = count_digest demo_body /\
    R_installed (peer (world s1)) (hashed s1) /\ hello_count (world s2) <> hello_count (world s0).
Proof.
  pose proof demo_relay_runs as HR; destruct (relay_task _ _ _) as [s' r] eqn:E; destruct HR as [-> HR].
  destruct (relay_installs (RL := net_laws) 300 (count_digest demo_body) eq_refl ltac:(lia) eq_refl (demo_relay demo_fates) None s' eq_refl E)
    as (s0 & s1 & s2 & _ & _ & _ & H1 & _ & H2 & _ & H3 & _).
  split; [done|split; [exact HR|exists s0, s1, s2; split; [exact H1|split; [exact H2|exact H3]]]].
Defined.

Lemma relay_ends_cleanly_witness :
  let '(s', r) := relay_task 300 (count_digest []) (demo_relay [Answered; Answered; Answered; Answered]) in
  r = Some (Failed (str "verify") (str "sha256 mismatch")) /\ closed_down (count_digest []) s'.
Proof.
  assert (HR : (relay_task 300 (count_digest []) (demo_relay [Answered; Answered; Answered; Answered])).2 =
    Some (Failed (str "verify") (str "sha256 mismatch"))) by (vm_compute; reflexivity).
  destruct (relay_task _ _ _) as [s' r] eqn:E; split; [exact HR|].
  apply (relay_ends_cleanly (count_digest []) 300 ltac:(lia) (demo_relay [Answered; Answered; Answered; Answered]) s' r);
    [split; [apply List.Forall_nil|intros q; apply not_elem_of_nil]|exact E].
Defined.

(** The answer to the commit is lost: the image is installed, the second request finds no
    session, and the relay reports an error. *)
Lemma lost_commit_answer :
  let '(s', r) := relay_task 300 (count_digest demo_body) (demo_relay [Answered; Answered; Answered; Unanswered; Answered]) in
  r = Some (Failed (str "commit") (str "bad_req")) /\ n_peer (world s') = (None, Some demo_body).
Proof. vm_compute; split; reflexivity. Qed.
