(* ===== verification/FwDownload.v ===== *)
(** * The download task of the ESP32's own firmware (firmware-ESP32-LTE-M/main/fw_ota.c)

    Up to five HTTPS attempts, each resumed at the number of bytes already written,
    then the read-back of the whole image and the switch of the boot partition.  The
    SDK is the class [HttpsOta]; its callbacks run inside its calls, so that a call
    yields the events it raised. *)

From S2P Require Import Prelude AtText FwOtaHttp FwOta FwReceive Task.

Open Scope task_scope.

(** ** Errors *)

Inductive ota_err :=
  | E_OK | E_IN_PROGRESS
  | E_HTTP_CONNECT | E_HTTP_CONNECTING | E_HTTP_WRITE_DATA | E_HTTP_FETCH_HEADER | E_HTTP_EAGAIN
  | E_HTTP_READ_TIMEOUT | E_HTTP_CONNECTION_CLOSED | E_HTTP_INCOMPLETE_DATA
  | E_TLS_CERT_PARTLY_OK | E_TLS_X509_CRT_PARSE_FAILED | E_TLS_SSL_HANDSHAKE_FAILED
  | E_OTHER (code : Z).

#[export] Instance ota_err_eq_dec : EqDecision ota_err.
Proof. solve_decision. Defined.

Definition is_ok (e : ota_err) : bool := match e with E_OK => true | _ => false end.

(** ** Diagnosis of one attempt *)

(** What [ota_http_capture] reads from the client. *)
Record capture := Capture { cap_errno : Z; cap_tls : ota_err; cap_code : Z; cap_flags : Z }.

(** [client] is whether the pointer is set. *)
(* src: firmware-ESP32-LTE-M/main/fw_ota.c:291-298 ota_http_diag_t *)
Record ota_http_diag_t := Diag {
  response : FwOtaHttp.response; client : bool; requested_offset : Z; range_fallback : bool;
  socket_errno : Z; tls_code : Z; tls_flags : Z; tls_error : ota_err
}.

#[export] Instance eta_diag : Eta ota_http_diag_t := fun d =>
  Diag (response d) (client d) (requested_offset d) (range_fallback d) (socket_errno d) (tls_code d) (tls_flags d) (tls_error d).

Definition blank_response : FwOtaHttp.response := Response 0 false 0 0 0 0 0 0.
Definition new_diag (offset : Z) : ota_http_diag_t := Diag blank_response false offset false 0 0 0 E_OK.

(* src: firmware-ESP32-LTE-M/main/fw_ota.c:300-311 ota_http_capture *)
Definition ota_http_capture (d : ota_http_diag_t) (c : capture) : ota_http_diag_t :=
  if negb (client d) then d else
  let d := if 0 <? cap_errno c then d <| socket_errno := cap_errno c |> else d in
  let d := if is_ok (cap_tls c) then d else d <| tls_error := cap_tls c |> in
  let d := if cap_code c =? 0 then d else d <| tls_code := cap_code c |> in
  d <| tls_flags := Z.lor (tls_flags d) (cap_flags c) |>.

(** Events carry what the callback reads from the client. *)
Inductive http_event :=
  | On_status_code (status : Z)
  | On_header (key value : option (list Z))
  | On_error (c : capture)
  | On_disconnected (c : capture)
  | On_other.

(* src: firmware-ESP32-LTE-M/main/fw_ota.c:313-344 ota_http_event *)
Definition ota_http_event (d : ota_http_diag_t) (e : http_event) : ota_http_diag_t :=
  let d := d <| client := true |> in
  match e with
  | On_status_code status =>
      let d := d <| response := blank_response <| r_status := status |> |> in
      if negb (requested_offset d =? 0) && ((status =? 200) || (status =? 416))
      then d <| range_fallback := true |> else d
  | On_header key value => d <| response := fw_ota_http_header (response d) key value |>
  | On_error c => ota_http_capture d c
  | On_disconnected c => ota_http_capture d c <| client := false |>
  | On_other => d
  end.

Definition events (d : ota_http_diag_t) (l : list http_event) : ota_http_diag_t := fold_left ota_http_event l d.

(* src: firmware-ESP32-LTE-M/main/fw_ota.c:346-370 ota_http_retryable *)
Definition ota_http_retryable (err : ota_err) (d : ota_http_diag_t) : bool :=
  if negb (tls_flags d =? 0) || bool_decide (tls_error d = E_TLS_CERT_PARTLY_OK) ||
     bool_decide (tls_error d = E_TLS_X509_CRT_PARSE_FAILED) || bool_decide (tls_error d = E_TLS_SSL_HANDSHAKE_FAILED)
  then false
  else if 400 <=? r_status (response d) then fw_ota_http_status_retryable (r_status (response d))
  else match err with
       | E_HTTP_CONNECT | E_HTTP_CONNECTING | E_HTTP_WRITE_DATA | E_HTTP_FETCH_HEADER | E_HTTP_EAGAIN
       | E_HTTP_READ_TIMEOUT | E_HTTP_CONNECTION_CLOSED | E_HTTP_INCOMPLETE_DATA => true
       | _ => false
       end.

(** ** The world *)

(** [https_begin w staging resume offset]; [image_len_read] is a C int. *)
Class HttpsOta `{D : OtaSdk} := {
  W : Type;
  esp_timer_get_time : W -> Z;
  flash : W -> Fl;
  malloc_ok : W -> bool;
  after_readback : W -> W;                   (* the time the read-back takes *)
  https_begin : W -> Part -> bool -> Z -> W * list http_event * ota_err;
  https_perform : W -> W * list http_event * ota_err;
  image_len_read : W -> Z;
  complete_data_received : W -> bool;
  https_abort : W -> W * list http_event;
  https_finish : W -> W * list http_event * ota_err;
  chunked_response : W -> bool;
  over_ssl : W -> bool;
  client_capture : W -> W * capture;
  vTaskDelay_ms : W -> Z -> W;
  esp_err_to_name : ota_err -> list Z
}.

(** What the task does to the others, and its calls of the SDK; [D_accept] marks where a
    response has passed the checks that precede the first write. *)
Inductive dact {P : Type} :=
  | D_banner (on : bool)
  | D_status (st : list Z)
  | D_progress (pct : Z)
  | D_retry (attempt offset delay_s : Z)
  | D_error (stage detail : list Z)
  | D_begin (staging : P) (offset : Z) (ok : bool)
  | D_accept (r : FwOtaHttp.response)
  | D_perform
  | D_abort
  | D_finish
  | D_release
  | D_restart.

(** ** The task *)

Section Download.
Context `{HO : HttpsOta}.
Context (s_image_len : Z) (s_sha_expected : list Z) (s_update_part : Part).

(** The locals of the task that outlive an attempt. *)
Record dl := Dl {
  world : W; handle : bool; checkpoint : Z; diag : ota_http_diag_t; last_step_pct : Z; dacts : list (dact (P := Part))
}.
#[export] Instance eta_dl : Eta dl := fun s =>
  Dl (world s) (handle s) (checkpoint s) (diag s) (last_step_pct s) (dacts s).

Definition act (a : dact (P := Part)) (s : dl) : dl := s <| dacts := dacts s ++ [a] |>.
Definition now (s : dl) : Z := esp_timer_get_time (world s).

(** A call of the SDK: the world moves on and the callback sees its events. *)
Definition moved (w : W) (l : list http_event) (s : dl) : dl := s <| world := w |> <| diag := events (diag s) l |>.

Definition do_capture (s : dl) : dl :=
  let '(w, c) := client_capture (world s) in
  if client (diag s) then s <| world := w |> <| diag := ota_http_capture (diag s) c |> else s.

(** How an attempt ends: with all bytes, or at [attempt_failed] with a stage, a detail
    and whether a retry makes sense.  [Spinning] is the end of the turns of the loop. *)
Inductive attempt_end :=
  | Complete
  | Gave_up (stage detail : list Z) (retry : bool)
  | Spinning.

Definition capped : attempt_end := Gave_up (str "timeout") (str "OTA time cap exceeded") false.

(* src: firmware-ESP32-LTE-M/main/fw_ota.c:487-491 ota_task (progress) *)
Definition ota_progress (s : dl) : dl :=
  let pct := checkpoint s * 100 / s_image_len in
  if (last_step_pct s + 25 <=? pct) && (pct <? 100) then
    let step := pct - pct mod 25 in act (D_progress step) (s <| last_step_pct := step |>)
  else s.

(** One turn of the download loop; [inl] goes on. *)
(* src: firmware-ESP32-LTE-M/main/fw_ota.c:459-498 ota_task (download turn) *)
Definition ota_turn (deadline_us : Z) (x : dl * Z) : dl * Z + dl * attempt_end :=
  let '(s, progress_us) := x in
  if deadline_us <=? now s then inr (s, capped) else
  let '(w, l, err) := https_perform (world s) in
  let s := act D_perform (moved w l s) in
  if negb (is_ok err) && negb (bool_decide (err = E_IN_PROGRESS)) then
    let s := do_capture s in
    inr (s, Gave_up (str "download") (esp_err_to_name err) (ota_http_retryable err (diag s)))
  else if deadline_us <=? now s then inr (s, capped) else
  let read := image_len_read (world s) in
  if (read <? 0) || (read <? checkpoint s) || (s_image_len <? read) then
    inr (s, Gave_up (str "download") (str "invalid written byte count") false)
  else
    let '(s, progress_us) := if checkpoint s <? read then (s <| checkpoint := read |>, now s) else (s, progress_us) in
    let s := ota_progress s in
    if is_ok err then inr (s, Complete)
    else if 90000000 <=? now s - progress_us then
      inr (s, Gave_up (str "download") (str "no download progress for 90s") true)
    else inl (s, progress_us).

(** More turns than there are microseconds before the deadline. *)
Definition DOWNLOAD_TURNS : positive := Z.to_pos (FW_OTA_TIMEOUT_S * 1000000 + 1).

(* src: firmware-ESP32-LTE-M/main/fw_ota.c:457-505 ota_task (download) *)
Definition ota_download (deadline_us : Z) (s : dl) : dl * attempt_end :=
  match loop (ota_turn deadline_us) DOWNLOAD_TURNS (s, now s) with
  | inl (s, _) => (s, Spinning)
  | inr (s, Complete) =>
      if negb (complete_data_received (world s)) || negb (checkpoint s =? s_image_len)
      then (s, Gave_up (str "download") (str "incomplete data") (checkpoint s <? s_image_len))
      else (s, Complete)
  | inr x => x
  end.

(* src: firmware-ESP32-LTE-M/main/fw_ota.c:398-505 ota_task (attempt) *)
Definition ota_attempt (deadline_us : Z) (s : dl) : dl * attempt_end :=
  let s := if checkpoint s <? FW_OTA_RESUME_MIN then s <| checkpoint := 0 |> else s in
  let offset := checkpoint s in
  let s := s <| diag := new_diag offset |> in
  let '(w, l, err) := https_begin (world s) s_update_part (negb (offset =? 0)) offset in
  let s := act (D_begin s_update_part offset (is_ok err)) (moved w l s <| handle := is_ok err |>) in
  if negb (is_ok err) then
    let s := s <| diag := diag s <| client := false |> |> in
    (s, Gave_up (str "begin") (esp_err_to_name err) (ota_http_retryable err (diag s)))
  else if deadline_us <=? now s then (s, capped)
  else if range_fallback (diag s) then
    (s <| checkpoint := 0 |>,
     Gave_up (str "response") (str "server rejected Range; restart from zero")
       ((tls_flags (diag s) =? 0) && ((r_status (response (diag s)) =? 200) || (r_status (response (diag s)) =? 206))))
  else if negb (fw_ota_http_response_valid (response (diag s)) offset s_image_len) || negb (client (diag s)) ||
          chunked_response (world s) || negb (over_ssl (world s)) then
    (s, Gave_up (str "response") (str "invalid HTTP status, range or length") false)
  else ota_download deadline_us (act (D_accept (response (diag s))) s).

(* src: firmware-ESP32-LTE-M/main/fw_ota.c:513-516 ota_task (abort) *)
Definition drop_handle (s : dl) : dl :=
  if handle s then let '(w, l) := https_abort (world s) in act D_abort (moved w l s <| handle := false |>) else s.

(** The epilogue of a failed attempt: why the task stops, or nothing when it tries again. *)
(* src: firmware-ESP32-LTE-M/main/fw_ota.c:506-529 ota_task (attempt_failed) *)
Definition attempt_failed (deadline_us attempt : Z) (stage detail : list Z) (retry : bool) (s : dl)
    : dl * option (list Z * list Z) :=
  let s := drop_handle (do_capture s) in
  let s := s <| diag := diag s <| client := false |> |> in
  let delay_s := fw_ota_retry_delay_s attempt in
  if negb retry || (delay_s =? 0) || (s_image_len <=? checkpoint s) then (s, Some (stage, detail))
  else if deadline_us <=? now s + delay_s * 1000000 then (s, Some (str "timeout", str "OTA time cap exceeded"))
  else
    let s := act (D_retry (attempt + 1) (checkpoint s) delay_s) s in
    (s <| world := vTaskDelay_ms (world s) (delay_s * 1000) |>, None).

(** Why the task gave up, [None] when it was not able to go on for lack of turns. *)
Inductive failure := Failed (stage detail : list Z) | Stuck.

(* src: firmware-ESP32-LTE-M/main/fw_ota.c:392-530 ota_task (attempts) *)
Fixpoint ota_attempts (n : nat) (deadline_us attempt : Z) : task dl failure unit := fun s =>
  match n with
  | O => (s, inr tt)
  | S n =>
      if deadline_us <=? now s then (s, inl (Failed (str "timeout") (str "OTA time cap exceeded"))) else
      match ota_attempt deadline_us s with
      | (s, Complete) => (s, inr tt)
      | (s, Spinning) => (s, inl Stuck)
      | (s, Gave_up stage detail retry) =>
          match attempt_failed deadline_us attempt stage detail retry s with
          | (s, Some (stage, detail)) => (s, inl (Failed stage detail))
          | (s, None) => ota_attempts n deadline_us (attempt + 1) s
          end
      end
  end.

(* src: firmware-ESP32-LTE-M/main/fw_ota.c:532-548 ota_task (verify) *)
Definition ota_verify (deadline_us : Z) : task dl failure unit := fun s =>
  if deadline_us <=? now s then (s, inl (Failed (str "timeout") (str "OTA time cap exceeded"))) else
  let s := act (D_status (str "verifying")) s in
  let verified := verify_written_image (flash (world s)) (malloc_ok (world s)) s_update_part s_image_len s_sha_expected in
  let s := s <| world := after_readback (world s) |> in
  if negb verified
  then (s, inl (Failed (str "verify") (str "sha256 mismatch")))
  else if deadline_us <=? now s then (s, inl (Failed (str "timeout") (str "OTA time cap exceeded")))
  else (s, inr tt).

(* src: firmware-ESP32-LTE-M/main/fw_ota.c:549-560 ota_task (finish) *)
Definition ota_finish : task dl failure unit := fun s =>
  let '(w, l, err) := https_finish (world s) in
  let s := act D_finish (moved w l s <| handle := false |>) in
  let s := s <| diag := diag s <| client := false |> |> in
  if negb (is_ok err) then (s, inl (Failed (str "finish") (esp_err_to_name err)))
  else (act D_restart (act (D_status (str "rebooting")) s), inr tt).

(* src: firmware-ESP32-LTE-M/main/fw_ota.c:562-572 ota_task (fail) *)
Definition ota_fail (f : failure) (s : dl) : dl :=
  let s := drop_handle s in
  let s := s <| diag := diag s <| client := false |> |> in
  let s := match f with Failed stage detail => act (D_error stage detail) s | Stuck => s end in
  act D_release (act (D_banner false) s).

(* src: firmware-ESP32-LTE-M/main/fw_ota.c:372-572 ota_task *)
Definition ota_task (s : dl) : dl * option failure :=
  let deadline_us := now s + FW_OTA_TIMEOUT_S * 1000000 in
  let s := s <| handle := false |> <| checkpoint := 0 |> <| last_step_pct := 0 |> <| diag := new_diag 0 |> in
  let s := act (D_status (str "started")) (act (D_banner true) s) in
  match (let* _ := ota_attempts (Z.to_nat FW_OTA_MAX_ATTEMPTS) deadline_us 1 in
         let* _ := ota_verify deadline_us in ota_finish) s with
  | (s, inr _) => (s, None)
  | (s, inl f) => (ota_fail f s, Some f)
  end.
End Download.

(** ** The protocol of the SDK

    A handle is opened by a begin, at zero or at an offset the SDK can resume; only a
    response that continues the image exactly there lets bytes be written; every handle
    is either aborted or finished. *)

Inductive phase := Idle | Begun (offset : Z) | Writing | Finished | Misused.

Definition phase_step {P : Type} (len : Z) (p : phase) (a : dact (P := P)) : phase :=
  match a, p with
  | D_begin _ off ok, Idle =>
      if (off =? 0) || ((FW_OTA_RESUME_MIN <=? off) && (off <? len)) then if ok then Begun off else Idle else Misused
  | D_accept r, Begun off => if fw_ota_http_response_valid r off len then Writing else Misused
  | D_perform, Writing => Writing
  | D_abort, (Begun _ | Writing) => Idle
  | D_finish, Writing => Finished
  | D_restart, Finished => Finished
  | (D_begin _ _ _ | D_accept _ | D_perform | D_abort | D_finish | D_restart), _ => Misused
  | _, p => p
  end.

(** ** What the code relies on

    The clock does not run backwards, a call that reads from the network takes a
    microsecond, and a read of the partition that succeeds returns as many bytes as were
    asked for. *)

Class OtaTiming `{D : OtaSdk} (HO : HttpsOta) := {
  begin_time w p b off : esp_timer_get_time w <= esp_timer_get_time (https_begin w p b off).1.1;
  perform_time w : esp_timer_get_time w + 1 <= esp_timer_get_time (https_perform w).1.1;
  abort_time w : esp_timer_get_time w <= esp_timer_get_time (https_abort w).1;
  readback_time w : esp_timer_get_time w <= esp_timer_get_time (after_readback w);
  readback_flash w : flash (after_readback w) = flash w;
  capture_time w : esp_timer_get_time w <= esp_timer_get_time (client_capture w).1;
  delay_time w ms : 0 <= ms -> esp_timer_get_time w <= esp_timer_get_time (vTaskDelay_ms w ms);
  read_length f p off n d : 0 <= n -> esp_partition_read f p off n = Some d -> Z.of_nat (length d) = n
}.

Section Protocol.
Context `{OT : OtaTiming}.
Context (len : Z) (sha : list Z) (part : Part) (Hlen : 0 < len).
#[local] Set Default Proof Using "Type*".

Definition ph (s : dl) : phase := fold_left (phase_step len) (dacts s) Idle.
(** What the task does before it ends: no failure is reported, the slot is kept, the
    processor runs on, and a handle is only begun on the update partition. *)
Definition ongoing (a : dact (P := Part)) : Prop :=
  match a with D_error _ _ | D_release | D_restart => False | D_begin p _ _ => p = part | _ => True end.
Definition quiet (s : dl) : Prop := Forall ongoing (dacts s).
Definition tame (t0 : Z) (s : dl) : Prop := 0 <= checkpoint s <= len /\ t0 <= now s /\ quiet s.

Lemma act_quiet a s : ongoing a -> quiet s -> quiet (act a s).
Proof. intros Ha Hs; apply Forall_app; split; [exact Hs|constructor; [exact Ha|constructor]]. Qed.

Definition idle t0 s : Prop := tame t0 s /\ handle s = false /\ ph s = Idle.
Definition writing t0 s : Prop := tame t0 s /\ handle s = true /\ ph s = Writing.
(** A handle is open exactly when the protocol says so. *)
Definition settled t0 s : Prop :=
  tame t0 s /\ if handle s then ph s = Writing \/ exists off, ph s = Begun off else ph s = Idle.

Lemma ph_act a s : ph (act a s) = phase_step len (ph s) a.
Proof. unfold ph, act; cbn; rewrite fold_left_app; done. Qed.

Lemma tame_act t0 a s : ongoing a -> tame t0 s -> tame t0 (act a s).
Proof. intros Ha (Hc & Hn & Hr); split; [exact Hc|split; [exact Hn|]]; apply act_quiet; done. Qed.

Lemma progress_spec s :
  let s' := ota_progress len s in
  world s' = world s /\ handle s' = handle s /\ checkpoint s' = checkpoint s /\ ph s' = ph s /\
  (quiet s -> quiet s').
Proof.
  unfold ota_progress; cbv zeta; destruct (_ && _); [|done]; split_and!; try done; [rewrite ph_act; done|].
  intros H; apply act_quiet; [exact I|exact H].
Qed.

Lemma capture_spec s :
  let s' := do_capture s in
  now s <= now s' /\ handle s' = handle s /\ checkpoint s' = checkpoint s /\ dacts s' = dacts s.
Proof.
  unfold do_capture; pose proof (capture_time (world s)) as H; destruct (client_capture (world s)) as [w c].
  destruct (client (diag s)); split_and!; try done; unfold now; cbn in *; lia.
Qed.

Lemma writing_capture t0 s : writing t0 s -> writing t0 (do_capture s).
Proof.
  destruct (capture_spec s) as (H1 & H2 & H3 & H4); unfold writing, tame, quiet, ph; rewrite H2, H3, H4; intuition lia.
Qed.

(** One turn: the handle stays open, and the clock moves on. *)
Lemma turn_writing t0 deadline x :
  writing t0 x.1 ->
  match ota_turn len deadline x with
  | inl x' => writing t0 x'.1 /\ now x.1 + 1 <= now x'.1 < deadline
  | inr (s', e) => writing t0 s' /\ e <> Spinning
  end.
Proof.
  destruct x as [s pu]; cbn [fst]; intros Hs; unfold ota_turn.
  destruct (Z.leb_spec deadline (now s)); [split; [exact Hs|done]|].
  pose proof (perform_time (world s)) as Ht; destruct (https_perform (world s)) as [[w l] err]; cbn [fst] in Ht.
  set (s1 := act D_perform (moved w l s)).
  assert (H1 : writing t0 s1 /\ now s + 1 <= now s1).
  { destruct Hs as ((Hc & Hn & Hr) & Hh & Hp); assert (Hp1 : ph s1 = Writing)
      by (subst s1; rewrite ph_act; change (ph (moved w l s)) with (ph s); rewrite Hp; done).
    unfold writing, tame; rewrite Hp1; subst s1; unfold now in *; cbn in *; split_and!; try done; try lia.
    apply (act_quiet D_perform (moved w l s)); done. }
  clearbody s1; destruct H1 as [H1 Hn1].
  destruct (negb (is_ok err) && _); [split; [apply writing_capture, H1|done]|].
  destruct (Z.leb_spec deadline (now s1)); [split; [exact H1|done]|].
  destruct (_ || _) eqn:Er; [split; [exact H1|done]|]; to_prop.
  set (read := image_len_read _) in *; clearbody read.
  set (y := if _ <? _ then _ else _).
  assert (Hy : writing t0 y.1 /\ now y.1 = now s1).
  { subst y; destruct (_ <? _); [|done]; destruct H1 as ((Hc & Hn & Hr) & Hh & Hp); split; [|done].
    split; [split_and!; try done; cbn; lia|split; done]. }
  clearbody y; destruct y as [s2 pu2], Hy as [Hy Hn2]; cbn [fst] in *.
  destruct (progress_spec s2) as (P1 & P2 & P3 & P4 & P5); set (s3 := ota_progress len s2) in *; clearbody s3.
  assert (Hz : writing t0 s3 /\ now s3 = now s1).
  { destruct Hy as ((Hc & Hn & Hr) & Hh & Hp); unfold writing, tame, now in *; rewrite P1, P2, P3, P4; split_and!; auto; lia. }
  destruct Hz as [Hz Hn3]; destruct (is_ok err); [split; [exact Hz|done]|].
  destruct (_ <=? _); [split; [exact Hz|done]|]; split; [exact Hz|cbn [fst]; lia].
Qed.

(** The loop is left: each turn takes a microsecond and there are more turns than that. *)
Lemma download_ends t0 deadline s :
  deadline - now s <= FW_OTA_TIMEOUT_S * 1000000 -> writing t0 s ->
  let '(s', e) := ota_download len deadline s in
  writing t0 s' /\ e <> Spinning /\ (e = Complete -> checkpoint s' = len).
Proof.
  intros Hd Hs; unfold ota_download.
  pose proof (loop_inv (ota_turn len deadline) (fun x => writing t0 x.1) (fun r => writing t0 r.1 /\ r.2 <> Spinning)
    DOWNLOAD_TURNS (s, now s)) as HI.
  pose proof (loop_measure (ota_turn len deadline) (fun x => writing t0 x.1) (fun x => Z.max 0 (deadline - now x.1))
    DOWNLOAD_TURNS (s, now s)) as HM.
  destruct (loop _ _ _) as [[s' pu]|[s' e]].
  - exfalso; destruct (HM (s', pu)) as [_ M]; [|exact Hs|done|].
    + intros x x' Hx E; pose proof (turn_writing t0 deadline x Hx) as H; rewrite E in H; destruct H as [H ?]; split; [exact H|lia].
    + cbn [fst] in M; unfold DOWNLOAD_TURNS, FW_OTA_TIMEOUT_S in *; lia.
  - destruct HI as [H1 H2]; [|exact Hs|].
    { intros x Hx; pose proof (turn_writing t0 deadline x Hx) as H; destruct (ota_turn _ _ x) as [x'|[s1 e1]]; [apply H|exact H]. }
    cbn [fst snd] in *; destruct e as [|stage detail retry|]; [|split; [exact H1|split; done]|done].
    destruct (_ || _) eqn:E; [split; [exact H1|split; done]|]; to_prop; split; [exact H1|split; done].
Qed.

Lemma settled_writing t0 s : writing t0 s -> settled t0 s.
Proof. intros (? & Hh & ?); split; [done|]; rewrite Hh; auto. Qed.

Lemma attempt_settled t0 deadline s :
  deadline <= t0 + FW_OTA_TIMEOUT_S * 1000000 -> checkpoint s < len -> idle t0 s ->
  let '(s', e) := ota_attempt len part deadline s in
  settled t0 s' /\ e <> Spinning /\ (e = Complete -> writing t0 s' /\ checkpoint s' = len).
Proof.
  intros Hd Hc ((Hb & Hn & Hr) & Hh & Hp); unfold ota_attempt.
  set (s1 := if _ <? _ then _ else _).
  assert (H1 : (checkpoint s1 = 0 \/ FW_OTA_RESUME_MIN <= checkpoint s1 < len) /\ world s1 = world s /\ dacts s1 = dacts s).
  { subst s1; destruct (Z.ltb_spec (checkpoint s) FW_OTA_RESUME_MIN); cbn; split; auto; lia. }
  destruct H1 as (H1c & H1w & H1a); clearbody s1; set (off := checkpoint s1) in *.
  pose proof (begin_time (world s1) part (negb (off =? 0)) off) as Ht; cbn [world upd].
  destruct (https_begin (world s1) part _ off) as [[w l] err]; cbn [fst] in Ht.
  set (s2 := act _ _); assert (Hw2 : now s2 = esp_timer_get_time w) by done; assert (Hc2 : checkpoint s2 = off) by done.
  assert (Hh2 : handle s2 = is_ok err) by done.
  assert (Hp2 : ph s2 = if is_ok err then Begun off else Idle).
  { subst s2; rewrite ph_act; change (ph (moved w l (s1 <| diag := new_diag off |>) <| handle := is_ok err |>)) with (ph s1).
    unfold ph; rewrite H1a; fold (ph s); rewrite Hp; unfold phase_step.
    assert ((off =? 0) || ((FW_OTA_RESUME_MIN <=? off) && (off <? len)) = true) as ->; [|done].
    destruct (Z.eqb_spec off 0); [done|]; destruct H1c; [done|]; apply andb_true_iff; rewrite Z.leb_le, Z.ltb_lt; done. }
  assert (Ht2 : tame t0 s2).
  { assert (Hoff : 0 <= off <= len) by (unfold FW_OTA_RESUME_MIN in *; lia).
    unfold tame; rewrite Hc2, Hw2; unfold now in *; rewrite H1w in Ht; split_and!; [lia..|].
    subst s2; unfold quiet in *; cbn; rewrite H1a; apply Forall_app; split; [exact Hr|constructor; done]. }
  clearbody s2; destruct (is_ok err); cbn [negb].
  2:{ split; [split; [exact Ht2|]|split; done]; cbn; rewrite Hh2; exact Hp2. }
  assert (Hset : settled t0 s2) by (split; [exact Ht2|rewrite Hh2; eauto]).
  destruct (_ <=? _); [split; [exact Hset|split; done]|].
  destruct (range_fallback _).
  { split; [|split; done]; destruct Hset as [(? & Hn' & Hr') Hph]; split; [split; [cbn; lia|split; [exact Hn'|exact Hr']]|exact Hph]. }
  destruct (_ || _) eqn:Ev; [split; [exact Hset|split; done]|]; to_prop.
  set (s3 := act _ s2); assert (Hwr : writing t0 s3).
  { split; [|split; [exact Hh2|]].
    - apply tame_act; done.
    - subst s3; rewrite ph_act, Hp2; cbn; match goal with H : fw_ota_http_response_valid _ _ _ = true |- _ => rewrite H end; done. }
  pose proof (download_ends t0 deadline s3) as HD; destruct (ota_download _ _ _) as [s' e].
  destruct HD as (? & ? & ?); [destruct Hwr as [(_ & ? & _) _]; lia|exact Hwr|].
  split; [by apply settled_writing|split; [done|split; auto]].
Qed.

Lemma drop_handle_idle t0 s : settled t0 s -> idle t0 (drop_handle s) /\ checkpoint (drop_handle s) = checkpoint s.
Proof.
  intros [(Hc & Hn & Hr) Hp]; unfold drop_handle; destruct (handle s) eqn:Hh; [|split; [split; done|done]].
  pose proof (abort_time (world s)) as Ht; destruct (https_abort (world s)) as [w l]; cbn [fst] in Ht; split; [|done].
  split; [|split; [done|]].
  - apply tame_act; [done|]; split; [exact Hc|split; [unfold now in *; cbn; lia|exact Hr]].
  - rewrite ph_act; change (ph (moved w l s <| handle := false |>)) with (ph s).
    destruct Hp as [->|[off ->]]; done.
Qed.

Lemma attempt_failed_idle t0 deadline attempt stage detail retry s :
  settled t0 s ->
  let '(s', stop) := attempt_failed len deadline attempt stage detail retry s in
  idle t0 s' /\ (stop = None -> checkpoint s' < len /\ fw_ota_retry_delay_s attempt <> 0).
Proof.
  intros Hs; unfold attempt_failed.
  assert (Hs1 : settled t0 (do_capture s)).
  { destruct (capture_spec s) as (C1 & C2 & C3 & C4), Hs as [(Hc & Hn & Hr) Hp]; unfold settled, tame, quiet, ph in *; rewrite C2, C3, C4.
    split; [split; [exact Hc|split; [lia|exact Hr]]|exact Hp]. }
  destruct (drop_handle_idle _ _ Hs1) as [Hi Hcp]; set (s2 := drop_handle _) in *; clearbody s2.
  destruct (_ || _) eqn:E; [split; [exact Hi|done]|]; to_prop.
  destruct (_ <=? _); [split; [exact Hi|done]|].
  assert (Hdel : 0 <= fw_ota_retry_delay_s attempt * 1000).
  { unfold fw_ota_retry_delay_s; destruct (_ && _); [|lia].
    destruct (Z.to_nat _) as [|[|[|[|n]]]]; cbn; try lia; destruct n; lia. }
  destruct Hi as ((Hc & Hn & Hr) & Hh & Hp).
  match goal with |- context [vTaskDelay_ms ?w ?ms] => pose proof (delay_time w ms Hdel) as Ht end.
  split; [split; [|split; [exact Hh|]]|].
  - split_and!; [exact (proj1 Hc)|exact (proj2 Hc)|unfold now in *; cbn in *; lia|].
    apply (act_quiet (D_retry (attempt + 1) (checkpoint s2) (fw_ota_retry_delay_s attempt)) s2); done.
  - match goal with |- ph (act ?a ?x <| world := _ |>) = _ => change (ph (act a x) = Idle) end; rewrite ph_act.
    change (phase_step (P := Part) len (ph s2) (D_retry (attempt + 1) (checkpoint s2) (fw_ota_retry_delay_s attempt)) = Idle); rewrite Hp; done.
  - intros _; split; done.
Qed.

(** The attempts end with every byte written, or with nothing open. *)
Lemma attempts_end t0 n deadline attempt :
  deadline <= t0 + FW_OTA_TIMEOUT_S * 1000000 -> (1 <= n)%nat -> attempt = FW_OTA_MAX_ATTEMPTS + 1 - Z.of_nat n ->
  triple (fun s => idle t0 s /\ checkpoint s < len) (ota_attempts len part n deadline attempt)
    (fun _ s => writing t0 s /\ checkpoint s = len) (fun f s => f <> Stuck /\ settled t0 s).
Proof.
  intros Hd; revert attempt; induction n as [|n IH]; intros attempt Hn Ha s [Hs Hc]; [lia|]; cbn [ota_attempts].
  assert (Hset : forall s, idle t0 s -> settled t0 s) by (intros x (? & Hh & ?); split; [done|rewrite Hh; done]).
  destruct (_ <=? _); [split; [done|auto]|].
  pose proof (attempt_settled t0 deadline s Hd Hc Hs) as H; destruct (ota_attempt len part deadline s) as [s1 e].
  destruct H as (H1 & H2 & H3), e as [|stage detail retry|]; [auto| |done].
  pose proof (attempt_failed_idle t0 deadline attempt stage detail retry s1 H1) as HF.
  destruct (attempt_failed _ _ _ _ _ _ _) as [s2 [[stage' detail']|]]; destruct HF as [Hi Hnone]; [split; [done|auto]|].
  destruct (Hnone eq_refl) as [Hc2 Hdel]; destruct n as [|n].
  - exfalso; apply Hdel; subst attempt; reflexivity.
  - apply IH; [lia|rewrite Ha; lia|split; done].
Qed.
(** Once finished, or misused, always so. *)
Definition over (p : phase) : Prop := p = Finished \/ p = Misused.
Lemma over_step p a : over p -> over (phase_step (P := Part) len p a).
Proof. intros [ -> | -> ]; destruct a; cbn; unfold over; auto. Qed.
Lemma finish_over s : D_finish ∈ dacts s -> over (ph s).
Proof.
  intros (l1 & l2 & E)%list_elem_of_split; unfold ph; rewrite E, fold_left_app; cbn [fold_left].
  set (p := phase_step len _ D_finish); assert (Hp : over p) by (subst p; destruct (fold_left _ l1 _); cbn; unfold over; auto).
  clearbody p; clear E l1; revert p Hp; induction l2 as [|a l2 IH]; intros p Hp; cbn; [exact Hp|apply IH, over_step, Hp].
Qed.

Lemma verify_writing t0 deadline :
  triple (fun s => writing t0 s /\ checkpoint s = len) (ota_verify len sha part deadline)
    (fun _ s => (writing t0 s /\ checkpoint s = len) /\
                exists heap, verify_written_image (flash (world s)) heap part len sha = true)
    (fun f s => f <> Stuck /\ settled t0 s).
Proof.
  intros s [Hs Hc]; unfold ota_verify; destruct (_ <=? _); [split; [done|apply settled_writing, Hs]|].
  set (s1 := act _ s <| world := _ |>); assert (H1 : writing t0 s1).
  { destruct Hs as ((Hb & Hn & Hr) & Hh & Hp); pose proof (readback_time (world s)) as Ht; split; [|split; [exact Hh|]].
    - assert (Hx : tame t0 (act (D_status (str "verifying")) (s <| world := after_readback (world s) |>))); [|exact Hx].
      apply tame_act; [done|]; split; [exact Hb|split; [unfold now in *; cbn; lia|exact Hr]].
    - change (ph (act (D_status (str "verifying")) s) = Writing); rewrite ph_act, Hp; done. }
  pose proof (readback_flash (world s)) as Hfl; destruct (verify_written_image _ _ _ _ _) eqn:Ev; cbn [negb];
    [|split; [done|apply settled_writing, H1]].
  destruct (_ <=? _); [split; [done|apply settled_writing, H1]|split; [split; [exact H1|exact Hc]|]].
  exists (malloc_ok (world s)); subst s1; cbn in Ev |- *; rewrite Hfl; exact Ev.
Qed.

Lemma fail_closes t0 stage detail s :
  settled t0 s \/ (quiet s /\ handle s = false /\ ph s = Finished) ->
  let s' := ota_fail (Failed stage detail) s in
  handle s' = false /\ ph s' = (if handle s then Idle else ph s) /\
  exists l, dacts s' = l ++ [D_error stage detail; D_banner false; D_release] /\ Forall ongoing l.
Proof.
  intros Hs; cbv zeta; unfold ota_fail.
  assert (H1 : quiet (drop_handle s) /\ handle (drop_handle s) = false /\
               ph (drop_handle s) = if handle s then Idle else ph s).
  { destruct Hs as [Hs|(Hr & Hh & Hp)].
    - destruct (drop_handle_idle _ _ Hs) as [((? & ? & ?) & ? & Hp) _]; split_and!; [done..|].
      rewrite Hp; destruct Hs as [_ Hph]; destruct (handle s); done.
    - unfold drop_handle; rewrite Hh; done. }
  set (s1 := drop_handle s) in *; clearbody s1; destruct H1 as (H1 & H2 & H3); split_and!; [done| |].
  - rewrite !ph_act; change (ph (s1 <| diag := _ |>)) with (ph s1); rewrite H3.
    destruct (if handle s then Idle else ph s); done.
  - exists (dacts s1); split; [cbn; rewrite <- !app_assoc; done|exact H1].
Qed.

Lemma finish_spec t0 s :
  writing t0 s ->
  let '(s', r) := ota_finish s in
  handle s' = false /\ ph s' = Finished /\
  match r with
  | inr _ => exists l, dacts s' = l ++ [D_restart] /\ Forall ongoing l
  | inl f => f <> Stuck /\ quiet s'
  end.
Proof.
  intros ((Hc & Hn & Hr) & Hh & Hp); unfold ota_finish; destruct (https_finish _) as [[w l] err].
  set (s1 := act D_finish _); assert (H1 : ph s1 = Finished).
  { subst s1; rewrite ph_act; change (ph (moved w l s <| handle := false |>)) with (ph s); rewrite Hp; done. }
  assert (H2 : quiet s1) by (apply act_quiet; [exact I|exact Hr]).
  assert (Hh1 : handle s1 = false) by done; clearbody s1; destruct (is_ok err); cbn [negb].
  - split_and!; [done| |].
    + rewrite !ph_act; change (ph (s1 <| diag := _ |>)) with (ph s1); rewrite H1; done.
    + eexists; split; [reflexivity|]; apply (act_quiet (D_status (str "rebooting"))); [exact I|exact H2].
  - split_and!; done.
Qed.

(** Where a run ends: in a failure with nothing finished, or with the call of finish. *)
Lemma task_ends s s' r :
  dacts s = [] -> ota_task len sha part s = (s', r) ->
  (exists stage detail x, settled (now s) x /\ r = Some (Failed stage detail) /\ s' = ota_fail (Failed stage detail) x) \/
  (exists x, writing (now s) x /\ checkpoint x = len /\
     (exists heap, verify_written_image (flash (world x)) heap part len sha = true) /\
     (s', r) = match ota_finish x with (y, inr _) => (y, None) | (y, inl f) => (ota_fail f y, Some f) end).
Proof.
  intros Ha E; unfold ota_task in E; set (deadline := now s + _) in E; set (s0 := act _ (act _ _)) in E.
  assert (H0 : idle (now s) s0 /\ checkpoint s0 < len).
  { split; [|exact Hlen]; split; [apply tame_act; [done|]; apply tame_act; [done|]|split; [done|]].
    - split; [cbn; lia|split; [unfold now; cbn; lia|]]; unfold quiet; cbn; rewrite Ha; constructor.
    - unfold ph; subst s0; cbn; rewrite Ha; done. }
  assert (Hd : deadline <= now s + FW_OTA_TIMEOUT_S * 1000000) by lia.
  clearbody s0 deadline; unfold bind in E.
  pose proof (attempts_end (now s) 5 deadline 1 Hd ltac:(lia) eq_refl s0 H0) as HA.
  change (Z.to_nat FW_OTA_MAX_ATTEMPTS) with 5%nat in E; destruct (ota_attempts len part 5 deadline 1 s0) as [s1 [f|[]]].
  { injection E as <- <-; destruct HA as [Hf Hs], f as [stage detail|]; [|done]; left; exists stage, detail, s1; done. }
  pose proof (verify_writing (now s) deadline s1 HA) as HV; destruct (ota_verify len sha part deadline s1) as [s2 [f|[]]].
  { injection E as <- <-; destruct HV as [Hf Hs], f as [stage detail|]; [|done]; left; exists stage, detail, s2; done. }
  destruct HV as [[Hw Hc] Hv]; right; exists s2; split_and!; done.
Qed.


(** [d] is what the partition returned for every block of the first [len] bytes. *)
Definition read_in_full (f : Fl) (d : list Z) : Prop :=
  Z.of_nat (length d) = len /\
  forall off, 0 <= off < len -> off mod FW_OTA_READBACK_CHUNK = 0 ->
    let n := Z.min FW_OTA_READBACK_CHUNK (len - off) in
    esp_partition_read f part off n = Some (take (Z.to_nat n) (drop (Z.to_nat off) d)).

Lemma read_back_full fuel f off d :
  0 <= off <= len -> len < 2147483648 -> len - off <= 4096 * Z.of_nat fuel -> off mod FW_OTA_READBACK_CHUNK = 0 ->
  read_back fuel f part off len = Some d ->
  Z.of_nat (length d) = len - off /\
  forall o, off <= o < len -> o mod FW_OTA_READBACK_CHUNK = 0 ->
    let n := Z.min FW_OTA_READBACK_CHUNK (len - o) in
    esp_partition_read f part o n = Some (take (Z.to_nat n) (drop (Z.to_nat (o - off)) d)).
Proof.
  revert off d; unfold FW_OTA_READBACK_CHUNK; induction fuel as [|fuel IH]; intros off d Ho Hl Hf Hm; cbn [read_back].
  { intros [= <-]; cbn; split; [lia|intros; lia]. }
  destruct (Z.ltb_spec off len) as [Hlt|Hge]; [|intros [= <-]; cbn; split; [lia|intros; lia]].
  unfold FW_OTA_READBACK_CHUNK; set (n := if 4096 <? len - off then 4096 else len - off).
  assert (Hn : n = Z.min 4096 (len - off)) by (subst n; destruct (Z.ltb_spec 4096 (len - off)); lia); clearbody n.
  destruct (esp_partition_read f part off n) as [d1|] eqn:E1; [|done].
  destruct (read_back fuel f part (u32 (off + 4096)) len) as [d2|] eqn:E2; [|done]; intros [= <-].
  pose proof (read_length f part off n d1 ltac:(lia) E1) as L1; rewrite u32_small in E2 by lia.
  assert (H2 : Z.of_nat (length d2) = Z.max 0 (len - (off + 4096)) /\
    forall o, off + 4096 <= o < len -> o mod 4096 = 0 ->
      esp_partition_read f part o (Z.min 4096 (len - o)) =
      Some (take (Z.to_nat (Z.min 4096 (len - o))) (drop (Z.to_nat (o - (off + 4096))) d2))).
  { destruct (decide (len <= off + 4096)).
    - assert (d2 = []) as ->.
      { destruct fuel; cbn [read_back] in E2; [congruence|]; rewrite (proj2 (Z.ltb_ge _ _)) in E2 by lia; congruence. }
      cbn; split; [lia|intros; lia].
    - destruct (IH (off + 4096) d2) as [I1 I2]; try lia; [|exact E2|split; [lia|exact I2]].
      rewrite <- Zplus_mod_idemp_l, Hm; done. }
  destruct H2 as [L2 H2]; split; [rewrite length_app; lia|]; intros o Hoo Hmo.
  destruct (decide (o = off)) as [->|].
  - rewrite Z.sub_diag, drop_0, <- Hn, take_app_length' by lia; exact E1.
  - assert (off + 4096 <= o).
    { pose proof (Z.div_mod o 4096 ltac:(lia)); pose proof (Z.div_mod off 4096 ltac:(lia)).
      assert (off / 4096 < o / 4096) by lia; lia. }
    rewrite H2 by lia; f_equal; f_equal; rewrite drop_app_ge by lia; f_equal; lia.
Qed.

(** C27: The boot partition is switched only to the commanded image.  Whenever the download
    task calls finish, it does so once, just after the SDK has reported as many bytes
    written as commanded and after the update partition was read back from its start,
    block by block without a gap: these bytes are as many as commanded and have the
    commanded SHA-256.  The handle it finishes was begun with that partition for staging,
    as were all handles before. *)
Theorem ota_boots_verified s s' r :
  dacts s = [] -> len < 2147483648 -> ota_task len sha part s = (s', r) -> D_finish ∈ dacts s' ->
  Forall (fun a => match a with D_begin p _ _ => p = part | _ => True end) (dacts s') /\
  exists s1 d,
    checkpoint s1 = len /\ (D_finish ∉ dacts s1) /\
    read_in_full (flash (world s1)) d /\ mbedtls_sha256 d = sha /\
    s' = match ota_finish s1 with (x, inr _) => x | (x, inl f) => ota_fail f x end.
Proof.
  intros Ha Hmax E Hfin; destruct (task_ends _ _ _ Ha E) as [(stage & detail & x & Hs & -> & ->)|(x & Hx & Hc & [heap Hv] & Ex)].
  - exfalso; apply finish_over in Hfin; destruct (fail_closes _ stage detail x (or_introl Hs)) as (_ & F2 & _).
    rewrite F2 in Hfin; destruct Hs as [_ Hs]; destruct (handle x); [|rewrite Hs in Hfin]; destruct Hfin; done.
  - unfold verify_written_image in Hv; destruct heap; cbn [negb] in Hv; [|done].
    destruct (read_back _ _ _ _ _) as [d|] eqn:Er; [|done]; apply bool_decide_eq_true in Hv.
    apply read_back_full in Er as [L1 L2]; [|lia|lia| |done].
    2:{ unfold FW_OTA_READBACK_CHUNK; pose proof (Z.div_mod len 4096 ltac:(lia)); pose proof (Z.mod_pos_bound len 4096 ltac:(lia)).
        pose proof (Z.div_pos len 4096 ltac:(lia) ltac:(lia)); lia. }
    assert (Hstage : forall l, Forall ongoing l -> Forall (fun a => match a with D_begin p _ _ => p = part | _ => True end) l)
      by (intros l Hl; eapply Forall_impl; [exact Hl|]; intros []; done).
    split.
    + pose proof (finish_spec _ _ Hx) as HF; destruct (ota_finish x) as [y [f|[]]]; simplify_eq; destruct HF as (R1 & R2 & R3).
      * destruct R3 as [Rf R3], f as [stage detail|]; [|done].
        destruct (fail_closes (now s) stage detail y) as (_ & _ & l & -> & Hl); [auto|].
        apply Forall_app; split; [apply Hstage, Hl|repeat constructor].
      * destruct R3 as (l & -> & Hl); apply Forall_app; split; [apply Hstage, Hl|repeat constructor].
    + exists x, d; split_and!; try done.
      * intros Hf; apply finish_over in Hf; destruct Hx as (_ & _ & Hp); rewrite Hp in Hf; destruct Hf; done.
      * split; [lia|]; intros off Ho Hm; specialize (L2 off Ho Hm); cbv zeta in *; rewrite Z.sub_0_r in L2; exact L2.
      * destruct (ota_finish x) as [y [f|[]]]; simplify_eq; done.
Qed.
End Protocol.

(** ** An example

    A server whose first connection closes after 1200 of 2000 bytes; the flash is that
    of [FwReceive]. *)

Section Examples.
#[local] Existing Instance flash_sdk.

(** [b_flash] is the update partition. *)
Record web := Web { b_time : Z; b_flash : list Z; b_closes : list Z }.
#[local] Instance eta_web : Eta web := fun w => Web (b_time w) (b_flash w) (b_closes w).

Definition web_image : list Z := map (fun i => Z.of_nat i mod 251) (seq 0 2000).
#[local] Arguments web_image : simpl never.

(** The headers of the two responses. *)
Definition web_headers (off : Z) : list http_event :=
  if off =? 0 then [On_status_code 200; On_header (Some (str "Content-Length")) (Some (str "2000"))]
  else [On_status_code 206; On_header (Some (str "Content-Length")) (Some (str "800"));
        On_header (Some (str "Content-Range")) (Some (str "bytes 1200-1999/2000"))].

Definition web_perform (w : web) : web * list http_event * ota_err :=
  let n := Z.of_nat (length (b_flash w)) in
  let w := w <| b_time := b_time w + 1000 |> in
  match b_closes w with
  | c :: _ => if c <=? n then (w, [], E_HTTP_CONNECTION_CLOSED)
              else (w <| b_flash := take (length (b_flash w) + 400) web_image |>, [], E_IN_PROGRESS)
  | [] => (w <| b_flash := take (length (b_flash w) + 400) web_image |>, [], if 1600 <=? n then E_OK else E_IN_PROGRESS)
  end.

#[local] Instance web_ota : HttpsOta := {|
  W := web; esp_timer_get_time := b_time; flash w := Flash (fun _ => b_flash w) true false : @Fl flash_sdk; malloc_ok _ := true; after_readback w := w;
  https_begin w _ _ off := (w <| b_flash := take (Z.to_nat off) (b_flash w) |>, web_headers off, E_OK);
  https_perform := web_perform;
  image_len_read w := Z.of_nat (length (b_flash w));
  complete_data_received w := Z.of_nat (length (b_flash w)) =? 2000;
  https_abort w := (w <| b_closes := tail (b_closes w) |>, []);
  https_finish w := (w, [], E_OK);
  chunked_response _ := false; over_ssl _ := true;
  client_capture w := (w, Capture 0 E_OK 0 0);
  vTaskDelay_ms w ms := w <| b_time := b_time w + ms * 1000 |>;
  esp_err_to_name _ := []
|}.

#[local] Instance web_timing : OtaTiming web_ota.
Proof.
  constructor; intros; cbn in *; try lia; try done.
  2:{ case_match eqn:E; simplify_eq; to_prop; rewrite length_take, length_drop; lia. }
  unfold web_perform; cbn; destruct (b_closes w); [cbn; lia|case_match; cbn; lia].
Qed.

Definition web_start : dl := Dl (Web 0 [] [1200] : W) false 0 (new_diag 0) 0 [].
Definition web_part : @Part flash_sdk := true.
Definition web_sha : list Z := flash_digest web_image.

Definition sdk_call (a : dact (P := bool)) : bool :=
  match a with D_begin _ _ _ | D_retry _ _ _ | D_abort | D_finish | D_restart => true | _ => false end.

Abbreviation web_run := (ota_task 2000 web_sha web_part web_start).

Lemma web_runs :
  let '(s', r) := web_run in
  r = None /\ b_flash (world s') = web_image /\
  List.filter sdk_call (dacts s') = [D_begin web_part 0 true; D_abort; D_retry 2 1200 5; D_begin web_part 1200 true; D_finish; D_restart].
Proof. vm_compute; split_and!; reflexivity. Qed.


Lemma ota_boots_verified_witness :
  let '(s', r) := web_run in
  D_finish ∈ dacts s' /\ exists (s1 : dl) d, checkpoint s1 = 2000 /\ length d = 2000%nat /\ mbedtls_sha256 d = web_sha.
Proof.
  pose proof web_runs as HR; destruct web_run as [s' r] eqn:E; destruct HR as (_ & _ & HR).
  assert (Hf : D_finish ∈ dacts s').
  { apply list_elem_of_In; refine (proj1 (proj1 (filter_In sdk_call D_finish (dacts s')) _)); rewrite HR; cbn; tauto. }
  split; [exact Hf|]; destruct (ota_boots_verified 2000 web_sha web_part eq_refl web_start s' r eq_refl eq_refl E Hf) as (_ & s1 & d & H1 & _ & [H2 _] & H3 & _); exists s1, d; split; [exact H1|split; [lia|exact H3]].
Defined.
End Examples.
