(* ===== verification/Router.v ===== *)
(** * The hub of the bus (firmware-rp2040/src/wups_router.cpp, wups_router.h)

    One deframer per port, the routing rules, the senders, and the pass over the
    ports with its idle reset.  The local handler [wups_on_local_frame] of main.cpp
    is an argument: it gets the router's own [wups_route_frame], which it calls for
    frames unwrapped from net.downlink; [HubDispatch] is the handler.  What is written
    to a port is appended to [written]. *)

From S2P Require Import Prelude Protocol Deframer EspDispatch EspLink.

(** ** Ports *)

(* src: firmware-rp2040/src/wups_router.h:21-26 WUPS_PORT *)
Definition WUPS_PORT_NONE : Z := 0.
Definition WUPS_PORT_RPI : Z := 1.
Definition WUPS_PORT_CH32X : Z := 2.
Definition WUPS_PORT_ESP32 : Z := 3.
Definition WUPS_PORT_COUNT : Z := 4.

(* src: firmware-rp2040/src/wups_router.cpp:77-77 WUPS_RX_IDLE_RESET_MS *)
Definition WUPS_RX_IDLE_RESET_MS : Z := 50.

(** ** The deframer of a port *)

(** The states are those of the CH32X's enumeration; there is no stored second checksum
    byte. *)
(* src: firmware-rp2040/src/wups_router.cpp:40-48 PortRxState *)
Record PortRxState := PortRx {
  p_state : wups_rx_state_t;
  p_dst : Z; p_src : Z; p_cls : Z; p_op : Z; p_flags : Z; p_seq : Z;
  p_len : Z;
  p_pidx : Z;
  p_payload : list Z;
  p_ck_a : Z;
  p_exp_a : Z; p_exp_b : Z
}.

#[export] Instance eta_port_rx : Eta PortRxState := fun r =>
  PortRx (p_state r) (p_dst r) (p_src r) (p_cls r) (p_op r) (p_flags r) (p_seq r) (p_len r) (p_pidx r)
    (p_payload r) (p_ck_a r) (p_exp_a r) (p_exp_b r).

(** Static storage starts zeroed. *)
Definition port_rx_init : PortRxState := PortRx WUPS_RX_SYNC1 0 0 0 0 0 0 0 0 (replicate 240 0) 0 0 0.

(* src: firmware-rp2040/src/wups_router.cpp:52-56 rx_step *)
Definition rx_step (b : Z) (s : PortRxState) : PortRxState :=
  let s := s <| p_exp_a := u8 (p_exp_a s + b) |> in
  s <| p_exp_b := u8 (p_exp_b s + p_exp_a s) |>.

(* src: firmware-rp2040/src/wups_router.cpp:58-58 rx_reset *)
Definition rx_reset (s : PortRxState) : PortRxState := s <| p_state := WUPS_RX_SYNC1 |>.

(* src: firmware-rp2040/src/wups_router.cpp:68-71 rx_reset_with *)
Definition rx_reset_with (b : Z) (s : PortRxState) : PortRxState :=
  s <| p_state := if b =? WUPS_SYNC1 then WUPS_RX_SYNC2 else WUPS_RX_SYNC1 |>.

(* src: firmware-rp2040/src/wups_router.cpp:209-217 deliver_frame (copy) *)
Definition port_frame (s : PortRxState) : frame :=
  Frame (p_dst s) (p_src s) (p_cls s) (p_op s) (p_flags s) (p_seq s) (take (Z.to_nat (p_len s)) (p_payload s)).

(** The frame is the one [deliver_frame] is called with, before the reset. *)
(* src: firmware-rp2040/src/wups_router.cpp:222-297 rx_byte *)
Definition rx_byte (s : PortRxState) (b : Z) : PortRxState * option frame :=
  match p_state s with
  | WUPS_RX_SYNC1 => (if b =? WUPS_SYNC1 then s <| p_state := WUPS_RX_SYNC2 |> else s, None)
  | WUPS_RX_SYNC2 =>
      (if b =? WUPS_SYNC2
       then s <| p_exp_a := 0 |> <| p_exp_b := 0 |> <| p_pidx := 0 |> <| p_state := WUPS_RX_DST |>
       else rx_reset_with b s, None)
  | WUPS_RX_DST => (rx_step b (s <| p_dst := b |>) <| p_state := WUPS_RX_SRC |>, None)
  | WUPS_RX_SRC => (rx_step b (s <| p_src := b |>) <| p_state := WUPS_RX_CLASS |>, None)
  | WUPS_RX_CLASS => (rx_step b (s <| p_cls := b |>) <| p_state := WUPS_RX_OP |>, None)
  | WUPS_RX_OP => (rx_step b (s <| p_op := b |>) <| p_state := WUPS_RX_FLAGS |>, None)
  | WUPS_RX_FLAGS => (rx_step b (s <| p_flags := b |>) <| p_state := WUPS_RX_SEQ |>, None)
  | WUPS_RX_SEQ => (rx_step b (s <| p_seq := b |>) <| p_state := WUPS_RX_LEN_L |>, None)
  | WUPS_RX_LEN_L => (rx_step b (s <| p_len := b |>) <| p_state := WUPS_RX_LEN_H |>, None)
  | WUPS_RX_LEN_H =>
      let s := rx_step b (s <| p_len := Z.lor (p_len s) (u16 (Z.shiftl b 8)) |>) in
      (if WUPS_MAX_PAYLOAD <? p_len s then rx_reset_with b s
       else s <| p_state := if p_len s =? 0 then WUPS_RX_CK_A else WUPS_RX_PAYLOAD |>, None)
  | WUPS_RX_PAYLOAD =>
      let s := s <| p_payload := <[Z.to_nat (p_pidx s) := b]> (p_payload s) |> <| p_pidx := u16 (p_pidx s + 1) |> in
      let s := rx_step b s in
      (if p_len s <=? p_pidx s then s <| p_state := WUPS_RX_CK_A |> else s, None)
  | WUPS_RX_CK_A => (s <| p_ck_a := b |> <| p_state := WUPS_RX_CK_B |>, None)
  | WUPS_RX_CK_B =>
      (if (p_ck_a s =? p_exp_a s) && (b =? p_exp_b s) then s <| p_state := WUPS_RX_END1 |> else rx_reset_with b s, None)
  | WUPS_RX_END1 => (if b =? WUPS_END1 then s <| p_state := WUPS_RX_END2 |> else rx_reset_with b s, None)
  | WUPS_RX_END2 => if b =? WUPS_END2 then (rx_reset s, Some (port_frame s)) else (rx_reset_with b s, None)
  end.

(** ** The hub *)

(** [streams] tells which ports are wired; [app] is the state of the local handler. *)
(* src: firmware-rp2040/src/wups_router.cpp:11-18 module state *)
Record hub {App : Type} := Hub {
  streams : list bool;
  port_rx : list PortRxState;
  port_last_rx_ms : list Z;
  tx_seq : Z;
  Wups_Frames_Rx : list Z;
  Wups_Frames_Tx : list Z;
  Wups_Frames_Forwarded : list Z;
  written : list (Z * list Z);
  app : App
}.
Arguments hub : clear implicits.

#[export] Instance eta_hub {App} : Eta (hub App) := fun h =>
  Hub App (streams h) (port_rx h) (port_last_rx_ms h) (tx_seq h) (Wups_Frames_Rx h) (Wups_Frames_Tx h)
    (Wups_Frames_Forwarded h) (written h) (app h).

Definition count (p : Z) (l : list Z) : list Z := alter (fun n => u32 (n + 1)) (Z.to_nat p) l.

Section Hub.
Context {App Env : Type}.
Abbreviation hub := (hub App).
Implicit Types (h : hub) (f : frame) (p : Z).

Definition wired (p : Z) h : bool := nth (Z.to_nat p) (streams h) false.

(** ** Senders *)

(* src: firmware-rp2040/src/wups_router.cpp:82-121 wups_send_with_src *)
Definition wups_send_with_src (port dst src cls op flags seq : Z) (payload : list Z) h : hub :=
  if (port =? WUPS_PORT_NONE) || (WUPS_PORT_COUNT <=? port) then h
  else if negb (wired port h) then h else
  let payload_len := Z.of_nat (length payload) in
  if WUPS_MAX_PAYLOAD <? payload_len then h else
  let header := [WUPS_SYNC1; WUPS_SYNC2; dst; src; cls; op; flags; seq;
                 u8 (Z.land payload_len 255); u8 (Z.land (Z.shiftr payload_len 8) 255)] in
  let ck := fold_left fletcher_step payload (fold_left fletcher_step (drop 2 header) (0, 0)) in
  let trailer := [ck.1; ck.2; WUPS_END1; WUPS_END2; WUPS_GUARD_BYTE] in
  h <| written := written h ++ [(port, header ++ payload ++ trailer)] |>
    <| Wups_Frames_Tx := count port (Wups_Frames_Tx h) |>.

(* src: firmware-rp2040/src/wups_router.cpp:123-129 wups_send_seq *)
Definition wups_send_seq (port dst cls op flags seq : Z) (payload : list Z) h : hub :=
  wups_send_with_src port dst WUPS_ADDR_RP2040 cls op flags seq payload h.

(* src: firmware-rp2040/src/wups_router.cpp:131-138 wups_send *)
Definition wups_send (port dst cls op flags : Z) (payload : list Z) h : hub :=
  let seq := tx_seq h in
  let h := h <| tx_seq := u8 (tx_seq h + 1) |> in
  wups_send_with_src port dst WUPS_ADDR_RP2040 cls op flags seq payload h.

(** ** Routing *)

(* src: firmware-rp2040/src/wups_router.cpp:142-149 emit_forward *)
Definition emit_forward (out_port : Z) f h : hub :=
  if (out_port =? WUPS_PORT_NONE) || (WUPS_PORT_COUNT <=? out_port) then h
  else if negb (wired out_port h) then h else
  let h := wups_send_with_src out_port (f_dst f) (f_src f) (f_cls f) (f_op f) (f_flags f) (f_seq f) (f_payload f) h in
  h <| Wups_Frames_Forwarded := count out_port (Wups_Frames_Forwarded h) |>.

(* src: firmware-rp2040/src/wups_router.cpp:308-311 wups_router_init (addr_to_port) *)
Definition addr_to_port (a : Z) : Z :=
  if a =? WUPS_ADDR_RPI then WUPS_PORT_RPI
  else if a =? WUPS_ADDR_CH32X then WUPS_PORT_CH32X
  else if a =? WUPS_ADDR_ESP32 then WUPS_PORT_ESP32
  else WUPS_PORT_NONE.

(** The ports from 1 on. *)
Definition ports : list Z := [1; 2; 3].

(** [on_local] is the local handler; its first argument routes a frame it has unwrapped. *)
Context (on_local : Env -> (Z -> frame -> hub -> hub) -> Z -> frame -> hub -> hub).

(** [fuel] bounds the nesting of frames inside frames. *)
(* src: firmware-rp2040/src/wups_router.cpp:151-203 wups_route_frame *)
Fixpoint wups_route_frame (fuel : nat) (e : Env) (inbound_port : Z) (f : frame) (h : hub) : hub :=
  match fuel with
  | O => h
  | S fuel =>
      let wups_on_local_frame := on_local e (wups_route_frame fuel e) in
      let to_self := f_dst f =? WUPS_ADDR_RP2040 in
      let is_bcast := f_dst f =? WUPS_ADDR_BROADCAST in
      let is_internal := f_dst f =? WUPS_ADDR_INTERNAL in
      let h := if to_self || is_bcast || is_internal then wups_on_local_frame inbound_port f h else h in
      if is_bcast then
        fold_left (fun h p => if negb (p =? inbound_port) then emit_forward p f h else h) ports h
      else if is_internal then
        fold_left (fun h p => if p =? WUPS_PORT_RPI then h else if p =? inbound_port then h else emit_forward p f h) ports h
      else if to_self then h
      else if (inbound_port =? WUPS_PORT_RPI) && has (f_flags f) WUPS_FLAG_RESP && (f_cls f =? WUPS_CLASS_HOST)
      then wups_on_local_frame inbound_port f h
      else
        let out_port := addr_to_port (f_dst f) in
        if negb (out_port =? WUPS_PORT_NONE) && negb (out_port =? inbound_port) then emit_forward out_port f h else h
  end.

(** An inner frame is 20 bytes shorter than the frame that carries it, so that 13 levels
    are never reached ([HubCommands.route_fuel]). *)
Definition NESTING : nat := 13.

(* src: firmware-rp2040/src/wups_router.cpp:207-220 deliver_frame *)
Definition deliver_frame (e : Env) (inbound_port : Z) (f : frame) (h : hub) : hub :=
  let h := h <| Wups_Frames_Rx := count inbound_port (Wups_Frames_Rx h) |> in
  wups_route_frame NESTING e inbound_port f h.

(** ** Receiving *)

Definition port_state (p : Z) h : PortRxState := nth (Z.to_nat p) (port_rx h) port_rx_init.
Definition set_port (p : Z) (s : PortRxState) h : hub := h <| port_rx := <[Z.to_nat p := s]> (port_rx h) |>.

(** One byte of a port, in the environment in which it is processed. *)
Definition port_byte (p : Z) (h : hub) (x : Z * Env) : hub :=
  let '(s, o) := rx_byte (port_state p h) x.1 in
  let h := set_port p s h in
  match o with Some f => deliver_frame x.2 p f h | None => h end.

(** The bytes the loop reads: at most 1024. *)
(* src: firmware-rp2040/src/wups_router.cpp:318-343 wups_router_drain (port) *)
Definition drain_port (p now_ms : Z) (bytes : list (Z * Env)) (h : hub) : hub :=
  if negb (wired p h) then h else
  let bytes := take 1024 bytes in
  let h := fold_left (port_byte p) bytes h in
  if negb (bool_decide (length bytes = 0%nat)) then h <| port_last_rx_ms := <[Z.to_nat p := now_ms]> (port_last_rx_ms h) |>
  else if negb (bool_decide (p_state (port_state p h) = WUPS_RX_SYNC1)) &&
          (WUPS_RX_IDLE_RESET_MS <? u32 (now_ms - nth (Z.to_nat p) (port_last_rx_ms h) 0))
       then set_port p (rx_reset (port_state p h)) h
       else h.

(** [input p] is the clock and what the stream of port [p] has when its turn comes. *)
(* src: firmware-rp2040/src/wups_router.cpp:316-344 wups_router_drain *)
Definition wups_router_drain (input : Z -> Z * list (Z * Env)) (h : hub) : hub :=
  fold_left (fun h p => drain_port p (input p).1 (input p).2 h) ports h.

(* src: firmware-rp2040/src/wups_router.cpp:301-314 wups_router_init *)
Definition wups_router_init (usbcdc uart_ch32x uart_esp32 : bool) (h : hub) : hub :=
  h <| streams := [false; usbcdc; uart_ch32x; uart_esp32] |> <| port_rx := map rx_reset (port_rx h) |>.

Definition hub_boot (a : App) : hub :=
  Hub App [false; false; false; false] (replicate 4 port_rx_init) [0; 0; 0; 0] 0 [0; 0; 0; 0] [0; 0; 0; 0] [0; 0; 0; 0] [] a.
End Hub.

(** ** The deframer is the CH32X's *)

Definition to_port (r : wups_rx) : PortRxState :=
  PortRx (rx_state r) (rx_dst r) (rx_src r) (rx_cls r) (rx_op r) (rx_flags r) (rx_seq r) (rx_len r)
    (rx_pidx r) (rx_payload r) (rx_ck_a r) (exp_a r) (exp_b r).

Section Simulation.
Implicit Types (r : wups_rx).

Lemma port_byte_sim r b : rx_byte (to_port r) b = (to_port (wups_rx_byte r b).1, (wups_rx_byte r b).2).
Proof.
  unfold rx_byte, wups_rx_byte; change (p_state (to_port r)) with (rx_state r); destruct (rx_state r) eqn:Hs; try done.
  all: cbn -[u8 u16 Z.lor Z.shiftl]; repeat case_match; cbn; done.
Qed.

Lemma run_rx_byte_sim bs r : run rx_byte (to_port r) bs = (to_port (feed r bs).1, (feed r bs).2).
Proof.
  revert r; induction bs as [|b bs IH]; intros r; [done|]; cbn [run]; rewrite feed_cons, port_byte_sim.
  destruct (wups_rx_byte r b) as [r1 o]; cbn [fst snd]; rewrite IH; destruct (feed r1 bs); done.
Qed.
End Simulation.

(** ** Routing *)

(** What the rules say: the ports a frame leaves by, and whether it is handled here. *)
Definition multicast (f : frame) : bool := (f_dst f =? WUPS_ADDR_BROADCAST) || (f_dst f =? WUPS_ADDR_INTERNAL).
Definition bridged (p : Z) (f : frame) : bool :=
  negb (multicast f) && negb (f_dst f =? WUPS_ADDR_RP2040) &&
  (p =? WUPS_PORT_RPI) && has (f_flags f) WUPS_FLAG_RESP && (f_cls f =? WUPS_CLASS_HOST).
Definition for_hub (p : Z) (f : frame) : bool := (f_dst f =? WUPS_ADDR_RP2040) || multicast f || bridged p f.
Definition candidates (f : frame) : list Z :=
  if f_dst f =? WUPS_ADDR_BROADCAST then [WUPS_PORT_RPI; WUPS_PORT_CH32X; WUPS_PORT_ESP32]
  else if f_dst f =? WUPS_ADDR_INTERNAL then [WUPS_PORT_CH32X; WUPS_PORT_ESP32]
  else if f_dst f =? WUPS_ADDR_RPI then [WUPS_PORT_RPI]
  else if f_dst f =? WUPS_ADDR_CH32X then [WUPS_PORT_CH32X]
  else if f_dst f =? WUPS_ADDR_ESP32 then [WUPS_PORT_ESP32]
  else [].
Definition destinations (p : Z) (f : frame) : list Z :=
  if bridged p f then [] else List.filter (fun q => negb (q =? p)) (candidates f).

(** The wire image of a frame as the hub writes it. *)
Definition on_wire (f : frame) : list Z := frame_bytes f ++ [WUPS_GUARD_BYTE].

Section Routing.
Context {App Env : Type} (on_local : Env -> (Z -> frame -> hub App -> hub App) -> Z -> frame -> hub App -> hub App).
Implicit Types (h : hub App) (f : frame) (p : Z).

(** What sending leaves alone. *)
Definition same_hub h h' : Prop :=
  streams h' = streams h /\ port_rx h' = port_rx h /\ port_last_rx_ms h' = port_last_rx_ms h /\ tx_seq h' = tx_seq h /\
  Wups_Frames_Rx h' = Wups_Frames_Rx h /\ app h' = app h.

Lemma same_hub_trans h1 h2 h3 : same_hub h1 h2 -> same_hub h2 h3 -> same_hub h1 h3.
Proof. unfold same_hub; intuition congruence. Qed.

Lemma send_with_src_spec port dst src cls op flags seq payload h :
  1 <= port < WUPS_PORT_COUNT -> Z.of_nat (length payload) <= WUPS_MAX_PAYLOAD ->
  let h' := wups_send_with_src port dst src cls op flags seq payload h in
  same_hub h h' /\
  written h' = written h ++ if wired port h then [(port, on_wire (Frame dst src cls op flags seq payload))] else [].
Proof.
  intros Hp Hn; unfold wups_send_with_src, WUPS_PORT_NONE, WUPS_PORT_COUNT in *.
  rewrite (proj2 (Z.eqb_neq _ _)), (proj2 (Z.leb_gt _ _)) by lia; cbn [orb].
  destruct (wired port h); cbn [negb]; [|rewrite app_nil_r; done].
  rewrite (proj2 (Z.ltb_ge _ _)) by lia; split; [done|].
  cbn [written upd]; unfold on_wire; rewrite <- sender_bytes by done; done.
Qed.

Lemma emit_forward_spec p f h :
  1 <= p < WUPS_PORT_COUNT -> frame_len f <= WUPS_MAX_PAYLOAD ->
  same_hub h (emit_forward p f h) /\
  written (emit_forward p f h) = written h ++ if wired p h then [(p, on_wire f)] else [].
Proof.
  intros Hp Hn; unfold emit_forward.
  destruct (send_with_src_spec p (f_dst f) (f_src f) (f_cls f) (f_op f) (f_flags f) (f_seq f) (f_payload f) h Hp Hn) as [H1 H2].
  unfold WUPS_PORT_NONE, WUPS_PORT_COUNT in *; rewrite (proj2 (Z.eqb_neq _ _)), (proj2 (Z.leb_gt _ _)) by lia; cbn [orb].
  destruct (wired p h); cbn [negb]; [|rewrite app_nil_r; done].
  split; [exact H1|]; destruct f; exact H2.
Qed.

(** Forwarding to some of the ports, in order. *)
Lemma forward_all (keep : Z -> bool) f l h :
  frame_len f <= WUPS_MAX_PAYLOAD -> Forall (fun q => 1 <= q < WUPS_PORT_COUNT) l ->
  let h' := fold_left (fun h q => if keep q then emit_forward q f h else h) l h in
  same_hub h h' /\ written h' = written h ++ map (fun q => (q, on_wire f)) (List.filter (fun q => wired q h) (List.filter keep l)).
Proof.
  intros Hn Hl; revert h; induction Hl as [|q l Hq _ IH]; intros h; cbn [fold_left List.filter map]; [rewrite app_nil_r; done|].
  destruct (keep q); [|apply IH].
  destruct (emit_forward_spec q f h Hq Hn) as [H1 H2]; destruct (IH (emit_forward q f h)) as [H3 H4].
  split; [eapply same_hub_trans; eauto|]; cbv zeta in *; rewrite H4, H2, <- app_assoc; f_equal.
  assert (Hw : forall x, wired x (emit_forward q f h) = wired x h) by (intros x; unfold wired; rewrite (proj1 H1); done).
  cbn [List.filter]; rewrite (List.filter_ext _ _ Hw); destruct (wired q h); done.
Qed.

(** The rules, whatever the local handler does: it is called at most once and first. *)
Lemma route_spec n e p f h :
  frame_len f <= WUPS_MAX_PAYLOAD ->
  let h1 := if for_hub p f then on_local e (wups_route_frame on_local n e) p f h else h in
  let h' := wups_route_frame on_local (S n) e p f h in
  same_hub h1 h' /\
  written h' = written h1 ++ map (fun q => (q, on_wire f)) (List.filter (fun q => wired q h1) (destinations p f)).
Proof.
  intros Hn; cbn [wups_route_frame]; cbv zeta; unfold for_hub, destinations, bridged, multicast, candidates.
  set (L := on_local e (wups_route_frame on_local n e) p f h).
  destruct (Z.eqb_spec (f_dst f) WUPS_ADDR_RP2040) as [E|E].
  { rewrite E; cbn; rewrite app_nil_r; done. }
  destruct (Z.eqb_spec (f_dst f) WUPS_ADDR_BROADCAST) as [E1|E1]; cbn [orb andb negb].
  { apply (forward_all (fun q => negb (q =? p)) f [1; 2; 3] L Hn); repeat constructor; lia. }
  destruct (Z.eqb_spec (f_dst f) WUPS_ADDR_INTERNAL) as [E2|E2]; cbn [orb andb negb].
  { pose proof (forward_all (fun q => negb (q =? p)) f [2; 3] L Hn) as H; unfold ports; cbn [fold_left] in *.
    change (1 =? WUPS_PORT_RPI) with true; change (2 =? WUPS_PORT_RPI) with false; change (3 =? WUPS_PORT_RPI) with false.
    rewrite !if_negb in H; apply H; repeat constructor; lia. }
  destruct ((p =? WUPS_PORT_RPI) && has (f_flags f) WUPS_FLAG_RESP && (f_cls f =? WUPS_CLASS_HOST));
    [cbn; rewrite app_nil_r; done|]; unfold addr_to_port.
  assert (Hone : forall q, 1 <= q < WUPS_PORT_COUNT ->
    let h' := if negb (q =? WUPS_PORT_NONE) && negb (q =? p) then emit_forward q f h else h in
    same_hub h h' /\
    written h' = written h ++ map (fun q => (q, on_wire f)) (List.filter (fun q => wired q h) (List.filter (fun q => negb (q =? p)) [q]))).
  { intros q Hq; rewrite (proj2 (Z.eqb_neq q WUPS_PORT_NONE)) by (unfold WUPS_PORT_NONE; lia); cbn [negb andb].
    pose proof (forward_all (fun q => negb (q =? p)) f [q] h Hn) as H; cbn [fold_left] in H; apply H; repeat constructor; lia. }
  destruct (f_dst f =? WUPS_ADDR_RPI); [apply Hone; vm_compute; split; congruence|].
  destruct (f_dst f =? WUPS_ADDR_CH32X); [apply Hone; vm_compute; split; congruence|].
  destruct (f_dst f =? WUPS_ADDR_ESP32); [apply Hone; vm_compute; split; congruence|].
  cbn; rewrite app_nil_r; done.
Qed.
End Routing.

(** ** Transit *)

Section Transit.
Context {App Env : Type} (on_local : Env -> (Z -> frame -> hub App -> hub App) -> Z -> frame -> hub App -> hub App).
Implicit Types (h : hub App) (f : frame) (p q : Z).

(** A stream as every sender of the bus writes it, from the hunting state. *)
Lemma feed_wire l r :
  rx_state r = WUPS_RX_SYNC1 -> length (rx_payload r) = 240%nat -> Forall (fun f => frame_len f <= WUPS_MAX_PAYLOAD) l ->
  let '(r', os) := feed r (concat (map on_wire l)) in
  omap id os = l /\ rx_state r' = WUPS_RX_SYNC1 /\ length (rx_payload r') = 240%nat.
Proof.
  intros Hs Hl Hf; revert r Hs Hl; induction Hf as [|f l Hf _ IH]; intros r Hs Hl; [done|].
  cbn [map concat]; unfold on_wire at 1; rewrite <- app_assoc, feed_app.
  destruct (feed_frame f r (or_introl Hs) Hl Hf) as (r1 & -> & Hs1 & Hl1); rewrite feed_app, feed_idle;
    [|done|constructor; [discriminate|constructor]].
  specialize (IH r1 Hs1 Hl1); destruct (feed r1 (concat _)) as [r2 os]; destruct IH as (<- & ? & ?).
  split; [|done]; rewrite !omap_app, !omap_replicate_None; done.
Qed.

(** A frame that only passes through, from port [p] to port [q]. *)
Definition passes p q f : Prop :=
  for_hub p f = false /\ addr_to_port (f_dst f) = q /\ q <> p /\ frame_len f <= WUPS_MAX_PAYLOAD.

Lemma passes_destination p q f : 1 <= q -> passes p q f -> destinations p f = [q].
Proof.
  intros Hq (Hh & Ha & Hne & _); unfold for_hub, multicast in Hh; apply orb_false_iff in Hh as [Hh Hb].
  apply orb_false_iff in Hh as [_ Hm]; apply orb_false_iff in Hm as [H1 H2].
  unfold destinations, candidates; rewrite Hb, H1, H2; unfold addr_to_port, WUPS_PORT_NONE in Ha.
  destruct (f_dst f =? WUPS_ADDR_RPI); [subst q; cbn [List.filter]; rewrite (proj2 (Z.eqb_neq _ p)) by done; done|].
  destruct (f_dst f =? WUPS_ADDR_CH32X); [subst q; cbn [List.filter]; rewrite (proj2 (Z.eqb_neq _ p)) by done; done|].
  destruct (f_dst f =? WUPS_ADDR_ESP32); [subst q; cbn [List.filter]; rewrite (proj2 (Z.eqb_neq _ p)) by done; done|].
  subst q; lia.
Qed.

Definition valid_hub h : Prop := length (port_rx h) = 4%nat.

Lemma port_state_set p s h : valid_hub h -> 1 <= p < 4 -> port_state p (set_port p s h) = s.
Proof.
  intros Hv Hp; unfold port_state, set_port; cbn [port_rx upd].
  rewrite nth_lookup, list_lookup_insert_eq by (unfold valid_hub in Hv; lia); done.
Qed.

(** What transit leaves alone. *)
Definition kept h h' : Prop :=
  streams h' = streams h /\ app h' = app h /\ port_last_rx_ms h' = port_last_rx_ms h /\ tx_seq h' = tx_seq h.

Definition sent_out q (fs : list frame) : list (Z * list Z) := map (fun f => (q, on_wire f)) fs.

Lemma transit_byte p q b e r h :
  1 <= p < 4 -> 1 <= q < 4 -> valid_hub h -> port_state p h = to_port r -> wired q h = true ->
  (forall f, (wups_rx_byte r b).2 = Some f -> passes p q f) ->
  let h' := port_byte on_local p h (b, e) in
  port_state p h' = to_port (wups_rx_byte r b).1 /\ valid_hub h' /\ kept h h' /\
  written h' = written h ++ sent_out q (omap id [(wups_rx_byte r b).2]).
Proof.
  intros Hp Hq Hv Hs Hw Hf; unfold port_byte; cbn [fst snd]; rewrite Hs, port_byte_sim.
  destruct (wups_rx_byte r b) as [r1 [f|]]; cbn [fst snd].
  2:{ rewrite port_state_set by done; split; [done|]; split; [|cbn; rewrite app_nil_r; done].
      unfold valid_hub in *; cbn; rewrite length_insert; done. }
  specialize (Hf f eq_refl); pose proof (passes_destination p q f ltac:(lia) Hf) as Hd; destruct Hf as (Hh & _ & _ & Hn).
  unfold deliver_frame; set (h1 := _ <| Wups_Frames_Rx := _ |>).
  destruct (route_spec on_local 12 e p f h1 Hn) as [H1 H2]; rewrite Hh in H1, H2; rewrite Hd in H2.
  cbn [List.filter] in H2; replace (wired q h1) with true in H2 by (unfold wired; cbn; exact (eq_sym Hw)).
  change NESTING with 13%nat; destruct H1 as (E1 & E2 & E3 & E4 & E5 & E6).
  split_and!.
  - unfold port_state; rewrite E2; apply (port_state_set p (to_port r1) h Hv Hp).
  - unfold valid_hub in *; rewrite E2; cbn; rewrite length_insert; done.
  - unfold kept; rewrite E1, E3, E4, E6; done.
  - exact H2.
Qed.

Lemma transit_bytes p q bs e r h :
  1 <= p < 4 -> 1 <= q < 4 -> valid_hub h -> port_state p h = to_port r -> wired q h = true ->
  Forall (passes p q) (delivered r bs) ->
  let h' := fold_left (port_byte on_local p) (map (fun b => (b, e)) bs) h in
  port_state p h' = to_port (feed r bs).1 /\ valid_hub h' /\ kept h h' /\
  written h' = written h ++ sent_out q (delivered r bs).
Proof.
  intros Hp Hq; revert r h; induction bs as [|b bs IH]; intros r h Hv Hs Hw Hd; cbn [map fold_left].
  { unfold delivered; cbn; rewrite app_nil_r; done. }
  unfold delivered in Hd |- *; rewrite feed_cons in Hd |- *.
  pose proof (transit_byte p q b e r h Hp Hq Hv Hs Hw) as HT; destruct (wups_rx_byte r b) as [r1 o] eqn:Eb; cbn [fst snd] in HT.
  specialize (IH r1 (port_byte on_local p h (b, e))); unfold delivered in IH; destruct (feed r1 bs) as [r2 os]; cbn [fst snd] in *.
  destruct HT as (T1 & T2 & (K1 & K2 & K3 & K4) & T4).
  { intros f ->; apply Forall_cons in Hd as [Hd _]; exact Hd. }
  destruct IH as (I1 & I2 & (J1 & J2 & J3 & J4) & I4); [done|done|unfold wired in *; rewrite K1; done| |].
  { destruct o as [f|]; [apply Forall_cons in Hd as [_ Hd]|]; exact Hd. }
  split_and!; [done|done|unfold kept; split_and!; congruence|].
  rewrite I4, T4, <- app_assoc; unfold sent_out; rewrite <- map_app; destruct o; done.
Qed.

Lemma drain_some p now bytes h :
  wired p h = true -> bytes <> [] -> Z.of_nat (length bytes) <= 1024 ->
  drain_port on_local p now bytes h =
  (fold_left (port_byte on_local p) bytes h) <| port_last_rx_ms :=
     <[Z.to_nat p := now]> (port_last_rx_ms (fold_left (port_byte on_local p) bytes h)) |>.
Proof.
  intros Hw Hne Hl; unfold drain_port; rewrite Hw; cbn [negb]; rewrite take_ge by lia.
  rewrite bool_decide_eq_false_2 by (destruct bytes; [done|discriminate]); done.
Qed.

(** The chunks in which successive passes find a stream. *)
Definition drains p e (chunks : list (Z * list Z)) h : hub App :=
  fold_left (fun h c => drain_port on_local p c.1 (map (fun b => (b, e)) c.2) h) chunks h.

Lemma transit_drains p q e chunks r h :
  1 <= p < 4 -> 1 <= q < 4 -> valid_hub h -> port_state p h = to_port r -> wired p h = true -> wired q h = true ->
  Forall (fun c : Z * list Z => 0 < Z.of_nat (length c.2) <= 1024) chunks ->
  Forall (passes p q) (delivered r (concat (map snd chunks))) ->
  let h' := drains p e chunks h in
  port_state p h' = to_port (feed r (concat (map snd chunks))).1 /\ valid_hub h' /\ app h' = app h /\
  written h' = written h ++ sent_out q (delivered r (concat (map snd chunks))).
Proof.
  intros Hp Hq; revert r h; induction chunks as [|[now bs] chunks IH]; intros r h Hv Hs Hwp Hwq Hc Hd.
  { unfold delivered; cbn; rewrite app_nil_r; done. }
  apply Forall_cons in Hc as [Hb Hc]; cbn [map concat fst snd] in *; unfold delivered in *; rewrite feed_app in Hd |- *.
  unfold drains; cbn [fold_left fst snd]; rewrite drain_some; [|done|destruct bs; [cbn in Hb; lia|discriminate]|rewrite length_map; lia].
  set (h1 := fold_left _ _ h); pose proof (transit_bytes p q bs e r h Hp Hq Hv Hs Hwq) as HT; unfold delivered in HT; fold h1 in HT.
  destruct (feed r bs) as [r1 os1]; cbn [fst snd] in *.
  destruct (feed r1 (concat (map snd chunks))) as [r2 os2] eqn:E2; cbn [fst snd] in *.
  rewrite omap_app in Hd; apply Forall_app in Hd as [Hd1 Hd2]; destruct (HT Hd1) as (T1 & T2 & (K1 & K2 & K3 & K4) & T4).
  set (h2 := h1 <| port_last_rx_ms := _ |>); specialize (IH r1 h2); rewrite E2 in IH; cbn [fst snd] in IH.
  destruct IH as (I1 & I2 & I3 & I4); [done|exact T1| | |done|done|].
  - unfold wired in *; subst h2; cbn; rewrite K1; done.
  - unfold wired in *; subst h2; cbn; rewrite K1; done.
  - fold (drains p e chunks h2); split_and!; [exact I1|exact I2|rewrite I3; exact K2|].
    rewrite I4; subst h2; cbn [written upd]; rewrite T4, <- app_assoc, omap_app; unfold sent_out; rewrite map_app; done.
Qed.
End Transit.

(** ** Properties *)

Section Properties.
Context {App Env : Type} (on_local : Env -> (Z -> frame -> hub App -> hub App) -> Z -> frame -> hub App -> hub App).

(** C29: The routing rules.  Whatever the local handler does, a frame is given to it at
    most once, before it is forwarded, exactly when it is for the hub, for all, for the
    controllers, or an answer of the host agent; it leaves, unchanged and complete, by
    exactly the wired ports of its destination; it never leaves by the port it came from,
    and a frame for the controllers never reaches the host. *)
Theorem hub_routes n e p f (h : hub App) :
  frame_len f <= WUPS_MAX_PAYLOAD ->
  let h1 := if for_hub p f then on_local e (wups_route_frame on_local n e) p f h else h in
  let h' := wups_route_frame on_local (S n) e p f h in
  same_hub h1 h' /\
  written h' = written h1 ++ map (fun q => (q, frame_bytes f ++ [WUPS_GUARD_BYTE]))
                               (List.filter (fun q => wired q h1) (destinations p f)) /\
  (p ∉ destinations p f) /\
  (f_dst f = WUPS_ADDR_INTERNAL -> WUPS_PORT_RPI ∉ destinations p f).
Proof.
  intros Hn; destruct (route_spec on_local n e p f h Hn) as [H1 H2]; split; [exact H1|split; [exact H2|]].
  unfold destinations; destruct (bridged p f); [split; [|intros _]; apply not_elem_of_nil|]; split.
  - intros H%list_elem_of_In%filter_In; destruct H as [_ H]; rewrite Z.eqb_refl in H; done.
  - intros E H%list_elem_of_In%filter_In; unfold candidates in H; rewrite E in H; cbn in H; unfold WUPS_PORT_RPI in H; naive_solver.
Qed.

(** The hub is transparent.  A stream of frames that only pass through, as any sender
    of the bus writes it, arriving at one port in pieces of any size over any number of
    passes, is written to the other port frame by frame, in order and complete, with
    nothing else; and the machine at the far end delivers exactly those frames. *)
Theorem hub_transparent p q e chunks l (h : hub App) :
  1 <= p < 4 -> 1 <= q < 4 -> valid_hub h -> port_state p h = port_rx_init ->
  wired p h = true -> wired q h = true ->
  Forall (fun c : Z * list Z => 0 < Z.of_nat (length c.2) <= 1024) chunks ->
  concat (map snd chunks) = concat (map (fun f => frame_bytes f ++ [WUPS_GUARD_BYTE]) l) ->
  Forall (passes p q) l ->
  let h' := drains on_local p e chunks h in
  app h' = app h /\
  written h' = written h ++ map (fun f => (q, frame_bytes f ++ [WUPS_GUARD_BYTE])) l /\
  delivered wups_rx_init (concat (map snd (drop (length (written h)) (written h')))) = l.
Proof.
  intros Hp Hq Hv Hs Hwp Hwq Hc Hb Hl; change port_rx_init with (to_port wups_rx_init) in Hs.
  assert (Hlen : Forall (fun f => frame_len f <= WUPS_MAX_PAYLOAD) l).
  { apply (Forall_impl _ _ _ Hl); intros f (_ & _ & _ & H); exact H. }
  pose proof (feed_wire l wups_rx_init eq_refl eq_refl Hlen) as HF.
  change (map (fun f => frame_bytes f ++ [WUPS_GUARD_BYTE]) l) with (map on_wire l) in Hb; rewrite <- Hb in HF.
  pose proof (transit_drains on_local p q e chunks wups_rx_init h Hp Hq Hv Hs Hwp Hwq Hc) as HT; unfold delivered in HT.
  destruct (feed wups_rx_init (concat (map snd chunks))) as [r2 os] eqn:E; cbn [fst snd] in *; destruct HF as (HF & _).
  rewrite HF in HT; destruct (HT Hl) as (_ & _ & H3 & H4); split; [exact H3|split; [exact H4|]].
  cbv zeta; rewrite H4, drop_app_length; unfold sent_out; rewrite map_map; cbn [snd]; unfold delivered.
  change (map (fun x => on_wire x) l) with (map on_wire l); rewrite <- Hb, E; exact HF.
Qed.

(** Silence resynchronises a port.  Whatever fragment a port is in the middle of, a
    pass that finds no byte more than 50 ms after the last one puts the deframer back, and
    the next frame that only passes through is forwarded. *)
Theorem hub_resyncs p q e now now' f r (h : hub App) :
  1 <= p < 4 -> 1 <= q < 4 -> valid_hub h -> port_state p h = to_port r -> length (rx_payload r) = 240%nat ->
  wired p h = true -> wired q h = true -> passes p q f ->
  WUPS_RX_IDLE_RESET_MS < u32 (now - nth (Z.to_nat p) (port_last_rx_ms h) 0) ->
  let h' := drain_port on_local p now' (map (fun b => (b, e)) (frame_bytes f ++ [WUPS_GUARD_BYTE]))
              (drain_port on_local p now [] h) in
  written h' = written h ++ [(q, frame_bytes f ++ [WUPS_GUARD_BYTE])].
Proof.
  intros Hp Hq Hv Hs Hl Hwp Hwq Hf Ht; set (h1 := drain_port on_local p now [] h).
  assert (H1 : exists r1, port_state p h1 = to_port r1 /\ rx_state r1 = WUPS_RX_SYNC1 /\ length (rx_payload r1) = 240%nat /\
                 valid_hub h1 /\ streams h1 = streams h /\ written h1 = written h).
  { subst h1; unfold drain_port; rewrite Hwp; cbn [negb take fold_left length]; rewrite bool_decide_eq_true_2 by done; cbn [negb].
    rewrite Hs; change (p_state (to_port r)) with (rx_state r); case_bool_decide as Hst; cbn [negb andb].
    - exists r; done.
    - rewrite (proj2 (Z.ltb_lt _ _)) by exact Ht; exists (wups_rx_reset r); rewrite port_state_set by done.
      split_and!; try done; unfold valid_hub in *; cbn; rewrite length_insert; done. }
  clearbody h1; destruct H1 as (r1 & P1 & P2 & P3 & P4 & P5 & P6).
  pose proof Hf as (_ & _ & _ & F4).
  pose proof (feed_wire [f] r1 P2 P3 ltac:(repeat constructor; exact F4)) as HF; cbn [map concat] in HF; rewrite app_nil_r in HF.
  pose proof (transit_drains on_local p q e [(now', on_wire f)] r1 h1 Hp Hq P4 P1) as HT; cbn [map concat snd] in HT; rewrite app_nil_r in HT.
  unfold delivered in HT; destruct (feed r1 (on_wire f)) as [r2 os]; cbn [snd] in HT; destruct HF as (HF & _); rewrite HF in HT.
  unfold wired in *; rewrite P5 in HT; destruct HT as (_ & _ & _ & H4);
    [done|done| |apply Forall_singleton, Hf|rewrite P6 in H4; exact H4].
  apply Forall_singleton; cbn [snd]; unfold on_wire, frame_bytes, frame_body, frame_ids; unfold frame_len, WUPS_MAX_PAYLOAD in F4;
    rewrite !length_app, length_le_bytes; cbn [length]; lia.
Qed.
End Properties.

(** ** Examples *)

Section Examples.
Definition no_handler (_ : unit) (_ : Z -> frame -> hub unit -> hub unit) (_ : Z) (_ : frame) (h : hub unit) : hub unit := h.
Definition demo_hub : hub unit := wups_router_init true true true (hub_boot tt).
Definition demo_wire : list Z := frame_bytes ping_frame ++ [WUPS_GUARD_BYTE] ++ frame_bytes ping_frame ++ [WUPS_GUARD_BYTE].
Definition hello_frame : frame :=
  Frame WUPS_ADDR_BROADCAST WUPS_ADDR_CH32X WUPS_CLASS_SYSTEM WUPS_OP_SYS_HELLO WUPS_FLAG_EVENT 0 [].

Lemma hub_routes_witness :
  written (wups_route_frame no_handler 1 tt WUPS_PORT_CH32X hello_frame demo_hub) =
    [(WUPS_PORT_RPI, frame_bytes hello_frame ++ [WUPS_GUARD_BYTE]); (WUPS_PORT_ESP32, frame_bytes hello_frame ++ [WUPS_GUARD_BYTE])] /\
  WUPS_PORT_CH32X ∉ destinations WUPS_PORT_CH32X hello_frame.
Proof.
  destruct (hub_routes no_handler 0 tt WUPS_PORT_CH32X hello_frame demo_hub) as (_ & H & H' & _); [vm_compute; discriminate|].
  split; [rewrite H; reflexivity|exact H'].
Defined.

Lemma hub_transparent_witness :
  let h' := drains no_handler WUPS_PORT_ESP32 tt [(10, take 20 demo_wire); (20, drop 20 demo_wire)] demo_hub in
  length demo_wire = 30%nat /\
  delivered wups_rx_init (concat (map snd (drop (length (written demo_hub)) (written h')))) = [ping_frame; ping_frame].
Proof.
  split; [vm_compute; reflexivity|].
  refine (proj2 (proj2 (hub_transparent no_handler WUPS_PORT_ESP32 WUPS_PORT_CH32X tt
    [(10, take 20 demo_wire); (20, drop 20 demo_wire)] [ping_frame; ping_frame] demo_hub _ _ _ _ _ _ _ _ _)));
    try (vm_compute; reflexivity); try (split; vm_compute; congruence).
  - repeat (apply List.Forall_cons || apply List.Forall_nil); vm_compute; split; congruence.
  - repeat (apply List.Forall_cons || apply List.Forall_nil); (split; [reflexivity|split; [reflexivity|split; [discriminate|vm_compute; congruence]]]).
Defined.

(** A frame that was cut short is followed by silence and a whole frame. *)
Lemma hub_resyncs_witness :
  let h := drain_port no_handler WUPS_PORT_ESP32 1000 (map (fun b => (b, tt)) (take 9 demo_wire)) demo_hub in
  let h' := drain_port no_handler WUPS_PORT_ESP32 1060 (map (fun b => (b, tt)) (frame_bytes ping_frame ++ [WUPS_GUARD_BYTE]))
              (drain_port no_handler WUPS_PORT_ESP32 1051 [] h) in
  p_state (port_state WUPS_PORT_ESP32 h) = WUPS_RX_LEN_H /\
  written h' = written h ++ [(WUPS_PORT_CH32X, frame_bytes ping_frame ++ [WUPS_GUARD_BYTE])].
Proof.
  split; [vm_compute; reflexivity|].
  apply (hub_resyncs no_handler WUPS_PORT_ESP32 WUPS_PORT_CH32X tt 1051 1060 ping_frame
    (feed wups_rx_init (take 9 demo_wire)).1); try (vm_compute; reflexivity); try (split; vm_compute; congruence).
  split; [reflexivity|split; [reflexivity|split; [discriminate|vm_compute; congruence]]].
Defined.
End Examples.
