(* ===== verification/UiSettings.v ===== *)
(** * Persisted settings of the user interface (firmware-rp2040/src/ui_settings.cpp)

    Brightness and sound, kept in the emulated EEPROM of the board's core library, the
    class [Eeprom]; the buzzer gate every sound goes through. *)

From S2P Require Import Prelude.

(** [ee_get] and [ee_put] work on the buffer that [ee_begin] loads; [ee_commit] writes the
    buffer to flash; [ee_restart] is what a restart leaves: the flash. *)
Class Eeprom := {
  EE : Type;
  ee_begin : EE -> Z -> EE;
  ee_get : EE -> Z -> Z -> list Z;
  ee_put : EE -> Z -> list Z -> EE;
  ee_commit : EE -> EE;
  ee_restart : EE -> EE
}.

(* src: firmware-rp2040/src/ui_settings.h:29-30 UI_BRIGHTNESS *)
Definition UI_BRIGHTNESS_LEVELS : Z := 6.
Definition UI_BRIGHTNESS_DEFAULT : Z := 0.

(* src: firmware-rp2040/src/ui_settings.cpp:13-13 kContrast *)
Definition kContrast : list Z := [5; 10; 15; 32; 64; 128].

(* src: firmware-rp2040/src/ui_settings.cpp:25-26 UI_SETTINGS *)
Definition UI_SETTINGS_MAGIC : Z := 1465208915.
Definition UI_SETTINGS_VERSION : Z := 2.

(* src: firmware-rp2040/src/ui_settings.cpp:28-34 StoredSettings *)
Record StoredSettings := Stored {
  st_magic : Z;
  st_version : Z;
  st_brightness : Z;
  st_sound : Z;
  st_reserved : Z
}.

#[export] Instance eta_stored : Eta StoredSettings := fun s =>
  Stored (st_magic s) (st_version s) (st_brightness s) (st_sound s) (st_reserved s).

(* src: firmware-rp2040/src/ui_settings.cpp:28-34 StoredSettings (layout) *)
Definition sizeof_stored : Z := 8.
Definition stored_bytes (s : StoredSettings) : list Z :=
  le32 (st_magic s) ++ [u8 (st_version s); u8 (st_brightness s); u8 (st_sound s); u8 (st_reserved s)].
Definition read_stored (l : list Z) : StoredSettings :=
  Stored (le_val (field 0 4 l)) (byte_at l 4) (byte_at l 5) (byte_at l 6) (byte_at l 7).

(* src: firmware-rp2040/src/ui_settings.cpp:36-38 s *)
Definition stored_default : StoredSettings := Stored UI_SETTINGS_MAGIC UI_SETTINGS_VERSION UI_BRIGHTNESS_DEFAULT 1 0.

Section Settings.
Context `{P : Eeprom}.

Record settings := Settings { ee : EE; st : StoredSettings }.

#[export] Instance eta_settings : Eta settings := fun u => Settings (ee u) (st u).

(** [EEPROM.put(0, s); EEPROM.commit()]. *)
(* src: firmware-rp2040/src/ui_settings.cpp:65-68 ui_settings_commit *)
Definition ui_settings_commit (u : settings) : settings :=
  u <| ee := ee_commit (ee_put (ee u) 0 (stored_bytes (st u))) |>.

(* src: firmware-rp2040/src/ui_settings.cpp:40-63 ui_settings_begin *)
Definition ui_settings_begin (u : settings) : settings :=
  let u := u <| ee := ee_begin (ee u) 256 |> in
  let tmp := read_stored (ee_get (ee u) 0 sizeof_stored) in
  if (st_magic tmp =? UI_SETTINGS_MAGIC) && (st_version tmp =? UI_SETTINGS_VERSION) then
    let s := tmp in
    let s := if UI_BRIGHTNESS_LEVELS <=? st_brightness s then s <| st_brightness := UI_BRIGHTNESS_DEFAULT |> else s in
    u <| st := s <| st_sound := if negb (st_sound s =? 0) then 1 else 0 |> |>
  else if (st_magic tmp =? UI_SETTINGS_MAGIC) && (st_version tmp =? 1) then
    ui_settings_commit (u <| st := st u <| st_version := UI_SETTINGS_VERSION |> <| st_brightness := UI_BRIGHTNESS_DEFAULT |>
      <| st_sound := if negb (st_sound tmp =? 0) then 1 else 0 |> <| st_reserved := 0 |> |>)
  else ui_settings_commit u.

(* src: firmware-rp2040/src/ui_settings.cpp:70-72 ui_settings_brightness_level *)
Definition ui_settings_brightness_level (u : settings) : Z := st_brightness (st u).

(* src: firmware-rp2040/src/ui_settings.cpp:74-77 ui_settings_set_brightness_level *)
Definition ui_settings_set_brightness_level (level : Z) (u : settings) : settings :=
  let level := if UI_BRIGHTNESS_LEVELS <=? level then UI_BRIGHTNESS_LEVELS - 1 else level in
  u <| st := st u <| st_brightness := level |> |>.

(* src: firmware-rp2040/src/ui_settings.cpp:79-83 ui_settings_brightness_contrast *)
Definition ui_settings_brightness_contrast (u : settings) : Z :=
  let lv := st_brightness (st u) in
  let lv := if UI_BRIGHTNESS_LEVELS <=? lv then UI_BRIGHTNESS_LEVELS - 1 else lv in
  nth (Z.to_nat lv) kContrast 0.

(* src: firmware-rp2040/src/ui_settings.cpp:90-92 ui_settings_sound_enabled *)
Definition ui_settings_sound_enabled (u : settings) : bool := negb (st_sound (st u) =? 0).

(* src: firmware-rp2040/src/ui_settings.cpp:94-96 ui_settings_set_sound_enabled *)
Definition ui_settings_set_sound_enabled (enabled : bool) (u : settings) : settings :=
  u <| st := st u <| st_sound := if enabled then 1 else 0 |> |>.

(* src: firmware-rp2040/src/ui_settings.cpp:98-107 ui_settings_reset_defaults *)
Definition ui_settings_reset_defaults (u : settings) : settings :=
  ui_settings_commit (u <| st := st u <| st_magic := UI_SETTINGS_MAGIC |> <| st_version := UI_SETTINGS_VERSION |>
    <| st_brightness := UI_BRIGHTNESS_DEFAULT |> <| st_sound := 1 |> <| st_reserved := 0 |> |>).

(** The tones played: frequency and duration. *)
(* src: firmware-rp2040/src/ui_settings.cpp:109-112 ui_settings_beep *)
Definition ui_settings_beep (u : settings) (freq_hz dur_ms : Z) : list (Z * Z) :=
  if st_sound (st u) =? 0 then [] else [(freq_hz, dur_ms)].

(** Static data is initialised, and the flash is what it was. *)
Definition settings_boot (e : EE) : settings := ui_settings_begin (Settings (ee_restart e) stored_default).

(** The stored blob is one this firmware writes. *)
Definition settings_ok (u : settings) : Prop :=
  st_magic (st u) = UI_SETTINGS_MAGIC /\ st_version (st u) = UI_SETTINGS_VERSION /\
  0 <= st_brightness (st u) < UI_BRIGHTNESS_LEVELS /\ (st_sound (st u) = 0 \/ st_sound (st u) = 1) /\ is_u8 (st_reserved (st u)).
End Settings.

(** What the core library documents.  Storage holds bytes. *)
Class EepromLaws (P : Eeprom) := {
  ee_get_bytes : forall e o n, all_u8 (ee_get e o n);
  ee_get_put : forall e o bs, all_u8 bs -> ee_get (ee_commit (ee_put e o bs)) o (Z.of_nat (length bs)) = bs;
  ee_survives : forall e n o len, ee_get (ee_begin (ee_restart (ee_commit e)) n) o len = ee_get (ee_commit e) o len;
  ee_restart_twice : forall e, ee_restart (ee_restart e) = ee_restart e;
  ee_begin_twice : forall e n, ee_restart (ee_begin e n) = ee_restart e
}.

Section SettingsFacts.
Context `{L : EepromLaws}.
#[local] Set Default Proof Using "Type*".
Implicit Types (u : settings).

Lemma stored_u8 s : all_u8 (stored_bytes s).
Proof. unfold stored_bytes; rewrite all_u8_app; split; [apply le_bytes_u8|]; repeat (apply Forall_cons_2; [apply u8_range|]); apply Forall_nil_2. Qed.

Lemma length_stored s : Z.of_nat (length (stored_bytes s)) = sizeof_stored.
Proof. done. Qed.

Lemma read_stored_bytes s :
  is_u32 (st_magic s) -> is_u8 (st_version s) -> is_u8 (st_brightness s) -> is_u8 (st_sound s) -> is_u8 (st_reserved s) ->
  read_stored (stored_bytes s) = s.
Proof.
  intros; unfold read_stored, stored_bytes; cbn [app le_bytes].
  change (Stored (le_val (le32 (st_magic s))) (u8 (st_version s)) (u8 (st_brightness s)) (u8 (st_sound s)) (u8 (st_reserved s)) = s).
  rewrite le32_val, !u8_small by done; destruct s; done.
Qed.

Lemma settings_ok_stored u : settings_ok u -> read_stored (stored_bytes (st u)) = st u.
Proof.
  intros (Hm & Hv & Hb & Hs & Hr); unfold UI_BRIGHTNESS_LEVELS in *; apply read_stored_bytes; [| |lia|lia|done].
  - rewrite Hm; done.
  - rewrite Hv; done.
Qed.

(** What was committed is what the next start finds. *)
Lemma boot_after_commit u : settings_ok u -> st (settings_boot (ee (ui_settings_commit u))) = st u.
Proof.
  intros Hu; pose proof Hu as (Hm & Hv & Hb & Hs & Hr); unfold settings_boot, ui_settings_begin, ui_settings_commit.
  cbn [ee upd st]; rewrite ee_survives, <- (length_stored (st u)), ee_get_put, settings_ok_stored by (done || apply stored_u8).
  rewrite Hm, Hv, Z.eqb_refl; cbn [andb Z.eqb UI_SETTINGS_VERSION]; rewrite (proj2 (Z.leb_gt _ _)) by lia.
  destruct (st u) as [m v b s r]; cbn in *; destruct Hs as [-> | ->]; done.
Qed.

Lemma settings_begin_ok e : settings_ok (ui_settings_begin (Settings e stored_default)).
Proof.
  unfold ui_settings_begin; cbv zeta; cbn [ee upd]; set (tmp := read_stored _).
  assert (Hb : is_u8 (st_brightness tmp) /\ is_u8 (st_reserved tmp)).
  { subst tmp; cbn; split; apply all_u8_byte_at, ee_get_bytes. }
  clearbody tmp; unfold settings_ok, UI_BRIGHTNESS_LEVELS, UI_BRIGHTNESS_DEFAULT.
  destruct (_ && _) eqn:E1; [to_prop|clear E1; destruct ((st_magic tmp =? UI_SETTINGS_MAGIC) && (st_version tmp =? 1))]; cbn.
  - destruct (Z.leb_spec 6 (st_brightness tmp)); cbn; destruct (st_sound tmp =? 0); cbn; split_and!; auto; lia.
  - destruct (st_sound tmp =? 0); cbn; split_and!; auto; lia.
  - unfold UI_BRIGHTNESS_DEFAULT; split_and!; auto; lia.
Qed.

(** A migrated blob of the first layout keeps the sound and gets the new brightness,
    once: the next start finds it current. *)
Lemma migration e b snd :
  is_u8 b -> is_u8 snd ->
  let u0 := ui_settings_commit (Settings e (Stored UI_SETTINGS_MAGIC 1 b snd 0)) in
  let u1 := settings_boot (ee u0) in
  st u1 = Stored UI_SETTINGS_MAGIC UI_SETTINGS_VERSION UI_BRIGHTNESS_DEFAULT (if snd =? 0 then 0 else 1) 0 /\
  st (settings_boot (ee u1)) = st u1.
Proof.
  intros Hb Hs u0 u1.
  assert (E : u1 = ui_settings_commit (Settings (ee_begin (ee_restart (ee u0)) 256)
                     (Stored UI_SETTINGS_MAGIC UI_SETTINGS_VERSION UI_BRIGHTNESS_DEFAULT (if snd =? 0 then 0 else 1) 0))).
  { assert (Hr : read_stored (ee_get (ee_begin (ee_restart (ee u0)) 256) 0 sizeof_stored) = Stored UI_SETTINGS_MAGIC 1 b snd 0).
    { unfold u0, ui_settings_commit; cbn [ee upd st].
      rewrite ee_survives, <- (length_stored (Stored UI_SETTINGS_MAGIC 1 b snd 0)), ee_get_put, read_stored_bytes by (done || apply stored_u8); done. }
    unfold u1, settings_boot, ui_settings_begin; cbv zeta; cbn [ee upd]; rewrite Hr; cbn; destruct (snd =? 0); done. }
  split; [rewrite E; done|].
  set (v := Settings _ _) in E; assert (Hv : settings_ok v).
  { destruct (snd =? 0); unfold v, settings_ok, UI_BRIGHTNESS_LEVELS, UI_BRIGHTNESS_DEFAULT; cbn; split_and!; auto; lia. }
  rewrite E; apply (boot_after_commit v Hv).
Qed.

(** Every operation keeps the blob well-formed. *)
Lemma settings_commit_ok u : settings_ok u -> settings_ok (ui_settings_commit u).
Proof. done. Qed.
Lemma set_sound_ok b u : settings_ok u -> settings_ok (ui_settings_set_sound_enabled b u).
Proof. intros (? & ? & ? & ? & ?); destruct b; unfold settings_ok; cbn; auto 6. Qed.
Lemma set_brightness_ok lv u : 0 <= lv -> settings_ok u -> settings_ok (ui_settings_set_brightness_level lv u).
Proof.
  intros Hl (? & ? & ? & ? & ?); unfold ui_settings_set_brightness_level, settings_ok; cbn.
  destruct (Z.leb_spec UI_BRIGHTNESS_LEVELS lv); unfold UI_BRIGHTNESS_LEVELS in *; split_and!; auto; lia.
Qed.
Lemma reset_ok u : settings_ok (ui_settings_reset_defaults u).
Proof. unfold settings_ok, UI_BRIGHTNESS_LEVELS; cbn; unfold UI_BRIGHTNESS_DEFAULT; lia. Qed.
End SettingsFacts.

#[export] Hint Resolve settings_commit_ok set_sound_ok set_brightness_ok reset_ok : ups.

(** ** A reference EEPROM: the buffer and the flash, 256 bytes each *)

Definition set_at (o : Z) (bs l : list Z) : list Z :=
  take (Z.to_nat o) l ++ bs ++ drop (Z.to_nat o + length bs) l.

#[export] Instance ref_eeprom : Eeprom := {
  EE := list Z * list Z;
  ee_begin e n := (e.2, e.2);
  ee_get e o n := map u8 (take (Z.to_nat n) (drop (Z.to_nat o) e.1));
  ee_put e o bs := if bool_decide (Z.to_nat o <= length e.1)%nat then (set_at o bs e.1, e.2) else (take (Z.to_nat o) (e.1 ++ replicate (Z.to_nat o) 255) ++ bs, e.2);
  ee_commit e := (e.1, e.1);
  ee_restart e := ([], e.2)
}.

#[export] Instance ref_eeprom_laws : EepromLaws ref_eeprom.
Proof.
  split; [intros e o n; cbn; apply Forall_map, Forall_true; intros x; apply u8_range| |done|done|done].
  intros e o bs Hb; cbn [ee_get ee_put ee_commit ref_eeprom EE fst snd]; rewrite Nat2Z.id.
  assert (Hm : map u8 bs = bs) by (clear - Hb; induction Hb as [|b bs Hb _ IH]; cbn; [done|rewrite u8_small, IH by done; done]).
  case_bool_decide as Hl; cbn [fst]; unfold set_at.
  - rewrite drop_app_length' by (rewrite length_take; lia); rewrite take_app_length, Hm; done.
  - rewrite drop_app_length' by (rewrite length_take, length_app, length_replicate; lia); rewrite take_ge, Hm by done; done.
Qed.
