(* ===== verification/TrustUi.v ===== *)
(** * The trust-anchor screen (firmware-rp2040/src/trust_ui.cpp)

    The display and the buttons of the owner-binding gate.  A prompt of the ESP32 takes
    over the display; a tick of the main loop reads the buttons, draws, and sends the
    outcome.  A tick returns the actions it performs, in order; a screen is what is drawn
    between clearing the display and showing it. *)

From S2P Require Import Prelude Protocol.

(** ** Constants *)

(* src: firmware-rp2040/src/trust_ui.cpp:12-23 geometry and timing *)
Definition SCR_COLS : Z := 10.
Definition SCR_ROWS : Z := 4.
Definition MAX_LINES : Z := 44.
Definition CONFIRM_TIMEOUT_MS : Z := 150000.
Definition DISPLAY_TTL_MS : Z := 90000.
Definition PAGE_MS : Z := 3500.
Definition RELEASE_GRACE : Z := 2.

(* src: firmware-rp2040/src/trust_ui.cpp:26-27 RES *)
Definition RES_CONFIRMED : Z := 0.
Definition RES_TIMEOUT : Z := 1.

(** ** State *)

(** [tu_text] is the text before the terminator that the code appends. *)
(* src: firmware-rp2040/src/trust_ui.cpp:29-48 S *)
Record trust := Trust {
  tu_active : bool;
  tu_mode : Z;
  tu_confirm_secs : Z;
  tu_nonce : Z;
  tu_req_seq : Z;
  tu_t0_ms : Z;
  tu_hold_start_ms : Z;
  tu_release_miss : Z;
  tu_menu_btn_initialized : bool;
  tu_menu_prev_left : bool;
  tu_menu_prev_right : bool;
  tu_text : list Z
}.

#[export] Instance eta_trust : Eta trust := fun s =>
  Trust (tu_active s) (tu_mode s) (tu_confirm_secs s) (tu_nonce s) (tu_req_seq s) (tu_t0_ms s)
    (tu_hold_start_ms s) (tu_release_miss s) (tu_menu_btn_initialized s) (tu_menu_prev_left s)
    (tu_menu_prev_right s) (tu_text s).

Definition trust_init : trust := Trust false 0 0 0 0 0 0 0 false false false [].

(** What a screen consists of: text of a size at a position, the hand-drawn c, a QR code. *)
Inductive item := Text (size x y : Z) (s : list Z) | Glyph_c (x y : Z) | Qr_code (s : list Z).

Inductive trust_act :=
  | Trust_draw (screen : list item)
  | Trust_beep (freq_hz dur_ms : Z)
  | Trust_result (seq : Z) (payload : list Z)
  | Trust_button (button action : Z).

(* src: firmware-rp2040/src/trust_ui.cpp:50-50 trust_ui_active *)
Definition trust_ui_active (s : trust) : bool := tu_active s.

(* src: firmware-rp2040/src/trust_ui.cpp:52-57 trust_ui_force_close *)
Definition trust_ui_force_close (s : trust) : trust :=
  s <| tu_active := false |> <| tu_hold_start_ms := 0 |> <| tu_release_miss := 0 |>.

(* src: common/protocol.h:678-684 wups_ui_trust_result_v1_t *)
Definition trust_result_bytes (result nonce : Z) : list Z := [1; u8 result; 0; 0] ++ le32 nonce.

(* src: firmware-rp2040/src/trust_ui.cpp:59-71 send_result *)
Definition send_result (s : trust) (result : Z) : trust_act :=
  Trust_result (tu_req_seq s) (trust_result_bytes result (tu_nonce s)).

(* src: firmware-rp2040/src/trust_ui.cpp:73-99 trust_ui_on_prompt *)
Definition trust_ui_on_prompt (payload : list Z) (req_seq millis : Z) (s : trust) : trust :=
  let len := Z.of_nat (length payload) in
  if len <? 8 then s else
  let h := PromptHdr (byte_at payload 0) (byte_at payload 1) (byte_at payload 2) (byte_at payload 3)
             (le_val (field 4 4 payload)) in
  if negb (tp_version h =? 1) then s else
  let tlen := tp_text_len h in
  if len <? 8 + tlen then s else
  let tlen := if 240 <? tlen then 240 else tlen in
  s <| tu_text := field 8 (Z.to_nat tlen) payload |> <| tu_mode := tp_mode h |>
    <| tu_confirm_secs := tp_confirm_secs h |> <| tu_nonce := tp_nonce h |> <| tu_req_seq := req_seq |>
    <| tu_t0_ms := millis |> <| tu_hold_start_ms := 0 |> <| tu_release_miss := 0 |>
    <| tu_menu_btn_initialized := false |> <| tu_active := true |>.

(** ** Wrapping text *)

(** [lines] are the rows completed and [cur] the row being filled: [out[nl][0..col)]. A
    write outside [out[MAX_LINES][SCR_COLS + 1]] is [None]. *)
Definition in_out (lines : list (list Z)) (cur : list Z) : bool :=
  (Z.of_nat (length lines) <? MAX_LINES) && (Z.of_nat (length cur) <=? SCR_COLS).
Definition put_char (lines : list (list Z)) (cur : list Z) (c : Z) : option (list Z) :=
  if in_out lines cur then Some (cur ++ [c]) else None.
Definition end_line (lines : list (list Z)) (cur : list Z) : option (list (list Z)) :=
  if in_out lines cur then Some (lines ++ [cur]) else None.

Fixpoint put_chars (lines : list (list Z)) (cur : list Z) (w : list Z) : option (list Z) :=
  match w with
  | [] => Some cur
  | c :: w => if Z.of_nat (length cur) <? SCR_COLS then cur ← put_char lines cur c; put_chars lines cur w else Some cur
  end.

(** The flag tells that the table is full. *)
(* src: firmware-rp2040/src/trust_ui.cpp:125-131 wrap_lines (hard split) *)
Fixpoint hard_split (lines : list (list Z)) (cur : list Z) (w : list Z) : option (list (list Z) * list Z * bool) :=
  match w with
  | [] => Some (lines, cur, false)
  | c :: w =>
      if Z.of_nat (length cur) =? SCR_COLS then
        lines ← end_line lines cur;
        if MAX_LINES <=? Z.of_nat (length lines) then Some (lines, [], true)
        else cur ← put_char lines [] c; hard_split lines cur w
      else cur ← put_char lines cur c; hard_split lines cur w
  end.

(** The next word, and what follows it. *)
Definition in_word (c : Z) : bool := negb (c =? 0) && negb (c =? 32) && negb (c =? 10).
Fixpoint span (q : Z -> bool) (p : list Z) : list Z * list Z :=
  match p with
  | [] => ([], [])
  | c :: r => if q c then let '(w, r) := span q r in (c :: w, r) else ([], p)
  end.

(* src: firmware-rp2040/src/trust_ui.cpp:141-142 wrap_lines (end) *)
Definition last_line (lines : list (list Z)) (cur : list Z) : option (list (list Z)) :=
  if Z.of_nat (length lines) <? MAX_LINES then end_line lines cur else Some lines.

(** A word and the spaces after it; the flag tells that the loop is left. *)
(* src: firmware-rp2040/src/trust_ui.cpp:119-138 wrap_lines (word) *)
Definition wrap_word (lines : list (list Z)) (cur w : list Z) : option (list (list Z) * list Z * bool) :=
  let wl := Z.of_nat (length w) in
  let col := Z.of_nat (length cur) in
  let break := negb (col =? 0) && (SCR_COLS <? col + 1 + wl) in
  lines ← (if break then end_line lines cur else Some lines);
  let cur := if break then [] else cur in
  let col := Z.of_nat (length cur) in
  if break && (MAX_LINES <=? Z.of_nat (length lines)) then Some (lines, cur, true)
  else if SCR_COLS <? wl then hard_split lines cur w
  else
    cur ← (if negb (col =? 0) && (col <? SCR_COLS) then put_char lines cur 32 else Some cur);
    cur ← put_chars lines cur w;
    Some (lines, cur, false).

(** Every turn of the loop consumes a character, so that [fuel] above the length of the
    text is enough; [None] is an access outside the table, or fuel spent. *)
(* src: firmware-rp2040/src/trust_ui.cpp:103-142 wrap_lines *)
Fixpoint wrap_loop (fuel : nat) (p : list Z) (lines : list (list Z)) (cur : list Z) : option (list (list Z)) :=
  match fuel with
  | O => None
  | S fuel =>
      match p with
      | [] => last_line lines cur
      | c :: r =>
          if negb (Z.of_nat (length lines) <? MAX_LINES) then last_line lines cur
          else if c =? 10 then lines ← end_line lines cur; wrap_loop fuel r lines []
          else
            let '(w, r) := span in_word p in
            '(lines, cur, full) ← wrap_word lines cur w;
            if (full : bool) then Some lines else wrap_loop fuel (span (Z.eqb 32) r).2 lines cur
      end
  end.
Definition wrap_lines (text : list Z) : option (list (list Z)) := wrap_loop (S (length text)) (cstr text) [] [].

(** ** Screens *)

(* src: firmware-rp2040/src/trust_ui.cpp:144-162 draw_paged *)
Definition draw_paged (text : list Z) (millis : Z) : list item :=
  let lines := default [] (wrap_lines text) in
  let nl := Z.of_nat (length lines) in
  let pages := u8 ((nl + SCR_ROWS - 1) / SCR_ROWS) in
  let pages := if pages =? 0 then 1 else pages in
  let page := (millis / PAGE_MS) mod pages in
  imap (fun r l => Text 1 0 (Z.of_nat r * 8) l) (take 4 (drop (Z.to_nat (page * SCR_ROWS)) lines)).

Fixpoint index_of (c : Z) (s : list Z) : option nat :=
  match s with [] => None | x :: s => if x =? c then Some O else S <$> index_of c s end.

Fixpoint find_sub (pat s : list Z) : option nat :=
  if bool_decide (take (length pat) s = pat) then Some O
  else match s with [] => None | _ :: s => S <$> find_sub pat s end.

Definition upper (c : Z) : Z := if (97 <=? c) && (c <=? 122) then c - 32 else c.

(** [rows] chunks of ten characters, from row [row] on. *)
Fixpoint id_rows (rows : nat) (row : Z) (s : list Z) : list item :=
  match rows, s with
  | O, _ | _, [] => []
  | S rows, _ => Text 1 0 (row * 8) (take 10 s) :: id_rows rows (row + 1) (drop 10 s)
  end.

(** One word per row, in capitals, at most ten characters of it. *)
(* src: firmware-rp2040/src/trust_ui.cpp:202-222 draw_claim_code (words) *)
Fixpoint word_rows (rows : nat) (idx : Z) (p : list Z) : list item :=
  match rows with
  | O => []
  | S rows =>
      let p := (span (Z.eqb 32) p).2 in
      match p with
      | [] => []
      | _ => let '(w, p) := span (fun c => negb (c =? 32)) p in
             Text 1 0 (idx * 8) (map upper (take 10 w)) :: word_rows rows (idx + 1) p
      end
  end.

(* src: firmware-rp2040/src/trust_ui.cpp:174-224 draw_claim_code *)
Definition draw_claim_code (text : list Z) (millis : Z) : list item :=
  let s := cstr text in
  match index_of 10 s with
  | Some nl =>
      if bool_decide (take 3 s = str "ID:") then
        let id := drop 3 (take nl s) in
        let words := drop (S nl) s in
        if (millis / PAGE_MS) mod 2 =? 0 then Text 1 0 0 (str "ID:") :: id_rows 3 1 id else word_rows 4 0 words
      else draw_paged text millis
  | None => draw_paged text millis
  end.

(* src: firmware-rp2040/src/trust_ui.cpp:240-288 draw_fingerprint *)
Definition draw_fingerprint (text : list Z) (millis : Z) : list item :=
  let s := cstr text in
  match find_sub (str " chk:") s with
  | None => draw_paged text millis
  | Some k =>
      if (millis / PAGE_MS) mod 2 =? 0 then word_rows 4 0 (take k s)
      else
        let chk := drop (k + 5) s in
        [Text 1 0 0 (str "CHK:"); Text 2 0 12 (map upper (span (fun c => negb (c =? 32) && negb (c =? 10)) (take 4 chk)).1)]
  end.

(* src: firmware-rp2040/src/trust_ui.cpp:290-301 draw_countdown *)
Definition draw_countdown (secs_left : list Z) : list item :=
  [Text 1 2 0 (str "HOLD BOTH"); Text 3 26 9 secs_left].

(** Characters at their cells; a row is clipped. *)
(* src: firmware-rp2040/src/trust_ui.cpp:305-323 draw_menu *)
Fixpoint menu_cells (row col : Z) (p : list Z) : list item :=
  match p with
  | [] => []
  | c :: p =>
      if SCR_ROWS <=? row then []
      else if c =? 10 then menu_cells (row + 1) 0 p
      else if SCR_COLS <=? col then menu_cells row col p
      else Text 1 (col * 6) (row * 8) [c] :: menu_cells row (col + 1) p
  end.
Definition draw_menu (text : list Z) : list item := menu_cells 0 0 (cstr text).

(* src: firmware-rp2040/src/trust_ui.cpp:367-406 draw_wallet *)
Definition draw_wallet (text : list Z) (millis : Z) : list item :=
  let s := cstr text in
  let is_addr := (byte_at s 0 =? 48) && ((byte_at s 1 =? 120) || (byte_at s 1 =? 88)) && (42 <=? Z.of_nat (length s)) in
  if is_addr && ((millis / 4000) mod 2 =? 1) then [Qr_code s]
  else if negb is_addr then menu_cells 0 0 s
  else imap (fun i c => let x := Z.of_nat i mod 10 * 6 in let y := Z.of_nat i / 10 * 8 in
                        if c =? 99 then Glyph_c x y else Text 1 x y [c]) (take 40 (drop 2 s)).

(** ** The tick *)

(** [dec] prints a number; the seconds left are shown while both buttons are held. *)
Section Tick.
Context (dec : Z -> list Z).

Definition secs_left (s : trust) (now : Z) : Z :=
  let held := u32 (now - tu_hold_start_ms s) in
  let need := tu_confirm_secs s * 1000 in
  u8 (u32 (need - held + 999) / 1000).

(* src: firmware-rp2040/src/trust_ui.cpp:441-474 trust_ui_tick (menu) *)
Definition tick_menu (now : Z) (left right : bool) (s : trust) : trust * list trust_act :=
  let screen := if tu_mode s =? 3 then draw_wallet (tu_text s) now else draw_menu (tu_text s) in
  if CONFIRM_TIMEOUT_MS <? u32 (now - tu_t0_ms s) then (s <| tu_active := false |>, [send_result s RES_TIMEOUT])
  else if negb (tu_menu_btn_initialized s) then
    (s <| tu_menu_prev_left := left |> <| tu_menu_prev_right := right |> <| tu_menu_btn_initialized := true |>,
     [Trust_draw screen])
  else
    (s <| tu_menu_prev_left := left |> <| tu_menu_prev_right := right |>,
     (if left && negb (tu_menu_prev_left s) then [Trust_beep 1000 20; Trust_button 0 0] else []) ++
     (if right && negb (tu_menu_prev_right s) then [Trust_beep 1000 20; Trust_button 1 0] else []) ++
     [Trust_draw screen]).

(* src: firmware-rp2040/src/trust_ui.cpp:484-524 trust_ui_tick (fingerprint) *)
Definition tick_confirm (now : Z) (left right : bool) (s : trust) : trust * list trust_act :=
  if CONFIRM_TIMEOUT_MS <? u32 (now - tu_t0_ms s) then (s <| tu_active := false |>, [send_result s RES_TIMEOUT])
  else if left && right then
    let s := s <| tu_release_miss := 0 |> in
    let s := if tu_hold_start_ms s =? 0 then s <| tu_hold_start_ms := now |> else s in
    if tu_confirm_secs s * 1000 <=? u32 (now - tu_hold_start_ms s)
    then (s <| tu_active := false |>, [Trust_beep 2000 120; send_result s RES_CONFIRMED])
    else (s, [Trust_draw (draw_countdown (dec (secs_left s now)))])
  else
    let riding := negb (tu_hold_start_ms s =? 0) in
    let s := if riding then s <| tu_release_miss := u8 (tu_release_miss s + 1) |> else s in
    if riding && (tu_release_miss s <=? RELEASE_GRACE)
    then (s, [Trust_draw (draw_countdown (dec (secs_left s now)))])
    else (if riding then s <| tu_hold_start_ms := 0 |> else s, [Trust_draw (draw_fingerprint (tu_text s) now)]).

(* src: firmware-rp2040/src/trust_ui.cpp:424-524 trust_ui_tick *)
Definition trust_ui_tick (now : Z) (left right : bool) (s : trust) : trust * list trust_act :=
  if negb (tu_active s) then (s, [])
  else if (tu_mode s =? 2) || (tu_mode s =? 3) then tick_menu now left right s
  else if tu_confirm_secs s =? 0 then
    if DISPLAY_TTL_MS <? u32 (now - tu_t0_ms s) then (s <| tu_active := false |>, [])
    else (s, [Trust_draw (draw_claim_code (tu_text s) now)])
  else tick_confirm now left right s.
End Tick.

(** ** Wrapping is safe and loses nothing *)

Section Wrapping.
Implicit Types (lines : list (list Z)) (cur w p : list Z).

(** Rows of at most ten characters, in a table with room. *)
Definition fits lines cur : Prop :=
  Forall (fun l => (length l <= 10)%nat) lines /\ (length cur <= 10)%nat.
Definition table lines : Prop := (length lines <= 44)%nat /\ Forall (fun l => (length l <= 10)%nat) lines.

(** The characters that show. *)
Definition inked (l : list Z) : list Z := List.filter in_word l.

Lemma in_out_ok lines cur : (length lines < 44)%nat -> (length cur <= 10)%nat -> in_out lines cur = true.
Proof. intros; unfold in_out, MAX_LINES, SCR_COLS; apply andb_true_iff; split; [apply Z.ltb_lt|apply Z.leb_le]; lia. Qed.

Lemma put_chars_ok lines cur w :
  (length lines < 44)%nat -> (length cur + length w <= 10)%nat -> put_chars lines cur w = Some (cur ++ w).
Proof.
  intros Hl; revert cur; induction w as [|c w IH]; intros cur Hc; cbn in *; [rewrite app_nil_r; done|].
  rewrite (proj2 (Z.ltb_lt _ _)) by (unfold SCR_COLS; lia); unfold put_char; rewrite in_out_ok by lia; cbn.
  rewrite IH by (rewrite length_app; cbn; lia); rewrite <- app_assoc; done.
Qed.

(** A long word fills rows until it ends or the table is full; what is placed is a prefix. *)
Lemma hard_split_ok lines cur w :
  (length lines < 44)%nat -> Forall (fun l => (length l <= 10)%nat) lines -> (length cur <= 10)%nat ->
  exists lines' cur' full, hard_split lines cur w = Some (lines', cur', full) /\ Forall (fun l => (length l <= 10)%nat) lines' /\
    (length cur' <= 10)%nat /\ (length lines' <= 44)%nat /\ (length lines <= length lines')%nat /\
    (if full then length lines' = 44%nat /\ exists rest, concat lines ++ cur ++ w = concat lines' ++ rest
     else (length lines' < 44)%nat /\ concat lines' ++ cur' = concat lines ++ cur ++ w).
Proof.
  intros Hl Hf; revert lines cur Hl Hf; induction w as [|c w IH]; intros lines cur Hl Hf Hc; cbn [hard_split].
  { exists lines, cur, false; rewrite app_nil_r; split_and!; done || lia. }
  destruct (Z.eqb_spec (Z.of_nat (length cur)) SCR_COLS) as [E|E]; unfold SCR_COLS in E.
  - unfold end_line; rewrite in_out_ok by lia; cbn [mbind option_bind].
    assert (Hf' : Forall (fun l => (length l <= 10)%nat) (lines ++ [cur])) by (apply Forall_app; split; [done|apply Forall_singleton; lia]).
    rewrite length_app; cbn [length]; unfold MAX_LINES; destruct (Z.leb_spec 44 (Z.of_nat (length lines + 1))).
    + exists (lines ++ [cur]), [], true; rewrite length_app; cbn [length]; split_and!; [done|done|lia|lia|lia|lia|].
      exists (c :: w); rewrite concat_app; cbn; rewrite app_nil_r, <- app_assoc; done.
    + unfold put_char; rewrite in_out_ok by (rewrite ?length_app; cbn; lia); cbn [mbind option_bind app].
      destruct (IH (lines ++ [cur]) [c]) as (l' & c' & f & -> & H1 & H2 & H3 & H4 & H5); [rewrite length_app; cbn; lia|done|cbn; lia|].
      exists l', c', f; rewrite length_app in H4; cbn in H4; split_and!; [done|done|done|done|lia|].
      rewrite concat_app in H5; cbn in H5; rewrite app_nil_r, <- !app_assoc in H5; exact H5.
  - unfold put_char; rewrite in_out_ok by lia; cbn [mbind option_bind].
    destruct (IH lines (cur ++ [c])) as (l' & c' & f & -> & H1 & H2 & H3 & H4 & H5); [done|done|rewrite length_app; cbn; lia|].
    exists l', c', f; split_and!; try done; rewrite <- app_assoc in H5; exact H5.
Qed.

Lemma inked_app l1 l2 : inked (l1 ++ l2) = inked l1 ++ inked l2.
Proof. apply List.filter_app. Qed.

(** Adding a word: safe, and either it is placed whole or the table is full. *)
Lemma wrap_word_ok lines cur w :
  (length lines < 44)%nat -> fits lines cur -> inked w = w ->
  exists lines' cur' full, wrap_word lines cur w = Some (lines', cur', full) /\ fits lines' cur' /\
    (length lines <= length lines' <= 44)%nat /\
    (if full then length lines' = 44%nat /\ exists rest, inked (concat lines ++ cur) ++ w = inked (concat lines') ++ rest
     else (length lines' < 44)%nat /\ inked (concat lines' ++ cur') = inked (concat lines ++ cur) ++ w).
Proof.
  intros Hl [Hf Hc] Hw; unfold wrap_word; set (brk := negb _ && _).
  set (l1 := if brk then lines ++ [cur] else lines); set (c1 := if brk then [] else cur).
  assert (E : (if brk then end_line lines cur else Some lines) = Some l1).
  { unfold end_line; rewrite in_out_ok by done; subst l1; destruct brk; done. }
  rewrite E; cbn [mbind option_bind]; fold c1.
  assert (H1 : Forall (fun l => (length l <= 10)%nat) l1 /\ (length c1 <= 10)%nat /\ concat l1 ++ c1 = concat lines ++ cur /\
               (length lines <= length l1 <= 44)%nat).
  { subst l1 c1; destruct brk; split_and!; try done; try lia.
    - apply Forall_app; split; [done|apply Forall_singleton; done].
    - cbn; lia.
    - rewrite concat_app; cbn; rewrite !app_nil_r; done.
    - rewrite length_app; cbn; lia.
    - rewrite length_app; cbn; lia. }
  destruct H1 as (Hf1 & Hc1 & Ecat & Hlen); unfold MAX_LINES.
  destruct (brk && (44 <=? Z.of_nat (length l1))) eqn:Ef.
  { to_prop; exists l1, c1, true; split_and!; try done; try lia; exists w.
    subst c1; rewrite H in Ecat; rewrite app_nil_r in Ecat; rewrite Ecat; done. }
  assert (Hl1 : (length l1 < 44)%nat).
  { apply andb_false_iff in Ef as [Ef|Ef]; [subst l1; rewrite Ef; done|to_prop; lia]. }
  destruct (Z.ltb_spec SCR_COLS (Z.of_nat (length w))) as [Hlong|Hshort]; unfold SCR_COLS in *.
  - destruct (hard_split_ok l1 c1 w Hl1 Hf1 Hc1) as (l' & c' & f & -> & A1 & A2 & A3 & A4 & A5).
    exists l', c', f; split_and!; try done; try lia; destruct f; destruct A5 as [A5 A6].
    + split; [done|]; destruct A6 as [rest A6]; exists (inked rest).
      rewrite <- Ecat, <- inked_app, <- A6, app_assoc, (inked_app _ w), Hw; done.
    + split; [done|]; rewrite A6, app_assoc, Ecat, inked_app, Hw; done.
  - set (sp := negb (Z.of_nat (length c1) =? 0) && (Z.of_nat (length c1) <? 10)).
    set (c2 := if sp then c1 ++ [32] else c1).
    assert (E2 : (if sp then put_char l1 c1 32 else Some c1) = Some c2).
    { unfold put_char; rewrite in_out_ok by done; subst c2; destruct sp; done. }
    rewrite E2; cbn [mbind option_bind].
    assert (Hroom : (length c2 + length w <= 10)%nat).
    { clear - Hc Hshort; unfold c2, sp, c1, brk, SCR_COLS; destruct cur as [|x cur]; cbn [length] in *; [change (Z.of_nat 0 =? 0) with true; cbn [negb andb length]; change (Z.of_nat 0 =? 0) with true; cbn [negb andb length]; lia|].
      rewrite (proj2 (Z.eqb_neq (Z.of_nat (S (length cur))) 0)) by lia; cbn [negb andb].
      destruct (Z.ltb_spec 10 (Z.of_nat (S (length cur)) + 1 + Z.of_nat (length w))); [cbn [length]; change (Z.of_nat 0 =? 0) with true; cbn [negb andb length]; lia|].
      cbn [length]; rewrite (proj2 (Z.eqb_neq _ _)), (proj2 (Z.ltb_lt _ _)) by lia; cbn [negb andb].
      rewrite length_app; cbn [length]; lia. }
    rewrite put_chars_ok by done; cbn [mbind option_bind].
    exists l1, (c2 ++ w), false; split_and!; try done; try lia; [split; [done|rewrite length_app; lia]|].
    rewrite app_assoc, inked_app, Hw; f_equal; rewrite <- Ecat; subst c2; destruct sp; [|done].
    rewrite app_assoc, inked_app; cbn; rewrite app_nil_r; done.
Qed.

Lemma span_spec q p : (span q p).1 ++ (span q p).2 = p /\ List.filter q (span q p).1 = (span q p).1 /\
  (forall c r, (span q p).2 = c :: r -> q c = false).
Proof.
  induction p as [|c p IH]; [done|]; cbn [span]; destruct (q c) eqn:E; [|cbn; naive_solver].
  destruct (span q p) as [w r]; cbn in *; destruct IH as (I1 & I2 & I3); rewrite E; split_and!; [congruence|congruence|done].
Qed.

Lemma inked_spaces p : inked (span (Z.eqb 32) p).2 = inked p.
Proof.
  destruct (span_spec (Z.eqb 32) p) as (E & Hs & _); rewrite <- E at 2; rewrite inked_app.
  assert (Hn : forall l, List.filter (Z.eqb 32) l = l -> inked l = []).
  { induction l as [|c l IH]; [done|]; cbn [List.filter inked]; unfold inked; cbn [List.filter]; fold (inked l); intros H.
    destruct (32 =? c) eqn:Ec; [apply Z.eqb_eq in Ec; subst c; cbn; apply IH; congruence|].
    exfalso; pose proof (List.filter_length_le (Z.eqb 32) l) as HL; rewrite H in HL; cbn in HL; lia. }
  rewrite (Hn _ Hs); done.
Qed.

Lemma span_shorter q p : (length (span q p).2 <= length p)%nat.
Proof. destruct (span_spec q p) as (E & _); rewrite <- E at 2; rewrite length_app; lia. Qed.

(** The loop ends, stays within the table, and what shows is the text's beginning, all of
    it if a row is left. *)
Lemma wrap_loop_ok fuel p lines cur :
  (length p < fuel)%nat -> (length lines <= 44)%nat -> (length lines = 44%nat -> cur = []) -> fits lines cur ->
  Forall (fun c => c <> 0) p ->
  exists out, wrap_loop fuel p lines cur = Some out /\ table out /\
    exists rest, inked (concat lines ++ cur) ++ inked p = inked (concat out) ++ rest /\ ((length out < 44)%nat -> rest = []).
Proof.
  revert p lines cur; induction fuel as [|fuel IH]; intros p lines cur Hp Hl Hfull Hfit Hz; [lia|]; destruct Hfit as [Hf Hc].
  assert (Hend : forall p, ((length lines < 44)%nat -> p = []) -> exists out, last_line lines cur = Some out /\ table out /\
    exists rest, inked (concat lines ++ cur) ++ inked p = inked (concat out) ++ rest /\ ((length out < 44)%nat -> rest = [])).
  { intros q Hq; unfold last_line, MAX_LINES; destruct (Z.ltb_spec (Z.of_nat (length lines)) 44).
    - unfold end_line; rewrite in_out_ok by lia; exists (lines ++ [cur]); rewrite Hq by lia; split; [done|split].
      + split; [rewrite length_app; cbn; lia|apply Forall_app; split; [done|apply Forall_singleton; done]].
      + exists []; rewrite concat_app; cbn; rewrite !app_nil_r; done.
    - exists lines; split; [done|split; [split; [lia|done]|]]; exists (inked q); rewrite Hfull, app_nil_r by lia; split; [done|lia]. }
  destruct p as [|c r]; cbn [wrap_loop]; [apply Hend; done|].
  unfold MAX_LINES; destruct (Z.ltb_spec (Z.of_nat (length lines)) 44) as [Hlt|Hge]; cbn [negb]; [|apply Hend; lia].
  destruct (Z.eqb_spec c 10) as [->|Hc10].
  - unfold end_line; rewrite in_out_ok by lia; cbn [mbind option_bind]; apply Forall_cons in Hz as [_ Hz]; cbn in Hp.
    destruct (IH r (lines ++ [cur]) []) as (out & E & T & rest & R1 & R2); [lia|rewrite length_app; cbn; lia|done| |done|].
    { split; [apply Forall_app; split; [done|apply Forall_singleton; done]|cbn; lia]. }
    exists out; split; [exact E|split; [exact T|exists rest; split; [|exact R2]]].
    rewrite concat_app in R1; cbn in R1; rewrite !app_nil_r in R1; cbn; exact R1.
  - destruct (span in_word (c :: r)) as [w r1] eqn:Es; destruct (span_spec in_word (c :: r)) as (Ep & Hw & Hstop); rewrite Es in Ep, Hw, Hstop.
    cbn [fst snd] in *; change (inked w = w) in Hw; destruct (wrap_word_ok lines cur w ltac:(lia) (conj Hf Hc) Hw) as (l' & c' & full & -> & Hfit & Hlen & Hcase).
    cbn [mbind option_bind]; destruct full.
    + destruct Hcase as (E44 & rest & Hr); exists l'; split; [done|split; [split; [lia|apply Hfit]|]].
      exists (rest ++ inked r1); rewrite <- Ep, (inked_app w), Hw, app_assoc, Hr, <- app_assoc; split; [done|lia].
    + destruct Hcase as (Hlt' & Hi); destruct (IH (span (Z.eqb 32) r1).2 l' c') as (out & E & T & rest & R1 & R2); [|lia|lia|done| |].
      * pose proof (span_shorter (Z.eqb 32) r1) as Hs.
        destruct w as [|c0 w]; [|rewrite <- Ep in Hp; cbn in Hp; rewrite length_app in Hp; lia].
        cbn in Ep; subst r1; specialize (Hstop _ _ eq_refl); apply Forall_cons in Hz as [Hz _].
        unfold in_word in Hstop; rewrite (proj2 (Z.eqb_neq c 0)), (proj2 (Z.eqb_neq c 10)) in Hstop by done; cbn in Hstop.
        rewrite andb_true_r in Hstop; to_prop; subst c; cbn [span] in Hs |- *; cbn in Hp.
        change (32 =? 32) with true; cbv iota; pose proof (span_shorter (Z.eqb 32) r); destruct (span (Z.eqb 32) r); cbn in *; lia.
      * rewrite Forall_forall in Hz |- *; intros x Hx; apply Hz; rewrite <- Ep; apply elem_of_app; right.
        destruct (span_spec (Z.eqb 32) r1) as (<- & _); apply elem_of_app; right; exact Hx.
      * exists out; split; [exact E|split; [exact T|exists rest; split; [|exact R2]]].
        rewrite inked_spaces, Hi, <- app_assoc in R1; rewrite <- R1, <- Ep, (inked_app w), Hw; done.
Qed.
End Wrapping.

(** ** The gate *)

(** A tick's clock and buttons, and the ticks from a state on. *)
Definition tick : Type := Z * bool * bool.
Definition t_now (t : tick) : Z := t.1.1.
Definition t_both (t : tick) : bool := t.1.2 && t.2.
Definition ticks (dec : Z -> list Z) (s : trust) (h : list tick) : trust * list (list trust_act) :=
  run (fun s t => trust_ui_tick dec (t_now t) t.1.2 t.2 s) s h.

(** The consecutive samples without both buttons, at the end of a hold that was never
    given up: at most [RELEASE_GRACE] at a time. *)
Fixpoint misses (n : Z) (h : list tick) : option Z :=
  match h with
  | [] => Some n
  | t :: h => if t_both t then misses 0 h else if n + 1 <=? RELEASE_GRACE then misses (n + 1) h else None
  end.

(** The ticks [h] end with both buttons held for [need] milliseconds by the clock. *)
Definition held_for (need : Z) (h : list tick) : Prop :=
  exists before first during,
    h = before ++ first :: during /\ t_both first = true /\ misses 0 during = Some 0 /\
    (forall t, last (first :: during) = Some t -> t_both t = true /\ need <= u32 (t_now t - t_now first)).

Definition is_confirmed (nonce seq : Z) (a : trust_act) : bool :=
  match a with
  | Trust_result q pl => (q =? seq) && bool_decide (pl = trust_result_bytes RES_CONFIRMED nonce)
  | _ => false
  end.
Definition is_result (a : trust_act) : bool := match a with Trust_result _ _ => true | _ => false end.

Section Gate.
Context (dec : Z -> list Z).
Implicit Types (s : trust) (h : list tick).

Lemma misses_app n h h' : misses n (h ++ h') = (m ← misses n h; misses m h').
Proof. revert n; induction h as [|t h IH]; intros n; cbn; [done|]; destruct (t_both t); [apply IH|]; destruct (_ <=? _); [apply IH|done]. Qed.

Lemma misses_range n h m : 0 <= n <= RELEASE_GRACE -> misses n h = Some m -> 0 <= m <= RELEASE_GRACE.
Proof.
  revert n; induction h as [|t h IH]; intros n Hn; cbn; [intros; simplify_eq; done|].
  destruct (t_both t); [apply IH; unfold RELEASE_GRACE; lia|]; destruct (Z.leb_spec (n + 1) RELEASE_GRACE); [apply IH; lia|done].
Qed.

(** The state of a prompt being answered, after the ticks [h]: a hold in progress began at
    one of them and has not been given up. *)
Definition holding (s : trust) (h : list tick) : Prop :=
  tu_hold_start_ms s <> 0 ->
  exists before first during,
    h = before ++ first :: during /\ t_both first = true /\ t_now first = tu_hold_start_ms s /\
    misses 0 during = Some (tu_release_miss s).

Definition confirm_prompt s : Prop := tu_mode s <> 2 /\ tu_mode s <> 3 /\ tu_confirm_secs s <> 0.
Definition same_prompt s s' : Prop :=
  tu_mode s' = tu_mode s /\ tu_confirm_secs s' = tu_confirm_secs s /\ tu_nonce s' = tu_nonce s /\ tu_req_seq s' = tu_req_seq s /\
  tu_t0_ms s' = tu_t0_ms s /\ tu_text s' = tu_text s.

(** One tick while the gate is open: it stays open without a result, or closes with one. *)
Lemma tick_confirm_spec now l r s h :
  holding s h -> let '(s', acts) := tick_confirm dec now l r s in
  same_prompt s s' /\
  (tu_active s = true -> tu_active s' = true -> holding s' (h ++ [(now, l, r)]) /\ List.filter is_result acts = []) /\
  (tu_active s = true -> tu_active s' = false ->
   (CONFIRM_TIMEOUT_MS < u32 (now - tu_t0_ms s) /\ List.filter is_result acts = [send_result s RES_TIMEOUT]) \/
   (u32 (now - tu_t0_ms s) <= CONFIRM_TIMEOUT_MS /\ List.filter is_result acts = [send_result s RES_CONFIRMED] /\
    held_for (tu_confirm_secs s * 1000) (h ++ [(now, l, r)]))).
Proof.
  intros Hh; unfold tick_confirm; destruct (Z.ltb_spec CONFIRM_TIMEOUT_MS (u32 (now - tu_t0_ms s))) as [Ht|Ht].
  { split_and!; try done; intros _ _; left; done. }
  destruct (l && r) eqn:Eb.
  - set (s1 := s <| tu_release_miss := 0 |>); set (s2 := if _ =? 0 then _ else s1).
    assert (H2 : same_prompt s s2 /\ tu_active s2 = tu_active s /\ tu_release_miss s2 = 0 /\
      (tu_hold_start_ms s2 <> 0 -> exists before first during, h ++ [(now, l, r)] = before ++ first :: during /\ t_both first = true /\
        t_now first = tu_hold_start_ms s2 /\ misses 0 during = Some 0) /\
      (tu_hold_start_ms s2 = 0 -> now = 0)).
    { subst s2 s1; cbn [tu_hold_start_ms upd]; destruct (Z.eqb_spec (tu_hold_start_ms s) 0) as [E|E]; cbn; split_and!; try done.
      - intros _; exists h, (now, l, r), []; done.
      - intros _; destruct (Hh E) as (bf & f & du & -> & Hf & Hn & Hm); exists bf, f, (du ++ [(now, l, r)]); split_and!; try done.
        + rewrite <- app_assoc; done.
        + rewrite misses_app, Hm; cbn; unfold t_both; cbn; rewrite Eb; done. }
    clearbody s2; destruct H2 as (Hs & Ha & Hr & Hhold & Hz).
    destruct Hs as (E1 & E2 & E3 & E4 & E5 & E6).
    destruct (Z.leb_spec (tu_confirm_secs s2 * 1000) (u32 (now - tu_hold_start_ms s2))) as [Hneed|Hneed]; split_and!; try done.
    + intros _ _; right; split; [done|split; [cbn; unfold send_result; rewrite E3, E4; done|]]; rewrite <- E2.
      destruct (decide (tu_hold_start_ms s2 = 0)) as [E|E].
      * exists h, (now, l, r), []; split_and!; [done|exact Eb|done|].
        intros t; cbn; intros; simplify_eq; split; [exact Eb|]; unfold t_now; cbn; rewrite (Hz E), E in *; done.
      * destruct (Hhold E) as (bf & f & du & Eh & Hf & Hn & Hm); exists bf, f, du; split_and!; try done.
        intros t Hl; assert (Et : last (h ++ [(now, l, r)]) = Some (now, l, r)) by (rewrite last_snoc; done).
        rewrite Eh in Et; rewrite last_app in Et; cbn in Et, Hl; rewrite Hl in Et; simplify_eq; split; [exact Eb|].
        rewrite Hn; exact Hneed.
    + intros _ _; split; [|done]; intros E; rewrite Hr; exact (Hhold E).
    + cbn; intros H1 H3; rewrite Ha in H3; congruence.
  - destruct (Z.eqb_spec (tu_hold_start_ms s) 0) as [E|E]; cbn [negb andb].
    { split_and!; try done; [|congruence]; intros _ _; split; [intros E'; done|done]. }
    destruct (Hh E) as (bf & f & du & -> & Hf & Hn & Hm); pose proof (misses_range 0 du _ ltac:(unfold RELEASE_GRACE; lia) Hm) as Hr.
    cbn [tu_release_miss upd]; unfold RELEASE_GRACE in Hr; rewrite u8_small by lia.
    destruct (Z.leb_spec (tu_release_miss s + 1) RELEASE_GRACE) as [Hg|Hg].
    + split_and!; try done; [|cbn; congruence]; intros _ _; split; [|done]; intros _.
      exists bf, f, (du ++ [(now, l, r)]); cbn; split_and!; try done; [rewrite <- app_assoc; done|].
      rewrite misses_app, Hm; cbn; unfold t_both; cbn; rewrite Eb, (proj2 (Z.leb_le _ _)) by done; done.
    + split_and!; try done; [|cbn; congruence]; intros _ _; split; [|done]; intros E'; done.
Qed.

Definition results (outs : list (list trust_act)) : list trust_act := List.filter is_result (concat outs).

Lemma tick_closed now l r s : tu_active s = false -> trust_ui_tick dec now l r s = (s, []).
Proof. intros E; unfold trust_ui_tick; rewrite E; done. Qed.

Lemma ticks_closed s h : tu_active s = false -> (ticks dec s h).1 = s /\ results (ticks dec s h).2 = [].
Proof.
  intros E; unfold ticks, results; induction h as [|t h [IH1 IH2]]; [done|]; rewrite run_cons, tick_closed by done.
  destruct (run _ s h) as [s2 os]; cbn in *; done.
Qed.

Lemma tick_menu_spec now l r s : let '(s', acts) := tick_menu now l r s in
  same_prompt s s' /\ (tu_active s' = true -> List.filter is_result acts = []) /\
  (tu_active s = true -> tu_active s' = false -> List.filter is_result acts = [send_result s RES_TIMEOUT]).
Proof.
  unfold tick_menu; destruct (_ <? _); [done|]; destruct (negb _); [split_and!; try done; cbn; congruence|].
  split_and!; [done| |cbn; congruence]; intros _; destruct (l && _), (r && _); done.
Qed.

(** What any tick does while the prompt is open. *)
Lemma tick_spec now l r s h : (confirm_prompt s -> holding s h) -> tu_active s = true ->
  let '(s', acts) := trust_ui_tick dec now l r s in
  same_prompt s s' /\
  (tu_active s' = true -> (confirm_prompt s -> holding s' (h ++ [(now, l, r)])) /\ List.filter is_result acts = [] /\
     (confirm_prompt s -> u32 (now - tu_t0_ms s) <= CONFIRM_TIMEOUT_MS)) /\
  (tu_active s' = false ->
     (List.filter is_result acts = [] /\ ~ confirm_prompt s) \/ List.filter is_result acts = [send_result s RES_TIMEOUT] \/
     (List.filter is_result acts = [send_result s RES_CONFIRMED] /\ confirm_prompt s /\
      u32 (now - tu_t0_ms s) <= CONFIRM_TIMEOUT_MS /\ held_for (tu_confirm_secs s * 1000) (h ++ [(now, l, r)]))).
Proof.
  intros Hh Ha; unfold trust_ui_tick; rewrite Ha; cbn [negb].
  destruct ((tu_mode s =? 2) || (tu_mode s =? 3)) eqn:Em.
  - assert (Hno : ~ confirm_prompt s) by (intros (H2 & H3 & _); apply orb_true_iff in Em as [E|E]; to_prop; done).
    pose proof (tick_menu_spec now l r s) as HM; destruct (tick_menu now l r s) as [s' acts]; destruct HM as (M1 & M2 & M3).
    split_and!; [done|intros H; split_and!; [tauto|auto|tauto]|intros H; right; left; auto].
  - apply orb_false_iff in Em as [E2 E3]; to_prop; destruct (Z.eqb_spec (tu_confirm_secs s) 0) as [E|E].
    + assert (Hno : ~ confirm_prompt s) by (intros (_ & _ & H); done).
      destruct (_ <? _); split_and!; try done; [intros _; left; done|cbn; congruence].
    + assert (Hc : confirm_prompt s) by done; pose proof (tick_confirm_spec now l r s h (Hh Hc)) as HT.
      assert (Hto : u32 (now - tu_t0_ms s) <= CONFIRM_TIMEOUT_MS \/ tu_active (tick_confirm dec now l r s).1 = false).
      { unfold tick_confirm; destruct (Z.ltb_spec CONFIRM_TIMEOUT_MS (u32 (now - tu_t0_ms s))); [right; done|left; done]. }
      destruct (tick_confirm dec now l r s) as [s' acts]; destruct HT as (T1 & T2 & T3); cbn [fst] in Hto.
      split_and!; [done| |].
      * intros H; destruct (T2 Ha H); split_and!; [done|done|intros _; destruct Hto; [done|congruence]].
      * intros H; destruct (T3 Ha H) as [[? ?]|(? & ? & ?)]; [right; left; done|right; right; done].
Qed.

(** The ticks of an open prompt: no result while it stays open, one at most. *)
Lemma ticks_spec s0 s h1 h : same_prompt s0 s -> (confirm_prompt s -> holding s h1) -> tu_active s = true ->
  let '(s', outs) := ticks dec s h in
  same_prompt s0 s' /\
  (tu_active s' = true -> results outs = [] /\ (confirm_prompt s0 -> Forall (fun t => u32 (t_now t - tu_t0_ms s0) <= CONFIRM_TIMEOUT_MS) h)) /\
  (tu_active s' = false ->
     (results outs = [] /\ ~ confirm_prompt s0) \/ results outs = [send_result s0 RES_TIMEOUT] \/
     (results outs = [send_result s0 RES_CONFIRMED] /\ confirm_prompt s0 /\ exists h2 t h3, h = h2 ++ t :: h3 /\
      u32 (t_now t - tu_t0_ms s0) <= CONFIRM_TIMEOUT_MS /\ held_for (tu_confirm_secs s0 * 1000) (h1 ++ h2 ++ [t]))).
Proof.
  revert s h1; induction h as [|t h IH]; intros s h1 Hs Hh Ha; [unfold ticks; cbn; split_and!; [done|done|congruence]|].
  unfold ticks; rewrite run_cons; fold (ticks dec).
  pose proof (tick_spec (t_now t) t.1.2 t.2 s h1 Hh Ha) as HT; destruct (trust_ui_tick dec _ _ _ s) as [s1 acts].
  replace (t_now t, t.1.2, t.2) with t in HT by (destruct t as [[? ?] ?]; done).
  destruct HT as (T1 & T2 & T3); pose proof Hs as (E1 & E2 & E3 & E4 & E5 & E6); pose proof T1 as (F1 & F2 & F3 & F4 & F5 & F6).
  assert (Hc : confirm_prompt s <-> confirm_prompt s0) by (unfold confirm_prompt; rewrite E1, E2; done).
  assert (Hs1 : same_prompt s0 s1) by (unfold same_prompt; split_and!; congruence).
  assert (Hsr : forall x, send_result s x = send_result s0 x) by (intros x; unfold send_result; rewrite E3, E4; done).
  destruct (tu_active s1) eqn:Ha1.
  - destruct (T2 eq_refl) as (G1 & G2 & G3); specialize (IH s1 (h1 ++ [t]) Hs1).
    unfold ticks in IH; destruct (run _ s1 h) as [s' outs]; destruct IH as (I1 & I2 & I3).
    { intros Hc1; apply G1; unfold confirm_prompt in *; rewrite F1, F2 in Hc1; done. }
    { done. }
    unfold results in *; cbn [concat]; rewrite List.filter_app, G2; cbn [app]; split_and!; [done| |].
    + intros H; destruct (I2 H) as [J1 J2]; split; [done|]; intros Hc0; constructor; [rewrite <- E5; apply G3, Hc, Hc0|auto].
    + intros H; destruct (I3 H) as [?|[?|(J1 & J2 & h2 & t' & h3 & -> & J3 & J4)]]; [auto|auto|right; right; split_and!; try done].
      exists (t :: h2), t', h3; split_and!; try done; rewrite <- app_assoc in J4; exact J4.
  - destruct (ticks_closed s1 h Ha1) as [C1 C2]; unfold ticks in C1, C2; destruct (run _ s1 h) as [s' outs]; cbn [fst snd] in *; subst s'.
    unfold results in *; cbn [concat]; rewrite List.filter_app, C2, app_nil_r; split_and!; [done|congruence|]; intros _.
    rewrite !Hsr, Hc, E2, E5 in T3; destruct (T3 eq_refl) as [?|[?|(J1 & J2 & J3 & J4)]]; [auto|auto|right; right; split_and!; try done].
    exists [], t, h; split_and!; done.
Qed.
End Gate.

(** ** What the user sees *)

(** Words of up to ten small letters, with a space between them. *)
Definition word_ok (w : list Z) : Prop := (1 <= length w <= 10)%nat /\ Forall (fun c => 97 <= c <= 122) w.
Fixpoint words_text (ws : list (list Z)) : list Z :=
  match ws with [] => [] | w :: ws => match ws with [] => w | _ => w ++ 32 :: words_text ws end end.
Definition capital_rows (ws : list (list Z)) : list item := imap (fun i w => Text 1 0 (Z.of_nat i * 8) (map upper w)) ws.

Section Display.
Implicit Types (p w : list Z).

Lemma span_all q w r : Forall (fun c => q c = true) w -> (forall c r', r = c :: r' -> q c = false) -> span q (w ++ r) = (w, r).
Proof.
  intros Hw Hr; induction Hw as [|c w Hc _ IH]; cbn.
  - destruct r as [|c r]; [done|]; cbn; rewrite (Hr c r eq_refl); done.
  - rewrite Hc, IH; done.
Qed.

Lemma word_ok_cons w : word_ok w -> exists c w', w = c :: w' /\ (32 =? c) = false.
Proof.
  intros [Hl Hf]; destruct w as [|c w]; [cbn in Hl; lia|]; apply Forall_cons in Hf as [Hc _]; exists c, w; split; [done|].
  apply Z.eqb_neq; lia.
Qed.

Lemma word_nonspace w : word_ok w -> Forall (fun c => negb (c =? 32) = true) w.
Proof. intros [_ Hf]; eapply Forall_impl; [exact Hf|]; cbn; intros c Hc; rewrite (proj2 (Z.eqb_neq c 32)) by lia; done. Qed.

Lemma word_rows_words n idx ws :
  (length ws <= n)%nat -> Forall word_ok ws ->
  word_rows n idx (words_text ws) = imap (fun i w => Text 1 0 ((idx + Z.of_nat i) * 8) (map upper w)) ws.
Proof.
  revert n idx; induction ws as [|w ws IH]; intros n idx Hn Hw; [destruct n; done|]; apply Forall_cons in Hw as [Hw Hws].
  destruct n as [|n]; [cbn in Hn; lia|]; cbn in Hn; rewrite imap_cons, Z.add_0_r.
  assert (Hrest : exists tl, words_text (w :: ws) = w ++ tl /\ (tl = [] /\ ws = [] \/ tl = 32 :: words_text ws)).
  { cbn; destruct ws; [exists []; rewrite app_nil_r; auto|eexists; split; [done|auto]]. }
  destruct Hrest as (tl & -> & Htl); cbn [word_rows]; destruct (word_ok_cons w Hw) as (c & w' & -> & Hc).
  cbn [app span]; rewrite Hc; cbn [snd]; change (c :: w' ++ tl) with ((c :: w') ++ tl).
  rewrite span_all; [|apply word_nonspace, Hw|intros c0 r0 ->; destruct Htl as [[? _]|?]; simplify_eq; done].
  rewrite take_ge by apply Hw; f_equal; destruct Htl as [[-> ->] | ->].
  - destruct n; done.
  - assert (E : word_rows n (idx + 1) (32 :: words_text ws) = word_rows n (idx + 1) (words_text ws)).
    { destruct n as [|n]; [done|]; cbn [word_rows]; cbn [span]; change (32 =? 32) with true; cbv iota; destruct (span (Z.eqb 32) (words_text ws)); done. }
    rewrite E, IH by (done || lia); apply imap_ext; intros i x _; cbn -[Z.of_nat Z.mul Z.add]; f_equal; lia.
Qed.

(** The marker is found where its colon, the first of the text, is. *)
Lemma find_chk a b : Forall (fun c => c <> 58) a -> find_sub (str " chk:") (a ++ str " chk:" ++ b) = Some (length a).
Proof.
  intros Ha; induction Ha as [|c a Hc Ha IH]; [done|]; cbn [app find_sub].
  rewrite bool_decide_eq_false_2; [rewrite IH; done|]; intros E.
  assert (Hin : In 58 (take 5 (c :: a ++ str " chk:" ++ b))) by (change 5%nat with (length (str " chk:")); cbn [length] in *; rewrite E; cbn; tauto).
  destruct a as [|c1 [|c2 [|c3 [|c4 a]]]]; cbn in Hin; repeat (apply Forall_cons in Ha as [? Ha]); cbn in *; intuition congruence.
Qed.

Lemma words_text_chars ws : Forall word_ok ws -> Forall (fun c => c = 32 \/ 97 <= c <= 122) (words_text ws).
Proof.
  induction 1 as [|w ws [_ Hw] _ IH]; [constructor|]; cbn.
  assert (Hw' : Forall (fun c => c = 32 \/ 97 <= c <= 122) w) by (eapply Forall_impl; [exact Hw|]; cbn; auto).
  destruct ws; [done|]; apply Forall_app; split; [done|constructor; auto].
Qed.

(** Both pages of the fingerprint, complete. *)
Lemma fingerprint_pages ws chk now :
  (length ws <= 4)%nat -> Forall word_ok ws -> length chk = 4%nat -> Forall (fun c => c <> 0 /\ c <> 32 /\ c <> 10) chk ->
  draw_fingerprint (words_text ws ++ str " chk:" ++ chk) now =
  if (now / PAGE_MS) mod 2 =? 0 then capital_rows ws else [Text 1 0 0 (str "CHK:"); Text 2 0 12 (map upper chk)].
Proof.
  intros Hn Hws Hl Hchk; pose proof (words_text_chars ws Hws) as Hc; unfold draw_fingerprint.
  rewrite cstr_id; [|repeat (apply Forall_app; split)].
  - rewrite find_chk by (eapply Forall_impl; [exact Hc|]; cbn; intros; lia).
    destruct (_ =? 0); [rewrite take_app_length; apply (word_rows_words 4 0 ws Hn Hws)|].
    rewrite app_assoc, drop_app_length' by (rewrite length_app; done); rewrite take_ge by lia.
    rewrite <- (app_nil_r chk) at 1; rewrite span_all; [done| |done].
    eapply Forall_impl; [exact Hchk|]; cbn; intros c (? & H1 & H2); rewrite (proj2 (Z.eqb_neq _ _) H1), (proj2 (Z.eqb_neq _ _) H2); done.
  - eapply Forall_impl; [exact Hc|]; cbn; intros; lia.
  - cbn; repeat constructor; done.
  - eapply Forall_impl; [exact Hchk|]; cbn; tauto.
Qed.
End Display.

(** ** Properties *)

(** The prompt's header is whole and of this version, and its text is there. *)
Definition prompt_accepted (payload : list Z) : Prop :=
  byte_at payload 0 = 1 /\ 8 <= Z.of_nat (length payload) /\ 8 + byte_at payload 3 <= Z.of_nat (length payload).

Section Properties.
Context (dec : Z -> list Z).

(** C17: The owner's confirmation is physical.  From an accepted prompt on, at most one
    result is sent, with the prompt's nonce and sequence number; it is a confirmation
    only for a prompt that asks for one, within the timeout, and only if both buttons have
    been held for the seconds the prompt asks for, with no more than two consecutive
    samples missing either; a prompt that asks for one is answered, by the first tick
    past the timeout at the latest.  The menu modes 2 and 3 never send a confirmation,
    however long a button is held: the exit gesture of the protocol's comments does not
    exist, and nothing but the timeout is ever sent for such a prompt. *)
Theorem trust_confirm_physical payload seq t0 s h :
  prompt_accepted payload ->
  let mode := byte_at payload 1 in
  let need := byte_at payload 2 * 1000 in
  let result r := Trust_result seq (trust_result_bytes r (le_val (field 4 4 payload))) in
  let asks := mode <> 2 /\ mode <> 3 /\ byte_at payload 2 <> 0 in
  let '(s', outs) := ticks dec (trust_ui_on_prompt payload seq t0 s) h in
  (results outs = [] \/ results outs = [result RES_TIMEOUT] \/ results outs = [result RES_CONFIRMED]) /\
  (results outs = [result RES_CONFIRMED] ->
     asks /\ exists h1 t h2, h = h1 ++ t :: h2 /\ u32 (t_now t - t0) <= CONFIRM_TIMEOUT_MS /\ held_for need (h1 ++ [t])) /\
  (asks -> Exists (fun t => CONFIRM_TIMEOUT_MS < u32 (t_now t - t0)) h -> tu_active s' = false /\ results outs <> []).
Proof.
  intros (Hv & Hl & Ht) mode need result asks; unfold trust_ui_on_prompt; cbn [tp_version tp_text_len tp_mode tp_confirm_secs tp_nonce].
  rewrite (proj2 (Z.ltb_ge _ _)), Hv, (proj2 (Z.ltb_ge (Z.of_nat (length payload)) _)) by lia; cbn [negb Z.eqb Pos.eqb].
  set (s0 := _ <| tu_active := true |>); pose proof (ticks_spec dec s0 s0 [] h) as HT.
  destruct (ticks dec s0 h) as [s' outs]; destruct HT as (_ & Hopen & Hclosed); [done|intros _ E; done|done|].
  assert (Hne : result RES_TIMEOUT <> result RES_CONFIRMED) by (unfold result; intros E; simplify_eq).
  change (send_result s0) with result in *; change (confirm_prompt s0) with asks in *.
  change (tu_t0_ms s0) with t0 in *; change (tu_confirm_secs s0 * 1000) with need in *; clearbody result s0; destruct (tu_active s') eqn:Ha.
  - destruct (Hopen eq_refl) as [-> Hall]; split_and!; [auto|done|]; intros Hc Hex; specialize (Hall Hc).
    apply Exists_exists in Hex as (t & Hin & Hlt); rewrite Forall_forall in Hall; specialize (Hall t Hin); lia.
  - destruct (Hclosed eq_refl) as [[-> Hn]|[->|(-> & Hc & h2 & t & h3 & -> & H1 & H2)]]; split_and!; auto; try done.
    + intros E; simplify_eq; congruence.
    + intros _; split; [done|]; exists h2, t, h3; done.
Qed.


(** Wrapping a prompt's text never writes outside the table of 44 rows of ten
    characters and terminates; the rows show the text's characters in order, all of them
    unless the table is full. *)
Theorem wrap_lines_safe text :
  exists out, wrap_lines text = Some out /\ (length out <= 44)%nat /\ Forall (fun l => (length l <= 10)%nat) out /\
  exists rest, List.filter in_word (cstr text) = List.filter in_word (concat out) ++ rest /\ ((length out < 44)%nat -> rest = []).
Proof.
  destruct (wrap_loop_ok (S (length text)) (cstr text) [] []) as (out & E & [T1 T2] & rest & R1 & R2); cbn; try lia; try done.
  - pose proof (length_cstr text); lia.
  - split; cbn; [constructor|lia].
  - apply cstr_nonzero.
  - exists out; split_and!; [exact E|exact T1|exact T2|exists rest; split; [exact R1|exact R2]].
Qed.

(** The user sees what is confirmed.  A prompt of the confirmation mode whose text is
    up to four words and a four-character checksum is shown, while the buttons are not
    held and the prompt is live, as the words in capitals, one per row, alternating with
    the checksum in capitals; nothing of it is cut. *)
Theorem fingerprint_shown ws chk secs nonce seq t0 now left s :
  let text := words_text ws ++ str " chk:" ++ chk in
  (length ws <= 4)%nat -> Forall word_ok ws -> length chk = 4%nat -> Forall (fun c => c <> 0 /\ c <> 32 /\ c <> 10) chk ->
  0 < secs < 256 -> u32 (now - t0) <= CONFIRM_TIMEOUT_MS ->
  let payload := prompt_hdr_bytes (PromptHdr 1 0 secs (Z.of_nat (length text)) nonce) ++ text in
  (trust_ui_tick dec now left false (trust_ui_on_prompt payload seq t0 s)).2 =
  [Trust_draw (if (now / PAGE_MS) mod 2 =? 0 then imap (fun i w => Text 1 0 (Z.of_nat i * 8) (map upper w)) ws
               else [Text 1 0 0 (str "CHK:"); Text 2 0 12 (map upper chk)])].
Proof.
  intros text Hn Hws Hl Hchk Hs Hto payload.
  assert (Hlen : (length text < 60)%nat).
  { unfold text; rewrite !length_app, Hl; change (length (str " chk:")) with 5%nat.
    assert (H : forall ws, Forall word_ok ws -> (length (words_text ws) <= 11 * length ws)%nat).
    { induction 1 as [|w l [Hw _] _ IH]; [done|]; cbn; destruct l; cbn in *; rewrite ?length_app; cbn in *; lia. }
    specialize (H ws Hws); lia. }
  assert (Hp : length payload = (8 + length text)%nat) by (unfold payload; rewrite length_app; done).
  unfold trust_ui_on_prompt; rewrite Hp; cbn [tp_version tp_text_len tp_mode tp_confirm_secs tp_nonce].
  change (byte_at payload 0) with 1; change (byte_at payload 1) with 0; change (byte_at payload 2) with (u8 secs).
  change (byte_at payload 3) with (u8 (Z.of_nat (length text))); rewrite !u8_small by lia.
  rewrite (proj2 (Z.ltb_ge _ _)), (proj2 (Z.ltb_ge _ (8 + _))), (proj2 (Z.ltb_ge 240 _)) by lia; cbn [negb Z.eqb Pos.eqb].
  replace (field 8 (Z.to_nat (Z.of_nat (length text))) payload) with text
    by (unfold field, payload; rewrite Nat2Z.id; change (drop 8 _) with text; rewrite take_ge; done).
  unfold trust_ui_tick; cbn -[tick_confirm Z.eqb]; rewrite (proj2 (Z.eqb_neq secs 0)) by lia; cbn -[tick_confirm].
  unfold tick_confirm; cbn -[draw_fingerprint]; rewrite (proj2 (Z.ltb_ge _ _)), andb_false_r by done; cbn -[draw_fingerprint].
  unfold text; rewrite fingerprint_pages by done; done.
Qed.
End Properties.

(** A prompt of mode 0 for three seconds; both buttons from 1000 ms on, one bounced sample. *)
Definition demo_prompt : list Z := [1; 0; 3; 2; 9; 0; 0; 0; 97; 98].
Definition demo_hold : list tick :=
  [(1000, true, true); (1050, true, false); (1100, true, true); (2500, true, true); (4000, true, true); (4050, false, false)].
Definition demo_dec (z : Z) : list Z := [48 + z].

Lemma trust_confirm_physical_witness :
  exists h1 t h2, demo_hold = h1 ++ t :: h2 /\ u32 (t_now t - 500) <= CONFIRM_TIMEOUT_MS /\ held_for 3000 (h1 ++ [t]).
Proof.
  assert (Hp : prompt_accepted demo_prompt) by (unfold prompt_accepted; cbn; lia).
  pose proof (trust_confirm_physical demo_dec demo_prompt 7 500 trust_init demo_hold Hp) as HT.
  assert (E : results (ticks demo_dec (trust_ui_on_prompt demo_prompt 7 500 trust_init) demo_hold).2 =
    [Trust_result 7 (trust_result_bytes RES_CONFIRMED (le_val (field 4 4 demo_prompt)))]) by reflexivity.
  destruct (ticks _ _ _) as [s' outs]; destruct HT as (_ & HT & _); exact (proj2 (HT E)).
Defined.

Lemma fingerprint_shown_witness :
  let ws := [str "ocean"; str "ladder"; str "velvet"; str "crisp"] in
  let payload := prompt_hdr_bytes (PromptHdr 1 0 5 33 77) ++ (words_text ws ++ str " chk:" ++ str "a1f0") in
  (trust_ui_tick demo_dec 1000 true false (trust_ui_on_prompt payload 7 500 trust_init)).2 =
  [Trust_draw [Text 1 0 0 (str "OCEAN"); Text 1 0 8 (str "LADDER"); Text 1 0 16 (str "VELVET"); Text 1 0 24 (str "CRISP")]].
Proof.
  intros ws payload; apply (fingerprint_shown demo_dec ws (str "a1f0") 5 77 7 500 1000 true trust_init); cbn.
  - lia.
  - unfold ws; repeat (apply Forall_cons_2; [split; [cbn; lia|cbn; repeat (apply Forall_cons_2; [vm_compute; split; discriminate|]); apply Forall_nil_2]|]);
      apply Forall_nil_2.
  - done.
  - repeat (apply Forall_cons_2; [vm_compute; split_and!; discriminate|]); apply Forall_nil_2.
  - lia.
  - vm_compute; discriminate.
Defined.
