(* ===== verification/LocalMenu.v ===== *)
(** * The local menu (firmware-rp2040/src/local_menu.cpp)

    The menu that works without the modem: brightness, sound, the output rail.  A tick of
    the main loop turns button levels into edges, applies them, and draws.  The menu works
    on its own state and the persisted settings; what it asks of its callers is in
    [menu_act], in order. *)

From S2P Require Import Prelude Protocol UiSettings TrustUi.

(* src: firmware-rp2040/src/local_menu.cpp:16-21 timing and threshold *)
Definition LM_IDLE_MS : Z := 60000.
Definition LM_NOTICE_MS : Z := 1800.
Definition LM_OUT_ON_MV : Z := 3000.

(* src: firmware-rp2040/src/local_menu.cpp:24-32 root items *)
Definition ROOT_BRIGHT : Z := 0.
Definition ROOT_SOUND : Z := 1.
Definition ROOT_INFO : Z := 2.
Definition ROOT_OUTPUT : Z := 3.
Definition ROOT_NETWORK : Z := 4.
Definition ROOT_EXIT : Z := 5.
Definition NUM_ROOT : Z := 6.

(* src: firmware-rp2040/src/local_menu.cpp:34-40 screens *)
Inductive lm_screen := LM_ROOT | LM_BRIGHT | LM_INFO | LM_OUTPUT | LM_OUTPUT_CONFIRM.
#[export] Instance lm_screen_eq_dec : EqDecision lm_screen.
Proof. solve_decision. Defined.

(* src: firmware-rp2040/src/local_menu.cpp:42-52 S *)
Record menu := Menu {
  lm_active : bool;
  lm_screen_of : lm_screen;
  lm_cursor : Z;
  lm_sub : Z;
  lm_prev_left : bool;
  lm_prev_right : bool;
  lm_btn_init : bool;
  lm_last_input_ms : Z;
  lm_notice_until_ms : Z
}.

#[export] Instance eta_menu : Eta menu := fun m =>
  Menu (lm_active m) (lm_screen_of m) (lm_cursor m) (lm_sub m) (lm_prev_left m) (lm_prev_right m) (lm_btn_init m)
    (lm_last_input_ms m) (lm_notice_until_ms m).

Definition menu_init : menu := Menu false LM_ROOT 0 0 false false false 0 0.

(* src: firmware-rp2040/src/local_menu.h:38-44 LocalMenuCtx *)
Record LocalMenuCtx := Ctx {
  cx_uptime_s : Z;
  cx_temp_lm_dC : Z;
  cx_temp_mp_dC : Z;
  cx_power_fresh : bool;
  cx_vbus_out_mV : Z
}.

(** [Menu_open_esp32] is the call of [local_menu_host_open_esp32], which closes the menu. *)
Inductive menu_act :=
  | Menu_draw (screen : list item)
  | Menu_tone (freq_hz dur_ms : Z)
  | Menu_power (op : Z)
  | Menu_apply_brightness
  | Menu_open_esp32.

Section Menu.
Context `{P : Eeprom}.
Context (dec : Z -> list Z).
Implicit Types (u : settings) (m : menu) (ctx : LocalMenuCtx).

(** ** Drawing *)

(* src: firmware-rp2040/src/local_menu.cpp:57-71 draw4 *)
Definition draw4 (text : list Z) : list item := menu_cells 0 0 text.

(* src: firmware-rp2040/src/local_menu.cpp:75-90 render_list *)
Definition render_list (labels : list (list Z)) (cursor : Z) : list Z :=
  let n := Z.of_nat (length labels) in
  let first := if 3 <=? cursor then cursor - 2 else 0 in
  let first := if n - SCR_ROWS <? first then n - SCR_ROWS else first in
  let first := if first <? 0 then 0 else first in
  concat (imap (fun row l => let idx := first + Z.of_nat row in
                  (if idx =? cursor then 62 else 32) :: l ++ (if Z.of_nat row =? SCR_ROWS - 1 then [] else [10]))
            (take 4 (drop (Z.to_nat first) labels))).

Definition cursor_mark (here : bool) : list Z := if here then [62] else [32].

(** [%d] of a temperature in tenths; C division truncates. *)
Definition whole (dC : Z) : list Z := dec (Z.quot dC 10).

(* src: firmware-rp2040/src/local_menu.cpp:101-110 render (root) *)
Definition render_root (u : settings) (m : menu) : list Z :=
  let snd := str "Sound " ++ (if ui_settings_sound_enabled u then str "ON" else str "OFF") in
  render_list [str "Bright"; snd; str "Info"; str "Output"; str "Network"; str "Exit"] (lm_cursor m).

(* src: firmware-rp2040/src/local_menu.cpp:111-120 render (brightness) *)
Definition render_bright (u : settings) : list Z :=
  let lv := ui_settings_brightness_level u in
  let cells := map (fun i => if i <=? lv then 35 else 45) [0; 1; 2; 3; 4; 5] in
  str "BRIGHT" ++ [10] ++ str "Lvl " ++ dec (lv + 1) ++ str "/" ++ dec UI_BRIGHTNESS_LEVELS ++ [10] ++
  str "[" ++ cells ++ str "]" ++ [10] ++ str "R+  Lok".

(* src: firmware-rp2040/src/local_menu.cpp:121-138 render (info) *)
Definition render_info (ctx : LocalMenuCtx) : list Z :=
  let mn := cx_uptime_s ctx / 60 in
  let up := if mn <? 100 then str "UP " ++ dec mn ++ str "m"
            else if mn / 60 <? 100 then str "UP " ++ dec (mn / 60) ++ str "h"
            else str "UP " ++ dec (mn / 1440) ++ str "d" in
  let tlm := if cx_power_fresh ctx then str "Tlm " ++ whole (cx_temp_lm_dC ctx) ++ str "C" else str "Tlm N/A" in
  let tmp := if cx_power_fresh ctx && negb (cx_temp_mp_dC ctx =? -32768)
             then str "Tmp " ++ whole (cx_temp_mp_dC ctx) ++ str "C" else str "Tmp N/A" in
  take 11 up ++ [10] ++ take 11 tlm ++ [10] ++ take 11 tmp ++ [10] ++ str "L/R back".

Definition rail_on (ctx : LocalMenuCtx) : bool := LM_OUT_ON_MV <? cx_vbus_out_mV ctx.
Definition mark (here : bool) : list Z := if here then [62] else [32].

(* src: firmware-rp2040/src/local_menu.cpp:139-153 render (output) *)
Definition render_output (ctx : LocalMenuCtx) (m : menu) : list Z :=
  str "OUTPUT" ++ [10] ++ str " st: " ++ (if rail_on ctx then str "ON" else str "OFF") ++ [10] ++
  mark (lm_sub m =? 0) ++ str "Back" ++ [10] ++ mark (lm_sub m =? 1) ++ (if rail_on ctx then str "Turn OFF" else str "Turn ON").

Definition render_confirm (m : menu) : list Z :=
  str "CUT PWR" ++ [10] ++ str "TO PI?" ++ [10] ++ mark (lm_sub m =? 0) ++ str "Back" ++ [10] ++ mark (lm_sub m =? 1) ++ str "Confirm".

(* src: firmware-rp2040/src/local_menu.cpp:98-159 render *)
Definition render (u : settings) (m : menu) (ctx : LocalMenuCtx) : menu_act :=
  Menu_draw (draw4 match lm_screen_of m with
    | LM_ROOT => render_root u m
    | LM_BRIGHT => render_bright u
    | LM_INFO => render_info ctx
    | LM_OUTPUT => render_output ctx m
    | LM_OUTPUT_CONFIRM => render_confirm m
    end).

(* src: firmware-rp2040/src/local_menu.cpp:161-163 draw_notice *)
Definition draw_notice : menu_act := Menu_draw (draw4 (str "NO MODEM" ++ [10] ++ str "M.2 card" ++ [10] ++ str "missing?")).

(** ** Opening and closing *)

(* src: firmware-rp2040/src/local_menu.cpp:242-242 local_menu_active *)
Definition local_menu_active (m : menu) : bool := lm_active m.

(* src: firmware-rp2040/src/local_menu.cpp:244-252 local_menu_open *)
Definition local_menu_open (millis : Z) (m : menu) : menu :=
  m <| lm_active := true |> <| lm_screen_of := LM_ROOT |> <| lm_cursor := 0 |> <| lm_sub := 0 |> <| lm_btn_init := false |>
    <| lm_last_input_ms := millis |> <| lm_notice_until_ms := 0 |>.

(* src: firmware-rp2040/src/local_menu.cpp:254-261 local_menu_close *)
Definition local_menu_close (u : settings) (m : menu) : settings * menu :=
  (ui_settings_commit u, m <| lm_active := false |>).

(* src: firmware-rp2040/src/local_menu.cpp:263-274 local_menu_note_no_modem *)
Definition local_menu_note_no_modem (millis : Z) (m : menu) : menu :=
  if negb (lm_active m) then m else
  let until := u32 (millis + LM_NOTICE_MS) in
  m <| lm_screen_of := LM_ROOT |> <| lm_cursor := ROOT_NETWORK |> <| lm_sub := 0 |> <| lm_btn_init := false |>
    <| lm_last_input_ms := millis |> <| lm_notice_until_ms := if negb (until =? 0) then until else 1 |>.

(** ** Input *)

(* src: firmware-rp2040/src/local_menu.cpp:172-188 handle_edge (root) *)
Definition edge_root (left right : bool) (u : settings) (m : menu) : settings * menu * list menu_act :=
  if left then (u, m <| lm_cursor := (lm_cursor m + 1) mod NUM_ROOT |>, [])
  else if right then
    if lm_cursor m =? ROOT_BRIGHT then (u, m <| lm_screen_of := LM_BRIGHT |>, [])
    else if lm_cursor m =? ROOT_SOUND then
      (ui_settings_commit (ui_settings_set_sound_enabled (negb (ui_settings_sound_enabled u)) u), m, [])
    else if lm_cursor m =? ROOT_INFO then (u, m <| lm_screen_of := LM_INFO |>, [])
    else if lm_cursor m =? ROOT_OUTPUT then (u, m <| lm_screen_of := LM_OUTPUT |> <| lm_sub := 0 |>, [])
    else if lm_cursor m =? ROOT_NETWORK then (local_menu_close u m, [Menu_open_esp32])
    else if lm_cursor m =? ROOT_EXIT then (local_menu_close u m, [])
    else (u, m, [])
  else (u, m, []).

(* src: firmware-rp2040/src/local_menu.cpp:190-201 handle_edge (brightness) *)
Definition edge_bright (left right : bool) (u : settings) (m : menu) : settings * menu * list menu_act :=
  if right then
    let lv := (ui_settings_brightness_level u + 1) mod UI_BRIGHTNESS_LEVELS in
    (ui_settings_set_brightness_level lv u, m, [Menu_apply_brightness])
  else if left then (ui_settings_commit u, m <| lm_screen_of := LM_ROOT |> <| lm_cursor := ROOT_BRIGHT |>, [])
  else (u, m, []).

(* src: firmware-rp2040/src/local_menu.cpp:210-226 handle_edge (output) *)
Definition edge_output (ctx : LocalMenuCtx) (left right : bool) (m : menu) : menu * list menu_act :=
  if left then (m <| lm_sub := Z.lxor (lm_sub m) 1 |>, [])
  else if right then
    if lm_sub m =? 0 then (m <| lm_screen_of := LM_ROOT |> <| lm_cursor := ROOT_OUTPUT |>, [])
    else if rail_on ctx then (m <| lm_screen_of := LM_OUTPUT_CONFIRM |> <| lm_sub := 0 |>, [])
    else (m, [Menu_power WUPS_OP_PWR_ENABLE])
  else (m, []).

(* src: firmware-rp2040/src/local_menu.cpp:228-236 handle_edge (confirm) *)
Definition edge_confirm (left right : bool) (m : menu) : menu * list menu_act :=
  if left then (m <| lm_sub := Z.lxor (lm_sub m) 1 |>, [])
  else if right then
    (m <| lm_screen_of := LM_OUTPUT |> <| lm_sub := 0 |>,
     if lm_sub m =? 1 then [Menu_power WUPS_OP_PWR_DISABLE] else [])
  else (m, []).

(* src: firmware-rp2040/src/local_menu.cpp:169-238 handle_edge *)
Definition handle_edge (ctx : LocalMenuCtx) (left right : bool) (u : settings) (m : menu) : settings * menu * list menu_act :=
  match lm_screen_of m with
  | LM_ROOT => edge_root left right u m
  | LM_BRIGHT => edge_bright left right u m
  | LM_INFO =>
      (u, if left || right then m <| lm_screen_of := LM_ROOT |> <| lm_cursor := ROOT_INFO |> else m, [])
  | LM_OUTPUT => let '(m, acts) := edge_output ctx left right m in (u, m, acts)
  | LM_OUTPUT_CONFIRM => let '(m, acts) := edge_confirm left right m in (u, m, acts)
  end.

(* src: firmware-rp2040/src/local_menu.cpp:276-314 local_menu_tick *)
Definition local_menu_tick (now : Z) (left right : bool) (ctx : LocalMenuCtx) (u : settings) (m : menu)
    : settings * menu * list menu_act :=
  if negb (lm_active m) then (u, m, [])
  else if negb (lm_btn_init m) then
    let m := m <| lm_prev_left := left |> <| lm_prev_right := right |> <| lm_btn_init := true |> in
    (u, m, [if negb (lm_notice_until_ms m =? 0) then draw_notice else render u m ctx])
  else
    let leftEdge := left && negb (lm_prev_left m) in
    let rightEdge := right && negb (lm_prev_right m) in
    let m := m <| lm_prev_left := left |> <| lm_prev_right := right |> in
    if negb (lm_notice_until_ms m =? 0) && (s32 (u32 (now - lm_notice_until_ms m)) <? 0) then (u, m, [draw_notice])
    else
      let m := m <| lm_notice_until_ms := 0 |> in
      if leftEdge || rightEdge then
        let m := m <| lm_last_input_ms := now |> in
        let tones := map (fun t => Menu_tone t.1 t.2) (ui_settings_beep u 1000 20) in
        let '(u, m, acts) := handle_edge ctx leftEdge rightEdge u m in
        (u, m, tones ++ acts ++ if lm_active m then [render u m ctx] else [])
      else if LM_IDLE_MS <? u32 (now - lm_last_input_ms m) then (local_menu_close u m, [])
      else (u, m, [render u m ctx]).
End Menu.

(** ** What it takes to cut the power *)

Record menu_tick := MenuTick { mt_now : Z; mt_left : bool; mt_right : bool; mt_ctx : LocalMenuCtx }.

(** A button that was up at one tick and is down at the next. *)
Definition newly_down (t t' : menu_tick) : bool :=
  (mt_left t' && negb (mt_left t)) || (mt_right t' && negb (mt_right t)).
Fixpoint presses (h : list menu_tick) : Z :=
  match h with
  | [] => 0
  | t :: r => match r with [] => 0 | t' :: _ => b2z (newly_down t t') + presses r end
  end.

Section Cut.
Context `{P : Eeprom}.
Context (dec : Z -> list Z).
Implicit Types (u : settings) (m : menu) (h : list menu_tick).

Definition menu_step (s : settings * menu) (t : menu_tick) : (settings * menu) * list menu_act :=
  local_menu_tick dec (mt_now t) (mt_left t) (mt_right t) (mt_ctx t) s.1 s.2.

Definition menu_ok m : Prop := 0 <= lm_cursor m < NUM_ROOT /\ (lm_sub m = 0 \/ lm_sub m = 1).

(** The fewest presses after which the rail can be cut. *)
Definition dist m : Z :=
  match lm_screen_of m with
  | LM_ROOT => (ROOT_OUTPUT - lm_cursor m) mod NUM_ROOT + 5
  | LM_BRIGHT => 9
  | LM_INFO => 7
  | LM_OUTPUT => if lm_sub m =? 0 then 4 else 3
  | LM_OUTPUT_CONFIRM => if lm_sub m =? 0 then 2 else 1
  end.

Definition cuts (a : menu_act) : bool := match a with Menu_power op => op =? WUPS_OP_PWR_DISABLE | _ => false end.

Lemma cursor_cases m : menu_ok m ->
  lm_cursor m = 0 \/ lm_cursor m = 1 \/ lm_cursor m = 2 \/ lm_cursor m = 3 \/ lm_cursor m = 4 \/ lm_cursor m = 5.
Proof. unfold menu_ok, NUM_ROOT; lia. Qed.

(** One press brings the cut nearer by one at most; the confirm screen is entered only
    with the rail measured on. *)
Lemma handle_edge_dist ctx l r u m : menu_ok m ->
  let '(u', m', acts) := handle_edge ctx l r u m in
  menu_ok m' /\ dist m <= dist m' + 1 /\ (existsb cuts acts = true -> dist m = 1 /\ lm_screen_of m = LM_OUTPUT_CONFIRM) /\
  (lm_screen_of m' = LM_OUTPUT_CONFIRM -> lm_screen_of m = LM_OUTPUT_CONFIRM \/ rail_on ctx = true).
Proof.
  intros Hok; pose proof (cursor_cases m Hok) as Hcur; destruct Hok as [Hc Hs]; unfold handle_edge, menu_ok, dist.
  destruct (lm_screen_of m) eqn:Es.
  - unfold edge_root; destruct Hcur as [E|[E|[E|[E|[E|E]]]]]; rewrite E; (destruct l; [|destruct r]);
      cbn; rewrite ?Es, ?E; cbn; split_and!; auto; lia || discriminate || done.
  - unfold edge_bright; destruct r; [|destruct l]; cbn; rewrite ?Es; cbn; split_and!; auto; lia || discriminate || done.
  - destruct (l || r); cbn; rewrite ?Es; cbn; split_and!; auto; lia || discriminate || done.
  - unfold edge_output; destruct l; [|destruct r]; destruct Hs as [E|E]; rewrite E; cbn; try (destruct (rail_on ctx) eqn:Er);
      cbn; rewrite ?Es, ?E; cbn; split_and!; auto; lia || discriminate || done.
  - unfold edge_confirm; destruct l; [|destruct r]; destruct Hs as [E|E]; rewrite E; cbn; rewrite ?Es, ?E; cbn; split_and!; auto; lia || discriminate || done.
Qed.

Lemma closed_tick s t : lm_active s.2 = false -> menu_step s t = (s, []).
Proof. destruct s as [u m]; cbn; intros E; unfold menu_step, local_menu_tick; cbn; rewrite E; done. Qed.

Lemma existsb_tones l : existsb cuts (map (fun t : Z * Z => Menu_tone t.1 t.2) l) = false.
Proof. induction l; done. Qed.

(** A tick of an open menu whose levels are those of the tick [t0]. *)
Lemma menu_step_dist t0 t u m :
  menu_ok m -> lm_btn_init m = true -> lm_prev_left m = mt_left t0 -> lm_prev_right m = mt_right t0 ->
  let '((u', m'), acts) := menu_step (u, m) t in
  (existsb cuts acts = true -> dist m = 1 /\ newly_down t0 t = true /\ lm_screen_of m = LM_OUTPUT_CONFIRM) /\
  (lm_active m' = true -> menu_ok m' /\ lm_btn_init m' = true /\ lm_prev_left m' = mt_left t /\ lm_prev_right m' = mt_right t /\
     dist m <= dist m' + b2z (newly_down t0 t) /\
     (lm_screen_of m' = LM_OUTPUT_CONFIRM -> lm_screen_of m = LM_OUTPUT_CONFIRM \/ rail_on (mt_ctx t) = true)).
Proof.
  intros Hok Hi Hl Hr; unfold menu_step, local_menu_tick; cbn [fst snd]; destruct (lm_active m) eqn:Ha; cbn [negb].
  2:{ split; [done|rewrite Ha; done]. }
  rewrite Hi; cbn [negb]; rewrite Hl, Hr; fold (newly_down t0 t).
  cbn [lm_notice_until_ms upd]; destruct (_ && _) eqn:En.
  { split; [done|intros _]; cbn; split_and!; try done; try (apply Hok); [unfold dist; cbn -[Z.modulo Z.add]; destruct (newly_down t0 t); cbn [b2z]; lia|auto]. }
  clear En; unfold newly_down at 2; destruct ((mt_left t && _) || _) eqn:Ee.
  - assert (En : newly_down t0 t = true) by exact Ee; rewrite En.
    set (m1 := _ <| lm_last_input_ms := mt_now t |>); pose proof (handle_edge_dist (mt_ctx t) (mt_left t && negb (mt_left t0)) (mt_right t && negb (mt_right t0)) u m1 Hok) as HD.
    assert (Hk : let '(_, m', _) := handle_edge (mt_ctx t) (mt_left t && negb (mt_left t0)) (mt_right t && negb (mt_right t0)) u m1 in
      lm_btn_init m' = true /\ lm_prev_left m' = mt_left t /\ lm_prev_right m' = mt_right t).
    { unfold handle_edge, edge_root, edge_bright, edge_output, edge_confirm, local_menu_close; repeat case_match; simplify_eq/=; done. }
    destruct (handle_edge _ _ _ u m1) as [[u' m'] acts]; destruct HD as (D1 & D2 & D3 & D4); destruct Hk as (K1 & K2 & K3).
    change (dist m1) with (dist m) in *; change (lm_screen_of m1) with (lm_screen_of m) in *; split.
    + rewrite !existsb_app, existsb_tones; cbn [orb]; intros H; apply orb_true_iff in H as [H|H]; [destruct (D3 H); done|].
      destruct (lm_active m'); done.
    + intros _; split_and!; try done; apply D1.
  - assert (En : newly_down t0 t = false) by exact Ee; rewrite En; destruct (_ <? _); (split; [done|]); cbn; [done|].
    intros _; split_and!; try done; try (apply Hok); [unfold dist; cbn -[Z.modulo Z.add]; cbn [b2z]; lia|auto].
Qed.

(** One tick keeps the menu in range and records the level of RIGHT; the confirm screen is
    entered from the second row of the output screen only, by a press of RIGHT at a tick
    with the rail on. *)
Lemma menu_step_confirm s t : menu_ok s.2 ->
  let s' := (menu_step s t).1 in
  menu_ok s'.2 /\ (lm_active s'.2 = true -> lm_active s.2 = true /\ lm_prev_right s'.2 = mt_right t) /\
  (lm_screen_of s'.2 = LM_OUTPUT_CONFIRM -> lm_screen_of s.2 = LM_OUTPUT_CONFIRM \/
     (lm_active s.2 = true /\ lm_screen_of s.2 = LM_OUTPUT /\ lm_sub s.2 = 1 /\ lm_prev_right s.2 = false /\
      mt_right t = true /\ rail_on (mt_ctx t) = true)).
Proof.
  destruct s as [u m]; cbn [snd]; intros Hok; unfold menu_step, local_menu_tick; cbn [fst snd].
  destruct (lm_active m) eqn:Ha; cbn [negb]; [|cbn; rewrite Ha; split; [done|split; [done|auto]]].
  destruct (negb (lm_btn_init m)); [cbn; split; [exact Hok|split; [done|auto]]|].
  destruct (_ && _); [cbn; split; [exact Hok|split; [done|auto]]|].
  destruct (_ || _); [|destruct (_ <? _); cbn; (split; [exact Hok|split; [done|auto]])].
  set (m1 := _ <| lm_last_input_ms := _ |>).
  pose proof (handle_edge_dist (mt_ctx t) (mt_left t && negb (lm_prev_left m)) (mt_right t && negb (lm_prev_right m)) u m1 Hok) as HD.
  assert (HE : let '(_, m', _) := handle_edge (mt_ctx t) (mt_left t && negb (lm_prev_left m)) (mt_right t && negb (lm_prev_right m)) u m1 in
    lm_prev_right m' = mt_right t /\
    (lm_screen_of m' = LM_OUTPUT_CONFIRM -> lm_screen_of m = LM_OUTPUT_CONFIRM \/
       lm_screen_of m = LM_OUTPUT /\ lm_sub m <> 0 /\ mt_right t && negb (lm_prev_right m) = true /\ rail_on (mt_ctx t) = true)).
  { change (lm_screen_of m) with (lm_screen_of m1); change (lm_sub m) with (lm_sub m1).
    assert (Hpr : lm_prev_right m1 = mt_right t) by done; clearbody m1; clear HD.
    generalize (mt_left t && negb (lm_prev_left m)) (mt_right t && negb (lm_prev_right m)); intros l r.
    unfold handle_edge, edge_root, edge_bright, edge_output, edge_confirm, local_menu_close.
    destruct (lm_screen_of m1) eqn:Es; repeat case_match; simplify_eq/=; (split; [done|]); intros E; try congruence; auto.
    right; match goal with H : (lm_sub m1 =? 0) = false |- _ => apply Z.eqb_neq in H end; done. }
  cbn [lm_prev_left lm_prev_right lm_notice_until_ms upd] in *.
  destruct (handle_edge _ _ _ u m1) as [[u' m'] acts]; cbn [fst snd]; destruct HD as (HD & _); destruct HE as [HE1 HE2].
  split; [exact HD|split; [auto|]]; intros E; destruct (HE2 E) as [?|(H1 & H2 & H3 & H4)]; [auto|right].
  apply andb_true_iff in H3 as [H3 H5%negb_true_iff]; destruct Hok as [_ [Hs|Hs]]; [done|]; split_and!; done.
Qed.

(** The request is sent on the row "Confirm" only. *)
Lemma cut_from_confirm u m t : (lm_sub m = 0 \/ lm_sub m = 1) -> existsb cuts (menu_step (u, m) t).2 = true ->
  lm_screen_of m = LM_OUTPUT_CONFIRM /\ lm_sub m = 1.
Proof.
  intros Hs; unfold menu_step, local_menu_tick; cbn [fst snd].
  destruct (negb (lm_active m)); [done|]; destruct (negb (lm_btn_init m)); [destruct (negb _); done|].
  destruct (_ && _); [done|]; destruct (_ || _); [|destruct (_ <? _); done].
  set (m1 := _ <| lm_last_input_ms := _ |>).
  change (lm_screen_of m) with (lm_screen_of m1); change (lm_sub m) with (lm_sub m1) in *; clearbody m1.
  unfold handle_edge, edge_root, edge_bright, edge_output, edge_confirm, local_menu_close.
  destruct (lm_screen_of m1) eqn:Es; repeat case_match; simplify_eq/=; rewrite ?existsb_app, ?existsb_tones; cbn; try done.
  all: match goal with H : (lm_sub _ =? 1) = true |- _ => apply Z.eqb_eq in H end; done.
Qed.

Lemma cut_run t0 h u m i acts :
  menu_ok m -> lm_btn_init m = true -> lm_prev_left m = mt_left t0 -> lm_prev_right m = mt_right t0 ->
  (run menu_step (u, m) h).2 !! i = Some acts -> existsb cuts acts = true ->
  dist m <= presses (t0 :: take (S i) h) /\
  (lm_screen_of m = LM_OUTPUT_CONFIRM \/ Exists (fun t => rail_on (mt_ctx t) = true) (take i h)).
Proof.
  revert t0 u m i; induction h as [|t h IH]; intros t0 u m i Hok Hi Hl Hr Ho Hc; [done|].
  rewrite run_cons in Ho; pose proof (menu_step_dist t0 t u m Hok Hi Hl Hr) as HS.
  destruct (menu_step (u, m) t) as [[u1 m1] a1]; destruct HS as [S1 S2].
  destruct (run menu_step (u1, m1) h) as [s2 os] eqn:Er; destruct i as [|i]; cbn [snd] in Ho.
  - cbn in Ho; simplify_eq; destruct (S1 Hc) as (D & Dn & Ds); rewrite D; split; [cbn; rewrite Dn, take_0; cbn; lia|auto].
  - cbn in Ho; destruct (lm_active m1) eqn:Ha1.
    + destruct (S2 eq_refl) as (T1 & T2 & T3 & T4 & T5 & T6); specialize (IH t u1 m1 i T1 T2 T3 T4); rewrite Er in IH.
      destruct (IH Ho Hc) as [I1 I2]; cbn [take presses] in *; split; [lia|].
      destruct I2 as [I2|I2]; [destruct (T6 I2); [auto|right; apply Exists_cons; auto]|right; apply Exists_cons; auto].
    + exfalso; clear - Er Ho Hc Ha1; revert os s2 i Er Ho; induction h as [|t' h IH]; intros os s2 i Er Ho; cbn in Er; [simplify_eq; done|].
      rewrite closed_tick in Er by done; destruct (run menu_step (u1, m1) h) as [s3 os3]; simplify_eq.
      destruct i as [|i]; cbn in Ho; [simplify_eq; done|eauto].
Qed.
End Cut.

(** ** Settings outlive the menu *)

Section Persist.
Context `{L : EepromLaws}.
#[local] Set Default Proof Using "Type*".
Context (dec : Z -> list Z).
Implicit Types (u : settings) (m : menu) (h : list menu_tick).

(** Either the menu is open, or the settings in memory are those in flash. *)
Definition saved (s : settings * menu) : Prop :=
  settings_ok s.1 /\ (lm_active s.2 = true \/ st (settings_boot (ee s.1)) = st s.1).

Lemma saved_commit u m : settings_ok u -> saved (ui_settings_commit u, m).
Proof. intros Hu; split; [apply settings_commit_ok, Hu|right; apply (boot_after_commit u Hu)]. Qed.

Lemma handle_edge_saved ctx l r u m : settings_ok u -> lm_active m = true ->
  let '(u', m', _) := handle_edge ctx l r u m in saved (u', m').
Proof.
  intros Hu Ha; unfold handle_edge, edge_root, edge_bright, edge_output, edge_confirm, local_menu_close.
  repeat case_match; simplify_eq/=; try (apply saved_commit; auto with ups); split; cbn; auto with ups.
  apply set_brightness_ok; [apply Z.mod_pos_bound; done|done].
Qed.

Lemma menu_step_saved s t : saved s -> saved (menu_step dec s t).1.
Proof.
  destruct s as [u m]; intros Hs; pose proof (proj1 Hs) as Hu; cbn in Hu; unfold menu_step, local_menu_tick; cbn [fst snd].
  destruct (lm_active m) eqn:Ha; cbn [negb]; [|exact Hs].
  assert (Hopen : forall m', lm_active m' = true -> saved (u, m')) by (intros m' Hm'; split; [exact Hu|left; exact Hm']).
  destruct (negb (lm_btn_init m)); [apply Hopen, Ha|]; destruct (_ && _); [apply Hopen, Ha|]; destruct (_ || _).
  - set (m1 := _ <| lm_last_input_ms := _ |>).
    pose proof (handle_edge_saved (mt_ctx t) (mt_left t && negb (lm_prev_left m)) (mt_right t && negb (lm_prev_right m)) u m1 Hu Ha) as HE.
    cbn [lm_prev_left lm_prev_right upd] in *; destruct (handle_edge _ _ _ u m1) as [[u' m'] acts]; exact HE.
  - destruct (_ <? _); [apply saved_commit, Hu|apply Hopen, Ha].
Qed.

(** Settings outlive the menu.  Whatever is pressed from the opening of the menu on,
    the settings stay well-formed, and once the menu is closed (by Exit, by the hand-off
    to the modem's menu, or by the idle timeout) the next start finds exactly the
    brightness and sound that were in force. *)
Theorem menu_settings_persist u m t0 h :
  settings_ok u ->
  let '((u', m'), _) := run (menu_step dec) (u, local_menu_open t0 m) h in
  settings_ok u' /\
  (lm_active m' = false ->
   ui_settings_brightness_level (settings_boot (ee u')) = ui_settings_brightness_level u' /\
   ui_settings_sound_enabled (settings_boot (ee u')) = ui_settings_sound_enabled u').
Proof.
  intros Hu; pose proof (run_invariant (menu_step dec) saved (u, local_menu_open t0 m) h menu_step_saved) as HR.
  destruct (run _ _ h) as [[u' m'] os]; destruct HR as [H1 H2]; [split; [exact Hu|left; done]|]; cbn in *; split; [exact H1|].
  intros Ha; destruct H2 as [H2|H2]; [congruence|]; unfold ui_settings_brightness_level, ui_settings_sound_enabled; rewrite H2; done.
Qed.
End Persist.

Section Confirmation.
Context `{P : Eeprom}.
Context (dec : Z -> list Z).
Implicit Types (u : settings) (m : menu) (h : list menu_tick).

(** The first tick adopts the levels and draws. *)
Lemma first_tick u m t0 t : exists m1 a,
  menu_step dec (u, local_menu_open t0 m) t = ((u, m1), [a]) /\ cuts a = false /\
  menu_ok m1 /\ lm_btn_init m1 = true /\ lm_prev_left m1 = mt_left t /\ lm_prev_right m1 = mt_right t /\
  dist m1 = 8 /\ lm_screen_of m1 = LM_ROOT.
Proof.
  eexists; eexists; split; [reflexivity|]; split_and!; try reflexivity.
  split; [split; [apply Z.le_refl|reflexivity]|left; reflexivity].
Qed.

(** The menu before tick [k] of [h], since its opening. *)
Definition menu_at u m t0 h (k : nat) : menu := (run (menu_step dec) (u, local_menu_open t0 m) (take k h)).1.2.

Lemma menu_at_S u m t0 h k t : h !! k = Some t ->
  exists s, s.2 = menu_at u m t0 h k /\ (menu_step dec s t).1.2 = menu_at u m t0 h (S k).
Proof. intros Ht; eexists; split; [reflexivity|]; unfold menu_at; rewrite (run_take_S _ _ _ _ _ Ht); reflexivity. Qed.

Lemma menu_at_ok u m t0 h k : (k <= length h)%nat -> menu_ok (menu_at u m t0 h k).
Proof.
  induction k as [|k IH]; intros Hk; [split; [split; [apply Z.le_refl|reflexivity]|left; reflexivity]|].
  destruct (lookup_lt_is_Some_2 h k ltac:(lia)) as [t Ht]; destruct (menu_at_S u m t0 h k t Ht) as (s & Es & <-).
  apply menu_step_confirm; rewrite Es; apply IH; lia.
Qed.

(** The second row of the output screen is chosen: RIGHT goes down there, with the rail on. *)
Definition turns_off (before : menu) (t' t : menu_tick) : Prop :=
  lm_screen_of before = LM_OUTPUT /\ lm_sub before = 1 /\ mt_right t' = false /\ mt_right t = true /\ rail_on (mt_ctx t) = true.

(** The confirm screen goes back to such a choice. *)
Lemma confirm_origin u m t0 h k : (k <= length h)%nat -> lm_screen_of (menu_at u m t0 h k) = LM_OUTPUT_CONFIRM ->
  exists j t' t, (S j < k)%nat /\ h !! j = Some t' /\ h !! S j = Some t /\ turns_off (menu_at u m t0 h (S j)) t' t /\
    forall n, (S j < n <= k)%nat -> lm_screen_of (menu_at u m t0 h n) = LM_OUTPUT_CONFIRM.
Proof.
  induction k as [|k IH]; intros Hk Hs; [discriminate Hs|].
  destruct (lookup_lt_is_Some_2 h k ltac:(lia)) as [t Ht]; destruct (menu_at_S u m t0 h k t Ht) as (s & Es & E).
  pose proof (menu_step_confirm dec s t ltac:(rewrite Es; apply menu_at_ok; lia)) as (_ & _ & HC).
  rewrite E, Es in HC; destruct (HC Hs) as [Hc|(Ha & H1 & H2 & H3 & H4 & H5)].
  - destruct (IH ltac:(lia) Hc) as (j & t' & t1 & Hj & Hr & Hr2 & Ho & Hn); exists j, t', t1; split; [lia|].
    split; [exact Hr|split; [exact Hr2|split; [exact Ho|]]]; intros n Hn1.
    destruct (decide (n = S k)) as [->|]; [exact Hs|apply Hn; lia].
  - destruct k as [|k]; [discriminate H1|].
    destruct (lookup_lt_is_Some_2 h k ltac:(lia)) as [t' Ht']; destruct (menu_at_S u m t0 h k t' Ht') as (s' & Es' & E').
    pose proof (menu_step_confirm dec s' t' ltac:(rewrite Es'; apply menu_at_ok; lia)) as (_ & HP & _).
    rewrite E' in HP; destruct (HP Ha) as [_ Hpr]; exists k, t', t; split; [lia|split; [exact Ht'|split; [exact Ht|]]].
    split; [split_and!; congruence|]; intros n Hn; assert (n = S (S k)) as -> by lia; exact Hs.
Qed.

(** C21: Cutting the power is confirmed.  However the menu is used after it is opened, the
    request that turns the rail off is sent only on the row "Confirm" of the confirm screen,
    after eight separate presses since the opening; and the confirm screen that is open
    then goes back, without another screen in between, to the tick at which RIGHT was
    pressed on the second row of the output screen while the rail was measured on (the row
    says "Turn OFF" at that measurement). *)
Theorem cut_needs_confirmation u m t0 h i acts :
  (run (menu_step dec) (u, local_menu_open t0 m) h).2 !! i = Some acts ->
  In (Menu_power WUPS_OP_PWR_DISABLE) acts ->
  8 <= presses (take (S i) h) /\
  lm_screen_of (menu_at u m t0 h i) = LM_OUTPUT_CONFIRM /\ lm_sub (menu_at u m t0 h i) = 1 /\
  exists j t' t, (S j < i)%nat /\ h !! j = Some t' /\ h !! S j = Some t /\ turns_off (menu_at u m t0 h (S j)) t' t /\
    forall n, (S j < n <= i)%nat -> lm_screen_of (menu_at u m t0 h n) = LM_OUTPUT_CONFIRM.
Proof.
  intros Ho Hin; assert (Hc : existsb cuts acts = true) by (apply existsb_exists; eauto).
  destruct (run_output _ _ _ _ _ Ho) as (t & Ht & Ea).
  assert (Hi : (i <= length h)%nat) by (apply lookup_lt_Some in Ht; lia).
  assert (HS : lm_screen_of (menu_at u m t0 h i) = LM_OUTPUT_CONFIRM /\ lm_sub (menu_at u m t0 h i) = 1).
  { pose proof (menu_at_ok u m t0 h i Hi) as [_ Hs]; unfold menu_at in *.
    destruct (run (menu_step dec) (u, local_menu_open t0 m) (take i h)) as [[u1 m1] os]; cbn [fst snd] in *.
    rewrite Ea in Hc; apply (cut_from_confirm dec u1 m1 t); assumption. }
  split; [|split; [apply HS|split; [apply HS|apply confirm_origin; [exact Hi|apply HS]]]].
  destruct h as [|t1 h]; [done|]; rewrite run_cons in Ho.
  destruct (first_tick u m t0 t1) as (m1 & a & E1 & Ea1 & Hok & Hini & Hl & Hr & Hd & Hs); rewrite E1 in Ho.
  pose proof (cut_run dec t1 h u m1) as HC; destruct (run (menu_step dec) (u, m1) h) as [s2 os]; cbn [snd] in *.
  destruct i as [|i]; cbn in Ho; [simplify_eq; cbn in Hc; rewrite Ea1 in Hc; done|].
  destruct (HC i acts Hok Hini Hl Hr Ho Hc) as [H1 _]; rewrite Hd in H1; exact H1.
Qed.
End Confirmation.

(** Three presses to the item, one to enter, one to the choice, one to choose, one to the
    confirmation, one to confirm; each button is let go in between. *)
Definition demo_ctx : LocalMenuCtx := Ctx 60 250 300 true 5100.
Definition demo_press (left : bool) (t : Z) : list menu_tick :=
  [MenuTick t left (negb left) demo_ctx; MenuTick (t + 50) false false demo_ctx].
Definition demo_cut : list menu_tick :=
  MenuTick 1000 false false demo_ctx ::
  concat (imap (fun i left => demo_press left (1050 + 100 * Z.of_nat i)) [true; true; true; false; true; false; true; false]).

Lemma cut_needs_confirmation_witness :
  8 <= presses (take 16 demo_cut) /\
  exists j t' t, (S j < 15)%nat /\ demo_cut !! j = Some t' /\ demo_cut !! S j = Some t /\ rail_on (mt_ctx t) = true.
Proof.
  pose proof (cut_needs_confirmation (P := ref_eeprom) demo_dec (Settings ([], []) stored_default) menu_init 1000 demo_cut 15) as HT.
  cbv zeta in HT; edestruct HT as (H1 & _ & _ & j & t' & t & Hj & H2 & H3 & (_ & _ & _ & _ & H4) & _); [vm_compute; reflexivity|cbn; tauto|].
  split; [exact H1|exists j, t', t; split; [exact Hj|split; [exact H2|split; [exact H3|exact H4]]]].
Defined.

(** Sound off, then Exit: the setting is found at the next start. *)
Definition demo_mute : list menu_tick :=
  MenuTick 1000 false false demo_ctx ::
  concat (imap (fun i left => demo_press left (1050 + 100 * Z.of_nat i)) [true; false; true; true; true; true; false]).

Lemma menu_settings_persist_witness :
  let u0 := Settings ([], []) stored_default in
  let '((u, m), _) := run (menu_step (P := ref_eeprom) demo_dec) (u0, local_menu_open 1000 menu_init) demo_mute in
  settings_ok u0 /\ ui_settings_sound_enabled u0 = true /\ lm_active m = false /\
  ui_settings_sound_enabled (settings_boot (ee u)) = false.
Proof.
  intros u0; assert (Hu : settings_ok u0) by (vm_compute; split_and!; auto; discriminate).
  pose proof (menu_settings_persist (P := ref_eeprom) demo_dec u0 menu_init 1000 demo_mute Hu) as HT.
  assert (E : let '((u, m), _) := run (menu_step (P := ref_eeprom) demo_dec) (u0, local_menu_open 1000 menu_init) demo_mute in
              lm_active m = false /\ ui_settings_sound_enabled u = false) by (vm_compute; split; reflexivity).
  destruct (run _ _ demo_mute) as [[u m] os]; destruct E as [Em Eu]; destruct HT as [_ HT]; destruct (HT Em) as [_ Hs].
  split_and!; [exact Hu|reflexivity|exact Em|rewrite Hs; exact Eu].
Defined.
