(* ===== verification/HubDispatch.v ===== *)
(** * What the hub does with a frame (firmware-rp2040/src/main.cpp)

    [wups_on_local_frame], the local handler of [Router], with the senders it uses.  Its
    state is the [board]: the update session, the settings, the trust screen, the local
    menu, the values shown, the alert layers.  What it does besides sending is in [fx], in
    order; debug output is left out.  One reading of the clock serves a whole frame. *)

From S2P Require Import Prelude Protocol Deframer EspDispatch PowerStatus Sha256 FwXfer FwUpdate Router UiSettings TrustUi LocalMenu.

(** ** Constants *)

(* src: firmware-rp2040/src/main.cpp:182-188 SCREEN *)
Definition SCREEN_HOME : Z := 0.
Definition SCREEN_INPUT : Z := 1.
Definition SCREEN_OUTPUT : Z := 2.
Definition SCREEN_BATTERY : Z := 3.
Definition SCREEN_SYSTEM : Z := 4.
Definition SCREEN_COUNT : Z := 5.
Definition AUTO_RETURN_MS : Z := 20000.

(* src: firmware-rp2040/src/main.cpp:220-221 ALERT *)
Definition ALERT_DISMISS_COOLDOWN_MS : Z := 600000.
Definition ALERT_STALE_TTL_MS : Z := 300000.

(* src: firmware-rp2040/src/main.cpp:251-251 INFO_TTL_MS *)
Definition INFO_TTL_MS : Z := 60000.

(* src: firmware-rp2040/src/main.cpp:256-257 FW_VERSION *)
Definition FW_VERSION_STR : list Z := str "rp2040:1.2.4".
Definition FW_VERSION_U16 : Z := 258.

(* src: firmware-rp2040/src/main.cpp:415-415 MENU_RESPONSE_TIMEOUT_MS *)
Definition MENU_RESPONSE_TIMEOUT_MS : Z := 4000.

(* src: firmware-rp2040/src/main.cpp:916-916 TELEMETRY_UPLINK_INTERVAL_MS *)
Definition TELEMETRY_UPLINK_INTERVAL_MS : Z := 30000.

(* src: common/protocol.h:229-234 WUPS_CAP *)
Definition WUPS_CAP_UI : Z := Z.shiftl 1 WUPS_CLASS_UI.

(** ** State *)

(** The snapshot that the display and the alarms read.  The members that nothing writes
    ([pd], [pdo], [role], [snk_*]) are left out. *)
(* src: firmware-rp2040/src/main.cpp:337-365 ui *)
Record ui_view := Ui {
  u_t : Z; u_cs : Z; u_pg : Z; u_vi : Z; u_ci : Z; u_cf : Z; u_bp : Z; u_vb : Z; u_vbc : Z;
  u_vs : Z; u_is : Z; u_vr : Z; u_ir : Z;
  u_pd_in_mV : Z; u_pd_in_mA : Z; u_pd_out_mV : Z; u_pd_out_mA : Z; u_vbus_out_ch_mV : Z; u_vsys_mV : Z; u_iin_mA : Z;
  u_temp_lm_dC : Z; u_temp_mp_dC : Z; u_usb_c_attach : Z; u_soc_ch : Z; u_iout_limit_mA : Z;
  u_bv : Z; u_soc : Z
}.

#[export] Instance eta_ui : Eta ui_view := fun u =>
  Ui (u_t u) (u_cs u) (u_pg u) (u_vi u) (u_ci u) (u_cf u) (u_bp u) (u_vb u) (u_vbc u) (u_vs u) (u_is u) (u_vr u) (u_ir u)
    (u_pd_in_mV u) (u_pd_in_mA u) (u_pd_out_mV u) (u_pd_out_mA u) (u_vbus_out_ch_mV u) (u_vsys_mV u) (u_iin_mA u)
    (u_temp_lm_dC u) (u_temp_mp_dC u) (u_usb_c_attach u) (u_soc_ch u) (u_iout_limit_mA u) (u_bv u) (u_soc u).

(** [Last_Pwr_Raw] is the part of the buffer that is in use. *)
(* src: firmware-rp2040/src/main.cpp:324-330 power.status cache *)
Record pwr_cache := PwrCache {
  Last_Power_Status : wups_power_status_v1_t;
  Last_Pwr_V2 : wups_power_status_v2_t;
  Last_Power_Status_Ms : Z;
  Last_Pwr_Raw : list Z;
  newFrameReceived : bool;
  lastFrameTime : Z
}.

#[export] Instance eta_pwr_cache : Eta pwr_cache := fun c =>
  PwrCache (Last_Power_Status c) (Last_Pwr_V2 c) (Last_Power_Status_Ms c) (Last_Pwr_Raw c) (newFrameReceived c) (lastFrameTime c).

(* src: firmware-rp2040/src/main.cpp:917-920 uplink throttle *)
Record uplink := Uplink {
  Last_Telemetry_Uplink_Ms : Z;
  Telemetry_Uplink_Primed : bool;
  Last_Uplink_Pg : bool;
  Last_Uplink_Faults : Z
}.

#[export] Instance eta_uplink : Eta uplink := fun k =>
  Uplink (Last_Telemetry_Uplink_Ms k) (Telemetry_Uplink_Primed k) (Last_Uplink_Pg k) (Last_Uplink_Faults k).

(** The texts are C strings: what is before the terminator. *)
(* src: firmware-rp2040/src/main.cpp:214-223 net alert *)
Record net_alert := NetAlert {
  netAlertText : list Z;
  netAlertActive : bool;
  netAlertBeeped : bool;
  netAlertLastReminder : Z;
  netAlertOnScreen : bool;
  netAlertLastAssertMs : Z;
  netAlertDismissedText : list Z;
  netAlertDismissedAtMs : Z
}.

#[export] Instance eta_net_alert : Eta net_alert := fun a =>
  NetAlert (netAlertText a) (netAlertActive a) (netAlertBeeped a) (netAlertLastReminder a) (netAlertOnScreen a)
    (netAlertLastAssertMs a) (netAlertDismissedText a) (netAlertDismissedAtMs a).

(* src: firmware-rp2040/src/main.cpp:247-251 info notice *)
Record info_notice := Info {
  infoText : list Z;
  infoUntilMs : Z;
  infoOnScreen : bool;
  infoChirpPending : bool
}.

#[export] Instance eta_info : Eta info_notice := fun i =>
  Info (infoText i) (infoUntilMs i) (infoOnScreen i) (infoChirpPending i).

(* src: firmware-rp2040/src/main.cpp:403-411 navigation and menu hand-off *)
Record nav_state := Nav {
  currentScreen : Z;
  lastInteractionTime : Z;
  menu_pending_deadline_ms : Z;
  s_btn_release_guard : bool;
  s_esp32_menu_from_local : bool
}.

#[export] Instance eta_nav : Eta nav_state := fun n =>
  Nav (currentScreen n) (lastInteractionTime n) (menu_pending_deadline_ms n) (s_btn_release_guard n) (s_esp32_menu_from_local n).

(** What a dashboard screen is drawn with, in the order of the calls. *)
Inductive shape :=
  | Item (i : item)
  | Fill_rect (x y w h : Z) (white : bool)
  | Draw_rect (x y w h : Z)
  | Draw_line (x0 y0 x1 y1 : Z)
  | H_line (x y w : Z)
  | V_line (x y h : Z)
  | Pixel (x y : Z).

(** What is done besides sending.  [Reboot n] does not return: what the model does after
    it, or sends after the first [n] writes, does not happen. *)
Inductive effect :=
  | Tone (freq_hz dur_ms : Z)
  | Set_contrast (c : Z)
  | Show_applying
  | Flush (port : Z)
  | Delay (ms : Z)
  | Reboot (sent : nat)
  | No_tone
  | Uart0_reinit
  | Display (screen : list shape).

Section Board.
Context `{L : LittleFS} `{P : Eeprom}.

Record board := Board {
  b_fw : fwu;
  b_cfg : settings;
  b_trust : trust;
  b_menu : menu;
  b_ui : ui_view;
  b_pwr : pwr_cache;
  b_up : uplink;
  b_alert : net_alert;
  b_info : info_notice;
  b_nav : nav_state;
  fx : list effect
}.

#[export] Instance eta_board : Eta board := fun b =>
  Board (b_fw b) (b_cfg b) (b_trust b) (b_menu b) (b_ui b) (b_pwr b) (b_up b) (b_alert b) (b_info b) (b_nav b) (fx b).

Abbreviation hub := (hub board).
Implicit Types (h : hub) (f : frame) (b : board).

Definition on_board (g : board -> board) h : hub := h <| app := g (app h) |>.
Definition emit (l : list effect) h : hub := on_board (fun b => b <| fx := fx b ++ l |>) h.
Definition beep (freq dur : Z) h : hub :=
  emit (map (fun t => Tone t.1 t.2) (ui_settings_beep (b_cfg (app h)) freq dur)) h.

(** The state before [setup]: what the initializers of the globals give. *)
(* src: firmware-rp2040/src/main.cpp:182-412 globals *)
Definition board_boot (fw : fwu) (cfg : settings) : board :=
  Board fw cfg trust_init menu_init
    (Ui 0 0 0 0 0 0 0 0 0 0 0 0 0 0 0 0 0 0 0 0 0 0 0 0 0 0 0)
    (PwrCache zero_v1 zero_v2 0 [] false 0) (Uplink 0 false false 0)
    (NetAlert [] false false 0 false 0 [] 0) (Info [] 0 false false) (Nav SCREEN_HOME 0 0 false false) [].

(** ** Senders *)

(* src: firmware-rp2040/src/main.cpp:926-936 wupsSendLogToHost *)
Definition wupsSendLogToHost (level : Z) (text : list Z) h : hub :=
  wups_send WUPS_PORT_RPI WUPS_ADDR_RPI WUPS_CLASS_SYSTEM WUPS_OP_SYS_LOG WUPS_FLAG_EVENT (fw_log level text) h.

(** [topic] is a string constant. *)
(* src: firmware-rp2040/src/main.cpp:1556-1578 wupsRequestPublish *)
Definition wupsRequestPublish (topic : list Z) (qos retain : Z) (payload : list Z) h : hub :=
  let topic_len := Z.of_nat (length topic) in
  if (topic_len =? 0) || (200 <? topic_len) then h else
  let total := 6 + topic_len + Z.of_nat (length payload) in
  if WUPS_MAX_PAYLOAD <? total then h else
  let hdr := PublishHdr 1 qos retain (u8 topic_len) (Z.of_nat (length payload)) in
  wups_send WUPS_PORT_ESP32 WUPS_ADDR_ESP32 WUPS_CLASS_NET WUPS_OP_NET_PUBLISH WUPS_FLAG_REQ
    (publish_hdr_bytes hdr ++ topic ++ payload) h.

(** The bytes written; none when [out_cap] is too small. *)
(* src: firmware-rp2040/src/main.cpp:1584-1612 wupsBuildFrame *)
Definition wupsBuildFrame (out_cap dst src cls op flags seq : Z) (payload : list Z) : list Z :=
  let payload_len := Z.of_nat (length payload) in
  if out_cap <? WUPS_FRAMING_BYTES + payload_len then [] else
  let body := [dst; src; cls; op; flags; seq; u8 (Z.land payload_len 255); u8 (Z.land (Z.shiftr payload_len 8) 255)] ++ payload in
  let '(a, b) := fold_left fletcher_step body (0, 0) in
  [WUPS_SYNC1; WUPS_SYNC2] ++ body ++ [a; b; WUPS_END1; WUPS_END2].

(* src: firmware-rp2040/src/main.cpp:1619-1627 wupsPublishCmdResponse *)
Definition wupsPublishCmdResponse (cls op seq code : Z) h : hub :=
  let frame := wupsBuildFrame (WUPS_FRAMING_BYTES + 1) WUPS_ADDR_RPI WUPS_ADDR_RP2040 cls op WUPS_FLAG_RESP seq [code] in
  if bool_decide (frame = []) then h else wupsRequestPublish s_cmd_response 1 0 frame h.

(* src: firmware-rp2040/src/main.cpp:1634-1643 wupsPublishTelemetryStatus *)
Definition wupsPublishTelemetryStatus (seq : Z) (payload : list Z) h : hub :=
  let len := Z.of_nat (length payload) in
  if (len =? 0) || (WUPS_MAX_PAYLOAD <? len) then h else
  let frame := wupsBuildFrame (WUPS_FRAMING_BYTES + WUPS_MAX_PAYLOAD) WUPS_ADDR_BROADCAST WUPS_ADDR_CH32X
                 WUPS_CLASS_POWER WUPS_OP_PWR_STATUS WUPS_FLAG_EVENT seq payload in
  if bool_decide (frame = []) then h else wupsRequestPublish s_telemetry 0 0 frame h.

(** [s] is the structure's bytes. *)
(* src: firmware-rp2040/src/main.cpp:1648-1656 wupsPublishHostStatus *)
Definition wupsPublishHostStatus (seq : Z) (s : list Z) h : hub :=
  let frame := wupsBuildFrame (WUPS_FRAMING_BYTES + sizeof_host_status_v1) WUPS_ADDR_BROADCAST WUPS_ADDR_RPI
                 WUPS_CLASS_HOST WUPS_OP_HOST_STATUS WUPS_FLAG_EVENT seq s in
  if bool_decide (frame = []) then h else wupsRequestPublish s_telemetry 0 0 frame h.

(* src: firmware-rp2040/src/main.cpp:1664-1671 wupsPublishEventFrame *)
Definition wupsPublishEventFrame (f : frame) h : hub :=
  let frame := wupsBuildFrame (WUPS_FRAMING_BYTES + 64) (f_dst f) (f_src f) (f_cls f) (f_op f) (f_flags f) (f_seq f) (f_payload f) in
  if bool_decide (frame = []) then h else wupsRequestPublish s_event 1 0 frame h.

(* src: firmware-rp2040/src/main.cpp:1680-1687 wupsPublishCmdResponseFrame *)
Definition wupsPublishCmdResponseFrame (f : frame) h : hub :=
  let frame := wupsBuildFrame (WUPS_FRAMING_BYTES + 64) (f_dst f) (f_src f) (f_cls f) (f_op f) (f_flags f) (f_seq f) (f_payload f) in
  if bool_decide (frame = []) then h else wupsRequestPublish s_cmd_response 1 0 frame h.

(* src: firmware-rp2040/src/main.cpp:1690-1709 wupsSendHelloBcast *)
Definition wupsSendHelloBcast h : hub :=
  let pl := hello_bytes (Hello 1 WUPS_PROTO_VERSION WUPS_ADDR_RP2040 0 FW_VERSION_U16 (Z.lor WUPS_CAP_SYSTEM WUPS_CAP_UI) 0) in
  let h := wups_send WUPS_PORT_RPI WUPS_ADDR_BROADCAST WUPS_CLASS_SYSTEM WUPS_OP_SYS_HELLO WUPS_FLAG_EVENT pl h in
  let h := wups_send WUPS_PORT_CH32X WUPS_ADDR_BROADCAST WUPS_CLASS_SYSTEM WUPS_OP_SYS_HELLO WUPS_FLAG_EVENT pl h in
  wups_send WUPS_PORT_ESP32 WUPS_ADDR_BROADCAST WUPS_CLASS_SYSTEM WUPS_OP_SYS_HELLO WUPS_FLAG_EVENT pl h.

(** The port on which a node that asked is answered. *)
(* src: firmware-rp2040/src/main.cpp:1246-1249 wups_on_local_frame (out_port) *)
Definition out_port (src : Z) : Z :=
  if src =? WUPS_ADDR_RPI then WUPS_PORT_RPI
  else if src =? WUPS_ADDR_ESP32 then WUPS_PORT_ESP32
  else if src =? WUPS_ADDR_CH32X then WUPS_PORT_CH32X
  else WUPS_PORT_NONE.

Definition answer (f : frame) (payload : list Z) h : hub :=
  if negb (out_port (f_src f) =? WUPS_PORT_NONE)
  then wups_send_seq (out_port (f_src f)) (f_src f) (f_cls f) (f_op f) WUPS_FLAG_RESP (f_seq f) payload h
  else h.

(** ** power.status *)

(* src: firmware-rp2040/src/main.cpp:425-435 lut *)
Definition soc_lut : list (Z * Z) :=
  [(4000, 100); (3900, 88); (3800, 75); (3700, 60); (3600, 40); (3500, 22); (3400, 10); (3300, 4); (3200, 0)].

(** The segments of the table, in order. *)
(* src: firmware-rp2040/src/main.cpp:446-454 voltageToSoc (loop) *)
Fixpoint soc_segment (cellV : Z) (lut : list (Z * Z)) : Z :=
  match lut with
  | (v1, s1) :: (((v2, s2) :: _) as lut') =>
      if (cellV <=? v1) && (v2 <? cellV) then s1 + Z.quot ((cellV - v1) * (s2 - s1)) (v2 - v1) else soc_segment cellV lut'
  | _ => 0
  end.

(* src: firmware-rp2040/src/main.cpp:421-455 voltageToSoc *)
Definition voltageToSoc (bv_mV : Z) : Z :=
  let cellV := Z.quot bv_mV 2 in
  if 4000 <=? cellV then 100 else if cellV <=? 3200 then 0 else soc_segment cellV soc_lut.

(* src: firmware-rp2040/src/main.cpp:986-1024 wups_on_local_frame (power.status v2) *)
Definition project_v2 (s2 : wups_power_status_v2_t) (u : ui_view) : ui_view :=
  u <| u_t := if v2_temp_mp_dC s2 =? -32768 then v2_temp_lm_dC s2 else Z.max (v2_temp_mp_dC s2) (v2_temp_lm_dC s2) |>
    <| u_cs := v2_charge_state s2 |>
    <| u_pg := b2z (5000 <? v2_vbus_in_mV s2) |>
    <| u_vi := v2_vbus_in_mV s2 |> <| u_ci := v2_ichg_mA s2 |> <| u_cf := v2_faults s2 |>
    <| u_bp := b2z (has (v2_flags s2) WUPS_PWR2_FLAG_BATT_PRESENT) |>
    <| u_vb := v2_vbat_mV s2 |> <| u_vbc := v2_vbat_mV s2 |>
    <| u_vr := v2_vout_read_mV s2 / 100 |> <| u_ir := v2_iout_limit_mA s2 / 100 |>
    <| u_vs := v2_vout_set_mV s2 / 100 |> <| u_is := v2_iout_limit_mA s2 / 100 |>
    <| u_pd_in_mV := v2_pd_in_mV s2 |> <| u_pd_in_mA := v2_pd_in_mA s2 |>
    <| u_pd_out_mV := v2_pd_out_mV s2 |> <| u_pd_out_mA := v2_pd_out_mA s2 |>
    <| u_vbus_out_ch_mV := v2_vbus_out_mV s2 |> <| u_vsys_mV := v2_vsys_mV s2 |> <| u_iin_mA := v2_iin_mA s2 |>
    <| u_temp_lm_dC := v2_temp_lm_dC s2 |> <| u_temp_mp_dC := v2_temp_mp_dC s2 |>
    <| u_usb_c_attach := b2z (has (v2_flags s2) WUPS_PWR2_FLAG_USB_C_ATTACH) |>
    <| u_iout_limit_mA := v2_iout_limit_mA s2 |>
    <| u_soc_ch := voltageToSoc (v2_vbat_mV s2) |>.

(* src: firmware-rp2040/src/main.cpp:1025-1049 wups_on_local_frame (power.status v1) *)
Definition project_v1 (s : wups_power_status_v1_t) (u : ui_view) : ui_view :=
  u <| u_t := v1_temp_dC s |> <| u_cs := v1_charge_state s |>
    <| u_pg := b2z (5000 <? v1_vbus_in_mV s) |>
    <| u_vi := v1_vbus_in_mV s |> <| u_ci := v1_ibat_mA s |> <| u_cf := v1_faults s |>
    <| u_bp := b2z (100 <? v1_vbat_mV s) |>
    <| u_vb := v1_vbat_mV s |> <| u_vbc := v1_vbat_mV s |>
    <| u_vs := v1_pd_contract_mV s / 100 |> <| u_is := v1_pd_contract_mA s / 100 |>
    <| u_vr := v1_vbus_out_mV s / 100 |> <| u_ir := Z.quot (v1_ibus_out_mA s) 100 |>.

(** The snapshot, the input state and the faults; [None] for a version or a length that is
    not known. *)
(* src: firmware-rp2040/src/main.cpp:979-1052 wups_on_local_frame (decoding) *)
Definition decode_power (payload : list Z) b : option (board * bool * Z) :=
  let pwrVersion := byte_at payload 0 in
  let len := Z.of_nat (length payload) in
  if (pwrVersion =? 2) && (40 <=? len) then
    let s2 := read_v2 payload in
    Some (b <| b_pwr := b_pwr b <| Last_Pwr_V2 := s2 |> |> <| b_ui := project_v2 s2 (b_ui b) |>,
          5000 <? v2_vbus_in_mV s2, v2_faults s2)
  else if (pwrVersion =? 1) && (20 <=? len) then
    let s := read_v1 payload in
    Some (b <| b_pwr := b_pwr b <| Last_Power_Status := s |> |> <| b_ui := project_v1 s (b_ui b) |>,
          5000 <? v1_vbus_in_mV s, v1_faults s)
  else None.

(* src: firmware-rp2040/src/main.cpp:1133-1143 wups_on_local_frame (publishNow) *)
Definition publish_now (now : Z) (pg : bool) (faults : Z) (k : uplink) : bool :=
  if negb (Telemetry_Uplink_Primed k) then true
  else if negb (eqb pg (Last_Uplink_Pg k)) || negb (faults =? Last_Uplink_Faults k) then true
  else TELEMETRY_UPLINK_INTERVAL_MS <=? u32 (now - Last_Telemetry_Uplink_Ms k).

(* src: firmware-rp2040/src/main.cpp:979-1153 wups_on_local_frame (power.status) *)
Definition on_power_status (now : Z) (f : frame) h : hub :=
  match decode_power (f_payload f) (app h) with
  | None => h
  | Some (b, pgNow, faultsNow) =>
      let c := b_pwr b in
      let c := if frame_len f <=? WUPS_MAX_PAYLOAD then c <| Last_Pwr_Raw := f_payload f |> else c in
      let c := c <| Last_Power_Status_Ms := now |> <| newFrameReceived := true |> <| lastFrameTime := now |> in
      let h := h <| app := b <| b_pwr := c |> |> in
      let h := wups_send_with_src WUPS_PORT_RPI WUPS_ADDR_RPI WUPS_ADDR_CH32X WUPS_CLASS_POWER WUPS_OP_PWR_STATUS
                 WUPS_FLAG_EVENT (f_seq f) (f_payload f) h in
      if publish_now now pgNow faultsNow (b_up b) then
        let h := wupsPublishTelemetryStatus (f_seq f) (f_payload f) h in
        on_board (fun b => b <| b_up := Uplink now true pgNow faultsNow |>) h
      else h
  end.

(** ** net.downlink *)

(** The frame carried by an MQTT message, when it is complete and its checksum holds. *)
(* src: firmware-rp2040/src/main.cpp:1165-1197 wups_on_local_frame (net.downlink) *)
Definition downlink_inner (payload : list Z) : option frame :=
  let len := Z.of_nat (length payload) in
  let version := byte_at payload 0 in
  let topic_len := byte_at payload 3 in
  let inner_pl_len := le_val (field 4 2 payload) in
  if negb (version =? 1) then None
  else if len <? 6 + topic_len + inner_pl_len then None else
  let inner := drop (6 + Z.to_nat topic_len) payload in
  let at_ := fun i : Z => byte_at inner (Z.to_nat i) in
  if inner_pl_len <? WUPS_FRAMING_BYTES then None
  else if negb (at_ 0 =? WUPS_SYNC1) || negb (at_ 1 =? WUPS_SYNC2) then None else
  let inner_len := Z.lor (at_ 8) (u16 (Z.shiftl (at_ 9) 8)) in
  if WUPS_MAX_PAYLOAD <? inner_len then None
  else if negb (WUPS_FRAMING_BYTES + inner_len =? inner_pl_len) then None
  else if negb (at_ (WUPS_HEADER_BYTES + inner_len + 2) =? WUPS_END1) then None
  else if negb (at_ (WUPS_HEADER_BYTES + inner_len + 3) =? WUPS_END2) then None else
  let '(a, b) := fold_left fletcher_step (field 2 (Z.to_nat (8 + inner_len)) inner) (0, 0) in
  if negb (a =? at_ (WUPS_HEADER_BYTES + inner_len)) || negb (b =? at_ (WUPS_HEADER_BYTES + inner_len + 1)) then None
  else Some (Frame (at_ 2) (at_ 3) (at_ 4) (at_ 5) (at_ 6) (at_ 7) (field 10 (Z.to_nat inner_len) inner)).

(** ** net.fw_xfer *)

(** [xip] is the running image, of which a committed session takes a snapshot. *)
Context (xip : list Z).

(** [local_menu_close]. *)
Definition close_menu h : hub :=
  let '(u, m) := local_menu_close (b_cfg (app h)) (b_menu (app h)) in
  on_board (fun b => b <| b_cfg := u |> <| b_menu := m |>) h.

(** The frames the update module sends to the host. *)
Definition send_logs (logs : list (list Z)) h : hub :=
  fold_left (fun h pl => wups_send WUPS_PORT_RPI WUPS_ADDR_RPI WUPS_CLASS_SYSTEM WUPS_OP_SYS_LOG WUPS_FLAG_EVENT pl h) logs h.

(* src: firmware-rp2040/src/main.cpp:1223-1265 wups_on_local_frame (fw_xfer) *)
Definition on_xfer (now : Z) (f : frame) h : hub :=
  let h := if f_op f =? WUPS_OP_NET_FW_XFER_BEGIN then if local_menu_active (b_menu (app h)) then close_menu h else h
           else if f_op f =? WUPS_OP_NET_FW_XFER_DATA then h
           else if (2 <=? frame_len f) && (byte_at (f_payload f) 1 =? 1) then emit [Show_applying] h else h in
  let '(fw, logs, result, reboot_after) := on_fw_xfer xip (b_fw (app h)) (f_op f) (f_payload f) now in
  let h := send_logs logs (on_board (fun b => b <| b_fw := fw |>) h) in
  let h := answer f [result] h in
  if reboot_after then
    let h := if out_port (f_src f) =? WUPS_PORT_RPI then emit [Flush WUPS_PORT_RPI] h else h in
    let h := if out_port (f_src f) =? WUPS_PORT_ESP32 then emit [Flush WUPS_PORT_ESP32] h else h in
    emit [Delay 200; Reboot (length (written h))] h
  else h.

(** ** The display *)

(* src: firmware-rp2040/src/main.cpp:1338-1350 wups_on_local_frame (hello) *)
Definition on_esp32_hello (now : Z) h : hub :=
  on_board (fun b =>
    let b := if trust_ui_active (b_trust b) then b <| b_trust := trust_ui_force_close (b_trust b) |> else b in
    b <| b_nav := b_nav b <| currentScreen := 0 |> <| lastInteractionTime := now |> |>
      <| b_alert := b_alert b <| netAlertActive := false |> <| netAlertDismissedText := [] |> <| netAlertDismissedAtMs := 0 |> |>
      <| b_info := b_info b <| infoText := [] |> <| infoUntilMs := 0 |> <| infoChirpPending := false |> |>) h.

(* src: common/protocol.h:596-599 wups_ui_set_screen_v1_t *)
Definition sizeof_set_screen : Z := 2.

(* src: firmware-rp2040/src/main.cpp:1359-1385 wups_on_local_frame (set_screen) *)
Definition on_set_screen (now : Z) (f : frame) h : hub :=
  let version := byte_at (f_payload f) 0 in
  let screen := byte_at (f_payload f) 1 in
  if (version =? 1) && (screen <? SCREEN_COUNT) then
    let from_local := s_esp32_menu_from_local (b_nav (app h)) in
    on_board (fun b =>
      let b := b <| b_nav := b_nav b <| s_esp32_menu_from_local := false |> |> in
      if from_local && (screen =? 0) then
        b <| b_trust := trust_ui_force_close (b_trust b) |> <| b_menu := local_menu_open now (b_menu b) |>
      else
        b <| b_nav := b_nav b <| currentScreen := screen |> <| lastInteractionTime := now |> |>
          <| b_trust := trust_ui_force_close (b_trust b) |>) h
  else h.

(* src: common/protocol.h:602-607 wups_ui_beep_v1_t *)
Definition sizeof_ui_beep : Z := 6.

(* src: firmware-rp2040/src/main.cpp:1394-1420 wups_on_local_frame (beep) *)
Definition on_beep (f : frame) h : hub :=
  let freq_hz := le_val (field 2 2 (f_payload f)) in
  let dur_ms := le_val (field 4 2 (f_payload f)) in
  let h := if byte_at (f_payload f) 0 =? 1 then
             let freq := if negb (freq_hz =? 0) then freq_hz else 1500 in
             let dur := if negb (dur_ms =? 0) then dur_ms else 150 in
             let dur := if 5000 <? dur then 5000 else dur in
             beep freq dur h
           else h in
  wupsPublishCmdResponse (f_cls f) (f_op f) (f_seq f) 0 (answer f [] h).

(* src: firmware-rp2040/src/main.cpp:1425-1430 wups_on_local_frame (local_reset) *)
Definition on_local_reset h : hub :=
  let h := on_board (fun b => b <| b_cfg := ui_settings_reset_defaults (b_cfg b) |>) h in
  let h := emit [Set_contrast (ui_settings_brightness_contrast (b_cfg (app h)))] h in
  beep 1500 40 h.

(* src: common/protocol.h:629-635 wups_ui_display_msg_v1_hdr_t *)
Definition sizeof_display_msg_hdr : Z := 4.

(** The texts are arrays of 41 and 24 characters with a terminator. *)
(* src: firmware-rp2040/src/main.cpp:1446-1468 wups_on_local_frame (info notice) *)
Definition raise_info (now : Z) (text : list Z) (i : info_notice) : info_notice :=
  let text := take 40 text in
  let tl := Z.of_nat (length text) in
  if tl =? 0 then i <| infoText := [] |> <| infoUntilMs := 0 |> <| infoChirpPending := false |>
  else
    let same := negb (bool_decide (infoText i = [])) && (Z.of_nat (length (infoText i)) =? tl) && bool_decide (infoText i = text) in
    i <| infoText := cstr text |> <| infoUntilMs := u32 (now + INFO_TTL_MS) |>
      <| infoChirpPending := infoChirpPending i || negb same |>.

(* src: firmware-rp2040/src/main.cpp:1469-1495 wups_on_local_frame (modem alert) *)
Definition raise_alert (now : Z) (text : list Z) (a : net_alert) : net_alert :=
  let text := take 23 text in
  if Z.of_nat (length text) =? 0 then
    a <| netAlertActive := false |> <| netAlertText := [] |> <| netAlertDismissedText := [] |> <| netAlertDismissedAtMs := 0 |>
  else
    let text := cstr text in
    let a := a <| netAlertLastAssertMs := now |> in
    let dismissed := negb (bool_decide (netAlertDismissedText a = [])) && bool_decide (text = netAlertDismissedText a) &&
                     (u32 (now - netAlertDismissedAtMs a) <? ALERT_DISMISS_COOLDOWN_MS) in
    if negb dismissed then
      a <| netAlertDismissedText := [] |> <| netAlertDismissedAtMs := 0 |> <| netAlertText := text |>
        <| netAlertBeeped := if negb (netAlertActive a) then false else netAlertBeeped a |> <| netAlertActive := true |>
    else a.

(* src: firmware-rp2040/src/main.cpp:1439-1498 wups_on_local_frame (display_msg) *)
Definition on_display_msg (now : Z) (f : frame) h : hub :=
  if byte_at (f_payload f) 0 =? 1 then
    let avail := u8 (frame_len f - sizeof_display_msg_hdr) in
    let text_len := byte_at (f_payload f) 2 in
    let tl := if text_len <? avail then text_len else avail in
    let text := field 4 (Z.to_nat tl) (f_payload f) in
    if negb (f_src f =? WUPS_ADDR_ESP32)
    then on_board (fun b => b <| b_info := raise_info now text (b_info b) |>) h
    else on_board (fun b => b <| b_alert := raise_alert now text (b_alert b) |>) h
  else h.

(* src: firmware-rp2040/src/main.cpp:1502-1522 wups_on_local_frame (ping) *)
Definition on_ping (now : Z) (f : frame) h : hub :=
  answer f (pong_bytes (Pong 1 0 FW_VERSION_U16 now) ++ FW_VERSION_STR) h.

(** ** The handler *)

Definition is_class (cls op : Z) (f : frame) : bool := (f_cls f =? cls) && (f_op f =? op).
Definition is_req (f : frame) : bool := has (f_flags f) WUPS_FLAG_REQ.
Definition is_event (f : frame) : bool := has (f_flags f) WUPS_FLAG_EVENT.

(** The environment of a frame is the clock. *)
(* src: firmware-rp2040/src/main.cpp:938-1541 wups_on_local_frame *)
Definition wups_on_local_frame (now : Z) (wups_route_frame : Z -> frame -> hub -> hub)
    (inbound_port : Z) (f : frame) (h : hub) : hub :=
  let '(fw, logs) := fw_update_note_frame_ok (b_fw (app h)) in
  let h := send_logs logs (on_board (fun b => b <| b_fw := fw |>) h) in
  if (inbound_port =? WUPS_PORT_RPI) && has (f_flags f) WUPS_FLAG_RESP && (f_cls f =? WUPS_CLASS_HOST)
  then wupsPublishCmdResponseFrame f h
  else if is_event f && negb (inbound_port =? WUPS_PORT_ESP32) &&
          (is_class WUPS_CLASS_POWER WUPS_OP_PWR_EVENT f || is_class WUPS_CLASS_HOST WUPS_OP_HOST_EVENT f)
  then wupsPublishEventFrame f h
  else if is_class WUPS_CLASS_POWER WUPS_OP_PWR_STATUS f && (f_src f =? WUPS_ADDR_CH32X) && (1 <=? frame_len f)
  then on_power_status now f h
  else if is_class WUPS_CLASS_NET WUPS_OP_NET_DOWNLINK f && is_event f && (6 <=? frame_len f)
  then match downlink_inner (f_payload f) with Some ifr => wups_route_frame inbound_port ifr h | None => h end
  else if is_fw_xfer f then on_xfer now f h
  else if is_class WUPS_CLASS_SYSTEM WUPS_OP_SYS_LOG f && (4 <=? frame_len f) then h
  else if is_class WUPS_CLASS_POWER WUPS_OP_PWR_STATUS f && is_req f then
    let c := b_pwr (app h) in
    let h := if negb (Last_Power_Status_Ms c =? 0) && negb (Z.of_nat (length (Last_Pwr_Raw c)) =? 0)
             then wupsPublishTelemetryStatus (f_seq f) (Last_Pwr_Raw c) h else h in
    wupsPublishCmdResponse (f_cls f) (f_op f) (f_seq f) 0 h
  else if (f_cls f =? WUPS_CLASS_POWER) && is_req f &&
          ((f_op f =? WUPS_OP_PWR_ENABLE) || (f_op f =? WUPS_OP_PWR_DISABLE) ||
           (f_op f =? WUPS_OP_PWR_CYCLE) || (f_op f =? WUPS_OP_PWR_RESET))
  then wupsPublishCmdResponse (f_cls f) (f_op f) (f_seq f) 0 h
  else if is_class WUPS_CLASS_UI WUPS_OP_UI_TRUST_PROMPT f && is_req f then
    let h := if local_menu_active (b_menu (app h)) then close_menu h else h in
    on_board (fun b => b <| b_trust := trust_ui_on_prompt (f_payload f) (f_seq f) now (b_trust b) |>) h
  else if is_class WUPS_CLASS_SYSTEM WUPS_OP_SYS_HELLO f && (f_src f =? WUPS_ADDR_ESP32) then on_esp32_hello now h
  else if is_class WUPS_CLASS_UI WUPS_OP_UI_SET_SCREEN f && (sizeof_set_screen <=? frame_len f) then on_set_screen now f h
  else if is_class WUPS_CLASS_UI WUPS_OP_UI_BEEP f && is_req f && (sizeof_ui_beep <=? frame_len f) then on_beep f h
  else if is_class WUPS_CLASS_UI WUPS_OP_UI_LOCAL_RESET f then on_local_reset h
  else if is_class WUPS_CLASS_UI WUPS_OP_UI_DISPLAY_MSG f && (sizeof_display_msg_hdr <=? frame_len f)
  then on_display_msg now f h
  else if is_class WUPS_CLASS_SYSTEM WUPS_OP_SYS_PING f && is_req f then on_ping now f h
  else if is_class WUPS_CLASS_HOST WUPS_OP_HOST_STATUS f && (f_src f =? WUPS_ADDR_RPI) &&
          (sizeof_host_status_v1 <=? frame_len f)
  then if negb (byte_at (f_payload f) 0 =? 1) then h
       else wupsPublishHostStatus (f_seq f) (take (Z.to_nat sizeof_host_status_v1) (f_payload f)) h
  else h.
End Board.

#[global] Arguments wupsSendLogToHost : simpl never.
