(* ===== verification/HubCommands.v ===== *)
(** * Frames and commands through the hub

    What the local handler of [HubDispatch] guarantees: frames carried by net.downlink are
    routed as if they had arrived themselves, the nesting of such frames ends, and a
    panel's power command travels from the MQTT message to the power controller while its
    acknowledgement travels back. *)

From S2P Require Import Prelude Protocol Deframer CmdAuth EspDispatch EspLink PowerStatus Sha256 FwXfer FwUpdate FwInstall Router UiSettings TrustUi LocalMenu HubDispatch.

(** ** The frame inside net.downlink *)

(** The frame a valid byte string is. *)
Definition frame_of (l : list Z) : frame :=
  Frame (byte_at l 2) (byte_at l 3) (byte_at l 4) (byte_at l 5) (byte_at l 6) (byte_at l 7) (field 10 (length l - 14) l).

Section Inner.
Implicit Types (f : frame) (l : list Z).

Lemma byte_at_app_l (l1 l2 : list Z) i : (i < length l1)%nat -> byte_at (l1 ++ l2) i = byte_at l1 i.
Proof. intros; unfold byte_at; apply app_nth1; done. Qed.

Lemma field_app_l (l1 l2 : list Z) o n : (o + n <= length l1)%nat -> field o n (l1 ++ l2) = field o n l1.
Proof. intros; unfold field; rewrite drop_app_le by lia; rewrite take_app_le; [done|rewrite length_drop; lia]. Qed.

Lemma frame_of_bytes f : frame_wf f -> frame_of (frame_bytes f) = f.
Proof.
  intros (_ & _ & Hl); unfold frame_of; rewrite frame_bytes_framed, framed_length.
  replace (14 + length (f_payload f) - 14)%nat with (length (f_payload f)) by lia.
  unfold framed; rewrite (field_app_exact _ (f_payload f)) by done; destruct f; done.
Qed.

Lemma frame_bytes_u8 f : frame_wf f -> all_u8 (frame_bytes f).
Proof.
  intros (Hi & Hp & _); unfold frame_bytes, frame_body; rewrite !all_u8_app; destruct (wups_fletcher8_range (frame_ids f ++ le16 (frame_len f) ++ f_payload f)).
  split_and!; try done; [|apply le_bytes_u8|]; repeat (apply Forall_cons_2; [try done; vm_compute; split; congruence|]); apply Forall_nil_2.
Qed.

(** The checks on [inner] are those of a complete frame of exactly [length body] bytes. *)
Lemma inner_checks body rest :
  all_u8 body -> (14 <= length body)%nat ->
  let inner := body ++ rest in
  let at_ := fun i : Z => byte_at inner (Z.to_nat i) in
  let inner_len := Z.lor (at_ 8) (u16 (Z.shiftl (at_ 9) 8)) in
  let ck := fold_left fletcher_step (field 2 (Z.to_nat (8 + inner_len)) inner) (0, 0) in
  mqtt_wups_frame_valid body =
  negb (negb (at_ 0 =? WUPS_SYNC1) || negb (at_ 1 =? WUPS_SYNC2)) && negb (WUPS_MAX_PAYLOAD <? inner_len) &&
  negb (negb (WUPS_FRAMING_BYTES + inner_len =? Z.of_nat (length body))) &&
  negb (negb (at_ (WUPS_HEADER_BYTES + inner_len + 2) =? WUPS_END1)) &&
  negb (negb (at_ (WUPS_HEADER_BYTES + inner_len + 3) =? WUPS_END2)) &&
  negb (negb (ck.1 =? at_ (WUPS_HEADER_BYTES + inner_len)) || negb (ck.2 =? at_ (WUPS_HEADER_BYTES + inner_len + 1))).
Proof.
  intros Hu Hn inner at_ inner_len ck; destruct (framed_split body Hn) as (h0&h1&d&s&c&o&fl&sq&lo&hi&p&ka&kb&e1&e2&E).
  assert (Hlohi : is_u8 lo /\ is_u8 hi).
  { rewrite E in Hu; unfold framed in Hu; apply all_u8_app in Hu as (Hh & _); unfold all_u8 in Hh; rewrite !Forall_cons in Hh; tauto. }
  pose proof (framed_valid h0 h1 d s c o fl sq lo hi p ka kb e1 e2 (proj1 Hlohi) (proj2 Hlohi)) as HV; rewrite <- E in HV.
  assert (Hlen : length body = (14 + length p)%nat) by (rewrite E; apply framed_length).
  assert (Hat : forall i, (i < length body)%nat -> byte_at inner i = byte_at body i) by (intros; apply byte_at_app_l; done).
  assert (H0 : at_ 0 = h0) by (unfold at_; rewrite Hat by (cbn; lia); rewrite E; done).
  assert (H1 : at_ 1 = h1) by (unfold at_; rewrite Hat by (cbn; lia); rewrite E; done).
  assert (H8 : inner_len = lo + 256 * hi).
  { unfold inner_len, at_; rewrite !Hat by (cbn; lia); rewrite E; change (byte_at _ (Z.to_nat 8)) with lo; change (byte_at _ (Z.to_nat 9)) with hi.
    rewrite u16_small by (rewrite Z.shiftl_mul_pow2; lia); rewrite lor_shiftl by lia; lia. }
  assert (Hgo : inner_len = Z.of_nat (length p) ->
    at_ (WUPS_HEADER_BYTES + inner_len) = ka /\ at_ (WUPS_HEADER_BYTES + inner_len + 1) = kb /\
    at_ (WUPS_HEADER_BYTES + inner_len + 2) = e1 /\ at_ (WUPS_HEADER_BYTES + inner_len + 3) = e2 /\
    ck = wups_fletcher8 ([d; s; c; o; fl; sq; lo; hi] ++ p)).
  { intros HL; unfold WUPS_HEADER_BYTES.
    assert (Htr : forall j : nat, (j < 4)%nat -> at_ (10 + inner_len + Z.of_nat j) = byte_at [ka; kb; e1; e2] j).
    { intros j Hj; unfold at_; rewrite Hat by lia; rewrite E; rewrite <- (framed_trailer h0 h1 d s c o fl sq lo hi p); f_equal; lia. }
    pose proof (Htr 0%nat ltac:(lia)) as T0; rewrite Z.add_0_r in T0.
    split_and!; [exact T0|apply (Htr 1%nat); lia|apply (Htr 2%nat); lia|apply (Htr 3%nat); lia|].
    unfold ck; replace (Z.to_nat (8 + inner_len)) with (8 + length p)%nat by lia; unfold inner; rewrite field_app_l by lia.
    rewrite E, framed_covered; done. }
  clearbody ck inner_len at_; unfold WUPS_FRAMING_BYTES, WUPS_TRAILER_BYTES; unfold WUPS_HEADER_BYTES in *.
  destruct (mqtt_wups_frame_valid body) eqn:Ev; symmetry.
  - destruct (proj1 HV eq_refl) as (E0 & E1 & E2 & E3 & Hl & Hm & Hck); destruct (Hgo ltac:(lia)) as (-> & -> & -> & -> & ->).
    rewrite <- Hck, H0, H1, E0, E1, E2, E3, !Z.eqb_refl; cbn [fst snd negb orb andb]; rewrite ?Z.eqb_refl, (proj2 (Z.ltb_ge _ _)) by lia.
    rewrite (proj2 (Z.eqb_eq _ _)) by lia; done.
  - apply not_true_iff_false; intros Hv; enough (false = true) by done; apply HV.
    repeat (apply andb_true_iff in Hv as [Hv ?]); repeat match goal with H : negb _ = true |- _ => apply negb_true_iff in H end; to_prop.
    destruct (Hgo ltac:(lia)) as (G1 & G2 & G3 & G4 & <-); rewrite (surjective_pairing ck); split_and!; try congruence; lia.
Qed.

(** Unwrapping: exactly the complete valid frames. *)
Lemma downlink_inner_spec payload :
  all_u8 payload ->
  downlink_inner payload =
  let tl := Z.to_nat (byte_at payload 3) in
  let n := Z.to_nat (le_val (field 4 2 payload)) in
  let body := field (6 + tl) n payload in
  if (byte_at payload 0 =? 1) && (6 + tl + n <=? length payload)%nat && mqtt_wups_frame_valid body then Some (frame_of body) else None.
Proof.
  intros Hu; unfold downlink_inner; cbv zeta.
  pose proof (all_u8_byte_at payload Hu 3) as H3.
  assert (Hf : 0 <= le_val (field 4 2 payload)).
  { pose proof (le_val_range (field 4 2 payload)) as HR; destruct HR; [|lia]; unfold field; apply all_u8_take; apply Forall_drop, Hu. }
  destruct (byte_at payload 0 =? 1); cbn [negb andb]; [|done].
  set (tl := Z.to_nat (byte_at payload 3)); set (n := Z.to_nat (le_val (field 4 2 payload))).
  destruct (Z.ltb_spec (Z.of_nat (length payload)) (6 + byte_at payload 3 + le_val (field 4 2 payload))) as [Hs|Hs].
  { rewrite (proj2 (Nat.leb_gt _ _)) by lia; done. }
  rewrite (proj2 (Nat.leb_le _ _)) by lia; cbn [andb].
  set (body := field (6 + tl) n payload); set (rest := drop n (drop (6 + tl) payload)).
  assert (Einner : drop (6 + tl) payload = body ++ rest) by (unfold body, rest, field; rewrite take_drop; done).
  assert (Hbl : length body = n) by (unfold body, field; rewrite length_take, length_drop; lia).
  assert (Hbu : all_u8 body) by (unfold body, field; apply all_u8_take, Forall_drop, Hu).
  rewrite Einner; clearbody body rest.
  destruct (Z.ltb_spec (le_val (field 4 2 payload)) WUPS_FRAMING_BYTES) as [Hn|Hn].
  { unfold mqtt_wups_frame_valid; rewrite (proj2 (Z.ltb_lt _ _)) by (rewrite Hbl; unfold n; lia); done. }
  unfold WUPS_FRAMING_BYTES, WUPS_HEADER_BYTES, WUPS_TRAILER_BYTES in Hn.
  rewrite (inner_checks body rest Hbu) by lia; cbv zeta.
  replace (Z.of_nat (length body)) with (le_val (field 4 2 payload)) by lia.
  set (at_ := fun i : Z => byte_at (body ++ rest) (Z.to_nat i)).
  set (il := Z.lor (byte_at (body ++ rest) (Z.to_nat 8)) (u16 (Z.shiftl (byte_at (body ++ rest) (Z.to_nat 9)) 8))).
  destruct (negb _ || negb _); cbn [negb andb]; [done|]; destruct (WUPS_MAX_PAYLOAD <? il); cbn [negb andb]; [done|].
  destruct (Z.eqb_spec (WUPS_FRAMING_BYTES + il) (le_val (field 4 2 payload))) as [El|]; cbn [negb andb]; [|done].
  destruct (_ =? WUPS_END1); cbn [negb andb]; [|done]; destruct (_ =? WUPS_END2); cbn [negb andb]; [|done].
  destruct (fold_left _ _ _) as [a b]; cbn [fst snd]; destruct (negb _ || negb _); cbn [negb]; [done|].
  unfold WUPS_FRAMING_BYTES, WUPS_HEADER_BYTES, WUPS_TRAILER_BYTES in El.
  f_equal; unfold frame_of; rewrite field_app_l by lia; rewrite !byte_at_app_l by (cbn; lia); do 2 f_equal; lia.
Qed.
End Inner.

(** ** What the handler leaves alone, and what it sends *)

Section Handler.
Context `{L : LittleFS} `{P : Eeprom} (xip : list Z).
Abbreviation hub := (hub board).
Abbreviation on_local := (wups_on_local_frame xip).
Implicit Types (h : hub) (f : frame) (p : Z).

(** The deframers and the wiring. *)
Definition same_ports h h' : Prop :=
  streams h' = streams h /\ port_rx h' = port_rx h /\ port_last_rx_ms h' = port_last_rx_ms h.

Lemma same_ports_refl h : same_ports h h.
Proof. done. Qed.
Lemma same_ports_trans h1 h2 h3 : same_ports h1 h2 -> same_ports h2 h3 -> same_ports h1 h3.
Proof. unfold same_ports; intuition congruence. Qed.

Lemma send_with_src_ports port dst src cls op flags seq pl h :
  same_ports h (wups_send_with_src port dst src cls op flags seq pl h) /\
  app (wups_send_with_src port dst src cls op flags seq pl h) = app h.
Proof. unfold wups_send_with_src; repeat case_match; done. Qed.

Lemma send_ports port dst cls op flags pl h :
  same_ports h (wups_send port dst cls op flags pl h) /\ app (wups_send port dst cls op flags pl h) = app h.
Proof. unfold wups_send; destruct (send_with_src_ports port dst WUPS_ADDR_RP2040 cls op flags (tx_seq h) pl (h <| tx_seq := u8 (tx_seq h + 1) |>)); done. Qed.

Lemma publish_ports topic qos retain pl h :
  same_ports h (wupsRequestPublish topic qos retain pl h) /\ app (wupsRequestPublish topic qos retain pl h) = app h.
Proof. unfold wupsRequestPublish; repeat case_match; try (split; [apply same_ports_refl|done]); apply send_ports. Qed.

Lemma emit_forward_ports p f h : same_ports h (emit_forward p f h) /\ app (emit_forward p f h) = app h.
Proof.
  unfold emit_forward; destruct (_ || _); [done|]; destruct (negb _); [done|].
  destruct (send_with_src_ports p (f_dst f) (f_src f) (f_cls f) (f_op f) (f_flags f) (f_seq f) (f_payload f) h); done.
Qed.

Lemma send_logs_ports logs h : same_ports h (send_logs logs h) /\ app (send_logs logs h) = app h.
Proof.
  unfold send_logs; revert h; induction logs as [|pl logs IH]; intros h; [done|]; cbn [fold_left].
  destruct (IH (wups_send WUPS_PORT_RPI WUPS_ADDR_RPI WUPS_CLASS_SYSTEM WUPS_OP_SYS_LOG WUPS_FLAG_EVENT pl h)) as [H1 H2].
  destruct (send_ports WUPS_PORT_RPI WUPS_ADDR_RPI WUPS_CLASS_SYSTEM WUPS_OP_SYS_LOG WUPS_FLAG_EVENT pl h) as [H3 H4].
  split; [eapply same_ports_trans; eauto|congruence].
Qed.

Lemma answer_ports f pl h : same_ports h (answer f pl h) /\ app (answer f pl h) = app h.
Proof. unfold answer, wups_send_seq; destruct (negb _); [apply send_with_src_ports|done]. Qed.

Lemma cmd_response_ports cls op seq code h :
  same_ports h (wupsPublishCmdResponse cls op seq code h) /\ app (wupsPublishCmdResponse cls op seq code h) = app h.
Proof. unfold wupsPublishCmdResponse; case_bool_decide; [done|apply publish_ports]. Qed.
End Handler.

#[export] Hint Resolve same_ports_refl : ups.

(** ** Building frames *)

Section Building.
Context `{L : LittleFS} `{P : Eeprom}.
Abbreviation hub := (hub board).
Implicit Types (h : hub) (f : frame).

Lemma build_frame_bytes cap dst src cls op flags seq pl :
  Z.of_nat (length pl) <= cap - WUPS_FRAMING_BYTES -> Z.of_nat (length pl) < 65536 ->
  wupsBuildFrame cap dst src cls op flags seq pl = frame_bytes (Frame dst src cls op flags seq pl).
Proof.
  intros Hc Hl; unfold wupsBuildFrame; rewrite (proj2 (Z.ltb_ge _ _)) by lia; rewrite frame_bytes_framed.
  unfold framed, frame_body, frame_ids, frame_len; cbn [f_dst f_src f_cls f_op f_flags f_seq f_payload].
  assert (Hb : [dst; src; cls; op; flags; seq; u8 (Z.land (Z.of_nat (length pl)) 255); u8 (Z.land (Z.shiftr (Z.of_nat (length pl)) 8) 255)] ++ pl =
    [dst; src; cls; op; flags; seq] ++ le16 (Z.of_nat (length pl)) ++ pl).
  { cbn [le_bytes app]; rewrite !Z.land_ones with (n := 8) by lia; rewrite Z.shiftr_div_pow2 by lia; unfold u8; change (2 ^ 8) with 256.
    rewrite !Z.mod_mod by lia; done. }
  rewrite Hb; unfold wups_fletcher8; destruct (fold_left fletcher_step _ _) as [a b] eqn:E; cbn [fst snd le_bytes app].
  rewrite <- !app_assoc; done.
Qed.

Definition publish_frame (seq qos : Z) (topic body : list Z) : frame :=
  Frame WUPS_ADDR_ESP32 WUPS_ADDR_RP2040 WUPS_CLASS_NET WUPS_OP_NET_PUBLISH WUPS_FLAG_REQ seq (publish_request qos 0 topic body []).

(** A publication that fits is one frame to the ESP32. *)
Lemma publish_sends topic qos body h :
  0 < Z.of_nat (length topic) <= 200 -> 6 + Z.of_nat (length topic) + Z.of_nat (length body) <= WUPS_MAX_PAYLOAD ->
  wired WUPS_PORT_ESP32 h = true ->
  written (wupsRequestPublish topic qos 0 body h) =
    written h ++ [(WUPS_PORT_ESP32, on_wire (publish_frame (tx_seq h) qos topic body))].
Proof.
  intros Ht Hfit Hw; unfold wupsRequestPublish.
  rewrite (proj2 (Z.eqb_neq _ _)), (proj2 (Z.ltb_ge 200 _)), (proj2 (Z.ltb_ge WUPS_MAX_PAYLOAD _)) by lia; cbn [orb].
  rewrite u8_small by lia; unfold wups_send.
  match goal with |- context [wups_send_with_src ?p ?d ?s ?c ?o ?fl ?sq ?pl ?h'] =>
    destruct (send_with_src_spec p d s c o fl sq pl h') as [_ H2] end.
  - vm_compute; split; congruence.
  - unfold publish_hdr_bytes; rewrite !length_app; cbn [length]; rewrite length_le_bytes; unfold WUPS_MAX_PAYLOAD in *; lia.
  - rewrite H2; cbn [written upd wired streams]; unfold wired in *; cbn [streams upd]; rewrite Hw.
    unfold publish_frame, publish_request; rewrite app_nil_r; done.
Qed.

(** The acknowledgement of a command: the frame for the panel, wrapped for the ESP32. *)
Definition response_frame (f : frame) (code : Z) : frame :=
  Frame WUPS_ADDR_RPI WUPS_ADDR_RP2040 (f_cls f) (f_op f) WUPS_FLAG_RESP (f_seq f) [code].

Lemma cmd_response_sends f code h :
  wired WUPS_PORT_ESP32 h = true ->
  written (wupsPublishCmdResponse (f_cls f) (f_op f) (f_seq f) code h) =
    written h ++ [(WUPS_PORT_ESP32, on_wire (publish_frame (tx_seq h) 1 s_cmd_response (frame_bytes (response_frame f code))))].
Proof.
  intros Hw; unfold wupsPublishCmdResponse; rewrite build_frame_bytes by (unfold WUPS_FRAMING_BYTES, WUPS_HEADER_BYTES, WUPS_TRAILER_BYTES; cbn; lia).
  rewrite bool_decide_eq_false_2 by (rewrite frame_bytes_framed; discriminate).
  apply publish_sends; [cbn; lia|rewrite frame_bytes_length; cbn; unfold WUPS_MAX_PAYLOAD; lia|done].
Qed.
End Building.

(** ** Dispatch *)

Section Dispatch.
Context `{L : LittleFS} `{P : Eeprom} (xip : list Z).
Abbreviation hub := (hub board).
Abbreviation on_local := (wups_on_local_frame xip).
Implicit Types (h : hub) (f : frame) (p : Z).

(** No update is waiting to be confirmed. *)
Definition quiet h : Prop := s_pending (b_fw (app h)) = false.

Lemma note_quiet h : quiet h ->
  fw_update_note_frame_ok (b_fw (app h)) = (b_fw (app h), []) /\
  send_logs [] (on_board (fun b => b <| b_fw := b_fw (app h) |>) h) = h.
Proof.
  intros Hq; unfold fw_update_note_frame_ok; rewrite Hq; cbn [negb]; split; [done|].
  destruct h as [? ? ? ? ? ? ? ? []]; done.
Qed.

(** A power command: a request of the power class other than power.status. *)
Definition power_command f : Prop :=
  f_cls f = WUPS_CLASS_POWER /\ f_flags f = WUPS_FLAG_REQ /\
  In (f_op f) [WUPS_OP_PWR_ENABLE; WUPS_OP_PWR_DISABLE; WUPS_OP_PWR_CYCLE; WUPS_OP_PWR_RESET].

Lemma on_local_command now route p f h :
  quiet h -> power_command f -> on_local now route p f h = wupsPublishCmdResponse (f_cls f) (f_op f) (f_seq f) 0 h.
Proof.
  intros Hq (Hc & Hf & Ho); unfold wups_on_local_frame; destruct (note_quiet h Hq) as [-> E]; rewrite E.
  unfold is_event, is_req, is_class, is_fw_xfer; rewrite Hc, Hf; change (has WUPS_FLAG_REQ WUPS_FLAG_RESP) with false.
  change (has WUPS_FLAG_REQ WUPS_FLAG_EVENT) with false; change (has WUPS_FLAG_REQ WUPS_FLAG_REQ) with true.
  rewrite !andb_false_r; cbn [andb].
  destruct Ho as [<-|[<-|[<-|[<-|[]]]]]; reflexivity.
Qed.

(** The frame that carries another one to the hub is routed as the one it carries. *)
Lemma downlink_routed now n p g f topic h :
  quiet h -> f_dst g = WUPS_ADDR_RP2040 -> f_cls g = WUPS_CLASS_NET -> f_op g = WUPS_OP_NET_DOWNLINK ->
  f_flags g = WUPS_FLAG_EVENT -> f_payload g = publish_request 0 0 topic (frame_bytes f) [] ->
  all_u8 topic -> Z.of_nat (length topic) < 256 -> frame_wf f ->
  wups_route_frame on_local (S n) now p g h = wups_route_frame on_local n now p f h.
Proof.
  intros Hq Hd Hc Ho Hf Hp Htu Ht Hwf; cbn [wups_route_frame]; rewrite Hd.
  change (WUPS_ADDR_RP2040 =? WUPS_ADDR_RP2040) with true; change (WUPS_ADDR_RP2040 =? WUPS_ADDR_BROADCAST) with false.
  change (WUPS_ADDR_RP2040 =? WUPS_ADDR_INTERNAL) with false; cbn [orb].
  unfold wups_on_local_frame; destruct (note_quiet h Hq) as [-> E]; rewrite E.
  unfold is_event, is_req, is_class, is_fw_xfer; rewrite Hc, Ho, Hf; change (has WUPS_FLAG_EVENT WUPS_FLAG_RESP) with false.
  change (has WUPS_FLAG_EVENT WUPS_FLAG_EVENT) with true; rewrite !andb_false_r; cbn [andb orb].
  assert (Hfl : 0 <= frame_len f <= WUPS_MAX_PAYLOAD) by (split; [unfold frame_len; lia|apply Hwf]).
  assert (Hbl : Z.of_nat (length (frame_bytes f)) <= 254).
  { rewrite frame_bytes_length; destruct Hwf as (_ & _ & Hl); unfold frame_len, WUPS_MAX_PAYLOAD in Hl; lia. }
  assert (Hpl : length (f_payload g) = (6 + length topic + length (frame_bytes f))%nat).
  { rewrite Hp; unfold publish_request, publish_hdr_bytes; rewrite !length_app, length_le_bytes; cbn; lia. }
  replace (6 <=? frame_len g) with true by (symmetry; apply Z.leb_le; unfold frame_len; lia).
  cbn -[downlink_inner]; rewrite downlink_inner_spec; cbv zeta.
  - rewrite Hp; set (pl := publish_request _ _ _ _ _) in *.
    change (byte_at pl 0) with 1; change (byte_at pl 3) with (u8 (Z.of_nat (length topic))).
    change (le_val (field 4 2 pl)) with (le_val (le16 (Z.of_nat (length (frame_bytes f))))).
    rewrite u8_small, le16_val by lia; rewrite !Nat2Z.id.
    assert (Eb : field (6 + length topic) (length (frame_bytes f)) pl = frame_bytes f).
    { unfold pl, publish_request; rewrite app_assoc; apply field_app_exact; [rewrite length_app; done|done]. }
    rewrite Eb, frame_bytes_valid, frame_of_bytes by done.
    rewrite (proj2 (Nat.leb_le _ _)) by (rewrite <- Hp; lia); cbn [andb Z.eqb Pos.eqb].
    destruct (p =? WUPS_PORT_ESP32); done.
  - rewrite Hp; unfold publish_request, publish_hdr_bytes; rewrite !all_u8_app; split_and!; try done.
    + repeat (apply Forall_cons_2; [apply u8_range|]); apply Forall_nil_2.
    + apply le_bytes_u8.
    + apply frame_bytes_u8, Hwf.
    + apply Forall_nil_2.
Qed.

(** A route function is used on the frame inside net.downlink only. *)
Lemma on_local_route now r1 r2 p f h :
  (forall g h', downlink_inner (f_payload f) = Some g -> r1 p g h' = r2 p g h') ->
  on_local now r1 p f h = on_local now r2 p f h.
Proof.
  intros Hr; unfold wups_on_local_frame; destruct (fw_update_note_frame_ok _) as [fw logs].
  destruct (_ && _); [done|]; destruct (_ && _); [done|]; destruct (_ && _); [done|].
  destruct (is_class WUPS_CLASS_NET WUPS_OP_NET_DOWNLINK f && _ && _); [|done].
  destruct (downlink_inner (f_payload f)) as [g|]; [apply Hr; done|done].
Qed.

(** The frame inside is twenty bytes shorter at least. *)
Lemma downlink_inner_shorter f g :
  all_u8 (f_payload f) -> downlink_inner (f_payload f) = Some g -> all_u8 (f_payload g) /\ frame_len g <= frame_len f - 20.
Proof.
  intros Hu; rewrite downlink_inner_spec by done; cbv zeta; set (tl := Z.to_nat _); set (n := Z.to_nat _).
  destruct (_ && _) eqn:E; [|done]; intros; simplify_eq; apply andb_true_iff in E as [E Hv]; apply andb_true_iff in E as [_ El].
  apply Nat.leb_le in El; unfold frame_of, frame_len; cbn [f_payload].
  assert (Hb : all_u8 (field (6 + tl) n (f_payload f))) by (unfold field; apply all_u8_take, Forall_drop, Hu).
  split; [unfold field at 1; apply all_u8_take, Forall_drop, Hb|].
  apply (frame_valid_bytes _ Hb) in Hv as (g0 & _ & Eg); apply (f_equal length) in Eg; rewrite frame_bytes_length in Eg.
  unfold field in *; rewrite !length_take, !length_drop in *; lia.
Qed.

(** Fuel beyond the nesting a frame's length allows changes nothing. *)
Lemma route_fuel now n m p f h :
  all_u8 (f_payload f) -> frame_len f < 20 * Z.of_nat n -> frame_len f < 20 * Z.of_nat m ->
  wups_route_frame on_local n now p f h = wups_route_frame on_local m now p f h.
Proof.
  revert m p f h; induction n as [|n IH]; intros m p f h Hu Hn Hm; [unfold frame_len in Hn; lia|].
  destruct m as [|m]; [unfold frame_len in Hm; lia|]; cbn [wups_route_frame].
  assert (E : forall h', on_local now (wups_route_frame on_local n now) p f h' = on_local now (wups_route_frame on_local m now) p f h').
  { intros h'; apply on_local_route; intros g h1 Hg; destruct (downlink_inner_shorter f g Hu Hg); apply IH; [done|lia|lia]. }
  rewrite !E; done.
Qed.
End Dispatch.

(** ** No frame disturbs the deframers *)

Section Ports.
Context `{L : LittleFS} `{P : Eeprom} (xip : list Z).
Abbreviation hub := (hub board).
Abbreviation on_local := (wups_on_local_frame xip).
Implicit Types (h : hub) (f : frame) (p : Z).

Lemma on_board_ports g h : same_ports h (on_board g h).
Proof. done. Qed.
Lemma beep_ports a b h : same_ports h (beep a b h).
Proof. done. Qed.
Lemma close_menu_ports h : same_ports h (close_menu h).
Proof. unfold close_menu; destruct (local_menu_close _ _); done. Qed.

Create HintDb ports.
#[local] Hint Extern 1 (same_ports _ _) => split; [reflexivity|split; reflexivity] : ports.
#[local] Hint Resolve same_ports_refl on_board_ports beep_ports close_menu_ports : ports.
#[local] Hint Extern 2 (same_ports _ (on_board _ _)) => eapply same_ports_trans; [|apply on_board_ports] : ports.
#[local] Hint Extern 2 (same_ports _ (emit _ _)) => eapply same_ports_trans; [|apply on_board_ports] : ports.
#[local] Hint Extern 2 (same_ports _ (beep _ _ _)) => eapply same_ports_trans; [|apply beep_ports] : ports.
#[local] Hint Extern 2 (same_ports _ (answer _ _ _)) => eapply same_ports_trans; [|apply answer_ports] : ports.
#[local] Hint Extern 2 (same_ports _ (send_logs _ _)) => eapply same_ports_trans; [|apply send_logs_ports] : ports.
#[local] Hint Extern 2 (same_ports _ (wupsRequestPublish _ _ _ _ _)) => eapply same_ports_trans; [|apply publish_ports] : ports.
#[local] Hint Extern 2 (same_ports _ (wupsPublishCmdResponse _ _ _ _ _)) => eapply same_ports_trans; [|apply cmd_response_ports] : ports.
#[local] Hint Extern 2 (same_ports _ (wups_send_with_src _ _ _ _ _ _ _ _ _)) => eapply same_ports_trans; [|apply send_with_src_ports] : ports.

Lemma telemetry_ports seq pl h : same_ports h (wupsPublishTelemetryStatus seq pl h).
Proof. unfold wupsPublishTelemetryStatus; destruct (_ || _); [done|]; case_bool_decide; auto with ports. Qed.

Lemma on_power_status_ports now f h : same_ports h (on_power_status now f h).
Proof.
  unfold on_power_status; destruct (decode_power _ _) as [[[b pg] faults]|]; [|done].
  destruct (publish_now _ _ _ _); [|eauto with ports].
  eapply same_ports_trans; [|apply on_board_ports]; eapply same_ports_trans; [|apply telemetry_ports]; auto with ports.
Qed.

Lemma on_xfer_ports now f h : same_ports h (on_xfer xip now f h).
Proof.
  unfold on_xfer; set (h1 := if _ =? WUPS_OP_NET_FW_XFER_BEGIN then _ else _).
  assert (H1 : same_ports h h1) by (unfold h1; repeat case_match; auto with ports).
  destruct (on_fw_xfer _ _ _ _ _) as [[[fw logs] r] rb]; set (h2 := answer f [r] _).
  assert (H2 : same_ports h h2) by (eapply same_ports_trans; [exact H1|unfold h2; auto with ports]).
  clearbody h1 h2; destruct rb; [|done]; repeat case_match; auto with ports.
Qed.

Lemma on_local_ports now route p f h :
  (forall g h', same_ports h' (route p g h')) -> same_ports h (on_local now route p f h).
Proof.
  intros Hr; unfold wups_on_local_frame; destruct (fw_update_note_frame_ok _) as [fw logs].
  set (h1 := send_logs logs _); assert (H1 : same_ports h h1) by (unfold h1; auto with ports).
  eapply same_ports_trans; [exact H1|]; clearbody h1; clear H1.
  repeat match goal with |- same_ports _ (if ?c then _ else _) => destruct c end;
    auto using on_power_status_ports, on_xfer_ports with ports.
  - unfold wupsPublishCmdResponseFrame; case_bool_decide; auto with ports.
  - unfold wupsPublishEventFrame; case_bool_decide; auto with ports.
  - destruct (downlink_inner _); auto with ports.
  - eapply same_ports_trans; [|apply cmd_response_ports]; destruct (_ && _); [apply telemetry_ports|auto with ports].
  - eapply same_ports_trans; [|apply on_board_ports]; destruct (local_menu_active _); auto with ports.
  - unfold on_set_screen; repeat case_match; auto with ports.
  - unfold on_beep; eapply same_ports_trans; [|apply cmd_response_ports]; destruct (_ =? 1); auto with ports.
  - unfold on_display_msg; repeat case_match; auto with ports.
  - unfold on_ping; auto with ports.
  - unfold wupsPublishHostStatus; case_bool_decide; auto with ports.
Qed.

Lemma route_ports now n p f h : same_ports h (wups_route_frame on_local n now p f h).
Proof.
  revert f h; induction n as [|n IH]; intros f h; [done|]; cbn [wups_route_frame].
  assert (HL : same_ports h (on_local now (wups_route_frame on_local n now) p f h)) by (apply on_local_ports; auto).
  set (h1 := if _ || _ then _ else h); assert (H1 : same_ports h h1) by (unfold h1; destruct (_ || _); done).
  assert (Hfwd : forall q h', same_ports h h' -> same_ports h (emit_forward q f h')).
  { intros q h' H; eapply same_ports_trans; [exact H|apply emit_forward_ports]. }
  clearbody h1; unfold ports; cbn [fold_left].
  repeat match goal with |- same_ports _ (if ?c then _ else _) => destruct c end; auto.
  all: repeat first [exact H1 | apply Hfwd | match goal with |- same_ports _ (if ?c then _ else _) => destruct c end].
  eapply same_ports_trans; [exact H1|]; apply on_local_ports; auto.
Qed.

Lemma deliver_ports now p f h : same_ports h (deliver_frame on_local now p f h).
Proof. unfold deliver_frame; eapply same_ports_trans; [|apply route_ports]; done. Qed.
End Ports.

(** ** A frame arriving at a port *)

Section Arrival.
Context `{L : LittleFS} `{P : Eeprom} (xip : list Z).
Abbreviation hub := (hub board).
Abbreviation on_local := (wups_on_local_frame xip).
Implicit Types (h : hub) (f : frame) (p : Z).

Lemma set_port_id p h : valid_hub h -> 1 <= p < 4 -> set_port p (port_state p h) h = h.
Proof.
  intros Hv Hp; unfold set_port, port_state; rewrite list_insert_id; [destruct h; done|].
  rewrite nth_lookup; unfold valid_hub in Hv; destruct (port_rx h !! Z.to_nat p) eqn:E; [done|].
  apply lookup_ge_None in E; lia.
Qed.

Lemma set_port_twice p s s' h : set_port p s (set_port p s' h) = set_port p s h.
Proof. unfold set_port; cbn [port_rx upd]; rewrite list_insert_insert_eq; destruct h; done. Qed.

(** Bytes that complete no frame move the deframer only. *)
Lemma bytes_without_frame e p bs r h :
  1 <= p < 4 -> valid_hub h -> port_state p h = to_port r -> Forall (fun o => o = None) (feed r bs).2 ->
  fold_left (port_byte on_local p) (map (fun b => (b, e)) bs) h = set_port p (to_port (feed r bs).1) h.
Proof.
  intros Hp; revert r h; induction bs as [|b bs IH]; intros r h Hv Hs Hn; cbn [map fold_left].
  { cbn; rewrite <- Hs, set_port_id by done; done. }
  rewrite feed_cons in Hn |- *; unfold port_byte at 2; cbn [fst snd]; rewrite Hs, port_byte_sim.
  destruct (wups_rx_byte r b) as [r1 o]; cbn [fst snd] in *; specialize (IH r1); destruct (feed r1 bs) as [r2 os]; cbn [fst snd] in *.
  apply Forall_cons in Hn as [-> Hn]; rewrite IH; [apply set_port_twice| |apply port_state_set; done|done].
  unfold valid_hub in *; cbn; rewrite length_insert; done.
Qed.

(** A whole frame at a hunting port is delivered once, and the port hunts again. *)
Lemma frame_arrives e p f r h :
  1 <= p < 4 -> valid_hub h -> port_state p h = to_port r -> rx_state r = WUPS_RX_SYNC1 -> length (rx_payload r) = 240%nat ->
  frame_len f <= WUPS_MAX_PAYLOAD ->
  exists r', rx_state r' = WUPS_RX_SYNC1 /\ length (rx_payload r') = 240%nat /\
    fold_left (port_byte on_local p) (map (fun b => (b, e)) (frame_bytes f ++ [WUPS_GUARD_BYTE])) h =
    deliver_frame on_local e p f (set_port p (to_port r') h).
Proof.
  intros Hp Hv Hs Hr Hl Hf; destruct (feed_frame f r (or_introl Hr) Hl Hf) as (r' & E & Hr' & Hl'); exists r'; split_and!; try done.
  assert (Hne : exists bs b, frame_bytes f = bs ++ [b]).
  { destruct (@exists_last _ (frame_bytes f)) as (bs & b & Eb); [rewrite frame_bytes_framed; discriminate|eauto]. }
  destruct Hne as (bs & b & Eb); rewrite Eb in E |- *; rewrite feed_app in E; destruct (feed r bs) as [r1 os1] eqn:E1.
  rewrite feed_cons in E; destruct (wups_rx_byte r1 b) as [r2 o] eqn:E2; change (feed r2 []) with (r2, @nil (option frame)) in E.
  apply pair_equal_spec in E as [<- Eo].
  apply app_inj_2 in Eo as [-> [= ->]]; [|done].
  rewrite <- app_assoc, map_app, fold_left_app, (bytes_without_frame e p bs r h) by
    (try done; rewrite E1; apply Forall_replicate; done).
  rewrite E1; change ([b] ++ [WUPS_GUARD_BYTE]) with [b; WUPS_GUARD_BYTE]; cbn [fst map fold_left]; unfold port_byte at 2; cbn [fst snd]; rewrite port_state_set, port_byte_sim, E2 by done.
  cbn [fst snd]; rewrite set_port_twice; set (h1 := set_port p (to_port r2) h); destruct (deliver_ports xip e p f h1) as (_ & Hrx & _).
  assert (Hv1 : valid_hub (deliver_frame on_local e p f h1)).
  { unfold valid_hub in *; rewrite Hrx; unfold h1; cbn; rewrite length_insert; done. }
  assert (Hs1 : port_state p (deliver_frame on_local e p f h1) = to_port r2).
  { unfold port_state; rewrite Hrx; apply (port_state_set p (to_port r2) h Hv Hp). }
  unfold port_byte; cbn [fst snd]; rewrite Hs1; unfold rx_byte; change (p_state (to_port r2)) with (rx_state r2); rewrite Hr'.
  change (WUPS_GUARD_BYTE =? WUPS_SYNC1) with false; rewrite <- Hs1; apply set_port_id; done.
Qed.
End Arrival.

(** ** Properties *)

Section Properties.
Context `{L : LittleFS} `{P : Eeprom} (xip : list Z).
Abbreviation hub := (hub board).
Abbreviation on_local := (wups_on_local_frame xip).
Implicit Types (h : hub) (f : frame).

(** A command for all is acknowledged to the ESP32, then forwarded to the other ports. *)
Lemma command_delivered now f h :
  quiet h -> power_command f -> frame_wf f -> f_dst f = WUPS_ADDR_BROADCAST ->
  wired WUPS_PORT_RPI h = true -> wired WUPS_PORT_CH32X h = true -> wired WUPS_PORT_ESP32 h = true ->
  let h' := wups_route_frame on_local 12 now WUPS_PORT_ESP32 f h in
  app h' = app h /\
  written h' = written h ++ [(WUPS_PORT_ESP32, on_wire (publish_frame (tx_seq h) 1 s_cmd_response (frame_bytes (response_frame f 0))));
                             (WUPS_PORT_RPI, on_wire f); (WUPS_PORT_CH32X, on_wire f)].
Proof.
  intros Hq Hc Hwf Hd H1 H2 H3; pose proof Hwf as (_ & _ & Hl).
  destruct (route_spec on_local 11 now WUPS_PORT_ESP32 f h Hl) as [R1 R2].
  unfold for_hub, multicast in R1, R2; rewrite Hd in R1, R2; cbn [orb] in R1, R2; change (WUPS_ADDR_BROADCAST =? WUPS_ADDR_RP2040) with false in *;
    change (WUPS_ADDR_BROADCAST =? WUPS_ADDR_BROADCAST) with true in *; cbn [orb] in R1, R2; rewrite on_local_command in R1, R2 by done.
  destruct (cmd_response_ports (f_cls f) (f_op f) (f_seq f) 0 h) as [(E1 & _) E2]; destruct R1 as (_ & _ & _ & _ & _ & R1).
  split; [rewrite R1; exact E2|]; rewrite R2, cmd_response_sends, <- app_assoc by done; do 2 f_equal.
  assert (Ed : destinations WUPS_PORT_ESP32 f = [WUPS_PORT_RPI; WUPS_PORT_CH32X]).
  { unfold destinations, bridged, multicast, candidates; rewrite Hd; done. }
  rewrite Ed; cbn [List.filter]; unfold wired in *; rewrite E1; change (Z.to_nat WUPS_PORT_RPI) with 1%nat in *;
    change (Z.to_nat WUPS_PORT_CH32X) with 2%nat in *; rewrite H1, H2; done.
Qed.

Lemma drain_outcome p now bytes h :
  wired p h = true -> bytes <> [] -> Z.of_nat (length bytes) <= 1024 ->
  app (drain_port on_local p now bytes h) = app (fold_left (port_byte on_local p) bytes h) /\
  written (drain_port on_local p now bytes h) = written (fold_left (port_byte on_local p) bytes h).
Proof. intros Hw Hne Hl; rewrite drain_some by done; split; reflexivity. Qed.

(** What the ESP32 wraps an accepted downlink message in. *)
Definition downlink_frame (p : port) mtopic f : frame :=
  Frame WUPS_ADDR_RP2040 WUPS_ADDR_ESP32 WUPS_CLASS_NET WUPS_OP_NET_DOWNLINK WUPS_FLAG_EVENT (s_tx_seq p)
    (publish_request 0 0 mtopic (frame_bytes f) []).

Lemma downlink_frame_len (p : port) mtopic f :
  20 + Z.of_nat (length mtopic) + frame_len f <= WUPS_MAX_PAYLOAD -> frame_len (downlink_frame p mtopic f) <= WUPS_MAX_PAYLOAD.
Proof.
  intros H; unfold frame_len, downlink_frame, publish_request, publish_hdr_bytes, WUPS_MAX_PAYLOAD in *; cbn [f_payload].
  rewrite !length_app, length_le_bytes, frame_bytes_length; cbn [length]; lia.
Qed.

(** An authenticated power command is neither an update nor a reset: it goes to the hub. *)
Lemma command_forwarded `{Crypto} e wok a a' (p : port) mtopic mpayload f :
  cmdauth_check_and_strip a mpayload (ev_time_us e / 1000000) wok = (a', Some (frame_bytes f)) ->
  ev_ota_takes e (frame_bytes f) = false -> power_command f ->
  Z.of_nat (length mtopic) <= 200 -> 20 + Z.of_nat (length mtopic) + frame_len f <= WUPS_MAX_PAYLOAD ->
  exists p', on_mqtt_data e wok a p mtopic mpayload = (a', p', [Uart_write (on_wire (downlink_frame p mtopic f))]).
Proof.
  intros Hauth Hota Hc Htl Hfit.
  unfold on_mqtt_data; rewrite (proj2 (Nat.ltb_ge _ _)) by lia; rewrite Hauth, Hota.
  assert (Hrs : try_handle_sys_reset e (frame_bytes f) = ([], false)).
  { unfold try_handle_sys_reset; destruct (_ <? _); [done|]; destruct (_ || _); [done|].
    change (byte_at (frame_bytes f) 4) with (f_cls f); rewrite (proj1 Hc); done. }
  rewrite Hrs, (proj2 (Z.ltb_ge _ _)) by (rewrite frame_bytes_length; unfold frame_len in Hfit; lia).
  destruct (wups_link_send _ _ _ _ _ _) as [p' sent] eqn:Es; exists p'; apply (f_equal snd) in Es; rewrite esp_send_bytes in Es.
  2:{ unfold WUPS_MAX_PAYLOAD, publish_hdr_bytes in *; rewrite !length_app, length_le_bytes, frame_bytes_length; cbn [length]; unfold frame_len in Hfit; lia. }
  rewrite u8_small, u16_small in Es by (rewrite ?frame_bytes_length; unfold frame_len, WUPS_MAX_PAYLOAD in *; lia).
  cbn [snd] in Es; subst sent; unfold on_wire, downlink_frame, publish_request; rewrite app_nil_r; done.
Qed.

(** A receiver at rest delivers one well-sized frame sent to it. *)
Lemma delivered_one x : frame_len x <= WUPS_MAX_PAYLOAD -> delivered wups_rx_init (on_wire x) = [x].
Proof.
  intros Hx; pose proof (feed_wire [x] wups_rx_init eq_refl eq_refl ltac:(apply Forall_singleton; exact Hx)) as HF.
  cbn [map concat] in HF; rewrite app_nil_r in HF; unfold delivered; destruct (feed _ _) as [? os]; exact (proj1 HF).
Qed.

(** The ESP32 publishes the hub's acknowledgement under the device's topic. *)
Lemma ack_published e iccid seq f :
  power_command f -> ev_iccid e = Some iccid -> iccid <> [] -> Forall (fun c => c <> 0) iccid ->
  (length (device_topic iccid s_cmd_response) < 64)%nat -> ev_claimed e = false ->
  handle_net_publish e (f_payload (publish_frame seq 1 s_cmd_response (frame_bytes (response_frame f 0)))) =
    [Publish Pub_critical (device_topic iccid s_cmd_response) (frame_bytes (response_frame f 0)) 1 0].
Proof.
  intros Hc Hic Hne Hnz Htop Hcl; cbn [f_payload publish_frame].
  pose proof (net_publish_forwards e iccid 1 0 s_cmd_response (frame_bytes (response_frame f 0)) []) as HN.
  unfold divert_ack in HN; rewrite Hcl, andb_false_r in HN; cbn [andb] in HN; rewrite HN; try done.
  repeat (apply Forall_cons_2; [discriminate|]); apply Forall_nil_2.
Qed.

(** C16: A panel's power command makes the round trip.  Take a hub that is well formed
    and quiet (nothing of its own pending), with its three ports wired and the deframer of
    the ESP32's port between two frames.  An MQTT message that the command authentication
    accepts, that the update handler does not take, whose topic has at most 200 bytes and
    fits a frame together with the command, and that carries a well-formed power request
    for all nodes makes the ESP32 write one frame; when the hub has read it, it has written, besides what it had
    written: to the ESP32 the acknowledgement with the request's sequence number and code
    0, and the request itself, unchanged, to the host and to the power controller, whose
    deframer, at rest, delivers exactly it; and the ESP32, whose deframer at rest delivers
    exactly the acknowledgement, publishes it as a critical message on the device's
    cmd/response when it knows the device's id, the topic is shorter than 64 bytes and no
    on-chain owner has claimed the device (a claimed one answers on chain). *)
Theorem panel_command_round_trip `{Crypto} e wok a a' (p : port) mtopic mpayload f now r h :
  cmdauth_check_and_strip a mpayload (ev_time_us e / 1000000) wok = (a', Some (frame_bytes f)) ->
  ev_ota_takes e (frame_bytes f) = false ->
  power_command f -> frame_wf f -> f_dst f = WUPS_ADDR_BROADCAST ->
  all_u8 mtopic -> Z.of_nat (length mtopic) <= 200 -> 20 + Z.of_nat (length mtopic) + frame_len f <= WUPS_MAX_PAYLOAD ->
  valid_hub h -> port_state WUPS_PORT_ESP32 h = to_port r -> rx_state r = WUPS_RX_SYNC1 -> length (rx_payload r) = 240%nat ->
  quiet h -> wired WUPS_PORT_RPI h = true -> wired WUPS_PORT_CH32X h = true -> wired WUPS_PORT_ESP32 h = true ->
  exists p' bytes ack,
    on_mqtt_data e wok a p mtopic mpayload = (a', p', [Uart_write bytes]) /\
    let h' := drain_port on_local WUPS_PORT_ESP32 now (map (fun b => (b, now)) bytes) h in
    app h' = app h /\
    written h' = written h ++ [(WUPS_PORT_ESP32, on_wire ack); (WUPS_PORT_RPI, on_wire f); (WUPS_PORT_CH32X, on_wire f)] /\
    delivered wups_rx_init (on_wire f) = [f] /\ delivered wups_rx_init (on_wire ack) = [ack] /\ f_dst ack = WUPS_ADDR_ESP32 /\
    forall e' iccid, ev_iccid e' = Some iccid -> iccid <> [] -> Forall (fun c => c <> 0) iccid ->
      (length (device_topic iccid s_cmd_response) < 64)%nat -> ev_claimed e' = false ->
      handle_net_publish e' (f_payload ack) =
        [Publish Pub_critical (device_topic iccid s_cmd_response)
           (frame_bytes (Frame WUPS_ADDR_RPI WUPS_ADDR_RP2040 WUPS_CLASS_POWER (f_op f) WUPS_FLAG_RESP (f_seq f) [0])) 1 0].
Proof.
  intros Hauth Hota Hc Hwf Hd Htu Htl Hfit Hv Hs Hr Hl Hq H1 H2 H3; pose proof Hwf as (_ & _ & Hfl).
  set (g := downlink_frame p mtopic f); pose proof (downlink_frame_len p mtopic f Hfit) as Hgl; fold g in Hgl.
  destruct (command_forwarded e wok a a' p mtopic mpayload f) as [p' Hmq]; try done.
  set (ack := publish_frame (tx_seq h) 1 s_cmd_response (frame_bytes (response_frame f 0))).
  exists p', (on_wire g), ack; split; [exact Hmq|]; cbv zeta.
  assert (Hwl : length (map (fun b : Z => (b, now)) (on_wire g)) = (15 + length (f_payload g))%nat).
  { rewrite length_map; unfold on_wire; rewrite length_app, frame_bytes_length; cbn; lia. }
  destruct (drain_outcome WUPS_PORT_ESP32 now (map (fun b => (b, now)) (on_wire g)) h) as [D1 D2];
    [exact H3|intros E; rewrite E in Hwl; done|rewrite Hwl; unfold frame_len, WUPS_MAX_PAYLOAD in Hgl; lia|].
  rewrite D1, D2; clear D1 D2.
  destruct (frame_arrives xip now WUPS_PORT_ESP32 g r h) as (r' & _ & _ & Ef); try done.
  change (frame_bytes g ++ [WUPS_GUARD_BYTE]) with (on_wire g) in Ef; rewrite Ef; set (h1 := set_port WUPS_PORT_ESP32 (to_port r') h).
  unfold deliver_frame; set (h2 := h1 <| Wups_Frames_Rx := _ |>); change NESTING with 13%nat.
  rewrite (downlink_routed xip now 12 WUPS_PORT_ESP32 g f mtopic h2) by (try done; lia).
  destruct (command_delivered now f h2) as [E1 E2]; try done.
  split; [exact E1|split; [exact E2|split; [apply delivered_one, Hwf|split; [apply delivered_one|split; [done|]]]]].
  { unfold ack, frame_len, publish_frame, publish_request, publish_hdr_bytes; cbn [f_payload].
    rewrite !length_app, length_le_bytes, frame_bytes_length; unfold WUPS_MAX_PAYLOAD; cbn; lia. }
  intros e' iccid Hic Hne Hnz Htop Hcl; unfold ack; rewrite (ack_published e' iccid) by done.
  unfold response_frame; rewrite (proj1 Hc); done.
Qed.
End Properties.

(** A panel's power cycle, from the signed envelope to the three wires. *)
Definition demo_cycle : frame :=
  Frame WUPS_ADDR_BROADCAST WUPS_ADDR_RPI WUPS_CLASS_POWER WUPS_OP_PWR_CYCLE WUPS_FLAG_REQ 42 [].
Definition demo_envelope : list Z :=
  let d := toy_digest (envelope_signed (Envelope 3 9 0 (frame_bytes demo_cycle) [])) in
  envelope_bytes (Envelope 3 9 0 (frame_bytes demo_cycle) (d ++ d)).
Definition demo_board_hub : hub (board (L := toy_fs) (P := ref_eeprom)) :=
  wups_router_init true true true
    (hub_boot (board_boot (L := toy_fs) (P := ref_eeprom) (boot_state (L := toy_fs) fresh_disk)
       (Settings (P := ref_eeprom) ([], []) stored_default))).

Lemma panel_command_round_trip_witness :
  exists p' bytes ack,
    on_mqtt_data (C := toy_crypto) env_sample true toy_auth port_init [99; 47] demo_envelope =
      ((cmdauth_check_and_strip (C := toy_crypto) toy_auth demo_envelope 5 true).1, p', [Uart_write bytes]) /\
    written (drain_port (wups_on_local_frame (L := toy_fs) (P := ref_eeprom) []) WUPS_PORT_ESP32 5000 (map (fun b => (b, 5000)) bytes) demo_board_hub) =
      [(WUPS_PORT_ESP32, on_wire ack); (WUPS_PORT_RPI, on_wire demo_cycle); (WUPS_PORT_CH32X, on_wire demo_cycle)].
Proof.
  destruct (panel_command_round_trip (L := toy_fs) (P := ref_eeprom) (H := toy_crypto) [] env_sample true toy_auth
    (cmdauth_check_and_strip (C := toy_crypto) toy_auth demo_envelope 5 true).1 port_init [99; 47] demo_envelope demo_cycle 5000 wups_rx_init demo_board_hub)
    as (p' & bytes & ack & H1 & H2).
  - vm_compute; reflexivity.
  - reflexivity.
  - split; [reflexivity|split; [reflexivity|cbn; auto]].
  - unfold frame_wf, all_u8, demo_cycle; split_and!; [|apply List.Forall_nil|vm_compute; discriminate].
    cbv [frame_ids f_dst f_src f_cls f_op f_flags f_seq]; repeat (apply Forall_cons_2; [vm_compute; split; [discriminate|reflexivity]|]); apply Forall_nil_2.
  - reflexivity.
  - repeat (apply Forall_cons_2; [vm_compute; split; [discriminate|reflexivity]|]); apply Forall_nil_2.
  - vm_compute; discriminate.
  - vm_compute; discriminate.
  - reflexivity.
  - reflexivity.
  - reflexivity.
  - reflexivity.
  - reflexivity.
  - reflexivity.
  - reflexivity.
  - reflexivity.
  - destruct H2 as (_ & H2 & _); exists p', bytes, ack; split; [exact H1|exact H2].
Defined.
