(* ===== verification/HubScreens.v ===== *)
(** * The dashboard of the RP2040 (firmware-rp2040/src/main.cpp, fw_update.cpp)

    What each screen draws: text of a size at a position, and shapes.  [dec] is how the
    display library prints a number.  A character of size 1 is 6 by 8 pixels, so that a
    row of the 64 by 32 panel has ten of them; a longer row continues on the next one. *)

From S2P Require Import Prelude Protocol PowerStatus FwUpdate FwInstall UiSettings TrustUi HubDispatch.

Definition text (x y : Z) (s : list Z) : shape := Item (Text 1 x y s).
Definition text2 (x y : Z) (s : list Z) : shape := Item (Text 2 x y s).

Section Screens.
Context (dec : Z -> list Z).
Implicit Types (u : ui_view).

(** ** Battery icon and screen indicator *)

(** The inner field of the icon is 6 by 16 pixels; the stripes of the charging animation
    move with [animPhase]. *)
(* src: firmware-rp2040/src/main.cpp:488-494 drawBatteryIcon (stripes) *)
Definition stripes (x y animPhase : Z) : list shape :=
  concat (map (fun i => let i := Z.of_nat i in
    if Z.rem (16 - 1 - i + Z.quot animPhase 2) 4 <? 2 then [H_line x (y + i) 6] else []) (seq 0 16)).

(* src: firmware-rp2040/src/main.cpp:459-504 drawBatteryIcon *)
Definition drawBatteryIcon (x y soc cs : Z) (noBattery : bool) (animPhase : Z) : list shape :=
  let innerX := x + 2 in let innerY := y + 2 + 2 in let innerW := 6 in let innerH := 16 in
  [Fill_rect (x + 3) y 4 2 true; Draw_rect x (y + 2) 10 20] ++
  if noBattery then
    [Draw_line innerX innerY (innerX + innerW - 1) (innerY + innerH - 1);
     Draw_line (innerX + innerW - 1) innerY innerX (innerY + innerH - 1)]
  else
    let fillH := Z.quot (innerH * soc) 100 in
    let fillY := innerY + (innerH - fillH) in
    (if (cs =? 1) || (cs =? 2) then stripes innerX innerY animPhase
     else if 0 <? soc then [Fill_rect innerX fillY innerW fillH true] else []) ++
    (if (soc <? 10) && (cs =? 0) && (Z.rem (Z.quot animPhase 8) 2 =? 0)
     then [Fill_rect innerX innerY innerW innerH false] else []).

(* src: firmware-rp2040/src/main.cpp:606-620 drawScreenIndicator *)
Definition drawScreenIndicator (screen : Z) : list shape :=
  map (fun i => let x := 64 - SCREEN_COUNT * 2 + Z.of_nat i * 2 in
    if Z.of_nat i =? screen then V_line x (30 - 1) 2 else Pixel x 30) (seq 0 (Z.to_nat SCREEN_COUNT)).

(** ** Screens *)

(** [n / 1000 "." n % 1000 / 100]. *)
Definition tenths_of (n : Z) : list Z := dec (Z.quot n 1000) ++ str "." ++ dec (Z.quot (Z.rem n 1000) 100).
Definition pad_below_10 (n : Z) : list Z := if n <? 10 then str " " else [].

(* src: firmware-rp2040/src/main.cpp:677-685 batteryModeLabel *)
Definition batteryModeLabel (mains : bool) (cs : Z) : list Z :=
  if negb mains then str "DSC" else if cs =? 1 then str "PRE" else if cs =? 2 then str "CHG"
  else if cs =? 3 then str "FUL" else str "IDL".

(* src: firmware-rp2040/src/main.cpp:625-671 drawScreenHome *)
Definition drawScreenHome (u : ui_view) (displayCs vbus_out_mV soc : Z) (noBattery : bool) (animPhase : Z) : list shape :=
  drawBatteryIcon 0 0 soc displayCs noBattery animPhase ++
  [text2 15 0 ((if noBattery then str "--" else if soc <? 100 then dec soc else str "100") ++ str "%");
   text 15 16 (batteryModeLabel (negb (u_pg u =? 0)) displayCs);
   text 39 16 (tenths_of (u_bv u) ++ str "V");
   text 0 25 (if 0 <? u_vi u then tenths_of (u_vi u) ++ str "V" else str "-.-V");
   text 39 25 (tenths_of vbus_out_mV ++ str "V")].

(** The row of a contract, input or output. *)
(* src: firmware-rp2040/src/main.cpp:703-717 drawScreenInput (contract) *)
Definition contract_row (mV mA : Z) : list Z :=
  if 0 <? mV then
    let v := Z.quot mV 1000 in
    str "PD " ++ pad_below_10 v ++ dec v ++ str "V" ++ tenths_of mA ++ str "A"
  else str "PD N/A".

(* src: firmware-rp2040/src/main.cpp:689-739 drawScreenInput *)
Definition drawScreenInput (u : ui_view) : list shape :=
  [text 0 0 (str "IN " ++ pad_below_10 (Z.quot (u_vi u) 1000) ++ tenths_of (u_vi u) ++ str "V");
   text 0 8 (contract_row (u_pd_in_mV u) (u_pd_in_mA u));
   text 0 16 (if 0 <? u_pd_in_mV u
              then str "=" ++ dec (Z.quot (u_pd_in_mV u) 1000 * Z.quot (u_pd_in_mA u) 1000) ++ str "W" else []);
   text 0 24 (if negb (u_usb_c_attach u =? 0) then str "SRC:USB-C"
              else if negb (u_pg u =? 0) then str "SRC:BARR" else str "SRC:OFF")] ++
  drawScreenIndicator SCREEN_INPUT.

(* src: firmware-rp2040/src/main.cpp:742-779 drawScreenOutput *)
Definition drawScreenOutput (u : ui_view) (vbus_out_mV : Z) : list shape :=
  [text 0 0 (str "V " ++ tenths_of vbus_out_mV ++ str "V");
   text 0 8 (contract_row (u_pd_out_mV u) (u_pd_out_mA u));
   text 0 16 (str "Ilim  " ++ tenths_of (u_iout_limit_mA u) ++ str "A")] ++
  drawScreenIndicator SCREEN_OUTPUT.

(* src: firmware-rp2040/src/main.cpp:782-814 drawScreenBattery *)
Definition drawScreenBattery (u : ui_view) : list shape :=
  [text 0 0 (str "V " ++ tenths_of (u_bv u) ++ str "V " ++ pad_below_10 (u_soc u) ++ dec (u_soc u) ++ str "%");
   text 0 8 (str "Mode:" ++ batteryModeLabel (negb (u_pg u =? 0)) (u_cs u));
   text 0 16 (str "Ich " ++ tenths_of (Z.abs (u_ci u)) ++ str "A")] ++
  drawScreenIndicator SCREEN_BATTERY.

(* src: firmware-rp2040/src/main.cpp:821-847 drawScreenSystem (uptime) *)
Definition uptime_row (millis : Z) : list Z :=
  let up_m := millis / 1000 / 60 in
  str "UP " ++
  if up_m <? 100 then dec up_m ++ str "m"
  else let up_h := up_m / 60 in
    if up_h <? 100 then
      dec up_h ++ str "h" ++
      (if up_h <? 10 then let rem_m := up_m mod 60 in (if rem_m <? 10 then str "0" else []) ++ dec rem_m ++ str "m" else [])
    else dec (up_h / 24) ++ str "d".

(** [print(d, HEX)] of a digit. *)
Definition hex_digit (d : Z) : Z := if d <? 10 then 48 + d else 55 + d.
(* src: firmware-rp2040/src/main.cpp:865-871 drawScreenSystem (faults) *)
Definition fault_digits (cf : Z) : list Z :=
  let flt := Z.land cf 65535 in
  map (fun sh => hex_digit (Z.land (Z.shiftr flt sh) 15)) [12; 8; 4; 0].

(* src: firmware-rp2040/src/main.cpp:817-874 drawScreenSystem *)
Definition drawScreenSystem (u : ui_view) (millis : Z) : list shape :=
  [text 0 0 (uptime_row millis);
   text 0 8 (str "Tlm " ++ dec (Z.quot (u_temp_lm_dC u) 10) ++ str "C");
   text 0 16 (if u_temp_mp_dC u =? -32768 then str "Tmp  N/A" else str "Tmp " ++ dec (Z.quot (u_temp_mp_dC u) 10) ++ str "C");
   text 0 24 (str "Flt:" ++ fault_digits (u_cf u))] ++
  drawScreenIndicator SCREEN_SYSTEM.

(** ** Banners *)

(** The "!" of a banner flashes. *)
Definition flash (animPhase : Z) : list shape := if Z.rem (Z.quot animPhase 8) 2 =? 0 then [text 0 0 (str "!")] else [].

(* src: firmware-rp2040/src/main.cpp:2355-2369 loop (NO UPS) *)
Definition draw_no_ups (animPhase secs : Z) : list shape :=
  flash animPhase ++ [text 10 0 (str "NO UPS"); text 0 12 (str "pwr data"); text 0 22 (str "lost " ++ dec secs ++ str "s")].

(* src: firmware-rp2040/src/main.cpp:2385-2400 loop (BAD PSU) *)
Definition draw_bad_psu (animPhase : Z) : list shape :=
  flash animPhase ++ [text 10 0 (str "BAD PSU"); text 0 12 (str "Need PD"); text 0 22 (str "26W min")].

(* src: firmware-rp2040/src/main.cpp:2422-2435 loop (MODEM) *)
Definition draw_modem (animPhase : Z) (alert : list Z) (fwUpdateBanner : bool) : list shape :=
  flash animPhase ++ [text 10 0 (str "MODEM"); text 0 12 alert] ++
  (if negb fwUpdateBanner then [text 0 22 (str "no uplink")] else []).

(* src: firmware-rp2040/src/main.cpp:512-536 drawInfoNotice *)
Fixpoint info_cells (row col : Z) (p : list Z) : list shape :=
  match p with
  | [] => []
  | c :: p =>
      if 4 <=? row then []
      else if c =? 10 then info_cells (row + 1) 0 p
      else if c <? 32 then info_cells row col p
      else
        let c := if 127 <=? c then 63 else c in
        if col =? 10 then
          if 4 <=? row + 1 then [] else text 0 ((row + 1) * 8) [c] :: info_cells (row + 1) 1 p
        else text (col * 6) (row * 8) [c] :: info_cells row (col + 1) p
  end.
Definition drawInfoNotice (infoText : list Z) : list shape := info_cells 0 0 infoText.

(** ** The update screen *)

(* src: firmware-rp2040/src/fw_update.cpp:298-313 fw_update_render *)
Definition fw_update_render `{L : LittleFS} (s : fwu) : list shape :=
  let pct := fw_update_progress_pct s in
  let fillw := u8 (u32 (64 * pct) / 100) in
  [text 5 0 (str "FW UPDATE");
   text2 (if 100 <=? pct then 8 else if 10 <=? pct then 14 else 20) 10 (dec pct ++ str "%");
   Draw_rect 0 27 64 5] ++
  (if 2 <? fillw then [Fill_rect 1 28 (fillw - 2) 3 true] else []).

(* src: firmware-rp2040/src/fw_update.cpp:315-326 fw_update_render_applying *)
Definition fw_update_render_applying : list shape :=
  [text 5 0 (str "FW UPDATE"); text 8 12 (str "applying"); text 11 22 (str "wait...")].
End Screens.

(** ** Inside the panel *)

(** The panel is 64 by 32 pixels; nothing is drawn outside it and no text wraps, which it
    does when a character's 6 columns do not fit.  The last of a character's 8 rows is
    blank. *)
Definition fits (s : shape) : Prop :=
  match s with
  | Item (Text sz x y t) => 0 <= x /\ x + 6 * sz * Z.of_nat (length t) <= 64 /\ 0 <= y /\ y + 7 * sz <= 32
  | Item (Glyph_c _ _) | Item (Qr_code _) => False
  | Fill_rect x y w h _ | Draw_rect x y w h => 0 <= x /\ 0 <= w /\ x + w <= 64 /\ 0 <= y /\ 0 <= h /\ y + h <= 32
  | Draw_line x0 y0 x1 y1 => 0 <= x0 < 64 /\ 0 <= y0 < 32 /\ 0 <= x1 < 64 /\ 0 <= y1 < 32
  | H_line x y w => 0 <= x /\ 0 <= w /\ x + w <= 64 /\ 0 <= y < 32
  | V_line x y h => 0 <= x < 64 /\ 0 <= y /\ 0 <= h /\ y + h <= 32
  | Pixel x y => 0 <= x < 64 /\ 0 <= y < 32
  end.

(** How the display library prints numbers: at most as many characters as digits, and a
    sign. *)
Class Prints (dec : Z -> list Z) := {
  dec_length n k : 1 <= k -> 0 <= n < 10 ^ k -> Z.of_nat (length (dec n)) <= k;
  dec_nonempty n : 1 <= Z.of_nat (length (dec n));
  dec_full k : 0 <= k -> Z.of_nat (length (dec (10 ^ k))) = k + 1;
  dec_neg n : n < 0 -> dec n = 45 :: dec (- n)
}.

Section Fit.
#[local] Set Default Proof Using "Type*".
#[local] Ltac Zify.zify_post_hook ::= Z.to_euclidean_division_equations.
Context (dec : Z -> list Z) `{!Prints dec}.
Implicit Types (u : ui_view).

Lemma dec_1 n : 0 <= n < 10 -> Z.of_nat (length (dec n)) = 1.
Proof. intros H; pose proof (dec_length n 1 ltac:(lia) ltac:(lia)); pose proof (dec_nonempty n); lia. Qed.

Lemma dec_2 n : 0 <= n < 100 -> Z.of_nat (length (dec n)) <= 2.
Proof. intros H; apply dec_length; lia. Qed.

Lemma tenths_of_small n : 0 <= n < 10000 -> Z.of_nat (length (tenths_of dec n)) = 3.
Proof.
  intros H; unfold tenths_of; rewrite !length_app; change (length (str ".")) with 1%nat.
  pose proof (dec_1 (Z.quot n 1000) ltac:(lia)); pose proof (dec_1 (Z.quot (Z.rem n 1000) 100) ltac:(lia)); lia.
Qed.

Lemma tenths_of_u16 n : 0 <= n < 100000 -> Z.of_nat (length (tenths_of dec n)) <= 4.
Proof.
  intros H; unfold tenths_of; rewrite !length_app; change (length (str ".")) with 1%nat.
  pose proof (dec_2 (Z.quot n 1000) ltac:(lia)); pose proof (dec_1 (Z.quot (Z.rem n 1000) 100) ltac:(lia)); lia.
Qed.

(** A padded number below 100 takes two characters. *)
Lemma padded n : 0 <= n < 100 -> Z.of_nat (length (pad_below_10 n ++ dec n)) <= 2.
Proof.
  intros H; unfold pad_below_10; destruct (Z.ltb_spec n 10); rewrite length_app.
  - pose proof (dec_1 n ltac:(lia)); cbn; lia.
  - pose proof (dec_2 n ltac:(lia)); cbn; lia.
Qed.

(** A temperature in tenths of a degree, a 16-bit value. *)
Lemma celsius t : -32768 <= t < 32768 -> Z.of_nat (length (dec (Z.quot t 10))) <= 5.
Proof.
  intros H; assert (-3276 <= Z.quot t 10 <= 3276) as Hq by lia.
  destruct (Z.ltb_spec (Z.quot t 10) 0) as [Hn|Hn].
  - rewrite dec_neg by done; pose proof (dec_length (- Z.quot t 10) 4 ltac:(lia) ltac:(lia)); cbn [length]; lia.
  - pose proof (dec_length (Z.quot t 10) 4 ltac:(lia) ltac:(lia)); lia.
Qed.

Lemma text_fits x y s : 0 <= x -> x + 6 * Z.of_nat (length s) <= 64 -> 0 <= y <= 25 -> fits (text x y s).
Proof. intros; cbn; lia. Qed.

Lemma label_length b cs : length (batteryModeLabel b cs) = 3%nat.
Proof. unfold batteryModeLabel; repeat case_match; done. Qed.

Lemma indicator_fits n : Forall fits (drawScreenIndicator n).
Proof.
  unfold drawScreenIndicator; apply Forall_map, Forall_forall; intros i Hi; apply elem_of_seq in Hi.
  change (Z.to_nat SCREEN_COUNT) with 5%nat in Hi; unfold compose, SCREEN_COUNT; case_match; cbn; lia.
Qed.

Lemma contract_fits y mV mA : 0 <= y <= 24 -> is_u16 mV -> 0 <= mA < 10000 -> fits (text 0 y (contract_row dec mV mA)).
Proof.
  intros Hy Hv Hm; apply text_fits; [lia| |lia]; unfold contract_row; destruct (_ <? _); [|cbn; lia].
  pose proof (padded (Z.quot mV 1000) ltac:(lia)); pose proof (tenths_of_small mA Hm).
  change (str "PD ") with [80; 68; 32]; change (str "V") with [86]; change (str "A") with [65].
  rewrite !length_app in *; cbn [length]; lia.
Qed.

Lemma icon_fits soc cs nb a : 0 <= soc <= 100 -> Forall fits (drawBatteryIcon 0 0 soc cs nb a).
Proof.
  intros H; unfold drawBatteryIcon; apply Forall_app; split; [repeat (apply Forall_cons_2; [cbn; lia|]); apply Forall_nil_2|].
  destruct nb; [repeat (apply Forall_cons_2; [cbn; lia|]); apply Forall_nil_2|]; apply Forall_app; split.
  - destruct (_ || _).
    + apply Forall_concat, Forall_map, Forall_forall; intros i Hi; apply elem_of_seq in Hi; unfold compose.
      destruct (_ <? _); [apply Forall_singleton; cbn; lia|apply Forall_nil_2].
    + destruct (_ <? _); [|apply Forall_nil_2]; apply Forall_singleton; cbn [fits].
      assert (0 <= Z.quot (16 * soc) 100 <= 16) by lia; lia.
  - destruct (_ && _); [|apply Forall_nil_2]; apply Forall_singleton; cbn; lia.
Qed.

Lemma info_cells_fit row col p : 0 <= row -> 0 <= col <= 10 -> Forall fits (info_cells row col p).
Proof.
  revert row col; induction p as [|c p IH]; intros row col Hr Hc; cbn [info_cells]; [apply Forall_nil_2|].
  destruct (Z.leb_spec 4 row); [apply Forall_nil_2|]; destruct (c =? 10); [apply IH; lia|].
  destruct (c <? 32); [apply IH; lia|]; destruct (Z.eqb_spec col 10).
  - destruct (Z.leb_spec 4 (row + 1)); [apply Forall_nil_2|]; apply Forall_cons_2; [apply text_fits; cbn; lia|apply IH; lia].
  - apply Forall_cons_2; [apply text_fits; cbn [length]; lia|apply IH; lia].
Qed.

(** What the snapshot holds after a status whose currents are below 10 A. *)
Record ui_ok u : Prop := {
  ok_vi : is_u16 (u_vi u); ok_pdv : is_u16 (u_pd_in_mV u); ok_pdi : 0 <= u_pd_in_mA u < 10000;
  ok_pov : is_u16 (u_pd_out_mV u); ok_poi : 0 <= u_pd_out_mA u < 10000; ok_lim : 0 <= u_iout_limit_mA u < 10000;
  ok_ci : is_s16 (u_ci u); ok_lm : is_s16 (u_temp_lm_dC u); ok_mp : is_s16 (u_temp_mp_dC u);
  ok_bv : 0 <= u_bv u < 10000; ok_soc : 0 <= u_soc u <= 100
}.

(** The row of the home and battery screens: three characters and more. *)
Lemma volts_length n s : 0 <= n < 10000 -> Z.of_nat (length (tenths_of dec n ++ s)) = 3 + Z.of_nat (length s).
Proof. intros H; rewrite length_app; pose proof (tenths_of_small n H); lia. Qed.

Lemma home_fits u cs vbus soc anim :
  ui_ok u -> 0 <= vbus < 10000 -> 0 <= soc <= 100 -> Forall fits (drawScreenHome dec u cs vbus soc false anim).
Proof.
  intros Hu Hv Hs; unfold drawScreenHome; apply Forall_app; split; [apply icon_fits; done|].
  repeat apply Forall_cons_2; try apply Forall_nil_2.
  - cbn [text2 fits]; rewrite length_app; change (length (str "%")) with 1%nat; split_and!; [lia| |lia..].
    destruct (Z.ltb_spec soc 100); [pose proof (dec_2 soc ltac:(lia)); lia|cbn; lia].
  - apply text_fits; rewrite ?label_length; lia.
  - apply text_fits; rewrite ?volts_length by apply Hu; cbn; lia.
  - apply text_fits; [lia| |lia]; destruct (_ <? _); [|cbn; lia].
    rewrite length_app; pose proof (tenths_of_u16 (u_vi u)) as HT; destruct Hu; cbn; lia.
  - apply text_fits; rewrite ?volts_length by done; cbn; lia.
Qed.

Lemma input_fits u : ui_ok u -> Forall fits (drawScreenInput dec u).
Proof.
  intros []; unfold drawScreenInput; apply Forall_app; split; [|apply indicator_fits].
  repeat apply Forall_cons_2; try apply Forall_nil_2.
  - apply text_fits; [lia| |lia]; unfold tenths_of.
    pose proof (padded (Z.quot (u_vi u) 1000) ltac:(lia)); pose proof (dec_1 (Z.quot (Z.rem (u_vi u) 1000) 100) ltac:(lia)).
    change (str "IN ") with [73; 78; 32]; change (str "V") with [86]; change (str ".") with [46].
    rewrite !length_app in *; cbn [length]; lia.
  - apply contract_fits; lia.
  - apply text_fits; [lia| |lia]; destruct (_ <? _); [|cbn; lia].
    assert (0 <= Z.quot (u_pd_in_mV u) 1000 <= 65) by lia; assert (0 <= Z.quot (u_pd_in_mA u) 1000 <= 9) by lia.
    pose proof (dec_length (Z.quot (u_pd_in_mV u) 1000 * Z.quot (u_pd_in_mA u) 1000) 3 ltac:(lia) ltac:(nia)).
    rewrite !length_app; cbn; lia.
  - apply text_fits; [lia| |lia]; repeat case_match; cbn; lia.
Qed.

Lemma output_fits u vbus : ui_ok u -> 0 <= vbus < 10000 -> Forall fits (drawScreenOutput dec u vbus).
Proof.
  intros [] Hv; unfold drawScreenOutput; apply Forall_app; split; [|apply indicator_fits].
  repeat apply Forall_cons_2; try apply Forall_nil_2.
  - apply text_fits; [lia| |lia]; rewrite length_app, Nat2Z.inj_add, volts_length by done; cbn; lia.
  - apply contract_fits; lia.
  - apply text_fits; [lia| |lia]; rewrite !length_app; pose proof (tenths_of_small (u_iout_limit_mA u) ltac:(lia)); cbn; lia.
Qed.

Lemma battery_fits u : ui_ok u -> u_soc u < 100 -> Forall fits (drawScreenBattery dec u).
Proof.
  intros [] Hs; unfold drawScreenBattery; apply Forall_app; split; [|apply indicator_fits].
  repeat apply Forall_cons_2; try apply Forall_nil_2.
  - apply text_fits; [lia| |lia]; pose proof (padded (u_soc u) ltac:(lia)); pose proof (tenths_of_small (u_bv u) ltac:(lia)).
    change (str "V ") with [86; 32]; change (str "%") with [37]; rewrite !length_app in *; cbn [length]; lia.
  - apply text_fits; rewrite ?length_app, ?label_length; cbn; lia.
  - apply text_fits; [lia| |lia]; rewrite !length_app; pose proof (tenths_of_u16 (Z.abs (u_ci u)) ltac:(lia)); cbn; lia.
Qed.

Lemma uptime_length t : is_u32 t -> Z.of_nat (length (uptime_row dec t)) <= 10.
Proof.
  intros Ht; unfold uptime_row; change (str "UP ") with [85; 80; 32]; rewrite length_app; cbn [length].
  assert (0 <= t / 1000 / 60 <= 71582) as Hm by lia; set (m := t / 1000 / 60) in *; clearbody m.
  destruct (Z.ltb_spec m 100).
  { rewrite length_app; pose proof (dec_2 m ltac:(lia)); cbn; lia. }
  destruct (Z.ltb_spec (m / 60) 100).
  - rewrite !length_app; pose proof (dec_2 (m / 60) ltac:(lia)); destruct (Z.ltb_spec (m / 60) 10); [|cbn; lia].
    pose proof (dec_1 (m / 60) ltac:(lia)); rewrite !length_app; destruct (Z.ltb_spec (m mod 60) 10).
    + pose proof (dec_1 (m mod 60) ltac:(lia)); cbn; lia.
    + pose proof (dec_2 (m mod 60) ltac:(lia)); cbn; lia.
  - rewrite !length_app; pose proof (dec_2 (m / 60 / 24) ltac:(lia)); cbn; lia.
Qed.

Lemma system_fits u t : ui_ok u -> is_u32 t -> Forall fits (drawScreenSystem dec u t).
Proof.
  intros [] Ht; unfold drawScreenSystem; apply Forall_app; split; [|apply indicator_fits].
  repeat apply Forall_cons_2; try apply Forall_nil_2.
  - apply text_fits; [lia| |lia]; pose proof (uptime_length t Ht); lia.
  - apply text_fits; [lia| |lia]; pose proof (celsius (u_temp_lm_dC u) ok_lm0); rewrite !length_app; cbn; lia.
  - apply text_fits; [lia| |lia]; destruct (_ =? _); [cbn; lia|]; pose proof (celsius (u_temp_mp_dC u) ok_mp0); rewrite !length_app; cbn; lia.
  - apply text_fits; [lia|cbn; lia|lia].
Qed.

Lemma update_fits `{L : LittleFS} (s : fwu) : Forall fits (fw_update_render dec s).
Proof.
  assert (H : 0 <= fw_update_progress_pct s <= 100).
  { unfold fw_update_progress_pct; destruct (_ || _); [lia|]; cbv zeta; pose proof (u32_range (u64 (x_received s * 100) / x_image_len s)).
    destruct (Z.ltb_spec 100 (u32 (u64 (x_received s * 100) / x_image_len s))); rewrite u8_small; lia. }
  unfold fw_update_render; set (pct := fw_update_progress_pct s) in *; clearbody pct.
  assert (0 <= u8 (u32 (64 * pct) / 100) <= 64) by (rewrite u32_small by lia; rewrite u8_small; lia).
  apply Forall_app; split; [|destruct (Z.ltb_spec 2 (u8 (u32 (64 * pct) / 100))); [apply Forall_singleton; cbn; lia|apply Forall_nil_2]].
  repeat apply Forall_cons_2; try apply Forall_nil_2; [cbn; lia| |cbn; lia].
  cbn [text2 fits]; rewrite length_app; change (length (str "%")) with 1%nat.
  destruct (Z.leb_spec 100 pct); [pose proof (dec_length pct 3 ltac:(lia) ltac:(lia)); lia|].
  destruct (Z.leb_spec 10 pct); [pose proof (dec_2 pct ltac:(lia))|pose proof (dec_1 pct ltac:(lia))]; lia.
Qed.

Lemma u16_at_range raw o : all_u8 raw -> is_u16 (u16_at raw o).
Proof.
  intros H; unfold u16_at; assert (Hf : all_u8 (field o 2 raw)) by (apply Forall_take, Forall_drop, H).
  pose proof (le_val_range _ Hf) as HR; assert (length (field o 2 raw) <= 2)%nat as Hl by (unfold field; rewrite length_take; lia).
  assert (256 ^ Z.of_nat (length (field o 2 raw)) <= 256 ^ 2) by (apply Z.pow_le_mono_r; lia); lia.
Qed.

(** What power.status leaves in the snapshot keeps it drawable. *)
Lemma decoded_ok `{L : LittleFS} `{P : Eeprom} payload (b b' : board) pg faults :
  all_u8 payload -> ui_ok (b_ui b) -> decode_power payload b = Some (b', pg, faults) ->
  u_pd_in_mA (b_ui b') < 10000 -> u_pd_out_mA (b_ui b') < 10000 -> u_iout_limit_mA (b_ui b') < 10000 -> ui_ok (b_ui b').
Proof.
  intros Hp Hu; unfold decode_power.
  assert (H16 : forall o, is_u16 (u16_at payload o)) by (intros; apply u16_at_range, Hp).
  assert (Hs16 : forall o, is_s16 (s16_at payload o)) by (intros; apply s16_range).
  destruct (_ && _); [|destruct (_ && _); [|discriminate]]; intros [= <- <- <-]; cbn; intros; destruct Hu; split; cbn; auto;
    try (split; [apply H16|done]).
Qed.
End Fit.

(** ** Properties *)

(** Everything the dashboard draws is inside the panel, and no text wraps, after any
    power.status whose currents are below 10 A: the home, input, output and system screens,
    an info notice of any text, the update screen, and the battery screen as long as the
    battery is below 100 %.  At 100 % the first row of the battery screen has eleven
    characters, so that its last one wraps onto the second row. *)
Theorem screens_fit (dec : Z -> list Z) `{!Prints dec} `{L : LittleFS} `{P : Eeprom} payload (b b' : board) pg faults cs vbus anim now notice :
  all_u8 payload -> ui_ok (b_ui b) -> decode_power payload b = Some (b', pg, faults) ->
  u_pd_in_mA (b_ui b') < 10000 -> u_pd_out_mA (b_ui b') < 10000 -> u_iout_limit_mA (b_ui b') < 10000 ->
  0 <= vbus < 10000 -> is_u32 now ->
  let u := b_ui b' in
  Forall fits (drawScreenHome dec u cs vbus (u_soc u) false anim) /\ Forall fits (drawScreenInput dec u) /\
  Forall fits (drawScreenOutput dec u vbus) /\ Forall fits (drawScreenSystem dec u now) /\
  Forall fits (drawInfoNotice notice) /\ Forall fits (fw_update_render dec (b_fw b')) /\
  (Forall fits (drawScreenBattery dec u) <-> u_soc u < 100) /\
  (u_soc u = 100 -> exists row, drawScreenBattery dec u !! 0%nat = Some (text 0 0 row) /\ length row = 11%nat).
Proof.
  intros Hp Hu Hd H1 H2 H3 Hv Ht; pose proof (decoded_ok payload b b' pg faults Hp Hu Hd H1 H2 H3) as Hu'; cbv zeta.
  assert (Hrow : u_soc (b_ui b') = 100 -> exists row, drawScreenBattery dec (b_ui b') !! 0%nat = Some (text 0 0 row) /\ length row = 11%nat).
  { intros E; eexists; split; [reflexivity|]; pose proof (tenths_of_small dec (u_bv (b_ui b')) ltac:(apply Hu')) as HT.
    pose proof (dec_full (dec := dec) 2 ltac:(lia)) as HD; change (10 ^ 2) with 100 in HD.
    rewrite !length_app, E; cbn; lia. }
  split_and!; [apply home_fits; [done|done|done|apply Hu']|apply input_fits; done|apply output_fits; done|apply system_fits; done
    |apply info_cells_fit; lia|apply update_fits; done| |exact Hrow].
  split; [|apply battery_fits; done]; intros HF; destruct (Z.eq_dec (u_soc (b_ui b')) 100) as [E|]; [|destruct Hu'; lia].
  destruct (Hrow E) as (row & E1 & E2); rewrite Forall_lookup in HF; specialize (HF _ _ E1); cbn in HF; lia.
Qed.

(** Decimal numbers, as the library prints them. *)
Fixpoint digits (fuel : nat) (n : Z) : list Z :=
  match fuel with
  | O => [48 + n]
  | S fuel => if n <? 10 then [48 + n] else digits fuel (n / 10) ++ [48 + n mod 10]
  end.
Definition print_dec (n : Z) : list Z :=
  if n <? 0 then 45 :: digits (Z.to_nat (Z.log2 (- n))) (- n) else digits (Z.to_nat (Z.log2 n)) n.

Lemma digits_length fuel n k : 1 <= k -> 0 <= n < 10 ^ k -> 1 <= Z.of_nat (length (digits fuel n)) <= k.
Proof.
  revert n k; induction fuel as [|fuel IH]; intros n k Hk Hn; cbn [digits]; [cbn; lia|].
  destruct (Z.ltb_spec n 10); [cbn; lia|]; rewrite length_app; cbn [length].
  assert (2 <= k) by (destruct (Z.eq_dec k 1) as [->|]; [change (10 ^ 1) with 10 in Hn|]; lia).
  replace (10 ^ k) with (10 * 10 ^ (k - 1)) in Hn by (rewrite <- Z.pow_succ_r by lia; f_equal; lia).
  pose proof (IH (n / 10) (k - 1) ltac:(lia)) as HI.
  assert (0 <= n / 10 < 10 ^ (k - 1)) by (split; [apply Z.div_pos; lia|apply Z.div_lt_upper_bound; lia]); lia.
Qed.

Lemma digits_pow fuel k : (k <= fuel)%nat -> length (digits fuel (10 ^ Z.of_nat k)) = S k.
Proof.
  revert k; induction fuel as [|fuel IH]; intros [|k] Hk; try lia; cbn [digits]; [done..|].
  assert (1 <= 10 ^ Z.of_nat k) by (apply (Z.pow_le_mono_r 10 0); lia).
  replace (Z.of_nat (S k)) with (Z.succ (Z.of_nat k)) by lia; rewrite Z.pow_succ_r by lia.
  destruct (Z.ltb_spec (10 * 10 ^ Z.of_nat k) 10); [lia|].
  rewrite length_app, Z.mul_comm, Z.div_mul by lia; rewrite IH by lia; cbn; lia.
Qed.

#[export] Instance print_dec_prints : Prints print_dec.
Proof.
  split.
  - intros n k Hk Hn; unfold print_dec; rewrite (proj2 (Z.ltb_ge _ _)) by lia; apply digits_length; done.
  - intros n; unfold print_dec; destruct (Z.ltb_spec n 0); [cbn [length]; lia|].
    assert (n < 10 ^ (n + 1)) by (pose proof (Z.pow_gt_lin_r 10 (n + 1)); lia); apply (digits_length _ n (n + 1)); lia.
  - intros k Hk; unfold print_dec; assert (0 < 10 ^ k) by (apply Z.pow_pos_nonneg; lia).
    rewrite (proj2 (Z.ltb_ge _ _)) by lia; rewrite <- (Z2Nat.id k) by done; rewrite digits_pow; [lia|].
    rewrite Z2Nat.id by done; apply Z2Nat.inj_le; [done|apply Z.log2_nonneg|].
    apply Z.log2_le_pow2; [done|]; apply Z.pow_le_mono_l; lia.
  - intros n Hn; unfold print_dec; rewrite (proj2 (Z.ltb_lt _ _)), (proj2 (Z.ltb_ge _ _)) by lia; done.
Qed.

Definition demo_status : list Z :=
  power_status_v2_bytes (StatusV2 2 31 2 0 12000 12000 2500 5050 5100 5048 3000 5000 3000 7960 850 8100 900 305 412 0 3600).

Definition demo_board : board (L := toy_fs) (P := ref_eeprom) :=
  board_boot (L := toy_fs) (P := ref_eeprom) (boot_state (L := toy_fs) fresh_disk) (Settings (P := ref_eeprom) ([], []) stored_default).

Definition demo_after : board (L := toy_fs) (P := ref_eeprom) :=
  demo_board <| b_pwr := b_pwr demo_board <| Last_Pwr_V2 := read_v2 demo_status |> |>
    <| b_ui := project_v2 (read_v2 demo_status) (b_ui demo_board) |>.

Lemma screens_fit_witness :
  decode_power demo_status demo_board = Some (demo_after, true, 0) /\
  Forall fits (drawScreenHome print_dec (b_ui demo_after) 2 5048 (u_soc (b_ui demo_after)) false 3) /\ u_vi (b_ui demo_after) = 12000.
Proof.
  assert (Hp : all_u8 demo_status).
  { unfold demo_status, power_status_v2_bytes, all_u8; cbv [app]; repeat (apply Forall_cons_2; [vm_compute; split; [discriminate|reflexivity]|]); apply List.Forall_nil. }
  assert (H0 : ui_ok (b_ui demo_board)) by (split; vm_compute; split; (discriminate || reflexivity)).
  assert (E : decode_power demo_status demo_board = Some (demo_after, true, 0)) by reflexivity.
  split; [exact E|split; [|reflexivity]].
  apply (screens_fit print_dec demo_status demo_board demo_after true 0 2 5048 3 0 [] Hp H0 E); [reflexivity..|lia|lia].
Defined.
