(* ===== verification/HubLoop.v ===== *)
(** * The main loop of the RP2040 (firmware-rp2040/src/main.cpp)

    One pass of [loop]: draining the ports, the update module, the owners of the display
    in their order, navigation, the measurements, the alarms and the dashboard.  A pass
    reads the clock, the buttons and the ADC many times; [pass_io] gives every reading of
    its own.  [andthen] composes the parts of a pass, of which each may end it. *)

From Stdlib Require Import SpecFloat.
From S2P Require Import Prelude Protocol Tps FwUpdate Router UiSettings TrustUi LocalMenu HubDispatch HubScreens.

(** ** Constants *)

(* src: firmware-rp2040/src/main.cpp:170-172 INTERVAL_MS *)
Definition BAD_PSU_REMINDER_INTERVAL_MS : Z := 10000.
Definition LOW_BATTERY_INTERVAL_MS : Z := 30000.
Definition CRITICAL_BATTERY_INTERVAL_MS : Z := 5000.
(* src: firmware-rp2040/src/main.cpp:177-177 DEBOUNCE_MS *)
Definition DEBOUNCE_MS : Z := 50.
(* src: firmware-rp2040/src/main.cpp:228-228 FW_UPDATE_BANNER_TEXT *)
Definition FW_UPDATE_BANNER_TEXT : list Z := str "FW UPDATE".
(* src: firmware-rp2040/src/main.cpp:267-269 UPS_STALE *)
Definition UPS_STALE_MS : Z := 5000.
Definition UPS_STALE_BOOT_GRACE_MS : Z := 8000.
Definition UPS_STALE_REMINDER_MS : Z := 30000.
(* src: firmware-rp2040/src/main.cpp:284-285 UPS_RX_REINIT *)
Definition UPS_RX_REINIT_AFTER_MS : Z := 10000.
Definition UPS_RX_REINIT_RETRY_MS : Z := 30000.
(* src: firmware-rp2040/src/main.cpp:290-290 BAD_PSU_DEBOUNCE_PASSES *)
Definition BAD_PSU_DEBOUNCE_PASSES : Z := 60.
(* src: firmware-rp2040/src/main.cpp:388-388 CS_CHANGE_DEBOUNCE *)
Definition CS_CHANGE_DEBOUNCE : Z := 10.
(* src: firmware-rp2040/src/main.cpp:392-392 STARTUP_STABILIZE_MS *)
Definition STARTUP_STABILIZE_MS : Z := 3000.
(* src: firmware-rp2040/src/main.cpp:2059-2059 MENU_ACTIVATION_HOLD_MS *)
Definition MENU_ACTIVATION_HOLD_MS : Z := 2000.

(** Floating point, as in [Tps]. *)
Abbreviation f_mul := (SFmul 24 128).
Abbreviation f_add := (SFadd 24 128).
Abbreviation f_sub := (SFsub 24 128).
Abbreviation f_div := (SFdiv 24 128).

(* src: firmware-rp2040/src/main.cpp:137-151 DIVIDER_RATIO, VREF *)
Definition BATT_DIVIDER_RATIO : spec_float := f_div (f32_of_int 47) (f_add (f32_of_int 100) (f32_of_int 47)).
Definition VBUS_DIVIDER_RATIO : spec_float := f_div (f32_lit 51 10) (f_add (f32_lit 274 10) (f32_lit 51 10)).
Definition adcLsb_mV : spec_float := f_div (f_mul (f32_lit 33 10) (f32_of_int 1000)) (f32_of_int 4095).

(* src: firmware-rp2040/src/main.cpp:2110-2119 loop (ADC) *)
Definition divided_mV (raw : Z) (ratio : spec_float) : Z :=
  f_trunc (f_add (f_div (f_mul (f32_of_int raw) adcLsb_mV) ratio) (f32_lit 1 2)).

(* src: firmware-rp2040/src/main.cpp:370-378 EMA *)
Definition EMA_ALPHA : spec_float := f32_lit 1 10.
Definition SOC_EMA_ALPHA : spec_float := f32_lit 5 100.
Definition SOC_SNAP_THRESHOLD : Z := 3.

(** [alpha * x + (1.0f - alpha) * old]. *)
Definition ema (alpha : spec_float) (x : Z) (old : spec_float) : spec_float :=
  f_add (f_mul alpha (f32_of_int x)) (f_mul (f_sub (f32_of_int 1) alpha) old).

(** ** State *)

(** The globals that only the loop uses, and its static variables. *)
(* src: firmware-rp2040/src/main.cpp:190-196 loop state *)
Record dash := Dash {
  startupComplete : bool; startupEndTime : Z;
  displayCs : Z; csChangeCounter : Z;
  badChargerDebounce : Z; badChargerAlertPlayed : bool; lastReminderTime : Z;
  upsStaleActive : bool; upsStaleBeeped : bool; upsStaleLastReminder : Z; upsStaleSinceMs : Z;
  upsRxReinitLastMs : Z; upsRxReinitCount : Z;
  previousPowerGood : bool; powerLossAlertPlayed : bool; lastLowBatteryBeep : Z;
  animPhase : Z;
  s_dismiss_left_prev : bool; s_dismiss_right_prev : bool;
  s_left_start_ms : Z; s_menu_fired : bool; s_home_at_start : bool; s_left_consumed : bool; s_left_prev_down : bool;
  lastBtnLeftHigh : bool; lastBtnRightHigh : bool; lastDebounceLeft : Z; lastDebounceRight : Z;
  filtered_batt_mV : spec_float; filtered_soc : spec_float; vbus_out_mV : Z
}.

#[export] Instance eta_dash : Eta dash := fun d =>
  Dash (startupComplete d) (startupEndTime d) (displayCs d) (csChangeCounter d)
    (badChargerDebounce d) (badChargerAlertPlayed d) (lastReminderTime d)
    (upsStaleActive d) (upsStaleBeeped d) (upsStaleLastReminder d) (upsStaleSinceMs d)
    (upsRxReinitLastMs d) (upsRxReinitCount d)
    (previousPowerGood d) (powerLossAlertPlayed d) (lastLowBatteryBeep d)
    (animPhase d) (s_dismiss_left_prev d) (s_dismiss_right_prev d)
    (s_left_start_ms d) (s_menu_fired d) (s_home_at_start d) (s_left_consumed d) (s_left_prev_down d)
    (lastBtnLeftHigh d) (lastBtnRightHigh d) (lastDebounceLeft d) (lastDebounceRight d)
    (filtered_batt_mV d) (filtered_soc d) (vbus_out_mV d).

(* src: firmware-rp2040/src/main.cpp:384-393 loop state (initial) *)
Definition dash_boot (millis : Z) : dash :=
  Dash false (u32 (millis + STARTUP_STABILIZE_MS)) 0 0 0 false 0 false false 0 0 0 0 false false 0 0
    false false 0 false false false false true true 0 0 (f32_of_int (-1)) (f32_of_int (-1)) 0.

(** Where a pass reads the clock or the buttons. *)
Inductive site :=
  | At_fw_tick | At_trust | At_menu_ctx | At_menu | At_network | At_guard | At_dismiss | At_gesture | At_gesture_open
  | At_deadline | At_reopen | At_no_modem | At_keys | At_next | At_prev | At_return | At_startup | At_startup_end
  | At_stale | At_alert_ttl | At_dismissal_ttl | At_info_ttl | At_sound | At_screen | At_loss | At_low.

(** [io_left] and [io_right] say that the button is down; [io_rx] is what [Router] drains. *)
Record pass_io := Io {
  io_ms : site -> Z;
  io_left : site -> bool;
  io_right : site -> bool;
  io_batt : Z;
  io_vbus : Z;
  io_rx : Z -> Z * list (Z * Z)
}.

Section Loop.
Context `{L : LittleFS} `{P : Eeprom} (xip : list Z) (dec : Z -> list Z).
Abbreviation hub := (hub board).
Implicit Types (h : hub) (d : dash) (io : pass_io).

(** A part of a pass: the new state, and whether the pass goes on. *)
Definition part : Type := hub -> dash -> hub * dash * bool.
Definition andthen (p q : part) : part := fun h d =>
  let '(h, d, go) := p h d in if go : bool then q h d else (h, d, false).

Definition is_reboot (e : effect) : bool := match e with Reboot _ => true | _ => false end.
Definition halted h : bool := existsb is_reboot (fx (app h)).

(** ** Sounds *)

Definition silenced (l : list effect) h : hub := if ui_settings_sound_enabled (b_cfg (app h)) then emit l h else h.

(* src: firmware-rp2040/src/main.cpp:538-547 playErrorSound *)
Definition playErrorSound : hub -> hub := silenced (concat (replicate 6 [Tone 2400 100; Delay 150])).
(* src: firmware-rp2040/src/main.cpp:550-556 playReminderBeep *)
Definition playReminderBeep : hub -> hub := silenced [Tone 2400 80; Delay 50; Tone 2400 80; Delay 50].
(* src: firmware-rp2040/src/main.cpp:559-570 playStartupMelody *)
Definition playStartupMelody : hub -> hub :=
  silenced (concat (map (fun n => [Tone n.1 n.2; Delay (n.2 + 30)]) [(523, 100); (659, 100); (784, 100); (1047, 200)]) ++ [No_tone]).
(* src: firmware-rp2040/src/main.cpp:573-585 playPowerLossAlarm *)
Definition playPowerLossAlarm : hub -> hub :=
  silenced (concat (replicate 3 [Tone 1500 150; Delay 180; Tone 1000 150; Delay 180; Tone 700 200; Delay 300]) ++ [No_tone]).
(* src: firmware-rp2040/src/main.cpp:588-593 playLowBatteryBeep *)
Definition playLowBatteryBeep : hub -> hub := silenced [Tone 1800 100; Delay 100; No_tone].
(* src: firmware-rp2040/src/main.cpp:596-603 playCriticalBatteryBeep *)
Definition playCriticalBatteryBeep : hub -> hub := silenced [Tone 2000 80; Delay 120; Tone 2000 80; Delay 80; No_tone].

(** ** Owners of the display *)

Definition nav_of h : nav_state := b_nav (app h).
Definition on_nav (g : nav_state -> nav_state) : hub -> hub := on_board (fun b => b <| b_nav := g (b_nav b) |>).
Definition guard_release : hub -> hub := on_nav (fun n => n <| s_btn_release_guard := true |>).

(* src: firmware-rp2040/src/main.cpp:1894-1911 loop (drain, update module) *)
Definition drain_part io : part := fun h d =>
  let h := wups_router_drain (wups_on_local_frame xip) (io_rx io) h in
  if halted h then (h, d, false) else
  let '(fw, logs, reboot) := fw_update_tick (b_fw (app h)) (io_ms io At_fw_tick) in
  let h := send_logs logs (on_board (fun b => b <| b_fw := fw |>) h) in
  if reboot : bool then (emit [Delay 100; Reboot (length (written h))] h, d, false) else (h, d, true).

(* src: firmware-rp2040/src/main.cpp:1920-1924 loop (update session) *)
Definition session_part : part := fun h d =>
  if fw_update_session_active (b_fw (app h))
  then (emit [Display (fw_update_render dec (b_fw (app h))); Delay 5] h, d, false)
  else (h, d, true).

(* src: firmware-rp2040/src/trust_ui.cpp:412-422 send_button_event *)
Definition button_event_bytes (button action : Z) : list Z := [1; button; action; 0].

Definition do_trust_act (a : trust_act) h : hub :=
  match a with
  | Trust_draw items => emit [Display (map Item items)] h
  | Trust_beep f t => beep f t h
  | Trust_result seq pl => wups_send_seq WUPS_PORT_ESP32 WUPS_ADDR_ESP32 WUPS_CLASS_UI WUPS_OP_UI_TRUST_RESULT WUPS_FLAG_RESP seq pl h
  | Trust_button button action =>
      wups_send WUPS_PORT_ESP32 WUPS_ADDR_BROADCAST WUPS_CLASS_UI WUPS_OP_UI_BUTTON_EVENT WUPS_FLAG_EVENT (button_event_bytes button action) h
  end.

(* src: firmware-rp2040/src/main.cpp:1930-1943 loop (trust screen) *)
Definition trust_part io : part := fun h d =>
  if trust_ui_active (b_trust (app h)) then
    let h := guard_release (on_nav (fun n => n <| menu_pending_deadline_ms := 0 |>) h) in
    let '(t, acts) := trust_ui_tick dec (io_ms io At_trust) (io_left io At_trust) (io_right io At_trust) (b_trust (app h)) in
    let h := fold_left (fun h a => do_trust_act a h) acts (on_board (fun b => b <| b_trust := t |>) h) in
    (emit [Delay 50] h, d, false)
  else (h, d, true).

(** The menu has been closed already: [Menu_open_esp32] includes it. *)
(* src: firmware-rp2040/src/main.cpp:1750-1763 local_menu_host_open_esp32 *)
Definition local_menu_host_open_esp32 (millis : Z) h : hub :=
  let h := wups_send WUPS_PORT_ESP32 WUPS_ADDR_BROADCAST WUPS_CLASS_UI WUPS_OP_UI_BUTTON_EVENT WUPS_FLAG_EVENT
             (button_event_bytes 255 2) h in
  on_nav (fun n => n <| menu_pending_deadline_ms := u32 (millis + MENU_RESPONSE_TIMEOUT_MS) |> <| s_esp32_menu_from_local := true |>)
    (beep 1200 80 h).

Definition do_menu_act (millis : Z) (a : menu_act) h : hub :=
  match a with
  | Menu_draw items => emit [Display (map Item items)] h
  | Menu_tone f t => emit [Tone f t] h
  | Menu_power op => wups_send WUPS_PORT_CH32X WUPS_ADDR_CH32X WUPS_CLASS_POWER op WUPS_FLAG_REQ [] h
  | Menu_apply_brightness => emit [Set_contrast (ui_settings_brightness_contrast (b_cfg (app h)))] h
  | Menu_open_esp32 => local_menu_host_open_esp32 millis h
  end.

(* src: firmware-rp2040/src/main.cpp:1950-1962 loop (menu context) *)
Definition menu_ctx io h : LocalMenuCtx :=
  let c := b_pwr (app h) in let u := b_ui (app h) in
  Ctx (io_ms io At_menu_ctx / 1000) (u_temp_lm_dC u) (u_temp_mp_dC u)
    (negb (Last_Power_Status_Ms c =? 0) && (u32 (io_ms io At_menu_ctx - Last_Power_Status_Ms c) <? 3000))
    (divided_mV (io_vbus io) VBUS_DIVIDER_RATIO).

(* src: firmware-rp2040/src/main.cpp:1949-1970 loop (local menu) *)
Definition menu_part io : part := fun h d =>
  if local_menu_active (b_menu (app h)) then
    let h := guard_release h in
    let '(u, m, acts) := local_menu_tick dec (io_ms io At_menu) (io_left io At_menu) (io_right io At_menu)
                           (menu_ctx io h) (b_cfg (app h)) (b_menu (app h)) in
    let h := fold_left (fun h a => do_menu_act (io_ms io At_network) a h) acts (on_board (fun b => b <| b_cfg := u |> <| b_menu := m |>) h) in
    (emit [Delay 50] h, d, false)
  else (h, d, true).

(* src: firmware-rp2040/src/main.cpp:1976-1982 loop (release guard) *)
Definition guard_part io : part := fun h d =>
  if s_btn_release_guard (nav_of h) then
    if io_left io At_guard || io_right io At_guard then (emit [Delay 50] h, d, false)
    else (on_nav (fun n => n <| s_btn_release_guard := false |>) h, d, true)
  else (h, d, true).

(* src: firmware-rp2040/src/main.cpp:2000-2031 loop (dismissal) *)
Definition dismiss_part io : part := fun h d =>
  let left_down := io_left io At_dismiss in let right_down := io_right io At_dismiss in
  let press_edge := (left_down && negb (s_dismiss_left_prev d)) || (right_down && negb (s_dismiss_right_prev d)) in
  let d := d <| s_dismiss_left_prev := left_down |> <| s_dismiss_right_prev := right_down |> in
  let a := b_alert (app h) in let i := b_info (app h) in
  if netAlertOnScreen a && netAlertActive a && press_edge then
    let h := on_board (fun b => b <| b_alert := a <| netAlertDismissedText := netAlertText a |>
                 <| netAlertDismissedAtMs := io_ms io At_dismiss |> <| netAlertActive := false |>
                 <| netAlertText := [] |> <| netAlertOnScreen := false |> |>) h in
    (emit [Delay 50] (guard_release h), d, false)
  else if infoOnScreen i && negb (bool_decide (infoText i = [])) && press_edge then
    let h := on_board (fun b => b <| b_info := i <| infoText := [] |> <| infoUntilMs := 0 |>
                 <| infoChirpPending := false |> <| infoOnScreen := false |> |>) h in
    (emit [Delay 50] (guard_release h), d, false)
  else (h, d, true).

(** ** The menu gesture and navigation *)

Definition open_local_menu (millis : Z) : hub -> hub := on_board (fun b => b <| b_menu := local_menu_open millis (b_menu b) |>).

(* src: firmware-rp2040/src/main.cpp:2036-2086 loop (gesture) *)
Definition gesture_part io : part := fun h d =>
  let h := if menu_pending_deadline_ms (nav_of h) =? 0 then on_nav (fun n => n <| s_esp32_menu_from_local := false |>) h else h in
  if io_left io At_gesture then
    let now_ms := io_ms io At_gesture in
    let d := if s_left_start_ms d =? 0
             then d <| s_left_start_ms := now_ms |> <| s_home_at_start := currentScreen (nav_of h) =? 0 |> else d in
    if s_home_at_start d && negb (s_menu_fired d) && (MENU_ACTIVATION_HOLD_MS <=? u32 (now_ms - s_left_start_ms d)) then
      (beep 1200 80 (open_local_menu (io_ms io At_gesture_open) h), d <| s_menu_fired := true |> <| s_left_consumed := true |>, true)
    else (h, d, true)
  else (h, d <| s_left_start_ms := 0 |> <| s_menu_fired := false |> <| s_home_at_start := false |>, true).

(* src: firmware-rp2040/src/main.cpp:2094-2103 loop (no modem) *)
Definition deadline_part io : part := fun h d =>
  let deadline := menu_pending_deadline_ms (nav_of h) in
  if negb (deadline =? 0) then
    let disarm := on_nav (fun n => n <| menu_pending_deadline_ms := 0 |>) in
    if trust_ui_active (b_trust (app h)) then (disarm h, d, true)
    else if 0 <=? s32 (u32 (io_ms io At_deadline - deadline)) then
      let h := open_local_menu (io_ms io At_reopen) (beep 1500 80 (disarm h)) in
      (on_board (fun b => b <| b_menu := local_menu_note_no_modem (io_ms io At_no_modem) (b_menu b) |>) h, d, true)
    else (h, d, true)
  else (h, d, true).

(** The left button's answer is not used by the loop. *)
(* src: firmware-rp2040/src/main.cpp:1712-1741 checkButtons *)
Definition checkButtons (now : Z) (left_down right_down : bool) d : dash * Z :=
  let '(d, result) :=
    if left_down && lastBtnLeftHigh d && (DEBOUNCE_MS <=? u32 (now - lastDebounceLeft d))
    then (d <| lastDebounceLeft := now |>, -1) else (d, 0) in
  let d := d <| lastBtnLeftHigh := negb left_down |> in
  let '(d, result) :=
    if right_down && lastBtnRightHigh d && (DEBOUNCE_MS <=? u32 (now - lastDebounceRight d))
    then (d <| lastDebounceRight := now |>, 1) else (d, result) in
  (d <| lastBtnRightHigh := negb right_down |>, result).

Definition go_to (screen now : Z) h : hub :=
  beep 1000 20 (on_nav (fun n => n <| currentScreen := screen |> <| lastInteractionTime := now |>) h).

(* src: firmware-rp2040/src/main.cpp:2140-2167 loop (navigation) *)
Definition nav_part io : part := fun h d =>
  let '(d, btnAction) := checkButtons (io_ms io At_keys) (io_left io At_keys) (io_right io At_keys) d in
  let h := if 0 <? btnAction then go_to ((currentScreen (nav_of h) + 1) mod SCREEN_COUNT) (io_ms io At_next) h else h in
  let left_down := io_left io At_prev in
  let released := s_left_prev_down d && negb left_down in
  let h := if released && negb (s_left_consumed d)
           then go_to ((currentScreen (nav_of h) + SCREEN_COUNT - 1) mod SCREEN_COUNT) (io_ms io At_prev) h else h in
  let d := if released then d <| s_left_consumed := false |> else d in
  let d := d <| s_left_prev_down := left_down |> in
  let n := nav_of h in
  let h := if negb (currentScreen n =? 0) && (AUTO_RETURN_MS <=? u32 (io_ms io At_return - lastInteractionTime n))
           then on_nav (fun n => n <| currentScreen := 0 |>) h else h in
  (h, d, true).

(** ** Measurements *)

(* src: firmware-rp2040/src/main.cpp:2169-2197 loop (battery) *)
Definition battery_part io : part := fun h d =>
  let d := d <| vbus_out_mV := divided_mV (io_vbus io) VBUS_DIVIDER_RATIO |> <| animPhase := u8 (animPhase d + 1) |> in
  let batt := divided_mV (io_batt io) BATT_DIVIDER_RATIO in
  let d := d <| filtered_batt_mV := if SFltb (filtered_batt_mV d) (f32_of_int 0) then f32_of_int batt
                                    else ema EMA_ALPHA batt (filtered_batt_mV d) |> in
  let bv := f_trunc (f_add (filtered_batt_mV d) (f32_lit 1 2)) in
  let rawSoc := voltageToSoc bv in
  let d := d <| filtered_soc := if SFltb (filtered_soc d) (f32_of_int 0) || (SOC_SNAP_THRESHOLD <? Z.abs (rawSoc - f_trunc (filtered_soc d)))
                                then f32_of_int rawSoc else ema SOC_EMA_ALPHA rawSoc (filtered_soc d) |> in
  let soc := f_trunc (f_add (filtered_soc d) (f32_lit 1 2)) in
  (on_board (fun b => b <| b_ui := b_ui b <| u_bv := bv |> <| u_soc := soc |> |>
              <| b_pwr := b_pwr b <| newFrameReceived := false |> |>) h, d, true).

(* src: firmware-rp2040/src/main.cpp:2208-2218 loop (start-up gate) *)
Definition startup_part io : part := fun h d =>
  if startupComplete d then (h, d, true)
  else if startupEndTime d <=? io_ms io At_startup then
    (h, d <| startupComplete := true |> <| previousPowerGood := u_pg (b_ui (app h)) =? 1 |>
          <| lastLowBatteryBeep := io_ms io At_startup_end |> <| displayCs := u_cs (b_ui (app h)) |>, true)
  else (emit [Delay 50] h, d, false).

(* src: firmware-rp2040/src/main.cpp:2228-2236 loop (charge state) *)
Definition charge_part : part := fun h d =>
  let cs := u_cs (b_ui (app h)) in
  if negb (cs =? displayCs d) then
    let d := d <| csChangeCounter := csChangeCounter d + 1 |> in
    if CS_CHANGE_DEBOUNCE <=? csChangeCounter d then (h, d <| displayCs := cs |> <| csChangeCounter := 0 |>, true) else (h, d, true)
  else (h, d <| csChangeCounter := 0 |>, true).

(** ** The stale stream *)

(* src: firmware-rp2040/src/main.cpp:2245-2260 loop (staleness) *)
Definition ups_stale (now last : Z) : bool :=
  if negb (last =? 0) then UPS_STALE_MS <? u32 (now - last) else UPS_STALE_BOOT_GRACE_MS <? now.

Definition stale_note : list Z := str "RP2040: power data STALE (no power.status from CH32X)".
Definition restored_note : list Z := str "RP2040: power data restored".
Definition reinit_note : list Z := str "RP2040: reinit UART0 RX (power data stale)".
Definition reboot_note : list Z := str "RP2040: rebooting self (UART0 RX wedged, reinit failed)".

(* src: firmware-rp2040/src/main.cpp:2245-2260 loop (staleness) *)
Definition stale_part io : part := fun h d =>
  let now := io_ms io At_stale in
  let upsStale := ups_stale now (Last_Power_Status_Ms (b_pwr (app h))) in
  if negb (eqb upsStale (upsStaleActive d)) then
    let d := d <| upsStaleActive := upsStale |> in
    if upsStale then
      (wupsSendLogToHost 1 stale_note h, d <| upsStaleBeeped := false |> <| upsStaleSinceMs := now |> <| upsRxReinitLastMs := 0 |>, true)
    else (wupsSendLogToHost 2 restored_note h, d, true)
  else (h, d, true).

(* src: firmware-rp2040/src/main.cpp:2272-2286 loop (recovery ladder) *)
Definition ladder_part io : part := fun h d =>
  let now := io_ms io At_stale in
  let '(h, d) :=
    if upsStaleActive d && (UPS_RX_REINIT_AFTER_MS <=? u32 (now - upsStaleSinceMs d)) &&
       ((upsRxReinitLastMs d =? 0) || (UPS_RX_REINIT_RETRY_MS <=? u32 (now - upsRxReinitLastMs d)))
    then (wupsSendLogToHost 1 reinit_note (emit [Uart0_reinit] h),
          d <| upsRxReinitLastMs := now |> <| upsRxReinitCount := u16 (upsRxReinitCount d + 1) |>)
    else (h, d) in
  if upsStaleActive d && negb (Last_Power_Status_Ms (b_pwr (app h)) =? 0) && (30000 <=? u32 (now - upsStaleSinceMs d)) then
    let h := wupsSendLogToHost 1 reboot_note h in
    (emit [Delay 100; Reboot (length (written h))] h, d, false)
  else (h, d, true).

(** ** Alarms and the display *)

(* src: firmware-rp2040/src/main.cpp:2299-2307 loop (bad charger) *)
Definition bad_psu_part : part := fun h d =>
  let u := b_ui (app h) in
  let badChargerRaw := (u_pg u =? 1) && ((u_vi u <? 8000) || (21000 <? u_vi u)) in
  let n := badChargerDebounce d in
  (h, d <| badChargerDebounce := if badChargerRaw then (if n <? 255 then n + 1 else n) else 0 |>, true).

Definition badCharger d : bool := BAD_PSU_DEBOUNCE_PASSES <=? badChargerDebounce d.

(* src: firmware-rp2040/src/main.cpp:2314-2338 loop (expiry) *)
Definition expire_part io : part := fun h d =>
  (on_board (fun b =>
     let a := b_alert b in let i := b_info b in
     let a := if netAlertActive a && (ALERT_STALE_TTL_MS <=? u32 (io_ms io At_alert_ttl - netAlertLastAssertMs a))
              then a <| netAlertActive := false |> <| netAlertText := [] |> else a in
     let a := if negb (bool_decide (netAlertDismissedText a = [])) &&
                 (ALERT_DISMISS_COOLDOWN_MS <=? u32 (io_ms io At_dismissal_ttl - netAlertDismissedAtMs a))
              then a <| netAlertDismissedText := [] |> <| netAlertDismissedAtMs := 0 |> else a in
     let i := if negb (bool_decide (infoText i = [])) && (0 <=? s32 (u32 (io_ms io At_info_ttl - infoUntilMs i)))
              then i <| infoText := [] |> <| infoUntilMs := 0 |> <| infoChirpPending := false |> else i in
     b <| b_alert := a <| netAlertOnScreen := false |> |> <| b_info := i <| infoOnScreen := false |> |>) h, d, true).

(* src: firmware-rp2040/src/main.cpp:2340-2369 loop (NO UPS) *)
Definition no_ups_banner io : part := fun h d =>
  let now := io_ms io At_sound in
  let '(h, d) :=
    if negb (upsStaleBeeped d) then (playErrorSound h, d <| upsStaleBeeped := true |> <| upsStaleLastReminder := now |>)
    else if UPS_STALE_REMINDER_MS <=? u32 (now - upsStaleLastReminder d)
         then (playReminderBeep h, d <| upsStaleLastReminder := now |>) else (h, d) in
  let secs := u32 (io_ms io At_screen - Last_Power_Status_Ms (b_pwr (app h))) / 1000 in
  (emit [Display (draw_no_ups dec (animPhase d) secs)] h, d, true).

(* src: firmware-rp2040/src/main.cpp:2370-2400 loop (BAD PSU) *)
Definition bad_psu_banner io : part := fun h d =>
  let now := io_ms io At_sound in
  let '(h, d) :=
    if negb (badChargerAlertPlayed d) then (playErrorSound h, d <| badChargerAlertPlayed := true |> <| lastReminderTime := now |>)
    else if BAD_PSU_REMINDER_INTERVAL_MS <=? u32 (now - lastReminderTime d)
         then (playReminderBeep h, d <| lastReminderTime := now |>) else (h, d) in
  (emit [Display (draw_bad_psu (animPhase d))] h, d, true).

(* src: firmware-rp2040/src/main.cpp:2401-2435 loop (MODEM) *)
Definition modem_banner io : part := fun h d =>
  let now := io_ms io At_sound in
  let h := on_board (fun b => b <| b_alert := b_alert b <| netAlertOnScreen := true |> |>) h in
  let a := b_alert (app h) in
  let fwUpdateBanner := bool_decide (netAlertText a = FW_UPDATE_BANNER_TEXT) in
  let h :=
    if fwUpdateBanner then h
    else if negb (netAlertBeeped a) then
      on_board (fun b => b <| b_alert := b_alert b <| netAlertBeeped := true |> <| netAlertLastReminder := now |> |>) (playErrorSound h)
    else if BAD_PSU_REMINDER_INTERVAL_MS <=? u32 (now - netAlertLastReminder a) then
      on_board (fun b => b <| b_alert := b_alert b <| netAlertLastReminder := now |> |>) (playReminderBeep h)
    else h in
  (emit [Display (draw_modem (animPhase d) (netAlertText a) fwUpdateBanner)] h, d, true).

(* src: firmware-rp2040/src/main.cpp:2436-2452 loop (info notice) *)
Definition info_banner : part := fun h d =>
  let i := b_info (app h) in
  let h := on_board (fun b => b <| b_info := b_info b <| infoOnScreen := true |> <| infoChirpPending := false |> |>) h in
  let h := if infoChirpPending i then beep 1000 20 h else h in
  (emit [Display (drawInfoNotice (infoText i))] h, d <| badChargerAlertPlayed := false |>, true).

(** Battery presence is not detected: [noBattery] is false. *)
(* src: firmware-rp2040/src/main.cpp:2453-2476 loop (dashboard) *)
Definition dashboard io : part := fun h d =>
  let u := b_ui (app h) in let scr := currentScreen (nav_of h) in
  let view :=
    if scr =? SCREEN_HOME then drawScreenHome dec u (displayCs d) (vbus_out_mV d) (u_soc u) false (animPhase d)
    else if scr =? SCREEN_INPUT then drawScreenInput dec u
    else if scr =? SCREEN_OUTPUT then drawScreenOutput dec u (vbus_out_mV d)
    else if scr =? SCREEN_BATTERY then drawScreenBattery dec u
    else if scr =? SCREEN_SYSTEM then drawScreenSystem dec u (io_ms io At_screen)
    else [] in
  (emit [Display view] h, d <| badChargerAlertPlayed := false |>, true).

(* src: firmware-rp2040/src/main.cpp:2340-2478 loop (display) *)
Definition display_part io : part := fun h d =>
  if upsStaleActive d then no_ups_banner io h d
  else if badCharger d then bad_psu_banner io h d
  else if netAlertActive (b_alert (app h)) then modem_banner io h d
  else if negb (bool_decide (infoText (b_info (app h)) = [])) then info_banner h d
  else dashboard io h d.

(* src: firmware-rp2040/src/main.cpp:2480-2494 loop (power loss) *)
Definition power_loss_part io : part := fun h d =>
  let currentPowerGood := u_pg (b_ui (app h)) =? 1 in
  let '(h, d) :=
    if previousPowerGood d && negb currentPowerGood && negb (powerLossAlertPlayed d)
    then (playPowerLossAlarm h, d <| powerLossAlertPlayed := true |> <| lastLowBatteryBeep := io_ms io At_loss |>) else (h, d) in
  let d := if currentPowerGood then d <| powerLossAlertPlayed := false |> else d in
  (h, d <| previousPowerGood := currentPowerGood |>, true).

(* src: firmware-rp2040/src/main.cpp:2496-2516 loop (low battery) *)
Definition low_battery_part io : part := fun h d =>
  let now := io_ms io At_low in
  let soc := u_soc (b_ui (app h)) in
  let '(h, d) :=
    if negb (u_pg (b_ui (app h)) =? 1) && negb (badCharger d) then
      if soc <? 10 then
        if CRITICAL_BATTERY_INTERVAL_MS <=? u32 (now - lastLowBatteryBeep d)
        then (playCriticalBatteryBeep h, d <| lastLowBatteryBeep := now |>) else (h, d)
      else if soc <? 20 then
        if LOW_BATTERY_INTERVAL_MS <=? u32 (now - lastLowBatteryBeep d)
        then (playLowBatteryBeep h, d <| lastLowBatteryBeep := now |>) else (h, d)
      else (h, d)
    else (h, d) in
  (emit [Delay 50] h, d, true).

(** ** The pass *)

Definition alarms io : part :=
  andthen charge_part (andthen (stale_part io) (andthen (ladder_part io) (andthen bad_psu_part (andthen (expire_part io)
    (andthen (display_part io) (andthen (power_loss_part io) (low_battery_part io))))))).

Definition dashboard_pass io : part :=
  andthen (dismiss_part io) (andthen (gesture_part io) (andthen (deadline_part io) (andthen (nav_part io)
    (andthen (battery_part io) (andthen (startup_part io) (alarms io)))))).

(** The parts that precede the dashboard, each of which may own the display. *)
Definition owners io : part :=
  andthen session_part (andthen (trust_part io) (andthen (menu_part io) (guard_part io))).

(* src: firmware-rp2040/src/main.cpp:1894-2516 loop *)
Definition loop io (s : hub * dash) : hub * dash :=
  let '(h, d, _) := andthen (drain_part io) (andthen (owners io) (dashboard_pass io)) s.1 s.2 in (h, d).

(** [boot] is the outcome of [fw_update_boot_init]; the pins, the UARTs and the OLED are
    set up by the board's libraries. *)
(* src: firmware-rp2040/src/main.cpp:1843-1892 setup *)
Definition setup (millis_boot millis_end : Z) (usb : bool) h : hub * dash :=
  let h := on_board (fun b => b <| b_cfg := ui_settings_begin (b_cfg b) |>) h in
  let h := wupsSendHelloBcast (wups_router_init usb true true h) in
  let h := emit [Set_contrast (ui_settings_brightness_contrast (b_cfg (app h)));
                 Display [text 11 2 (str "Web3 Pi"); text2 14 14 (str "UPS")]] h in
  let h := playStartupMelody h in
  let '(fw, logs, reboot) := fw_update_boot_init (b_fw (app h)) millis_boot in
  let h := send_logs logs (on_board (fun b => b <| b_fw := fw |>) h) in
  let h := if reboot : bool then emit [Delay 100; Reboot (length (written h))] h else h in
  (on_nav (fun n => n <| lastInteractionTime := millis_end |>) h, dash_boot millis_end).
End Loop.
