(* ===== verification/HubPasses.v ===== *)
(** * What a pass of the RP2040's main loop may do
    (firmware-rp2040/src/main.cpp)

    Theorems about the passes of [HubLoop]: an open prompt, menu or update session keeps
    everything else from the display and the buttons; the RP2040 restarts itself exactly
    when its record of the passes says so; the telemetry sent over LTE is throttled. *)

From S2P Require Import Prelude Protocol Tps FwUpdate FwInstall Router UiSettings TrustUi LocalMenu HubDispatch HubCommands HubScreens HubLoop.

(** ** The recovery ladder against its specification *)

(** The readings of the passes that reached the staleness check: the clock and the time of
    the last power.status.  [stale_since] is the clock of the first reading of the
    uninterrupted stale ones at the end. *)
Definition next_since (o : option Z) (r : Z * Z) : option Z := if ups_stale r.1 r.2 then Some (default r.1 o) else None.
Definition stale_since (readings : list (Z * Z)) : option Z := fold_left next_since readings None.

(** A reading found the data stale. *)
Definition is_stale (r : Z * Z) : Prop := ups_stale r.1 r.2 = true.

(** The readings end with stale ones, the first of them at [t0]; the one before was fresh. *)
Definition stale_from (t0 : Z) (readings : list (Z * Z)) : Prop :=
  exists fresh l0 rest, readings = fresh ++ (t0, l0) :: rest /\ Forall is_stale ((t0, l0) :: rest) /\
    (forall r, last fresh = Some r -> ~ is_stale r).

Lemma stale_since_app readings r : stale_since (readings ++ [r]) = next_since (stale_since readings) r.
Proof. unfold stale_since; rewrite fold_left_app; done. Qed.

Lemma stale_since_spec readings :
  match stale_since readings with
  | Some t0 => stale_from t0 readings
  | None => forall r, last readings = Some r -> ~ is_stale r
  end.
Proof.
  induction readings as [|r readings IH] using rev_ind; [done|]; rewrite stale_since_app; unfold next_since.
  destruct (ups_stale r.1 r.2) eqn:E.
  - destruct (stale_since readings) as [t0|]; cbn [default].
    + destruct IH as (fresh & l0 & rest & -> & Hs & Hf); exists fresh, l0, (rest ++ [r]); split_and!; [rewrite <- app_assoc; done| |done].
      rewrite app_comm_cons; apply Forall_app; split; [done|apply Forall_singleton; done].
    + exists readings, r.2, []; destruct r as [t l]; split_and!; [done|apply Forall_singleton; done|done].
  - intros r'; rewrite last_snoc; intros [= <-]; unfold is_stale; rewrite E; done.
Qed.

(** Such a beginning is unique. *)
Lemma stale_from_since t0 readings : stale_from t0 readings -> stale_since readings = Some t0.
Proof.
  intros (fresh & l0 & rest & -> & Hs & Hf); induction rest as [|r rest IH] using rev_ind.
  - rewrite stale_since_app; unfold next_since; cbn [fst snd]; rewrite Forall_singleton in Hs; unfold is_stale in Hs; cbn [fst snd] in *; rewrite Hs; cbn.
    pose proof (stale_since_spec fresh) as HF; destruct (stale_since fresh) as [t|]; [|done].
    destruct HF as (f' & l' & r' & -> & Hs' & _); exfalso.
    destruct (@exists_last _ ((t, l') :: r') ltac:(done)) as (xs & x & E); rewrite E in Hs', Hf.
    apply Forall_app in Hs' as [_ Hx]; rewrite Forall_singleton in Hx; apply (Hf x); [rewrite app_assoc, last_snoc; done|done].
  - rewrite app_comm_cons in Hs; apply Forall_app in Hs as [Hs Hr]; rewrite Forall_singleton in Hr; specialize (IH Hs).
    rewrite app_comm_cons, app_assoc, stale_since_app, IH; unfold next_since, is_stale in *; rewrite Hr; done.
Qed.

Section Passes.
Context `{L : LittleFS} `{P : Eeprom} (xip : list Z) (dec : Z -> list Z).
Abbreviation hub := (hub board).
Implicit Types (h : hub) (d : dash) (io : pass_io).

(** The part of a pass before the staleness check, and the part after the ladder. *)
Definition before_check io : part :=
  andthen (drain_part xip io) (andthen (owners dec io) (andthen (dismiss_part io) (andthen (gesture_part io)
    (andthen (deadline_part io) (andthen (nav_part io) (andthen (battery_part io) (andthen (startup_part io) charge_part))))))).
Definition after_ladder io : part :=
  andthen bad_psu_part (andthen (expire_part io) (andthen (display_part dec io) (andthen (power_loss_part io) (low_battery_part io)))).

Lemma andthen_assoc (p q r : part) h d : andthen (andthen p q) r h d = andthen p (andthen q r) h d.
Proof. unfold andthen; destruct (p h d) as [[h1 d1] []]; [destruct (q h1 d1) as [[h2 d2] []]|]; done. Qed.

Lemma andthen_ext (p q r : part) : (forall h d, q h d = r h d) -> forall h d, andthen p q h d = andthen p r h d.
Proof. intros H h d; unfold andthen; destruct (p h d) as [[h1 d1] []]; [apply H|done]. Qed.

Lemma loop_split io h d :
  loop xip dec io (h, d) =
  (let '(h', d', _) := andthen (before_check io) (andthen (stale_part io) (andthen (ladder_part io) (after_ladder io))) h d in (h', d')).
Proof.
  unfold loop, before_check, after_ladder, dashboard_pass, alarms; cbn [fst snd].
  match goal with |- match ?x with _ => _ end = match ?y with _ => _ end => assert (E : x = y); [|rewrite E; done] end.
  repeat (rewrite ?andthen_assoc; apply andthen_ext; clear h d; intros h d); done.
Qed.

(** *** Only the two parts touch the ladder's record *)

Definition record_of d : bool * Z := (upsStaleActive d, upsStaleSinceMs d).
Definition keeps (p : part) : Prop := forall h d, record_of (p h d).1.2 = record_of d.

Lemma keeps_andthen p q : keeps p -> keeps q -> keeps (andthen p q).
Proof.
  intros Hp Hq h d; specialize (Hp h d); unfold andthen; destruct (p h d) as [[h1 d1] []]; cbn [fst snd] in *; [|done].
  rewrite Hq; done.
Qed.

#[local] Ltac keep_part :=
  intros h d; repeat (case_match; try reflexivity);
  repeat match goal with H : (_, _) = (_, _) |- _ => injection H as <- <- end; reflexivity.

Lemma keeps_drain io : keeps (drain_part xip io).
Proof. unfold drain_part; keep_part. Qed.

Lemma keeps_owners io : keeps (owners dec io).
Proof.
  unfold owners; repeat apply keeps_andthen; [unfold session_part|unfold trust_part|unfold menu_part|unfold guard_part]; keep_part.
Qed.

Lemma keeps_nav io : keeps (nav_part io).
Proof.
  intros h d; unfold nav_part; assert (E : record_of (checkButtons (io_ms io At_keys) (io_left io At_keys) (io_right io At_keys) d).1 = record_of d).
  { unfold checkButtons; destruct (_ && _); cbv zeta; destruct (_ && _); reflexivity. }
  destruct (checkButtons _ _ _ d) as [d1 z]; cbn [fst snd] in *; rewrite <- E; clear E; destruct (s_left_prev_down d1 && negb (io_left io At_prev)); reflexivity.
Qed.

Lemma keeps_before io : keeps (before_check io).
Proof.
  unfold before_check; repeat first [apply keeps_drain | apply keeps_owners | apply keeps_nav | apply keeps_andthen].
  - unfold dismiss_part; keep_part.
  - unfold gesture_part; keep_part.
  - unfold deadline_part; keep_part.
  - unfold battery_part; keep_part.
  - unfold startup_part; keep_part.
  - unfold charge_part; keep_part.
Qed.

Lemma keeps_after io : keeps (after_ladder io).
Proof.
  unfold after_ladder; repeat apply keeps_andthen.
  - unfold bad_psu_part; keep_part.
  - unfold expire_part; keep_part.
  - unfold display_part, no_ups_banner, bad_psu_banner, modem_banner, info_banner, dashboard; keep_part.
  - unfold power_loss_part; keep_part.
  - unfold low_battery_part; keep_part.
Qed.

(** *** The record follows the specification *)

(** What the staleness check of a pass reads, when the pass gets there. *)
Definition reading_of io (s : hub * dash) : option (Z * Z) :=
  let '(h, d, go) := before_check io s.1 s.2 in
  if go : bool then Some (io_ms io At_stale, Last_Power_Status_Ms (b_pwr (app h))) else None.

(** The pass ends in the ladder, which it does only to restart. *)
Definition restarts io (s : hub * dash) : bool :=
  let '(h, d, go) := before_check io s.1 s.2 in
  go && negb (andthen (stale_part io) (ladder_part io) h d).2.

Fixpoint passes (ios : list pass_io) (s : hub * dash) : hub * dash * list (Z * Z) :=
  match ios with
  | [] => (s, [])
  | io :: ios =>
      let '(s', readings) := passes ios (loop xip dec io s) in
      (s', match reading_of io s with Some r => [r] | None => [] end ++ readings)
  end.

Definition agrees (o : option Z) d : Prop :=
  match o with Some t0 => upsStaleActive d = true /\ upsStaleSinceMs d = t0 | None => upsStaleActive d = false end.

Lemma agrees_record o d d' : record_of d' = record_of d -> agrees o d -> agrees o d'.
Proof. intros [= E1 E2]; unfold agrees; rewrite E1, E2; done. Qed.

Lemma log_app level note h : app (wupsSendLogToHost level note h) = app h.
Proof. apply send_ports. Qed.

Lemma stale_spec io h d o :
  agrees o d ->
  let '(h', d', go) := stale_part io h d in
  go = true /\ app h' = app h /\ agrees (next_since o (io_ms io At_stale, Last_Power_Status_Ms (b_pwr (app h)))) d'.
Proof.
  intros Ho; unfold stale_part, next_since; cbn [fst snd]; set (stale := ups_stale _ _); clearbody stale.
  destruct o as [t0|]; [destruct Ho as [E1 E2]|rename Ho into E1]; cbn [agrees] in E1; rewrite E1; destruct stale; cbn [negb eqb];
    split_and!; rewrite ?log_app; cbn [agrees default]; try done.
Qed.

Lemma ladder_spec io h d :
  let '(h', d', go) := ladder_part io h d in
  record_of d' = record_of d /\
  go = negb (upsStaleActive d && negb (Last_Power_Status_Ms (b_pwr (app h)) =? 0) && (30000 <=? u32 (io_ms io At_stale - upsStaleSinceMs d))) /\
  (go = false -> exists l n, fx (app h') = l ++ [Delay 100; Reboot n]).
Proof.
  unfold ladder_part; set (tries := _ && _ && (_ || _)).
  assert (E : exists h1 d1, (if tries then (wupsSendLogToHost 1 reinit_note (emit [Uart0_reinit] h),
      d <| upsRxReinitLastMs := io_ms io At_stale |> <| upsRxReinitCount := u16 (upsRxReinitCount d + 1) |>) else (h, d)) = (h1, d1) /\
      record_of d1 = record_of d /\ b_pwr (app h1) = b_pwr (app h)).
  { destruct tries; eexists; eexists; (split; [reflexivity|]); rewrite ?log_app; done. }
  destruct E as (h1 & d1 & -> & [= E1 E2] & E3); rewrite E1, E2, E3; clear tries.
  set (due := upsStaleActive d && _ && _); clearbody due; destruct due; cbn [negb].
  - split_and!; [unfold record_of; congruence|done|intros _; unfold emit at 1; cbn [app on_board fx upd]; rewrite log_app; eexists; eexists; reflexivity].
  - split_and!; [unfold record_of; congruence|done|done].
Qed.

(** One pass through the check and the ladder. *)
Lemma check_spec io h d o :
  agrees o d -> let r := (io_ms io At_stale, Last_Power_Status_Ms (b_pwr (app h))) in
  let '(h', d', go) := andthen (stale_part io) (ladder_part io) h d in
  agrees (next_since o r) d' /\
  go = negb (match next_since o r with Some t0 => negb (r.2 =? 0) && (30000 <=? u32 (r.1 - t0)) | None => false end) /\
  (go = false -> exists l n, fx (app h') = l ++ [Delay 100; Reboot n]).
Proof.
  intros Ho; cbv zeta; unfold andthen; pose proof (stale_spec io h d o Ho) as HS.
  destruct (stale_part io h d) as [[h1 d1] go1]; destruct HS as (-> & E & Ha); pose proof (ladder_spec io h1 d1) as HL.
  rewrite E in HL; destruct (ladder_part io h1 d1) as [[h2 d2] go2]; destruct HL as (Hr & -> & Hf).
  split_and!; [apply (agrees_record _ d1); done| |done]; cbn [fst snd].
  destruct (next_since _ _) as [t0|]; cbn [agrees] in Ha; [destruct Ha as [-> ->]|rewrite Ha]; done.
Qed.

(** A pass moves the record by one reading at most. *)
Lemma loop_agrees io s o :
  agrees o s.2 ->
  agrees (match reading_of io s with Some r => next_since o r | None => o end) (loop xip dec io s).2.
Proof.
  destruct s as [h d]; cbn [snd]; intros Ho; rewrite loop_split; unfold reading_of, andthen at 1; cbn [fst snd].
  pose proof (keeps_before io h d) as HB; destruct (before_check io h d) as [[h1 d1] []]; cbn [fst snd] in *;
    [|apply (agrees_record o d); done].
  pose proof (check_spec io h1 d1 o ltac:(apply (agrees_record o d); done)) as HC; cbv zeta in HC.
  rewrite <- andthen_assoc; unfold andthen at 1; destruct (andthen _ _ h1 d1) as [[h2 d2] []]; destruct HC as (HC & _ & _); [|exact HC].
  pose proof (keeps_after io h2 d2) as HA; destruct (after_ladder io h2 d2) as [[h3 d3] ?]; cbn [fst snd] in *.
  apply (agrees_record _ d2); done.
Qed.

Lemma passes_agree ios s o :
  agrees o s.2 -> let '(s', readings) := passes ios s in agrees (fold_left next_since readings o) s'.2.
Proof.
  revert s o; induction ios as [|io ios IH]; intros s o Ho; cbn [passes]; [done|].
  specialize (IH (loop xip dec io s) _ (loop_agrees io s o Ho)); destruct (passes ios _) as [s' readings].
  rewrite fold_left_app; destruct (reading_of io s); done.
Qed.

(** The RP2040 restarts itself exactly when it has to.  In a pass of any run that begins
    with the record clear, and that comes to the staleness check, the ladder ends the pass
    with a restart if and only if power.status has been seen since the boot and the
    readings of the clock end with stale ones that go back 30 s or more; a restart is the
    last thing that the pass does, after the log message has had 100 ms to leave. *)
Theorem restart_policy ios io h d :
  upsStaleActive d = false ->
  let '(s, readings) := passes ios (h, d) in
  match reading_of io s with
  | Some r =>
      (restarts io s = true <-> r.2 <> 0 /\ exists t0, stale_from t0 (readings ++ [r]) /\ 30000 <= u32 (r.1 - t0)) /\
      (restarts io s = true -> exists l n, fx (app (loop xip dec io s).1) = l ++ [Delay 100; Reboot n])
  | None => restarts io s = false
  end.
Proof.
  intros H0; pose proof (passes_agree ios (h, d) None H0) as HP; destruct (passes ios (h, d)) as [[h1 d1] readings].
  cbn [snd] in HP; fold (stale_since readings) in HP; unfold reading_of, restarts; cbn [fst snd].
  pose proof (keeps_before io h1 d1) as HB; pose proof (loop_split io h1 d1) as HL; unfold andthen at 1 in HL.
  destruct (before_check io h1 d1) as [[h2 d2] []]; cbn [fst snd] in HB; [|done].
  pose proof (check_spec io h2 d2 _ (agrees_record _ _ _ HB HP)) as HC; cbv zeta in HC.
  set (r := (io_ms io At_stale, Last_Power_Status_Ms (b_pwr (app h2)))) in *; clearbody r; rewrite <- stale_since_app in HC.
  rewrite <- andthen_assoc in HL; unfold andthen at 1 in HL; destruct (andthen (stale_part io) (ladder_part io) h2 d2) as [[h3 d3] go].
  destruct HC as (_ & Hgo & Hfx); cbn [snd andb]; split.
  - rewrite Hgo;
pose proof (stale_since_spec (readings ++ [r])) as HS; destruct (stale_since (readings ++ [r])) as [t0|] eqn:E.
    + rewrite negb_involutive, andb_true_iff, negb_true_iff, Z.eqb_neq, Z.leb_le; split; [intros [? ?]; eauto|].
      intros (? & t1 & H1 & ?); apply stale_from_since in H1; rewrite E in H1; injection H1 as <-; done.
    + split; [done|]; intros (_ & t1 & H1 & _); apply stale_from_since in H1; congruence.
  - intros Hg; destruct go; [done|]; rewrite HL; apply Hfx; done.
Qed.
End Passes.

(** ** Owners of the display and the buttons *)

Section Owners.
Context `{L : LittleFS} `{P : Eeprom} (xip : list Z) (dec : Z -> list Z).
Abbreviation hub := (hub board).
Implicit Types (h : hub) (d : dash) (io : pass_io).

(** What no owner of the display may touch. *)
Definition rest_of h : fwu * ui_view * pwr_cache * uplink * net_alert * info_notice * Z * Z :=
  let b := app h in (b_fw b, b_ui b, b_pwr b, b_up b, b_alert b, b_info b, currentScreen (b_nav b), lastInteractionTime (b_nav b)).

(** The settings and the menu. *)
Definition menu_of h : settings * menu := (b_cfg (app h), b_menu (app h)).

(** What was written between two states went to one port. *)
Definition wrote (q : Z) h h' : Prop := exists l, written h' = written h ++ l /\ Forall (fun w : Z * list Z => w.1 = q) l.

Lemma wrote_same q h h' : written h' = written h -> wrote q h h'.
Proof. intros E; exists []; rewrite app_nil_r; split; [done|apply Forall_nil_2]. Qed.

Lemma wrote_trans q h1 h2 h3 : wrote q h1 h2 -> wrote q h2 h3 -> wrote q h1 h3.
Proof.
  intros (l1 & E1 & F1) (l2 & E2 & F2); exists (l1 ++ l2); rewrite E2, E1, app_assoc; split; [done|apply Forall_app; done].
Qed.

Lemma wrote_src q dst src cls op flags seq pl h : wrote q h (wups_send_with_src q dst src cls op flags seq pl h).
Proof.
  unfold wups_send_with_src; repeat case_match; try (apply wrote_same; done).
  eexists; split; [reflexivity|apply Forall_singleton; done].
Qed.

Lemma wrote_send q dst cls op flags pl h : wrote q h (wups_send q dst cls op flags pl h).
Proof. unfold wups_send; eapply wrote_trans; [apply wrote_same|apply wrote_src]; done. Qed.

(** *** The acts of the two screens *)

Lemma trust_act_frame a h :
  let h' := do_trust_act a h in
  rest_of h' = rest_of h /\ menu_of h' = menu_of h /\ b_nav (app h') = b_nav (app h) /\ wrote WUPS_PORT_ESP32 h h'.
Proof.
  destruct a; cbn [do_trust_act].
  1-2: split_and!; try reflexivity; apply wrote_same; reflexivity.
  - unfold wups_send_seq; unfold rest_of, menu_of; rewrite (proj2 (send_with_src_ports _ _ _ _ _ _ _ _ _)); split_and!; try reflexivity; apply wrote_src.
  - unfold rest_of, menu_of; rewrite (proj2 (send_ports _ _ _ _ _ _ _)); split_and!; try reflexivity; apply wrote_send.
Qed.

Lemma trust_acts_frame acts h :
  let h' := fold_left (fun h a => do_trust_act a h) acts h in
  rest_of h' = rest_of h /\ menu_of h' = menu_of h /\ b_nav (app h') = b_nav (app h) /\ wrote WUPS_PORT_ESP32 h h'.
Proof.
  revert h; induction acts as [|a acts IH]; intros h; [split_and!; try done; apply wrote_same; done|]; cbn [fold_left].
  destruct (trust_act_frame a h) as (A1 & A2 & A3 & A4), (IH (do_trust_act a h)) as (B1 & B2 & B3 & B4).
  split_and!; [congruence..|eapply wrote_trans; eauto].
Qed.

Lemma menu_act_frame millis a h :
  let h' := do_menu_act millis a h in
  rest_of h' = rest_of h /\ b_trust (app h') = b_trust (app h) /\ s_btn_release_guard (b_nav (app h')) = s_btn_release_guard (b_nav (app h)).
Proof.
  destruct a; cbn [do_menu_act]; try (split_and!; reflexivity).
  - unfold rest_of; rewrite (proj2 (send_ports _ _ _ _ _ _ _)); done.
  - unfold local_menu_host_open_esp32; set (h1 := wups_send _ _ _ _ _ _ h); assert (E : app h1 = app h) by apply send_ports.
    unfold rest_of; clearbody h1; cbn; rewrite E; done.
Qed.

Lemma menu_acts_frame millis acts h :
  let h' := fold_left (fun h a => do_menu_act millis a h) acts h in
  rest_of h' = rest_of h /\ b_trust (app h') = b_trust (app h) /\ s_btn_release_guard (b_nav (app h')) = s_btn_release_guard (b_nav (app h)).
Proof.
  revert h; induction acts as [|a acts IH]; intros h; [done|]; cbn [fold_left].
  destruct (menu_act_frame millis a h) as (A1 & A2 & A3), (IH (do_menu_act millis a h)) as (B1 & B2 & B3).
  split_and!; congruence.
Qed.

(** *** The parts *)

(** A pass that an owner takes. *)
Definition owned io h : Prop :=
  fw_update_session_active (b_fw (app h)) = true \/ trust_ui_active (b_trust (app h)) = true \/
  local_menu_active (b_menu (app h)) = true \/ s_btn_release_guard (b_nav (app h)) = true /\ (io_left io At_guard || io_right io At_guard) = true.

Lemma trust_part_frame io h d :
  trust_ui_active (b_trust (app h)) = true ->
  exists h', trust_part dec io h d = (h', d, false) /\ rest_of h' = rest_of h /\ menu_of h' = menu_of h /\
    s_btn_release_guard (b_nav (app h')) = true /\ wrote WUPS_PORT_ESP32 h h'.
Proof.
  intros Ht; unfold trust_part; rewrite Ht; set (h1 := guard_release _).
  change (b_trust (app h1)) with (b_trust (app h)); destruct (trust_ui_tick _ _ _ _ _) as [t acts].
  set (h2 := on_board _ h1); destruct (trust_acts_frame acts h2) as (A1 & A2 & A3 & A4).
  eexists; split; [reflexivity|]; set (h3 := fold_left _ _ _) in *; clearbody h3.
  split_and!; [exact A1|exact A2|unfold emit; cbn; rewrite A3; done|destruct A4 as (l & E & F); exists l; split; [exact E|done]].
Qed.

Lemma menu_part_frame io h d :
  local_menu_active (b_menu (app h)) = true ->
  exists h', menu_part dec io h d = (h', d, false) /\ rest_of h' = rest_of h /\ b_trust (app h') = b_trust (app h) /\
    s_btn_release_guard (b_nav (app h')) = true.
Proof.
  intros Hm; unfold menu_part; rewrite Hm; set (h1 := guard_release _).
  destruct (local_menu_tick _ _ _ _ _ _ _) as [[u m] acts]; set (h2 := on_board _ h1).
  destruct (menu_acts_frame (io_ms io At_network) acts h2) as (A1 & A2 & A3).
  eexists; split; [reflexivity|]; set (h3 := fold_left _ _ _) in *; clearbody h3.
  split_and!; [exact A1|exact A2|unfold emit; cbn; rewrite A3; done].
Qed.

(** C22: An open screen owns the display and the buttons.  When the frames of a pass have
    been handled and an update session, a prompt or the local menu is open, or a button is
    still held after one of them has closed, the rest of the pass leaves navigation, alarms,
    alerts, notices, telemetry and the update module exactly as they are: the loop's own
    variables do not change at all.  A session only draws its progress and reads no button;
    a prompt comes before the menu, leaves menu and settings alone and writes to no port but
    the ESP32's; the press that closes a screen is guarded; and while the guard holds
    nothing is drawn, sent or sounded. *)
Theorem screen_owner_exclusive io h d h1 :
  drain_part xip io h d = (h1, d, true) -> owned io h1 ->
  let '(h2, d2) := loop xip dec io (h, d) in
  let session := fw_update_session_active (b_fw (app h1)) in
  let prompt := trust_ui_active (b_trust (app h1)) in
  let menu := local_menu_active (b_menu (app h1)) in
  d2 = d /\ rest_of h2 = rest_of h1 /\
  (session = true -> h2 = emit [Display (fw_update_render dec (b_fw (app h1))); Delay 5] h1) /\
  (session = false -> s_btn_release_guard (b_nav (app h2)) = true) /\
  (session = false -> prompt = true -> menu_of h2 = menu_of h1 /\ wrote WUPS_PORT_ESP32 h1 h2) /\
  (session = false -> prompt = false -> menu = true -> b_trust (app h2) = b_trust (app h1)) /\
  (session = false -> prompt = false -> menu = false -> h2 = emit [Delay 50] h1).
Proof.
  intros Hd Ho; unfold loop; cbn [fst snd]; unfold andthen at 1; rewrite Hd; unfold owners, andthen at 1 2, session_part.
  destruct (fw_update_session_active (b_fw (app h1))) eqn:Es; [split_and!; done|]; unfold andthen at 1.
  destruct (trust_ui_active (b_trust (app h1))) eqn:Et.
  { destruct (trust_part_frame io h1 d Et) as (h2 & -> & A1 & A2 & A3 & A4); split_and!; done. }
  unfold trust_part at 1; rewrite Et; unfold andthen at 1.
  destruct (local_menu_active (b_menu (app h1))) eqn:Em.
  { destruct (menu_part_frame io h1 d Em) as (h2 & -> & A1 & A2 & A3); split_and!; done. }
  unfold menu_part at 1; rewrite Em; unfold guard_part.
  destruct Ho as [?|[?|[?|[Hg Hb]]]]; try congruence; change (nav_of h1) with (b_nav (app h1)); rewrite Hg, Hb; split_and!; done.
Qed.
End Owners.

(** ** Witnesses *)

(** A pass without input, in which the left button is down. *)
Definition demo_io (t : Z) (left : bool) : pass_io := Io (fun _ => t) (fun _ => left) (fun _ => false) 1150 1004 (fun _ => (t, [])).

Definition demo_prompt_hub : hub (board (L := toy_fs) (P := ref_eeprom)) :=
  on_board (fun b => b <| b_trust := trust_ui_on_prompt demo_prompt 7 500 (b_trust b) |>) demo_board_hub.

Lemma screen_owner_exclusive_witness :
  let h1 := (drain_part (L := toy_fs) (P := ref_eeprom) [] (demo_io 1000 true) demo_prompt_hub (dash_boot 0)).1.1 in
  trust_ui_active (b_trust (app h1)) = true /\
  (loop (L := toy_fs) (P := ref_eeprom) [] print_dec (demo_io 1000 true) (demo_prompt_hub, dash_boot 0)).2 = dash_boot 0.
Proof.
  intros h1; split; [reflexivity|].
  pose proof (screen_owner_exclusive (L := toy_fs) (P := ref_eeprom) [] print_dec (demo_io 1000 true) demo_prompt_hub (dash_boot 0) h1 eq_refl) as H.
  destruct (loop [] print_dec (demo_io 1000 true) (demo_prompt_hub, dash_boot 0)) as [h2 d2]; destruct H as [H _]; [right; left; reflexivity|exact H].
Defined.

(** A stream that dies after its first frame: stale at 6 s, restarted at 36 s. *)
Definition demo_silence : list pass_io := map (fun i => demo_io (6000 + 1000 * Z.of_nat i) false) (seq 0 30).
Definition demo_seen_hub : hub (board (L := toy_fs) (P := ref_eeprom)) :=
  on_board (fun b => b <| b_pwr := b_pwr b <| Last_Power_Status_Ms := 900 |> |>) demo_board_hub.

Lemma restart_policy_witness :
  restarts (L := toy_fs) (P := ref_eeprom) [] print_dec (demo_io 36000 false)
    (passes (L := toy_fs) (P := ref_eeprom) [] print_dec demo_silence (demo_seen_hub, dash_boot 0)).1 = true.
Proof.
  pose proof (restart_policy (L := toy_fs) (P := ref_eeprom) [] print_dec demo_silence (demo_io 36000 false) demo_seen_hub (dash_boot 0) eq_refl) as H.
  rewrite (surjective_pairing (passes [] print_dec demo_silence (demo_seen_hub, dash_boot 0))) in H.
  assert (E : reading_of (L := toy_fs) (P := ref_eeprom) [] print_dec (demo_io 36000 false)
                (passes (L := toy_fs) (P := ref_eeprom) [] print_dec demo_silence (demo_seen_hub, dash_boot 0)).1 = Some (36000, 900)) by (vm_compute; reflexivity).
  assert (E2 : (passes (L := toy_fs) (P := ref_eeprom) [] print_dec demo_silence (demo_seen_hub, dash_boot 0)).2 =
                map (fun i => (6000 + 1000 * Z.of_nat i, 900)) (seq 0 30)) by (vm_compute; reflexivity).
  rewrite E, E2 in H; apply H; split; [discriminate|]; exists 6000; split; [|vm_compute; discriminate].
  exists [], 900, (map (fun i => (6000 + 1000 * Z.of_nat i, 900)) (seq 1 29) ++ [(36000, 900)]); split_and!; [reflexivity| |discriminate].
  repeat (apply Forall_cons_2; [vm_compute; reflexivity|]); apply List.Forall_nil.
Defined.

(** The press that is down when a prompt opens is taken for a tap when the prompt closes: a
    first pass with the left button down, a second in which a prompt arrives, and a third,
    with both buttons up, in which it is withdrawn and the home screen asked for.  The third
    shows the last screen of the strip instead. *)
Definition demo_rx (t : Z) (f : frame) : Z -> Z * list (Z * Z) := fun p =>
  (t, if p =? WUPS_PORT_ESP32 then map (fun b => (b, t)) (on_wire f) else []).
Definition demo_interrupted : list pass_io :=
  [demo_io 4000 true;
   Io (fun _ => 4050) (fun _ => true) (fun _ => false) 1150 1004
     (demo_rx 4050 (Frame WUPS_ADDR_RP2040 WUPS_ADDR_ESP32 WUPS_CLASS_UI WUPS_OP_UI_TRUST_PROMPT WUPS_FLAG_REQ 1 demo_prompt));
   Io (fun _ => 6000) (fun _ => false) (fun _ => false) 1150 1004
     (demo_rx 6000 (Frame WUPS_ADDR_RP2040 WUPS_ADDR_ESP32 WUPS_CLASS_UI WUPS_OP_UI_SET_SCREEN WUPS_FLAG_REQ 2 [1; 0]))].

Lemma interrupted_press_navigates :
  let s := (passes (L := toy_fs) (P := ref_eeprom) [] print_dec demo_interrupted (demo_board_hub, dash_boot 0)).1 in
  (currentScreen (nav_of s.1), trust_ui_active (b_trust (app s.1))) = (SCREEN_SYSTEM, false).
Proof. vm_compute; reflexivity. Qed.
