(* ===== verification/HubTelemetry.v ===== *)
(** * The telemetry budget of the RP2040 (firmware-rp2040/src/main.cpp)

    The CH32X reports its state every second; the hub forwards every report to the host
    but spends the LTE data only on changes and on one report every 30 s. *)

From S2P Require Import Prelude Protocol PowerStatus CmdAuth EspDispatch FwUpdate FwInstall Router UiSettings TrustUi LocalMenu HubDispatch HubCommands HubScreens.

(** The input state and the faults that a status reports, for the throttle. *)
Definition status_reading (payload : list Z) : option (bool * Z) :=
  let len := Z.of_nat (length payload) in
  if (byte_at payload 0 =? 2) && (40 <=? len) then Some (5000 <? v2_vbus_in_mV (read_v2 payload), v2_faults (read_v2 payload))
  else if (byte_at payload 0 =? 1) && (20 <=? len) then Some (5000 <? v1_vbus_in_mV (read_v1 payload), v1_faults (read_v1 payload))
  else None.

(** How often consecutive readings differ. *)
Fixpoint changes (r : bool * Z) (rs : list (bool * Z)) : Z :=
  match rs with [] => 0 | r' :: rs => b2z (negb (bool_decide (r' = r))) + changes r' rs end.

Section Budget.
Context `{L : LittleFS} `{P : Eeprom}.
Abbreviation hub := (hub board).
Implicit Types (h : hub) (f : frame).

(** The frames written to the ESP32. *)
Definition uplinks h : Z := Z.of_nat (length (List.filter (fun w : Z * list Z => w.1 =? WUPS_PORT_ESP32) (written h))).

Lemma uplinks_app h h' q s : written h' = written h ++ [(q, s)] -> uplinks h' = uplinks h + b2z (q =? WUPS_PORT_ESP32).
Proof. intros E; unfold uplinks; rewrite E, List.filter_app, length_app; cbn; destruct (q =? WUPS_PORT_ESP32); cbn; lia. Qed.

Lemma decode_reading payload (b : board) :
  match decode_power payload b with
  | Some (b', pg, faults) => status_reading payload = Some (pg, faults) /\ b_up b' = b_up b
  | None => status_reading payload = None
  end.
Proof. unfold decode_power, status_reading; destruct (_ && _); [done|]; destruct (_ && _); done. Qed.

(** Forwarding to the host is no uplink. *)
Lemma host_forward_uplinks seq pl h :
  uplinks (wups_send_with_src WUPS_PORT_RPI WUPS_ADDR_RPI WUPS_ADDR_CH32X WUPS_CLASS_POWER WUPS_OP_PWR_STATUS WUPS_FLAG_EVENT seq pl h) = uplinks h.
Proof.
  unfold wups_send_with_src; repeat case_match; try done; erewrite uplinks_app by reflexivity; cbn; lia.
Qed.

Lemma telemetry_uplinks seq pl h :
  1 <= Z.of_nat (length pl) <= 200 -> wired WUPS_PORT_ESP32 h = true ->
  uplinks (wupsPublishTelemetryStatus seq pl h) = uplinks h + 1.
Proof.
  intros Hl Hw; unfold wupsPublishTelemetryStatus.
  rewrite (proj2 (Z.eqb_neq _ _)), (proj2 (Z.ltb_ge _ _)) by (unfold WUPS_MAX_PAYLOAD; lia); cbn [orb].
  rewrite build_frame_bytes by (unfold WUPS_FRAMING_BYTES, WUPS_MAX_PAYLOAD; lia).
  rewrite bool_decide_eq_false_2 by (rewrite frame_bytes_framed; discriminate).
  erewrite uplinks_app by (apply publish_sends; [vm_compute; split; congruence| |exact Hw];
    rewrite frame_bytes_length; cbn [f_payload]; change (Z.of_nat (length s_telemetry)) with 9; unfold WUPS_MAX_PAYLOAD; lia).
  done.
Qed.

(** One report. *)
Lemma report_step now f h pg faults :
  status_reading (f_payload f) = Some (pg, faults) -> frame_len f <= 200 -> wired WUPS_PORT_ESP32 h = true ->
  let due := publish_now now pg faults (b_up (app h)) in
  let h' := on_power_status now f h in
  uplinks h' = uplinks h + b2z due /\ wired WUPS_PORT_ESP32 h' = true /\
  b_up (app h') = (if due then Uplink now true pg faults else b_up (app h)).
Proof.
  intros Hr Hl Hw; pose proof (decode_reading (f_payload f) (app h)) as HD; unfold on_power_status.
  destruct (decode_power (f_payload f) (app h)) as [[[b pg'] faults']|]; [|congruence]; destruct HD as [E Eu].
  rewrite Hr in E; injection E as <- <-; set (c := if frame_len f <=? _ then _ else _); cbv zeta.
  set (h1 := h <| app := _ |>); set (h2 := wups_send_with_src _ _ _ _ _ _ _ _ h1).
  destruct (send_with_src_ports WUPS_PORT_RPI WUPS_ADDR_RPI WUPS_ADDR_CH32X WUPS_CLASS_POWER WUPS_OP_PWR_STATUS WUPS_FLAG_EVENT (f_seq f) (f_payload f) h1)
    as [(S1 & _) A]; fold h2 in S1, A; assert (Eh : uplinks h2 = uplinks h) by (transitivity (uplinks h1); [apply host_forward_uplinks|reflexivity]).
  assert (Hw2 : wired WUPS_PORT_ESP32 h2 = true) by (unfold wired; rewrite S1; exact Hw).
  assert (Hp : 1 <= Z.of_nat (length (f_payload f)) <= 200).
  { split; [|exact Hl]; unfold status_reading in Hr; destruct (_ && _) eqn:E2 in Hr; [|destruct (_ && _) eqn:E1 in Hr; [|discriminate]]; to_prop; lia. }
  assert (Eb : b_up (app h2) = b_up (app h)) by (rewrite A; exact Eu).
  rewrite <- Eu; destruct (publish_now now pg faults (b_up b)) eqn:Ed; cbn [b2z].
  - split_and!; [|unfold wired; cbn; rewrite (proj1 (telemetry_ports _ _ _))|reflexivity].
    + rewrite <- Eh, <- (telemetry_uplinks (f_seq f) (f_payload f) h2 Hp Hw2); reflexivity.
    + exact Hw2.
  - rewrite Eh, Eb; split_and!; [lia|done|congruence].
Qed.

(** Reports that arrive one after the other. *)
Definition reports (xs : list (Z * frame)) h : hub := fold_left (fun h x => on_power_status x.1 x.2 h) xs h.

(** The reports [xs] with their readings [rs], in the order of the clock from [t] on. *)
Inductive reported : Z -> list (Z * frame) -> list (bool * Z) -> Prop :=
  | Reported_nil t : reported t [] []
  | Reported_cons t t' f r xs rs :
      t <= t' -> is_u32 t' -> status_reading (f_payload f) = Some r -> frame_len f <= 200 -> reported t' xs rs ->
      reported t ((t', f) :: xs) (r :: rs).

(** The clock of the last report, [t] when there is none. *)
Definition last_time (t : Z) (xs : list (Z * frame)) : Z := default t (fst <$> last xs).

Lemma last_time_cons t t' f xs : last_time t ((t', f) :: xs) = last_time t' xs.
Proof.
  unfold last_time; destruct xs as [|x xs]; [done|]; rewrite last_cons_cons.
  destruct (last (x :: xs)) eqn:E; [done|]; apply last_None in E; done.
Qed.

Lemma last_time_ge t xs rs : reported t xs rs -> t <= last_time t xs.
Proof. induction 1; [unfold last_time; cbn; lia|rewrite last_time_cons; lia]. Qed.

(** A reading that is the last one reported changes nothing. *)
Lemma changed_reading pg faults pg0 faults0 :
  negb (eqb pg pg0) || negb (faults =? faults0) = negb (bool_decide ((pg, faults) = (pg0, faults0))).
Proof.
  case_bool_decide as E; cbn [negb]; [injection E as <- <-; rewrite eqb_reflx, Z.eqb_refl; done|].
  destruct (eqb pg pg0) eqn:E1; [|done]; destruct (Z.eqb_spec faults faults0); [|done]; apply eqb_prop in E1; congruence.
Qed.

(** From an uplink at [t'] of the reading [r] on, with [t] the time now. *)
Lemma reports_primed t t' r xs rs h :
  reported t xs rs -> is_u32 t' -> t' <= t -> t - t' < TELEMETRY_UPLINK_INTERVAL_MS ->
  b_up (app h) = Uplink t' true r.1 r.2 -> wired WUPS_PORT_ESP32 h = true ->
  uplinks h + changes r rs <= uplinks (reports xs h) /\
  uplinks (reports xs h) <= uplinks h + changes r rs + (last_time t xs - t') / TELEMETRY_UPLINK_INTERVAL_MS.
Proof.
  unfold TELEMETRY_UPLINK_INTERVAL_MS; intros HR; revert t' r h; induction HR as [t|t t1 f r1 xs rs Ht H1 Hr Hl HR IH]; intros t' r h Hu Hle Hlt Hup Hw.
  { cbn; unfold last_time; cbn; rewrite Z.div_small by lia; lia. }
  destruct r1 as [pg faults], r as [pg0 faults0]; cbn [fst snd] in *.
  destruct (report_step t1 f h pg faults Hr Hl Hw) as (E1 & E2 & E3); unfold reports in IH |- *; cbn [fold_left fst snd changes].
  rewrite last_time_cons; unfold publish_now in E1, E3; rewrite Hup in E1, E3; cbn in E1, E3; rewrite changed_reading in E1, E3.
  pose proof (last_time_ge _ _ _ HR) as Hge; unfold TELEMETRY_UPLINK_INTERVAL_MS in *; rewrite u32_small in E1, E3 by lia.
  case_bool_decide as Ec; cbn [negb b2z] in *.
  - injection Ec as -> ->; destruct (Z.leb_spec 30000 (t1 - t')).
    + specialize (IH t1 (pg0, faults0) _ H1 ltac:(lia) ltac:(lia) E3 E2); cbn [b2z] in E1; rewrite E1 in IH.
      assert ((last_time t1 xs - t') / 30000 >= 1 + (last_time t1 xs - t1) / 30000); [|lia].
      rewrite <- (Z.div_add_l 1 30000) by lia; apply Z.le_ge, Z.div_le_mono; lia.
    + specialize (IH t' (pg0, faults0) _ Hu ltac:(lia) ltac:(lia) E3 E2); cbn [b2z] in E1; rewrite E1 in IH; lia.
  - specialize (IH t1 (pg, faults) _ H1 ltac:(lia) ltac:(lia) E3 E2); rewrite E1 in IH.
    assert ((last_time t1 xs - t1) / 30000 <= (last_time t1 xs - t') / 30000) by (apply Z.div_le_mono; lia); lia.
Qed.
End Budget.

(** ** Properties *)

(** C23: The telemetry budget.  Take the power reports of the CH32X since the boot, however
    many and whatever their readings, each with a status that can be decoded and at most 200
    bytes long, handled one after the other while the millisecond clock does not wrap (49
    days) and with the ESP32's port wired.  Handling them sends over LTE one report for the
    first one, one for every report whose input state or faults differ from the one before,
    and at most one more for every 30 s that have passed; no change waits. *)
Theorem telemetry_budget `{L : LittleFS} `{P : Eeprom} t t0 f r xs rs (h : hub board) :
  reported t ((t0, f) :: xs) (r :: rs) -> wired WUPS_PORT_ESP32 h = true -> Telemetry_Uplink_Primed (b_up (app h)) = false ->
  let sent := uplinks (reports ((t0, f) :: xs) h) - uplinks h in
  1 + changes r rs <= sent <= 1 + changes r rs + (last_time t0 xs - t0) / TELEMETRY_UPLINK_INTERVAL_MS.
Proof.
  intros HR Hw Hp; inversion HR as [|? ? ? ? ? ? Ht H1 Hr Hl HR']; subst; destruct r as [pg faults].
  destruct (report_step t0 f h pg faults Hr Hl Hw) as (E1 & E2 & E3); unfold publish_now in E1, E3; rewrite Hp in E1, E3; cbn [negb b2z] in E1, E3.
  cbv zeta; change (reports ((t0, f) :: xs) h) with (reports xs (on_power_status t0 f h)).
  destruct (reports_primed t0 t0 (pg, faults) xs rs (on_power_status t0 f h)) as [HL HU]; try done; [unfold TELEMETRY_UPLINK_INTERVAL_MS; lia|].
  rewrite E1 in HL, HU; lia.
Qed.

(** A report that repeats itself for a minute, then one with the input gone. *)
Definition demo_report (vin : Z) : frame :=
  Frame WUPS_ADDR_RP2040 WUPS_ADDR_CH32X WUPS_CLASS_POWER WUPS_OP_PWR_STATUS WUPS_FLAG_EVENT 3
    (power_status_v2_bytes (StatusV2 2 31 2 0 vin 12000 2500 5050 5100 5048 3000 5000 3000 7960 850 8100 900 305 412 0 3600)).
Definition demo_rest : list (Z * frame) := [(20000, demo_report 12000); (31500, demo_report 12000); (32500, demo_report 0)].
Definition demo_reports : list (Z * frame) := (1000, demo_report 12000) :: demo_rest.

Lemma telemetry_budget_witness :
  uplinks (reports demo_reports demo_board_hub) = 3 /\
  1 + 1 <= uplinks (reports demo_reports demo_board_hub) - uplinks demo_board_hub <= 1 + 1 + 31500 / TELEMETRY_UPLINK_INTERVAL_MS.
Proof.
  split; [vm_compute; reflexivity|].
  apply (telemetry_budget 0 1000 (demo_report 12000) (true, 0) demo_rest [(true, 0); (true, 0); (false, 0)] demo_board_hub); [|reflexivity|reflexivity].
  repeat (apply Reported_cons; [vm_compute; discriminate|vm_compute; split; [discriminate|reflexivity]|vm_compute; reflexivity|vm_compute; discriminate|]).
  apply Reported_nil.
Defined.
