(* ===== verification/Rlp.v ===== *)
(** * RLP encoding (firmware-ESP32-LTE-M/components/arkiv_crypto/src/rlp.cpp)

    The encoder of Ethereum's serialisation, which appends to a buffer: every function here
    is the bytes that it appends.  A tree of byte strings is written to bytes that a reader
    of the format takes back to the same tree. *)

From S2P Require Import Prelude.

Section Encoder.
Implicit Types (l : list Z).

(** The bytes of a 64-bit value from the most significant on, without leading zeros. *)
Fixpoint strip_zeros l : list Z := match l with [] => [] | b :: l' => if b =? 0 then strip_zeros l' else l end.
Definition be8 (v : Z) : list Z := map (fun i => Z.land (Z.shiftr v (i * 8)) 255) [7; 6; 5; 4; 3; 2; 1; 0].
(* src: firmware-ESP32-LTE-M/components/arkiv_crypto/src/rlp.cpp:71-79 encode_uint (bytes) *)
Definition be_min (v : Z) : list Z := strip_zeros (be8 v).

(* src: firmware-ESP32-LTE-M/components/arkiv_crypto/src/rlp.cpp:19-42 emit_length *)
Definition emit_length (len short_base long_base : Z) : list Z :=
  if len <? 56 then [u8 (short_base + len)]
  else let be := be_min len in u8 (long_base + Z.of_nat (length be)) :: be.

(* src: firmware-ESP32-LTE-M/components/arkiv_crypto/src/rlp.cpp:46-54 encode_bytes *)
Definition encode_bytes l : list Z :=
  if (Z.of_nat (length l) =? 1) && (byte_at l 0 <? 128) then [byte_at l 0]
  else emit_length (Z.of_nat (length l)) 128 183 ++ l.

(* src: firmware-ESP32-LTE-M/components/arkiv_crypto/src/rlp.cpp:61-64 encode_string *)
Definition encode_string l : list Z := encode_bytes l.

(* src: firmware-ESP32-LTE-M/components/arkiv_crypto/src/rlp.cpp:66-81 encode_uint *)
Definition encode_uint (value : Z) : list Z := if value =? 0 then [128] else encode_bytes (be_min value).

(* src: firmware-ESP32-LTE-M/components/arkiv_crypto/src/rlp.cpp:11-17 hex_nibble *)
Definition hex_nibble (c : Z) : Z :=
  if (48 <=? c) && (c <=? 57) then c - 48
  else if (97 <=? c) && (c <=? 102) then c - 97 + 10
  else if (65 <=? c) && (c <=? 70) then c - 65 + 10 else -1.

(* src: firmware-ESP32-LTE-M/components/arkiv_crypto/src/rlp.cpp:95-100 encode_hex (pairs) *)
Fixpoint hex_pairs l : list Z :=
  match l with
  | c1 :: c2 :: l =>
      let hi := hex_nibble c1 in let lo := hex_nibble c2 in
      (if (hi <? 0) || (lo <? 0) then 0 else Z.lor (Z.shiftl hi 4) lo) :: hex_pairs l
  | _ => []
  end.

(* src: firmware-ESP32-LTE-M/components/arkiv_crypto/src/rlp.cpp:83-102 encode_hex *)
Definition encode_hex l : list Z :=
  let l := if (2 <=? Z.of_nat (length l)) && (byte_at l 0 =? 48) && ((byte_at l 1 =? 120) || (byte_at l 1 =? 88)) then drop 2 l else l in
  let raw :=
    if Nat.odd (length l) then
      let n := hex_nibble (byte_at l 0) in (if n <? 0 then 0 else n) :: hex_pairs (drop 1 l)
    else hex_pairs l in
  encode_bytes raw.

(** [ListEncoder]: the children are appended to one buffer, [finish] puts the header in
    front. *)
(* src: firmware-ESP32-LTE-M/components/arkiv_crypto/src/rlp.cpp:104-108 encode_list_raw *)
Definition encode_list_raw (children : list Z) : list Z :=
  emit_length (Z.of_nat (length children)) 192 247 ++ children.

(* src: firmware-ESP32-LTE-M/components/arkiv_crypto/src/rlp.cpp:112-120 ListEncoder::append_bytes *)
Definition append_bytes (children l : list Z) : list Z := children ++ encode_bytes l.
(* src: firmware-ESP32-LTE-M/components/arkiv_crypto/src/rlp.cpp:122-125 ListEncoder::append_string *)
Definition append_string (children l : list Z) : list Z := children ++ encode_string l.
(* src: firmware-ESP32-LTE-M/components/arkiv_crypto/src/rlp.cpp:127-130 ListEncoder::append_uint *)
Definition append_uint (children : list Z) (v : Z) : list Z := children ++ encode_uint v.
(* src: firmware-ESP32-LTE-M/components/arkiv_crypto/src/rlp.cpp:132-135 ListEncoder::append_hex *)
Definition append_hex (children l : list Z) : list Z := children ++ encode_hex l.
(* src: firmware-ESP32-LTE-M/components/arkiv_crypto/src/rlp.cpp:137-140 ListEncoder::append_raw *)
Definition append_raw (children already_encoded : list Z) : list Z := children ++ already_encoded.
(* src: firmware-ESP32-LTE-M/components/arkiv_crypto/src/rlp.cpp:142-145 ListEncoder::finish *)
Definition finish (children : list Z) : list Z := encode_list_raw children.
End Encoder.

(** ** The format: trees of byte strings, and a reader *)

Inductive rlp := Bytes (l : list Z) | Items (l : list rlp).

Fixpoint encode (x : rlp) : list Z :=
  match x with Bytes l => encode_bytes l | Items l => encode_list_raw (concat (map encode l)) end.

(** Big-endian value of bytes. *)
Definition be_val (l : list Z) : Z := fold_left (fun v b => v * 256 + b) l 0.

(** The next [n] bytes and the rest. *)
Definition take_exact (n : Z) (l : list Z) : option (list Z * list Z) :=
  if n <=? Z.of_nat (length l) then Some (take (Z.to_nat n) l, drop (Z.to_nat n) l) else None.

(** A long form's length field of [k] bytes, then as many bytes. *)
Definition take_long (k : Z) (l : list Z) : option (list Z * list Z) :=
  match take_exact k l with Some (n, l) => take_exact (be_val n) l | None => None end.

(** The body of an item, whether it is a list, and the rest. *)
Definition split_item (l : list Z) : option (bool * list Z * list Z) :=
  let tag (b : bool) (o : option (list Z * list Z)) := match o with Some (x, r) => Some (b, x, r) | None => None end in
  match l with
  | [] => None
  | b :: l =>
      if b <? 128 then Some (false, [b], l)
      else if b <=? 183 then tag false (take_exact (b - 128) l)
      else if b <=? 191 then tag false (take_long (b - 183) l)
      else if b <=? 247 then tag true (take_exact (b - 192) l)
      else tag true (take_long (b - 247) l)
  end.

(** The reader.  The fuel bounds the depth and the number of items together. *)
Fixpoint decode (fuel : nat) (l : list Z) : option (rlp * list Z) :=
  match fuel with
  | O => None
  | S fuel =>
      match split_item l with
      | Some (false, x, r) => Some (Bytes x, r)
      | Some (true, x, r) => match decode_all fuel x with Some xs => Some (Items xs, r) | None => None end
      | None => None
      end
  end
with decode_all (fuel : nat) (l : list Z) : option (list rlp) :=
  match fuel with
  | O => None
  | S fuel =>
      match l with
      | [] => Some []
      | _ => match decode fuel l with
             | Some (x, r) => match decode_all fuel r with Some xs => Some (x :: xs) | None => None end
             | None => None
             end
      end
  end.

(** ** Round trip *)

(** Bytes in range, lengths below 2^64. *)
Definition sized (l : list Z) : Prop := Z.of_nat (length l) < 2 ^ 64.
Fixpoint rlp_wf (x : rlp) : Prop :=
  match x with
  | Bytes l => all_u8 l /\ sized l
  | Items l => sized (concat (map encode l)) /\ (fix all (l : list rlp) : Prop := match l with [] => True | x :: l => rlp_wf x /\ all l end) l
  end.

Fixpoint weight (x : rlp) : nat :=
  match x with Bytes _ => 1 | Items l => S (S (list_sum (map (fun x => S (weight x)) l))) end.

Lemma strip_zeros_app l1 l2 : Forall (fun b => b = 0) l1 -> strip_zeros (l1 ++ l2) = strip_zeros l2.
Proof. induction 1 as [|b l1 -> _ IH]; [done|exact IH]. Qed.

Lemma be_val_app l b : be_val (l ++ [b]) = be_val l * 256 + b.
Proof. unfold be_val; rewrite fold_left_app; done. Qed.

Lemma be_val_strip l : be_val (strip_zeros l) = be_val l.
Proof.
  induction l as [|b l IH]; [done|]; cbn [strip_zeros]; destruct (Z.eqb_spec b 0) as [->|]; [|done].
  rewrite IH; done.
Qed.

Fixpoint be_n (n : nat) (v : Z) : list Z := match n with O => [] | S n => be_n n (v / 256) ++ [v mod 256] end.

Lemma be8_n v : be8 v = be_n 8 v.
Proof.
  unfold be8; cbn [be_n map app]; change 255 with (Z.ones 8); rewrite !Z.land_ones, !Z.shiftr_div_pow2 by lia.
  rewrite !Z.div_div by lia; change (2 ^ 8) with 256; cbn -[Z.div Z.modulo]; rewrite Z.div_1_r; done.
Qed.

Lemma be_val_n n v : be_val (be_n n v) = v mod 256 ^ Z.of_nat n.
Proof.
  revert v; induction n as [|n IH]; intros v; [cbn; rewrite Z.mod_1_r; done|].
  cbn [be_n]; rewrite be_val_app, IH, Nat2Z.inj_succ, Z.pow_succ_r by lia.
  rewrite (Z.rem_mul_r v 256 (256 ^ Z.of_nat n)) by (try apply Z.pow_pos_nonneg; lia); lia.
Qed.

Lemma be_n_length n v : length (be_n n v) = n.
Proof. revert v; induction n as [|n IH]; intros v; [done|]; cbn [be_n]; rewrite length_app, IH; cbn; lia. Qed.

Lemma be_n_u8 n v : all_u8 (be_n n v).
Proof.
  revert v; induction n as [|n IH]; intros v; [apply Forall_nil_2|]; cbn [be_n]; apply Forall_app; split; [apply IH|].
  apply Forall_singleton, Z.mod_pos_bound; lia.
Qed.

Lemma strip_zeros_u8 l : all_u8 l -> all_u8 (strip_zeros l).
Proof. induction 1 as [|b l Hb Hl IH]; [apply Forall_nil_2|]; cbn; destruct (b =? 0); [done|]; apply Forall_cons_2; done. Qed.

Lemma strip_zeros_length l : (length (strip_zeros l) <= length l)%nat.
Proof. induction l as [|b l IH]; [done|]; cbn; destruct (b =? 0); cbn; lia. Qed.

Lemma be_min_val v : is_u64 v -> be_val (be_min v) = v.
Proof. intros Hv; unfold be_min; rewrite be_val_strip, be8_n, be_val_n; apply Z.mod_small; exact Hv. Qed.

Lemma be_min_u8 v : all_u8 (be_min v).
Proof. unfold be_min; apply strip_zeros_u8; rewrite be8_n; apply be_n_u8. Qed.

Lemma be_min_length v : is_u64 v -> 0 < v -> 1 <= Z.of_nat (length (be_min v)) <= 8.
Proof.
  intros Hv Hp; pose proof (be_min_val v Hv) as E; split.
  - destruct (be_min v); [cbn in E; lia|cbn; lia].
  - unfold be_min; pose proof (strip_zeros_length (be8 v)); cbn in *; lia.
Qed.

(** A minimal number below 128 is one byte, or none. *)
Lemma take_exact_app l r : take_exact (Z.of_nat (length l)) (l ++ r) = Some (l, r).
Proof.
  unfold take_exact; rewrite (proj2 (Z.leb_le _ _)) by (rewrite length_app; lia).
  rewrite Nat2Z.id, take_app_length, drop_app_length; done.
Qed.

Lemma take_long_app l r : sized l -> l <> [] ->
  take_long (Z.of_nat (length (be_min (Z.of_nat (length l))))) (be_min (Z.of_nat (length l)) ++ l ++ r) = Some (l, r).
Proof.
  intros Hl Hn; unfold take_long; rewrite take_exact_app, be_min_val by (unfold sized in Hl; lia); apply take_exact_app.
Qed.

(** The header of a body, read back. *)
Lemma split_header (is_list : bool) l r :
  sized l -> (is_list = false -> ~ (length l = 1%nat /\ byte_at l 0 < 128)) ->
  split_item (emit_length (Z.of_nat (length l)) (if is_list then 192 else 128) (if is_list then 247 else 183) ++ l ++ r) = Some (is_list, l, r).
Proof.
  intros Hl H1; unfold emit_length; destruct (Z.ltb_spec (Z.of_nat (length l)) 56) as [Hs|Hs].
  - rewrite u8_small by (destruct is_list; lia); cbn [app split_item]; destruct is_list.
    + rewrite (proj2 (Z.ltb_ge _ _)), !(proj2 (Z.leb_gt _ _)), (proj2 (Z.leb_le _ _)) by lia.
      replace (192 + Z.of_nat (length l) - 192) with (Z.of_nat (length l)) by lia; rewrite take_exact_app; done.
    + rewrite (proj2 (Z.ltb_ge _ _)), (proj2 (Z.leb_le _ _)) by lia.
      replace (128 + Z.of_nat (length l) - 128) with (Z.of_nat (length l)) by lia; rewrite take_exact_app; done.
  - pose proof (be_min_length (Z.of_nat (length l)) ltac:(unfold sized in Hl; lia) ltac:(lia)) as HB.
    rewrite u8_small by (destruct is_list; lia); cbn [app split_item]; assert (Hne : l <> []) by (destruct l; [cbn in Hs; lia|done]).
    set (k := Z.of_nat (length (be_min _))) in *; destruct is_list.
    + rewrite (proj2 (Z.ltb_ge _ _)), !(proj2 (Z.leb_gt _ _)) by lia; replace (247 + k - 247) with k by lia.
      unfold k; rewrite take_long_app; done.
    + rewrite (proj2 (Z.ltb_ge _ _)), (proj2 (Z.leb_gt _ _)), (proj2 (Z.leb_le _ _)) by lia; replace (183 + k - 183) with k by lia.
      unfold k; rewrite take_long_app; done.
Qed.

Lemma split_bytes l r : all_u8 l -> sized l -> split_item (encode_bytes l ++ r) = Some (false, l, r).
Proof.
  intros Hb Hl; unfold encode_bytes; destruct (_ && _) eqn:E.
  - apply andb_true_iff in E as [E1 E2]; apply Z.eqb_eq in E1; apply Z.ltb_lt in E2; destruct l as [|b [|]]; cbn in E1; try lia.
    change (byte_at [b] 0) with b in *; cbn [app split_item]; rewrite (proj2 (Z.ltb_lt _ _)) by done; done.
  - rewrite <- app_assoc; apply (split_header false); [done|]; intros _ [H1 H2].
    rewrite H1 in E; change (Z.of_nat 1 =? 1) with true in E; cbn [andb] in E; apply Z.ltb_ge in E; lia.
Qed.

Lemma encode_nonempty x : encode x <> [].
Proof.
  destruct x; cbn [encode]; unfold encode_bytes, encode_list_raw, emit_length; repeat case_match; done.
Qed.

(** Trees, by induction over all the items. *)
Lemma rlp_ind' (Q : rlp -> Prop) :
  (forall l, Q (Bytes l)) -> (forall l, Forall Q l -> Q (Items l)) -> forall x, Q x.
Proof.
  intros HB HI; fix IH 1; intros [l|l]; [apply HB|apply HI].
  induction l as [|x l IHl]; [apply Forall_nil_2|apply Forall_cons_2; [apply IH|exact IHl]].
Qed.

Lemma items_wf l : rlp_wf (Items l) <-> sized (concat (map encode l)) /\ Forall rlp_wf l.
Proof.
  cbn; split; intros [H1 H2]; (split; [done|]); clear H1.
  - induction l as [|x l IH]; [apply Forall_nil_2|]; destruct H2; apply Forall_cons_2; auto.
  - induction H2; auto.
Qed.

Lemma decode_all_encode l fuel :
  Forall (fun x => rlp_wf x -> forall r fuel, (weight x <= fuel)%nat -> decode fuel (encode x ++ r) = Some (x, r)) l ->
  Forall rlp_wf l -> (list_sum (map (fun x => S (weight x)) l) < fuel)%nat ->
  decode_all fuel (concat (map encode l)) = Some l.
Proof.
  intros Hl; revert fuel; induction Hl as [|x l Hx _ IH]; intros fuel Hw Hf; (destruct fuel as [|fuel]; [lia|]); [done|].
  apply Forall_cons in Hw as [Hwx Hw]; change (list_sum (map (fun x => S (weight x)) (x :: l))) with (S (weight x) + list_sum (map (fun x => S (weight x)) l))%nat in Hf.
  cbn [map concat decode_all].
  destruct (encode x ++ concat (map encode l)) eqn:E; [apply app_eq_nil in E as [E _]; apply encode_nonempty in E; done|].
  rewrite <- E, Hx by (try done; lia); rewrite IH by (try done; lia); done.
Qed.

Lemma decode_encode x : rlp_wf x -> forall r fuel, (weight x <= fuel)%nat -> decode fuel (encode x ++ r) = Some (x, r).
Proof.
  induction x as [l|l IH] using rlp_ind'; intros Hw r fuel Hf; cbn [weight] in Hf; (destruct fuel as [|fuel]; [lia|]); cbn [decode encode].
  - destruct Hw; rewrite split_bytes by done; done.
  - apply items_wf in Hw as [Hs Hw]; unfold encode_list_raw; rewrite <- app_assoc, (split_header true) by (try done).
    rewrite decode_all_encode by (try done; lia); done.
Qed.

(** Trees whose leaves are bytes and which are not too large. *)
Fixpoint bytes_ok (x : rlp) : Prop :=
  match x with
  | Bytes l => all_u8 l
  | Items l => (fix all (l : list rlp) : Prop := match l with [] => True | x :: l => bytes_ok x /\ all l end) l
  end.
Fixpoint room (x : rlp) : Z :=
  match x with Bytes l => 9 + Z.of_nat (length l) | Items l => 9 + fold_right Z.add 0 (map room l) end.

Lemma items_ok l : bytes_ok (Items l) <-> Forall bytes_ok l.
Proof.
  cbn; split; intros H.
  - induction l as [|x l IH]; [apply Forall_nil_2|]; destruct H; apply Forall_cons_2; auto.
  - induction H; auto.
Qed.

Lemma emit_length_bound n a b : 0 <= n < 2 ^ 64 -> Z.of_nat (length (emit_length n a b)) <= 9.
Proof.
  intros Hn; unfold emit_length; destruct (Z.ltb_spec n 56); [done|].
  pose proof (be_min_length n ltac:(lia) ltac:(lia)); cbn [length]; lia.
Qed.

Lemma room_pos x : 9 <= room x.
Proof.
  induction x as [l|l IH] using rlp_ind'; cbn [room]; [lia|].
  assert (0 <= fold_right Z.add 0 (map room l)); [|lia]; induction IH; cbn; lia.
Qed.

Lemma encode_room x : bytes_ok x -> room x < 2 ^ 64 -> rlp_wf x /\ Z.of_nat (length (encode x)) <= room x.
Proof.
  induction x as [l|l IH] using rlp_ind'; intros Hb Hr; cbn [room] in Hr.
  - split; [split; [exact Hb|unfold sized; lia]|]; cbn [encode room]; unfold encode_bytes; destruct (_ && _); [cbn; lia|].
    pose proof (emit_length_bound (Z.of_nat (length l)) 128 183 ltac:(lia)); rewrite length_app; lia.
  - rewrite items_ok in Hb.
    assert (HL : Forall rlp_wf l /\ Z.of_nat (length (concat (map encode l))) <= fold_right Z.add 0 (map room l)).
    { assert (HR : fold_right Z.add 0 (map room l) < 2 ^ 64) by lia; clear Hr.
      induction IH as [|x l Hx Hl IHl]; [split; [apply Forall_nil_2|done]|].
      apply Forall_cons in Hb as [Hbx Hb]; cbn [map fold_right concat] in *; pose proof (room_pos x) as HP.
      assert (H0 : 0 <= fold_right Z.add 0 (map room l)) by (clear; induction l as [|y l IH]; cbn; [lia|pose proof (room_pos y); lia]).
      destruct Hx as [Hx1 Hx2]; [done|lia|]; destruct IHl as [Hl1 Hl2]; [done|lia|].
      split; [apply Forall_cons_2; done|]; rewrite length_app; lia. }
    destruct HL as [HL1 HL2]; split; [apply items_wf; split; [unfold sized; lia|done]|].
    cbn [encode room]; unfold encode_list_raw; rewrite length_app.
    pose proof (emit_length_bound (Z.of_nat (length (concat (map encode l)))) 192 247 ltac:(lia)); lia.
Qed.

(** What a reader makes of an encoded tree. *)
Lemma decode_tree x : bytes_ok x -> room x < 2 ^ 64 -> decode (weight x) (encode x) = Some (x, []).
Proof. intros Hb Hr; rewrite <- (app_nil_r (encode x)) at 1; apply decode_encode; [apply encode_room; done|lia]. Qed.

Lemma emit_length_u8 n a b : all_u8 (emit_length n a b).
Proof.
  unfold emit_length; destruct (_ <? _); [apply Forall_singleton, u8_range|]; apply Forall_cons_2; [apply u8_range|apply be_min_u8].
Qed.

Lemma encode_u8 x : bytes_ok x -> all_u8 (encode x).
Proof.
  induction x as [l|l IH] using rlp_ind'; intros Hb; cbn [encode].
  - unfold encode_bytes; destruct (_ && _); [apply Forall_singleton, all_u8_byte_at, Hb|]; apply all_u8_app; split; [apply emit_length_u8|exact Hb].
  - apply all_u8_app; split; [apply emit_length_u8|]; rewrite items_ok in Hb.
    induction IH as [|x l Hx _ IHl]; [apply Forall_nil_2|]; apply Forall_cons in Hb as [Hbx Hb]; cbn [map concat].
    apply all_u8_app; auto.
Qed.

Lemma be_val_cons b l : be_val (b :: l) = b * 256 ^ Z.of_nat (length l) + be_val l.
Proof.
  induction l as [|c l IH] using rev_ind; [cbn; lia|].
  change (b :: l ++ [c]) with ((b :: l) ++ [c]); rewrite !be_val_app, IH, length_app; cbn [length].
  rewrite Nat.add_1_r, Nat2Z.inj_succ, Z.pow_succ_r by lia; ring.
Qed.

Lemma be_val_range l : all_u8 l -> 0 <= be_val l < 256 ^ Z.of_nat (length l).
Proof.
  induction l as [|b l IH]; intros Hl; [cbn; lia|]; apply Forall_cons in Hl as [Hb Hl]; specialize (IH Hl).
  rewrite be_val_cons; cbn [length]; rewrite Nat2Z.inj_succ, Z.pow_succ_r by lia; nia.
Qed.
