(* ===== verification/Brotli.v ===== *)
(** * Stored Brotli streams
    (firmware-ESP32-LTE-M/components/arkiv_crypto/src/brotli_store.cpp)

    The encoder that wraps bytes in uncompressed meta-blocks, and a reader of the format
    for such streams, which takes them back. *)

From S2P Require Import Prelude.

(** ** The encoder *)

(* src: firmware-ESP32-LTE-M/components/arkiv_crypto/src/brotli_store.cpp:31-36 BitWriter *)
Record BitWriter := Bw { bw_buf : list Z; cur : Z; bits_in_cur : Z }.
Implicit Types (bw : BitWriter) (input data : list Z).

(* src: firmware-ESP32-LTE-M/components/arkiv_crypto/src/brotli_store.cpp:52-56 BitWriter::flush_byte *)
Definition flush_byte bw : BitWriter := Bw (bw_buf bw ++ [cur bw]) 0 0.

(* src: firmware-ESP32-LTE-M/components/arkiv_crypto/src/brotli_store.cpp:38-41 BitWriter::write_bit *)
Definition write_bit (b : Z) bw : BitWriter :=
  let bw := Bw (bw_buf bw) (Z.lor (cur bw) (u8 (Z.shiftl (Z.land b 1) (bits_in_cur bw)))) (bits_in_cur bw + 1) in
  if bits_in_cur bw =? 8 then flush_byte bw else bw.

(* src: firmware-ESP32-LTE-M/components/arkiv_crypto/src/brotli_store.cpp:43-45 BitWriter::write_bits *)
Definition write_bits (value : Z) (n : nat) bw : BitWriter :=
  fold_left (fun bw i => write_bit (Z.land (Z.shiftr value (Z.of_nat i)) 1) bw) (seq 0 n) bw.

(* src: firmware-ESP32-LTE-M/components/arkiv_crypto/src/brotli_store.cpp:48-50 BitWriter::align_to_byte *)
Definition align_to_byte bw : BitWriter := if negb (bits_in_cur bw =? 0) then flush_byte bw else bw.

(* src: firmware-ESP32-LTE-M/components/arkiv_crypto/src/brotli_store.cpp:69-72 write_uncompressed_chunk (header) *)
Definition write_chunk_header bw (len : Z) : BitWriter :=
  write_bit 1 (write_bits (u32 (len - 1)) 16 (write_bits 0 2 (write_bit 0 bw))).

(** The bytes of the chunk go to the buffer directly. *)
(* src: firmware-ESP32-LTE-M/components/arkiv_crypto/src/brotli_store.cpp:63-77 write_uncompressed_chunk *)
Definition write_uncompressed_chunk bw data : BitWriter :=
  let bw := align_to_byte (write_chunk_header bw (Z.of_nat (length data))) in
  Bw (bw_buf bw ++ data) (cur bw) (bits_in_cur bw).

(* src: firmware-ESP32-LTE-M/components/arkiv_crypto/src/brotli_store.cpp:90 kMaxChunk *)
Definition kMaxChunk : Z := 65536.

(** The loop; [input] is what is left of it. *)
(* src: firmware-ESP32-LTE-M/components/arkiv_crypto/src/brotli_store.cpp:99-104 brotli_store_encode (loop) *)
Fixpoint store_chunks (fuel : nat) bw input : BitWriter :=
  match fuel with
  | O => bw
  | S fuel =>
      let remaining := Z.of_nat (length input) in
      if 0 <? remaining then
        let chunk := if kMaxChunk <? remaining then kMaxChunk else remaining in
        store_chunks fuel (write_uncompressed_chunk bw (take (Z.to_nat chunk) input)) (drop (Z.to_nat chunk) input)
      else bw
  end.

(* src: firmware-ESP32-LTE-M/components/arkiv_crypto/src/brotli_store.cpp:107-109 brotli_store_encode (end) *)
Definition last_block bw : BitWriter := align_to_byte (write_bit 1 (write_bit 1 bw)).

(* src: firmware-ESP32-LTE-M/components/arkiv_crypto/src/brotli_store.cpp:81-112 brotli_store_encode *)
Definition brotli_store_encode input : list Z :=
  let bw := write_bit 0 (Bw [] 0 0) in
  if Z.of_nat (length input) =? 0 then bw_buf (last_block bw)
  else bw_buf (last_block (store_chunks (length input) bw input)).

(** ** A reader of stored streams (RFC 7932, section 9) *)

(** Bits, the least significant first. *)
Fixpoint bits_of (n : nat) (v : Z) : list bool := match n with O => [] | S n => Z.odd v :: bits_of n (v / 2) end.
Fixpoint bits_val (l : list bool) : Z := match l with [] => 0 | b :: l => b2z b + 2 * bits_val l end.
Definition byte_bits (l : list Z) : list bool := concat (map (bits_of 8) l).

Definition read_bits (n : nat) (l : list bool) : option (Z * list bool) :=
  if (n <=? length l)%nat then Some (bits_val (take n l), drop n l) else None.

(** To the next byte of the stream: the bits skipped are zero. *)
Definition skip_to_byte (l : list bool) : option (list bool) :=
  let k := Nat.modulo (length l) 8 in
  if forallb negb (take k l) then Some (drop k l) else None.

Fixpoint read_bytes (n : nat) (l : list bool) : option (list Z * list bool) :=
  match n with
  | O => Some ([], l)
  | S n =>
      match read_bits 8 l with
      | Some (b, l) => match read_bytes n l with Some (bs, l) => Some (b :: bs, l) | None => None end
      | None => None
      end
  end.

(** Meta-blocks: the last one is empty, the others are uncompressed, with a length field of
    4, 5 or 6 nibbles. *)
Fixpoint read_blocks (fuel : nat) (l : list bool) : option (list Z) :=
  match fuel with
  | O => None
  | S fuel =>
      match l with
      | true :: true :: l => match skip_to_byte l with Some [] => Some [] | _ => None end
      | false :: l =>
          match read_bits 2 l with
          | Some (mnibbles, l) =>
              if mnibbles =? 3 then None
              else match read_bits (4 * (4 + Z.to_nat mnibbles)) l with
                   | Some (mlen1, true :: l) =>
                       match skip_to_byte l with
                       | Some l =>
                           match read_bytes (Z.to_nat (mlen1 + 1)) l with
                           | Some (bs, l) => match read_blocks fuel l with Some rest => Some (bs ++ rest) | None => None end
                           | None => None
                           end
                       | None => None
                       end
                   | _ => None
                   end
          | None => None
          end
      | _ => None
      end
  end.

(** The stream's first bit says that the window has 16 bits. *)
Definition brotli_read (fuel : nat) (l : list Z) : option (list Z) :=
  match byte_bits l with false :: bits => read_blocks fuel bits | _ => None end.

(** ** What the writer writes *)

Definition stream bw : list bool := byte_bits (bw_buf bw) ++ bits_of (Z.to_nat (bits_in_cur bw)) (cur bw).
Definition bw_wf bw : Prop := 0 <= bits_in_cur bw < 8 /\ 0 <= cur bw < 2 ^ bits_in_cur bw.

Lemma bits_of_length n v : length (bits_of n v) = n.
Proof. revert v; induction n as [|n IH]; intros v; [done|]; cbn; rewrite IH; done. Qed.

Lemma bits_of_snoc n v b : 0 <= v < 2 ^ Z.of_nat n -> 0 <= b -> bits_of (S n) (v + b * 2 ^ Z.of_nat n) = bits_of n v ++ [Z.odd b].
Proof.
  revert v; induction n as [|n IH]; intros v Hv Hb.
  - cbn in *; replace v with 0 by lia; rewrite Z.mul_1_r; done.
  - rewrite Nat2Z.inj_succ, Z.pow_succ_r in * by lia; cbn [bits_of app] in *.
    replace (v + b * (2 * 2 ^ Z.of_nat n)) with (v + b * 2 ^ Z.of_nat n * 2) by lia.
    f_equal; [rewrite Z.odd_add, (Z.mul_comm _ 2), Z.odd_mul; apply xorb_false_r|].
    rewrite Z.div_add by lia; apply IH; [|done]; split; [apply Z.div_pos; lia|apply Z.div_lt_upper_bound; lia].
Qed.

Lemma bits_val_of n v : bits_val (bits_of n v) = v mod 2 ^ Z.of_nat n.
Proof.
  revert v; induction n as [|n IH]; intros v; [cbn; rewrite Z.mod_1_r; done|].
  cbn [bits_of bits_val]; rewrite IH, Nat2Z.inj_succ, Z.pow_succ_r by lia.
  rewrite Z.rem_mul_r by (try apply Z.pow_pos_nonneg; lia); rewrite Zmod_odd; destruct (Z.odd v); done.
Qed.

Lemma byte_bits_app l1 l2 : byte_bits (l1 ++ l2) = byte_bits l1 ++ byte_bits l2.
Proof. unfold byte_bits; rewrite map_app, concat_app; done. Qed.

Lemma byte_bits_length l : length (byte_bits l) = (8 * length l)%nat.
Proof. unfold byte_bits; induction l as [|b l IH]; [done|]; cbn [map concat]; rewrite length_app, IH, bits_of_length; cbn [length]; lia. Qed.

Lemma stream_flush bw : bits_in_cur bw = 8 -> stream (flush_byte bw) = stream bw.
Proof.
  intros H8; unfold stream, flush_byte; cbn [bw_buf cur bits_in_cur]; rewrite H8, byte_bits_app, app_nil_r.
  unfold byte_bits; cbn [map concat]; rewrite app_nil_r; done.
Qed.

Lemma write_bit_stream b bw : 0 <= b <= 1 -> bw_wf bw -> bw_wf (write_bit b bw) /\ stream (write_bit b bw) = stream bw ++ [b =? 1].
Proof.
  intros Hb [Hn Hc]; unfold write_bit; cbv zeta; cbn [bits_in_cur].
  assert (HP : 2 ^ bits_in_cur bw <= 2 ^ 7) by (apply Z.pow_le_mono_r; lia).
  assert (Hl : Z.land b 1 = b) by (assert (b = 0 \/ b = 1) as [-> | ->] by lia; done); rewrite Hl.
  rewrite u8_small by (rewrite Z.shiftl_mul_pow2 by lia; change (2 ^ 7) with 128 in HP; nia); rewrite lor_shiftl by lia.
  set (v := cur bw + b * 2 ^ bits_in_cur bw); set (bw' := Bw (bw_buf bw) v (bits_in_cur bw + 1)).
  assert (HV : 0 <= v < 2 ^ (bits_in_cur bw + 1)) by (rewrite Z.pow_add_r by lia; unfold v; change (2 ^ 1) with 2; nia).
  assert (HS : stream bw' = stream bw ++ [b =? 1]).
  { unfold stream; cbn [bw_buf cur bits_in_cur bw']; rewrite <- app_assoc; f_equal.
    replace (Z.to_nat (bits_in_cur bw + 1)) with (S (Z.to_nat (bits_in_cur bw))) by lia.
    replace v with (cur bw + b * 2 ^ Z.of_nat (Z.to_nat (bits_in_cur bw))) by (rewrite Z2Nat.id by lia; done).
    rewrite bits_of_snoc by (rewrite ?Z2Nat.id by lia; lia); assert (b = 0 \/ b = 1) as [-> | ->] by lia; done. }
  destruct (Z.eqb_spec (bits_in_cur bw + 1) 8) as [H8|H8].
  - rewrite stream_flush by done; split; [unfold bw_wf; cbn; lia|done].
  - split; [unfold bw_wf; cbn [bits_in_cur cur bw']; lia|done].
Qed.

Lemma write_bits_stream n : forall v i bw, 0 <= v -> bw_wf bw ->
  let bw' := fold_left (fun bw i => write_bit (Z.land (Z.shiftr v (Z.of_nat i)) 1) bw) (seq i n) bw in
  bw_wf bw' /\ stream bw' = stream bw ++ bits_of n (v / 2 ^ Z.of_nat i).
Proof.
  induction n as [|n IH]; intros v i bw Hv Hw; cbn [seq fold_left bits_of]; [rewrite app_nil_r; done|].
  assert (HB : Z.land (Z.shiftr v (Z.of_nat i)) 1 = Z.b2z (Z.odd (v / 2 ^ Z.of_nat i)))
    by (change 1 with (Z.ones 1); rewrite Z.land_ones, Z.shiftr_div_pow2 by lia; change (2 ^ 1) with 2; rewrite Zmod_odd; done).
  rewrite HB; destruct (write_bit_stream (Z.b2z (Z.odd (v / 2 ^ Z.of_nat i))) bw) as [Hw' HS]; [destruct (Z.odd _); cbn; lia|done|].
  destruct (IH v (S i) _ Hv Hw') as [Hw'' HS']; split; [exact Hw''|]; rewrite HS', HS, <- app_assoc; cbn [app].
  rewrite Z.div_div by (try apply Z.pow_pos_nonneg; lia); rewrite Nat2Z.inj_succ, Z.pow_succ_r, (Z.mul_comm 2) by lia.
  destruct (Z.odd (v / 2 ^ Z.of_nat i)); done.
Qed.

Lemma write_bits_ok v n bw : 0 <= v -> bw_wf bw ->
  bw_wf (write_bits v n bw) /\ stream (write_bits v n bw) = stream bw ++ bits_of n v.
Proof. intros Hv Hw; pose proof (write_bits_stream n v 0 bw Hv Hw) as HW; rewrite Z.div_1_r in HW; exact HW. Qed.

Lemma bits_of_zero n : bits_of n 0 = replicate n false.
Proof. induction n as [|n IH]; [done|]; cbn [bits_of replicate]; change (0 / 2) with 0; rewrite IH; done. Qed.

Lemma bits_of_pad k n v : 0 <= v < 2 ^ Z.of_nat n -> bits_of (n + k) v = bits_of n v ++ replicate k false.
Proof.
  revert v; induction n as [|n IH]; intros v Hv; [cbn in *; replace v with 0 by lia; apply bits_of_zero|].
  cbn [Nat.add bits_of app]; f_equal; apply IH; rewrite Nat2Z.inj_succ, Z.pow_succ_r in Hv by lia.
  split; [apply Z.div_pos; lia|apply Z.div_lt_upper_bound; lia].
Qed.

Lemma align_stream bw : bw_wf bw -> bits_in_cur (align_to_byte bw) = 0 /\ cur (align_to_byte bw) < 1 /\ bw_wf (align_to_byte bw) /\
  exists k, (k < 8)%nat /\ stream (align_to_byte bw) = stream bw ++ replicate k false.
Proof.
  intros [Hn Hc]; unfold align_to_byte; destruct (Z.eqb_spec (bits_in_cur bw) 0) as [H0|H0]; cbn [negb].
  - rewrite H0 in Hc; cbn in Hc; repeat split; try lia; exists 0%nat; rewrite app_nil_r; split; [lia|done].
  - repeat split; try (cbn; lia); exists (8 - Z.to_nat (bits_in_cur bw))%nat; split; [lia|].
    unfold stream, flush_byte; cbn [bw_buf cur bits_in_cur]; rewrite byte_bits_app, <- !app_assoc, app_nil_r; f_equal.
    unfold byte_bits; cbn [map concat]; rewrite app_nil_r; rewrite <- bits_of_pad by (rewrite Z2Nat.id by lia; lia).
    f_equal; lia.
Qed.

Lemma stream_aligned bw : bits_in_cur bw = 0 -> stream bw = byte_bits (bw_buf bw).
Proof. intros H0; unfold stream; rewrite H0; apply app_nil_r. Qed.

Definition chunk_header (len : Z) : list bool := [false; false; false] ++ bits_of 16 (len - 1) ++ [true].

Lemma chunk_header_stream bw len : bw_wf bw -> 0 < len <= 65536 ->
  bw_wf (write_chunk_header bw len) /\ stream (write_chunk_header bw len) = stream bw ++ chunk_header len.
Proof.
  intros Hw Hl; unfold write_chunk_header.
  assert (H1 : 0 <= u32 (len - 1)) by apply u32_range.
  assert (HU : u32 (len - 1) = len - 1) by (apply u32_small; lia).
  destruct (write_bit_stream 0 bw ltac:(lia) Hw) as [W1 S1].
  destruct (write_bits_ok 0 2 _ ltac:(lia) W1) as [W2 S2].
  destruct (write_bits_ok (u32 (len - 1)) 16 _ H1 W2) as [W3 S3].
  destruct (write_bit_stream 1 _ ltac:(lia) W3) as [W4 S4]; split; [exact W4|].
  rewrite S4, S3, S2, S1, HU; unfold chunk_header.
  assert (HA : forall B, (((stream bw ++ [false]) ++ [false; false]) ++ B) ++ [true] = stream bw ++ [false; false; false] ++ B ++ [true])
    by (intros B; rewrite <- !app_assoc; reflexivity).
  exact (HA _).
Qed.

Lemma chunk_stream bw data : bw_wf bw -> 0 < Z.of_nat (length data) <= 65536 ->
  bw_wf (write_uncompressed_chunk bw data) /\ bits_in_cur (write_uncompressed_chunk bw data) = 0 /\
  exists k, (k < 8)%nat /\
    stream (write_uncompressed_chunk bw data) = stream bw ++ chunk_header (Z.of_nat (length data)) ++ replicate k false ++ byte_bits data.
Proof.
  intros Hw Hl; destruct (chunk_header_stream bw _ Hw Hl) as [W4 S4]; unfold write_uncompressed_chunk.
  destruct (align_stream _ W4) as (Hb & Hc & W5 & k & Hk & S5); clear W4; revert Hb Hc W5 S5.
  generalize (align_to_byte (write_chunk_header bw (Z.of_nat (length data)))); intros b Hb _ W5 S5; cbv zeta.
  split; [exact W5|split; [exact Hb|]].
  exists k; split; [done|]; rewrite stream_aligned in S5 by exact Hb.
  rewrite stream_aligned by exact Hb; cbn [bw_buf]; rewrite byte_bits_app, S5, S4, <- !app_assoc; reflexivity.
Qed.

Lemma read_bits_app l r : read_bits (length l) (l ++ r) = Some (bits_val l, r).
Proof. unfold read_bits; rewrite (proj2 (Nat.leb_le _ _)) by (rewrite length_app; lia); rewrite take_app_length, drop_app_length; done. Qed.

Lemma read_bits_of n v r : 0 <= v < 2 ^ Z.of_nat n -> read_bits n (bits_of n v ++ r) = Some (v, r).
Proof. intros Hv; rewrite <- (bits_of_length n v) at 1; rewrite read_bits_app, bits_val_of, Z.mod_small; done. Qed.

Lemma read_bytes_app data r : all_u8 data -> read_bytes (length data) (byte_bits data ++ r) = Some (data, r).
Proof.
  induction 1 as [|b data Hb _ IH]; [done|]; unfold byte_bits in *; cbn [map concat length read_bytes].
  rewrite <- app_assoc, read_bits_of by (cbn; lia); rewrite IH; done.
Qed.

Lemma skip_to_byte_app k l : (k < 8)%nat -> Nat.modulo (length l) 8 = 0%nat -> skip_to_byte (replicate k false ++ l) = Some l.
Proof.
  intros Hk Hl; unfold skip_to_byte; rewrite length_app, length_replicate, <- Nat.Div0.add_mod_idemp_r, Hl, Nat.add_0_r, Nat.mod_small by done.
  rewrite take_app_length', drop_app_length' by (rewrite length_replicate; done).
  replace (forallb negb (replicate k false)) with true; [done|]; clear; induction k; done.
Qed.

Lemma read_chunk fuel k data rest r : all_u8 data -> 0 < Z.of_nat (length data) <= 65536 -> (k < 8)%nat ->
  Nat.modulo (length rest) 8 = 0%nat -> read_blocks fuel rest = Some r ->
  read_blocks (S fuel) (chunk_header (Z.of_nat (length data)) ++ replicate k false ++ byte_bits data ++ rest) = Some (data ++ r).
Proof.
  intros Hd Hl Hk Hr HR; unfold chunk_header; rewrite <- !app_assoc; cbn [app read_blocks].
  change (false :: false :: bits_of 16 (Z.of_nat (length data) - 1) ++ ?x) with (bits_of 2 0 ++ (bits_of 16 (Z.of_nat (length data) - 1) ++ x)).
  rewrite read_bits_of by (cbn; lia); change (0 =? 3) with false; change (4 * (4 + Z.to_nat 0))%nat with 16%nat; cbv iota.
  rewrite read_bits_of by (change (2 ^ Z.of_nat 16) with 65536; lia).
  rewrite skip_to_byte_app; [|done|].
  2: { rewrite length_app, byte_bits_length, <- Nat.Div0.add_mod_idemp_r, Hr, Nat.add_0_r, Nat.mul_comm; apply Nat.Div0.mod_mul. }
  replace (Z.to_nat (Z.of_nat (length data) - 1 + 1)) with (length data) by lia; rewrite read_bytes_app, HR by done; done.
Qed.

(** The end of the stream. *)
Lemma last_stream bw : bw_wf bw -> bits_in_cur (last_block bw) = 0 /\ exists k, (k < 8)%nat /\
  stream (last_block bw) = stream bw ++ [true; true] ++ replicate k false.
Proof.
  intros Hw; unfold last_block.
  destruct (write_bit_stream 1 bw ltac:(lia) Hw) as [W1 S1]; destruct (write_bit_stream 1 _ ltac:(lia) W1) as [W2 S2].
  destruct (align_stream _ W2) as (Hb & _ & _ & k & Hk & S3); split; [done|]; exists k; split; [done|].
  rewrite S3, S2, S1, <- !app_assoc; done.
Qed.

Lemma read_last fuel k : (k < 8)%nat -> read_blocks (S fuel) ([true; true] ++ replicate k false) = Some [].
Proof. intros Hk; cbn [app read_blocks]; rewrite <- (app_nil_r (replicate k false)), skip_to_byte_app; done. Qed.

Lemma aligned_length bw : bits_in_cur bw = 0 -> Nat.modulo (length (stream bw)) 8 = 0%nat.
Proof. intros H0; unfold stream; rewrite H0; cbn [Z.to_nat bits_of]; rewrite app_nil_r, byte_bits_length, Nat.mul_comm; apply Nat.Div0.mod_mul. Qed.

Lemma chunks_read fuel : forall bw input, bw_wf bw -> all_u8 input -> (length input <= fuel)%nat ->
  let bw' := last_block (store_chunks fuel bw input) in
  bits_in_cur bw' = 0 /\ exists rest, stream bw' = stream bw ++ rest /\ read_blocks (S fuel) rest = Some input.
Proof.
  induction fuel as [|fuel IH]; intros bw input Hw Hi Hf; cbn [store_chunks].
  - destruct input; [|cbn in Hf; lia]; destruct (last_stream bw Hw) as (Hb & k & Hk & HS); split; [done|].
    eexists; split; [exact HS|apply read_last; done].
  - destruct (Z.ltb_spec 0 (Z.of_nat (length input))) as [Hp|Hp].
    2: { destruct input; [|cbn in Hp; lia]; destruct (last_stream bw Hw) as (Hb & k & Hk & HS); split; [done|].
         eexists; split; [exact HS|apply read_last; done]. }
    set (chunk := if kMaxChunk <? _ then _ else _).
    assert (HC : 0 < chunk <= 65536 /\ chunk <= Z.of_nat (length input)) by (unfold chunk, kMaxChunk; destruct (Z.ltb_spec 65536 (Z.of_nat (length input))); lia).
    assert (HL : Z.of_nat (length (take (Z.to_nat chunk) input)) = chunk) by (rewrite length_take; lia).
    destruct (chunk_stream bw (take (Z.to_nat chunk) input) Hw ltac:(lia)) as (W1 & B1 & k & Hk & S1).
    destruct (IH _ (drop (Z.to_nat chunk) input) W1) as (B2 & rest & S2 & HR); [apply Forall_drop; done|rewrite length_drop; lia|].
    split; [exact B2|]; eexists; split; [rewrite S2, S1, <- !app_assoc; reflexivity|].
    rewrite (read_chunk _ _ _ _ (drop (Z.to_nat chunk) input)); [rewrite take_drop; done|apply Forall_take; done|lia|done| |exact HR].
    pose proof (aligned_length _ B2) as HA; rewrite S2, length_app, <- Nat.Div0.add_mod_idemp_l, (aligned_length _ B1) in HA; exact HA.
Qed.

(** A Brotli decoder gives back what was stored. *)
Lemma brotli_read_store input : all_u8 input -> brotli_read (S (length input)) (brotli_store_encode input) = Some input.
Proof.
  intros Hi; unfold brotli_store_encode; destruct (write_bit_stream 0 (Bw [] 0 0) ltac:(lia)) as [W S0]; [unfold bw_wf; cbn; lia|].
  change (stream (Bw [] 0 0)) with (@nil bool) in S0; cbn [app] in S0.
  assert (HZ : forall bw rest, bits_in_cur bw = 0 -> stream bw = [false] ++ rest -> byte_bits (bw_buf bw) = false :: rest)
    by (intros bw rest H0 HS; rewrite stream_aligned in HS by done; exact HS).
  destruct (Z.eqb_spec (Z.of_nat (length input)) 0) as [H0|H0].
  - destruct input; [|cbn in H0; lia]; destruct (last_stream _ W) as (Hb & k & Hk & HS); rewrite S0 in HS.
    unfold brotli_read; rewrite (HZ _ _ Hb HS); apply read_last; done.
  - destruct (chunks_read (length input) _ input W Hi ltac:(lia)) as (Hb & rest & HS & HR); rewrite S0 in HS.
    unfold brotli_read; rewrite (HZ _ _ Hb HS); exact HR.
Qed.

(** What it writes is bytes. *)
Definition bw_u8 bw : Prop := all_u8 (bw_buf bw) /\ bw_wf bw.

Lemma write_bit_u8 b bw : 0 <= b <= 1 -> bw_u8 bw -> bw_u8 (write_bit b bw).
Proof.
  intros Hb [Hu Hw]; split; [|apply write_bit_stream; done]; destruct Hw as [Hn Hc]; unfold write_bit; cbv zeta; cbn [bits_in_cur].
  destruct (Z.eqb_spec (bits_in_cur bw + 1) 8) as [H8|]; [|exact Hu]; cbn [flush_byte bw_buf cur]; apply all_u8_app; split; [exact Hu|].
  apply Forall_singleton; replace (bits_in_cur bw) with 7 in * by lia; change (2 ^ 7) with 128 in Hc.
  assert (b = 0 \/ b = 1) as [-> | ->] by lia; [rewrite Z.lor_0_r; lia|].
  change (u8 (Z.shiftl (Z.land 1 1) 7)) with (Z.shiftl 1 7); rewrite lor_shiftl by (change (2 ^ 7) with 128; lia); change (2 ^ 7) with 128; lia.
Qed.

Lemma write_bits_u8 v n bw : bw_u8 bw -> bw_u8 (write_bits v n bw).
Proof.
  unfold write_bits; revert bw; induction (seq 0 n) as [|i l IH]; intros bw Hw; [exact Hw|]; cbn [fold_left].
  apply IH, write_bit_u8; [|exact Hw]; pose proof (Z.land_ones (Z.shiftr v (Z.of_nat i)) 1 ltac:(lia)) as HL.
  change (Z.ones 1) with 1 in HL; change (2 ^ 1) with 2 in HL; pose proof (Z.mod_pos_bound (Z.shiftr v (Z.of_nat i)) 2 ltac:(lia)); lia.
Qed.

Lemma align_u8 bw : bw_u8 bw -> bw_u8 (align_to_byte bw).
Proof.
  intros [Hu Hw]; split; [|apply align_stream; done]; unfold align_to_byte; destruct (negb _); [|exact Hu].
  cbn [flush_byte bw_buf]; apply all_u8_app; split; [exact Hu|]; apply Forall_singleton; destruct Hw as [Hn Hc].
  assert (2 ^ bits_in_cur bw <= 2 ^ 7) by (apply Z.pow_le_mono_r; lia); change (2 ^ 7) with 128 in *; lia.
Qed.

Lemma chunk_u8 bw data : all_u8 data -> bw_u8 bw -> bw_u8 (write_uncompressed_chunk bw data).
Proof.
  intros Hd Hw; unfold write_uncompressed_chunk, write_chunk_header; cbv zeta.
  assert (HB : bw_u8 (align_to_byte (write_bit 1 (write_bits (u32 (Z.of_nat (length data) - 1)) 16 (write_bits 0 2 (write_bit 0 bw))))))
    by (apply align_u8, write_bit_u8; [lia|]; apply write_bits_u8, write_bits_u8, write_bit_u8; [lia|exact Hw]).
  revert HB; generalize (align_to_byte (write_bit 1 (write_bits (u32 (Z.of_nat (length data) - 1)) 16 (write_bits 0 2 (write_bit 0 bw))))).
  intros b [Hu Hb]; split; [apply all_u8_app; split; [exact Hu|exact Hd]|exact Hb].
Qed.

Lemma chunks_u8 fuel : forall bw input, all_u8 input -> bw_u8 bw -> bw_u8 (store_chunks fuel bw input).
Proof.
  induction fuel as [|fuel IH]; intros bw input Hi Hw; cbn [store_chunks]; [exact Hw|]; destruct (0 <? _); [|exact Hw].
  apply IH; [apply Forall_drop; done|]; apply chunk_u8; [apply Forall_take; done|exact Hw].
Qed.

Lemma brotli_store_u8 input : all_u8 input -> all_u8 (brotli_store_encode input).
Proof.
  intros Hi; unfold brotli_store_encode.
  assert (H0 : bw_u8 (write_bit 0 (Bw [] 0 0))) by (apply write_bit_u8; [lia|]; split; [apply Forall_nil_2|unfold bw_wf; cbn; lia]).
  assert (HL : forall bw, bw_u8 bw -> all_u8 (bw_buf (last_block bw)))
    by (intros bw Hb; apply align_u8, write_bit_u8, write_bit_u8; [lia|lia|exact Hb]).
  destruct (_ =? 0); apply HL; [exact H0|]; apply chunks_u8; done.
Qed.
