(* ===== verification/Secp256k1.v ===== *)
(** * Recoverable ECDSA (firmware-ESP32-LTE-M/components/arkiv_crypto/src/secp256k1.c)

    HMAC-SHA-256, the deterministic nonces of RFC 6979 and the signer of the wallet.  The
    curve and SHA-256 are third-party code: [MicroEcc] is what is called of them, with a
    number for a VLI. *)

From Stdlib Require Import Zcong.
From S2P Require Import Prelude Rlp.

(** [point_mult k] is the affine point kG, [mod_inv k] the inverse modulo the group
    order; an [option] is a call that reports failure. *)
Class MicroEcc := {
  sha256 : list Z -> list Z;
  point_mult : Z -> Z * Z;
  mod_inv : Z -> Z;
  uECC_compute_public_key : list Z -> option (list Z);
  uECC_verify_secp256k1 : list Z -> list Z -> list Z -> bool;
  uECC_valid_public_key : list Z -> bool;
  uECC_shared_secret : list Z -> list Z -> option (list Z)
}.

(** tiny_keccak, third-party too. *)
Class Keccak := { keccak256 : list Z -> list Z }.

(** The group order. *)
(* src: firmware-ESP32-LTE-M/main/cmdauth_arkiv.c:374-379 SECP256K1_N_BE *)
Definition SECP256K1_N_BE : list Z :=
  [255; 255; 255; 255; 255; 255; 255; 255; 255; 255; 255; 255; 255; 255; 255; 254;
   186; 174; 220; 230; 175; 72; 160; 59; 191; 210; 94; 140; 208; 54; 65; 65].
Definition curve_n : Z := 115792089237316195423570985008687907852837564279074904382605163141518161494337.

(** What the signer relies on: coordinates are 256-bit numbers, the inverse of a number that
    has one is one, and a hash is 32 bytes. *)
Class MicroEccLaws `{MicroEcc} := {
  point_mult_range k : 0 <= fst (point_mult k) < 2 ^ 256;
  mod_inv_spec k : Z.gcd k curve_n = 1 -> (mod_inv k * k) mod curve_n = 1;
  sha256_u8 l : all_u8 (sha256 l);
  sha256_length l : length (sha256 l) = 32%nat
}.

#[local] Set Default Proof Using "Type*".

Section Signer.
Context `{EC : MicroEcc}.
Implicit Types (key msg priv hash t digest : list Z).

(** ** HMAC *)

(* src: firmware-ESP32-LTE-M/components/arkiv_crypto/src/secp256k1.c:49-51 k_pad *)
Definition k_pad key (c : Z) : list Z := map (fun b => Z.lxor b c) (key ++ replicate (64 - length key) 0).

(* src: firmware-ESP32-LTE-M/components/arkiv_crypto/src/secp256k1.c:36-71 arkiv_hmac_sha256 *)
Definition arkiv_hmac_sha256 key msg : list Z :=
  let key := if 64 <? Z.of_nat (length key) then sha256 key else key in
  let inner := sha256 (k_pad key 54 ++ msg) in
  sha256 (k_pad key 92 ++ inner).

(** ** RFC 6979 *)

(* src: firmware-ESP32-LTE-M/components/arkiv_crypto/src/secp256k1.c:75-78 rfc6979_ctx *)
Record rfc6979_ctx := Rfc6979 { rf_K : list Z; rf_V : list Z }.

(* src: firmware-ESP32-LTE-M/components/arkiv_crypto/src/secp256k1.c:91-92 rfc6979_init (update) *)
Definition rfc_update (r : rfc6979_ctx) (buf : list Z) : rfc6979_ctx :=
  let K := arkiv_hmac_sha256 (rf_K r) buf in Rfc6979 K (arkiv_hmac_sha256 K (rf_V r)).

(* src: firmware-ESP32-LTE-M/components/arkiv_crypto/src/secp256k1.c:81-100 rfc6979_init *)
Definition rfc6979_init priv hash : rfc6979_ctx :=
  let r := Rfc6979 (replicate 32 0) (replicate 32 1) in
  let r := rfc_update r (rf_V r ++ [0] ++ priv ++ hash) in
  rfc_update r (rf_V r ++ [1] ++ priv ++ hash).

(* src: firmware-ESP32-LTE-M/components/arkiv_crypto/src/secp256k1.c:103-107 rfc6979_next_t *)
Definition rfc6979_next_t (r : rfc6979_ctx) : rfc6979_ctx * list Z :=
  let V := arkiv_hmac_sha256 (rf_K r) (rf_V r) in (Rfc6979 (rf_K r) V, V).

(* src: firmware-ESP32-LTE-M/components/arkiv_crypto/src/secp256k1.c:109-116 rfc6979_reseed *)
Definition rfc6979_reseed (r : rfc6979_ctx) : rfc6979_ctx := rfc_update r (rf_V r ++ [0]).

(** ** Keys *)

(* src: firmware-ESP32-LTE-M/components/arkiv_crypto/src/secp256k1.c:121-129 bytes32_to_scalar_mod_n *)
Definition bytes32_to_scalar_mod_n (b : list Z) : Z := let v := be_val b in if curve_n <=? v then v - curve_n else v.

(* src: firmware-ESP32-LTE-M/components/arkiv_crypto/src/secp256k1.c:133-140 arkiv_secp256k1_derive_pubkey *)
Definition arkiv_secp256k1_derive_pubkey priv : option (list Z) := uECC_compute_public_key priv.

(* src: firmware-ESP32-LTE-M/components/arkiv_crypto/src/secp256k1.c:142-145 arkiv_secp256k1_verify *)
Definition arkiv_secp256k1_verify (pub digest sig : list Z) : bool := uECC_verify_secp256k1 pub digest sig.

(* src: firmware-ESP32-LTE-M/components/arkiv_crypto/src/secp256k1.c:147-156 arkiv_secp256k1_derive_address *)
Definition arkiv_secp256k1_derive_address `{Keccak} priv : option (list Z) :=
  match arkiv_secp256k1_derive_pubkey priv with
  | Some pub => Some (take 20 (drop 12 (keccak256 pub)))
  | None => None
  end.

(* src: firmware-ESP32-LTE-M/components/arkiv_crypto/src/secp256k1.c:183-186 arkiv_secp256k1_valid_pubkey *)
Definition arkiv_secp256k1_valid_pubkey (pub : list Z) : bool := uECC_valid_public_key pub.

(* src: firmware-ESP32-LTE-M/components/arkiv_crypto/src/secp256k1.c:160-181 arkiv_secp256k1_ecdh *)
Definition arkiv_secp256k1_ecdh priv (peer_pub : list Z) : Z + list Z :=
  if negb (uECC_valid_public_key peer_pub) then inl (-1)
  else match uECC_shared_secret peer_pub priv with Some x => inr x | None => inl (-2) end.

(** ** Signing *)

(** One try with the nonce [k], [None] for another one: r, s and the recovery id. *)
(* src: firmware-ESP32-LTE-M/components/arkiv_crypto/src/secp256k1.c:227-269 arkiv_secp256k1_sign_recoverable (try) *)
Definition sign_try (d z k : Z) : option (Z * Z * Z) :=
  if (k =? 0) || (curve_n <=? k) then None
  else
    let '(x, y) := point_mult k in
    let rx_wrapped := curve_n <=? x in
    let r := if rx_wrapped then x - curve_n else x in
    if r =? 0 then None
    else
      let cand_recid := Z.lor (Z.land y 1) (if rx_wrapped then 2 else 0) in
      let rd := (r * d) mod curve_n in
      let z_plus_rd := (z + rd) mod curve_n in
      let s := (mod_inv k * z_plus_rd) mod curve_n in
      if s =? 0 then None
      else if Z.shiftr curve_n 1 <? s then Some (r, curve_n - s, Z.lxor cand_recid 1)
      else Some (r, s, cand_recid).

(* src: firmware-ESP32-LTE-M/components/arkiv_crypto/src/secp256k1.c:222-271 arkiv_secp256k1_sign_recoverable (loop) *)
Fixpoint sign_tries (tries : nat) (rfc : rfc6979_ctx) (d z : Z) : option (Z * Z * Z) :=
  match tries with
  | O => None
  | S tries =>
      let '(rfc, t) := rfc6979_next_t rfc in
      match sign_try d z (be_val t) with
      | Some sig => Some sig
      | None => sign_tries tries (rfc6979_reseed rfc) d z
      end
  end.

(** The error code, or the recovery id and r||s. *)
(* src: firmware-ESP32-LTE-M/components/arkiv_crypto/src/secp256k1.c:190-278 arkiv_secp256k1_sign_recoverable *)
Definition arkiv_secp256k1_sign_recoverable priv digest : Z + (Z * list Z) :=
  let d := be_val priv in
  if d =? 0 then inl (-1)
  else if curve_n <=? d then inl (-2)
  else
    let z := bytes32_to_scalar_mod_n digest in
    let rfc := rfc6979_init priv (be_n 32 z) in
    match sign_tries 16 rfc d z with
    | None => inl (-3)
    | Some (r, s, recid) => inr (recid, be_n 32 r ++ be_n 32 s)
    end.

(** ** What a signature is *)

(** ECDSA's equation in a form without inverses (every nonce has one, the order being a
    prime), for the point that the recovery id
    selects: with s negated the point is -kG, whose ordinate has the other parity. *)
Definition ecdsa (d z r s recid : Z) : Prop :=
  exists k x y (neg : bool),
    0 < k < curve_n /\ point_mult k = (x, y) /\
    r = x mod curve_n /\ 0 < r < curve_n /\ 0 < s <= curve_n / 2 /\
    (Z.gcd k curve_n = 1 -> ((if neg then - s else s) * k) mod curve_n = (z + r * d) mod curve_n) /\
    Z.odd recid = xorb (Z.odd y) neg /\ (2 <= recid <-> curve_n <= x) /\ 0 <= recid < 4.

Context `{L : !MicroEccLaws}.

Lemma parity_lor y (w : bool) : let c := Z.lor (Z.land y 1) (if w then 2 else 0) in
  0 <= c < 4 /\ 0 <= Z.lxor c 1 < 4 /\ Z.odd c = Z.odd y /\ Z.odd (Z.lxor c 1) = negb (Z.odd y) /\
  (2 <= c <-> w = true) /\ (2 <= Z.lxor c 1 <-> w = true).
Proof.
  change 1 with (Z.ones 1) at 1; cbv zeta; rewrite Z.land_ones by lia; change (2 ^ 1) with 2.
  rewrite Zmod_odd; destruct (Z.odd y), w; vm_compute; repeat split; try done; try congruence.
Qed.

Lemma sign_try_ecdsa d z k r s recid : sign_try d z k = Some (r, s, recid) -> 0 <= k -> ecdsa d z r s recid.
Proof.
  unfold sign_try; intros Hs Hk; destruct (_ || _) eqn:Ek; [done|]; apply orb_false_iff in Ek as [Ek1 Ek2].
  apply Z.eqb_neq in Ek1; apply Z.leb_gt in Ek2.
  pose proof (point_mult_range k) as HX; destruct (point_mult k) as [x y] eqn:EP; cbn [fst] in HX.
  set (w := curve_n <=? x) in *; set (r0 := if w then x - curve_n else x) in *.
  assert (Hr : r0 = x mod curve_n /\ 0 <= r0 < curve_n).
  { assert (2 ^ 256 <= 2 * curve_n) by (vm_compute; discriminate).
    unfold r0, w; destruct (Z.leb_spec curve_n x).
    - split; [|lia]; rewrite <- (Z.mod_small (x - curve_n) curve_n) by lia.
      rewrite <- (Z_mod_plus_full (x - curve_n) 1); f_equal; lia.
    - split; [|lia]; rewrite Z.mod_small; lia. }
  destruct Hr as [Hr1 Hr2]; destruct (Z.eqb_spec r0 0) as [|Hr3]; [done|].
  set (s0 := (mod_inv k * _) mod curve_n) in *; assert (Hs0 : 0 <= s0 < curve_n) by (apply Z.mod_pos_bound; reflexivity).
  assert (HE : Z.gcd k curve_n = 1 -> (s0 * k) mod curve_n = (z + r0 * d) mod curve_n).
  { intros Hi2%mod_inv_spec; unfold s0; rewrite Zmult_mod_idemp_l, Zplus_mod_idemp_r.
    rewrite (Z.mul_comm (mod_inv k)), <- Z.mul_assoc, Zmult_mod, Hi2, Z.mul_1_r, !Zmod_mod; done. }
  destruct (Z.eqb_spec s0 0) as [|Hs1]; [done|].
  destruct (parity_lor y w) as (P1 & P2 & P3 & P4 & P5 & P6).
  assert (Hw : w = true <-> curve_n <= x) by (unfold w; rewrite Z.leb_le; done).
  change (Z.shiftr curve_n 1) with (curve_n / 2) in Hs.
  assert (HN : curve_n = 2 * (curve_n / 2) + 1) by reflexivity.
  destruct (Z.ltb_spec (curve_n / 2) s0) as [Hh|Hh]; injection Hs as <- <- <-.
  - assert (HS : Z.gcd k curve_n = 1 -> (- (curve_n - s0) * k) mod curve_n = (z + r0 * d) mod curve_n)
      by (intros Hg; specialize (HE Hg); replace (- (curve_n - s0) * k) with (s0 * k + - k * curve_n) by lia; rewrite Z_mod_plus_full; done).
    exists k, x, y, true; rewrite <- Hw, P4; repeat split; try done; try lia; try tauto; destruct (Z.odd y); done.
  - exists k, x, y, false; rewrite <- Hw, P3; repeat split; try done; try lia; try tauto; destruct (Z.odd y); done.
Qed.

Lemma sign_tries_ecdsa tries rfc d z r s recid : sign_tries tries rfc d z = Some (r, s, recid) -> ecdsa d z r s recid.
Proof.
  revert rfc; induction tries as [|tries IH]; intros rfc; cbn [sign_tries]; [done|]; unfold rfc6979_next_t; cbn.
  destruct (sign_try _ _ _) as [[[r' s'] rc]|] eqn:E; [|apply IH].
  intros [= -> -> ->]; eapply sign_try_ecdsa; [done|]; apply be_val_range; apply sha256_u8.
Qed.

Lemma signed_ecdsa priv digest recid sig : arkiv_secp256k1_sign_recoverable priv digest = inr (recid, sig) ->
  exists r s, sig = be_n 32 r ++ be_n 32 s /\ ecdsa (be_val priv) (bytes32_to_scalar_mod_n digest) r s recid.
Proof.
  unfold arkiv_secp256k1_sign_recoverable; repeat (case_match; try done).
  intros [= <- <-]; eexists _, _; split; [done|]; eapply sign_tries_ecdsa; eassumption.
Qed.

Lemma ecdsa_range d z r s recid : ecdsa d z r s recid -> 0 < r < 256 ^ Z.of_nat 32 /\ 0 < s < 256 ^ Z.of_nat 32 /\ 0 <= recid < 4.
Proof.
  intros (k & x & y & neg & _ & _ & _ & Hr & Hs & _ & _ & _ & Hrec).
  assert (curve_n < 256 ^ Z.of_nat 32) by reflexivity; assert (curve_n / 2 < curve_n) by reflexivity; lia.
Qed.

(** A signature that the wallet's signer returns is an ECDSA signature of the digest
    under the key, with s in the lower half of the group, 64 bytes long, and its recovery
    id selects the point of the nonce; a key that is zero or not below the group order
    signs nothing. *)
Theorem sign_recoverable_sound priv digest (Hpriv : all_u8 priv) :
  match arkiv_secp256k1_sign_recoverable priv digest with
  | inr (recid, sig) =>
      0 < be_val priv < curve_n /\ length sig = 64%nat /\ all_u8 sig /\
      ecdsa (be_val priv) (bytes32_to_scalar_mod_n digest) (be_val (take 32 sig)) (be_val (drop 32 sig)) recid
  | inl e => e = -3 \/ be_val priv = 0 \/ curve_n <= be_val priv
  end.
Proof.
  destruct (arkiv_secp256k1_sign_recoverable priv digest) as [e|[recid sig]] eqn:ES.
  - unfold arkiv_secp256k1_sign_recoverable in ES; repeat (case_match; try done); to_prop; simplify_eq; auto; right; right; lia.
  - destruct (signed_ecdsa _ _ _ _ ES) as (r & s & -> & HE); destruct (ecdsa_range _ _ _ _ _ HE) as (Hr & Hs & _).
    rewrite length_app, !be_n_length, all_u8_app, take_app_length', drop_app_length', !be_val_n by (rewrite be_n_length; done).
    rewrite !Z.mod_small by lia; split; [|split; [done|split; [split; apply be_n_u8|exact HE]]].
    pose proof (be_val_range priv Hpriv) as Hp; unfold arkiv_secp256k1_sign_recoverable in ES; repeat (case_match; try done); to_prop; lia.
Qed.
End Signer.

(** A stand-in for the curve: the point kG is (k, k). *)
Definition toy_ecc : MicroEcc := {|
  sha256 l := replicate 31 7 ++ [u8 (fold_left Z.add l 0)];
  point_mult k := (k mod 2 ^ 256, k);
  mod_inv k := Z.invmod k curve_n;
  uECC_compute_public_key priv := Some (priv ++ priv);
  uECC_verify_secp256k1 pub digest sig := true;
  uECC_valid_public_key pub := true;
  uECC_shared_secret pub priv := Some priv
|}.

#[export] Instance toy_keccak : Keccak := { keccak256 l := replicate 31 1 ++ [u8 (Z.of_nat (length l))] }.

#[export] Instance toy_laws : @MicroEccLaws toy_ecc.
Proof.
  constructor; cbn [point_mult mod_inv sha256 toy_ecc fst].
  - intros k; apply Z.mod_pos_bound; reflexivity.
  - intros k Hk; rewrite Z.invmod_ok, Hk; reflexivity.
  - intros l; apply all_u8_app; split; [apply Forall_replicate; lia|]; apply Forall_singleton, u8_range.
  - intros l; rewrite length_app, length_replicate; done.
Qed.

Lemma sign_recoverable_sound_witness :
  (exists recid sig, @arkiv_secp256k1_sign_recoverable toy_ecc (replicate 32 5) (replicate 32 9) = inr (recid, sig)) /\
  match @arkiv_secp256k1_sign_recoverable toy_ecc (replicate 32 5) (replicate 32 9) with
  | inr (recid, sig) =>
      0 < be_val (replicate 32 5) < curve_n /\ length sig = 64%nat /\ all_u8 sig /\
      @ecdsa toy_ecc (be_val (replicate 32 5)) (bytes32_to_scalar_mod_n (replicate 32 9)) (be_val (take 32 sig)) (be_val (drop 32 sig)) recid
  | inl e => e = -3 \/ be_val (replicate 32 5) = 0 \/ curve_n <= be_val (replicate 32 5)
  end.
Proof.
  split; [eexists _, _; vm_compute; reflexivity|].
  apply (@sign_recoverable_sound toy_ecc toy_laws (replicate 32 5) (replicate 32 9)), Forall_replicate; lia.
Defined.
