(* ===== verification/Aead.v ===== *)
(** * Payload encryption (firmware-ESP32-LTE-M/components/arkiv_crypto/src/aead.c)

    HKDF-SHA-256, the key schedule of the three kinds of entity, and the sealed body: a
    twelve-byte header that is the nonce, the ciphertext and the tag.  AES-GCM is mbedTLS:
    [Gcm], with the law that it opens what it sealed.  A C string is its characters,
    [None] for NULL. *)

From S2P Require Import Prelude Rlp Secp256k1.

Inductive gcm_opened := GcmPlain (pt : list Z) | GcmAuthFailed | GcmError.

(** [gcm_crypt] is [None] when the call fails; [gcm_auth_decrypt]'s last two arguments are the
    ciphertext and the tag. *)
Class Gcm := {
  gcm_crypt : list Z -> list Z -> list Z -> list Z -> option (list Z * list Z);
  gcm_auth_decrypt : list Z -> list Z -> list Z -> list Z -> list Z -> gcm_opened
}.

Class GcmLaws `{Gcm} := {
  gcm_opens key nonce aad pt ct tag : gcm_crypt key nonce aad pt = Some (ct, tag) -> gcm_auth_decrypt key nonce aad ct tag = GcmPlain pt;
  gcm_lengths key nonce aad pt ct tag : gcm_crypt key nonce aad pt = Some (ct, tag) -> length ct = length pt /\ length tag = 16%nat
}.

#[local] Set Default Proof Using "Type*".

(** ** Numbers in text *)

(** Decimal digits of an unsigned, in front of [acc]; ten of them hold a uint32. *)
Fixpoint dec_digits (fuel : nat) (v : Z) (acc : list Z) : list Z :=
  match fuel with
  | O => acc
  | S fuel => let acc := (48 + v mod 10) :: acc in if v <? 10 then acc else dec_digits fuel (v / 10) acc
  end.
Definition dec_u32 (v : Z) : list Z := dec_digits 10 v [].
#[global] Arguments dec_u32 : simpl never.

Section Hkdf.
Context `{EC : MicroEcc}.
Implicit Types (ikm salt info prk t : list Z).

Definition HKDF_HASH_LEN : Z := 32.
Definition HKDF_INFO_MAX : Z := 512.

(** The loop: T(i) and the [remaining] bytes to write. *)
(* src: firmware-ESP32-LTE-M/components/arkiv_crypto/src/aead.c:56-71 arkiv_hkdf_sha256 (expand) *)
Fixpoint hkdf_expand (fuel : nat) prk info t (counter remaining : Z) : list Z :=
  match fuel with
  | O => []
  | S fuel =>
      if remaining <=? 0 then []
      else
        let blk := t ++ info ++ [counter] in
        let t := arkiv_hmac_sha256 prk blk in
        let n := if HKDF_HASH_LEN <? remaining then HKDF_HASH_LEN else remaining in
        take (Z.to_nat n) t ++ hkdf_expand fuel prk info t (u8 (counter + 1)) (remaining - n)
  end.

(* src: firmware-ESP32-LTE-M/components/arkiv_crypto/src/aead.c:36-77 arkiv_hkdf_sha256 *)
Definition arkiv_hkdf_sha256 ikm salt info (okm_len : Z) : Z + list Z :=
  if (okm_len =? 0) || (255 * HKDF_HASH_LEN <? okm_len) then inl (-1)
  else if HKDF_INFO_MAX <? Z.of_nat (length info) then inl (-2)
  else
    let prk := arkiv_hmac_sha256 salt ikm in
    inr (hkdf_expand 255 prk info [] 1 okm_len).

(** ** Key schedule *)

(* src: firmware-ESP32-LTE-M/components/arkiv_crypto/include/arkiv_crypto/aead.h:48-55 ARKIV_AEAD *)
Definition ARKIV_AEAD_TYPE_TELEMETRY : Z := 1.
Definition ARKIV_AEAD_TYPE_ACK : Z := 2.
Definition ARKIV_AEAD_TYPE_EVENT : Z := 3.
Definition ARKIV_AEAD_SCHEME : Z := 3.
Definition ARKIV_AEAD_HDR_LEN : nat := 12.
Definition ARKIV_AEAD_TAG_LEN : nat := 16.
Definition ARKIV_AEAD_OVERHEAD : nat := 28.
Definition ARKIV_AEAD_AUTH_FAIL : Z := -3.

(* src: firmware-ESP32-LTE-M/components/arkiv_crypto/src/aead.c:167-175 purpose_for_type *)
Definition purpose_for_type (typeTag : Z) : option (list Z) :=
  if typeTag =? ARKIV_AEAD_TYPE_TELEMETRY then Some (str "telemetry")
  else if typeTag =? ARKIV_AEAD_TYPE_ACK then Some (str "ack")
  else if typeTag =? ARKIV_AEAD_TYPE_EVENT then Some (str "event")
  else None.

(* src: firmware-ESP32-LTE-M/components/arkiv_crypto/src/aead.c:188 arkiv_aead_derive_key (salt) *)
Definition key_salt (owner_addr_lower device_pubhex_lower : list Z) : list Z := owner_addr_lower ++ str "|" ++ device_pubhex_lower.
(* src: firmware-ESP32-LTE-M/components/arkiv_crypto/src/aead.c:193 arkiv_aead_derive_key (info) *)
Definition key_info (purpose : list Z) (epoch : Z) : list Z := str "w3pups-arkiv-" ++ purpose ++ str "|epoch=" ++ dec_u32 epoch.

(* src: firmware-ESP32-LTE-M/components/arkiv_crypto/src/aead.c:177-202 arkiv_aead_derive_key *)
Definition arkiv_aead_derive_key (shared_x : list Z) (owner_addr_lower device_pubhex_lower : option (list Z)) (typeTag epoch : Z) : Z + list Z :=
  match purpose_for_type typeTag, owner_addr_lower, device_pubhex_lower with
  | Some purpose, Some owner, Some dev =>
      let salt := key_salt owner dev in
      if 200 <=? Z.of_nat (length salt) then inl (-2)
      else
        let info := key_info purpose epoch in
        if 64 <=? Z.of_nat (length info) then inl (-3)
        else arkiv_hkdf_sha256 shared_x salt info 32
  | _, _, _ => inl (-1)
  end.

(** RFC 5869: T(i) for i from 1 on, T(0) being empty. *)
Fixpoint hkdf_T prk info (i : nat) : list Z :=
  match i with O => [] | S j => arkiv_hmac_sha256 prk (hkdf_T prk info j ++ info ++ [Z.of_nat i]) end.

Context `{L : !MicroEccLaws}.

Lemma hmac_length key msg : length (arkiv_hmac_sha256 key msg) = 32%nat.
Proof. apply sha256_length. Qed.

Lemma hkdf_T_length prk info i : (0 < i)%nat -> length (hkdf_T prk info i) = 32%nat.
Proof. destruct i; [lia|]; intros _; apply hmac_length. Qed.

Lemma hkdf_expand_T prk info fuel : forall i remaining,
  (i + fuel <= 255)%nat -> 0 <= remaining <= 32 * Z.of_nat fuel ->
  hkdf_expand fuel prk info (hkdf_T prk info i) (Z.of_nat i + 1) remaining =
  take (Z.to_nat remaining) (concat (map (hkdf_T prk info) (seq (S i) fuel))).
Proof.
  induction fuel as [|fuel IH]; intros i remaining Hi Hr; [cbn; rewrite take_nil; done|].
  cbn [hkdf_expand seq map concat]; destruct (Z.leb_spec remaining 0) as [H0|H0].
  { replace (Z.to_nat remaining) with 0%nat by lia; done. }
  assert (HT : arkiv_hmac_sha256 prk (hkdf_T prk info i ++ info ++ [Z.of_nat i + 1]) = hkdf_T prk info (S i))
    by (cbn [hkdf_T]; do 4 f_equal; lia).
  rewrite HT.
  unfold HKDF_HASH_LEN; destruct (Z.ltb_spec 32 remaining) as [Hb|Hb].
  - destruct fuel as [|fuel']; [lia|].
    replace (u8 (Z.of_nat i + 1 + 1)) with (Z.of_nat (S i) + 1) by (rewrite u8_small; lia); rewrite IH by lia.
    rewrite take_ge by (rewrite hkdf_T_length; lia); rewrite (take_app_ge (hkdf_T prk info (S i))) by (rewrite hkdf_T_length; lia).
    rewrite hkdf_T_length by lia; do 2 f_equal; lia.
  - rewrite Z.sub_diag; replace (hkdf_expand fuel _ _ _ _ 0) with (@nil Z) by (destruct fuel; done).
    rewrite app_nil_r, take_app_le by (rewrite hkdf_T_length; lia); done.
Qed.

(** The function is HKDF: the first bytes of T(1), T(2), ... *)
Lemma hkdf_rfc5869 ikm salt info okm_len : 0 < okm_len <= 8160 -> Z.of_nat (length info) <= 512 ->
  arkiv_hkdf_sha256 ikm salt info okm_len =
  inr (take (Z.to_nat okm_len) (concat (map (hkdf_T (arkiv_hmac_sha256 salt ikm) info) (seq 1 255)))).
Proof.
  intros Hn Hi; unfold arkiv_hkdf_sha256, HKDF_HASH_LEN, HKDF_INFO_MAX.
  destruct (Z.eqb_spec okm_len 0), (Z.ltb_spec (255 * 32) okm_len), (Z.ltb_spec 512 (Z.of_nat (length info))); try lia; cbn [orb].
  f_equal; apply (hkdf_expand_T _ _ 255 0); lia.
Qed.

(** The digits of a number give it back, so that no two epochs share an [info]. *)
Definition dec_value (l : list Z) : Z := fold_left (fun v c => v * 10 + (c - 48)) l 0.

Lemma dec_digits_value fuel v acc : 0 <= v < 10 ^ Z.of_nat fuel ->
  exists ds, dec_digits fuel v acc = ds ++ acc /\ dec_value ds = v.
Proof.
  revert v acc; induction fuel as [|fuel IH]; intros v acc Hv; [exists []; cbn in *; split; [done|]; unfold dec_value; cbn; lia|].
  cbn [dec_digits]; pose proof (Z.div_mod v 10 ltac:(lia)); pose proof (Z.mod_pos_bound v 10 ltac:(lia)); destruct (Z.ltb_spec v 10).
  - exists [48 + v mod 10]; split; [done|]; rewrite Z.mod_small by lia; unfold dec_value; cbn; lia.
  - rewrite Nat2Z.inj_succ, Z.pow_succ_r in Hv by lia.
    destruct (IH (v / 10) ((48 + v mod 10) :: acc)) as (ds & E & Hd); [split; [apply Z.div_pos; lia|apply Z.div_lt_upper_bound; lia]|].
    exists (ds ++ [48 + v mod 10]); rewrite E, <- app_assoc; split; [done|].
    unfold dec_value in *; rewrite fold_left_app, Hd; cbn; lia.
Qed.

Lemma dec_u32_value v : is_u32 v -> dec_value (dec_u32 v) = v.
Proof. intros Hv; destruct (dec_digits_value 10 v []) as (ds & E & Hd); [lia|]; unfold dec_u32; rewrite E, app_nil_r; done. Qed.

Lemma key_info_inj y1 y2 p1 p2 e1 e2 :
  purpose_for_type y1 = Some p1 -> purpose_for_type y2 = Some p2 -> is_u32 e1 -> is_u32 e2 ->
  key_info p1 e1 = key_info p2 e2 -> y1 = y2 /\ e1 = e2.
Proof.
  unfold purpose_for_type, ARKIV_AEAD_TYPE_TELEMETRY, ARKIV_AEAD_TYPE_ACK, ARKIV_AEAD_TYPE_EVENT; intros H1 H2 He1 He2 HI.
  assert (dec_u32 e1 = dec_u32 e2 -> e1 = e2) as Hinj by (intros HD; rewrite <- (dec_u32_value e1), HD, dec_u32_value; done).
  unfold key_info in HI; apply app_inv_head in HI; revert H1 H2.
  repeat case_match; to_prop; try done; intros [= <-] [= <-]; cbn in HI; try discriminate HI; (split; [congruence|]); apply Hinj; congruence.
Qed.
End Hkdf.

(** ** Sealed bodies *)

Section Seal.
Context `{G : Gcm}.
Implicit Types (key nonce aad pt body : list Z).

(** [ctx_ok]: the context could be allocated. *)
(* src: firmware-ESP32-LTE-M/components/arkiv_crypto/src/aead.c:124-142 arkiv_aead_gcm_encrypt *)
Definition arkiv_aead_gcm_encrypt (ctx_ok : bool) key nonce aad pt : Z + (list Z * list Z) :=
  if negb ctx_ok then inl (-1) else match gcm_crypt key nonce aad pt with Some r => inr r | None => inl (-2) end.

(* src: firmware-ESP32-LTE-M/components/arkiv_crypto/src/aead.c:144-163 arkiv_aead_gcm_decrypt *)
Definition arkiv_aead_gcm_decrypt (ctx_ok : bool) key nonce aad (ct tag : list Z) : Z + list Z :=
  if negb ctx_ok then inl (-1)
  else match gcm_auth_decrypt key nonce aad ct tag with
       | GcmPlain pt => inr pt
       | GcmAuthFailed => inl ARKIV_AEAD_AUTH_FAIL
       | GcmError => inl (-2)
       end.

(* src: firmware-ESP32-LTE-M/components/arkiv_crypto/src/aead.c:205-214 pack_nonce *)
Definition pack_nonce (typeTag epoch seq : Z) : list Z :=
  [ARKIV_AEAD_SCHEME; typeTag; u8 (Z.shiftr epoch 24); u8 (Z.shiftr epoch 16); u8 (Z.shiftr epoch 8); u8 epoch;
   u8 (Z.shiftr seq 40); u8 (Z.shiftr seq 32); u8 (Z.shiftr seq 24); u8 (Z.shiftr seq 16); u8 (Z.shiftr seq 8); u8 seq].

(** [None] is the 0 that says that [aad] does not fit. *)
(* src: firmware-ESP32-LTE-M/components/arkiv_crypto/src/aead.c:218-232 build_aad *)
Definition build_aad (cap : Z) nonce (device_id entity_type command_id : option (list Z)) : option (list Z) :=
  let s (o : option (list Z)) := match o with Some l => l | None => [] end in
  let need := 12 + Z.of_nat (length (s device_id)) + Z.of_nat (length (s entity_type)) + Z.of_nat (length (s command_id)) in
  if cap <? need then None else Some (take 12 nonce ++ s device_id ++ s entity_type ++ s command_id).

(* src: firmware-ESP32-LTE-M/components/arkiv_crypto/src/aead.c:234-257 arkiv_aead_seal *)
Definition arkiv_aead_seal (ctx_ok : bool) (typeTag epoch seq : Z) k_dir (device_id entity_type command_id : option (list Z)) pt (out_cap : Z) : Z + list Z :=
  match purpose_for_type typeTag with
  | None => inl (-1)
  | Some _ =>
      if out_cap <? Z.of_nat (length pt) + 28 then inl (-2)
      else
        let nonce := pack_nonce typeTag epoch seq in
        match build_aad 268 nonce device_id entity_type command_id with
        | None => inl (-3)
        | Some aad =>
            match arkiv_aead_gcm_encrypt ctx_ok k_dir nonce aad pt with
            | inl _ => inl (-4)
            | inr (ct, tag) => inr (nonce ++ ct ++ tag)
            end
        end
  end.

(* src: firmware-ESP32-LTE-M/components/arkiv_crypto/src/aead.c:259-281 arkiv_aead_open *)
Definition arkiv_aead_open (ctx_ok : bool) body k_dir (device_id entity_type command_id : option (list Z)) (pt_cap : Z) : Z + list Z :=
  if Z.of_nat (length body) <? 28 then inl (-1)
  else if negb (byte_at body 0 =? ARKIV_AEAD_SCHEME) then inl (-2)
  else
    let ct_len := Z.of_nat (length body) - 28 in
    if pt_cap <? ct_len then inl (-3)
    else
      match build_aad 268 body device_id entity_type command_id with
      | None => inl (-4)
      | Some aad =>
          let ct := take (Z.to_nat ct_len) (drop 12 body) in
          let tag := take 16 (drop (12 + Z.to_nat ct_len) body) in
          arkiv_aead_gcm_decrypt ctx_ok k_dir (take 12 body) aad ct tag
      end.

(** The numbers that a header carries. *)
Definition header_type (h : list Z) : Z := byte_at h 1.
Definition header_epoch (h : list Z) : Z := be_val (take 4 (drop 2 h)).
Definition header_seq (h : list Z) : Z := be_val (take 6 (drop 6 h)).

Lemma pack_nonce_fields typeTag epoch seq : is_u32 epoch ->
  let h := pack_nonce typeTag epoch seq in
  length h = 12%nat /\ header_type h = typeTag /\ header_epoch h = epoch /\ header_seq h = seq mod 2 ^ 48.
Proof.
  intros He; cbv zeta; split; [done|split; [done|]]; unfold header_epoch, header_seq, pack_nonce, u8; cbn [take drop].
  rewrite !Z.shiftr_div_pow2 by lia; unfold be_val; cbn [fold_left].
  replace (2 ^ 24) with (256 * (256 * 256)) by done; replace (2 ^ 16) with (256 * 256) by done; replace (2 ^ 8) with 256 by done.
  replace (2 ^ 40) with (256 * (256 * (256 * (256 * 256)))) by done; replace (2 ^ 32) with (256 * (256 * (256 * 256))) by done.
  rewrite <- !Z.div_div by lia; split.
  - pose proof (Z.div_mod epoch 256); pose proof (Z.div_mod (epoch / 256) 256); pose proof (Z.div_mod (epoch / 256 / 256) 256).
    rewrite (Z.mod_small (epoch / 256 / 256 / 256)); [lia|]; rewrite !Z.div_div by lia; split; [apply Z.div_pos; lia|]; apply Z.div_lt_upper_bound; lia.
  - replace (2 ^ 48) with (256 * (256 * (256 * (256 * (256 * 256))))) by done.
    rewrite !(Z.rem_mul_r _ 256) by lia; lia.
Qed.

Context `{GL : !GcmLaws}.

(** Whatever the wallet seals, a reader with the key of the stream and the same device,
    entity type and command opens to the same plaintext; the body is 28 bytes longer than
    it, and its header tells the type, the epoch and the low 48 bits of the sequence
    number. *)
Lemma sealed_opens b1 typeTag epoch seq k_dir device_id entity_type command_id pt out_cap pt_cap body
  (Hepoch : is_u32 epoch) (Hcap : Z.of_nat (length pt) <= pt_cap)
  (Hs : arkiv_aead_seal b1 typeTag epoch seq k_dir device_id entity_type command_id pt out_cap = inr body) :
  arkiv_aead_open true body k_dir device_id entity_type command_id pt_cap = inr pt /\
  Z.of_nat (length body) = Z.of_nat (length pt) + 28 /\ Z.of_nat (length body) <= out_cap /\
  header_type body = typeTag /\ header_epoch body = epoch /\ header_seq body = seq mod 2 ^ 48.
Proof.
  unfold arkiv_aead_seal in Hs; destruct (purpose_for_type typeTag); [|done].
  destruct (Z.ltb_spec out_cap (Z.of_nat (length pt) + 28)) as [|Hc]; [done|].
  destruct (pack_nonce_fields typeTag epoch seq Hepoch) as (HL & HT & HE & HS); set (nonce := pack_nonce _ _ _) in *.
  destruct (build_aad _ _ _ _ _) as [aad|] eqn:EA; [|done]; unfold arkiv_aead_gcm_encrypt in Hs; destruct b1; [|done]; cbn [negb] in Hs.
  destruct (gcm_crypt _ _ _ _) as [[ct tag]|] eqn:EG; [|done].
  assert (body = nonce ++ ct ++ tag) as -> by congruence; clear Hs.
  destruct (gcm_lengths _ _ _ _ _ _ EG) as [HC HG]; rewrite !length_app, HL, HC, HG.
  assert (HN : take 12 (nonce ++ ct ++ tag) = nonce) by (rewrite take_app_length' by done; done).
  assert (HB : header_type (nonce ++ ct ++ tag) = header_type nonce /\ header_epoch (nonce ++ ct ++ tag) = header_epoch nonce /\
               header_seq (nonce ++ ct ++ tag) = header_seq nonce /\ byte_at (nonce ++ ct ++ tag) 0 = 3) by done.
  destruct HB as (-> & -> & -> & HB0); split; [|repeat split; try done; lia].
  unfold arkiv_aead_open; rewrite !length_app, HL, HC, HG, HB0; cbn [ARKIV_AEAD_SCHEME Z.eqb negb Pos.eqb].
  rewrite (proj2 (Z.ltb_ge _ _)), (proj2 (Z.ltb_ge _ _)) by lia.
  replace (build_aad 268 (nonce ++ ct ++ tag) device_id entity_type command_id) with (Some aad)
    by (rewrite <- EA; unfold build_aad; rewrite HN, (take_ge nonce) by lia; done).
  replace (Z.to_nat (Z.of_nat (12 + (length pt + 16)) - 28)) with (length ct) by lia.
  rewrite HN, drop_app_length' by done; rewrite take_app_length.
  replace (12 + length ct)%nat with (length (nonce ++ ct)) by (rewrite length_app; lia).
  rewrite (app_assoc nonce), drop_app_length, take_ge by lia; unfold arkiv_aead_gcm_decrypt; cbn [negb]; rewrite (gcm_opens _ _ _ _ _ _ EG); done.
Qed.
End Seal.

(** A stand-in for AES-GCM: no encryption, and the key's first bytes for a tag. *)
Definition toy_gcm : Gcm := {|
  gcm_crypt key nonce aad pt := Some (pt, take 16 (key ++ replicate 16 0));
  gcm_auth_decrypt key nonce aad ct tag := if bool_decide (tag = take 16 (key ++ replicate 16 0)) then GcmPlain ct else GcmAuthFailed
|}.

#[export] Instance toy_gcm_laws : @GcmLaws toy_gcm.
Proof.
  constructor; cbn [gcm_crypt gcm_auth_decrypt toy_gcm]; intros ?????? [= <- <-].
  - rewrite bool_decide_true; done.
  - split; [done|]; rewrite length_take, length_app; cbn [length]; lia.
Qed.
