(* ===== verification/ArkivTx.v ===== *)
(** * Transactions (firmware-ESP32-LTE-M/components/arkiv_crypto/src/ops_tx_data.cpp,
    tx_signer.cpp)

    What the device writes on chain: the operations of a transaction as a stored Brotli
    stream of their RLP encoding, and the signed legacy transaction around it.  A C++
    string or vector is the list of its bytes. *)

From S2P Require Import Prelude Rlp Brotli Secp256k1.

#[local] Set Default Proof Using "Type*".

(** ** Operations *)

(* src: firmware-ESP32-LTE-M/components/arkiv_crypto/include/arkiv_crypto/ops_tx_data.h:15-20 Attribute *)
Record Attribute := Attr { at_key : list Z; stringValue : list Z; numericValue : Z; isNumeric : bool }.
(* src: firmware-ESP32-LTE-M/components/arkiv_crypto/include/arkiv_crypto/ops_tx_data.h:22-27 CreateOp *)
Record CreateOp := Create { cr_contentType : list Z; cr_payload : list Z; cr_attributes : list Attribute; cr_expires : Z }.
(* src: firmware-ESP32-LTE-M/components/arkiv_crypto/include/arkiv_crypto/ops_tx_data.h:29-35 UpdateOp *)
Record UpdateOp := Update {
  up_entityKey : list Z; up_contentType : list Z; up_payload : list Z; up_attributes : list Attribute; up_expires : Z
}.
(* src: firmware-ESP32-LTE-M/components/arkiv_crypto/include/arkiv_crypto/ops_tx_data.h:37-40 ExtensionOp *)
Record ExtensionOp := Extension { ex_entityKey : list Z; ex_expires : Z }.
(* src: firmware-ESP32-LTE-M/components/arkiv_crypto/include/arkiv_crypto/ops_tx_data.h:42-45 OwnershipChangeOp *)
Record OwnershipChangeOp := OwnershipChange { ow_entityKey : list Z; ow_newOwner : list Z }.
(* src: firmware-ESP32-LTE-M/components/arkiv_crypto/include/arkiv_crypto/ops_tx_data.h:47-53 OpsTxData *)
Record OpsTxData := Ops {
  creates : list CreateOp; updates : list UpdateOp; deletes : list (list Z);
  extensions : list ExtensionOp; ownershipChanges : list OwnershipChangeOp
}.

(** The addition wraps. *)
(* src: firmware-ESP32-LTE-M/components/arkiv_crypto/src/ops_tx_data.cpp:7-13 seconds_to_blocks *)
Definition seconds_to_blocks (seconds : Z) : Z := u32 (seconds + 2 - 1) / 2.

(* src: firmware-ESP32-LTE-M/components/arkiv_crypto/src/ops_tx_data.cpp:16-32 append_attribute_pair *)
Definition append_attribute_pair (parent : list Z) (a : Attribute) (numeric_variant : bool) : list Z :=
  let pair := append_string [] (at_key a) in
  let pair :=
    if numeric_variant then
      if numericValue a =? 0 then append_string pair [] else append_uint pair (u64 (numericValue a))
    else append_string pair (stringValue a) in
  append_raw parent (finish pair).

(* src: firmware-ESP32-LTE-M/components/arkiv_crypto/src/ops_tx_data.cpp:34-44 encode_attribute_list *)
Definition encode_attribute_list (attrs : list Attribute) (numeric : bool) : list Z :=
  finish (fold_left (fun list a => if negb (Bool.eqb (isNumeric a) numeric) then list else append_attribute_pair list a numeric) attrs []).

(* src: firmware-ESP32-LTE-M/components/arkiv_crypto/src/ops_tx_data.cpp:46-57 encode_create *)
Definition encode_create (c : CreateOp) : list Z :=
  let item := append_uint [] (seconds_to_blocks (cr_expires c)) in
  let item := append_string item (cr_contentType c) in
  let item := append_bytes item (cr_payload c) in
  let item := append_raw item (encode_attribute_list (cr_attributes c) false) in
  let item := append_raw item (encode_attribute_list (cr_attributes c) true) in
  finish item.

(* src: firmware-ESP32-LTE-M/components/arkiv_crypto/src/ops_tx_data.cpp:59-71 encode_update *)
Definition encode_update (u : UpdateOp) : list Z :=
  let item := append_bytes [] (up_entityKey u) in
  let item := append_string item (up_contentType u) in
  let item := append_uint item (seconds_to_blocks (up_expires u)) in
  let item := append_bytes item (up_payload u) in
  let item := append_raw item (encode_attribute_list (up_attributes u) false) in
  let item := append_raw item (encode_attribute_list (up_attributes u) true) in
  finish item.

(* src: firmware-ESP32-LTE-M/components/arkiv_crypto/src/ops_tx_data.cpp:73-81 encode_extension *)
Definition encode_extension (e : ExtensionOp) : list Z :=
  finish (append_uint (append_bytes [] (ex_entityKey e)) (seconds_to_blocks (ex_expires e))).

(* src: firmware-ESP32-LTE-M/components/arkiv_crypto/src/ops_tx_data.cpp:83-91 encode_ownership_change *)
Definition encode_ownership_change (o : OwnershipChangeOp) : list Z :=
  finish (append_bytes (append_bytes [] (ow_entityKey o)) (ow_newOwner o)).

(** One loop of [build_ops_tx_data]. *)
(* src: firmware-ESP32-LTE-M/components/arkiv_crypto/src/ops_tx_data.cpp:97-99 build_ops_tx_data (loop) *)
Definition ops_list {A} (enc : A -> list Z) (l : list A) : list Z := finish (fold_left (fun acc x => append_raw acc (enc x)) l []).

(* src: firmware-ESP32-LTE-M/components/arkiv_crypto/src/ops_tx_data.cpp:93-127 build_ops_tx_data *)
Definition build_ops_tx_data (ops : OpsTxData) : list Z :=
  let outer := append_raw [] (ops_list encode_create (creates ops)) in
  let outer := append_raw outer (ops_list encode_update (updates ops)) in
  let outer := append_raw outer (ops_list encode_bytes (deletes ops)) in
  let outer := append_raw outer (ops_list encode_extension (extensions ops)) in
  let outer := append_raw outer (ops_list encode_ownership_change (ownershipChanges ops)) in
  brotli_store_encode (finish outer).

(** ** Signed transactions *)

(* src: firmware-ESP32-LTE-M/components/arkiv_crypto/include/arkiv_crypto/tx_signer.h:12-20 LegacyTx *)
Record LegacyTx := Tx { tx_nonce : Z; gas_price_wei : Z; gas_limit : Z; tx_to : list Z; value_wei : Z; tx_data : list Z; chain_id : Z }.

(* src: firmware-ESP32-LTE-M/components/arkiv_crypto/src/tx_signer.cpp:10-17 encode_tx_fields *)
Definition encode_tx_fields (l : list Z) (tx : LegacyTx) : list Z :=
  let l := append_uint l (tx_nonce tx) in
  let l := append_uint l (gas_price_wei tx) in
  let l := append_uint l (gas_limit tx) in
  let l := append_bytes l (tx_to tx) in
  let l := append_uint l (value_wei tx) in
  append_bytes l (tx_data tx).

(* src: firmware-ESP32-LTE-M/components/arkiv_crypto/src/tx_signer.cpp:21-25 strip_leading_zeros *)
Definition strip_leading_zeros (b : list Z) : list Z := strip_zeros (take 32 b).

(* src: firmware-ESP32-LTE-M/components/arkiv_crypto/src/tx_signer.cpp:31-37 sign_legacy_tx (preimage) *)
Definition signing_preimage (tx : LegacyTx) : list Z :=
  finish (append_uint (append_uint (append_uint (encode_tx_fields [] tx) (chain_id tx)) 0) 0).

Section Sign.
Context `{EC : MicroEcc} `{K : Keccak}.

(* src: firmware-ESP32-LTE-M/components/arkiv_crypto/src/tx_signer.cpp:29-60 sign_legacy_tx *)
Definition sign_legacy_tx (tx : LegacyTx) (priv : list Z) : list Z :=
  let digest := keccak256 (signing_preimage tx) in
  match arkiv_secp256k1_sign_recoverable priv digest with
  | inl _ => []
  | inr (recid, sig) =>
      let final_tx := encode_tx_fields [] tx in
      let final_tx := append_uint final_tx (u64 (chain_id tx * 2 + 35 + recid)) in
      let r_bytes := strip_leading_zeros sig in
      let s_bytes := strip_leading_zeros (drop 32 sig) in
      finish (append_bytes (append_bytes final_tx r_bytes) s_bytes)
  end.

(* src: firmware-ESP32-LTE-M/components/arkiv_crypto/src/tx_signer.cpp:62-64 tx_hash *)
Definition tx_hash (signed_raw : list Z) : list Z := keccak256 signed_raw.
End Sign.

(** ** What a node reads *)

(** The data of a transaction as a tree: five lists of operations, attributes that are
    strings before those that are numbers, lifetimes in blocks of two seconds. *)
Definition num (v : Z) : rlp := Bytes (be_min v).
Definition attr_tree (a : Attribute) : rlp := Items [Bytes (at_key a); if isNumeric a then num (u64 (numericValue a)) else Bytes (stringValue a)].
Definition attrs_tree (numeric : bool) (l : list Attribute) : rlp := Items (map attr_tree (List.filter (fun a => Bool.eqb (isNumeric a) numeric) l)).
Definition create_tree (c : CreateOp) : rlp :=
  Items [num (seconds_to_blocks (cr_expires c)); Bytes (cr_contentType c); Bytes (cr_payload c);
         attrs_tree false (cr_attributes c); attrs_tree true (cr_attributes c)].
Definition update_tree (u : UpdateOp) : rlp :=
  Items [Bytes (up_entityKey u); Bytes (up_contentType u); num (seconds_to_blocks (up_expires u)); Bytes (up_payload u);
         attrs_tree false (up_attributes u); attrs_tree true (up_attributes u)].
Definition extension_tree (e : ExtensionOp) : rlp := Items [Bytes (ex_entityKey e); num (seconds_to_blocks (ex_expires e))].
Definition ownership_tree (o : OwnershipChangeOp) : rlp := Items [Bytes (ow_entityKey o); Bytes (ow_newOwner o)].
Definition ops_tree (ops : OpsTxData) : rlp :=
  Items [Items (map create_tree (creates ops)); Items (map update_tree (updates ops)); Items (map Bytes (deletes ops));
         Items (map extension_tree (extensions ops)); Items (map ownership_tree (ownershipChanges ops))].

Definition fields_tree (tx : LegacyTx) : list rlp :=
  [num (tx_nonce tx); num (gas_price_wei tx); num (gas_limit tx); Bytes (tx_to tx); num (value_wei tx); Bytes (tx_data tx)].
Definition preimage_tree (tx : LegacyTx) : rlp := Items (fields_tree tx ++ [num (chain_id tx); num 0; num 0]).
Definition signed_tree (tx : LegacyTx) (v r s : Z) : rlp := Items (fields_tree tx ++ [num v; num r; num s]).

(** ** The encoders write those trees *)

Lemma encode_uint_num v : encode_uint v = encode (num v).
Proof. unfold encode_uint, num; cbn [encode]; destruct (Z.eqb_spec v 0) as [->|]; done. Qed.

Lemma finish_items l : finish (concat (map encode l)) = encode (Items l).
Proof. done. Qed.

Lemma attribute_pair a acc : append_attribute_pair acc a (isNumeric a) = acc ++ encode (attr_tree a).
Proof.
  unfold append_attribute_pair, append_raw, attr_tree, append_string, append_uint; f_equal.
  change (encode (Items ?l)) with (finish (concat (map encode l))); f_equal; cbn [map concat app]; rewrite app_nil_r.
  destruct (isNumeric a); [|done]; rewrite <- encode_uint_num; destruct (Z.eqb_spec (numericValue a) 0) as [->|]; done.
Qed.

Lemma attribute_list numeric l : encode_attribute_list l numeric = encode (attrs_tree numeric l).
Proof.
  unfold encode_attribute_list, attrs_tree; rewrite <- finish_items; f_equal.
  assert (HF : forall acc, fold_left (fun list a => if negb (Bool.eqb (isNumeric a) numeric) then list else append_attribute_pair list a numeric) l acc =
    acc ++ concat (map encode (map attr_tree (List.filter (fun a => Bool.eqb (isNumeric a) numeric) l)))).
  { induction l as [|a l IH]; intros acc; cbn [fold_left List.filter]; [rewrite app_nil_r; done|].
    rewrite IH; destruct (Bool.eqb (isNumeric a) numeric) eqn:E; cbn [negb map concat]; [|done].
    apply eqb_prop in E; subst numeric; rewrite attribute_pair, <- app_assoc; done. }
  apply (HF []).
Qed.

Lemma ops_list_items {A} (enc : A -> list Z) (tree : A -> rlp) l : (forall x, enc x = encode (tree x)) -> ops_list enc l = encode (Items (map tree l)).
Proof.
  intros HE; unfold ops_list; rewrite <- finish_items; f_equal.
  assert (HF : forall acc, fold_left (fun acc x => append_raw acc (enc x)) l acc = acc ++ concat (map encode (map tree l))).
  { induction l as [|x l IH]; intros acc; cbn [fold_left map concat]; [rewrite app_nil_r; done|].
    rewrite IH, HE; unfold append_raw; rewrite <- app_assoc; done. }
  apply (HF []).
Qed.

#[local] Ltac tree_eq :=
  unfold append_bytes, append_string, append_uint, append_raw, encode_string; rewrite ?attribute_list, ?encode_uint_num;
  rewrite <- ?app_assoc; change (encode (Items ?l)) with (finish (concat (map encode l))); f_equal; cbn [map concat app]; rewrite ?app_nil_r; reflexivity.

Lemma create_encoded c : encode_create c = encode (create_tree c).
Proof. unfold encode_create, create_tree; tree_eq. Qed.
Lemma update_encoded u : encode_update u = encode (update_tree u).
Proof. unfold encode_update, update_tree; tree_eq. Qed.
Lemma extension_encoded e : encode_extension e = encode (extension_tree e).
Proof. unfold encode_extension, extension_tree; tree_eq. Qed.
Lemma ownership_encoded o : encode_ownership_change o = encode (ownership_tree o).
Proof. unfold encode_ownership_change, ownership_tree; tree_eq. Qed.

Lemma ops_encoded ops : build_ops_tx_data ops = brotli_store_encode (encode (ops_tree ops)).
Proof.
  unfold build_ops_tx_data, ops_tree.
  rewrite (ops_list_items _ _ _ create_encoded), (ops_list_items _ _ _ update_encoded), (ops_list_items encode_bytes Bytes) by done.
  rewrite (ops_list_items _ _ _ extension_encoded), (ops_list_items _ _ _ ownership_encoded); f_equal; tree_eq.
Qed.

Lemma preimage_encoded tx : signing_preimage tx = encode (preimage_tree tx).
Proof. unfold signing_preimage, preimage_tree, fields_tree, encode_tx_fields; tree_eq. Qed.

(** ** Round trip *)

(** What keeps a transaction within the format's limits. *)
Record tx_ok (tx : LegacyTx) : Prop := {
  ok_nonce : is_u64 (tx_nonce tx); ok_price : is_u64 (gas_price_wei tx); ok_limit : is_u64 (gas_limit tx);
  ok_value : is_u64 (value_wei tx); ok_chain : is_u64 (chain_id tx); ok_to : all_u8 (tx_to tx);
  ok_to_size : Z.of_nat (length (tx_to tx)) < 2 ^ 60; ok_data_size : Z.of_nat (length (tx_data tx)) < 2 ^ 60
}.

Lemma num_ok v : bytes_ok (num v).
Proof. apply be_min_u8. Qed.

Lemma num_room v : is_u64 v -> room (num v) <= 17.
Proof.
  intros Hv; unfold num; cbn [room]; destruct (Z.eq_dec v 0) as [->|]; [vm_compute; discriminate|].
  pose proof (be_min_length v Hv ltac:(lia)); lia.
Qed.

Lemma fields_ok tx l : tx_ok tx -> all_u8 (tx_data tx) -> Forall bytes_ok l -> fold_right Z.add 0 (map room l) < 2 ^ 62 ->
  bytes_ok (Items (fields_tree tx ++ l)) /\ room (Items (fields_tree tx ++ l)) < 2 ^ 64.
Proof.
  intros [] Hd Hl Hr; split; [rewrite items_ok; apply Forall_app; split; [|exact Hl]; repeat (apply Forall_cons_2 || apply Forall_nil_2); try apply num_ok; done|].
  pose proof (num_room _ ok_nonce0); pose proof (num_room _ ok_price0); pose proof (num_room _ ok_limit0); pose proof (num_room _ ok_value0).
  cbn [room]; rewrite map_app, fold_right_app; unfold fields_tree; cbn [map fold_right].
  assert (HB : forall x, room (Bytes x) = 9 + Z.of_nat (length x)) by done; rewrite (HB (tx_to tx)), (HB (tx_data tx)).
  set (total := fold_right _ 0 _) in *; lia.
Qed.

Section Readable.
Context `{L : MicroEccLaws} `{K : Keccak}.

(** C13: a node that reads a signed transaction of the wallet finds its fields, the EIP-155
    value of the recovery id, and an ECDSA signature by the wallet's key of the hash of
    the EIP-155 preimage, which carries the same fields and the chain id; unpacking the
    transaction's data it finds the operations, attribute by attribute. *)
Theorem signed_tx_readable priv tx ops
  (Htx : tx_ok tx) (Hdata : tx_data tx = build_ops_tx_data ops)
  (Hops : bytes_ok (ops_tree ops)) (Hsize : room (ops_tree ops) < 2 ^ 64) (Hsigned : sign_legacy_tx tx priv <> []) :
  exists recid r s,
    decode 20 (sign_legacy_tx tx priv) = Some (Items (fields_tree tx ++ [num (u64 (chain_id tx * 2 + 35 + recid)); Bytes r; Bytes s]), []) /\
    decode 20 (signing_preimage tx) = Some (preimage_tree tx, []) /\
    ecdsa (be_val priv) (bytes32_to_scalar_mod_n (keccak256 (signing_preimage tx))) (be_val r) (be_val s) recid /\
    exists data, brotli_read (S (length data)) (tx_data tx) = Some data /\ decode (weight (ops_tree ops)) data = Some (ops_tree ops, []).
Proof.
  unfold sign_legacy_tx in *; rewrite preimage_encoded in *; set (digest := keccak256 _) in *.
  destruct (arkiv_secp256k1_sign_recoverable priv digest) as [e|[recid sig]] eqn:ES; [done|]; clear Hsigned.
  destruct (signed_ecdsa _ _ _ _ ES) as (r & s & -> & HE); destruct (ecdsa_range _ _ _ _ _ HE) as (Hr & Hs & _).
  exists recid, (strip_zeros (be_n 32 r)), (strip_zeros (be_n 32 s)).
  assert (HU : all_u8 (tx_data tx)) by (rewrite Hdata, ops_encoded; apply brotli_store_u8, encode_u8, Hops).
  assert (HR : strip_leading_zeros (be_n 32 r ++ be_n 32 s) = strip_zeros (be_n 32 r))
    by (unfold strip_leading_zeros; rewrite take_app_length' by (symmetry; apply be_n_length); done).
  assert (HS : strip_leading_zeros (drop 32 (be_n 32 r ++ be_n 32 s)) = strip_zeros (be_n 32 s))
    by (unfold strip_leading_zeros; rewrite drop_app_length', take_ge by (rewrite ?be_n_length; done); done).
  assert (HL : forall v, all_u8 (strip_zeros (be_n 32 v)) /\ Z.of_nat (length (strip_zeros (be_n 32 v))) <= 32).
  { intros v; split; [apply strip_zeros_u8, be_n_u8|]; pose proof (strip_zeros_length (be_n 32 v)) as HZ; rewrite be_n_length in HZ; lia. }
  split; [|split; [|split]].
  - rewrite HR, HS.
    set (tail := [num (u64 (chain_id tx * 2 + 35 + recid)); Bytes (strip_zeros (be_n 32 r)); Bytes (strip_zeros (be_n 32 s))]).
    destruct (fields_ok tx tail Htx HU) as [HB HM].
    { destruct (HL r), (HL s); repeat (apply Forall_cons_2 || apply Forall_nil_2); try apply num_ok; done. }
    { destruct (HL r), (HL s); pose proof (num_room _ (u64_range (chain_id tx * 2 + 35 + recid))); unfold tail; cbn [map fold_right].
      assert (HX : forall x, room (Bytes x) = 9 + Z.of_nat (length x)) by done; rewrite !HX; lia. }
    rewrite <- (decode_tree _ HB HM); f_equal; unfold tail, fields_tree, encode_tx_fields; tree_eq.
  - destruct (fields_ok tx [num (chain_id tx); num 0; num 0] Htx HU) as [HB HM]; [repeat (apply Forall_cons_2 || apply Forall_nil_2); apply num_ok| |].
    { pose proof (num_room _ (ok_chain _ Htx)); pose proof (num_room 0 ltac:(lia)); cbn [map fold_right]; lia. }
    apply (decode_tree _ HB HM).
  - rewrite !be_val_strip, !be_val_n, !Z.mod_small by lia; exact HE.
  - exists (encode (ops_tree ops)); split; [|apply decode_tree; done].
    rewrite Hdata, ops_encoded; apply brotli_read_store, encode_u8, Hops.
Qed.
End Readable.

(** ** An example *)

Definition toy_ops : OpsTxData :=
  Ops [Create (str "application/octet-stream") [1; 2; 3] [Attr (str "type") (str "w3pups-ack") 0 false; Attr (str "seq") [] 300 true; Attr (str "code") [] 0 true] 901]
      [] [] [] [].
Definition toy_tx : LegacyTx := Tx 7 1000 300000 (replicate 20 66) 0 (build_ops_tx_data toy_ops) 1999859817.

Lemma signed_tx_readable_witness :
  exists recid r s,
    decode 20 (@sign_legacy_tx toy_ecc toy_keccak toy_tx (replicate 32 5)) =
      Some (Items (fields_tree toy_tx ++ [num (u64 (chain_id toy_tx * 2 + 35 + recid)); Bytes r; Bytes s]), []) /\
    decode 20 (signing_preimage toy_tx) = Some (preimage_tree toy_tx, []) /\
    @ecdsa toy_ecc (be_val (replicate 32 5)) (bytes32_to_scalar_mod_n (keccak256 (signing_preimage toy_tx))) (be_val r) (be_val s) recid /\
    exists data, brotli_read (S (length data)) (tx_data toy_tx) = Some data /\ decode (weight (ops_tree toy_ops)) data = Some (ops_tree toy_ops, []).
Proof.
  apply (@signed_tx_readable toy_ecc toy_laws toy_keccak (replicate 32 5) toy_tx toy_ops).
  - constructor; try (split; vm_compute; congruence); try (vm_compute; reflexivity); apply Forall_replicate; lia.
  - reflexivity.
  - vm_compute; repeat (split || constructor); try discriminate.
  - vm_compute; reflexivity.
  - vm_compute; discriminate.
Defined.
