(* ===== verification/ArkivAuth.v ===== *)
(** * On-chain command authority (firmware-ESP32-LTE-M/main/cmdauth_arkiv.c)

    In the paranoid mode the authority is the owner's wallet: the owner is bound after a
    physical confirmation, and a command counts when the owner wrote it, under the current
    epoch, with a fresh counter, and signed a digest that binds its frame to all of them.
    [arkiv] holds the module's statics and [nvs] its namespace in flash, whose reads
    ([boot_faults]) and writes may fail: [errs] are the results of a chain of calls.  An [esp_err_t] is a number, 0 for
    success; the curve and keccak are parameters. *)

From stdpp Require Import sorting.
From S2P Require Import Prelude Rlp Secp256k1.

Definition ESP_OK : Z := 0.
Definition ESP_FAIL : Z := -1.
Definition ESP_ERR_INVALID_ARG : Z := 258.
Definition ESP_ERR_INVALID_STATE : Z := 259.
Definition ESP_ERR_NOT_FOUND : Z := 261.
Definition ESP_ERR_INVALID_RESPONSE : Z := 264.

(* src: firmware-ESP32-LTE-M/main/cmdauth_arkiv.h:29-33 arkiv_claim_state_t *)
Definition ARKIV_UNCLAIMED : Z := 0.
Definition ARKIV_MQTT_CLAIMED : Z := 1.
Definition ARKIV_CLAIMED : Z := 2.

(* src: firmware-ESP32-LTE-M/main/cmdauth_arkiv.h:37-51 arkiv_cmd_t *)
Record arkiv_cmd := Cmd {
  c_writer : list Z; c_epoch : Z; c_counter : Z; c_block : Z;
  c_device_id : option (list Z); c_command_id : option (list Z); c_frame : option (list Z); c_sig : option (list Z)
}.

(** The keys of the namespace. *)
(* src: firmware-ESP32-LTE-M/main/cmdauth_arkiv.c:21-27 STATE_NAMESPACE *)
Record nvs := Nvs {
  nv_owner_pub : option (list Z); nv_enc_pub : option (list Z); nv_key_epoch : option Z;
  nv_last_ctr : option Z; nv_cur_block : option Z; nv_claim_state : option Z
}.

(* src: firmware-ESP32-LTE-M/main/cmdauth_arkiv.c:32-53 statics *)
Record arkiv := Arkiv {
  s_ready : bool; s_dev_addr : list Z; s_dev_pub : list Z; s_owner_pub : list Z; s_owner_addr : list Z;
  s_have_owner : bool; s_enc_pub : list Z; s_have_enc : bool; s_binding_gen : Z;
  s_key_epoch : Z; s_last_ctr : Z; s_cur_block : Z; s_claim_state : Z; flash : nvs; prov_dev_priv : option (list Z)
}.

#[export] Instance eta_nvs : Eta nvs := fun n =>
  Nvs (nv_owner_pub n) (nv_enc_pub n) (nv_key_epoch n) (nv_last_ctr n) (nv_cur_block n) (nv_claim_state n).
#[export] Instance eta_arkiv : Eta arkiv := fun a =>
  Arkiv (s_ready a) (s_dev_addr a) (s_dev_pub a) (s_owner_pub a) (s_owner_addr a) (s_have_owner a) (s_enc_pub a)
    (s_have_enc a) (s_binding_gen a) (s_key_epoch a) (s_last_ctr a) (s_cur_block a) (s_claim_state a) (flash a) (prov_dev_priv a).

(** A power-up clears the statics; the flash stays. *)
Definition erased (a : arkiv) : arkiv :=
  Arkiv false (replicate 20 0) (replicate 64 0) (replicate 64 0) (replicate 20 0) false (replicate 64 0) false 0 0 0 0 ARKIV_UNCLAIMED
    (flash a) (prov_dev_priv a).

(** A chain of writes, each made when the one before succeeded; [nvs_commit] ends it. *)
Fixpoint nvs_chain (errs : list Z) (writes : list (nvs -> nvs)) (n : nvs) : nvs * Z :=
  match writes with
  | [] => (n, match errs with e :: _ => e | [] => ESP_OK end)
  | w :: writes =>
      match errs with
      | [] => nvs_chain [] writes (w n)
      | e :: errs => if e =? ESP_OK then nvs_chain errs writes (w n) else (n, e)
      end
  end.

#[local] Set Default Proof Using "Type*".

Section Auth.
Context `{EC : MicroEcc} `{K : Keccak}.
Implicit Types (a : arkiv) (cmd : arkiv_cmd) (pub : list Z).

(* src: firmware-ESP32-LTE-M/main/cmdauth_arkiv.c:44-50 pub_to_addr *)
Definition pub_to_addr pub : list Z := take 20 (drop 12 (keccak256 pub)).

(** A blob read into a buffer of 64 bytes; a longer one is an error of the call. *)
Definition read_blob (buffer : list Z) (r : option (list Z)) : list Z * bool :=
  match r with
  | Some blob => if (length blob <=? 64)%nat then (blob ++ drop (length blob) buffer, (length blob =? 64)%nat) else (buffer, false)
  | None => (buffer, false)
  end.

(** What each call returns: the partition's, the device key's, and the state's reads. *)
Record boot_io := BootIo { bi_init : Z; bi_open : Z; bi_priv : option (list Z); bi_state : Z; bi_reads : nvs }.

(** What fails at a boot: the results of the three opens, and per key whether its read succeeds. *)
Record boot_faults := BootFaults {
  bf_init : Z; bf_open : Z; bf_priv : bool; bf_state : Z;
  bf_owner : bool; bf_enc : bool; bf_epoch : bool; bf_ctr : bool; bf_block : bool; bf_claim : bool
}.
Definition no_faults : boot_faults := BootFaults 0 0 true 0 true true true true true true.

(** A key whose read fails gives nothing, as an absent one. *)
Definition got {T} (ok : bool) (o : option T) : option T := if ok then o else None.
Definition boot_reads (f : boot_faults) a : boot_io :=
  BootIo (bf_init f) (bf_open f) (got (bf_priv f) (prov_dev_priv a)) (bf_state f)
    (Nvs (got (bf_owner f) (nv_owner_pub (flash a))) (got (bf_enc f) (nv_enc_pub (flash a)))
       (got (bf_epoch f) (nv_key_epoch (flash a))) (got (bf_ctr f) (nv_last_ctr (flash a)))
       (got (bf_block f) (nv_cur_block (flash a))) (got (bf_claim f) (nv_claim_state (flash a)))).

(* src: firmware-ESP32-LTE-M/main/cmdauth_arkiv.c:101-133 cmdauth_arkiv_init (state) *)
Definition load_state (rd : nvs) a : arkiv :=
  let '(owner, ok) := read_blob (s_owner_pub a) (nv_owner_pub rd) in
  let a := a <| s_owner_pub := owner |> in
  let a := if ok then a <| s_owner_addr := pub_to_addr owner |> <| s_have_owner := true |> else a in
  let '(enc, eok) := read_blob (s_enc_pub a) (nv_enc_pub rd) in
  let a := a <| s_enc_pub := enc |> in
  let a := if eok then a <| s_have_enc := true |> else a in
  let a := a <| s_key_epoch := match nv_key_epoch rd with Some v => v | None => 0 end |> in
  let a := a <| s_last_ctr := match nv_last_ctr rd with Some v => v | None => 0 end |> in
  let a := a <| s_cur_block := match nv_cur_block rd with Some v => v | None => 0 end |> in
  let a := a <| s_claim_state := match nv_claim_state rd with Some v => v | None => ARKIV_UNCLAIMED end |> in
  a <| s_ready := true |>.

(* src: firmware-ESP32-LTE-M/main/cmdauth_arkiv.c:60-140 cmdauth_arkiv_init *)
Definition cmdauth_arkiv_init (io : boot_io) a : arkiv * Z :=
  let a := a <| s_ready := false |> <| s_have_owner := false |> <| s_claim_state := ARKIV_UNCLAIMED |> in
  if negb (bi_init io =? ESP_OK) then (a, bi_init io)
  else if negb (bi_open io =? ESP_OK) then (a, bi_open io)
  else match bi_priv io with
  | None => (a, ESP_ERR_NOT_FOUND)
  | Some dev_priv =>
      if negb (length dev_priv =? 32)%nat then (a, ESP_ERR_NOT_FOUND)
      else match arkiv_secp256k1_derive_address dev_priv, arkiv_secp256k1_derive_pubkey dev_priv with
      | Some addr, Some pub =>
          let a := a <| s_dev_addr := addr |> <| s_dev_pub := pub |> in
          if negb (bi_state io =? ESP_OK) then (a, bi_state io) else (load_state (bi_reads io) a, ESP_OK)
      | _, _ => (a, ESP_FAIL)
      end
  end.

(* src: firmware-ESP32-LTE-M/main/cmdauth_arkiv.c:142-157 accessors *)
Definition cmdauth_arkiv_owner_addr a : option (list Z) := if s_have_owner a then Some (s_owner_addr a) else None.
Definition cmdauth_arkiv_enc_pub a : option (list Z) := if s_have_enc a then Some (s_enc_pub a) else None.

(** [open] is the result of opening the namespace. *)
(* src: firmware-ESP32-LTE-M/main/cmdauth_arkiv.c:159-168 persist_progress *)
Definition persist_progress (open : Z) (errs : list Z) (ctr block : Z) a : arkiv * bool :=
  if negb (open =? ESP_OK) then (a, false)
  else
    let '(n, e) := nvs_chain errs [fun n => n <| nv_last_ctr := Some ctr |>; fun n => n <| nv_cur_block := Some block |>] (flash a) in
    (a <| flash := n |>, e =? ESP_OK).

(** ** The signed digest *)

Definition ARKIV_COMMAND_ID_LEN : nat := 36.
(* src: firmware-ESP32-LTE-M/main/arkiv_cfg.h:115-117 ARKIV_CMD_BIND_TAG *)
Definition ARKIV_CMD_BIND_TAG : list Z := str "w3pups-cmd".
(* src: firmware-ESP32-LTE-M/main/cmdauth_arkiv.c:262 PFX *)
Definition PFX : list Z := 25 :: str "Ethereum Signed Message:" ++ [10] ++ str "32".

(** What the digest is over: the tag with its NUL, the device, the epoch, the counter, the
    first 36 characters of the command's id, and the frame. *)
(* src: firmware-ESP32-LTE-M/main/cmdauth_arkiv.c:232-258 cmdauth_arkiv_check (binding) *)
Definition command_binding (device_id : list Z) (epoch counter : Z) (command_id frame : list Z) : list Z :=
  ARKIV_CMD_BIND_TAG ++ [0] ++ device_id ++ le32 epoch ++ le_bytes 8 counter ++ take ARKIV_COMMAND_ID_LEN command_id ++ frame.

(* src: firmware-ESP32-LTE-M/main/cmdauth_arkiv.c:260-267 cmdauth_arkiv_check (EIP-191) *)
Definition eip191 (digest : list Z) : list Z := keccak256 (PFX ++ digest).

(** ** Commands *)

(* src: firmware-ESP32-LTE-M/main/cmdauth_arkiv.c:170-289 cmdauth_arkiv_check *)
Definition cmdauth_arkiv_check (open : Z) (errs : list Z) (cmd : option arkiv_cmd) a : arkiv * option (list Z) :=
  if negb (s_ready a) then (a, None)
  else if negb (s_claim_state a =? ARKIV_CLAIMED) || negb (s_have_owner a) then (a, None)
  else match cmd with
  | None => (a, None)
  | Some cmd =>
    match c_frame cmd, c_sig cmd with
    | Some frame, Some sig =>
      if Z.of_nat (length frame) =? 0 then (a, None)
      else if negb (bool_decide (c_writer cmd = s_owner_addr a)) then (a, None)
      else if negb (c_epoch cmd =? s_key_epoch a) then (a, None)
      else if c_counter cmd <=? s_last_ctr a then (a, None)
      else if c_block cmd <? s_cur_block a then (a, None)
      else match c_device_id cmd, c_command_id cmd with
      | Some device_id, Some command_id =>
          if negb (length command_id =? ARKIV_COMMAND_ID_LEN)%nat then (a, None)
          else
            let digest := keccak256 (command_binding device_id (c_epoch cmd) (c_counter cmd) command_id frame) in
            let signed_digest := eip191 digest in
            if negb (arkiv_secp256k1_verify (s_owner_pub a) signed_digest sig) then (a, None)
            else
              let a := a <| s_last_ctr := c_counter cmd |> in
              let a := if s_cur_block a <? c_block cmd then a <| s_cur_block := c_block cmd |> else a in
              let '(a, _) := persist_progress open errs (s_last_ctr a) (s_cur_block a) a in
              (a, Some frame)
      | _, _ => (a, None)
      end
    | _, _ => (a, None)
    end
  end.

(** ** Binding *)

(* src: firmware-ESP32-LTE-M/main/cmdauth_arkiv.c:300-339 cmdauth_arkiv_bind_owner *)
Definition cmdauth_arkiv_bind_owner (open : Z) (errs : list Z) (owner_pub enc_pub : list Z) (epoch : Z) a : arkiv * Z :=
  if negb (s_ready a) then (a, ESP_ERR_INVALID_STATE)
  else if negb (arkiv_secp256k1_valid_pubkey owner_pub) || negb (arkiv_secp256k1_valid_pubkey enc_pub) then (a, ESP_ERR_INVALID_ARG)
  else if negb (open =? ESP_OK) then (a, open)
  else
    let '(n, err) := nvs_chain errs
      [fun n => n <| nv_owner_pub := Some owner_pub |>; fun n => n <| nv_enc_pub := Some enc_pub |>;
       fun n => n <| nv_key_epoch := Some epoch |>; fun n => n <| nv_last_ctr := Some 0 |>;
       fun n => n <| nv_claim_state := Some ARKIV_CLAIMED |>] (flash a) in
    let a := a <| flash := n |> in
    if negb (err =? ESP_OK) then (a, err)
    else
      (a <| s_owner_pub := owner_pub |> <| s_owner_addr := pub_to_addr owner_pub |> <| s_enc_pub := enc_pub |>
         <| s_have_owner := true |> <| s_have_enc := true |> <| s_key_epoch := epoch |> <| s_last_ctr := 0 |>
         <| s_claim_state := ARKIV_CLAIMED |> <| s_binding_gen := u32 (s_binding_gen a + 1) |>, ESP_OK).

(* src: firmware-ESP32-LTE-M/main/cmdauth_arkiv.c:341-360 cmdauth_arkiv_set_epoch *)
Definition cmdauth_arkiv_set_epoch (open : Z) (errs : list Z) (epoch : Z) a : arkiv * Z :=
  if negb (s_ready a) then (a, ESP_ERR_INVALID_STATE)
  else if epoch <=? s_key_epoch a then (a, ESP_ERR_INVALID_ARG)
  else if negb (open =? ESP_OK) then (a, open)
  else
    let '(n, err) := nvs_chain errs [fun n => n <| nv_key_epoch := Some epoch |>] (flash a) in
    let a := a <| flash := n |> in
    if negb (err =? ESP_OK) then (a, err)
    else (a <| s_key_epoch := epoch |> <| s_binding_gen := u32 (s_binding_gen a + 1) |>, ESP_OK).

(** The five keys are erased, those whose erasure succeeds. *)
(* src: firmware-ESP32-LTE-M/main/cmdauth_arkiv.c:367-371 cmdauth_arkiv_clear (erase) *)
Definition erase_keys (erased_ok : bool * bool * bool * bool * bool) (n : nvs) : nvs :=
  let '(e1, e2, e3, e4, e5) := erased_ok in
  let clr {T} (ok : bool) (o : option T) := if ok then None else o in
  Nvs (clr e1 (nv_owner_pub n)) (clr e2 (nv_enc_pub n)) (clr e3 (nv_key_epoch n)) (clr e4 (nv_last_ctr n)) (clr e5 (nv_cur_block n)) (nv_claim_state n).

(* src: firmware-ESP32-LTE-M/main/cmdauth_arkiv.c:362-387 cmdauth_arkiv_clear *)
Definition cmdauth_arkiv_clear (open : Z) (erased_ok : bool * bool * bool * bool * bool) (errs : list Z) a : arkiv * Z :=
  if negb (open =? ESP_OK) then (a, open)
  else
    let '(n, err) := nvs_chain errs [fun n => n <| nv_claim_state := Some ARKIV_UNCLAIMED |>] (erase_keys erased_ok (flash a)) in
    (a <| flash := n |> <| s_owner_pub := replicate 64 0 |> <| s_owner_addr := replicate 20 0 |> <| s_enc_pub := replicate 64 0 |>
       <| s_have_owner := false |> <| s_have_enc := false |> <| s_key_epoch := 0 |> <| s_last_ctr := 0 |> <| s_cur_block := 0 |>
       <| s_claim_state := ARKIV_UNCLAIMED |> <| s_binding_gen := u32 (s_binding_gen a + 1) |>, err).

(** ** A new wallet *)

(* src: firmware-ESP32-LTE-M/main/cmdauth_arkiv.c:399-406 be_cmp32 *)
Fixpoint be_cmp (l1 l2 : list Z) : Z :=
  match l1, l2 with
  | x :: l1, y :: l2 => if x <? y then -1 else if y <? x then 1 else be_cmp l1 l2
  | _, _ => 0
  end.

(* src: firmware-ESP32-LTE-M/main/cmdauth_arkiv.c:408-412 is_zero32 *)
Definition is_zero32 (l : list Z) : bool := forallb (fun b => b =? 0) l.

(** [draws] is what the random generator gives, 32 bytes a time; at most 16 are taken. *)
(* src: firmware-ESP32-LTE-M/main/cmdauth_arkiv.c:419-429 cmdauth_arkiv_regenerate_wallet (draw) *)
Fixpoint draw_key (attempts : nat) (draws : nat -> list Z) : option (list Z) :=
  match attempts with
  | O => None
  | S n =>
      let new_priv := draws O in
      if negb (is_zero32 new_priv) && (be_cmp new_priv SECP256K1_N_BE <? 0) then Some new_priv
      else draw_key n (fun i => draws (S i))
  end.

(* src: firmware-ESP32-LTE-M/main/cmdauth_arkiv.c:414-469 cmdauth_arkiv_regenerate_wallet *)
Definition cmdauth_arkiv_regenerate_wallet (draws : nat -> list Z) (popen : Z) (perrs : list Z)
    (open : Z) (erased_ok : bool * bool * bool * bool * bool) (errs : list Z) a : arkiv * Z :=
  match draw_key 16 draws with
  | None => (a, ESP_ERR_INVALID_RESPONSE)
  | Some new_priv =>
      match arkiv_secp256k1_derive_pubkey new_priv, arkiv_secp256k1_derive_address new_priv with
      | Some _, Some _ =>
          if negb (popen =? ESP_OK) then (a, popen)
          else
            let err1 := match perrs with e :: _ => e | [] => ESP_OK end in
            let a := if err1 =? ESP_OK then a <| prov_dev_priv := Some new_priv |> else a in
            let err := if err1 =? ESP_OK then match perrs with _ :: e :: _ => e | _ => ESP_OK end else err1 in
            if negb (err =? ESP_OK) then (a, err)
            else let '(a, _) := cmdauth_arkiv_clear open erased_ok errs a in (a, ESP_OK)
      | _, _ => (a, ESP_FAIL)
      end
  end.
End Auth.

(** ** What an accepted command is *)

Section Accepted.
Context `{EC : MicroEcc} `{K : Keccak}.
Implicit Types (a : arkiv) (cmd : arkiv_cmd).

(** The conditions, for the owner's key [pub]. *)
Record owner_signed (pub : list Z) cmd (frame : list Z) : Prop := {
  os_frame : c_frame cmd = Some frame; os_nonempty : frame <> [];
  os_writer : c_writer cmd = pub_to_addr pub;
  os_signed : exists device_id command_id sig,
    c_device_id cmd = Some device_id /\ c_command_id cmd = Some command_id /\ c_sig cmd = Some sig /\
    length command_id = ARKIV_COMMAND_ID_LEN /\
    arkiv_secp256k1_verify pub (eip191 (keccak256 (command_binding device_id (c_epoch cmd) (c_counter cmd) command_id frame))) sig = true
}.

(** The owner's address is that of the owner's key. *)
Definition owner_wf a : Prop := s_have_owner a = true -> s_owner_addr a = pub_to_addr (s_owner_pub a).

Lemma persist_statics open errs c b a : exists n, (persist_progress open errs c b a).1 = a <| flash := n |>.
Proof.
  unfold persist_progress; destruct (negb _); [exists (flash a); destruct a; done|].
  destruct (nvs_chain _ _ _) as [n e]; exists n; done.
Qed.

Lemma arkiv_check_accepts open errs cmd a frame : owner_wf a -> (cmdauth_arkiv_check open errs (Some cmd) a).2 = Some frame ->
  s_ready a = true /\ s_claim_state a = ARKIV_CLAIMED /\ s_have_owner a = true /\
  owner_signed (s_owner_pub a) cmd frame /\ c_epoch cmd = s_key_epoch a /\ s_last_ctr a < c_counter cmd /\ s_cur_block a <= c_block cmd /\
  (cmdauth_arkiv_check open errs (Some cmd) a).1 =
    (persist_progress open errs (c_counter cmd) (c_block cmd) (a <| s_last_ctr := c_counter cmd |> <| s_cur_block := c_block cmd |>)).1.
Proof.
  intros Hw; unfold cmdauth_arkiv_check.
  destruct (s_ready a) eqn:E1; [|done]; destruct (Z.eqb_spec (s_claim_state a) ARKIV_CLAIMED) as [E2|]; [|done].
  destruct (s_have_owner a) eqn:E3; [|done]; cbn [negb orb].
  destruct (c_frame cmd) as [fr|] eqn:E4; [|done]; destruct (c_sig cmd) as [sig|] eqn:E5; [|done].
  destruct (Z.eqb_spec (Z.of_nat (length fr)) 0) as [|E6]; [done|].
  destruct (bool_decide_reflect (c_writer cmd = s_owner_addr a)) as [E7|]; [|done].
  destruct (Z.eqb_spec (c_epoch cmd) (s_key_epoch a)) as [E8|]; [|done].
  destruct (Z.leb_spec (c_counter cmd) (s_last_ctr a)) as [|E9]; [done|].
  destruct (Z.ltb_spec (c_block cmd) (s_cur_block a)) as [|E10]; [done|]; cbn [negb].
  destruct (c_device_id cmd) as [did|] eqn:E11; [|done]; destruct (c_command_id cmd) as [cid|] eqn:E12; [|done].
  destruct (Nat.eqb_spec (length cid) ARKIV_COMMAND_ID_LEN) as [E13|]; [|done]; cbn [negb].
  destruct (arkiv_secp256k1_verify _ _ _) eqn:E14; [|done]; cbn [negb].
  set (a1 := a <| s_last_ctr := c_counter cmd |>).
  assert (HA : (if s_cur_block a1 <? c_block cmd then a1 <| s_cur_block := c_block cmd |> else a1) = a1 <| s_cur_block := c_block cmd |>).
  { destruct (Z.ltb_spec (s_cur_block a1) (c_block cmd)) as [|HB]; [done|].
    assert (c_block cmd = s_cur_block a1) as -> by (change (s_cur_block a1) with (s_cur_block a) in *; lia); destruct a; done. }
  rewrite HA; change (s_last_ctr (a1 <| s_cur_block := c_block cmd |>)) with (c_counter cmd).
  change (s_cur_block (a1 <| s_cur_block := c_block cmd |>)) with (c_block cmd).
  rewrite (surjective_pairing (persist_progress _ _ _ _ _)); intros [= <-].
  repeat split; try done; [intros ->; done|rewrite E7; apply Hw, E3|]; eexists _, _, _; repeat split; try done.
Qed.

(** A command that is not accepted changes nothing. *)
Lemma arkiv_check_rejects open errs c a : (cmdauth_arkiv_check open errs c a).2 = None -> (cmdauth_arkiv_check open errs c a).1 = a.
Proof.
  unfold cmdauth_arkiv_check; repeat (case_match; try done).
Qed.

(** The digest's preimage determines the command, for a device. *)
Lemma command_binding_inj d e1 e2 c1 c2 i1 i2 f1 f2 : is_u32 e1 -> is_u32 e2 -> is_u64 c1 -> is_u64 c2 ->
  length i1 = ARKIV_COMMAND_ID_LEN -> length i2 = ARKIV_COMMAND_ID_LEN ->
  command_binding d e1 c1 i1 f1 = command_binding d e2 c2 i2 f2 -> e1 = e2 /\ c1 = c2 /\ i1 = i2 /\ f1 = f2.
Proof.
  intros He1 He2 Hc1 Hc2 Hi1 Hi2; unfold command_binding; intros H.
  apply app_inv_head in H; apply app_inv_head in H; apply app_inv_head in H; rewrite !take_ge in H by lia.
  apply app_inj_1 in H as [HE H]; [|rewrite !length_le_bytes; done].
  apply app_inj_1 in H as [HC H]; [|rewrite !length_le_bytes; done].
  apply app_inj_1 in H as [HI HF]; [|congruence]; repeat split; try done.
  - rewrite <- (le32_val e1), HE, le32_val; done.
  - pose proof (f_equal le_val HC) as HV; rewrite !le_val_le_bytes, !Z.mod_small in HV by done; exact HV.
Qed.
End Accepted.

(** ** Commands over time *)

Inductive arkiv_op :=
  | Command (open : Z) (errs : list Z) (cmd : arkiv_cmd)
  | SetEpoch (open : Z) (errs : list Z) (epoch : Z)
  | Bind (open : Z) (errs : list Z) (owner_pub enc_pub : list Z) (epoch : Z)
  | Clear (open : Z) (erased_ok : bool * bool * bool * bool * bool) (errs : list Z)
  | Reboot (f : boot_faults).

Section Runs.
Context `{EC : MicroEcc} `{K : Keccak}.
Implicit Types (a : arkiv) (cmd : arkiv_cmd).

(** The output is an accepted command. *)
Definition arkiv_step a (o : arkiv_op) : arkiv * option arkiv_cmd :=
  match o with
  | Command open errs cmd =>
      let '(a, r) := cmdauth_arkiv_check open errs (Some cmd) a in (a, match r with Some _ => Some cmd | None => None end)
  | SetEpoch open errs epoch => ((cmdauth_arkiv_set_epoch open errs epoch a).1, None)
  | Bind open errs owner enc epoch => ((cmdauth_arkiv_bind_owner open errs owner enc epoch a).1, None)
  | Clear open erased_ok errs => ((cmdauth_arkiv_clear open erased_ok errs a).1, None)
  | Reboot f => ((cmdauth_arkiv_init (boot_reads f a) (erased a)).1, None)
  end.

Definition accepted (ops : list arkiv_op) a : list arkiv_cmd := omap id (run arkiv_step a ops).2.

(** Steps that neither bind nor unbind an owner, that keep what they accept, and that read
    the counter at a reboot; every other call may fail. *)
Definition under_binding (o : arkiv_op) : Prop :=
  match o with
  | Command open errs _ => open = ESP_OK /\ Forall (fun e => e = ESP_OK) errs
  | SetEpoch _ _ _ => True
  | Reboot f => bf_ctr f = true
  | Bind _ _ _ _ _ | Clear _ _ _ => False
  end.

(** The owner [pub] is bound and no counter up to [m] is fresh, now and after a reboot. *)
Record bound_to (pub : list Z) (m : Z) a : Prop := {
  bt_wf : owner_wf a;
  bt_ram : s_ready a = true -> m <= s_last_ctr a /\ (s_have_owner a = true -> s_owner_pub a = pub);
  bt_flash : exists v, nv_last_ctr (flash a) = Some v /\ m <= v;
  bt_owner : nv_owner_pub (flash a) = Some pub; bt_size : length pub = 64%nat
}.

Lemma nvs_chain_ok errs writes n : Forall (fun e => e = ESP_OK) errs -> nvs_chain errs writes n = (fold_left (fun n w => w n) writes n, ESP_OK).
Proof.
  intros He; revert errs n He; induction writes as [|w writes IH]; intros errs n He; cbn [nvs_chain fold_left].
  - destruct He as [|e errs -> _]; done.
  - destruct He as [|e errs -> He]; [apply (IH []); apply Forall_nil_2|]; rewrite Z.eqb_refl; apply IH, He.
Qed.

Lemma set_epoch_flash open errs epoch a : let a' := (cmdauth_arkiv_set_epoch open errs epoch a).1 in
  exists n, nv_last_ctr n = nv_last_ctr (flash a) /\ nv_owner_pub n = nv_owner_pub (flash a) /\
  (exists e g, a' = a <| flash := n |> <| s_key_epoch := e |> <| s_binding_gen := g |>).
Proof.
  unfold cmdauth_arkiv_set_epoch; cbv zeta.
  assert (HID : exists n, nv_last_ctr n = nv_last_ctr (flash a) /\ nv_owner_pub n = nv_owner_pub (flash a) /\
    exists e g, a = a <| flash := n |> <| s_key_epoch := e |> <| s_binding_gen := g |>)
    by (exists (flash a); split; [done|split; [done|]]; exists (s_key_epoch a), (s_binding_gen a); destruct a; done).
  destruct (negb (s_ready a)); [exact HID|]; destruct (_ <=? _); [exact HID|]; destruct (negb _); [exact HID|].
  cbn [nvs_chain]; destruct errs as [|e0 errs]; [eexists; split; [|split; [|eexists _, _; reflexivity]]; done|].
  destruct (e0 =? ESP_OK).
  - destruct errs as [|e1 errs]; cbn [fst snd]; [eexists; split; [|split; [|eexists _, _; reflexivity]]; done|].
    destruct (negb (e1 =? ESP_OK)); cbn [fst]; [|eexists; split; [|split; [|eexists _, _; reflexivity]]; done].
    exists (flash a <| nv_key_epoch := Some epoch |>); split; [done|split; [done|]]; exists (s_key_epoch a), (s_binding_gen a); destruct a; done.
  - destruct (negb (e0 =? ESP_OK)); cbn [fst]; [|eexists; split; [|split; [|eexists _, _; reflexivity]]; done].
    exists (flash a); split; [done|split; [done|]]; exists (s_key_epoch a), (s_binding_gen a); destruct a; done.
Qed.

Lemma reboot_bound pub m f a : bf_ctr f = true -> bound_to pub m a -> bound_to pub m (cmdauth_arkiv_init (boot_reads f a) (erased a)).1.
Proof.
  intros Hf [Hw Hr (v & Hv & Hm) Ho Hs]; unfold cmdauth_arkiv_init, boot_reads; cbn [bi_init bi_open bi_priv bi_state bi_reads].
  assert (HF : forall a', s_ready a' = false -> s_have_owner a' = false -> flash a' = flash a -> bound_to pub m a').
  { intros a' H1 H2 H3; constructor; rewrite ?H3; try done; [unfold owner_wf; rewrite H2; done|rewrite H1; done|exists v; done]. }
  destruct (negb _); [apply HF; done|]; destruct (negb _); [apply HF; done|].
  destruct (got _ (prov_dev_priv a)) as [priv|]; [|apply HF; done]; destruct (negb _); [apply HF; done|].
  destruct (arkiv_secp256k1_derive_address priv) as [addr|]; [|apply HF; done].
  destruct (arkiv_secp256k1_derive_pubkey priv) as [dpub|]; [|apply HF; done].
  destruct (negb _); [apply HF; done|]; cbn [fst]; clear HF.
  unfold load_state; cbn [nv_owner_pub nv_enc_pub nv_last_ctr]; rewrite Ho, Hv, Hf; cbn [got].
  destruct (bf_owner f); cbn [got read_blob]; rewrite ?Hs; change (64 <=? 64)%nat with true; change (64 =? 64)%nat with true; cbv iota;
    (match goal with |- context [read_blob ?b (got ?ok (nv_enc_pub (flash a)))] => destruct (read_blob b (got ok (nv_enc_pub (flash a)))) as [enc []] end);
    constructor; try done; try (exists v; done); cbn; rewrite ?app_nil_r; intros _; (split; [exact Hm|done]).
Qed.

Lemma step_bound pub m a o : bound_to pub m a -> under_binding o ->
  match (arkiv_step a o).2 with
  | None => bound_to pub m (arkiv_step a o).1
  | Some cmd => m < c_counter cmd /\ (exists frame, owner_signed pub cmd frame) /\ bound_to pub (c_counter cmd) (arkiv_step a o).1
  end.
Proof.
  intros Hb Ho; destruct o as [open errs cmd|open errs epoch|open errs opub enc epoch|open ok errs|f]; try done; cbn [arkiv_step].
  - destruct Ho as [-> He]; rewrite (surjective_pairing (cmdauth_arkiv_check _ _ _ _)).
    destruct (cmdauth_arkiv_check ESP_OK errs (Some cmd) a).2 as [frame|] eqn:E; cbn [fst snd].
    2: { rewrite arkiv_check_rejects by exact E; exact Hb. }
    destruct Hb as [Hw Hr (v & Hv & Hm) Hown Hs]; apply arkiv_check_accepts in E as (H1 & H2 & H3 & H4 & H5 & H6 & H7 & ->); [|exact Hw].
    destruct (Hr H1) as [Hlast Hpub]; specialize (Hpub H3); rewrite Hpub in H4; split; [lia|split; [exists frame; exact H4|]].
    unfold persist_progress; cbn [negb Z.eqb ESP_OK]; rewrite nvs_chain_ok by exact He; cbn [fold_left fst].
    constructor; try done; exists (c_counter cmd); split; [done|lia].
  - destruct (set_epoch_flash open errs epoch a) as (n & H1 & H2 & e & g & ->); destruct Hb as [Hw Hr (v & Hv & Hm) Hown Hs].
    constructor; try done; cbn; [exists v; split; [congruence|exact Hm]|congruence].
  - apply reboot_bound; [exact Ho|exact Hb].
Qed.

(** C7: while an owner stays bound, the flash takes the counter of each accepted command (the
    module ignores that write's failure) and gives it back at each reboot (a failed read
    counts as 0), whatever commands arrive, epochs are set and reboots happen, and whatever
    else fails to be read or written: every accepted command was written by the owner and
    carries the owner's signature of a digest whose preimage determines its epoch, counter,
    id and frame; and the accepted counters grow, above every one that was accepted before,
    so that no command is executed twice. *)
Theorem owner_commands_once pub m a ops (Hb : bound_to pub m a) (Hops : Forall under_binding ops) :
  StronglySorted (fun c1 c2 => c_counter c1 < c_counter c2) (accepted ops a) /\
  Forall (fun cmd => m < c_counter cmd /\ exists frame, owner_signed pub cmd frame) (accepted ops a) /\
  forall d e1 e2 c1 c2 i1 i2 f1 f2, is_u32 e1 -> is_u32 e2 -> is_u64 c1 -> is_u64 c2 ->
    length i1 = ARKIV_COMMAND_ID_LEN -> length i2 = ARKIV_COMMAND_ID_LEN ->
    command_binding d e1 c1 i1 f1 = command_binding d e2 c2 i2 f2 -> e1 = e2 /\ c1 = c2 /\ i1 = i2 /\ f1 = f2.
Proof.
  assert (HR : StronglySorted (fun c1 c2 => c_counter c1 < c_counter c2) (accepted ops a) /\
    Forall (fun cmd => m < c_counter cmd /\ exists frame, owner_signed pub cmd frame) (accepted ops a)).
  { unfold accepted; revert m a Hb; induction Hops as [|o ops Ho _ IH]; intros m a Hb; [split; constructor|].
    rewrite run_cons; pose proof (step_bound pub m a o Hb Ho) as HS; destruct (arkiv_step a o) as [a1 [cmd|]]; cbn [fst snd] in HS.
    - destruct HS as (Hm & Hf & Hb1); destruct (IH _ _ Hb1) as [IH1 IH2]; destruct (run arkiv_step a1 ops) as [a2 os]; cbn [snd omap list_omap id] in *.
      split; [constructor; [exact IH1|]|constructor; [split; [lia|exact Hf]|]]; apply (Forall_impl _ _ _ IH2); intros c [Hc ?]; [exact Hc|split; [lia|done]].
    - specialize (IH _ _ HS); destruct (run arkiv_step a1 ops) as [a2 os]; exact IH. }
  destruct HR as [HR1 HR2]; split; [exact HR1|split; [exact HR2|]]; intros d e1 e2 c1 c2 i1 i2 f1 f2; apply command_binding_inj.
Qed.

Lemma no_faults_reads a : boot_reads no_faults a = BootIo 0 0 (prov_dev_priv a) 0 (flash a).
Proof. unfold boot_reads; destruct (flash a); done. Qed.

Lemma claimed_reboot a : s_claim_state (cmdauth_arkiv_init (boot_reads no_faults a) (erased a)).1 = ARKIV_CLAIMED -> nv_claim_state (flash a) = Some ARKIV_CLAIMED.
Proof.
  rewrite no_faults_reads; unfold cmdauth_arkiv_init; cbn [bi_init bi_open bi_priv bi_state bi_reads].
  change (negb (0 =? ESP_OK)) with false; cbv iota; repeat (case_match; try done); cbn [fst].
  unfold load_state; repeat (case_match; try done); cbn; congruence.
Qed.

(** The binding's writes in order: the claim state is the last one. *)
Lemma chain_last errs writes last n : (forall w, In w writes -> forall n, nv_claim_state (w n) = nv_claim_state n) ->
  let '(n', err) := nvs_chain errs (writes ++ [last]) n in
  (err <> ESP_OK /\ nv_claim_state n' = nv_claim_state n) \/ n' = fold_left (fun n w => w n) (writes ++ [last]) n.
Proof.
  revert errs n; induction writes as [|w writes IH]; intros errs n Hw; cbn [app nvs_chain].
  - destruct errs as [|e errs]; [right; done|]; destruct (Z.eqb_spec e ESP_OK); [|left; done]; destruct errs; right; done.
  - assert (HI := IH (match errs with [] => [] | _ :: errs => errs end) (w n) ltac:(intros; apply Hw; right; done)).
    pose proof (Hw w ltac:(left; done) n) as HC; destruct errs as [|e errs].
    + destruct (nvs_chain [] _ _); rewrite <- HC; exact HI.
    + destruct (Z.eqb_spec e ESP_OK); [|left; done]; destruct (nvs_chain errs _ _); rewrite <- HC; exact HI.
Qed.

Lemma claimed_boot owner enc epoch a : let n := flash a in
  nv_owner_pub n = Some owner -> nv_enc_pub n = Some enc -> nv_key_epoch n = Some epoch -> nv_last_ctr n = Some 0 ->
  length owner = 64%nat -> length enc = 64%nat ->
  let a2 := (cmdauth_arkiv_init (boot_reads no_faults a) (erased a)).1 in
  s_claim_state a2 = ARKIV_CLAIMED ->
  s_have_owner a2 = true /\ s_owner_pub a2 = owner /\ s_owner_addr a2 = pub_to_addr owner /\
  s_have_enc a2 = true /\ s_enc_pub a2 = enc /\ s_key_epoch a2 = epoch /\ s_last_ctr a2 = 0.
Proof.
  cbv zeta; intros Ho He Hk Hl HL1 HL2; rewrite no_faults_reads; unfold cmdauth_arkiv_init; cbn [bi_init bi_open bi_priv bi_state bi_reads].
  change (negb (0 =? ESP_OK)) with false; cbv iota.
  destruct (prov_dev_priv a) as [priv|]; [|done]; destruct (negb _); [done|].
  destruct (arkiv_secp256k1_derive_address priv); [|done]; destruct (arkiv_secp256k1_derive_pubkey priv); [|done]; cbn [fst].
  unfold load_state; rewrite Ho, He, Hk, Hl; cbn [read_blob]; rewrite HL1, HL2; change (64 <=? 64)%nat with true; change (64 =? 64)%nat with true; cbv iota.
  cbn; rewrite !app_nil_r; done.
Qed.

(** C39: when the flash does not say CLAIMED before it (no owner was bound, or the last one
    was unbound), a binding whose writes fail somewhere leaves the module as it was, and what
    a reboot that reads the flash then finds is either no claim or the whole of the new one:
    the claim state is written last.  A binding over a claim gives no such promise. *)
Theorem binding_all_or_nothing open errs owner enc epoch a
  (Hun : nv_claim_state (flash a) <> Some ARKIV_CLAIMED) (Howner : length owner = 64%nat) (Henc : length enc = 64%nat) :
  let '(a1, err) := cmdauth_arkiv_bind_owner open errs owner enc epoch a in
  let a2 := (cmdauth_arkiv_init (boot_reads no_faults a1) (erased a1)).1 in
  (err <> ESP_OK -> a1 = a <| flash := flash a1 |>) /\
  (err = ESP_OK -> s_claim_state a1 = ARKIV_CLAIMED /\ s_owner_pub a1 = owner /\ s_owner_addr a1 = pub_to_addr owner /\
                   s_key_epoch a1 = epoch /\ s_last_ctr a1 = 0) /\
  (s_claim_state a2 = ARKIV_CLAIMED ->
     s_have_owner a2 = true /\ s_owner_pub a2 = owner /\ s_owner_addr a2 = pub_to_addr owner /\
     s_have_enc a2 = true /\ s_enc_pub a2 = enc /\ s_key_epoch a2 = epoch /\ s_last_ctr a2 = 0).
Proof.
  assert (HU : forall a1, nv_claim_state (flash a1) <> Some ARKIV_CLAIMED -> s_claim_state (cmdauth_arkiv_init (boot_reads no_faults a1) (erased a1)).1 = ARKIV_CLAIMED -> False)
    by (intros a1 H1 H2; apply H1, claimed_reboot, H2).
  unfold cmdauth_arkiv_bind_owner; destruct (negb (s_ready a)); [split; [destruct a; done|split; [done|intros H; destruct (HU a Hun H)]]|].
  destruct (_ || _); [split; [destruct a; done|split; [done|intros H; destruct (HU a Hun H)]]|].
  destruct (Z.eqb_spec open ESP_OK) as [->|]; cbn [negb]; [|split; [destruct a; done|split; [done|intros H; destruct (HU a Hun H)]]].
  match goal with |- context [nvs_chain errs ?l ?n0] => pose proof (chain_last errs (take 4 l) (fun n => n <| nv_claim_state := Some ARKIV_CLAIMED |>) n0) as HC end.
  cbn [take app fold_left] in HC; destruct (nvs_chain _ _ _) as [n err].
  destruct HC as [[He HC]| ->]; [intros w Hin; repeat destruct Hin as [<-|Hin]; done| |].
  - destruct (Z.eqb_spec err ESP_OK); [done|]; cbn [negb]; split; [done|split; [done|]]; intros H.
    destruct (HU (a <| flash := n |>)); [cbn; congruence|exact H].
  - destruct (Z.eqb_spec err ESP_OK) as [He|He]; cbn [negb].
    + split; [intros H; destruct (H eq_refl)|split; [intros _; repeat split; reflexivity|]].
      apply claimed_boot; reflexivity || assumption.
    + split; [intros _; reflexivity|split; [intros H; destruct (He H)|]]; apply claimed_boot; reflexivity || assumption.
Qed.
End Runs.

(** ** The wallet's key *)

Lemma be_cmp_val l1 l2 : all_u8 l1 -> all_u8 l2 -> length l1 = length l2 -> (be_cmp l1 l2 < 0 <-> be_val l1 < be_val l2).
Proof.
  revert l2; induction l1 as [|x l1 IH]; intros [|y l2] H1 H2 HL; try done; apply Forall_cons in H1 as [Hx H1]; apply Forall_cons in H2 as [Hy H2].
  injection HL as HL; pose proof (be_val_range l1 H1) as R1; pose proof (be_val_range l2 H2) as R2; rewrite !be_val_cons; cbn [be_cmp].
  rewrite <- HL in *; set (p := 256 ^ Z.of_nat (length l1)) in *.
  destruct (Z.ltb_spec x y); [split; [nia|lia]|]; destruct (Z.ltb_spec y x); [split; [lia|nia]|].
  rewrite (IH l2) by done; replace y with x by lia; lia.
Qed.

Lemma is_zero32_val l : all_u8 l -> is_zero32 l = false -> 0 < be_val l.
Proof.
  induction 1 as [|b l Hb Hl IH]; [done|]; cbn [is_zero32 forallb]; intros H0; rewrite be_val_cons.
  pose proof (be_val_range l Hl); destruct (Z.eqb_spec b 0) as [->|]; cbn [andb] in H0; [specialize (IH H0); lia|].
  assert (0 < 256 ^ Z.of_nat (length l)) by (apply Z.pow_pos_nonneg; lia); nia.
Qed.

(** A new wallet's key is one that the signer takes. *)
Lemma drawn_key_valid attempts draws key : (forall i, all_u8 (draws i) /\ length (draws i) = 32%nat) ->
  draw_key attempts draws = Some key -> length key = 32%nat /\ 0 < be_val key < curve_n.
Proof.
  revert draws; induction attempts as [|n IH]; intros draws Hd; cbn [draw_key]; [done|]; destruct (_ && _) eqn:E; [|apply IH; intros; apply Hd].
  intros [= <-]; apply andb_true_iff in E as [E1 E2]; apply negb_true_iff in E1; apply Z.ltb_lt in E2; destruct (Hd O) as [H1 H2].
  split; [done|split; [apply is_zero32_val; done|]]; change curve_n with (be_val SECP256K1_N_BE); apply be_cmp_val; try done.
  unfold SECP256K1_N_BE; repeat (apply Forall_cons_2; [lia|]); apply Forall_nil_2.
Qed.

(** ** Examples *)

Definition toy_pub : list Z := replicate 64 9.
Definition toy_id : list Z := replicate 36 97.
Definition toy_cmd (epoch counter : Z) : arkiv_cmd :=
  Cmd (@pub_to_addr toy_keccak toy_pub) epoch counter 100 (Some (str "8948")) (Some toy_id) (Some [165; 90; 1]) (Some (replicate 64 7)).
Definition toy_device : arkiv :=
  Arkiv true (replicate 20 1) (replicate 64 1) toy_pub (@pub_to_addr toy_keccak toy_pub) true (replicate 64 8) true 1 3 0 0 ARKIV_CLAIMED
    (Nvs (Some toy_pub) (Some (replicate 64 8)) (Some 3) (Some 0) None (Some ARKIV_CLAIMED)) (Some (replicate 32 5)).
Definition toy_ops : list arkiv_op :=
  [Command 0 [] (toy_cmd 3 5); Command 0 [] (toy_cmd 3 5); Reboot no_faults; Command 0 [] (toy_cmd 3 5); SetEpoch 0 [] 4; Command 0 [] (toy_cmd 3 6); Command 0 [] (toy_cmd 4 7)].

Lemma owner_commands_once_witness :
  @accepted toy_ecc toy_keccak toy_ops toy_device = [toy_cmd 3 5; toy_cmd 4 7] /\
  StronglySorted (fun c1 c2 => c_counter c1 < c_counter c2) (@accepted toy_ecc toy_keccak toy_ops toy_device) /\
  Forall (fun cmd => 0 < c_counter cmd /\ exists frame, @owner_signed toy_ecc toy_keccak toy_pub cmd frame) (@accepted toy_ecc toy_keccak toy_ops toy_device) /\
  forall d e1 e2 c1 c2 i1 i2 f1 f2, is_u32 e1 -> is_u32 e2 -> is_u64 c1 -> is_u64 c2 ->
    length i1 = ARKIV_COMMAND_ID_LEN -> length i2 = ARKIV_COMMAND_ID_LEN ->
    command_binding d e1 c1 i1 f1 = command_binding d e2 c2 i2 f2 -> e1 = e2 /\ c1 = c2 /\ i1 = i2 /\ f1 = f2.
Proof.
  split; [vm_compute; reflexivity|].
  apply (@owner_commands_once toy_ecc toy_keccak toy_pub 0 toy_device toy_ops).
  - constructor; try done; exists 0; split; [done|lia].
  - unfold toy_ops; repeat (apply Forall_cons_2; [done || (split; [done|apply Forall_nil_2])|]); apply Forall_nil_2.
Defined.

Definition toy_fresh : arkiv :=
  Arkiv true (replicate 20 1) (replicate 64 1) (replicate 64 0) (replicate 20 0) false (replicate 64 0) false 0 0 0 0 ARKIV_UNCLAIMED
    (Nvs None None None None None (Some ARKIV_UNCLAIMED)) (Some (replicate 32 5)).

(** The claim state could not be written. *)
Lemma binding_all_or_nothing_witness :
  let '(a1, err) := @cmdauth_arkiv_bind_owner toy_ecc toy_keccak 0 [0; 0; 0; 0; 4357] toy_pub (replicate 64 8) 3 toy_fresh in
  let a2 := (@cmdauth_arkiv_init toy_ecc toy_keccak (boot_reads no_faults a1) (erased a1)).1 in
  (err <> ESP_OK -> a1 = toy_fresh <| flash := flash a1 |>) /\
  (err = ESP_OK -> s_claim_state a1 = ARKIV_CLAIMED /\ s_owner_pub a1 = toy_pub /\ s_owner_addr a1 = @pub_to_addr toy_keccak toy_pub /\
                   s_key_epoch a1 = 3 /\ s_last_ctr a1 = 0) /\
  (s_claim_state a2 = ARKIV_CLAIMED ->
     s_have_owner a2 = true /\ s_owner_pub a2 = toy_pub /\ s_owner_addr a2 = @pub_to_addr toy_keccak toy_pub /\
     s_have_enc a2 = true /\ s_enc_pub a2 = replicate 64 8 /\ s_key_epoch a2 = 3 /\ s_last_ctr a2 = 0).
Proof. apply (@binding_all_or_nothing toy_ecc toy_keccak 0 [0; 0; 0; 0; 4357] toy_pub (replicate 64 8) 3 toy_fresh); done. Defined.

(** A reboot that cannot read the counter starts it over, and a command that was executed
    before is accepted again. *)
Example unread_arkiv_counter_replays :
  @accepted toy_ecc toy_keccak
    [Command 0 [] (toy_cmd 3 5); Reboot (BootFaults 0 0 true 0 true true true false true true); Command 0 [] (toy_cmd 3 5)] toy_device =
  [toy_cmd 3 5; toy_cmd 3 5].
Proof. vm_compute; reflexivity. Qed.

(** Unbinding and binding the same owner again under the same epoch starts the counters
    over, and a command that was executed before is accepted again. *)
Example rebound_owner_replays :
  @accepted toy_ecc toy_keccak
    [Command 0 [] (toy_cmd 3 5); Clear 0 (true, true, true, true, true) []; Bind 0 [] toy_pub (replicate 64 8) 3; Command 0 [] (toy_cmd 3 5)] toy_device =
  [toy_cmd 3 5; toy_cmd 3 5].
Proof. vm_compute; reflexivity. Qed.
