(* ===== verification/ArkivWriter.v ===== *)
(** * The entity writer (firmware-ESP32-LTE-M/main/arkiv_writer.cpp)

    Every entity that the device writes passes here: its sequence number, from which the
    nonce of its encryption is made, comes from a window that is reserved in flash; its
    body is sealed under a key of the owner's binding; and its transaction is signed and
    submitted, by a task that retries without writing an entity twice.  What the chain's
    node answers, and what flash calls return, are inputs. *)

From stdpp Require Import sorting.
From S2P Require Import Prelude Rlp Brotli Secp256k1 Aead ArkivTx ArkivAuth.

(* src: firmware-ESP32-LTE-M/main/arkiv_writer.cpp:103-110 WriteJob *)
Record WriteJob := Job {
  j_content_type : list Z; j_payload : list Z; j_expires : Z; j_attrs : list Attribute; j_created_us : Z; j_attempts : Z
}.

(** The attribute of the C interface; a string pointer may be NULL. *)
(* src: firmware-ESP32-LTE-M/main/arkiv_writer.h:46-51 arkiv_attr_t *)
Record arkiv_attr_t := AttrC { ac_key : option (list Z); ac_str : option (list Z); ac_num : Z; ac_numeric : bool }.

(** The sequence numbers: the next one, the bound, and the bound in flash. *)
(* src: firmware-ESP32-LTE-M/main/arkiv_writer.cpp:68-72 s_seq *)
Record seqs := Seqs { s_seq_next : Z; s_seq_reserved : Z; nv_out_seq : option Z }.

(* src: firmware-ESP32-LTE-M/main/arkiv_writer.cpp:77-83 s_seal *)
Record seal_cache := Seal { s_seal_gen : Z; s_seal_valid : bool; s_seal_epoch : Z; s_k_tlm : list Z; s_k_ack : list Z; s_k_event : list Z }.

(* src: firmware-ESP32-LTE-M/main/arkiv_writer.cpp:94-97 s_health *)
Record health := Health { last_head : Z; last_head_change_us : Z; baseline_nonce : Z; consec_stalled : Z }.

#[export] Instance eta_seqs : Eta seqs := fun s => Seqs (s_seq_next s) (s_seq_reserved s) (nv_out_seq s).
#[export] Instance eta_seal : Eta seal_cache := fun s =>
  Seal (s_seal_gen s) (s_seal_valid s) (s_seal_epoch s) (s_k_tlm s) (s_k_ack s) (s_k_event s).
#[export] Instance eta_health : Eta health := fun h => Health (last_head h) (last_head_change_us h) (baseline_nonce h) (consec_stalled h).

#[local] Set Default Proof Using "Type*".

(** ** Sequence numbers *)

Section SequenceNumbers.

(* src: firmware-ESP32-LTE-M/main/arkiv_writer.cpp:71-72 SEQ_RESERVE_WINDOW *)
Definition SEQ_RESERVE_WINDOW : Z := 1024.
Definition SEQ_MAX_48 : Z := 281474976710655.

(** The write is followed by the commit whatever it returned. *)
(* src: firmware-ESP32-LTE-M/main/arkiv_writer.cpp:119-129 persist_seq_reserved *)
Definition persist_seq_reserved (open_ok set_ok commit_ok : bool) (reserved : Z) (s : seqs) : seqs * bool :=
  if negb open_ok then (s, false)
  else (if set_ok then s <| nv_out_seq := Some reserved |> else s, set_ok && commit_ok).

(** 0 says that no number could be had. *)
(* src: firmware-ESP32-LTE-M/main/arkiv_writer.cpp:131-166 arkiv_writer_next_seq *)
Definition arkiv_writer_next_seq (have_lock open_ok set_ok commit_ok : bool) (s : seqs) : seqs * Z :=
  if negb have_lock then (s, 0)
  else if SEQ_MAX_48 - SEQ_RESERVE_WINDOW <=? s_seq_next s then (s, 0)
  else
    let '(s, ok) :=
      if s_seq_reserved s <=? s_seq_next s then
        let nr := s_seq_next s + SEQ_RESERVE_WINDOW in
        let '(s, ok) := persist_seq_reserved open_ok set_ok commit_ok nr s in
        (if ok then s <| s_seq_reserved := nr |> else s, ok)
      else (s, true) in
    if negb ok then (s, 0) else (s <| s_seq_next := s_seq_next s + 1 |>, s_seq_next s).

(** [read]: what reading the stored bound gave, [None] when the namespace could not be
    opened or the value not read. *)
(* src: firmware-ESP32-LTE-M/main/arkiv_writer.cpp:294-308 arkiv_writer_init (sequence) *)
Definition load_seq (read : option Z) (s : seqs) : seqs :=
  let persisted := match read with Some v => v | None => 0 end in
  let next := u64 (persisted + 1) in
  Seqs next next (nv_out_seq s).

(** *** Over boots and failing writes *)

Inductive seq_event := Next (have_lock open_ok set_ok commit_ok : bool) | Start (readable : bool).

(** A boot reads what is stored, or cannot. *)
Definition seq_step (s : seqs) (e : seq_event) : seqs * option Z :=
  match e with
  | Next have_lock open_ok set_ok commit_ok =>
      let '(s, v) := arkiv_writer_next_seq have_lock open_ok set_ok commit_ok s in
      (s, if v =? 0 then None else Some v)
  | Start readable => (load_seq (if readable : bool then nv_out_seq s else None) s, None)
  end.

Definition bound_read (e : seq_event) : Prop := match e with Start readable => readable = true | _ => True end.

Definition issued (es : list seq_event) (s : seqs) : list Z := omap id (run seq_step s es).2.

(** Everything that was issued is below [m]: so are the numbers still to come, now and
    after a restart. *)
Record seq_wf (m : Z) (s : seqs) : Prop := {
  sq_next : m <= s_seq_next s; sq_pos : 0 < m;
  sq_reserved : s_seq_reserved s <= match nv_out_seq s with Some v => v | None => 0 end \/ s_seq_reserved s <= s_seq_next s;
  sq_stored : m <= match nv_out_seq s with Some v => v | None => 0 end + 1;
  sq_range : 0 <= match nv_out_seq s with Some v => v | None => 0 end < SEQ_MAX_48; sq_cap : s_seq_next s <= SEQ_MAX_48
}.

Lemma next_seq_wf m s hl o se c : seq_wf m s ->
  let '(s', v) := arkiv_writer_next_seq hl o se c s in
  if v =? 0 then seq_wf m s' else seq_wf (v + 1) s' /\ m <= v < 2 ^ 48.
Proof.
  intros [H1 H2 H3 H4 H5 H6]; unfold arkiv_writer_next_seq, SEQ_MAX_48, SEQ_RESERVE_WINDOW in *; destruct hl; cbn [negb]; [|constructor; done].
  destruct (Z.leb_spec (281474976710655 - 1024) (s_seq_next s)); [constructor; done|].
  destruct (Z.leb_spec (s_seq_reserved s) (s_seq_next s)) as [HR|HR].
  - unfold persist_seq_reserved; destruct o, se, c; cbn [negb andb]; try (constructor; done);
      try (cbn [Z.eqb]; constructor; cbn; unfold SEQ_MAX_48; try done; lia).
    cbn; destruct (Z.eqb_spec (s_seq_next s) 0); [lia|]; split; [constructor; cbn; unfold SEQ_MAX_48; lia|lia].
  - cbn [negb]; destruct (Z.eqb_spec (s_seq_next s) 0); [lia|]; destruct H3 as [H3|]; [|lia].
    split; [constructor; cbn; unfold SEQ_MAX_48; try lia|lia].
Qed.

Lemma start_wf m s : seq_wf m s -> seq_wf m (load_seq (nv_out_seq s) s).
Proof.
  intros [H1 H2 H3 H4 H5 H6]; unfold load_seq, SEQ_MAX_48 in *; set (p := match nv_out_seq s with Some v => v | None => 0 end) in *.
  rewrite u64_small by lia; constructor; cbn; fold p; unfold SEQ_MAX_48; try lia.
Qed.

Lemma seq_step_wf m s e : bound_read e -> seq_wf m s ->
  match (seq_step s e).2 with None => seq_wf m (seq_step s e).1 | Some v => seq_wf (v + 1) (seq_step s e).1 /\ m <= v < 2 ^ 48 end.
Proof.
  intros He Hw; destruct e as [hl o se c|readable]; cbn [seq_step]; [|rewrite He; apply start_wf, Hw].
  pose proof (next_seq_wf m s hl o se c Hw) as H; destruct (arkiv_writer_next_seq hl o se c s) as [s' v]; destruct (v =? 0); exact H.
Qed.

Lemma issued_sorted m s es : Forall bound_read es -> seq_wf m s -> StronglySorted Z.lt (issued es s) /\ Forall (fun v => m <= v < 2 ^ 48) (issued es s).
Proof.
  unfold issued; intros Hes; revert m s; induction Hes as [|e es He _ IH]; intros m s Hw; [split; constructor|].
  rewrite run_cons; pose proof (seq_step_wf m s e He Hw) as HS; destruct (seq_step s e) as [s1 [v|]]; cbn [fst snd] in HS.
  - destruct HS as [Hw1 Hv]; destruct (IH _ _ Hw1) as [I1 I2]; destruct (run seq_step s1 es) as [s2 os]; cbn [snd omap list_omap id] in *.
    split; constructor; try done; apply (Forall_impl _ _ _ I2); intros x; lia.
  - specialize (IH _ _ HS); destruct (run seq_step s1 es) as [s2 os]; exact IH.
Qed.

(** A fresh device. *)
Definition blank : seqs := load_seq None (Seqs 0 0 None).

Lemma blank_wf : seq_wf 1 blank.
Proof. constructor; [done|done|right; done|done|split; done|done]. Qed.
End SequenceNumbers.

(** ** Sealing *)

Section Sealing.
Context `{EC : MicroEcc} `{K : Keccak} `{G : Gcm}.
Implicit Types (a : arkiv) (c : seal_cache).

(* src: firmware-ESP32-LTE-M/main/arkiv_writer.cpp:168-176 hex_encode *)
Definition hex_digit (n : Z) : Z := if n <? 10 then 48 + n else 97 + n - 10.
Definition hex_encode (l : list Z) : list Z := concat (map (fun b => [hex_digit (Z.shiftr b 4); hex_digit (Z.land b 15)]) l).

(** The keys as far as they were derived; a failure leaves the earlier ones in place. *)
(* src: firmware-ESP32-LTE-M/main/arkiv_writer.cpp:204-211 seal_refresh_keys_locked (derive) *)
Definition derive_keys (shared_x : list Z) (owner dev : list Z) (epoch : Z) c : seal_cache * bool :=
  let k typeTag := arkiv_aead_derive_key shared_x (Some owner) (Some dev) typeTag epoch in
  match k ARKIV_AEAD_TYPE_TELEMETRY with
  | inl _ => (c, false)
  | inr k1 =>
      let c := c <| s_k_tlm := k1 |> in
      match k ARKIV_AEAD_TYPE_ACK with
      | inl _ => (c, false)
      | inr k2 =>
          let c := c <| s_k_ack := k2 |> in
          match k ARKIV_AEAD_TYPE_EVENT with inl _ => (c, false) | inr k3 => (c <| s_k_event := k3 |>, true) end
      end
  end.

(* src: firmware-ESP32-LTE-M/main/arkiv_writer.cpp:199-202 seal_refresh_keys_locked (salt) *)
Definition owner_lower a : list Z := str "0x" ++ hex_encode (s_owner_addr a).
Definition devpub_lower a : list Z := hex_encode (s_dev_pub a).

(* src: firmware-ESP32-LTE-M/main/arkiv_writer.cpp:184-220 seal_refresh_keys_locked *)
Definition seal_refresh_keys_locked (dev_priv : list Z) a c : seal_cache * bool :=
  match cmdauth_arkiv_enc_pub a, cmdauth_arkiv_owner_addr a with
  | Some enc_pub, Some owner_addr =>
      let gen := s_binding_gen a in
      if s_seal_valid c && (s_seal_gen c =? gen) then (c, true)
      else
        let epoch := s_key_epoch a in
        match arkiv_secp256k1_ecdh dev_priv enc_pub with
        | inl _ => (c, false)
        | inr shared_x =>
            let '(c, ok) := derive_keys shared_x (owner_lower a) (devpub_lower a) epoch c in
            if negb ok then (c <| s_seal_valid := false |>, false)
            else (c <| s_seal_epoch := epoch |> <| s_seal_gen := gen |> <| s_seal_valid := true |>, true)
        end
  | _, _ => (c, false)
  end.

(* src: firmware-ESP32-LTE-M/main/arkiv_writer.cpp:237-242 arkiv_writer_payload_seal (key) *)
Definition stream_key (type_tag : Z) c : option (list Z) :=
  if type_tag =? ARKIV_AEAD_TYPE_TELEMETRY then Some (s_k_tlm c)
  else if type_tag =? ARKIV_AEAD_TYPE_ACK then Some (s_k_ack c)
  else if type_tag =? ARKIV_AEAD_TYPE_EVENT then Some (s_k_event c)
  else None.

(** The error, or the sealed body and the epoch. *)
(* src: firmware-ESP32-LTE-M/main/arkiv_writer.cpp:222-263 arkiv_writer_payload_seal *)
Definition arkiv_writer_payload_seal (ready ctx_ok : bool) (dev_priv iccid : list Z) a (type_tag seq : Z)
    (entity_type command_id : option (list Z)) (pt : list Z) (out_cap : Z) c : seal_cache * (Z + (list Z * Z)) :=
  if negb ready then (c, inl (-1))
  else if seq =? 0 then (c, inl (-2))
  else if Z.of_nat (length iccid) =? 0 then (c, inl (-3))
  else
    let '(c, fresh) := seal_refresh_keys_locked dev_priv a c in
    if negb fresh then (c, inl (-4))
    else match stream_key type_tag c with
    | None => (c, inl (-5))
    | Some kdir =>
        match arkiv_aead_seal ctx_ok type_tag (s_seal_epoch c) seq kdir (Some iccid) entity_type command_id pt out_cap with
        | inl _ => (c, inl (-6))
        | inr body => (c, inr (body, s_seal_epoch c))
        end
    end.

(* src: firmware-ESP32-LTE-M/main/arkiv_writer.cpp:265-274 arkiv_writer_seal_prewarm *)
Definition arkiv_writer_seal_prewarm (ready : bool) (dev_priv : list Z) a c : seal_cache * bool :=
  if negb ready then (c, false) else seal_refresh_keys_locked dev_priv a c.

(** The key that the owner derives for a stream from the same secret. *)
Definition owner_key (dev_priv : list Z) a (type_tag : Z) : option (list Z) :=
  match arkiv_secp256k1_ecdh dev_priv (s_enc_pub a) with
  | inr shared_x =>
      match arkiv_aead_derive_key shared_x (Some (owner_lower a)) (Some (devpub_lower a)) type_tag (s_key_epoch a) with
      | inr k => Some k
      | inl _ => None
      end
  | inl _ => None
  end.

#[local] Arguments arkiv_aead_derive_key : simpl never.

(** The cache holds the keys of the binding whose generation it names, which is not a later
    one. *)
Definition cache_fits (dev_priv : list Z) a c : Prop :=
  s_seal_valid c = true -> s_seal_gen c <= s_binding_gen a /\
  (s_seal_gen c = s_binding_gen a ->
   s_seal_epoch c = s_key_epoch a /\ forall t k, stream_key t c = Some k -> owner_key dev_priv a t = Some k).

Lemma refresh_fits dev_priv a c : cache_fits dev_priv a c ->
  let '(c', ok) := seal_refresh_keys_locked dev_priv a c in
  cache_fits dev_priv a c' /\
  (ok = true -> s_seal_epoch c' = s_key_epoch a /\ forall t k, stream_key t c' = Some k -> owner_key dev_priv a t = Some k).
Proof.
  intros Hc; unfold seal_refresh_keys_locked; destruct (cmdauth_arkiv_enc_pub a) as [enc|] eqn:EE; [|split; [exact Hc|done]].
  destruct (cmdauth_arkiv_owner_addr a) as [own|] eqn:EO; [|split; [exact Hc|done]].
  assert (enc = s_enc_pub a) as -> by (unfold cmdauth_arkiv_enc_pub in EE; destruct (s_have_enc a); congruence).
  destruct (s_seal_valid c && _) eqn:EV.
  { apply andb_true_iff in EV as [E1 E2]; apply Z.eqb_eq in E2; split; [exact Hc|]; intros _; apply Hc; done. }
  destruct (arkiv_secp256k1_ecdh dev_priv (s_enc_pub a)) as [|x] eqn:EX; [split; [exact Hc|done]|].
  unfold derive_keys; cbv beta zeta.
  assert (HN : forall c' : seal_cache, cache_fits dev_priv a (c' <| s_seal_valid := false |>)) by (intros c' H; discriminate H).
  destruct (arkiv_aead_derive_key x _ _ ARKIV_AEAD_TYPE_TELEMETRY _) as [|k1] eqn:E1; [split; [apply HN|done]|].
  destruct (arkiv_aead_derive_key x _ _ ARKIV_AEAD_TYPE_ACK _) as [|k2] eqn:E2; [split; [apply HN|done]|].
  destruct (arkiv_aead_derive_key x _ _ ARKIV_AEAD_TYPE_EVENT _) as [|k3] eqn:E3; [split; [apply HN|done]|]; cbn [negb].
  assert (HS : forall t kk, stream_key t (c <| s_k_tlm := k1 |> <| s_k_ack := k2 |> <| s_k_event := k3 |> <| s_seal_epoch := s_key_epoch a |>
      <| s_seal_gen := s_binding_gen a |> <| s_seal_valid := true |>) = Some kk -> owner_key dev_priv a t = Some kk).
  { intros t kk; unfold owner_key; rewrite EX; change (stream_key t _) with (if t =? ARKIV_AEAD_TYPE_TELEMETRY then Some k1
      else if t =? ARKIV_AEAD_TYPE_ACK then Some k2 else if t =? ARKIV_AEAD_TYPE_EVENT then Some k3 else None).
    destruct (Z.eqb_spec t ARKIV_AEAD_TYPE_TELEMETRY) as [->|]; [intros [= <-]; rewrite E1; done|].
    destruct (Z.eqb_spec t ARKIV_AEAD_TYPE_ACK) as [->|]; [intros [= <-]; rewrite E2; done|].
    destruct (Z.eqb_spec t ARKIV_AEAD_TYPE_EVENT) as [->|]; [intros [= <-]; rewrite E3; done|done]. }
  split; [intros _; split; [cbn; lia|intros _; split; [done|exact HS]]|intros _; split; [done|exact HS]].
Qed.

Lemma refresh_owner dev_priv a c : (seal_refresh_keys_locked dev_priv a c).2 = true -> s_have_owner a = true.
Proof. unfold seal_refresh_keys_locked, cmdauth_arkiv_owner_addr; destruct (s_have_owner a); [done|]; destruct (cmdauth_arkiv_enc_pub a); done. Qed.

(** *** Sealing while the binding changes *)

Inductive bound_op :=
  | Authority (o : arkiv_op)
  | SealBody (ctx_ok : bool) (type_tag seq : Z) (entity_type command_id : option (list Z)) (pt : list Z) (out_cap : Z).

(** A restart clears the cache as well. *)
Definition no_cache : seal_cache := Seal 0 false 0 (replicate 32 0) (replicate 32 0) (replicate 32 0).
Definition bound_step (dev_priv iccid : list Z) (s : arkiv * seal_cache) (o : bound_op) : (arkiv * seal_cache) * option (list Z * Z) :=
  let '(a, c) := s in
  match o with
  | Authority (Reboot f) => (((arkiv_step a (Reboot f)).1, no_cache), None)
  | Authority o => (((arkiv_step a o).1, c), None)
  | SealBody ctx_ok type_tag seq et cid pt cap =>
      let '(c, r) := arkiv_writer_payload_seal true ctx_ok dev_priv iccid a type_tag seq et cid pt cap c in
      ((a, c), match r with inr body => Some body | inl _ => None end)
  end.

(** The part of the authority that the keys depend on. *)
Definition key_input a := (s_enc_pub a, s_owner_addr a, s_dev_pub a, s_key_epoch a).

Lemma key_input_eq dev_priv a a' t : key_input a = key_input a' -> owner_key dev_priv a t = owner_key dev_priv a' t.
Proof. unfold key_input, owner_key, owner_lower, devpub_lower; intros [= -> -> -> ->]; done. Qed.

Lemma step_generation a o : (forall f, o <> Reboot f) ->
  let a' := (arkiv_step a o).1 in (s_binding_gen a' = s_binding_gen a /\ key_input a' = key_input a) \/ s_binding_gen a' = u32 (s_binding_gen a + 1).
Proof.
  intros Ho; destruct o as [open errs cmd|open errs epoch|open errs owner enc epoch|open ok errs|f]; cbn [arkiv_step fst]; [| | | |destruct (Ho f); done].
  - left; unfold cmdauth_arkiv_check, persist_progress; repeat (case_match; simplify_eq; try done).
  - unfold cmdauth_arkiv_set_epoch; repeat (case_match; try (left; done)); right; done.
  - unfold cmdauth_arkiv_bind_owner; repeat (case_match; try (left; done)); right; done.
  - unfold cmdauth_arkiv_clear; repeat (case_match; try (left; done)); right; done.
Qed.

Lemma bound_step_fits dev_priv iccid a c o : cache_fits dev_priv a c -> 0 <= s_binding_gen a < UINT32_MAX ->
  let '((a', c'), _) := bound_step dev_priv iccid (a, c) o in cache_fits dev_priv a' c' /\ 0 <= s_binding_gen a' <= s_binding_gen a + 1.
Proof.
  unfold UINT32_MAX; intros Hc Hg; destruct o as [o|ctx_ok t q et cid pt cap]; cbn [bound_step].
  - assert (HR : (exists f, o = Reboot f) \/ (forall f, o <> Reboot f)) by (destruct o; eauto; right; discriminate).
    destruct HR as [[f ->]|Ho].
    + split; [intros H; discriminate H|]; unfold arkiv_step, cmdauth_arkiv_init, load_state; repeat case_match; cbn; lia.
    + destruct (step_generation a o Ho) as [[HG HK]|HG]; set (a' := (arkiv_step a o).1) in *.
      * assert (HF : cache_fits dev_priv a' c).
        { intros Hv; destruct (Hc Hv) as [H1 H2]; rewrite HG; split; [exact H1|]; intros HE; destruct (H2 HE) as [H3 H4].
          pose proof HK as [= _ _ _ HE4]; rewrite HE4; split; [exact H3|]; intros t k Hk; rewrite (key_input_eq dev_priv a' a t HK); apply H4, Hk. }
        destruct o; try (edestruct Ho; reflexivity); (split; [exact HF|lia]).
      * rewrite u32_small in HG by lia; assert (HF : cache_fits dev_priv a' c) by (intros Hv; destruct (Hc Hv) as [H1 _]; rewrite HG; split; lia).
        destruct o; try (edestruct Ho; reflexivity); (split; [exact HF|lia]).
  - unfold arkiv_writer_payload_seal; cbn [negb]; destruct (q =? 0); [split; [exact Hc|lia]|]; destruct (_ =? 0); [split; [exact Hc|lia]|].
    pose proof (refresh_fits dev_priv a c Hc) as HF; destruct (seal_refresh_keys_locked dev_priv a c) as [c' ok]; destruct HF as [HF _].
    destruct ok; cbn [negb]; repeat case_match; (split; [simplify_eq; exact HF|simplify_eq; lia]).
Qed.

Lemma bound_run_fits dev_priv iccid ops : forall a c, cache_fits dev_priv a c -> 0 <= s_binding_gen a ->
  s_binding_gen a + Z.of_nat (length ops) <= UINT32_MAX ->
  let '(a', c') := (run (bound_step dev_priv iccid) (a, c) ops).1 in cache_fits dev_priv a' c'.
Proof.
  induction ops as [|o ops IH]; intros a c Hc Hg Hn; [exact Hc|]; cbn [length] in Hn; rewrite run_cons.
  pose proof (bound_step_fits dev_priv iccid a c o Hc ltac:(unfold UINT32_MAX in *; lia)) as HB.
  destruct (bound_step dev_priv iccid (a, c) o) as [[a1 c1] r]; destruct HB as [Hc1 Hg1].
  specialize (IH a1 c1 Hc1 ltac:(lia) ltac:(lia)); destruct (run _ (a1, c1) ops) as [[a2 c2] os]; exact IH.
Qed.

Context `{GL : !GcmLaws}.

(** C14: after any sequence of bindings, unbindings, epoch changes, commands, reboots and
    sealed bodies too short to wrap the 32-bit generation counter of the binding, a body that the writer seals is opened by the owner who is bound then,
    with the key of the stream under the current epoch, the device's id, the entity's type
    and its command, and gives the plaintext: a key of an earlier binding is never used. *)
Theorem owner_opens_payloads dev_priv iccid a c ops type_tag seq et cid pt cap body epoch
  (Hc : s_seal_valid c = false) (Hg : 0 <= s_binding_gen a) (Hn : s_binding_gen a + Z.of_nat (length ops) <= UINT32_MAX) :
  let s' := (run (bound_step dev_priv iccid) (a, c) ops).1 in
  (bound_step dev_priv iccid s' (SealBody true type_tag seq et cid pt cap)).2 = Some (body, epoch) -> is_u32 epoch ->
  s_have_owner s'.1 = true /\ epoch = s_key_epoch s'.1 /\
  exists k, owner_key dev_priv s'.1 type_tag = Some k /\
    arkiv_aead_open true body k (Some iccid) et cid (Z.of_nat (length pt)) = inr pt /\
    header_type body = type_tag /\ header_epoch body = epoch /\ header_seq body = seq mod 2 ^ 48.
Proof.
  cbv zeta; pose proof (bound_run_fits dev_priv iccid ops a c ltac:(intros H; congruence) Hg Hn) as HF.
  destruct (run (bound_step dev_priv iccid) (a, c) ops).1 as [a' c']; cbn [bound_step fst]; unfold arkiv_writer_payload_seal; cbn [negb].
  destruct (seq =? 0); [done|]; destruct (_ =? 0); [done|].
  pose proof (refresh_fits dev_priv a' c' HF) as HR; pose proof (refresh_owner dev_priv a' c') as HO.
  destruct (seal_refresh_keys_locked dev_priv a' c') as [c2 ok]; destruct HR as [_ HR]; destruct ok; [|done]; cbn [negb].
  destruct (HR eq_refl) as [HE HK]; destruct (stream_key type_tag c2) as [k|] eqn:EK; [|done].
  destruct (arkiv_aead_seal _ _ _ _ _ _ _ _ _ _) as [|b] eqn:ES; [done|]; cbn [snd]; intros [= <- <-] Hu.
  split; [apply HO; done|split; [exact HE|]]; exists k; split; [apply HK, EK|].
  destruct (sealed_opens _ _ _ _ _ _ _ _ _ _ (Z.of_nat (length pt)) _ Hu (Z.le_refl _) ES) as (H1 & _ & _ & H2 & H3 & H4); done.
Qed.
End Sealing.

(** ** Submission *)

(* src: firmware-ESP32-LTE-M/main/arkiv_writer.cpp:58-59 GAS *)
Definition GAS_PRICE_FLOOR_WEI : Z := 1000.
Definition GAS_LIMIT_DEFAULT : Z := 300000.
(* src: firmware-ESP32-LTE-M/main/arkiv_cfg.h:13 ARKIV_CHAIN_ID *)
Definition ARKIV_CHAIN_ID : Z := 1999859817.
(* src: firmware-ESP32-LTE-M/main/arkiv_writer.h:42 ARKIV_STORAGE_CONTRACT_HEX *)
Definition ARKIV_STORAGE_CONTRACT_HEX : list Z := str "0x00000000000000000000000000000061726b6976".
Definition ESP_ERR_TIMEOUT : Z := 263.

(* src: firmware-ESP32-LTE-M/main/arkiv_writer.cpp:376-381 storage_addr_bytes (nib) *)
Definition nib (c : Z) : Z :=
  if (48 <=? c) && (c <=? 57) then c - 48
  else if (97 <=? c) && (c <=? 102) then c - 97 + 10
  else if (65 <=? c) && (c <=? 70) then c - 65 + 10 else 0.
(* src: firmware-ESP32-LTE-M/main/arkiv_writer.cpp:369-388 storage_addr_bytes *)
Definition storage_addr_bytes : list Z :=
  let h := drop 2 ARKIV_STORAGE_CONTRACT_HEX in
  map (fun i => Z.lor (Z.shiftl (nib (byte_at h (2 * i))) 4) (nib (byte_at h (2 * i + 1)))) (seq 0 20).

(** What the node's calls return: the lock, the transaction count, the block number with
    the time, the gas price, and the result of sending. *)
Record rpc_io := Rpc { io_lock : bool; io_nonce : option Z; io_head : option (Z * Z); io_gas : option Z; io_send : Z }.

(* src: firmware-ESP32-LTE-M/main/arkiv_writer.cpp:417-470 submit_create (health) *)
Definition note_head (head now_us nonce : Z) (h : health) : health :=
  if negb (head =? last_head h) then Health head now_us nonce 0
  else h <| consec_stalled := u32 (consec_stalled h + 1) |>.

Section Submission.
Context `{EC : MicroEcc} `{K : Keccak}.

(* src: firmware-ESP32-LTE-M/main/arkiv_writer.cpp:481-492 submit_create (transaction) *)
Definition create_tx (create : CreateOp) (nonce gas_price : Z) : LegacyTx :=
  Tx nonce gas_price GAS_LIMIT_DEFAULT storage_addr_bytes 0 (build_ops_tx_data (Ops [create] [] [] [] [])) ARKIV_CHAIN_ID.

(** The result code, whether the transaction was handed to the node, its hash as the caller
    has it then, and the bytes that were sent. *)
(* src: firmware-ESP32-LTE-M/main/arkiv_writer.cpp:400-519 submit_create *)
Definition submit_create (dev_priv : list Z) (create : CreateOp) (io : rpc_io) (hash : list Z) (h : health)
    : health * (Z * bool * list Z * option (list Z)) :=
  if negb (io_lock io) then (h, (ESP_ERR_TIMEOUT, false, hash, None))
  else match io_nonce io with
  | None => (h, (ESP_FAIL, false, hash, None))
  | Some nonce =>
      let h := match io_head io with Some (head, now_us) => note_head head now_us nonce h | None => h end in
      match io_gas io with
      | None => (h, (ESP_FAIL, false, hash, None))
      | Some gas_price =>
          let gas_price := if gas_price <? GAS_PRICE_FLOOR_WEI then GAS_PRICE_FLOOR_WEI else gas_price in
          let raw := sign_legacy_tx (create_tx create nonce gas_price) dev_priv in
          if Z.of_nat (length raw) =? 0 then (h, (ESP_FAIL, false, hash, None))
          else
            let hash := tx_hash raw in
            let sr := io_send io in
            if negb (sr =? ESP_OK) then (h, (if sr =? ESP_ERR_INVALID_RESPONSE then sr else ESP_FAIL, true, hash, Some raw))
            else (h, (ESP_OK, true, hash, Some raw))
      end
  end.

(* src: firmware-ESP32-LTE-M/main/arkiv_writer.cpp:635-648 arkiv_writer_enqueue_create_entity (attribute) *)
Definition attr_of (a : arkiv_attr_t) : Attribute :=
  let s (o : option (list Z)) := match o with Some l => l | None => [] end in
  if ac_numeric a then Attr (s (ac_key a)) [] (ac_num a) true else Attr (s (ac_key a)) (s (ac_str a)) 0 false.

Definition WRITER_QUEUE_LEN : Z := 16.

(** [q] holds the jobs that wait; [mem_ok]: the job could be allocated. *)
(* src: firmware-ESP32-LTE-M/main/arkiv_writer.cpp:618-659 arkiv_writer_enqueue_create_entity *)
Definition arkiv_writer_enqueue_create_entity (have_queue mem_ok : bool) (now_us : Z) (content_type : option (list Z)) (payload : list Z)
    (expires : Z) (attrs : list arkiv_attr_t) (q : list WriteJob) : list WriteJob * bool :=
  match content_type with
  | None => (q, false)
  | Some content_type =>
      if negb have_queue || negb mem_ok then (q, false)
      else if WRITER_QUEUE_LEN <=? Z.of_nat (length q) then (q, false)
      else (q ++ [Job content_type payload expires (map attr_of attrs) now_us 0], true)
  end.

(* src: firmware-ESP32-LTE-M/main/arkiv_writer.cpp:661-690 arkiv_writer_create_entity *)
Definition arkiv_writer_create_entity (ready : bool) (dev_priv : list Z) (content_type : option (list Z)) (payload : list Z) (expires : Z)
    (attrs : list arkiv_attr_t) (io : rpc_io) (hash : list Z) (h : health) : health * (Z * bool * list Z * option (list Z)) :=
  if negb ready then (h, (ESP_ERR_INVALID_STATE, false, hash, None))
  else match content_type with
  | None => (h, (ESP_ERR_INVALID_ARG, false, hash, None))
  | Some content_type => submit_create dev_priv (Create content_type payload (map attr_of attrs) expires) io hash h
  end.

(** ** The task *)

(* src: firmware-ESP32-LTE-M/main/arkiv_cfg.h:69-72 ARKIV_WRITER *)
Definition ARKIV_WRITER_RETRIES : Z := 3.
Definition ARKIV_WRITER_RETRY_BACKOFF_S : list Z := [5; 15].
Definition ARKIV_WRITER_JOB_MAX_AGE_S : Z := 240.

(** What the task does that others see; a probe comes with its answer, [None] when it
    failed. *)
Inductive wact := Sent (age_s : Z) (raw : list Z) | Probe (hash : list Z) (known : option bool) | Delay (seconds : Z).
Inductive job_end := Accepted | AlreadyKnown | Rejected | Stale | GivenUp | OutOfFuel.

(** One turn's inputs: the time, the answer of [arkiv_eth_tx_known], the node. *)
Record turn_io := Turn { ti_now_us : Z; ti_known : option bool; ti_rpc : rpc_io }.

(* src: firmware-ESP32-LTE-M/main/arkiv_writer.cpp:566-570 writer_task (op) *)
Definition job_create (j : WriteJob) : CreateOp := Create (j_content_type j) (j_payload j) (j_attrs j) (j_expires j).

(* src: firmware-ESP32-LTE-M/main/arkiv_writer.cpp:600 writer_task (backoff) *)
Definition backoff_s (attempts : Z) : Z :=
  byte_at ARKIV_WRITER_RETRY_BACKOFF_S (Z.to_nat (if attempts - 1 <? 2 then attempts - 1 else 1)).

(** The loop over one job. *)
(* src: firmware-ESP32-LTE-M/main/arkiv_writer.cpp:536-613 writer_task (job) *)
Fixpoint job_loop (fuel : nat) (dev_priv : list Z) (ios : nat -> turn_io) (n : nat) (j : WriteJob) (attempts : Z) (hash : list Z) (maybe_sent : bool) (h : health)
    : health * list wact * job_end :=
  match fuel with
  | O => (h, [], OutOfFuel)
  | S fuel =>
      let io := ios n in
      let age_s := Z.quot (ti_now_us io - j_created_us j) 1000000 in
      if ARKIV_WRITER_JOB_MAX_AGE_S <=? age_s then (h, [], Stale)
      else
        let probe := if maybe_sent then [Probe hash (ti_known io)] else [] in
        if maybe_sent && bool_decide (ti_known io = Some true) then (h, probe, AlreadyKnown)
        else
          let maybe_sent := maybe_sent && negb (bool_decide (ti_known io = Some false)) in
          let '(h, (rc, at_send, hash, raw)) :=
            if negb maybe_sent then submit_create dev_priv (job_create j) (ti_rpc io) hash h else (h, (ESP_FAIL, false, hash, None)) in
          let sent := match raw with Some raw => [Sent age_s raw] | None => [] end in
          if negb maybe_sent && (rc =? ESP_OK) then (h, probe ++ sent, Accepted)
          else if negb maybe_sent && (rc =? ESP_ERR_INVALID_RESPONSE) then (h, probe ++ sent, Rejected)
          else
            let maybe_sent := maybe_sent || at_send in
            let attempts := u32 (attempts + 1) in
            if ARKIV_WRITER_RETRIES <=? attempts then (h, probe ++ sent, GivenUp)
            else
              let '(h, acts, e) := job_loop fuel dev_priv ios (S n) j attempts hash maybe_sent h in
              (h, probe ++ sent ++ Delay (backoff_s attempts) :: acts, e)
  end.

(** The task takes a job from the queue. *)
(* src: firmware-ESP32-LTE-M/main/arkiv_writer.cpp:521-616 writer_task *)
Definition writer_job (ready : bool) (dev_priv : list Z) (ios : nat -> turn_io) (j : WriteJob) (h : health) : health * list wact * job_end :=
  if negb ready then (h, [], GivenUp)
  else job_loop 3 dev_priv ios 0 j (j_attempts j) (replicate 32 0) false h.

(** *** A job is never sent again before the node disowned it

    [pending] is the hash of a transaction that was sent and that the node may hold. *)
Fixpoint asks_first (pending : option (list Z)) (acts : list wact) : Prop :=
  match acts with
  | [] => True
  | Sent _ raw :: acts => pending = None /\ asks_first (Some (tx_hash raw)) acts
  | Probe hash known :: acts => pending = Some hash /\ asks_first (match known with Some false => None | _ => pending end) acts
  | Delay _ :: acts => asks_first pending acts
  end.

Definition sends (acts : list wact) : list (list Z) := omap (fun a => match a with Sent _ raw => Some raw | _ => None end) acts.
Definition in_time (a : wact) : Prop := match a with Sent age_s _ => age_s < ARKIV_WRITER_JOB_MAX_AGE_S | Delay s => s = 5 \/ s = 15 | Probe _ _ => True end.

Lemma submit_hash dev_priv create io hash h h' rc at_send hash' raw :
  submit_create dev_priv create io hash h = (h', (rc, at_send, hash', raw)) ->
  (at_send = true /\ exists r, raw = Some r /\ hash' = tx_hash r) \/ (at_send = false /\ raw = None /\ hash' = hash /\ rc <> ESP_OK).
Proof.
  unfold submit_create; destruct (negb (io_lock io)); [intros [= <- <- <- <- <-]; auto 7|].
  destruct (io_nonce io) as [nonce|]; [|intros [= <- <- <- <- <-]; auto 7].
  destruct (io_gas io) as [gas|]; [|intros [= <- <- <- <- <-]; auto 7].
  destruct (Z.of_nat _ =? 0); [intros [= <- <- <- <- <-]; auto 7|].
  destruct (negb _); intros [= <- <- <- <- <-]; left; eauto.
Qed.

Lemma sends_app l1 l2 : sends (l1 ++ l2) = sends l1 ++ sends l2.
Proof. apply omap_app. Qed.

Lemma backoff_values attempts : 1 <= attempts < 3 -> backoff_s attempts = 5 \/ backoff_s attempts = 15.
Proof. intros H; assert (attempts = 1 \/ attempts = 2) as [-> | ->] by lia; [left|right]; done. Qed.

(** What a run of the loop promises, from a turn on. *)
Definition turn_safe (attempts : Z) (pending : option (list Z)) (r : health * list wact * job_end) : Prop :=
  let '(_, acts, e) := r in
  e <> OutOfFuel /\ asks_first pending acts /\ Z.of_nat (length (sends acts)) <= 3 - attempts /\ Forall in_time acts.

(** Actions that send nothing and leave no transaction in doubt come first. *)
Definition harmless (pending : option (list Z)) (pre : list wact) : Prop :=
  (forall l, asks_first pending (pre ++ l) <-> asks_first None l) /\ sends pre = [] /\ Forall in_time pre.

(** A turn that submits; [next] is the rest of the loop. *)
Lemma submit_turn pending pre attempts age dev_priv create io hash h (next : list Z -> bool -> health -> health * list wact * job_end) :
  harmless pending pre -> 0 <= attempts < 3 -> age < ARKIV_WRITER_JOB_MAX_AGE_S ->
  (forall hash (ms : bool) h, attempts + 1 < 3 -> turn_safe (attempts + 1) (if ms then Some hash else None) (next hash ms h)) ->
  turn_safe attempts pending
    (let '(h, (rc, at_send, hash, raw)) := submit_create dev_priv create io hash h in
     let sent := match raw with Some raw => [Sent age raw] | None => [] end in
     if rc =? ESP_OK then (h, pre ++ sent, Accepted)
     else if rc =? ESP_ERR_INVALID_RESPONSE then (h, pre ++ sent, Rejected)
     else if ARKIV_WRITER_RETRIES <=? u32 (attempts + 1) then (h, pre ++ sent, GivenUp)
     else let '(h, acts, e) := next hash at_send h in (h, pre ++ sent ++ Delay (backoff_s (u32 (attempts + 1))) :: acts, e)).
Proof.
  intros (HP & HPS & HPT) Ha Hage HN; destruct (submit_create _ _ _ _ _) as [h' [[[rc at_send] hash'] raw]] eqn:ES.
  apply submit_hash in ES; set (sent := match raw with Some r => [Sent age r] | None => [] end).
  assert (HS : forall l, asks_first pending (pre ++ sent ++ l) <-> asks_first (if at_send then Some hash' else None) l).
  { intros l; rewrite HP; unfold sent; destruct ES as [(-> & r & -> & ->)|(-> & -> & _ & _)]; cbn; tauto. }
  assert (HL : Z.of_nat (length (sends (pre ++ sent))) <= 1) by (rewrite sends_app, HPS; unfold sent; destruct raw; vm_compute; discriminate).
  assert (HT : Forall in_time (pre ++ sent)) by (apply Forall_app; split; [exact HPT|]; unfold sent; destruct raw; repeat constructor; exact Hage).
  assert (HE : forall e, e <> OutOfFuel -> turn_safe attempts pending (h', pre ++ sent, e)).
  { intros e He; split; [exact He|split; [|split; [lia|exact HT]]]; rewrite <- (app_nil_r sent); apply HS; destruct at_send; exact I. }
  destruct (rc =? ESP_OK); [apply HE; done|]; destruct (rc =? ESP_ERR_INVALID_RESPONSE); [apply HE; done|]; rewrite u32_small by lia.
  unfold ARKIV_WRITER_RETRIES; destruct (Z.leb_spec 3 (attempts + 1)) as [|Hr]; [apply HE; done|].
  specialize (HN hash' at_send h' Hr); destruct (next hash' at_send h') as [[h2 acts] e]; destruct HN as (I1 & I2 & I3 & I4).
  split; [done|split; [apply HS; exact I2|]]; rewrite app_assoc, sends_app, length_app.
  split; [change (sends (Delay _ :: acts)) with (sends acts); lia|].
  apply Forall_app; split; [exact HT|]; apply Forall_cons_2; [apply backoff_values; lia|exact I4].
Qed.

Lemma job_loop_safe fuel : forall dev_priv ios n j attempts hash (maybe_sent : bool) h,
  0 <= attempts < 3 -> 3 - attempts <= Z.of_nat fuel ->
  turn_safe attempts (if maybe_sent then Some hash else None) (job_loop fuel dev_priv ios n j attempts hash maybe_sent h).
Proof.
  induction fuel as [|fuel IH]; intros dev_priv ios n j attempts hash maybe_sent h Ha Hf; [lia|]; cbn [job_loop].
  set (age := Z.quot _ _); destruct (Z.leb_spec ARKIV_WRITER_JOB_MAX_AGE_S age) as [|Hage].
  { destruct maybe_sent; (split; [done|split; [exact I|split; [cbn; lia|apply Forall_nil_2]]]). }
  assert (HN : forall hash (ms : bool) h, attempts + 1 < 3 ->
    turn_safe (attempts + 1) (if ms then Some hash else None) (job_loop fuel dev_priv ios (S n) j (u32 (attempts + 1)) hash ms h))
    by (intros hash1 ms h1 H1; rewrite u32_small by lia; apply IH; lia).
  set (kn := ti_known (ios n)); destruct maybe_sent; cbn [andb negb].
  - destruct (bool_decide_reflect (kn = Some true)) as [Ek|Ek]; [split; [done|split; [split; done|split; [cbn; lia|repeat constructor]]]|].
    destruct (bool_decide_reflect (kn = Some false)) as [Ek'|Ek']; cbn [negb andb orb].
    + apply (submit_turn (Some hash) [Probe hash kn] attempts age _ _ _ _ _ (fun hash (ms : bool) h => job_loop fuel dev_priv ios (S n) j (u32 (attempts + 1)) hash ms h)); try done.
      split; [intros l; cbn; rewrite Ek'; tauto|split; [done|repeat constructor]].
    + rewrite u32_small in * by lia; destruct (Z.leb_spec ARKIV_WRITER_RETRIES (attempts + 1)) as [|Hr].
      { split; [done|split; [split; done|split; [cbn; lia|repeat constructor]]]. }
      unfold ARKIV_WRITER_RETRIES in Hr; specialize (HN hash true h ltac:(lia)).
      destruct (job_loop _ _ _ _ _ _ _ _ _) as [[h2 acts] e]; destruct HN as (I1 & I2 & I3 & I4); split; [done|split].
      * cbn [app asks_first]; split; [done|]; destruct kn as [[]|]; done.
      * split; [change (sends (_ ++ [] ++ Delay _ :: acts)) with (sends acts); lia|].
        repeat apply Forall_cons_2; [exact I|apply backoff_values; lia|exact I4].
  - apply (submit_turn None [] attempts age _ _ _ _ _ (fun hash (ms : bool) h => job_loop fuel dev_priv ios (S n) j (u32 (attempts + 1)) hash ms h)); [|done|done|exact HN].
    split; [intros l; tauto|split; [done|apply Forall_nil_2]].
Qed.

(** C12: however often the node fails to answer, the task sends a queued entity at most three
    times, never when it is four minutes old, and after a transaction that may have reached
    the node it sends another only once the node has answered that it does not know the
    first one's hash; every job ends. *)
Theorem job_sent_safely dev_priv ios j h (Hj : j_attempts j = 0) :
  let '(_, acts, e) := writer_job true dev_priv ios j h in
  e <> OutOfFuel /\ asks_first None acts /\ (length (sends acts) <= 3)%nat /\ Forall in_time acts.
Proof.
  unfold writer_job; cbn [negb]; rewrite Hj; pose proof (job_loop_safe 3 dev_priv ios 0 j 0 (replicate 32 0) false h ltac:(lia) ltac:(lia)) as HS.
  destruct (job_loop _ _ _ _ _ _ _ _ _) as [[h' acts] e]; destruct HS as (H1 & H2 & H3 & H4); repeat split; try done; lia.
Qed.
End Submission.

(** C9: over any sequence of reboots, requests for a number and failing flash writes, as long
    as every reboot can read the bound that is stored (it counts as 0 otherwise), the
    sequence numbers that the writer hands out only grow, are above all that were handed out
    before and stay below 2^48, so that no two sealed bodies of a stream have the same
    nonce. *)
Theorem nonces_never_repeat m s es (Hs : seq_wf m s) (Hread : Forall bound_read es) :
  StronglySorted Z.lt (issued es s) /\ Forall (fun v => m <= v < 2 ^ 48) (issued es s) /\
  forall typeTag epoch, is_u32 epoch -> NoDup (map (pack_nonce typeTag epoch) (issued es s)).
Proof.
  destruct (issued_sorted m s es Hread Hs) as [H1 H2]; split; [exact H1|split; [exact H2|]]; intros typeTag epoch He.
  destruct Hs as [_ Hm _ _ _ _]; induction H1 as [|v l Hl IH Hv]; [apply NoDup_nil_2|]; apply Forall_cons in H2 as [H2 H3].
  cbn [map]; apply NoDup_cons_2; [|apply IH, H3]; rewrite list_elem_of_In, in_map_iff; intros (w & HP & Hw).
  rewrite List.Forall_forall in Hv, H3; specialize (Hv w Hw); specialize (H3 w Hw).
  destruct (pack_nonce_fields typeTag epoch v He) as (_ & _ & _ & HV); destruct (pack_nonce_fields typeTag epoch w He) as (_ & _ & _ & HW).
  rewrite HP, HV, !Z.mod_small in HW by lia; lia.
Qed.

(** ** Examples *)

Definition toy_events : list seq_event :=
  [Next true true true true; Next true true true true; Start true; Next true true true false; Next true true true true; Start true; Next true false true true; Next true true true true].

Lemma nonces_never_repeat_witness :
  issued toy_events blank = [1; 2; 1026; 2051] /\
  StronglySorted Z.lt (issued toy_events blank) /\ Forall (fun v => 1 <= v < 2 ^ 48) (issued toy_events blank) /\
  forall typeTag epoch, is_u32 epoch -> NoDup (map (pack_nonce typeTag epoch) (issued toy_events blank)).
Proof. split; [vm_compute; reflexivity|apply (nonces_never_repeat 1 blank toy_events blank_wf); unfold toy_events; repeat constructor]. Defined.

(** When the stored bound cannot be read at a boot, the numbers start over at 1, and with
    them the nonces under an unchanged key. *)
Example unreadable_bound_repeats :
  issued [Next true true true true; Start false; Next true true true true] blank = [1; 1].
Proof. vm_compute; reflexivity. Qed.

Definition toy_job : WriteJob := Job (str "application/octet-stream") [1; 2; 3] 900 [] 0 0.
(** The first reply is lost, the probe fails, then the node knows the transaction. *)
Definition toy_turns (n : nat) : turn_io :=
  Turn (Z.of_nat n * 20000000) (match n with 1%nat => None | _ => Some true end) (Rpc true (Some 7) None (Some 10) ESP_FAIL).

Lemma job_sent_safely_witness :
  let '(_, acts, e) := @writer_job toy_ecc toy_keccak true (replicate 32 5) toy_turns toy_job (Health 0 0 0 0) in
  e <> OutOfFuel /\ @asks_first toy_keccak None acts /\ (length (sends acts) <= 3)%nat /\ Forall in_time acts.
Proof. apply (@job_sent_safely toy_ecc toy_keccak (replicate 32 5) toy_turns toy_job (Health 0 0 0 0)); reflexivity. Defined.

Example lost_reply_not_resent :
  (@writer_job toy_ecc toy_keccak true (replicate 32 5) toy_turns toy_job (Health 0 0 0 0)).2 = AlreadyKnown /\
  length (sends (@writer_job toy_ecc toy_keccak true (replicate 32 5) toy_turns toy_job (Health 0 0 0 0)).1.2) = 1%nat.
Proof. vm_compute; done. Qed.

(** The owner unbinds and another binds; then a body is sealed. *)
Definition toy_binding_ops : list bound_op :=
  [SealBody true 2 9 (Some (str "w3pups-ack")) (Some toy_id) [1; 2] 284; Authority (Clear 0 (true, true, true, true, true) []);
   Authority (Bind 0 [] (replicate 64 33) (replicate 64 34) 3)].

Lemma owner_opens_payloads_witness :
  let s' := (run (@bound_step toy_ecc toy_keccak toy_gcm (replicate 32 5) (str "8948")) (toy_device, no_cache) toy_binding_ops).1 in
  let r := (@bound_step toy_ecc toy_keccak toy_gcm (replicate 32 5) (str "8948") s' (SealBody true 2 10 (Some (str "w3pups-ack")) (Some toy_id) [7; 8; 9] 284)).2 in
  exists body epoch, r = Some (body, epoch) /\ is_u32 epoch /\
  s_have_owner s'.1 = true /\ epoch = s_key_epoch s'.1 /\
  exists k, @owner_key toy_ecc (replicate 32 5) s'.1 2 = Some k /\
    @arkiv_aead_open toy_gcm true body k (Some (str "8948")) (Some (str "w3pups-ack")) (Some toy_id) (Z.of_nat (length [7; 8; 9])) = inr [7; 8; 9] /\
    header_type body = 2 /\ header_epoch body = epoch /\ header_seq body = 10 mod 2 ^ 48.
Proof.
  cbv zeta; eexists _, 3; split; [vm_compute; reflexivity|split; [lia|]].
  apply (@owner_opens_payloads toy_ecc toy_keccak toy_gcm toy_gcm_laws (replicate 32 5) (str "8948") toy_device no_cache toy_binding_ops 2 10
           (Some (str "w3pups-ack")) (Some toy_id) [7; 8; 9] 284); [reflexivity|cbn; lia|cbn; unfold UINT32_MAX; lia|vm_compute; reflexivity|lia].
Defined.
