(* ===== verification/ArkivAck.v ===== *)
(** * Acknowledgements on chain (firmware-ESP32-LTE-M/main/arkiv_ack.c)

    A command that came from the chain carries a sequence byte; the response of the RP2040
    echoes it, and the tracker finds the command's identifier for the entity that answers
    it.  Eight mappings are kept, each for its time to live; [now] is the timer in
    microseconds.  A command's identifier is a C string, of which 39 characters are kept. *)

From S2P Require Import Prelude Rlp Secp256k1 Aead ArkivTx ArkivAuth ArkivWriter.

(* src: firmware-ESP32-LTE-M/main/arkiv_ack.c:21-26 ack_slot_t *)
Record ack_slot := Slot { a_used : bool; a_seq : Z; a_expires : Z; a_command : list Z }.
#[export] Instance eta_slot : Eta ack_slot := fun s => Slot (a_used s) (a_seq s) (a_expires s) (a_command s).
Implicit Types (slots : list ack_slot) (now : Z).

(* src: firmware-ESP32-LTE-M/main/arkiv_cfg.h:52 ARKIV_ACK_SLOTS *)
Definition ARKIV_ACK_SLOTS : nat := 8.
(* src: firmware-ESP32-LTE-M/main/arkiv_ack.h:23 ARKIV_ACK_TRACK_TTL_MS *)
Definition ARKIV_ACK_TRACK_TTL_MS : Z := 60000.
Definition TTL_US : Z := ARKIV_ACK_TRACK_TTL_MS * 1000.
Definition INT64_MAX : Z := 9223372036854775807.

(** ** The tracker *)

Definition expire now (s : ack_slot) : ack_slot := if a_used s && (a_expires s <? now) then s <| a_used := false |> else s.

(** The loop from slot [i] on: the slots, the first free one, and whether the sequence
    number's own slot was found and refreshed. *)
(* src: firmware-ESP32-LTE-M/main/arkiv_ack.c:45-59 arkiv_ack_track_pending (scan) *)
Fixpoint scan_slots now (seq : Z) (command_id : list Z) slots (i : nat) (free : option nat) : list ack_slot * option nat * bool :=
  match slots with
  | [] => ([], free, false)
  | s :: rest =>
      let s := expire now s in
      let free := if negb (a_used s) && bool_decide (free = None) then Some i else free in
      if a_used s && (a_seq s =? seq) then (s <| a_command := take 39 command_id |> <| a_expires := now + TTL_US |> :: rest, free, true)
      else let '(rest, free, found) := scan_slots now seq command_id rest (S i) free in (s :: rest, free, found)
  end.

(** The slot that expires first; the earlier one of two. *)
(* src: firmware-ESP32-LTE-M/main/arkiv_ack.c:63-66 arkiv_ack_track_pending (oldest) *)
Fixpoint oldest_slot slots (i : nat) (oldest : Z) (best : option nat) : option nat :=
  match slots with
  | [] => best
  | s :: rest => if a_expires s <? oldest then oldest_slot rest (S i) (a_expires s) (Some i) else oldest_slot rest (S i) oldest best
  end.

(** [None] would index the array with -1. *)
(* src: firmware-ESP32-LTE-M/main/arkiv_ack.c:36-77 arkiv_ack_track_pending *)
Definition arkiv_ack_track_pending now (seq : Z) (command_id : option (list Z)) slots : list ack_slot :=
  match command_id with
  | None => slots
  | Some command_id =>
      let '(slots, free, found) := scan_slots now seq command_id slots 0 None in
      if found then slots
      else
        match (match free with Some i => Some i | None => oldest_slot slots 0 INT64_MAX None end) with
        | Some i => <[i := Slot true seq (now + TTL_US) (take 39 command_id)]> slots
        | None => slots
        end
  end.

Definition live now (seq : Z) (s : ack_slot) : bool := a_used s && (a_seq s =? seq) && (now <=? a_expires s).

(* src: firmware-ESP32-LTE-M/main/arkiv_ack.c:79-93 arkiv_ack_has_pending *)
Definition arkiv_ack_has_pending now (seq : Z) slots : bool := existsb (live now seq) slots.

(* src: firmware-ESP32-LTE-M/main/arkiv_ack.c:109-125 arkiv_ack_emit (lookup) *)
Definition lookup_command now (seq : Z) slots : option (list Z) :=
  match List.find (live now seq) slots with Some s => Some (take 39 (a_command s)) | None => None end.

(* src: firmware-ESP32-LTE-M/main/arkiv_ack.c:189-195 arkiv_ack_emit (release) *)
Fixpoint release_slot (seq : Z) (cmd_id : list Z) slots : list ack_slot :=
  match slots with
  | [] => []
  | s :: rest =>
      if a_used s && (a_seq s =? seq) && bool_decide (a_command s = cmd_id) then s <| a_used := false |> :: rest
      else s :: release_slot seq cmd_id rest
  end.

(** ** A whole sweep is remembered *)

(** What a mapping of [seq] to [id] that expires at [e] looks like in the table. *)
Definition holds slots (seq : Z) (id : list Z) (e : Z) : Prop := exists i, slots !! i = Some (Slot true seq e id).

(** At most one slot in use has a given sequence number. *)
Definition distinct slots : Prop :=
  forall i j s1 s2, slots !! i = Some s1 -> slots !! j = Some s2 -> a_used s1 = true -> a_used s2 = true -> a_seq s1 = a_seq s2 -> i = j.

Lemma expire_eq now s : a_used (expire now s) = true -> expire now s = s /\ now <= a_expires s.
Proof.
  unfold expire; destruct (a_used s) eqn:E; cbn [andb]; [|rewrite E; done].
  destruct (Z.ltb_spec (a_expires s) now) as [|HL]; [done|]; intros _; split; [done|exact HL].
Qed.

(** The scan, slot by slot, when the number was not there. *)
Lemma scan_not_found now seq id slots : forall i free slots' free',
  scan_slots now seq id slots i free = (slots', free', false) ->
  slots' = map (expire now) slots /\ Forall (fun s => a_used s = true -> a_seq s <> seq) slots' /\
  free' = (match free with Some _ => free | None => match list_find (fun s => a_used s = false) slots' with Some (k, _) => Some (i + k)%nat | None => None end end).
Proof.
  induction slots as [|s slots IH]; intros i free slots' free'; cbn [scan_slots map].
  - intros [= <- <-]; repeat split; [apply Forall_nil_2|destruct free; done].
  - destruct (a_used (expire now s) && (a_seq (expire now s) =? seq)) eqn:E; [done|].
    destruct (scan_slots now seq id slots _ _) as [[rest fr] fd] eqn:ES; intros [= <- <- ->].
    destruct (IH _ _ _ _ ES) as (-> & HF & ->); split; [done|split].
    + apply Forall_cons_2; [|exact HF]; intros Hu; rewrite Hu in E; cbn [andb] in E; apply Z.eqb_neq in E; exact E.
    + destruct free as [f|]; [rewrite bool_decide_false by done; rewrite andb_false_r; done|].
      rewrite bool_decide_true, andb_true_r by done; cbn [list_find]; destruct (decide (a_used (expire now s) = false)) as [Hf|Hf].
      * rewrite Hf; cbn; f_equal; lia.
      * apply not_false_is_true in Hf; rewrite Hf; cbn [negb]; destruct (list_find _ _) as [[k s']|]; cbn; [f_equal; lia|done].
Qed.

Lemma scan_found now seq id slots : forall i free slots' free',
  scan_slots now seq id slots i free = (slots', free', true) ->
  exists k s, slots !! k = Some s /\ expire now s = s /\ a_used s = true /\ a_seq s = seq /\
    slots' !! k = Some (Slot true seq (now + TTL_US) (take 39 id)) /\ length slots' = length slots /\
    forall k' s', k' <> k -> slots' !! k' = Some s' -> exists s0, slots !! k' = Some s0 /\ (s' = s0 \/ s' = expire now s0).
Proof.
  induction slots as [|s slots IH]; intros i free slots' free'; cbn [scan_slots]; [done|].
  destruct (a_used (expire now s) && (a_seq (expire now s) =? seq)) eqn:E.
  - apply andb_true_iff in E as [E1 E2]; destruct (expire_eq now s E1) as [HE _]; rewrite HE in *; apply Z.eqb_eq in E2.
    intros [= <- <-]; exists 0%nat, s; repeat split; try done; [cbn; destruct s; cbn in *; subst; done|].
    intros [|k'] s' Hk Hs'; [done|]; exists s'; split; [exact Hs'|auto].
  - destruct (scan_slots now seq id slots _ _) as [[rest fr] fd] eqn:ES; intros [= <- <- ->].
    destruct (IH _ _ _ _ ES) as (k & s0 & H1 & H2 & H3 & H4 & H5 & H6 & H7); exists (S k), s0; repeat split; try done; [cbn; lia|].
    intros [|k'] s' Hk Hs'; cbn in Hs'; [injection Hs' as <-; exists s; auto|]; apply (H7 k'); [congruence|exact Hs'].
Qed.

Lemma oldest_spec slots : forall i oldest best, Forall (fun s => a_expires s < oldest) slots -> slots <> [] ->
  exists k s, oldest_slot slots i oldest best = Some (i + k)%nat /\ slots !! k = Some s /\ Forall (fun s' => a_expires s <= a_expires s') slots.
Proof.
  assert (HG : forall slots i oldest best,
    (exists k s, oldest_slot slots i oldest best = Some (i + k)%nat /\ slots !! k = Some s /\ a_expires s < oldest /\ Forall (fun s' => a_expires s <= a_expires s') slots) \/
    (oldest_slot slots i oldest best = best /\ Forall (fun s' => oldest <= a_expires s') slots)).
  { clear; induction slots as [|s slots IH]; intros i oldest best; [right; split; [done|apply Forall_nil_2]|]; cbn [oldest_slot].
    destruct (Z.ltb_spec (a_expires s) oldest).
    - destruct (IH (S i) (a_expires s) (Some i)) as [(k & s0 & E & Hk & Hlt & HF)|[E HF]]; left.
      + exists (S k), s0; rewrite E; repeat split; [f_equal; lia|exact Hk|lia|apply Forall_cons_2; [lia|exact HF]].
      + exists 0%nat, s; rewrite E; repeat split; [f_equal; lia|done|apply Forall_cons_2; [lia|exact HF]].
    - destruct (IH (S i) oldest best) as [(k & s0 & E & Hk & Hlt & HF)|[E HF]]; [left|right; split; [exact E|apply Forall_cons_2; done]].
      exists (S k), s0; rewrite E; repeat split; [f_equal; lia|exact Hk|exact Hlt|apply Forall_cons_2; [lia|exact HF]]. }
  intros i oldest best HF Hn; destruct (HG slots i oldest best) as [(k & s & E & Hk & _ & H)|[_ H]]; [exists k, s; done|].
  destruct slots as [|s slots]; [done|]; apply Forall_cons in HF as [HF _]; apply Forall_cons in H as [H _]; lia.
Qed.

(** One call of the tracker: the slot it takes had the number already, or was free, or is
    the oldest of a full table; no other slot is written. *)
Lemma track_cases now seq id slots : distinct slots -> slots <> [] -> Forall (fun s => a_expires s < INT64_MAX) slots ->
  let slots' := arkiv_ack_track_pending now seq (Some id) slots in
  exists i s0, slots !! i = Some s0 /\ slots' !! i = Some (Slot true seq (now + TTL_US) (take 39 id)) /\ length slots' = length slots /\
    (forall k s', k <> i -> slots' !! k = Some s' -> (exists s, slots !! k = Some s /\ (s' = s \/ s' = expire now s)) /\ (a_used s' = true -> a_seq s' <> seq)) /\
    ((a_used s0 = true /\ a_seq s0 = seq) \/ a_used (expire now s0) = false \/
     Forall (fun s => a_used s = true /\ now <= a_expires s /\ a_expires s0 <= a_expires s) slots).
Proof.
  intros Hd Hn HM; unfold arkiv_ack_track_pending; cbv zeta; destruct (scan_slots now seq id slots 0 None) as [[slots1 free] []] eqn:ES.
  - destruct (scan_found _ _ _ _ _ _ _ _ ES) as (k & s & H1 & H2 & H3 & H4 & H5 & H6 & H7); exists k, s.
    split; [done|split; [done|split; [done|split; [|auto]]]]; intros k' s' Hk Hs'.
    destruct (H7 k' s' Hk Hs') as (s1 & Hs1 & HE); split; [exists s1; auto|]; intros Hu Hq; apply Hk.
    assert (HU : a_used s1 = true /\ a_seq s1 = seq).
    { destruct HE as [->| ->]; [done|]; destruct (expire_eq now s1 Hu) as [HE _]; rewrite HE in *; done. }
    apply (Hd k' k s1 s Hs1 H1); [apply HU|done|destruct HU; congruence].
  - destruct (scan_not_found _ _ _ _ _ _ _ _ ES) as (-> & HF & ->).
    assert (HX : exists i s0, slots !! i = Some s0 /\
      (match (match list_find (fun s => a_used s = false) (map (expire now) slots) with Some (k, _) => Some (0 + k)%nat | None => None end) with
       | Some i => Some i | None => oldest_slot (map (expire now) slots) 0 INT64_MAX None end) = Some i /\
      (a_used (expire now s0) = false \/ Forall (fun s => a_used s = true /\ now <= a_expires s /\ a_expires s0 <= a_expires s) slots)).
    { destruct (list_find _ _) as [[k s1]|] eqn:EF.
      - apply list_find_Some in EF as (Hk & Hu & _); rewrite list_lookup_fmap in Hk; destruct (slots !! k) as [s0|] eqn:E0; [|done].
        injection Hk as <-; exists k, s0; auto.
      - apply list_find_None in EF.
        assert (HU : Forall (fun s => a_used s = true /\ now <= a_expires s /\ expire now s = s) slots).
        { apply Forall_forall; intros s Hs; rewrite Forall_map in EF; rewrite Forall_forall in EF; specialize (EF s Hs); cbn in EF.
          apply not_false_is_true in EF; destruct (expire_eq now s EF) as [HE Hle]; rewrite HE in EF; auto. }
        assert (HM2 : map (expire now) slots = slots).
        { clear -HU; induction HU as [|s slots (_ & _ & HE) _ IH]; [done|]; cbn; rewrite HE, IH; done. }
        rewrite HM2; destruct (oldest_spec slots 0 INT64_MAX None HM Hn) as (k & s0 & -> & Hk & HO); exists k, s0; split; [exact Hk|split; [done|right]].
        apply Forall_forall; intros s Hs; rewrite Forall_forall in HU, HO; destruct (HU s Hs) as (? & ? & _); specialize (HO s Hs); auto. }
    destruct HX as (i & s0 & Hi & -> & HV); exists i, s0; split; [exact Hi|].
    split; [apply list_lookup_insert_eq; rewrite length_map; apply lookup_lt_Some in Hi; done|].
    split; [rewrite length_insert, length_map; done|split; [|tauto]]; intros k s' Hk Hs'; rewrite list_lookup_insert_ne in Hs' by done.
    split; [|rewrite Forall_lookup in HF; apply (HF k s' Hs')]; rewrite list_lookup_fmap in Hs'; destruct (slots !! k) as [s1|] eqn:E1; [|done].
    injection Hs' as <-; exists s1; auto.
Qed.

(** Slots in use that expire at [T] or later. *)
Definition fresh (T : Z) (s : ack_slot) : bool := a_used s && (T <=? a_expires s).
Definition fresh_count (T : Z) slots : nat := length (List.filter (fresh T) slots).

Lemma filter_count {A} (P : A -> bool) (l l' : list A) : forall i, length l' = length l ->
  (forall k x', k <> i -> l' !! k = Some x' -> P x' = true -> exists x, l !! k = Some x /\ P x = true) ->
  (length (List.filter P l') <= S (length (List.filter P l)))%nat.
Proof.
  revert l'; induction l as [|x l IH]; intros [|x' l'] i HL HP; try done; [cbn; lia|]; injection HL as HL; cbn [List.filter].
  destruct i as [|i].
  - assert (HG : (length (List.filter P l') <= length (List.filter P l))%nat).
    { assert (HP' : forall k y, l' !! k = Some y -> P y = true -> exists x, l !! k = Some x /\ P x = true) by (intros k y; apply (HP (S k)); lia).
      clear -HL HP'; revert l' HL HP'; induction l as [|x l IH]; intros [|x' l'] HL HP; try done; injection HL as HL; cbn [List.filter].
      specialize (IH l' HL (fun k => HP (S k))); destruct (P x') eqn:E.
      - destruct (HP 0%nat x' eq_refl E) as (y & [= <-] & ->); cbn; lia.
      - destruct (P x); cbn; lia. }
    destruct (P x'), (P x); cbn; lia.
  - assert (HI : (length (List.filter P l') <= S (length (List.filter P l)))%nat) by (apply (IH l' i HL); intros k y Hk; apply (HP (S k)); lia).
    destruct (P x') eqn:E; [|destruct (P x); cbn; lia]; destruct (HP 0%nat x' ltac:(lia) eq_refl E) as (y & [= <-] & ->); cbn; lia.
Qed.

Lemma filter_not_all {A} (P : A -> bool) (l : list A) : (length (List.filter P l) < length l)%nat -> exists x, In x l /\ P x = false.
Proof.
  induction l as [|x l IH]; cbn; [lia|]; destruct (P x) eqn:E; cbn; intros H; [|exists x; auto].
  destruct IH as (y & Hy & Hp); [lia|]; exists y; auto.
Qed.

(** The table's invariant. *)
Record table_wf slots : Prop := {
  tw_size : length slots = ARKIV_ACK_SLOTS; tw_distinct : distinct slots; tw_range : Forall (fun s => a_expires s < INT64_MAX) slots
}.

Lemma track_step T now seq id slots : table_wf slots -> now <= T -> T <= now + TTL_US < INT64_MAX ->
  let slots' := arkiv_ack_track_pending now seq (Some id) slots in
  table_wf slots' /\ holds slots' seq (take 39 id) (now + TTL_US) /\ (fresh_count T slots' <= S (fresh_count T slots))%nat /\
  forall seq2 id2 e2, (fresh_count T slots < ARKIV_ACK_SLOTS)%nat -> seq2 <> seq -> T <= e2 -> holds slots seq2 id2 e2 -> holds slots' seq2 id2 e2.
Proof.
  intros [HL HD HR] HT HT'; cbv zeta; assert (Hn : slots <> []) by (intros ->; done).
  destruct (track_cases now seq id slots HD Hn HR) as (i & s0 & Hi & Hi' & HL' & HK & HV); set (slots' := arkiv_ack_track_pending now seq (Some id) slots) in *.
  assert (HU : forall s s', s' = s \/ s' = expire now s -> a_used s' = true -> s' = s) by (intros s s' [->| ->] Hu; [done|apply (expire_eq now s Hu)]).
  split; [split|split; [exists i; exact Hi'|split]].
  - congruence.
  - intros j k s1 s2 Hj Hk H1 H2 Hq; destruct (decide (j = i)) as [->|Hji], (decide (k = i)) as [->|Hki]; [done| | |].
    + destruct (HK k s2 Hki Hk) as [_ HN]; specialize (HN H2); rewrite Hi' in Hj; injection Hj as <-; cbn in Hq; congruence.
    + destruct (HK j s1 Hji Hj) as [_ HN]; specialize (HN H1); rewrite Hi' in Hk; injection Hk as <-; cbn in Hq; congruence.
    + destruct (HK j s1 Hji Hj) as [(t1 & Ht1 & E1) _], (HK k s2 Hki Hk) as [(t2 & Ht2 & E2) _].
      pose proof (HU _ _ E1 H1); pose proof (HU _ _ E2 H2); subst s1 s2; apply (HD j k t1 t2 Ht1 Ht2 H1 H2 Hq).
  - apply Forall_lookup; intros k s Hk; destruct (decide (k = i)) as [->|Hki]; [rewrite Hi' in Hk; injection Hk as <-; cbn; lia|].
    destruct (HK k s Hki Hk) as [(t1 & Ht1 & E1) _]; rewrite Forall_lookup in HR; specialize (HR k t1 Ht1); cbn in HR.
    destruct E1 as [->| ->]; [exact HR|]; unfold expire; destruct (_ && _); exact HR.
  - apply (filter_count _ slots slots' i HL'); intros k s' Hk Hs' Hf; destruct (HK k s' Hk Hs') as [(s & Hs & E) _].
    exists s; split; [exact Hs|]; apply andb_true_iff in Hf as [Hf1 Hf2]; rewrite <- (HU _ _ E Hf1); unfold fresh; rewrite Hf1, Hf2; done.
  - intros seq2 id2 e2 Hc Hq He (k & Hk).
    destruct (filter_not_all (fresh T) slots) as (x & Hx & Hxf); [unfold fresh_count in Hc; lia|].
    assert (Hki : k <> i).
    { intros ->; rewrite Hi in Hk; injection Hk as ->; destruct HV as [[_ HV]|[HV|HV]]; [cbn in HV; congruence| |].
      - unfold expire in HV; cbn [a_used a_expires andb] in HV; destruct (Z.ltb_spec e2 now); [lia|done].
      - rewrite Forall_forall in HV; destruct (HV x) as (V1 & V2 & V3); [apply list_elem_of_In, Hx|]; cbn [a_expires] in V3.
        unfold fresh in Hxf; rewrite V1 in Hxf; cbn [andb] in Hxf; apply Z.leb_gt in Hxf; lia. }
    assert (Hs : exists s', slots' !! k = Some s') by (apply lookup_lt_is_Some; rewrite HL'; apply lookup_lt_Some in Hk; exact Hk).
    destruct Hs as (s' & Hs'); destruct (HK k s' Hki Hs') as [(s & Hsk & E) _]; rewrite Hk in Hsk; injection Hsk as <-.
    exists k; rewrite Hs'; f_equal; destruct E as [->| ->]; [done|]; unfold expire; cbn [a_used a_expires andb].
    rewrite (proj2 (Z.ltb_ge _ _)) by lia; done.
Qed.

Lemma holds_found slots seq id e now : distinct slots -> holds slots seq id e -> now <= e -> lookup_command now seq slots = Some (take 39 id).
Proof.
  intros HD (i & Hi) Hn; unfold lookup_command; destruct (List.find (live now seq) slots) as [s|] eqn:EF.
  - apply find_some in EF as [Hin Hl]; unfold live in Hl; apply andb_true_iff in Hl as [Hl _]; apply andb_true_iff in Hl as [H1 H2]; apply Z.eqb_eq in H2.
    apply list_elem_of_In, list_elem_of_lookup in Hin as (j & Hj); assert (j = i) as -> by (apply (HD j i s _ Hj Hi); done).
    rewrite Hi in Hj; injection Hj as <-; done.
  - apply find_none with (x := Slot true seq e id) in EF; [|apply list_elem_of_In, list_elem_of_lookup; exists i; exact Hi].
    unfold live in EF; cbn in EF; rewrite Z.eqb_refl in EF; cbn in EF; apply Z.leb_gt in EF; lia.
Qed.

(** The commands of a sweep, tracked one after the other. *)
Record tracked := Tracked { tr_now : Z; tr_seq : Z; tr_id : list Z }.
Definition track_all (l : list tracked) slots : list ack_slot :=
  fold_left (fun slots t => arkiv_ack_track_pending (tr_now t) (tr_seq t) (Some (tr_id t)) slots) l slots.

Lemma track_all_holds T l : forall slots, table_wf slots -> (fresh_count T slots + length l <= ARKIV_ACK_SLOTS)%nat ->
  NoDup (map tr_seq l) -> Forall (fun t => tr_now t <= T <= tr_now t + TTL_US /\ tr_now t + TTL_US < INT64_MAX) l ->
  table_wf (track_all l slots) /\
  (forall t, In t l -> holds (track_all l slots) (tr_seq t) (take 39 (tr_id t)) (tr_now t + TTL_US)) /\
  (forall seq id e, ~ In seq (map tr_seq l) -> T <= e -> holds slots seq id e -> holds (track_all l slots) seq id e).
Proof.
  induction l as [|t l IH]; intros slots Hw Hc Hd Hl; [split; [done|split; [done|auto]]|]; cbn [track_all fold_left length map] in *.
  apply NoDup_cons in Hd as [Hd1 Hd2]; apply Forall_cons in Hl as [[Ht1 Ht2] Hl]; rewrite list_elem_of_In in Hd1.
  destruct (track_step T (tr_now t) (tr_seq t) (tr_id t) slots Hw ltac:(lia) ltac:(lia)) as (W & H1 & H2 & H3).
  set (slots1 := arkiv_ack_track_pending _ _ _ slots) in *; change (fold_left _ l slots1) with (track_all l slots1) in *.
  destruct (IH slots1 W ltac:(lia) Hd2 Hl) as (I1 & I2 & I3); split; [exact I1|split].
  - intros t' [<-|Ht']; [apply I3; [exact Hd1|lia|exact H1]|apply I2, Ht'].
  - intros seq id e Hn He Hh; apply I3; [intros Hin; apply Hn; right; exact Hin|exact He|]; apply H3; [lia|intros E; apply Hn; left; congruence|exact He|exact Hh].
Qed.

(** C15: a whole sweep of commands is remembered: when up to eight commands with different
    sequence bytes are tracked within one time to live, whatever the table held before, each
    of them is found under its byte, with its own identifier, until its time is over. *)
Theorem sweep_mappings_kept t0 slots l
  (Hw : table_wf slots) (Hold : Forall (fun s => a_expires s < t0 + TTL_US) slots)
  (Hsize : (length l <= ARKIV_ACK_SLOTS)%nat) (Hseqs : NoDup (map tr_seq l))
  (Htimes : Forall (fun t => t0 <= tr_now t <= t0 + TTL_US) l) (Hclock : t0 + 2 * TTL_US < INT64_MAX) :
  table_wf (track_all l slots) /\
  forall t now, In t l -> now <= tr_now t + TTL_US ->
    lookup_command now (tr_seq t) (track_all l slots) = Some (take 39 (tr_id t)).
Proof.
  assert (HF : fresh_count (t0 + TTL_US) slots = 0%nat).
  { unfold fresh_count; clear -Hold; induction Hold as [|s slots Hs _ IH]; [done|]; cbn [List.filter]; unfold fresh at 1.
    rewrite (proj2 (Z.leb_gt _ _)), andb_false_r by exact Hs; exact IH. }
  destruct (track_all_holds (t0 + TTL_US) l slots Hw ltac:(lia) Hseqs) as (W & HH & _).
  { apply (Forall_impl _ _ _ Htimes); intros t; lia. }
  split; [exact W|]; intros t now Ht Hn; rewrite (holds_found _ _ _ _ _ (tw_distinct _ W) (HH t Ht) Hn), take_take; done.
Qed.

(** ** The acknowledgement *)

(** The writer's state, and what its calls meet. *)
Record writer := Writer { w_ready : bool; w_dev_priv : list Z; w_have_queue : bool; w_seqs : seqs; w_cache : seal_cache; w_queue : list WriteJob }.
#[export] Instance eta_writer : Eta writer := fun w => Writer (w_ready w) (w_dev_priv w) (w_have_queue w) (w_seqs w) (w_cache w) (w_queue w).
Record emit_io := EmitIo { em_lock : bool; em_open : bool; em_set : bool; em_commit : bool; em_ctx : bool; em_mem : bool; em_now : Z }.

#[local] Set Default Proof Using "Type*".

Section Emit.
Context `{EC : MicroEcc} `{K : Keccak} `{G : Gcm}.
Implicit Types (w : writer) (a : arkiv) (io : emit_io) (iccid resp : list Z).

Definition next_seq io w : writer * Z :=
  let '(s, v) := arkiv_writer_next_seq (em_lock io) (em_open io) (em_set io) (em_commit io) (w_seqs w) in (w <| w_seqs := s |>, v).
Definition seal_payload io iccid a (type_tag seq : Z) (entity_type : list Z) (command_id : option (list Z)) (pt : list Z) (out_cap : Z) w : writer * (Z + (list Z * Z)) :=
  let '(c, r) := arkiv_writer_payload_seal (w_ready w) (em_ctx io) (w_dev_priv w) iccid a type_tag seq (Some entity_type) command_id pt out_cap (w_cache w) in
  (w <| w_cache := c |>, r).
Definition enqueue io (payload : list Z) (expires : Z) (attrs : list arkiv_attr_t) w : writer * bool :=
  let '(q, ok) := arkiv_writer_enqueue_create_entity (w_have_queue w) (em_mem io) (em_now io) (Some (str "application/octet-stream")) payload expires attrs (w_queue w) in
  (w <| w_queue := q |>, ok).

Definition text_attr (key : string) (v : list Z) : arkiv_attr_t := AttrC (Some (str key)) (Some v) 0 false.
Definition num_attr_c (key : string) (v : Z) : arkiv_attr_t := AttrC (Some (str key)) None v true.

(* src: firmware-ESP32-LTE-M/main/arkiv_ack.c:163-171 arkiv_ack_emit (attrs) *)
Definition ack_attrs iccid (cmd_id : list Z) (ack_seq code epoch : Z) : list arkiv_attr_t :=
  [text_attr "type" (str "w3pups-ack"); text_attr "device_id" iccid; text_attr "command_id" cmd_id; num_attr_c "seq" ack_seq;
   num_attr_c "code" code; num_attr_c "epoch" epoch; num_attr_c "scheme" 3].

(** [resp] is [None] for NULL.  The lock is dropped after the lookup; [between] is what
    others do to the table until the release. *)
(* src: firmware-ESP32-LTE-M/main/arkiv_ack.c:95-200 arkiv_ack_emit *)
Definition arkiv_ack_emit io iccid a (between : list ack_slot -> list ack_slot) now (seq : Z) (resp : option (list Z)) w slots : writer * list ack_slot * bool :=
  if negb (w_ready w) then (w, between slots, false)
  else match lookup_command now seq slots with
  | None => (w, between slots, false)
  | Some cmd_id =>
      let payload := match resp with Some l => l | None => [] end in
      let code := match resp with Some (b :: _) => b | _ => 0 end in
      let attr_iccid := if Z.of_nat (length iccid) =? 0 then str "0" else iccid in
      let '(w, ack_seq) := next_seq io w in
      if 256 <? Z.of_nat (length payload) then (w, between slots, false)
      else
        let '(w, sr) := seal_payload io iccid a ARKIV_AEAD_TYPE_ACK ack_seq (str "w3pups-ack") (Some cmd_id) payload 284 w in
        match sr with
        | inl _ => (w, between slots, false)
        | inr (sealed, epoch) =>
            let '(w, ok) := enqueue io sealed 900 (ack_attrs attr_iccid cmd_id ack_seq code epoch) w in
            if negb ok then (w, between slots, false)
            else (w, release_slot seq cmd_id (between slots), true)
        end
  end.

Context `{GL : !GcmLaws}.

Lemma payload_sealed ready ctx_ok dev_priv iccid a t q et cid pt cap c c' body epoch :
  arkiv_writer_payload_seal ready ctx_ok dev_priv iccid a t q et cid pt cap c = (c', inr (body, epoch)) ->
  seal_refresh_keys_locked dev_priv a c = (c', true) /\ q <> 0 /\ exists k, stream_key t c' = Some k /\ epoch = s_seal_epoch c' /\
    arkiv_aead_seal ctx_ok t epoch q k (Some iccid) et cid pt cap = inr body.
Proof.
  unfold arkiv_writer_payload_seal; destruct (negb ready); [done|]; destruct (Z.eqb_spec q 0); [done|]; destruct (_ =? 0); [done|].
  destruct (seal_refresh_keys_locked dev_priv a c) as [c1 []] eqn:ER; cbn [negb]; [|done].
  destruct (stream_key t c1) as [k|] eqn:EK; [|done]; destruct (arkiv_aead_seal _ _ _ _ _ _ _ _ _ _) eqn:ES; [done|].
  intros [= <- <- <-]; split; [done|split; [done|exists k; auto]].
Qed.

(** When an acknowledgement is emitted, one entity joined the queue: it names the
    command that was tracked under the response's sequence byte, carries the first byte of
    the response as its code, and the owner opens its body, which is bound to that command,
    to the response; only then is the mapping given up.  When nothing was emitted, the table
    is as others left it and the queue as it was. *)
Theorem ack_answers_command io iccid a between now seq resp w slots
  (Hc : cache_fits (w_dev_priv w) a (w_cache w)) (Hepoch : is_u32 (s_key_epoch a)) :
  let '(w', slots', ok) := arkiv_ack_emit io iccid a between now seq (Some resp) w slots in
  if ok then
    exists id ack_seq body k, lookup_command now seq slots = Some id /\ slots' = release_slot seq id (between slots) /\
      w_queue w' = w_queue w ++ [Job (str "application/octet-stream") body 900
        (map attr_of (ack_attrs iccid id ack_seq (byte_at resp 0) (s_key_epoch a))) (em_now io) 0] /\
      owner_key (w_dev_priv w) a ARKIV_AEAD_TYPE_ACK = Some k /\
      arkiv_aead_open true body k (Some iccid) (Some (str "w3pups-ack")) (Some id) 256 = inr resp /\ header_seq body = ack_seq mod 2 ^ 48
  else slots' = between slots /\ w_queue w' = w_queue w.
Proof.
  unfold arkiv_ack_emit, next_seq, seal_payload, enqueue; destruct (negb (w_ready w)); [done|].
  destruct (lookup_command now seq slots) as [id|]; [|done]; destruct (arkiv_writer_next_seq _ _ _ _ _) as [s1 q].
  destruct (Z.ltb_spec 256 (Z.of_nat (length resp))) as [|HL]; [done|].
  destruct (arkiv_writer_payload_seal _ _ _ _ _ _ _ _ _ _ _ _) as [c1 sr] eqn:ES; destruct sr as [|[body epoch]]; [done|].
  destruct (payload_sealed _ _ _ _ _ _ _ _ _ _ _ _ _ _ _ ES) as (HR & _ & k & HK & HE & HB).
  pose proof (refresh_fits (w_dev_priv w) a (w_cache w) Hc) as HF; cbn [w_dev_priv w_cache] in *; change (w_dev_priv (w <| w_seqs := s1 |>)) with (w_dev_priv w) in *.
  change (w_cache (w <| w_seqs := s1 |>)) with (w_cache w) in *; rewrite HR in HF; destruct HF as [_ HF]; destruct (HF eq_refl) as [HEp HKs].
  destruct (arkiv_writer_enqueue_create_entity _ _ _ _ _ _ _ _) as [q' ok] eqn:EQ; unfold arkiv_writer_enqueue_create_entity in EQ.
  destruct (_ || _); [injection EQ as <- <-; done|]; destruct (WRITER_QUEUE_LEN <=? _); injection EQ as <- <-; cbn [negb]; [done|].
  assert (Hic : (if Z.of_nat (length iccid) =? 0 then str "0" else iccid) = iccid).
  { unfold arkiv_writer_payload_seal in ES; destruct (negb _); [done|]; destruct (q =? 0); [done|]; destruct (Z.of_nat (length iccid) =? 0); done. }
  rewrite Hic, HEp in *; subst epoch; exists id, q, body, k.
  destruct (sealed_opens _ _ _ _ _ _ _ _ _ _ 256 _ Hepoch HL HB) as (HO & _ & _ & _ & _ & HQ).
  repeat split; try done; [|apply HKs, HK]; destruct resp; done.
Qed.
End Emit.

(** ** Examples *)

Definition empty_table : list ack_slot := replicate 8 (Slot false 0 0 []).
(** Eight old mappings, and a sweep of eight commands a second later. *)
Definition old_table : list ack_slot := map (fun i => Slot true (Z.of_nat i) (60000000 + Z.of_nat i) toy_id) (seq 0 8).
Definition toy_sweep : list tracked := map (fun i => Tracked (1000000 + Z.of_nat i) (Z.of_nat i + 4) (Z.of_nat i :: toy_id)) (seq 0 8).

Lemma sweep_mappings_kept_witness :
  table_wf (track_all toy_sweep old_table) /\
  forall t now, In t toy_sweep -> now <= tr_now t + TTL_US -> lookup_command now (tr_seq t) (track_all toy_sweep old_table) = Some (take 39 (tr_id t)).
Proof.
  apply (sweep_mappings_kept 1000000 old_table toy_sweep).
  - split; [reflexivity| |unfold old_table; cbn; repeat (apply Forall_cons_2; [cbn; unfold INT64_MAX; lia|]); apply Forall_nil_2].
    intros i j s1 s2 Hi Hj _ _ Hq; unfold old_table in Hi, Hj; rewrite list_lookup_fmap in Hi, Hj.
    destruct (seq 0 8 !! i) as [n|] eqn:E1; [|done]; destruct (seq 0 8 !! j) as [m|] eqn:E2; [|done].
    injection Hi as <-; injection Hj as <-; apply lookup_seq in E1, E2; cbn in Hq; lia.
  - unfold old_table; cbn; repeat (apply Forall_cons_2; [cbn; unfold TTL_US, ARKIV_ACK_TRACK_TTL_MS; lia|]); apply Forall_nil_2.
  - cbn; unfold ARKIV_ACK_SLOTS; lia.
  - vm_compute; repeat constructor; rewrite list_elem_of_In; cbn; intuition discriminate.
  - cbn; repeat (apply Forall_cons_2; [cbn; unfold TTL_US, ARKIV_ACK_TRACK_TTL_MS; lia|]); apply Forall_nil_2.
  - vm_compute; reflexivity.
Defined.

Definition toy_writer : writer := Writer true (replicate 32 5) true blank no_cache [].
Definition toy_io : emit_io := EmitIo true true true true true true 5000.
Definition toy_table : list ack_slot := arkiv_ack_track_pending 1000 9 (Some toy_id) empty_table.
Definition toy_emitted := @arkiv_ack_emit toy_ecc toy_gcm toy_io (str "8948") toy_device (fun s => s) 2000 9 (Some [0; 3]) toy_writer toy_table.

Lemma ack_answers_command_witness :
  toy_emitted.2 = true /\
  let '(w', slots', ok) := toy_emitted in
  if ok then
    exists id ack_seq body k, lookup_command 2000 9 toy_table = Some id /\ slots' = release_slot 9 id toy_table /\
      w_queue w' = w_queue toy_writer ++ [Job (str "application/octet-stream") body 900
        (map attr_of (ack_attrs (str "8948") id ack_seq (byte_at [0; 3] 0) (s_key_epoch toy_device))) (em_now toy_io) 0] /\
      @owner_key toy_ecc (w_dev_priv toy_writer) toy_device ARKIV_AEAD_TYPE_ACK = Some k /\
      @arkiv_aead_open toy_gcm true body k (Some (str "8948")) (Some (str "w3pups-ack")) (Some id) 256 = inr [0; 3] /\ header_seq body = ack_seq mod 2 ^ 48
  else slots' = toy_table /\ w_queue w' = w_queue toy_writer.
Proof.
  split; [vm_compute; reflexivity|].
  apply (@ack_answers_command toy_ecc toy_gcm toy_gcm_laws toy_io (str "8948") toy_device (fun s => s) 2000 9 [0; 3] toy_writer toy_table).
  - intros H; discriminate H.
  - cbn; lia.
Defined.
