(* ===== verification/ArkivSweep.v ===== *)
(** * Commands from the chain (firmware-ESP32-LTE-M/main/arkiv_rpc.c)

    A sweep asks the node for the commands above the replay baseline, page by page down the
    sequence numbers, and only then tries the lowest of them in ascending order: each is
    checked, tracked for its acknowledgement, and executed here or forwarded to the RP2040.
    JSON is parsed by cJSON: a document is a [json], in which a number stands for the
    integral part of the double. *)

From stdpp Require Import sorting.
From S2P Require Import Prelude Protocol EspDispatch Rlp Secp256k1 ArkivTx ArkivAuth ArkivAck.

(** ** JSON *)

Inductive json := JNull | JNumber (v : Z) | JString (s : list Z) | JArray (l : list json) | JObject (l : list (list Z * json)) | JBool (b : bool).

(** [cJSON_GetObjectItemCaseSensitive]: [None] for NULL. *)
Definition get_item (o : option json) (key : list Z) : option json :=
  match o with
  | Some (JObject l) => match List.find (fun kv => bool_decide (kv.1 = key)) l with Some kv => Some kv.2 | None => None end
  | _ => None
  end.
(** What [cJSON_ArrayForEach] goes through. *)
Definition children (o : option json) : list json :=
  match o with Some (JArray l) => l | Some (JObject l) => map snd l | _ => [] end.
Definition as_string (o : option json) : option (list Z) := match o with Some (JString s) => Some s | _ => None end.

(** [strtoull] with base 0. *)
Definition is_space (c : Z) : bool := (c =? 32) || ((9 <=? c) && (c <=? 13)).
Definition digit_val (base c : Z) : option Z :=
  let v := if (48 <=? c) && (c <=? 57) then c - 48
           else if (97 <=? c) && (c <=? 122) then c - 87
           else if (65 <=? c) && (c <=? 90) then c - 55 else 99 in
  if v <? base then Some v else None.
Fixpoint skip_spaces (l : list Z) : list Z := match l with c :: l' => if is_space c then skip_spaces l' else l | [] => [] end.
Fixpoint read_digits (base acc : Z) (l : list Z) : Z :=
  match l with
  | c :: l => match digit_val base c with Some d => read_digits base (acc * base + d) l | None => acc end
  | [] => acc
  end.
Definition strtoull (l : list Z) : Z :=
  let l := skip_spaces l in
  let '(neg, l) := match l with 45 :: l => (true, l) | 43 :: l => (false, l) | _ => (false, l) end in
  let v :=
    match l with
    | 48 :: c :: d :: l' => if ((c =? 120) || (c =? 88)) && bool_decide (is_Some (digit_val 16 d)) then read_digits 16 0 (d :: l') else read_digits 8 0 l
    | 48 :: _ => read_digits 8 0 l
    | _ => read_digits 10 0 l
    end in
  if 18446744073709551615 <? v then 18446744073709551615 else if neg then u64 (- v) else v.

(* src: firmware-ESP32-LTE-M/main/arkiv_rpc.c:393-405 str_attr *)
Fixpoint str_attr_in (items : list json) (key : list Z) : option (list Z) :=
  match items with
  | [] => None
  | it :: items =>
      match as_string (get_item (Some it) (str "key")), as_string (get_item (Some it) (str "value")) with
      | Some k, Some v => if bool_decide (k = key) then Some v else str_attr_in items key
      | _, _ => str_attr_in items key
      end
  end.
Definition str_attr (arr : option json) (key : list Z) : option (list Z) := str_attr_in (children arr) key.

(* src: firmware-ESP32-LTE-M/main/arkiv_rpc.c:407-420 num_attr *)
Fixpoint num_attr_in (items : list json) (key : list Z) : Z :=
  match items with
  | [] => 0
  | it :: items =>
      match as_string (get_item (Some it) (str "key")) with
      | Some k =>
          if negb (bool_decide (k = key)) then num_attr_in items key
          else match get_item (Some it) (str "value") with
               | Some (JNumber v) => u64 v
               | Some (JString s) => strtoull s
               | _ => num_attr_in items key
               end
      | None => num_attr_in items key
      end
  end.
Definition num_attr (arr : option json) (key : list Z) : Z := num_attr_in (children arr) key.

(** ** Hexadecimal *)

(* src: firmware-ESP32-LTE-M/main/arkiv_rpc.c:347-353 hexnib *)
Definition hexnib (c : Z) : Z :=
  if (48 <=? c) && (c <=? 57) then c - 48
  else if (97 <=? c) && (c <=? 102) then c - 97 + 10
  else if (65 <=? c) && (c <=? 70) then c - 65 + 10 else -1.

(* src: firmware-ESP32-LTE-M/main/arkiv_rpc.c:360 hex_decode (prefix) *)
Definition strip_0x (hex : list Z) : list Z :=
  if (byte_at hex 0 =? 48) && ((byte_at hex 1 =? 120) || (byte_at hex 1 =? 88)) then drop 2 hex else hex.

(* src: firmware-ESP32-LTE-M/main/arkiv_rpc.c:363-367 hex_decode (loop) *)
Fixpoint decode_pairs (hex : list Z) : option (list Z) :=
  match hex with
  | c1 :: c2 :: hex =>
      let hi := hexnib c1 in let lo := hexnib c2 in
      if (hi <? 0) || (lo <? 0) then None
      else match decode_pairs hex with Some l => Some (Z.lor (Z.shiftl hi 4) lo :: l) | None => None end
  | _ => Some []
  end.

(* src: firmware-ESP32-LTE-M/main/arkiv_rpc.c:357-369 hex_decode *)
Definition hex_decode (hex : list Z) (out_len : nat) : option (list Z) :=
  let hex := strip_0x hex in
  if negb (length hex =? out_len * 2)%nat then None else decode_pairs hex.

(* src: firmware-ESP32-LTE-M/main/arkiv_rpc.c:375-391 hex_decode_var *)
Definition hex_decode_var (hex : list Z) (out_cap : nat) : option (list Z) :=
  let hex := strip_0x hex in
  if Nat.odd (length hex) then None
  else
    let bytes := Nat.div2 (length hex) in
    if (bytes =? 0)%nat || (out_cap <? bytes)%nat then None else decode_pairs hex.

(** ** Candidates *)

(* src: firmware-ESP32-LTE-M/main/arkiv_rpc.c:478-481 cmd_cand_t *)
Definition cmd_cand : Type := Z * json.
(* src: firmware-ESP32-LTE-M/main/arkiv_cfg.h:42-45 ARKIV_CMD *)
Definition ARKIV_CMD_PAGE_N : Z := 6.
Definition ARKIV_CMD_MAX_PER_SWEEP : Z := 8.
Definition ARKIV_CMD_MAX_PAGES : nat := 3.
(* src: firmware-ESP32-LTE-M/main/arkiv_rpc.c:488 CMD_CAND_MAX *)
Definition CMD_CAND_MAX : nat := 14.

(** The highest candidates first, as the loop meets them. *)
(* src: firmware-ESP32-LTE-M/main/arkiv_rpc.c:503 cand_insert (shift) *)
Fixpoint insert_from_top (seq : Z) (e : json) (r : list cmd_cand) : list cmd_cand :=
  match r with
  | c :: r' => if seq <? c.1 then c :: insert_from_top seq e r' else (seq, e) :: r
  | [] => [(seq, e)]
  end.

(* src: firmware-ESP32-LTE-M/main/arkiv_rpc.c:494-506 cand_insert *)
Definition cand_insert (seq : Z) (e : json) (cand : list cmd_cand) (evicted : bool) : list cmd_cand * bool :=
  if (CMD_CAND_MAX <=? length cand)%nat then
    match List.last cand (0, JNull) with
    | (top, _) =>
        if top <=? seq then (cand, true)
        else (rev (insert_from_top seq e (rev (take (CMD_CAND_MAX - 1) cand))), true)
    end
  else (rev (insert_from_top seq e (rev cand)), evicted).

(** ** One entity *)

(* src: firmware-ESP32-LTE-M/main/arkiv_rpc.c:467-475 cmd_outcome_t *)
Inductive cmd_outcome := CMD_DISPATCHED | CMD_INVALID | CMD_AUTH_REJECTED | CMD_LOCAL_OP.

(** What a sweep works on: the authority, the table of acknowledgements, the UART port and
    the effects so far. *)
Record sweep := Sweep { sw_auth : arkiv; sw_slots : list ack_slot; sw_port : port; sw_acts : list act }.
#[export] Instance eta_sweep : Eta sweep := fun s => Sweep (sw_auth s) (sw_slots s) (sw_port s) (sw_acts s).

(** The entity's fields as the command structure takes them. *)
(* src: firmware-ESP32-LTE-M/main/arkiv_rpc.c:517-519 try_dispatch_entity (fields) *)
Definition entity_writer (e : json) : option (list Z) :=
  match as_string (get_item (Some e) (str "creator")) with Some w => Some w | None => as_string (get_item (Some e) (str "owner")) end.

(* src: firmware-ESP32-LTE-M/main/arkiv_rpc.c:515-581 try_dispatch_entity (command) *)
Definition entity_command (e : json) (seq : Z) (iccid : list Z) : option arkiv_cmd :=
  let sa := get_item (Some e) (str "stringAttributes") in
  let na := get_item (Some e) (str "numericAttributes") in
  match entity_writer e, as_string (get_item (Some e) (str "value")), str_attr sa (str "sig"), str_attr sa (str "command_id") with
  | Some writer, Some value, Some sig_hex, Some command_id =>
      if negb (length command_id =? ARKIV_COMMAND_ID_LEN)%nat then None
      else match hex_decode writer 20, hex_decode sig_hex 64, hex_decode_var value (Z.to_nat WUPS_MAX_PAYLOAD) with
      | Some writer_b, Some sig_b, Some frame =>
          Some (Cmd writer_b (u32 (num_attr na (str "epoch"))) seq 0 (Some iccid) (Some command_id) (Some frame) (Some sig_b))
      | _, _, _ => None
      end
  | _, _, _, _ => None
  end.

(* src: firmware-ESP32-LTE-M/main/arkiv_rpc.c:425-446 forward_to_rp2040 *)
Definition forward_to_rp2040 (iccid frame : list Z) (p : port) : port * list act :=
  let topic := str "c/" ++ iccid ++ str "/cmd/request" in
  let tl := Z.of_nat (length topic) in
  if 64 <=? tl then (p, [])
  else if WUPS_MAX_PAYLOAD <? 6 + tl + Z.of_nat (length frame) then (p, [])
  else
    let hdr := PublishHdr 1 0 0 (u8 tl) (u16 (Z.of_nat (length frame))) in
    wups_link_send p WUPS_ADDR_RP2040 WUPS_CLASS_NET WUPS_OP_NET_DOWNLINK WUPS_FLAG_EVENT (publish_hdr_bytes hdr ++ topic ++ frame).

(** What one entity meets: the results of the flash writes, the timer, and the answers of
    the modules that may take the frame. *)
Record entity_io := EntityIo { ei_open : Z; ei_errs : list Z; ei_now : Z; ei_env : env }.

Section Sweeps.
Context `{EC : MicroEcc} `{K : Keccak}.

(** A verified command: tracked first, then executed here or forwarded. *)
(* src: firmware-ESP32-LTE-M/main/arkiv_rpc.c:587-608 try_dispatch_entity (deliver) *)
Definition deliver (io : entity_io) (command_id : option (list Z)) (vframe iccid : list Z) (s : sweep) : sweep * cmd_outcome :=
  let s := if WUPS_HEADER_BYTES <=? Z.of_nat (length vframe)
           then s <| sw_slots := arkiv_ack_track_pending (ei_now io) (byte_at vframe 7) command_id (sw_slots s) |> else s in
  if ev_ota_takes (ei_env io) vframe then (s <| sw_acts := sw_acts s ++ [Ota_downlink vframe] |>, CMD_LOCAL_OP)
  else
    let '(acts, consumed) := try_handle_sys_reset (ei_env io) vframe in
    let s := s <| sw_acts := sw_acts s ++ acts |> in
    if consumed then (s, CMD_LOCAL_OP)
    else
      let '(p, acts) := forward_to_rp2040 iccid vframe (sw_port s) in
      (s <| sw_port := p |> <| sw_acts := sw_acts s ++ acts |>, CMD_DISPATCHED).

(* src: firmware-ESP32-LTE-M/main/arkiv_rpc.c:512-609 try_dispatch_entity *)
Definition try_dispatch_entity (io : entity_io) (e : json) (seq : Z) (iccid : list Z) (s : sweep) : sweep * cmd_outcome :=
  match entity_command e seq iccid with
  | None => (s, CMD_INVALID)
  | Some cmd =>
      let '(a, r) := cmdauth_arkiv_check (ei_open io) (ei_errs io) (Some cmd) (sw_auth s) in
      let s := s <| sw_auth := a |> in
      match r with
      | None => (s, CMD_AUTH_REJECTED)
      | Some vframe =>
          deliver io (c_command_id cmd) vframe iccid s
      end
  end.

(** ** Gathering *)

(* src: firmware-ESP32-LTE-M/main/arkiv_rpc.c:702-703 poll_once (seq) *)
Definition entity_seq (e : json) : Z := num_attr (get_item (Some e) (str "numericAttributes")) (str "seq").

(** One page: how many entities were new, the lowest of them, the candidates. *)
(* src: firmware-ESP32-LTE-M/main/arkiv_rpc.c:696-709 poll_once (page) *)
Fixpoint read_page (data : list json) (last_ctr floor : Z) (added page_min : Z) (cand : list cmd_cand) (evicted : bool) : Z * Z * list cmd_cand * bool :=
  match data with
  | [] => (added, page_min, cand, evicted)
  | e :: data =>
      let seq := entity_seq e in
      if (seq <=? last_ctr) || (floor <=? seq) then read_page data last_ctr floor added page_min cand evicted
      else
        let '(cand, evicted) := cand_insert seq e cand evicted in
        read_page data last_ctr floor (added + 1) (if seq <? page_min then seq else page_min) cand evicted
  end.

Inductive gather_end := Complete | Budget | Aborted.

(** [node last_ctr floor] is the parsed answer to the query for the window, [None] when the
    query failed in any way; the window's upper bound is left out when it is [UINT64_MAX]. *)
(* src: firmware-ESP32-LTE-M/main/arkiv_rpc.c:662-718 poll_once (gather) *)
Fixpoint gather (pages : nat) (node : Z -> Z -> option json) (last_ctr floor : Z) (cand : list cmd_cand) (evicted : bool) : list cmd_cand * bool * gather_end :=
  match pages with
  | O => (cand, evicted, Budget)
  | S pages =>
      match node last_ctr floor with
      | None => (cand, evicted, Aborted)
      | Some root =>
          match get_item (get_item (Some root) (str "result")) (str "data") with
          | Some (JArray data) =>
              let '(added, page_min, cand, evicted) := read_page data last_ctr floor 0 UINT64_MAX cand evicted in
              if Z.of_nat (length data) <? ARKIV_CMD_PAGE_N then (cand, evicted, Complete)
              else if added =? 0 then (cand, evicted, Budget)
              else if page_min <=? u64 (last_ctr + 1) then (cand, evicted, Complete)
              else gather pages node last_ctr page_min cand evicted
          | _ => (cand, evicted, Aborted)
          end
      end
  end.

(** ** Dispatching *)

(** The candidates from the [n]-th one on: the state, the outcomes in order, and how many
    were left. *)
(* src: firmware-ESP32-LTE-M/main/arkiv_rpc.c:730-743 poll_once (dispatch) *)
Fixpoint dispatch (cand : list cmd_cand) (ios : nat -> entity_io) (n : nat) (iccid : list Z) (dispatched : Z) (s : sweep)
    : sweep * list (Z * cmd_outcome) * Z * nat :=
  match cand with
  | [] => (s, [], dispatched, 0%nat)
  | (seq, e) :: rest =>
      let '(s, trace, dispatched, stop) :=
        if s_last_ctr (sw_auth s) <? seq then
          let '(s, o) := try_dispatch_entity (ios n) e seq iccid s in
          let '(dispatched, stop) := match o with CMD_DISPATCHED => (dispatched + 1, false) | CMD_LOCAL_OP => (dispatched + 1, true) | _ => (dispatched, false) end in
          (s, [(seq, o)], dispatched, stop || (ARKIV_CMD_MAX_PER_SWEEP <=? dispatched))
        else (s, [], dispatched, false) in
      if stop : bool then (s, trace, dispatched, length rest)
      else
        let '(s, trace', dispatched, remaining) := dispatch rest ios (S n) iccid dispatched s in
        (s, trace ++ trace', dispatched, remaining)
  end.

(** The state, what was tried, and whether commands were left behind. *)
(* src: firmware-ESP32-LTE-M/main/arkiv_rpc.c:646-755 poll_once *)
Definition poll_once (node : Z -> Z -> option json) (ios : nat -> entity_io) (iccid : list Z) (s : sweep) : sweep * list (Z * cmd_outcome) * bool :=
  let last_ctr := s_last_ctr (sw_auth s) in
  let '(cand, evicted, fin) := gather ARKIV_CMD_MAX_PAGES node last_ctr UINT64_MAX [] false in
  let aborted := match fin with Aborted => true | _ => false end in
  let complete := match fin with Complete => true | _ => false end in
  let '(s, trace, dispatched, remaining) := if aborted then (s, [], 0, length cand) else dispatch cand ios 0 iccid 0 s in
  (s, trace, (0 <? dispatched) && (negb (remaining =? 0)%nat || evicted || negb complete)).

(* src: firmware-ESP32-LTE-M/main/arkiv_rpc.c:757-771 arkiv_rpc_poll_once *)
Definition arkiv_rpc_poll_once (node : Z -> Z -> option json) (ios : nat -> entity_io) (iccid : list Z) (s : sweep) : sweep * list (Z * cmd_outcome) * bool :=
  if negb (s_ready (sw_auth s)) then (s, [], false)
  else if negb (s_claim_state (sw_auth s) =? ARKIV_CLAIMED) then (s, [], false)
  else if Z.of_nat (length iccid) =? 0 then (s, [], false)
  else poll_once node ios iccid s.

(** The pauses of the poll task, in milliseconds: the cadence, then one before each further
    sweep while the sweeps report more, at most [ARKIV_CMD_MAX_RESWEEPS] times. *)
(* src: firmware-ESP32-LTE-M/main/arkiv_cfg.h:23-24 ARKIV_POLL_INTERVAL *)
Definition poll_interval (ws_subscribed : bool) : Z := if ws_subscribed then 300000 else 5000.
(* src: firmware-ESP32-LTE-M/main/arkiv_rpc.c:802-804 poll_task (resweep) *)
Fixpoint resweeps (k : nat) (nodes : nat -> Z -> Z -> option json) (ios : nat -> nat -> entity_io) (n : nat) (iccid : list Z) (s : sweep) : sweep * list (Z * cmd_outcome) :=
  let '(s, trace, more) := arkiv_rpc_poll_once (nodes n) (ios n) iccid s in
  match k with
  | O => (s, trace)
  | S k => if more : bool then let '(s, trace') := resweeps k nodes ios (S n) iccid s in (s, trace ++ trace') else (s, trace)
  end.
End Sweeps.

(** ** The order of a sweep *)

(** A node that answers the query as documented: of the pending commands it gives the newest
    ones inside the window, at most a page of them. [pending] is newest first. *)
Definition in_window (last_ctr floor : Z) (e : json) : bool := (last_ctr <? entity_seq e) && (entity_seq e <? floor).
Definition honest_node (pending : list json) (last_ctr floor : Z) : option json :=
  Some (JObject [(str "result", JObject [(str "data", JArray (take 6 (List.filter (in_window last_ctr floor) pending)))])]).

Definition newer (e1 e2 : json) : Prop := entity_seq e2 < entity_seq e1.
Definition as_cand (e : json) : cmd_cand := (entity_seq e, e).
(** Oldest first. *)
Definition cands (l : list json) : list cmd_cand := rev (map as_cand l).
Definition was_accepted (o : cmd_outcome) : bool := match o with CMD_DISPATCHED | CMD_LOCAL_OP => true | _ => false end.
Definition count_accepted (trace : list (Z * cmd_outcome)) : Z := Z.of_nat (length (List.filter (fun t => was_accepted t.2) trace)).

Lemma insert_lowest seq e (r : list cmd_cand) : Forall (fun c => seq < c.1) r -> insert_from_top seq e r = r ++ [(seq, e)].
Proof. induction 1 as [|c r Hc _ IH]; [done|]; cbn; destruct (Z.ltb_spec seq c.1); [by rewrite IH|lia]. Qed.

(** A lower command enters at the bottom; the highest one falls out of a full array. *)
Lemma cand_insert_lowest seq e (l : list cmd_cand) : Forall (fun c => seq < c.1) l ->
  cand_insert seq e (take CMD_CAND_MAX l) (CMD_CAND_MAX <? length l)%nat
  = (take CMD_CAND_MAX ((seq, e) :: l), (CMD_CAND_MAX <? S (length l))%nat).
Proof.
  intros Hl; unfold cand_insert; rewrite length_take.
  assert (HF : forall n, Forall (fun c : cmd_cand => seq < c.1) (rev (take n l)))
    by (intros n; apply Forall_rev, Forall_take, Hl).
  assert (Hcons : forall n, take (S n) ((seq, e) :: l) = (seq, e) :: take n l) by done.
  unfold CMD_CAND_MAX in *; destruct (Nat.leb_spec 14 (14 `min` length l)) as [Hf|Hf].
  - destruct (exists_last (l := take 14 l)) as (l' & [top te] & E);
      [intros H; apply (f_equal length) in H; rewrite length_take in H; cbn [length] in H; lia|].
    assert (HF' : Forall (fun c : cmd_cand => seq < c.1) (take 14 l)) by (apply Forall_take, Hl).
    assert (Htop : seq < top) by (rewrite E, Forall_app, Forall_singleton in HF'; apply HF').
    rewrite E, last_last, <- E; destruct (Z.leb_spec top seq) as [|_]; [lia|].
    rewrite take_take, insert_lowest by apply HF; rewrite rev_app_distr, rev_involutive, Hcons.
    change ((14 - 1) `min` 14)%nat with 13%nat; cbn [rev app]; f_equal.
    symmetry; apply Nat.ltb_lt; lia.
  - rewrite insert_lowest by apply HF; rewrite rev_app_distr, rev_involutive, Hcons; cbn [rev app].
    rewrite (take_ge l 14), (take_ge l 13) by lia; f_equal; rewrite (proj2 (Nat.ltb_ge _ _)), (proj2 (Nat.ltb_ge _ _)) by lia; done.
Qed.

Lemma cands_app l1 l2 : cands (l1 ++ l2) = cands l2 ++ cands l1.
Proof. unfold cands; by rewrite map_app, rev_app_distr. Qed.
Lemma cands_length l : length (cands l) = length l.
Proof. unfold cands; by rewrite length_rev, length_map. Qed.

(** A page that lies below everything seen so far goes to the bottom of the array. *)
Lemma read_page_below data last_ctr floor (l : list json) added page_min :
  StronglySorted newer (l ++ data) -> Forall (fun e => in_window last_ctr floor e = true) data -> Forall (fun e => entity_seq e < page_min) data ->
  read_page data last_ctr floor added page_min (take CMD_CAND_MAX (cands l)) (CMD_CAND_MAX <? length l)%nat
  = (added + Z.of_nat (length data), match last data with Some e => entity_seq e | None => page_min end,
     take CMD_CAND_MAX (cands (l ++ data)), (CMD_CAND_MAX <? length (l ++ data))%nat).
Proof.
  revert l added page_min; induction data as [|e data IH]; intros l added page_min Hs Hw Hm.
  { cbn; rewrite app_nil_r; repeat f_equal; lia. }
  apply Forall_cons_1 in Hw as [Hw1 Hw], Hm as [Hm1 Hm]; cbn [read_page].
  unfold in_window in Hw1; rewrite (proj2 (Z.leb_gt _ _)), (proj2 (Z.leb_gt _ _)) by lia; cbn [orb].
  rewrite <- (cands_length l) at 1; rewrite cand_insert_lowest.
  2:{ unfold cands; apply Forall_rev; rewrite Forall_map; apply StronglySorted_app in Hs as (H & _ & _).
      apply Forall_forall; intros x Hx; cbn; apply H; [done|left]. }
  rewrite (proj2 (Z.ltb_lt _ _) Hm1), cands_length.
  change ((entity_seq e, e) :: cands l) with (cands [e] ++ cands l); rewrite <- cands_app.
  replace (S (length l)) with (length (l ++ [e])) by (rewrite length_app; cbn; lia).
  replace (l ++ e :: data) with ((l ++ [e]) ++ data) in * by (rewrite <- app_assoc; done).
  rewrite IH; [| done | done |].
  - replace (added + 1 + Z.of_nat (length data)) with (added + Z.of_nat (length (e :: data))) by (rewrite length_cons; lia).
    rewrite last_cons; destruct (last data); done.
  - rewrite <- app_assoc in Hs; apply StronglySorted_app in Hs as (_ & _ & Hs); apply StronglySorted_inv in Hs as [_ Hs]; done.
Qed.

Lemma filter_window seen rest last_ctr floor :
  Forall (fun e => floor <= entity_seq e) seen -> Forall (fun e => in_window last_ctr floor e = true) rest ->
  List.filter (in_window last_ctr floor) (seen ++ rest) = rest.
Proof.
  intros Hs Hr; induction Hs as [|e seen He _ IH]; cbn.
  - induction Hr as [|e rest He _ IH]; cbn; [done|by rewrite He, IH].
  - unfold in_window at 1; rewrite (proj2 (Z.ltb_ge _ _) He), andb_false_r; done.
Qed.

Lemma window_above last_ctr l e rest : StronglySorted newer (l ++ e :: rest) -> Forall (fun x => last_ctr < entity_seq x) rest ->
  Forall (fun x => in_window last_ctr (entity_seq e) x = true) rest.
Proof.
  intros Hs Hr; apply StronglySorted_app in Hs as (_ & _ & Hs); apply StronglySorted_inv in Hs as [_ Hs].
  rewrite Forall_forall in *; intros x Hx; unfold in_window; specialize (Hr x Hx); specialize (Hs x Hx); unfold newer in Hs; lia.
Qed.

Lemma seen_above l e rest : StronglySorted newer ((l ++ [e]) ++ rest) -> Forall (fun x => entity_seq e <= entity_seq x) (l ++ [e]).
Proof.
  intros Hs; apply StronglySorted_app in Hs as (_ & Hs & _); rewrite Forall_app, Forall_singleton; split; [|lia].
  apply Forall_forall; intros x Hx; assert (newer x e) as H by (eapply StronglySorted_app_1_elem_of; [done|done|left]).
  unfold newer in H; lia.
Qed.

Lemma honest_data pending last_ctr floor : exists root, honest_node pending last_ctr floor = Some root /\
  get_item (get_item (Some root) (str "result")) (str "data") = Some (JArray (take 6 (List.filter (in_window last_ctr floor) pending))).
Proof. eexists; split; [reflexivity|]; generalize (take 6 (List.filter (in_window last_ctr floor) pending)); intros l; vm_compute; reflexivity. Qed.

(** The pages walk down the pending commands until a short one; what is kept is the oldest
    of them all. *)
Lemma gather_all pages seen rest last_ctr floor : 0 <= last_ctr -> (length rest < 6 * pages)%nat ->
  StronglySorted newer (seen ++ rest) -> Forall (fun e => last_ctr < entity_seq e < UINT64_MAX) (seen ++ rest) ->
  Forall (fun e => floor <= entity_seq e) seen -> Forall (fun e => in_window last_ctr floor e = true) rest ->
  gather pages (honest_node (seen ++ rest)) last_ctr floor (take CMD_CAND_MAX (cands seen)) (CMD_CAND_MAX <? length seen)%nat
  = (take CMD_CAND_MAX (cands (seen ++ rest)), (CMD_CAND_MAX <? length (seen ++ rest))%nat, Complete).
Proof.
  intros H0; revert seen rest floor; induction pages as [|pages IH]; intros seen rest floor Hlen Hs Hrange Hseen Hwin; [lia|].
  cbn [gather]; destruct (honest_data (seen ++ rest) last_ctr floor) as (root & -> & ->); rewrite filter_window by done.
  assert (Hlast : Forall (fun e => last_ctr < entity_seq e < UINT64_MAX) rest) by (apply Forall_app in Hrange as [_ ?]; done).
  rewrite read_page_below.
  2:{ rewrite <- (take_drop 6 rest), app_assoc in Hs; apply StronglySorted_app in Hs as (_ & Hs & _); exact Hs. }
  2:{ apply Forall_take, Hwin. }
  2:{ apply Forall_take; eapply Forall_impl; [exact Hlast|]; cbn; lia. }
  rewrite length_take; destruct (Z.ltb_spec (Z.of_nat (6 `min` length rest)) ARKIV_CMD_PAGE_N) as [Hshort|Hfull]; unfold ARKIV_CMD_PAGE_N in *.
  - rewrite (take_ge rest) by lia; done.
  - destruct (exists_last (l := take 6 rest)) as (l' & e & E);
      [intros H; apply (f_equal length) in H; rewrite length_take in H; cbn [length] in H; lia|].
    rewrite (proj2 (Z.eqb_neq _ _)) by lia; rewrite E, last_snoc.
    assert (Hrest : rest = (l' ++ [e]) ++ drop 6 rest) by (rewrite <- E, take_drop; done).
    assert (Hall : seen ++ rest = ((seen ++ l') ++ [e]) ++ drop 6 rest) by (rewrite Hrest at 1; rewrite !app_assoc; done).
    assert (Hs' : StronglySorted newer (((seen ++ l') ++ [e]) ++ drop 6 rest)) by (rewrite <- Hall; done).
    assert (Hup : Forall (fun e => last_ctr < entity_seq e) (drop 6 rest))
      by (apply Forall_drop; eapply Forall_impl; [exact Hlast|]; cbn; lia).
    assert (Hwin' : Forall (fun x => in_window last_ctr (entity_seq e) x = true) (drop 6 rest))
      by (eapply window_above; [rewrite <- app_assoc in Hs'; exact Hs'|exact Hup]).
    assert (He : last_ctr < entity_seq e < UINT64_MAX) by (rewrite Hall, !Forall_app, Forall_singleton in Hrange; apply Hrange).
    unfold u64; rewrite Z.mod_small by (unfold UINT64_MAX in He; lia).
    destruct (Z.leb_spec (entity_seq e) (last_ctr + 1)) as [Hmin|Hmin].
    + assert (Hnil : drop 6 rest = []).
      { destruct (drop 6 rest) as [|x r]; [done|]; apply Forall_cons_1 in Hwin' as [H _]; unfold in_window in H; lia. }
      rewrite Hall, Hnil, app_nil_r, app_assoc; done.
    + rewrite (app_assoc seen l' [e]), Hall; apply IH; [rewrite length_drop; lia|done|rewrite <- Hall; done| |done].
      eapply seen_above, Hs'.
Qed.

Lemma gather_pending pending last_ctr : 0 <= last_ctr -> (length pending < 18)%nat -> StronglySorted newer pending ->
  Forall (fun e => last_ctr < entity_seq e < UINT64_MAX) pending ->
  gather ARKIV_CMD_MAX_PAGES (honest_node pending) last_ctr UINT64_MAX [] false
  = (take CMD_CAND_MAX (cands pending), (CMD_CAND_MAX <? length pending)%nat, Complete).
Proof.
  intros H0 Hlen Hs Hr; apply (gather_all ARKIV_CMD_MAX_PAGES [] pending); [done| |done|done|done|].
  - unfold ARKIV_CMD_MAX_PAGES; lia.
  - eapply Forall_impl; [exact Hr|]; intros e He; unfold in_window; cbn in He; lia.
Qed.

(** ** What a sweep tries *)

Section Order.
Context `{EC : MicroEcc} `{K : Keccak}.
#[local] Set Default Proof Using "Type*".
Implicit Types (s : sweep) (io : entity_io).

(** The authority of a bound device, whatever the replay baseline. *)
Definition owned (pub : list Z) s : Prop := owner_wf (sw_auth s) /\ s_owner_pub (sw_auth s) = pub.

(** The command of an entity, signed by the owner. *)
Definition entity_signed (pub iccid : list Z) (e : json) : Prop :=
  exists cmd frame, entity_command e (entity_seq e) iccid = Some cmd /\ owner_signed pub cmd frame.

Lemma entity_command_counter e seq iccid cmd : entity_command e seq iccid = Some cmd -> c_counter cmd = seq.
Proof. unfold entity_command; cbv zeta; repeat (case_match; try done); intros [= <-]; done. Qed.

(** Tracking, the local operations and the forwarding leave the authority alone. *)
Lemma deliver_auth io id vframe iccid s : exists acts slots p o,
  deliver io id vframe iccid s = (Sweep (sw_auth s) slots p acts, o) /\ was_accepted o = true.
Proof.
  destruct s as [au sl p ac]; unfold deliver; destruct (_ <=? _); destruct (ev_ota_takes _ _); try (eexists _, _, _, _; split; [reflexivity|done]);
    destruct (try_handle_sys_reset _ _) as [acts []]; try (eexists _, _, _, _; split; [reflexivity|done]);
    destruct (forward_to_rp2040 _ _ _); eexists _, _, _, _; split; (reflexivity || done).
Qed.

Lemma try_dispatch_auth io e iccid pub s : owned pub s ->
  let '(s', o) := try_dispatch_entity io e (entity_seq e) iccid s in
  owned pub s' /\ s_last_ctr (sw_auth s') = (if was_accepted o then entity_seq e else s_last_ctr (sw_auth s)) /\
  (was_accepted o = true -> entity_signed pub iccid e).
Proof.
  intros [Hwf Hpub]; unfold try_dispatch_entity; destruct (entity_command e _ iccid) as [cmd|] eqn:EC1; [|done].
  destruct (cmdauth_arkiv_check _ _ _ _) as [a r] eqn:EA; destruct r as [vframe|].
  - destruct (arkiv_check_accepts (ei_open io) (ei_errs io) cmd (sw_auth s) vframe Hwf) as (_ & _ & _ & Hsig & _ & _ & _ & HA); [by rewrite EA|].
    rewrite EA in HA; cbn [fst] in HA; destruct (persist_statics (ei_open io) (ei_errs io) (c_counter cmd) (c_block cmd)
      (sw_auth s <| s_last_ctr := c_counter cmd |> <| s_cur_block := c_block cmd |>)) as [n Hn]; rewrite Hn in HA.
    destruct (deliver_auth io (c_command_id cmd) vframe iccid (s <| sw_auth := a |>)) as (acts & slots & p & o & -> & Ho); rewrite Ho.
    split; [|split; [|intros _; exists cmd, vframe; split; [done|by rewrite <- Hpub]]].
    + change (sw_auth (Sweep _ slots p acts)) with a; unfold owned; cbn [sw_auth]; rewrite HA; split; [exact Hwf|exact Hpub].
    + change (s_last_ctr a = entity_seq e); rewrite HA, <- (entity_command_counter e _ iccid cmd EC1); done.
  - pose proof (arkiv_check_rejects (ei_open io) (ei_errs io) (Some cmd) (sw_auth s)) as HR; rewrite EA in HR; cbn [fst snd] in HR.
    rewrite (HR eq_refl); destruct s; split; [split; done|]; split; done.
Qed.

(** Candidates in ascending order, all above the baseline: they are tried one after the
    other, none is skipped, and the cap or a local operation ends the sweep. *)
Lemma dispatch_ascending (l : list json) ios n iccid pub : forall done0 s, owned pub s -> 0 <= done0 < ARKIV_CMD_MAX_PER_SWEEP ->
  StronglySorted (flip newer) l -> Forall (fun e => s_last_ctr (sw_auth s) < entity_seq e) l ->
  let '(s', trace, done1, remaining) := dispatch (map as_cand l) ios n iccid done0 s in
  (remaining <= length l)%nat /\ trace.*1 = entity_seq <$> take (length l - remaining) l /\
  done1 = done0 + count_accepted trace /\ done1 <= ARKIV_CMD_MAX_PER_SWEEP /\ (remaining <> 0%nat -> 0 < count_accepted trace) /\
  Forall (fun t => was_accepted t.2 = true -> exists e, In e l /\ entity_seq e = t.1 /\ entity_signed pub iccid e) trace.
Proof.
  revert n; induction l as [|e l IH]; intros n done0 s Ho Hd Hs Hl.
  { cbn; unfold count_accepted; cbn; repeat split; try done; lia. }
  apply Forall_cons_1 in Hl as [He Hl]; apply StronglySorted_inv in Hs as [Hs Hhd].
  cbn [map dispatch as_cand]; rewrite (proj2 (Z.ltb_lt _ _) He).
  pose proof (try_dispatch_auth (ios n) e iccid pub s Ho) as HT; destruct (try_dispatch_entity _ _ _ _ _) as [s1 o].
  destruct HT as (Ho1 & Hctr & Hsig).
  assert (Hl1 : Forall (fun x => s_last_ctr (sw_auth s1) < entity_seq x) l).
  { rewrite Hctr; destruct (was_accepted o); [exact Hhd|exact Hl]. }
  assert (Hc : forall t, count_accepted ((entity_seq e, o) :: t) = (if was_accepted o then 1 else 0) + count_accepted t).
  { intros t; unfold count_accepted; cbn; destruct (was_accepted o); cbn [length]; lia. }
  assert (Hc0 : count_accepted [] = 0) by done.
  set (P := fun t : Z * cmd_outcome => was_accepted t.2 = true -> exists x, In x (e :: l) /\ entity_seq x = t.1 /\ entity_signed pub iccid x).
  assert (HP : P (entity_seq e, o)) by (intros H; exists e; split; [by left|]; split; [done|apply Hsig, H]).
  destruct (match o with CMD_DISPATCHED => _ | _ => _ end) as [d stop] eqn:ED.
  assert (Hdd : d = done0 + (if was_accepted o then 1 else 0)) by (destruct o; injection ED as <- _; cbn; lia).
  destruct (stop || _) eqn:ES.
  - assert (Hacc : was_accepted o = true).
    { destruct o; try done; injection ED as <- <-; cbn in ES; apply Z.leb_le in ES; cbn in Hd; lia. }
    rewrite Hacc in *; rewrite length_map; split; [cbn; lia|]; split; [|split; [|split; [|split]]].
    + rewrite length_cons; replace (S (length l) - length l)%nat with 1%nat by lia; done.
    + rewrite Hc, Hc0; lia.
    + unfold ARKIV_CMD_MAX_PER_SWEEP in *; lia.
    + intros _; rewrite Hc, Hc0; lia.
    + apply Forall_cons_2; [exact HP|apply Forall_nil_2].
  - apply orb_false_iff in ES as [-> ES]; apply Z.leb_gt in ES.
    assert (Hd1 : 0 <= d < ARKIV_CMD_MAX_PER_SWEEP) by (destruct (was_accepted o); lia).
    specialize (IH (S n) d s1 Ho1 Hd1 Hs Hl1); destruct (dispatch _ _ _ _ _ _) as [[[s2 trace] d2] remaining].
    destruct IH as (I1 & I2 & I3 & I4 & I5 & I6); cbn [app]; rewrite Hc; assert (0 <= count_accepted trace) by (unfold count_accepted; lia).
    split; [cbn; lia|]; split; [|split; [|split; [|split]]].
    + rewrite length_cons; replace (S (length l) - remaining)%nat with (S (length l - remaining)) by lia.
      change (entity_seq e :: trace.*1 = entity_seq e :: (entity_seq <$> take (length l - remaining) l)); f_equal; exact I2.
    + rewrite I3, Hdd; lia.
    + exact I4.
    + intros H1; specialize (I5 H1); destruct (was_accepted o); lia.
    + apply Forall_cons_2; [exact HP|]; eapply Forall_impl; [exact I6|].
      intros t Ht Ha; destruct (Ht Ha) as (x & Hx & H2); exists x; split; [by right|exact H2].
Qed.

Lemma cands_map l : cands l = map as_cand (rev l).
Proof. unfold cands; by rewrite map_rev. Qed.

Lemma newer_rev l : StronglySorted newer l -> StronglySorted (flip newer) (rev l).
Proof.
  induction 1 as [|e l _ IH Hl]; cbn; [constructor|]; apply StronglySorted_app; split; [|split; [exact IH|repeat constructor]].
  intros x1 x2 H1 ->%list_elem_of_singleton; rewrite Forall_forall in Hl; apply Hl, list_elem_of_In, in_rev, list_elem_of_In, H1.
Qed.

(** C10: with a node that answers the window query as documented (it lists the newest
    creation first), fewer than three full pages of pending commands above the counter of
    the last one, and commands that were created in the order of their sequence numbers, so
    that the node lists them by descending number, a sweep tries the oldest pending command
    first and skips none: what it tried is an initial part of the pending commands by
    ascending sequence number, at most eight of them are executed or forwarded, each of
    those is a pending entity whose owner signed it, and when it executed one and left some
    untried it reports that there is more; it never reports more without having executed
    one. *)
Theorem sweep_oldest_first pending ios iccid pub s (Ho : owned pub s) (H0 : 0 <= s_last_ctr (sw_auth s)) (Hlen : (length pending < 18)%nat)
    (Hs : StronglySorted newer pending) (Hr : Forall (fun e => s_last_ctr (sw_auth s) < entity_seq e < UINT64_MAX) pending) :
  let '(s', trace, more) := poll_once (honest_node pending) ios iccid s in
  (exists k, trace.*1 = entity_seq <$> take k (rev pending)) /\
  count_accepted trace <= 8 /\
  Forall (fun t => was_accepted t.2 = true -> exists e, In e pending /\ entity_seq e = t.1 /\ entity_signed pub iccid e) trace /\
  (more = true -> 0 < count_accepted trace) /\
  (more = false -> count_accepted trace = 0 \/ trace.*1 = entity_seq <$> rev pending).
Proof.
  unfold poll_once; rewrite gather_pending by done; cbv beta iota zeta.
  rewrite cands_map.
  set (l := take CMD_CAND_MAX (rev pending)).
  assert (Hl : take CMD_CAND_MAX (map as_cand (rev pending)) = map as_cand l) by (symmetry; apply fmap_take).
  rewrite Hl; clear Hl.
  assert (Hsl : StronglySorted (flip newer) l).
  { pose proof (newer_rev _ Hs) as H; rewrite <- (take_drop CMD_CAND_MAX (rev pending)) in H; apply StronglySorted_app in H; apply H. }
  assert (Hlow : Forall (fun e => s_last_ctr (sw_auth s) < entity_seq e) l).
  { apply Forall_take, Forall_rev; eapply Forall_impl; [exact Hr|]; cbn; lia. }
  pose proof (dispatch_ascending l ios 0 iccid pub 0 s Ho ltac:(done) Hsl Hlow) as HD.
  destruct (dispatch _ _ _ _ _ _) as [[[s' trace] d] remaining]; destruct HD as (I1 & I2 & I3 & I4 & I5 & I6).
  split; [|split; [|split; [|split]]].
  - exists ((length l - remaining) `min` CMD_CAND_MAX)%nat; rewrite I2; unfold l at 2; rewrite take_take; done.
  - unfold ARKIV_CMD_MAX_PER_SWEEP in I4; lia.
  - eapply Forall_impl; [exact I6|]; intros t Ht Ha; destruct (Ht Ha) as (e & He & H2); exists e; split; [|exact H2].
    apply in_rev; rewrite <- (take_drop CMD_CAND_MAX (rev pending)); apply in_or_app; left; exact He.
  - rewrite andb_true_iff; intros [H%Z.ltb_lt _]; lia.
  - rewrite andb_false_iff; intros [H%Z.ltb_ge|H]; [left; unfold count_accepted in *; lia|right].
    rewrite !orb_false_iff, negb_false_iff in H; destruct H as [[H1%Nat.eqb_eq H2%Nat.ltb_ge] _].
    rewrite I2, H1, Nat.sub_0_r, take_ge by done; unfold l; rewrite take_ge by (rewrite length_rev; lia); done.
Qed.
End Order.

(** ** A concrete sweep *)

Definition hex_digit (d : Z) : Z := if d <? 10 then 48 + d else 87 + d.
Definition to_hex (l : list Z) : list Z := str "0x" ++ concat (map (fun b => [hex_digit (b / 16); hex_digit (b mod 16)]) l).
Definition toy_attr (key : list Z) (v : json) : json := JObject [(str "key", JString key); (str "value", v)].
(** A command entity in the node's form; its author is the owner when [w] is. *)
Definition toy_entity (w : list Z) (seq : Z) : json :=
  JObject [(str "key", JString (str "0x01")); (str "value", JString (to_hex [165; 90; 1])); (str "creator", JString (to_hex w));
    (str "stringAttributes", JArray [toy_attr (str "command_id") (JString toy_id); toy_attr (str "sig") (JString (to_hex (replicate 64 7)))]);
    (str "numericAttributes", JArray [toy_attr (str "epoch") (JNumber 3); toy_attr (str "seq") (JNumber seq)])].
Definition toy_owner : list Z := @pub_to_addr toy_keccak toy_pub.
(** Seven pending commands, the fourth written by somebody else. *)
Definition toy_pending : list json :=
  [toy_entity toy_owner 70; toy_entity toy_owner 60; toy_entity toy_owner 50; toy_entity (replicate 20 9) 40;
   toy_entity toy_owner 30; toy_entity toy_owner 20; toy_entity toy_owner 10].
Definition toy_ios (n : nat) : entity_io := EntityIo 0 [] (1000 * Z.of_nat n) env_sample.
Definition toy_sweep_state : sweep := Sweep toy_device (replicate 8 (Slot false 0 0 [])) port_init [].
Definition toy_trace := (@poll_once toy_ecc toy_keccak (honest_node toy_pending) toy_ios (str "8948") toy_sweep_state).1.2.

Lemma sweep_oldest_first_witness :
  toy_trace = [(10, CMD_DISPATCHED); (20, CMD_DISPATCHED); (30, CMD_DISPATCHED); (40, CMD_AUTH_REJECTED);
               (50, CMD_DISPATCHED); (60, CMD_DISPATCHED); (70, CMD_DISPATCHED)] /\
  let '(s', trace, more) := @poll_once toy_ecc toy_keccak (honest_node toy_pending) toy_ios (str "8948") toy_sweep_state in
  (exists k, trace.*1 = entity_seq <$> take k (rev toy_pending)) /\
  count_accepted trace <= 8 /\
  Forall (fun t => was_accepted t.2 = true -> exists e, In e toy_pending /\ entity_seq e = t.1 /\ @entity_signed toy_ecc toy_keccak toy_pub (str "8948") e) trace /\
  (more = true -> 0 < count_accepted trace) /\
  (more = false -> count_accepted trace = 0 \/ trace.*1 = entity_seq <$> rev toy_pending).
Proof.
  split; [vm_compute; reflexivity|].
  apply (@sweep_oldest_first toy_ecc toy_keccak toy_pending toy_ios (str "8948") toy_pub toy_sweep_state).
  - split; [intros _; reflexivity|reflexivity].
  - vm_compute; discriminate.
  - cbn; lia.
  - unfold toy_pending; repeat (apply SSorted_cons; [|repeat (apply Forall_cons_2; [vm_compute; reflexivity|]); apply Forall_nil_2]); apply SSorted_nil.
  - unfold toy_pending; repeat (apply Forall_cons_2; [split; vm_compute; reflexivity|]); apply Forall_nil_2.
Defined.

(** A full page in another order hides a command: 20 was created before 10, and the floor of
    the second page is 10; after the sweep it is below the counter of the last command. *)
Example late_creation_hides_a_command :
  let pending := map (toy_entity toy_owner) [10; 70; 60; 50; 40; 30; 20] in
  let '(s', trace, _) := @poll_once toy_ecc toy_keccak (honest_node pending) toy_ios (str "8948") toy_sweep_state in
  trace.*1 = [10; 30; 40; 50; 60; 70] /\ s_last_ctr (sw_auth s') = 70.
Proof. vm_compute; split; reflexivity. Qed.

(** A page that fails holds everything back. *)
Example failed_page_dispatches_nothing :
  (@poll_once toy_ecc toy_keccak (fun _ floor => if floor =? UINT64_MAX then honest_node toy_pending 0 floor else None) toy_ios (str "8948") toy_sweep_state)
  = (toy_sweep_state, [], false).
Proof. vm_compute; reflexivity. Qed.
