(* ===== verification/Bip39.v ===== *)
(** * The words of the trust anchor (firmware-ESP32-LTE-M/main/bip39.c)

    Eleven bits of a digest, most significant first, choose one of 2048 English words; the
    claim code travels as the same bits packed into bytes.  A panel that is given the words
    has to arrive at the very bytes. *)

From stdpp Require Import sorting.
From S2P Require Import Prelude.

(* src: firmware-ESP32-LTE-M/main/bip39_wordlist.h:14-2063 bip39_words *)
Definition bip39_words : list string :=
  [
    "abandon"; "ability"; "able"; "about"; "above"; "absent"; "absorb"; "abstract"; "absurd";
    "abuse"; "access"; "accident"; "account"; "accuse"; "achieve"; "acid"; "acoustic"; "acquire";
    "across"; "act"; "action"; "actor"; "actress"; "actual"; "adapt"; "add"; "addict"; "address";
    "adjust"; "admit"; "adult"; "advance"; "advice"; "aerobic"; "affair"; "afford"; "afraid";
    "again"; "age"; "agent"; "agree"; "ahead"; "aim"; "air"; "airport"; "aisle"; "alarm"; "album";
    "alcohol"; "alert"; "alien"; "all"; "alley"; "allow"; "almost"; "alone"; "alpha"; "already";
    "also"; "alter"; "always"; "amateur"; "amazing"; "among"; "amount"; "amused"; "analyst";
    "anchor"; "ancient"; "anger"; "angle"; "angry"; "animal"; "ankle"; "announce"; "annual";
    "another"; "answer"; "antenna"; "antique"; "anxiety"; "any"; "apart"; "apology"; "appear";
    "apple"; "approve"; "april"; "arch"; "arctic"; "area"; "arena"; "argue"; "arm"; "armed";
    "armor"; "army"; "around"; "arrange"; "arrest"; "arrive"; "arrow"; "art"; "artefact";
    "artist"; "artwork"; "ask"; "aspect"; "assault"; "asset"; "assist"; "assume"; "asthma";
    "athlete"; "atom"; "attack"; "attend"; "attitude"; "attract"; "auction"; "audit"; "august";
    "aunt"; "author"; "auto"; "autumn"; "average"; "avocado"; "avoid"; "awake"; "aware"; "away";
    "awesome"; "awful"; "awkward"; "axis"; "baby"; "bachelor"; "bacon"; "badge"; "bag"; "balance";
    "balcony"; "ball"; "bamboo"; "banana"; "banner"; "bar"; "barely"; "bargain"; "barrel"; "base";
    "basic"; "basket"; "battle"; "beach"; "bean"; "beauty"; "because"; "become"; "beef"; "before";
    "begin"; "behave"; "behind"; "believe"; "below"; "belt"; "bench"; "benefit"; "best"; "betray";
    "better"; "between"; "beyond"; "bicycle"; "bid"; "bike"; "bind"; "biology"; "bird"; "birth";
    "bitter"; "black"; "blade"; "blame"; "blanket"; "blast"; "bleak"; "bless"; "blind"; "blood";
    "blossom"; "blouse"; "blue"; "blur"; "blush"; "board"; "boat"; "body"; "boil"; "bomb"; "bone";
    "bonus"; "book"; "boost"; "border"; "boring"; "borrow"; "boss"; "bottom"; "bounce"; "box";
    "boy"; "bracket"; "brain"; "brand"; "brass"; "brave"; "bread"; "breeze"; "brick"; "bridge";
    "brief"; "bright"; "bring"; "brisk"; "broccoli"; "broken"; "bronze"; "broom"; "brother";
    "brown"; "brush"; "bubble"; "buddy"; "budget"; "buffalo"; "build"; "bulb"; "bulk"; "bullet";
    "bundle"; "bunker"; "burden"; "burger"; "burst"; "bus"; "business"; "busy"; "butter"; "buyer";
    "buzz"; "cabbage"; "cabin"; "cable"; "cactus"; "cage"; "cake"; "call"; "calm"; "camera";
    "camp"; "can"; "canal"; "cancel"; "candy"; "cannon"; "canoe"; "canvas"; "canyon"; "capable";
    "capital"; "captain"; "car"; "carbon"; "card"; "cargo"; "carpet"; "carry"; "cart"; "case";
    "cash"; "casino"; "castle"; "casual"; "cat"; "catalog"; "catch"; "category"; "cattle";
    "caught"; "cause"; "caution"; "cave"; "ceiling"; "celery"; "cement"; "census"; "century";
    "cereal"; "certain"; "chair"; "chalk"; "champion"; "change"; "chaos"; "chapter"; "charge";
    "chase"; "chat"; "cheap"; "check"; "cheese"; "chef"; "cherry"; "chest"; "chicken"; "chief";
    "child"; "chimney"; "choice"; "choose"; "chronic"; "chuckle"; "chunk"; "churn"; "cigar";
    "cinnamon"; "circle"; "citizen"; "city"; "civil"; "claim"; "clap"; "clarify"; "claw"; "clay";
    "clean"; "clerk"; "clever"; "click"; "client"; "cliff"; "climb"; "clinic"; "clip"; "clock";
    "clog"; "close"; "cloth"; "cloud"; "clown"; "club"; "clump"; "cluster"; "clutch"; "coach";
    "coast"; "coconut"; "code"; "coffee"; "coil"; "coin"; "collect"; "color"; "column"; "combine";
    "come"; "comfort"; "comic"; "common"; "company"; "concert"; "conduct"; "confirm"; "congress";
    "connect"; "consider"; "control"; "convince"; "cook"; "cool"; "copper"; "copy"; "coral";
    "core"; "corn"; "correct"; "cost"; "cotton"; "couch"; "country"; "couple"; "course"; "cousin";
    "cover"; "coyote"; "crack"; "cradle"; "craft"; "cram"; "crane"; "crash"; "crater"; "crawl";
    "crazy"; "cream"; "credit"; "creek"; "crew"; "cricket"; "crime"; "crisp"; "critic"; "crop";
    "cross"; "crouch"; "crowd"; "crucial"; "cruel"; "cruise"; "crumble"; "crunch"; "crush"; "cry";
    "crystal"; "cube"; "culture"; "cup"; "cupboard"; "curious"; "current"; "curtain"; "curve";
    "cushion"; "custom"; "cute"; "cycle"; "dad"; "damage"; "damp"; "dance"; "danger"; "daring";
    "dash"; "daughter"; "dawn"; "day"; "deal"; "debate"; "debris"; "decade"; "december"; "decide";
    "decline"; "decorate"; "decrease"; "deer"; "defense"; "define"; "defy"; "degree"; "delay";
    "deliver"; "demand"; "demise"; "denial"; "dentist"; "deny"; "depart"; "depend"; "deposit";
    "depth"; "deputy"; "derive"; "describe"; "desert"; "design"; "desk"; "despair"; "destroy";
    "detail"; "detect"; "develop"; "device"; "devote"; "diagram"; "dial"; "diamond"; "diary";
    "dice"; "diesel"; "diet"; "differ"; "digital"; "dignity"; "dilemma"; "dinner"; "dinosaur";
    "direct"; "dirt"; "disagree"; "discover"; "disease"; "dish"; "dismiss"; "disorder"; "display";
    "distance"; "divert"; "divide"; "divorce"; "dizzy"; "doctor"; "document"; "dog"; "doll";
    "dolphin"; "domain"; "donate"; "donkey"; "donor"; "door"; "dose"; "double"; "dove"; "draft";
    "dragon"; "drama"; "drastic"; "draw"; "dream"; "dress"; "drift"; "drill"; "drink"; "drip";
    "drive"; "drop"; "drum"; "dry"; "duck"; "dumb"; "dune"; "during"; "dust"; "dutch"; "duty";
    "dwarf"; "dynamic"; "eager"; "eagle"; "early"; "earn"; "earth"; "easily"; "east"; "easy";
    "echo"; "ecology"; "economy"; "edge"; "edit"; "educate"; "effort"; "egg"; "eight"; "either";
    "elbow"; "elder"; "electric"; "elegant"; "element"; "elephant"; "elevator"; "elite"; "else";
    "embark"; "embody"; "embrace"; "emerge"; "emotion"; "employ"; "empower"; "empty"; "enable";
    "enact"; "end"; "endless"; "endorse"; "enemy"; "energy"; "enforce"; "engage"; "engine";
    "enhance"; "enjoy"; "enlist"; "enough"; "enrich"; "enroll"; "ensure"; "enter"; "entire";
    "entry"; "envelope"; "episode"; "equal"; "equip"; "era"; "erase"; "erode"; "erosion"; "error";
    "erupt"; "escape"; "essay"; "essence"; "estate"; "eternal"; "ethics"; "evidence"; "evil";
    "evoke"; "evolve"; "exact"; "example"; "excess"; "exchange"; "excite"; "exclude"; "excuse";
    "execute"; "exercise"; "exhaust"; "exhibit"; "exile"; "exist"; "exit"; "exotic"; "expand";
    "expect"; "expire"; "explain"; "expose"; "express"; "extend"; "extra"; "eye"; "eyebrow";
    "fabric"; "face"; "faculty"; "fade"; "faint"; "faith"; "fall"; "false"; "fame"; "family";
    "famous"; "fan"; "fancy"; "fantasy"; "farm"; "fashion"; "fat"; "fatal"; "father"; "fatigue";
    "fault"; "favorite"; "feature"; "february"; "federal"; "fee"; "feed"; "feel"; "female";
    "fence"; "festival"; "fetch"; "fever"; "few"; "fiber"; "fiction"; "field"; "figure"; "file";
    "film"; "filter"; "final"; "find"; "fine"; "finger"; "finish"; "fire"; "firm"; "first";
    "fiscal"; "fish"; "fit"; "fitness"; "fix"; "flag"; "flame"; "flash"; "flat"; "flavor"; "flee";
    "flight"; "flip"; "float"; "flock"; "floor"; "flower"; "fluid"; "flush"; "fly"; "foam";
    "focus"; "fog"; "foil"; "fold"; "follow"; "food"; "foot"; "force"; "forest"; "forget"; "fork";
    "fortune"; "forum"; "forward"; "fossil"; "foster"; "found"; "fox"; "fragile"; "frame";
    "frequent"; "fresh"; "friend"; "fringe"; "frog"; "front"; "frost"; "frown"; "frozen"; "fruit";
    "fuel"; "fun"; "funny"; "furnace"; "fury"; "future"; "gadget"; "gain"; "galaxy"; "gallery";
    "game"; "gap"; "garage"; "garbage"; "garden"; "garlic"; "garment"; "gas"; "gasp"; "gate";
    "gather"; "gauge"; "gaze"; "general"; "genius"; "genre"; "gentle"; "genuine"; "gesture";
    "ghost"; "giant"; "gift"; "giggle"; "ginger"; "giraffe"; "girl"; "give"; "glad"; "glance";
    "glare"; "glass"; "glide"; "glimpse"; "globe"; "gloom"; "glory"; "glove"; "glow"; "glue";
    "goat"; "goddess"; "gold"; "good"; "goose"; "gorilla"; "gospel"; "gossip"; "govern"; "gown";
    "grab"; "grace"; "grain"; "grant"; "grape"; "grass"; "gravity"; "great"; "green"; "grid";
    "grief"; "grit"; "grocery"; "group"; "grow"; "grunt"; "guard"; "guess"; "guide"; "guilt";
    "guitar"; "gun"; "gym"; "habit"; "hair"; "half"; "hammer"; "hamster"; "hand"; "happy";
    "harbor"; "hard"; "harsh"; "harvest"; "hat"; "have"; "hawk"; "hazard"; "head"; "health";
    "heart"; "heavy"; "hedgehog"; "height"; "hello"; "helmet"; "help"; "hen"; "hero"; "hidden";
    "high"; "hill"; "hint"; "hip"; "hire"; "history"; "hobby"; "hockey"; "hold"; "hole";
    "holiday"; "hollow"; "home"; "honey"; "hood"; "hope"; "horn"; "horror"; "horse"; "hospital";
    "host"; "hotel"; "hour"; "hover"; "hub"; "huge"; "human"; "humble"; "humor"; "hundred";
    "hungry"; "hunt"; "hurdle"; "hurry"; "hurt"; "husband"; "hybrid"; "ice"; "icon"; "idea";
    "identify"; "idle"; "ignore"; "ill"; "illegal"; "illness"; "image"; "imitate"; "immense";
    "immune"; "impact"; "impose"; "improve"; "impulse"; "inch"; "include"; "income"; "increase";
    "index"; "indicate"; "indoor"; "industry"; "infant"; "inflict"; "inform"; "inhale"; "inherit";
    "initial"; "inject"; "injury"; "inmate"; "inner"; "innocent"; "input"; "inquiry"; "insane";
    "insect"; "inside"; "inspire"; "install"; "intact"; "interest"; "into"; "invest"; "invite";
    "involve"; "iron"; "island"; "isolate"; "issue"; "item"; "ivory"; "jacket"; "jaguar"; "jar";
    "jazz"; "jealous"; "jeans"; "jelly"; "jewel"; "job"; "join"; "joke"; "journey"; "joy";
    "judge"; "juice"; "jump"; "jungle"; "junior"; "junk"; "just"; "kangaroo"; "keen"; "keep";
    "ketchup"; "key"; "kick"; "kid"; "kidney"; "kind"; "kingdom"; "kiss"; "kit"; "kitchen";
    "kite"; "kitten"; "kiwi"; "knee"; "knife"; "knock"; "know"; "lab"; "label"; "labor"; "ladder";
    "lady"; "lake"; "lamp"; "language"; "laptop"; "large"; "later"; "latin"; "laugh"; "laundry";
    "lava"; "law"; "lawn"; "lawsuit"; "layer"; "lazy"; "leader"; "leaf"; "learn"; "leave";
    "lecture"; "left"; "leg"; "legal"; "legend"; "leisure"; "lemon"; "lend"; "length"; "lens";
    "leopard"; "lesson"; "letter"; "level"; "liar"; "liberty"; "library"; "license"; "life";
    "lift"; "light"; "like"; "limb"; "limit"; "link"; "lion"; "liquid"; "list"; "little"; "live";
    "lizard"; "load"; "loan"; "lobster"; "local"; "lock"; "logic"; "lonely"; "long"; "loop";
    "lottery"; "loud"; "lounge"; "love"; "loyal"; "lucky"; "luggage"; "lumber"; "lunar"; "lunch";
    "luxury"; "lyrics"; "machine"; "mad"; "magic"; "magnet"; "maid"; "mail"; "main"; "major";
    "make"; "mammal"; "man"; "manage"; "mandate"; "mango"; "mansion"; "manual"; "maple"; "marble";
    "march"; "margin"; "marine"; "market"; "marriage"; "mask"; "mass"; "master"; "match";
    "material"; "math"; "matrix"; "matter"; "maximum"; "maze"; "meadow"; "mean"; "measure";
    "meat"; "mechanic"; "medal"; "media"; "melody"; "melt"; "member"; "memory"; "mention"; "menu";
    "mercy"; "merge"; "merit"; "merry"; "mesh"; "message"; "metal"; "method"; "middle";
    "midnight"; "milk"; "million"; "mimic"; "mind"; "minimum"; "minor"; "minute"; "miracle";
    "mirror"; "misery"; "miss"; "mistake"; "mix"; "mixed"; "mixture"; "mobile"; "model"; "modify";
    "mom"; "moment"; "monitor"; "monkey"; "monster"; "month"; "moon"; "moral"; "more"; "morning";
    "mosquito"; "mother"; "motion"; "motor"; "mountain"; "mouse"; "move"; "movie"; "much";
    "muffin"; "mule"; "multiply"; "muscle"; "museum"; "mushroom"; "music"; "must"; "mutual";
    "myself"; "mystery"; "myth"; "naive"; "name"; "napkin"; "narrow"; "nasty"; "nation"; "nature";
    "near"; "neck"; "need"; "negative"; "neglect"; "neither"; "nephew"; "nerve"; "nest"; "net";
    "network"; "neutral"; "never"; "news"; "next"; "nice"; "night"; "noble"; "noise"; "nominee";
    "noodle"; "normal"; "north"; "nose"; "notable"; "note"; "nothing"; "notice"; "novel"; "now";
    "nuclear"; "number"; "nurse"; "nut"; "oak"; "obey"; "object"; "oblige"; "obscure"; "observe";
    "obtain"; "obvious"; "occur"; "ocean"; "october"; "odor"; "off"; "offer"; "office"; "often";
    "oil"; "okay"; "old"; "olive"; "olympic"; "omit"; "once"; "one"; "onion"; "online"; "only";
    "open"; "opera"; "opinion"; "oppose"; "option"; "orange"; "orbit"; "orchard"; "order";
    "ordinary"; "organ"; "orient"; "original"; "orphan"; "ostrich"; "other"; "outdoor"; "outer";
    "output"; "outside"; "oval"; "oven"; "over"; "own"; "owner"; "oxygen"; "oyster"; "ozone";
    "pact"; "paddle"; "page"; "pair"; "palace"; "palm"; "panda"; "panel"; "panic"; "panther";
    "paper"; "parade"; "parent"; "park"; "parrot"; "party"; "pass"; "patch"; "path"; "patient";
    "patrol"; "pattern"; "pause"; "pave"; "payment"; "peace"; "peanut"; "pear"; "peasant";
    "pelican"; "pen"; "penalty"; "pencil"; "people"; "pepper"; "perfect"; "permit"; "person";
    "pet"; "phone"; "photo"; "phrase"; "physical"; "piano"; "picnic"; "picture"; "piece"; "pig";
    "pigeon"; "pill"; "pilot"; "pink"; "pioneer"; "pipe"; "pistol"; "pitch"; "pizza"; "place";
    "planet"; "plastic"; "plate"; "play"; "please"; "pledge"; "pluck"; "plug"; "plunge"; "poem";
    "poet"; "point"; "polar"; "pole"; "police"; "pond"; "pony"; "pool"; "popular"; "portion";
    "position"; "possible"; "post"; "potato"; "pottery"; "poverty"; "powder"; "power"; "practice";
    "praise"; "predict"; "prefer"; "prepare"; "present"; "pretty"; "prevent"; "price"; "pride";
    "primary"; "print"; "priority"; "prison"; "private"; "prize"; "problem"; "process"; "produce";
    "profit"; "program"; "project"; "promote"; "proof"; "property"; "prosper"; "protect"; "proud";
    "provide"; "public"; "pudding"; "pull"; "pulp"; "pulse"; "pumpkin"; "punch"; "pupil"; "puppy";
    "purchase"; "purity"; "purpose"; "purse"; "push"; "put"; "puzzle"; "pyramid"; "quality";
    "quantum"; "quarter"; "question"; "quick"; "quit"; "quiz"; "quote"; "rabbit"; "raccoon";
    "race"; "rack"; "radar"; "radio"; "rail"; "rain"; "raise"; "rally"; "ramp"; "ranch"; "random";
    "range"; "rapid"; "rare"; "rate"; "rather"; "raven"; "raw"; "razor"; "ready"; "real";
    "reason"; "rebel"; "rebuild"; "recall"; "receive"; "recipe"; "record"; "recycle"; "reduce";
    "reflect"; "reform"; "refuse"; "region"; "regret"; "regular"; "reject"; "relax"; "release";
    "relief"; "rely"; "remain"; "remember"; "remind"; "remove"; "render"; "renew"; "rent";
    "reopen"; "repair"; "repeat"; "replace"; "report"; "require"; "rescue"; "resemble"; "resist";
    "resource"; "response"; "result"; "retire"; "retreat"; "return"; "reunion"; "reveal";
    "review"; "reward"; "rhythm"; "rib"; "ribbon"; "rice"; "rich"; "ride"; "ridge"; "rifle";
    "right"; "rigid"; "ring"; "riot"; "ripple"; "risk"; "ritual"; "rival"; "river"; "road";
    "roast"; "robot"; "robust"; "rocket"; "romance"; "roof"; "rookie"; "room"; "rose"; "rotate";
    "rough"; "round"; "route"; "royal"; "rubber"; "rude"; "rug"; "rule"; "run"; "runway"; "rural";
    "sad"; "saddle"; "sadness"; "safe"; "sail"; "salad"; "salmon"; "salon"; "salt"; "salute";
    "same"; "sample"; "sand"; "satisfy"; "satoshi"; "sauce"; "sausage"; "save"; "say"; "scale";
    "scan"; "scare"; "scatter"; "scene"; "scheme"; "school"; "science"; "scissors"; "scorpion";
    "scout"; "scrap"; "screen"; "script"; "scrub"; "sea"; "search"; "season"; "seat"; "second";
    "secret"; "section"; "security"; "seed"; "seek"; "segment"; "select"; "sell"; "seminar";
    "senior"; "sense"; "sentence"; "series"; "service"; "session"; "settle"; "setup"; "seven";
    "shadow"; "shaft"; "shallow"; "share"; "shed"; "shell"; "sheriff"; "shield"; "shift"; "shine";
    "ship"; "shiver"; "shock"; "shoe"; "shoot"; "shop"; "short"; "shoulder"; "shove"; "shrimp";
    "shrug"; "shuffle"; "shy"; "sibling"; "sick"; "side"; "siege"; "sight"; "sign"; "silent";
    "silk"; "silly"; "silver"; "similar"; "simple"; "since"; "sing"; "siren"; "sister"; "situate";
    "six"; "size"; "skate"; "sketch"; "ski"; "skill"; "skin"; "skirt"; "skull"; "slab"; "slam";
    "sleep"; "slender"; "slice"; "slide"; "slight"; "slim"; "slogan"; "slot"; "slow"; "slush";
    "small"; "smart"; "smile"; "smoke"; "smooth"; "snack"; "snake"; "snap"; "sniff"; "snow";
    "soap"; "soccer"; "social"; "sock"; "soda"; "soft"; "solar"; "soldier"; "solid"; "solution";
    "solve"; "someone"; "song"; "soon"; "sorry"; "sort"; "soul"; "sound"; "soup"; "source";
    "south"; "space"; "spare"; "spatial"; "spawn"; "speak"; "special"; "speed"; "spell"; "spend";
    "sphere"; "spice"; "spider"; "spike"; "spin"; "spirit"; "split"; "spoil"; "sponsor"; "spoon";
    "sport"; "spot"; "spray"; "spread"; "spring"; "spy"; "square"; "squeeze"; "squirrel";
    "stable"; "stadium"; "staff"; "stage"; "stairs"; "stamp"; "stand"; "start"; "state"; "stay";
    "steak"; "steel"; "stem"; "step"; "stereo"; "stick"; "still"; "sting"; "stock"; "stomach";
    "stone"; "stool"; "story"; "stove"; "strategy"; "street"; "strike"; "strong"; "struggle";
    "student"; "stuff"; "stumble"; "style"; "subject"; "submit"; "subway"; "success"; "such";
    "sudden"; "suffer"; "sugar"; "suggest"; "suit"; "summer"; "sun"; "sunny"; "sunset"; "super";
    "supply"; "supreme"; "sure"; "surface"; "surge"; "surprise"; "surround"; "survey"; "suspect";
    "sustain"; "swallow"; "swamp"; "swap"; "swarm"; "swear"; "sweet"; "swift"; "swim"; "swing";
    "switch"; "sword"; "symbol"; "symptom"; "syrup"; "system"; "table"; "tackle"; "tag"; "tail";
    "talent"; "talk"; "tank"; "tape"; "target"; "task"; "taste"; "tattoo"; "taxi"; "teach";
    "team"; "tell"; "ten"; "tenant"; "tennis"; "tent"; "term"; "test"; "text"; "thank"; "that";
    "theme"; "then"; "theory"; "there"; "they"; "thing"; "this"; "thought"; "three"; "thrive";
    "throw"; "thumb"; "thunder"; "ticket"; "tide"; "tiger"; "tilt"; "timber"; "time"; "tiny";
    "tip"; "tired"; "tissue"; "title"; "toast"; "tobacco"; "today"; "toddler"; "toe"; "together";
    "toilet"; "token"; "tomato"; "tomorrow"; "tone"; "tongue"; "tonight"; "tool"; "tooth"; "top";
    "topic"; "topple"; "torch"; "tornado"; "tortoise"; "toss"; "total"; "tourist"; "toward";
    "tower"; "town"; "toy"; "track"; "trade"; "traffic"; "tragic"; "train"; "transfer"; "trap";
    "trash"; "travel"; "tray"; "treat"; "tree"; "trend"; "trial"; "tribe"; "trick"; "trigger";
    "trim"; "trip"; "trophy"; "trouble"; "truck"; "true"; "truly"; "trumpet"; "trust"; "truth";
    "try"; "tube"; "tuition"; "tumble"; "tuna"; "tunnel"; "turkey"; "turn"; "turtle"; "twelve";
    "twenty"; "twice"; "twin"; "twist"; "two"; "type"; "typical"; "ugly"; "umbrella"; "unable";
    "unaware"; "uncle"; "uncover"; "under"; "undo"; "unfair"; "unfold"; "unhappy"; "uniform";
    "unique"; "unit"; "universe"; "unknown"; "unlock"; "until"; "unusual"; "unveil"; "update";
    "upgrade"; "uphold"; "upon"; "upper"; "upset"; "urban"; "urge"; "usage"; "use"; "used";
    "useful"; "useless"; "usual"; "utility"; "vacant"; "vacuum"; "vague"; "valid"; "valley";
    "valve"; "van"; "vanish"; "vapor"; "various"; "vast"; "vault"; "vehicle"; "velvet"; "vendor";
    "venture"; "venue"; "verb"; "verify"; "version"; "very"; "vessel"; "veteran"; "viable";
    "vibrant"; "vicious"; "victory"; "video"; "view"; "village"; "vintage"; "violin"; "virtual";
    "virus"; "visa"; "visit"; "visual"; "vital"; "vivid"; "vocal"; "voice"; "void"; "volcano";
    "volume"; "vote"; "voyage"; "wage"; "wagon"; "wait"; "walk"; "wall"; "walnut"; "want";
    "warfare"; "warm"; "warrior"; "wash"; "wasp"; "waste"; "water"; "wave"; "way"; "wealth";
    "weapon"; "wear"; "weasel"; "weather"; "web"; "wedding"; "weekend"; "weird"; "welcome";
    "west"; "wet"; "whale"; "what"; "wheat"; "wheel"; "when"; "where"; "whip"; "whisper"; "wide";
    "width"; "wife"; "wild"; "will"; "win"; "window"; "wine"; "wing"; "wink"; "winner"; "winter";
    "wire"; "wisdom"; "wise"; "wish"; "witness"; "wolf"; "woman"; "wonder"; "wood"; "wool";
    "word"; "work"; "world"; "worry"; "worth"; "wrap"; "wreck"; "wrestle"; "wrist"; "write";
    "wrong"; "yard"; "year"; "yellow"; "you"; "young"; "youth"; "zebra"; "zero"; "zone"; "zoo"
  ]%string.

(** ** Bits *)

(** Bit [b] of a buffer, the most significant bit of the first byte being bit 0. *)
Definition bit_of (data : list Z) (b : nat) : bool := Z.testbit (byte_at data (b / 8)) (7 - Z.of_nat (b mod 8)).

(* src: firmware-ESP32-LTE-M/main/bip39.c:12-21 take11 *)
Definition take11 (data : list Z) (bit_off : nat) : Z :=
  fold_left (fun v i =>
    let b := (bit_off + i)%nat in
    let bit := Z.land (Z.shiftr (byte_at data (b / 8)) (7 - Z.of_nat (b mod 8))) 1 in
    u16 (Z.lor (Z.shiftl v 1) bit)) (seq 0 11) 0.

(* src: firmware-ESP32-LTE-M/main/bip39.c:53-60 bip39_pack_top_bits (loop) *)
Definition pack_bit (digest out : list Z) (i : nat) : list Z :=
  let bit := Z.land (Z.shiftr (byte_at digest (i / 8)) (7 - Z.of_nat (i mod 8))) 1 in
  <[(i / 8)%nat := u8 (Z.lor (byte_at out (i / 8)) (Z.shiftl bit (7 - Z.of_nat (i mod 8))))]> out.

(** [None] for -1, which leaves the output as it was. *)
(* src: firmware-ESP32-LTE-M/main/bip39.c:46-63 bip39_pack_top_bits *)
Definition bip39_pack_top_bits (digest : list Z) (nbits out_len : nat) : option (list Z) :=
  if (nbits =? 0)%nat then None
  else
    let nbytes := ((nbits + 7) / 8)%nat in
    if (length digest * 8 <? nbits)%nat || (out_len <? nbytes)%nat then None
    else Some (fold_left (pack_bit digest) (seq 0 nbits) (replicate nbytes 0)).

(** ** Words *)

Definition word_at (idx : Z) : list Z := str (nth (Z.to_nat idx) bip39_words EmptyString).

(** The words from word [w] on; [out] is what stands in the buffer. *)
(* src: firmware-ESP32-LTE-M/main/bip39.c:31-42 bip39_words_from_bits (loop) *)
Fixpoint words_loop (data : list Z) (left_ w : nat) (out : list Z) (out_sz : nat) : list Z * Z :=
  match left_ with
  | O => (out, Z.of_nat (length out))
  | S left_ =>
      let idx := take11 data (w * 11) in
      if 2048 <=? idx then (out, -1)
      else
        let word := word_at idx in
        let add := (length word + if (0 <? w)%nat then 1 else 0)%nat in
        if (out_sz <? length out + add + 1)%nat then (out, -1)
        else words_loop data left_ (S w) (out ++ (if (0 <? w)%nat then [32] else []) ++ word) out_sz
  end.

(** What stands in the output afterwards and the return value; [old] stood there before. *)
(* src: firmware-ESP32-LTE-M/main/bip39.c:23-44 bip39_words_from_bits *)
Definition bip39_words_from_bits (old data : list Z) (nwords out_sz : nat) : list Z * Z :=
  if (nwords =? 0)%nat || (out_sz =? 0)%nat then (old, -1)
  else if (length data * 8 <? nwords * 11)%nat then (old, -1)
  else words_loop data nwords 0 [] out_sz.

(** ** The list *)

Definition is_word (s : string) : bool :=
  let l := str s in (3 <=? length l)%nat && (length l <=? 8)%nat && forallb (fun c => (97 <=? c) && (c <=? 122)) l.

Lemma words_count : length bip39_words = 2048%nat.
Proof. vm_compute; reflexivity. Qed.
Lemma words_shape : forallb is_word bip39_words = true.
Proof. vm_compute; reflexivity. Qed.

(** An index of a word that grows along the list, so that no word occurs twice. *)
Definition word_key (l : list Z) : Z := fold_left (fun k i => 27 * k + (nth i l 96 - 96)) (seq 0 8) 0.
Fixpoint increasing (l : list Z) : bool := match l with a :: ((b :: _) as l') => (a <? b) && increasing l' | _ => true end.

Lemma increasing_sorted l : increasing l = true -> StronglySorted Z.lt l.
Proof.
  intros H; apply Sorted_StronglySorted; [intros x y z; lia|].
  induction l as [|a [|b l] IH]; [constructor|constructor; constructor|]; cbn [increasing] in H.
  apply andb_true_iff in H as [Hab H]; constructor; [by apply IH|constructor; lia].
Qed.

Lemma sorted_nth (l : list Z) : StronglySorted Z.lt l -> forall i j, (i < j < length l)%nat -> nth i l 0 < nth j l 0.
Proof.
  induction 1 as [|a l _ IH Ha]; intros i j Hij; cbn in Hij; [lia|].
  destruct i, j; try lia; cbn; [|apply IH; lia].
  rewrite Forall_forall in Ha; apply Ha, list_elem_of_In, nth_In; lia.
Qed.

Lemma word_at_key idx : 0 <= idx < 2048 -> word_key (word_at idx) = nth (Z.to_nat idx) (map (fun s => word_key (str s)) bip39_words) 0.
Proof.
  intros H; unfold word_at; rewrite (nth_indep _ 0 (word_key (str EmptyString))) by (rewrite length_map, words_count; lia).
  exact (eq_sym (map_nth (fun s => word_key (str s)) bip39_words EmptyString (Z.to_nat idx))).
Qed.

Lemma words_increasing : increasing (map (fun s => word_key (str s)) bip39_words) = true.
Proof. vm_compute; reflexivity. Qed.

Lemma word_at_inj i j : 0 <= i < 2048 -> 0 <= j < 2048 -> word_at i = word_at j -> i = j.
Proof.
  intros Hi Hj H; apply (f_equal word_key) in H; rewrite !word_at_key in H by done.
  pose proof (sorted_nth _ (increasing_sorted _ words_increasing)) as HS; rewrite length_map, words_count in HS.
  destruct (Z.lt_trichotomy i j) as [C|[C|C]]; [|done|].
  - specialize (HS (Z.to_nat i) (Z.to_nat j)); lia.
  - specialize (HS (Z.to_nat j) (Z.to_nat i)); lia.
Qed.

Lemma word_at_shape i : 0 <= i < 2048 -> (3 <= length (word_at i) <= 8)%nat /\ Forall (fun c => 97 <= c <= 122) (word_at i).
Proof.
  intros H; pose proof words_shape as HW; rewrite forallb_forall in HW.
  specialize (HW (nth (Z.to_nat i) bip39_words EmptyString)); unfold is_word in HW.
  destruct (andb_prop _ _ (HW ltac:(apply nth_In; rewrite words_count; lia))) as [[H1%Nat.leb_le H2%Nat.leb_le]%andb_prop H3].
  split; [split; assumption|]; rewrite forallb_forall in H3; apply Forall_forall; intros x Hx%list_elem_of_In; specialize (H3 x Hx); lia.
Qed.

(** ** Bits and numbers *)

Definition bits_val (l : list bool) : Z := fold_left (fun v b => 2 * v + Z.b2z b) l 0.

Lemma bits_val_snoc l b : bits_val (l ++ [b]) = 2 * bits_val l + Z.b2z b.
Proof. unfold bits_val; by rewrite fold_left_app. Qed.

Lemma bits_val_range l : 0 <= bits_val l < 2 ^ Z.of_nat (length l).
Proof.
  induction l as [|b l IH] using rev_ind; [done|]; rewrite bits_val_snoc, length_app; cbn [length].
  replace (Z.of_nat (length l + 1)) with (Z.succ (Z.of_nat (length l))) by lia.
  rewrite Z.pow_succ_r by lia; destruct b; cbn [Z.b2z]; lia.
Qed.

Lemma bits_val_inj l1 : forall l2, length l1 = length l2 -> bits_val l1 = bits_val l2 -> l1 = l2.
Proof.
  induction l1 as [|b l1 IH] using rev_ind; intros l2 Hlen H.
  { destruct l2; done. }
  destruct l2 as [|b2 l2 _] using rev_ind; [rewrite length_app in Hlen; cbn in Hlen; lia|].
  rewrite !length_app in Hlen; cbn in Hlen; rewrite !bits_val_snoc in H.
  assert (b = b2) as -> by (destruct b, b2; cbn [Z.b2z] in H; done || lia).
  f_equal; apply IH; lia.
Qed.

Lemma bit_read x n : 0 <= n -> Z.land (Z.shiftr x n) 1 = Z.b2z (Z.testbit x n).
Proof.
  intros Hn; change 1 with (Z.ones 1) at 1; rewrite Z.land_ones by lia; change (2 ^ 1) with 2.
  rewrite <- Z.bit0_mod, Z.shiftr_spec by lia; f_equal; lia.
Qed.

Lemma shift_in v (b : bool) : 0 <= v < 32768 -> u16 (Z.lor (Z.shiftl v 1) (Z.b2z b)) = 2 * v + Z.b2z b.
Proof.
  intros Hv; assert (Z.lor (Z.shiftl v 1) (Z.b2z b) = 2 * v + Z.b2z b) as -> by (destruct v, b; reflexivity || lia).
  unfold u16; apply Z.mod_small; destruct b; cbn [Z.b2z]; lia.
Qed.

Lemma bit_pos b : 0 <= 7 - Z.of_nat (b mod 8).
Proof. pose proof (Nat.mod_upper_bound b 8); lia. Qed.

Lemma take11_bits data off : take11 data off = bits_val (map (fun i => bit_of data (off + i)%nat) (seq 0 11)).
Proof.
  assert (HG : forall n, (n <= 11)%nat -> fold_left (fun v i => u16 (Z.lor (Z.shiftl v 1)
      (Z.land (Z.shiftr (byte_at data ((off + i) / 8)) (7 - Z.of_nat ((off + i) mod 8))) 1))) (seq 0 n) 0
    = bits_val (map (fun i => bit_of data (off + i)%nat) (seq 0 n))).
  { induction n as [|n IH]; intros Hn; [done|].
    rewrite seq_S, fold_left_app, map_app; cbn [fold_left map]; rewrite IH by lia; rewrite bits_val_snoc, bit_read by apply bit_pos.
    apply shift_in; pose proof (bits_val_range (map (fun i => bit_of data (off + i)%nat) (seq 0 n))) as HR.
    rewrite length_map, length_seq in HR; assert (2 ^ Z.of_nat n <= 2 ^ 10) by (apply Z.pow_le_mono_r; lia); lia. }
  apply (HG 11%nat); lia.
Qed.

Lemma take11_range data off : 0 <= take11 data off < 2048.
Proof. rewrite take11_bits; apply (bits_val_range (map (fun i => bit_of data (off + i)%nat) (seq 0 11))). Qed.

(** ** What is shown *)

Fixpoint spaced (first : bool) (ws : list (list Z)) : list Z :=
  match ws with [] => [] | x :: ws => (if first then [] else [32]) ++ x ++ spaced false ws end.
Definition shown_words (data : list Z) (w n : nat) : list (list Z) := map (fun i => word_at (take11 data (i * 11))) (seq w n).

Lemma words_loop_shown data n : forall w out out_sz, (length out + 9 * n + 1 <= out_sz)%nat ->
  words_loop data n w out out_sz
  = let t := out ++ spaced (w =? 0)%nat (shown_words data w n) in (t, Z.of_nat (length t)).
Proof.
  induction n as [|n IH]; intros w out out_sz Hsz; cbn [words_loop shown_words seq map spaced]; [by rewrite app_nil_r|].
  pose proof (take11_range data (w * 11)) as HR; rewrite (proj2 (Z.leb_gt _ _)) by lia.
  destruct (word_at_shape _ HR) as [Hl _].
  assert (Hadd : ((if (0 <? w)%nat then 1 else 0) <= 1)%nat) by (destruct (0 <? w)%nat; lia).
  rewrite (proj2 (Nat.ltb_ge _ _)) by lia; rewrite IH.
  - cbv zeta; rewrite <- !app_assoc; destruct w; cbn [Nat.eqb Nat.ltb Nat.leb]; reflexivity.
  - rewrite !length_app; destruct (0 <? w)%nat; cbn [length]; lia.
Qed.

Lemma spaced_inj ws1 : forall ws2 first, length ws1 = length ws2 ->
  Forall (Forall (fun c => 97 <= c <= 122)) ws1 -> Forall (Forall (fun c => 97 <= c <= 122)) ws2 ->
  spaced first ws1 = spaced first ws2 -> ws1 = ws2.
Proof.
  assert (HB : forall ws, spaced false ws = [] \/ exists t, spaced false ws = 32 :: t) by (intros [|x ws]; [by left|right; eexists; reflexivity]).
  assert (HC : forall x1 x2 ws1 ws2, Forall (fun c => 97 <= c <= 122) x1 -> Forall (fun c => 97 <= c <= 122) x2 ->
    x1 ++ spaced false ws1 = x2 ++ spaced false ws2 -> x1 = x2 /\ spaced false ws1 = spaced false ws2).
  { intros x1; induction x1 as [|a x1 IH]; intros [|b x2] w1 w2 H1 H2 H; cbn [app] in H; [done| | |].
    - destruct (HB w1) as [E|[t E]]; rewrite E in H; [done|]; injection H as <- _; apply Forall_cons_1 in H2 as [H2 _]; lia.
    - destruct (HB w2) as [E|[t E]]; rewrite E in H; [done|]; injection H as -> _; apply Forall_cons_1 in H1 as [H1 _]; lia.
    - injection H as -> H; apply Forall_cons_1 in H1 as [_ H1], H2 as [_ H2]; destruct (IH x2 w1 w2 H1 H2 H) as [-> ?]; done. }
  induction ws1 as [|x1 ws1 IH]; intros [|x2 ws2] first Hlen H1 H2 H; [done|done|done|].
  cbn [spaced] in H; apply app_inv_head in H; apply Forall_cons_1 in H1 as [H1 H1'], H2 as [H2 H2'].
  apply HC in H as [-> H]; [|done|done]; f_equal; apply (IH ws2 false); [cbn in Hlen; lia|done|done|done].
Qed.

Lemma shown_words_bits d1 d2 n : shown_words d1 0 n = shown_words d2 0 n <-> forall i, (i < 11 * n)%nat -> bit_of d1 i = bit_of d2 i.
Proof.
  split; intros H.
  - intros i Hi; pose proof (Nat.div_mod_eq i 11) as Hdm; pose proof (Nat.mod_upper_bound i 11) as Hm.
    assert (Hw : word_at (take11 d1 (i / 11 * 11)) = word_at (take11 d2 (i / 11 * 11))).
    { refine (ext_in_map H (i / 11)%nat _); apply in_seq; pose proof (Nat.Div0.div_lt_upper_bound i 11 n); lia. }
    apply word_at_inj in Hw; [|apply take11_range|apply take11_range]; rewrite !take11_bits in Hw.
    apply bits_val_inj in Hw; [|by rewrite !length_map].
    pose proof (ext_in_map Hw (i mod 11)%nat ltac:(apply in_seq; lia)) as Hb; cbv beta in Hb.
    replace (i / 11 * 11 + i mod 11)%nat with i in Hb by lia; exact Hb.
  - apply map_ext_in; intros w Hw%in_seq; f_equal; rewrite !take11_bits; f_equal; apply map_ext_in; intros i Hi%in_seq; apply H; lia.
Qed.

Lemma shown_words_shape d w n : Forall (Forall (fun c => 97 <= c <= 122)) (shown_words d w n).
Proof. apply Forall_map, Forall_forall; intros i _; apply word_at_shape, take11_range. Qed.

(** ** What is packed *)

Lemma byte_at_insert (l : list Z) i j x : (i < length l)%nat -> byte_at (<[i := x]> l) j = if (i =? j)%nat then x else byte_at l j.
Proof.
  intros Hi; unfold byte_at; rewrite !nth_lookup; destruct (Nat.eqb_spec i j) as [<-|].
  - by rewrite list_lookup_insert_eq.
  - by rewrite list_lookup_insert_ne.
Qed.

Definition packed (digest : list Z) (nbytes n : nat) : list Z := fold_left (pack_bit digest) (seq 0 n) (replicate nbytes 0).

Lemma packed_bits digest nbytes n : (n <= 8 * nbytes)%nat ->
  length (packed digest nbytes n) = nbytes /\ (forall j, is_u8 (byte_at (packed digest nbytes n) j)) /\
  forall i, bit_of (packed digest nbytes n) i = if (i <? n)%nat then bit_of digest i else false.
Proof.
  induction n as [|n IH]; intros Hn.
  { unfold packed; cbn [seq fold_left]; rewrite length_replicate; split; [done|].
    assert (HZ : forall j, byte_at (replicate nbytes 0) j = 0) by (intros j; unfold byte_at; revert j; induction nbytes as [|m IH]; intros [|j]; [done|done|done|apply IH; lia]).
    split; [intros j; rewrite HZ; lia|]; intros i; unfold bit_of; rewrite HZ, Z.bits_0; done. }
  destruct (IH ltac:(lia)) as (HL & HU & HB); unfold packed in *; rewrite seq_S, fold_left_app; cbn [fold_left Nat.add].
  set (out := fold_left (pack_bit digest) (seq 0 n) (replicate nbytes 0)) in *.
  pose proof (Nat.div_mod_eq n 8) as Hdm; pose proof (Nat.mod_upper_bound n 8 ltac:(lia)) as Hm.
  unfold pack_bit; rewrite bit_read by apply bit_pos; split; [by rewrite length_insert|]; split.
  - intros j; rewrite byte_at_insert by lia; destruct (_ =? _)%nat; [apply u8_range|apply HU].
  - intros i; unfold bit_of; rewrite byte_at_insert by lia.
    pose proof (Nat.div_mod_eq i 8) as Hdi; pose proof (Nat.mod_upper_bound i 8 ltac:(lia)) as Hmi.
    destruct (Nat.eqb_spec (n / 8) (i / 8)) as [Hj|Hj].
    + unfold u8; change 256 with (2 ^ 8); rewrite Z.mod_pow2_bits_low by lia; rewrite Z.lor_spec, Z.shiftl_spec by lia; rewrite Hj.
      pose proof (HB i) as HBi; unfold bit_of in HBi; rewrite HBi.
      destruct (Nat.eq_dec n i) as [->|Hne].
      * rewrite Z.sub_diag, Z.b2z_bit0, (proj2 (Nat.ltb_ge i i)), (proj2 (Nat.ltb_lt i (S i))) by lia; done.
      * assert (Z.testbit (Z.b2z (Z.testbit (byte_at digest (i / 8)) (7 - Z.of_nat (n mod 8)))) (7 - Z.of_nat (i mod 8) - (7 - Z.of_nat (n mod 8))) = false) as ->.
        { destruct (Z.ltb_spec (7 - Z.of_nat (i mod 8)) (7 - Z.of_nat (n mod 8))); [apply Z.testbit_neg_r; lia|].
          destruct (Z.testbit (byte_at digest (i / 8)) (7 - Z.of_nat (n mod 8))); cbn [Z.b2z]; [|apply Z.bits_0].
          change 1 with (2 ^ 0); apply Z.pow2_bits_false; lia. }
        rewrite orb_false_r; destruct (Nat.ltb_spec i n), (Nat.ltb_spec i (S n)); (done || lia).
    + pose proof (HB i) as HBi; unfold bit_of in *; rewrite HBi.
      destruct (Nat.ltb_spec i n), (Nat.ltb_spec i (S n)); (done || (replace i with n in Hj by lia; lia) || lia).
Qed.

Lemma fold_pack_ext d1 d2 l : (forall i, In i l -> bit_of d1 i = bit_of d2 i) -> forall out, fold_left (pack_bit d1) l out = fold_left (pack_bit d2) l out.
Proof.
  induction l as [|i l IH]; intros H out; [done|]; cbn [fold_left]; rewrite IH by (intros j Hj; apply H; by right); f_equal.
  unfold pack_bit; rewrite !bit_read by apply bit_pos; unfold bit_of in H; rewrite (H i) by (by left); done.
Qed.

Lemma packed_same d1 d2 nbytes n : (n <= 8 * nbytes)%nat ->
  packed d1 nbytes n = packed d2 nbytes n <-> forall i, (i < n)%nat -> bit_of d1 i = bit_of d2 i.
Proof.
  intros Hn; split.
  - intros H i Hi; destruct (packed_bits d1 nbytes n Hn) as (_ & _ & H1), (packed_bits d2 nbytes n Hn) as (_ & _ & H2).
    specialize (H1 i); specialize (H2 i); rewrite (proj2 (Nat.ltb_lt _ _) Hi) in H1, H2; congruence.
  - intros H; apply fold_pack_ext; intros i Hi%in_seq; apply H; lia.
Qed.

Lemma pack_top_bits_packed d nbits out_len : (0 < nbits <= 8 * length d)%nat -> ((nbits + 7) / 8 <= out_len)%nat ->
  bip39_pack_top_bits d nbits out_len = Some (packed d ((nbits + 7) / 8) nbits).
Proof.
  intros H1 H2; unfold bip39_pack_top_bits; rewrite (proj2 (Nat.eqb_neq _ _)) by lia; cbv zeta.
  rewrite (proj2 (Nat.ltb_ge _ _)), (proj2 (Nat.ltb_ge _ _)) by lia; done.
Qed.

Lemma words_from_bits_shown old d n sz : (0 < n)%nat -> (11 * n <= 8 * length d)%nat -> (9 * n + 1 <= sz)%nat ->
  let t := spaced true (shown_words d 0 n) in bip39_words_from_bits old d n sz = (t, Z.of_nat (length t)).
Proof.
  intros Hn Hd Hsz; unfold bip39_words_from_bits; rewrite (proj2 (Nat.eqb_neq n 0)), (proj2 (Nat.eqb_neq sz 0)) by lia; cbn [orb].
  rewrite (proj2 (Nat.ltb_ge _ _)) by lia; exact (words_loop_shown d n 0 [] sz Hsz).
Qed.

(** C40: the words on the screen and the bytes of the claim code carry the same bits. Two
    digests give the same words exactly when they give the same bytes, the words of the
    bytes are the words of the digest, and a buffer of nine characters a word and one more
    is never too small; so one who copies the words has the code and nothing else has. *)
Theorem words_are_the_code old d1 d2 n sz len (Hn : (0 < n)%nat) (Hd1 : (11 * n <= 8 * length d1)%nat) (Hd2 : (11 * n <= 8 * length d2)%nat)
    (Hsz : (9 * n + 1 <= sz)%nat) (Hlen : ((11 * n + 7) / 8 <= len)%nat) :
  0 <= (bip39_words_from_bits old d1 n sz).2 /\
  (bip39_words_from_bits old d1 n sz = bip39_words_from_bits old d2 n sz <-> bip39_pack_top_bits d1 (11 * n) len = bip39_pack_top_bits d2 (11 * n) len) /\
  exists code, bip39_pack_top_bits d1 (11 * n) len = Some code /\ length code = ((11 * n + 7) / 8)%nat /\ all_u8 code /\
    bip39_words_from_bits old code n sz = bip39_words_from_bits old d1 n sz.
Proof.
  rewrite !words_from_bits_shown, !pack_top_bits_packed by lia; split; [cbn [snd]; lia|].
  pose proof (Nat.div_mod_eq (11 * n + 7) 8) as Hdm; pose proof (Nat.mod_upper_bound (11 * n + 7) 8 ltac:(lia)) as Hm.
  assert (Hbits : (11 * n <= 8 * ((11 * n + 7) / 8))%nat) by lia.
  destruct (packed_bits d1 _ _ Hbits) as (HL & HU & HB); split.
  - split; intros H.
    + f_equal; apply packed_same; [done|]; apply shown_words_bits; injection H as H _; apply spaced_inj in H; [done| |apply shown_words_shape|apply shown_words_shape].
      by unfold shown_words; rewrite !length_map.
    + injection H as H; cbv zeta; replace (shown_words d1 0 n) with (shown_words d2 0 n); [done|symmetry].
      apply shown_words_bits; eapply packed_same; [exact Hbits|exact H].
  - eexists; split; [reflexivity|]; split; [exact HL|]; split.
    + apply Forall_forall; intros x Hx; apply list_elem_of_lookup in Hx as [j Hj].
      specialize (HU j); unfold byte_at in HU; rewrite nth_lookup, Hj in HU; exact HU.
    + rewrite words_from_bits_shown by lia; cbv zeta.
      replace (shown_words (packed d1 ((11 * n + 7) / 8) (11 * n)) 0 n) with (shown_words d1 0 n); [done|].
      apply shown_words_bits; intros i Hi; rewrite HB, (proj2 (Nat.ltb_lt _ _) Hi); done.
Qed.

Lemma words_are_the_code_witness :
  bip39_words_from_bits [] [0; 0; 16; 4; 0; 5; 9] 4 96 = (str "abandon above absurd abandon", 28) /\
  let d1 := [0; 0; 16; 4; 0; 5; 9] in let d2 := [0; 0; 16; 4; 0; 15; 7] in
  0 <= (bip39_words_from_bits [] d1 4 96).2 /\
  (bip39_words_from_bits [] d1 4 96 = bip39_words_from_bits [] d2 4 96 <-> bip39_pack_top_bits d1 (11 * 4) 6 = bip39_pack_top_bits d2 (11 * 4) 6) /\
  exists code, bip39_pack_top_bits d1 (11 * 4) 6 = Some code /\ length code = ((11 * 4 + 7) / 8)%nat /\ all_u8 code /\
    bip39_words_from_bits [] code 4 96 = bip39_words_from_bits [] d1 4 96.
Proof.
  split; [vm_compute; reflexivity|].
  apply (words_are_the_code [] [0; 0; 16; 4; 0; 5; 9] [0; 0; 16; 4; 0; 15; 7] 4 96 6); cbn; lia.
Defined.
