(* ===== verification/ArkivClaim.v ===== *)
(** * Claiming a device (firmware-ESP32-LTE-M/main/arkiv_claim.c)

    While nobody owns the device a task shows a claim code, asks the node for claim
    entities, and takes the first one that carries the code, is signed by the key it names,
    and is confirmed at the device by holding both buttons under the owner's fingerprint.
    The node's answers, the random numbers, the clock and what the trust screen's answer
    leaves in the link are inputs.  The JSON and hexadecimal helpers have the text of those
    of arkiv_rpc.c, which are used. *)

From S2P Require Import Prelude Protocol EspDispatch Rlp Secp256k1 ArkivTx ArkivAuth ArkivWriter ArkivAck ArkivSweep Bip39.

(* src: firmware-ESP32-LTE-M/main/arkiv_claim.c:27-39 constants *)
Definition TRUST_MODE_FINGERPRINT : Z := 0.
Definition TRUST_MODE_CLAIM_CODE : Z := 1.
Definition TRUST_CONFIRM_SECS : Z := 5.
Definition CLAIM_CODE_REFRESH_MS : Z := 60000.
Definition PUB_LEN : nat := 64.
(* src: firmware-ESP32-LTE-M/main/arkiv_cfg.h:186-195 ARKIV_CC *)
Definition ARKIV_CC_WORDS : nat := 4.
Definition ARKIV_CC_BITS : nat := 44.
Definition ARKIV_CC_BYTES : nat := 6.
Definition ARKIV_CLAIM_CODE_TTL_MS : Z := 15 * 60 * 1000.
(* src: firmware-ESP32-LTE-M/main/arkiv_cfg.h:173-173 ARKIV_CLAIM_BIND_TAG *)
Definition ARKIV_CLAIM_BIND_TAG : list Z := str "w3pups-claim".

(* src: common/protocol.h:669-669 WUPS_TRUST_PROMPT_MODE_WALLET *)
Definition WUPS_TRUST_PROMPT_MODE_WALLET : Z := 3.

(** The module's variables, those of the task's loop, and what the task works on. *)
(* src: firmware-ESP32-LTE-M/main/arkiv_claim.c:116-118 module state *)
Record claim := Claim {
  s_boot_nonce : list Z; s_local_cc : list Z; s_cc_words : list Z;
  cc_shown : bool; cc_gen_ts : Z; cc_disp_ts : Z;
  cl_auth : arkiv; cl_cache : seal_cache; cl_port : port; cl_acts : list act
}.
#[export] Instance eta_claim : Eta claim := fun s =>
  Claim (s_boot_nonce s) (s_local_cc s) (s_cc_words s) (cc_shown s) (cc_gen_ts s) (cc_disp_ts s) (cl_auth s) (cl_cache s) (cl_port s) (cl_acts s).
Implicit Types (c : claim) (e : json) (iccid : list Z).

(** What happens to the link meanwhile: a frame of the trust screen arrives, another task
    sends a frame or pushes a prompt of its own. *)
Inductive link_event := Ui_frame (f : frame) | Other_send (dst cls op flags : Z) (payload : list Z) | Other_prompt (mode secs nonce : Z) (text : list Z).
Definition link_step (p : port) (ev : link_event) : port :=
  match ev with
  | Ui_frame f => (on_ui p f).1
  | Other_send dst cls op flags payload => (wups_link_send p dst cls op flags payload).1
  | Other_prompt mode secs nonce text => (wups_link_trust_prompt p mode secs nonce (Some text)).1
  end.
(** The wait ends at the signal, or when the events of its 180 s are over. *)
Fixpoint until_signal (p : port) (evs : list link_event) : port :=
  if s_trust_sig p then p else match evs with [] => p | ev :: evs => until_signal (link_step p ev) evs end.

(** What a candidate meets: the random number of the prompt, the events before the wait
    starts and during it, the results of the flash calls, and whether the writer has
    started. *)
Record claim_io := ClaimIo { ci_nonce : Z; ci_before : list link_event; ci_during : list link_event; ci_open : Z; ci_errs : list Z; ci_writer_ready : bool; ci_dev_priv : list Z }.

(** ** Derivations *)

(* src: firmware-ESP32-LTE-M/main/arkiv_claim.c:69-79 decode_owner_pub *)
Definition decode_owner_pub (hex : list Z) : option (list Z) :=
  match hex_decode hex PUB_LEN with
  | Some pub => Some pub
  | None =>
      match hex_decode hex 65 with
      | Some tmp => if byte_at tmp 0 =? 4 then Some (drop 1 tmp) else None
      | None => None
      end
  end.

(** The arguments of the digest that the owner signs. *)
(* src: firmware-ESP32-LTE-M/main/arkiv_claim.c:165-187 claim_binding_digest (preimage) *)
Definition claim_binding (iccid owner_pub cc : list Z) (epoch : Z) (enc_pub : list Z) : list Z :=
  ARKIV_CLAIM_BIND_TAG ++ [0] ++ iccid ++ owner_pub ++ cc ++ le32 epoch ++ enc_pub.

Section Claiming.
Context `{EC : MicroEcc} `{K : Keccak}.

(* src: firmware-ESP32-LTE-M/main/arkiv_claim.c:120-136 claim_code_regen *)
Definition claim_code_regen (nonce : list Z) c : claim :=
  let cc := keccak256 (s_dev_pub (cl_auth c) ++ nonce) in
  c <| s_boot_nonce := nonce |>
    <| s_local_cc := default (s_local_cc c) (bip39_pack_top_bits cc ARKIV_CC_BITS ARKIV_CC_BYTES) |>
    <| s_cc_words := (bip39_words_from_bits (s_cc_words c) cc ARKIV_CC_WORDS 96).1 |>.

Definition hex4 (v : Z) : list Z :=
  map hex_digit [Z.land (Z.shiftr v 12) 15; Z.land (Z.shiftr v 8) 15; Z.land (Z.shiftr v 4) 15; Z.land v 15].

(* src: firmware-ESP32-LTE-M/main/arkiv_claim.c:142-158 owner_fingerprint *)
Definition owner_fingerprint (owner_addr iccid : list Z) : list Z :=
  let d := keccak256 (owner_addr ++ iccid) in
  let words := (bip39_words_from_bits [] d 4 64).1 in
  let chk := u16 (Z.lor (Z.lor (Z.shiftl (Z.land (byte_at d 5) 15) 12) (Z.shiftl (byte_at d 6) 4)) (Z.shiftr (byte_at d 7) 4)) in
  take 79 (words ++ str " chk:" ++ hex4 chk).

(** ** One candidate *)

(** The checks before the trust screen: the owner's key, the encryption key, the epoch. *)
(* src: firmware-ESP32-LTE-M/main/arkiv_claim.c:215-278 try_candidate (checks) *)
Definition check_candidate e iccid (local_cc : list Z) : option (list Z * list Z * Z) :=
  let sa := get_item (Some e) (str "stringAttributes") in
  let na := get_item (Some e) (str "numericAttributes") in
  match str_attr sa (str "device_id"), str_attr sa (str "owner_pub"), str_attr sa (str "enc_pub"), str_attr sa (str "claim_code"), str_attr sa (str "sig"), entity_writer e with
  | Some did, Some opub_hex, Some epub_hex, Some cc_hex, Some sig_hex, Some writer =>
      if negb (bool_decide (did = iccid)) then None
      else match hex_decode cc_hex ARKIV_CC_BYTES with
      | None => None
      | Some cc_b =>
          if negb (bool_decide (cc_b = local_cc)) then None
          else match decode_owner_pub opub_hex, decode_owner_pub epub_hex, hex_decode sig_hex 64, hex_decode writer 20 with
          | Some owner_pub, Some enc_pub, Some sig, Some writer_b =>
              if negb (arkiv_secp256k1_valid_pubkey owner_pub) || negb (arkiv_secp256k1_valid_pubkey enc_pub) then None
              else
                let epoch := u32 (num_attr na (str "epoch")) in
                let signed_digest := eip191 (keccak256 (claim_binding iccid owner_pub local_cc epoch enc_pub)) in
                if negb (arkiv_secp256k1_verify owner_pub signed_digest sig) then None
                else if negb (bool_decide (writer_b = pub_to_addr owner_pub)) then None
                else Some (owner_pub, enc_pub, epoch)
          | _, _, _, _ => None
          end
      end
  | _, _, _, _, _, _ => None
  end.

(* src: firmware-ESP32-LTE-M/main/arkiv_claim.c:215-313 try_candidate *)
Definition try_candidate (io : claim_io) e iccid c : claim * bool :=
  match check_candidate e iccid (s_local_cc c) with
  | None => (c, false)
  | Some (owner_pub, enc_pub, epoch) =>
      let fp := owner_fingerprint (pub_to_addr owner_pub) iccid in
      let '(p, acts) := wups_link_trust_prompt (cl_port c) TRUST_MODE_FINGERPRINT TRUST_CONFIRM_SECS (ci_nonce io) (Some fp) in
      let c := c <| cl_acts := cl_acts c ++ acts |> in
      let p := fold_left link_step (ci_before io) p in
      let '(p, w) := wups_link_trust_wait p (ci_nonce io) (until_signal p (ci_during io)) in
      let c := c <| cl_port := p |> in
      match w with
      | Wait_ok 0 =>
          let '(a, b) := cmdauth_arkiv_bind_owner (ci_open io) (ci_errs io) owner_pub enc_pub epoch (cl_auth c) in
          let c := c <| cl_auth := a |> in
          if negb (b =? ESP_OK) then (c, false)
          else (c <| cl_cache := (arkiv_writer_seal_prewarm (ci_writer_ready io) (ci_dev_priv io) (cl_auth c) (cl_cache c)).1 |>, true)
      | _ => (c, false)
      end
  end.

(** ** The task *)

(* src: firmware-ESP32-LTE-M/main/arkiv_claim.c:332-339 poll_once (entities) *)
Fixpoint try_candidates (ios : nat -> claim_io) (n : nat) (data : list json) iccid c : claim * bool :=
  match data with
  | [] => (c, false)
  | e :: data => let '(c, ok) := try_candidate (ios n) e iccid c in if ok : bool then (c, true) else try_candidates ios (S n) data iccid c
  end.

(** [answer] is the parsed answer of the node, [None] when the query failed in any way. *)
(* src: firmware-ESP32-LTE-M/main/arkiv_claim.c:315-342 poll_once *)
Definition claim_poll_once (ios : nat -> claim_io) (answer : option json) iccid c : claim * bool :=
  match answer with
  | None => (c, false)
  | Some root =>
      match get_item (get_item (Some root) (str "result")) (str "data") with
      | Some (JArray data) => try_candidates ios 0 data iccid c
      | _ => (c, false)
      end
  end.

(** The screen with the claim code. *)
(* src: firmware-ESP32-LTE-M/main/arkiv_claim.c:379-380 claim_task (screen) *)
Definition code_screen iccid (words : list Z) : list Z := take 127 (str "ID:" ++ iccid ++ [10] ++ words).

(** The inputs of one pass: the clock in milliseconds, the random numbers, the answer. *)
Record pass_io := PassIo { pi_now : Z; pi_nonce : list Z; pi_screen_nonce : Z; pi_answer : option json; pi_ios : nat -> claim_io }.

(* src: firmware-ESP32-LTE-M/main/arkiv_claim.c:356-390 claim_task (body) *)
Definition claim_pass (io : pass_io) iccid c : claim * bool :=
  if negb (s_ready (cl_auth c)) then (c <| cc_shown := false |>, false)
  else if negb (s_claim_state (cl_auth c) =? ARKIV_UNCLAIMED) then (c <| cc_shown := false |>, false)
  else if Z.of_nat (length iccid) =? 0 then (c, false)
  else
    let now := pi_now io in
    let rotate := negb (cc_shown c) || (ARKIV_CLAIM_CODE_TTL_MS <? now - cc_gen_ts c) in
    let c := if rotate then claim_code_regen (pi_nonce io) c <| cc_gen_ts := now |> <| cc_shown := true |> else c in
    let c :=
      if rotate || (CLAIM_CODE_REFRESH_MS <? now - cc_disp_ts c) then
        let '(p, acts) := wups_link_trust_prompt (cl_port c) TRUST_MODE_CLAIM_CODE 0 (pi_screen_nonce io) (Some (code_screen iccid (s_cc_words c))) in
        c <| cl_port := p |> <| cl_acts := cl_acts c ++ acts |> <| cc_disp_ts := now |>
      else c in
    claim_poll_once (pi_ios io) (pi_answer io) iccid c.

(** A pass for the record: when it ran, the code and the words it ended with, what it sent,
    and whether it bound an owner. *)
Record pass_log := Log { lg_now : Z; lg_cc : list Z; lg_words : list Z; lg_acts : list act; lg_bound : bool }.

(** The passes in order; between them the other tasks change the authority, the cache and
    the link in any way. *)
Fixpoint claim_run (others : nat -> arkiv * seal_cache * port -> arkiv * seal_cache * port) (ios : list pass_io) (n : nat) iccid c : claim * list pass_log :=
  match ios with
  | [] => (c, [])
  | io :: ios =>
      let '(a, sc, p) := others n (cl_auth c, cl_cache c, cl_port c) in
      let '(c, ok) := claim_pass io iccid (c <| cl_auth := a |> <| cl_cache := sc |> <| cl_port := p |> <| cl_acts := [] |>) in
      let '(c', logs) := claim_run others ios (S n) iccid c in
      (c', Log (pi_now io) (s_local_cc c) (s_cc_words c) (cl_acts c) ok :: logs)
  end.
End Claiming.

(** ** What a claim needs *)

Section Claims.
Context `{EC : MicroEcc} `{K : Keccak}.
#[local] Set Default Proof Using "Type*".

(** A prompt that makes the link wait for an answer to its own number. *)
Definition arms (ev : link_event) : bool :=
  match ev with Other_prompt mode secs _ _ => (0 <? secs) && negb (mode =? WUPS_TRUST_PROMPT_MODE_MENU) | _ => false end.

(** The parts of the link that the trust prompt uses. *)
Definition same_trust (p1 p2 : port) : Prop :=
  s_trust_nonce p1 = s_trust_nonce p2 /\ s_trust_result p1 = s_trust_result p2 /\ s_trust_armed p1 = s_trust_armed p2 /\ s_trust_sig p1 = s_trust_sig p2.

Lemma send_same_trust p dst cls op flags payload : same_trust (wups_link_send p dst cls op flags payload).1 p.
Proof. unfold wups_link_send, wups_link_send_seq, send_frame_full, same_trust; repeat (case_match; simplify_eq/=); done. Qed.

(** Only a matching answer gives the signal. *)
Lemma link_step_signal p ev : s_trust_sig p = false -> s_trust_sig (link_step p ev) = true ->
  exists f, ev = Ui_frame f /\ s_trust_armed p = true /\ f_op f = WUPS_OP_UI_TRUST_RESULT /\ le_val (field 4 4 (f_payload f)) = s_trust_nonce p /\
    s_trust_result (link_step p ev) = byte_at (f_payload f) 1.
Proof.
  intros H0 H; destruct ev as [f|dst cls op flags payload|mode secs nonce text]; cbn [link_step] in *.
  - exists f; split; [done|]; revert H; unfold on_ui; cbv zeta; repeat (case_match; cbn [fst]; try congruence).
    intros _; repeat match goal with H : _ && _ = true |- _ => apply andb_true_iff in H as [? ?] end.
    repeat split; try (apply Z.eqb_eq; assumption); done.
  - destruct (send_same_trust p dst cls op flags payload) as (_ & _ & _ & E); congruence.
  - unfold wups_link_trust_prompt in H; cbv zeta in H.
    match type of H with s_trust_sig (wups_link_send ?q ?a ?b ?d ?e ?l).1 = _ => destruct (send_same_trust q a b d e l) as (_ & _ & _ & E) end.
    rewrite E in H; destruct (_ && _) in H; [discriminate H|congruence].
Qed.

Lemma link_step_nonce p ev : arms ev = false -> s_trust_nonce (link_step p ev) = s_trust_nonce p.
Proof.
  intros Ha; destruct ev as [f|dst cls op flags payload|mode secs nonce text]; cbn [link_step arms] in *.
  - unfold on_ui; cbv zeta; repeat (case_match; try done).
  - apply send_same_trust.
  - unfold wups_link_trust_prompt; cbv zeta; rewrite Ha.
    match goal with |- s_trust_nonce (wups_link_send ?q ?a ?b ?d ?e ?l).1 = _ => destruct (send_same_trust q a b d e l) as (E & _) end; exact E.
Qed.

Lemma steps_nonce evs : forall p, Forall (fun ev => arms ev = false) evs -> s_trust_nonce (fold_left link_step evs p) = s_trust_nonce p.
Proof.
  induction evs as [|ev evs IH]; intros p H; [done|]; apply Forall_cons_1 in H as [H1 H]; cbn [fold_left].
  rewrite IH by exact H; apply link_step_nonce, H1.
Qed.

Lemma until_signal_answer evs : forall p, s_trust_sig p = false -> s_trust_sig (until_signal p evs) = true ->
  exists pre f post, evs = pre ++ Ui_frame f :: post /\ f_op f = WUPS_OP_UI_TRUST_RESULT /\
    le_val (field 4 4 (f_payload f)) = s_trust_nonce (fold_left link_step pre p) /\ s_trust_result (until_signal p evs) = byte_at (f_payload f) 1.
Proof.
  induction evs as [|ev evs IH]; intros p H0 H; cbn [until_signal] in *; rewrite H0 in *; [congruence|].
  destruct (s_trust_sig (link_step p ev)) eqn:E.
  - destruct (link_step_signal p ev H0 E) as (f & -> & _ & Hop & Hn & Hr); exists [], f, evs.
    destruct evs; cbn [until_signal fold_left] in *; rewrite E in *; repeat split; done.
  - destruct (IH _ E H) as (pre & f & post & -> & Hop & Hn & Hr); exists (ev :: pre), f, post; repeat split; done.
Qed.

Definition armed_waits (p : port) : Prop := s_trust_armed p = true -> s_trust_sig p = false.

Lemma prompt_trust p mode secs nonce text : let p' := (wups_link_trust_prompt p mode secs nonce text).1 in
  if (0 <? secs) && negb (mode =? WUPS_TRUST_PROMPT_MODE_MENU)
  then s_trust_nonce p' = nonce /\ s_trust_sig p' = false
  else s_trust_nonce p' = s_trust_nonce p /\ s_trust_armed p' = s_trust_armed p /\ s_trust_sig p' = s_trust_sig p.
Proof.
  unfold wups_link_trust_prompt; cbv zeta.
  match goal with |- context [wups_link_send ?q ?a ?b ?d ?e ?l] => destruct (send_same_trust q a b d e l) as (E1 & _ & E2 & E3) end.
  rewrite E1, E2, E3; destruct (_ && _); done.
Qed.

Lemma link_step_armed p ev : armed_waits p -> armed_waits (link_step p ev).
Proof.
  intros Hp; unfold armed_waits in *; destruct ev as [f|dst cls op flags payload|mode secs nonce text]; cbn [link_step].
  - unfold on_ui; cbv zeta; repeat (case_match; try done).
  - destruct (send_same_trust p dst cls op flags payload) as (_ & _ & -> & ->); exact Hp.
  - pose proof (prompt_trust p mode secs nonce (Some text)) as HT; cbv zeta in HT; destruct (_ && _) in HT.
    + destruct HT as [_ ->]; done.
    + destruct HT as (_ & -> & ->); exact Hp.
Qed.

Lemma steps_armed evs : forall p, armed_waits p -> armed_waits (fold_left link_step evs p).
Proof. induction evs as [|ev evs IH]; intros p Hp; [done|]; cbn [fold_left]; apply IH, link_step_armed, Hp. Qed.

(** A wait that succeeds was answered, and with nobody else's prompt in between the answer
    names this prompt's number. *)
Lemma wait_answered p mode secs nonce text before during : 0 < secs -> mode <> WUPS_TRUST_PROMPT_MODE_MENU ->
  let p1 := (wups_link_trust_prompt p mode secs nonce text).1 in let p2 := fold_left link_step before p1 in
  (wups_link_trust_wait p2 nonce (until_signal p2 during)).2 = Wait_ok 0 ->
  exists pre f post, during = pre ++ Ui_frame f :: post /\ f_op f = WUPS_OP_UI_TRUST_RESULT /\ byte_at (f_payload f) 1 = 0 /\
    (Forall (fun ev => arms ev = false) (before ++ pre) -> le_val (field 4 4 (f_payload f)) = nonce).
Proof.
  intros Hsecs Hmode p1 p2; pose proof (prompt_trust p mode secs nonce text) as HT; cbv zeta in HT; fold p1 in HT.
  rewrite (proj2 (Z.ltb_lt _ _) Hsecs), (proj2 (Z.eqb_neq _ _) Hmode) in HT; cbn [andb negb] in HT; destruct HT as [Hn Hsig].
  unfold wups_link_trust_wait; destruct (s_trust_armed p2) eqn:EA; [|done]; destruct (_ || _); [done|].
  assert (H2 : s_trust_sig p2 = false) by (eapply steps_armed; [|exact EA]; intros _; exact Hsig).
  destruct (s_trust_sig (until_signal p2 during)) eqn:ES; [|done]; cbn [snd]; intros [= HR].
  destruct (until_signal_answer during p2 H2 ES) as (pre & f & post & -> & Hop & Hnonce & Hres); exists pre, f, post.
  split; [done|]; split; [done|]; split; [congruence|]; intros Hq; rewrite Hnonce; unfold p2; rewrite <- fold_left_app, steps_nonce by exact Hq; exact Hn.
Qed.

(** The entity's string attribute [key] is the hex of a public key, with or without the
    prefix 04 of an uncompressed point. *)
Definition names_key e (key : list Z) (pub : list Z) : Prop :=
  exists hex, str_attr (get_item (Some e) (str "stringAttributes")) key = Some hex /\
    (hex_decode hex 64 = Some pub \/ hex_decode hex 65 = Some (4 :: pub)).

Lemma decode_owner_pub_names hex pub : decode_owner_pub hex = Some pub ->
  hex_decode hex 64 = Some pub \/ hex_decode hex 65 = Some (4 :: pub).
Proof.
  unfold decode_owner_pub, PUB_LEN; destruct (hex_decode hex 64) as [p|]; [intros [= ->]; by left|].
  destruct (hex_decode hex 65) as [[|b l]|]; [done| |done]; cbn; destruct (Z.eqb_spec b 4) as [->|]; [|done].
  rewrite drop_0; intros [= ->]; by right.
Qed.

(** The entity [e] claims the device for the keys [owner_pub] and [enc_pub] and the epoch,
    with the code [cc]. *)
Record valid_claim e iccid (cc owner_pub enc_pub : list Z) (epoch : Z) : Prop := {
  vc_owner : names_key e (str "owner_pub") owner_pub;
  vc_enc : names_key e (str "enc_pub") enc_pub;
  vc_epoch : epoch = u32 (num_attr (get_item (Some e) (str "numericAttributes")) (str "epoch"));
  vc_device : str_attr (get_item (Some e) (str "stringAttributes")) (str "device_id") = Some iccid;
  vc_code : exists hex, str_attr (get_item (Some e) (str "stringAttributes")) (str "claim_code") = Some hex /\ hex_decode hex ARKIV_CC_BYTES = Some cc;
  vc_keys : arkiv_secp256k1_valid_pubkey owner_pub = true /\ arkiv_secp256k1_valid_pubkey enc_pub = true;
  vc_signed : exists hex sig, str_attr (get_item (Some e) (str "stringAttributes")) (str "sig") = Some hex /\ hex_decode hex 64 = Some sig /\
    arkiv_secp256k1_verify owner_pub (eip191 (keccak256 (claim_binding iccid owner_pub cc epoch enc_pub))) sig = true;
  vc_writer : exists hex, entity_writer e = Some hex /\ hex_decode hex 20 = Some (pub_to_addr owner_pub)
}.

Lemma check_candidate_valid e iccid cc owner_pub enc_pub epoch :
  check_candidate e iccid cc = Some (owner_pub, enc_pub, epoch) -> valid_claim e iccid cc owner_pub enc_pub epoch.
Proof.
  unfold check_candidate; cbv zeta.
  destruct (str_attr _ (str "device_id")) as [did|] eqn:E1; [|done]; destruct (str_attr _ (str "owner_pub")) as [oh|] eqn:E2; [|done].
  destruct (str_attr _ (str "enc_pub")) as [eh|] eqn:E3; [|done]; destruct (str_attr _ (str "claim_code")) as [ch|] eqn:E4; [|done].
  destruct (str_attr _ (str "sig")) as [sh|] eqn:E5; [|done]; destruct (entity_writer e) as [wh|] eqn:E6; [|done].
  destruct (bool_decide_reflect (did = iccid)) as [->|]; [|done]; cbn [negb].
  destruct (hex_decode ch _) as [cb|] eqn:E7; [|done]; destruct (bool_decide_reflect (cb = cc)) as [->|]; [|done]; cbn [negb].
  destruct (decode_owner_pub oh) as [op|] eqn:E8; [|done]; destruct (decode_owner_pub eh) as [ep|] eqn:E9; [|done].
  destruct (hex_decode sh 64) as [sg|] eqn:E10; [|done]; destruct (hex_decode wh 20) as [wb|] eqn:E11; [|done].
  destruct (arkiv_secp256k1_valid_pubkey op) eqn:E12; [|done]; destruct (arkiv_secp256k1_valid_pubkey ep) eqn:E13; [|done]; cbn [negb orb].
  destruct (arkiv_secp256k1_verify _ _ _) eqn:E14; [|done]; cbn [negb].
  destruct (bool_decide_reflect (wb = pub_to_addr op)) as [->|]; [|done]; cbn [negb]; intros [= -> -> <-].
  constructor; [exists oh; split; [exact E2|apply decode_owner_pub_names, E8]|exists eh; split; [exact E3|apply decode_owner_pub_names, E9]|reflexivity|assumption|exists ch; split; assumption|split; assumption|exists sh, sg; repeat split; assumption|exists wh; split; assumption].
Qed.

Lemma claim_binding_inj iccid1 iccid2 pub1 pub2 cc1 cc2 epoch1 epoch2 enc1 enc2 :
  length pub1 = 64%nat -> length pub2 = 64%nat -> length cc1 = 6%nat -> length cc2 = 6%nat -> length enc1 = 64%nat -> length enc2 = 64%nat -> is_u32 epoch1 -> is_u32 epoch2 ->
  claim_binding iccid1 pub1 cc1 epoch1 enc1 = claim_binding iccid2 pub2 cc2 epoch2 enc2 ->
  iccid1 = iccid2 /\ pub1 = pub2 /\ cc1 = cc2 /\ epoch1 = epoch2 /\ enc1 = enc2.
Proof.
  intros P1 P2 C1 C2 N1 N2 U1 U2; unfold claim_binding; intros H; apply app_inv_head in H; apply app_inv_head in H.
  assert (HL : forall v, length (le32 v) = 4%nat) by done.
  assert (length iccid1 = length iccid2) by (apply (f_equal length) in H; rewrite !length_app, !HL in H; lia).
  apply app_inj_1 in H as [-> H]; [|done]; apply app_inj_1 in H as [-> H]; [|congruence]; apply app_inj_1 in H as [-> H]; [|congruence].
  apply app_inj_1 in H as [HE ->]; [|by rewrite !HL]; repeat split; rewrite <- (le32_val epoch1), HE, le32_val; done.
Qed.

Lemma bind_owner_ok open errs owner enc epoch a : (cmdauth_arkiv_bind_owner open errs owner enc epoch a).2 = ESP_OK ->
  let a' := (cmdauth_arkiv_bind_owner open errs owner enc epoch a).1 in
  s_claim_state a' = ARKIV_CLAIMED /\ s_owner_pub a' = owner /\ s_owner_addr a' = pub_to_addr owner /\ s_enc_pub a' = enc /\ s_key_epoch a' = epoch.
Proof.
  unfold cmdauth_arkiv_bind_owner; destruct (negb _); [done|]; destruct (_ || _); [done|]; destruct (Z.eqb_spec open ESP_OK) as [->|]; [|done]; cbn [negb].
  destruct (nvs_chain _ _ _) as [n err]; destruct (Z.eqb_spec err ESP_OK) as [->|]; [|done]; done.
Qed.
Lemma bind_owner_fails open errs owner enc epoch a : (cmdauth_arkiv_bind_owner open errs owner enc epoch a).2 <> ESP_OK ->
  s_claim_state (cmdauth_arkiv_bind_owner open errs owner enc epoch a).1 = s_claim_state a.
Proof.
  unfold cmdauth_arkiv_bind_owner; destruct (negb _); [done|]; destruct (_ || _); [done|]; destruct (negb _); [done|].
  destruct (nvs_chain _ _ _) as [n err]; destruct (Z.eqb_spec err ESP_OK) as [->|]; done.
Qed.

(** C8: an owner is bound by an entity only if the entity names this device, carries the
    code that the device shows, is signed by the very key of its owner_pub attribute over the
    device, both keys (its owner_pub and enc_pub attributes), the code and its epoch
    attribute, and was written by that key's account; and only after the
    fingerprint of that key was put on the screen and the trust screen answered that it was
    confirmed, to this prompt's own number unless another task's prompt took the link over
    meanwhile. What is bound then is what was signed, and what is signed says all five
    things unambiguously. In every other case the device's claim state is what it was. *)
Theorem claim_needs_owner_and_hold io e iccid c :
  (forall iccid1 iccid2 pub1 pub2 cc1 cc2 epoch1 epoch2 enc1 enc2,
     length pub1 = 64%nat -> length pub2 = 64%nat -> length cc1 = 6%nat -> length cc2 = 6%nat -> length enc1 = 64%nat -> length enc2 = 64%nat -> is_u32 epoch1 -> is_u32 epoch2 ->
     claim_binding iccid1 pub1 cc1 epoch1 enc1 = claim_binding iccid2 pub2 cc2 epoch2 enc2 ->
     iccid1 = iccid2 /\ pub1 = pub2 /\ cc1 = cc2 /\ epoch1 = epoch2 /\ enc1 = enc2) /\
  let '(c', bound) := try_candidate io e iccid c in
  if bound then
    exists owner_pub enc_pub epoch prompt, valid_claim e iccid (s_local_cc c) owner_pub enc_pub epoch /\
      prompt = wups_link_trust_prompt (cl_port c) 0 5 (ci_nonce io) (Some (owner_fingerprint (pub_to_addr owner_pub) iccid)) /\
      cl_acts c' = cl_acts c ++ prompt.2 /\
      (exists pre f post, ci_during io = pre ++ Ui_frame f :: post /\ f_op f = WUPS_OP_UI_TRUST_RESULT /\ byte_at (f_payload f) 1 = 0 /\
         (Forall (fun ev => arms ev = false) (ci_before io ++ pre) -> le_val (field 4 4 (f_payload f)) = ci_nonce io)) /\
      s_claim_state (cl_auth c') = ARKIV_CLAIMED /\ s_owner_pub (cl_auth c') = owner_pub /\ s_owner_addr (cl_auth c') = pub_to_addr owner_pub /\
      s_enc_pub (cl_auth c') = enc_pub /\ s_key_epoch (cl_auth c') = epoch
  else s_claim_state (cl_auth c') = s_claim_state (cl_auth c).
Proof.
  split; [exact claim_binding_inj|].
  unfold try_candidate; destruct (check_candidate e iccid (s_local_cc c)) as [[[owner enc] epoch]|] eqn:EC1; [|done].
  apply check_candidate_valid in EC1.
  pose proof (wait_answered (cl_port c) 0 5 (ci_nonce io) (Some (owner_fingerprint (pub_to_addr owner) iccid)) (ci_before io) (ci_during io) ltac:(lia) ltac:(done)) as HW.
  unfold TRUST_MODE_FINGERPRINT, TRUST_CONFIRM_SECS; destruct (wups_link_trust_prompt _ _ _ _ _) as [p acts] eqn:EP; cbn [fst] in HW; cbv zeta in HW.
  destruct (wups_link_trust_wait _ _ _) as [p' w]; cbn [snd] in HW; destruct w as [| |[|r|r]]; try done.
  pose proof (bind_owner_ok (ci_open io) (ci_errs io) owner enc epoch (cl_auth c)) as HB.
  pose proof (bind_owner_fails (ci_open io) (ci_errs io) owner enc epoch (cl_auth c)) as HF.
  change (cl_auth ((c <| cl_acts := cl_acts c ++ acts |>) <| cl_port := p' |>)) with (cl_auth c).
  destruct (cmdauth_arkiv_bind_owner _ _ _ _ _ _) as [a b]; cbn [fst snd] in HB, HF.
  destruct (Z.eqb_spec b ESP_OK) as [->|Hb]; cbn [negb]; [|exact (HF Hb)].
  exists owner, enc, epoch, (p, acts); split; [exact EC1|]; split; [symmetry; exact EP|]; split; [reflexivity|]; split; [exact (HW eq_refl)|exact (HB eq_refl)].
Qed.

(** ** The code that is shown *)

(** Trying candidates leaves the code alone. *)
Definition same_code c1 c2 : Prop :=
  s_local_cc c1 = s_local_cc c2 /\ s_cc_words c1 = s_cc_words c2 /\ cc_shown c1 = cc_shown c2 /\ cc_gen_ts c1 = cc_gen_ts c2 /\
  exists more, cl_acts c1 = cl_acts c2 ++ more.

Lemma same_code_refl c : same_code c c.
Proof. repeat split; exists []; by rewrite app_nil_r. Qed.
Lemma same_code_trans c1 c2 c3 : same_code c1 c2 -> same_code c2 c3 -> same_code c1 c3.
Proof.
  intros (A1 & A2 & A3 & A4 & m1 & A5) (B1 & B2 & B3 & B4 & m2 & B5); repeat split; try congruence.
  exists (m2 ++ m1); by rewrite A5, B5, app_assoc.
Qed.

Lemma try_candidate_code io e iccid c : same_code (try_candidate io e iccid c).1 c.
Proof.
  unfold try_candidate; destruct (check_candidate _ _ _) as [[[owner enc] epoch]|]; [|apply same_code_refl].
  destruct (wups_link_trust_prompt _ _ _ _ _) as [p acts]; destruct (wups_link_trust_wait _ _ _) as [p' w].
  destruct w as [| |[|r|r]]; try (repeat split; exists acts; reflexivity).
  destruct (cmdauth_arkiv_bind_owner _ _ _ _ _ _) as [a b]; destruct (negb _); repeat split; exists acts; reflexivity.
Qed.

Lemma try_candidates_code ios data : forall n iccid c, same_code (try_candidates ios n data iccid c).1 c.
Proof.
  induction data as [|e data IH]; intros n iccid c; [apply same_code_refl|]; cbn [try_candidates].
  pose proof (try_candidate_code (ios n) e iccid c) as H; destruct (try_candidate _ _ _ _) as [c1 ok]; cbn [fst] in H.
  destruct ok; [exact H|]; eapply same_code_trans; [apply IH|exact H].
Qed.

Lemma claim_poll_code ios answer iccid c : same_code (claim_poll_once ios answer iccid c).1 c.
Proof.
  unfold claim_poll_once; destruct answer as [root|]; [|apply same_code_refl].
  destruct (get_item _ _) as [[]|]; try apply same_code_refl; apply try_candidates_code.
Qed.

(** The log entry [l] shows the code: the words are those of its bits, and the screen with
    them was sent. *)
Definition shows iccid (l : pass_log) : Prop :=
  (exists d, bip39_pack_top_bits d ARKIV_CC_BITS ARKIV_CC_BYTES = Some (lg_cc l) /\ lg_words l = (bip39_words_from_bits [] d ARKIV_CC_WORDS 96).1) /\
  exists p nonce more, lg_acts l = (wups_link_trust_prompt p 1 0 nonce (Some (code_screen iccid (lg_words l)))).2 ++ more.

(** Somewhere in [hist] the code of [c] was generated at the time it is recorded for, and
    shown. *)
Definition code_in iccid (hist : list pass_log) c : Prop :=
  cc_shown c = true -> exists l, In l hist /\ lg_now l = cc_gen_ts c /\ lg_cc l = s_local_cc c /\ lg_words l = s_cc_words c /\ shows iccid l.

Lemma regen_code (Hk : forall l, length (keccak256 l) = 32%nat) nonce c : exists d,
  bip39_pack_top_bits d ARKIV_CC_BITS ARKIV_CC_BYTES = Some (s_local_cc (claim_code_regen nonce c)) /\
  s_cc_words (claim_code_regen nonce c) = (bip39_words_from_bits [] d ARKIV_CC_WORDS 96).1.
Proof.
  exists (keccak256 (s_dev_pub (cl_auth c) ++ nonce)); unfold claim_code_regen; cbv zeta.
  pose proof (Hk (s_dev_pub (cl_auth c) ++ nonce)) as Hd; revert Hd; generalize (keccak256 (s_dev_pub (cl_auth c) ++ nonce)); intros d Hd.
  assert (HP : bip39_pack_top_bits d ARKIV_CC_BITS ARKIV_CC_BYTES = Some (packed d 6 44)) by (apply (pack_top_bits_packed d 44 6); [rewrite Hd; lia|exact (le_n 6)]).
  assert (HW : forall old, bip39_words_from_bits old d ARKIV_CC_WORDS 96 = bip39_words_from_bits [] d ARKIV_CC_WORDS 96).
  { intros old; pose proof (words_from_bits_shown old d 4 96) as H1; pose proof (words_from_bits_shown [] d 4 96) as H2.
    rewrite Hd in *; unfold ARKIV_CC_WORDS; rewrite H1, H2 by lia; reflexivity. }
  rewrite HP, HW; revert HP HW; generalize (packed d 6 44) (bip39_words_from_bits [] d ARKIV_CC_WORDS 96); intros l w _ _; split; reflexivity.
Qed.

Lemma claim_pass_shown (Hk : forall l, length (keccak256 l) = 32%nat) io iccid c hist : cl_acts c = [] -> code_in iccid hist c ->
  let '(c', ok) := claim_pass io iccid c in
  let l := Log (pi_now io) (s_local_cc c') (s_cc_words c') (cl_acts c') ok in
  code_in iccid (hist ++ [l]) c' /\
  (ok = true -> cc_shown c' = true /\ pi_now io - cc_gen_ts c' <= ARKIV_CLAIM_CODE_TTL_MS).
Proof.
  intros Hnil Hc; unfold claim_pass; destruct (negb (s_ready (cl_auth c))); [split; done|]; destruct (negb (_ =? ARKIV_UNCLAIMED)); [split; done|].
  destruct (_ =? 0); [split; [|done]; intros H; destruct (Hc H) as (l & Hl & H1); exists l; split; [apply in_or_app; by left|exact H1]|].
  cbv zeta; destruct (negb (cc_shown c) || _) eqn:ER; cbn [orb].
  - set (c1 := claim_code_regen (pi_nonce io) c <| cc_gen_ts := pi_now io |> <| cc_shown := true |>).
    destruct (regen_code Hk (pi_nonce io) c) as (d & Hd1 & Hd2).
    destruct (wups_link_trust_prompt _ _ _ _ _) as [p acts] eqn:EP.
    set (c2 := ((c1 <| cl_port := p |>) <| cl_acts := cl_acts c1 ++ acts |>) <| cc_disp_ts := pi_now io |>).
    pose proof (claim_poll_code (pi_ios io) (pi_answer io) iccid c2) as HS; destruct (claim_poll_once _ _ _ _) as [c3 ok]; cbn [fst] in HS.
    destruct HS as (S1 & S2 & S3 & S4 & more & S5); assert (HA : cl_acts c2 = acts) by (change (cl_acts c2) with (cl_acts c ++ acts); by rewrite Hnil).
    assert (HT : cc_shown c3 = true) by (rewrite S3; reflexivity); assert (HG : cc_gen_ts c3 = pi_now io) by (rewrite S4; reflexivity).
    split; [|intros _; split; [exact HT|rewrite HG, Z.sub_diag; done]]; intros _; eexists; split; [apply in_or_app; right; left; reflexivity|].
    cbn [lg_now lg_cc lg_words]; split; [by rewrite HG|]; split; [done|]; split; [done|]; split; cbn [lg_cc lg_words lg_acts].
    + exists d; rewrite S1, S2; split; [exact Hd1|exact Hd2].
    + exists (cl_port c1), (pi_screen_nonce io), more; rewrite S5, HA, S2; change (s_cc_words c2) with (s_cc_words c1).
      unfold TRUST_MODE_CLAIM_CODE in EP; rewrite EP; done.
  - apply orb_false_iff in ER as [E1 E2]; apply negb_false_iff in E1; apply Z.ltb_ge in E2.
    destruct (Hc E1) as (l & Hl & Hts & Hl2 & Hl3 & Hl4).
    match goal with |- context [claim_poll_once _ _ _ ?c2] => assert (HS0 : same_code c2 c) end.
    { destruct (_ <? _); [|apply same_code_refl]; destruct (wups_link_trust_prompt _ _ _ _ _) as [p acts]; repeat split; exists acts; done. }
    match goal with |- context [claim_poll_once ?a ?b ?d ?c2] => pose proof (same_code_trans _ _ _ (claim_poll_code a b d c2) HS0) as HS; destruct (claim_poll_once a b d c2) as [c3 ok] end.
    cbn [fst] in HS; destruct HS as (S1 & S2 & S3 & S4 & _); split; [|intros _; rewrite S3, S4; split; [exact E1|lia]].
    intros _; exists l; split; [apply in_or_app; by left|]; rewrite S1, S2, S4; exact (conj Hts (conj Hl2 (conj Hl3 Hl4))).
Qed.

Lemma claim_run_shown (Hk : forall l, length (keccak256 l) = 32%nat) others ios : forall n iccid c hist, code_in iccid hist c ->
  forall h1 l h2, (claim_run others ios n iccid c).2 = h1 ++ l :: h2 -> lg_bound l = true ->
  exists l0, In l0 (hist ++ h1 ++ [l]) /\ lg_cc l0 = lg_cc l /\ lg_words l0 = lg_words l /\ lg_now l - lg_now l0 <= ARKIV_CLAIM_CODE_TTL_MS /\ shows iccid l0.
Proof.
  induction ios as [|io ios IH]; intros n iccid c hist Hc h1 l h2; cbn [claim_run]; [destruct h1; done|].
  destruct (others _ _) as [[a sc] p].
  set (c0 := (((c <| cl_auth := a |>) <| cl_cache := sc |>) <| cl_port := p |>) <| cl_acts := [] |>).
  pose proof (claim_pass_shown Hk io iccid c0 hist eq_refl Hc) as HP; destruct (claim_pass io iccid c0) as [c1 ok]; cbv zeta in HP; destruct HP as [HP1 HP2].
  specialize (IH (S n) iccid c1 _ HP1); destruct (claim_run others ios (S n) iccid c1) as [c' logs]; cbn [snd] in *.
  destruct h1 as [|l1 h1]; cbn [app]; intros [= Hl Hrest] Hb.
  - subst l; cbn [lg_bound] in Hb; destruct (HP2 Hb) as [H1 H2]; destruct (HP1 H1) as (l0 & L1 & L2 & L3 & L4 & L5).
    exists l0; cbn [lg_cc lg_words lg_now]; rewrite L2; repeat split; try done; apply L5.
  - subst l1; destruct (IH h1 l h2 Hrest Hb) as (l0 & L1 & L2); exists l0; split; [|exact L2].
    rewrite <- app_assoc in L1; exact L1.
Qed.

(** C11: over any number of passes of the task, whatever the other tasks do to the link and
    the authority in between, a pass that binds an owner works with a code that this run
    put on the screen, in this pass or an earlier one at most the code's time to live
    before; and the words on that screen are the code's own. *)
Theorem claim_code_was_shown (Hk : forall l, length (keccak256 l) = 32%nat) others ios iccid c h1 l h2 (H0 : cc_shown c = false)
    (Hrun : (claim_run others ios 0 iccid c).2 = h1 ++ l :: h2) (Hb : lg_bound l = true) :
  exists l0, In l0 (h1 ++ [l]) /\ lg_cc l0 = lg_cc l /\ lg_words l0 = lg_words l /\ lg_now l - lg_now l0 <= ARKIV_CLAIM_CODE_TTL_MS /\ shows iccid l0.
Proof. apply (claim_run_shown Hk others ios 0 iccid c [] ltac:(unfold code_in; congruence) h1 l h2 Hrun Hb). Qed.
End Claims.

(** ** A concrete claim *)

Definition toy_result (nonce result : Z) : frame :=
  Frame WUPS_ADDR_ESP32 WUPS_ADDR_RP2040 WUPS_CLASS_UI WUPS_OP_UI_TRUST_RESULT WUPS_FLAG_RESP 0 ([1; result; 0; 0] ++ le32 nonce).
Definition toy_claim : json :=
  JObject [(str "creator", JString (to_hex toy_owner));
    (str "stringAttributes", JArray [toy_attr (str "device_id") (JString (str "8948")); toy_attr (str "owner_pub") (JString (to_hex toy_pub));
       toy_attr (str "enc_pub") (JString (to_hex (replicate 64 8))); toy_attr (str "claim_code") (JString (str "0x010101010100"));
       toy_attr (str "sig") (JString (to_hex (replicate 64 7)))]);
    (str "numericAttributes", JArray [toy_attr (str "epoch") (JNumber 3)])].
Definition toy_claim_io (during : list link_event) : claim_io := ClaimIo 77 [] during 0 [] false (replicate 32 5).
Definition toy_answer : json := JObject [(str "result", JObject [(str "data", JArray [toy_claim])])].
Definition toy_unclaimed : claim := Claim [] (replicate 6 0) [] false 0 0 toy_fresh no_cache port_init [].
Definition toy_passes : list pass_io :=
  [PassIo 1000 (replicate 16 6) 5 None (fun _ => toy_claim_io []);
   PassIo 601000 (replicate 16 7) 6 (Some toy_answer) (fun _ => toy_claim_io [Ui_frame (toy_result 77 0)])].
Definition toy_logs : list pass_log := (@claim_run toy_ecc toy_keccak (fun _ x => x) toy_passes 0 (str "8948") toy_unclaimed).2.

Lemma claim_code_was_shown_witness :
  exists h1 l, toy_logs = h1 ++ [l] /\ lg_bound l = true /\
  exists l0, In l0 (h1 ++ [l]) /\ lg_cc l0 = lg_cc l /\ lg_words l0 = lg_words l /\ lg_now l - lg_now l0 <= ARKIV_CLAIM_CODE_TTL_MS /\ shows (str "8948") l0.
Proof.
  exists (take 1 toy_logs), (nth 1 toy_logs (Log 0 [] [] [] false)); split; [vm_compute; reflexivity|]; split; [vm_compute; reflexivity|].
  apply (@claim_code_was_shown toy_ecc toy_keccak ltac:(intros l; reflexivity) (fun _ x => x) toy_passes (str "8948") toy_unclaimed
    (take 1 toy_logs) (nth 1 toy_logs (Log 0 [] [] [] false)) []).
  - reflexivity.
  - vm_compute; reflexivity.
  - vm_compute; reflexivity.
Defined.

(** Refused at the device, unanswered, or answered for another prompt: nobody is bound. *)
Example unconfirmed_claim_binds_nobody :
  let c := @claim_code_regen toy_keccak (replicate 16 6) toy_unclaimed in
  map (fun during => (@try_candidate toy_ecc toy_keccak (toy_claim_io during) toy_claim (str "8948") c).2)
    [[Ui_frame (toy_result 77 0)]; [Ui_frame (toy_result 77 1)]; []; [Ui_frame (toy_result 78 0)]] = [true; false; false; false].
Proof. vm_compute; reflexivity. Qed.

(** The wallet page of the menu arms the link like a claim does: the result that closes the
    page is not handed to the menu, and a claim that waits meanwhile takes it for its own. *)
Example wallet_page_arms_the_link :
  let wallet := Other_prompt WUPS_TRUST_PROMPT_MODE_WALLET 2 78 (str "0x00") in
  let menu := Other_prompt WUPS_TRUST_PROMPT_MODE_MENU 2 78 (str "Mode") in
  (on_ui (link_step port_init wallet) (toy_result 78 1)).2 = [] /\
  (on_ui (link_step port_init menu) (toy_result 78 1)).2 = [Menu_result 78 1] /\
  (@try_candidate toy_ecc toy_keccak (toy_claim_io [wallet; Ui_frame (toy_result 78 0)]) toy_claim (str "8948")
     (@claim_code_regen toy_keccak (replicate 16 6) toy_unclaimed)).2 = true.
Proof. vm_compute; repeat split; reflexivity. Qed.
