(* ===== verification/BackendMode.v ===== *)
(** * The backend mode (firmware-ESP32-LTE-M/main/backend_mode.c)

    One of three backends is active; the choice is kept in flash, a switch restarts the
    device, and the boot that follows announces itself once on the new channel. What the
    flash calls and the other modules answer are inputs; their calls are the events of a
    call's result. *)

From S2P Require Import Prelude Protocol EspDispatch Rlp Secp256k1 ArkivAuth.

(* src: common/protocol.h:128-136 WUPS_BACKEND_MODE *)
Definition WUPS_BACKEND_MODE_UNKNOWN : Z := 0.
Definition WUPS_BACKEND_MODE_MQTT : Z := 1.
Definition WUPS_BACKEND_MODE_ARKIV : Z := 2.
Definition WUPS_BACKEND_MODE_HTTP : Z := 3.
Definition WUPS_MODE_CHANGED_FLAG_PENDING : Z := 1.
(** Results of ESP-IDF. *)
Definition ESP_ERR_NOT_SUPPORTED : Z := 262.
Definition ESP_ERR_NVS_NOT_FOUND : Z := 4354.

(** The keys of the namespace w3mode, and whether the namespace exists. *)
(* src: firmware-ESP32-LTE-M/main/backend_mode.c:39-41 NS_MODE *)
Record mode_nvs := ModeNvs { ns_mode : bool; key_cur_mode : option Z; key_prev_mode : option Z }.
#[export] Instance eta_mode_nvs : Eta mode_nvs := fun n => ModeNvs (ns_mode n) (key_cur_mode n) (key_prev_mode n).

(* src: firmware-ESP32-LTE-M/main/backend_mode.c:43-50 module state *)
Record backend := Backend { s_cur_mode : Z; s_confirm_receipt : Z; s_confirm_sdk_accepted : bool; s_confirm_done : bool; b_nvs : mode_nvs }.
#[export] Instance eta_backend : Eta backend := fun b => Backend (s_cur_mode b) (s_confirm_receipt b) (s_confirm_sdk_accepted b) (s_confirm_done b) (b_nvs b).
Implicit Types (b : backend) (from to : Z).

(** Calls into the other modules. *)
Inductive mode_act :=
  | Publish_event (tracked : bool) (frame : list Z) (rc : Z)
  | Create_entity (attrs : list (list Z * (list Z + Z))) (payload : list Z) (ttl : Z)
  | Take_receipt (receipt status : Z)
  | Forget_receipt (receipt : Z)
  | Clear_marker (cleared : bool)
  | Regenerate_wallet
  | Erase_nvs
  | Reboot_after (ms : Z).

(* src: firmware-ESP32-LTE-M/main/backend_mode.c:54-63 backend_mode_name *)
Definition backend_mode_name (mode : Z) : list Z :=
  if mode =? WUPS_BACKEND_MODE_MQTT then str "mqtt" else if mode =? WUPS_BACKEND_MODE_ARKIV then str "arkiv"
  else if mode =? WUPS_BACKEND_MODE_HTTP then str "http" else if mode =? WUPS_BACKEND_MODE_UNKNOWN then str "unknown" else str "invalid".

(* src: firmware-ESP32-LTE-M/main/backend_mode.c:65-70 is_known_mode *)
Definition is_known_mode (m : Z) : bool := (m =? WUPS_BACKEND_MODE_MQTT) || (m =? WUPS_BACKEND_MODE_ARKIV) || (m =? WUPS_BACKEND_MODE_HTTP).

(* src: firmware-ESP32-LTE-M/main/backend_mode.c:74-83 build_mode_changed_payload *)
Definition build_mode_changed_payload from to (pending : bool) : list Z := [1; u8 from; u8 to; if pending then WUPS_MODE_CHANGED_FLAG_PENDING else 0].

(** [[]] stands for the 0 of a frame that does not fit. *)
(* src: firmware-ESP32-LTE-M/main/backend_mode.c:89-116 encode_mqtt_frame *)
Definition encode_mqtt_frame (cap cls op : Z) (payload : list Z) : list Z :=
  let payload_len := Z.of_nat (length payload) in
  if cap <? u16 (WUPS_HEADER_BYTES + payload_len + 4) then []
  else
    let covered := [WUPS_ADDR_RPI; WUPS_ADDR_ESP32; cls; op; WUPS_FLAG_EVENT; 0; u8 (Z.land payload_len 255); u8 (Z.land (Z.shiftr payload_len 8) 255)] ++ payload in
    let '(a, b) := fold_left fletcher_step covered (0, 0) in
    [WUPS_SYNC1; WUPS_SYNC2] ++ covered ++ [a; b; WUPS_END1; WUPS_END2].

(** ** Announcements *)

(** What the other modules answer: the topic is set, the result of the publication with its
    receipt, whether the device is claimed and the writer ready, its next number, its
    identifier, and whether the queue takes the entity. *)
Record emit_env := EmitEnv {
  em_topic_ok : bool; em_rc : Z; em_receipt : Z; em_claimed : bool; em_writer_ready : bool; em_seq : Z; em_iccid : list Z; em_queued : bool
}.

(** The result, the receipt when one was asked for, and the call. *)
(* src: firmware-ESP32-LTE-M/main/backend_mode.c:121-145 emit_via_mqtt *)
Definition emit_via_mqtt (io : emit_env) from to (pending tracked : bool) : Z * Z * list mode_act :=
  let frame := encode_mqtt_frame 18 WUPS_CLASS_SYSTEM WUPS_OP_SYS_MODE_CHANGED (build_mode_changed_payload from to pending) in
  if Z.of_nat (length frame) =? 0 then (ESP_FAIL, 0, [])
  else if negb (em_topic_ok io) then (ESP_FAIL, 0, [])
  else if 0 <=? em_rc io then (ESP_OK, if tracked then em_receipt io else 0, [Publish_event tracked frame (em_rc io)])
  else (ESP_FAIL, 0, [Publish_event tracked frame (em_rc io)]).

(* src: firmware-ESP32-LTE-M/main/backend_mode.c:149-192 emit_via_arkiv *)
Definition emit_via_arkiv (io : emit_env) from to (pending : bool) : Z * list mode_act :=
  if negb (em_claimed io) then (ESP_ERR_INVALID_STATE, [])
  else if negb (em_writer_ready io) then (ESP_ERR_INVALID_STATE, [])
  else
    let iccid := if Z.of_nat (length (em_iccid io)) =? 0 then str "0" else em_iccid io in
    let attrs := [(str "type", inl (str "w3pups-event")); (str "device_id", inl iccid); (str "class", inl (str "mode_changed"));
                  (str "from", inl (backend_mode_name from)); (str "to", inl (backend_mode_name to));
                  (str "pending", inl (if pending then str "1" else str "0")); (str "seq", inr (em_seq io)); (str "scheme", inr 0)] in
    (if em_queued io then ESP_OK else ESP_FAIL, [Create_entity attrs (build_mode_changed_payload from to pending) 3600]).

(* src: firmware-ESP32-LTE-M/main/backend_mode.c:197-215 emit_mode_changed *)
Definition emit_mode_changed (io : emit_env) from to (pending : bool) b : Z * list mode_act :=
  if s_cur_mode b =? WUPS_BACKEND_MODE_MQTT then let '(err, _, acts) := emit_via_mqtt io from to pending false in (err, acts)
  else if s_cur_mode b =? WUPS_BACKEND_MODE_ARKIV then emit_via_arkiv io from to pending
  else if s_cur_mode b =? WUPS_BACKEND_MODE_HTTP then (ESP_ERR_NOT_SUPPORTED, [])
  else (ESP_ERR_INVALID_STATE, []).

(** ** Start-up and switching *)

(** Opening for reading: [open] is what a namespace that exists answers. *)
Definition open_ro (open : Z) b : Z := if ns_mode (b_nvs b) then open else ESP_ERR_NVS_NOT_FOUND.
(** Reading a key: [get] is what a key that exists answers. *)
Definition get_u8 (get : Z) (key : option Z) : Z * Z := match key with Some v => (get, v) | None => (ESP_ERR_NVS_NOT_FOUND, 0) end.

(* src: firmware-ESP32-LTE-M/main/backend_mode.c:219-253 backend_mode_init *)
Definition backend_mode_init (open get : Z) b : backend * Z :=
  let err := open_ro open b in
  if err =? ESP_ERR_NVS_NOT_FOUND then (b <| s_cur_mode := WUPS_BACKEND_MODE_MQTT |>, ESP_OK)
  else if negb (err =? ESP_OK) then (b <| s_cur_mode := WUPS_BACKEND_MODE_MQTT |>, err)
  else
    let '(err, raw) := get_u8 get (key_cur_mode (b_nvs b)) in
    (b <| s_cur_mode := if (err =? ESP_OK) && is_known_mode raw then raw else WUPS_BACKEND_MODE_MQTT |>, ESP_OK).

(** A boot: the module's variables are fresh, the flash is what it was. *)
Definition mode_boot (open get : Z) b : backend := (backend_mode_init open get (Backend WUPS_BACKEND_MODE_MQTT 0 false false (b_nvs b))).1.

(** [open], [e1] and [e2] are the results of the flash calls. *)
(* src: firmware-ESP32-LTE-M/main/backend_mode.c:260-326 backend_mode_request_switch *)
Definition backend_mode_request_switch (io : emit_env) (open e1 e2 : Z) (new_mode : Z) b : backend * list mode_act * Z :=
  if negb (is_known_mode (u8 new_mode)) then (b, [], ESP_ERR_INVALID_ARG)
  else if new_mode =? s_cur_mode b then (b, [Reboot_after 100], ESP_OK)
  else
    let '(emit_err, acts) := emit_mode_changed io (s_cur_mode b) new_mode true b in
    let b :=
      if open =? ESP_OK then
        let n := b_nvs b <| ns_mode := true |> in
        let n := if e1 =? ESP_OK then n <| key_cur_mode := Some (u8 new_mode) |> else n in
        let n := if e2 =? ESP_OK then n <| key_prev_mode := Some (u8 (s_cur_mode b)) |> else n in
        b <| b_nvs := n |>
      else b in
    (b, acts ++ [Reboot_after (if emit_err =? ESP_OK then 2100 else 100)], ESP_OK).

(** [erased] is whether the partition could be erased. *)
(* src: firmware-ESP32-LTE-M/main/backend_mode.c:328-362 backend_mode_factory_reset *)
Definition backend_mode_factory_reset (erased : bool) b : backend * list mode_act :=
  (if erased then b <| b_nvs := ModeNvs false None None |> else b, [Regenerate_wallet; Erase_nvs; Reboot_after 100]).

(** ** The announcement after a switch *)

(** What one call meets: the results of reading, of the emission, the receipt's status, and
    of clearing the marker (opening, erasing a key that exists, committing). *)
Record confirm_io := ConfirmIo { cf_open : Z; cf_get : Z; cf_emit : emit_env; cf_status : Z; cf_wopen : Z; cf_erase : Z; cf_commit : Z }.

(* src: firmware-ESP32-LTE-M/main/mqtt.h:30-33 mqtt_receipt_status_t *)
Definition MQTT_RECEIPT_UNKNOWN : Z := 0.
Definition MQTT_RECEIPT_PENDING : Z := 1.
Definition MQTT_RECEIPT_SDK_ACCEPTED : Z := 2.
Definition MQTT_RECEIPT_FAILED : Z := 3.

(* src: firmware-ESP32-LTE-M/main/backend_mode.c:364-374 clear_post_switch_marker *)
Definition clear_post_switch_marker (io : confirm_io) b : backend * list mode_act * bool :=
  if negb (cf_wopen io =? ESP_OK) then (b, [Clear_marker false], false)
  else
    let erase_err := match key_prev_mode (b_nvs b) with Some _ => cf_erase io | None => ESP_ERR_NVS_NOT_FOUND end in
    let b := if erase_err =? ESP_OK then b <| b_nvs := b_nvs b <| key_prev_mode := None |> |> else b in
    let cleared := ((erase_err =? ESP_OK) || (erase_err =? ESP_ERR_NVS_NOT_FOUND)) && (cf_commit io =? ESP_OK) in
    (b, [Clear_marker cleared], cleared).

(** The end of most ways through the call. *)
Definition finish_confirm (io : confirm_io) (acts : list mode_act) b : backend * list mode_act :=
  let '(b, acts', cleared) := clear_post_switch_marker io b in (b <| s_confirm_done := cleared |>, acts ++ acts').

Definition forget (b : backend) : list mode_act := if negb (s_confirm_receipt b =? 0) then [Forget_receipt (s_confirm_receipt b)] else [].

(* src: firmware-ESP32-LTE-M/main/backend_mode.c:376-452 backend_mode_emit_post_switch_confirm *)
Definition backend_mode_emit_post_switch_confirm (io : confirm_io) b : backend * list mode_act :=
  if s_confirm_done b then (b, [])
  else if s_confirm_sdk_accepted b then finish_confirm io [] b
  else
    let open_err := open_ro (cf_open io) b in
    if negb (open_err =? ESP_OK) then (if open_err =? ESP_ERR_NVS_NOT_FOUND then b <| s_confirm_done := true |> else b, [])
    else
      let '(err, prev) := get_u8 (cf_get io) (key_prev_mode (b_nvs b)) in
      if negb (err =? ESP_OK) then
        if err =? ESP_ERR_NVS_NOT_FOUND then (b <| s_confirm_receipt := 0 |> <| s_confirm_done := true |>, forget b) else (b, [])
      else if negb (is_known_mode prev) || (prev =? s_cur_mode b) then
        let '(b', acts) := finish_confirm io [] b in (b' <| s_confirm_receipt := 0 |>, acts ++ forget b)
      else if s_cur_mode b =? WUPS_BACKEND_MODE_MQTT then
        if s_confirm_receipt b =? 0 then
          let '(_, receipt, acts) := emit_via_mqtt (cf_emit io) prev (s_cur_mode b) false true in
          (b <| s_confirm_receipt := receipt |>, acts)
        else
          let taken := [Take_receipt (s_confirm_receipt b) (cf_status io)] in
          if cf_status io =? MQTT_RECEIPT_PENDING then (b, taken)
          else
            let b := b <| s_confirm_receipt := 0 |> in
            if negb (cf_status io =? MQTT_RECEIPT_SDK_ACCEPTED) then (b, taken)
            else finish_confirm io taken (b <| s_confirm_sdk_accepted := true |>)
      else
        let '(emit_err, acts) := emit_mode_changed (cf_emit io) prev (s_cur_mode b) false b in
        if negb (emit_err =? ESP_OK) then (b, acts) else finish_confirm io acts b.

(** The calls of the heartbeat. *)
Fixpoint confirm_run (ios : list confirm_io) b : backend * list mode_act :=
  match ios with
  | [] => (b, [])
  | io :: ios => let '(b, acts) := backend_mode_emit_post_switch_confirm io b in let '(b, acts') := confirm_run ios b in (b, acts ++ acts')
  end.

(** ** The way of an announcement *)

(** A publication that the queue took; a receipt that came to nothing. *)
Definition submitted (a : mode_act) : bool := match a with Publish_event _ _ rc => 0 <=? rc | _ => false end.
Definition failed (a : mode_act) : bool :=
  match a with Take_receipt _ st => negb (st =? MQTT_RECEIPT_PENDING) && negb (st =? MQTT_RECEIPT_SDK_ACCEPTED) | _ => false end.
Definition count (p : mode_act -> bool) (acts : list mode_act) : nat := length (List.filter p acts).
Definition announces from (a : mode_act) : Prop :=
  match a with
  | Publish_event tracked frame _ => tracked = true /\ frame = encode_mqtt_frame 18 WUPS_CLASS_SYSTEM WUPS_OP_SYS_MODE_CHANGED (build_mode_changed_payload from WUPS_BACKEND_MODE_MQTT false)
  | Take_receipt _ st => st <> MQTT_RECEIPT_SDK_ACCEPTED
  | _ => False
  end.
Definition clears (a : mode_act) : Prop := exists c, a = Clear_marker c.

Lemma count_app p l1 l2 : count p (l1 ++ l2) = (count p l1 + count p l2)%nat.
Proof. unfold count; by rewrite List.filter_app, length_app. Qed.

(** Before the SDK admits the announcement, and after. *)
Inductive confirm_state from : backend -> list mode_act -> Prop :=
  | Announcing b acts : s_cur_mode b = WUPS_BACKEND_MODE_MQTT -> s_confirm_sdk_accepted b = false -> s_confirm_done b = false ->
      ns_mode (b_nvs b) = true -> key_prev_mode (b_nvs b) = Some from -> Forall (announces from) acts ->
      count submitted acts = (count failed acts + if (s_confirm_receipt b =? 0)%Z then 0 else 1)%nat -> confirm_state from b acts
  | Announced b pre r post : s_confirm_sdk_accepted b = true -> s_confirm_done b = true \/ ns_mode (b_nvs b) = true ->
      Forall (announces from) pre -> count submitted pre = S (count failed pre) -> Forall clears post ->
      (s_confirm_done b = true -> key_prev_mode (b_nvs b) = None) ->
      confirm_state from b (pre ++ Take_receipt r MQTT_RECEIPT_SDK_ACCEPTED :: post).

(** A receipt is never 0, and what exists in flash is not reported missing. *)
Record io_ok (io : confirm_io) : Prop := {
  io_receipt : 0 <= em_rc (cf_emit io) -> em_receipt (cf_emit io) <> 0;
  io_open : cf_open io <> ESP_ERR_NVS_NOT_FOUND;
  io_get : cf_get io <> ESP_ERR_NVS_NOT_FOUND;
  io_erase : cf_erase io <> ESP_ERR_NVS_NOT_FOUND
}.

Lemma clear_marker io b : cf_erase io <> ESP_ERR_NVS_NOT_FOUND -> let '(b', acts, cleared) := clear_post_switch_marker io b in
  Forall clears acts /\ s_confirm_sdk_accepted b' = s_confirm_sdk_accepted b /\ ns_mode (b_nvs b') = ns_mode (b_nvs b) /\
  (cleared = true -> key_prev_mode (b_nvs b') = None).
Proof.
  intros He; unfold clear_post_switch_marker; destruct (negb _); [repeat split; [|done]; apply Forall_singleton; by eexists|]; cbv zeta.
  destruct (key_prev_mode (b_nvs b)) as [v|] eqn:EK.
  - rewrite (proj2 (Z.eqb_neq _ ESP_ERR_NVS_NOT_FOUND) He), orb_false_r.
    destruct (Z.eqb_spec (cf_erase io) ESP_OK) as [E|E]; (split; [apply Forall_singleton; by eexists|]); repeat split; done.
  - split; [apply Forall_singleton; by eexists|]; repeat split; intros _; exact EK.
Qed.

Lemma mode_frame_length from to pending : length (encode_mqtt_frame 18 WUPS_CLASS_SYSTEM WUPS_OP_SYS_MODE_CHANGED (build_mode_changed_payload from to pending)) = 18%nat.
Proof.
  unfold encode_mqtt_frame, build_mode_changed_payload; cbn [length]; change (18 <? u16 (WUPS_HEADER_BYTES + Z.of_nat 4 + 4)) with false; cbv iota zeta.
  destruct (fold_left _ _ _); reflexivity.
Qed.

(** The announcement is published or it is not; the queue's receipt tells. *)
Lemma emit_way io from : (0 <= em_rc io -> em_receipt io <> 0) ->
  let '(_, receipt, acts) := emit_via_mqtt io from WUPS_BACKEND_MODE_MQTT false true in
  Forall (announces from) acts /\ count failed acts = 0%nat /\ count submitted acts = (if (receipt =? 0)%Z then 0 else 1)%nat.
Proof.
  intros Hr; unfold emit_via_mqtt; destruct (_ =? 0); [repeat split; apply Forall_nil_2|]; destruct (negb _); [repeat split; apply Forall_nil_2|].
  destruct (Z.leb_spec 0 (em_rc io)) as [H|H]; (split; [apply Forall_singleton; done|]; split; [done|]); cbn [count List.filter submitted length].
  - rewrite (proj2 (Z.leb_le _ _) H); destruct (Z.eqb_spec (em_receipt io) 0); [destruct (Hr H); done|done].
  - rewrite (proj2 (Z.leb_gt _ _) H); done.
Qed.

(** Clearing the marker once the announcement is admitted. *)
Lemma finish_announced from io b pre r post : cf_erase io <> ESP_ERR_NVS_NOT_FOUND ->
  s_confirm_sdk_accepted b = true -> ns_mode (b_nvs b) = true -> Forall (announces from) pre -> count submitted pre = S (count failed pre) -> Forall clears post ->
  let '(b', acts) := finish_confirm io [] b in confirm_state from b' (pre ++ Take_receipt r MQTT_RECEIPT_SDK_ACCEPTED :: post ++ acts).
Proof.
  intros He H1 H2 H3 H4 H5; unfold finish_confirm; pose proof (clear_marker io b He) as HM.
  destruct (clear_post_switch_marker io b) as [[b' acts] cleared]; destruct HM as (M1 & M2 & M3 & M4); cbn [app].
  constructor; [exact (eq_trans M2 H1)|right; exact (eq_trans M3 H2)|exact H3|exact H4|apply Forall_app; split; assumption|exact M4].
Qed.

(** One call keeps to the way. *)
Lemma confirm_step from io b acts : is_known_mode from = true -> from <> WUPS_BACKEND_MODE_MQTT -> io_ok io -> confirm_state from b acts ->
  let '(b', acts') := backend_mode_emit_post_switch_confirm io b in confirm_state from b' (acts ++ acts').
Proof.
  intros Hk Hf [Hr Ho Hg He] HC; destruct HC as [b acts C1 C2 C3 C4 C5 C6 C7|b pre r post C1 C2 C3 C4 C5 C6]; unfold backend_mode_emit_post_switch_confirm.
  - assert (HA : confirm_state from b acts) by (constructor; assumption).
    rewrite C3, C2; unfold open_ro; rewrite C4; destruct (Z.eqb_spec (cf_open io) ESP_OK) as [_|HO]; cbn [negb].
    2:{ rewrite (proj2 (Z.eqb_neq _ _) Ho), app_nil_r; exact HA. }
    rewrite C5; cbn [get_u8]; destruct (Z.eqb_spec (cf_get io) ESP_OK) as [_|HG]; cbn [negb].
    2:{ rewrite (proj2 (Z.eqb_neq _ _) Hg), app_nil_r; exact HA. }
    rewrite Hk, C1, (proj2 (Z.eqb_neq _ _) Hf); cbn [negb orb]; rewrite Z.eqb_refl.
    destruct (Z.eqb_spec (s_confirm_receipt b) 0) as [E|E].
    + pose proof (emit_way (cf_emit io) from Hr) as HE; destruct (emit_via_mqtt _ _ _ _ _) as [[err receipt] acts']; destruct HE as (E1 & E2 & E3).
      apply Announcing; try assumption; [apply Forall_app; split; assumption|].
      rewrite !count_app, C7, E2, E3; change (s_confirm_receipt (b <| s_confirm_receipt := receipt |>)) with receipt; lia.
    + destruct (Z.eqb_spec (cf_status io) MQTT_RECEIPT_PENDING) as [EP|EP].
      { rewrite EP; apply Announcing; try assumption; [apply Forall_app; split; [assumption|apply Forall_singleton; done]|].
        rewrite !count_app, C7, (proj2 (Z.eqb_neq _ _) E); cbn; lia. }
      destruct (Z.eqb_spec (cf_status io) MQTT_RECEIPT_SDK_ACCEPTED) as [EA|EA]; cbn [negb].
      * rewrite EA.
        pose proof (finish_announced from io ((b <| s_confirm_receipt := 0 |>) <| s_confirm_sdk_accepted := true |>) acts (s_confirm_receipt b) []
          He eq_refl C4 C6 ltac:(lia) (Forall_nil_2 _)) as HF.
        unfold finish_confirm in *; destruct (clear_post_switch_marker _ _) as [[b' acts'] cleared]; exact HF.
      * apply Announcing; try assumption; [apply Forall_app; split; [assumption|apply Forall_singleton; exact EA]|].
        assert (HF1 : count failed [Take_receipt (s_confirm_receipt b) (cf_status io)] = 1%nat).
        { unfold count; cbn [List.filter failed]; rewrite (proj2 (Z.eqb_neq _ _) EP), (proj2 (Z.eqb_neq _ _) EA); done. }
        assert (HF0 : count submitted [Take_receipt (s_confirm_receipt b) (cf_status io)] = 0%nat) by done.
        rewrite !count_app, C7, HF1, HF0; change (s_confirm_receipt (b <| s_confirm_receipt := 0 |>)) with 0; rewrite Z.eqb_refl; lia.
  - destruct (s_confirm_done b) eqn:ED; [rewrite app_nil_r; apply Announced; try assumption; [left; exact ED|intros _; exact (C6 eq_refl)]|]; rewrite C1.
    destruct C2 as [C2|C2]; [congruence|]; pose proof (finish_announced from io b pre r post He C1 C2 C3 C4 C5) as HF.
    destruct (finish_confirm io [] b) as [b' acts']; rewrite <- app_assoc; exact HF.
Qed.

Lemma confirm_run_state from ios : is_known_mode from = true -> from <> WUPS_BACKEND_MODE_MQTT -> Forall io_ok ios -> forall b acts, confirm_state from b acts ->
  let '(b', acts') := confirm_run ios b in confirm_state from b' (acts ++ acts').
Proof.
  intros Hk Hf; induction 1 as [|io ios Hio _ IH]; intros b acts HC; cbn [confirm_run]; [by rewrite app_nil_r|].
  pose proof (confirm_step from io b acts Hk Hf Hio HC) as HS; destruct (backend_mode_emit_post_switch_confirm io b) as [b1 a1].
  specialize (IH b1 _ HS); destruct (confirm_run ios b1) as [b2 a2]; rewrite app_assoc; exact IH.
Qed.

(** Everything works in this call. *)
Record all_well (io : confirm_io) : Prop := {
  aw_open : cf_open io = ESP_OK; aw_get : cf_get io = ESP_OK; aw_topic : em_topic_ok (cf_emit io) = true; aw_rc : 0 <= em_rc (cf_emit io);
  aw_receipt : em_receipt (cf_emit io) <> 0; aw_status : cf_status io = MQTT_RECEIPT_SDK_ACCEPTED;
  aw_wopen : cf_wopen io = ESP_OK; aw_erase : cf_erase io = ESP_OK; aw_commit : cf_commit io = ESP_OK
}.

Lemma all_well_ok io : all_well io -> io_ok io.
Proof. intros W; constructor; [intros _; apply W|rewrite (aw_open _ W); done|rewrite (aw_get _ W); done|rewrite (aw_erase _ W); done]. Qed.

Lemma finish_well io acts b : all_well io -> s_confirm_done (finish_confirm io acts b).1 = true.
Proof.
  intros []; unfold finish_confirm, clear_post_switch_marker; rewrite aw_wopen0, aw_erase0, aw_commit0; cbn [negb Z.eqb].
  destruct (key_prev_mode (b_nvs b)); done.
Qed.

Lemma well_accepted io b : all_well io -> s_confirm_sdk_accepted b = true -> s_confirm_done (backend_mode_emit_post_switch_confirm io b).1 = true.
Proof.
  intros Hw Ha; unfold backend_mode_emit_post_switch_confirm; destruct (s_confirm_done b) eqn:E; [exact E|]; rewrite Ha; apply finish_well, Hw.
Qed.

(** With a receipt out, one call that goes well ends it; without one, two do. *)
Lemma two_well from io1 io2 b acts : is_known_mode from = true -> from <> WUPS_BACKEND_MODE_MQTT -> all_well io1 -> all_well io2 -> confirm_state from b acts ->
  s_confirm_done (confirm_run [io1; io2] b).1 = true.
Proof.
  intros Hk Hf W1 W2 HC; cbn [confirm_run]; assert (HD : forall b', s_confirm_done b' = true -> s_confirm_done (confirm_run [io2] b').1 = true).
  { intros b' H; cbn [confirm_run]; unfold backend_mode_emit_post_switch_confirm; rewrite H; exact H. }
  assert (HT : forall io b, all_well io -> s_cur_mode b = WUPS_BACKEND_MODE_MQTT -> s_confirm_sdk_accepted b = false -> s_confirm_done b = false -> ns_mode (b_nvs b) = true ->
    key_prev_mode (b_nvs b) = Some from -> s_confirm_receipt b <> 0 -> s_confirm_done (backend_mode_emit_post_switch_confirm io b).1 = true).
  { intros io b0 W C1 C2 C3 C4 C5 E; unfold backend_mode_emit_post_switch_confirm, open_ro; rewrite C2, C3, C4, (aw_open _ W), C5; cbn [negb Z.eqb get_u8].
    rewrite (aw_get _ W), Hk, C1, (proj2 (Z.eqb_neq _ _) Hf), (proj2 (Z.eqb_neq _ _) E), (aw_status _ W); apply finish_well, W. }
  inversion HC as [b0 acts0 C1 C2 C3 C4 C5 C6 C7|b0 pre r post C1 C2 C3 C4 C5 C6]; subst.
  - destruct (Z.eqb_spec (s_confirm_receipt b) 0) as [E|E].
    + assert (HB : (backend_mode_emit_post_switch_confirm io1 b).1 = b <| s_confirm_receipt := em_receipt (cf_emit io1) |>).
      { unfold backend_mode_emit_post_switch_confirm, open_ro; rewrite C2, C3, C4, (aw_open _ W1), C5; cbn [negb Z.eqb get_u8].
        rewrite (aw_get _ W1), Hk, C1, (proj2 (Z.eqb_neq _ _) Hf), E; cbn [negb orb Z.eqb]; unfold emit_via_mqtt.
        change (WUPS_BACKEND_MODE_MQTT =? WUPS_BACKEND_MODE_MQTT) with true; cbv iota.
        rewrite (aw_topic _ W1), (proj2 (Z.leb_le _ _) (aw_rc _ W1)); destruct (Z.of_nat _ =? 0) eqn:EL; [|done].
        rewrite mode_frame_length in EL; discriminate EL. }
      destruct (backend_mode_emit_post_switch_confirm io1 b) as [b1 a1]; cbn [fst] in HB; subst b1.
      match goal with |- context [backend_mode_emit_post_switch_confirm io2 ?b1] => pose proof (HT io2 b1 W2 C1 C2 C3 C4 C5 (aw_receipt _ W1)) as HX end.
      destruct (backend_mode_emit_post_switch_confirm io2 _) as [b2 a2]; exact HX.
    + pose proof (HT io1 b W1 C1 C2 C3 C4 C5 E) as HX; destruct (backend_mode_emit_post_switch_confirm io1 b) as [b1 a1]; cbn [fst] in HX.
      specialize (HD b1 HX); cbn [confirm_run] in HD; destruct (backend_mode_emit_post_switch_confirm io2 b1) as [b2 a2]; exact HD.
  - pose proof (well_accepted io1 b W1 C1) as HX; destruct (backend_mode_emit_post_switch_confirm io1 b) as [b1 a1]; cbn [fst] in HX.
    specialize (HD b1 HX); cbn [confirm_run] in HD; destruct (backend_mode_emit_post_switch_confirm io2 b1) as [b2 a2]; exact HD.
Qed.

(** A switch to MQTT whose flash calls succeed, and the boot after it. *)
Definition after_switch (io : emit_env) b : backend := mode_boot ESP_OK ESP_OK (backend_mode_request_switch io ESP_OK ESP_OK ESP_OK WUPS_BACKEND_MODE_MQTT b).1.1.

Lemma after_switch_state io b : is_known_mode (s_cur_mode b) = true -> s_cur_mode b <> WUPS_BACKEND_MODE_MQTT ->
  confirm_state (s_cur_mode b) (after_switch io b) [].
Proof.
  intros Hk Hf; unfold after_switch, backend_mode_request_switch; change (is_known_mode (u8 WUPS_BACKEND_MODE_MQTT)) with true; cbn [negb].
  rewrite (proj2 (Z.eqb_neq WUPS_BACKEND_MODE_MQTT (s_cur_mode b))) by congruence.
  destruct (emit_mode_changed _ _ _ _ _) as [err acts]; cbn [fst]; change (ESP_OK =? ESP_OK) with true; cbv iota.
  assert (Hu : u8 (s_cur_mode b) = s_cur_mode b).
  { unfold is_known_mode in Hk; repeat (apply orb_true_iff in Hk as [Hk|Hk]); apply Z.eqb_eq in Hk; rewrite Hk; reflexivity. }
  apply Announcing; try reflexivity; [cbn; by rewrite Hu|apply Forall_nil_2].
Qed.

(** C20: after a switch to MQTT the boot that follows announces itself exactly once. Whatever
    fails or is pending over any number of heartbeats, what is published is the frame that
    names the old mode and is not marked pending, a new publication is made only when the
    queue refused the last one or its receipt came to nothing, nothing is published any more
    once the SDK has admitted one, and the marker in flash stays until then; and two
    heartbeats in which everything works always complete it. *)
Theorem switch_announced_once io b ios (Hk : is_known_mode (s_cur_mode b) = true) (Hf : s_cur_mode b <> WUPS_BACKEND_MODE_MQTT) (Hios : Forall io_ok ios) :
  s_cur_mode (after_switch io b) = WUPS_BACKEND_MODE_MQTT /\
  let '(b', acts) := confirm_run ios (after_switch io b) in
  ((Forall (announces (s_cur_mode b)) acts /\ (count submitted acts <= S (count failed acts))%nat /\ key_prev_mode (b_nvs b') = Some (s_cur_mode b)) \/
   exists pre r post, acts = pre ++ Take_receipt r MQTT_RECEIPT_SDK_ACCEPTED :: post /\ Forall (announces (s_cur_mode b)) pre /\ count submitted pre = S (count failed pre) /\
     Forall clears post /\ (s_confirm_done b' = true -> key_prev_mode (b_nvs b') = None)) /\
  forall io1 io2, all_well io1 -> all_well io2 -> s_confirm_done (confirm_run [io1; io2] b').1 = true.
Proof.
  pose proof (after_switch_state io b Hk Hf) as HS; split; [inversion HS; try done; destruct pre; done|].
  pose proof (confirm_run_state _ ios Hk Hf Hios _ _ HS) as HR; destruct (confirm_run ios (after_switch io b)) as [b' acts]; cbn [app] in HR; split.
  - inversion HR as [b0 acts0 C1 C2 C3 C4 C5 C6 C7|b0 pre r post C1 C2 C3 C4 C5 C6]; subst; [left|right].
    + split; [exact C6|]; split; [destruct (_ =? 0); lia|exact C5].
    + exists pre, r, post; repeat split; assumption.
  - intros io1 io2 W1 W2; exact (two_well _ io1 io2 b' acts Hk Hf W1 W2 HR).
Qed.

(** ** Concrete runs *)

Definition toy_emit : emit_env := EmitEnv true 0 7 true true 5 (str "8948") true.
Definition toy_confirm (status wopen : Z) : confirm_io := ConfirmIo ESP_OK ESP_OK toy_emit status wopen ESP_OK ESP_OK.
Definition toy_arkiv_backend : backend := Backend WUPS_BACKEND_MODE_ARKIV 0 false false (ModeNvs true (Some WUPS_BACKEND_MODE_ARKIV) None).
(** The first publication fails at the SDK, the second is admitted, the flash fails once. *)
Definition toy_heartbeats : list confirm_io :=
  [toy_confirm MQTT_RECEIPT_PENDING ESP_OK; toy_confirm MQTT_RECEIPT_PENDING ESP_OK; toy_confirm MQTT_RECEIPT_FAILED ESP_OK;
   toy_confirm MQTT_RECEIPT_PENDING ESP_OK; toy_confirm MQTT_RECEIPT_SDK_ACCEPTED ESP_FAIL; toy_confirm MQTT_RECEIPT_PENDING ESP_OK].

Lemma switch_announced_once_witness :
  let b := toy_arkiv_backend in let r := confirm_run toy_heartbeats (after_switch toy_emit b) in
  count submitted r.2 = 2%nat /\ s_confirm_done r.1 = true /\
  s_cur_mode (after_switch toy_emit b) = WUPS_BACKEND_MODE_MQTT /\
  let '(b', acts) := confirm_run toy_heartbeats (after_switch toy_emit b) in
  ((Forall (announces (s_cur_mode b)) acts /\ (count submitted acts <= S (count failed acts))%nat /\ key_prev_mode (b_nvs b') = Some (s_cur_mode b)) \/
   exists pre r post, acts = pre ++ Take_receipt r MQTT_RECEIPT_SDK_ACCEPTED :: post /\ Forall (announces (s_cur_mode b)) pre /\ count submitted pre = S (count failed pre) /\
     Forall clears post /\ (s_confirm_done b' = true -> key_prev_mode (b_nvs b') = None)) /\
  forall io1 io2, all_well io1 -> all_well io2 -> s_confirm_done (confirm_run [io1; io2] b').1 = true.
Proof.
  split; [vm_compute; reflexivity|]; split; [vm_compute; reflexivity|].
  apply (switch_announced_once toy_emit toy_arkiv_backend toy_heartbeats); [reflexivity|discriminate|].
  unfold toy_heartbeats; repeat (apply Forall_cons_2; [constructor; vm_compute; discriminate|]); apply Forall_nil_2.
Defined.

(** The frame is one that the receivers accept. *)
Example mode_frame_valid :
  mqtt_wups_frame_valid (encode_mqtt_frame 18 WUPS_CLASS_SYSTEM WUPS_OP_SYS_MODE_CHANGED
    (build_mode_changed_payload WUPS_BACKEND_MODE_ARKIV WUPS_BACKEND_MODE_MQTT false)) = true.
Proof. vm_compute; reflexivity. Qed.

(** On chain nothing remembers that the entity was queued: while the marker cannot be
    cleared every heartbeat writes another one. *)
Example arkiv_confirm_repeats :
  let b := Backend WUPS_BACKEND_MODE_ARKIV 0 false false (ModeNvs true (Some WUPS_BACKEND_MODE_ARKIV) (Some WUPS_BACKEND_MODE_MQTT)) in
  length (List.filter (fun a => match a with Create_entity _ _ _ => true | _ => false end)
    (confirm_run [toy_confirm 0 ESP_FAIL; toy_confirm 0 ESP_FAIL; toy_confirm 0 ESP_FAIL] b).2) = 3%nat.
Proof. vm_compute; reflexivity. Qed.
(** In HTTP mode no heartbeat ever completes. *)
Example http_confirm_never_ends :
  let b := Backend WUPS_BACKEND_MODE_HTTP 0 false false (ModeNvs true (Some WUPS_BACKEND_MODE_HTTP) (Some WUPS_BACKEND_MODE_MQTT)) in
  backend_mode_emit_post_switch_confirm (toy_confirm 0 ESP_OK) b = (b, []).
Proof. vm_compute; reflexivity. Qed.
