(* ===== verification/OledMenu.v ===== *)
(** * The system menu of the ESP32 (firmware-ESP32-LTE-M/main/oled_menu.c)

    The screen and the buttons are the RP2040's; the menu's state is here. A page is pushed
    as the text of a prompt, presses come back as events. What other modules answer when a
    page is drawn is the environment of a step; their calls and the prompts are its effects,
    and an effect that restarts the device ends the session. *)

From S2P Require Import Prelude Protocol Rlp Secp256k1 ArkivAuth ArkivClaim BackendMode.

(* src: firmware-ESP32-LTE-M/main/oled_menu.c:38-38 EXIT_HOLD_SECS *)
Definition EXIT_HOLD_SECS : Z := 2.

(* src: firmware-ESP32-LTE-M/main/oled_menu.c:45-62 menu_screen_t *)
Inductive menu_screen :=
  | SCR_ROOT | SCR_MODE | SCR_FACTORY_RESET | SCR_REGEN_ARKIV | SCR_ARKIV_WALLET | SCR_ARKIV_ADDR | SCR_ARKIV_BALANCE | SCR_HTTP_KEY | SCR_HTTP_REGEN.
#[export] Instance menu_screen_eq : EqDecision menu_screen.
Proof. solve_decision. Defined.

(* src: firmware-ESP32-LTE-M/main/oled_menu.c:64-70 S *)
Record menu := Menu { m_active : bool; m_screen : menu_screen; m_cursor : Z; m_nonce : Z; last_button_ms : Z }.
#[export] Instance eta_menu : Eta menu := fun m => Menu (m_active m) (m_screen m) (m_cursor m) (m_nonce m) (last_button_ms m).
Implicit Types (m : menu).

(* src: firmware-ESP32-LTE-M/main/arkiv_tlm.h:64-76 arkiv_tlm_balance_t *)
Inductive bal_state := BAL_NONE | BAL_OK | BAL_HIGH | BAL_FAIL.
#[export] Instance bal_state_eq : EqDecision bal_state.
Proof. solve_decision. Defined.
Record balance := Balance { bal_now : bal_state; bal_last_good : bal_state; bal_wei : Z }.

(** What a step meets. *)
Record menu_env := MenuEnv {
  me_mode : Z; me_secret : option (list Z); me_ready : bool; me_addr : list Z; me_balance : balance; me_ppp : bool;
  me_random : Z; me_now_us : Z; me_wallet_ok : bool
}.

Inductive menu_act :=
  | Show (mode secs nonce : Z) (text : list Z)
  | Set_screen (idx : Z)
  | Local_reset
  | Switch_mode (mode : Z)
  | Factory_reset
  | Regenerate_wallet_key
  | Regenerate_secret
  | Refresh_balance
  | Restart
  | Pause (ms : Z).

(** The effects after which the device restarts. *)
Definition restarts (a : menu_act) : bool := match a with Switch_mode _ | Factory_reset | Restart => true | _ => false end.

(** ** Texts *)

Fixpoint digits (fuel : nat) (v : Z) (acc : list Z) : list Z :=
  match fuel with
  | O => acc
  | S fuel => let acc := 48 + v mod 10 :: acc in if v / 10 =? 0 then acc else digits fuel (v / 10) acc
  end.
(** [%llu] and [%06llu]. *)
Definition dec_u64 (v : Z) : list Z := digits 20 v [].
Definition dec06 (v : Z) : list Z := let d := dec_u64 v in replicate (6 - length d) 48 ++ d.

(* src: firmware-ESP32-LTE-M/main/oled_menu.c:74-75 BAL_WORST_WRITE_WEI *)
Definition BAL_WORST_WRITE_WEI : Z := 300000000.
Definition BAL_LOW_WEI : Z := 10000000000000.

Definition nl : list Z := [10].

(* src: firmware-ESP32-LTE-M/main/oled_menu.c:82-99 bal_format *)
Definition bal_format (b : balance) : list Z :=
  let fail := bool_decide (bal_now b = BAL_FAIL) in
  let stale := if fail then nl ++ str "stale" else [] in
  if bool_decide (bal_last_good b = BAL_HIGH) then str "BALANCE" ++ nl ++ str ">18.446744" ++ nl ++ str "W3P" ++ stale
  else if negb (bool_decide (bal_last_good b = BAL_OK)) then str "BALANCE" ++ nl ++ (if fail then str "offline" else str "checking..")
  else
    let hint := if bal_wei b <? BAL_WORST_WRITE_WEI then nl ++ str "no gas" else if bal_wei b <? BAL_LOW_WEI then nl ++ str "low gas" else stale in
    str "BALANCE" ++ nl ++ dec_u64 (bal_wei b / 1000000000000000000) ++ str "." ++ dec06 (bal_wei b mod 1000000000000000000 / 1000000000000)
      ++ nl ++ str "W3P" ++ hint.

(* src: firmware-ESP32-LTE-M/main/oled_menu.c:103-112 balance_text *)
Definition balance_text (v : menu_env) : list Z :=
  if negb (me_ready v) then str "No Arkiv" ++ nl ++ str "wallet yet"
  else if negb (me_mode v =? WUPS_BACKEND_MODE_ARKIV) then str "BALANCE" ++ nl ++ str "Arkiv off"
  else let b := me_balance v in bal_format (if negb (me_ppp v) then Balance BAL_FAIL (bal_last_good b) (bal_wei b) else b).

(* src: firmware-ESP32-LTE-M/main/oled_menu.c:115-129 screen_item_count *)
Definition screen_item_count (s : menu_screen) : Z :=
  match s with
  | SCR_ROOT => 6 | SCR_MODE => 4 | SCR_FACTORY_RESET => 2 | SCR_REGEN_ARKIV => 2 | SCR_ARKIV_WALLET => 4
  | SCR_ARKIV_ADDR => 1 | SCR_ARKIV_BALANCE => 1 | SCR_HTTP_KEY => 2 | SCR_HTTP_REGEN => 2
  end.

(* src: firmware-ESP32-LTE-M/main/oled_menu.c:141-149 render_screen (labels) *)
Definition root_labels : list (list Z) := [str "Debug"; str "Mode"; str "HTTP Key"; str "Reset"; str "Wallet"; str "Back"].
Definition mark (cursor i : Z) : list Z := if i =? cursor then str ">" else str " ".
Definition star (mode i : Z) : list Z := if mode =? i then str "*" else str " ".

(** The window of four rows around the cursor. *)
(* src: firmware-ESP32-LTE-M/main/oled_menu.c:150-164 render_screen (root) *)
Definition render_root (cursor : Z) : list Z :=
  let first := if 3 <=? cursor then cursor - 2 else 0 in
  let first := if 2 <? first then 2 else first in
  concat (map (fun row => let idx := first + Z.of_nat row in
    mark cursor idx ++ nth (Z.to_nat idx) root_labels [] ++ if (row =? 3)%nat then [] else nl) (seq 0 4)).

(* src: firmware-ESP32-LTE-M/main/oled_menu.c:134-277 render_screen *)
Definition render_screen (v : menu_env) (s : menu_screen) (cursor : Z) : list Z :=
  let mk := mark cursor in
  match s with
  | SCR_ROOT => render_root cursor
  | SCR_MODE =>
      mk 0 ++ str "MQTT  " ++ star (me_mode v) WUPS_BACKEND_MODE_MQTT ++ nl ++ mk 1 ++ str "ARKIV " ++ star (me_mode v) WUPS_BACKEND_MODE_ARKIV ++ nl
      ++ mk 2 ++ str "HTTP  " ++ star (me_mode v) WUPS_BACKEND_MODE_HTTP ++ nl ++ mk 3 ++ str "Back"
  | SCR_HTTP_KEY =>
      match me_secret v with
      | None => str "HTTP KEY" ++ nl ++ str "ERROR" ++ nl ++ str ">Back"
      | Some code =>
          let four i := take 4 (drop (4 * i) code) in
          four 0%nat ++ str " " ++ four 1%nat ++ nl ++ four 2%nat ++ str " " ++ four 3%nat ++ nl ++ mk 0 ++ str "Back" ++ nl ++ mk 1 ++ str "New key"
      end
  | SCR_HTTP_REGEN => str "NEW HTTP" ++ nl ++ str "KEY?" ++ nl ++ mk 0 ++ str "Back" ++ nl ++ mk 1 ++ str "Regen"
  | SCR_FACTORY_RESET => str "FACTORY" ++ nl ++ str "RESET ALL?" ++ nl ++ mk 0 ++ str "Back" ++ nl ++ mk 1 ++ str "Wipe"
  | SCR_REGEN_ARKIV => str "NEW WALLET" ++ nl ++ str "ARKIV ADDR?" ++ nl ++ mk 0 ++ str "Back" ++ nl ++ mk 1 ++ str "Regen"
  | SCR_ARKIV_WALLET => mk 0 ++ str "Address" ++ nl ++ mk 1 ++ str "Balance" ++ nl ++ mk 2 ++ str "Regen" ++ nl ++ mk 3 ++ str "Back"
  | SCR_ARKIV_ADDR =>
      if negb (me_ready v) then str "No Arkiv" ++ nl ++ str "wallet yet"
      else str "0x" ++ concat (map (fun b => [ArkivWriter.hex_digit (Z.shiftr b 4); ArkivWriter.hex_digit (Z.land b 15)]) (me_addr v))
  | SCR_ARKIV_BALANCE => balance_text v
  end.

(** ** Operations *)

(* src: firmware-ESP32-LTE-M/main/oled_menu.c:282-296 push_screen *)
Definition push_screen (v : menu_env) m : menu * list menu_act :=
  if negb (m_active m) then (m, [])
  else
    let text := take 199 (render_screen v (m_screen m) (m_cursor m)) in
    let mode := if bool_decide (m_screen m = SCR_ARKIV_ADDR) then WUPS_TRUST_PROMPT_MODE_WALLET else WUPS_TRUST_PROMPT_MODE_MENU in
    (m <| last_button_ms := u32 (me_now_us v / 1000) |>, [Show mode EXIT_HOLD_SECS (m_nonce m) text]).

(** Going to another page. *)
Definition goto (v : menu_env) (s : menu_screen) (cursor : Z) m : menu * list menu_act := push_screen v (m <| m_screen := s |> <| m_cursor := cursor |>).

(* src: firmware-ESP32-LTE-M/main/oled_menu.c:315-324 push_transition_screen *)
Definition push_transition_screen (text : list Z) m : list menu_act :=
  if negb (m_active m) then [] else [Show WUPS_TRUST_PROMPT_MODE_MENU EXIT_HOLD_SECS (m_nonce m) text; Pause 200].

(* src: firmware-ESP32-LTE-M/main/oled_menu.c:545-550 oled_menu_close *)
Definition oled_menu_close m : menu := if negb (m_active m) then m else m <| m_active := false |>.

(* src: firmware-ESP32-LTE-M/main/oled_menu.c:532-543 oled_menu_open *)
Definition oled_menu_open (v : menu_env) m : menu * list menu_act :=
  if m_active m then (m, [])
  else push_screen v (m <| m_nonce := me_random v |> <| m_active := true |> <| m_screen := SCR_ROOT |> <| m_cursor := 0 |>).

Definition switching (name : list Z) : list Z := str "SWITCHING" ++ nl ++ str "TO " ++ name ++ nl ++ str "Please" ++ nl ++ str "wait...".

(* src: firmware-ESP32-LTE-M/main/oled_menu.c:408-426 activate_current (factory reset) *)
Definition activate_reset (v : menu_env) m : menu * list menu_act :=
  if m_cursor m =? 0 then goto v SCR_ROOT 2 m
  else (m, push_transition_screen (str "FACTORY" ++ nl ++ str "RESET" ++ nl ++ str "Please" ++ nl ++ str "wait...") m ++ [Local_reset; Pause 80; Factory_reset]).

(* src: firmware-ESP32-LTE-M/main/oled_menu.c:427-450 activate_current (wallet) *)
Definition activate_regen (v : menu_env) m : menu * list menu_act :=
  if m_cursor m =? 0 then goto v SCR_ARKIV_WALLET 2 m
  else
    let acts := push_transition_screen (str "REGEN" ++ nl ++ str "WALLET" ++ nl ++ str "Please" ++ nl ++ str "wait...") m ++ [Regenerate_wallet_key] in
    if me_wallet_ok v then (m, acts ++ [Pause 200; Restart])
    else
      let '(m, acts') := push_screen v m in
      (m, acts ++ push_transition_screen (str "REGEN" ++ nl ++ str "FAILED" ++ nl ++ str "Retry?") m ++ [Pause 1500] ++ acts').

(** The action of the highlighted item. *)
(* src: firmware-ESP32-LTE-M/main/oled_menu.c:328-523 activate_current *)
Definition activate_current (v : menu_env) m : menu * list menu_act :=
  let c := m_cursor m in
  match m_screen m with
  | SCR_ROOT =>
      if c =? 0 then (oled_menu_close m, [Set_screen 1])
      else if c =? 1 then goto v SCR_MODE 0 m
      else if c =? 2 then goto v SCR_HTTP_KEY 0 m
      else if c =? 3 then goto v SCR_FACTORY_RESET 0 m
      else if c =? 4 then goto v SCR_ARKIV_WALLET 0 m
      else if c =? 5 then (oled_menu_close m, [Set_screen 0])
      else (m, [])
  | SCR_MODE =>
      if c =? 0 then (m, push_transition_screen (switching (str "MQTT")) m ++ [Switch_mode WUPS_BACKEND_MODE_MQTT])
      else if c =? 1 then (m, push_transition_screen (switching (str "ARKIV")) m ++ [Switch_mode WUPS_BACKEND_MODE_ARKIV])
      else if c =? 2 then (m, push_transition_screen (switching (str "HTTP")) m ++ [Switch_mode WUPS_BACKEND_MODE_HTTP])
      else if c =? 3 then goto v SCR_ROOT 1 m
      else (m, [])
  | SCR_FACTORY_RESET => activate_reset v m
  | SCR_REGEN_ARKIV => activate_regen v m
  | SCR_ARKIV_WALLET =>
      if c =? 0 then goto v SCR_ARKIV_ADDR 0 m
      else if c =? 1 then let '(m, acts) := goto v SCR_ARKIV_BALANCE 0 m in (m, Refresh_balance :: acts)
      else if c =? 2 then goto v SCR_REGEN_ARKIV 0 m
      else if c =? 3 then goto v SCR_ROOT 4 m
      else (m, [])
  | SCR_ARKIV_ADDR => goto v SCR_ARKIV_WALLET 0 m
  | SCR_ARKIV_BALANCE => goto v SCR_ARKIV_WALLET 1 m
  | SCR_HTTP_KEY => if c =? 0 then goto v SCR_ROOT 2 m else goto v SCR_HTTP_REGEN 0 m
  | SCR_HTTP_REGEN =>
      if c =? 0 then goto v SCR_HTTP_KEY 0 m
      else let '(m, acts) := goto v SCR_HTTP_KEY 0 m in (m, Regenerate_secret :: acts)
  end.

(* src: firmware-ESP32-LTE-M/main/oled_menu.c:552-611 oled_menu_on_button_event *)
Definition oled_menu_on_button_event (v : menu_env) (button action : Z) m : menu * list menu_act :=
  if (button =? 255) && (action =? 2) then oled_menu_open v (if m_active m then oled_menu_close m else m)
  else if negb (m_active m) then (m, [])
  else if negb (action =? 0) then (m, [])
  else if bool_decide (m_screen m = SCR_ARKIV_ADDR) then goto v SCR_ARKIV_WALLET 0 m
  else if bool_decide (m_screen m = SCR_ARKIV_BALANCE) then goto v SCR_ARKIV_WALLET 1 m
  else
    let n := screen_item_count (m_screen m) in
    if n =? 0 then (m, [])
    else if button =? 0 then push_screen v (m <| m_cursor := u8 ((m_cursor m + 1) mod n) |>)
    else if button =? 1 then activate_current v m
    else (m, []).

(* src: firmware-ESP32-LTE-M/main/oled_menu.c:613-623 oled_menu_on_trust_result *)
Definition oled_menu_on_trust_result (nonce : Z) m : menu :=
  if negb (m_active m) then m else if negb (nonce =? m_nonce m) then m else oled_menu_close m.

(** ** Sessions *)

Inductive menu_event := Button (button action : Z) | Result (nonce result : Z).

Definition menu_step (v : menu_env) (ev : menu_event) m : menu * list menu_act :=
  match ev with
  | Button b a => oled_menu_on_button_event v b a m
  | Result n _ => (oled_menu_on_trust_result n m, [])
  end.

(** The events since a boot, until one restarts the device: each with its environment, the
    state it met, and its effects. *)
Fixpoint menu_run (evs : list (menu_env * menu_event)) m : list (menu * (menu_env * menu_event) * list menu_act) :=
  match evs with
  | [] => []
  | (v, ev) :: evs =>
      let '(m', acts) := menu_step v ev m in
      (m, (v, ev), acts) :: if existsb restarts acts then [] else menu_run evs m'
  end.
Definition menu_boot : menu := Menu false SCR_ROOT 0 0 0.

(** ** What is shown *)

(** The prompt that was pushed last. *)
Fixpoint last_show (acts : list menu_act) (d : option (Z * list Z)) : option (Z * list Z) :=
  match acts with [] => d | Show _ _ nonce text :: acts => last_show acts (Some (nonce, text)) | _ :: acts => last_show acts d end.

Lemma last_show_app acts1 : forall acts2 d, last_show (acts1 ++ acts2) d = last_show acts2 (last_show acts1 d).
Proof. induction acts1 as [|[] acts1 IH]; intros acts2 d; cbn; (done || apply IH). Qed.

(** The cursor is on a row of the page, and what the display was given last is that page. *)
Record menu_wf m (shown : option (Z * list Z)) : Prop := {
  mw_cursor : 0 <= m_cursor m < screen_item_count (m_screen m);
  mw_shown : m_active m = true -> exists v, shown = Some (m_nonce m, take 199 (render_screen v (m_screen m) (m_cursor m)))
}.

Lemma push_screen_wf v m d : 0 <= m_cursor m < screen_item_count (m_screen m) ->
  let '(m', acts) := push_screen v m in menu_wf m' (last_show acts d).
Proof.
  intros Hc; unfold push_screen; destruct (m_active m) eqn:E; cbn [negb]; constructor; try exact Hc; [|congruence].
  intros _; exists v; reflexivity.
Qed.

Lemma goto_wf v s cursor m d : 0 <= cursor < screen_item_count s -> let '(m', acts) := goto v s cursor m in menu_wf m' (last_show acts d).
Proof. intros Hc; apply push_screen_wf; exact Hc. Qed.

Lemma close_wf m d d' : menu_wf m d -> menu_wf (oled_menu_close m) d'.
Proof. intros [H _]; unfold oled_menu_close; destruct (m_active m) eqn:E; cbn [negb]; constructor; try exact H; cbn; congruence. Qed.

(** The page and the cursor at the moment of a selection, and what it may do. *)
Definition allowed (s : menu_screen) (cursor : Z) (a : menu_act) : Prop :=
  match a with
  | Factory_reset | Local_reset => s = SCR_FACTORY_RESET /\ cursor = 1
  | Regenerate_wallet_key | Restart => s = SCR_REGEN_ARKIV /\ cursor = 1
  | Regenerate_secret => s = SCR_HTTP_REGEN /\ cursor = 1
  | Switch_mode mode => s = SCR_MODE /\ mode = cursor + 1
  | Refresh_balance => s = SCR_ARKIV_WALLET /\ cursor = 1
  | Set_screen idx => s = SCR_ROOT /\ (cursor = 0 /\ idx = 1 \/ cursor = 5 /\ idx = 0)
  | Show _ _ _ _ | Pause _ => True
  end.

Lemma push_screen_allowed v m s c : Forall (allowed s c) (push_screen v m).2.
Proof. unfold push_screen; destruct (negb _); [apply Forall_nil_2|apply Forall_singleton; done]. Qed.
Lemma transition_allowed text m s c : Forall (allowed s c) (push_transition_screen text m).
Proof. unfold push_transition_screen; destruct (negb _); repeat (apply Forall_nil_2 || apply Forall_cons_2); done. Qed.

(** A selection keeps the menu well formed and does what its row says. *)
Lemma activate_wf v m d : menu_wf m d -> let '(m', acts) := activate_current v m in
  Forall (allowed (m_screen m) (m_cursor m)) acts /\ (existsb restarts acts = false -> menu_wf m' (last_show acts d)).
Proof.
  intros Hm; assert (HG : forall s c, 0 <= c < screen_item_count s -> let '(m', acts) := goto v s c m in
      Forall (allowed (m_screen m) (m_cursor m)) acts /\ (existsb restarts acts = false -> menu_wf m' (last_show acts d))).
  { intros s c Hc; pose proof (goto_wf v s c m d Hc) as H1; pose proof (push_screen_allowed v (m <| m_screen := s |> <| m_cursor := c |>) (m_screen m) (m_cursor m)) as H2.
    unfold goto in *; destruct (push_screen _ _) as [m' acts]; split; [exact H2|intros _; exact H1]. }
  assert (HC : forall a, allowed (m_screen m) (m_cursor m) a -> Forall (allowed (m_screen m) (m_cursor m)) [a] /\
      (existsb restarts [a] = false -> menu_wf (oled_menu_close m) (last_show [a] d))).
  { intros a Ha; split; [apply Forall_singleton, Ha|intros _; eapply close_wf, Hm]. }
  assert (HS : forall mode pre, m_screen m = SCR_MODE -> mode = m_cursor m + 1 -> Forall (allowed (m_screen m) (m_cursor m)) pre ->
      Forall (allowed (m_screen m) (m_cursor m)) (pre ++ [Switch_mode mode]) /\ (existsb restarts (pre ++ [Switch_mode mode]) = false -> menu_wf m (last_show (pre ++ [Switch_mode mode]) d))).
  { intros mode pre H1 H2 H3; split; [apply Forall_app; split; [exact H3|apply Forall_singleton; split; assumption]|].
    rewrite existsb_app; cbn [existsb restarts orb]; rewrite orb_true_r; discriminate. }
  pose proof (mw_cursor _ _ Hm) as Hcur; unfold activate_current.
  destruct (m_screen m) eqn:ES; cbn [screen_item_count] in *; cbv zeta.
  - destruct (Z.eqb_spec (m_cursor m) 0); [apply (HC (Set_screen 1)); cbn; auto|]; destruct (Z.eqb_spec (m_cursor m) 1); [apply HG; cbn; lia|].
    destruct (Z.eqb_spec (m_cursor m) 2); [apply HG; cbn; lia|]; destruct (Z.eqb_spec (m_cursor m) 3); [apply HG; cbn; lia|].
    destruct (Z.eqb_spec (m_cursor m) 4); [apply HG; cbn; lia|]; destruct (Z.eqb_spec (m_cursor m) 5); [apply (HC (Set_screen 0)); cbn; auto|lia].
  - destruct (Z.eqb_spec (m_cursor m) 0) as [E|]; [apply HS; [done|rewrite E; done|apply transition_allowed]|].
    destruct (Z.eqb_spec (m_cursor m) 1) as [E|]; [apply HS; [done|rewrite E; done|apply transition_allowed]|].
    destruct (Z.eqb_spec (m_cursor m) 2) as [E|]; [apply HS; [done|rewrite E; done|apply transition_allowed]|].
    destruct (Z.eqb_spec (m_cursor m) 3); [apply HG; cbn; lia|lia].
  - unfold activate_reset; destruct (Z.eqb_spec (m_cursor m) 0); [apply HG; cbn; lia|]; assert (m_cursor m = 1) as E by lia; split.
    + apply Forall_app; split; [apply transition_allowed|]; repeat (apply Forall_nil_2 || apply Forall_cons_2); done.
    + rewrite existsb_app; cbn [existsb restarts orb]; rewrite orb_true_r; discriminate.
  - unfold activate_regen; destruct (Z.eqb_spec (m_cursor m) 0); [apply HG; cbn; lia|]; assert (m_cursor m = 1) as E by lia; cbv zeta.
    assert (HA : forall text, Forall (allowed SCR_REGEN_ARKIV (m_cursor m)) (push_transition_screen text m ++ [Regenerate_wallet_key])).
    { intros text; apply Forall_app; split; [apply transition_allowed|apply Forall_singleton; split; [done|exact E]]. }
    destruct (me_wallet_ok v).
    + split; [apply Forall_app; split; [apply HA|]; repeat (apply Forall_nil_2 || apply Forall_cons_2); done|].
      rewrite existsb_app; cbn [existsb restarts orb]; rewrite orb_true_r; discriminate.
    + pose proof (fun d => push_screen_wf v m d ltac:(rewrite ES; exact Hcur)) as H1; pose proof (push_screen_allowed v m SCR_REGEN_ARKIV (m_cursor m)) as H2.
      destruct (push_screen v m) as [m' acts']; split.
      * apply Forall_app; split; [apply HA|]; apply Forall_app; split; [apply transition_allowed|]; apply Forall_cons_2; [done|exact H2].
      * intros _; rewrite !last_show_app; apply H1.
  - destruct (Z.eqb_spec (m_cursor m) 0); [apply HG; cbn; lia|]; destruct (Z.eqb_spec (m_cursor m) 1).
    { pose proof (HG SCR_ARKIV_BALANCE 0 ltac:(cbn; lia)) as H; destruct (goto _ _ _ _) as [m' acts]; destruct H as [H1 H2].
      split; [apply Forall_cons_2; [split; done|done]|exact H2]. }
    destruct (Z.eqb_spec (m_cursor m) 2); [apply HG; cbn; lia|]; destruct (Z.eqb_spec (m_cursor m) 3); [apply HG; cbn; lia|lia].
  - apply HG; cbn; lia.
  - apply HG; cbn; lia.
  - destruct (Z.eqb_spec (m_cursor m) 0); apply HG; cbn; lia.
  - destruct (Z.eqb_spec (m_cursor m) 0); [apply HG; cbn; lia|]; pose proof (HG SCR_HTTP_KEY 0 ltac:(cbn; lia)) as H.
    destruct (goto _ _ _ _) as [m' acts]; destruct H as [H1 H2]; split; [apply Forall_cons_2; [split; [done|lia]|exact H1]|exact H2].
Qed.

(** A prompt to the display and a wait; every other effect needs a selection. *)
Definition harmless (a : menu_act) : bool := match a with Show _ _ _ _ | Pause _ => true | _ => false end.

Lemma push_screen_harmless v m : forallb harmless (push_screen v m).2 = true.
Proof. unfold push_screen; destruct (negb _); reflexivity. Qed.

(** One event keeps the menu well formed; effects beyond the display come from a press of
    RIGHT while the menu is open, and are those of the row under the cursor. *)
Lemma menu_step_wf v ev m d : menu_wf m d -> let '(m', acts) := menu_step v ev m in
  (existsb restarts acts = false -> menu_wf m' (last_show acts d)) /\
  (forallb harmless acts = true \/
   (ev = Button 1 0 /\ m_active m = true /\ Forall (allowed (m_screen m) (m_cursor m)) acts)).
Proof.
  intros Hm; assert (HP : forall m0, 0 <= m_cursor m0 < screen_item_count (m_screen m0) -> let '(m', acts) := push_screen v m0 in
      (existsb restarts acts = false -> menu_wf m' (last_show acts d)) /\ (forallb harmless acts = true \/
       (ev = Button 1 0 /\ m_active m = true /\ Forall (allowed (m_screen m) (m_cursor m)) acts))).
  { intros m0 H0; pose proof (push_screen_wf v m0 d H0) as H1; pose proof (push_screen_harmless v m0) as H2.
    destruct (push_screen v m0) as [m' acts]; split; [intros _; exact H1|left; exact H2]. }
  assert (HN : forall m' : menu, menu_wf m' d -> (existsb restarts [] = false -> menu_wf m' (last_show [] d)) /\ (forallb harmless [] = true \/
       (ev = Button 1 0 /\ m_active m = true /\ Forall (allowed (m_screen m) (m_cursor m)) []))) by (intros m' H; split; [intros _; exact H|left; reflexivity]).
  destruct ev as [button action|nonce result]; cbn [menu_step].
  2:{ apply HN; unfold oled_menu_on_trust_result; destruct (negb (m_active m)); [exact Hm|]; destruct (negb _); [exact Hm|]; eapply close_wf, Hm. }
  unfold oled_menu_on_button_event; destruct ((button =? 255) && (action =? 2)).
  { unfold oled_menu_open; destruct (m_active m) eqn:EA.
    - unfold oled_menu_close at 1; rewrite EA; cbn [negb]; change (m_active (m <| m_active := false |>)) with false; cbv iota; apply HP; cbn; lia.
    - rewrite EA; apply HP; cbn; lia. }
  destruct (m_active m) eqn:EA; cbn [negb]; [|apply HN, Hm]; destruct (Z.eqb_spec action 0) as [->|]; cbn [negb]; [|apply HN, Hm].
  destruct (bool_decide (m_screen m = SCR_ARKIV_ADDR)); [apply HP; cbn; lia|]; destruct (bool_decide (m_screen m = SCR_ARKIV_BALANCE)); [apply HP; cbn; lia|].
  cbv zeta; pose proof (mw_cursor _ _ Hm) as Hc; destruct (Z.eqb_spec (screen_item_count (m_screen m)) 0) as [E|E]; [apply HN, Hm|].
  destruct (Z.eqb_spec button 0) as [->|]; [|destruct (Z.eqb_spec button 1) as [->|]; [|apply HN, Hm]].
  - apply HP; change (0 <= u8 ((m_cursor m + 1) mod screen_item_count (m_screen m)) < screen_item_count (m_screen m)).
    pose proof (Z.mod_pos_bound (m_cursor m + 1) (screen_item_count (m_screen m)) ltac:(lia)) as Hb.
    assert (screen_item_count (m_screen m) <= 6) by (destruct (m_screen m); cbn; lia); rewrite u8_small by lia; exact Hb.
  - pose proof (activate_wf v m d Hm) as HA; destruct (activate_current v m) as [m' acts]; destruct HA as [H1 H2]; split; [exact H2|].
    right; split; [done|]; split; [done|exact H1].
Qed.

(** What was shown last before an entry of the run. *)
Definition shown_before (pre : list (menu * (menu_env * menu_event) * list menu_act)) : option (Z * list Z) :=
  last_show (concat (map snd pre)) None.

Lemma menu_run_wf evs : forall m d pre m1 v ev acts post, menu_wf m d ->
  menu_run evs m = pre ++ (m1, (v, ev), acts) :: post ->
  menu_wf m1 (last_show (concat (map snd pre)) d) /\
  (forallb harmless acts = true \/ (ev = Button 1 0 /\ m_active m1 = true /\ Forall (allowed (m_screen m1) (m_cursor m1)) acts)).
Proof.
  induction evs as [|[v0 ev0] evs IH]; intros m d pre m1 v ev acts post Hm; cbn [menu_run]; [destruct pre; done|].
  pose proof (menu_step_wf v0 ev0 m d Hm) as HS; destruct (menu_step v0 ev0 m) as [m' a]; destruct HS as [H1 H2].
  destruct pre as [|e pre]; cbn [app]; intros H.
  - injection H as -> -> -> -> HR; split; [exact Hm|exact H2].
  - injection H as HE HR; subst e; cbn [map snd concat]; destruct (existsb restarts a) eqn:ER; [destruct pre; done|].
    rewrite last_show_app; eapply IH; [apply H1; reflexivity|exact HR].
Qed.

(** C19: in every session since a boot, whatever the buttons and results do and whatever the
    other modules answer, the cursor stands on a row of the page, and while the menu is open
    the last page that this module sent to the display is the menu's page with its cursor.
    (The claim task sends prompts of its own to the same display; they are not counted.) *)
Theorem menu_well_formed evs pre m v ev acts post (Hrun : menu_run evs menu_boot = pre ++ (m, (v, ev), acts) :: post) :
  menu_wf m (shown_before pre).
Proof. eapply menu_run_wf; [|exact Hrun]; constructor; cbn; [lia|discriminate]. Qed.

(** The text of the page on which an effect is chosen, the cursor on its row. *)
Definition confirm_text (v : menu_env) (a : menu_act) : option (list Z) :=
  match a with
  | Factory_reset | Local_reset => Some (str "FACTORY" ++ nl ++ str "RESET ALL?" ++ nl ++ str " Back" ++ nl ++ str ">Wipe")
  | Regenerate_wallet_key | Restart => Some (str "NEW WALLET" ++ nl ++ str "ARKIV ADDR?" ++ nl ++ str " Back" ++ nl ++ str ">Regen")
  | Regenerate_secret => Some (str "NEW HTTP" ++ nl ++ str "KEY?" ++ nl ++ str " Back" ++ nl ++ str ">Regen")
  | Switch_mode mode => Some (render_screen v SCR_MODE (mode - 1))
  | Refresh_balance => Some (str " Address" ++ nl ++ str ">Balance" ++ nl ++ str " Regen" ++ nl ++ str " Back")
  | Set_screen idx =>
      if idx =? 1 then Some (str ">Debug" ++ nl ++ str " Mode" ++ nl ++ str " HTTP Key" ++ nl ++ str " Reset")
      else if idx =? 0 then Some (str " HTTP Key" ++ nl ++ str " Reset" ++ nl ++ str " Wallet" ++ nl ++ str ">Back")
      else None
  | Show _ _ _ _ | Pause _ => None
  end.

(** The page of an effect that a selection may have is its text. *)
Lemma allowed_text v s cursor a : 0 <= cursor < screen_item_count s -> allowed s cursor a -> harmless a = false ->
  confirm_text v a = Some (take 199 (render_screen v s cursor)).
Proof.
  intros Hc Ha Hh; destruct a as [? ? ? ?|idx| |mode| | | | | |?]; try done; cbn [allowed] in Ha;
    try (destruct Ha as [-> ->]; reflexivity).
  - destruct Ha as [-> [[-> ->]|[-> ->]]]; reflexivity.
  - destruct Ha as [-> ->]; cbn [screen_item_count] in Hc; cbn [confirm_text]; replace (cursor + 1 - 1) with cursor by lia.
    f_equal; cbn [render_screen].
    assert (cursor = 0 \/ cursor = 1 \/ cursor = 2 \/ cursor = 3) as [->|[->|[->| ->]]] by lia;
      unfold star; destruct (me_mode v =? WUPS_BACKEND_MODE_MQTT), (me_mode v =? WUPS_BACKEND_MODE_ARKIV), (me_mode v =? WUPS_BACKEND_MODE_HTTP); reflexivity.
Qed.

(** C18: nothing is wiped, reset, re-keyed, switched or left unasked: every effect but a prompt
    and a wait (the reset of the RP2040's settings, the change of its screen and the balance
    query included) happens only on a press of RIGHT, and at that moment the page that this
    menu sent last is the page that offers this very effect, with the cursor on its row. *)
Theorem menu_does_what_is_shown evs pre m v ev acts post a
    (Hrun : menu_run evs menu_boot = pre ++ (m, (v, ev), acts) :: post) (Ha : In a acts) (Hh : harmless a = false) :
  ev = Button 1 0 /\ exists v' text, confirm_text v' a = Some text /\ shown_before pre = Some (m_nonce m, text).
Proof.
  destruct (menu_run_wf evs menu_boot None pre m v ev acts post ltac:(constructor; cbn; [lia|discriminate]) Hrun) as [[Hc Hsh] [Hall|(-> & HA & Hal)]].
  - rewrite forallb_forall in Hall; specialize (Hall a Ha); congruence.
  - split; [done|]; destruct (Hsh HA) as (v' & Hv); exists v', (take 199 (render_screen v' (m_screen m) (m_cursor m))).
    split; [|exact Hv]; rewrite Forall_forall in Hal; apply allowed_text; [exact Hc|apply Hal, list_elem_of_In, Ha|exact Hh].
Qed.

(** ** Concrete sessions *)

Definition toy_menu_env : menu_env :=
  MenuEnv WUPS_BACKEND_MODE_ARKIV (Some (str "ABCD0123EFGH4567")) true (replicate 20 171) (Balance BAL_OK BAL_OK 12345678901234567890) true 77 5000000 true.
Definition presses (l : list Z) : list (menu_env * menu_event) := map (fun b => (toy_menu_env, if b =? 2 then Button 255 2 else Button b 0)) l.
(** Opening, down three rows to Reset, RIGHT, down to Wipe, RIGHT. *)
Definition toy_wipe := menu_run (presses [2; 0; 0; 0; 1; 0; 1; 0]) menu_boot.

Lemma menu_does_what_is_shown_witness :
  exists pre m v acts, toy_wipe = pre ++ [(m, (v, Button 1 0), acts)] /\ In Factory_reset acts /\
  (Button 1 0 = Button 1 0 /\ exists v' text, confirm_text v' Factory_reset = Some text /\ shown_before pre = Some (m_nonce m, text)).
Proof.
  exists (take 6 toy_wipe), (Menu true SCR_FACTORY_RESET 1 77 5000), toy_menu_env, (nth 6 toy_wipe (menu_boot, (toy_menu_env, Button 0 0), [])).2.
  split; [vm_compute; reflexivity|]; split; [vm_compute; tauto|].
  apply (menu_does_what_is_shown (presses [2; 0; 0; 0; 1; 0; 1; 0]) (take 6 toy_wipe) (Menu true SCR_FACTORY_RESET 1 77 5000) toy_menu_env (Button 1 0)
    (nth 6 toy_wipe (menu_boot, (toy_menu_env, Button 0 0), [])).2 [] Factory_reset).
  - vm_compute; reflexivity.
  - vm_compute; tauto.
  - reflexivity.
Defined.

Lemma menu_well_formed_witness :
  exists pre m v acts, toy_wipe = pre ++ [(m, (v, Button 1 0), acts)] /\ menu_wf m (shown_before pre).
Proof.
  exists (take 6 toy_wipe), (Menu true SCR_FACTORY_RESET 1 77 5000), toy_menu_env, (nth 6 toy_wipe (menu_boot, (toy_menu_env, Button 0 0), [])).2.
  split; [vm_compute; reflexivity|].
  apply (menu_well_formed (presses [2; 0; 0; 0; 1; 0; 1; 0]) (take 6 toy_wipe) (Menu true SCR_FACTORY_RESET 1 77 5000) toy_menu_env (Button 1 0)
    (nth 6 toy_wipe (menu_boot, (toy_menu_env, Button 0 0), [])).2 []).
  vm_compute; reflexivity.
Defined.

(** The balance page of 12.345678901234567890 W3P. *)
Example balance_page : render_screen toy_menu_env SCR_ARKIV_BALANCE 0 = str "BALANCE" ++ nl ++ str "12.345678" ++ nl ++ str "W3P".
Proof. vm_compute; reflexivity. Qed.
